(* ===== verification/_CoqProject ===== *)
-Q . S2P
Prelude.v
CString.v
Malloc.v
Headers.v
Paging.v
Vm.v
Kmalloc.v
Ctype.v
Kb.v
Vga.v
Format.v
Printf.v
Cstdlib.v
Gdt.v
Time.v
Fs.v
Names.v
Blocks.v
Nodes.v
Demo.v
Ramfs.v
Stream.v
Pipes.v
Stdio.v
Vfs.v
Files.v
Initrd.v
Spaces.v
Space.v
Fork.v
User.v
Elf.v
Exec.v
Stack.v
Clear.v
Ubreak.v
Umalloc.v
Execve.v
Task.v
Table.v
Tree.v
Death.v
Sched.v
Tasking.v
Processes.v
Syscall.v
Calls.v
Rstring.v
Rash.v
Pipeline.v
Term.v
Ublocks.v
Env.v
Sprintf.v
Ctime.v
Userio.v
Faults.v
