(* ===== verification/Prelude.v ===== *)
(** * RazOS: a verification library for the kernel and the C library

    RazOS is a small Unix-like system for i386: a kernel under [src/kernel], the
    headers it shares with user programs under [src/razos_kernel_headers], and a C
    library under [src/rlibc].  This library models the C code as functions on
    explicit states and proves what the code does, for every input that the
    hypotheses allow; [Example]s evaluate the model on single inputs, among them the
    ones on which the code does not do what it means to.

    ** Conventions

    A C function is a function that takes the state it reads and returns [res] of
    its result and the state it leaves ([Prelude]): [Ok], [Fault] for an access to
    memory that is no live object, [Panic] for [panic()], [Fuel] when a loop has not
    ended within the fuel.  Loops take fuel where no argument shrinks; each theorem
    states or proves an amount that suffices.  Integers are [Z] at the width of the
    C type: [uint n] and [sint n] wrap around where the code can.  A pointer is an
    address, 0 is [NULL]; an object lives in a finite map from addresses, so that
    aliasing, use after free and uninitialised memory show.  Arrays are lists with
    [aget] and [aset], which fail outside of them.

    ** Parts

    Memory.  [Paging] is [mm/paging.c]: frames, directories, page tables; the allocator that
    [page_map] calls for a new table is the class [PageAlloc], and [pre_paging] the instance
    for the time before paging is on.  [Vm] is [mm/uvm.c] and [mm/kvm.c], the breaks; it
    implements the class [Sbrk], on which [Kmalloc] ([mm/kmalloc.c]) is built, and that
    implements the class [Malloc], on which the file layer and the tasks are built: each
    client is proved against the class.  [Space] reads page tables as the private memory of
    each address space and implements the class [Spaces] of the tasks; [Fork] has the copying
    and freeing of a space, [Ubreak] the user's break over its pages, as the class [Ubrk].

    Files.  [Fs] is the state of the file layer; [Names]: file names; [Blocks]: the chains of
    256-byte blocks and the loops over them; [Nodes]: the list of files; [Ramfs], [Stream],
    [Stdio], [Vfs]: [fs/ramfs.c], [fs/pipe.c] and [fs/fifofs.c], the standard streams, and
    the calls that pass on to them.  [Pipes], [Files] and [Initrd] compose them: a new pipe,
    a file that is created, written and read again by name, the image of
    [tools/mk-initrd.c].  [Demo] is a small running system for examples and witnesses.

    Tasks.  [Task] is [mm/task.c] and [mm/task.s], on the class [Spaces].  [Table]: the
    table, the objects, the heap and the directories agree; [Tree]: parents, children and
    the dead; [Death] and [Sched]: [task_kill], [sched_next] and [task_fork] on a sound
    table; [Tasking]: [syscall/sys_tasking.c] and every run of its calls; [Processes]: what
    they promise, and the examples.

    Programs.  [User]: the bytes of the user's memory; [Elf]: [loader/load_elf.c]; [Exec]:
    [loader/exec.c]; [Stack] and [Clear]: the new stack and the freeing of the old pages;
    [Execve] puts them together.  [Syscall] is the dispatch and all the calls of
    [src/kernel/src/syscall], on the layers above; [Calls]: what a program sees of them.

    Devices.  [Kb], [Vga], [Gdt], [Time]: keyboard, screen and console, descriptor tables,
    clock and calendar.  [Faults]: [panic.c] and the handlers of exceptions.

    The text functions of both sides.  [CString] is [kernel/lib/string.c] on byte memory,
    [Rstring] what [rlibc/string] has besides; [Ctype]: both [ctype.c]; [Headers]: error
    numbers, flag words, call numbers, [strerror].  [Format] is the state machine that
    [vsprintf.c] of the kernel and [vdprintf.c] of the C library share, with where a
    character goes as the class [Sink]; [Printf] has the two instances.

    The C library and its programs.  [Umalloc] is [stdlib/malloc.c] on [Ubrk]; [Ublocks]: what
    a program may touch of its heap; [Env]: [stdlib/env.c]; [Cstdlib]: searching, sorting,
    numbers; [Sprintf], [Ctime], [Userio]: printing to files and through a file to memory,
    dates, characters and lines.  [Rash], [Pipeline] and [Term] are the shell and the terminal.

    ** What the theorems show

    - Memory: [frame_alloc] returns the lowest free frame; [page_map] and [get_phys]
      agree and keep other mappings; the break moves by whole zeroed pages; [kmalloc] and
      [kfree], [malloc] and [free] keep their heaps doubly linked lists of blocks that do not
      overlap; [fork] copies an address space page by page.
    - Files: a write appends and a read returns what is there, at the positions whose
      block the code computes right ([aligned]: it divides by 255 where blocks have
      256 bytes), also through system calls and the memory of a program; a pipe is a queue
      for its first 255 bytes, the ring of [stdin] one while 1023 characters are unread;
      [open] finds the first file of the name; the initial ram disk arrives as it was packed.
    - Tasks: no order of forks, exits, waits and yields faults, panics or dead-locks, as long
      as the table is not full and task 1 stays; the dead are collected in order; [fork] copies
      what it should; the scheduler is fair.
    - Programs: [execve] brings segments, arguments and heap to where the program
      looks for them.
    - Text: what each string function returns, or exactly how it differs from its name;
      both printfs print what the format means; [sprintf] stores it; [asctime] fits its buffer;
      [mktime] is the Gregorian calendar; [qsort] sorts; [setenv] adds; [dgetline] reads a line.
    - The shell: what is typed is the line, the line is cut into words as a lexer on lists
      says, the words into commands, and a command runs with its arguments and its input.
    - Devices: no scan code sequence leaves the tables; the screen refines an abstract
      terminal; an exception stops the machine with its text on the screen.

    The hypotheses of each theorem are in its comment.  Where they exclude an input on which
    the code does not do what it means to, an [Example] evaluates the code on one.

    ** Bounds and fuel

    The loops over blocks get one turn for each block that is touched and two more
    ([block_fuel]); walks over the list of nodes the number of nodes; the search of
    [kmalloc] and of [malloc] the number of headers; the descriptor search 33 turns; walks over
    queues of tasks the number of tasks and one ([task_fuel]); the machine of [Format] two
    turns for each character of the format and two more ([turns]; [run_ends] shows that they
    suffice).  Loops over memory take their fuel as an argument, and the theorems say how much
    is enough: for [execve] any above 2^20, for [setenv] 2^28, for [dgetline] and the shell
    the length of the line.  Waiting loops (the file layer's [sched_switch], the keyboard) are
    followed for [patience] turns, a parameter.

    ** Where the model is coarser than the code

    A system call sees the pages of the kernel's heap and those of the user in two copies of
    the bitmap of frames ([kst] in [Exec]): the loader's theorem asks for the frames of both.
    The format of a printf is a literal, apart from the memory that is written.  [cr3] is kept
    as the directory that is loaded, beside the word that the code stores.  The shell's buffers
    and line buffers are lists with the size of their block.  What a new block holds, what
    other tasks and the keyboard do while a call waits, whether the C library's [malloc] has
    memory in the shell, and what [fork], [wait] and [execv] do in it, are parameters.

    ** Not modelled

    Assembly but for [task.s] (so [isr.s], which chooses the handler of an exception, and the
    entry of system calls), port input and output, [kmain.c] and the start-up, the arithmetic
    of doubles ([strtod.c], [ldexp.c]; in [vdprintf] it is the class [Double]), the dump of the
    heap, the test programs, [tools/hexdump.c]. *)

From Stdlib Require Export ZArith Lia Bool List Ascii String.
From stdpp Require Export base numbers list gmap strings option.

#[global] Open Scope Z_scope.

(** ** Outcomes of C code

    A C function either returns ([Ok]), performs an access the language or the
    machine does not define ([Fault]: a load or store outside every live
    object, a use of a freed object), stops the machine through [panic]
    ([Panic]), or has not finished within the fuel of the model ([Fuel]). *)
Inductive res (A : Type) : Type :=
| Ok (a : A)
| Fault
| Panic
| Fuel.
Arguments Ok {A} a.
Arguments Fault {A}.
Arguments Panic {A}.
Arguments Fuel {A}.

Definition rbind {A B} (m : res A) (k : A → res B) : res B :=
  match m with
  | Ok a => k a
  | Fault => Fault
  | Panic => Panic
  | Fuel => Fuel
  end.

(** Lift a lookup: a missing cell is an undefined access. *)
Definition deref {A} (o : option A) : res A :=
  match o with Some a => Ok a | None => Fault end.

Declare Scope c_scope.
Delimit Scope c_scope with c.
Notation "'let*' x ':=' m 'in' k" := (rbind m (λ x, k))
  (at level 10, x pattern, m at level 100, k at level 200,
   format "'[v' 'let*'  x  ':='  m  'in' '/' k ']'") : c_scope.
#[global] Open Scope c_scope.

Lemma rbind_Ok {A B} (m : res A) (k : A → res B) b :
  rbind m k = Ok b ↔ ∃ a, m = Ok a ∧ k a = Ok b.
Proof. destruct m; simpl; naive_solver. Qed.

Lemma deref_Ok {A} (o : option A) a : deref o = Ok a ↔ o = Some a.
Proof. destruct o; simpl; naive_solver. Qed.

#[export] Instance res_eq_dec `{EqDecision A} : EqDecision (res A).
Proof. solve_decision. Defined.

(** ** Machine integers

    An [n]-bit unsigned value is kept in [0 .. 2^n), a signed one in
    [-2^(n-1) .. 2^(n-1)); [uint] and [sint] are the C conversions to these
    types (wrap-around, two's complement as GCC does on i386). *)
Definition uint (n : Z) (z : Z) : Z := z mod 2 ^ n.
Definition sint (n : Z) (z : Z) : Z :=
  let u := z mod 2 ^ n in if u <? 2 ^ (n - 1) then u else u - 2 ^ n.

Abbreviation u8 := (uint 8).
Abbreviation u16 := (uint 16).
Abbreviation u32 := (uint 32).
Abbreviation s8 := (sint 8).
Abbreviation s16 := (sint 16).
Abbreviation s32 := (sint 32).

(** A flag word [f] has one of the bits of [m] set: C's [if (f & m)]. *)
Definition has (f m : Z) : bool := negb (Z.land f m =? 0).

(** [~m] on a 32-bit word, and [f &= ~m]. *)
Definition clr (f m : Z) : Z := Z.land f (Z.lnot m).

Lemma uint_range n z : 0 < n → 0 ≤ uint n z < 2 ^ n.
Proof. intros. unfold uint. apply Z.mod_pos_bound. lia. Qed.

Lemma uint_small n z : 0 ≤ z < 2 ^ n → uint n z = z.
Proof. intros. unfold uint. by apply Z.mod_small. Qed.

Lemma uint_idemp n z : uint n (uint n z) = uint n z.
Proof.
  unfold uint. destruct (decide (2 ^ n = 0)) as [->|].
  - by rewrite !Z.mod_0_r.
  - by rewrite Z.mod_mod.
Qed.

Lemma pow2_half n : 0 < n → 2 ^ n = 2 * 2 ^ (n - 1).
Proof. intros. rewrite <- Z.pow_succ_r by lia. f_equal. lia. Qed.

Lemma sint_range n z : 0 < n → - 2 ^ (n - 1) ≤ sint n z < 2 ^ (n - 1).
Proof.
  intros Hn. unfold sint.
  pose proof (Z.mod_pos_bound z (2 ^ n) ltac:(lia)).
  pose proof (pow2_half n Hn).
  destruct (Z.ltb_spec (z mod 2 ^ n) (2 ^ (n - 1))); lia.
Qed.

Lemma sint_small n z :
  0 < n → - 2 ^ (n - 1) ≤ z < 2 ^ (n - 1) → sint n z = z.
Proof.
  intros Hn Hz. unfold sint. pose proof (pow2_half n Hn).
  pose proof (Z.pow_pos_nonneg 2 (n - 1) ltac:(lia) ltac:(lia)).
  destruct (Z_lt_le_dec z 0).
  - replace (z mod 2 ^ n) with (z + 2 ^ n).
    + destruct (Z.ltb_spec (z + 2 ^ n) (2 ^ (n - 1))); lia.
    + symmetry. rewrite <- (Z_mod_plus_full z 1), Z.mul_1_l. apply Z.mod_small. lia.
  - rewrite Z.mod_small by lia.
    destruct (Z.ltb_spec z (2 ^ (n - 1))); lia.
Qed.

(** Converting a signed value to unsigned and back loses nothing. *)
Lemma sint_uint n z : 0 < n → sint n (uint n z) = sint n z.
Proof. intros. unfold sint, uint. by rewrite Z.mod_mod by lia. Qed.

Lemma uint_sint n z : 0 < n → uint n (sint n z) = uint n z.
Proof.
  intros. unfold sint, uint.
  destruct (_ <? _); [by rewrite Z.mod_mod by lia|].
  rewrite Zminus_mod, Z.mod_mod, Z.mod_same, Z.sub_0_r, Z.mod_mod by lia. done.
Qed.

(** Wrapping once at the end is wrapping at every step. *)
Lemma sint_eqm n a b : 0 < n → a mod 2 ^ n = b mod 2 ^ n → sint n a = sint n b.
Proof. intros Hn H. unfold sint. by rewrite H. Qed.

Lemma sint_mod n a : 0 < n → sint n a mod 2 ^ n = a mod 2 ^ n.
Proof. intros. exact (uint_sint n a ltac:(lia)). Qed.

Lemma sint_add_r n a b : 0 < n → sint n (a + sint n b) = sint n (a + b).
Proof.
  intros. apply sint_eqm; [done|].
  by rewrite Zplus_mod, sint_mod, <- Zplus_mod by lia.
Qed.

Lemma sint_add_l n a b : 0 < n → sint n (sint n a + b) = sint n (a + b).
Proof. intros. by rewrite Z.add_comm, sint_add_r, Z.add_comm. Qed.

Lemma sint_mul_r n a b : 0 < n → sint n (a * sint n b) = sint n (a * b).
Proof.
  intros. apply sint_eqm; [done|].
  by rewrite Zmult_mod, sint_mod, <- Zmult_mod by lia.
Qed.

(** ** Bit masks *)
Lemma has_spec f m : has f m = true ↔ Z.land f m ≠ 0.
Proof. unfold has. destruct (Z.eqb_spec (Z.land f m) 0); naive_solver. Qed.

Lemma land_clr f m : Z.land (clr f m) m = 0.
Proof.
  unfold clr. apply Z.bits_inj'. intros i Hi.
  rewrite !Z.land_spec, Z.lnot_spec, Z.bits_0 by lia.
  by destruct (Z.testbit f i), (Z.testbit m i).
Qed.

Lemma has_clr f m : has (clr f m) m = false.
Proof. unfold has. by rewrite land_clr. Qed.

Lemma testbit_clr f m k :
  0 ≤ k → Z.testbit (clr f m) k = Z.testbit f k && negb (Z.testbit m k).
Proof. intros. unfold clr. by rewrite Z.land_spec, Z.lnot_spec. Qed.

(** A one-bit mask asks for that bit. *)
Lemma has_bit f k : 0 ≤ k → has f (2 ^ k) = Z.testbit f k.
Proof.
  intros Hk. unfold has. rewrite Z.land_comm.
  destruct (Z.testbit f k) eqn:E.
  - apply negb_true_iff, Z.eqb_neq. intros H0.
    assert (Z.testbit (Z.land (2 ^ k) f) k = false) as H1
      by (by rewrite H0, Z.bits_0).
    by rewrite Z.land_spec, E, Z.pow2_bits_true in H1 by lia.
  - apply negb_false_iff, Z.eqb_eq, Z.bits_inj'. intros i Hi.
    rewrite Z.land_spec, Z.bits_0, Z.pow2_bits_eqb by lia.
    destruct (Z.eqb_spec k i); [by subst|done].
Qed.

Lemma has_lor f g k : has (Z.lor f g) k = has f k || has g k.
Proof.
  unfold has. rewrite Z.land_lor_distr_l.
  destruct (Z.eqb_spec (Z.land f k) 0) as [E1|E1], (Z.eqb_spec (Z.land g k) 0) as [E2|E2],
    (Z.eqb_spec (Z.lor (Z.land f k) (Z.land g k)) 0) as [E|E];
    rewrite ?Z.lor_eq_0_iff in E; tauto.
Qed.

Lemma clr_clr f a b : clr (clr f a) b = clr f (Z.lor a b).
Proof. unfold clr. by rewrite <- Z.land_assoc, <- Z.lnot_lor. Qed.

Lemma testbit_of_land_0 m k n :
  0 ≤ n → Z.land m k = 0 → Z.testbit k n = true → Z.testbit m n = false.
Proof.
  intros Hn Hm Hk. assert (Z.testbit (Z.land m k) n = false) as H
    by (by rewrite Hm, Z.bits_0).
  by rewrite Z.land_spec, Hk, andb_true_r in H.
Qed.

(** The field [m] of [f] is set to that of [a]: what a mask [n] shows then. *)
Lemma land_set_same f a m : Z.land (Z.lor (clr f m) (Z.land a m)) m = Z.land a m.
Proof.
  unfold clr. apply Z.bits_inj'. intros i Hi.
  rewrite !Z.land_spec, Z.lor_spec, !Z.land_spec, Z.lnot_spec by lia.
  by destruct (Z.testbit f i), (Z.testbit a i), (Z.testbit m i).
Qed.

Lemma land_set_other f a m n :
  Z.land m n = 0 → Z.land (Z.lor (clr f m) (Z.land a m)) n = Z.land f n.
Proof.
  intros Hmn. unfold clr. apply Z.bits_inj'. intros i Hi.
  apply (f_equal (λ z, Z.testbit z i)) in Hmn. rewrite Z.land_spec, Z.bits_0 in Hmn.
  rewrite !Z.land_spec, Z.lor_spec, !Z.land_spec, Z.lnot_spec by lia.
  by destruct (Z.testbit f i), (Z.testbit a i), (Z.testbit m i), (Z.testbit n i).
Qed.

Lemma land_set_within f a m n :
  Z.land m n = m →
  Z.land (Z.lor (clr f m) (Z.land a m)) n = Z.lor (Z.land f (clr n m)) (Z.land a m).
Proof.
  intros Hmn. unfold clr. apply Z.bits_inj'. intros i Hi.
  apply (f_equal (λ z, Z.testbit z i)) in Hmn. rewrite Z.land_spec in Hmn.
  rewrite !Z.land_spec, !Z.lor_spec, !Z.land_spec, !Z.lnot_spec by lia.
  by destruct (Z.testbit f i), (Z.testbit a i), (Z.testbit m i), (Z.testbit n i).
Qed.

(** Fields that do not overlap: [or] is addition, and masks and shifts take
    the fields apart again. *)
Lemma testbit_high b n i : 0 ≤ n ≤ i → 0 ≤ b < 2 ^ n → Z.testbit b i = false.
Proof.
  intros Hi Hb. rewrite <- (Z.mod_small b (2 ^ n)) by done.
  apply Z.mod_pow2_bits_high. lia.
Qed.

Lemma lor_shiftl a b n :
  0 ≤ n → 0 ≤ b < 2 ^ n → Z.lor (Z.shiftl a n) b = a * 2 ^ n + b.
Proof.
  intros Hn Hb. rewrite Z.shiftl_mul_pow2 by lia. symmetry.
  assert (H0 : Z.land (a * 2 ^ n) b = 0).
  { apply Z.bits_inj'. intros i Hi. rewrite Z.land_spec, Z.bits_0.
    destruct (Z.lt_ge_cases i n).
    - by rewrite Z.mul_pow2_bits_low by lia.
    - rewrite (testbit_high b n i) by lia. apply andb_false_r. }
  rewrite Z.add_nocarry_lxor by done. by apply Z.lxor_lor.
Qed.

Lemma land_ones_mod a n m : 0 ≤ n → m = Z.ones n → Z.land a m = a mod 2 ^ n.
Proof. intros ? ->. by apply Z.land_ones. Qed.

(** A word is put together again from its bytes. *)
Lemma bytes_of_word w :
  0 ≤ w < 2 ^ 32 →
  w = Z.land w 0xFF + Z.land (Z.shiftr w 8) 0xFF * 2 ^ 8
      + Z.land (Z.shiftr w 16) 0xFF * 2 ^ 16 + Z.land (Z.shiftr w 24) 0xFF * 2 ^ 24.
Proof.
  intros Hw. rewrite !(land_ones_mod _ 8) by done. rewrite !Z.shiftr_div_pow2 by lia.
  replace (w / 2 ^ 16) with (w / 2 ^ 8 / 2 ^ 8) by (by rewrite Z.div_div by lia).
  replace (w / 2 ^ 24) with (w / 2 ^ 8 / 2 ^ 8 / 2 ^ 8)
    by (by rewrite !Z.div_div by lia).
  pose proof (Z.div_mod w (2 ^ 8) ltac:(lia)).
  pose proof (Z.div_mod (w / 2 ^ 8) (2 ^ 8) ltac:(lia)).
  pose proof (Z.div_mod (w / 2 ^ 8 / 2 ^ 8) (2 ^ 8) ltac:(lia)).
  rewrite (Z.mod_small (w / 2 ^ 8 / 2 ^ 8 / 2 ^ 8)); [lia|].
  rewrite !Z.div_div by lia.
  split; [apply Z.div_pos; lia|apply Z.div_lt_upper_bound; lia].
Qed.

(** [f] has no bits outside [m]. *)
Definition within (m f : Z) : Prop := Z.land f m = f.

(** Bitwise equalities: go to the bits and case on them. *)
Ltac bits_solve :=
  apply Z.bits_inj'; intros ?i ?Hi;
  repeat first [rewrite Z.land_spec | rewrite Z.lor_spec | rewrite Z.lxor_spec
               | rewrite Z.lnot_spec by lia | rewrite Z.bits_0];
  repeat match goal with
  | |- context [Z.testbit ?x ?i] => is_var x; destruct (Z.testbit x i)
  end; try done.

Lemma land_lor_same f v m :
  Z.land v m = v → Z.land f m = 0 → Z.land (Z.lor f v) m = v.
Proof.
  intros Hv Hf. rewrite Z.land_comm, Z.land_lor_distr_r.
  rewrite (Z.land_comm m f), (Z.land_comm m v), Hf, Hv. done.
Qed.

Lemma within_lor m a b : within m a → within m b → within m (Z.lor a b).
Proof.
  unfold within. intros Ha Hb.
  by rewrite Z.land_comm, Z.land_lor_distr_r, !(Z.land_comm m), Ha, Hb.
Qed.

Lemma within_clr m a b : within m a → within m (clr a b).
Proof.
  unfold within, clr. intros Ha.
  by rewrite <- Z.land_assoc, (Z.land_comm _ m), Z.land_assoc, Ha.
Qed.

Lemma within_land m a b : within m a → within m (Z.land a b).
Proof.
  unfold within. intros Ha.
  by rewrite <- Z.land_assoc, (Z.land_comm _ m), Z.land_assoc, Ha.
Qed.

Lemma within_lxor m a b : within m a → within m b → within m (Z.lxor a b).
Proof.
  unfold within. intros Ha Hb. rewrite <- Ha, <- Hb. bits_solve.
Qed.

#[global] Arguments Z.testbit : simpl never.
#[global] Arguments Z.shiftl : simpl never.
#[global] Arguments Z.shiftr : simpl never.
#[global] Arguments uint : simpl never.
#[global] Arguments sint : simpl never.

(** Evaluate the bits of constant masks. *)
Ltac const_bits :=
  repeat match goal with
  | |- context [Z.testbit ?c ?k] =>
      let b := eval vm_compute in (Z.testbit c k) in
      lazymatch b with true => idtac | false => idtac end;
      change (Z.testbit c k) with b
  end.

Ltac within_solve :=
  repeat lazymatch goal with
  | H : within ?m ?a |- within ?m ?a => exact H
  | |- within _ (Z.lor _ _) => apply within_lor
  | |- within _ (Z.lxor _ _) => apply within_lxor
  | |- within _ (clr _ _) => apply within_clr
  | |- within _ (Z.land _ _) => apply within_land
  | |- within _ _ => vm_compute; reflexivity
  end.

(** Bounds and masks: a word of [n] bits is within [Z.ones n]. *)
Lemma within_ones n f : 0 ≤ n → within (Z.ones n) f ↔ 0 ≤ f < 2 ^ n.
Proof.
  intros Hn. unfold within. rewrite Z.land_ones by lia. split.
  - intros <-. apply Z.mod_pos_bound. lia.
  - intros. by apply Z.mod_small.
Qed.

(** ** Tactics *)

(** Turn the boolean comparisons of the code into propositions. *)
Ltac zbool :=
  repeat match goal with
  | H : (_ <? _) = true |- _ => apply Z.ltb_lt in H
  | H : (_ <? _) = false |- _ => apply Z.ltb_ge in H
  | H : (_ <=? _) = true |- _ => apply Z.leb_le in H
  | H : (_ <=? _) = false |- _ => apply Z.leb_gt in H
  | H : (_ >? _) = true |- _ => rewrite Z.gtb_ltb in H
  | H : (_ >? _) = false |- _ => rewrite Z.gtb_ltb in H
  | H : (_ >=? _) = true |- _ => rewrite Z.geb_leb in H
  | H : (_ >=? _) = false |- _ => rewrite Z.geb_leb in H
  | H : (_ =? _) = true |- _ => apply Z.eqb_eq in H
  | H : (_ =? _) = false |- _ => apply Z.eqb_neq in H
  | H : (_ && _) = true |- _ => apply andb_true_iff in H as [? ?]
  | H : (_ || _) = false |- _ => apply orb_false_iff in H as [? ?]
  | H : negb _ = true |- _ => apply negb_true_iff in H
  | H : negb _ = false |- _ => apply negb_false_iff in H
  end.

(** Split on the condition of an [if] of the goal or of a hypothesis. *)
Ltac cif :=
  match goal with
  | |- context [if ?b then _ else _] => destruct b eqn:?
  | H : context [if ?b then _ else _] |- _ => destruct b eqn:?
  end; zbool.

(** Take a successful monadic computation apart. *)
Ltac rsplit :=
  repeat match goal with
  | H : rbind _ _ = Ok _ |- _ =>
      let a := fresh "v" in let E := fresh "E" in
      apply rbind_Ok in H as (a & E & H)
  | H : deref _ = Ok _ |- _ => apply deref_Ok in H
  | H : Ok _ = Ok _ |- _ => injection H as H
  | H : (_, _) = (_, _) |- _ => injection H as ? ?
  | H : _ ∧ _ |- _ => destruct H
  | v : (_ * _)%type |- _ => destruct v
  end; simplify_eq/=.

(** ** Lists addressed with a C index *)

(** The length of a list as an integer. *)
Abbreviation len l := (Z.of_nat (length l)).

(** [a[i]] for a C index: defined inside the array only. *)
Definition aget {A} (l : list A) (i : Z) : option A :=
  if i <? 0 then None else l !! Z.to_nat i.

(** [a[i] = x]: undefined outside the array. *)
Definition aset {A} (l : list A) (i : Z) (x : A) : option (list A) :=
  if (i <? 0) || (Z.of_nat (length l) <=? i) then None
  else Some (<[Z.to_nat i := x]> l).

Lemma aget_range {A} (l : list A) i x :
  aget l i = Some x → 0 ≤ i < Z.of_nat (length l).
Proof.
  unfold aget. destruct (Z.ltb_spec i 0); [done|].
  intros H1%lookup_lt_Some. lia.
Qed.

Lemma aget_is_Some {A} (l : list A) i :
  0 ≤ i < Z.of_nat (length l) → is_Some (aget l i).
Proof.
  intros Hi. unfold aget. destruct (Z.ltb_spec i 0); [lia|].
  apply lookup_lt_is_Some. lia.
Qed.

Lemma aset_Some {A} (l : list A) i x :
  0 ≤ i < Z.of_nat (length l) → aset l i x = Some (<[Z.to_nat i := x]> l).
Proof.
  intros Hi. unfold aset.
  destruct (Z.ltb_spec i 0), (Z.leb_spec (Z.of_nat (length l)) i); try lia. done.
Qed.

Lemma aset_inv {A} (l l' : list A) i x :
  aset l i x = Some l' →
  0 ≤ i < Z.of_nat (length l) ∧ l' = <[Z.to_nat i := x]> l.
Proof.
  unfold aset.
  destruct (Z.ltb_spec i 0), (Z.leb_spec (Z.of_nat (length l)) i);
    simpl; intros; simplify_eq; split; (lia || done).
Qed.

Lemma aset_length {A} (l l' : list A) i x :
  aset l i x = Some l' → length l' = length l.
Proof. intros [_ ->]%aset_inv. apply length_insert. Qed.

Lemma aget_aset_eq {A} (l l' : list A) i x :
  aset l i x = Some l' → aget l' i = Some x.
Proof.
  intros [Hi ->]%aset_inv. unfold aget.
  destruct (Z.ltb_spec i 0); [lia|]. apply list_lookup_insert_eq. lia.
Qed.

Lemma aget_aset_ne {A} (l l' : list A) i j x :
  aset l i x = Some l' → i ≠ j → aget l' j = aget l j.
Proof.
  intros [Hi ->]%aset_inv Hne. unfold aget.
  destruct (Z.ltb_spec j 0); [done|]. apply list_lookup_insert_ne. lia.
Qed.

(** A property of a range of integers checked by evaluation. *)
Lemma forallb_range (f : Z → bool) a n :
  forallb f (seqZ a n) = true → ∀ c, a ≤ c < a + n → f c = true.
Proof.
  intros Hall c Hc. rewrite forallb_forall in Hall.
  by apply Hall, list_elem_of_In, elem_of_seqZ.
Qed.

(** Add [f c = true], by evaluating [f] on [a .. a + n). *)
Tactic Notation "range_check" uconstr(f) constr(a) constr(n) constr(c) "as" ident(H) :=
  let f' := constr:(f : Z → bool) in
  assert (H : f' c = true);
  [ let Hall := fresh in
    assert (Hall : forallb f' (seqZ a n) = true) by (vm_compute; reflexivity);
    exact (forallb_range f' a n Hall c ltac:(lia))
  | cbv beta in H ].

(** ** Counted loops

    [for (i = lo; i < hi; i++) body] whose body does not assign [i]. *)
Fixpoint for_loop {St} (n : nat) (i : Z) (body : Z → St → res St) (s : St) : res St :=
  match n with
  | O => Ok s
  | S n => let* s := body i s in for_loop n (i + 1) body s
  end.

Definition for_range {St} (lo hi : Z) (body : Z → St → res St) (s : St) : res St :=
  for_loop (Z.to_nat (hi - lo)) lo body s.

Lemma for_loop_inv {St} (P : Z → St → Prop) body n i s :
  P i s →
  (∀ j s, i ≤ j < i + Z.of_nat n → P j s → ∃ s', body j s = Ok s' ∧ P (j + 1) s') →
  ∃ s', for_loop n i body s = Ok s' ∧ P (i + Z.of_nat n) s'.
Proof.
  revert i s. induction n as [|n IH]; intros i s Hs Hbody; simpl.
  { exists s. split; [done|]. by rewrite Z.add_0_r. }
  destruct (Hbody i s) as (s1 & -> & Hs1); [lia|done|]. simpl.
  destruct (IH (i + 1) s1 Hs1) as (s' & E & Hs').
  { intros j s2 Hj. apply Hbody. lia. }
  exists s'. split; [done|]. by replace (i + Z.of_nat (S n)) with (i + 1 + Z.of_nat n) by lia.
Qed.

Lemma for_range_inv {St} (P : Z → St → Prop) lo hi body s :
  lo ≤ hi → P lo s →
  (∀ j s, lo ≤ j < hi → P j s → ∃ s', body j s = Ok s' ∧ P (j + 1) s') →
  ∃ s', for_range lo hi body s = Ok s' ∧ P hi s'.
Proof.
  intros Hle Hs Hbody. unfold for_range.
  destruct (for_loop_inv P body (Z.to_nat (hi - lo)) lo s) as (s' & E & Hs').
  - done.
  - intros j s1 Hj. apply Hbody. lia.
  - exists s'. split; [done|]. by replace (lo + _) with hi in Hs' by lia.
Qed.

(** Lookup in an updated array, by index comparison. *)
Lemma aget_insert {A} (l : list A) i j x :
  0 ≤ i < Z.of_nat (length l) →
  aget (<[Z.to_nat i := x]> l) j = if i =? j then Some x else aget l j.
Proof.
  intros Hi. destruct (Z.eqb_spec i j) as [<-|Hne].
  - eapply aget_aset_eq. by apply aset_Some.
  - eapply aget_aset_ne; [|done]. by apply aset_Some.
Qed.

Lemma aget_mid {A} (l : list A) x r : aget (l ++ x :: r) (len l) = Some x.
Proof. unfold aget. cif; [lia|]. by rewrite Nat2Z.id, list_lookup_middle. Qed.

Lemma destruct_last {A} (l : list A) : l = [] ∨ ∃ l' x, l = l' ++ [x].
Proof.
  destruct l as [|y l]; [by left|right]. destruct (exists_last (l := y :: l)) as (l' & x & E);
    [done|]. by exists l', x.
Qed.

(** Two arrays of one length with the same cells are equal. *)
Lemma aget_ext {A} (l1 l2 : list A) :
  length l1 = length l2 →
  (∀ i, 0 ≤ i < Z.of_nat (length l1) → aget l1 i = aget l2 i) → l1 = l2.
Proof.
  intros Hlen H. apply list_eq. intros i.
  destruct (decide (i < length l1)%nat) as [Hi|Hi].
  - specialize (H (Z.of_nat i) ltac:(lia)). unfold aget in H.
    rewrite Nat2Z.id in H. destruct (Z.ltb_spec (Z.of_nat i) 0); [lia|done].
  - by rewrite !lookup_ge_None_2 by lia.
Qed.

Lemma Forall2_mono {A B} (P Q : A → B → Prop) l k :
  Forall2 P l k → (∀ x y, x ∈ l → P x y → Q x y) → Forall2 Q l k.
Proof.
  induction 1 as [|x y l k Hxy _ IH]; intros H; constructor.
  - apply H; [by left|done].
  - apply IH. intros a b Ha. apply H. by right.
Qed.

Create HintDb razos.
#[export] Hint Resolve uint_range sint_range aset_length aget_range : razos.
#[export] Hint Rewrite @uint_idemp has_clr land_clr : razos.

(** ** Characters and C strings as ASCII codes *)
Definition code (a : ascii) : Z := Z.of_N (N_of_ascii a).

Definition codes (s : string) : list Z := map code (list_ascii_of_string s).

(** A character literal is its code. *)
Notation "'ch' c" :=
  (ltac:(let z := eval vm_compute in (code c%char) in exact z))
  (at level 9, c constr at level 0, only parsing) : c_scope.
