(* ===== verification/CString.v ===== *)
(** * CString: the string functions of the kernel

    [kernel/lib/string.c] (the C library has most of them again, one function or
    two per file, under [rlibc/string]).  Memory is a map from addresses to
    bytes: an address outside it is one the function must not touch.  Each loop
    takes fuel; the theorems give an amount that suffices. *)

From S2P Require Import Prelude.

Abbreviation mem := (gmap Z Z).

(** [*p] as [uint8_t], and as the signed [char] of GCC on i386. *)
Definition ld (m : mem) (a : Z) : res Z := deref (m !! a).
Definition ldc (m : mem) (a : Z) : res Z := let* b := ld m a in Ok (s8 b).

(** [*p = v] *)
Definition st (m : mem) (a v : Z) : res mem :=
  match m !! a with Some _ => Ok (<[a := u8 v]> m) | None => Fault end.

(** ** Memory blocks *)

(** Downwards from the last byte. *)
Fixpoint memset_loop (ptr value : Z) (num : nat) (m : mem) : res mem :=
  match num with
  | O => Ok m
  | S num => let* m := st m (ptr + Z.of_nat num) value in memset_loop ptr value num m
  end.

(** [num] is an [int]: nothing happens when it is negative. *)
Definition memset (ptr value num : Z) (m : mem) : res (Z * mem) :=
  let* m := memset_loop ptr value (Z.to_nat num) m in Ok (ptr, m).

Fixpoint memcpy_loop (dst src : Z) (num : nat) (m : mem) : res mem :=
  match num with
  | O => Ok m
  | S num =>
      let* b := ld m src in
      let* m := st m dst b in
      memcpy_loop (dst + 1) (src + 1) num m
  end.

Definition memcpy (dest source num : Z) (m : mem) : res (Z * mem) :=
  if num =? 0 then Ok (dest, m)
  else let* m := memcpy_loop dest source (Z.to_nat num) m in Ok (dest, m).

(** [while (num) { *dst-- = *src--; num--; }] *)
Fixpoint memmove_loop (dst src : Z) (num : nat) (m : mem) : res mem :=
  match num with
  | O => Ok m
  | S num =>
      let* b := ld m src in
      let* m := st m dst b in
      memmove_loop (dst - 1) (src - 1) num m
  end.

Definition memmove (dest source num : Z) (m : mem) : res (Z * mem) :=
  if num =? 0 then Ok (dest, m)
  else if dest <? source then memcpy dest source num m
  else
    let num := num - 1 in
    let* m := memmove_loop (dest + num) (source + num) (Z.to_nat num) m in
    Ok (dest, m).

Fixpoint memcmp_loop (ptr1 ptr2 : Z) (num : nat) (m : mem) : res Z :=
  match num with
  | O => Ok 0
  | S num =>
      let* a := ldc m ptr1 in
      let* b := ldc m ptr2 in
      if a <? b then Ok (-1) else if b <? a then Ok 1
      else memcmp_loop (ptr1 + 1) (ptr2 + 1) num m
  end.

Definition memcmp (ptr1 ptr2 num : Z) (m : mem) : res Z :=
  memcmp_loop ptr1 ptr2 (Z.to_nat num) m.

Fixpoint memchr_loop (ptr value : Z) (num : nat) (m : mem) : res Z :=
  match num with
  | O => Ok 0
  | S num =>
      let* a := ldc m ptr in
      if a =? value then Ok ptr else memchr_loop (ptr + 1) value num m
  end.

Definition memchr (ptr value num : Z) (m : mem) : res Z :=
  memchr_loop ptr value (Z.to_nat num) m.

(** ** Copying strings *)

(** The returned pointer is the moved one, at the terminator. *)
Fixpoint strcpy (fuel : nat) (dest source : Z) (m : mem) : res (Z * mem) :=
  match fuel with
  | O => Fuel
  | S fuel =>
      let* c := ld m source in
      if c =? 0 then let* m := st m dest c in Ok (dest, m)
      else let* m := st m dest c in strcpy fuel (dest + 1) (source + 1) m
  end.

Fixpoint strncpy_loop (dest source : Z) (num : nat) (m : mem) : res (Z * mem) :=
  match num with
  | O => Ok (dest, m)
  | S num =>
      let* c := ld m source in
      let* m := st m dest c in
      let* c := ld m (source + 1) in
      if c =? 0 then Ok (dest + 1, m)
      else strncpy_loop (dest + 1) (source + 1) num m
  end.

Definition strncpy (dest source num : Z) (m : mem) : res (Z * mem) :=
  strncpy_loop dest source (Z.to_nat num) m.

(** [while ( *start != '\0') start++] *)
Fixpoint find_end (fuel : nat) (start : Z) (m : mem) : res Z :=
  match fuel with
  | O => Fuel
  | S fuel =>
      let* c := ld m start in
      if c =? 0 then Ok start else find_end fuel (start + 1) m
  end.

(** [strcat] and [strncat] end with [start = '\0'], which clears the pointer and
    stores nothing. *)
Fixpoint strcat_loop (fuel : nat) (start source : Z) (m : mem) : res mem :=
  match fuel with
  | O => Fuel
  | S fuel =>
      let* c := ld m source in
      if c =? 0 then Ok m
      else let* m := st m start c in strcat_loop fuel (start + 1) (source + 1) m
  end.

Definition strcat (fuel : nat) (dest source : Z) (m : mem) : res (Z * mem) :=
  let* start := find_end fuel dest m in
  let* m := strcat_loop fuel start source m in
  Ok (dest, m).

Fixpoint strncat_loop (num : nat) (start source : Z) (m : mem) : res mem :=
  let* c := ld m source in
  if c =? 0 then Ok m
  else match num with
       | O => Ok m
       | S num =>
           let* m := st m start c in strncat_loop num (start + 1) (source + 1) m
       end.

Definition strncat (fuel : nat) (dest source num : Z) (m : mem) : res (Z * mem) :=
  let* start := find_end fuel dest m in
  let* m := strncat_loop (Z.to_nat num) start source m in
  Ok (dest, m).

(** ** Comparing strings *)
Fixpoint strlen_loop (fuel : nat) (str ret : Z) (m : mem) : res Z :=
  match fuel with
  | O => Fuel
  | S fuel =>
      let* c := ld m str in
      if c =? 0 then Ok ret else strlen_loop fuel (str + 1) (ret + 1) m
  end.

Definition strlen (fuel : nat) (str : Z) (m : mem) : res Z := strlen_loop fuel str 0 m.

Fixpoint strcmp_loop (fuel : nat) (str1 str2 : Z) (m : mem) : res Z :=
  match fuel with
  | O => Fuel
  | S fuel =>
      let* a := ldc m str1 in
      let* b := ldc m str2 in
      if a <? b then Ok (-1) else if b <? a then Ok 1
      else if a =? 0 then Ok 0
      else strcmp_loop fuel (str1 + 1) (str2 + 1) m
  end.

Definition strcmp (fuel : nat) (str1 str2 : Z) (m : mem) : res Z :=
  let* l1 := strlen fuel str1 m in
  let* l2 := strlen fuel str2 m in
  let diff := s32 (l1 - l2) in
  if negb (diff =? 0) then Ok diff else strcmp_loop fuel str1 str2 m.

Fixpoint strncmp_loop (num : nat) (len1 len2 str1 str2 : Z) (m : mem) : res Z :=
  match num with
  | O => Ok 0
  | S n =>
      if (len1 <? Z.of_nat num) && (len1 <? len2) then Ok (-1)
      else if (len2 <? Z.of_nat num) && (len2 <? len1) then Ok 1
      else
        let* a := ldc m str1 in
        let* b := ldc m str2 in
        if a <? b then Ok (-1) else if b <? a then Ok 1
        else if a =? 0 then Ok 0
        else strncmp_loop n (u32 (len1 - 1)) (u32 (len2 - 1)) (str1 + 1) (str2 + 1) m
  end.

Definition strncmp (fuel : nat) (str1 str2 num : Z) (m : mem) : res Z :=
  let* len1 := strlen fuel str1 m in
  let* len2 := strlen fuel str2 m in
  strncmp_loop (Z.to_nat num) len1 len2 str1 str2 m.

(** ** Searching strings *)
Fixpoint strchr (fuel : nat) (str value : Z) (m : mem) : res Z :=
  match fuel with
  | O => Fuel
  | S fuel =>
      let* c := ldc m str in
      if c =? 0 then Ok 0
      else if c =? value then Ok str else strchr fuel (str + 1) value m
  end.

(** Backwards from the terminator: [while (end >= str)]. *)
Fixpoint strrchr_loop (n : nat) (str value : Z) (m : mem) : res Z :=
  let* c := ldc m (str + Z.of_nat n) in
  if c =? value then Ok (str + Z.of_nat n)
  else match n with
       | O => Ok 0
       | S n => strrchr_loop n str value m
       end.

Definition strrchr (fuel : nat) (str value : Z) (m : mem) : res Z :=
  let* e := find_end fuel str m in
  strrchr_loop (Z.to_nat (e - str)) str value m.

(** The inner loop of [strpbrk] and [strcspn]: is [c] in the string at [temp]? *)
Fixpoint scan_set (fuel : nat) (c temp : Z) (m : mem) : res bool :=
  match fuel with
  | O => Fuel
  | S fuel =>
      let* d := ldc m temp in
      if d =? 0 then Ok false
      else if c =? d then Ok true else scan_set fuel c (temp + 1) m
  end.

Fixpoint strpbrk_loop (fuel fuel2 : nat) (str1 str2 : Z) (m : mem) : res Z :=
  match fuel with
  | O => Fuel
  | S fuel =>
      let* c := ldc m str1 in
      if c =? 0 then Ok 0
      else
        let* b := scan_set fuel2 c str2 m in
        if b then Ok str1 else strpbrk_loop fuel fuel2 (str1 + 1) str2 m
  end.

Definition strpbrk (fuel : nat) (str1 str2 : Z) (m : mem) : res Z :=
  strpbrk_loop fuel fuel str1 str2 m.

Fixpoint strcspn_loop (fuel fuel2 : nat) (str1 str2 ret : Z) (m : mem) : res Z :=
  match fuel with
  | O => Fuel
  | S fuel =>
      let* c := ldc m str1 in
      if c =? 0 then Ok ret
      else
        let* b := scan_set fuel2 c str2 m in
        if b then Ok ret else strcspn_loop fuel fuel2 (str1 + 1) str2 (ret + 1) m
  end.

Definition strcspn (fuel : nat) (str1 str2 : Z) (m : mem) : res Z :=
  strcspn_loop fuel fuel str1 str2 0 m.

(** The inner loop of [strspn] goes on after a hit. *)
Fixpoint count_set (fuel : nat) (c temp ret : Z) (m : mem) : res Z :=
  match fuel with
  | O => Fuel
  | S fuel =>
      let* d := ldc m temp in
      if d =? 0 then Ok ret
      else count_set fuel c (temp + 1) (if d =? c then ret + 1 else ret) m
  end.

Fixpoint strspn_loop (fuel fuel2 : nat) (str1 str2 ret : Z) (m : mem) : res Z :=
  match fuel with
  | O => Fuel
  | S fuel =>
      let* c := ldc m str1 in
      if c =? 0 then Ok ret
      else
        let* ret := count_set fuel2 c str2 ret m in
        strspn_loop fuel fuel2 (str1 + 1) str2 ret m
  end.

Definition strspn (fuel : nat) (str1 str2 : Z) (m : mem) : res Z :=
  strspn_loop fuel fuel str1 str2 0 m.

(** [for (i = 1; i <= strlen(str2); i++) if (str1[i] != str2[i]) break;], with
    [n] turns left. *)
Fixpoint strstr_match (n : nat) (i str1 str2 : Z) (m : mem) : res Z :=
  match n with
  | O => Ok i
  | S n =>
      let* a := ldc m (str1 + i) in
      let* b := ldc m (str2 + i) in
      if negb (a =? b) then Ok i else strstr_match n (i + 1) str1 str2 m
  end.

Fixpoint strstr_loop (fuel fuel2 : nat) (str1 str2 : Z) (m : mem) : res Z :=
  match fuel with
  | O => Fuel
  | S fuel =>
      let* c := ldc m str1 in
      if c =? 0 then Ok 0
      else
        let* d := ldc m str2 in
        let* str1 := strchr fuel2 str1 d m in
        if str1 =? 0 then Ok 0
        else
          let* len := strlen fuel2 str2 m in
          let* i := strstr_match (Z.to_nat len) 1 str1 str2 m in
          if i =? len then Ok str1 else strstr_loop fuel fuel2 (str1 + 1) str2 m
  end.

Definition strstr (fuel : nat) (str1 str2 : Z) (m : mem) : res Z :=
  strstr_loop fuel fuel str1 str2 m.

(** ** strtok

    The state is the static [last] pointer ([0] is [NULL]) with the memory. *)

(** [for (i = 0; i < len; i++) if (c == delimiters[i]) break;], with [n] turns
    left. *)
Fixpoint find_delim (n : nat) (i c delimiters : Z) (m : mem) : res Z :=
  match n with
  | O => Ok i
  | S n =>
      let* d := ldc m (delimiters + i) in
      if c =? d then Ok i else find_delim n (i + 1) c delimiters m
  end.

(** The first loop: the start of the token. *)
Fixpoint strtok_skip (fuel : nat) (p_start len delimiters : Z) (m : mem) : res Z :=
  match fuel with
  | O => Fuel
  | S fuel =>
      let* c := ldc m p_start in
      let* i := find_delim (Z.to_nat len) 0 c delimiters m in
      if i =? len then Ok p_start else strtok_skip fuel (p_start + 1) len delimiters m
  end.

(** The second loop: the end of the token. *)
Fixpoint strtok_end (fuel : nat) (last len delimiters : Z) (m : mem)
    : res (Z * mem) :=
  match fuel with
  | O => Fuel
  | S fuel =>
      let* c := ldc m last in
      if c =? 0 then Ok (last, m)
      else
        let* i := find_delim (Z.to_nat len) 0 c delimiters m in
        if i <? len then let* m := st m last 0 in Ok (last + 1, m)
        else strtok_end fuel (last + 1) len delimiters m
  end.

Definition strtok (fuel : nat) (str delimiters : Z) (s : Z * mem)
    : res (Z * (Z * mem)) :=
  let (last, m) := s in
  let last := if negb (str =? 0) then 0 else last in
  let* len := strlen fuel delimiters m in
  if len =? 0 then Ok (0, (last, m))
  else if (str =? 0) && (last =? 0) then Ok (0, (last, m))
  else
    let last := if negb (str =? 0) && (last =? 0) then str else last in
    let* p_start := strtok_skip fuel last len delimiters m in
    let last := p_start in
    let* c := ldc m last in
    if c =? 0 then Ok (0, (0, m))
    else
      let* (last, m) := strtok_end fuel last len delimiters m in
      Ok (p_start, (last, m)).

(** ** Strings in memory *)

(** The characters [cs] and a terminator are at [a]. *)
Fixpoint cstr (m : mem) (a : Z) (cs : list Z) : Prop :=
  match cs with
  | [] => m !! a = Some 0
  | c :: cs => m !! a = Some c ∧ 0 < c < 256 ∧ cstr m (a + 1) cs
  end.

(** The bytes [bs] are at [a]. *)
Fixpoint bytes_at (m : mem) (a : Z) (bs : list Z) : Prop :=
  match bs with
  | [] => True
  | b :: bs => m !! a = Some b ∧ 0 ≤ b < 256 ∧ bytes_at m (a + 1) bs
  end.

(** Equal outside [a .. a + n). *)
Definition same_outside (m m' : mem) (a n : Z) : Prop :=
  ∀ i, i < a ∨ a + n ≤ i → m' !! i = m !! i.

Definition alloc (m : mem) (a n : Z) : Prop := ∀ i, a ≤ i < a + n → is_Some (m !! i).

(** ** Lemmas *)
Lemma st_Ok m a v : is_Some (m !! a) → st m a v = Ok (<[a := u8 v]> m).
Proof. intros [w E]. unfold st. by rewrite E. Qed.

Lemma alloc_insert m a n i v : alloc m a n → alloc (<[i := v]> m) a n.
Proof.
  intros H j Hj. destruct (decide (i = j)) as [->|].
  - rewrite lookup_insert_eq. by eexists.
  - rewrite lookup_insert_ne by done. by apply H.
Qed.

Lemma bytes_at_insert m a bs i v :
  bytes_at m a bs → i < a ∨ a + len bs ≤ i → bytes_at (<[i := v]> m) a bs.
Proof.
  revert a. induction bs as [|b bs IH]; intros a H Hi; [done|].
  simpl in *. destruct H as (E & Hb & H). split_and!; [|lia..|].
  - rewrite lookup_insert_ne by lia. done.
  - apply IH; [done|lia].
Qed.

Lemma bytes_at_same m m' a bs b n :
  bytes_at m a bs → same_outside m m' b n → a + len bs ≤ b ∨ b + n ≤ a →
  bytes_at m' a bs.
Proof.
  revert a. induction bs as [|c bs IH]; intros a H Hs Hd; [done|].
  simpl in *. destruct H as (E & Hb & H). split_and!; [|lia..|].
  - rewrite (Hs a) by lia. done.
  - apply IH; [done..|lia].
Qed.

Lemma bytes_at_app m a bs1 bs2 :
  bytes_at m a (bs1 ++ bs2) ↔ bytes_at m a bs1 ∧ bytes_at m (a + len bs1) bs2.
Proof.
  revert a. induction bs1 as [|b bs1 IH]; intros a; simpl.
  - rewrite Z.add_0_r. naive_solver.
  - rewrite IH. replace (a + 1 + len bs1) with (a + Z.of_nat (S (length bs1))) by lia.
    naive_solver.
Qed.

Lemma bytes_at_lookup m a bs i b :
  bytes_at m a bs → bs !! i = Some b → m !! (a + Z.of_nat i) = Some b ∧ 0 ≤ b < 256.
Proof.
  revert a i. induction bs as [|c bs IH]; intros a i H E; [done|].
  simpl in H. destruct H as (E0 & Hb & H). destruct i as [|i]; simpl in E; simplify_eq.
  - by rewrite Z.add_0_r.
  - destruct (IH (a + 1) i H E) as [E1 ?]. split; [|done].
    by replace (a + Z.of_nat (S i)) with (a + 1 + Z.of_nat i) by lia.
Qed.

Lemma cstr_bytes m a cs :
  cstr m a cs ↔ bytes_at m a (cs ++ [0]) ∧ Forall (λ c, 0 < c < 256) cs.
Proof.
  revert a. induction cs as [|c cs IH]; intros a; simpl.
  - split; [intros; split_and!; [done|lia..|done|by constructor]|naive_solver].
  - split.
    + intros (E & Hc & H). apply IH in H as [H Hf].
      split_and!; [done|lia..|done|by constructor].
    + intros ((E & Hc & H) & Hf). inversion Hf; subst.
      split_and!; [done|lia|lia|by apply IH].
Qed.

Lemma cstr_apart m m' a cs b n : cstr m a cs → same_outside m m' b n → a + len cs < b ∨ b + n ≤ a → cstr m' a cs.
Proof.
  intros [Hb HF]%cstr_bytes Hs Hd. apply cstr_bytes. split; [|done].
  apply (bytes_at_same m m' a _ b n); [done|done|]. rewrite length_app. cbn [length]. lia.
Qed.

Lemma same_outside_refl m a n : same_outside m m a n.
Proof. by intros i Hi. Qed.

Lemma same_outside_trans m1 m2 m3 a n b k a' n' :
  same_outside m1 m2 a n → same_outside m2 m3 b k →
  a' ≤ a → a + n ≤ a' + n' → a' ≤ b → b + k ≤ a' + n' →
  same_outside m1 m3 a' n'.
Proof. intros H1 H2 ???? i Hi. rewrite (H2 i), (H1 i) by lia. done. Qed.

Lemma same_outside_insert m a v : same_outside m (<[a := v]> m) a 1.
Proof. intros i Hi. by rewrite lookup_insert_ne by lia. Qed.

(** [memset] with zero. *)
Lemma memset_zero n : ∀ a m, alloc m a (Z.of_nat n) →
  ∃ m', memset_loop a 0 n m = Ok m' ∧ same_outside m m' a (Z.of_nat n) ∧
    ∀ i, a ≤ i < a + Z.of_nat n → m' !! i = Some 0.
Proof.
  induction n as [|n IH]; intros a m Ha; cbn [memset_loop].
  { exists m. split; [done|]. split; [apply same_outside_refl|lia]. }
  rewrite st_Ok by (apply Ha; lia). cbn [rbind]. change (u8 0) with 0.
  destruct (IH a (<[a + Z.of_nat n := 0]> m)) as (m' & E & Ho & Hz).
  { intros i Hi. apply (alloc_insert m a (Z.of_nat (S n))); [done|lia]. }
  exists m'. split; [exact E|]. split.
  - intros i Hi. rewrite Ho by lia. apply lookup_insert_ne. lia.
  - intros i Hi. destruct (decide (i = a + Z.of_nat n)) as [->|]; [|apply Hz; lia].
    rewrite Ho by lia. apply lookup_insert_eq.
Qed.

(** One byte from [src] to [dst]. *)
Lemma move_byte m src dst b :
  m !! src = Some b → 0 ≤ b < 256 → is_Some (m !! dst) →
  (let* b := ld m src in st m dst b) = Ok (<[dst := b]> m).
Proof.
  intros E Hb Hd. unfold ld. rewrite E. simpl. rewrite st_Ok by done.
  by rewrite uint_small by (simpl; lia).
Qed.

(** Upwards copying is right unless the destination starts inside the source. *)
Lemma memcpy_loop_spec bs dst src m :
  bytes_at m src bs → alloc m dst (len bs) → dst ≤ src ∨ src + len bs ≤ dst →
  ∃ m', memcpy_loop dst src (length bs) m = Ok m' ∧ bytes_at m' dst bs ∧
    same_outside m m' dst (len bs).
Proof.
  revert dst src m. induction bs as [|b bs IH]; intros dst src m Hs Ha Hd; simpl.
  { eexists. split_and!; [done..|]. apply same_outside_refl. }
  simpl in *. destruct Hs as (E & Hb & Hs).
  pose proof (move_byte m src dst b E Hb (Ha dst ltac:(lia))) as Hm.
  unfold ld in *. rewrite E in *. simpl in *. rewrite Hm. simpl.
  destruct (IH (dst + 1) (src + 1) (<[dst := b]> m)) as (m' & -> & Hb' & Ho).
  - apply bytes_at_insert; [done|lia].
  - intros i Hi. apply (alloc_insert _ _ _ _ _ Ha). lia.
  - lia.
  - exists m'. split_and!; [done| |lia..|done|].
    + rewrite (Ho dst) by lia. apply lookup_insert_eq.
    + eapply same_outside_trans; [apply same_outside_insert|exact Ho|lia..].
Qed.

Lemma memcpy_spec bs dest source m :
  bytes_at m source bs → alloc m dest (len bs) →
  dest ≤ source ∨ source + len bs ≤ dest →
  ∃ m', memcpy dest source (len bs) m = Ok (dest, m') ∧ bytes_at m' dest bs ∧
    same_outside m m' dest (len bs).
Proof.
  intros Hs Ha Hd. unfold memcpy.
  destruct (memcpy_loop_spec bs dest source m Hs Ha Hd) as (m' & E & Hb & Ho).
  destruct (Z.eqb_spec (len bs) 0) as [E0|].
  - exists m. destruct bs; [|simpl in E0; lia]. split_and!; [done..|].
    apply same_outside_refl.
  - rewrite Nat2Z.id, E. simpl. by exists m'.
Qed.

(** Downwards copying from above. *)
Lemma memmove_loop_spec bs dst src m :
  bytes_at m (src - len bs + 1) bs → alloc m (dst - len bs + 1) (len bs) →
  src ≤ dst →
  ∃ m', memmove_loop dst src (length bs) m = Ok m' ∧
    bytes_at m' (dst - len bs + 1) bs ∧
    same_outside m m' (dst - len bs + 1) (len bs).
Proof.
  revert dst src m. induction bs as [|b bs IH] using rev_ind; intros dst src m Hs Ha Hd.
  { eexists. split_and!; [done..|]. apply same_outside_refl. }
  rewrite length_app in *. simpl in *. rewrite Nat.add_1_r. cbn [memmove_loop].
  apply bytes_at_app in Hs as (Hs & E & Hb & _).
  replace (src - Z.of_nat (length bs + 1) + 1 + len bs) with src in E by lia.
  pose proof (move_byte m src dst b E Hb (Ha dst ltac:(lia))) as Hm.
  unfold ld in *. rewrite E in *. simpl in *. rewrite Hm. simpl.
  destruct (IH (dst - 1) (src - 1) (<[dst := b]> m)) as (m' & -> & Hb' & Ho).
  - apply bytes_at_insert; [|lia].
    by replace (src - 1 - len bs + 1) with (src - Z.of_nat (length bs + 1) + 1) by lia.
  - intros i Hi. apply (alloc_insert _ _ _ _ _ Ha). lia.
  - lia.
  - exists m'. split; [done|].
    replace (dst - Z.of_nat (S (length bs)) + 1) with (dst - 1 - len bs + 1) by lia.
    split.
    + apply bytes_at_app. split; [done|].
      replace (dst - 1 - len bs + 1 + len bs) with dst by lia.
      split_and!; [|lia..|done]. rewrite (Ho dst) by lia. apply lookup_insert_eq.
    + eapply same_outside_trans; [apply (same_outside_insert m dst b)|exact Ho|lia..].
Qed.

(** C34: [memmove] of [n > 0] bytes, for source and destination placed in any
    way: every access stays inside the two blocks, nothing outside the
    destination changes, and from a higher source the destination holds the old
    bytes of the source.  From a lower or equal source, the destination holds them
    but for the first, which keeps its old value. *)
Theorem memmove_spec bs dest source m
    (Hn : bs ≠ []) (Hs : bytes_at m source bs) (Ha : alloc m dest (len bs)) :
  ∃ m', memmove dest source (len bs) m = Ok (dest, m') ∧
    same_outside m m' dest (len bs) ∧
    (dest < source → bytes_at m' dest bs) ∧
    (source ≤ dest → m' !! dest = m !! dest ∧ bytes_at m' (dest + 1) (tail bs)).
Proof.
  destruct bs as [|b bs]; [done|]. unfold memmove.
  replace (len (b :: bs) =? 0) with false by (simpl; lia).
  destruct (Z.ltb_spec dest source) as [Hlt|Hge].
  - destruct (memcpy_spec (b :: bs) dest source m) as (m' & -> & Hb & Ho); [done..|lia|].
    exists m'. split_and!; [done..|lia].
  - simpl in Hs. destruct Hs as (_ & _ & Hs).
    destruct (memmove_loop_spec bs (dest + len bs) (source + len bs) m)
      as (m' & E & Hb & Ho).
    + by replace (source + len bs - len bs + 1) with (source + 1) by lia.
    + intros i Hi. apply Ha. simpl. lia.
    + lia.
    + replace (len (b :: bs) - 1) with (len bs) by (simpl; lia).
      rewrite Nat2Z.id, E. simpl. exists m'. split_and!; [done| |lia|].
      * intros i Hi. apply Ho. lia.
      * intros _. replace (dest + len bs - len bs + 1) with (dest + 1) in * by lia.
        split; [|done]. apply Ho. lia.
Qed.

(** A block of four bytes in a memory of eight. *)
Definition block8 : mem :=
  list_to_map (zip (seqZ 16 8) [1; 2; 3; 4; 5; 6; 7; 8]).

Lemma memmove_spec_witness :
  ∃ m', memmove 18 16 4 block8 = Ok (18, m') ∧ m' !! 18 = Some 3 ∧
    bytes_at m' 19 [2; 3; 4].
Proof.
  destruct (memmove_spec [1; 2; 3; 4] 18 16 block8) as (m' & E & _ & _ & H).
  - done.
  - simpl. split_and!; (lia || reflexivity).
  - intros i Hi. simpl in Hi.
    assert (i = 18 ∨ i = 19 ∨ i = 20 ∨ i = 21) as [->|[->|[->| ->]]] by lia;
      by eexists.
  - exists m'. split; [exact E|]. exact (H ltac:(lia)).
Defined.

(** ** Lemmas on strings *)
Lemma s8_inj a b : 0 ≤ a < 256 → 0 ≤ b < 256 → s8 a = s8 b → a = b.
Proof.
  intros Ha Hb H. pose proof (uint_sint 8 a ltac:(lia)) as Ea.
  pose proof (uint_sint 8 b ltac:(lia)) as Eb.
  rewrite H, Eb in Ea. rewrite !uint_small in Ea by (simpl; lia). done.
Qed.

Lemma s8_zero a : 0 ≤ a < 256 → (s8 a =? 0) = (a =? 0).
Proof.
  intros Ha. destruct (Z.eqb_spec a 0) as [->|Hne]; [done|].
  apply Z.eqb_neq. intros H. apply Hne, s8_inj; [done|lia|done].
Qed.

Lemma ld_Ok m a c : m !! a = Some c → ld m a = Ok c.
Proof. intros E. unfold ld. by rewrite E. Qed.

Lemma ldc_Ok m a c : m !! a = Some c → ldc m a = Ok (s8 c).
Proof. intros E. unfold ldc. by rewrite (ld_Ok _ _ _ E). Qed.

(** The first step of a loop over a string. *)
Lemma cstr_ldc m a cs : cstr m a cs →
  match cs with
  | [] => ldc m a = Ok 0
  | c :: cs => ldc m a = Ok (s8 c) ∧ (s8 c =? 0) = false ∧ 0 < c < 256 ∧ cstr m (a + 1) cs
  end.
Proof.
  destruct cs as [|c cs]; simpl.
  - intros E. by rewrite (ldc_Ok _ _ _ E).
  - intros (E & Hc & H). split; [by apply ldc_Ok|]. split; [|done].
    rewrite s8_zero by lia. lia.
Qed.

Lemma cstr_ld m a cs : cstr m a cs →
  match cs with
  | [] => ld m a = Ok 0
  | c :: cs => ld m a = Ok c ∧ (c =? 0) = false ∧ 0 < c < 256 ∧ cstr m (a + 1) cs
  end.
Proof.
  destruct cs as [|c cs]; simpl.
  - apply ld_Ok.
  - intros (E & Hc & H). split; [by apply ld_Ok|]. split; [lia|done].
Qed.

Lemma cstr_insert m a cs i v :
  cstr m a cs → i < a ∨ a + len cs < i → cstr (<[i := v]> m) a cs.
Proof.
  intros [Hb Hf]%cstr_bytes Hi. apply cstr_bytes. split; [|done].
  apply bytes_at_insert; [done|]. rewrite length_app. simpl. lia.
Qed.

Lemma strlen_loop_spec fuel a cs ret m :
  cstr m a cs → (length cs < fuel)%nat →
  strlen_loop fuel a ret m = Ok (ret + len cs).
Proof.
  revert fuel a ret. induction cs as [|c cs IH]; intros [|fuel] a ret H Hf;
    simpl in Hf; try lia; apply cstr_ld in H; cbn [strlen_loop].
  - rewrite H. simpl. f_equal. lia.
  - destruct H as (-> & Hc & _ & H). simpl. rewrite Hc, IH by (done || lia).
    f_equal. lia.
Qed.

Lemma strlen_spec fuel a cs m :
  cstr m a cs → (length cs < fuel)%nat → strlen fuel a m = Ok (len cs).
Proof. intros H Hf. unfold strlen. by rewrite (strlen_loop_spec _ _ cs). Qed.

Lemma find_end_spec fuel a cs m :
  cstr m a cs → (length cs < fuel)%nat → find_end fuel a m = Ok (a + len cs).
Proof.
  revert fuel a. induction cs as [|c cs IH]; intros [|fuel] a H Hf;
    simpl in Hf; try lia; apply cstr_ld in H; cbn [find_end].
  - rewrite H. simpl. f_equal. lia.
  - destruct H as (-> & Hc & _ & H). simpl. rewrite Hc, IH by (done || lia).
    f_equal. lia.
Qed.

(** The order of two strings of one length. *)
Fixpoint cmp_chars (s1 s2 : list Z) : Z :=
  match s1, s2 with
  | a :: s1, b :: s2 =>
      if s8 a <? s8 b then -1 else if s8 b <? s8 a then 1 else cmp_chars s1 s2
  | _, _ => 0
  end.

Lemma cmp_chars_eq s1 s2 :
  length s1 = length s2 → Forall (λ c, 0 ≤ c < 256) s1 → Forall (λ c, 0 ≤ c < 256) s2 →
  cmp_chars s1 s2 = 0 ↔ s1 = s2.
Proof.
  revert s2. induction s1 as [|a s1 IH]; intros [|b s2] Hl H1 H2; simpl in *; try done.
  inversion H1; inversion H2; subst.
  destruct (Z.ltb_spec (s8 a) (s8 b)); [naive_solver lia|].
  destruct (Z.ltb_spec (s8 b) (s8 a)); [naive_solver lia|].
  assert (a = b) as -> by (apply s8_inj; lia || done).
  rewrite IH by (done || lia). naive_solver.
Qed.

Lemma cstr_forall m a cs : cstr m a cs → Forall (λ c, 0 ≤ c < 256) cs.
Proof.
  intros [_ H]%cstr_bytes. eapply Forall_impl; [|exact H]. simpl. lia.
Qed.

Lemma strcmp_loop_spec fuel a b s1 s2 m :
  cstr m a s1 → cstr m b s2 → length s1 = length s2 → (length s1 < fuel)%nat →
  strcmp_loop fuel a b m = Ok (cmp_chars s1 s2).
Proof.
  revert fuel a b s2. induction s1 as [|c s1 IH]; intros [|fuel] a b [|d s2] H1 H2 Hl Hf;
    simpl in Hl, Hf; try lia; apply cstr_ldc in H1, H2; cbn [strcmp_loop cmp_chars].
  - by rewrite H1, H2.
  - destruct H1 as (-> & Hc & _ & H1), H2 as (-> & Hd & _ & H2). simpl.
    rewrite Hc, (IH fuel (a + 1) (b + 1) s2) by (done || lia).
    by repeat cif.
Qed.

Lemma strcmp_result fuel a b s1 s2 m :
  cstr m a s1 → cstr m b s2 → (length s1 < fuel)%nat → (length s2 < fuel)%nat →
  len s1 < 2 ^ 31 → len s2 < 2 ^ 31 →
  strcmp fuel a b m
  = Ok (if len s1 =? len s2 then cmp_chars s1 s2 else len s1 - len s2).
Proof.
  intros H1 H2 Hf1 Hf2 Hl1 Hl2. unfold strcmp.
  rewrite (strlen_spec _ _ s1), (strlen_spec _ _ s2) by done. simpl.
  rewrite sint_small by (simpl; lia). destruct (Z.eqb_spec (len s1) (len s2)) as [E|E].
  - replace (len s1 - len s2) with 0 by lia. simpl. apply strcmp_loop_spec; (done || lia).
  - replace (len s1 - len s2 =? 0) with false by lia. done.
Qed.

(** C35: [strcmp] orders strings by length and then by their signed characters:
    it returns zero exactly on equal strings, and swapping the arguments swaps
    the sign.  (On strings of different lengths this is not the order of the
    first differing character.) *)
Theorem strcmp_order fuel a b s1 s2 m
    (H1 : cstr m a s1) (H2 : cstr m b s2)
    (Hf : (length s1 < fuel ∧ length s2 < fuel)%nat)
    (Hl : len s1 < 2 ^ 31 ∧ len s2 < 2 ^ 31) :
  ∃ r r', strcmp fuel a b m = Ok r ∧ strcmp fuel b a m = Ok r' ∧
    (r = 0 ↔ s1 = s2) ∧ Z.sgn r = - Z.sgn r' ∧
    (len s1 < len s2 → r < 0) ∧ (length s1 = length s2 → r = cmp_chars s1 s2).
Proof.
  destruct Hf, Hl. rewrite (strcmp_result _ a b s1 s2), (strcmp_result _ b a s2 s1) by done.
  eexists _, _. split; [done|]. split; [done|].
  rewrite (Z.eqb_sym (len s2)).
  assert (Hsw : cmp_chars s1 s2 = - cmp_chars s2 s1).
  { clear. revert s2. induction s1 as [|c s1 IH]; intros [|d s2]; simpl; try done.
    rewrite IH. destruct (Z.ltb_spec (s8 c) (s8 d)), (Z.ltb_spec (s8 d) (s8 c)); lia. }
  destruct (Z.eqb_spec (len s1) (len s2)) as [E|E].
  - split_and!; [|rewrite Hsw, Z.sgn_opp; lia|lia|done].
    apply cmp_chars_eq; [lia|by eapply cstr_forall..].
  - split_and!; [split; [lia|intros ->; done]|lia|lia|lia].
Qed.

(** Two strings in one memory: "ab" at 16 and "b" at 32. *)
Definition two_strings : mem :=
  list_to_map [(16, 97); (17, 98); (18, 0); (32, 98); (33, 0)].

Lemma strcmp_order_witness :
  ∃ r r', strcmp 3 16 32 two_strings = Ok r ∧ strcmp 3 32 16 two_strings = Ok r' ∧
    Z.sgn r = - Z.sgn r' ∧ r' < 0.
Proof.
  destruct (strcmp_order 3 32 16 [98] [97; 98] two_strings)
    as (r & r' & E & E' & _ & Hs & Hl & _).
  - simpl. split_and!; (lia || reflexivity).
  - simpl. split_and!; (lia || reflexivity).
  - simpl. lia.
  - simpl. lia.
  - exists r', r. split_and!; [exact E'|exact E|lia|apply Hl; simpl; lia].
Defined.

(** [strncmp] returns zero exactly when the first [num] characters of the two
    strings agree. *)
Theorem strncmp_eq fuel a b s1 s2 num m
    (H1 : cstr m a s1) (H2 : cstr m b s2)
    (Hf : (length s1 < fuel ∧ length s2 < fuel)%nat)
    (Hl : len s1 < 2 ^ 32 ∧ len s2 < 2 ^ 32) (Hn : 0 ≤ num) :
  ∃ r, strncmp fuel a b num m = Ok r ∧
    (r = 0 ↔ take (Z.to_nat num) s1 = take (Z.to_nat num) s2).
Proof.
  destruct Hf, Hl. unfold strncmp.
  rewrite (strlen_spec _ _ s1), (strlen_spec _ _ s2) by done. simpl.
  generalize (Z.to_nat num) as n. clear num Hn. intros n.
  revert a b s1 s2 H1 H2 H H0 H3 H4.
  induction n as [|n IH]; intros a b s1 s2 H1 H2 Hf1 Hf2 Hl1 Hl2.
  { exists 0. done. }
  cbn [strncmp_loop].
  assert (Hlt : ∀ l1 l2 : list Z, (len l1 <? Z.of_nat (S n)) && (len l1 <? len l2) = true →
    take (S n) l1 ≠ take (S n) l2).
  { intros l1 l2 [E1 E2]%andb_true_iff E. zbool.
    apply (f_equal length) in E. rewrite !length_take in E. lia. }
  destruct ((len s1 <? _) && _) eqn:E1.
  { exists (-1). split; [done|]. split; [lia|]. intros E. by destruct (Hlt _ _ E1). }
  destruct ((len s2 <? _) && _) eqn:E2.
  { exists 1. split; [done|]. split; [lia|]. intros E. by destruct (Hlt _ _ E2). }
  apply andb_false_iff in E1, E2. rewrite !Z.ltb_ge in E1, E2.
  destruct s1 as [|c s1], s2 as [|d s2]; simpl in E1, E2; try (exfalso; lia).
  - apply cstr_ldc in H1, H2. rewrite H1, H2. simpl. by exists 0.
  - apply cstr_ldc in H1 as (-> & Hc & Hcr & H1), H2 as (-> & Hd & Hdr & H2). simpl.
    rewrite Hc. simpl in Hf1, Hf2, Hl1, Hl2.
    destruct (Z.ltb_spec (s8 c) (s8 d)); [exists (-1); split; [done|]; split; [lia|intros [= -> _]; lia]|].
    destruct (Z.ltb_spec (s8 d) (s8 c)); [exists 1; split; [done|]; split; [lia|intros [= -> _]; lia]|].
    assert (c = d) as -> by (apply s8_inj; lia || done).
    rewrite !uint_small by (simpl; lia).
    match goal with |- context [strncmp_loop n ?x ?y _ _ _] =>
      replace x with (len s1) by lia; replace y with (len s2) by lia end.
    destruct (IH (a + 1) (b + 1) s1 s2) as (r & -> & Hr); [done|done|lia..|].
    exists r. split; [done|]. rewrite Hr. by split; [intros -> | intros [= ->]].
Qed.

Lemma strncmp_eq_witness :
  ∃ r, strncmp 3 17 32 9 two_strings = Ok r ∧ r = 0.
Proof.
  destruct (strncmp_eq 3 17 32 [98] [98] 9 two_strings) as (r & E & H).
  - simpl. split_and!; (lia || reflexivity).
  - simpl. split_and!; (lia || reflexivity).
  - simpl. lia.
  - simpl. lia.
  - lia.
  - exists r. split; [exact E|]. by apply H.
Defined.

(** ** Copying *)

(** [strcpy] into a block with room for the string and its terminator, which
    does not start inside the source: the destination holds the string, nothing
    else changes, and the result points at the new terminator (the C standard
    asks for the start of the destination). *)
Theorem strcpy_copies fuel cs dest source m :
  cstr m source cs → alloc m dest (len cs + 1) → (length cs < fuel)%nat →
  dest ≤ source ∨ source + len cs < dest →
  ∃ m', strcpy fuel dest source m = Ok (dest + len cs, m') ∧ cstr m' dest cs ∧
    same_outside m m' dest (len cs + 1).
Proof.
  revert fuel dest source m.
  induction cs as [|c cs IH]; intros [|fuel] dest source m Hs Ha Hf Hd;
    simpl in Hf; try lia; cbn [strcpy].
  - apply cstr_ld in Hs. rewrite Hs. simpl. rewrite st_Ok by (apply Ha; simpl; lia).
    simpl. eexists. split; [by rewrite Z.add_0_r|]. split.
    + apply lookup_insert_eq.
    + apply same_outside_insert.
  - apply cstr_ld in Hs as (-> & E0 & Hc & Hs). simpl. rewrite E0.
    rewrite st_Ok by (apply Ha; simpl; lia). simpl.
    rewrite uint_small by (simpl; lia). simpl in Hd, Ha.
    destruct (IH fuel (dest + 1) (source + 1) (<[dest := c]> m)) as (m' & -> & Hc' & Ho).
    + apply cstr_insert; [done|lia].
    + intros i Hi. apply (alloc_insert _ _ _ _ _ Ha). lia.
    + lia.
    + lia.
    + exists m'. split; [f_equal; f_equal; simpl; lia|]. split.
      * simpl. split_and!; [|lia..|done]. rewrite (Ho dest) by lia. apply lookup_insert_eq.
      * eapply same_outside_trans; [apply same_outside_insert|exact Ho|simpl; lia..].
Qed.

Lemma strcpy_copies_witness :
  ∃ m', strcpy 3 32 16 (<[34 := 7]> two_strings) = Ok (34, m') ∧ cstr m' 32 [97; 98].
Proof.
  destruct (strcpy_copies 3 [97; 98] 32 16 (<[34 := 7]> two_strings))
    as (m' & E & H & _).
  - simpl. split_and!; (lia || reflexivity).
  - intros i Hi. simpl in Hi.
    assert (i = 32 ∨ i = 33 ∨ i = 34) as [->|[->| ->]] by lia; by eexists.
  - simpl. lia.
  - simpl. lia.
  - exists m'. split; [exact E|exact H].
Defined.

(** [strncpy] of a string that is not empty copies at most [num] characters and
    never a terminator. *)
Lemma strncpy_spec cs dest source num m :
  cs ≠ [] → cstr m source cs → 0 ≤ num →
  alloc m dest (Z.min num (len cs)) → dest + len cs ≤ source ∨ source + len cs < dest →
  ∃ m', strncpy dest source num m = Ok (dest + Z.min num (len cs), m') ∧
    bytes_at m' dest (take (Z.to_nat num) cs) ∧
    same_outside m m' dest (Z.min num (len cs)).
Proof.
  intros Hne Hs Hn Ha Hd. unfold strncpy.
  replace num with (Z.of_nat (Z.to_nat num)) in Ha by lia.
  replace (Z.min num (len cs)) with (Z.min (Z.of_nat (Z.to_nat num)) (len cs)) by lia.
  generalize dependent (Z.to_nat num). clear num Hn. intros n.
  revert cs dest source m Hne Hs Hd.
  induction n as [|n IH]; intros cs dest source m Hne Hs Hd Ha; cbn [strncpy_loop].
  { exists m. split; [f_equal; f_equal; lia|]. split; [done|apply same_outside_refl]. }
  destruct cs as [|c cs]; [done|]. pose proof Hs as Hs0.
  apply cstr_ld in Hs as (-> & E0 & Hc & Hs). simpl.
  rewrite st_Ok by (apply Ha; simpl; lia). simpl. rewrite uint_small by (simpl; lia).
  simpl in Hd, Ha.
  assert (Hs1 : cstr (<[dest := c]> m) (source + 1) cs) by (apply cstr_insert; [done|lia]).
  destruct cs as [|d cs].
  - apply cstr_ld in Hs1. rewrite Hs1. simpl. exists (<[dest := c]> m).
    split; [f_equal; f_equal; lia|]. split.
    + rewrite take_nil. simpl. split_and!; [apply lookup_insert_eq|lia..|done].
    + replace (Z.min _ 1) with 1 by lia. apply same_outside_insert.
  - pose proof Hs1 as Hs2. apply cstr_ld in Hs2 as (-> & E1 & _). simpl. rewrite E1.
    destruct (IH (d :: cs) (dest + 1) (source + 1) (<[dest := c]> m))
      as (m' & -> & Hb & Ho); [done|done|simpl in Hd |- *; lia| |].
    { intros i Hi. apply (alloc_insert _ _ _ _ _ Ha). simpl in Hi |- *. lia. }
    exists m'. split; [f_equal; f_equal; simpl; lia|]. split.
    + split_and!; [|lia..|done]. rewrite (Ho dest) by lia. apply lookup_insert_eq.
    + eapply same_outside_trans; [apply same_outside_insert|exact Ho|simpl; lia..].
Qed.

(** ** Searching *)

(** The position of the first element that satisfies [f]. *)
Fixpoint first_index (f : Z → bool) (cs : list Z) : option nat :=
  match cs with
  | [] => None
  | c :: cs => if f c then Some 0%nat else S <$> first_index f cs
  end.

(** A position in the array at [a], or [NULL]. *)
Definition ptr_of (a : Z) (o : option nat) : Z :=
  match o with Some i => a + Z.of_nat i | None => 0 end.

Definition in_set (set : list Z) (c : Z) : bool := existsb (λ d, s8 c =? s8 d) set.

(** How often the character is in the set. *)
Definition times_in (set : list Z) (c : Z) : Z :=
  len (filter (λ d, s8 d = s8 c) set).

Lemma ptr_of_next a o : ptr_of (a + 1) o = ptr_of a (S <$> o).
Proof. destruct o; simpl; lia. Qed.

Lemma strchr_spec fuel a cs v m :
  cstr m a cs → (length cs < fuel)%nat →
  strchr fuel a v m = Ok (ptr_of a (first_index (λ c, s8 c =? v) cs)).
Proof.
  revert fuel a. induction cs as [|c cs IH]; intros [|fuel] a H Hf;
    simpl in Hf; try lia; apply cstr_ldc in H; cbn [strchr].
  - by rewrite H.
  - destruct H as (-> & E0 & _ & H). simpl. rewrite E0, IH by (done || lia).
    destruct (s8 c =? v); [f_equal; simpl; lia|by rewrite ptr_of_next].
Qed.

Lemma scan_set_spec fuel c a set m :
  cstr m a set → (length set < fuel)%nat →
  scan_set fuel (s8 c) a m = Ok (in_set set c).
Proof.
  revert fuel a. induction set as [|d set IH]; intros [|fuel] a H Hf;
    simpl in Hf; try lia; apply cstr_ldc in H; cbn [scan_set].
  - by rewrite H.
  - destruct H as (-> & E0 & _ & H). simpl. rewrite E0, IH by (done || lia).
    by destruct (s8 c =? s8 d).
Qed.

Lemma count_set_spec fuel c a set ret m :
  cstr m a set → (length set < fuel)%nat →
  count_set fuel (s8 c) a ret m = Ok (ret + times_in set c).
Proof.
  revert fuel a ret. induction set as [|d set IH]; intros [|fuel] a ret H Hf;
    simpl in Hf; try lia; apply cstr_ldc in H; cbn [count_set].
  - rewrite H. simpl. f_equal. unfold times_in. simpl. lia.
  - destruct H as (-> & E0 & _ & H). simpl. rewrite E0, IH by (done || lia).
    unfold times_in. rewrite filter_cons. f_equal.
    destruct (Z.eqb_spec (s8 d) (s8 c)); [rewrite decide_True by done|
      rewrite decide_False by done]; simpl; lia.
Qed.

Lemma strpbrk_loop_spec fuel fuel2 a b cs set m :
  cstr m a cs → cstr m b set → (length cs < fuel)%nat → (length set < fuel2)%nat →
  strpbrk_loop fuel fuel2 a b m = Ok (ptr_of a (first_index (in_set set) cs)).
Proof.
  revert fuel a. induction cs as [|c cs IH]; intros [|fuel] a H Hs Hf Hf2;
    simpl in Hf; try lia; apply cstr_ldc in H; cbn [strpbrk_loop].
  - by rewrite H.
  - destruct H as (-> & E0 & _ & H). simpl.
    rewrite E0, (scan_set_spec _ _ _ set), IH by (done || lia). simpl.
    destruct (in_set set c); [f_equal; simpl; lia|by rewrite ptr_of_next].
Qed.

Lemma strcspn_loop_spec fuel fuel2 a b cs set ret m :
  cstr m a cs → cstr m b set → (length cs < fuel)%nat → (length set < fuel2)%nat →
  strcspn_loop fuel fuel2 a b ret m
  = Ok (ret + match first_index (in_set set) cs with
              | Some i => Z.of_nat i | None => len cs end).
Proof.
  revert fuel a ret. induction cs as [|c cs IH]; intros [|fuel] a ret H Hs Hf Hf2;
    simpl in Hf; try lia; apply cstr_ldc in H; cbn [strcspn_loop].
  - rewrite H. simpl. f_equal. lia.
  - destruct H as (-> & E0 & _ & H). simpl.
    rewrite E0, (scan_set_spec _ _ _ set), IH by (done || lia). simpl.
    destruct (in_set set c); [f_equal; lia|]. f_equal.
    destruct (first_index (in_set set) cs); simpl; lia.
Qed.

Lemma strspn_loop_spec fuel fuel2 a b cs set ret m :
  cstr m a cs → cstr m b set → (length cs < fuel)%nat → (length set < fuel2)%nat →
  strspn_loop fuel fuel2 a b ret m = Ok (ret + foldr (λ c n, times_in set c + n) 0 cs).
Proof.
  revert fuel a ret. induction cs as [|c cs IH]; intros [|fuel] a ret H Hs Hf Hf2;
    simpl in Hf; try lia; apply cstr_ldc in H; cbn [strspn_loop].
  - rewrite H. simpl. f_equal. lia.
  - destruct H as (-> & E0 & _ & H). simpl.
    rewrite E0, (count_set_spec _ _ _ set) by (done || lia). simpl.
    rewrite IH by (done || lia). f_equal. lia.
Qed.

Lemma memchr_spec a bs v m : bytes_at m a bs →
  memchr a v (len bs) m = Ok (ptr_of a (first_index (λ c, s8 c =? v) bs)).
Proof.
  unfold memchr. rewrite Nat2Z.id. revert a.
  induction bs as [|c bs IH]; intros a H; simpl in *; [done|].
  destruct H as (E & _ & H). rewrite (ldc_Ok _ _ _ E). simpl. rewrite IH by done.
  destruct (s8 c =? v); [f_equal; simpl; lia|by rewrite ptr_of_next].
Qed.

(** The searching functions, on a string [cs] at [a] and a set of characters
    [set] at [b]: [strchr] finds the first occurrence of a character that is not
    the terminator, [strpbrk] and [strcspn] the first character of the set, each
    [NULL] (or the length) when there is none.  [strspn] returns how many
    pairs of a character of the whole string and an equal one of the set there
    are. *)
Theorem search_spec fuel a b cs set v m
    (Ha : cstr m a cs) (Hb : cstr m b set)
    (Hf : (length cs < fuel ∧ length set < fuel)%nat) :
  strchr fuel a v m = Ok (ptr_of a (first_index (λ c, s8 c =? v) cs)) ∧
  strpbrk fuel a b m = Ok (ptr_of a (first_index (in_set set) cs)) ∧
  strcspn fuel a b m = Ok (match first_index (in_set set) cs with
                           | Some i => Z.of_nat i | None => len cs end) ∧
  strspn fuel a b m = Ok (foldr (λ c n, times_in set c + n) 0 cs).
Proof.
  destruct Hf. split_and!.
  - by apply strchr_spec.
  - by apply strpbrk_loop_spec.
  - unfold strcspn. by rewrite (strcspn_loop_spec _ _ _ _ cs set).
  - unfold strspn. by rewrite (strspn_loop_spec _ _ _ _ cs set).
Qed.

(** "ab" and the set "b"; [strspn] counts a character behind one that is not in
    the set. *)
Lemma search_spec_witness :
  strchr 3 16 98 two_strings = Ok 17 ∧ strpbrk 3 16 32 two_strings = Ok 17 ∧
  strcspn 3 16 32 two_strings = Ok 1 ∧ strspn 3 16 32 two_strings = Ok 1.
Proof.
  apply (search_spec 3 16 32 [97; 98] [98] 98 two_strings).
  - simpl. split_and!; (lia || reflexivity).
  - simpl. split_and!; (lia || reflexivity).
  - simpl. lia.
Defined.

(** ** Tokens *)
Lemma cstr_app m a s1 s2 :
  cstr m a (s1 ++ s2) → Forall (λ c, 0 < c < 256) s1 ∧ bytes_at m a s1 ∧
    cstr m (a + len s1) s2.
Proof.
  intros [Hb Hf]%cstr_bytes. rewrite <- app_assoc in Hb.
  apply bytes_at_app in Hb as [Hb1 Hb2]. apply Forall_app in Hf as [Hf1 Hf2].
  split_and!; [done..|]. by apply cstr_bytes.
Qed.

Lemma find_delim_spec ds a c i m :
  cstr m a ds → ∃ j, find_delim (length ds) i c (a - i) m = Ok j ∧
    (if existsb (λ d, c =? s8 d) ds then i ≤ j < i + len ds else j = i + len ds).
Proof.
  revert a i. induction ds as [|d ds IH]; intros a i H; cbn [find_delim existsb].
  { exists i. split; [done|simpl; lia]. }
  apply cstr_ldc in H as (E & _ & _ & H).
  change (length (d :: ds)) with (S (length ds)). cbn [find_delim].
  replace (a - i + i) with a by lia. rewrite E. simpl.
  destruct (c =? s8 d); simpl; [exists i; split; [done|lia]|].
  destruct (IH (a + 1) (i + 1) H) as (j & Ej & Hj).
  replace (a + 1 - (i + 1)) with (a - i) in Ej by lia. exists j. split; [done|].
  destruct (existsb _ ds); lia.
Qed.

Lemma find_delim_in m dl ds c : cstr m dl ds →
  ∃ j, find_delim (length ds) 0 (s8 c) dl m = Ok j ∧
    (j =? len ds) = negb (in_set ds c) ∧ (j <? len ds) = in_set ds c.
Proof.
  intros H. destruct (find_delim_spec ds dl (s8 c) 0 m H) as (j & E & Hj).
  rewrite Z.sub_0_r in E. exists j. split; [done|]. unfold in_set.
  destruct (existsb _ ds); simpl; lia.
Qed.

Lemma nul_not_delim m dl ds : cstr m dl ds → in_set ds 0 = false.
Proof.
  intros [_ H]%cstr_bytes. unfold in_set. change (s8 0) with 0.
  induction H as [|d ds Hd _ IH]; [done|]. cbn [existsb].
  rewrite IH, Z.eqb_sym, s8_zero by lia. lia.
Qed.

Section strtok.
Context (m : mem) (dl : Z) (ds : list Z) (Hdl : cstr m dl ds).

Lemma strtok_skip_spec fuel p pre rest :
  cstr m p (pre ++ rest) → Forall (λ c, in_set ds c = true) pre →
  (∀ c, head rest = Some c → in_set ds c = false) → (length pre < fuel)%nat →
  strtok_skip fuel p (len ds) dl m = Ok (p + len pre).
Proof.
  revert fuel p. induction pre as [|c pre IH]; intros [|fuel] p H Hpre Hrest Hf;
    simpl in Hf; try lia; cbn [strtok_skip]; rewrite Nat2Z.id.
  - assert (Hc : ∃ c, ldc m p = Ok (s8 c) ∧ in_set ds c = false).
    { cbn [app] in H. destruct rest as [|c rest]; apply cstr_ldc in H.
      - exists 0. split; [done|]. by eapply nul_not_delim.
      - exists c. split; [by destruct H|]. by apply Hrest. }
    destruct Hc as (c & -> & Hc). simpl.
    destruct (find_delim_in m dl ds c Hdl) as (j & -> & Hj & _). simpl.
    rewrite Hj, Hc. simpl. f_equal. lia.
  - inversion Hpre as [|? ? Hc Hpre']; subst. cbn [app] in H.
    apply cstr_ldc in H as (-> & _ & _ & H). simpl.
    destruct (find_delim_in m dl ds c Hdl) as (j & -> & Hj & _). simpl.
    rewrite Hj, Hc. simpl. rewrite IH by (done || lia). f_equal. lia.
Qed.

Lemma strtok_end_spec fuel p tok rest :
  cstr m p (tok ++ rest) → Forall (λ c, in_set ds c = false) tok →
  (∀ c, head rest = Some c → in_set ds c = true) → (length tok < fuel)%nat →
  strtok_end fuel p (len ds) dl m =
    Ok (if decide (rest = []) then (p + len tok, m)
        else (p + len tok + 1, <[p + len tok := 0]> m)).
Proof.
  revert fuel p. induction tok as [|c tok IH]; intros [|fuel] p H Htok Hrest Hf;
    simpl in Hf; try lia; cbn [strtok_end]; rewrite Nat2Z.id.
  - cbn [app] in H. rewrite Z.add_0_r. destruct rest as [|c rest]; apply cstr_ldc in H as H'.
    + by rewrite H'.
    + destruct H' as (-> & E0 & _ & H'). simpl. rewrite E0.
      destruct (find_delim_in m dl ds c Hdl) as (j & -> & _ & Hj). simpl.
      rewrite Hj, (Hrest c) by done. simpl in H. destruct H as (E & _).
      by rewrite st_Ok by (by eexists).
  - inversion Htok as [|? ? Hc Htok']; subst. cbn [app] in H.
    apply cstr_ldc in H as (-> & E0 & _ & H). simpl. rewrite E0.
    destruct (find_delim_in m dl ds c Hdl) as (j & -> & _ & Hj). simpl.
    rewrite Hj, Hc. rewrite IH by (done || lia). f_equal.
    replace (p + 1 + len tok) with (p + Z.of_nat (S (length tok))) by lia. done.
Qed.
End strtok.

(** [strtok], given a string or continuing from where the last call stopped
    ([p] in both cases), on [pre ++ tok ++ rest] where [pre] holds delimiters
    only, [tok] none, and [rest] is empty or starts with one.  No token left:
    [NULL], and the position is forgotten.  Otherwise: the address of the
    token, which is now a string of its own; the next call continues behind the
    delimiter, and the only byte stored is the terminator over the delimiter. *)
Theorem strtok_next fuel str last p m dl ds pre tok rest
    (Hp : p ≠ 0) (Hstr : str = p ∨ str = 0 ∧ last = p)
    (Hs : cstr m p (pre ++ tok ++ rest)) (Hdl : cstr m dl ds) (Hds : ds ≠ [])
    (Hpre : Forall (λ c, in_set ds c = true) pre)
    (Htok : Forall (λ c, in_set ds c = false) tok)
    (Hrest : match rest with [] => True | c :: _ => in_set ds c = true ∧ tok ≠ [] end)
    (Hf : (length pre < fuel ∧ length tok < fuel ∧ length ds < fuel)%nat) :
  (tok = [] → strtok fuel str dl (last, m) = Ok (0, (0, m))) ∧
  (tok ≠ [] → ∃ m' last', strtok fuel str dl (last, m) = Ok (p + len pre, (last', m')) ∧
     cstr m' (p + len pre) tok ∧ cstr m' last' (tail rest) ∧
     last' = p + len pre + len tok + (if decide (rest = []) then 0 else 1) ∧
     same_outside m m' (p + len pre + len tok) 1).
Proof.
  destruct Hf as (Hf1 & Hf2 & Hf3).
  assert (E : strtok fuel str dl (last, m)
    = let* c := ldc m (p + len pre) in
      if c =? 0 then Ok (0, (0, m))
      else let* (last, m) := strtok_end fuel (p + len pre) (len ds) dl m in
           Ok (p + len pre, (last, m))).
  { unfold strtok. rewrite (strlen_spec _ _ ds) by done. simpl.
    replace (len ds =? 0) with false by (destruct ds; simpl; [done|lia]).
    assert (E : (if negb (str =? 0) then 0 else last) = (if str =? 0 then p else 0)).
    { destruct Hstr as [->|[-> ->]]; [|done]. by replace (p =? 0) with false by lia. }
    rewrite E. assert (E2 : (str =? 0) && ((if str =? 0 then p else 0) =? 0) = false)
      by (destruct (str =? 0); simpl; lia).
    rewrite E2. assert (E3 : (if negb (str =? 0) && ((if str =? 0 then p else 0) =? 0)
      then str else (if str =? 0 then p else 0)) = p).
    { destruct Hstr as [->|[-> _]]; [|done]. by replace (p =? 0) with false by lia. }
    rewrite E3, (strtok_skip_spec m dl ds Hdl _ _ pre (tok ++ rest)); [done..| |done].
    intros c Hc. destruct tok as [|d tok].
    - destruct rest; [done|]. by destruct Hrest.
    - simpl in Hc. simplify_eq. by inversion Htok. }
  rewrite E. clear E. apply cstr_app in Hs as (_ & _ & Hs). split.
  - intros ->. destruct rest; [|by destruct Hrest]. cbn [app] in Hs.
    apply cstr_ldc in Hs. by rewrite Hs.
  - intros Hne. destruct tok as [|c tok]; [done|].
    pose proof Hs as Hs0. cbn [app] in Hs0. apply cstr_ldc in Hs0 as (-> & E0 & _ & _).
    cbn [rbind]. rewrite E0.
    rewrite (strtok_end_spec m dl ds Hdl _ _ (c :: tok) rest); [|done..| |done].
    2:{ intros d Hd. destruct rest; simplify_eq/=. by destruct Hrest. }
    set (q := p + len pre) in *. pose proof (cstr_app _ _ _ _ Hs) as (Hft & Hbt & Hr).
    destruct (decide (rest = [])) as [->|Hr0]; cbn [rbind].
    + exists m, (q + len (c :: tok)). split; [done|]. rewrite app_nil_r in Hs.
      split_and!; [done..|lia|apply same_outside_refl].
    + destruct rest as [|d rest]; [done|].
      exists (<[q + len (c :: tok) := 0]> m), (q + len (c :: tok) + 1).
      split; [done|]. split_and!.
      * apply cstr_bytes. split; [|done]. apply bytes_at_app. split.
        -- apply bytes_at_insert; [done|lia].
        -- split_and!; [apply lookup_insert_eq|lia..|done].
      * apply cstr_insert; [|lia]. by destruct Hr as (_ & _ & Hr).
      * done.
      * apply same_outside_insert.
Qed.

(** ",a;b" split at commas and semicolons. *)
Definition list_line : mem :=
  list_to_map [(16, 44); (17, 97); (18, 59); (19, 98); (20, 0);
               (32, 44); (33, 59); (34, 0)].

Lemma strtok_next_witness :
  ∃ m' last', strtok 5 16 32 (0, list_line) = Ok (17, (last', m')) ∧
    cstr m' 17 [97] ∧ cstr m' last' [98] ∧ last' = 19.
Proof.
  destruct (strtok_next 5 16 0 16 list_line 32 [44; 59] [44] [97] [59; 98])
    as [_ H].
  - lia.
  - by left.
  - simpl. split_and!; (lia || reflexivity).
  - simpl. split_and!; (lia || reflexivity).
  - done.
  - repeat constructor.
  - repeat constructor.
  - done.
  - simpl. lia.
  - destruct (H ltac:(done)) as (m' & last' & E & H1 & H2 & H3 & _).
    exists m', last'. split_and!; [exact E|exact H1|exact H2|exact H3].
Defined.
