(* ===== verification/Malloc.v ===== *)
(** * Malloc: the interface of the kernel heap to its clients

    What the file layer and the task table rely on.  [Kmalloc.kernel_malloc]
    implements it. *)

From S2P Require Import Prelude.

(** [m_rep m L]: the blocks handed out are those at the addresses [L].  [malloc]
    returns 0 when there is no memory. *)
Class Malloc := {
  mstate : Type;
  malloc : Z → mstate → res (Z * mstate);
  mfree : Z → mstate → res mstate;
  m_rep : mstate → gset Z → Prop;
  malloc_ok : ∀ n m L, m_rep m L → 0 < n ≤ 2 ^ 20 →
    ∃ p m', malloc n m = Ok (p, m') ∧
      ((p = 0 ∧ m_rep m' L) ∨ (0 < p ∧ p ∉ L ∧ m_rep m' ({[p]} ∪ L)));
  mfree_ok : ∀ p m L, m_rep m L → p ∈ L →
    ∃ m', mfree p m = Ok m' ∧ m_rep m' (L ∖ {[p]})
}.
