(* ===== verification/Headers.v ===== *)
(** * Headers: the constants shared by the kernel and the C library

    [razos_kernel_headers/]: error numbers, open/fcntl flags, file modes,
    [whence] values, system call numbers; and the error messages that
    [rlibc/string/strerror.c] indexes with the error numbers. *)

From S2P Require Import Prelude.

(** ** Error numbers (errno_defs.h) *)
Inductive errno_t : Set :=
| EDOM | ERANGE | EILSEQ | E2BIG | EACCES | EADDRINUSE
| EADDRNOTAVAIL | EAFNOSUPPORT | EAGAIN | EALREADY | EBADF | EBADMSG
| EBUSY | ECANCELED | ECHILD | ECONNABORTED | ECONNREFUSED | ECONNRESET
| EDEADLK | EDESTADDRREQ | EDQUOT | EEXIST | EFAULT | EFBIG
| EHOSTUNREACH | EIDRM | EINPROGRESS | EINTR | EINVAL | EIO
| EISCONN | EISDIR | ELOOP | EMFILE | EMLINK | EMSGSIZE
| EMULTIHOP | ENAMETOOLONG | ENETDOWN | ENETRESET | ENETUNREACH | ENFILE
| ENOBUFS | ENODATA | ENODEV | ENOENT | ENOEXEC | ENOLCK
| ENOLINK | ENOMEM | ENOMSG | ENOPROTOOPT | ENOSPC | ENOSR
| ENOSTR | ENOSYS | ENOTCONN | ENOTDIR | ENOTEMPTY | ENOTRECOVERABLE
| ENOTSOCK | ENOTSUP | ENOTTY | ENXIO | EOPNOTSUPP | EOVERFLOW
| EOWNERDEAD | EPERM | EPIPE | EPROTO | EPROTONOSUPPORT | EPROTOTYPE
| EROFS | ESPIPE | ESRCH | ESTALE | ETIME | ETIMEDOUT
| ETXTBSY | EWOULDBLOCK | EXDEV.

Definition errno_num (e : errno_t) : Z :=
  match e with
  | EDOM => 1
  | ERANGE => 2
  | EILSEQ => 3
  | E2BIG => 4
  | EACCES => 5
  | EADDRINUSE => 6
  | EADDRNOTAVAIL => 7
  | EAFNOSUPPORT => 8
  | EAGAIN => 9
  | EALREADY => 10
  | EBADF => 11
  | EBADMSG => 12
  | EBUSY => 13
  | ECANCELED => 14
  | ECHILD => 15
  | ECONNABORTED => 16
  | ECONNREFUSED => 17
  | ECONNRESET => 18
  | EDEADLK => 19
  | EDESTADDRREQ => 20
  | EDQUOT => 21
  | EEXIST => 22
  | EFAULT => 23
  | EFBIG => 24
  | EHOSTUNREACH => 25
  | EIDRM => 26
  | EINPROGRESS => 27
  | EINTR => 28
  | EINVAL => 29
  | EIO => 30
  | EISCONN => 31
  | EISDIR => 32
  | ELOOP => 33
  | EMFILE => 34
  | EMLINK => 35
  | EMSGSIZE => 36
  | EMULTIHOP => 37
  | ENAMETOOLONG => 38
  | ENETDOWN => 39
  | ENETRESET => 40
  | ENETUNREACH => 41
  | ENFILE => 42
  | ENOBUFS => 43
  | ENODATA => 44
  | ENODEV => 45
  | ENOENT => 46
  | ENOEXEC => 47
  | ENOLCK => 48
  | ENOLINK => 49
  | ENOMEM => 50
  | ENOMSG => 51
  | ENOPROTOOPT => 52
  | ENOSPC => 53
  | ENOSR => 54
  | ENOSTR => 55
  | ENOSYS => 56
  | ENOTCONN => 57
  | ENOTDIR => 58
  | ENOTEMPTY => 59
  | ENOTRECOVERABLE => 60
  | ENOTSOCK => 61
  | ENOTSUP => 62
  | ENOTTY => 63
  | ENXIO => 64
  | EOPNOTSUPP => 65
  | EOVERFLOW => 66
  | EOWNERDEAD => 67
  | EPERM => 68
  | EPIPE => 69
  | EPROTO => 70
  | EPROTONOSUPPORT => 71
  | EPROTOTYPE => 72
  | EROFS => 73
  | ESPIPE => 74
  | ESRCH => 75
  | ESTALE => 76
  | ETIME => 77
  | ETIMEDOUT => 78
  | ETXTBSY => 79
  | EWOULDBLOCK => 80
  | EXDEV => 81
  end.

Coercion errno_num : errno_t >-> Z.

(** The error numbers in the order of the header. *)
Definition errnos : list errno_t :=
  [EDOM; ERANGE; EILSEQ; E2BIG; EACCES; EADDRINUSE; EADDRNOTAVAIL;
   EAFNOSUPPORT; EAGAIN; EALREADY; EBADF; EBADMSG; EBUSY; ECANCELED;
   ECHILD; ECONNABORTED; ECONNREFUSED; ECONNRESET; EDEADLK; EDESTADDRREQ; EDQUOT;
   EEXIST; EFAULT; EFBIG; EHOSTUNREACH; EIDRM; EINPROGRESS; EINTR;
   EINVAL; EIO; EISCONN; EISDIR; ELOOP; EMFILE; EMLINK;
   EMSGSIZE; EMULTIHOP; ENAMETOOLONG; ENETDOWN; ENETRESET; ENETUNREACH; ENFILE;
   ENOBUFS; ENODATA; ENODEV; ENOENT; ENOEXEC; ENOLCK; ENOLINK;
   ENOMEM; ENOMSG; ENOPROTOOPT; ENOSPC; ENOSR; ENOSTR; ENOSYS;
   ENOTCONN; ENOTDIR; ENOTEMPTY; ENOTRECOVERABLE; ENOTSOCK; ENOTSUP; ENOTTY;
   ENXIO; EOPNOTSUPP; EOVERFLOW; EOWNERDEAD; EPERM; EPIPE; EPROTO;
   EPROTONOSUPPORT; EPROTOTYPE; EROFS; ESPIPE; ESRCH; ESTALE; ETIME;
   ETIMEDOUT; ETXTBSY; EWOULDBLOCK; EXDEV].

(** ** open(2) and fcntl(2) flags (fcntl.h) *)
Definition O_ACCMODE : Z := 0x03.
Definition O_RDONLY : Z := 0x01.
Definition O_WRONLY : Z := 0x02.
Definition O_RDWR : Z := Z.lor O_RDONLY O_WRONLY.
Definition O_CF_MASK : Z := 0x00F0.
Definition O_CREAT : Z := 0x0010.
Definition O_EXCL : Z := 0x0020.
Definition O_NOCTTY : Z := 0x0040.
Definition O_TRUNC : Z := 0x0080.
Definition O_SF_MASK : Z := 0x0F00.
Definition O_APPEND : Z := 0x0100.
Definition O_NONBLOCK : Z := 0x0200.
Definition O_MASK : Z := Z.lor (Z.lor O_ACCMODE O_CF_MASK) O_SF_MASK.
Definition FD_MASK : Z := 0xF000.
Definition FD_CLOEXEC : Z := 0x1000.
Definition O_CLOEXEC : Z := FD_CLOEXEC.
Definition F_DUPFD : Z := 0x0001.
Definition F_GETFD : Z := 0x0002.
Definition F_SETFD : Z := 0x0004.
Definition F_GETFL : Z := 0x0008.
Definition F_SETFL : Z := 0x0010.

(** ** File modes (sys/stat.h) *)
Definition S_IFMT : Z := 0x00FF0000.
Definition S_IFBLK : Z := 0x00010000.
Definition S_IFCHR : Z := 0x00020000.
Definition S_IFIFO : Z := 0x00040000.
Definition S_IFREG : Z := 0x00080000.
Definition S_IFDIR : Z := 0x00100000.
Definition S_IFLNK : Z := 0x00200000.
Definition S_IFSOCK : Z := 0x00400000.
(** Octal 07777 and its parts. *)
Definition S_IPERM : Z := 0xFFF.
Definition S_IRWXU : Z := 0x1C0.
Definition S_IRWXG : Z := 0x038.
Definition S_IRWXO : Z := 0x007.

(** ** Process limits, [whence], standard descriptors (limits.h, unistd.h) *)
Definition OPEN_MAX : Z := 32.
Definition SEEK_SET : Z := 0.
Definition SEEK_CUR : Z := 1.
Definition SEEK_END : Z := 2.
Definition STDIN_FILENO : Z := 0.
Definition STDOUT_FILENO : Z := 1.
Definition STDERR_FILENO : Z := 2.

(** ** System calls (api/razos.h) *)
Inductive syscall_nr : Set :=
| SYS_EXIT | SYS_SCHED_YIELD | SYS_FORK | SYS_WAIT | SYS_READ | SYS_WRITE
| SYS_OPEN | SYS_CLOSE | SYS_CREAT | SYS_LSEEK | SYS_FCNTL | SYS_FSTAT
| SYS_SETUP | SYS_PIPE | SYS_BRK | SYS_SBRK | SYS_EXECVE | SYS_TIME.

Definition syscall_num (n : syscall_nr) : Z :=
  match n with
  | SYS_EXIT => 0 | SYS_SCHED_YIELD => 1 | SYS_FORK => 2 | SYS_WAIT => 3
  | SYS_READ => 4 | SYS_WRITE => 5 | SYS_OPEN => 6 | SYS_CLOSE => 7
  | SYS_CREAT => 8 | SYS_LSEEK => 9 | SYS_FCNTL => 10 | SYS_FSTAT => 11
  | SYS_SETUP => 12 | SYS_PIPE => 13 | SYS_BRK => 14 | SYS_SBRK => 15
  | SYS_EXECVE => 16 | SYS_TIME => 17
  end.

Definition SET_ERRNO_LOC : Z := 1.
Definition GET_USED_MEM : Z := 2.

(** ** Error messages (strerror.c)

    The initializer is a list of designated elements; element [0] is the
    empty string, and a number that no designator names is outside the array
    or a null pointer. *)
Definition str : list (Z * string) :=
  [(0, "");
   (errno_num EDOM, "Argument out of function domain");
   (errno_num ERANGE, "Result out of range");
   (errno_num EILSEQ, "Illegal byte sequence");
   (errno_num E2BIG, "Argument list too long");
   (errno_num EACCES, "Permission denied");
   (errno_num EADDRINUSE, "Address in use");
   (errno_num EADDRNOTAVAIL, "Address not available");
   (errno_num EAFNOSUPPORT, "Address family not supported");
   (errno_num EAGAIN, "Resource unavailable, try again");
   (errno_num EALREADY, "Connection already in progress");
   (errno_num EBADF, "Bad file descriptor");
   (errno_num EBADMSG, "Bad message");
   (errno_num EBUSY, "Device or resource busy");
   (errno_num ECANCELED, "Operation canceled");
   (errno_num ECHILD, "No child processes");
   (errno_num ECONNABORTED, "Connection aborted");
   (errno_num ECONNREFUSED, "Connection refused");
   (errno_num ECONNRESET, "Connection reset");
   (errno_num EDEADLK, "Resource deadlock would occur");
   (errno_num EDESTADDRREQ, "Destination address required");
   (errno_num EDQUOT, "Reserved");
   (errno_num EEXIST, "File exists");
   (errno_num EFAULT, "Bad address");
   (errno_num EFBIG, "File too large");
   (errno_num EHOSTUNREACH, "Host is unreachable");
   (errno_num EIDRM, "Identifier removed");
   (errno_num EINPROGRESS, "Operation in progress");
   (errno_num EINTR, "Interrupted function");
   (errno_num EINVAL, "Invalid argument");
   (errno_num EIO, "I/O error");
   (errno_num EISCONN, "Socket is connected");
   (errno_num EISDIR, "Is a directory");
   (errno_num ELOOP, "Too many levels of symbolic links");
   (errno_num EMFILE, "File descriptor value too large");
   (errno_num EMLINK, "Too many links");
   (errno_num EMSGSIZE, "Message too large");
   (errno_num EMULTIHOP, "Reserved");
   (errno_num ENAMETOOLONG, "Filename too long");
   (errno_num ENETDOWN, "Network is down");
   (errno_num ENETRESET, "Connection aborted by network");
   (errno_num ENETUNREACH, "Network unreachable");
   (errno_num ENFILE, "Too many files open in system");
   (errno_num ENOBUFS, "No buffer space available");
   (errno_num ENODATA, "No data available");
   (errno_num ENODEV, "No such device");
   (errno_num ENOENT, "No such file or directory");
   (errno_num ENOEXEC, "Executable file format error");
   (errno_num ENOLCK, "No locks available");
   (errno_num ENOLINK, "Reserved");
   (errno_num ENOMEM, "Not enough space");
   (errno_num ENOMSG, "No message of the desired type");
   (errno_num ENOPROTOOPT, "Protocol not available");
   (errno_num ENOSPC, "No space left on device");
   (errno_num ENOSR, "Out of streams resources");
   (errno_num ENOSTR, "Device not a stream");
   (errno_num ENOSYS, "Function not supported");
   (errno_num ENOTCONN, "The socket is not connected");
   (errno_num ENOTDIR, "Not a directory or a symlink to a directory");
   (errno_num ENOTEMPTY, "Directory not empty");
   (errno_num ENOTRECOVERABLE, "State not recoverable");
   (errno_num ENOTSOCK, "Not a socket");
   (errno_num ENOTSUP, "Not supported");
   (errno_num ENOTTY, "Inappropriate I/O control operation");
   (errno_num ENXIO, "No such device or address");
   (errno_num EOPNOTSUPP, "Operation not supported on socket");
   (errno_num EOVERFLOW, "Value too large to be stored in data type");
   (errno_num EOWNERDEAD, "Previous owner died");
   (errno_num EPERM, "Operation not permitted");
   (errno_num EPIPE, "Broken pipe");
   (errno_num EPROTO, "Protocol error");
   (errno_num EPROTONOSUPPORT, "Protocol not supported");
   (errno_num EPROTOTYPE, "Protocol wrong type for socket");
   (errno_num EROFS, "Read-only file system");
   (errno_num ESPIPE, "Invalid seek");
   (errno_num ESRCH, "No such process");
   (errno_num ESTALE, "Reserved");
   (errno_num ETIME, "Timer expired");
   (errno_num ETIMEDOUT, "Connection timed out");
   (errno_num ETXTBSY, "Text file busy");
   (errno_num EWOULDBLOCK, "Operation would block");
   (errno_num EXDEV, "Cross-device link")].

(** The array has one more element than its largest index. *)
Definition str_size : Z := 1 + foldr Z.max 0 (map fst str).

Definition strerror (err : Z) : option string :=
  if (0 <=? err) && (err <? str_size)
  then snd <$> find (λ p, fst p =? err) str
  else None.

(** ** Lemmas *)
Lemma errnos_numbered : map errno_num errnos = seqZ 1 81.
Proof. reflexivity. Qed.

(** The header numbers its errors consecutively from 1, so an error is
    recovered from its number and no two errors share one. *)
Lemma errnos_lookup e : aget errnos (errno_num e - 1) = Some e.
Proof. by destruct e; vm_compute. Qed.

Lemma errno_num_inj e1 e2 : errno_num e1 = errno_num e2 → e1 = e2.
Proof.
  intros H. apply (inj Some). by rewrite <- !errnos_lookup, H.
Qed.

(** A message found in the table is filed under the number asked for. *)
Lemma strerror_in n m : strerror n = Some m → (n, m) ∈ str.
Proof.
  unfold strerror. cif; [|done]. intros ([k m'] & Hf & ->)%fmap_Some.
  apply find_some in Hf as [Hin Hk]. apply list_elem_of_In. simpl in *.
  zbool. by subst.
Qed.

Lemma strerror_messages :
  forallb (λ e, match strerror (errno_num e) with
                | Some m => negb (String.eqb m "")
                | None => false
                end) errnos = true.
Proof. vm_compute. reflexivity. Qed.

Lemma errnos_complete e : e ∈ errnos.
Proof.
  pose proof (errnos_lookup e) as H. unfold aget in H. cif; [done|].
  by eapply list_elem_of_lookup_2.
Qed.

Lemma strerror_numbers :
  forallb (λ n, match strerror n with Some _ => true | None => false end)
    (seqZ 0 82) = true.
Proof. vm_compute. reflexivity. Qed.

(** [strerror] has a nonempty message for every error number of the
    header, filed in the table under that number; it has a message for exactly
    the numbers 0..81, and every other number is outside its array. *)
Theorem strerror_total :
  (∀ e, ∃ m, strerror (errno_num e) = Some m ∧ (errno_num e, m) ∈ str
             ∧ m ≠ ""%string) ∧
  (∀ n, is_Some (strerror n) ↔ 0 ≤ n ≤ 81).
Proof.
  split.
  - intros e.
    pose proof strerror_messages as Hall. rewrite forallb_forall in Hall.
    specialize (Hall e ltac:(apply list_elem_of_In, errnos_complete)).
    destruct (strerror e) as [m|] eqn:Hm; [|done].
    exists m. split_and!; [done|by apply strerror_in|by intros ->].
  - intros n. split.
    + intros [m Hm]. unfold strerror in Hm. change str_size with 82 in Hm.
      cif; [lia|done].
    + intros Hn.
      pose proof (forallb_range _ _ _ strerror_numbers n ltac:(lia)) as H.
      cbv beta in H. destruct (strerror n); [by eexists|discriminate].
Qed.
