(* ===== verification/Paging.v ===== *)
(** * Paging: physical frames, page tables and address spaces

    [kernel/src/mm/paging.c].  Page tables and page directories are objects in a
    store, by address, so that two directories can share a table as [clone_page_dir]
    makes them.  The page allocator [kmalloc_pa] comes through the interface
    [PageAlloc]; [pre_paging] is the allocator the kernel boots with. *)

From S2P Require Import Prelude Headers.

(** ** paging.h *)
Definition KSTACK_BEGIN : Z := 0x0FC00000.
Definition KSTACK_END : Z := 0x0FFFFFF0.
Definition UMEM_BEGIN : Z := 0x10000000.
Definition USTACK_BEGIN : Z := 0xFFC00000.
Definition USTACK_END : Z := 0xFFFFFFF0.

Definition PF_PRES : Z := 1.
Definition PF_RW : Z := 2.
Definition PF_USER : Z := 4.
Definition PF_WTC : Z := 8.
Definition PF_NOC : Z := 16.
Definition PF_ACC : Z := 32.
Definition PF_DIRTY : Z := 64.
Definition PF_SIZE : Z := 128.
Definition PF_GLO : Z := 256.

Definition PAGE_SIZE : Z := 4096.

(** One-bit fields are booleans, wider ones integers. *)
Record page_t := Page {
  present : bool; rw : bool; user : bool; wt_caching : bool; nocache : bool;
  accessed : bool; dirty : bool; zero : bool; global : bool; avail : Z; frame : Z
}.

Record pg_dir_entry_t := Pde {
  d_present : bool; d_rw : bool; d_user : bool; d_wt_caching : bool; d_nocache : bool;
  d_accessed : bool; d_zero : bool; d_size : bool; d_global : bool; d_avail : Z;
  d_table : Z
}.

Record page_dir_t := PageDir {
  tables : list Z;
  tables_phys : list pg_dir_entry_t
}.

(** What [memset] to zero makes of them. *)
Definition page_zero : page_t :=
  Page false false false false false false false false false 0 0.
Definition pde_zero : pg_dir_entry_t :=
  Pde false false false false false false false false false 0 0.
Definition tab_zero : list page_t := replicate 1024 page_zero.
Definition dir_zero : page_dir_t := PageDir (replicate 1024 0) (replicate 1024 pde_zero).

(** The statics of the file, the directory that is loaded, the objects by
    address, the contents of the physical frames by physical address, [errno], and register
    [cr3]: the physical address of the entries of the loaded directory. *)
Record mm := Mm {
  frames : list Z;
  memsize : Z;
  identity_end : Z;
  cur_page_dir : Z;
  cr3 : Z;
  dirs : gmap Z page_dir_t;
  tabs : gmap Z (list page_t);
  ram : gmap Z (list Z);
  errno : Z;
  cr3_phys : Z
}.

Definition with_frames (f : list Z) (s : mm) : mm :=
  Mm f (memsize s) (identity_end s) (cur_page_dir s) (cr3 s) (dirs s)
    (tabs s) (ram s) (errno s) (cr3_phys s).
Definition with_errno (e : Z) (s : mm) : mm :=
  Mm (frames s) (memsize s) (identity_end s) (cur_page_dir s) (cr3 s) (dirs s)
    (tabs s) (ram s) e (cr3_phys s).
Definition with_identity_end (e : Z) (s : mm) : mm :=
  Mm (frames s) (memsize s) e (cur_page_dir s) (cr3 s) (dirs s)
    (tabs s) (ram s) (errno s) (cr3_phys s).
Definition with_dirs (d : gmap Z page_dir_t) (s : mm) : mm :=
  Mm (frames s) (memsize s) (identity_end s) (cur_page_dir s) (cr3 s) d (tabs s)
    (ram s) (errno s) (cr3_phys s).
Definition with_tabs (t : gmap Z (list page_t)) (s : mm) : mm :=
  Mm (frames s) (memsize s) (identity_end s) (cur_page_dir s) (cr3 s) (dirs s)
    t (ram s) (errno s) (cr3_phys s).
Definition with_cr3 (p phys : Z) (s : mm) : mm :=
  Mm (frames s) (memsize s) (identity_end s) (cur_page_dir s) p (dirs s) (tabs s) (ram s)
    (errno s) phys.
Definition with_ram (r : gmap Z (list Z)) (s : mm) : mm :=
  Mm (frames s) (memsize s) (identity_end s) (cur_page_dir s) (cr3 s) (dirs s)
    (tabs s) r (errno s) (cr3_phys s).

(** ** The frame bitmap: a set bit is a frame in use *)
Definition FRAMES_FROM_BYTES (b : Z) : Z := b / PAGE_SIZE / 32.
Definition NFRAMEWORDS : Z := FRAMES_FROM_BYTES 0xFFFFFFFF.

Definition set_frame (addr : Z) (s : mm) : res mm :=
  let f := Z.shiftr addr 12 in
  let* w := deref (aget (frames s) (f / 32)) in
  let* fs := deref (aset (frames s) (f / 32) (Z.lor w (Z.shiftl 1 (f mod 32)))) in
  Ok (with_frames fs s).

Definition clear_frame (addr : Z) (s : mm) : res mm :=
  let f := Z.shiftr addr 12 in
  let* w := deref (aget (frames s) (f / 32)) in
  let* fs := deref (aset (frames s) (f / 32) (clr w (Z.shiftl 1 (f mod 32)))) in
  Ok (with_frames fs s).

(** The inner loop: the lowest clear bit of [w] from [j] on. *)
Fixpoint find_free_bit (n : nat) (j w : Z) : option Z :=
  match n with
  | O => None
  | S n => if Z.land w (Z.shiftl 1 j) =? 0 then Some j else find_free_bit n (j + 1) w
  end.

Fixpoint find_free_word (n : nat) (i : Z) (fs : list Z) : res Z :=
  match n with
  | O => Ok 0xFFFFFFFF
  | S n =>
      let* w := deref (aget fs i) in
      if negb (w =? 0xFFFFFFFF) then
        match find_free_bit 32 0 w with
        | Some j => Ok (u32 (Z.shiftl (i * 32 + j) 12))
        | None => find_free_word n (i + 1) fs
        end
      else find_free_word n (i + 1) fs
  end.

Definition find_free_frame (s : mm) : res Z :=
  find_free_word (Z.to_nat (memsize s / 32)) 0 (frames s).

(** The test is [== 1], which only bit 0 of a word can meet. *)
Definition get_used_frames (s : mm) : res Z :=
  for_range 0 (memsize s / 32) (λ i ret,
    let* w := deref (aget (frames s) i) in
    for_range 0 32 (λ j ret,
      Ok (if Z.land w (Z.shiftl 1 j) =? 1 then u32 (ret + 1) else ret)) ret) 0.

Definition frame_alloc (s : mm) : res (Z * mm) :=
  let* addr := find_free_frame s in
  if addr =? 0xFFFFFFFF then Ok (0, with_errno ENOMEM s)
  else let* s := set_frame addr s in Ok (addr, s).

Definition frame_free (addr : Z) (s : mm) : res mm := clear_frame addr s.

(** kmalloc.c, [round_up] for a power of two. *)
Definition round_up (num align : Z) : Z :=
  if negb (Z.land num (align - 1) =? 0) then
    let num := u32 (num + align) in num - Z.rem num align
  else num.

(** ** Address spaces *)
Definition dir_index (addr : Z) : Z := Z.land (Z.shiftr addr 22) 1023.
Definition tab_index (addr : Z) : Z := Z.land (Z.shiftr addr 12) 1023.

Definition get_phys (addr pd : Z) (s : mm) : res Z :=
  let offset := Z.land addr (PAGE_SIZE - 1) in
  let* d := deref (dirs s !! pd) in
  let* p := deref (aget (tables d) (dir_index addr)) in
  if p =? 0 then Ok 0
  else
    let* t := deref (tabs s !! p) in
    let* e := deref (aget t (tab_index addr)) in
    if negb (present e) then Ok 0
    else Ok (u32 (Z.shiftl (frame e) 12 + offset)).

#[global] Arguments dir_index : simpl never.
#[global] Arguments tab_index : simpl never.

(** The flags of the directory entry above those of the page. *)
Definition page_flags (addr pd : Z) (s : mm) : res Z :=
  let* d := deref (dirs s !! pd) in
  let* e := deref (aget (tables_phys d) (dir_index addr)) in
  let bit (b : bool) k := Z.shiftl (Z.b2z b) k in
  let flags := 0 in
  let flags := Z.lor flags (bit (d_present e) 0) in
  let flags := Z.lor flags (bit (d_rw e) 1) in
  let flags := Z.lor flags (bit (d_user e) 2) in
  let flags := Z.lor flags (bit (d_wt_caching e) 3) in
  let flags := Z.lor flags (bit (d_nocache e) 4) in
  let flags := Z.lor flags (bit (d_accessed e) 5) in
  let flags := Z.lor flags (bit (d_zero e) 6) in
  let flags := Z.lor flags (bit (d_size e) 7) in
  let flags := Z.lor flags (bit (d_global e) 8) in
  let flags := u32 (Z.shiftl flags 16) in
  let* p := deref (aget (tables d) (dir_index addr)) in
  if negb (p =? 0) && (Z.land flags (Z.shiftl PF_PRES 16) =? Z.shiftl PF_PRES 16) then
    let* t := deref (tabs s !! p) in
    let* e := deref (aget t (tab_index addr)) in
    let flags := Z.lor flags (bit (present e) 0) in
    let flags := Z.lor flags (bit (rw e) 1) in
    let flags := Z.lor flags (bit (user e) 2) in
    let flags := Z.lor flags (bit (wt_caching e) 3) in
    let flags := Z.lor flags (bit (nocache e) 4) in
    let flags := Z.lor flags (bit (accessed e) 5) in
    let flags := Z.lor flags (bit (dirty e) 6) in
    let flags := Z.lor flags (bit (zero e) 7) in
    let flags := Z.lor flags (bit (global e) 8) in
    Ok flags
  else Ok flags.

(** The entries that [page_map] writes. *)
Definition new_pde (flags table : Z) (e : pg_dir_entry_t) : pg_dir_entry_t :=
  Pde true (has flags PF_RW) (has flags PF_USER) (has flags PF_WTC)
    (has flags PF_NOC) (has flags PF_ACC) false false (has flags PF_GLO)
    (d_avail e) table.

Definition pde_rw (flags : Z) (e : pg_dir_entry_t) : pg_dir_entry_t :=
  Pde (d_present e) (d_rw e || has flags PF_RW) (d_user e) (d_wt_caching e)
    (d_nocache e) (d_accessed e) (d_zero e) (d_size e) (d_global e) (d_avail e)
    (d_table e).

Definition new_page (flags fr : Z) (e : page_t) : page_t :=
  Page (has flags PF_PRES) (has flags PF_RW) (has flags PF_USER) (has flags PF_WTC)
    (has flags PF_NOC) (has flags PF_ACC) (has flags PF_DIRTY) false
    (has flags PF_GLO) (avail e) (Z.land (Z.shiftr fr 12) 0xFFFFF).

Definition set_table (pd i p : Z) (s : mm) : res mm :=
  let* d := deref (dirs s !! pd) in
  let* ts := deref (aset (tables d) i p) in
  Ok (with_dirs (<[pd := PageDir ts (tables_phys d)]> (dirs s)) s).

Definition update_pde (pd i : Z) (f : pg_dir_entry_t → pg_dir_entry_t) (s : mm)
    : res mm :=
  let* d := deref (dirs s !! pd) in
  let* e := deref (aget (tables_phys d) i) in
  let* es := deref (aset (tables_phys d) i (f e)) in
  Ok (with_dirs (<[pd := PageDir (tables d) es]> (dirs s)) s).

Definition update_page (pd addr : Z) (f : page_t → page_t) (s : mm) : res mm :=
  let* d := deref (dirs s !! pd) in
  let* p := deref (aget (tables d) (dir_index addr)) in
  let* t := deref (tabs s !! p) in
  let* e := deref (aget t (tab_index addr)) in
  let* t := deref (aset t (tab_index addr) (f e)) in
  Ok (with_tabs (<[p := t]> (tabs s)) s).

(** ** Well-formed address spaces *)

(** Both halves of a directory have 1024 slots, a table hangs in one slot only,
    and the tables have 1024 entries. *)
Definition dir_shape (s : mm) (d : page_dir_t) : Prop :=
  length (tables d) = 1024%nat ∧ length (tables_phys d) = 1024%nat ∧
  (∀ i p, aget (tables d) i = Some p → p ≠ 0 →
     ∃ t, tabs s !! p = Some t ∧ length t = 1024%nat) ∧
  (∀ i j p, aget (tables d) i = Some p → aget (tables d) j = Some p → p ≠ 0 → i = j).

(** Both halves agree on which tables exist. *)
Definition dir_present (d : page_dir_t) : Prop :=
  ∀ i p e, aget (tables d) i = Some p → p ≠ 0 → aget (tables_phys d) i = Some e →
    d_present e = true.

Definition mm_shape (s : mm) : Prop := map_Forall (λ _, dir_shape s) (dirs s).
Definition mm_ok (s : mm) : Prop :=
  mm_shape s ∧ map_Forall (λ _, dir_present) (dirs s).

(** The entry for an address, when its table exists. *)
Definition entry_of (s : mm) (pd addr : Z) : option page_t :=
  d ← dirs s !! pd;
  p ← aget (tables d) (dir_index addr);
  if p =? 0 then None else
  t ← tabs s !! p;
  aget t (tab_index addr).

(** The slot (table, index) that holds the entry. *)
Definition slot_of (s : mm) (pd addr : Z) : option (Z * Z) :=
  d ← dirs s !! pd;
  p ← aget (tables d) (dir_index addr);
  if p =? 0 then None else Some (p, tab_index addr).

Definition is_mapped (s : mm) (pd addr : Z) (e : page_t) : Prop :=
  entry_of s pd addr = Some e ∧ present e = true.

(** What may happen to the address spaces while memory is allocated: new pages
    are mapped, no table moves. *)
Definition keeps_entries (s s' : mm) : Prop :=
  ∀ pd addr e, is_mapped s pd addr e → is_mapped s' pd addr e.

Definition keeps_mapped (s s' : mm) : Prop :=
  (∀ pd, tables <$> dirs s' !! pd = tables <$> dirs s !! pd) ∧ keeps_entries s s'.

(** The kernel's directory and the one that is loaded. *)
Definition spaces (s : mm) : Z * Z := (cur_page_dir s, cr3 s).

(** No directory uses the table at [p]. *)
Definition fresh_table (s : mm) (p : Z) : Prop :=
  p ≠ 0 ∧ tabs s !! p = None.

(** The bitmap is whole, and memory does not exceed it. *)
Definition frames_ok (s : mm) : Prop :=
  length (frames s) = Z.to_nat NFRAMEWORDS ∧
  Forall (λ w, 0 ≤ w < 2 ^ 32) (frames s) ∧
  0 ≤ memsize s ≤ 32 * NFRAMEWORDS.

(** ** The page allocator

    [pa_inv n] is its invariant with room for [n] more bytes in the address
    space. *)
Class PageAlloc := {
  kmalloc_pa : Z → mm → res (Z * mm);
  kfree_pa : Z → mm → res mm;
  pa_inv : Z → mm → Prop;
  (** It returns [NULL] or a block that no table lies in. *)
  kmalloc_pa_ok : ∀ size k s,
    mm_ok s → pa_inv (size + PAGE_SIZE + k) s → 0 < size → 0 ≤ k →
    ∃ p s', kmalloc_pa size s = Ok (p, s') ∧ mm_ok s' ∧ pa_inv k s' ∧
      keeps_mapped s s' ∧ spaces s' = spaces s ∧
      (frames_ok s → frames_ok s') ∧
      (p ≠ 0 → fresh_table s' p ∧
         ∀ t, pa_inv k (with_tabs (<[p := t]> (tabs s')) s'));
  (** Its invariant does not look into the directories and tables. *)
  pa_inv_ext : ∀ n s s', pa_inv n s →
    identity_end s' = identity_end s → memsize s' = memsize s →
    dom (tabs s') = dom (tabs s) → dom (dirs s') = dom (dirs s) → pa_inv n s';
  pa_inv_le : ∀ n k s, pa_inv n s → k ≤ n → pa_inv k s
}.

Section paging.
Context {PA : PageAlloc}.

Definition create_page_dir (s : mm) : res (Z * mm) :=
  let* (p, s) := kmalloc_pa (2 * 1024 * 4) s in
  if p =? 0 then Ok (0, s)
  else Ok (p, with_dirs (<[p := dir_zero]> (dirs s)) s).

(** The part of [page_map] that makes a missing table; [false] when there is no
    memory. *)
Definition make_table (pd dir_i flags : Z) (s : mm) : res (bool * mm) :=
  let* d := deref (dirs s !! pd) in
  let* p := deref (aget (tables d) dir_i) in
  if p =? 0 then
    let* (p, s) := kmalloc_pa (1024 * 4) s in
    let* s := set_table pd dir_i p s in
    if p =? 0 then Ok (false, with_errno ENOMEM s)
    else
      let s := with_tabs (<[p := tab_zero]> (tabs s)) s in
      let* phys := get_phys p pd s in
      let* s := update_pde pd dir_i (new_pde flags (Z.shiftr phys 12)) s in
      Ok (true, s)
  else Ok (true, s).

Definition page_map (addr fr flags pd : Z) (s : mm) : res (Z * mm) :=
  let addr := clr addr (PAGE_SIZE - 1) in
  let* (ok, s) := make_table pd (dir_index addr) flags s in
  if negb ok then Ok (0, s)
  else
    let* s := update_page pd addr (new_page flags fr) s in
    let* s := update_pde pd (dir_index addr) (pde_rw flags) s in
    Ok (addr, s).

(** [memcpy((void* )dst, (void* )src, PAGE_SIZE)] on page-aligned addresses of the
    address space in [cr3]; an address that is not mapped is a page fault, which
    panics. *)
Definition page_frame (addr : Z) (s : mm) : res Z :=
  match entry_of s (cr3 s) addr with
  | Some e => if present e then Ok (Z.shiftl (frame e) 12) else Panic
  | None => Panic
  end.

Definition copy_page (dst src : Z) (s : mm) : res mm :=
  let* fs := page_frame src s in
  let* fd := page_frame dst s in
  let* c := deref (ram s !! fs) in
  Ok (with_ram (<[fd := c]> (ram s)) s).

(** One turn of each loop of [clone_page_dir]. *)
Definition link_table (new old i : Z) (s : mm) : res mm :=
  let* o := deref (dirs s !! old) in
  let* p := deref (aget (tables o) i) in
  let* e := deref (aget (tables_phys o) i) in
  let* s := set_table new i p s in
  update_pde new i (λ _, e) s.

Definition clone_page (new old i : Z) (s : mm) : res mm :=
  let* flags := page_flags i old s in
  if negb (has flags PF_PRES) then Ok s
  else
    let* (fr, s) := frame_alloc s in
    let* (_, s) := page_map 0 fr (Z.lor PF_PRES PF_RW) (cur_page_dir s) s in
    let* s := copy_page 0 i s in
    let* (_, s) := page_map 0 0 0 (cur_page_dir s) s in
    let* (_, s) := page_map i fr flags new s in
    Ok s.

(** The second loop ends when [i] wraps to zero: it visits every page from
    [KSTACK_BEGIN] on, here by page number. *)
Definition clone_page_dir (new old : Z) (s : mm) : res mm :=
  let* s := for_range 0 (KSTACK_BEGIN / (1024 * PAGE_SIZE - 1))
              (λ i, link_table new old i) s in
  for_range (KSTACK_BEGIN / PAGE_SIZE) (2 ^ 20)
    (λ n, clone_page new old (n * PAGE_SIZE)) s.

Definition clear_page_dir (pd : Z) (s : mm) : res mm :=
  for_range (KSTACK_BEGIN / (1023 * PAGE_SIZE)) 1024 (λ i s,
    let* d := deref (dirs s !! pd) in
    let* p := deref (aget (tables d) i) in
    if p =? 0 then Ok s
    else let* s := kfree_pa p s in Ok (with_tabs (delete p (tabs s)) s)) s.

(** [tables_phys] is 4096 bytes into the structure. *)
Definition get_page_dir_phys (pd : Z) (s : mm) : res Z := get_phys (u32 (pd + 4096)) pd s.

Definition set_page_dir (pd : Z) (s : mm) : res mm :=
  let* phys_addr := get_page_dir_phys pd s in Ok (with_cr3 pd phys_addr s).

(** ** Start-up *)
Record memory_map := Region { base_addr_low : Z; length_low : Z; mtype : Z }.

Fixpoint register_region_loop (fuel : nat) (r : memory_map) (offset ret : Z) (s : mm)
    : res (Z * mm) :=
  match fuel with
  | O => Fuel
  | S fuel =>
      if u32 (offset + PAGE_SIZE) <=? length_low r then
        let addr := u32 (base_addr_low r + offset) in
        let* s := (if addr <? identity_end s then Ok s else frame_free addr s) in
        register_region_loop fuel r (u32 (offset + PAGE_SIZE)) (u32 (ret + 1)) s
      else Ok (ret, s)
  end.

Definition register_mem_region (fuel : nat) (r : memory_map) (s : mm) : res (Z * mm) :=
  register_region_loop fuel r 0 0 s.

Fixpoint register_mem (fuel : nat) (mmap : list memory_map) (ret : Z) (s : mm)
    : res (Z * mm) :=
  match mmap with
  | [] => Ok (ret, s)
  | r :: mmap =>
      let* (ret, s) :=
        (if mtype r =? 1 then
           let* (n, s) := register_mem_region fuel r s in Ok (u32 (ret + n), s)
         else Ok (ret, s)) in
      register_mem fuel mmap ret s
  end.

Definition set_alloc_start (addr : Z) (s : mm) : Z * mm :=
  let s := if identity_end s <? addr then with_identity_end addr s else s in
  (identity_end s, s).

(** One turn of the loop of [identity_map]; [identity_end] is read again by each
    test of the loop, since [page_map] may allocate. *)
Fixpoint identity_loop (fuel : nat) (i : Z) (s : mm) : res mm :=
  match fuel with
  | O => Fuel
  | S fuel =>
      if i <? identity_end s then
        let* s := set_frame i s in
        let* (_, s) := page_map i i (Z.lor PF_PRES PF_RW) (cur_page_dir s) s in
        identity_loop fuel (u32 (i + PAGE_SIZE)) s
      else Ok s
  end.

Definition identity_map (fuel : nat) (s : mm) : res mm :=
  let s := if negb (Z.land (identity_end s) (PAGE_SIZE * 1024 - 1) =? 0)
           then with_identity_end
                  (clr (u32 (identity_end s + PAGE_SIZE * 1024)) (PAGE_SIZE * 1024 - 1)) s
           else s in
  let* s := set_frame 0 s in
  identity_loop fuel PAGE_SIZE s.

Definition create_kstack (s : mm) : res mm :=
  for_range (KSTACK_BEGIN / PAGE_SIZE) (KSTACK_END / PAGE_SIZE + 1) (λ n s,
    let* (fr, s) := frame_alloc s in
    let* (_, s) := page_map (n * PAGE_SIZE) fr (Z.lor PF_PRES PF_RW) (cur_page_dir s) s in
    Ok s) s.

(** One kernel page table of [paging_init]. *)
Definition init_table (i : Z) (s : mm) : res mm :=
  let* (p, s) := kmalloc_pa (1024 * 4) s in
  let* s := set_table (cur_page_dir s) i p s in
  if p =? 0 then Panic
  else
    let s := with_tabs (<[p := tab_zero]> (tabs s)) s in
    update_pde (cur_page_dir s) i
      (λ e, Pde true true false false false false false false false (d_avail e)
                (Z.shiftr p 12)) s.

(** [end_of_image] comes from the linker, [initrd_end] and [mmap] from the boot
    loader.  The code also calls [kvm_init(identity_end)] and sets the paging bit. *)
Definition paging_init (fuel : nat) (end_of_image initrd_end : Z)
    (mmap : list memory_map) (s : mm) : res mm :=
  let s := with_identity_end 0 s in
  let s := with_frames (replicate (Z.to_nat NFRAMEWORDS) 0) s in
  let (_, s) := set_alloc_start end_of_image s in
  let (_, s) := set_alloc_start initrd_end s in
  let* (n, s) := register_mem fuel mmap 0 s in
  let s := Mm (frames s) (clr n 31) (identity_end s) (cur_page_dir s) (cr3 s) (dirs s)
              (tabs s) (ram s) (errno s) (cr3_phys s) in
  let* (p, s) := create_page_dir s in
  let s := Mm (frames s) (memsize s) (identity_end s) p (cr3 s) (dirs s) (tabs s) (ram s)
              (errno s) (cr3_phys s) in
  if p =? 0 then Panic
  else
    let* s := for_range 0 (KSTACK_END / (PAGE_SIZE * 1023)) init_table s in
    let* s := identity_map fuel s in
    let* s := create_kstack s in
    set_page_dir (cur_page_dir s) s.
End paging.

(** ** The allocator before paging: kmalloc.c, [pre_paging_kmalloc] *)
Definition pre_paging_kmalloc (size align : Z) (s : mm) : res (Z * mm) :=
  let (cur_alloc_start, s) := set_alloc_start 0 s in
  let cur_alloc_start := round_up cur_alloc_start align in
  let ret := cur_alloc_start in
  let (_, s) := set_alloc_start (u32 (cur_alloc_start + size)) s in
  Ok (ret, s).

(** ** Lemmas: the frame bitmap *)

(** Frame number [n] is in use. *)
Definition frame_bit (fs : list Z) (n : Z) : bool :=
  match aget fs (n / 32) with Some w => Z.testbit w (n mod 32) | None => false end.

Lemma NFRAMEWORDS_eq : NFRAMEWORDS = 32767.
Proof. reflexivity. Qed.

Lemma aget_forall {A} (P : A → Prop) l i x : Forall P l → aget l i = Some x → P x.
Proof.
  intros H E. unfold aget in E. cif; [done|]. eapply Forall_lookup_1; eauto.
Qed.

Lemma aset_forall {A} (P : A → Prop) l l' i x :
  Forall P l → P x → aset l i x = Some l' → Forall P l'.
Proof. intros H Hx [_ ->]%aset_inv. by apply Forall_insert. Qed.

(** A word of the bitmap is replaced: what happens to the bits. *)
Lemma frame_bit_aset fs fs' i w n :
  0 ≤ n → aset fs i w = Some fs' →
  frame_bit fs' n = if n / 32 =? i then Z.testbit w (n mod 32) else frame_bit fs n.
Proof.
  intros Hn E. unfold frame_bit. destruct (Z.eqb_spec (n / 32) i) as [<-|Hne].
  - by rewrite (aget_aset_eq _ _ _ _ E).
  - by rewrite (aget_aset_ne _ _ _ _ _ E) by congruence.
Qed.

Lemma shiftl_1_bits j k : 0 ≤ j → 0 ≤ k → Z.testbit (Z.shiftl 1 j) k = (j =? k).
Proof.
  intros Hj Hk. rewrite Z.shiftl_mul_pow2, Z.mul_1_l by lia.
  apply Z.pow2_bits_eqb. lia.
Qed.

Lemma within_word w : within (Z.ones 32) w ↔ 0 ≤ w < 2 ^ 32.
Proof. apply within_ones. lia. Qed.

Lemma bit_in_word j : 0 ≤ j < 32 → 0 ≤ Z.shiftl 1 j < 2 ^ 32.
Proof.
  intros Hj. rewrite Z.shiftl_mul_pow2, Z.mul_1_l by lia. split; [lia|].
  apply Z.pow_lt_mono_r; lia.
Qed.

(** The word of a frame of the bitmap. *)
Lemma frame_word s addr :
  frames_ok s → 0 ≤ addr → addr / 4096 < 32 * NFRAMEWORDS →
  ∃ w, aget (frames s) (Z.shiftr addr 12 / 32) = Some w ∧ 0 ≤ w < 2 ^ 32.
Proof.
  intros (Hl & Hw & _) Ha Hn. rewrite Z.shiftr_div_pow2 by lia. change (2 ^ 12) with 4096.
  destruct (aget_is_Some (frames s) (addr / 4096 / 32)) as [w E].
  { rewrite Hl, NFRAMEWORDS_eq in *. Z.div_mod_to_equations. lia. }
  exists w. split; [done|]. exact (aget_forall _ _ _ _ Hw E).
Qed.

Lemma same_frame n m : (n / 32 =? m / 32) && (n mod 32 =? m mod 32) = (n =? m).
Proof. Z.div_mod_to_equations. lia. Qed.

(** Both updates of a bit of the bitmap, by the update [g] of the bit. *)
Lemma update_frame s addr (f : Z → Z) (g : bool → bool) :
  frames_ok s → 0 ≤ addr → addr / 4096 < 32 * NFRAMEWORDS →
  (∀ w, 0 ≤ w < 2 ^ 32 → 0 ≤ f w < 2 ^ 32 ∧
     ∀ k, 0 ≤ k < 32 → Z.testbit (f w) k
       = if k =? addr / 4096 mod 32 then g (Z.testbit w k) else Z.testbit w k) →
  ∃ fs', (let* w := deref (aget (frames s) (Z.shiftr addr 12 / 32)) in
          let* fs := deref (aset (frames s) (Z.shiftr addr 12 / 32) (f w)) in
          Ok (with_frames fs s)) = Ok (with_frames fs' s) ∧
    frames_ok (with_frames fs' s) ∧
    ∀ n, 0 ≤ n → frame_bit fs' n
      = if n =? addr / 4096 then g (frame_bit (frames s) n) else frame_bit (frames s) n.
Proof.
  intros Hok Ha Hn Hf. destruct (frame_word s addr Hok Ha Hn) as (w & E & Hw).
  destruct (Hf w Hw) as [Hfw Hbits]. destruct Hok as (Hl & Hall & Hms). rewrite E. simpl.
  assert (Hi := aget_range _ _ _ E).
  rewrite aset_Some by done. simpl. eexists. split; [done|].
  assert (Es := aset_Some (frames s) (Z.shiftr addr 12 / 32) (f w) Hi).
  split.
  - split; [simpl; by rewrite length_insert|]. split; [by apply Forall_insert|exact Hms].
  - intros n Hn0. rewrite (frame_bit_aset _ _ _ _ _ Hn0 Es).
    rewrite Z.shiftr_div_pow2 in * by lia. change (2 ^ 12) with 4096 in *.
    rewrite <- (same_frame n (addr / 4096)).
    destruct (Z.eqb_spec (n / 32) (addr / 4096 / 32)) as [Eq|]; simpl; [|done].
    rewrite Hbits by (apply Z.mod_pos_bound; lia). unfold frame_bit. rewrite Eq, E.
    done.
Qed.

Lemma set_frame_spec s addr :
  frames_ok s → 0 ≤ addr → addr / 4096 < 32 * NFRAMEWORDS →
  ∃ fs', set_frame addr s = Ok (with_frames fs' s) ∧ frames_ok (with_frames fs' s) ∧
    ∀ n, 0 ≤ n → frame_bit fs' n
      = if n =? addr / 4096 then true else frame_bit (frames s) n.
Proof.
  intros Hok Ha Hn. unfold set_frame. apply (update_frame s addr _ (λ _, true)); try done.
  rewrite Z.shiftr_div_pow2 by lia. change (2 ^ 12) with 4096.
  pose proof (Z.mod_pos_bound (addr / 4096) 32 ltac:(lia)) as Hj.
  intros w Hw. split.
  - apply within_word, within_lor; apply within_word; [done|by apply bit_in_word].
  - intros k Hk. rewrite Z.lor_spec, shiftl_1_bits, (Z.eqb_sym _ k) by lia.
    destruct (k =? _); [apply orb_true_r|apply orb_false_r].
Qed.

Lemma clear_frame_spec s addr :
  frames_ok s → 0 ≤ addr → addr / 4096 < 32 * NFRAMEWORDS →
  ∃ fs', clear_frame addr s = Ok (with_frames fs' s) ∧ frames_ok (with_frames fs' s) ∧
    ∀ n, 0 ≤ n → frame_bit fs' n
      = if n =? addr / 4096 then false else frame_bit (frames s) n.
Proof.
  intros Hok Ha Hn. unfold clear_frame. apply (update_frame s addr _ (λ _, false)); try done.
  rewrite Z.shiftr_div_pow2 by lia. change (2 ^ 12) with 4096.
  pose proof (Z.mod_pos_bound (addr / 4096) 32 ltac:(lia)) as Hj.
  intros w Hw. split.
  - apply within_word, within_clr, within_word. done.
  - intros k Hk. rewrite testbit_clr, shiftl_1_bits, (Z.eqb_sym _ k) by lia.
    destruct (k =? _); [apply andb_false_r|apply andb_true_r].
Qed.

Lemma bit_clear w j : 0 ≤ j → (Z.land w (Z.shiftl 1 j) =? 0) = negb (Z.testbit w j).
Proof.
  intros Hj. rewrite Z.shiftl_mul_pow2, Z.mul_1_l by lia.
  rewrite <- has_bit by done. unfold has. by rewrite negb_involutive.
Qed.

Lemma find_free_bit_spec n j w : 0 ≤ j →
  match find_free_bit n j w with
  | Some k => j ≤ k < j + Z.of_nat n ∧ Z.testbit w k = false ∧
              ∀ i, j ≤ i < k → Z.testbit w i = true
  | None => ∀ i, j ≤ i < j + Z.of_nat n → Z.testbit w i = true
  end.
Proof.
  revert j. induction n as [|n IH]; intros j Hj; cbn [find_free_bit]; [lia|].
  rewrite bit_clear by done. destruct (Z.testbit w j) eqn:E; simpl.
  - specialize (IH (j + 1) ltac:(lia)).
    assert (Hcons : ∀ i, j ≤ i → (j + 1 ≤ i → Z.testbit w i = true) → Z.testbit w i = true).
    { intros i Hi H. destruct (decide (i = j)) as [->|]; [done|]. apply H. lia. }
    destruct (find_free_bit n (j + 1) w) as [k|].
    + destruct IH as (Hk & Hc & Hs). split_and!; [lia|lia|done|].
      intros i Hi. apply Hcons; [lia|]. intros. apply Hs. lia.
    + intros i Hi. apply Hcons; [lia|]. intros. apply IH. lia.
  - split_and!; [lia..|done|lia].
Qed.

Lemma all_bits_set w : 0 ≤ w < 2 ^ 32 →
  (∀ i, 0 ≤ i < 32 → Z.testbit w i = true) ↔ w = 0xFFFFFFFF.
Proof.
  intros Hw. split.
  - intros H. apply Z.bits_inj'. intros i Hi. change 0xFFFFFFFF with (Z.ones 32).
    destruct (Z_lt_le_dec i 32).
    + rewrite H, Z.ones_spec_low by lia. done.
    + rewrite (testbit_high w 32), Z.ones_spec_high by lia. done.
  - intros -> i Hi. change 0xFFFFFFFF with (Z.ones 32). apply Z.ones_spec_low. lia.
Qed.

Lemma frame_bit_word fs i w k :
  aget fs i = Some w → 0 ≤ k < 32 → frame_bit fs (i * 32 + k) = Z.testbit w k.
Proof.
  intros E Hk. unfold frame_bit.
  replace ((i * 32 + k) / 32) with i by (Z.div_mod_to_equations; lia).
  replace ((i * 32 + k) mod 32) with k by (Z.div_mod_to_equations; lia).
  by rewrite E.
Qed.

#[local] Arguments find_free_bit : simpl never.

Lemma find_free_word_spec n i fs :
  Forall (λ w, 0 ≤ w < 2 ^ 32) fs → 0 ≤ i → i + Z.of_nat n ≤ len fs →
  (find_free_word n i fs = Ok 0xFFFFFFFF ∧
   ∀ f, 32 * i ≤ f < 32 * (i + Z.of_nat n) → frame_bit fs f = true) ∨
  (∃ f, find_free_word n i fs = Ok (u32 (Z.shiftl f 12)) ∧
     32 * i ≤ f < 32 * (i + Z.of_nat n) ∧ frame_bit fs f = false ∧
     ∀ g, 32 * i ≤ g < f → frame_bit fs g = true).
Proof.
  intros Hall. revert i. induction n as [|n IH]; intros i Hi Hn; cbn [find_free_word].
  { left. split; [done|lia]. }
  destruct (aget_is_Some fs i) as [w E]; [lia|]. rewrite E. simpl.
  assert (Hw : 0 ≤ w < 2 ^ 32) by exact (aget_forall _ _ _ _ Hall E).
  pose proof (find_free_bit_spec 32 0 w ltac:(lia)) as Hb.
  assert (Hfull : (∀ k, 0 ≤ k < 32 → Z.testbit w k = true) →
    ∀ f, 32 * i ≤ f < 32 * (i + 1) → frame_bit fs f = true).
  { intros Hs f Hf. replace f with (i * 32 + (f - 32 * i)) by lia.
    rewrite (frame_bit_word fs i w) by (done || lia). apply Hs. lia. }
  assert (Hnext : (∀ k, 0 ≤ k < 32 → Z.testbit w k = true) →
    (find_free_word n (i + 1) fs = Ok 0xFFFFFFFF ∧
     ∀ f, 32 * i ≤ f < 32 * (i + Z.of_nat (S n)) → frame_bit fs f = true) ∨
    (∃ f, find_free_word n (i + 1) fs = Ok (u32 (Z.shiftl f 12)) ∧
       32 * i ≤ f < 32 * (i + Z.of_nat (S n)) ∧ frame_bit fs f = false ∧
       ∀ g, 32 * i ≤ g < f → frame_bit fs g = true)).
  { intros Hs. destruct (IH (i + 1)) as [[E1 H1]|(f & E1 & Hf & Hc & H1)]; [lia..| |].
    - left. split; [done|]. intros f Hf.
      destruct (Z_lt_le_dec f (32 * (i + 1))); [apply (Hfull Hs)|apply H1]; lia.
    - right. exists f. split_and!; [done|lia|lia|done|]. intros g Hg.
      destruct (Z_lt_le_dec g (32 * (i + 1))); [apply (Hfull Hs)|apply H1]; lia. }
  destruct (Z.eqb_spec w 0xFFFFFFFF) as [Ew|Ew]; simpl.
  { apply Hnext, all_bits_set; done. }
  destruct (find_free_bit 32 0 w) as [k|]; [|by apply Hnext].
  destruct Hb as (Hk & Hc & Hs). right. exists (i * 32 + k). split; [done|].
  split; [lia|]. rewrite (frame_bit_word fs i w) by (done || lia). split; [done|].
  intros g Hg. replace g with (i * 32 + (g - 32 * i)) by lia.
  rewrite (frame_bit_word fs i w) by (done || lia). apply Hs. lia.
Qed.

(** [frame_alloc], in terms of the set of used frames. *)
Lemma frame_alloc_cases s : frames_ok s →
  (frame_alloc s = Ok (0, with_errno ENOMEM s) ∧
   ∀ f, 0 ≤ f < 32 * (memsize s / 32) → frame_bit (frames s) f = true) ∨
  (∃ f fs', frame_alloc s = Ok (f * 4096, with_frames fs' s) ∧
     frames_ok (with_frames fs' s) ∧
     0 ≤ f < 32 * (memsize s / 32) ∧ frame_bit (frames s) f = false ∧
     (∀ g, 0 ≤ g < f → frame_bit (frames s) g = true) ∧
     ∀ n, 0 ≤ n → frame_bit fs' n = if n =? f then true else frame_bit (frames s) n).
Proof.
  intros Hok. pose proof Hok as (Hl & Hall & Hms).
  assert (Hm : 0 ≤ memsize s / 32 ≤ NFRAMEWORDS) by (Z.div_mod_to_equations; lia).
  unfold frame_alloc, find_free_frame.
  destruct (find_free_word_spec (Z.to_nat (memsize s / 32)) 0 (frames s))
    as [[E Hs]|(f & E & Hf & Hc & Hs)]; [done|lia|lia| |].
  - left. rewrite E. simpl. split; [done|]. intros f Hf. apply Hs. lia.
  - right. rewrite E. cbn [rbind]. rewrite Z.shiftl_mul_pow2 by lia.
    change (2 ^ 12) with 4096. rewrite NFRAMEWORDS_eq in *.
    rewrite uint_small by (simpl; lia). replace (f * 4096 =? 0xFFFFFFFF) with false by lia.
    destruct (set_frame_spec s (f * 4096)) as (fs' & -> & Hok' & Hb); [done|lia| |].
    { rewrite Z.div_mul, NFRAMEWORDS_eq by lia. lia. }
    exists f, fs'. rewrite Z.div_mul in Hb by lia.
    split; [done|]. split; [done|]. split; [lia|]. split; [done|]. split; [|done].
    intros g Hg. apply Hs. lia.
Qed.

(** C20: the frame allocator on any bitmap: [frame_alloc] takes the lowest free
    frame below the end of memory, marks it and no other, and returns its
    address; when every frame is in use it returns 0 with [ENOMEM] and takes
    nothing.  Freeing the frame it returned gives back the same set of free
    frames. *)
Theorem frame_alloc_spec s (Hok : frames_ok s) :
  ∃ a s', frame_alloc s = Ok (a, s') ∧ frames_ok s' ∧
    ((s' = with_errno ENOMEM s ∧ a = 0 ∧
      ∀ f, 0 ≤ f < 32 * (memsize s / 32) → frame_bit (frames s) f = true) ∨
     (∃ f, a = f * 4096 ∧ 0 ≤ f < 32 * (memsize s / 32) ∧
       frame_bit (frames s) f = false ∧
       (∀ g, 0 ≤ g < f → frame_bit (frames s) g = true) ∧
       (∀ n, 0 ≤ n → frame_bit (frames s') n = (n =? f) || frame_bit (frames s) n) ∧
       ∃ s'', frame_free a s' = Ok s'' ∧
         ∀ n, 0 ≤ n → frame_bit (frames s'') n = frame_bit (frames s) n)).
Proof.
  destruct (frame_alloc_cases s Hok)
    as [[E Hs]|(f & fs' & E & Hok' & Hf & Hc & Hs & Hb)].
  - eexists _, _. split; [exact E|]. split; [exact Hok|]. by left.
  - eexists _, _. split; [exact E|]. split; [exact Hok'|]. right. exists f.
    assert (Hlt : f < 32 * NFRAMEWORDS).
    { destruct Hok as (_ & _ & ?). Z.div_mod_to_equations. lia. }
    split_and!; [done|lia|lia|done|done| |].
    + intros n Hn. simpl. rewrite Hb by done. by destruct (n =? f).
    + destruct (clear_frame_spec (with_frames fs' s) (f * 4096)) as (fs2 & E2 & _ & Hb2);
        [done|lia|by rewrite Z.div_mul by lia|].
      unfold frame_free. rewrite E2. eexists. split; [done|]. intros n Hn. simpl.
      rewrite Hb2, Z.div_mul by (done || lia). simpl. rewrite Hb by done.
      destruct (Z.eqb_spec n f) as [->|]; congruence.
Qed.

(** 64 frames, the first 33 in use. *)
Definition boot_mm : mm :=
  Mm (0xFFFFFFFF :: 1 :: replicate (Z.to_nat 32765) 0) 64 0x21000 0x20000 0x20000 ∅ ∅ ∅ 0 0.

Lemma boot_mm_frames : frames_ok boot_mm.
Proof.
  split; [|split].
  - unfold boot_mm. cbn [frames length]. rewrite length_replicate, NFRAMEWORDS_eq. lia.
  - unfold boot_mm. cbn [frames]. apply List.Forall_cons; [lia|].
    apply List.Forall_cons; [lia|]. apply Forall_replicate. lia.
  - rewrite NFRAMEWORDS_eq. simpl. lia.
Qed.

Lemma frame_alloc_spec_witness :
  frames_ok boot_mm ∧ ∃ s', frame_alloc boot_mm = Ok (33 * 4096, s') ∧ frames_ok s'.
Proof.
  split; [exact boot_mm_frames|].
  destruct (frame_alloc_spec boot_mm boot_mm_frames) as (a & s' & E & Hok & _).
  exists s'. split; [|exact Hok]. rewrite E.
  assert (E2 : (let* (a, _) := frame_alloc boot_mm in Ok a) = Ok (33 * 4096))
    by (vm_compute; reflexivity).
  rewrite E in E2. injection E2 as ->. reflexivity.
Defined.

(** ** Lemmas: address spaces *)
Lemma dir_index_range a : 0 ≤ dir_index a < 1024.
Proof.
  unfold dir_index. rewrite (land_ones_mod _ 10) by done. apply Z.mod_pos_bound. lia.
Qed.

Lemma tab_index_range a : 0 ≤ tab_index a < 1024.
Proof.
  unfold tab_index. rewrite (land_ones_mod _ 10) by done. apply Z.mod_pos_bound. lia.
Qed.

(** Only the page number counts. *)
Lemma page_base a : 0 ≤ a → clr a (PAGE_SIZE - 1) = a / 4096 * 4096.
Proof.
  intros Ha. unfold clr. change (PAGE_SIZE - 1) with (Z.ones 12).
  rewrite <- Z.ldiff_land, Z.ldiff_ones_r by lia.
  rewrite Z.shiftr_div_pow2, Z.shiftl_mul_pow2 by lia. done.
Qed.

Lemma dir_index_div a : dir_index a = (a / 4096 / 1024) mod 1024.
Proof.
  unfold dir_index. rewrite (land_ones_mod _ 10), Z.shiftr_div_pow2 by done.
  by rewrite Z.div_div by lia.
Qed.

Lemma tab_index_div a : tab_index a = (a / 4096) mod 1024.
Proof.
  unfold tab_index. by rewrite (land_ones_mod _ 10), Z.shiftr_div_pow2 by done.
Qed.

Lemma page_number a k : 0 ≤ k < 4096 → (a / 4096 * 4096 + k) / 4096 = a / 4096.
Proof. intros Hk. rewrite Z.div_add_l, (Z.div_small k) by lia. lia. Qed.

Lemma same_page_indices a k : 0 ≤ k < 4096 →
  dir_index (a / 4096 * 4096 + k) = dir_index a ∧
  tab_index (a / 4096 * 4096 + k) = tab_index a.
Proof. intros Hk. by rewrite !dir_index_div, !tab_index_div, page_number. Qed.

Lemma entry_of_ext s s' pd a :
  tables <$> dirs s' !! pd = tables <$> dirs s !! pd → tabs s' = tabs s →
  entry_of s' pd a = entry_of s pd a.
Proof.
  intros Hd Ht. unfold entry_of. rewrite Ht.
  destruct (dirs s' !! pd) as [d'|], (dirs s !! pd) as [d|]; try done.
  cbn [fmap option_fmap option_map] in Hd. injection Hd as Hd.
  cbn [mbind option_bind]. by rewrite Hd.
Qed.

(** A look at the entry of an address in a directory of the right shape. *)
Lemma entry_total s pd d a p :
  mm_shape s → dirs s !! pd = Some d → aget (tables d) (dir_index a) = Some p → p ≠ 0 →
  ∃ t e, tabs s !! p = Some t ∧ length t = 1024%nat ∧ aget t (tab_index a) = Some e ∧
    entry_of s pd a = Some e.
Proof.
  intros Hs Hd Hp Hne. destruct (Hs pd d Hd) as (_ & _ & Ht & _).
  destruct (Ht _ _ Hp Hne) as (t & Et & Hl).
  destruct (aget_is_Some t (tab_index a)) as [e Ee].
  { rewrite Hl. apply tab_index_range. }
  exists t, e. split_and!; [done..|]. unfold entry_of. rewrite Hd. cbn [mbind option_bind]. rewrite Hp.
  cbn [mbind option_bind].  replace (p =? 0) with false by lia. by rewrite Et.
Qed.

Lemma slot_total s pd d a :
  mm_shape s → dirs s !! pd = Some d →
  ∃ p, aget (tables d) (dir_index a) = Some p.
Proof.
  intros Hs Hd. destruct (Hs pd d Hd) as (Hl & _).
  apply aget_is_Some. rewrite Hl. apply dir_index_range.
Qed.

(** [get_phys] in terms of the entry. *)
Lemma get_phys_entry s pd a :
  mm_shape s → is_Some (dirs s !! pd) →
  get_phys a pd s = Ok (match entry_of s pd a with
    | Some e => if present e
                then u32 (Z.shiftl (frame e) 12 + Z.land a (PAGE_SIZE - 1)) else 0
    | None => 0 end).
Proof.
  intros Hs [d Hd]. unfold get_phys. rewrite Hd. cbn [deref rbind].
  destruct (slot_total s pd d a Hs Hd) as [p Hp]. rewrite Hp. cbn [deref rbind].
  destruct (Z.eqb_spec p 0) as [->|Hne].
  - unfold entry_of. rewrite Hd. cbn [mbind option_bind]. by rewrite Hp.
  - destruct (entry_total s pd d a p Hs Hd Hp Hne) as (t & e & Et & _ & Ee & ->).
    rewrite Et. cbn [deref rbind]. rewrite Ee. cbn [deref rbind]. by destruct (present e).
Qed.

(** The invariant and the entries see the tables only. *)
Lemma mm_shape_ext s s' :
  (∀ pd, tables <$> dirs s' !! pd = tables <$> dirs s !! pd) →
  (∀ pd d, dirs s' !! pd = Some d → length (tables_phys d) = 1024%nat) →
  (∀ p t, tabs s !! p = Some t → length t = 1024%nat →
     ∃ t', tabs s' !! p = Some t' ∧ length t' = 1024%nat) →
  mm_shape s → mm_shape s'.
Proof.
  intros Hd Hl Ht Hs pd d E. specialize (Hd pd). rewrite E in Hd.
  destruct (dirs s !! pd) as [d0|] eqn:E0; [|done].
  cbn [fmap option_fmap option_map] in Hd. injection Hd as Hd.
  destruct (Hs pd d0 E0) as (H1 & _ & H3 & H4). unfold dir_shape. rewrite Hd.
  split; [done|]. split; [by eapply Hl|]. split; [|done].
  intros i p Hi Hp. destruct (H3 i p Hi Hp) as (t & Et & Hlt). by apply (Ht p t).
Qed.

(** A change of the hardware half of directory [pd]. *)
Definition with_pdes (pd : Z) (es : list pg_dir_entry_t) (s : mm) : mm :=
  match dirs s !! pd with
  | Some d => with_dirs (<[pd := PageDir (tables d) es]> (dirs s)) s
  | None => s
  end.

Lemma with_pdes_tables pd es s pd' :
  tables <$> dirs (with_pdes pd es s) !! pd' = tables <$> dirs s !! pd'.
Proof.
  unfold with_pdes. destruct (dirs s !! pd) as [d|] eqn:E; [|done]. cbn [dirs with_dirs].
  destruct (decide (pd = pd')) as [<-|]; [by rewrite lookup_insert_eq, E|].
  by rewrite lookup_insert_ne.
Qed.

Lemma with_pdes_rest pd es s :
  tabs (with_pdes pd es s) = tabs s ∧ memsize (with_pdes pd es s) = memsize s ∧
  identity_end (with_pdes pd es s) = identity_end s ∧
  spaces (with_pdes pd es s) = spaces s ∧
  dom (dirs (with_pdes pd es s)) = dom (dirs s) ∧
  frames (with_pdes pd es s) = frames s.
Proof.
  unfold with_pdes. destruct (dirs s !! pd) as [d|] eqn:E; [|done].
  split_and!; [done..| |done]. cbn [dirs with_dirs].
  apply dom_insert_lookup_L. by eexists.
Qed.

Lemma update_pde_spec s pd d i f :
  mm_shape s → dirs s !! pd = Some d → 0 ≤ i < 1024 →
  ∃ e es, update_pde pd i f s = Ok (with_pdes pd es s) ∧
    aget (tables_phys d) i = Some e ∧ aset (tables_phys d) i (f e) = Some es ∧
    mm_shape (with_pdes pd es s).
Proof.
  intros Hs Hd Hi. pose proof (Hs pd d Hd) as (_ & Hl & _ & _).
  destruct (aget_is_Some (tables_phys d) i) as [e Ee]; [rewrite Hl; lia|].
  exists e, (<[Z.to_nat i := f e]> (tables_phys d)).
  assert (Es : aset (tables_phys d) i (f e) = Some (<[Z.to_nat i := f e]> (tables_phys d)))
    by (apply aset_Some; rewrite Hl; lia).
  split; [|split; [done|split; [done|]]].
  - unfold update_pde, with_pdes. rewrite Hd. cbn [deref rbind]. rewrite Ee.
    cbn [deref rbind]. by rewrite Es.
  - apply (mm_shape_ext s); [apply with_pdes_tables| | |done].
    + intros pd' d' Hd'. unfold with_pdes in Hd'. rewrite Hd in Hd'.
      cbn [dirs with_dirs] in Hd'. destruct (decide (pd = pd')) as [<-|].
      * rewrite lookup_insert_eq in Hd'. injection Hd' as <-. cbn [tables_phys].
        by rewrite length_insert.
      * rewrite lookup_insert_ne in Hd' by done. by destruct (Hs pd' d' Hd') as (_ & ? & _).
    + intros p t Ht Hlt. destruct (with_pdes_rest pd (<[Z.to_nat i:=f e]> (tables_phys d)) s)
        as (-> & _). by exists t.
Qed.

(** Both halves still agree when the entry that is written is present. *)
Lemma update_pde_present s pd d i e e' es :
  map_Forall (λ _, dir_present) (delete pd (dirs s)) → dirs s !! pd = Some d →
  (∀ j p e, j ≠ i → aget (tables d) j = Some p → p ≠ 0 →
     aget (tables_phys d) j = Some e → d_present e = true) →
  aget (tables_phys d) i = Some e → aset (tables_phys d) i e' = Some es →
  (∀ p, aget (tables d) i = Some p → p ≠ 0 → d_present e' = true) →
  map_Forall (λ _, dir_present) (dirs (with_pdes pd es s)).
Proof.
  intros Hp Hd Hj He Hes He'. unfold with_pdes. rewrite Hd. cbn [dirs with_dirs].
  intros pd' d' Hd'. destruct (decide (pd = pd')) as [<-|].
  - rewrite lookup_insert_eq in Hd'. injection Hd' as <-. intros j p e1 Hjp Hne Hje.
    cbn [tables tables_phys] in *. destruct (decide (i = j)) as [<-|].
    + rewrite (aget_aset_eq _ _ _ _ Hes) in Hje. injection Hje as <-. by eapply He'.
    + rewrite (aget_aset_ne _ _ _ _ _ Hes) in Hje by done. by eapply Hj.
  - rewrite lookup_insert_ne in Hd' by done. apply (Hp pd').
    by rewrite lookup_delete_ne.
Qed.

(** The bit that says that the processor looks at a table. *)
Definition pde_on (s : mm) (pd i : Z) : bool :=
  match dirs s !! pd with
  | Some d => match aget (tables_phys d) i with Some e => d_present e | None => false end
  | None => false
  end.

Lemma with_pdes_on s pd d i e e' es pd' j :
  dirs s !! pd = Some d → aget (tables_phys d) i = Some e → aset (tables_phys d) i e' = Some es →
  d_present e' = d_present e → pde_on (with_pdes pd es s) pd' j = pde_on s pd' j.
Proof.
  intros Hd He Hes Hp. unfold pde_on, with_pdes. rewrite Hd. cbn [dirs with_dirs].
  destruct (decide (pd = pd')) as [<-|]; [|by rewrite lookup_insert_ne].
  rewrite lookup_insert_eq, Hd. cbn [tables_phys]. destruct (decide (i = j)) as [<-|].
  - by rewrite (aget_aset_eq _ _ _ _ Hes), He.
  - by rewrite (aget_aset_ne _ _ _ _ _ Hes).
Qed.

(** A page table entry is written: every directory sees it where it has the
    table. *)
Lemma update_page_spec s pd d addr f p :
  mm_shape s → dirs s !! pd = Some d → aget (tables d) (dir_index addr) = Some p → p ≠ 0 →
  ∃ e t', entry_of s pd addr = Some e ∧
    update_page pd addr f s = Ok (with_tabs (<[p := t']> (tabs s)) s) ∧
    is_Some (tabs s !! p) ∧
    mm_shape (with_tabs (<[p := t']> (tabs s)) s) ∧
    ∀ pd2 a2, entry_of (with_tabs (<[p := t']> (tabs s)) s) pd2 a2
      = if decide (slot_of s pd2 a2 = Some (p, tab_index addr)) then Some (f e)
        else entry_of s pd2 a2.
Proof.
  intros Hs Hd Hp Hne.
  destruct (entry_total s pd d addr p Hs Hd Hp Hne) as (t & e & Et & Hlt & Ee & Een).
  exists e, (<[Z.to_nat (tab_index addr) := f e]> t). split; [done|].
  pose proof (tab_index_range addr) as Hr.
  assert (Es : aset t (tab_index addr) (f e)
    = Some (<[Z.to_nat (tab_index addr) := f e]> t)) by (apply aset_Some; rewrite Hlt; lia).
  split.
  { unfold update_page. rewrite Hd. cbn [deref rbind]. rewrite Hp. cbn [deref rbind].
    rewrite Et. cbn [deref rbind]. rewrite Ee. cbn [deref rbind]. by rewrite Es. }
  split; [by eexists|]. split.
  - apply (mm_shape_ext s); [done| | |done].
    + intros pd' d' Hd'. by destruct (Hs pd' d' Hd') as (_ & ? & _).
    + intros q u Hu Hlu. cbn [tabs with_tabs]. destruct (decide (p = q)) as [<-|].
      * rewrite lookup_insert_eq. eexists. split; [done|]. by rewrite length_insert.
      * rewrite lookup_insert_ne by done. by exists u.
  - intros pd2 a2. unfold entry_of, slot_of. cbn [dirs tabs with_tabs].
    destruct (dirs s !! pd2) as [d2|]; [|by rewrite decide_False by done].
    cbn [mbind option_bind].
    destruct (aget (tables d2) (dir_index a2)) as [p2|];
      [|by rewrite decide_False by done].
    cbn [mbind option_bind]. destruct (p2 =? 0); [by rewrite decide_False by done|].
    destruct (decide (p = p2)) as [<-|Hpn].
    + rewrite lookup_insert_eq, Et. cbn [mbind option_bind].
      rewrite aget_insert by (rewrite Hlt; lia).
      destruct (Z.eqb_spec (tab_index addr) (tab_index a2)) as [->|Hti].
      * by rewrite decide_True.
      * rewrite decide_False by congruence. done.
    + rewrite lookup_insert_ne by done. rewrite decide_False by congruence. done.
Qed.

Lemma set_table_spec s pd d i p :
  mm_shape s → dirs s !! pd = Some d → 0 ≤ i < 1024 →
  set_table pd i p s
  = Ok (with_dirs (<[pd := PageDir (<[Z.to_nat i := p]> (tables d)) (tables_phys d)]>
                     (dirs s)) s).
Proof.
  intros Hs Hd Hi. destruct (Hs pd d Hd) as (Hl & _). unfold set_table.
  rewrite Hd. cbn [deref rbind]. by rewrite aset_Some by (rewrite Hl; lia).
Qed.

Lemma aget_insert_id {A} (l : list A) i x : aget l i = Some x → <[Z.to_nat i := x]> l = l.
Proof. unfold aget. cif; [done|]. apply list_insert_id. Qed.

(** The state after a fresh zeroed table went into an empty slot. *)
Definition hang_table (pd i p : Z) (d : page_dir_t) (s : mm) : mm :=
  with_tabs (<[p := tab_zero]> (tabs s))
    (with_dirs (<[pd := PageDir (<[Z.to_nat i := p]> (tables d)) (tables_phys d)]>
                  (dirs s)) s).

Section hang.
Context (s : mm) (pd i p : Z) (d : page_dir_t).
Context (Hs : mm_shape s) (Hd : dirs s !! pd = Some d) (Hi : 0 ≤ i < 1024).
Context (H0 : aget (tables d) i = Some 0) (Hp : fresh_table s p).

Lemma hang_tables j :
  aget (<[Z.to_nat i := p]> (tables d)) j = if i =? j then Some p else aget (tables d) j.
Proof. apply aget_insert. destruct (Hs pd d Hd) as (-> & _). lia. Qed.

(** Tables in use are not the new one. *)
Lemma used_table pd' d' j q :
  dirs s !! pd' = Some d' → aget (tables d') j = Some q → q ≠ 0 → q ≠ p.
Proof.
  intros Hd' Hj Hq ->. destruct Hp as [_ Hf].
  destruct (Hs pd' d' Hd') as (_ & _ & Ht & _).
  destruct (Ht j p Hj Hq) as (t & E & _). congruence.
Qed.

Lemma hang_shape : mm_shape (hang_table pd i p d s).
Proof.
  intros pd' d' Hd'. unfold hang_table in *. cbn [dirs with_tabs with_dirs] in Hd'.
  unfold dir_shape. cbn [tabs with_tabs with_dirs].
  destruct (decide (pd = pd')) as [<-|Hne].
  - rewrite lookup_insert_eq in Hd'. injection Hd' as <-. cbn [tables tables_phys].
    destruct (Hs pd d Hd) as (H1 & H2 & H3 & H4). split; [by rewrite length_insert|].
    split; [done|]. split.
    + intros j q Hj Hq. rewrite hang_tables in Hj. destruct (Z.eqb_spec i j) as [<-|].
      * injection Hj as <-. rewrite lookup_insert_eq. exists tab_zero. split; [done|].
        apply length_replicate.
      * rewrite lookup_insert_ne by (symmetry; by eapply used_table). by eapply H3.
    + intros j k q Hj Hk Hq. rewrite hang_tables in Hj, Hk.
      destruct (Z.eqb_spec i j) as [<-|], (Z.eqb_spec i k) as [<-|]; [done| | |by eapply H4].
      * injection Hj as <-. by destruct (used_table _ _ _ _ Hd Hk Hq).
      * injection Hk as <-. by destruct (used_table _ _ _ _ Hd Hj Hq).
  - rewrite lookup_insert_ne in Hd' by done. destruct (Hs pd' d' Hd') as (H1 & H2 & H3 & H4).
    split_and!; try done. intros j q Hj Hq.
    rewrite lookup_insert_ne by (symmetry; by eapply used_table). by eapply H3.
Qed.

Lemma hang_keeps : keeps_entries s (hang_table pd i p d s).
Proof.
  intros pd' a e [He Hpr]. split; [|done]. revert He. unfold entry_of, hang_table.
  cbn [dirs tabs with_tabs with_dirs].
  destruct (dirs s !! pd') as [d'|] eqn:Ed'; [|done]. cbn [mbind option_bind].
  destruct (aget (tables d') (dir_index a)) as [q|] eqn:Eq; [|done].
  cbn [mbind option_bind]. destruct (Z.eqb_spec q 0) as [|Hq]; [done|]. intros He.
  pose proof (used_table _ _ _ _ Ed' Eq Hq) as Hqp.
  assert (E : ∃ d2, <[pd:=PageDir (<[Z.to_nat i:=p]> (tables d)) (tables_phys d)]> (dirs s)
    !! pd' = Some d2 ∧ aget (tables d2) (dir_index a) = Some q).
  { destruct (decide (pd = pd')) as [<-|].
    - rewrite lookup_insert_eq. eexists. split; [done|]. cbn [tables].
      rewrite Hd in Ed'. injection Ed' as <-. rewrite hang_tables.
      destruct (Z.eqb_spec i (dir_index a)) as [Ei|]; [|done]. subst i. congruence.
    - rewrite lookup_insert_ne by done. by exists d'. }
  destruct E as (d2 & -> & E2). cbn [mbind option_bind]. rewrite E2.
  cbn [mbind option_bind]. replace (q =? 0) with false by lia.
  by rewrite lookup_insert_ne.
Qed.
End hang.

(** The room that a page table can take. *)
Definition TABLE_ROOM : Z := 2 * PAGE_SIZE.

Section page_map.
Context {PA : PageAlloc}.

Lemma make_table_spec n s pd d i flags :
  mm_ok s → pa_inv (TABLE_ROOM + n) s → 0 ≤ n → dirs s !! pd = Some d → 0 ≤ i < 1024 →
  ∃ ok s', make_table pd i flags s = Ok (ok, s') ∧ mm_ok s' ∧ pa_inv n s' ∧
    keeps_entries s s' ∧ spaces s' = spaces s ∧ (frames_ok s → frames_ok s') ∧
    (ok = false → errno s' = ENOMEM) ∧
    (ok = true → ∃ d' p, dirs s' !! pd = Some d' ∧ aget (tables d') i = Some p ∧ p ≠ 0).
Proof.
  intros [Hs Hpr] Hinv Hn Hd Hi. pose proof (Hs pd d Hd) as (Hl & _).
  destruct (aget_is_Some (tables d) i) as [q Hq]; [rewrite Hl; lia|].
  unfold make_table. rewrite Hd. cbn [deref rbind]. rewrite Hq. cbn [deref rbind].
  destruct (Z.eqb_spec q 0) as [->|Hne].
  2:{ exists true, s. split_and!; [done..| |by intros ???|done|done|done|].
      - apply (pa_inv_le _ n _ Hinv). unfold TABLE_ROOM, PAGE_SIZE. lia.
      - intros _. by exists d, q. }
  destruct (kmalloc_pa_ok 4096 n s) as (p & s1 & E & [Hs1 Hpr1] & Hinv1 & [Ht1 Hk1] & Hc1 & Hfo1 & Hf1);
    [done..|lia|done|].
  change (1024 * 4) with 4096. rewrite E. cbn [rbind].
  specialize (Ht1 pd) as Htd. rewrite Hd in Htd.
  destruct (dirs s1 !! pd) as [d1|] eqn:Hd1; [|done].
  cbn [fmap option_fmap option_map] in Htd. injection Htd as Htd. rewrite <- Htd in Hq.
  rewrite (set_table_spec s1 pd d1) by done. cbn [rbind].
  destruct (Z.eqb_spec p 0) as [->|Hp].
  - rewrite (aget_insert_id _ _ _ Hq).
    assert (Eid : <[pd := PageDir (tables d1) (tables_phys d1)]> (dirs s1) = dirs s1)
      by (apply insert_id; by destruct d1).
    eexists false, _. split; [done|]. unfold with_dirs. rewrite Eid.
    split_and!; [exact (conj Hs1 Hpr1)| |exact Hk1|exact Hc1|exact Hfo1|done|done].
    by apply (pa_inv_ext n s1).
  - destruct (Hf1 Hp) as [Hfr Hinv2].
    cbv zeta. match goal with |- context [get_phys p pd ?x] =>
      change x with (hang_table pd i p d1 s1) end.
    pose proof (hang_shape s1 pd i p d1 Hs1 Hd1 Hi Hfr) as Hs3.
    pose proof (hang_keeps s1 pd i p d1 Hs1 Hd1 Hi Hq Hfr) as Hk3.
    set (s3 := hang_table pd i p d1 s1) in *.
    assert (Hd3 : dirs s3 !! pd
      = Some (PageDir (<[Z.to_nat i := p]> (tables d1)) (tables_phys d1)))
      by (unfold s3, hang_table; cbn [dirs with_tabs with_dirs]; apply lookup_insert_eq).
    rewrite get_phys_entry by (done || by eexists). cbn [rbind].
    set (phys := match entry_of _ _ _ with Some _ => _ | None => _ end).
    destruct (update_pde_spec s3 pd _ i (new_pde flags (Z.shiftr phys 12)) Hs3 Hd3 Hi)
      as (e & es & -> & He & Hes & Hs4).
    destruct (with_pdes_rest pd es s3) as (Er1 & Er2 & Er3 & Er4 & Er5 & Er6).
    exists true, (with_pdes pd es s3). split; [done|]. split; [split; [done|]|].
    { eapply update_pde_present; [|exact Hd3| |exact He|exact Hes|].
      - intros pd' d' Hd'. apply lookup_delete_Some in Hd' as [Hnn Hd'].
        apply (Hpr1 pd'). unfold s3, hang_table in Hd'.
        cbn [dirs with_tabs with_dirs] in Hd'. by rewrite lookup_insert_ne in Hd'.
      - intros j r e1 Hj Hr Hrn He1. cbn [tables tables_phys] in *.
        rewrite (hang_tables s1 pd i p d1 Hs1 Hd1 Hi) in Hr.
        replace (i =? j) with false in Hr by lia. by eapply (Hpr1 pd d1).
      - done. }
    split_and!.
    + apply (pa_inv_ext n (with_tabs (<[p := tab_zero]> (tabs s1)) s1)); [apply Hinv2|..].
      * rewrite Er3. done.
      * rewrite Er2. done.
      * rewrite Er1. done.
      * rewrite Er5. unfold s3, hang_table. cbn [dirs with_tabs with_dirs].
        apply dom_insert_lookup_L. by eexists.
    + intros pd' a e' He'. apply Hk1, Hk3 in He' as [He1 He2]. split; [|done].
      rewrite (entry_of_ext s3); [done|apply with_pdes_tables|done].
    + rewrite Er4. exact Hc1.
    + intros Hfo. apply Hfo1 in Hfo. unfold frames_ok. by rewrite Er6, Er2.
    + done.
    + intros _. pose proof (with_pdes_tables pd es s3 pd) as Htt. rewrite Hd3 in Htt.
      destruct (dirs (with_pdes pd es s3) !! pd) as [d4|]; [|done].
      cbn [fmap option_fmap option_map] in Htt. injection Htt as Htt.
      exists d4, p. split; [done|]. split; [|done]. rewrite Htt. cbn [tables].
      rewrite (hang_tables s1 pd i p d1 Hs1 Hd1 Hi). by rewrite Z.eqb_refl.
Qed.

(** The part of [page_map] after the table is there. *)
Lemma page_write s pd d addr p f g :
  mm_shape s → dirs s !! pd = Some d → aget (tables d) (dir_index addr) = Some p → p ≠ 0 →
  0 ≤ addr → (∀ e, d_present (g e) = d_present e) →
  ∃ e s', (let* s := update_page pd (addr / 4096 * 4096) f s in
           update_pde pd (dir_index addr) g s) = Ok s' ∧
    entry_of s pd addr = Some e ∧ mm_shape s' ∧
    (map_Forall (λ _, dir_present) (dirs s) → map_Forall (λ _, dir_present) (dirs s')) ∧
    (∀ pd', tables <$> dirs s' !! pd' = tables <$> dirs s !! pd') ∧
    (dom (tabs s') = dom (tabs s) ∧ dom (dirs s') = dom (dirs s) ∧
     memsize s' = memsize s ∧ identity_end s' = identity_end s ∧
     spaces s' = spaces s ∧ frames s' = frames s ∧ errno s' = errno s) ∧
    (∀ pd2 a2, slot_of s' pd2 a2 = slot_of s pd2 a2) ∧
    (∀ pd2 i, pde_on s' pd2 i = pde_on s pd2 i) ∧
    ∀ pd2 a2, entry_of s' pd2 a2
      = if decide (slot_of s pd2 a2 = slot_of s pd addr) then Some (f e)
        else entry_of s pd2 a2.
Proof.
  intros Hs1 Hd1 Hp Hne Ha Hg.
  destruct (same_page_indices addr 0 ltac:(lia)) as [Edir Etab].
  rewrite Z.add_0_r in Edir, Etab. rewrite <- Edir in Hp.
  destruct (update_page_spec s pd d (addr / 4096 * 4096) f p)
    as (e & t' & He & -> & Hsome & Hs2 & Hent); [done..|].
  rewrite Etab in Hent. cbn [rbind]. set (s2 := with_tabs _ s) in *.
  destruct (update_pde_spec s2 pd d (dir_index addr) g Hs2 Hd1
    (dir_index_range addr)) as (pe & es & -> & Hpe & Hes & Hs3).
  destruct (with_pdes_rest pd es s2) as (Er1 & Er2 & Er3 & Er4 & Er5 & Er6).
  assert (Hslot : ∀ pd2 a2, slot_of (with_pdes pd es s2) pd2 a2 = slot_of s pd2 a2).
  { intros pd2 a2. unfold slot_of. pose proof (with_pdes_tables pd es s2 pd2) as Ht.
    change (dirs s2) with (dirs s) in Ht.
    destruct (dirs (with_pdes pd es s2) !! pd2), (dirs s !! pd2); try done.
    cbn [fmap option_fmap option_map] in Ht. injection Ht as Ht.
    cbn [mbind option_bind]. by rewrite Ht. }
  assert (Hme : slot_of s pd addr = Some (p, tab_index addr)).
  { unfold slot_of. rewrite Hd1. cbn [mbind option_bind]. rewrite <- Edir, Hp.
    cbn [mbind option_bind]. by replace (p =? 0) with false by lia. }
  exists e, (with_pdes pd es s2). split; [done|]. split.
  { rewrite <- He. unfold entry_of. by rewrite Edir, Etab. }
  split; [done|]. split; [|split; [exact (with_pdes_tables pd es s2)|split; [|split; [done|]]]].
  - intros Hp1. eapply update_pde_present; [|exact Hd1| |exact Hpe|exact Hes|].
    + intros pd' d' Hd'. apply lookup_delete_Some in Hd' as [_ Hd']. by apply (Hp1 pd').
    + intros j q e1 _ Hj Hq He1. by eapply (Hp1 pd d).
    + intros q Hq Hqn. rewrite Hg. rewrite <- Edir in Hpe.
      rewrite <- Edir in Hq. apply (Hp1 pd d Hd1 _ _ _ Hq Hqn Hpe).
  - rewrite Er1, Er2, Er3, Er4, Er5, Er6. split; [|split_and!; done || idtac].
    + unfold s2. cbn [tabs with_tabs]. by apply dom_insert_lookup_L.
    + unfold with_pdes. by destruct (dirs s2 !! pd).
  - split; [intros pd2 i; by apply (with_pdes_on s2 pd d _ _ _ _ pd2 i Hd1 Hpe Hes)|].
    intros pd2 a2. rewrite Hme, (entry_of_ext s2); [apply Hent|apply with_pdes_tables|done].
Qed.

(** What [page_map] does to the entries, when it has the memory for a table. *)
Lemma page_map_entries n addr fr flags pd s :
  mm_ok s → pa_inv (TABLE_ROOM + n) s → 0 ≤ n → is_Some (dirs s !! pd) → 0 ≤ addr →
  ∃ r s', page_map addr fr flags pd s = Ok (r, s') ∧ mm_ok s' ∧ pa_inv n s' ∧
    spaces s' = spaces s ∧ (frames_ok s → frames_ok s') ∧
    ((r = 0 ∧ errno s' = ENOMEM ∧ keeps_entries s s') ∨
     (r = addr / 4096 * 4096 ∧ is_Some (dirs s' !! pd) ∧
      (∃ e, entry_of s' pd addr = Some (new_page flags fr e)) ∧
      ∀ pd2 a2 e, is_mapped s pd2 a2 e →
        slot_of s' pd2 a2 = slot_of s' pd addr ∨ is_mapped s' pd2 a2 e)).
Proof.
  intros Hok Hinv Hn [d Hd] Ha. unfold page_map. rewrite page_base by done.
  destruct (same_page_indices addr 0 ltac:(lia)) as [Edir Etab].
  rewrite Z.add_0_r in Edir, Etab. rewrite Edir.
  destruct (make_table_spec n s pd d (dir_index addr) flags Hok Hinv Hn Hd
    (dir_index_range addr)) as (ok & s1 & -> & [Hs1 Hp1] & Hinv1 & Hk1 & Hc1 & Hfo1 & Hno & Hyes).
  cbn [rbind]. destruct ok; cbn [negb].
  2:{ exists 0, s1. split; [done|]. split; [done|]. split; [done|]. split; [done|].
      split; [done|]. left. auto. }
  destruct (Hyes eq_refl) as (d1 & p & Hd1 & Hp & Hne).
  destruct (page_write s1 pd d1 addr p (new_page flags fr) (pde_rw flags))
    as (e & s3 & E & _ & Hs3 & Hp3 & Ht3 & (Er1 & Er5 & Er2 & Er3 & Er4 & Er6 & Er7) & Hslot & _ & Hent);
    [done..|].
  exists (addr / 4096 * 4096), s3. split.
  { destruct (update_page _ _ _ s1); try done. cbn [rbind] in *. by rewrite E. }
  split; [by split; auto|]. split; [by apply (pa_inv_ext n s1)|].
  split; [by rewrite Er4|]. split.
  { intros Hfo. apply Hfo1 in Hfo. unfold frames_ok. by rewrite Er6, Er2. }
  right. split; [done|]. split; [|split].
  - specialize (Ht3 pd). rewrite Hd1 in Ht3. destruct (dirs s3 !! pd); [by eexists|done].
  - exists e. by rewrite Hent, decide_True.
  - intros pd2 a2 e2 [He2 Hpr2]%Hk1. rewrite !Hslot.
    destruct (decide (slot_of s1 pd2 a2 = slot_of s1 pd addr)) as [|Hnn]; [by left|right].
    split; [|done]. by rewrite Hent, decide_False.
Qed.

Lemma frame_roundtrip fr k :
  0 ≤ fr < 2 ^ 32 → 0 ≤ k < 4096 →
  u32 (Z.shiftl (Z.land (Z.shiftr fr 12) 0xFFFFF) 12 + k) = fr / 4096 * 4096 + k.
Proof.
  intros Hf Hk. rewrite (land_ones_mod _ 20), Z.shiftr_div_pow2, Z.shiftl_mul_pow2 by done.
  change (2 ^ 12) with 4096. rewrite (Z.mod_small (fr / 4096)).
  - apply uint_small. Z.div_mod_to_equations. simpl. lia.
  - Z.div_mod_to_equations. simpl. lia.
Qed.

Lemma page_offset a k : 0 ≤ k < 4096 → Z.land (a * 4096 + k) (PAGE_SIZE - 1) = k.
Proof.
  intros Hk. rewrite (land_ones_mod _ 12) by done. change (2 ^ 12) with 4096.
  rewrite Z.add_comm, Z.mod_add by lia. by apply Z.mod_small.
Qed.

(** C12: [page_map] in a well-formed state.  Either there was no memory for a page
    table: [NULL] with [ENOMEM], every mapped page still mapped.  Or it returns
    the page's address, and then [get_phys] translates every address of the page
    to the frame plus the offset (to 0 when the flags say not present), and every
    page of every address space that was mapped still is, with the same entry,
    unless its entry is the one written (the same page, or the same page of a
    shared table).  The state is well-formed again. *)
Theorem page_map_get_phys n addr fr flags pd s
    (Hok : mm_ok s) (Hinv : pa_inv (TABLE_ROOM + n) s) (Hn : 0 ≤ n)
    (Hd : is_Some (dirs s !! pd)) (Ha : 0 ≤ addr) (Hfr : 0 ≤ fr < 2 ^ 32) :
  ∃ r s', page_map addr fr flags pd s = Ok (r, s') ∧ mm_ok s' ∧ pa_inv n s' ∧
    ((r = 0 ∧ errno s' = ENOMEM ∧ keeps_entries s s') ∨
     (r = addr / 4096 * 4096 ∧
      (∀ k, 0 ≤ k < 4096 → get_phys (r + k) pd s'
         = Ok (if has flags PF_PRES then fr / 4096 * 4096 + k else 0)) ∧
      ∀ pd2 a2 e, is_mapped s pd2 a2 e →
        slot_of s' pd2 a2 = slot_of s' pd addr ∨ is_mapped s' pd2 a2 e)).
Proof.
  destruct (page_map_entries n addr fr flags pd s) as (r & s' & E & Hok' & Hinv' & _ & _ & Hcase);
    [done..|]. exists r, s'. split; [done|]. split; [done|]. split; [done|].
  destruct Hcase as [Hno|(Hr & Hd' & (e & He) & Hkeep)]; [by left|right].
  split; [done|]. split; [|done]. intros k Hk.
  rewrite (get_phys_entry s' pd) by (apply Hok' || done). subst r.
  destruct (same_page_indices addr k Hk) as [E1 E2].
  assert (Ee : entry_of s' pd (addr / 4096 * 4096 + k) = entry_of s' pd addr)
    by (unfold entry_of; by rewrite E1, E2).
  rewrite Ee, He, page_offset by done. cbn [present frame new_page].
  destruct (has flags PF_PRES); [|done]. by rewrite frame_roundtrip.
Qed.
End page_map.

(** ** The boot allocator implements the interface *)
Lemma round_up_page n : 0 ≤ n → n + 4096 < 2 ^ 32 →
  n ≤ round_up n PAGE_SIZE < n + 4096 ∧ round_up n PAGE_SIZE mod 4096 = 0.
Proof.
  intros Hn Hlt. unfold round_up, PAGE_SIZE.
  rewrite (land_ones_mod n 12) by done. change (2 ^ 12) with 4096.
  destruct (Z.eqb_spec (n mod 4096) 0); cbn [negb]; [lia|].
  rewrite uint_small, Z.rem_mod_nonneg by lia. Z.div_mod_to_equations. lia.
Qed.

Definition boot_inv (n : Z) (s : mm) : Prop :=
  0 < identity_end s ∧ identity_end s + n < 2 ^ 32 ∧
  ∀ p, p ∈ dom (tabs s) → 0 < p < identity_end s.

Lemma pre_paging_spec size k s :
  boot_inv (size + PAGE_SIZE + k) s → 0 < size → 0 ≤ k →
  ∃ p, pre_paging_kmalloc size PAGE_SIZE s = Ok (p, with_identity_end (p + size) s) ∧
    identity_end s ≤ p < identity_end s + PAGE_SIZE ∧ p mod 4096 = 0.
Proof.
  intros (Hpos & Hlt & Hdom) Hsz Hk. unfold pre_paging_kmalloc, set_alloc_start.
  unfold PAGE_SIZE in Hlt.
  replace (identity_end s <? 0) with false by lia.
  destruct (round_up_page (identity_end s)) as [Hr Hm]; [lia..|].
  set (p := round_up _ _) in *. rewrite uint_small by (simpl; lia).
  replace (identity_end s <? p + size) with true by lia.
  exists p. split; [done|]. unfold PAGE_SIZE. split; [lia|done].
Qed.

Program Definition pre_paging : PageAlloc := {|
  kmalloc_pa size s := pre_paging_kmalloc size PAGE_SIZE s;
  kfree_pa _ s := Ok s;
  pa_inv := boot_inv
|}.
Next Obligation.
  intros size k s [Hs Hp] Hinv Hsz Hk.
  destruct (pre_paging_spec size k s Hinv Hsz Hk) as (p & E & Hpe & _).
  destruct Hinv as (Hpos & Hroom & Hdom). unfold PAGE_SIZE in *.
  exists p, (with_identity_end (p + size) s). split; [done|].
  split; [split; [exact Hs|exact Hp]|]. split.
  { split; [simpl; lia|]. cbn [tabs identity_end with_identity_end]. split; [lia|].
    intros q Hq. specialize (Hdom q Hq). lia. }
  split; [split; [done|by intros ???]|]. split; [done|]. split; [done|].
  intros Hne. split.
  - split; [done|]. cbn [tabs with_identity_end]. apply not_elem_of_dom.
    intros Hq. specialize (Hdom p Hq). lia.
  - intros t. unfold boot_inv. cbn [tabs identity_end with_identity_end with_tabs].
    split; [lia|]. split; [lia|]. intros q Hq.
    rewrite dom_insert_L, elem_of_union, elem_of_singleton in Hq.
    destruct Hq as [->|Hq]; [lia|]. specialize (Hdom q Hq). lia.
Qed.
Next Obligation.
  intros n s s' Hinv E1 _ E3 _. unfold boot_inv in *. by rewrite E1, E3.
Qed.
Next Obligation.
  intros n k s (? & ? & ?) Hle. split; [done|]. split; [lia|done].
Qed.

(** A directory with no tables, during boot. *)
Definition boot_dir : mm :=
  Mm (replicate 2 0) 64 0x22000 0x20000 0x20000 {[0x20000 := dir_zero]} ∅ ∅ 0 0x21000.

Lemma aget_replicate {A} n (x y : A) i : aget (replicate n x) i = Some y → y = x.
Proof. unfold aget. cif; [done|]. intros H. by apply lookup_replicate_1 in H as [-> _]. Qed.

Lemma boot_dir_ok : mm_ok boot_dir ∧ boot_inv 0x100000 boot_dir.
Proof.
  split; [split|split; [|split]].
  - intros pd d Hd. unfold boot_dir in Hd. cbn [dirs] in Hd.
    apply lookup_singleton_Some in Hd as [_ <-]. split_and!.
    + apply length_replicate.
    + apply length_replicate.
    + intros i p Hi Hp. apply aget_replicate in Hi. done.
    + intros i j p Hi _ Hp. apply aget_replicate in Hi. done.
  - intros pd d Hd. unfold boot_dir in Hd. cbn [dirs] in Hd.
    apply lookup_singleton_Some in Hd as [_ <-].
    intros i p e Hi Hp _. apply aget_replicate in Hi. done.
  - done.
  - simpl. lia.
  - intros p Hp. unfold boot_dir in Hp. cbn [tabs] in Hp. by rewrite dom_empty_L in Hp.
Qed.

Lemma page_map_get_phys_witness :
  let _ := pre_paging in
  ∃ r s', page_map 0x10000123 0x5000 3 0x20000 boot_dir = Ok (r, s') ∧ mm_ok s' ∧
    pa_inv 0 s' ∧
    ((r = 0 ∧ errno s' = ENOMEM ∧ keeps_entries boot_dir s') ∨
     (r = 0x10000123 / 4096 * 4096 ∧
      (∀ k, 0 ≤ k < 4096 → get_phys (r + k) 0x20000 s'
         = Ok (if has 3 PF_PRES then 0x5000 / 4096 * 4096 + k else 0)) ∧
      ∀ pd2 a2 e, is_mapped boot_dir pd2 a2 e →
        slot_of s' pd2 a2 = slot_of s' 0x20000 0x10000123 ∨ is_mapped s' pd2 a2 e)).
Proof.
  cbv zeta. destruct boot_dir_ok as [Hok Hinv].
  apply (@page_map_get_phys pre_paging 0 0x10000123 0x5000 3 0x20000 boot_dir).
  - exact Hok.
  - apply (@pa_inv_le pre_paging 0x100000 _ boot_dir Hinv). unfold TABLE_ROOM, PAGE_SIZE. lia.
  - lia.
  - eexists. apply lookup_singleton_eq.
  - lia.
  - lia.
Defined.

(** The same call, evaluated: the page is mapped. *)
Example page_map_boot :
  (let* (r, s) := @page_map pre_paging 0x10000123 0x5000 3 0x20000 boot_dir in
   let* p := get_phys 0x10000fff 0x20000 s in
   let* f := page_flags 0x10000000 0x20000 s in Ok (r, p, f)) = Ok (0x10000000, 0x5fff, 0x30003).
Proof. vm_compute. reflexivity. Qed.
