(* ===== verification/Vm.v ===== *)
(** * Vm: the break of the kernel heap and of the user heap

    [kernel/src/mm/kvm.c] and [kernel/src/mm/uvm.c], on top of Paging.  The page
    allocator behind [page_map] is the interface [PageAlloc]. *)

From S2P Require Import Prelude Headers Paging.

(** [memset((void* )addr, 0, PAGE_SIZE)] on a page of the current address space. *)
Definition zero_page (addr : Z) (m : mm) : res mm :=
  let* f := page_frame addr m in
  Ok (with_ram (<[f := replicate (Z.to_nat PAGE_SIZE) 0]> (ram m)) m).

(** util.h, [round_up]. *)
Definition util_round_up (val divisor : Z) : Z :=
  if negb (Z.rem val divisor =? 0) then u32 (u32 (val + divisor) - Z.rem val divisor)
  else val.

(** What [sbrk] returns on failure: [(void* )-1]. *)
Definition PTR_FAIL : Z := 0xFFFFFFFF.

(** ** uvm.c: the fields of [cur_task] and the memory system *)
Record uvm := Uvm {
  uheap_begin : Z;
  uheap_end : Z;
  page_dir : Z;
  um : mm
}.

Definition with_um (m : mm) (u : uvm) : uvm :=
  Uvm (uheap_begin u) (uheap_end u) (page_dir u) m.
Definition with_uheap_end (e : Z) (u : uvm) : uvm :=
  Uvm (uheap_begin u) e (page_dir u) (um u).

(** kvm.c: its two statics. *)
Record kvm := Kvm { kheap_start : Z; kheap_size : Z; km : mm }.

Definition with_km (m : mm) (k : kvm) : kvm := Kvm (kheap_start k) (kheap_size k) m.
Definition with_kheap_size (n : Z) (k : kvm) : kvm := Kvm (kheap_start k) n (km k).

Section vm.
Context {PA : PageAlloc}.

Definition uvm_page_alloc (u : uvm) : res (Z * uvm) :=
  if uheap_end u <? USTACK_BEGIN then
    let* (fr, m) := frame_alloc (um u) in
    let* (ret, m) := page_map (uheap_end u) fr (Z.lor (Z.lor PF_PRES PF_RW) PF_USER)
                       (page_dir u) m in
    if ret =? 0 then Ok (0, with_um m u)
    else
      let* m := zero_page ret m in
      Ok (ret, with_uheap_end (u32 (uheap_end u + PAGE_SIZE)) (with_um m u))
  else Ok (0, with_um (with_errno ENOMEM (um u)) u).

Definition uvm_page_free (u : uvm) : res uvm :=
  let addr := u32 (uheap_end u - PAGE_SIZE) in
  let* phys := get_phys addr (page_dir u) (um u) in
  let* m := frame_free phys (um u) in
  let* (_, m) := page_map addr 0 0 (page_dir u) m in
  Ok (with_uheap_end (u32 (uheap_end u - PAGE_SIZE)) (with_um m u)).

(** [bad:] of both calls. *)
Definition uvm_bad (ret : Z) (u : uvm) : res (Z * uvm) :=
  Ok (ret, with_um (with_errno ENOMEM (um u)) u).

Fixpoint uvm_brk_grow (fuel : nat) (addr : Z) (u : uvm) : res (Z * uvm) :=
  match fuel with
  | O => Fuel
  | S fuel =>
      if uheap_end u <? addr then
        let* (p, u) := uvm_page_alloc u in
        if p =? 0 then uvm_bad (-1) u else uvm_brk_grow fuel addr u
      else Ok (0, u)
  end.

Fixpoint uvm_brk_shrink (fuel : nat) (addr : Z) (u : uvm) : res (Z * uvm) :=
  match fuel with
  | O => Fuel
  | S fuel =>
      if addr <? uheap_end u then
        let* u := uvm_page_free u in uvm_brk_shrink fuel addr u
      else Ok (0, u)
  end.

Definition uvm_brk (fuel : nat) (addr : Z) (u : uvm) : res (Z * uvm) :=
  let addr := util_round_up addr PAGE_SIZE in
  if addr <? UMEM_BEGIN then uvm_bad (-1) u
  else if USTACK_BEGIN <=? addr then uvm_bad (-1) u
  else if addr =? uheap_end u then Ok (0, u)
  else if uheap_end u <? addr then uvm_brk_grow fuel addr u
  else uvm_brk_shrink fuel addr u.

Fixpoint uvm_sbrk_grow (fuel : nat) (incr ret : Z) (u : uvm) : res (Z * uvm) :=
  match fuel with
  | O => Fuel
  | S fuel =>
      if 0 <? incr then
        let* (p, u) := uvm_page_alloc u in
        if p =? 0 then uvm_bad PTR_FAIL u
        else uvm_sbrk_grow fuel (incr - PAGE_SIZE) ret u
      else Ok (ret, u)
  end.

Fixpoint uvm_sbrk_shrink (fuel : nat) (incr ret : Z) (u : uvm) : res (Z * uvm) :=
  match fuel with
  | O => Fuel
  | S fuel =>
      if incr <? 0 then
        let* u := uvm_page_free u in uvm_sbrk_shrink fuel (incr + PAGE_SIZE) ret u
      else Ok (ret, u)
  end.

Definition uvm_sbrk (fuel : nat) (incr : Z) (u : uvm) : res (Z * uvm) :=
  let ret := uheap_end u in
  if 0 <? incr then
    if USTACK_BEGIN <? u32 (uheap_end u + incr) then uvm_bad PTR_FAIL u
    else uvm_sbrk_grow fuel incr ret u
  else if incr <? 0 then
    if u32 (uheap_end u + incr) <? uheap_begin u then uvm_bad PTR_FAIL u
    else uvm_sbrk_shrink fuel (incr + (PAGE_SIZE - 1)) ret u
  else Ok (ret, u).

(** ** kvm.c *)
Definition kvm_init (start : Z) (k : kvm) : kvm := Kvm start (kheap_size k) (km k).

Definition kvm_page_alloc (k : kvm) : res (Z * kvm) :=
  let* (fr, m) := frame_alloc (km k) in
  let* (ret, m) := page_map (u32 (kheap_start k + kheap_size k)) fr
                     (Z.lor PF_PRES PF_RW) (cur_page_dir m) m in
  if ret =? 0 then Ok (0, with_km (with_errno ENOMEM m) k)
  else Ok (ret, with_kheap_size (u32 (kheap_size k + PAGE_SIZE)) (with_km m k)).

Definition kvm_page_alloc_zeroed (k : kvm) : res (Z * kvm) :=
  let* (ret, k) := kvm_page_alloc k in
  if ret =? 0 then Ok (0, k)
  else let* m := zero_page ret (km k) in Ok (ret, with_km m k).

(** The address is that of the page behind the heap. *)
Definition kvm_page_free (k : kvm) : res kvm :=
  let addr := u32 (kheap_start k + kheap_size k) in
  let* phys := get_phys addr (cur_page_dir (km k)) (km k) in
  let* m := frame_free phys (km k) in
  let* (_, m) := page_map addr 0 0 (cur_page_dir m) m in
  Ok (with_kheap_size (u32 (kheap_size k - PAGE_SIZE)) (with_km m k)).

Definition kvm_bad (ret : Z) (k : kvm) : res (Z * kvm) :=
  Ok (ret, with_km (with_errno ENOMEM (km k)) k).

Fixpoint kbrk_grow (fuel : nat) (addr : Z) (k : kvm) : res (Z * kvm) :=
  match fuel with
  | O => Fuel
  | S fuel =>
      if u32 (kheap_start k + kheap_size k) <? addr then
        let* (p, k) := kvm_page_alloc_zeroed k in
        if p =? 0 then kvm_bad (-1) k else kbrk_grow fuel addr k
      else Ok (0, k)
  end.

Fixpoint kbrk_shrink (fuel : nat) (addr : Z) (k : kvm) : res (Z * kvm) :=
  match fuel with
  | O => Fuel
  | S fuel =>
      if addr <? u32 (kheap_start k + kheap_size k) then
        let* k := kvm_page_free k in kbrk_shrink fuel addr k
      else Ok (0, k)
  end.

Definition kbrk (fuel : nat) (addr : Z) (k : kvm) : res (Z * kvm) :=
  if addr <? kheap_start k then kvm_bad (-1) k
  else if KSTACK_BEGIN <? addr then kvm_bad (-1) k
  else if addr =? u32 (kheap_start k + kheap_size k) then Ok (0, k)
  else if u32 (kheap_start k + kheap_size k) <? addr then kbrk_grow fuel addr k
  else kbrk_shrink fuel addr k.

Fixpoint ksbrk_grow (fuel : nat) (incr ret : Z) (k : kvm) : res (Z * kvm) :=
  match fuel with
  | O => Fuel
  | S fuel =>
      if 0 <? incr then
        let* (p, k) := kvm_page_alloc_zeroed k in
        if p =? 0 then kvm_bad PTR_FAIL k
        else ksbrk_grow fuel (incr - PAGE_SIZE) ret k
      else Ok (ret, k)
  end.

Fixpoint ksbrk_shrink (fuel : nat) (incr ret : Z) (k : kvm) : res (Z * kvm) :=
  match fuel with
  | O => Fuel
  | S fuel =>
      if incr <? 0 then
        let* k := kvm_page_free k in ksbrk_shrink fuel (incr + PAGE_SIZE) ret k
      else Ok (ret, k)
  end.

Definition ksbrk (fuel : nat) (incr : Z) (k : kvm) : res (Z * kvm) :=
  let ret := u32 (kheap_start k + kheap_size k) in
  if 0 <? incr then
    if KSTACK_BEGIN <? u32 (u32 (kheap_start k + kheap_size k) + incr)
    then kvm_bad PTR_FAIL k
    else ksbrk_grow fuel incr ret k
  else if incr <? 0 then
    if u32 (u32 (kheap_start k + kheap_size k) + incr) <? kheap_start k
    then kvm_bad PTR_FAIL k
    else ksbrk_shrink fuel (incr + (PAGE_SIZE - 1)) ret k
  else Ok (ret, k).
End vm.

(** ** Lemmas *)

(** Within one directory, an entry belongs to one page. *)
Lemma slot_inj m pd a1 a2 q :
  mm_shape m → slot_of m pd a1 = Some q → slot_of m pd a2 = Some q →
  0 ≤ a1 < 2 ^ 32 → 0 ≤ a2 < 2 ^ 32 → a1 / 4096 = a2 / 4096.
Proof.
  intros Hs H1 H2 Hr1 Hr2. unfold slot_of in *.
  destruct (dirs m !! pd) as [d|] eqn:Hd; [|done]. cbn [mbind option_bind] in *.
  destruct (aget (tables d) (dir_index a1)) as [p1|] eqn:E1; [|done].
  destruct (aget (tables d) (dir_index a2)) as [p2|] eqn:E2; [|done].
  cbn [mbind option_bind] in *.
  destruct (Z.eqb_spec p1 0), (Z.eqb_spec p2 0); try done. simplify_eq.
  destruct (Hs pd d Hd) as (_ & _ & _ & Hinj).
  pose proof (Hinj _ _ _ E1 E2 ltac:(done)) as Hdi.
  match goal with H : tab_index _ = tab_index _ |- _ => rename H into Hti end.
  rewrite !dir_index_div in Hdi. rewrite !tab_index_div in Hti.
  rewrite !Z.mod_small in Hdi by (Z.div_mod_to_equations; simpl in *; lia).
  pose proof (Z.div_mod (a1 / 4096) 1024). pose proof (Z.div_mod (a2 / 4096) 1024). lia.
Qed.

Lemma page_map_mapped `{PA : PageAlloc} n addr fr flags pd s :
  mm_ok s → pa_inv (TABLE_ROOM + n) s → 0 ≤ n → is_Some (dirs s !! pd) →
  0 < addr < 2 ^ 32 → addr mod 4096 = 0 → has flags PF_PRES = true →
  ∃ r s', page_map addr fr flags pd s = Ok (r, s') ∧ mm_ok s' ∧ pa_inv n s' ∧
    spaces s' = spaces s ∧ (frames_ok s → frames_ok s') ∧
    ((r = 0 ∧ errno s' = ENOMEM) ∨
     (r = addr ∧ is_Some (dirs s' !! pd) ∧
      (∃ e, is_mapped s' pd addr (new_page flags fr e)) ∧
      ∀ a e, 0 ≤ a < 2 ^ 32 → a / 4096 ≠ addr / 4096 → is_mapped s pd a e →
        is_mapped s' pd a e)).
Proof.
  intros Hok Hinv Hn Hd Ha Hal Hpr.
  destruct (page_map_entries n addr fr flags pd s) as (r & s' & E & Hok' & Hinv' & Hc & Hfo & Hcase);
    [done..|lia|]. exists r, s'.
  split; [done|]. split; [done|]. split; [done|]. split; [done|]. split; [done|].
  destruct Hcase as [(? & ? & _)|(Hr & Hd' & (e & He) & Hkeep)]; [by left|right].
  assert (Hbase : addr / 4096 * 4096 = addr) by (Z.div_mod_to_equations; lia).
  rewrite Hbase in Hr. split; [done|]. split; [done|]. split.
  { exists e. by split. }
  intros a e2 Har Hne Hm. destruct (Hkeep pd a e2 Hm) as [Hsl|]; [|done]. exfalso.
  destruct (slot_of s' pd addr) as [q|] eqn:Eq.
  - apply Hne. eapply slot_inj; [apply Hok'|exact Hsl|exact Eq|lia|lia].
  - unfold entry_of, slot_of in *. destruct (dirs s' !! pd); [|done].
    cbn [mbind option_bind] in *. destruct (aget _ _); [|done]. cbn [mbind option_bind] in *.
    by destruct (_ =? 0).
Qed.

(** A page that the user may read and write. *)
Definition user_page (u : uvm) (a : Z) : Prop :=
  ∃ e, is_mapped (um u) (page_dir u) a e ∧ rw e = true ∧ user e = true.

Section uvm_specs.
Context {PA : PageAlloc}.

(** The address space of the task is the current one, and its break is at the end
    of a page of user memory; [n] bytes of room for page tables. *)
Definition uvm_ok (n : Z) (u : uvm) : Prop :=
  mm_ok (um u) ∧ frames_ok (um u) ∧ pa_inv n (um u) ∧
  page_dir u = cr3 (um u) ∧ is_Some (dirs (um u) !! page_dir u) ∧
  uheap_end u mod 4096 = 0 ∧ 0 < uheap_end u ≤ USTACK_BEGIN.

(** Pages stay. *)
Definition keeps_pages (u u' : uvm) (lo hi : Z) : Prop :=
  page_dir u' = page_dir u ∧
  ∀ a e, 0 ≤ a < 2 ^ 32 → a < lo ∨ hi ≤ a → is_mapped (um u) (page_dir u) a e →
    is_mapped (um u') (page_dir u) a e.

Lemma zero_page_ok a m e :
  is_mapped m (cr3 m) a e →
  ∃ r, zero_page a m = Ok (with_ram r m).
Proof.
  intros [He Hp]. unfold zero_page, page_frame. rewrite He, Hp. cbn [rbind]. by eexists.
Qed.

(** The state of the allocators after [frame_alloc]. *)
Lemma frame_alloc_keeps n m :
  mm_ok m → frames_ok m → pa_inv n m →
  ∃ fr m', frame_alloc m = Ok (fr, m') ∧ mm_ok m' ∧ frames_ok m' ∧ pa_inv n m' ∧
    dirs m' = dirs m ∧ tabs m' = tabs m ∧ spaces m' = spaces m ∧
    0 ≤ fr < 2 ^ 32.
Proof.
  intros [Hs Hp] Hfo Hinv. pose proof Hfo as (_ & _ & Hms).
  destruct (frame_alloc_cases m Hfo) as [[E _]|(f & fs & E & Hfo' & Hf & _)].
  - eexists _, _. split; [exact E|].
    split; [exact (conj Hs Hp)|]. split; [exact Hfo|]. split; [by eapply pa_inv_ext|].
    split_and!; (done || lia).
  - eexists _, _. split; [exact E|].
    split; [exact (conj Hs Hp)|]. split; [exact Hfo'|]. split; [by eapply pa_inv_ext|].
    rewrite NFRAMEWORDS_eq in Hms. split_and!; try done; Z.div_mod_to_equations; lia.
Qed.

Lemma uvm_page_alloc_spec n u :
  uvm_ok (TABLE_ROOM + n) u → 0 ≤ n → uheap_end u < USTACK_BEGIN →
  ∃ r u', uvm_page_alloc u = Ok (r, u') ∧
    ((r = 0 ∧ errno (um u') = ENOMEM) ∨
     (r = uheap_end u ∧ r ≠ 0 ∧ uheap_end u' = uheap_end u + 4096 ∧
      uheap_begin u' = uheap_begin u ∧ uvm_ok n u' ∧ user_page u' r ∧
      keeps_pages u u' (uheap_end u) (uheap_end u + 4096))).
Proof.
  intros (Hok & Hfo & Hinv & Hpd & Hd & Hal & Hr) Hn Hlt. unfold uvm_page_alloc.
  replace (uheap_end u <? USTACK_BEGIN) with true by lia.
  destruct (frame_alloc_keeps _ _ Hok Hfo Hinv)
    as (fr & m1 & -> & Hok1 & Hfo1 & Hinv1 & Ed & Et & Ec & Hfr). cbn [rbind].
  destruct (page_map_mapped n (uheap_end u) fr (Z.lor (Z.lor PF_PRES PF_RW) PF_USER)
    (page_dir u) m1) as (r & m2 & -> & Hok2 & Hinv2 & Hc2 & Hfo2 & Hcase);
    [done..|by rewrite Ed|unfold USTACK_BEGIN in Hr; lia|done|done|].
  cbn [rbind].
  destruct Hcase as [[-> Herr]|(-> & Hd2 & (e & Hm) & Hkeep)].
  { exists 0, (with_um m2 u). split; [done|by left]. }
  replace (uheap_end u =? 0) with false by lia.
  assert (Hcur : cr3 m2 = page_dir u)
    by (rewrite Hpd; exact (f_equal snd (eq_trans Hc2 Ec))).
  destruct (zero_page_ok (uheap_end u) m2 _ ltac:(rewrite Hcur; exact Hm)) as [ra ->].
  cbn [rbind]. eexists _, _. split; [done|right].
  rewrite uint_small by (unfold USTACK_BEGIN in *; unfold PAGE_SIZE; simpl; lia).
  split; [done|]. split; [lia|]. split; [done|]. split; [done|]. split; [|split; [|split]].
  - split; [exact Hok2|]. split; [by apply Hfo2|]. split; [by eapply pa_inv_ext|].
    cbn [page_dir um uheap_end with_um with_uheap_end cur_page_dir with_ram].
    split; [done|]. split; [exact Hd2|].
    assert (uheap_end u + 4096 ≤ USTACK_BEGIN).
    { apply Z.mod_divide in Hal as [q Hq]; [|lia]. unfold USTACK_BEGIN in *. lia. }
    unfold PAGE_SIZE. split; [|lia].
    replace (uheap_end u + 4096) with (uheap_end u + 1 * 4096) by lia.
    by rewrite Z_mod_plus_full.
  - exists (new_page (Z.lor (Z.lor PF_PRES PF_RW) PF_USER) fr e). by split.
  - done.
  - intros a e2 Ha Hout Hm2.
    assert (Hm1 : is_mapped m1 (page_dir u) a e2).
    { destruct Hm2 as [He2 Hp2]. split; [|done]. unfold entry_of in *. by rewrite Ed, Et. }
    apply (Hkeep a e2) in Hm1; [exact Hm1|done|].
    intros Heq. Z.div_mod_to_equations. lia.
Qed.

Lemma is_mapped_page m pd a b e :
  0 ≤ a → 0 ≤ b → a / 4096 = b / 4096 → is_mapped m pd a e → is_mapped m pd b e.
Proof.
  intros Ha Hb Hab [He Hp]. split; [|done].
  unfold entry_of in *. by rewrite !dir_index_div, !tab_index_div, <- Hab in *.
Qed.

Lemma user_page_keeps u u' lo hi a :
  user_page u a → keeps_pages u u' lo hi → 0 ≤ a < 2 ^ 32 → a < lo ∨ hi ≤ a →
  user_page u' a.
Proof.
  intros (e & Hm & Hrw & Hus) [Hpd Hk] Ha Hout. exists e. rewrite Hpd.
  split_and!; [by apply Hk|done|done].
Qed.

(** The growing loop, over [k] pages. *)
Lemma uvm_sbrk_grow_spec k fuel incr ret u :
  uvm_ok (TABLE_ROOM * Z.of_nat k) u → (k < fuel)%nat →
  4096 * Z.of_nat k - 4096 < incr ≤ 4096 * Z.of_nat k →
  uheap_end u + 4096 * Z.of_nat k ≤ USTACK_BEGIN →
  ∃ r u', uvm_sbrk_grow fuel incr ret u = Ok (r, u') ∧
    ((r = PTR_FAIL ∧ errno (um u') = ENOMEM) ∨
     (r = ret ∧ uheap_end u' = uheap_end u + 4096 * Z.of_nat k ∧
      uheap_begin u' = uheap_begin u ∧ uvm_ok 0 u' ∧
      (∀ a, uheap_end u ≤ a < uheap_end u' → user_page u' a) ∧
      keeps_pages u u' (uheap_end u) (uheap_end u'))).
Proof.
  revert fuel incr u. induction k as [|k IH]; intros [|fuel] incr u Hok Hf Hi Hend; try lia;
    cbn [uvm_sbrk_grow].
  - replace (0 <? incr) with false by lia. exists ret, u. split; [done|right].
    change (Z.of_nat 0) with 0 in *. rewrite Z.mul_0_r in *.
    split; [done|]. split; [lia|]. split; [done|]. split; [done|]. split; [lia|].
    split; [done|]. intros a e _ _ H. exact H.
  - replace (0 <? incr) with true by lia.
    destruct (uvm_page_alloc_spec (TABLE_ROOM * Z.of_nat k) u)
      as (r & u1 & -> & Hcase).
    { by replace (TABLE_ROOM + TABLE_ROOM * Z.of_nat k) with (TABLE_ROOM * Z.of_nat (S k)) by lia. }
    { unfold TABLE_ROOM, PAGE_SIZE. lia. }
    { lia. }
    cbn [rbind]. destruct Hcase as [[-> He]|(-> & Hr & He1 & Hb1 & Hok1 & Hup & Hk1)].
    { eexists _, _. split; [done|]. by left. }
    replace (uheap_end u =? 0) with false by lia.
    destruct (IH fuel (incr - PAGE_SIZE) u1) as (r' & u' & -> & Hcase);
      [done|lia|unfold PAGE_SIZE; lia|lia|].
    exists r', u'. split; [done|]. destruct Hcase as [|(-> & He2 & Hb2 & Hok2 & Hup2 & Hk2)];
      [by left|right].
    destruct Hok as (_ & _ & _ & _ & _ & Hal & Hrange). unfold USTACK_BEGIN in *.
    split; [done|]. split; [lia|]. split; [congruence|]. split; [done|]. split.
    + intros a Ha. destruct (Z_lt_le_dec a (uheap_end u1)); [|apply Hup2; lia].
      apply (user_page_keeps u1 u' (uheap_end u1) (uheap_end u')); [|done|lia|lia].
      destruct Hup as (e & Hm & Hrw & Hus). exists e. split; [|done].
      apply (is_mapped_page _ _ (uheap_end u)); [lia|lia| |done].
      apply Z.mod_divide in Hal as [q Hq]; [|lia]. Z.div_mod_to_equations. lia.
    + destruct Hk1 as [Hp1 Hk1], Hk2 as [Hp2 Hk2]. split; [congruence|].
      intros a e Ha Hout Hm. rewrite <- Hp1. apply Hk2; [lia|lia|]. rewrite Hp1.
      apply Hk1; [lia|lia|done].
Qed.

(** [uvm_sbrk] by a positive amount, up to the user stack: it fails with
    [ENOMEM], or it returns the old break and the new one is the old one plus the
    amount rounded up to pages; then every address between the two breaks is
    mapped for user reads and writes, and every other page of the address space
    that was mapped still is, with the same entry. *)
Theorem uvm_sbrk_grows fuel incr u
    (Hok : uvm_ok (TABLE_ROOM * (1 + incr / 4096)) u)
    (Hi : 0 < incr) (Hend : uheap_end u + incr ≤ USTACK_BEGIN)
    (Hf : (Z.to_nat (1 + incr / 4096) < fuel)%nat) :
  ∃ r u', uvm_sbrk fuel incr u = Ok (r, u') ∧
    ((r = PTR_FAIL ∧ errno (um u') = ENOMEM) ∨
     (r = uheap_end u ∧ uheap_end u' = util_round_up (uheap_end u + incr) 4096 ∧
      (∀ a, uheap_end u ≤ a < uheap_end u' → user_page u' a) ∧
      keeps_pages u u' (uheap_end u) (uheap_end u'))).
Proof.
  pose proof Hok as (Hmm & Hfo & Hinv & Hpd & Hd & Hal & Hr).
  set (k := (incr + 4095) / 4096).
  assert (Hk : 0 ≤ k ∧ 4096 * k - 4096 < incr ≤ 4096 * k ∧ k ≤ 1 + incr / 4096)
    by (unfold k; Z.div_mod_to_equations; lia).
  assert (Hend' : uheap_end u + 4096 * k ≤ USTACK_BEGIN).
  { apply Z.mod_divide in Hal as [q Hq]; [|lia]. unfold USTACK_BEGIN in *. lia. }
  unfold uvm_sbrk. replace (0 <? incr) with true by lia.
  rewrite uint_small by (unfold USTACK_BEGIN in *; simpl; lia).
  replace (USTACK_BEGIN <? uheap_end u + incr) with false by lia.
  destruct (uvm_sbrk_grow_spec (Z.to_nat k) fuel incr (uheap_end u) u)
    as (r & u' & -> & Hcase).
  - split_and!; try done; [|lia..]. apply (pa_inv_le _ _ _ Hinv).
    unfold TABLE_ROOM, PAGE_SIZE. lia.
  - lia.
  - lia.
  - lia.
  - exists r, u'. split; [done|]. destruct Hcase as [|(-> & He & _ & _ & Hup & Hkp)];
      [by left|right]. split_and!; try done. rewrite He. unfold util_round_up.
    apply Z.mod_divide in Hal as [q Hq]; [|lia]. rewrite Hq.
    assert (Hrem : Z.rem (q * 4096 + incr) 4096 = incr mod 4096).
    { rewrite Z.rem_mod_nonneg by lia. by rewrite Z.add_comm, Z_mod_plus_full. }
    rewrite Hrem. unfold USTACK_BEGIN in *.
    destruct (Z.eqb_spec (incr mod 4096) 0) as [E0|E0]; cbn [negb].
    + unfold k in *. Z.div_mod_to_equations. lia.
    + rewrite (uint_small 32 (q * 4096 + incr + 4096)) by (simpl; lia).
      rewrite uint_small; [|simpl]; unfold k in *; Z.div_mod_to_equations; lia.
Qed.
End uvm_specs.

(** A task with an empty heap at the start of user memory. *)
Definition user_mm : mm :=
  Mm (frames boot_mm) 64 0x22000 0x20000 0x20000 {[0x20000 := dir_zero]} ∅ ∅ 0 0x21000.
Definition first_task : uvm := Uvm UMEM_BEGIN UMEM_BEGIN 0x20000 user_mm.

Lemma first_task_ok : @uvm_ok pre_paging (TABLE_ROOM * (1 + 5000 / 4096)) first_task.
Proof.
  destruct boot_dir_ok as [Hok Hinv]. split; [exact Hok|].
  split; [exact boot_mm_frames|]. split.
  { apply (@pa_inv_le pre_paging 0x100000); [exact Hinv|vm_compute; discriminate]. }
  split; [done|]. split; [eexists; apply lookup_singleton_eq|].
  split; [done|]. unfold first_task, USTACK_BEGIN, UMEM_BEGIN. simpl. lia.
Qed.

Lemma uvm_sbrk_grows_witness :
  ∃ r u', @uvm_sbrk pre_paging 3 5000 first_task = Ok (r, u') ∧
    ((r = PTR_FAIL ∧ errno (um u') = ENOMEM) ∨
     (r = UMEM_BEGIN ∧ uheap_end u' = util_round_up (UMEM_BEGIN + 5000) 4096 ∧
      (∀ a, UMEM_BEGIN ≤ a < uheap_end u' → user_page u' a) ∧
      keeps_pages first_task u' UMEM_BEGIN (uheap_end u'))).
Proof.
  apply (@uvm_sbrk_grows pre_paging 3 5000 first_task).
  - exact first_task_ok.
  - lia.
  - vm_compute. discriminate.
  - vm_compute. lia.
Defined.

(** The same call, evaluated: two pages, the second behind the first. *)
Example uvm_sbrk_5000 :
  (let* (r, u) := @uvm_sbrk pre_paging 3 5000 first_task in
   let* p := get_phys 0x10001fff 0x20000 (um u) in
   Ok (r, uheap_end u, p)) = Ok (0x10000000, 0x10002000, 34 * 4096 + 4095).
Proof. vm_compute. reflexivity. Qed.

(** Growing the kernel heap by a page and shrinking it again: the page stays
    mapped to its frame, the frame stays in use, and frame 0, which the kernel
    reserves, is now free. *)
Definition small_kernel : kvm := Kvm 0x400000 0 user_mm.

Example kvm_page_free_leaks :
  (let* (_, k) := @kvm_page_alloc pre_paging small_kernel in
   let* k := @kvm_page_free pre_paging k in
   let* p := get_phys 0x400000 0x20000 (km k) in
   Ok (kheap_size k, p, frame_bit (frames (km k)) 33, frame_bit (frames (km k)) 0))
  = Ok (0, 33 * 4096, true, false).
Proof. vm_compute. reflexivity. Qed.

(** ** The kernel heap's break as an interface

What the heap needs from [ksbrk]: growing moves the break up, by at least the
    amount unless the call fails; shrinking down to the base moves it down by
    whole pages. *)
Class Sbrk := {
  brk_t : Type;
  sbrk : Z → brk_t → res (Z * brk_t);
  brk_ok : brk_t → Prop;
  brk_at : brk_t → Z;
  brk_base : brk_t → Z;
  brk_range : ∀ b, brk_ok b →
    0 < brk_base b ≤ brk_at b ∧ brk_at b < 2 ^ 31 ∧ brk_at b mod PAGE_SIZE = 0;
  sbrk_zero : ∀ b, brk_ok b → sbrk 0 b = Ok (brk_at b, b);
  sbrk_grow : ∀ n b, brk_ok b → 0 < n < 2 ^ 31 →
    ∃ r b', sbrk n b = Ok (r, b') ∧ brk_ok b' ∧ brk_base b' = brk_base b ∧
      brk_at b ≤ brk_at b' ∧ (r = PTR_FAIL ∨ r = brk_at b ∧ brk_at b + n ≤ brk_at b');
  sbrk_shrink : ∀ n b, brk_ok b → 0 < n < 2 ^ 31 → brk_base b ≤ brk_at b - n →
    ∃ b', sbrk (- n) b = Ok (brk_at b, b') ∧ brk_ok b' ∧ brk_base b' = brk_base b ∧
      brk_at b' = brk_at b - n / PAGE_SIZE * PAGE_SIZE
}.

(** The address space that is loaded has the kernel's tables below its stack. *)
Definition kernel_shared (m : mm) : Prop :=
  ∃ d c, dirs m !! cur_page_dir m = Some d ∧ dirs m !! cr3 m = Some c ∧
    ∀ i, 0 ≤ i < 63 → aget (tables c) i = aget (tables d) i.

(** The kernel half of the kernel's address space: its 64 tables exist, and its
    pages are frames of the bitmap. *)
Definition kernel_ok (m : mm) : Prop :=
  mm_shape m ∧ frames_ok m ∧
  (∃ d, dirs m !! cur_page_dir m = Some d ∧
     ∀ i, 0 ≤ i < 64 → ∃ p, aget (tables d) i = Some p ∧ p ≠ 0) ∧
  (∀ a e, 0 ≤ a < UMEM_BEGIN → entry_of m (cur_page_dir m) a = Some e →
    0 ≤ frame e < 32 * NFRAMEWORDS) ∧ kernel_shared m.

Definition kvm_ok (k : kvm) : Prop :=
  kernel_ok (km k) ∧ 0 < kheap_start k ∧ kheap_start k mod PAGE_SIZE = 0 ∧
  0 ≤ kheap_size k ∧ kheap_size k mod PAGE_SIZE = 0 ∧
  kheap_start k + kheap_size k ≤ KSTACK_BEGIN.

Section kernel.
Context {PA : PageAlloc}.

Lemma kernel_shared_ext m m' :
  kernel_shared m → (∀ pd, tables <$> dirs m' !! pd = tables <$> dirs m !! pd) →
  spaces m' = spaces m → kernel_shared m'.
Proof.
  intros (d & c & Hd & Hc & H) Ht [= Hcur Hcr].
  pose proof (Ht (cur_page_dir m)) as H1. pose proof (Ht (cr3 m)) as H2.
  rewrite Hd in H1. rewrite Hc in H2. unfold kernel_shared. rewrite Hcur, Hcr.
  destruct (dirs m' !! cur_page_dir m) as [d'|]; [|done].
  destruct (dirs m' !! cr3 m) as [c'|]; [|done]. injection H1 as H1. injection H2 as H2.
  exists d', c'. split_and!; [done..|]. by rewrite H1, H2.
Qed.

(** Below the kernel stack, both address spaces have the same pages. *)
Lemma kernel_shared_entry m a :
  kernel_shared m → 0 ≤ a < KSTACK_BEGIN → entry_of m (cr3 m) a = entry_of m (cur_page_dir m) a.
Proof.
  intros (d & c & Hd & Hc & H) Ha. unfold entry_of. rewrite Hd, Hc. cbn [mbind option_bind].
  rewrite H; [done|]. rewrite dir_index_div, Z.mod_small; unfold KSTACK_BEGIN in *;
    Z.div_mod_to_equations; lia.
Qed.

(** In the kernel half, [page_map] needs no allocation. *)
Lemma page_map_kernel addr fr flags m :
  kernel_ok m → 0 ≤ addr < UMEM_BEGIN → 0 ≤ fr → fr / 4096 < 32 * NFRAMEWORDS →
  ∃ m' e, page_map addr fr flags (cur_page_dir m) m = Ok (addr / 4096 * 4096, m') ∧
    kernel_ok m' ∧ spaces m' = spaces m ∧
    entry_of m' (cur_page_dir m') addr = Some (new_page flags fr e).
Proof.
  intros (Hs & Hfo & (d & Hd & Ht) & Hfr & Hsh) Ha Hfr0 Hfrn. unfold page_map.
  rewrite page_base by lia.
  destruct (same_page_indices addr 0 ltac:(lia)) as [Edir Etab].
  rewrite Z.add_0_r in Edir, Etab. rewrite Edir.
  assert (Hdi : 0 ≤ dir_index addr < 64).
  { rewrite dir_index_div, Z.mod_small; unfold UMEM_BEGIN in *;
      Z.div_mod_to_equations; lia. }
  destruct (Ht _ Hdi) as (p & Hp & Hne).
  unfold make_table. rewrite Hd. cbn [deref rbind]. rewrite Hp. cbn [deref rbind].
  replace (p =? 0) with false by lia. cbn [rbind negb].
  destruct (page_write m (cur_page_dir m) d addr p (new_page flags fr) (pde_rw flags))
    as (e & m' & E & _ & Hs' & _ & Ht' & (_ & _ & Er2 & _ & Er4 & Er6 & _) & _ & _ & Hent);
    [done..|lia|done|].
  exists m', e. split.
  { destruct (update_page _ _ _ m); try done. cbn [rbind] in *. by rewrite E. }
  pose proof (f_equal fst Er4 : cur_page_dir m' = cur_page_dir m) as Ecur.
  split; [|split; [done|by rewrite Ecur, Hent, decide_True]].
  split; [done|]. split; [unfold frames_ok; by rewrite Er6, Er2|].
  split; [|split; [|by eapply kernel_shared_ext]]; rewrite Ecur.
  - specialize (Ht' (cur_page_dir m)). rewrite Hd in Ht'.
    destruct (dirs m' !! cur_page_dir m) as [d'|]; [|done].
    cbn [fmap option_fmap option_map] in Ht'. injection Ht' as Ht'.
    exists d'. split; [done|]. by rewrite Ht'.
  - intros a e2 Har. rewrite Hent. case_decide; [|by apply Hfr].
    intros [= <-]. cbn [frame new_page]. rewrite Z.shiftr_div_pow2 by lia.
    change (2 ^ 12) with 4096. rewrite (land_ones_mod _ 20) by done.
    rewrite NFRAMEWORDS_eq in *. rewrite Z.mod_small; Z.div_mod_to_equations; lia.
Qed.

Lemma frame_alloc_kernel m : kernel_ok m →
  ∃ fr m', frame_alloc m = Ok (fr, m') ∧ kernel_ok m' ∧ spaces m' = spaces m ∧
    0 ≤ fr ∧ fr / 4096 < 32 * NFRAMEWORDS.
Proof.
  intros (Hs & Hfo & Ht & Hfr). pose proof Hfo as (_ & _ & Hms).
  destruct (frame_alloc_cases m Hfo) as [[E _]|(f & fs & E & Hfo' & Hf & _)].
  - eexists _, _. split; [exact E|]. split; [exact (conj Hs (conj Hfo (conj Ht Hfr)))|].
    split; [done|]. split; [lia|]. done.
  - eexists _, _. split; [exact E|]. split; [exact (conj Hs (conj Hfo' (conj Ht Hfr)))|].
    split_and!; [done|lia|]. rewrite Z.div_mul by lia. Z.div_mod_to_equations. lia.
Qed.

Lemma kernel_ok_ram m r : kernel_ok m → kernel_ok (with_ram r m).
Proof. intros H. exact H. Qed.

Lemma kvm_page_alloc_zeroed_spec k :
  kvm_ok k → kheap_start k + kheap_size k + PAGE_SIZE ≤ KSTACK_BEGIN →
  ∃ k', kvm_page_alloc_zeroed k = Ok (kheap_start k + kheap_size k, k') ∧ kvm_ok k' ∧
    kheap_start k' = kheap_start k ∧ kheap_size k' = kheap_size k + PAGE_SIZE.
Proof.
  intros (Hm & Hst & Hstm & Hsz & Hszm & Hend) Hroom.
  unfold kvm_page_alloc_zeroed, kvm_page_alloc, KSTACK_BEGIN, PAGE_SIZE in *.
  destruct (frame_alloc_kernel _ Hm) as (fr & m1 & -> & Hm1 & _ & Hfr0 & Hfr). cbn [rbind].
  rewrite (uint_small 32 (kheap_start k + _)) by (simpl; lia).
  set (a := kheap_start k + kheap_size k) in *.
  assert (Ha : a / 4096 * 4096 = a).
  { apply Z.mod_divide in Hstm as [q1 H1], Hszm as [q2 H2]; [|lia..].
    unfold a. rewrite H1, H2. Z.div_mod_to_equations. lia. }
  destruct (page_map_kernel a fr (Z.lor PF_PRES PF_RW) m1 Hm1)
    as (m2 & e & -> & Hm2 & _ & He); [unfold UMEM_BEGIN; lia|done|done|].
  rewrite Ha. cbn [rbind]. replace (a =? 0) with false by lia. cbn [rbind].
  replace (a =? 0) with false by lia.
  destruct (zero_page_ok a m2 (new_page (Z.lor PF_PRES PF_RW) fr e)) as [r Hr].
  { split; [|done]. rewrite kernel_shared_entry; [done|apply Hm2|]. unfold KSTACK_BEGIN. lia. }
  cbn [km with_km with_kheap_size]. rewrite Hr. cbn [rbind].
  eexists. split; [done|].
  cbn [kheap_start kheap_size km with_km with_kheap_size].
  rewrite (uint_small 32) by (simpl; lia). split; [|done].
  split_and!; cbn [kheap_start kheap_size km with_km with_kheap_size];
    [exact (kernel_ok_ram _ _ Hm2)|done|done|lia| |unfold KSTACK_BEGIN; lia].
  unfold PAGE_SIZE. replace (kheap_size k + 4096) with (kheap_size k + 1 * 4096) by lia.
  by rewrite Z_mod_plus_full.
Qed.

Lemma kvm_page_free_spec k :
  kvm_ok k → PAGE_SIZE ≤ kheap_size k →
  ∃ k', kvm_page_free k = Ok k' ∧ kvm_ok k' ∧
    kheap_start k' = kheap_start k ∧ kheap_size k' = kheap_size k - PAGE_SIZE.
Proof.
  intros (Hm & Hst & Hstm & Hsz & Hszm & Hend) Hbig.
  unfold kvm_page_free, KSTACK_BEGIN, PAGE_SIZE in *.
  rewrite (uint_small 32 (kheap_start k + _)) by (simpl; lia).
  set (a := kheap_start k + kheap_size k) in *.
  pose proof Hm as (Hs & Hfo & (d & Hd & Ht) & Hfr & Hsh).
  rewrite get_phys_entry by (done || by eexists). cbn [rbind].
  match goal with |- context [frame_free ?x _] => set (phys := x) end.
  assert (Hph : 0 ≤ phys ∧ phys / 4096 < 32 * NFRAMEWORDS).
  { unfold phys. destruct (entry_of _ _ _) as [e|] eqn:E; [|by split].
    specialize (Hfr a e ltac:(unfold UMEM_BEGIN; lia) E).
    destruct (present e); [|by split].
    rewrite Z.shiftl_mul_pow2, (land_ones_mod _ 12) by done. change (2 ^ 12) with 4096.
    pose proof (Z.mod_pos_bound a 4096 ltac:(lia)). rewrite NFRAMEWORDS_eq in *.
    rewrite uint_small by (simpl; lia).
    split; [lia|]. rewrite Z.div_add_l, Z.div_small by lia. lia. }
  unfold frame_free.
  destruct (clear_frame_spec (km k) phys Hfo) as (fs & -> & Hfo' & _); [lia..|].
  cbn [rbind].
  assert (Hm' : kernel_ok (with_frames fs (km k)))
    by exact (conj Hs (conj Hfo' (conj (ex_intro _ d (conj Hd Ht)) (conj Hfr Hsh)))).
  destruct (page_map_kernel a 0 0 _ Hm') as (m2 & e & -> & Hm2 & _);
    [unfold UMEM_BEGIN; lia|lia|done|].
  cbn [rbind]. rewrite (uint_small 32) by (simpl; lia).
  eexists. split; [done|]. split; [|done].
  split_and!; cbn [kheap_start kheap_size km with_km with_kheap_size];
    [done|done|done|lia| |unfold KSTACK_BEGIN; lia].
  unfold PAGE_SIZE. replace (kheap_size k - 4096) with (kheap_size k + (-1) * 4096) by lia.
  by rewrite Z_mod_plus_full.
Qed.

Lemma kvm_bad_ok k r : kvm_ok k → ∃ k', kvm_bad r k = Ok (r, k') ∧ kvm_ok k' ∧
  kheap_start k' = kheap_start k ∧ kheap_size k' = kheap_size k.
Proof. intros H. by eexists. Qed.

Lemma ksbrk_grow_spec n fuel incr ret k :
  kvm_ok k → (n < fuel)%nat → 4096 * Z.of_nat n - 4096 < incr ≤ 4096 * Z.of_nat n →
  kheap_start k + kheap_size k + 4096 * Z.of_nat n ≤ KSTACK_BEGIN →
  ∃ k', ksbrk_grow fuel incr ret k = Ok (ret, k') ∧ kvm_ok k' ∧
    kheap_start k' = kheap_start k ∧ kheap_size k' = kheap_size k + 4096 * Z.of_nat n.
Proof.
  revert fuel incr k. induction n as [|n IH]; intros [|fuel] incr k Hok Hf Hi Hend; try lia;
    cbn [ksbrk_grow].
  - replace (0 <? incr) with false by lia. exists k. split; [done|]. split; [done|]. lia.
  - replace (0 <? incr) with true by lia.
    destruct (kvm_page_alloc_zeroed_spec k Hok) as (k1 & -> & Hok1 & Hs1 & Hn1);
      [unfold PAGE_SIZE; lia|]. cbn [rbind].
    destruct Hok as (_ & Hpos & _ & Hsz & _). unfold PAGE_SIZE in Hn1.
    replace (kheap_start k + kheap_size k =? 0) with false by lia.
    destruct (IH fuel (incr - PAGE_SIZE) k1 Hok1) as (k' & -> & Hok' & Hs' & Hn');
      [lia|unfold PAGE_SIZE; lia|lia|].
    exists k'. split; [done|]. split; [done|]. lia.
Qed.

Lemma ksbrk_shrink_spec n fuel incr ret k :
  kvm_ok k → (n < fuel)%nat → - 4096 * Z.of_nat n ≤ incr < - 4096 * Z.of_nat n + 4096 →
  4096 * Z.of_nat n ≤ kheap_size k →
  ∃ k', ksbrk_shrink fuel incr ret k = Ok (ret, k') ∧ kvm_ok k' ∧
    kheap_start k' = kheap_start k ∧ kheap_size k' = kheap_size k - 4096 * Z.of_nat n.
Proof.
  revert fuel incr k. induction n as [|n IH]; intros [|fuel] incr k Hok Hf Hi Hend; try lia;
    cbn [ksbrk_shrink].
  - replace (incr <? 0) with false by lia. exists k. split; [done|]. split; [done|]. lia.
  - replace (incr <? 0) with true by lia.
    destruct (kvm_page_free_spec k Hok) as (k1 & -> & Hok1 & Hs1 & Hn1);
      [unfold PAGE_SIZE; lia|]. cbn [rbind]. unfold PAGE_SIZE in Hn1.
    destruct (IH fuel (incr + PAGE_SIZE) k1 Hok1) as (k' & -> & Hok' & Hs' & Hn');
      [lia|unfold PAGE_SIZE; lia|lia|].
    exists k'. split; [done|]. split; [done|]. lia.
Qed.

(** The heap is below 256 MiB: 65536 pages. *)
Definition KSBRK_FUEL : nat := Z.to_nat 0x10001.

Lemma KSBRK_FUEL_eq : Z.of_nat KSBRK_FUEL = 65537.
Proof. unfold KSBRK_FUEL. by rewrite Z2Nat.id. Qed.

#[local] Opaque KSBRK_FUEL.

Program Definition kernel_sbrk : Sbrk := {|
  brk_t := kvm;
  sbrk := ksbrk KSBRK_FUEL;
  brk_ok := kvm_ok;
  brk_at k := kheap_start k + kheap_size k;
  brk_base k := kheap_start k
|}.
Next Obligation.
  intros k (_ & Hpos & Hm1 & Hsz & Hm2 & Hend). unfold KSTACK_BEGIN, PAGE_SIZE in *.
  split; [lia|]. split; [simpl; lia|]. by rewrite Zplus_mod, Hm1, Hm2.
Qed.
Next Obligation.
  intros k (_ & Hpos & _ & Hsz & _ & Hend). unfold ksbrk, KSTACK_BEGIN in *.
  change (0 <? 0) with false. cbv iota. by rewrite uint_small by (simpl; lia).
Qed.
Next Obligation.
  intros n k Hok Hn. pose proof Hok as (_ & Hpos & _ & Hsz & _ & Hend).
  change (2 ^ 31) with 2147483648 in Hn. unfold ksbrk.
  replace (0 <? n) with true by lia. unfold KSTACK_BEGIN in *.
  rewrite (uint_small 32 (kheap_start k + _)) by (simpl; lia).
  rewrite uint_small by (simpl; lia).
  destruct (Z.ltb_spec 0x0FC00000 (kheap_start k + kheap_size k + n)) as [Hbig|Hfit].
  - eexists _, _. split; [done|]. split; [exact Hok|]. split; [done|].
    cbn [kheap_start kheap_size with_km]. split; [lia|by left].
  - set (p := (n + 4095) / 4096).
    assert (Hp : 0 ≤ p ∧ 4096 * p - 4096 < n ≤ 4096 * p)
      by (unfold p; Z.div_mod_to_equations; lia).
    destruct (ksbrk_grow_spec (Z.to_nat p) KSBRK_FUEL n (kheap_start k + kheap_size k) k Hok)
      as (k' & -> & Hok' & Hs' & Hn').
    + pose proof KSBRK_FUEL_eq. lia.
    + lia.
    + unfold KSTACK_BEGIN. destruct Hok as (_ & _ & Hm1 & _ & Hm2 & _). unfold PAGE_SIZE in *.
      apply Z.mod_divide in Hm1 as [q1 H1], Hm2 as [q2 H2]; [|lia..]. lia.
    + eexists _, _. split; [done|]. split; [done|]. split; [done|]. rewrite Hs', Hn'.
      split; [lia|right; lia].
Qed.
Next Obligation.
  intros n k Hok Hn Hroom. pose proof Hok as (_ & Hpos & _ & Hsz & _ & Hend).
  change (2 ^ 31) with 2147483648 in Hn. unfold ksbrk, KSTACK_BEGIN in *.
  replace (0 <? - n) with false by lia. replace (- n <? 0) with true by lia.
  rewrite (uint_small 32 (kheap_start k + _)) by (simpl; lia).
  rewrite uint_small by (simpl; lia).
  replace (kheap_start k + kheap_size k + - n <? kheap_start k) with false by lia.
  unfold PAGE_SIZE. set (p := n / 4096).
  assert (Hp : 0 ≤ p ∧ 4096 * p ≤ n < 4096 * p + 4096)
    by (unfold p; Z.div_mod_to_equations; lia).
  destruct (ksbrk_shrink_spec (Z.to_nat p) KSBRK_FUEL (- n + 4095)
    (kheap_start k + kheap_size k) k Hok) as (k' & E & Hok' & Hs' & Hn').
  - pose proof KSBRK_FUEL_eq. lia.
  - lia.
  - lia.
  - change (4096 - 1) with 4095. rewrite E. exists k'. split; [done|]. split; [done|].
    split; [done|]. lia.
Qed.
End kernel.

(** A kernel after start-up: 64 kernel page tables from 1 MiB on. *)
Definition kernel_dir : page_dir_t :=
  PageDir (((λ i, 0x100000 + i * 0x1000) <$> seqZ 0 64) ++ replicate (Z.to_nat 960) 0)
          (replicate 1024 pde_zero).

Definition kernel_tabs : gmap Z (list page_t) :=
  list_to_map ((λ i, (0x100000 + i * 0x1000, tab_zero)) <$> seqZ 0 64).

Definition kernel_mm : mm :=
  Mm (frames boot_mm) 64 0x200000 0x20000 0x20000 {[0x20000 := kernel_dir]} kernel_tabs ∅ 0 0x21000.

Lemma kernel_dir_lookup i p :
  aget (tables kernel_dir) i = Some p →
  0 ≤ i < 1024 ∧ p = if i <? 64 then 0x100000 + i * 0x1000 else 0.
Proof.
  intros E. pose proof (aget_range _ _ _ E) as Hr. unfold aget in E. destruct (i <? 0); [done|].
  unfold kernel_dir in *. cbn [tables] in *.
  rewrite length_app, length_fmap, length_seqZ, length_replicate in Hr.
  split; [lia|]. destruct (Z.ltb_spec i 64) as [Hlt|Hge].
  - rewrite lookup_app_l in E by (rewrite length_fmap, length_seqZ; lia).
    rewrite list_lookup_fmap in E.
    destruct (seqZ 0 64 !! Z.to_nat i) as [j|] eqn:Ej; [|done].
    apply lookup_seqZ in Ej. simpl in E. injection E as <-. lia.
  - rewrite lookup_app_r in E by (rewrite length_fmap, length_seqZ; lia).
    by apply lookup_replicate_1 in E as [-> _].
Qed.

Lemma kernel_dir_tables i : 0 ≤ i < 1024 →
  aget (tables kernel_dir) i = Some (if i <? 64 then 0x100000 + i * 0x1000 else 0).
Proof.
  intros Hi. destruct (aget_is_Some (tables kernel_dir) i) as [p E].
  - unfold kernel_dir. cbn [tables].
    rewrite length_app, length_fmap, length_seqZ, length_replicate. lia.
  - rewrite E. f_equal. exact (proj2 (kernel_dir_lookup _ _ E)).
Qed.

Lemma kernel_tabs_lookup p t : kernel_tabs !! p = Some t → t = tab_zero.
Proof.
  unfold kernel_tabs. intros E%elem_of_list_to_map_2.
  apply list_elem_of_fmap in E as (i & [= _ ->] & _). done.
Qed.

Lemma kernel_tabs_some i : 0 ≤ i < 64 →
  kernel_tabs !! (0x100000 + i * 0x1000) = Some tab_zero.
Proof.
  intros Hi. unfold kernel_tabs. apply elem_of_list_to_map_1'.
  - intros y Hy. apply list_elem_of_fmap in Hy as (j & [= _ ->] & _). done.
  - apply list_elem_of_fmap. exists i. split; [done|]. apply elem_of_seqZ. lia.
Qed.

Lemma kernel_mm_ok : kernel_ok kernel_mm.
Proof.
  split; [|split; [exact boot_mm_frames|split]].
  - intros pd d Hd. unfold kernel_mm in Hd. cbn [dirs] in Hd.
    apply lookup_singleton_Some in Hd as [_ <-]. split_and!.
    + unfold kernel_dir. cbn [tables].
      rewrite length_app, length_fmap, length_seqZ, length_replicate. lia.
    + apply length_replicate.
    + intros i p Hi Hp. apply kernel_dir_lookup in Hi as [Hi ->].
      destruct (Z.ltb_spec i 64); [|done]. exists tab_zero.
      split; [apply kernel_tabs_some; lia|apply length_replicate].
    + intros i j p Hi Hj Hp.
      apply kernel_dir_lookup in Hi as [Hi ->], Hj as [Hj Ej].
      destruct (Z.ltb_spec i 64), (Z.ltb_spec j 64); lia.
  - exists kernel_dir. split; [apply lookup_singleton_eq|]. intros i Hi.
    rewrite kernel_dir_tables by lia. eexists. split; [done|].
    replace (i <? 64) with true by lia. lia.
  - split; [|exists kernel_dir, kernel_dir; by split_and!; [apply lookup_singleton_eq..|]].
    intros a e _ He. unfold entry_of, kernel_mm in He. cbn [dirs tabs cur_page_dir] in He.
    rewrite lookup_singleton_eq in He. cbn [mbind option_bind] in He.
    destruct (aget (tables kernel_dir) _) as [p|]; [|done].
    cbn [mbind option_bind] in He. destruct (p =? 0); [done|].
    destruct (kernel_tabs !! p) as [t|] eqn:Et; [|done]. cbn [mbind option_bind] in He.
    apply kernel_tabs_lookup in Et as ->. apply aget_replicate in He as ->. done.
Qed.

Lemma kernel_kvm_ok sz : 0 ≤ sz ≤ 0x10000 → sz mod PAGE_SIZE = 0 →
  kvm_ok (Kvm 0x400000 sz kernel_mm).
Proof.
  intros Hsz Hm. split; [exact kernel_mm_ok|]. unfold KSTACK_BEGIN.
  cbn [kheap_start kheap_size]. split_and!; try done; lia.
Qed.
