(* ===== verification/Kmalloc.v ===== *)
(** * Kmalloc: the kernel heap

    [kernel/src/mm/kmalloc.c].  The block headers are objects in a store, by
    address.  [ksbrk] comes through the interface [Sbrk], which [Vm.kernel_sbrk]
    implements. *)

From S2P Require Import Prelude Malloc Headers Paging Vm.

Definition KMALLOC_FREE : Z := 1.
Definition KMALLOC_RES : Z := 0.
Definition NODE_T_SIZE : Z := 16.

Record kheap_node_t := KNode { size : Z; status : Z; next : Z; prev : Z }.

Section kmalloc.
Context {SB : Sbrk}.

(** The statics, the headers, [errno] and the break. *)
Record kheap := KHeap {
  kheap_start : Z;
  kheap_end : Z;
  kheap_size : Z;
  nodes : gmap Z kheap_node_t;
  kerrno : Z;
  brk : brk_t
}.

Definition with_nodes (n : gmap Z kheap_node_t) (h : kheap) : kheap :=
  KHeap (kheap_start h) (kheap_end h) (kheap_size h) n (kerrno h) (brk h).
Definition with_brk (b : brk_t) (h : kheap) : kheap :=
  KHeap (kheap_start h) (kheap_end h) (kheap_size h) (nodes h) (kerrno h) b.
Definition with_kerrno (e : Z) (h : kheap) : kheap :=
  KHeap (kheap_start h) (kheap_end h) (kheap_size h) (nodes h) e (brk h).
Definition with_bounds (s e n : Z) (h : kheap) : kheap :=
  KHeap s e n (nodes h) (kerrno h) (brk h).

Definition node_at (p : Z) (h : kheap) : res kheap_node_t := deref (nodes h !! p).

(** A field of the header at [p] is assigned. *)
Definition set_size (p v : Z) (h : kheap) : res kheap :=
  let* n := node_at p h in
  Ok (with_nodes (<[p := KNode (u32 v) (status n) (next n) (prev n)]> (nodes h)) h).
Definition set_status (p v : Z) (h : kheap) : res kheap :=
  let* n := node_at p h in
  Ok (with_nodes (<[p := KNode (size n) v (next n) (prev n)]> (nodes h)) h).
Definition set_next (p v : Z) (h : kheap) : res kheap :=
  let* n := node_at p h in
  Ok (with_nodes (<[p := KNode (size n) (status n) v (prev n)]> (nodes h)) h).
Definition set_prev (p v : Z) (h : kheap) : res kheap :=
  let* n := node_at p h in
  Ok (with_nodes (<[p := KNode (size n) (status n) (next n) v]> (nodes h)) h).

(** A header written where there was none: its old bytes, [junk], come first. *)
Definition place_node (p : Z) (h : kheap) : kheap :=
  match nodes h !! p with
  | Some _ => h
  | None => with_nodes (<[p := KNode 0 0 0 0]> (nodes h)) h
  end.

(** The first node, when there is no heap yet. *)
Definition init_kheap (sz : Z) (h : kheap) : res (bool * kheap) :=
  if kheap_start h =? 0 then
    let* (start, b) := sbrk (s32 (sz + PAGE_SIZE)) (brk h) in
    let h := with_bounds start (kheap_end h) (kheap_size h) (with_brk b h) in
    if start =? PTR_FAIL then Ok (false, with_kerrno ENOMEM h)
    else
      let* (e, b) := sbrk 0 (brk h) in
      let h := with_bounds start e (u32 (e - start)) (with_brk b h) in
      Ok (true, with_nodes
        (<[start := KNode (u32 (kheap_size h - NODE_T_SIZE)) KMALLOC_FREE 0 0]> (nodes h)) h)
  else Ok (true, h).

(** The last node is made larger when it is too small. *)
Definition enlarge (cur sz : Z) (h : kheap) : res (bool * kheap) :=
  let* n := node_at cur h in
  if (next n =? 0) && (size n <? u32 (sz + PAGE_SIZE)) then
    let* (prev_end, b) := sbrk (s32 (sz + PAGE_SIZE - size n)) (brk h) in
    let h := with_brk b h in
    let* (e, b) := sbrk 0 (brk h) in
    let h := with_bounds (kheap_start h) e (kheap_size h) (with_brk b h) in
    if prev_end =? PTR_FAIL then Ok (false, with_kerrno ENOMEM h)
    else
      let* h := set_size cur (size n + u32 (e - prev_end)) h in
      Ok (true, with_bounds (kheap_start h) e (u32 (kheap_size h + u32 (e - prev_end))) h)
  else Ok (true, h).

(** The node found is cut: a padding node in front for the alignment, a free
    node behind for the rest. *)
Definition pad_front (cur padding_amount : Z) (h : kheap) : res (Z * kheap) :=
  if negb (padding_amount =? 0) && negb (padding_amount =? NODE_T_SIZE) then
    let padding := cur in
    let cur := u32 (cur + padding_amount - NODE_T_SIZE) in
    let h := place_node cur h in
    let* h := set_size padding (padding_amount - 2 * NODE_T_SIZE) h in
    let* h := set_status padding KMALLOC_FREE h in
    let* p := node_at padding h in
    let* h := set_next cur (next p) h in
    let* h := set_next padding cur h in
    let* h := set_prev cur padding h in
    let* c := node_at cur h in
    let* h := set_size cur (next c - cur - NODE_T_SIZE) h in
    Ok (cur, h)
  else Ok (cur, h).

Definition split_back (cur sz : Z) (h : kheap) : res kheap :=
  let* c := node_at cur h in
  if negb (size c =? sz) then
    let padding := u32 (cur + NODE_T_SIZE + sz) in
    let h := place_node padding h in
    let* h := set_prev padding cur h in
    let* h := set_next padding (next c) h in
    let* h :=
      (if negb (next c =? 0) then
         let* h := set_size padding (next c - padding - NODE_T_SIZE) h in
         set_prev (next c) padding h
       else set_size padding (kheap_end h - padding - NODE_T_SIZE) h) in
    let* h := set_status padding KMALLOC_FREE h in
    set_next cur padding h
  else Ok h.

Fixpoint find_node (fuel : nat) (cur sz align : Z) (h : kheap) : res (Z * kheap) :=
  match fuel with
  | O => Fuel
  | S fuel =>
      if cur =? 0 then Ok (0, h)
      else
        let* (ok, h) := enlarge cur sz h in
        if negb ok then Ok (0, h)
        else
          let* n := node_at cur h in
          if status n =? KMALLOC_RES then find_node fuel (next n) sz align h
          else
            (* [curnode + NODE_T_SIZE] counts nodes, not bytes *)
            let padding_amount :=
              if negb (u32 (cur + NODE_T_SIZE * NODE_T_SIZE) mod align =? 0)
              then align - cur mod align else 0 in
            if size n <? u32 (sz + padding_amount) then find_node fuel (next n) sz align h
            else
              let* (cur, h) := pad_front cur padding_amount h in
              let* h := split_back cur sz h in
              let* h := set_size cur sz h in
              let* h := set_status cur KMALLOC_RES h in
              Ok (u32 (cur + NODE_T_SIZE), h)
  end.

Definition do_kmalloc (fuel : nat) (sz align : Z) (h : kheap) : res (Z * kheap) :=
  if sz =? 0 then Ok (0, h)
  else
    let sz := round_up sz NODE_T_SIZE in
    let* (ok, h) := init_kheap sz h in
    if negb ok then Ok (0, h) else find_node fuel (kheap_start h) sz align h.

(** ** Freeing *)
Definition unify_fwd (ptr : Z) (h : kheap) : res kheap :=
  let* p := node_at ptr h in
  let* n := node_at (next p) h in
  let* h := set_size ptr (size p + u32 (size n + NODE_T_SIZE)) h in
  let* h := set_next ptr (next n) h in
  if negb (next n =? 0) then set_prev (next n) ptr h else Ok h.

Definition is_free (p : Z) (h : kheap) : res bool :=
  if p =? 0 then Ok false
  else let* n := node_at p h in Ok (status n =? KMALLOC_FREE).

Definition do_kfree (addr : Z) (h : kheap) : res kheap :=
  let ptr := u32 (addr - NODE_T_SIZE) in
  let* h := set_status ptr KMALLOC_FREE h in
  let* n := node_at ptr h in
  let* b := is_free (next n) h in
  let* h := (if b then unify_fwd ptr h else Ok h) in
  let* n := node_at ptr h in
  let* b := is_free (prev n) h in
  let ptr' := if b then prev n else ptr in
  let* h := (if b then unify_fwd ptr' h else Ok h) in
  let* n := node_at ptr' h in
  if (next n =? 0) && (2 * PAGE_SIZE <? size n) then
    let* (prev_end, b) := sbrk (sint 32 (- size n)) (brk h) in
    let h := with_brk b h in
    let* (e, b) := sbrk 0 (brk h) in
    let h := with_bounds (kheap_start h) e (kheap_size h) (with_brk b h) in
    set_size ptr' (size n - u32 (prev_end - e)) h
  else Ok h.

(** ** The entry points, when paging is on *)
Definition kmalloc_a (fuel : nat) (sz align : Z) (h : kheap) : res (Z * kheap) :=
  do_kmalloc fuel sz (round_up align NODE_T_SIZE) h.
Definition kmalloc_page (fuel : nat) (sz : Z) (h : kheap) : res (Z * kheap) :=
  kmalloc_a fuel sz PAGE_SIZE h.
Definition kmalloc (fuel : nat) (sz : Z) (h : kheap) : res (Z * kheap) :=
  kmalloc_a fuel sz NODE_T_SIZE h.
Definition kfree (ptr : Z) (h : kheap) : res kheap := do_kfree ptr h.

(** ** The heap as a list of blocks *)
Record block := Blk { b_addr : Z; b_size : Z; b_free : bool }.

Definition status_of (b : block) : Z := if b_free b then KMALLOC_FREE else KMALLOC_RES.

(** The address of the first block, or [d]. *)
Definition first_addr (bs : list block) (d : Z) : Z :=
  match bs with [] => d | b :: _ => b_addr b end.

Fixpoint last_addr (bs : list block) (d : Z) : Z :=
  match bs with [] => d | b :: bs => last_addr bs (b_addr b) end.

(** The headers of [bs] are in [ns], doubly linked between the node at [prv] and
    the one at [nxt], and the blocks fill the memory up to [e]. *)
Fixpoint chain (ns : gmap Z kheap_node_t) (prv : Z) (bs : list block) (nxt e : Z) : Prop :=
  match bs with
  | [] => True
  | b :: bs =>
      ns !! b_addr b = Some (KNode (b_size b) (status_of b) (first_addr bs nxt) prv) ∧
      0 ≤ b_size b ∧ b_size b mod NODE_T_SIZE = 0 ∧
      b_addr b + NODE_T_SIZE + b_size b = first_addr bs e ∧
      chain ns (b_addr b) bs nxt e
  end.

(** The last block is free. *)
Definition ends_free (bs : list block) : Prop :=
  ∃ bs0 b, bs = bs0 ++ [b] ∧ b_free b = true.

Definition heap_ok (h : kheap) (bs : list block) : Prop :=
  brk_ok (brk h) ∧ kheap_end h = brk_at (brk h) ∧ brk_base (brk h) ≤ kheap_start h ∧
  kheap_start h mod NODE_T_SIZE = 0 ∧
  first_addr bs 0 = kheap_start h ∧ 0 < kheap_start h ∧
  ends_free bs ∧
  ∃ e, chain (nodes h) 0 bs 0 e ∧ e ≤ kheap_end h.

(** The blocks handed out: address and size. *)
Fixpoint allocated (bs : list block) : list (Z * Z) :=
  match bs with
  | [] => []
  | b :: bs => if b_free b then allocated bs
               else (b_addr b + NODE_T_SIZE, b_size b) :: allocated bs
  end.

Lemma first_addr_app bs1 bs2 d :
  first_addr (bs1 ++ bs2) d = first_addr bs1 (first_addr bs2 d).
Proof. by destruct bs1. Qed.

Lemma chain_app ns prv bs1 bs2 nxt e :
  chain ns prv (bs1 ++ bs2) nxt e ↔
  chain ns prv bs1 (first_addr bs2 nxt) (first_addr bs2 e) ∧
  chain ns (last_addr bs1 prv) bs2 nxt e.
Proof.
  revert prv. induction bs1 as [|b bs1 IH]; intros prv; [simpl; tauto|].
  cbn [app chain last_addr]. rewrite IH, !first_addr_app. tauto.
Qed.

Lemma chain_first_le ns prv bs nxt e : chain ns prv bs nxt e → first_addr bs e ≤ e.
Proof.
  revert prv. induction bs as [|b bs IH]; intros prv H; [done|].
  destruct H as (_ & H0 & _ & He & H). cbn [first_addr]. unfold NODE_T_SIZE in *.
  specialize (IH _ H). lia.
Qed.

(** Blocks lie in order, behind the first and before the end. *)
Lemma chain_range ns prv bs nxt e b :
  chain ns prv bs nxt e → b ∈ bs →
  first_addr bs e ≤ b_addr b ∧ b_addr b + NODE_T_SIZE + b_size b ≤ e ∧ 0 ≤ b_size b.
Proof.
  revert prv. induction bs as [|c bs IH]; intros prv H Hb; [by apply elem_of_nil in Hb|].
  destruct H as (_ & H0 & _ & He & H). cbn [first_addr].
  pose proof (chain_first_le _ _ _ _ _ H). unfold NODE_T_SIZE in *.
  apply elem_of_cons in Hb as [->|Hb]; [lia|]. destruct (IH _ H Hb). lia.
Qed.

(** Headers elsewhere do not matter. *)
Lemma chain_frame ns ns' prv bs nxt e :
  chain ns prv bs nxt e →
  (∀ a, first_addr bs e ≤ a < e → ns' !! a = ns !! a) → chain ns' prv bs nxt e.
Proof.
  revert prv. induction bs as [|b bs IH]; intros prv H Hns; [done|].
  pose proof (chain_first_le _ _ _ _ _ H) as Hle.
  destruct H as (E & H0 & Hm & He & H). cbn [first_addr] in *. unfold NODE_T_SIZE in *.
  pose proof (chain_first_le _ _ _ _ _ H) as Hle2.
  split; [rewrite Hns by lia; done|]. split_and!; [done..|].
  apply IH; [done|]. intros a Ha. apply Hns. lia.
Qed.

Lemma allocated_app bs1 bs2 : allocated (bs1 ++ bs2) = allocated bs1 ++ allocated bs2.
Proof. induction bs1 as [|b bs1 IH]; simpl; [done|]. destruct (b_free b); by rewrite IH. Qed.

Lemma allocated_range ns prv bs nxt e a n :
  chain ns prv bs nxt e → (a, n) ∈ allocated bs →
  first_addr bs e + NODE_T_SIZE ≤ a ∧ a + n ≤ e.
Proof.
  intros H Hin.
  assert (Hb : ∃ b, b ∈ bs ∧ a = b_addr b + NODE_T_SIZE ∧ n = b_size b).
  { clear H. induction bs as [|c bs IH]; simpl in Hin; [by apply elem_of_nil in Hin|].
    destruct (b_free c); [|apply elem_of_cons in Hin as [[= -> ->]|Hin]].
    - destruct (IH Hin) as (b & ? & ?). exists b. split; [by right|done].
    - exists c. split; [by left|done].
    - destruct (IH Hin) as (b & ? & ?). exists b. split; [by right|done]. }
  destruct Hb as (b & Hb & -> & ->). destruct (chain_range _ _ _ _ _ _ H Hb). lia.
Qed.

Lemma allocated_split bs l1 l2 p n : allocated bs = l1 ++ (p, n) :: l2 →
  ∃ bs1 b bs2, bs = bs1 ++ b :: bs2 ∧ allocated bs1 = l1 ∧ allocated bs2 = l2 ∧
    p = b_addr b + NODE_T_SIZE ∧ n = b_size b ∧ b_free b = false.
Proof.
  revert l1. induction bs as [|b bs IH]; intros l1 E; simpl in E; [by destruct l1|].
  destruct (b_free b) eqn:Hf.
  - destruct (IH l1 E) as (bs1 & c & bs2 & -> & H1 & H).
    exists (b :: bs1), c, bs2. split; [done|]. simpl. by rewrite Hf.
  - destruct l1 as [|x l1]; simplify_eq/=.
    + by exists [], b, bs.
    + destruct (IH l1 ltac:(done)) as (bs1 & c & bs2 & -> & H1 & H).
      exists (b :: bs1), c, bs2. split; [done|]. simpl. by rewrite Hf, H1.
Qed.

(** Two allocated blocks have a header between them. *)
Lemma allocated_disjoint ns prv bs nxt e l1 l2 p n q k :
  chain ns prv bs nxt e → allocated bs = l1 ++ (p, n) :: l2 → (q, k) ∈ l1 ++ l2 →
  q + k + NODE_T_SIZE ≤ p ∨ p + n + NODE_T_SIZE ≤ q.
Proof.
  intros Hc El Hq. destruct (allocated_split _ _ _ _ _ El)
    as (bs1 & b & bs2 & -> & <- & <- & -> & -> & _).
  apply chain_app in Hc as [H1 (_ & Hs & _ & He & H2)]. cbn [first_addr] in *.
  apply elem_of_app in Hq as [Hq|Hq].
  - left. destruct (allocated_range _ _ _ _ _ _ _ H1 Hq). lia.
  - right. destruct (allocated_range _ _ _ _ _ _ _ H2 Hq). lia.
Qed.

Lemma node_ok p n h : nodes h !! p = Some n → node_at p h = Ok n.
Proof. intros E. unfold node_at. by rewrite E. Qed.

Lemma set_size_ok p n v h : nodes h !! p = Some n →
  set_size p v h
  = Ok (with_nodes (<[p := KNode (u32 v) (status n) (next n) (prev n)]> (nodes h)) h).
Proof. intros E. unfold set_size. by rewrite (node_ok _ _ _ E). Qed.

Lemma set_status_ok p n v h : nodes h !! p = Some n →
  set_status p v h
  = Ok (with_nodes (<[p := KNode (size n) v (next n) (prev n)]> (nodes h)) h).
Proof. intros E. unfold set_status. by rewrite (node_ok _ _ _ E). Qed.

Lemma set_next_ok p n v h : nodes h !! p = Some n →
  set_next p v h
  = Ok (with_nodes (<[p := KNode (size n) (status n) v (prev n)]> (nodes h)) h).
Proof. intros E. unfold set_next. by rewrite (node_ok _ _ _ E). Qed.

Lemma set_prev_ok p n v h : nodes h !! p = Some n →
  set_prev p v h
  = Ok (with_nodes (<[p := KNode (size n) (status n) (next n) v]> (nodes h)) h).
Proof. intros E. unfold set_prev. by rewrite (node_ok _ _ _ E). Qed.

Lemma place_node_ok p h : ∃ ns j, place_node p h = with_nodes ns h ∧ ns !! p = Some j ∧
  ∀ q, q ≠ p → ns !! q = nodes h !! q.
Proof.
  unfold place_node. destruct (nodes h !! p) as [j|] eqn:E.
  - exists (nodes h), j. by destruct h.
  - eexists _, _. split; [done|]. split; [apply lookup_insert_eq|].
    intros q Hq. by rewrite lookup_insert_ne.
Qed.

Lemma with_nodes_twice n1 n2 h : with_nodes n2 (with_nodes n1 h) = with_nodes n2 h.
Proof. done. Qed.

(** Lookups in a map with a few updates. *)
Ltac node_lookup :=
  cbn [nodes with_nodes size status next prev];
  repeat first [rewrite lookup_insert_eq | rewrite lookup_insert_ne by lia];
  try eassumption; try reflexivity.

(** The node found is cut and marked. *)
Lemma cut_spec h cur n sz pad :
  nodes h !! cur = Some n → pad = cur + NODE_T_SIZE + sz →
  0 ≤ cur → 0 ≤ sz → pad < 2 ^ 32 → size n ≠ sz →
  (next n ≠ 0 → ∃ m, nodes h !! next n = Some m ∧ next n ≠ cur ∧ next n ≠ pad) →
  ∃ ns', (let* h := split_back cur sz h in
          let* h := set_size cur sz h in set_status cur KMALLOC_RES h)
         = Ok (with_nodes ns' h) ∧
    ns' !! cur = Some (KNode sz KMALLOC_RES pad (prev n)) ∧
    ns' !! pad = Some (KNode
      (u32 ((if next n =? 0 then kheap_end h else next n) - pad - NODE_T_SIZE))
      KMALLOC_FREE (next n) cur) ∧
    (∀ m, next n ≠ 0 → nodes h !! next n = Some m →
       ns' !! next n = Some (KNode (size m) (status m) (next m) pad)) ∧
    ∀ q, q ≠ cur → q ≠ pad → (next n ≠ 0 → q ≠ next n) → ns' !! q = nodes h !! q.
Proof.
  intros En Hpad Hcur Hsz Hlt Hne Hnext. unfold split_back, NODE_T_SIZE in *.
  rewrite (node_ok _ _ _ En). cbn [rbind].
  replace (size n =? sz) with false by lia. cbn [negb].
  rewrite (uint_small 32) by (simpl in *; lia). rewrite <- Hpad.
  destruct (place_node_ok pad h) as (ns & j & -> & Ej & Ens).
  erewrite set_prev_ok by (cbn [nodes with_nodes]; exact Ej). cbn [rbind].
  rewrite with_nodes_twice. cbn [nodes with_nodes].
  erewrite set_next_ok by node_lookup. cbn [rbind]. rewrite with_nodes_twice.
  cbn [nodes with_nodes size status next prev].
  assert (Ecur : ns !! cur = Some n) by (rewrite Ens by lia; done).
  destruct (Z.eqb_spec (next n) 0) as [E0|E0]; cbn [negb].
  - erewrite set_size_ok by node_lookup. cbn [rbind]. rewrite with_nodes_twice.
    erewrite set_status_ok by node_lookup. cbn [rbind]. rewrite with_nodes_twice.
    erewrite set_next_ok by node_lookup. cbn [rbind]. rewrite with_nodes_twice.
    erewrite set_size_ok by node_lookup. cbn [rbind]. rewrite with_nodes_twice.
    erewrite set_status_ok by node_lookup. rewrite with_nodes_twice.
    eexists. split; [done|]. cbn [nodes with_nodes size status next prev kheap_end].
    split_and!.
    + rewrite lookup_insert_eq. by rewrite uint_small by (simpl in *; lia).
    + by node_lookup.
    + done.
    + intros q Hq1 Hq2 _. rewrite !lookup_insert_ne by congruence. by apply Ens.
  - destruct (Hnext E0) as (m & Em & Hn1 & Hn2).
    assert (Enx : ns !! next n = Some m) by (rewrite Ens by done; done).
    erewrite set_size_ok by node_lookup. cbn [rbind]. rewrite with_nodes_twice.
    erewrite set_prev_ok by node_lookup. cbn [rbind]. rewrite with_nodes_twice.
    erewrite set_status_ok by node_lookup. cbn [rbind]. rewrite with_nodes_twice.
    erewrite set_next_ok by node_lookup. cbn [rbind]. rewrite with_nodes_twice.
    erewrite set_size_ok by node_lookup. cbn [rbind]. rewrite with_nodes_twice.
    erewrite set_status_ok by node_lookup. rewrite with_nodes_twice.
    eexists. split; [done|]. cbn [nodes with_nodes size status next prev kheap_end].
    split_and!.
    + rewrite lookup_insert_eq. by rewrite uint_small by (simpl in *; lia).
    + by node_lookup.
    + intros m' _ Em'. rewrite Em in Em'. injection Em' as <-. by node_lookup.
    + intros q Hq1 Hq2 Hq3. rewrite !lookup_insert_ne by (naive_solver congruence).
      by apply Ens.
Qed.

Lemma chain_aligned ns prv bs nxt e b :
  chain ns prv bs nxt e → first_addr bs e mod NODE_T_SIZE = 0 → b ∈ bs →
  b_addr b mod NODE_T_SIZE = 0.
Proof.
  revert prv. induction bs as [|c bs IH]; intros prv H Ha Hb; [by apply elem_of_nil in Hb|].
  destruct H as (_ & _ & Hm & He & H). cbn [first_addr] in Ha.
  apply elem_of_cons in Hb as [->|Hb]; [done|]. apply (IH _ H); [|done].
  rewrite <- He, <- Z.add_assoc, Zplus_mod, Ha, (Zplus_mod NODE_T_SIZE), Hm. done.
Qed.

(** The head of a chain gets another predecessor. *)
Lemma chain_relink ns ns' p1 p2 bs nxt e :
  chain ns p1 bs nxt e →
  (bs ≠ [] → ∀ m, ns !! first_addr bs 0 = Some m →
     ns' !! first_addr bs 0 = Some (KNode (size m) (status m) (next m) p2)) →
  (∀ a, first_addr bs e < a < e → ns' !! a = ns !! a) →
  chain ns' p2 bs nxt e.
Proof.
  destruct bs as [|b bs]; intros H Hh Hf; [done|].
  destruct H as (E & H0 & Hm & He & H). cbn [first_addr] in *. split_and!; try done.
  - by apply (Hh ltac:(done) _ E).
  - apply (chain_frame ns); [done|]. intros a Ha. apply Hf. unfold NODE_T_SIZE in *. lia.
Qed.

(** The end of the list after the last block was stretched to [e']. *)
Definition new_end (post : list block) (e e' : Z) : Z :=
  match post with [] => e' | _ => e end.

Lemma cut_chain ns ns' pre cur s f sz f' post e e' :
  chain ns 0 (pre ++ Blk cur s f :: post) 0 e →
  0 < first_addr (pre ++ Blk cur s f :: post) 0 →
  0 ≤ sz → sz mod NODE_T_SIZE = 0 → s ≠ sz → sz ≤ s → e ≤ e' → e' mod NODE_T_SIZE = 0 →
  first_addr (pre ++ Blk cur s f :: post) 0 mod NODE_T_SIZE = 0 →
  let pad := cur + NODE_T_SIZE + sz in
  let rest := new_end post (first_addr post e) e' - pad - NODE_T_SIZE in
  ns' !! cur = Some (KNode sz (status_of (Blk cur sz f')) pad (last_addr pre 0)) →
  ns' !! pad = Some (KNode rest KMALLOC_FREE (first_addr post 0) cur) →
  (∀ m, first_addr post 0 ≠ 0 → ns !! first_addr post 0 = Some m →
     ns' !! first_addr post 0 = Some (KNode (size m) (status m) (next m) pad)) →
  (∀ q, q ≠ cur → q ≠ pad → (first_addr post 0 ≠ 0 → q ≠ first_addr post 0) →
     ns' !! q = ns !! q) →
  chain ns' 0 (pre ++ Blk cur sz f' :: Blk pad rest true :: post) 0 (new_end post e e').
Proof.
  intros H Hpos Hsz Hszm Hne Hle Hee He'm Ham pad rest Ecur Epad Enxt Eother.
  pose proof (chain_first_le _ _ _ _ _ H) as Hfle.
  assert (Hcm : cur mod NODE_T_SIZE = 0).
  { apply (chain_aligned _ _ _ _ _ (Blk cur s f) H); [|set_solver].
    by destruct pre. }
  apply chain_app in H as [H1 (E & Hs & Hsm & He & H2)].
  cbn [first_addr b_addr b_size] in *.
  pose proof (chain_first_le _ _ _ _ _ H1) as Hpre.
  pose proof (chain_first_le _ _ _ _ _ H2) as Hpost.
  assert (Hcpos : 0 < cur).
  { destruct pre as [|c pre]; cbn [app first_addr b_addr] in *; lia. }
  assert (Hrest : 0 ≤ rest ∧ rest mod NODE_T_SIZE = 0).
  { unfold rest, pad, NODE_T_SIZE in *.
    assert (s mod 16 = 0 ∧ sz mod 16 = 0) as [? ?] by done.
    destruct post; cbn [new_end first_addr] in *; Z.div_mod_to_equations; lia. }
  apply chain_app. cbn [first_addr b_addr]. split.
  - apply (chain_frame ns); [done|]. intros a Ha. unfold pad, NODE_T_SIZE in *.
    apply Eother; [lia|lia|]. intros Hn. destruct post; cbn [first_addr] in *; lia.
  - cbn [chain b_addr b_size b_free status_of first_addr]. split_and!; try done; try lia.
    { unfold rest, NODE_T_SIZE. destruct post; cbn [new_end first_addr]; lia. }
    destruct post as [|c post]; [done|]. cbn [new_end first_addr] in *.
    apply (chain_relink ns _ cur); [done| |].
    + intros _ m Em. apply Enxt; [|done]. unfold NODE_T_SIZE in *. cbn [first_addr]. lia.
    + intros a Ha. cbn [first_addr] in *. unfold pad, NODE_T_SIZE in *.
      apply Eother; lia.
Qed.

(** Two neighbours become one. *)
Lemma unify_chain ns ns' p pre a s b t f post e :
  chain ns p (pre ++ Blk a s true :: Blk b t f :: post) 0 e →
  ns' !! a = Some (KNode (s + (t + NODE_T_SIZE)) KMALLOC_FREE (first_addr post 0) (last_addr pre p)) →
  (post ≠ [] → ∀ m, ns !! first_addr post 0 = Some m →
     ns' !! first_addr post 0 = Some (KNode (size m) (status m) (next m) a)) →
  (∀ q, q ≠ a → (post ≠ [] → q ≠ first_addr post 0) → ns' !! q = ns !! q) →
  chain ns' p (pre ++ Blk a (s + t + NODE_T_SIZE) true :: post) 0 e.
Proof.
  intros Hc Na Nc No.
  apply chain_app in Hc as [H1 (_ & Hs & Hsm & Hab & (_ & Ht & Htm & Hbe & H2))].
  cbn [first_addr b_addr b_size] in *. unfold NODE_T_SIZE in *.
  pose proof (chain_first_le _ _ _ _ _ H1) as Hle1. cbn [first_addr b_addr] in Hle1.
  pose proof (chain_first_le _ _ _ _ _ H2) as Hle2.
  assert (Hbeh : ∀ d, post ≠ [] → first_addr post d = first_addr post 0) by (by destruct post).
  apply chain_app. cbn [first_addr b_addr]. split.
  - apply (chain_frame ns); [done|]. intros q Hq. apply No; [lia|].
    intros Hp. rewrite (Hbeh e Hp) in *. lia.
  - cbn [chain b_addr b_size b_free]. split_and!; try lia.
    + rewrite Na. unfold status_of. cbn [b_free]. by replace (s + t + 16) with (s + (t + 16)) by lia.
    + unfold NODE_T_SIZE. apply Z.mod_divide; [done|].
      apply Z.mod_divide in Hsm as [k1 ->], Htm as [k2 ->]; [|done..].
      exists (k1 + k2 + 1). lia.
    + unfold NODE_T_SIZE. lia.
    + apply (chain_relink ns _ b); [done| |].
      * intros Hp m Em. by apply Nc.
      * intros q Hq. apply No; [lia|]. intros Hp. rewrite (Hbeh e Hp) in *. lia.
Qed.

(** One header changes: its status, or the size of the last block. *)
Lemma replace_chain ns ns' p pre cur s f s' f' post nxt e e' :
  chain ns p (pre ++ Blk cur s f :: post) nxt e →
  ns' !! cur = Some (KNode s' (status_of (Blk cur s' f')) (first_addr post nxt)
                       (last_addr pre p)) →
  (∀ q, q ≠ cur → ns' !! q = ns !! q) →
  0 ≤ s' → s' mod NODE_T_SIZE = 0 → cur + NODE_T_SIZE + s' = first_addr post e' →
  (post ≠ [] → e' = e) →
  chain ns' p (pre ++ Blk cur s' f' :: post) nxt e'.
Proof.
  intros H Ecur Hns Hs' Hm' He' Hpost.
  apply chain_app in H as [H1 (E & Hs & Hsm & He & H2)].
  cbn [first_addr b_addr b_size] in *.
  pose proof (chain_first_le _ _ _ _ _ H2) as Hle2.
  apply chain_app. cbn [first_addr b_addr]. split.
  - apply (chain_frame ns); [done|]. intros a Ha. apply Hns. lia.
  - split_and!; [done..|]. destruct post as [|c post]; [done|].
    rewrite Hpost by done. apply (chain_frame ns); [done|].
    intros a Ha. apply Hns. cbn [b_addr b_size] in *. unfold NODE_T_SIZE in *. lia.
Qed.

Lemma heap_block h pre b post : heap_ok h (pre ++ b :: post) →
  nodes h !! b_addr b = Some (KNode (b_size b) (status_of b) (first_addr post 0)
                                (last_addr pre 0)) ∧
  0 < b_addr b ∧ b_addr b mod NODE_T_SIZE = 0 ∧ 0 ≤ b_size b ∧
  b_size b mod NODE_T_SIZE = 0 ∧ b_addr b + NODE_T_SIZE + b_size b ≤ kheap_end h ∧
  b_addr b < first_addr post (b_addr b + 1) ∧ kheap_end h < 2 ^ 31.
Proof.
  intros (Hb & He & Hbase & Hal & Hst & Hpos & _ & e & Hc & Hee).
  destruct (brk_range _ Hb) as (_ & Hlt & _).
  assert (Hbin : b ∈ pre ++ b :: post) by set_solver.
  destruct (chain_range _ _ _ _ _ _ Hc Hbin) as (H1 & H2 & H3).
  assert (Hfa : first_addr (pre ++ b :: post) e = kheap_start h)
    by (rewrite <- Hst; by destruct pre).
  pose proof (chain_aligned _ _ _ _ _ b Hc ltac:(by rewrite Hfa) Hbin) as Halb.
  apply chain_app in Hc as [_ (E & Hs & Hsm & Hend & _)].
  split; [exact E|]. rewrite Hfa in *. split; [lia|]. split; [done|]. split; [done|].
  split; [done|]. split; [lia|]. split; [|lia].
  unfold NODE_T_SIZE in *. destruct post; cbn [first_addr] in *; lia.
Qed.

(** Rebuild the invariant around new nodes. *)
Lemma heap_ok_intro h h' bs bs' e' :
  heap_ok h bs → brk_ok (brk h') → brk_base (brk h') = brk_base (brk h) →
  kheap_end h' = brk_at (brk h') → kheap_start h' = kheap_start h →
  first_addr bs' 0 = first_addr bs 0 → ends_free bs' →
  chain (nodes h') 0 bs' 0 e' → e' ≤ kheap_end h' → heap_ok h' bs'.
Proof.
  intros (Hb & He & Hbase & Hal & Hst & Hpos & _ & _) Hb' Hbb Hke Hks Hfa Hl Hc Hle.
  unfold heap_ok. rewrite Hke, Hks, Hbb, Hfa. split_and!; try done.
  exists e'. rewrite <- Hke. done.
Qed.

Lemma first_addr_same pre b b' post post' d :
  b_addr b = b_addr b' → first_addr (pre ++ b :: post) d = first_addr (pre ++ b' :: post') d.
Proof. intros E. by destruct pre. Qed.

(** [enlarge]: only the last block grows, and then it is large enough. *)
Lemma enlarge_spec h pre cur s f post sz :
  heap_ok h (pre ++ Blk cur s f :: post) → 0 < sz ≤ 2 ^ 30 →
  ∃ ok h' s', enlarge cur sz h = Ok (ok, h') ∧
    heap_ok h' (pre ++ Blk cur s' f :: post) ∧
    (ok = false → kerrno h' = ENOMEM) ∧
    (ok = true → post = [] → sz + PAGE_SIZE ≤ s').
Proof.
  intros Hok Hsz. pose proof (heap_block _ _ _ _ Hok) as Hblk.
  cbn [b_addr b_size] in Hblk. destruct Hblk as (E & Hcp & Hca & Hs & Hsm & Hend & Hnx & Hk31).
  pose proof Hok as (Hb & Hke & Hbase & Hal & Hst & Hpos & Hlast & e & Hc & Hee).
  unfold enlarge. rewrite (node_ok _ _ _ E). cbn [rbind next size].
  rewrite (uint_small 32) by (unfold PAGE_SIZE; simpl in *; lia).
  destruct post as [|c post].
  2:{ cbn [first_addr] in Hnx |- *. replace (b_addr c =? 0) with false by lia.
      exists true, h, s. split_and!; done. }
  cbn [first_addr] in *. change (0 =? 0) with true. cbn [andb].
  destruct (Z.ltb_spec s (sz + PAGE_SIZE)) as [Hlt|Hge].
  2:{ exists true, h, s. split_and!; try done. }
  unfold PAGE_SIZE, NODE_T_SIZE in *. simpl in Hsz.
  rewrite (sint_small 32) by (simpl; lia).
  destruct (sbrk_grow (sz + 4096 - s) (brk h) Hb) as (r & b' & -> & Hb' & Hbb & Hge & Hr);
    [simpl; lia|]. cbn [rbind]. cbn [brk with_brk].
  rewrite (sbrk_zero b' Hb'). cbn [rbind].
  destruct (brk_range b' Hb') as (_ & Hlt' & Hm').
  destruct Hr as [->|[-> Hgrow]].
  - rewrite Z.eqb_refl. eexists false, _, s. split; [done|]. split; [|done].
    eapply (heap_ok_intro h); try done. rewrite <- Hke in Hge.
    cbn [kheap_end with_kerrno with_bounds]. lia.
  - destruct (brk_range _ Hb) as (_ & Hlt0 & Hm0).
    replace (brk_at (brk h) =? PTR_FAIL) with false by (unfold PTR_FAIL; lia).
    rewrite (uint_small 32) by (simpl in *; lia).
    set (s' := s + (brk_at b' - brk_at (brk h))).
    erewrite set_size_ok by (cbn [nodes with_brk with_bounds]; exact E).
    cbn [rbind size status next prev]. rewrite (uint_small 32) by (simpl in *; lia).
    assert (Hs'm : s' mod 16 = 0).
    { unfold s'. unfold PAGE_SIZE in *. Z.div_mod_to_equations. lia. }
    eexists true, _, s'. split; [done|]. split; [|split; [done|unfold s'; lia]].
    apply (heap_ok_intro h _ _ _ (cur + 16 + s') Hok); try done.
    + by apply first_addr_same.
    + destruct Hlast as (bs0 & b0 & Hbs & Hf). apply app_inj_tail in Hbs as [<- <-].
      by eexists _, _.
    + apply (replace_chain (nodes h) _ 0 pre cur s f s' f [] 0 e); try done; [| |unfold s'; lia].
      * cbn [nodes with_bounds with_nodes with_brk]. apply lookup_insert_eq.
      * intros q Hq. cbn [nodes with_bounds with_nodes with_brk].
        by rewrite lookup_insert_ne.
    + cbn [kheap_end with_bounds]. unfold s'. lia.
Qed.

Lemma ends_free_post l l' post :
  post ≠ [] → ends_free (l ++ post) → ends_free (l' ++ post).
Proof.
  intros Hne (bs0 & b & Hbs & Hf).
  destruct (exists_last Hne) as (bs1 & b1 & ->). rewrite !app_assoc in *.
  apply app_inj_tail in Hbs as [_ ->]. by eexists _, _.
Qed.

Lemma ends_free_1 l b : b_free b = true → ends_free (l ++ [b]).
Proof. intros H. by eexists _, _. Qed.

Lemma cons_app {A} (l : list A) x y : l ++ x :: y = (l ++ [x]) ++ y.
Proof. by rewrite <- app_assoc. Qed.

(** The block that was found is handed out: an exact fit, which the last block
    never is. *)
Lemma take_exact h pre cur post sz :
  heap_ok h (pre ++ Blk cur sz true :: post) → 0 < sz → post ≠ [] →
  ∃ h', (let* h := split_back cur sz h in
         let* h := set_size cur sz h in set_status cur KMALLOC_RES h) = Ok h' ∧
    heap_ok h' (pre ++ Blk cur sz false :: post) ∧ kerrno h' = kerrno h.
Proof.
  intros Hok Hsz Hpost. pose proof (heap_block _ _ _ _ Hok) as Hblk.
  cbn [b_addr b_size] in Hblk. destruct Hblk as (E & Hcp & Hca & Hs & Hsm & Hend & Hnx & Hk31).
  pose proof Hok as (Hb & Hke & Hbase & Hal & Hst & Hpos & Hlast & e & Hc & Hee).
  unfold split_back. rewrite (node_ok _ _ _ E). cbn [rbind size].
  rewrite Z.eqb_refl. cbn [negb rbind].
  erewrite set_size_ok by exact E. cbn [rbind].
  erewrite set_status_ok by (cbn [nodes with_nodes]; apply lookup_insert_eq).
  cbn [size status next prev nodes with_nodes].
  rewrite (uint_small 32) by (unfold NODE_T_SIZE in *; simpl in *; lia).
  eexists. split; [done|]. split; [|done].
  apply (heap_ok_intro h _ _ _ e Hok); try done.
  - by apply first_addr_same.
  - rewrite cons_app in Hlast |- *. by eapply ends_free_post.
  - apply chain_app in Hc as Hc'. destruct Hc' as [_ (_ & _ & _ & He & _)].
    cbn [b_addr b_size] in He.
    apply (replace_chain (nodes h) _ 0 pre cur sz true sz false post 0 e); try done; [|].
    + cbn [nodes with_nodes]. apply lookup_insert_eq.
    + intros q Hq. cbn [nodes with_nodes]. by rewrite !lookup_insert_ne.
Qed.

(** The size of the free block that is left. *)
Lemma rest_size h pre cur s post sz e :
  heap_ok h (pre ++ Blk cur s true :: post) →
  chain (nodes h) 0 (pre ++ Blk cur s true :: post) 0 e → e ≤ kheap_end h →
  0 < sz → cur + 16 + sz + 16 ≤ cur + 16 + s →
  let rest := new_end post (first_addr post e) (kheap_end h) - (cur + 16 + sz) - 16 in
  rest = (if first_addr post 0 =? 0 then kheap_end h else first_addr post 0)
         - (cur + 16 + sz) - 16 ∧ 0 ≤ rest < 2 ^ 32.
Proof.
  intros Hok Hc Hee Hsz Hfit rest.
  pose proof (heap_block _ _ _ _ Hok) as (_ & Hcp & _ & _ & _ & _ & Hnx & Hk31).
  cbn [b_addr] in *.
  apply chain_app in Hc as [_ (_ & _ & _ & He & Hcp2)].
  cbn [first_addr b_addr b_size] in He. unfold NODE_T_SIZE in He.
  pose proof (chain_first_le _ _ _ _ _ Hcp2) as Hle.
  unfold rest. destruct post as [|c post]; cbn [new_end first_addr] in *.
  - split; [done|simpl in *; lia].
  - replace (b_addr c =? 0) with false by lia. split; [done|simpl in *; lia].
Qed.

(** Or it is cut. *)
Lemma take_cut h pre cur s post sz :
  heap_ok h (pre ++ Blk cur s true :: post) →
  0 < sz < s → sz mod NODE_T_SIZE = 0 →
  ∃ h' pad rest, (let* h := split_back cur sz h in
         let* h := set_size cur sz h in set_status cur KMALLOC_RES h) = Ok h' ∧
    heap_ok h' (pre ++ Blk cur sz false :: Blk pad rest true :: post) ∧
    kerrno h' = kerrno h.
Proof.
  intros Hok Hsz Hszm. pose proof (heap_block _ _ _ _ Hok) as Hblk.
  cbn [b_addr b_size] in Hblk. destruct Hblk as (E & Hcp & Hca & Hs & Hsm & Hend & Hnx & Hk31).
  pose proof Hok as (Hb & Hke & Hbase & Hal & Hst & Hpos & Hlast & e & Hc & Hee).
  unfold NODE_T_SIZE in *. set (pad := cur + 16 + sz).
  assert (Hpad : pad + 16 ≤ cur + 16 + s) by (unfold pad; Z.div_mod_to_equations; lia).
  destruct (cut_spec h cur _ sz pad E) as (ns' & E' & E1 & E2 & E3 & E4);
    [done|lia|lia|simpl in *; lia|cbn [size]; lia| |].
  { cbn [next]. intros Hn0. destruct post as [|c post]; [done|]. cbn [first_addr] in *.
    apply chain_app in Hc as [_ (_ & _ & _ & He & (Ec & _))].
    cbn [first_addr b_addr b_size] in He, Ec. eexists. split; [exact Ec|].
    unfold NODE_T_SIZE in *. lia. }
  rewrite E'. cbn [next prev] in *. unfold NODE_T_SIZE in E2.
  destruct (rest_size h pre cur s post sz e Hok Hc Hee) as [Hrest Hr]; [lia|lia|].
  fold pad in Hrest, Hr. rewrite <- Hrest, uint_small in E2 by exact Hr.
  set (rest := _ - pad - 16) in *.
  exists (with_nodes ns' h), pad, rest. split; [done|]. split; [|done].
  destruct (brk_range _ Hb) as (_ & Hlt & Hm). unfold PAGE_SIZE in Hm.
  apply (heap_ok_intro h _ _ _ (new_end post e (kheap_end h)) Hok); try done.
  - by apply first_addr_same.
  - destruct post as [|c post]; [rewrite cons_app; by apply ends_free_1|].
    rewrite cons_app, (cons_app _ (Blk pad rest true)). rewrite cons_app in Hlast.
    by eapply ends_free_post.
  - cbn [nodes with_nodes].
    refine (cut_chain (nodes h) ns' pre cur s true sz false post e (kheap_end h) Hc _ _ _ _ _ _ _ _
      E1 E2 E3 E4); unfold NODE_T_SIZE; try done; try lia; try (rewrite Hst; done).
    rewrite Hke. Z.div_mod_to_equations. lia.
  - cbn [kheap_end with_nodes]. destruct post; cbn [new_end]; lia.
Qed.

Lemma take_spec h pre cur s post sz :
  heap_ok h (pre ++ Blk cur s true :: post) →
  0 < sz ≤ s → sz mod NODE_T_SIZE = 0 → (post = [] → sz + PAGE_SIZE ≤ s) →
  ∃ h' bs', (let* h := split_back cur sz h in
             let* h := set_size cur sz h in set_status cur KMALLOC_RES h) = Ok h' ∧
    heap_ok h' bs' ∧ kerrno h' = kerrno h ∧
    allocated bs' = allocated pre ++ (cur + NODE_T_SIZE, sz) :: allocated post.
Proof.
  intros Hok Hsz Hszm Hlastsz. destruct (Z.eq_dec s sz) as [->|Hne].
  - destruct (take_exact h pre cur post sz Hok) as (h' & E & Hok' & He).
    { lia. }
    { intros ->. specialize (Hlastsz eq_refl). unfold PAGE_SIZE in *. lia. }
    exists h', (pre ++ Blk cur sz false :: post). by rewrite allocated_app.
  - destruct (take_cut h pre cur s post sz Hok) as (h' & pad & rest & E & Hok' & He);
      [lia|done|].
    exists h', (pre ++ Blk cur sz false :: Blk pad rest true :: post).
    by rewrite allocated_app.
Qed.

(** What a call of [kmalloc] leaves: no memory, or one more allocated block. *)
Definition malloc_post (bs : list block) (h : kheap) (sz p : Z) (h' : kheap) : Prop :=
  ∃ bs', heap_ok h' bs' ∧
    ((p = 0 ∧ kerrno h' = ENOMEM ∧ allocated bs' = allocated bs) ∨
     (p ≠ 0 ∧ p mod NODE_T_SIZE = 0 ∧ ∃ l1 l2, allocated bs = l1 ++ l2 ∧
        allocated bs' = l1 ++ (p, sz) :: l2)).

Lemma find_node_spec fuel h pre suf sz :
  heap_ok h (pre ++ suf) → suf ≠ [] → 0 < sz ≤ 2 ^ 30 → sz mod NODE_T_SIZE = 0 →
  (length suf < fuel)%nat →
  ∃ p h', find_node fuel (first_addr suf 0) sz NODE_T_SIZE h = Ok (p, h') ∧
    malloc_post (pre ++ suf) h sz p h'.
Proof.
  revert h pre suf. induction fuel as [|fuel IH]; intros h pre suf Hok Hne Hsz Hszm Hf; [lia|].
  destruct suf as [|[cur s f] post]; [done|]. cbn [first_addr b_addr find_node].
  pose proof (heap_block _ _ _ _ Hok) as (_ & Hcp & Hca & _). cbn [b_addr] in *.
  replace (cur =? 0) with false by lia.
  destruct (enlarge_spec h pre cur s f post sz Hok Hsz)
    as (ok & h1 & s1 & -> & Hok1 & Hno & Hbig).
  assert (Hall : allocated (pre ++ Blk cur s1 f :: post) = allocated (pre ++ Blk cur s f :: post)
    ∨ post = [] ∧ f = false).
  { destruct post as [|c post].
    - destruct f; [left|by right]. by rewrite !allocated_app.
    - left. pose proof (heap_block _ _ _ _ Hok1) as (E1 & _).
      (* the size of an inner block is given by its neighbours *)
      destruct Hok as (_ & _ & _ & _ & _ & _ & _ & e & Hc & _).
      destruct Hok1 as (_ & _ & _ & _ & _ & _ & _ & e1 & Hc1 & _).
      apply chain_app in Hc as [_ (_ & _ & _ & He & _)].
      apply chain_app in Hc1 as [_ (_ & _ & _ & He1 & _)].
      cbn [first_addr b_addr b_size] in *. replace s1 with s by lia. done. }
  assert (Hall' : allocated (pre ++ Blk cur s1 f :: post)
    = allocated (pre ++ Blk cur s f :: post)).
  { destruct Hall as [|[-> ->]]; [done|]. exfalso.
    destruct Hok as (_ & _ & _ & _ & _ & _ & (bs0 & b & Hbs & Hfr) & _).
    apply app_inj_tail in Hbs as [_ <-]. done. }
  clear Hall. cbn [rbind]. destruct ok; cbn [negb].
  2:{ exists 0, h1. split; [done|]. eexists. split; [exact Hok1|]. left. auto. }
  pose proof (heap_block _ _ _ _ Hok1) as (E & _ & _ & Hs & Hsm & Hend & Hnx & Hk31).
  cbn [b_addr b_size] in *. rewrite (node_ok _ _ _ E). cbn [rbind status size next].
  assert (Hnextcase : (status_of (Blk cur s1 f) = KMALLOC_RES ∨ s1 < sz) →
    ∃ p h', find_node fuel (first_addr post 0) sz NODE_T_SIZE h1 = Ok (p, h') ∧
      malloc_post (pre ++ Blk cur s f :: post) h sz p h').
  { intros Hskip. destruct post as [|c post].
    - exfalso. specialize (Hbig eq_refl eq_refl). unfold PAGE_SIZE in Hbig.
      destruct Hskip as [Hst|]; [|lia].
      destruct Hok1 as (_ & _ & _ & _ & _ & _ & (bs0 & b & Hbs & Hfr) & _).
      apply app_inj_tail in Hbs as [_ <-]. cbn [b_free] in Hfr. by rewrite Hfr in Hst.
    - rewrite cons_app in Hok1, Hall'.
      destruct (IH h1 (pre ++ [Blk cur s1 f]) (c :: post) Hok1) as (p & h' & E' & Hp);
        [done|done|done|cbn [length] in *; lia|].
      exists p, h'. split; [exact E'|]. unfold malloc_post in *. by rewrite <- Hall'. }
  destruct (Z.eqb_spec (status_of (Blk cur s1 f)) KMALLOC_RES) as [Est|Est]; [by apply Hnextcase; left|].
  assert (Hpad : u32 (cur + NODE_T_SIZE * NODE_T_SIZE) mod NODE_T_SIZE = 0).
  { unfold NODE_T_SIZE in *. simpl in Hk31. rewrite uint_small by (simpl; lia).
    change (16 * 16) with (16 * 16). by rewrite Z_mod_plus_full. }
  rewrite Hpad. cbn [negb]. change (negb (0 =? 0)) with false. cbv iota.
  rewrite Z.add_0_r. simpl in Hsz. rewrite (uint_small 32 sz) by (simpl; lia).
  destruct (Z.ltb_spec s1 sz); [apply Hnextcase; by right|].
  unfold pad_front. change (negb (0 =? 0)) with false. cbn [andb rbind].
  assert (f = true) as -> by (destruct f; [done|by destruct Est]).
  destruct (take_spec h1 pre cur s1 post sz Hok1) as (h2 & bs2 & E2 & Hok2 & He2 & Hal2);
    [lia|done|by apply Hbig|].
  exists (u32 (cur + NODE_T_SIZE)), h2. split.
  { destruct (split_back cur sz h1) as [h3| | |]; try done. cbn [rbind] in *.
    destruct (set_size cur sz h3) as [h4| | |]; try done. cbn [rbind] in *. by rewrite E2. }
  unfold NODE_T_SIZE in *. simpl in Hk31. rewrite uint_small by (simpl; lia).
  exists bs2. split; [exact Hok2|right]. split; [lia|]. split.
  { replace (cur + 16) with (cur + 1 * 16) by lia. by rewrite Z_mod_plus_full. }
  exists (allocated pre), (allocated post). split; [|exact Hal2].
  by rewrite allocated_app.
Qed.

Lemma round_up_node sz : 0 < sz ≤ 2 ^ 30 - 16 →
  sz ≤ round_up sz NODE_T_SIZE < sz + 16 ∧ round_up sz NODE_T_SIZE mod NODE_T_SIZE = 0.
Proof.
  intros Hsz. unfold round_up, NODE_T_SIZE. simpl in Hsz.
  rewrite (land_ones_mod sz 4) by done. change (2 ^ 4) with 16.
  destruct (Z.eqb_spec (sz mod 16) 0); cbn [negb]; [lia|].
  rewrite uint_small, Z.rem_mod_nonneg by (simpl; lia). Z.div_mod_to_equations. lia.
Qed.

Lemma kmalloc_correct fuel h bs sz :
  heap_ok h bs → 0 < sz ≤ 2 ^ 30 - 16 → (length bs < fuel)%nat →
  ∃ p h' bs', kmalloc fuel sz h = Ok (p, h') ∧ heap_ok h' bs' ∧
    ((p = 0 ∧ kerrno h' = ENOMEM ∧ allocated bs' = allocated bs) ∨
     (let n := round_up sz NODE_T_SIZE in
      p mod 16 = 0 ∧ sz ≤ n ∧ kheap_start h' < p ∧ p + n ≤ kheap_end h' ∧
      allocated bs' ≡ₚ (p, n) :: allocated bs ∧
      ∀ q k, (q, k) ∈ allocated bs → q + k + NODE_T_SIZE ≤ p ∨ p + n + NODE_T_SIZE ≤ q)).
Proof.
  intros Hok Hsz Hf.
  destruct (round_up_node sz Hsz) as [Hr Hrm]. set (n := round_up sz NODE_T_SIZE) in *.
  pose proof Hok as (Hb & _ & _ & _ & Hst & Hpos & _).
  unfold kmalloc, kmalloc_a, do_kmalloc. replace (sz =? 0) with false by lia.
  change (round_up NODE_T_SIZE NODE_T_SIZE) with NODE_T_SIZE. fold n.
  unfold init_kheap. replace (kheap_start h =? 0) with false by lia. cbn [rbind negb].
  rewrite <- Hst.
  destruct (find_node_spec fuel h [] bs n) as (p & h' & E & bs' & Hok' & Hcase);
    [done|intros ->; simpl in Hst; lia|simpl in *; lia|done|done|].
  cbn [app] in Hcase. exists p, h', bs'. split; [exact E|]. split; [done|].
  destruct Hcase as [|(Hp & Hpm & l1 & l2 & El & El')]; [by left|right].
  cbv zeta. fold n. split; [done|]. split; [lia|].
  pose proof Hok' as (_ & _ & _ & _ & Hst' & _ & _ & e & Hc & Hee).
  assert (Hfa : first_addr bs' e = kheap_start h').
  { rewrite <- Hst'. destruct bs'; [|done]. simpl in El'. by destruct l1. }
  destruct (allocated_range _ _ _ _ _ p n Hc) as [Hlo Hhi].
  { rewrite El'. set_solver. }
  unfold NODE_T_SIZE in *. split; [lia|]. split; [lia|]. split.
  { rewrite El, El'. symmetry. apply Permutation_middle. }
  intros q k Hq. rewrite El in Hq.
  apply (allocated_disjoint _ _ _ _ _ l1 l2 p n q k Hc El' Hq).
Qed.

(** C11: [kmalloc] on a well-formed heap (a doubly linked list of headers whose
    blocks fill the heap in order, the last one free): the search ends, the heap
    is well-formed again, and either it returned [NULL] with [ENOMEM] and the
    allocated blocks are the same, or it returned a multiple of 16 that is the
    address of one more allocated block, of the size asked for rounded up to 16;
    this block lies inside the heap and overlaps no block that was allocated, nor
    does any header. *)
Theorem kmalloc_spec fuel h bs sz
    (Hok : heap_ok h bs) (Hsz : 0 < sz ≤ 2 ^ 30 - 16) (Hf : (length bs < fuel)%nat) :
  ∃ p h' bs', kmalloc fuel sz h = Ok (p, h') ∧ heap_ok h' bs' ∧
    ((p = 0 ∧ kerrno h' = ENOMEM ∧ allocated bs' = allocated bs) ∨
     (let n := round_up sz NODE_T_SIZE in
      p mod 16 = 0 ∧ sz ≤ n ∧ kheap_start h' < p ∧ p + n ≤ kheap_end h' ∧
      allocated bs' ≡ₚ (p, n) :: allocated bs ∧
      ∀ q k, (q, k) ∈ allocated bs → q + k + NODE_T_SIZE ≤ p ∨ p + n + NODE_T_SIZE ≤ q)).
Proof. by apply kmalloc_correct. Qed.

(** ** Freeing *)

(** A block and its right neighbour become one. *)
Lemma unify_spec h pre a s b t f post :
  heap_ok h (pre ++ Blk a s true :: Blk b t f :: post) → (post = [] → f = true) →
  ∃ h', unify_fwd a h = Ok h' ∧ heap_ok h' (pre ++ Blk a (s + t + NODE_T_SIZE) true :: post) ∧
    kerrno h' = kerrno h.
Proof.
  intros Hok Hlastf.
  pose proof (heap_block _ _ _ _ Hok) as (Ea & Hap & Haa & Hs & Hsm & Hend & _ & Hk31).
  pose proof Hok as Hok2. rewrite cons_app in Hok2.
  pose proof (heap_block _ _ _ _ Hok2) as (Eb & Hbp & Hba & Ht & Htm & Hendb & Hnx & _).
  pose proof Hok as (Hb & Hke & Hbase & Hal & Hst & Hpos & Hlast & e & Hc & Hee).
  cbn [b_addr b_size first_addr] in *.
  pose proof Hc as Hc'. apply chain_app in Hc' as [H1 (_ & _ & _ & Hab & (_ & _ & _ & Hbe & H2))].
  cbn [first_addr b_addr b_size] in *. unfold NODE_T_SIZE in *. simpl in Hk31.
  pose proof (chain_first_le _ _ _ _ _ H1) as Hle1.
  pose proof (chain_first_le _ _ _ _ _ H2) as Hle2.
  unfold unify_fwd. rewrite (node_ok _ _ _ Ea). cbn [rbind next size].
  rewrite (node_ok _ _ _ Eb). cbn [rbind next size].
  rewrite (uint_small 32 (t + NODE_T_SIZE)) by (unfold NODE_T_SIZE; simpl; lia).
  erewrite set_size_ok by exact Ea. cbn [rbind].
  erewrite set_next_ok by (cbn [nodes with_nodes]; apply lookup_insert_eq).
  cbn [rbind size status next prev nodes with_nodes]. rewrite insert_insert_eq.
  rewrite (uint_small 32) by (unfold NODE_T_SIZE; simpl; lia).
  set (h1 := with_nodes _ (with_nodes _ h)).
  assert (Hnew : ∃ h', (if negb (first_addr post 0 =? 0)
                        then set_prev (first_addr post 0) a h1 else Ok h1) = Ok h' ∧
    kerrno h' = kerrno h ∧ brk h' = brk h ∧ kheap_end h' = kheap_end h ∧
    kheap_start h' = kheap_start h ∧
    nodes h' !! a = Some (KNode (s + (t + 16)) KMALLOC_FREE (first_addr post 0)
                                (last_addr pre 0)) ∧
    (post ≠ [] → ∀ m, nodes h !! first_addr post 0 = Some m →
       nodes h' !! first_addr post 0 = Some (KNode (size m) (status m) (next m) a)) ∧
    ∀ q, q ≠ a → (post ≠ [] → q ≠ first_addr post 0) → nodes h' !! q = nodes h !! q).
  { destruct post as [|c post].
    - exists h1. split_and!; try done.
      + apply lookup_insert_eq.
      + intros q Hq _. cbn [h1 nodes with_nodes]. by rewrite lookup_insert_ne.
    - cbn [first_addr] in *. destruct H2 as (Ec & _).
      replace (b_addr c =? 0) with false by lia. cbn [negb].
      assert (Ec1 : nodes h1 !! b_addr c = nodes h !! b_addr c).
      { unfold h1. cbn [nodes with_nodes]. by rewrite lookup_insert_ne by lia. }
      erewrite set_prev_ok by (rewrite Ec1; exact Ec). eexists. split; [done|].
      cbn [nodes with_nodes kerrno brk kheap_end kheap_start]. split_and!; try done.
      + rewrite lookup_insert_ne by lia. apply lookup_insert_eq.
      + intros _ m Em. rewrite Ec in Em. injection Em as <-. by rewrite lookup_insert_eq.
      + intros q Hq Hq2. rewrite lookup_insert_ne by (symmetry; by apply Hq2).
        unfold h1. cbn [nodes with_nodes]. by rewrite lookup_insert_ne. }
  destruct Hnew as (h' & E' & Hn1 & Hn2 & Hn3 & Hn4 & Na & Nc & No).
  exists h'. split; [exact E'|]. split; [|done].
  apply (heap_ok_intro h _ _ _ e Hok); rewrite ?Hn2, ?Hn3, ?Hn4; try done.
  - by apply first_addr_same.
  - destruct post as [|c post]; [by apply ends_free_1|].
    rewrite cons_app. rewrite cons_app, cons_app in Hlast. by eapply ends_free_post.
  - by apply (unify_chain (nodes h) _ 0 pre a s b t f post e Hc).
Qed.

(** The header of a block is marked free. *)
Lemma mark_free_spec h pre cur n post :
  heap_ok h (pre ++ Blk cur n false :: post) → post ≠ [] →
  ∃ h', set_status cur KMALLOC_FREE h = Ok h' ∧
    heap_ok h' (pre ++ Blk cur n true :: post).
Proof.
  intros Hok Hpost. pose proof (heap_block _ _ _ _ Hok) as (E & _ & _ & Hs & Hsm & _).
  pose proof Hok as (Hb & Hke & Hbase & Hal & Hst & Hpos & Hlast & e & Hc & Hee).
  cbn [b_addr b_size] in *. erewrite set_status_ok by exact E.
  cbn [size status next prev]. eexists. split; [done|].
  apply (heap_ok_intro h _ _ _ e Hok); try done.
  - by apply first_addr_same.
  - rewrite cons_app in Hlast |- *. by eapply ends_free_post.
  - apply chain_app in Hc as Hc'. destruct Hc' as [_ (_ & _ & _ & He & _)].
    apply (replace_chain (nodes h) _ 0 pre cur n false n true post 0 e); try done; [|].
    + cbn [nodes with_nodes]. apply lookup_insert_eq.
    + intros q Hq. cbn [nodes with_nodes]. by rewrite !lookup_insert_ne.
Qed.

(** Is the neighbour free? *)
Lemma is_free_first h pre b c post :
  heap_ok h (pre ++ b :: c :: post) → is_free (b_addr c) h = Ok (b_free c).
Proof.
  intros Hok. rewrite cons_app in Hok.
  pose proof (heap_block _ _ _ _ Hok) as (E & Hp & _). unfold is_free.
  replace (b_addr c =? 0) with false by lia. rewrite (node_ok _ _ _ E).
  cbn [rbind status]. unfold status_of. by destruct (b_free c).
Qed.

Lemma is_free_last h pre d b post :
  heap_ok h ((pre ++ [d]) ++ b :: post) → is_free (b_addr d) h = Ok (b_free d).
Proof.
  intros Hok. rewrite <- app_assoc in Hok. cbn [app] in Hok.
  pose proof (heap_block _ _ _ _ Hok) as (E & Hp & _). unfold is_free.
  replace (b_addr d =? 0) with false by lia. rewrite (node_ok _ _ _ E).
  cbn [rbind status]. unfold status_of. by destruct (b_free d).
Qed.


Lemma last_addr_snoc pre d x : last_addr (pre ++ [d]) x = b_addr d.
Proof. revert x. induction pre as [|b pre IH]; intros x; [done|]. apply IH. Qed.

(** The three steps of [do_kfree] after the mark. *)
Lemma coalesce_fwd h pre cur n post :
  heap_ok h (pre ++ Blk cur n true :: post) →
  ∃ h' n' post', (let* x := node_at cur h in
                  let* b := is_free (next x) h in
                  if b then unify_fwd cur h else Ok h) = Ok h' ∧
    heap_ok h' (pre ++ Blk cur n' true :: post') ∧ allocated post' = allocated post.
Proof.
  intros Hok. pose proof (heap_block _ _ _ _ Hok) as (E & _). cbn [b_addr] in E.
  rewrite (node_ok _ _ _ E). cbn [rbind next].
  destruct post as [|[b t f] post]; cbn [first_addr b_addr].
  { exists h, n, []. split; [done|]. by split. }
  pose proof (is_free_first _ _ _ _ _ Hok) as Hi. cbn [b_addr b_free] in Hi.
  rewrite Hi. cbn [rbind]. destruct f.
  - destruct (unify_spec h pre cur n b t true post Hok) as (h' & E' & Hok' & _); [done|].
    exists h', (n + t + NODE_T_SIZE), post. split; [exact E'|]. by split.
  - exists h, n, (Blk b t false :: post). split; [done|]. by split.
Qed.

Lemma coalesce_bwd h pre cur n post :
  heap_ok h (pre ++ Blk cur n true :: post) →
  ∃ h' ptr n' pre', (let* x := node_at cur h in
                     let* b := is_free (prev x) h in
                     let ptr' := if b then prev x else cur in
                     let* h := (if b then unify_fwd ptr' h else Ok h) in Ok (ptr', h))
                    = Ok (ptr, h') ∧
    heap_ok h' (pre' ++ Blk ptr n' true :: post) ∧ allocated pre' = allocated pre.
Proof.
  intros Hok. pose proof (heap_block _ _ _ _ Hok) as (E & _). cbn [b_addr] in E.
  rewrite (node_ok _ _ _ E). cbn [rbind prev].
  destruct (destruct_last pre) as [->|(pre' & [d t f] & ->)].
  { cbn [last_addr]. exists h, cur, n, []. split; [done|]. by split. }
  pose proof (is_free_last _ _ _ _ _ Hok) as Hi. cbn [b_addr b_free] in Hi.
  rewrite last_addr_snoc. cbn [b_addr]. rewrite Hi. cbn [rbind].
  destruct f.
  - rewrite <- app_assoc in Hok. cbn [app] in Hok.
    destruct (unify_spec h pre' d t cur n true post Hok) as (h' & E' & Hok' & _); [done|].
    rewrite E'. cbn [rbind]. exists h', d, (t + n + NODE_T_SIZE), pre'.
    split; [done|]. split; [done|]. rewrite allocated_app. simpl. by rewrite app_nil_r.
  - exists h, cur, n, (pre' ++ [Blk d t false]). split; [done|]. by split.
Qed.

Lemma trim_spec h pre cur n post :
  heap_ok h (pre ++ Blk cur n true :: post) →
  ∃ h' bs', (let* x := node_at cur h in
    if (next x =? 0) && (2 * PAGE_SIZE <? size x) then
      let* (prev_end, b) := sbrk (sint 32 (- size x)) (brk h) in
      let h := with_brk b h in
      let* (e, b) := sbrk 0 (brk h) in
      let h := with_bounds (kheap_start h) e (kheap_size h) (with_brk b h) in
      set_size cur (size x - u32 (prev_end - e)) h
    else Ok h) = Ok h' ∧ heap_ok h' bs' ∧ allocated bs' = allocated pre ++ allocated post.
Proof.
  intros Hok.
  pose proof (heap_block _ _ _ _ Hok) as (E & Hcp & Hca & Hs & Hsm & Hend & Hnx & Hk31).
  pose proof Hok as (Hb & Hke & Hbase & Hal & Hst & Hpos & Hlast & e & Hc & Hee).
  cbn [b_addr b_size] in *. rewrite (node_ok _ _ _ E). cbn [rbind next size].
  destruct post as [|c post].
  2:{ cbn [first_addr] in *. replace (b_addr c =? 0) with false by lia.
      eexists h, _. split; [done|]. split; [exact Hok|]. by rewrite allocated_app. }
  cbn [first_addr] in *. change (0 =? 0) with true. cbn [andb].
  destruct (Z.ltb_spec (2 * PAGE_SIZE) n) as [Hbig|Hsmall].
  2:{ eexists h, _. split; [done|]. split; [exact Hok|]. by rewrite allocated_app. }
  unfold NODE_T_SIZE in *. change (2 ^ 31) with 2147483648 in Hk31.
  rewrite sint_small by (simpl; lia).
  assert (Hbrk : brk_base (brk h) ≤ brk_at (brk h) - n).
  { rewrite Hke in Hend. assert (kheap_start h ≤ cur); [|lia].
    apply chain_app in Hc as [H1 _]. cbn [first_addr b_addr] in H1.
    pose proof (chain_first_le _ _ _ _ _ H1). destruct pre; cbn [app first_addr b_addr] in *; lia. }
  destruct (sbrk_shrink n (brk h) Hb) as (b' & -> & Hb' & Hbb & Hbat);
    [unfold PAGE_SIZE in *; simpl; lia|done|].
  cbn [rbind brk with_brk]. rewrite (sbrk_zero b' Hb'). cbn [rbind].
  rewrite Hbat.
  set (k := n / PAGE_SIZE). unfold PAGE_SIZE in *.
  assert (Hk : 0 ≤ k * 4096 ≤ n ∧ n - k * 4096 < 4096 ∧ 2 ≤ k)
    by (unfold k; Z.div_mod_to_equations; lia).
  rewrite (uint_small 32 (_ - _)) by (simpl; lia).
  erewrite set_size_ok by (cbn [nodes with_brk with_bounds]; exact E).
  cbn [size status next prev].
  replace (n - (brk_at (brk h) - (brk_at (brk h) - k * 4096))) with (n - k * 4096) by lia.
  rewrite (uint_small 32) by (simpl; lia).
  eexists _, (pre ++ [Blk cur (n - k * 4096) true]). split; [done|]. split.
  - apply (heap_ok_intro h _ _ _ (cur + 16 + (n - k * 4096)) Hok); try done.
    + by apply first_addr_same.
    + by apply ends_free_1.
    + apply (replace_chain (nodes h) _ 0 pre cur n true (n - k * 4096) true [] 0 e);
        try done; [| |lia|].
      * cbn [nodes with_bounds with_nodes with_brk]. apply lookup_insert_eq.
      * intros q Hq. cbn [nodes with_bounds with_nodes with_brk].
        by rewrite lookup_insert_ne.
      * unfold NODE_T_SIZE. apply Z.mod_divide in Hsm as [j ->]; [|done].
        apply Z.mod_divide; [done|]. exists (j - k * 256). lia.
    + cbn [kheap_end with_nodes with_bounds with_brk]. lia.
  - by rewrite !allocated_app.
Qed.

Lemma kfree_correct h bs p n : heap_ok h bs → (p, n) ∈ allocated bs →
  ∃ h' bs', kfree p h = Ok h' ∧ heap_ok h' bs' ∧
    allocated bs ≡ₚ (p, n) :: allocated bs'.
Proof.
  intros Hok Hp.
  apply list_elem_of_split in Hp as (l1 & l2 & El).
  destruct (allocated_split _ _ _ _ _ El)
    as (pre & [cur n' f] & post & -> & <- & <- & -> & -> & Hf).
  cbn [b_addr b_size b_free] in *. subst f.
  pose proof (heap_block _ _ _ _ Hok) as (_ & Hcp & _ & _ & _ & Hend & _ & Hk31).
  cbn [b_addr b_size] in *.
  unfold kfree, do_kfree. unfold NODE_T_SIZE in *. rewrite Z.add_simpl_r.
  change (2 ^ 31) with 2147483648 in Hk31.
  rewrite uint_small by (pose proof (heap_block _ _ _ _ Hok) as (_ & _ & _ & ? & _);
    cbn [b_size] in *; simpl; lia).
  destruct (mark_free_spec h pre cur n' post Hok) as (h1 & -> & Hok1).
  { intros ->. destruct Hok as (_ & _ & _ & _ & _ & _ & (bs0 & b & Hbs & Hfr) & _).
    apply app_inj_tail in Hbs as [_ <-]. done. }
  cbn [rbind].
  destruct (coalesce_fwd h1 pre cur n' post Hok1) as (h2 & n2 & post2 & E2 & Hok2 & Ha2).
  destruct (coalesce_bwd h2 pre cur n2 post2 Hok2) as (h3 & ptr & n3 & pre3 & E3 & Hok3 & Ha3).
  destruct (trim_spec h3 pre3 ptr n3 post2 Hok3) as (h4 & bs4 & E4 & Hok4 & Ha4).
  exists h4, bs4. split.
  - destruct (node_at cur h1) as [x1| | |]; try done. cbn [rbind] in *.
    destruct (is_free (next x1) h1) as [b1| | |]; try done. cbn [rbind] in *.
    rewrite E2. cbn [rbind].
    destruct (node_at cur h2) as [x2| | |]; try done. cbn [rbind] in *.
    destruct (is_free (prev x2) h2) as [b2| | |]; try done. cbn [rbind] in *.
    destruct (if b2 then unify_fwd _ h2 else Ok h2) as [h3'| | |]; try done.
    cbn [rbind] in *. injection E3 as -> ->. exact E4.
  - split; [exact Hok4|]. rewrite El, Ha4, Ha2, Ha3. symmetry. apply Permutation_middle.
Qed.
(** C14: [kfree] of an allocated block of a well-formed heap: it ends, the heap is
    well-formed again (neighbours coalesced, the end given back when it is large),
    and the allocated blocks are the others, at the same places with the same
    sizes. *)
Theorem kfree_spec h bs p n (Hok : heap_ok h bs) (Hp : (p, n) ∈ allocated bs) :
  ∃ h' bs', kfree p h = Ok h' ∧ heap_ok h' bs' ∧
    allocated bs ≡ₚ (p, n) :: allocated bs'.
Proof. by apply kfree_correct. Qed.

(** ** The interface to the clients of the heap *)
Definition heap_rep (h : kheap) (L : gset Z) : Prop :=
  ∃ bs, heap_ok h bs ∧ L = list_to_set (allocated bs).*1.

Lemma chain_nodes ns prv bs nxt e : chain ns prv bs nxt e →
  Forall (λ b, 0 ≤ b_size b) bs ∧ NoDup (map b_addr bs) ∧ list_to_set (map b_addr bs) ⊆ dom ns.
Proof.
  revert prv. induction bs as [|b bs IH]; intros prv; simpl.
  { intros _. split_and!; [done|constructor|set_solver]. }
  intros (E & H0 & _ & Hend & Hc). destruct (IH (b_addr b) Hc) as (Hf & Hnd & Hd).
  split_and!; [by constructor| |].
  - constructor; [|done]. intros (b' & Hb' & Hin)%list_elem_of_fmap.
    destruct (chain_range _ _ _ _ _ b' Hc Hin) as [Hlo _].
    destruct bs; [set_solver|]. simpl in *. unfold NODE_T_SIZE in *. lia.
  - apply elem_of_dom_2 in E. set_solver.
Qed.

Lemma heap_fuel h bs : heap_ok h bs → (length bs < S (stdpp.base.size (nodes h)))%nat.
Proof.
  intros (_ & _ & _ & _ & _ & _ & _ & e & Hc & _).
  destruct (chain_nodes _ _ _ _ _ Hc) as (_ & Hnd & Hd).
  apply subseteq_size in Hd. rewrite size_list_to_set in Hd by done.
  rewrite length_map, size_dom in Hd. lia.
Qed.

Lemma allocated_sublist bs :
  (allocated bs).*1 `sublist_of` map (λ b, b_addr b + NODE_T_SIZE) bs.
Proof.
  induction bs as [|b bs IH]; simpl; [done|].
  destruct (b_free b); simpl; [by constructor|by constructor].
Qed.

Lemma heap_allocated h bs : heap_ok h bs →
  NoDup (allocated bs).*1 ∧ ∀ q k, (q, k) ∈ allocated bs → 0 ≤ k.
Proof.
  intros (_ & _ & _ & _ & _ & _ & _ & e & Hc & _).
  destruct (chain_nodes _ _ _ _ _ Hc) as (Hf & Hnd & _). split.
  - eapply sublist_NoDup; [|apply allocated_sublist].
    rewrite <- (map_map b_addr (λ a, a + NODE_T_SIZE)).
    apply NoDup_fmap_2; [|done]. intros x y ?. lia.
  - intros q k (l1 & l2 & El)%list_elem_of_split.
    destruct (allocated_split _ _ _ _ _ El) as (pre & b & post & -> & _ & _ & _ & -> & _).
    apply Forall_app in Hf as [_ Hf]. by inversion Hf.
Qed.

Lemma rep_malloc n h L : heap_rep h L → 0 < n ≤ 2 ^ 20 →
  ∃ p h', kmalloc (S (stdpp.base.size (nodes h))) n h = Ok (p, h') ∧
    ((p = 0 ∧ heap_rep h' L) ∨ (0 < p ∧ p ∉ L ∧ heap_rep h' ({[p]} ∪ L))).
Proof.
  intros (bs & Hok & ->) Hn.
  destruct (kmalloc_correct (S (stdpp.base.size (nodes h))) h bs n)
    as (p & h' & bs' & E & Hok' & Hcase); [done|simpl in *; lia|by apply heap_fuel|].
  exists p, h'. split; [done|]. destruct Hcase as [(-> & _ & Hal)|(_ & Hle & Hlo & Hhi & Hal & Hd)].
  - left. split; [done|]. exists bs'. split; [done|]. by rewrite Hal.
  - right. pose proof Hok' as (_ & _ & _ & _ & _ & Hpos & _). split; [lia|].
    split.
    + intros ([q k] & -> & Hq)%elem_of_list_to_set%list_elem_of_fmap. simpl in *.
      destruct (heap_allocated _ _ Hok) as [_ Hk]. specialize (Hk q k Hq).
      destruct (Hd q k Hq); unfold NODE_T_SIZE in *; lia.
    + exists bs'. split; [done|]. rewrite Hal. done.
Qed.

Lemma rep_mfree p h L : heap_rep h L → p ∈ L →
  ∃ h', kfree p h = Ok h' ∧ heap_rep h' (L ∖ {[p]}).
Proof.
  intros (bs & Hok & ->) ([q k] & -> & Hq)%elem_of_list_to_set%list_elem_of_fmap.
  destruct (kfree_correct h bs q k Hok Hq) as (h' & bs' & E & Hok' & Hal).
  exists h'. split; [done|]. exists bs'. split; [done|]. 
  destruct (heap_allocated _ _ Hok) as [Hnd _]. rewrite Hal in Hnd |- *.
  simpl in *. apply list.NoDup_cons in Hnd as [Hn _].
  apply leibniz_equiv. simpl. set_solver.
Qed.

(** The heap of [kmalloc.c] is what its clients ask for. *)
Definition kernel_malloc : Malloc := {|
  mstate := kheap;
  malloc n h := kmalloc (S (stdpp.base.size (nodes h))) n h;
  mfree := kfree;
  m_rep := heap_rep;
  malloc_ok := rep_malloc;
  mfree_ok := rep_mfree
|}.
End kmalloc.

(** ** A heap with one block handed out *)
Definition small_heap : @kheap (@kernel_sbrk pre_paging) :=
  @KHeap (@kernel_sbrk pre_paging) 0x400000 0x402000 0x2000
    {[0x400000 := KNode 32 KMALLOC_RES 0x400030 0;
      0x400030 := KNode 0x1fc0 KMALLOC_FREE 0 0x400000]} 0
    (Kvm 0x400000 0x2000 kernel_mm).

Definition small_blocks : list block := [Blk 0x400000 32 false; Blk 0x400030 0x1fc0 true].

Lemma small_heap_ok : @heap_ok (@kernel_sbrk pre_paging) small_heap small_blocks.
Proof.
  split; [by apply kernel_kvm_ok|]. split_and!; try done.
  - by exists [Blk 0x400000 32 false], (Blk 0x400030 0x1fc0 true).
  - exists 0x402000. split; [|done]. simpl. split_and!; done.
Qed.

Lemma kmalloc_spec_witness :
  let SB := @kernel_sbrk pre_paging in
  ∃ p h' bs', @kmalloc SB 3 100 small_heap = Ok (p, h') ∧ @heap_ok SB h' bs' ∧
    ((p = 0 ∧ kerrno h' = ENOMEM ∧ allocated bs' = allocated small_blocks) ∨
     (let n := round_up 100 NODE_T_SIZE in
      p mod 16 = 0 ∧ 100 ≤ n ∧ kheap_start h' < p ∧ p + n ≤ kheap_end h' ∧
      allocated bs' ≡ₚ (p, n) :: allocated small_blocks ∧
      ∀ q k, (q, k) ∈ allocated small_blocks →
        q + k + NODE_T_SIZE ≤ p ∨ p + n + NODE_T_SIZE ≤ q)).
Proof.
  cbv zeta. apply (@kmalloc_spec (@kernel_sbrk pre_paging) 3 small_heap small_blocks 100).
  - exact small_heap_ok.
  - simpl. lia.
  - simpl. lia.
Defined.

Lemma kfree_spec_witness :
  let SB := @kernel_sbrk pre_paging in
  ∃ h' bs', @kfree SB 0x400010 small_heap = Ok h' ∧ @heap_ok SB h' bs' ∧
    allocated small_blocks ≡ₚ (0x400010, 32) :: allocated bs'.
Proof.
  cbv zeta. apply (@kfree_spec (@kernel_sbrk pre_paging) small_heap small_blocks 0x400010 32).
  - exact small_heap_ok.
  - apply list_elem_of_here.
Defined.

(** ** A page-aligned allocation that is not

    A free block whose header is 256 bytes below a page boundary: [curnode +
    NODE_T_SIZE] is then the boundary itself, so no padding is added and the
    block that is returned is not aligned. *)
Example kmalloc_page_misaligned :
  let SB := @kernel_sbrk pre_paging in
  let h := @KHeap SB 0x400f00 0x403000 0x2100
             {[0x400f00 := KNode 0x20f0 KMALLOC_FREE 0 0]} 0 (Kvm 0x400f00 0x2100 kernel_mm) in
  (let* (p, _) := @kmalloc_page SB 2 0x1000 h in Ok p) = Ok 0x400f10.
Proof. vm_compute. reflexivity. Qed.
