(* ===== verification/Ctype.v ===== *)
(** * Ctype: character classes of the kernel and of the C library

    [kernel/lib/ctype.c] takes a [char], which is signed on i386, so its
    arguments here range over [-128 .. 127]; [rlibc/ctype/ctype.c] takes an
    [int].  The two files have the same tests; [Rlibc] holds the second copy. *)

From S2P Require Import Prelude.

(** The C functions return 1 or 0. *)
Definition b2i (b : bool) : Z := if b then 1 else 0.

(** ** kernel/lib/ctype.c *)
Definition isdigit (c : Z) : Z := b2i ((ch "0" <=? c) && (c <=? ch "9")).

Definition isalpha (c : Z) : Z :=
  b2i (((ch "A" <=? c) && (c <=? ch "Z")) || ((ch "a" <=? c) && (c <=? ch "z"))).

Definition isalnum (c : Z) : Z :=
  if negb (isalpha c =? 0) || negb (isdigit c =? 0) then 1 else 0.

Definition iscntrl (c : Z) : Z := b2i ((c <=? 0x1F) || (c =? 0x7F)).

Definition isgrapf (c : Z) : Z := b2i ((0x21 <=? c) && (c <=? 0x7E)).

Definition islower (c : Z) : Z := b2i ((ch "a" <=? c) && (c <=? ch "z")).

Definition isprint (c : Z) : Z := b2i ((0x20 <=? c) && (c <=? 0x7E)).

Definition ispunct (c : Z) : Z :=
  b2i (((0x21 <=? c) && (c <=? 0x2F)) || ((0x3A <=? c) && (c <=? 0x40))
       || ((0x5B <=? c) && (c <=? 0x60)) || ((0x7B <=? c) && (c <=? 0x7E))).

Definition isspace (c : Z) : Z :=
  b2i (((0x09 <=? c) && (c <=? 0x0D)) || (c =? 0x20)).

Definition isupper (c : Z) : Z := b2i ((ch "A" <=? c) && (c <=? ch "Z")).

Definition isxdigit (c : Z) : Z :=
  b2i (negb (isdigit c =? 0) || ((ch "A" <=? c) && (c <=? ch "F"))
       || ((ch "a" <=? c) && (c <=? ch "f"))).

(** [c += 0x20] on a [char]. *)
Definition tolower (c : Z) : Z :=
  if negb (isupper c =? 0) then s8 (c + 0x20) else c.

Definition toupper (c : Z) : Z :=
  if negb (islower c =? 0) then s8 (c - 0x20) else c.

(** ** rlibc/ctype/ctype.c: the same tests on an [int] *)
Module Rlibc.
Definition isdigit (c : Z) : Z := b2i ((ch "0" <=? c) && (c <=? ch "9")).

Definition isalpha (c : Z) : Z :=
  b2i (((ch "A" <=? c) && (c <=? ch "Z")) || ((ch "a" <=? c) && (c <=? ch "z"))).

Definition isalnum (c : Z) : Z :=
  if negb (isalpha c =? 0) || negb (isdigit c =? 0) then 1 else 0.

Definition iscntrl (c : Z) : Z := b2i ((c <=? 0x1F) || (c =? 0x7F)).

Definition isgrapf (c : Z) : Z := b2i ((0x21 <=? c) && (c <=? 0x7E)).

Definition islower (c : Z) : Z := b2i ((ch "a" <=? c) && (c <=? ch "z")).

Definition isprint (c : Z) : Z := b2i ((0x20 <=? c) && (c <=? 0x7E)).

Definition ispunct (c : Z) : Z :=
  b2i (((0x21 <=? c) && (c <=? 0x2F)) || ((0x3A <=? c) && (c <=? 0x40))
       || ((0x5B <=? c) && (c <=? 0x60)) || ((0x7B <=? c) && (c <=? 0x7E))).

Definition isspace (c : Z) : Z :=
  b2i (((0x09 <=? c) && (c <=? 0x0D)) || (c =? 0x20)).

Definition isupper (c : Z) : Z := b2i ((ch "A" <=? c) && (c <=? ch "Z")).

Definition isxdigit (c : Z) : Z :=
  b2i (negb (isdigit c =? 0) || ((ch "A" <=? c) && (c <=? ch "F"))
       || ((ch "a" <=? c) && (c <=? ch "f"))).

Definition tolower (c : Z) : Z :=
  if negb (isupper c =? 0) then s32 (c + 0x20) else c.

Definition toupper (c : Z) : Z :=
  if negb (islower c =? 0) then s32 (c - 0x20) else c.
End Rlibc.

(** ** Lemmas *)
Lemma b2i_0 b : (b2i b =? 0) = negb b.
Proof. by destruct b. Qed.

#[export] Hint Rewrite b2i_0 negb_involutive : razos.

Lemma isdigit_spec c : isdigit c ≠ 0 ↔ 48 ≤ c ≤ 57.
Proof. unfold isdigit, b2i. cif; lia. Qed.

Lemma isupper_spec c : isupper c ≠ 0 ↔ 65 ≤ c ≤ 90.
Proof. unfold isupper, b2i. cif; lia. Qed.

Lemma islower_spec c : islower c ≠ 0 ↔ 97 ≤ c ≤ 122.
Proof. unfold islower, b2i. cif; lia. Qed.

Lemma tolower_spec c :
  -128 ≤ c < 128 → tolower c = if (65 <=? c) && (c <=? 90) then c + 32 else c.
Proof.
  intros Hc. unfold tolower. pose proof (isupper_spec c).
  destruct (Z.eqb_spec (isupper c) 0); simpl;
    destruct (Z.leb_spec 65 c), (Z.leb_spec c 90); simpl; try lia;
    apply sint_small; lia.
Qed.

Lemma toupper_spec c :
  -128 ≤ c < 128 → toupper c = if (97 <=? c) && (c <=? 122) then c - 32 else c.
Proof.
  intros Hc. unfold toupper. pose proof (islower_spec c).
  destruct (Z.eqb_spec (islower c) 0); simpl;
    destruct (Z.leb_spec 97 c), (Z.leb_spec c 122); simpl; try lia;
    apply sint_small; lia.
Qed.

(** The classes over the 128 ASCII codes, as one executable test. *)
Definition ctype_partition_at (c : Z) : bool :=
  let t f := negb (f c =? 0) in
  eqb (t isprint) (negb (t iscntrl))
  && eqb (t isgrapf) (t isalnum || t ispunct)
  && negb (t isalnum && t ispunct)
  && eqb (t isalpha) (t isupper || t islower)
  && negb (t isupper && t islower)
  && negb (t isalpha && t isdigit)
  && implb (t isxdigit) (t isalnum)
  && implb (t isupper) (tolower c - 0x20 =? c)
  && implb (t islower) (toupper c + 0x20 =? c).

(** Case conversion of one [char], as an executable test. *)
Definition case_ok_at (c : Z) : bool :=
  (tolower (tolower c) =? tolower c) && (toupper (toupper c) =? toupper c)
  && ((islower c =? 0) || (tolower (toupper c) =? c))
  && ((isupper c =? 0) || (toupper (tolower c) =? c)).

(** C39: On ASCII the classes fit together: a code is printable or a control
    code and never both, the graphic codes are the alphanumeric and the
    punctuation codes, letters are the disjoint union of the two cases, hex
    digits are alphanumeric, and the case conversions are inverse to each
    other on letters and idempotent on every [char]. *)
Theorem ctype_classes c :
  (0 ≤ c < 128 → ctype_partition_at c = true) ∧
  (-128 ≤ c < 128 →
     tolower (tolower c) = tolower c ∧ toupper (toupper c) = toupper c ∧
     (islower c ≠ 0 → tolower (toupper c) = c) ∧
     (isupper c ≠ 0 → toupper (tolower c) = c)).
Proof.
  split.
  - apply (forallb_range ctype_partition_at 0 128). by vm_compute.
  - intros Hc. assert (H : case_ok_at c = true).
    { apply (forallb_range case_ok_at (-128) 256); [by vm_compute|lia]. }
    unfold case_ok_at in H. lia.
Qed.

Lemma ctype_classes_witness :
  ctype_partition_at (ch "k") = true ∧ tolower (toupper (ch "k")) = ch "k".
Proof.
  split.
  - apply (proj1 (ctype_classes (ch "k"))). vm_compute. split; congruence.
  - apply (proj2 (ctype_classes (ch "k"))); vm_compute; [split|]; congruence.
Defined.

(** The C library's copy computes the same functions on [char] arguments. *)
Lemma rlibc_ctype_agrees c : -128 ≤ c < 128 →
  Rlibc.isalnum c = isalnum c ∧ Rlibc.isalpha c = isalpha c ∧
  Rlibc.isdigit c = isdigit c ∧ Rlibc.iscntrl c = iscntrl c ∧
  Rlibc.isgrapf c = isgrapf c ∧ Rlibc.islower c = islower c ∧
  Rlibc.isprint c = isprint c ∧ Rlibc.ispunct c = ispunct c ∧
  Rlibc.isspace c = isspace c ∧ Rlibc.isupper c = isupper c ∧
  Rlibc.isxdigit c = isxdigit c ∧
  Rlibc.tolower c = tolower c ∧ Rlibc.toupper c = toupper c.
Proof.
  intros Hc. do 11 (split; [reflexivity|]). split.
  - unfold Rlibc.tolower, tolower. change (Rlibc.isupper c) with (isupper c).
    pose proof (isupper_spec c). destruct (Z.eqb_spec (isupper c) 0); [done|].
    simpl. by rewrite !sint_small by lia.
  - unfold Rlibc.toupper, toupper. change (Rlibc.islower c) with (islower c).
    pose proof (islower_spec c). destruct (Z.eqb_spec (islower c) 0); [done|].
    simpl. by rewrite !sint_small by lia.
Qed.
