(* ===== verification/Kb.v ===== *)
(** * Kb: the keyboard driver

    [kernel/src/drivers/kb.c] and [kb.h].  [kb_handler] runs on every keyboard
    interrupt: it reads one scan code, updates the static words [flags] and
    [tempfl], and writes at most one character to stdin.  The 330-line switch is
    cut in three: the modifier keys ([kb_modifiers]), the numeric pad
    ([kb_keypad]) and the default branch ([kb_default]); [kb_finish] is the code
    after the switch. *)

From S2P Require Import Prelude Ctype.

(** ** Key codes (kb.h) *)
Inductive keycode : Set :=
| KEY_ESC | KEY_1 | KEY_2 | KEY_3 | KEY_4 | KEY_5 | KEY_6 | KEY_7
| KEY_8 | KEY_9 | KEY_0 | KEY_MINUS | KEY_EQUALS | KEY_BSPC | KEY_TAB | KEY_Q
| KEY_W | KEY_E | KEY_R | KEY_T | KEY_Y | KEY_U | KEY_I | KEY_O
| KEY_P | KEY_RBRACK | KEY_LBRACK | KEY_RET | KEY_LCTRL | KEY_A | KEY_S | KEY_D
| KEY_F | KEY_G | KEY_H | KEY_J | KEY_K | KEY_L | KEY_SCOL | KEY_SQUOT
| KEY_BTICK | KEY_LSHIFT | KEY_BSLASH | KEY_Z | KEY_X | KEY_C | KEY_V | KEY_B
| KEY_N | KEY_M | KEY_COMMA | KEY_DOT | KEY_SLASH | KEY_RSHIFT | NUM_ASTER | KEY_LALT
| KEY_SPACE | KEY_CAPSL | KEY_F1 | KEY_F2 | KEY_F3 | KEY_F4 | KEY_F5 | KEY_F6
| KEY_F7 | KEY_F8 | KEY_F9 | KEY_F10 | KEY_NUML | KEY_SCRL | NUM_7 | NUM_8
| NUM_9 | NUM_MINUS | NUM_4 | NUM_5 | NUM_6 | NUM_PLUS | NUM_1 | NUM_2
| NUM_3 | NUM_0 | NUM_DOT | KEY_F11 | KEY_F12 | NUM_RET | KEY_RCTRL | NUM_SLASH
| KEY_RALT | KEY_HOME | KEY_UP | KEY_PGUP | KEY_LEFT | KEY_RIGHT | KEY_END | KEY_DOWN
| KEY_PGDOWN | KEY_INS | KEY_DEL | KEY_LGUI | KEY_RGUI | KEY_APPS | KEY_PRSCR | KEY_PAUSE.

Definition key_num (k : keycode) : Z :=
  match k with
  | KEY_ESC => 0x01 | KEY_1 => 0x02 | KEY_2 => 0x03 | KEY_3 => 0x04
  | KEY_4 => 0x05 | KEY_5 => 0x06 | KEY_6 => 0x07 | KEY_7 => 0x08
  | KEY_8 => 0x09 | KEY_9 => 0x0A | KEY_0 => 0x0B | KEY_MINUS => 0x0C
  | KEY_EQUALS => 0x0D | KEY_BSPC => 0x0E | KEY_TAB => 0x0F | KEY_Q => 0x10
  | KEY_W => 0x11 | KEY_E => 0x12 | KEY_R => 0x13 | KEY_T => 0x14
  | KEY_Y => 0x15 | KEY_U => 0x16 | KEY_I => 0x17 | KEY_O => 0x18
  | KEY_P => 0x19 | KEY_RBRACK => 0x1A | KEY_LBRACK => 0x1B | KEY_RET => 0x1C
  | KEY_LCTRL => 0x1D | KEY_A => 0x1E | KEY_S => 0x1F | KEY_D => 0x20
  | KEY_F => 0x21 | KEY_G => 0x22 | KEY_H => 0x23 | KEY_J => 0x24
  | KEY_K => 0x25 | KEY_L => 0x26 | KEY_SCOL => 0x27 | KEY_SQUOT => 0x28
  | KEY_BTICK => 0x29 | KEY_LSHIFT => 0x2A | KEY_BSLASH => 0x2B | KEY_Z => 0x2C
  | KEY_X => 0x2D | KEY_C => 0x2E | KEY_V => 0x2F | KEY_B => 0x30
  | KEY_N => 0x31 | KEY_M => 0x32 | KEY_COMMA => 0x33 | KEY_DOT => 0x34
  | KEY_SLASH => 0x35 | KEY_RSHIFT => 0x36 | NUM_ASTER => 0x37 | KEY_LALT => 0x38
  | KEY_SPACE => 0x39 | KEY_CAPSL => 0x3A | KEY_F1 => 0x3B | KEY_F2 => 0x3C
  | KEY_F3 => 0x3D | KEY_F4 => 0x3E | KEY_F5 => 0x3F | KEY_F6 => 0x40
  | KEY_F7 => 0x41 | KEY_F8 => 0x42 | KEY_F9 => 0x43 | KEY_F10 => 0x44
  | KEY_NUML => 0x45 | KEY_SCRL => 0x46 | NUM_7 => 0x47 | NUM_8 => 0x48
  | NUM_9 => 0x49 | NUM_MINUS => 0x4A | NUM_4 => 0x4B | NUM_5 => 0x4C
  | NUM_6 => 0x4D | NUM_PLUS => 0x4E | NUM_1 => 0x4F | NUM_2 => 0x50
  | NUM_3 => 0x51 | NUM_0 => 0x52 | NUM_DOT => 0x53 | KEY_F11 => 0x57
  | KEY_F12 => 0x58 | NUM_RET => 0x59 | KEY_RCTRL => 0x5A | NUM_SLASH => 0x5B
  | KEY_RALT => 0x5C | KEY_HOME => 0x5D | KEY_UP => 0x5E | KEY_PGUP => 0x5F
  | KEY_LEFT => 0x60 | KEY_RIGHT => 0x61 | KEY_END => 0x62 | KEY_DOWN => 0x63
  | KEY_PGDOWN => 0x64 | KEY_INS => 0x65 | KEY_DEL => 0x66 | KEY_LGUI => 0x67
  | KEY_RGUI => 0x68 | KEY_APPS => 0x69 | KEY_PRSCR => 0x6A | KEY_PAUSE => 0x6B
  end.

Coercion key_num : keycode >-> Z.

(** ** Event flags (kb.h) and prefix flags (kb.c) *)
Definition SCROLL_LOCK : Z := 0x0001.
Definition NUM_LOCK : Z := 0x0002.
Definition CAPS_LOCK : Z := 0x0004.
Definition SHIFT : Z := 0x0008.
Definition ALT : Z := 0x0010.
Definition CONTROL : Z := 0x0020.
Definition LSHIFT : Z := 0x0040.
Definition RSHIFT : Z := 0x0080.
Definition LALT : Z := 0x0100.
Definition RALT : Z := 0x0200.
Definition LCONTROL : Z := 0x0400.
Definition RCONTROL : Z := 0x0800.
Definition RELEASE : Z := 0x1000.
Definition NUMPAD : Z := 0x2000.

Definition TFL_E0 : Z := 0x01.
Definition TFL_E1 : Z := 0x02.
Definition TFL_1D : Z := 0x04.
Definition TFL_2A : Z := 0x08.
Definition TFL_45 : Z := 0x10.
Definition TFL_9D : Z := 0x20.

(** ** Tables *)
Definition sc_to_ascii : list Z :=
  [0; 0] ++ codes "1234567890-=" ++ [0x08] ++ [0x09] ++ codes "qwertyuiop[]"
  ++ [10] ++ [0] ++ codes "asdfghjkl;'`" ++ [0] ++ codes "\zxcvbnm,./"
  ++ [0] ++ codes "*" ++ [0] ++ codes " ".

(** Starts at 0x27, the apostrophe. *)
Definition shift_lookup : list Z :=
  [34; 0; 0; 0; 0] ++ codes "<_>?" ++ codes ")!@#$%^&"
  ++ codes "*(" ++ [0] ++ codes ":" ++ [0] ++ codes "+" ++ [0; 0]
  ++ [0; 0; 0; 0; 0; 0; 0; 0] ++ [0; 0; 0; 0; 0; 0; 0; 0]
  ++ [0; 0; 0; 0; 0; 0; 0; 0] ++ [0; 0; 0] ++ codes "{|}" ++ [0; 0]
  ++ codes "~ABCDEFG" ++ codes "HIJKLMNO" ++ codes "PQRSTUVW" ++ codes "XYZ".

(** ** The handler *)

(** The static state of [kb_handler]. *)
Record kb := Kb { kflags : Z; tempfl : Z }.

(** How a case of the switch ends: the handler returns at once with a new
    [tempfl], or control leaves the switch with [flags], [keycode], [ascii]. *)
Inductive ksw : Type :=
| Return (st : kb)
| Break (flags keycode ascii : Z).

(** C's [f & (a | b ..) == (a | b ..)]. *)
Definition all_of (f m : Z) : bool := Z.land f m =? m.

(** kb.c, the cases 0x1C .. 0x46 of the switch except the numeric pad. *)
Definition kb_modifiers (scancode flags tfl : Z) : option ksw :=
  if (scancode =? 0x1C) || (scancode =? 0x9C) then
    let ascii := if scancode =? 0x1C then 10 else 0 in
    Some (if has tfl TFL_E0 then Break (Z.lor flags NUMPAD) NUM_RET ascii
          else Break flags KEY_RET ascii)
  else if scancode =? 0x1D then
    Some (if has tfl TFL_E1 then Return (Kb flags (Z.lor tfl TFL_1D))
          else if has tfl TFL_E0 then Break (Z.lor flags RCONTROL) KEY_RCTRL 0
          else Break (Z.lor flags LCONTROL) KEY_LCTRL 0)
  else if scancode =? 0x9D then
    Some (if all_of tfl (Z.lor (Z.lor TFL_E1 TFL_1D) TFL_45)
          then Return (Kb flags (Z.lor tfl TFL_9D))
          else if has tfl TFL_E0
          then Break (clr (clr flags RCONTROL) CONTROL) KEY_RCTRL 0
          else Break (clr (clr flags LCONTROL) CONTROL) KEY_LCTRL 0)
  else if scancode =? 0x2A then
    Some (if has tfl TFL_E0 then Return (Kb flags (Z.lor tfl TFL_2A))
          else Break (Z.lor flags LSHIFT) scancode 0)
  else if scancode =? 0xAA then
    Some (Break (clr (clr flags LSHIFT) SHIFT) KEY_LSHIFT 0)
  else if scancode =? 0x35 then
    Some (if has tfl TFL_E0 then Break (Z.lor flags NUMPAD) NUM_SLASH (ch "/")
          else Break flags KEY_SLASH (ch "/"))
  else if scancode =? 0x36 then
    Some (Break (Z.lor flags RSHIFT) KEY_RSHIFT 0)
  else if scancode =? 0xB6 then
    Some (Break (clr (clr flags RSHIFT) SHIFT) KEY_RSHIFT 0)
  else if scancode =? 0x37 then
    Some (if has tfl TFL_E0 && has tfl TFL_2A then Break flags KEY_PRSCR 0
          else Break (Z.lor flags NUMPAD) NUM_ASTER (ch "*"))
  else if scancode =? 0x38 then
    Some (if has tfl TFL_E0 then Break (Z.lor flags RALT) KEY_RALT 0
          else Break (Z.lor flags LALT) KEY_LALT 0)
  else if scancode =? 0xB8 then
    Some (if has tfl TFL_E0 then Break (clr (clr flags RALT) ALT) KEY_RALT 0
          else Break (clr (clr flags LALT) ALT) KEY_LALT 0)
  else if scancode =? 0x3A then
    Some (Break (Z.lxor flags CAPS_LOCK) KEY_CAPSL 0)
  else if scancode =? 0x45 then
    Some (if has tfl TFL_E1 && has tfl TFL_1D
          then Return (Kb flags (Z.lor tfl TFL_45))
          else Break (Z.lxor flags NUM_LOCK) KEY_NUML 0)
  else if scancode =? 0xC5 then
    (* without the pause sequence this case leaves [keycode] 0 *)
    Some (if all_of tfl (Z.lor (Z.lor (Z.lor TFL_E1 TFL_1D) TFL_45) TFL_9D)
          then Break flags KEY_PAUSE 0 else Break flags 0 0)
  else if scancode =? 0x46 then
    Some (Break (Z.lxor flags SCROLL_LOCK) KEY_SCRL 0)
  else None.

(** The shape of the numeric pad cases that double as navigation keys. *)
Definition nav_key (flags tfl : Z) (nav : keycode) (nav_ascii : Z)
    (num : keycode) (digit : Z) : ksw :=
  if has tfl TFL_E0 || negb (has flags NUM_LOCK) then Break flags nav nav_ascii
  else Break (Z.lor flags NUMPAD) num digit.

(** kb.c, the cases 0x47 .. 0x53. *)
Definition kb_keypad (scancode flags tfl : Z) : option ksw :=
  if scancode =? 0x47 then Some (nav_key flags tfl KEY_HOME 0 NUM_7 (ch "7"))
  else if scancode =? 0x48 then Some (nav_key flags tfl KEY_UP 0 NUM_8 (ch "8"))
  else if scancode =? 0x49 then Some (nav_key flags tfl KEY_PGUP 0 NUM_9 (ch "9"))
  else if scancode =? 0x4A then
    Some (Break (Z.lor flags NUMPAD) NUM_MINUS (ch "-"))
  else if scancode =? 0x4B then Some (nav_key flags tfl KEY_LEFT 0 NUM_4 (ch "4"))
  else if scancode =? 0x4C then Some (Break (Z.lor flags NUMPAD) NUM_5 (ch "5"))
  else if scancode =? 0x4D then Some (nav_key flags tfl KEY_RIGHT 0 NUM_6 (ch "6"))
  else if scancode =? 0x4E then
    Some (Break (Z.lor flags NUMPAD) NUM_PLUS (ch "+"))
  else if scancode =? 0x4F then Some (nav_key flags tfl KEY_END 0 NUM_1 (ch "1"))
  else if scancode =? 0x50 then Some (nav_key flags tfl KEY_DOWN 0 NUM_2 (ch "2"))
  else if scancode =? 0x51 then Some (nav_key flags tfl KEY_PGDOWN 0 NUM_3 (ch "3"))
  else if scancode =? 0x52 then Some (nav_key flags tfl KEY_INS 0 NUM_0 (ch "0"))
  else if scancode =? 0x53 then
    Some (nav_key flags tfl KEY_DEL 0x7F NUM_DOT (ch "."))
  else None.

(** kb.c, the default case: ordinary keys and all other releases. *)
Definition kb_default (scancode flags : Z) : res ksw :=
  let* ascii := (if scancode <=? 0x39 then deref (aget sc_to_ascii scancode)
                 else Ok 0) in
  Ok (Break flags scancode ascii).

Definition kb_switch (scancode flags tfl : Z) : res ksw :=
  match kb_modifiers scancode flags tfl with
  | Some r => Ok r
  | None =>
      match kb_keypad scancode flags tfl with
      | Some r => Ok r
      | None => kb_default scancode flags
      end
  end.

(** The event word of kb.h: flags, key code, ASCII code. *)
Definition kb_packet (flags keycode ascii : Z) : Z :=
  Z.lor (Z.shiftl (Z.lor (Z.shiftl flags 8) keycode) 8) ascii.

(** kb.c after the switch.  Returns the new state, the event word and the
    character written to stdin, if any. *)
Definition kb_finish (flags keycode ascii : Z) : res (kb * Z * option Z) :=
  let flags := if has flags RSHIFT || has flags LSHIFT
               then Z.lor flags SHIFT else flags in
  let flags := if has flags RALT || has flags LALT
               then Z.lor flags ALT else flags in
  let flags := if has flags RCONTROL || has flags LCONTROL
               then Z.lor flags CONTROL else flags in
  let packet := kb_packet flags keycode ascii in
  let* ascii :=
    (if (0 <? ascii) && (ascii <? 0x7F) then
       let* ascii :=
         (if (0x27 <=? ascii) && has flags SHIFT && negb (has flags NUMPAD)
          then deref (aget shift_lookup (ascii - 0x27))
          else Ok ascii) in
       Ok (if has flags CAPS_LOCK then
             if negb (islower ascii =? 0) then toupper ascii
             else if negb (isupper ascii =? 0) then tolower ascii
             else ascii
           else ascii)
     else Ok ascii) in
  Ok (Kb (clr (clr flags NUMPAD) RELEASE) 0, packet,
      if 0 <? ascii then Some ascii else None).

(** The interrupt handler on the scan code read from port 0x60. *)
Definition kb_handler (st : kb) (scancode : Z) : res (kb * option Z) :=
  if scancode =? 0xE0 then
    Ok (Kb (kflags st) (Z.lor (tempfl st) TFL_E0), None)
  else if scancode =? 0xE1 then
    Ok (Kb (kflags st) (Z.lor (tempfl st) TFL_E1), None)
  else
    let flags := if has scancode 0x80 then Z.lor (kflags st) RELEASE
                 else kflags st in
    let* r := kb_switch scancode flags (tempfl st) in
    match r with
    | Return st' => Ok (st', None)
    | Break flags keycode ascii =>
        let* (st', _, c) := kb_finish flags keycode ascii in
        Ok (st', c)
    end.

(** A run of the driver: the characters typed by a sequence of scan codes. *)
Fixpoint kb_run (st : kb) (scs : list Z) : res (kb * list Z) :=
  match scs with
  | [] => Ok (st, [])
  | sc :: scs =>
      let* (st, c) := kb_handler st sc in
      let* (st, cs) := kb_run st scs in
      Ok (st, option_list c ++ cs)
  end.

Definition kb_init : kb := Kb 0 0.

(** ** Lemmas *)

(** The flag words as bit tests: [has f SHIFT] is bit 3 of [f], and so on. *)
Lemma kflag_bits f :
  has f NUM_LOCK = Z.testbit f 1 ∧ has f CAPS_LOCK = Z.testbit f 2 ∧
  has f SHIFT = Z.testbit f 3 ∧ has f ALT = Z.testbit f 4 ∧
  has f CONTROL = Z.testbit f 5 ∧ has f LSHIFT = Z.testbit f 6 ∧
  has f RSHIFT = Z.testbit f 7 ∧ has f LALT = Z.testbit f 8 ∧
  has f RALT = Z.testbit f 9 ∧ has f LCONTROL = Z.testbit f 10 ∧
  has f RCONTROL = Z.testbit f 11 ∧ has f RELEASE = Z.testbit f 12 ∧
  has f NUMPAD = Z.testbit f 13.
Proof.
  split_and!; match goal with
  | |- _ = Z.testbit _ ?k => exact (has_bit f k ltac:(lia))
  end.
Qed.

(** Both state words stay inside the bits the driver defines. *)
Definition kb_bounded (st : kb) : Prop :=
  within 0x3FFF (kflags st) ∧ within 0x3F (tempfl st).

(** [SHIFT], [ALT] and [CONTROL] say that one of the two keys is down, and no
    event flag is left over in the static word. *)
Definition mods_ok (f : Z) : Prop :=
  Z.testbit f 3 = Z.testbit f 6 || Z.testbit f 7 ∧
  Z.testbit f 4 = Z.testbit f 8 || Z.testbit f 9 ∧
  Z.testbit f 5 = Z.testbit f 10 || Z.testbit f 11 ∧
  Z.testbit f 13 = false.

(** What the switch preserves: an aggregate bit is set only if one of its keys
    is down ([kb_finish] completes it). *)
Definition mods_sub (f : Z) : Prop :=
  implb (Z.testbit f 3) (Z.testbit f 6 || Z.testbit f 7) = true ∧
  implb (Z.testbit f 4) (Z.testbit f 8 || Z.testbit f 9) = true ∧
  implb (Z.testbit f 5) (Z.testbit f 10 || Z.testbit f 11) = true.

(** The outcome of the switch on a state that satisfies the invariant. *)
Definition ksw_ok (scancode : Z) (r : ksw) : Prop :=
  match r with
  | Return st => kb_bounded st ∧ mods_ok (kflags st)
  | Break f k a =>
      within 0x3FFF f ∧ mods_sub f ∧ 0 ≤ k < 256 ∧ 0 ≤ a < 0x80 ∧
      (0x7A < a → a = 0x7F) ∧ (128 ≤ scancode → a = 0)
  end.

Lemma mods_ok_sub f : mods_ok f → mods_sub f.
Proof.
  intros (H1 & H2 & H3 & _). unfold mods_sub. rewrite H1, H2, H3.
  by rewrite !implb_same.
Qed.

(** One aggregate bit [i] with its keys [j] and [k]. *)
Definition agg (f : Z) (i j k : Z) : Prop :=
  implb (Z.testbit f i) (Z.testbit f j || Z.testbit f k) = true.

Lemma mods_sub_agg f : mods_sub f ↔ agg f 3 6 7 ∧ agg f 4 8 9 ∧ agg f 5 10 11.
Proof. done. Qed.

Lemma agg_lor f m i j k :
  0 ≤ i → 0 ≤ j → 0 ≤ k → Z.testbit m i = false → agg f i j k → agg (Z.lor f m) i j k.
Proof.
  unfold agg. intros Hi Hj Hk Hm. rewrite !Z.lor_spec, Hm.
  by destruct (Z.testbit f i), (Z.testbit f j), (Z.testbit f k),
    (Z.testbit m j), (Z.testbit m k).
Qed.

Lemma agg_lxor f m i j k :
  0 ≤ i → 0 ≤ j → 0 ≤ k → Z.testbit m i = false → Z.testbit m j = false →
  Z.testbit m k = false → agg f i j k → agg (Z.lxor f m) i j k.
Proof.
  unfold agg. intros ??? Hi Hj Hk. by rewrite !Z.lxor_spec, Hi, Hj, Hk, !xorb_false_r.
Qed.

Lemma agg_clr f m i j k :
  0 ≤ i → 0 ≤ j → 0 ≤ k →
  Z.testbit m i || negb (Z.testbit m j || Z.testbit m k) = true →
  agg f i j k → agg (clr f m) i j k.
Proof.
  unfold agg. intros ???. rewrite !testbit_clr by done.
  by destruct (Z.testbit f i), (Z.testbit f j), (Z.testbit f k),
    (Z.testbit m i), (Z.testbit m j), (Z.testbit m k).
Qed.

Ltac agg_solve :=
  lazymatch goal with
  | H : agg ?f ?i ?j ?k |- agg ?f ?i ?j ?k => exact H
  | |- agg (Z.lor _ _) _ _ _ => apply agg_lor; [lia..|vm_compute; reflexivity|]
  | |- agg (Z.lxor _ _) _ _ _ =>
      apply agg_lxor; [lia..|vm_compute; reflexivity| | |];
      [vm_compute; reflexivity..|]
  | |- agg (clr _ _) _ _ _ => apply agg_clr; [lia..|vm_compute; reflexivity|]
  end.

Ltac mods_solve :=
  rewrite ?clr_clr; apply mods_sub_agg; split_and!; agg_solve; agg_solve.

Ltac ksw_solve :=
  unfold ksw_ok, kb_bounded; simpl; split_and?;
  lazymatch goal with
  | |- within _ _ => within_solve
  | H : mods_ok ?f |- mods_sub ?f => exact (mods_ok_sub f H)
  | |- mods_sub _ => mods_solve
  | |- mods_ok _ => assumption
  | |- _ => repeat cif; simpl; lia
  end.

Section switch.
  Context (sc f t : Z).
  Context (Hsc : 0 ≤ sc < 256) (Hf : within 0x3FFF f) (Ht : within 0x3F t).
  Context (Hmods : mods_ok f).

Lemma kb_modifiers_ok r : kb_modifiers sc f t = Some r → ksw_ok sc r.
Proof using All.
  pose proof (proj1 (mods_sub_agg f) (mods_ok_sub f Hmods)) as (Hs & Ha & Hc).
  unfold kb_modifiers. repeat cif; intros [= <-]; ksw_solve.
Qed.

Lemma kb_keypad_ok r : kb_keypad sc f t = Some r → ksw_ok sc r.
Proof using All.
  pose proof (proj1 (mods_sub_agg f) (mods_ok_sub f Hmods)) as (Hs & Ha & Hc).
  unfold kb_keypad, nav_key. repeat cif; intros [= <-]; ksw_solve.
Qed.
End switch.

(** The tables: the codes they hold, and that the shift table covers every
    code the first one holds. *)
Lemma sc_to_ascii_bounds sc :
  0 ≤ sc ≤ 0x39 → ∃ a, aget sc_to_ascii sc = Some a ∧ 0 ≤ a ≤ 0x7A.
Proof.
  intros Hsc.
  range_check (λ sc, match aget sc_to_ascii sc with
    | Some a => (0 <=? a) && (a <=? 0x7A) | None => false end) 0 58 sc as H.
  destruct (aget sc_to_ascii sc); [|done]. eexists. split; [done|lia].
Qed.

Lemma shift_lookup_bounds a :
  0x27 ≤ a ≤ 0x7A → ∃ b, aget shift_lookup (a - 0x27) = Some b ∧ 0 ≤ b ≤ 0x7E.
Proof.
  intros Ha.
  range_check (λ a, match aget shift_lookup (a - 0x27) with
    | Some b => (0 <=? b) && (b <=? 0x7E) | None => false end) 0x27 84 a as H.
  destruct (aget shift_lookup (a - 0x27)); [|done]. eexists. split; [done|lia].
Qed.

Lemma kb_switch_ok sc f t :
  0 ≤ sc < 256 → within 0x3FFF f → within 0x3F t → mods_ok f →
  ∃ r, kb_switch sc f t = Ok r ∧ ksw_ok sc r.
Proof.
  intros Hsc Hf Ht Hm. unfold kb_switch.
  destruct (kb_modifiers sc f t) eqn:E1.
  { eexists. split; [done|]. by eapply kb_modifiers_ok. }
  destruct (kb_keypad sc f t) eqn:E2.
  { eexists. split; [done|]. by eapply kb_keypad_ok. }
  unfold kb_default. cif.
  - destruct (sc_to_ascii_bounds sc ltac:(lia)) as (a & -> & Ha). simpl.
    eexists. split; [done|]. simpl. split_and!; [done|by apply mods_ok_sub|lia..].
  - simpl. eexists. split; [done|]. simpl.
    split_and!; [done|by apply mods_ok_sub|lia..].
Qed.

(** The aggregate bits after the switch are completed from the key bits. *)
Definition with_mods (f : Z) : Z :=
  let f := if has f RSHIFT || has f LSHIFT then Z.lor f SHIFT else f in
  let f := if has f RALT || has f LALT then Z.lor f ALT else f in
  if has f RCONTROL || has f LCONTROL then Z.lor f CONTROL else f.

Lemma testbit_with_mods f i :
  0 ≤ i →
  Z.testbit (with_mods f) i =
    Z.testbit f i
    || (i =? 3) && (Z.testbit f 6 || Z.testbit f 7)
    || (i =? 4) && (Z.testbit f 8 || Z.testbit f 9)
    || (i =? 5) && (Z.testbit f 10 || Z.testbit f 11).
Proof.
  intros Hi.
  assert (Hif : ∀ (b : bool) x k, 0 ≤ k →
    Z.testbit (if b then Z.lor x (2 ^ k) else x) i = Z.testbit x i || (i =? k) && b).
  { intros [] x k Hk; [|by rewrite andb_false_r, orb_false_r].
    rewrite Z.lor_spec, Z.pow2_bits_eqb, andb_true_r by lia.
    by rewrite (Z.eqb_sym k). }
  assert (Hk : ∀ (b : bool) x k j, 0 ≤ k → 0 ≤ j → j ≠ k →
    Z.testbit (if b then Z.lor x (2 ^ k) else x) j = Z.testbit x j).
  { intros [] x k j ???; [|done].
    by rewrite Z.lor_spec, Z.pow2_bits_false, orb_false_r by lia. }
  unfold with_mods.
  change SHIFT with (2 ^ 3). change ALT with (2 ^ 4). change CONTROL with (2 ^ 5).
  change RSHIFT with (2 ^ 7). change LSHIFT with (2 ^ 6). change RALT with (2 ^ 9).
  change LALT with (2 ^ 8). change RCONTROL with (2 ^ 11).
  change LCONTROL with (2 ^ 10). rewrite !has_bit by lia.
  rewrite !Hif by lia. rewrite !Hk by lia.
  rewrite (orb_comm (Z.testbit f 7)), (orb_comm (Z.testbit f 9)),
    (orb_comm (Z.testbit f 11)). done.
Qed.

Lemma with_mods_within f : within 0x3FFF f → within 0x3FFF (with_mods f).
Proof. intros Hf. unfold with_mods. repeat cif; within_solve. Qed.

Lemma with_mods_ok f :
  mods_sub f → mods_ok (clr (clr (with_mods f) NUMPAD) RELEASE).
Proof.
  intros (H1 & H2 & H3). unfold mods_ok. rewrite clr_clr.
  rewrite !testbit_clr, !testbit_with_mods by lia.
  change (Z.lor NUMPAD RELEASE) with 0x3000. const_bits. cbn [Z.eqb Pos.eqb].
  split_and!; repeat match goal with
  | |- context [Z.testbit f ?k] => destruct (Z.testbit f k)
  end; first [reflexivity | discriminate].
Qed.

(** The character computed from the ASCII code of the key and the flags. *)
Lemma kb_finish_ok f k a :
  within 0x3FFF f → mods_sub f → 0 ≤ a < 0x80 → (0x7A < a → a = 0x7F) →
  ∃ st p c, kb_finish f k a = Ok (st, p, c) ∧ kb_bounded st ∧ mods_ok (kflags st) ∧
    tempfl st = 0 ∧ (∀ x, c = Some x → 0 < x < 0x80) ∧ (a = 0 → c = None).
Proof.
  intros Hf Hm Ha Ha'. unfold kb_finish. fold (with_mods f).
  set (g := with_mods f).
  assert (Hst : kb_bounded (Kb (clr (clr g NUMPAD) RELEASE) 0)).
  { split; simpl; [|done]. pose proof (with_mods_within f Hf). within_solve. }
  assert (Hmods : mods_ok (clr (clr g NUMPAD) RELEASE)) by by apply with_mods_ok.
  assert (Hcase : ∀ b, 0 ≤ b < 0x80 → ∃ b',
    (if has g CAPS_LOCK then
       if negb (islower b =? 0) then toupper b
       else if negb (isupper b =? 0) then tolower b else b
     else b) = b' ∧ 0 ≤ b' < 0x80 ∧ (b = 0 → b' = 0)).
  { intros b Hb. eexists. split; [done|].
    rewrite (tolower_spec b), (toupper_spec b) by lia.
    pose proof (islower_spec b). pose proof (isupper_spec b).
    repeat cif; lia. }
  destruct ((0 <? a) && (a <? 127)) eqn:Ea; simpl; zbool.
  - destruct ((39 <=? a) && has g SHIFT && negb (has g NUMPAD)) eqn:Es; simpl.
    + zbool. destruct (shift_lookup_bounds a ltac:(lia)) as (b & -> & Hb). simpl.
      destruct (Hcase b ltac:(lia)) as (b' & -> & ? & ?).
      do 3 eexists. split; [done|]. simpl.
      split_and!; try done; intros; cif; simplify_eq; (done || lia).
    + destruct (Hcase a ltac:(lia)) as (b' & -> & ? & ?).
      do 3 eexists. split; [done|]. simpl.
      split_and!; try done; intros; cif; simplify_eq; (done || lia).
  - do 3 eexists. split; [done|]. simpl.
    split_and!; try done; intros; cif; simplify_eq; (done || lia).
Qed.

(** ** The driver's invariant *)
Definition kb_inv (st : kb) : Prop := kb_bounded st ∧ mods_ok (kflags st).

Lemma mods_ok_release f : mods_ok f → mods_ok (Z.lor f RELEASE).
Proof.
  unfold mods_ok. rewrite !Z.lor_spec. const_bits. by rewrite !orb_false_r.
Qed.

(** One interrupt: no access outside the tables, the invariant is kept, what is
    typed is a nonzero ASCII code, and a key release types nothing. *)
Lemma kb_handler_ok st sc :
  kb_inv st → 0 ≤ sc < 256 →
  ∃ st' c, kb_handler st sc = Ok (st', c) ∧ kb_inv st' ∧
    (∀ x, c = Some x → 0 < x < 0x80) ∧ (128 ≤ sc → c = None).
Proof.
  intros ([Hf Ht] & Hm) Hsc. unfold kb_handler.
  cif. { do 2 eexists. split; [done|].
    split; [split; [split; simpl; within_solve|done]|by split]. }
  cif. { do 2 eexists. split; [done|].
    split; [split; [split; simpl; within_solve|done]|by split]. }
  set (f := if has sc 128 then _ else _).
  assert (within 0x3FFF f) by (unfold f; cif; within_solve).
  assert (mods_ok f) by (unfold f; cif; [by apply mods_ok_release|done]).
  destruct (kb_switch_ok sc f (tempfl st)) as (r & -> & Hr); [done..|]. simpl.
  destruct r as [st'|f' k a]; simpl in *.
  - do 2 eexists. split; [done|]. split; [exact Hr|]. by split.
  - destruct Hr as (? & ? & ? & Ha & Ha' & Hrel).
    destruct (kb_finish_ok f' k a) as (st' & p & c & -> & Hb & Hm' & _ & Hc & Hz);
      [done..|]. simpl.
    do 2 eexists. split; [done|]. split; [done|]. split; [done|].
    intros. apply Hz, Hrel. lia.
Qed.

Lemma kb_run_ok scs st :
  kb_inv st → Forall (λ sc, 0 ≤ sc < 256) scs →
  ∃ st' cs, kb_run st scs = Ok (st', cs) ∧ kb_inv st' ∧
    Forall (λ c, 0 < c < 0x80) cs ∧
    (length cs ≤ length (filter (λ sc, (sc < 128)%Z) scs))%nat.
Proof.
  intros Hst Hscs. revert st Hst. induction Hscs as [|sc scs Hsc _ IH]; intros st Hst.
  { do 2 eexists. split; [done|]. split_and!; [done|constructor|simpl; lia]. }
  destruct (kb_handler_ok st sc Hst Hsc) as (st1 & c & E1 & Hst1 & Hc & Hrel).
  destruct (IH st1 Hst1) as (st2 & cs & E2 & Hst2 & Hcs & Hlen).
  simpl. rewrite E1. simpl. rewrite E2. simpl. do 2 eexists. split; [done|].
  rewrite filter_cons. destruct c as [x|]; simpl.
  - split_and!; [done|constructor; auto|].
    rewrite decide_True; [simpl; lia|]. destruct (decide (sc < 128)); [done|].
    by specialize (Hrel ltac:(lia)).
  - split_and!; [done|done|]. case_decide; simpl; lia.
Qed.

(** C36: Whatever bytes the keyboard sends, the driver never indexes its tables
    out of range; its two static words stay within their defined bits; after
    every interrupt SHIFT, ALT and CONTROL are set exactly while one of the two
    corresponding keys is held; only nonzero ASCII codes are written to stdin,
    at most one per key press and none on a release. *)
Theorem kb_driver_safe scs :
  Forall (λ sc, 0 ≤ sc < 256) scs →
  ∃ st cs, kb_run kb_init scs = Ok (st, cs) ∧ kb_inv st ∧
    Forall (λ c, 0 < c < 0x80) cs ∧
    (length cs ≤ length (filter (λ sc, (sc < 128)%Z) scs))%nat.
Proof. intros. apply kb_run_ok; [|done]. by repeat split. Qed.

(** Left shift, h, both releases, an extended right-control press, i. *)
Lemma kb_driver_safe_witness :
  ∃ st, kb_run kb_init [0x2A; 0x23; 0xA3; 0xAA; 0xE0; 0x1D; 0x17]
        = Ok (st, [ch "H"; ch "i"]) ∧ kb_inv st.
Proof.
  destruct (kb_driver_safe [0x2A; 0x23; 0xA3; 0xAA; 0xE0; 0x1D; 0x17])
    as (st & cs & E & Hst & _); [repeat constructor; lia|].
  exists st. split; [|exact Hst]. rewrite E. vm_compute in E. congruence.
Defined.

(** The letter keys reach the default branch. *)
Definition letter_key (sc : Z) : bool :=
  match aget sc_to_ascii sc with
  | Some a => (97 <=? a) && (a <=? 122)
  | None => false
  end.

Definition letter_scs : list Z := seqZ 0x10 10 ++ seqZ 0x1E 9 ++ seqZ 0x2C 7.

Lemma letter_key_scs sc : letter_key sc = true → sc ∈ letter_scs.
Proof.
  intros H. assert (Hsc : 0 ≤ sc < 58).
  { unfold letter_key in H. destruct (aget sc_to_ascii sc) eqn:E; [|done].
    by apply aget_range in E. }
  range_check (λ sc, implb (letter_key sc) (bool_decide (sc ∈ letter_scs)))
    0 58 sc as Hb.
  rewrite H in Hb. by apply bool_decide_eq_true in Hb.
Qed.

Lemma letter_key_default sc f t :
  letter_key sc = true →
  kb_modifiers sc f t = None ∧ kb_keypad sc f t = None ∧ sc ≤ 0x39 ∧
  has sc 0x80 = false ∧ sc ≠ 0xE0 ∧ sc ≠ 0xE1.
Proof.
  intros Hin%letter_key_scs. vm_compute in Hin.
  repeat (apply elem_of_cons in Hin as [->|Hin]; [by vm_compute|]).
  by apply elem_of_nil in Hin.
Qed.

Lemma shift_lookup_letter a :
  97 ≤ a ≤ 122 → aget shift_lookup (a - 0x27) = Some (a - 32).
Proof.
  intros Ha.
  range_check (λ a, bool_decide (aget shift_lookup (a - 0x27) = Some (a - 32)))
    97 26 a as H.
  by apply bool_decide_eq_true in H.
Qed.

(** A letter key types its letter, in upper case exactly when one of a shift
    key being held and caps lock being on is the case; the lock and shift state
    are unchanged and the prefix state is reset. *)
Theorem kb_letter_case st sc a :
  kb_inv st → aget sc_to_ascii sc = Some a → 97 ≤ a ≤ 122 →
  let shift := Z.testbit (kflags st) 6 || Z.testbit (kflags st) 7 in
  let caps := Z.testbit (kflags st) 2 in
  ∃ st', kb_handler st sc = Ok (st', Some (if xorb shift caps then a - 32 else a)) ∧
    Z.testbit (kflags st') 2 = caps ∧
    Z.testbit (kflags st') 6 || Z.testbit (kflags st') 7 = shift ∧
    tempfl st' = 0.
Proof.
  intros [Hb Hm] Hsc Ha shift caps.
  assert (Hk : letter_key sc = true) by (unfold letter_key; rewrite Hsc; lia).
  destruct (letter_key_default sc (kflags st) (tempfl st) Hk)
    as (E1 & E2 & E3 & E4 & E5 & E6).
  unfold kb_handler. rewrite (proj2 (Z.eqb_neq _ _) E5), (proj2 (Z.eqb_neq _ _) E6), E4.
  unfold kb_switch, kb_default. rewrite E1, E2, (proj2 (Z.leb_le _ _) E3), Hsc. simpl.
  unfold kb_finish. fold (with_mods (kflags st)).
  destruct (kflag_bits (with_mods (kflags st)))
    as (_ & Ecaps & Eshift & _ & _ & _ & _ & _ & _ & _ & _ & _ & Enum).
  rewrite Ecaps, Eshift, Enum, !testbit_with_mods by lia. cbn [Z.eqb Pos.eqb].
  rewrite !andb_false_l, !orb_false_r, !andb_true_l.
  destruct Hm as (Hsh & _ & _ & Hnp). rewrite Hsh, Hnp, orb_diag.
  replace ((0 <? a) && (a <? 127)) with true by lia.
  replace (39 <=? a) with true by lia. simpl negb. rewrite andb_true_l, andb_true_r.
  set (st' := Kb _ 0).
  assert (Hst' : ∀ i, 0 ≤ i → i ∈ [2; 6; 7] →
    Z.testbit (kflags st') i = Z.testbit (kflags st) i).
  { intros i Hi Hin. unfold st', kflags at 1. rewrite clr_clr, testbit_clr,
      testbit_with_mods by lia.
    repeat (apply elem_of_cons in Hin as [->|Hin];
      [const_bits; cbn [Z.eqb Pos.eqb]; by rewrite !andb_false_l, !orb_false_r,
        andb_true_r|]).
    by apply elem_of_nil in Hin. }
  exists st'. subst shift caps.
  rewrite !Hst' by (lia || set_solver). split_and!; [|done..].
  clearbody st'. clear Hst'.
  rewrite (shift_lookup_letter a Ha).
  destruct (Z.testbit (kflags st) 6 || Z.testbit (kflags st) 7),
    (Z.testbit (kflags st) 2); simpl;
    rewrite ?tolower_spec, ?toupper_spec by lia;
    pose proof (islower_spec (a - 32)); pose proof (isupper_spec (a - 32));
    pose proof (islower_spec a);
    repeat (cif; try lia); repeat f_equal; lia.
Qed.

(** Caps lock and left shift down: Q is typed as q. *)
Lemma kb_letter_case_witness :
  ∃ st, kb_handler (Kb 0x4C 0) 0x10 = Ok (st, Some (ch "q")) ∧ tempfl st = 0.
Proof.
  destruct (kb_letter_case (Kb 0x4C 0) 0x10 (ch "q")) as (st & E & _ & _ & Ht);
    [by repeat split|reflexivity|lia|].
  by exists st.
Defined.
