(* ===== verification/Vga.v ===== *)
(** * Vga: the text screen and the kernel console

    [kernel/src/vga.c] drives the 80x25 text buffer at 0xB8000 and the CRT
    cursor; [kernel/src/console.c] adds the current colours and the string
    output functions.  [Term] is the abstract screen that [vga_putchar] is shown
    to implement. *)

From S2P Require Import Prelude.

Definition COLOR_BLACK : Z := 0x00.
Definition COLOR_WHITE : Z := 0x0F.

(** The frame buffer, the two static cursor bytes and the CRT controller ports
    written so far, latest first. *)
Record vga := Vga {
  video_memory : list Z;
  cursor_x : Z;
  cursor_y : Z;
  ports : list (Z * Z)
}.

Definition outb (port value : Z) (s : vga) : vga :=
  Vga (video_memory s) (cursor_x s) (cursor_y s) ((port, u8 value) :: ports s).

Definition move_cursor (s : vga) : vga :=
  let cursor_loc := u16 (cursor_y s * 80 + cursor_x s) in
  outb 0x3D5 cursor_loc (outb 0x3D4 15
    (outb 0x3D5 (Z.shiftr cursor_loc 8) (outb 0x3D4 14 s))).

(** [(COLOR_BLACK << 4) | (COLOR_WHITE & 0x0F)] in the high byte, a space in
    the low one. *)
Definition scroll_blank : Z :=
  let attrib_byte := Z.lor (Z.shiftl COLOR_BLACK 4) (Z.land COLOR_WHITE 0x0F) in
  Z.lor 0x20 (Z.shiftl attrib_byte 8).

(** [video_memory[i] = video_memory[i + 80]] *)
Definition move_cell (i : Z) (vm : list Z) : res (list Z) :=
  let* c := deref (aget vm (i + 80)) in deref (aset vm i c).

Definition blank_cell (b : Z) (i : Z) (vm : list Z) : res (list Z) :=
  deref (aset vm i b).

Definition scroll (s : vga) : res vga :=
  if 25 <=? cursor_y s then
    let* vm := for_range 0 (24 * 80) move_cell (video_memory s) in
    let* vm := for_range (24 * 80) (25 * 80) (blank_cell scroll_blank) vm in
    Ok (Vga vm (cursor_x s) 24 (ports s))
  else Ok s.

(** The [char] argument is sign-extended by the conversion to 16 bits. *)
Definition vga_mkchar (c bg fg : Z) : Z :=
  u16 (Z.lor (Z.lor (Z.shiftl bg 12) (Z.shiftl (Z.land fg 0x0F) 8)) (u16 c)).

Definition vga_putchar (chr : Z) (s : vga) : res (Z * vga) :=
  let c := s8 (Z.land chr 0xFF) in
  let vm := video_memory s in
  let x := cursor_x s in
  let y := cursor_y s in
  let* s :=
    (if (c =? 0x08) && (0 <? x) then Ok (Vga vm (u8 (x - 1)) y (ports s))
     else if c =? 0x09 then Ok (Vga vm (u8 (clr (x + 8) (8 - 1))) y (ports s))
     else if c =? 13 then Ok (Vga vm 0 y (ports s))
     else if c =? 10 then Ok (Vga vm 0 (u8 (y + 1)) (ports s))
     else if 0x20 <=? c then
       let* vm := deref (aset vm (y * 80 + x) chr) in
       Ok (Vga vm (u8 (x + 1)) y (ports s))
     else Ok s) in
  let s := if 80 <=? cursor_x s
           then Vga (video_memory s) 0 (u8 (cursor_y s + 1)) (ports s) else s in
  let* s := scroll s in
  Ok (c, move_cursor s).

Definition vga_clear_scr (s : vga) : res vga :=
  let blank := vga_mkchar (ch " ") COLOR_BLACK COLOR_WHITE in
  let* vm := for_range 0 (80 * 25) (blank_cell blank) (video_memory s) in
  Ok (move_cursor (Vga vm 0 0 (ports s))).

(** ** console.c *)

Record console := Console { cur_bg : Z; cur_fg : Z; screen : vga }.

Definition set_color (bg fg : Z) (s : console) : Z * console :=
  (Z.lor (Z.shiftl (cur_bg s) 4) (Z.land (cur_fg s) 0x0F),
   Console (Z.land bg 0x0F) (Z.land fg 0x0F) (screen s)).

Definition kputchar_color (c bg fg : Z) (s : console) : res (Z * console) :=
  let* (r, v) := vga_putchar (vga_mkchar c (u8 bg) (u8 fg)) (screen s) in
  Ok (r, Console (cur_bg s) (cur_fg s) v).

Definition kputchar (c : Z) (s : console) : res (Z * console) :=
  kputchar_color c (cur_bg s) (cur_fg s) s.

Definition clear_scr (s : console) : res console :=
  let* v := vga_clear_scr (screen s) in Ok (Console (cur_bg s) (cur_fg s) v).

(** The characters of a C string, given as the list before its terminator. *)
Fixpoint kput_chars (cs : list Z) (s : console) : res console :=
  match cs with
  | [] => Ok s
  | c :: cs => let* (_, s) := kputchar c s in kput_chars cs s
  end.

Definition kputs (cs : list Z) (s : console) : res (Z * console) :=
  let* s := kput_chars cs s in
  let* (_, s) := kputchar 10 s in
  Ok (Z.of_nat (length cs), s).

(** ** The abstract screen

    Twenty-five rows of eighty cells and a cursor inside them. *)
Module Term.
Record term := T { cells : list Z; col : Z; row : Z }.

(** Leave the last column, then the last row. *)
Definition wrap (t : term) : term :=
  let t := if 80 <=? col t then T (cells t) 0 (row t + 1) else t in
  if 25 <=? row t
  then T (drop 80 (cells t) ++ replicate 80 scroll_blank) (col t) 24 else t.

Definition put (chr : Z) (t : term) : term :=
  let c := s8 (Z.land chr 0xFF) in
  wrap (
    if c =? 8 then T (cells t) (Z.max 0 (col t - 1)) (row t)
    else if c =? 9 then T (cells t) (8 * (col t / 8 + 1)) (row t)
    else if c =? 13 then T (cells t) 0 (row t)
    else if c =? 10 then T (cells t) 0 (row t + 1)
    else if 32 <=? c then
      T (<[Z.to_nat (row t * 80 + col t) := chr]> (cells t)) (col t + 1) (row t)
    else t).
End Term.

Definition abs (s : vga) : Term.term :=
  Term.T (video_memory s) (cursor_x s) (cursor_y s).

(** The cursor is on the screen and the buffer has 2000 cells. *)
Definition vga_ok (s : vga) : Prop :=
  length (video_memory s) = 2000%nat ∧ 0 ≤ cursor_x s < 80 ∧ 0 ≤ cursor_y s < 25.

(** ** Lemmas *)
Lemma move_cells_spec vm :
  length vm = 2000%nat →
  for_range 0 (24 * 80) move_cell vm = Ok (drop 80 vm ++ drop 1920 vm).
Proof.
  intros Hlen.
  destruct (for_range_inv
    (λ j v, length v = 2000%nat ∧
       ∀ i, aget v i = if (0 <=? i) && (i <? j) then aget vm (i + 80) else aget vm i)
    0 (24 * 80) move_cell vm) as (v & -> & Hv & Hget); [lia|..].
  { split; [done|]. intros i. by replace ((0 <=? i) && (i <? 0)) with false by lia. }
  { intros j v Hj [Hl Hget]. unfold move_cell.
    rewrite Hget. replace ((0 <=? j + 80) && (j + 80 <? j)) with false by lia.
    destruct (aget_is_Some vm (j + 80)) as [c Hc]; [lia|]. rewrite Hc. simpl.
    rewrite aset_Some by lia. simpl. eexists. split; [done|]. split.
    { by rewrite length_insert. }
    intros i. rewrite aget_insert, Hget by lia.
    destruct (Z.eqb_spec j i) as [<-|].
    - by replace ((0 <=? j) && (j <? j + 1)) with true by lia.
    - by replace ((0 <=? i) && (i <? j + 1)) with ((0 <=? i) && (i <? j)) by lia. }
  f_equal. apply aget_ext; [rewrite length_app, !length_drop; lia|].
  intros i Hi. rewrite Hget. unfold aget.
  destruct (Z.ltb_spec i 0); [lia|]. destruct (Z.ltb_spec (i + 80) 0); [lia|].
  rewrite Hv in Hi. destruct (Z.ltb_spec i (24 * 80)); simpl.
  - replace (0 <=? i) with true by lia. simpl.
    rewrite lookup_app_l by (rewrite length_drop; lia).
    rewrite lookup_drop. f_equal. lia.
  - rewrite andb_false_r. rewrite lookup_app_r by (rewrite length_drop; lia).
    rewrite lookup_drop, length_drop. f_equal. lia.
Qed.

Lemma blank_cells_spec b lo vm :
  0 ≤ lo ≤ Z.of_nat (length vm) →
  for_range lo (Z.of_nat (length vm)) (blank_cell b) vm
  = Ok (take (Z.to_nat lo) vm ++ replicate (length vm - Z.to_nat lo) b).
Proof.
  intros Hlo.
  destruct (for_range_inv
    (λ j v, length v = length vm ∧
       ∀ i, aget v i = if (lo <=? i) && (i <? j) then Some b else aget vm i)
    lo (Z.of_nat (length vm)) (blank_cell b) vm) as (v & -> & Hv & Hget); [lia|..].
  { split; [done|]. intros i. by replace ((lo <=? i) && (i <? lo)) with false by lia. }
  { intros j v Hj [Hl Hget]. unfold blank_cell. rewrite aset_Some by lia. simpl.
    eexists. split; [done|]. split; [by rewrite length_insert|].
    intros i. rewrite aget_insert, Hget by lia.
    destruct (Z.eqb_spec j i) as [<-|].
    - by replace ((lo <=? j) && (j <? j + 1)) with true by lia.
    - by replace ((lo <=? i) && (i <? j + 1)) with ((lo <=? i) && (i <? j)) by lia. }
  f_equal. apply aget_ext.
  { rewrite length_app, length_take, length_replicate. lia. }
  intros i Hi. rewrite Hget. unfold aget. destruct (Z.ltb_spec i 0); [lia|].
  rewrite Hv in Hi. destruct (Z.leb_spec lo i); simpl.
  - replace (i <? Z.of_nat (length vm)) with true by lia.
    rewrite lookup_app_r by (rewrite length_take; lia).
    rewrite length_take, lookup_replicate_2; [done|lia].
  - rewrite lookup_app_l by (rewrite length_take; lia).
    by rewrite lookup_take_lt by lia.
Qed.

Lemma scroll_spec s :
  length (video_memory s) = 2000%nat → 25 ≤ cursor_y s →
  scroll s = Ok (Vga (drop 80 (video_memory s) ++ replicate 80 scroll_blank)
                     (cursor_x s) 24 (ports s)).
Proof.
  intros Hlen Hy. unfold scroll. replace (25 <=? cursor_y s) with true by lia.
  rewrite move_cells_spec by done. unfold rbind at 1.
  assert (Hl : length (drop 80 (video_memory s) ++ drop 1920 (video_memory s))
               = 2000%nat) by (rewrite length_app, !length_drop; lia).
  pose proof (blank_cells_spec scroll_blank (24 * 80) _ ltac:(rewrite Hl; lia)) as E.
  rewrite Hl in E. change (Z.of_nat 2000) with (25 * 80) in E. rewrite E.
  unfold rbind. do 2 f_equal.
  change (Z.to_nat (24 * 80)) with 1920%nat.
  rewrite take_app_le by (rewrite length_drop; lia).
  rewrite take_ge by (rewrite length_drop; lia). done.
Qed.

Lemma tab_stop x : 0 ≤ x < 80 → clr (x + 8) (8 - 1) = 8 * (x / 8 + 1).
Proof.
  intros Hx.
  range_check (λ x, clr (x + 8) (8 - 1) =? 8 * (x / 8 + 1)) 0 80 x as H. lia.
Qed.

(** The end of [vga_putchar]: wrap, scroll, program the cursor. *)
Lemma vga_finish_spec s :
  length (video_memory s) = 2000%nat →
  0 ≤ cursor_x s ≤ 80 → 0 ≤ cursor_y s ≤ 25 → (cursor_x s = 80 → cursor_y s < 25) →
  ∃ s1, scroll (if 80 <=? cursor_x s
                then Vga (video_memory s) 0 (u8 (cursor_y s + 1)) (ports s) else s)
        = Ok s1 ∧ vga_ok s1 ∧ abs s1 = Term.wrap (abs s) ∧ ports s1 = ports s.
Proof.
  intros Hlen Hx Hy Hxy. unfold Term.wrap, abs. simpl.
  rewrite uint_small by lia.
  set (s0 := if 80 <=? cursor_x s then _ else s).
  assert (H0 : video_memory s0 = video_memory s ∧ ports s0 = ports s ∧
    cursor_x s0 = (if 80 <=? cursor_x s then 0 else cursor_x s) ∧
    cursor_y s0 = (if 80 <=? cursor_x s then cursor_y s + 1 else cursor_y s))
    by (unfold s0; by destruct (80 <=? cursor_x s)).
  destruct H0 as (Hv & Hp & Hcx & Hcy). clearbody s0.
  assert (Ht : (if 80 <=? cursor_x s then
      Term.T (video_memory s) 0 (cursor_y s + 1)
      else Term.T (video_memory s) (cursor_x s) (cursor_y s))
      = Term.T (video_memory s0) (cursor_x s0) (cursor_y s0))
    by (rewrite Hv, Hcx, Hcy; by destruct (80 <=? cursor_x s)).
  rewrite Ht. simpl.
  assert (Hcx' : 0 ≤ cursor_x s0 < 80) by (rewrite Hcx; cif; lia).
  assert (Hcy' : 0 ≤ cursor_y s0 ≤ 25) by (rewrite Hcy; cif; lia).
  destruct (Z.leb_spec 25 (cursor_y s0)).
  - rewrite scroll_spec by (rewrite ?Hv; done || lia).
    eexists. split; [done|]. split; [|by rewrite Hv, Hp].
    split; [|split; cbn [cursor_x cursor_y]; lia]. cbn [video_memory].
    rewrite length_app, length_drop, length_replicate, Hv. lia.
  - unfold scroll. replace (25 <=? cursor_y s0) with false by lia.
    eexists. split; [done|]. split; [|by rewrite Hv, Hp].
    split; [by rewrite Hv|lia].
Qed.

(** The end of [vga_putchar] from the state [s0], by [Hfin]. *)
Ltac finish Hfin s0 :=
  let s' := fresh "s'" in let E := fresh "E" in let Ha := fresh "Ha" in
  destruct (Hfin s0) as (s' & E & ? & Ha & ?);
  [cbn [video_memory cursor_x cursor_y ports]; rewrite ?length_insert; done || lia..
  |exists s'; split; [exact E|]; split; [done|]; split; [|done];
   rewrite Ha; unfold abs; simpl].

(** On a screen whose cursor is inside it, writing any 16-bit cell never
    touches memory outside the 2000 cells, returns the character, leaves the
    cursor inside the screen, and does to the buffer and the cursor what the
    abstract screen does: printable characters are stored and advance, back
    space, tab, carriage return and newline move, and leaving the last row drops
    the first row and opens a blank one.  The CRT controller is told the new
    cursor position, high byte and low byte. *)
Lemma vga_putchar_spec chr s :
  vga_ok s → 0 ≤ chr < 2 ^ 16 →
  ∃ s', vga_putchar chr s = Ok (s8 (Z.land chr 0xFF), s') ∧ vga_ok s' ∧
    abs s' = Term.put chr (abs s) ∧
    let loc := cursor_y s' * 80 + cursor_x s' in
    ports s' = (0x3D5, loc mod 256) :: (0x3D4, 15) :: (0x3D5, loc / 256)
               :: (0x3D4, 14) :: ports s.
Proof.
  intros (Hlen & Hx & Hy) Hchr. unfold vga_putchar, Term.put. simpl.
  set (c := s8 (Z.land chr 255)).
  assert (Hfin : ∀ s0, length (video_memory s0) = 2000%nat →
    0 ≤ cursor_x s0 ≤ 80 → 0 ≤ cursor_y s0 ≤ 25 →
    (cursor_x s0 = 80 → cursor_y s0 < 25) → ports s0 = ports s →
    ∃ s', (let* s1 := scroll (if 80 <=? cursor_x s0
            then Vga (video_memory s0) 0 (u8 (cursor_y s0 + 1)) (ports s0) else s0) in
           Ok (c, move_cursor s1)) = Ok (c, s') ∧ vga_ok s' ∧
      abs s' = Term.wrap (abs s0) ∧
      ports s' = (0x3D5, (cursor_y s' * 80 + cursor_x s') mod 256) :: (0x3D4, 15)
        :: (0x3D5, (cursor_y s' * 80 + cursor_x s') / 256) :: (0x3D4, 14) :: ports s).
  { intros s0 H1 H2 H3 H4 Hp.
    destruct (vga_finish_spec s0 H1 H2 H3 H4) as (s1 & -> & Hok & Habs & Hp1).
    simpl. eexists. split; [done|]. split; [exact Hok|]. split; [exact Habs|].
    simpl. destruct Hok as (_ & Hx1 & Hy1).
    rewrite (uint_small 16) by lia. rewrite Z.shiftr_div_pow2 by lia.
    change (2 ^ 8) with 256. rewrite (uint_small 8 (_ / 256)).
    - by rewrite Hp1, Hp.
    - split; [apply Z.div_pos; lia|]. apply Z.div_lt_upper_bound; lia. }
  destruct ((c =? 8) && (0 <? cursor_x s)) eqn:E8.
  { zbool. rewrite uint_small by lia.
    finish Hfin (Vga (video_memory s) (cursor_x s - 1) (cursor_y s) (ports s)).
    replace (c =? 8) with true by lia.
    by replace (Z.max 0 (cursor_x s - 1)) with (cursor_x s - 1) by lia. }
  assert (Hdiv : 0 ≤ cursor_x s / 8 < 10)
    by (split; [apply Z.div_pos; lia|apply Z.div_lt_upper_bound; lia]).
  destruct (Z.eqb_spec c 9) as [->|H9].
  { rewrite tab_stop, uint_small by lia.
    finish Hfin (Vga (video_memory s) (8 * (cursor_x s / 8 + 1)) (cursor_y s)
      (ports s)). done. }
  destruct (Z.eqb_spec c 13) as [->|H13].
  { finish Hfin (Vga (video_memory s) 0 (cursor_y s) (ports s)). done. }
  destruct (Z.eqb_spec c 10) as [->|H10].
  { rewrite uint_small by lia.
    finish Hfin (Vga (video_memory s) 0 (cursor_y s + 1) (ports s)). done. }
  destruct (Z.leb_spec 32 c).
  { rewrite aset_Some by lia. simpl. rewrite uint_small by lia.
    finish Hfin (Vga (<[Z.to_nat (cursor_y s * 80 + cursor_x s) := chr]>
      (video_memory s)) (cursor_x s + 1) (cursor_y s) (ports s)).
    by replace (c =? 8) with false by lia. }
  finish Hfin s. destruct (Z.eqb_spec c 8); [|done].
  assert (cursor_x s = 0) as Hx0 by lia. by rewrite Hx0.
Qed.

(** A screen of blanks. *)
Definition blank_screen (x y : Z) : vga :=
  Vga (replicate 2000 scroll_blank) x y [].

Lemma blank_screen_ok x y :
  0 ≤ x < 80 → 0 ≤ y < 25 → vga_ok (blank_screen x y).
Proof.
  intros. split; [|done]. cbn [blank_screen video_memory]. apply length_replicate.
Qed.

(** What the abstract screen shows after a character in its last cell. *)
Lemma last_cell_scrolls :
  let t := Term.put 0x0F41 (abs (blank_screen 79 24)) in
  Term.col t = 0 ∧ Term.row t = 24 ∧ aget (Term.cells t) 1919 = Some 0x0F41.
Proof. vm_compute. done. Qed.

(** The cell of a 7-bit character holds the character and both colours, and the
    pair of colours that [set_color] returns restores them. *)
Lemma vga_mkchar_fields c bg fg :
  0 ≤ c < 128 → 0 ≤ bg < 16 → 0 ≤ fg < 16 →
  vga_mkchar c bg fg = bg * 4096 + fg * 256 + c.
Proof.
  intros Hc Hb Hf. unfold vga_mkchar. rewrite (uint_small 16 c) by lia.
  rewrite (land_ones_mod fg 4) by done. rewrite Z.mod_small by (simpl; lia).
  assert (H1 : Z.lor (Z.shiftl bg 12) (Z.shiftl fg 8) = (bg * 16 + fg) * 2 ^ 8).
  { rewrite (Z.shiftl_mul_pow2 fg) by lia. rewrite lor_shiftl by (simpl; lia). lia. }
  rewrite H1, <- (Z.shiftl_mul_pow2 _ 8), lor_shiftl by (simpl; lia).
  rewrite (uint_small 16) by (simpl; lia). lia.
Qed.

Definition console_ok (s : console) : Prop :=
  0 ≤ cur_bg s < 16 ∧ 0 ≤ cur_fg s < 16 ∧ vga_ok (screen s).

(** The cell that the console writes for a character, and the character in it. *)
Definition cell (s : console) (c : Z) : Z := cur_bg s * 4096 + cur_fg s * 256 + c.

Lemma cell_low s c : 0 ≤ c < 128 → s8 (Z.land (cell s c) 0xFF) = c.
Proof.
  intros Hc. change 0xFF with (Z.ones 8). rewrite Z.land_ones by lia. unfold cell.
  replace (cur_bg s * 4096 + cur_fg s * 256 + c) with (c + (cur_bg s * 16 + cur_fg s) * 2 ^ 8) by lia.
  rewrite Z_mod_plus_full, (Z.mod_small c) by lia. apply sint_small; lia.
Qed.

(** The string functions keep the console in order and print every character. *)
Lemma kputchar_ok c s :
  console_ok s → 0 ≤ c < 128 →
  ∃ s', kputchar c s = Ok (c, s') ∧ console_ok s' ∧
    cur_bg s' = cur_bg s ∧ cur_fg s' = cur_fg s ∧
    abs (screen s') = Term.put (cur_bg s * 4096 + cur_fg s * 256 + c) (abs (screen s)).
Proof.
  intros (Hb & Hf & Hv) Hc. unfold kputchar, kputchar_color.
  rewrite !(uint_small 8), vga_mkchar_fields by lia.
  set (w := cur_bg s * 4096 + cur_fg s * 256 + c).
  destruct (vga_putchar_spec w (screen s)) as (v & -> & Hv' & Habs & _);
    [done|unfold w; lia|].
  assert (Hlow : s8 (Z.land w 255) = c) by by apply (cell_low s).
  rewrite Hlow. simpl. eexists. split_and!; done.
Qed.

Lemma kput_chars_spec cs s :
  console_ok s → Forall (λ c, 0 ≤ c < 128) cs →
  ∃ s', kput_chars cs s = Ok s' ∧ console_ok s' ∧
    cur_bg s' = cur_bg s ∧ cur_fg s' = cur_fg s ∧
    abs (screen s') = foldl (λ t c, Term.put (cell s c) t) (abs (screen s)) cs.
Proof.
  revert s. induction cs as [|c cs IH]; intros s Hs Hcs; simpl.
  { by exists s. }
  inversion Hcs as [|? ? Hc Hcs']; subst.
  destruct (kputchar_ok c s Hs Hc) as (s1 & -> & Hs1 & Hb & Hf & Ha). simpl.
  destruct (IH s1 Hs1 Hcs') as (s' & -> & Hs' & Hb' & Hf' & Ha').
  exists s'. unfold cell in *. rewrite Hb, Hf, Ha in *. by rewrite Hb', Hf', Ha'.
Qed.

(** C37: printing a string of 7-bit characters with [kputs] on a console whose
    cursor is on the screen: every store is inside the frame buffer, the cursor
    is on the screen again, the current colours stay, and the screen is the
    abstract terminal after the characters and a newline in the current colours
    (tabs, backspaces, wrapping at column 80 and scrolling included). *)
Theorem kputs_refines cs s
    (Hs : console_ok s) (Hcs : Forall (λ c, 0 ≤ c < 128) cs) :
  ∃ s', kputs cs s = Ok (Z.of_nat (length cs), s') ∧ console_ok s' ∧
    cur_bg s' = cur_bg s ∧ cur_fg s' = cur_fg s ∧
    abs (screen s') =
      foldl (λ t c, Term.put (cell s c) t) (abs (screen s)) (cs ++ [10]).
Proof.
  unfold kputs.
  destruct (kput_chars_spec cs s Hs Hcs) as (s1 & -> & Hs1 & Hb & Hf & Ha). simpl.
  destruct (kputchar_ok 10 s1 Hs1 ltac:(lia)) as (s' & -> & Hs' & Hb' & Hf' & Ha').
  exists s'. rewrite foldl_app. simpl. unfold cell in *.
  rewrite Hb, Hf, Ha in *. by rewrite Hb', Hf', Ha'.
Qed.

(** On the last row of the screen: the newline scrolls it. *)
Lemma kputs_refines_witness :
  let s := Console 0 15 (blank_screen 77 24) in
  console_ok s ∧ Forall (λ c, 0 ≤ c < 128) [0x48; 0x69; 0x21] ∧
  ∃ s', kputs [0x48; 0x69; 0x21] s = Ok (3, s') ∧ console_ok s' ∧
    cur_bg s' = 0 ∧ cur_fg s' = 15 ∧
    abs (screen s') =
      foldl (λ t c, Term.put (cell s c) t) (abs (screen s)) [0x48; 0x69; 0x21; 10].
Proof.
  assert (H1 : console_ok (Console 0 15 (blank_screen 77 24))).
  { unfold console_ok. simpl. split_and!; try lia. apply blank_screen_ok; lia. }
  assert (H2 : Forall (λ c, 0 ≤ c < 128) [0x48; 0x69; 0x21])
    by (repeat constructor; lia).
  cbv zeta. split; [exact H1|]. split; [exact H2|]. exact (kputs_refines _ _ H1 H2).
Defined.
