(* ===== verification/Format.v ===== *)
(** * Format: formatted output

    [kernel/lib/vsprintf.c] and [rlibc/stdio/vdprintf.c] are two copies of one state
    machine.  They differ in where a character goes (a [Sink]) and in the conversions
    [p], [n] and [f]; these are arguments of the machine below. *)

From S2P Require Import Prelude CString Ctype.

(** ** Where the characters go

    [smem] is the memory that the function sees: a character may go to it. *)
Class Sink := {
  sink : Type;
  putc : Z → sink → sink;
  smem : sink → mem
}.

Definition puts `{SK : Sink} (cs : list Z) (o : sink) : sink := foldl (λ o c, putc c o) o cs.

Definition FL_SIGN : Z := 0x01.
Definition FL_LEFT_JUSTIFY : Z := 0x02.
Definition FL_PLUS : Z := 0x04.
Definition FL_SPACE : Z := 0x08.
Definition FL_SPECIAL : Z := 0x10.
Definition FL_ZEROPAD : Z := 0x20.
Definition FL_SMALL : Z := 0x40.

Definition DIGS : list Z := codes "0123456789ABCDEFGHIJKLMNOPQRSTUVWXYZ".
Definition digs_small : list Z := codes "0123456789abcdefghijklmnopqrstuvwxyz".

(** [while (lo < w--) putc(c)] *)
Definition pad_while `{SK : Sink} (lo w c : Z) (o : sink) : Z * sink :=
  (Z.min lo w - 1, puts (replicate (Z.to_nat (w - lo)) c) o).

(** [while (--w > 0) putc(c)] *)
Definition pad_pre `{SK : Sink} (w c : Z) (o : sink) : Z * sink :=
  (Z.min 1 w - 1, puts (replicate (Z.to_nat (w - 1)) c) o).

(** [while (num != 0)]: the digits, the last one first. *)
Fixpoint digits_loop (fuel : nat) (digs : list Z) (num base : Z) : res (list Z) :=
  match fuel with
  | O => Fuel
  | S fuel =>
      if num =? 0 then Ok []
      else
        let* d := deref (aget digs (num mod base)) in
        let* ds := digits_loop fuel digs (num / base) base in
        Ok (d :: ds)
  end.

(** The array [tmp] of [numstr]. *)
Definition num_digits (digs : list Z) (num base : Z) : res (list Z) :=
  if num =? 0 then Ok [ch "0"] else digits_loop 36 digs num base.

(** The sign and the magnitude. *)
Definition num_sign (number flags : Z) : Z * Z :=
  if has flags FL_SIGN && (number <? 0) then (ch "-", u32 (- number))
  else (if has flags FL_PLUS then ch "+" else if has flags FL_SPACE then ch " " else 0, u32 number).

(** From the sign to the last space. *)
Definition num_out `{SK : Sink} (sign c base width prec flags : Z) (digs tmp : list Z) (o : sink)
    : res sink :=
  let i := len tmp in
  let (width, o) := (if Z.land flags (FL_LEFT_JUSTIFY + FL_ZEROPAD) =? 0
                     then pad_while 0 width (ch " ") o else (width, o)) in
  let o := (if negb (sign =? 0) then putc sign o else o) in
  let* o := (if has flags FL_SPECIAL then
               if base =? 8 then Ok (putc (ch "0") o)
               else if base =? 16 then
                 let* x := deref (aget digs 33) in Ok (putc x (putc (ch "0") o))
               else Ok o
             else Ok o) in
  let (width, o) := (if negb (has flags FL_LEFT_JUSTIFY) then pad_while 0 width c o else (width, o)) in
  let (_, o) := pad_while i prec (ch "0") o in
  let o := puts (reverse tmp) o in
  let (_, o) := pad_while 0 width (ch " ") o in
  Ok o.

(** [numstr] for the bases that there are. *)
Definition num_str `{SK : Sink} (number base width prec flags : Z) (o : sink) : res sink :=
  let width := if width <? 0 then s32 (- width) else width in
  let digs := if has flags FL_SMALL then digs_small else DIGS in
  let c := if has flags FL_ZEROPAD then ch "0" else ch " " in
  let (sign, num) := num_sign number flags in
  let width := if negb (sign =? 0) then width - 1 else width in
  let width := (if has flags FL_SPECIAL then
                  if base =? 16 then width - 2 else if base =? 8 then width - 1 else width
                else width) in
  let* tmp := num_digits digs num base in
  let prec := if prec <? len tmp then len tmp else prec in
  let width := width - prec in
  num_out sign c base width prec flags digs tmp o.

(** ** The machine *)
Section machine.
Context {SK : Sink}.

(** The variables of the function; [p_fmt] is what is left of the string, without its
    terminator, [p_args] are the words of the argument list. *)
Record pst := Pst {
  p_fmt : list Z; p_flags : Z; p_state : Z; p_width : Z; p_prec : Z; p_len : Z;
  p_args : list Z; p_out : sink
}.

Definition with_fmt (x : list Z) (s : pst) : pst :=
  Pst x (p_flags s) (p_state s) (p_width s) (p_prec s) (p_len s) (p_args s) (p_out s).
Definition with_flags (x : Z) (s : pst) : pst :=
  Pst (p_fmt s) x (p_state s) (p_width s) (p_prec s) (p_len s) (p_args s) (p_out s).
Definition with_state (x : Z) (s : pst) : pst :=
  Pst (p_fmt s) (p_flags s) x (p_width s) (p_prec s) (p_len s) (p_args s) (p_out s).
Definition with_width (x : Z) (s : pst) : pst :=
  Pst (p_fmt s) (p_flags s) (p_state s) x (p_prec s) (p_len s) (p_args s) (p_out s).
Definition with_prec (x : Z) (s : pst) : pst :=
  Pst (p_fmt s) (p_flags s) (p_state s) (p_width s) x (p_len s) (p_args s) (p_out s).
Definition with_len (x : Z) (s : pst) : pst :=
  Pst (p_fmt s) (p_flags s) (p_state s) (p_width s) (p_prec s) x (p_args s) (p_out s).
Definition with_args (x : list Z) (s : pst) : pst :=
  Pst (p_fmt s) (p_flags s) (p_state s) (p_width s) (p_prec s) (p_len s) x (p_out s).
Definition with_out (x : sink) (s : pst) : pst :=
  Pst (p_fmt s) (p_flags s) (p_state s) (p_width s) (p_prec s) (p_len s) (p_args s) x.

(** [*fmt], and [fmt++], which must not leave the string. *)
Definition fmt_char (s : pst) : Z := default 0 (head (p_fmt s)).

Definition fmt_next (s : pst) : res pst :=
  match p_fmt s with [] => Fault | _ :: l => Ok (with_fmt l s) end.

Definition va_word (s : pst) : res (Z * pst) :=
  match p_args s with [] => Fault | w :: l => Ok (w, with_args l s) end.

(** [atoi_ptr] *)
Fixpoint atoi_loop (i : Z) (fmt : list Z) : Z * list Z :=
  match fmt with
  | c :: l => if negb (isdigit c =? 0) then atoi_loop (s32 (i * 10 + c - ch "0")) l else (i, fmt)
  | [] => (i, [])
  end.

Definition atoi_ptr (s : pst) : Z * pst :=
  let (i, l) := atoi_loop 0 (p_fmt s) in (i, with_fmt l s).

(** A number, or an [int] of the arguments for a star; else the default. *)
Definition read_number (dflt : Z) (s : pst) : res (Z * pst) :=
  if negb (isdigit (fmt_char s) =? 0) then Ok (atoi_ptr s)
  else if fmt_char s =? ch "*" then
    let* (w, s) := va_word s in let* s := fmt_next s in Ok (s32 w, s)
  else Ok (dflt, s).

(** The argument of an integer conversion. *)
Definition va_number (s : pst) : res (Z * pst) :=
  let* (w, s) := va_word s in
  Ok (if p_len s =? -1 then s16 w else s32 w, s).

Definition conv_number (base : Z) (s : pst) : res pst :=
  let* (n, s) := va_number s in
  let* o := num_str n base (p_width s) (p_prec s) (p_flags s) (p_out s) in
  Ok (with_out o s).

Definition conv_char (s : pst) : res pst :=
  let w := p_width s in
  let (w, o) := (if negb (has (p_flags s) FL_LEFT_JUSTIFY)
                 then pad_pre w (ch " ") (p_out s) else (w, p_out s)) in
  let* (c, s) := va_word s in
  let (w, o) := pad_pre w (ch " ") (putc (u8 c) o) in
  Ok (with_out o (with_width w s)).

(** The first [n] characters at [p]. *)
Fixpoint emit_chars (n : nat) (p : Z) (o : sink) : res sink :=
  match n with
  | O => Ok o
  | S n => let* c := ld (smem o) p in emit_chars n (p + 1) (putc c o)
  end.

Definition conv_string (s : pst) : res pst :=
  let* (p, s) := va_word s in
  if p =? 0 then Ok s
  else
    let* slen := strlen (S (size (smem (p_out s)))) p (smem (p_out s)) in
    let (prec, slen) := (if p_prec s <? 0 then (slen, slen)
                         else (p_prec s, if p_prec s <? slen then p_prec s else slen)) in
    let w := p_width s in
    let (w, o) := (if negb (has (p_flags s) FL_LEFT_JUSTIFY)
                   then pad_while slen w (ch " ") (p_out s) else (w, p_out s)) in
    let* o := emit_chars (Z.to_nat slen) p o in
    let (w, o) := pad_while slen w (ch " ") o in
    Ok (with_out o (with_width w (with_prec prec s))).

(** The conversions that differ; [None]: not one of them. *)
Context (special : Z → pst → option (res pst)).

Definition add_flag (f : Z) (s : pst) : pst := with_flags (Z.lor (p_flags s) f) s.

(** Conversion specifier; one that is not known prints nothing. *)
Definition convert (s : pst) : res pst :=
  let c := fmt_char s in
  if (c =? ch "d") || (c =? ch "i") then conv_number 10 (add_flag FL_SIGN s)
  else if c =? ch "u" then conv_number 10 s
  else if c =? ch "o" then conv_number 8 s
  else if c =? ch "x" then conv_number 16 (add_flag FL_SMALL s)
  else if c =? ch "X" then conv_number 16 s
  else if c =? ch "c" then conv_char s
  else if c =? ch "s" then conv_string s
  else match special c s with Some r => r | None => Ok s end.

(** The cases of the [switch], each with the ones it falls through to. *)
Definition case5 (s : pst) : res pst :=
  let* s := convert s in
  let* s := fmt_next s in
  Ok (with_state 6 s).

Definition case4 (s : pst) : res pst :=
  let* s := (if fmt_char s =? ch "l" then fmt_next (with_len 1 s)
             else if fmt_char s =? ch "h" then fmt_next (with_len (-1) s)
             else Ok s) in
  case5 (with_state 5 s).

Definition case3 (s : pst) : res pst :=
  if fmt_char s =? ch "." then
    let* s := fmt_next s in
    let* (prec, s) := read_number (p_prec s) s in
    case4 (with_state 4 (with_prec prec s))
  else Ok (with_state 4 s).

Definition case2 (s : pst) : res pst :=
  let* (width, s) := read_number (p_width s) s in
  case3 (with_state 3 (with_width width s)).

Definition flag_of (c : Z) : option Z :=
  if c =? ch "-" then Some FL_LEFT_JUSTIFY
  else if c =? ch "0" then Some FL_ZEROPAD
  else if c =? ch "+" then Some (Z.lor FL_PLUS FL_SIGN)
  else if c =? ch " " then Some FL_SPACE
  else if c =? ch "#" then Some FL_SPECIAL
  else None.

(** Flag precedence. *)
Definition settle (flags : Z) : Z :=
  let flags := if has flags FL_PLUS then clr flags FL_SPACE else flags in
  if has flags FL_LEFT_JUSTIFY then clr flags FL_ZEROPAD else flags.

Definition case1 (s : pst) : res pst :=
  if fmt_char s =? ch "%" then
    let* s := fmt_next (with_out (putc (ch "%") (p_out s)) s) in Ok (with_state 0 s)
  else
    match flag_of (fmt_char s) with
    | Some f => fmt_next (add_flag f s)
    | None => case2 (with_state 2 (with_flags (settle (p_flags s)) s))
    end.

Definition case0 (s : pst) : res pst :=
  if negb (fmt_char s =? ch "%") then fmt_next (with_out (putc (fmt_char s) (p_out s)) s)
  else let* s := fmt_next s in case1 (with_state 1 s).

Definition case6 (s : pst) : res pst :=
  Ok (with_len 0 (with_prec (-1) (with_width (-1) (with_flags 0 (with_state 0 s))))).

Definition turn (s : pst) : res pst :=
  if p_state s =? 0 then case0 s
  else if p_state s =? 1 then case1 s
  else if p_state s =? 2 then case2 s
  else if p_state s =? 3 then case3 s
  else if p_state s =? 4 then case4 s
  else if p_state s =? 5 then case5 s
  else if p_state s =? 6 then case6 s
  else Ok s.

Fixpoint run (fuel : nat) (s : pst) : res pst :=
  match fuel with
  | O => Fuel
  | S fuel =>
      match p_fmt s with
      | [] => Ok s
      | _ => let* s := turn s in run fuel s
      end
  end.

(** A turn takes a character, or is the step between two directives. *)
Definition turns (fmt : list Z) : nat := 2 * length fmt + 2.

Definition start (fmt args : list Z) (o : sink) : pst :=
  Pst fmt 0 0 (-1) (-1) 0 args o.
End machine.

(** ** What the conversions print *)

(** [cs] is put wherever the output goes, and nothing else happens. *)
Lemma puts_app `{SK : Sink} cs cs' o : puts (cs ++ cs') o = puts cs' (puts cs o).
Proof. apply foldl_app. Qed.

(** The digits of [n >= 0], the first one first. *)
Fixpoint base_digits (fuel : nat) (base n : Z) : list Z :=
  match fuel with
  | O => []
  | S fuel => if n <? base then [n] else base_digits fuel base (n / base) ++ [n mod base]
  end.

Definition value (base : Z) (vs : list Z) : Z := foldl (λ a v, a * base + v) 0 vs.

Lemma value_snoc base vs v : value base (vs ++ [v]) = value base vs * base + v.
Proof. unfold value. by rewrite foldl_app. Qed.

Lemma base_digits_value fuel base n : 1 < base → 0 ≤ n < base ^ Z.of_nat fuel →
  value base (base_digits fuel base n) = n.
Proof.
  intros Hb. revert n. induction fuel as [|fuel IH]; intros n Hn; cbn [base_digits].
  { rewrite Z.pow_0_r in Hn. assert (n = 0) as -> by lia. done. }
  rewrite Nat2Z.inj_succ, Z.pow_succ_r in Hn by lia. destruct (Z.ltb_spec n base).
  - unfold value. simpl. lia.
  - rewrite value_snoc, IH.
    + pose proof (Z.div_mod n base). lia.
    + split; [apply Z.div_pos; lia|]. apply Z.div_lt_upper_bound; lia.
Qed.

Lemma base_digits_range fuel base n : 1 < base → 0 ≤ n →
  Forall (λ v, 0 ≤ v < base) (base_digits fuel base n).
Proof.
  intros Hb. revert n. induction fuel as [|fuel IH]; intros n Hn; cbn [base_digits]; [constructor|].
  destruct (Z.ltb_spec n base); [by repeat constructor|].
  apply Forall_app_2; [apply IH, Z.div_pos; lia|]. repeat constructor; apply Z.mod_pos_bound; lia.
Qed.

(** No leading zeros. *)
Lemma base_digits_head fuel base n : 1 < base → 0 < n < base ^ Z.of_nat fuel →
  ∃ v vs, base_digits fuel base n = v :: vs ∧ 0 < v.
Proof.
  intros Hb. revert n. induction fuel as [|fuel IH]; intros n Hn; cbn [base_digits].
  { rewrite Z.pow_0_r in Hn. lia. }
  rewrite Nat2Z.inj_succ, Z.pow_succ_r in Hn by lia. destruct (Z.ltb_spec n base).
  - exists n, []. split; [done|lia].
  - destruct (IH (n / base)) as (v & vs & -> & Hv).
    + split; [apply Z.div_str_pos; lia|]. apply Z.div_lt_upper_bound; lia.
    + by exists v, (vs ++ [n mod base]).
Qed.

Definition dig (digs : list Z) (v : Z) : Z := default 0 (aget digs v).

(** 35 digits are enough for 32 bits in every base. *)
Definition numeral (digs : list Z) (base n : Z) : list Z := dig digs <$> base_digits 35 base n.

Lemma digits_loop_spec digs base n fuel : 1 < base ≤ len digs → 0 < n < base ^ Z.of_nat fuel →
  digits_loop (S fuel) digs n base = Ok (reverse (dig digs <$> base_digits fuel base n)).
Proof.
  intros Hb. revert n. induction fuel as [|fuel IH]; intros n Hn.
  { rewrite Z.pow_0_r in Hn. lia. }
  rewrite Nat2Z.inj_succ, Z.pow_succ_r in Hn by lia.
  cbn [digits_loop base_digits]. replace (n =? 0) with false by lia.
  pose proof (Z.mod_pos_bound n base ltac:(lia)) as Hm.
  destruct (aget_is_Some digs (n mod base)) as [d Hd]; [lia|]. rewrite Hd. cbn [deref rbind].
  destruct (Z.ltb_spec n base).
  - rewrite Z.div_small by lia. cbn [digits_loop Z.eqb rbind].
    rewrite Z.mod_small in Hd by lia. cbn. unfold dig. by rewrite Hd.
  - assert (0 < n / base) by (apply Z.div_str_pos; lia).
    change (digits_loop (S fuel) digs (n / base) base) with (digits_loop (S fuel) digs (n / base) base).
    pose proof (IH (n / base) ltac:(split; [lia|apply Z.div_lt_upper_bound; lia])) as E.
    cbn [digits_loop] in E. rewrite E. cbn [rbind].
    rewrite fmap_app, reverse_app. cbn. unfold dig at 2. by rewrite Hd.
Qed.

Lemma num_digits_spec digs base n : 1 < base ≤ len digs → 0 ≤ n < 2 ^ 32 → aget digs 0 = Some (ch "0") →
  num_digits digs n base = Ok (reverse (numeral digs base n)).
Proof.
  intros Hb Hn H0. unfold num_digits, numeral. destruct (Z.eqb_spec n 0) as [->|Hne].
  - cbn [base_digits]. replace (0 <? base) with true by lia.
    assert (E : dig digs 0 = ch "0") by (unfold dig; by rewrite H0). cbn -[dig]. by rewrite E.
  - apply digits_loop_spec; [done|]. split; [lia|].
    assert (2 ^ 35 ≤ base ^ Z.of_nat 35); [|lia]. apply Z.pow_le_mono_l. lia.
Qed.

(** The text of a number: [sign] and [prefix] stay in front of zeros that fill up. *)
Definition num_layout (left zero : bool) (sign prefix ds : list Z) (width prec : Z) : list Z :=
  let zeros := replicate (Z.to_nat (prec - len ds)) (ch "0") in
  let fill := replicate (Z.to_nat (width - len sign - len prefix - Z.max prec (len ds))) in
  if left then sign ++ prefix ++ zeros ++ ds ++ fill (ch " ")
  else if zero then sign ++ prefix ++ fill (ch "0") ++ zeros ++ ds
  else fill (ch " ") ++ sign ++ prefix ++ zeros ++ ds.

Definition num_prefix (base flags : Z) : list Z :=
  if has flags FL_SPECIAL then
    if base =? 16 then [ch "0"; if has flags FL_SMALL then ch "x" else ch "X"]
    else if base =? 8 then [ch "0"] else []
  else [].

Definition num_text (number base width prec flags : Z) : list Z :=
  let (sign, num) := num_sign number flags in
  num_layout (has flags FL_LEFT_JUSTIFY) (has flags FL_ZEROPAD)
    (if sign =? 0 then [] else [sign]) (num_prefix base flags)
    (numeral (if has flags FL_SMALL then digs_small else DIGS) base num) (Z.abs width) prec.

Lemma has_either f a b : has f (Z.lor a b) = has f a || has f b.
Proof. unfold has. rewrite !(Z.land_comm f). apply (has_lor a b f). Qed.

Lemma justify_flags flags : (Z.land flags (FL_LEFT_JUSTIFY + FL_ZEROPAD) =? 0) =
  negb (has flags FL_LEFT_JUSTIFY) && negb (has flags FL_ZEROPAD).
Proof.
  change (FL_LEFT_JUSTIFY + FL_ZEROPAD) with (Z.lor FL_LEFT_JUSTIFY FL_ZEROPAD).
  rewrite <- negb_orb, <- has_either. unfold has. by rewrite negb_involutive.
Qed.

Lemma replicate_le {A} (x : A) n : n ≤ 0 → replicate (Z.to_nat n) x = [].
Proof. intros Hn. by replace (Z.to_nat n) with 0%nat by lia. Qed.

Lemma num_out_spec `{SK : Sink} sign base width prec flags digs ds x o :
  aget digs 33 = Some x →
  num_out sign (if has flags FL_ZEROPAD then ch "0" else ch " ") base
    (width - (if sign =? 0 then 0 else 1) - (if has flags FL_SPECIAL then
       if base =? 16 then 2 else if base =? 8 then 1 else 0 else 0) - Z.max prec (len ds))
    (Z.max prec (len ds)) flags digs (reverse ds) o =
  Ok (puts (num_layout (has flags FL_LEFT_JUSTIFY) (has flags FL_ZEROPAD)
    (if sign =? 0 then [] else [sign])
    (if has flags FL_SPECIAL then
       if base =? 16 then [ch "0"; x] else if base =? 8 then [ch "0"] else [] else []) ds width prec) o).
Proof.
  intros Hx. unfold num_out, num_layout. rewrite justify_flags, reverse_involutive, length_reverse, Hx.
  set (pre := if has flags FL_SPECIAL then _ else [] : list Z).
  assert (Hpre : (if has flags FL_SPECIAL then if base =? 16 then 2 else if base =? 8 then 1 else 0 else 0)
    = len pre) by (unfold pre; by destruct (has flags FL_SPECIAL), (base =? 16), (base =? 8)).
  rewrite Hpre. clear Hpre. set (sgn := if sign =? 0 then [] else [sign] : list Z).
  assert (Hsg : (if sign =? 0 then 0 else 1) = len sgn) by (unfold sgn; by destruct (sign =? 0)).
  assert (Esg : ∀ o, (if negb (sign =? 0) then putc sign o else o) = puts sgn o)
    by (intros o'; unfold sgn; by destruct (sign =? 0)).
  assert (Epre : ∀ o, (if has flags FL_SPECIAL then
      if base =? 8 then Ok (putc (ch "0") o)
      else if base =? 16 then let* x := deref (Some x) in Ok (putc x (putc (ch "0") o)) else Ok o
    else Ok o) = Ok (puts pre o)).
  { intros o'. unfold pre. destruct (has flags FL_SPECIAL); [|done].
    destruct (Z.eqb_spec base 8) as [->|]; [done|]. by destruct (base =? 16). }
  rewrite Hsg. clear Hsg. set (w := width - len sgn - len pre - Z.max prec (len ds)).
  assert (Hz : Z.to_nat (Z.max prec (len ds) - len ds) = Z.to_nat (prec - len ds)) by lia.
  unfold pad_while. destruct (has flags FL_LEFT_JUSTIFY); cbn [negb andb].
  - rewrite Esg, Epre. cbn [rbind]. rewrite <- !puts_app, Hz, <- ?app_assoc, Z.sub_0_r. done.
  - destruct (has flags FL_ZEROPAD); cbn [negb andb]; rewrite Esg, Epre; cbn [rbind];
      rewrite <- !puts_app, Hz, !Z.sub_0_r.
    + rewrite (replicate_le (ch " ")) by lia. by rewrite ?app_nil_r, <- ?app_assoc.
    + rewrite !(replicate_le _ (Z.min 0 w - 1)) by lia.
      rewrite (replicate_le _ (Z.min 0 (Z.min 0 w - 1) - 1)) by lia.
      by rewrite ?app_nil_r, <- ?app_assoc.
Qed.

(** [numstr] prints [num_text]. *)
Lemma num_str_spec `{SK : Sink} number base width prec flags o :
  base ∈ [8; 10; 16] → - 2 ^ 31 < width < 2 ^ 31 →
  num_str number base width prec flags o = Ok (puts (num_text number base width prec flags) o).
Proof.
  intros Hb Hw. unfold num_str, num_text. destruct (num_sign number flags) as [sign num] eqn:Es.
  set (digs := if has flags FL_SMALL then digs_small else DIGS).
  assert (Hnum : 0 ≤ num < 2 ^ 32).
  { unfold num_sign in Es. destruct (_ && _); injection Es as <- <-; by apply uint_range. }
  assert (Hbase : 1 < base ≤ len digs).
  { assert (len digs = 36) as -> by (unfold digs; by destruct (has flags FL_SMALL)).
    rewrite !elem_of_cons in Hb. destruct Hb as [->|[->|[->|Hb%not_elem_of_nil]]]; done || lia. }
  rewrite (num_digits_spec digs base num) by (done || by (unfold digs; destruct (has flags FL_SMALL))).
  cbn [rbind]. rewrite length_reverse. set (ds := numeral digs base num).
  replace (if width <? 0 then s32 (- width) else width) with (Z.abs width).
  2:{ destruct (Z.ltb_spec width 0); [rewrite sint_small by lia|]; lia. }
  replace (if prec <? len ds then len ds else prec) with (Z.max prec (len ds))
    by (destruct (Z.ltb_spec prec (len ds)); lia).
  pose proof (num_out_spec sign base (Z.abs width) prec flags digs ds
    (if has flags FL_SMALL then ch "x" else ch "X") o ltac:(unfold digs; by destruct (has flags FL_SMALL))) as E.
  unfold num_prefix. rewrite <- E. f_equal.
  destruct (sign =? 0), (has flags FL_SPECIAL), (base =? 16), (base =? 8); cbn [negb]; lia.
Qed.

(** ** The function ends *)

(** [r] is no lack of fuel, and a result satisfies [P]. *)
Definition sat {A} (r : res A) (P : A → Prop) : Prop :=
  match r with Ok a => P a | Fuel => False | _ => True end.

Lemma sat_bind {A B} (r : res A) (k : A → res B) P : sat r (λ a, sat (k a) P) → sat (rbind r k) P.
Proof. by destruct r. Qed.

Lemma sat_mono {A} (r : res A) (P Q : A → Prop) : sat r P → (∀ a, P a → Q a) → sat r Q.
Proof. destruct r; simpl; auto. Qed.

Lemma sat_deref {A} (o : option A) : sat (deref o) (λ _, True).
Proof. by destruct o. Qed.

Lemma strlen_loop_fuel fuel a r m : strlen_loop fuel a r m = Fuel →
  ∀ i, 0 ≤ i < Z.of_nat fuel → is_Some (m !! (a + i)).
Proof.
  revert a r. induction fuel as [|fuel IH]; intros a r H i Hi; [lia|]. cbn [strlen_loop] in H.
  unfold ld in H. destruct (m !! a) as [c|] eqn:Ec; [|done]. cbn [deref rbind] in H.
  destruct (c =? 0); [done|]. destruct (decide (i = 0)) as [->|Hne].
  - rewrite Z.add_0_r, Ec. by eexists.
  - replace (a + i) with (a + 1 + (i - 1)) by lia. apply (IH _ _ H). lia.
Qed.

(** In a finite memory every string ends, or leaves it. *)
Lemma strlen_ends p m : sat (strlen (S (size m)) p m) (λ _, True).
Proof.
  destruct (strlen (S (size m)) p m) eqn:E; try done. exfalso. unfold strlen in E.
  pose proof (strlen_loop_fuel _ _ _ _ E) as H.
  set (X := list_to_set (seqZ p (Z.of_nat (S (size m)))) : gset Z).
  assert (HX : X ⊆ dom m).
  { intros x Hx. apply elem_of_list_to_set, elem_of_seqZ in Hx. apply elem_of_dom.
    replace x with (p + (x - p)) by lia. apply H. lia. }
  apply subseteq_size in HX. rewrite size_dom in HX. unfold X in HX.
  rewrite size_list_to_set in HX by apply NoDup_seqZ. rewrite length_seqZ in HX. lia.
Qed.

Lemma strlen_loop_det n k a r x m : strlen_loop n a r m = Ok x → strlen_loop k a r m ≠ Fuel →
  strlen_loop k a r m = Ok x.
Proof.
  revert k a r. induction n as [|n IH]; intros k a r H Hk; [done|]. destruct k as [|k]; [done|].
  cbn [strlen_loop] in *. destruct (ld m a) as [c| | |]; try done. cbn [rbind] in *.
  destruct (c =? 0); [done|]. by apply IH.
Qed.

(** The fuel of [conv_string] is enough. *)
Lemma strlen_whole p cs m : cstr m p cs → strlen (S (size m)) p m = Ok (len cs).
Proof.
  intros H. pose proof (strlen_spec (S (length cs)) p cs m H ltac:(lia)) as E.
  pose proof (strlen_ends p m) as He. apply (strlen_loop_det (S (length cs))); [exact E|].
  unfold strlen in He. intros Hf. by rewrite Hf in He.
Qed.

(** The strings in [Str], by their addresses, can be read while [n] more characters are put. *)
Definition steady `{SK : Sink} (Str : Z → list Z → Prop) (n : nat) (o : sink) : Prop :=
  ∀ cs p x, (length cs ≤ n)%nat → Str p x → cstr (smem (puts cs o)) p x.

Lemma steady_puts `{SK : Sink} Str n cs o : steady Str (length cs + n) o → steady Str n (puts cs o).
Proof. intros H ds p x Hd Hx. rewrite <- puts_app. apply H; [rewrite length_app; lia|done]. Qed.

Lemma steady_le `{SK : Sink} Str n k o : steady Str n o → (k ≤ n)%nat → steady Str k o.
Proof. intros H Hk cs p x Hc. apply H. lia. Qed.

Lemma steady_cstr `{SK : Sink} Str n o p x : steady Str n o → Str p x → cstr (smem o) p x.
Proof. intros H Hx. apply (H []); [simpl; lia|done]. Qed.

Lemma emit_chars_spec `{SK : Sink} Str p cs : Str p cs → ∀ n o, steady Str n o → (n ≤ length cs)%nat →
  emit_chars n p o = Ok (puts (take n cs) o).
Proof.
  intros Hcs n o Hk Hn.
  assert (H : ∀ k j, (j + k = n)%nat → emit_chars k (p + Z.of_nat j) (puts (take j cs) o) = Ok (puts (take n cs) o)).
  { induction k as [|k IH]; intros j Hj; [simpl; do 3 f_equal; lia|]. cbn [emit_chars].
    destruct (lookup_lt_is_Some_2 cs j) as [c Hc]; [lia|].
    assert (Hs : cstr (smem (puts (take j cs) o)) p cs) by (apply Hk; [rewrite length_take; lia|done]).
    apply cstr_bytes in Hs as [Hs _].
    destruct (bytes_at_lookup _ _ _ j c Hs) as [Hl _]; [by apply lookup_app_l_Some|].
    unfold ld. rewrite Hl. cbn [deref rbind].
    replace (p + Z.of_nat j + 1) with (p + Z.of_nat (S j)) by lia.
    rewrite <- (IH (S j)) by lia. f_equal. by rewrite (take_S_r _ _ c), puts_app. }
  specialize (H n 0%nat). rewrite Z.add_0_r in H. by apply H.
Qed.

Section ends.
Context {SK : Sink} (special : Z → pst → option (res pst)).

Lemma num_str_ends number base width prec flags o : base ∈ [8; 10; 16] →
  sat (num_str number base width prec flags o) (λ _, True).
Proof.
  intros Hb. unfold num_str. destruct (num_sign number flags) as [sign num] eqn:Es.
  assert (Hnum : 0 ≤ num < 2 ^ 32).
  { unfold num_sign in Es. destruct (_ && _); injection Es as <- <-; by apply uint_range. }
  rewrite num_digits_spec; [|rewrite !elem_of_cons in Hb|done|by destruct (has flags FL_SMALL)].
  2:{ destruct Hb as [->|[->|[->|Hb%not_elem_of_nil]]], (has flags FL_SMALL); done || lia. }
  cbn [rbind]. unfold num_out. repeat case_match; done.
Qed.

(** What a conversion may do: take arguments, print and store. *)
Definition same_fmt (s s' : pst) : Prop := p_fmt s' = p_fmt s.

Lemma va_word_fmt s : sat (va_word s) (λ x, same_fmt s x.2).
Proof. unfold va_word. by destruct (p_args s). Qed.

Lemma conv_number_ends base s : base ∈ [8; 10; 16] → sat (conv_number base s) (same_fmt s).
Proof.
  intros Hb. unfold conv_number, va_number. apply sat_bind, sat_bind.
  eapply sat_mono; [apply va_word_fmt|]. intros [w s1] Hs. cbn [fst snd] in Hs |- *.
  apply sat_bind. eapply sat_mono; [by apply num_str_ends|]. by intros o _.
Qed.

Lemma conv_char_ends s : sat (conv_char s) (same_fmt s).
Proof.
  unfold conv_char. destruct (if negb (has (p_flags s) FL_LEFT_JUSTIFY) then _ else _) as [w o].
  apply sat_bind. eapply sat_mono; [apply va_word_fmt|]. intros [c s1] Hs. exact Hs.
Qed.

Lemma emit_chars_ends n p o : sat (emit_chars n p o) (λ _, True).
Proof.
  revert p o. induction n as [|n IH]; intros p o; [done|]. cbn [emit_chars]. apply sat_bind. unfold ld.
  eapply sat_mono; [apply sat_deref|]. intros c _. apply IH.
Qed.

Lemma conv_string_ends s : sat (conv_string s) (same_fmt s).
Proof.
  unfold conv_string. apply sat_bind. eapply sat_mono; [apply va_word_fmt|]. intros [p s1] Hs.
  cbn [fst snd] in Hs |- *. destruct (p =? 0); [done|]. apply sat_bind.
  eapply sat_mono; [apply strlen_ends|]. intros slen _. cbv beta.
  repeat (let E := fresh in match goal with |- context [let (_, _) := ?x in _] => destruct x as [? ?] eqn:E end).
  apply sat_bind. eapply sat_mono; [apply emit_chars_ends|]. done.
Qed.

Hypothesis special_ends : ∀ c s r, special c s = Some r → sat r (same_fmt s).

Lemma convert_ends s : sat (convert special s) (same_fmt s).
Proof using special_ends.
  unfold convert.
  repeat match goal with |- sat (if ?b then _ else _) _ => destruct b end;
    try (apply (conv_number_ends _ (add_flag _ s)) || apply conv_number_ends); try set_solver;
    [apply conv_char_ends|apply conv_string_ends|].
  destruct (special (fmt_char s) s) as [r|] eqn:E; [|done]. by apply (special_ends _ _ _ E).
Qed.

Definition shorter (s s' : pst) : Prop := (length (p_fmt s') < length (p_fmt s))%nat.

Lemma fmt_next_ends s : sat (fmt_next s) (λ s', shorter s s' ∧ p_state s' = p_state s).
Proof. unfold fmt_next, shorter. destruct (p_fmt s) eqn:E; [done|]. split; [simpl; lia|done]. Qed.

Lemma case5_ends s : sat (case5 special s) (λ s', shorter s s' ∧ p_state s' = 6).
Proof using special_ends.
  unfold case5. apply sat_bind. eapply sat_mono; [apply convert_ends|]. intros s1 H1.
  apply sat_bind. eapply sat_mono; [apply fmt_next_ends|]. intros s2 [H2 _].
  split; [|done]. unfold shorter, same_fmt in *. simpl. by rewrite <- H1.
Qed.

Lemma case4_ends s : sat (case4 special s) (λ s', shorter s s' ∧ p_state s' = 6).
Proof using special_ends.
  unfold case4. apply sat_bind.
  assert (H : sat (if fmt_char s =? ch "l" then fmt_next (with_len 1 s)
    else if fmt_char s =? ch "h" then fmt_next (with_len (-1) s) else Ok s)
    (λ s1, (length (p_fmt s1) ≤ length (p_fmt s))%nat)).
  { destruct (fmt_char s =? ch "l"); [|destruct (fmt_char s =? ch "h"); [|simpl; lia]];
      (eapply sat_mono; [apply fmt_next_ends|]; unfold shorter; simpl; intros s1 [H1 _]; lia). }
  eapply sat_mono; [exact H|]. intros s1 H1. eapply sat_mono; [apply case5_ends|].
  intros s2 [H2 ?]. split; [|done]. unfold shorter in *. simpl in *. lia.
Qed.

Lemma atoi_loop_length i fmt : (length (atoi_loop i fmt).2 ≤ length fmt)%nat.
Proof.
  revert i. induction fmt as [|c fmt IH]; intros i; cbn [atoi_loop]; [done|].
  destruct (negb _); [|done]. simpl. specialize (IH (s32 (i * 10 + c - ch "0"))). lia.
Qed.

Lemma read_number_ends d s : sat (read_number d s) (λ x, (length (p_fmt x.2) ≤ length (p_fmt s))%nat).
Proof.
  unfold read_number. destruct (negb _); [|destruct (_ =? _); [|simpl; lia]].
  - unfold atoi_ptr. pose proof (atoi_loop_length 0 (p_fmt s)). by destruct (atoi_loop 0 (p_fmt s)).
  - apply sat_bind. eapply sat_mono; [apply va_word_fmt|]. intros [w s1] H1. cbn [fst snd] in *.
    apply sat_bind. eapply sat_mono; [apply fmt_next_ends|]. intros s2 [H2 _].
    unfold shorter, same_fmt in *. rewrite H1 in H2. simpl. lia.
Qed.

(** The next state, without a character only 4. *)
Definition goes_on (s s' : pst) : Prop :=
  (shorter s s' ∧ 0 ≤ p_state s' ≤ 6) ∨ ((length (p_fmt s') ≤ length (p_fmt s))%nat ∧ p_state s' = 4).

Lemma case3_ends s : sat (case3 special s) (goes_on s).
Proof using special_ends.
  unfold case3. destruct (_ =? _); [|right; by split]. apply sat_bind.
  eapply sat_mono; [apply fmt_next_ends|]. intros s1 [H1 _]. apply sat_bind.
  eapply sat_mono; [apply read_number_ends|]. intros [x s2] H2. cbn [fst snd] in *.
  eapply sat_mono; [apply case4_ends|]. intros s3 [H3 E3]. left. unfold shorter in *. simpl in *. lia.
Qed.

Lemma case2_ends s : sat (case2 special s) (goes_on s).
Proof using special_ends.
  unfold case2. apply sat_bind. eapply sat_mono; [apply read_number_ends|]. intros [x s1] H1.
  cbn [fst snd] in *. eapply sat_mono; [apply case3_ends|]. intros s2 H2.
  unfold goes_on, shorter in *. simpl in *. lia.
Qed.

Lemma case1_ends s : 0 ≤ p_state s ≤ 6 → sat (case1 special s) (goes_on s).
Proof using special_ends.
  intros Hs. unfold case1. destruct (_ =? _).
  { apply sat_bind. eapply sat_mono; [apply fmt_next_ends|]. intros s1 [H1 _]. left.
    split; [exact H1|simpl; lia]. }
  destruct (flag_of _) as [f|].
  2:{ eapply sat_mono; [apply case2_ends|]. intros s1 H1. exact H1. }
  eapply sat_mono; [apply fmt_next_ends|]. intros s1 [H1 E1]. left. split; [exact H1|]. rewrite E1. exact Hs.
Qed.

(** A turn takes a character, or goes to a state that does. *)
Definition rank (s : pst) : nat := if (p_state s =? 0) || (p_state s =? 4) || (p_state s =? 5) then 0 else 1.
Definition work (s : pst) : nat := 2 * length (p_fmt s) + rank s.

Lemma rank_le s : (rank s ≤ 1)%nat.
Proof. unfold rank. case_match; lia. Qed.

Lemma turn_ends s : 0 ≤ p_state s ≤ 6 →
  sat (turn special s) (λ s', 0 ≤ p_state s' ≤ 6 ∧ (p_fmt s ≠ [] → (work s' < work s)%nat)).
Proof using special_ends.
  intros Hs. unfold turn.
  assert (Hgo : ∀ s', goes_on s s' → p_state s ∈ [1; 2; 3] →
    0 ≤ p_state s' ≤ 6 ∧ (p_fmt s ≠ [] → (work s' < work s)%nat)).
  { intros s' [[H1 H2]|[H1 H2]] Hin.
    - split; [done|]. intros _. unfold work, shorter in *. pose proof (rank_le s').
      lia.
    - split; [lia|]. intros _. unfold work. assert (rank s' = 0%nat) as -> by (unfold rank; by rewrite H2).
      assert (rank s = 1%nat) as -> by (unfold rank; rewrite !elem_of_cons in Hin;
        destruct Hin as [->|[->|[->|?%not_elem_of_nil]]]; done). lia. }
  assert (Hsh : ∀ s', shorter s s' → 0 ≤ p_state s' ≤ 6 →
    0 ≤ p_state s' ≤ 6 ∧ (p_fmt s ≠ [] → (work s' < work s)%nat)).
  { intros s' H1 H2. split; [done|]. intros _. unfold work, shorter in *.
    pose proof (rank_le s'). lia. }
  destruct (Z.eqb_spec (p_state s) 0) as [E|N0].
  { unfold case0. destruct (negb _).
    - eapply sat_mono; [apply fmt_next_ends|]. intros s' [H1 H2]. apply Hsh; [exact H1|]. rewrite H2. exact Hs.
    - apply sat_bind. eapply sat_mono; [apply fmt_next_ends|]. intros s1 [H1 _].
      eapply sat_mono; [apply case1_ends; simpl; lia|]. intros s' [[H2 H3]|[H2 H3]];
        (apply Hsh; [unfold shorter in *; simpl in *; lia|lia]). }
  destruct (Z.eqb_spec (p_state s) 1) as [E|N1].
  { eapply sat_mono; [by apply case1_ends|]. intros s' H. apply Hgo; [done|]. rewrite E. set_solver. }
  destruct (Z.eqb_spec (p_state s) 2) as [E|N2].
  { eapply sat_mono; [apply case2_ends|]. intros s' H. apply Hgo; [done|]. rewrite E. set_solver. }
  destruct (Z.eqb_spec (p_state s) 3) as [E|N3].
  { eapply sat_mono; [apply case3_ends|]. intros s' H. apply Hgo; [done|]. rewrite E. set_solver. }
  destruct (Z.eqb_spec (p_state s) 4) as [E|N4].
  { eapply sat_mono; [apply case4_ends|]. intros s' [H H']. apply Hsh; [done|lia]. }
  destruct (Z.eqb_spec (p_state s) 5) as [E|N5].
  { eapply sat_mono; [apply case5_ends|]. intros s' [H H']. apply Hsh; [done|lia]. }
  replace (p_state s =? 6) with true by lia. split; [simpl; lia|]. intros _. unfold work. simpl.
  unfold rank. replace (p_state s) with 6 by lia. simpl. lia.
Qed.

Lemma run_ends fuel s : 0 ≤ p_state s ≤ 6 → (work s < fuel)%nat → sat (run special fuel s) (λ _, True).
Proof using special_ends.
  revert s. induction fuel as [|fuel IH]; intros s Hs Hf; [lia|]. cbn [run].
  destruct (p_fmt s) eqn:E; [done|]. apply sat_bind. eapply sat_mono; [by apply turn_ends|].
  intros s' [H1 H2]. apply IH; [done|]. rewrite E in H2. specialize (H2 ltac:(done)). lia.
Qed.

Lemma run_start_ends fmt args o : sat (run special (turns fmt) (start fmt args o)) (λ _, True).
Proof using special_ends. apply run_ends; [simpl; lia|]. unfold work, turns, rank. simpl. lia. Qed.
End ends.

(** ** Formats as lists of directives *)

(** A width or a precision: a number, or the next [int]. *)
Inductive amount := Num (n : Z) | Star.

Record directive := Dir {
  dr_flags : list Z; dr_width : option amount; dr_prec : option amount; dr_len : option Z; dr_conv : Z
}.

Inductive piece := Lit (c : Z) | Percent | Conv (d : directive).

Definition decimal (n : Z) : list Z := (λ v, ch "0" + v) <$> base_digits 35 10 n.

Definition show_amount (x : amount) : list Z := match x with Num n => decimal n | Star => [ch "*"] end.

(** The text of a directive behind its flags. *)
Definition show_rest (d : directive) : list Z :=
  default [] (show_amount <$> dr_width d) ++
  match dr_prec d with None => [] | Some x => ch "." :: show_amount x end ++
  default [] ((λ c, [c]) <$> dr_len d) ++ [dr_conv d].

Definition show_piece (x : piece) : list Z :=
  match x with
  | Lit c => [c]
  | Percent => [ch "%"; ch "%"]
  | Conv d => ch "%" :: dr_flags d ++ show_rest d
  end.

Definition show (ps : list piece) : list Z := ps ≫= show_piece.

Definition CONVS : list Z := codes "diuoxXcs".

Definition amount_ok (lo : Z) (x : amount) : Prop := match x with Num n => lo ≤ n < 2 ^ 31 | Star => True end.

Definition directive_ok (d : directive) : Prop :=
  Forall (λ c, is_Some (flag_of c)) (dr_flags d) ∧ from_option (amount_ok 1) True (dr_width d) ∧
  from_option (amount_ok 0) True (dr_prec d) ∧ from_option (λ c, c ∈ codes "lh") True (dr_len d) ∧
  dr_conv d ∈ CONVS.

Definition piece_ok (x : piece) : Prop :=
  match x with Lit c => c ≠ ch "%" | Percent => True | Conv d => directive_ok d end.

#[export] Instance from_option_dec {A} (P : A → Prop) `{∀ a, Decision (P a)} (o : option A) :
  Decision (from_option P True o).
Proof. destruct o; apply _. Defined.

#[export] Instance amount_ok_dec lo x : Decision (amount_ok lo x).
Proof. destruct x; apply _. Defined.

#[export] Instance piece_ok_dec x : Decision (piece_ok x).
Proof. destruct x; unfold piece_ok, directive_ok; apply _. Defined.

(** ** What they mean *)
Definition all_flags (cs : list Z) : Z :=
  foldl (λ f c, Z.lor f (default 0 (flag_of c))) 0 cs.

Definition take_amount (x : option amount) (args : list Z) : option (Z * list Z) :=
  match x with
  | None => Some (-1, args)
  | Some (Num n) => Some (n, args)
  | Some Star => match args with [] => None | w :: args => Some (s32 w, args) end
  end.

Definition len_of (x : option Z) : Z :=
  match x with None => 0 | Some c => if c =? ch "l" then 1 else -1 end.

(** A text of which at most [prec] characters amount, in a field. *)
Definition in_field (left : bool) (width : Z) (cs : list Z) : list Z :=
  let fill := replicate (Z.to_nat (width - len cs)) (ch " ") in
  if left then cs ++ fill else fill ++ cs.

Definition str_text (left : bool) (width prec : Z) (cs : list Z) : list Z :=
  in_field left width (if prec <? 0 then cs else take (Z.to_nat prec) cs).

(** The number [n] as [num_text] says, but for 0 with the precision 0, which is to print no
    character, and for which the code prints one (see [Printf.precision_zero]). *)
Definition int_text (n base width prec flags : Z) (out : list Z) : Prop :=
  ¬ (n = 0 ∧ prec = 0) ∧ out = num_text n base width prec flags.

Section meaning.
(** The strings that can be read: their addresses, and their characters. *)
Context (Str : Z → list Z → Prop).

(** The conversion [c] of the argument [w]. *)
Definition conv_text (c flags width prec ln w : Z) (out : list Z) : Prop :=
  let n := if ln =? -1 then s16 w else s32 w in
  let left := has flags FL_LEFT_JUSTIFY in
  if (c =? ch "d") || (c =? ch "i") then int_text n 10 width prec (Z.lor flags FL_SIGN) out
  else if c =? ch "u" then int_text n 10 width prec flags out
  else if c =? ch "o" then int_text n 8 width prec flags out
  else if c =? ch "x" then int_text n 16 width prec (Z.lor flags FL_SMALL) out
  else if c =? ch "X" then int_text n 16 width prec flags out
  else if c =? ch "c" then out = in_field left width [u8 w]
  else if w =? 0 then out = []
  else ∃ cs, Str w cs ∧ out = str_text left width prec cs.

(** The pieces with the arguments print [out] and leave [rest]. *)
Inductive prints : list piece → list Z → list Z → list Z → Prop :=
  | prints_nil args : prints [] args [] args
  | prints_lit c ps args out rest :
      prints ps args out rest → prints (Lit c :: ps) args (c :: out) rest
  | prints_percent ps args out rest :
      prints ps args out rest → prints (Percent :: ps) args (ch "%" :: out) rest
  | prints_conv d ps args width args1 prec args2 w args3 o1 out rest :
      take_amount (dr_width d) args = Some (width, args1) → - 2 ^ 31 < width →
      take_amount (dr_prec d) args1 = Some (prec, args2) → args2 = w :: args3 →
      conv_text (dr_conv d) (settle (all_flags (dr_flags d))) width prec (len_of (dr_len d)) w o1 →
      prints ps args3 out rest → prints (Conv d :: ps) args (o1 ++ out) rest.
End meaning.

Lemma prints_mono (S T : Z → list Z → Prop) ps args out rest : (∀ p cs, S p cs → T p cs) →
  prints S ps args out rest → prints T ps args out rest.
Proof.
  intros HST H. induction H as [| | |d ps args width args1 prec args2 w args3 o1 out rest Hw Hwr Hp Ha Hc _ IH];
    [by constructor..|].
  eapply prints_conv; try done. unfold conv_text in *. repeat case_match; try done.
  destruct Hc as (cs & Hcs & ->). eauto.
Qed.

(** ** Numbers in the format *)
Lemma foldl_value_le vs i : 0 ≤ i → Forall (λ v, 0 ≤ v < 10) vs → i ≤ foldl (λ a v, a * 10 + v) i vs.
Proof.
  intros Hi H. revert i Hi. induction H as [|v vs Hv H IH]; intros i Hi; simpl; [lia|].
  specialize (IH (i * 10 + v) ltac:(lia)). lia.
Qed.

Lemma isdigit_code v : 0 ≤ v < 10 → isdigit (ch "0" + v) = 1.
Proof.
  intros Hv. unfold isdigit, b2i. change (ch "0") with 48. change (ch "9") with 57.
  by replace ((48 <=? 48 + v) && (48 + v <=? 57)) with true by lia.
Qed.

Lemma atoi_loop_digits vs i rest : 0 ≤ i → Forall (λ v, 0 ≤ v < 10) vs →
  foldl (λ a v, a * 10 + v) i vs < 2 ^ 31 → isdigit (default 0 (head rest)) = 0 →
  atoi_loop i (((λ v, ch "0" + v) <$> vs) ++ rest) = (foldl (λ a v, a * 10 + v) i vs, rest).
Proof.
  intros Hi H. revert i Hi. induction H as [|v vs Hv H IH]; intros i Hi Hlt Hr.
  - simpl. destruct rest as [|c rest]; [done|]. simpl in Hr |- *. by rewrite Hr.
  - simpl in Hlt. cbn [fmap list_fmap app atoi_loop]. rewrite isdigit_code by done. cbn [negb Z.eqb].
    pose proof (foldl_value_le vs (i * 10 + v) ltac:(lia) H) as Hle.
    replace (i * 10 + (ch "0" + v) - ch "0") with (i * 10 + v) by lia.
    rewrite sint_small by lia. apply IH; done || lia.
Qed.

Lemma atoi_decimal n rest : 0 ≤ n < 2 ^ 31 → isdigit (default 0 (head rest)) = 0 →
  atoi_loop 0 (decimal n ++ rest) = (n, rest).
Proof.
  intros Hn Hr. assert (E : value 10 (base_digits 35 10 n) = n) by (apply base_digits_value; lia).
  unfold decimal. rewrite atoi_loop_digits; [unfold value in E; by rewrite E|lia|by apply base_digits_range; lia| |done].
  unfold value in E. rewrite E. lia.
Qed.

Lemma decimal_head n : 0 ≤ n < 2 ^ 31 → ∃ v vs, decimal n = (ch "0" + v) :: vs ∧ 0 ≤ v < 10 ∧ (0 < n → 0 < v).
Proof.
  intros Hn. unfold decimal. destruct (decide (n = 0)) as [->|Hne].
  - exists 0, []. split; [done|lia].
  - destruct (base_digits_head 35 10 n) as (v & vs & E & Hv); [done|lia|]. rewrite E.
    exists v, ((λ v, ch "0" + v) <$> vs). split; [done|].
    pose proof (base_digits_range 35 10 n ltac:(lia) ltac:(lia)) as H. rewrite E in H.
    apply list.Forall_cons in H as [H _]. lia.
Qed.

(** ** The machine follows the pieces *)
Section parse.
Context {SK : Sink} (special : Z → pst → option (res pst)) (Str : Z → list Z → Prop).

Definition reaches : pst → pst → Prop := rtc (λ a b, p_fmt a ≠ [] ∧ turn special a = Ok b).

Lemma reaches_trans s1 s2 s3 : reaches s1 s2 → reaches s2 s3 → reaches s1 s3.
Proof. intros H. by transitivity s2. Qed.

Lemma reaches_run s s' : reaches s s' → p_fmt s' = [] → ∃ n, run special n s = Ok s'.
Proof.
  induction 1 as [s|s s1 s' [Hne Ht] _ IH]; intros Hf.
  - exists 1%nat. cbn [run]. by rewrite Hf.
  - destruct (IH Hf) as [n Hn]. exists (S n). cbn [run]. destruct (p_fmt s) eqn:E; [done|].
    by rewrite Ht.
Qed.

Lemma run_det n k s r : run special n s = Ok r → run special k s ≠ Fuel → run special k s = Ok r.
Proof.
  revert k s. induction n as [|n IH]; intros k s Hn Hk; [done|]. destruct k as [|k]; [done|].
  cbn [run] in *. destruct (p_fmt s); [done|]. destruct (turn special s) as [s1| | |]; try done.
  by apply IH.
Qed.

Lemma read_number_show x d s rest v args : amount_ok 0 x → p_fmt s = show_amount x ++ rest →
  isdigit (default 0 (head rest)) = 0 → take_amount (Some x) (p_args s) = Some (v, args) →
  read_number d s = Ok (v, with_args args (with_fmt rest s)).
Proof.
  intros Hx Hf Hr Ht. unfold read_number, fmt_char. rewrite Hf. destruct x as [n|]; simpl in Ht.
  - injection Ht as <- <-. cbn [show_amount amount_ok] in *.
    destruct (decimal_head n Hx) as (c & vs & E & Hc & _). rewrite E. cbn [app head default].
    unfold id. rewrite isdigit_code by done. cbn [negb Z.eqb]. unfold atoi_ptr. rewrite Hf.
    cbn [show_amount]. rewrite atoi_decimal by done. by destruct s.
  - destruct (p_args s) as [|w l] eqn:Ea; [done|]. injection Ht as <- <-. cbn.
    unfold va_word. rewrite Ea. cbn [rbind]. unfold fmt_next. simpl. by rewrite Hf.
Qed.

Lemma read_number_none d s : isdigit (fmt_char s) = 0 → fmt_char s ≠ ch "*" → read_number d s = Ok (d, s).
Proof. intros H1 H2. unfold read_number. rewrite H1. cbn [Z.eqb negb]. by replace (_ =? _) with false by lia. Qed.

(** The characters that can stand behind a number. *)
Definition ends_number (c : Z) : Prop := isdigit c = 0 ∧ c ≠ ch "*" ∧ c ≠ ch "%" ∧ flag_of c = None.

Lemma convs_ok c : c ∈ CONVS → ends_number c ∧ c ≠ ch "." ∧ c ≠ ch "l" ∧ c ≠ ch "h".
Proof.
  intros H. assert (Hall : Forall (λ c, ends_number c ∧ c ≠ ch "." ∧ c ≠ ch "l" ∧ c ≠ ch "h") CONVS).
  { unfold ends_number. vm_compute CONVS. repeat (constructor; [vm_compute; by split_and!|]). constructor. }
  rewrite list.Forall_forall in Hall. by apply Hall.
Qed.

(** The end of a directive. *)
Definition show_conv (d : directive) : list Z := default [] ((λ c, [c]) <$> dr_len d) ++ [dr_conv d].

Lemma show_conv_head d rest : directive_ok d →
  ends_number (default 0 (head (show_conv d ++ rest))) ∧ default 0 (head (show_conv d ++ rest)) ≠ ch ".".
Proof.
  intros (_ & _ & _ & Hl & Hc). unfold show_conv. destruct (dr_len d) as [c|]; simpl in *.
  - change (codes "lh") with [ch "l"; ch "h"] in Hl. rewrite !elem_of_cons in Hl. unfold ends_number. destruct Hl as [->|[->|?%not_elem_of_nil]]; by split_and!.
  - apply convs_ok in Hc. tauto.
Qed.

(** What [convert] does with the argument. *)
Lemma convert_prints c w args o1 s : p_args s = w :: args → fmt_char s = c → c ∈ CONVS →
  - 2 ^ 31 < p_width s < 2 ^ 31 → steady Str (length o1) (p_out s) →
  conv_text Str c (p_flags s) (p_width s) (p_prec s) (p_len s) w o1 →
  ∃ s', convert special s = Ok s' ∧ p_fmt s' = p_fmt s ∧ p_args s' = args ∧
    p_out s' = puts o1 (p_out s).
Proof.
  intros Ha Hc Hin Hw Hk H.
  assert (Hnum : ∀ base fl, base ∈ [8; 10; 16] → ∃ s', conv_number base (with_flags fl s) = Ok s' ∧
    p_fmt s' = p_fmt s ∧ p_args s' = args ∧
    p_out s' = puts (num_text (if p_len s =? -1 then s16 w else s32 w) base (p_width s) (p_prec s) fl) (p_out s)).
  { intros base fl Hb. unfold conv_number, va_number, va_word. simpl. rewrite Ha. simpl.
    rewrite num_str_spec by done. simpl. eexists. split; [done|]. by destruct s. }
  assert (Hs : with_flags (p_flags s) s = s) by by destruct s.
  assert (Hnum0 : ∀ base, base ∈ [8; 10; 16] → ∃ s', conv_number base s = Ok s' ∧
    p_fmt s' = p_fmt s ∧ p_args s' = args ∧
    p_out s' = puts (num_text (if p_len s =? -1 then s16 w else s32 w) base (p_width s) (p_prec s) (p_flags s)) (p_out s)).
  { intros base Hb. pose proof (Hnum base (p_flags s) Hb) as Hn. rewrite Hs in Hn. exact Hn. }
  unfold convert, conv_text in *. rewrite Hc.
  destruct ((c =? ch "d") || (c =? ch "i")) eqn:E1; [destruct H as [_ ->]; apply Hnum; set_solver|].
  destruct (c =? ch "u") eqn:E2; [destruct H as [_ ->]; apply Hnum0; set_solver|].
  destruct (c =? ch "o") eqn:E3; [destruct H as [_ ->]; apply Hnum0; set_solver|].
  destruct (c =? ch "x") eqn:E4; [destruct H as [_ ->]; apply Hnum; set_solver|].
  destruct (c =? ch "X") eqn:E5; [destruct H as [_ ->]; apply Hnum0; set_solver|].
  clear Hnum Hnum0 Hs. destruct (c =? ch "c") eqn:E6.
  - subst o1. unfold conv_char, va_word, pad_pre, in_field. cbn [length].
    destruct (has (p_flags s) FL_LEFT_JUSTIFY); cbn [negb]; rewrite Ha; cbn [rbind];
      (eexists; split; [done|]); (split; [done|]); (split; [done|]); simpl.
    + done.
    + rewrite puts_app. simpl. rewrite (replicate_le _ (Z.min 1 (p_width s) - 1 - 1)) by lia. done.
  - assert (Ecs : c =? ch "s" = true).
    { revert Hin E1 E2 E3 E4 E5 E6. change CONVS with ([ch "d"; ch "i"; ch "u"; ch "o"; ch "x"; ch "X"; ch "c"; ch "s"]).
      cbn [fmap list_fmap]. rewrite !elem_of_cons.
      intros [->|[->|[->|[->|[->|[->|[->|[->|?%not_elem_of_nil]]]]]]]]; done. }
    rewrite Ecs. unfold conv_string, va_word. rewrite Ha. cbn [rbind].
    destruct (w =? 0) eqn:Ew.
    { subst o1. eexists. split; [done|]. by destruct s. }
    destruct H as (cs & Hcs & ->). cbn [p_out with_args].
    rewrite (strlen_whole _ cs) by (by eapply steady_cstr). cbn [rbind].
    change (p_prec (with_args args s)) with (p_prec s). change (p_width (with_args args s)) with (p_width s).
    change (p_flags (with_args args s)) with (p_flags s). change (p_out (with_args args s)) with (p_out s).
    set (t := if p_prec s <? 0 then cs else take (Z.to_nat (p_prec s)) cs).
    assert (Ht : ∃ k, t = take k cs ∧ (k ≤ length cs)%nat ∧ len t = Z.of_nat k ∧
      (if p_prec s <? 0 then (len cs, len cs) else (p_prec s, if p_prec s <? len cs then p_prec s else len cs))
      = (if p_prec s <? 0 then len cs else p_prec s, Z.of_nat k)).
    { unfold t. destruct (Z.ltb_spec (p_prec s) 0).
      - exists (length cs). by rewrite take_ge.
      - exists (Z.to_nat (p_prec s) `min` length cs)%nat. rewrite length_take.
        split; [|split; [lia|split; [lia|]]].
        + destruct (Z.ltb_spec (p_prec s) (len cs)); [by rewrite Nat.min_l by lia|].
          rewrite Nat.min_r by lia. by rewrite !take_ge by lia.
        + destruct (Z.ltb_spec (p_prec s) (len cs)); f_equal; lia. }
    destruct Ht as (k & Et & Hkl & El & ->). rename Hk into Hst.
    unfold str_text, in_field in *. fold t. fold t in Hst. rewrite El in *. clearbody t. subst t.
    unfold pad_while. destruct (has (p_flags s) FL_LEFT_JUSTIFY); cbn [negb]; rewrite Nat2Z.id.
    + rewrite (emit_chars_spec Str w cs Hcs k) by (done || (eapply steady_le; [exact Hst|]; rewrite length_app, length_take; lia)).
      cbn [rbind]. eexists. split; [done|]. split; [done|]. split; [done|]. simpl. by rewrite puts_app.
    + rewrite (emit_chars_spec Str w cs Hcs k) by (done || (apply steady_puts; eapply steady_le; [exact Hst|];
        rewrite !length_app, length_take; lia)).
      cbn [rbind]. eexists. split; [done|]. split; [done|]. split; [done|]. simpl.
      rewrite puts_app. by rewrite (replicate_le _ (Z.min (Z.of_nat k) (p_width s) - 1 - Z.of_nat k)) by lia.
Qed.

(** Behind a directive: [rest] is left, [o1] was printed. *)
Definition printed (s : pst) (rest args o1 : list Z) (s' : pst) : Prop :=
  p_state s' = 6 ∧ p_fmt s' = rest ∧ p_args s' = args ∧ p_out s' = puts o1 (p_out s).

Lemma case4_prints d s rest w args o1 : directive_ok d → p_fmt s = show_conv d ++ rest → p_len s = 0 →
  p_args s = w :: args → - 2 ^ 31 < p_width s < 2 ^ 31 →
  steady Str (length o1) (p_out s) →
  conv_text Str (dr_conv d) (p_flags s) (p_width s) (p_prec s) (len_of (dr_len d)) w o1 →
  ∃ s', case4 special s = Ok s' ∧ printed s rest args o1 s'.
Proof.
  intros (_ & _ & _ & Hl & Hc) Hf Hln Ha Hw Hk H. pose proof (convs_ok _ Hc) as (_ & _ & Nl & Nh).
  assert (Hgo : ∀ s1, p_fmt s1 = dr_conv d :: rest → p_args s1 = w :: args →
    p_flags s1 = p_flags s → p_width s1 = p_width s → p_prec s1 = p_prec s → p_out s1 = p_out s →
    p_len s1 = len_of (dr_len d) → ∃ s', case5 special s1 = Ok s' ∧ printed s rest args o1 s').
  { intros s1 F1 F2 F4 F5 F6 F7 F8.
    destruct (convert_prints (dr_conv d) w args o1 s1) as (s2 & E2 & G1 & G2 & G4); try done.
    { unfold fmt_char. by rewrite F1. } { by rewrite F5. } { by rewrite F7. } { by rewrite F4, F5, F6, F8. }
    unfold case5. rewrite E2. cbn [rbind]. unfold fmt_next. rewrite G1, F1. cbn [rbind].
    eexists. split; [done|]. split; [done|]. split; [done|]. split; [done|].
    simpl. by rewrite G4, F7. }
  unfold show_conv in Hf. unfold case4, fmt_char. rewrite Hf. destruct (dr_len d) as [c|] eqn:El; simpl in Hl, Hf |- *.
  - change (codes "lh") with [ch "l"; ch "h"] in Hl. rewrite !elem_of_cons in Hl.
    unfold fmt_next. simpl. rewrite Hf.
    destruct Hl as [->|[->|?%not_elem_of_nil]]; cbn [Z.eqb Pos.eqb rbind]; [by apply Hgo|by apply Hgo|done].
  - replace (dr_conv d =? ch "l") with false by lia. replace (dr_conv d =? ch "h") with false by lia.
    cbn [rbind]. by apply Hgo.
Qed.

Lemma case2_prints d s rest width args1 prec args2 w args3 o1 : directive_ok d →
  p_fmt s = show_rest d ++ rest → p_width s = -1 → p_prec s = -1 → p_len s = 0 →
  take_amount (dr_width d) (p_args s) = Some (width, args1) → - 2 ^ 31 < width →
  take_amount (dr_prec d) args1 = Some (prec, args2) → args2 = w :: args3 →
  steady Str (length o1) (p_out s) →
  conv_text Str (dr_conv d) (p_flags s) width prec (len_of (dr_len d)) w o1 →
  ∃ s1 s', case2 special s = Ok s1 ∧ reaches s1 s' ∧ printed s rest args3 o1 s'.
Proof.
  intros Hd Hf W0 P0 L0 Hw Hwr Hp -> Hk Hc. pose proof Hd as (_ & Dw & Dp & _ & _).
  destruct (show_conv_head d rest Hd) as [(He1 & He2 & He3 & He4) Hdot].
  assert (Hwu : width < 2 ^ 31).
  { destruct (dr_width d) as [[n|]|]; simpl in *; [injection Hw as <- <-; lia| |injection Hw as <- <-; lia].
    destruct (p_args s); [done|]. injection Hw as <- <-. by apply sint_range. }
  set (P := match dr_prec d with None => [] | Some x => ch "." :: show_amount x end ++ show_conv d ++ rest).
  assert (HP : isdigit (default 0 (head P)) = 0 ∧ default 0 (head P) ≠ ch "*").
  { unfold P. by destruct (dr_prec d). }
  assert (E1 : read_number (p_width s) s = Ok (width, with_args args1 (with_fmt P s))).
  { unfold show_rest in Hf. rewrite <- !app_assoc in Hf. destruct (dr_width d) as [x|]; simpl in Dw, Hf, Hw.
    - apply (read_number_show x); [destruct x; simpl in *; [lia|done]| |tauto|done].
      rewrite Hf. f_equal. unfold P, show_conv. by rewrite <- !app_assoc.
    - injection Hw as <- <-. rewrite read_number_none.
      + rewrite W0. f_equal. f_equal. replace P with (p_fmt s); [by destruct s|].
        rewrite Hf. unfold P, show_conv. by rewrite <- !app_assoc.
      + unfold fmt_char. replace (p_fmt s) with P; [tauto|]. rewrite Hf. unfold P, show_conv. by rewrite <- !app_assoc.
      + unfold fmt_char. replace (p_fmt s) with P; [tauto|]. rewrite Hf. unfold P, show_conv. by rewrite <- !app_assoc. }
  unfold case2. rewrite E1. cbn [rbind]. set (s2 := with_state 3 _).
  unfold case3, fmt_char. change (p_fmt s2) with P. unfold P. destruct (dr_prec d) as [x|] eqn:Ex.
  - cbn [app head default]. unfold id. cbn [Z.eqb Pos.eqb]. unfold fmt_next at 1. change (p_fmt s2) with P.
    unfold P. cbn [app rbind].
    rewrite (read_number_show x _ _ (show_conv d ++ rest) prec (w :: args3)); [|done|done|done|done].
    cbn [rbind]. set (s3 := with_state 4 _).
    destruct (case4_prints d s3 rest w args3 o1) as (s' & E4 & H4); try done.
    exists s', s'. split; [exact E4|]. split; [apply rtc_refl|exact H4].
  - cbn [app]. replace (_ =? ch ".") with false by lia.
    simpl in Hp. injection Hp as <- Ep. set (s3 := with_state 4 s2).
    destruct (case4_prints d s3 rest w args3 o1) as (s' & E4 & H4); try done.
    { unfold s3, s2. simpl. by rewrite P0. }
    exists s3, s'. split; [done|]. split; [|exact H4]. apply rtc_once. split; [|exact E4].
    unfold s3, s2. simpl. unfold P, show_conv. cbn [app]. by destruct (dr_len d).
Qed.

(** The flags are taken one by one. *)
Definition flags_from (f : Z) (cs : list Z) : Z := foldl (λ f c, Z.lor f (default 0 (flag_of c))) f cs.

Lemma flag_not_percent c : is_Some (flag_of c) → (c =? ch "%") = false.
Proof. intros [f H]. apply Z.eqb_neq. by intros ->. Qed.

Lemma case1_flag c fmt s : p_fmt s = c :: fmt → is_Some (flag_of c) →
  case1 special s = Ok (with_fmt fmt (with_flags (flags_from (p_flags s) [c]) s)).
Proof.
  intros Hf Hc. unfold case1, fmt_char. rewrite Hf. cbn [head default]. unfold id.
  rewrite flag_not_percent by done. unfold flags_from. simpl. destruct Hc as [f ->].
  unfold fmt_next. simpl. by rewrite Hf.
Qed.

Lemma flags_reach fl s X : p_state s = 1 → p_fmt s = fl ++ X → Forall (λ c, is_Some (flag_of c)) fl →
  reaches s (with_fmt X (with_flags (flags_from (p_flags s) fl) s)).
Proof.
  intros Hs Hf H. revert s Hs Hf. induction H as [|c fl Hc H IH]; intros s Hs Hf.
  - simpl in Hf. rewrite <- Hf. unfold flags_from. simpl. destruct s. apply rtc_refl.
  - eapply rtc_l.
    + split; [by rewrite Hf|]. unfold turn. rewrite Hs. cbn [Z.eqb Pos.eqb].
      by apply (case1_flag c (fl ++ X)).
    + eapply (IH (with_fmt (fl ++ X) (with_flags (flags_from (p_flags s) [c]) s))); done.
Qed.

Lemma case1_rest s X : p_fmt s = X → default 0 (head X) ≠ ch "%" → flag_of (default 0 (head X)) = None →
  case1 special s = case2 special (with_state 2 (with_flags (settle (p_flags s)) s)).
Proof.
  intros <- H1 H2. unfold case1, fmt_char in *. replace (_ =? ch "%") with false by lia. by rewrite H2.
Qed.

(** The machine between two directives. *)
Definition fresh (s : pst) : Prop :=
  p_state s = 0 ∧ p_flags s = 0 ∧ p_width s = -1 ∧ p_prec s = -1 ∧ p_len s = 0.

Lemma show_rest_head d rest : directive_ok d →
  default 0 (head (show_rest d ++ rest)) ≠ ch "%" ∧ flag_of (default 0 (head (show_rest d ++ rest))) = None ∧
  show_rest d ++ rest ≠ [].
Proof.
  intros Hd. destruct (show_conv_head d rest Hd) as [(_ & _ & H3 & H4) _].
  destruct Hd as (_ & Dw & _ & _ & _).
  assert (E : show_rest d ++ rest = default [] (show_amount <$> dr_width d) ++
    match dr_prec d with None => [] | Some x => ch "." :: show_amount x end ++ show_conv d ++ rest)
    by (unfold show_rest, show_conv; by rewrite <- !app_assoc).
  rewrite E. destruct (dr_width d) as [[n|]|]; simpl in Dw.
  - destruct (decimal_head n) as (v & vs & Ev & Hv & Hp); [lia|]. cbn [fmap option_fmap option_map default show_amount].
    unfold id. rewrite Ev. cbn [app head default]. unfold id. specialize (Hp ltac:(lia)).
    change (ch "0") with 48 in *. change (ch "%") with 37. split; [lia|]. split; [|done]. unfold flag_of.
    by repeat match goal with |- context [?a =? ?b] => replace (a =? b) with false by lia end.
  - done.
  - change (default [] (show_amount <$> None)) with (@nil Z). destruct (dr_prec d).
    { cbn [app head default]. unfold id. split; [lia|]. by split. }
    cbn [app]. split; [exact H3|]. split; [exact H4|]. unfold show_conv. by destruct (dr_len d).
Qed.

Lemma conv_reaches d s rest width args1 prec args2 w args3 o1 : directive_ok d → fresh s →
  p_fmt s = show_piece (Conv d) ++ rest →
  take_amount (dr_width d) (p_args s) = Some (width, args1) → - 2 ^ 31 < width →
  take_amount (dr_prec d) args1 = Some (prec, args2) → args2 = w :: args3 →
  steady Str (length o1) (p_out s) →
  conv_text Str (dr_conv d) (settle (all_flags (dr_flags d))) width prec (len_of (dr_len d)) w o1 →
  ∃ s', reaches s s' ∧ printed s rest args3 o1 s'.
Proof.
  intros Hd (S0 & F0 & W0 & P0 & L0) Hf Hw Hwr Hp Ha Hk Hc.
  destruct (show_rest_head d rest Hd) as (Hr1 & Hr2 & Hr3).
  set (X := show_rest d ++ rest) in *.
  assert (Hf' : p_fmt s = ch "%" :: dr_flags d ++ X) by (rewrite Hf; simpl; unfold X; by rewrite <- app_assoc).
  set (s1 := with_state 1 (with_fmt (dr_flags d ++ X) s)).
  (* what comes from the turn behind the flags *)
  set (s2 := with_fmt X (with_flags (flags_from 0 (dr_flags d)) s1)).
  assert (Hend : ∃ s3 s', case1 special s2 = Ok s3 ∧ reaches s3 s' ∧ printed s rest args3 o1 s').
  { rewrite (case1_rest s2 X) by done.
    destruct (case2_prints d (with_state 2 (with_flags (settle (p_flags s2)) s2)) rest width args1 prec args2 w args3 o1)
      as (s3 & s' & E & Hre & Hpr); try done. by exists s3, s'. }
  destruct Hend as (s3 & s' & E & Hre & Hpr). exists s'. split; [|done].
  pose proof Hd as (Hfl & _).
  assert (T0 : turn special s = case1 special s1).
  { unfold turn. rewrite S0. cbn [Z.eqb]. unfold case0, fmt_char. rewrite Hf'. cbn [head default].
    unfold id. cbn [Z.eqb Pos.eqb negb]. unfold fmt_next. rewrite Hf'. done. }
  assert (Hne : p_fmt s ≠ []) by by rewrite Hf'.
  destruct (dr_flags d) as [|c fl] eqn:Efl.
  - assert (s1 = s2) as E12 by (unfold s2, s1; clear - F0; destruct s; simpl in F0; by subst).
    eapply rtc_l; [split; [done|rewrite T0, E12; exact E]|done].
  - apply list.Forall_cons in Hfl as [Hc1 Hfl].
    set (s1' := with_fmt (fl ++ X) (with_flags (flags_from (p_flags s1) [c]) s1)).
    eapply rtc_l; [split; [done|rewrite T0; by apply (case1_flag c (fl ++ X))]|]. fold s1'.
    eapply reaches_trans; [apply (flags_reach fl s1' X); done|].
    assert (Es : with_fmt X (with_flags (flags_from (p_flags s1') fl) s1') = s2).
    { unfold s2, s1', s1. simpl. by rewrite F0. }
    rewrite Es. eapply rtc_l; [|exact Hre]. split; [done|]. unfold turn. simpl. exact E.
Qed.

(** Every list of pieces is printed as it means. *)
Lemma pieces_reach ps args out rest : prints Str ps args out rest → Forall piece_ok ps →
  ∀ s, (fresh s ∨ p_state s = 6) → p_fmt s = show ps → p_args s = args → steady Str (length out) (p_out s) →
  ∃ s', reaches s s' ∧ p_fmt s' = [] ∧ p_args s' = rest ∧ p_out s' = puts out (p_out s).
Proof.
  intros H Hok. induction H as [args|c ps args out rest _ IH|ps args out rest _ IH|
    d ps args width args1 prec args2 w args3 o1 out rest Hw Hwr Hp Ha Hc _ IH]; intros s Hs Hf Hargs Hst.
  { exists s. split; [apply rtc_refl|]. by split_and!. }
  all: apply list.Forall_cons in Hok as [Hx Hok]; specialize (IH Hok).
  all: assert (Hfr : ∃ s0, reaches s s0 ∧ fresh s0 ∧ p_fmt s0 = p_fmt s ∧ p_args s0 = p_args s ∧
    p_out s0 = p_out s);
    [destruct Hs as [Hs|Hs]; [exists s; split; [apply rtc_refl|done]|];
     eexists; split; [apply rtc_once; split; [by rewrite Hf|]; unfold turn; by rewrite Hs|]; by split_and!|].
  all: destruct Hfr as (s0 & R0 & Hs0 & F0 & A0 & O0); rewrite Hf in F0; unfold show in F0;
    rewrite bind_cons in F0; fold (show ps) in F0; rewrite <- O0 in *; clear Hs Hf.
  - assert (Ht : turn special s0 = Ok (with_fmt (show ps) (with_out (putc c (p_out s0)) s0))).
    { destruct Hs0 as (S0 & _). unfold turn. rewrite S0. cbn [Z.eqb]. unfold case0, fmt_char. rewrite F0.
      cbn [show_piece app head default]. unfold id. simpl in Hx. replace (c =? ch "%") with false by lia.
      cbn [negb]. unfold fmt_next. simpl. by rewrite F0. }
    destruct (IH (with_fmt (show ps) (with_out (putc c (p_out s0)) s0))) as (s' & R & H);
      [by left|done|simpl; congruence|by apply (steady_puts Str _ [c])|].
    exists s'. split; [|exact H]. eapply reaches_trans; [exact R0|]. eapply rtc_l; [|exact R].
    split; [by rewrite F0|exact Ht].
  - assert (Ht : turn special s0 = Ok (with_state 0 (with_fmt (show ps)
      (with_state 1 (with_fmt (ch "%" :: show ps) (with_out (putc (ch "%") (p_out s0)) s0)))))).
    { destruct Hs0 as (S0 & _). unfold turn. rewrite S0. cbn [Z.eqb]. unfold case0, fmt_char. rewrite F0.
      cbn. unfold fmt_next. simpl. by rewrite F0. }
    destruct (IH (with_state 0 (with_fmt (show ps)
      (with_state 1 (with_fmt (ch "%" :: show ps) (with_out (putc (ch "%") (p_out s0)) s0))))))
      as (s' & R & H); [left; by destruct Hs0|done|simpl; congruence|by apply (steady_puts Str _ [ch "%"])|].
    exists s'. split; [|exact H]. eapply reaches_trans; [exact R0|]. eapply rtc_l; [|exact R].
    split; [by rewrite F0|exact Ht].
  - destruct (conv_reaches d s0 (show ps) width args1 prec args2 w args3 o1) as (s1 & R1 & P1 & P2 & P3 & P5);
      try done; [by rewrite A0, Hargs|eapply steady_le; [exact Hst|rewrite length_app; lia]|].
    destruct (IH s1) as (s' & R & H1 & H2 & H4); [by right|done|done| |].
    { rewrite P5. apply steady_puts. by rewrite <- length_app. }
    exists s'. split; [exact (reaches_trans _ _ _ R0 (reaches_trans _ _ _ R1 R))|].
    split; [done|]. split; [done|]. by rewrite H4, P5, puts_app.
Qed.
End parse.

Section result.
Context {SK : Sink} (special : Z → pst → option (res pst)).
Hypothesis special_ends : ∀ c s r, special c s = Some r → sat r (same_fmt s).

Lemma run_prints Str ps args out rest o : prints Str ps args out rest → Forall piece_ok ps →
  steady Str (length out) o →
  ∃ s', run special (turns (show ps)) (start (show ps) args o) = Ok s' ∧
    p_args s' = rest ∧ p_out s' = puts out o.
Proof using special_ends.
  intros H Hok Hst.
  destruct (pieces_reach special Str ps args out rest H Hok (start (show ps) args o))
    as (s' & R & F & H1 & H3); [by left|done|done|done|].
  destruct (reaches_run special _ _ R F) as [n Hn]. exists s'. split; [|done].
  apply (run_det special n); [done|].
  pose proof (run_start_ends special special_ends (show ps) args o) as He. intros E. by rewrite E in He.
Qed.
End result.
