(* ===== verification/Printf.v ===== *)
(** * Printf: the two printfs

    [kernel/lib/vsprintf.c] writes to a buffer, [rlibc/stdio/vdprintf.c] to a file,
    sixteen bytes at a time; both are the machine of [Format]. *)

From Stdlib Require Import QArith.
From S2P Require Import Prelude CString Ctype Vga Format.
#[local] Open Scope Z_scope.

(** [*p = v] for an int. *)
Definition st32 (m : mem) (p v : Z) : res mem :=
  let* m := st m p (Z.land v 0xFF) in
  let* m := st m (p + 1) (Z.land (Z.shiftr v 8) 0xFF) in
  let* m := st m (p + 2) (Z.land (Z.shiftr v 16) 0xFF) in
  st m (p + 3) (Z.land (Z.shiftr v 24) 0xFF).

Fixpoint store_list (m : mem) (p : Z) (cs : list Z) : res mem :=
  match cs with
  | [] => Ok m
  | c :: cs => let* m := st m p c in store_list m (p + 1) cs
  end.

(** ** kernel/lib/vsprintf.c *)
Module Kernel.

(** [str], and the memory it points into; nothing behind a store outside of the memory. *)
Record cursor := Cursor { c_str : Z; c_mem : mem }.

(** [*str++ = c] *)
Definition store_char (c : Z) (o : option cursor) : option cursor :=
  match o with
  | Some o =>
      match st (c_mem o) (c_str o) c with
      | Ok m => Some (Cursor (c_str o + 1) m)
      | _ => None
      end
  | None => None
  end.

#[export] Instance buffer : Sink := {|
  sink := option cursor;
  putc := store_char;
  smem o := match o with Some o => c_mem o | None => ∅ end
|}.

(** For a base that it does not know it returns a null pointer. *)
Definition numstr (number base width prec flags : Z) (o : option cursor) : res (option cursor) :=
  if (base <? 2) || (36 <? base) then let* o := deref o in Ok (Some (Cursor 0 (c_mem o)))
  else num_str (SK := buffer) number base width prec flags o.

Definition special (buf c : Z) (s : pst (SK := buffer)) : option (res (pst (SK := buffer))) :=
  if c =? ch "p" then Some (
    let s := add_flag FL_SPECIAL (add_flag FL_SMALL s) in
    let s := (if p_width s =? -1 then with_width 8 (add_flag FL_ZEROPAD s) else s) in
    let* (w, s) := va_word s in
    let* o := numstr (s32 w) 16 (p_width s) (p_prec s) (p_flags s) (p_out s) in
    Ok (with_out o s))
  else if c =? ch "n" then Some (
    let* (p, s) := va_word s in
    let* o := deref (p_out s : option cursor) in
    let* m := st32 (c_mem o) p (c_str o - buf) in
    Ok (with_out (SK := buffer) (Some (Cursor (c_str o) m)) s))
  else None.

(** The format is a literal, apart from [buf].  The arguments are not: what a conversion reads
    is in the memory that the characters before it were stored to. *)
Definition vsprintf (buf : Z) (fmt arg : list Z) (m : mem) : res (Z * mem) :=
  let* s := run (SK := buffer) (special buf) (turns fmt) (start (SK := buffer) fmt arg (Some (Cursor buf m))) in
  let* o := deref (p_out s : option cursor) in
  let* m := st (c_mem o) (c_str o) 0 in
  Ok (c_str o - buf, m).

Definition sprintf (buf : Z) (fmt arg : list Z) (m : mem) : res (Z * mem) :=
  vsprintf buf fmt arg m.
End Kernel.

(** [kprintf]: the buffer of 4096 bytes is static; [buf] is its address. *)
Fixpoint kprintf_loop (n : nat) (p : Z) (m : mem) (s : console) : res console :=
  let* c := ld m p in
  if c =? 0 then Ok s
  else
    match n with
    | O => Ok s
    | S n => let* (_, s) := kputchar (s8 c) s in kprintf_loop n (p + 1) m s
    end.

Definition kprintf (buf : Z) (fmt arg : list Z) (m : mem) (s : console) : res (Z * mem * console) :=
  let* (_, m) := memset buf 0 4096 m in
  let* (ret, m) := Kernel.vsprintf buf fmt arg m in
  let* s := kprintf_loop (Z.to_nat ret) buf m s in
  Ok (ret, m, s).

(** ** rlibc/stdio/vdprintf.c *)
Module Rlibc.

(** [wbuf], [nprinted], the buffers that were given to [write], and the memory of the program. *)
Record wstate := Wbuf { wbuf : list Z; nprinted : Z; written : list (list Z); w_mem : mem }.

Definition wbuf_flush (w : wstate) : wstate :=
  if 0 <? len (wbuf w) then Wbuf [] (nprinted w) (written w ++ [wbuf w]) (w_mem w) else w.

Definition wbuf_write (c : Z) (w : wstate) : wstate :=
  let w := Wbuf (wbuf w ++ [c]) (nprinted w + 1) (written w) (w_mem w) in
  if len (wbuf w) =? 16 then wbuf_flush w else w.

#[export] Instance output : Sink := {| sink := wstate; putc := wbuf_write; smem := w_mem |}.

Definition numstr (number base width prec flags : Z) (w : wstate) : res wstate :=
  if (base <? 2) || (36 <? base) then Ok w
  else num_str (SK := output) number base width prec flags w.

(** Doubles, and what the assembly [trunc.s] and [fmod.s] does with them. *)
Class Double := {
  double : Type;
  double_of : Z → Z → double;  (** two words of the argument list *)
  d_lt0 : double → bool;
  d_is0 : double → bool;
  d_ge1 : double → bool;
  d_isnan : double → bool;
  d_isinf : double → bool;
  d_neg : double → double;
  d_sub : double → double → double;
  d_mul10 : double → double;
  d_div10 : double → double;
  d_zero : double;
  d_int : double → Z;
  trunc : double → double;
  fmod10 : double → double
}.

Section float.
Context `{DO : Double}.

(** math/modf.c: the fraction, and the integer. *)
Definition modf (x : double) : double * double :=
  if d_isnan x then (x, x)
  else if d_isinf x then (d_zero, x)
  else (d_sub x (trunc x), trunc x).

Definition digs10 : list Z := codes "0123456789".

Definition digit_of (x : double) : res Z := deref (aget digs10 (d_int x)).

(** [prec] digits of the fraction, the first one at [tmp[i]]. *)
Fixpoint frac_loop (p : nat) (frac : double) (i : Z) (tmp : list Z) : res (Z * list Z) :=
  match p with
  | O => Ok (i, tmp)
  | S p =>
      let frac := d_mul10 frac in
      let* d := digit_of frac in
      let* tmp := deref (aset tmp i d) in
      let (frac, _) := modf frac in
      frac_loop p frac (i - 1) tmp
  end.

Fixpoint zero_loop (p : nat) (i : Z) (tmp : list Z) : res (Z * list Z) :=
  match p with
  | O => Ok (i, tmp)
  | S p => let* tmp := deref (aset tmp i (ch "0")) in zero_loop p (i - 1) tmp
  end.

(** The array ends the loop. *)
Fixpoint int_loop (fuel : nat) (num : double) (i : Z) (tmp : list Z) : res (Z * list Z) :=
  match fuel with
  | O => Fuel
  | S fuel =>
      if d_ge1 num then
        let* d := digit_of (fmod10 num) in
        let* tmp := deref (aset tmp i d) in
        int_loop fuel (d_div10 num) (i + 1) tmp
      else Ok (i, tmp)
  end.

(** The characters of a finite number, the last one first; their number. *)
Definition float_digits (num : double) (prec flags : Z) (tmp : list Z)
    : res (Z * list Z) :=
  let (frac, num) := modf num in
  let* (i, tmp) :=
    (if d_is0 frac then
       if prec =? 0 then
         if has flags FL_SPECIAL
         then let* tmp := deref (aset tmp 0 (ch ".")) in Ok (1, tmp)
         else Ok (0, tmp)
       else
         let* tmp := deref (aset tmp prec (ch ".")) in
         let* (i, tmp) := zero_loop (Z.to_nat prec) (prec - 1) tmp in
         Ok (i + prec + 2, tmp)
     else
       let* tmp := deref (aset tmp prec (ch ".")) in
       let* (i, tmp) := frac_loop (Z.to_nat prec) frac (prec - 1) tmp in
       Ok (i + prec + 2, tmp)) in
  if d_is0 num
  then let* tmp := deref (aset tmp i (ch "0")) in Ok (i + 1, tmp)
  else int_loop (S (length tmp)) num i tmp.

(** [junk]: the old contents of the array. *)
Definition floatstr (junk : list Z) (number : double) (width prec flags : Z)
    (w : wstate) : res wstate :=
  let prec := if 1024 <? prec then 1024 else prec in
  let width := if width <? 0 then s32 (- width) else width in
  let c := if has flags FL_ZEROPAD then ch "0" else ch " " in
  let (sign, num) :=
    (if d_lt0 number then (ch "-", d_neg number)
     else (if has flags FL_PLUS then ch "+" else if has flags FL_SPACE then ch " " else 0, number)) in
  let width := if negb (sign =? 0) then width - 1 else width in
  let* (width, prec, tmp) :=
    (if d_isnan number
     then Ok (width - 3, 0, if has flags FL_SMALL then codes "nan" else codes "NAN")
     else if d_isinf number
     then Ok (width - 3, 0, if has flags FL_SMALL then codes "fni" else codes "FNI")
     else
       let* (i, tmp) := float_digits num prec flags junk in
       let prec := if prec <? i then i else prec in
       Ok (width - prec, prec, take (Z.to_nat i) tmp)) in
  num_out sign c 10 width prec flags digs10 tmp w.

Definition special (junk : list Z) (c : Z) (s : pst (SK := output))
    : option (res (pst (SK := output))) :=
  if c =? ch "p" then Some (
    let s := add_flag FL_SMALL s in
    let s := (if p_width s =? -1 then with_width 8 (add_flag FL_ZEROPAD s) else s) in
    let* (w, s) := va_word s in
    let* o := numstr (s32 w) 16 (p_width s) (p_prec s) (p_flags s) (p_out s) in
    Ok (with_out o s))
  else if c =? ch "n" then Some (
    let* (p, s) := va_word s in
    let w : wstate := p_out s in
    let n := nprinted w in
    let* m := st32 (w_mem w) p (if p_len s =? -1 then s16 n else n) in
    Ok (with_out (SK := output) (Wbuf (wbuf w) n (written w) m) s))
  else if (c =? ch "f") || (c =? ch "F") then Some (
    let s := (if c =? ch "f" then add_flag FL_SMALL s else s) in
    let s := (if p_prec s =? -1 then with_prec 6 s else s) in
    let* (lo, s) := va_word s in
    let* (hi, s) := va_word s in
    let* o := floatstr junk (double_of lo hi) (p_width s) (p_prec s) (p_flags s) (p_out s) in
    Ok (with_out o s))
  else None.

(** [atoi_ptr] and the conversions have the text of the kernel's. *)
Definition atoi_ptr : pst (SK := output) → Z * pst (SK := output) := Format.atoi_ptr.

Definition convert (junk : list Z) : pst (SK := output) → res (pst (SK := output)) :=
  Format.convert (special junk).

Definition case6 : pst (SK := output) → res (pst (SK := output)) := Format.case6.

(** The number of characters, and the buffers that were written to [fd]. *)
Definition vdprintf (junk : list Z) (fmt arg : list Z) (m : mem)
    : res (Z * list (list Z) * mem) :=
  let* s := run (SK := output) (special junk) (turns fmt) (start (SK := output) fmt arg (Wbuf [] 0 [] m)) in
  let w := wbuf_flush (wbuf_write 0 (p_out s)) in
  Ok (nprinted w, written w, w_mem w).
End float.
End Rlibc.

(** ** The calls end *)
Section kernel.
Import Kernel.

Lemma st32_ends m p v : sat (st32 m p v) (λ _, True).
Proof. unfold st32, st. repeat (apply sat_bind || case_match || simpl); done. Qed.

Lemma special_kernel buf c s r : special buf c s = Some r → sat r (same_fmt s).
Proof.
  intros Hr. unfold special in Hr.
  destruct (_ =? ch "p"); [|destruct (_ =? ch "n"); [|done]]; injection Hr as <-.
  - set (s1 := if p_width _ =? -1 then _ else _). assert (H1 : same_fmt s s1) by (unfold s1; by case_match).
    apply sat_bind. eapply sat_mono; [apply va_word_fmt|]. intros [w s2] H2. cbn [fst snd] in *.
    apply sat_bind. unfold numstr. change ((16 <? 2) || (36 <? 16)) with false. cbv iota.
    eapply sat_mono; [apply (num_str_ends (SK := buffer)); set_solver|]. intros o _. unfold same_fmt in *. simpl. congruence.
  - apply sat_bind. eapply sat_mono; [apply va_word_fmt|]. intros [p s2] H2. cbn [fst snd] in *.
    destruct (p_out s2 : option cursor) as [o|]; [|done]. cbn [deref rbind].
    apply sat_bind. eapply sat_mono; [apply st32_ends|]. intros m _. unfold same_fmt in *. simpl. congruence.
Qed.
End kernel.

Section rlibc.
Import Rlibc.
Context `{DO : Double}.

Lemma int_loop_ends n num i tmp : len tmp - i < Z.of_nat n → (0 < n)%nat →
  sat (int_loop n num i tmp) (λ _, True).
Proof.
  revert num i tmp. induction n as [|n IH]; intros num i tmp Hn H0; [lia|]. cbn [int_loop].
  destruct (d_ge1 num); [|done]. apply sat_bind. eapply sat_mono; [apply sat_deref|]. intros d _.
  apply sat_bind. destruct (aset tmp i d) as [tmp'|] eqn:E; [|done]. simpl.
  pose proof (aset_length _ _ _ _ E) as Hl. apply IH; [lia|]. unfold aset in E.
  repeat case_match; try done; lia.
Qed.

Lemma frac_loop_ends p frac i tmp : sat (frac_loop p frac i tmp) (λ x, length x.2 = length tmp).
Proof.
  revert frac i tmp. induction p as [|p IH]; intros frac i tmp; [done|]. cbn [frac_loop].
  apply sat_bind. eapply sat_mono; [apply sat_deref|]. intros d _. apply sat_bind.
  destruct (aset tmp i d) as [tmp'|] eqn:E; [|done]. simpl. rewrite <- (aset_length _ _ _ _ E).
  destruct (modf _). apply IH.
Qed.

Lemma zero_loop_ends p i tmp : sat (zero_loop p i tmp) (λ x, length x.2 = length tmp).
Proof.
  revert i tmp. induction p as [|p IH]; intros i tmp; [done|]. cbn [zero_loop]. apply sat_bind.
  destruct (aset tmp i _) as [tmp'|] eqn:E; [|done]. simpl. rewrite <- (aset_length _ _ _ _ E). apply IH.
Qed.

Lemma sat_aset {A} (l : list A) i x : sat (deref (aset l i x)) (λ l', length l' = length l ∧ 0 ≤ i < len l).
Proof.
  destruct (aset l i x) as [l'|] eqn:E; [|done]. simpl. split; [by eapply aset_length|].
  unfold aset in E. repeat case_match; try done; lia.
Qed.

Lemma float_digits_ends num prec flags tmp : sat (float_digits num prec flags tmp) (λ _, True).
Proof.
  unfold float_digits. destruct (modf num) as [frac num'].
  assert (H : sat (if d_is0 frac then
      if prec =? 0 then
        if has flags FL_SPECIAL then let* tmp := deref (aset tmp 0 (ch ".")) in Ok (1, tmp) else Ok (0, tmp)
      else
        let* tmp := deref (aset tmp prec (ch ".")) in
        let* (i, tmp) := zero_loop (Z.to_nat prec) (prec - 1) tmp in Ok (i + prec + 2, tmp)
    else
      let* tmp := deref (aset tmp prec (ch ".")) in
      let* (i, tmp) := frac_loop (Z.to_nat prec) frac (prec - 1) tmp in Ok (i + prec + 2, tmp))
    (λ _, True)).
  { repeat case_match; try done; apply sat_bind; (eapply sat_mono; [apply sat_aset|]); intros t _; try done;
      apply sat_bind; (eapply sat_mono; [apply zero_loop_ends || apply frac_loop_ends|]); by intros [i t'] _. }
  apply sat_bind. eapply sat_mono; [exact H|]. intros [i t] _. cbv beta iota.
  destruct (d_is0 num').
  - apply sat_bind. eapply sat_mono; [apply sat_aset|]. done.
  - destruct (Z.lt_ge_cases i 0).
    + cbn [int_loop]. destruct (d_ge1 num'); [|done]. apply sat_bind.
      eapply sat_mono; [apply sat_deref|]. intros d _. unfold aset. by replace (i <? 0) with true by lia.
    + apply int_loop_ends; lia.
Qed.

Lemma num_out_ends {SK : Sink} sign c base width prec flags digs tmp (o : sink) :
  sat (num_out sign c base width prec flags digs tmp o) (λ _, True).
Proof. unfold num_out. repeat case_match; try done; destruct (aget digs 33); done. Qed.

Lemma floatstr_ends junk x width prec flags w : sat (floatstr junk x width prec flags w) (λ _, True).
Proof.
  unfold floatstr. destruct (if d_lt0 x then _ else _) as [sign num].
  apply sat_bind, (sat_mono _ (λ _, True)).
  - destruct (d_isnan x); [done|]. destruct (d_isinf x); [done|].
    apply sat_bind. eapply sat_mono; [apply float_digits_ends|]. by intros [i tmp] _.
  - intros [[width' prec'] tmp] _. apply (num_out_ends (SK := output)).
Qed.

Lemma special_rlibc junk c s r : special junk c s = Some r → sat r (same_fmt s).
Proof.
  unfold special. destruct (_ =? ch "p"); [|destruct (_ =? ch "n"); [|destruct (_ || _); [|done]]]; intros [= <-].
  - set (s1 := if p_width _ =? -1 then _ else _). assert (H1 : same_fmt s s1) by (unfold s1; by case_match).
    apply sat_bind. eapply sat_mono; [apply va_word_fmt|]. intros [w s2] H2. cbn [fst snd] in *.
    apply sat_bind. unfold numstr. change ((16 <? 2) || (36 <? 16)) with false. cbv iota.
    eapply sat_mono; [apply (num_str_ends (SK := output)); set_solver|]. intros o _. unfold same_fmt in *. simpl. congruence.
  - apply sat_bind. eapply sat_mono; [apply va_word_fmt|]. intros [p s2] H2. cbn [fst snd] in *.
    apply sat_bind. eapply sat_mono; [apply st32_ends|]. intros m _. unfold same_fmt in *. simpl. congruence.
  - set (s1 := if p_prec _ =? -1 then _ else _).
    assert (H1 : same_fmt s s1) by (unfold s1; destruct (c =? ch "f"); by case_match).
    apply sat_bind. eapply sat_mono; [apply va_word_fmt|]. intros [lo s2] H2. cbn [fst snd] in *.
    apply sat_bind. eapply sat_mono; [apply va_word_fmt|]. intros [hi s3] H3. cbn [fst snd] in *.
    apply sat_bind. eapply sat_mono; [apply floatstr_ends|]. intros o _. unfold same_fmt in *. simpl. congruence.
Qed.

(** ** The file gets what the buffer holds *)

(** [cs] was printed from the start. *)
Definition wrote (w : wstate) (cs : list Z) : Prop :=
  concat (written w) ++ wbuf w = cs ∧ nprinted w = len cs ∧
  Forall (λ b, len b = 16) (written w) ∧ (length (wbuf w) < 16)%nat.

Lemma wbuf_write_wrote c w cs : wrote w cs → wrote (wbuf_write c w) (cs ++ [c]).
Proof.
  intros (H1 & H2 & H3 & H4). unfold wbuf_write, wbuf_flush. cbn [wbuf].
  assert (Hl : length (wbuf w ++ [c]) = S (length (wbuf w))) by (rewrite length_app; simpl; lia).
  rewrite Hl. destruct (Z.eqb_spec (Z.of_nat (S (length (wbuf w)))) 16) as [E|E].
  - rewrite (proj2 (Z.ltb_lt 0 (Z.of_nat (S (length (wbuf w)))))) by lia.
    split; [|split; [|split]]; cbn [written wbuf nprinted].
    + rewrite concat_app. simpl. by rewrite !app_nil_r, app_assoc, H1.
    + rewrite H2, length_app. simpl. lia.
    + apply Forall_app_2; [done|]. constructor; [|done]. lia.
    + simpl. lia.
  - split; [|split; [|split]]; cbn [written wbuf nprinted].
    + by rewrite app_assoc, H1.
    + rewrite H2, length_app. simpl. lia.
    + done.
    + lia.
Qed.

Lemma puts_wrote cs w ds : wrote w ds → wrote (puts (SK := output) cs w) (ds ++ cs).
Proof.
  revert w ds. induction cs as [|c cs IH]; intros w ds H; [by rewrite app_nil_r|].
  change (puts (SK := output) (c :: cs) w) with (puts (SK := output) cs (wbuf_write c w)).
  replace (ds ++ c :: cs) with ((ds ++ [c]) ++ cs) by by rewrite <- app_assoc.
  apply IH. by apply (wbuf_write_wrote c w).
Qed.

(** The buffers of a file: full ones, then a last one. *)
Definition buffers (ws : list (list Z)) : Prop :=
  ∃ full last, ws = full ++ [last] ∧ Forall (λ b, len b = 16) full ∧ 0 < len last ≤ 16.

Lemma flush_wrote w cs : wrote w cs → cs ≠ [] →
  concat (written (wbuf_flush w)) = cs ∧ nprinted (wbuf_flush w) = len cs ∧ buffers (written (wbuf_flush w)).
Proof.
  intros (H1 & H2 & H3 & H4) Hne. unfold wbuf_flush. destruct (Z.ltb_spec 0 (len (wbuf w))) as [Hl|Hl].
  - cbn [written nprinted]. rewrite concat_app. simpl. rewrite app_nil_r. split; [done|]. split; [done|].
    exists (written w), (wbuf w). split; [done|]. split; [done|]. lia.
  - assert (E : wbuf w = []) by (destruct (wbuf w); [done|simpl in Hl; lia]). rewrite E, app_nil_r in H1.
    split; [done|]. split; [done|].
    destruct (written w) as [|b l _] using rev_ind; [by subst cs|].
    apply Forall_app in H3 as [H3 H5]. apply list.Forall_cons in H5 as [H5 _].
    exists l, b. split; [done|]. split; [done|]. lia.
Qed.
End rlibc.

Lemma store_list_spec m p cs : alloc m p (len cs) →
  ∃ m', store_list m p cs = Ok m' ∧ same_outside m m' p (len cs) ∧
    ∀ i c, aget cs i = Some c → m' !! (p + i) = Some (u8 c).
Proof.
  revert m p. induction cs as [|c cs IH]; intros m p Ha.
  { exists m. split; [done|]. split; [done|]. intros i c Hi. apply aget_range in Hi. simpl in Hi. lia. }
  cbn [store_list]. unfold st. destruct (Ha p) as [x Hx]; [cbn [length]; lia|]. rewrite Hx. cbn [rbind].
  destruct (IH (<[p := u8 c]> m) (p + 1)) as (m' & E & Ho & Hc).
  { intros i Hi. destruct (decide (p = i)) as [->|Hne]; [rewrite lookup_insert_eq; by eexists|].
    rewrite lookup_insert_ne by done. apply Ha. cbn [length]. lia. }
  exists m'. split; [done|]. split.
  - intros i Hi. cbn [length] in Hi. rewrite Ho by lia. apply lookup_insert_ne. lia.
  - intros i d Hi. pose proof (aget_range _ _ _ Hi) as Hr. cbn [length] in Hr.
    destruct (decide (i = 0)) as [->|Hne].
    + unfold aget in Hi. simpl in Hi. injection Hi as ->. rewrite Z.add_0_r, Ho by lia. apply lookup_insert_eq.
    + replace (p + i) with (p + 1 + (i - 1)) by lia. apply Hc. unfold aget in *. cif; [lia|]. cif; [lia|].
      by replace (Z.to_nat i) with (S (Z.to_nat (i - 1))) in Hi by lia.
Qed.

(** The characters one behind the other are [store_list]. *)
Lemma puts_cursor cs p m : Ok (puts (SK := Kernel.buffer) cs (Some (Kernel.Cursor p m)))
  = match store_list m p cs with
    | Ok m => Ok (Some (Kernel.Cursor (p + len cs) m))
    | _ => Ok None
    end.
Proof.
  revert p m. induction cs as [|c cs IH]; intros p m.
  { simpl. by rewrite Z.add_0_r. }
  change (puts (c :: cs) ?o) with (puts (SK := Kernel.buffer) cs (Kernel.store_char c o)).
  cbn [Kernel.store_char store_list Kernel.c_mem Kernel.c_str]. unfold st.
  destruct (m !! p) as [x|]; cbn [rbind].
  - rewrite IH. by replace (p + len (c :: cs)) with (p + 1 + len cs) by (cbn [length]; lia).
  - clear IH. induction cs as [|d cs IH]; [done|exact IH].
Qed.

Lemma puts_stored cs p m : alloc m p (len cs) →
  ∃ m', puts (SK := Kernel.buffer) cs (Some (Kernel.Cursor p m)) = Some (Kernel.Cursor (p + len cs) m') ∧
    same_outside m m' p (len cs) ∧ ∀ i c, aget cs i = Some c → m' !! (p + i) = Some (u8 c).
Proof.
  intros Ha. destruct (store_list_spec m p cs Ha) as (m' & E & H). exists m'. split; [|done].
  pose proof (puts_cursor cs p m) as Hp. rewrite E in Hp. by injection Hp.
Qed.

(** A string in memory, and apart from the [n] bytes at [buf]. *)
Definition apart_str (m : mem) (buf n p : Z) (cs : list Z) : Prop :=
  cstr m p cs ∧ (p + len cs < buf ∨ buf + n ≤ p).

(** The characters of a buffer, and its terminator. *)
Lemma vsprintf_prints ps args out rest m buf :
  Forall piece_ok ps → prints (apart_str m buf (len out + 1)) ps args out rest → alloc m buf (len out + 1) →
  ∃ m', Kernel.vsprintf buf (show ps) args m = Ok (len out, m') ∧
    same_outside m m' buf (len out + 1) ∧
    ∀ i c, aget (out ++ [0]) i = Some c → m' !! (buf + i) = Some (u8 c).
Proof.
  intros Hok Hp Ha. assert (Hl : len (out ++ [0]) = len out + 1) by (rewrite length_app; simpl; lia).
  destruct (run_prints _ (special_kernel buf) _ ps args out rest (Some (Kernel.Cursor buf m)) Hp Hok) as (s & E & _ & Ho).
  { intros cs p x Hc [Hx Hd]. destruct (puts_stored cs buf m) as (m' & -> & Hs & _).
    { intros i Hi. apply Ha. lia. }
    eapply cstr_apart; [exact Hx|exact Hs|]. lia. }
  destruct (puts_stored (out ++ [0]) buf m) as (m' & Em & H1 & H2); [by rewrite Hl|].
  rewrite puts_app in Em. unfold Kernel.vsprintf. rewrite E. cbn [rbind]. rewrite Ho. clear E Ho.
  destruct (puts_stored out buf m) as (m1 & E1 & _).
  { intros i Hi. apply Ha. lia. }
  rewrite E1 in Em |- *. cbn [deref rbind Kernel.c_mem Kernel.c_str].
  change (puts [0] ?o) with (Kernel.store_char 0 o) in Em. cbn [Kernel.store_char Kernel.c_mem Kernel.c_str] in Em.
  destruct (st m1 (buf + len out) 0) as [m2| | |]; try done. injection Em as _ ->. cbn [rbind].
  exists m'. rewrite <- Hl. split; [do 2 f_equal; lia|done].
Qed.

Lemma puts_w_mem cs w : Rlibc.w_mem (puts (SK := Rlibc.output) cs w) = Rlibc.w_mem w.
Proof.
  revert w. induction cs as [|c cs IH]; intros w; [done|].
  change (puts (c :: cs) w) with (puts (SK := Rlibc.output) cs (Rlibc.wbuf_write c w)). rewrite IH.
  unfold Rlibc.wbuf_write, Rlibc.wbuf_flush. by repeat case_match.
Qed.

Lemma flush_w_mem w : Rlibc.w_mem (Rlibc.wbuf_flush w) = Rlibc.w_mem w.
Proof. unfold Rlibc.wbuf_flush. by case_match. Qed.

(** The buffers of a file. *)
Lemma vdprintf_prints {DO : Rlibc.Double} ps args out rest m junk :
  Forall piece_ok ps → prints (cstr m) ps args out rest →
  ∃ ws, Rlibc.vdprintf junk (show ps) args m = Ok (len out + 1, ws, m) ∧
    concat ws = out ++ [0] ∧ buffers ws.
Proof.
  intros Hok Hp. assert (Hl : len (out ++ [0]) = len out + 1) by (rewrite length_app; simpl; lia).
  destruct (run_prints _ (special_rlibc junk) _ ps args out rest (Rlibc.Wbuf [] 0 [] m) Hp Hok)
    as (s & E & _ & Ho).
  { intros cs p x _ Hx. cbn [smem Rlibc.output]. by rewrite puts_w_mem. }
  unfold Rlibc.vdprintf. rewrite E. cbn [rbind]. rewrite Ho.
  pose proof (puts_wrote out (Rlibc.Wbuf [] 0 [] m) [] ltac:(split_and!; [done|done|done|simpl; lia])) as Hw.
  cbn [app] in Hw.
  apply (wbuf_write_wrote 0) in Hw. apply flush_wrote in Hw as (H1 & H2 & H3); [|by destruct out].
  eexists. split; [|by split]. rewrite H2, Hl, flush_w_mem.
  pose proof (puts_w_mem [0] (puts (SK := Rlibc.output) out (Rlibc.Wbuf [] 0 [] m))) as Hm.
  change (puts [0] ?o) with (Rlibc.wbuf_write 0 o) in Hm. by rewrite Hm, puts_w_mem.
Qed.

(** C7: a format is the text of a list of pieces: characters, percent signs and
    directives with their flags, width, precision and length for the conversions [d i u
    o x X c s].  With the arguments these have a meaning [out], unless a precision is 0 for the
    number 0.  [vsprintf], when its strings are apart from the buffer, stores exactly [out] and a
    terminator, and returns its length; [vdprintf] writes the same characters and the terminator
    too, in buffers of sixteen bytes and a last one, and returns the length with it. *)
Theorem printf_prints {DO : Rlibc.Double} ps args out rest m buf junk (Hok : Forall piece_ok ps) :
  (prints (apart_str m buf (len out + 1)) ps args out rest → alloc m buf (len out + 1) →
   ∃ m', Kernel.vsprintf buf (show ps) args m = Ok (len out, m') ∧
     same_outside m m' buf (len out + 1) ∧
     ∀ i c, aget (out ++ [0]) i = Some c → m' !! (buf + i) = Some (u8 c)) ∧
  (prints (cstr m) ps args out rest →
   ∃ ws, Rlibc.vdprintf junk (show ps) args m = Ok (len out + 1, ws, m) ∧
     concat ws = out ++ [0] ∧ buffers ws).
Proof.
  split; [by apply vsprintf_prints|by apply vdprintf_prints].
Qed.

(** ** Examples

    Doubles that are exact. *)
Definition exact (lo hi : Z) : Q :=
  let e := (hi / 2 ^ 20) mod 2 ^ 11 - 1075 in
  let m := 2 ^ 52 + (hi mod 2 ^ 20) * 2 ^ 32 + lo in
  let q := if 0 <=? e then inject_Z (m * 2 ^ e) else Qred (m # Z.to_pos (2 ^ (- e))) in
  if Z.testbit hi 31 then Qopp q else q.

Definition Qtrunc (x : Q) : Q := inject_Z (Z.quot (Qnum x) (Zpos (Qden x))).

#[export] Instance exact_double : Rlibc.Double := {|
  Rlibc.double := Q;
  Rlibc.double_of := exact;
  Rlibc.d_lt0 x := Qnum x <? 0;
  Rlibc.d_is0 x := Qnum x =? 0;
  Rlibc.d_ge1 x := Zpos (Qden x) <=? Qnum x;
  Rlibc.d_isnan _ := false;
  Rlibc.d_isinf _ := false;
  Rlibc.d_neg := Qopp;
  Rlibc.d_sub x y := Qred (Qminus x y);
  Rlibc.d_mul10 x := Qred (Qmult x (10 # 1));
  Rlibc.d_div10 x := Qred (Qmult x (1 # 10));
  Rlibc.d_zero := 0#1;
  Rlibc.d_int x := Qnum (Qtrunc x);
  Rlibc.trunc := Qtrunc;
  Rlibc.fmod10 x := Qred (Qminus x (inject_Z (10 * (Qnum (Qtrunc x) / 10))))
|}.

Definition demo_text : mem := list_to_map (zip (seqZ 1 4) (codes "abc" ++ [0])).
Definition demo_memory : mem := demo_text ∪ list_to_map (zip (seqZ 100 40) (replicate 40 0xAA)).

(** A number in a field, a string that is cut off, and a hexadecimal number. *)
Definition demo_pieces : list piece :=
  [Lit (ch "="); Conv (Dir [ch "+"] (Some (Num 6)) (Some (Num 3)) None (ch "d")); Percent;
   Conv (Dir [ch "-"] (Some Star) (Some (Num 2)) None (ch "s"));
   Conv (Dir [ch "#"; ch "0"] (Some (Num 8)) None (Some (ch "l")) (ch "x"))].

(** With the buffer at 100. *)
Lemma demo_prints Str : Str 1 (codes "abc") →
  prints Str demo_pieces [42; 5; 1; 0xBEEF; 7] (codes "=  +042%ab   0x00beef") [7].
Proof.
  intros Hs. apply prints_lit. eapply (prints_conv _ _ _ _ _ _ _ _ _ _ (codes "  +042")); try done.
  { by split; [lia|]. }
  apply prints_percent. eapply (prints_conv _ _ _ _ _ _ _ _ _ _ (codes "ab   ")); try done.
  { exists (codes "abc"). by split. }
  eapply (prints_conv _ _ _ _ _ _ _ _ _ _ (codes "0x00beef") []); try done.
  { by split; [lia|]. }
  apply prints_nil.
Qed.

Lemma printf_prints_witness :
  show demo_pieces = codes "=%+6.3d%%%-*.2s%#08lx" ∧
  let out := codes "=  +042%ab   0x00beef" in
  let args := [42; 5; 1; 0xBEEF; 7] in
  (∃ m', Kernel.vsprintf 100 (show demo_pieces) args demo_memory = Ok (len out, m') ∧
     same_outside demo_memory m' 100 (len out + 1) ∧
     ∀ i c, aget (out ++ [0]) i = Some c → m' !! (100 + i) = Some (u8 c)) ∧
  ∃ ws, Rlibc.vdprintf [] (show demo_pieces) args demo_memory = Ok (len out + 1, ws, demo_memory) ∧
    concat ws = out ++ [0] ∧ buffers ws.
Proof.
  split; [vm_compute; reflexivity|]. intros out args.
  assert (Hs : cstr demo_memory 1 (codes "abc")) by (vm_compute; by split_and!).
  destruct (printf_prints demo_pieces args out [7] demo_memory 100 []) as [H1 H2].
  - apply (bool_decide_unpack _). vm_compute. exact I.
  - split; [apply H1|apply H2, demo_prints; exact Hs].
    + apply demo_prints. split; [exact Hs|]. left. vm_compute. reflexivity.
    + intros i Hi. change (len out) with 21 in Hi. apply (elem_of_dom (D := gset Z)).
      unfold demo_memory. rewrite dom_union_L, !dom_list_to_map_L. apply elem_of_union_r.
      apply elem_of_list_to_set. change ((zip (seqZ 100 40) (replicate 40 0xAA)).*1) with (seqZ 100 40).
      apply elem_of_seqZ. lia.
Defined.

Example floats :
  (let* (_, ws, _) := Rlibc.vdprintf (replicate 1024 0) (codes "%f %.1f %8.3f|") 
     [0; 0x400A0000; 0; 0xC0240000; 0; 0x3FE00000] ∅ in Ok (concat ws))
  = Ok (codes "3.250000 -10.0    0.500|" ++ [0]).
Proof. vm_compute. reflexivity. Qed.

(** What the code makes of formats where the comments say otherwise. *)
Example percent_at_end :
  Kernel.vsprintf 100 (codes "%l") [1] demo_memory = Fault ∧
  Kernel.vsprintf 100 (codes "%.") [1] demo_memory = Fault.
Proof. split; vm_compute; reflexivity. Qed.

(** The text that is stored at 100. *)
Definition text_at_100 (fmt args : list Z) : res (list Z) :=
  let* (n, m) := Kernel.vsprintf 100 fmt args demo_memory in
  Ok ((λ a, default 0 (m !! a)) <$> seqZ 100 n).

Example short_unsigned : text_at_100 (codes "%hu") [0xFFFF] = Ok (codes "4294967295").
Proof. vm_compute. reflexivity. Qed.

(** A period alone is no precision; precision 0 prints a digit for 0. *)
Example precision_zero : text_at_100 (codes "%.s|%.0d") [1; 0] = Ok (codes "abc|0").
Proof. vm_compute. reflexivity. Qed.

(** A string in the buffer itself is read with what was stored before. *)
Example overlapping :
  (let* (n, m) := Kernel.vsprintf 2 (codes "z%.1s") [2] demo_memory in
   Ok (n, (λ a, default 0 (m !! a)) <$> seqZ 1 4)) = Ok (2, codes "azz" ++ [0]).
Proof. vm_compute. reflexivity. Qed.
