(* ===== verification/Cstdlib.v ===== *)
(** * Cstdlib: numbers, searching and sorting of the C library

    [rlibc/stdlib]: [atoi], [abs], [div], [rand], [bsearch] and [qsort], on the byte
    memory of [CString]. *)

From stdpp Require Import sorting.
From S2P Require Import Prelude CString Ctype Format.

(** ** atoi.c, abs.c, div.c, rand.c *)
Fixpoint atoi_digits (fuel : nat) (str i : Z) (m : mem) : res Z :=
  match fuel with
  | O => Fuel
  | S fuel =>
      let* c := ldc m str in
      if (0x30 <=? c) && (c <=? 0x39) then atoi_digits fuel (str + 1) (s32 (i * 10 + c - ch "0")) m
      else Ok i
  end.

Definition atoi (fuel : nat) (str : Z) (m : mem) : res Z := atoi_digits fuel str 0 m.

Definition abs (n : Z) : Z := if n <? 0 then s32 (- n) else n.
Definition labs (n : Z) : Z := if n <? 0 then s32 (- n) else n.

(** The quotient and the rest; the processor faults on a division by zero and on an
    overflow. *)
Definition div (numer denom : Z) : res (Z * Z) :=
  if (denom =? 0) || ((numer =? - 2 ^ 31) && (denom =? -1)) then Fault
  else let quot := Z.quot numer denom in Ok (quot, numer - denom * quot).
Definition ldiv (numer denom : Z) : res (Z * Z) := div numer denom.

(** [kernel/lib/stdlib.c] has the same text. *)
Module Kernel.
Definition atoi := atoi.
Definition div := div.
Definition ldiv := ldiv.
Definition abs := abs.
Definition labs := labs.
End Kernel.

(** The result and the new [next]. *)
Definition rand (next : Z) : Z * Z :=
  let next := u32 (next * 1103515245 + 12345) in ((next / 65536) mod 32768, next).
Definition srand (seed : Z) : Z := u32 seed.

(** ** bsearch.c and qsort.c *)
Section compar.

(** The caller's function, which reads the two items. *)
Context (compar : Z → Z → mem → res Z).

Fixpoint bsearch (fuel : nat) (key base nitems size : Z) (m : mem) : res Z :=
  match fuel with
  | O => Fuel
  | S fuel =>
      if nitems =? 0 then Ok 0
      else
        let half := nitems / 2 in
        let middle := base + half * size in
        let* pos := compar middle key m in
        if 0 <? pos then bsearch fuel key base half size m
        else if pos <? 0 then bsearch fuel key (middle + size) half size m
        else Ok middle
  end.

(** From the last byte to the first. *)
Fixpoint swap (s : nat) (a b : Z) (m : mem) : res mem :=
  match s with
  | O => Ok m
  | S s =>
      let* t := ld m (a + Z.of_nat s) in
      let* x := ld m (b + Z.of_nat s) in
      let* m := st m (a + Z.of_nat s) x in
      let* m := st m (b + Z.of_nat s) t in
      swap s a b m
  end.

Fixpoint isort_inner (fuel : nat) (base q size : Z) (m : mem) : res mem :=
  match fuel with
  | O => Fuel
  | S fuel =>
      if base <? q then
        let* c := compar (q - size) q m in
        if 0 <? c then
          let* m := swap (Z.to_nat size) (q - size) q m in
          isort_inner fuel base (q - size) size m
        else Ok m
      else Ok m
  end.

(** [n]: the turns of the inner loop. *)
Fixpoint isort (fuel n : nat) (base p hi size : Z) (m : mem) : res mem :=
  match fuel with
  | O => Fuel
  | S fuel =>
      if p <=? hi then
        let* m := isort_inner n base p size m in
        isort fuel n base (p + size) hi size m
      else Ok m
  end.

Definition CUTOFF : Z := 5.
Definition AVG (hi lo num den size : Z) : Z :=
  lo + (u32 (num * (hi - lo)) / u32 (den * size)) * size.

(** The three parts: below [lt], between, above [gt]. *)
Fixpoint part (fuel : nat) (lo hi lt gt i size : Z) (m : mem) : res (Z * Z * mem) :=
  match fuel with
  | O => Fuel
  | S fuel =>
      if i <=? gt then
        let* c := compar i lo m in
        if c <? 0 then
          let* m := swap (Z.to_nat size) lt i m in
          part fuel lo hi (lt + size) gt (i + size) size m
        else
          let* c := compar hi i m in
          if c <? 0 then
            let* m := swap (Z.to_nat size) gt i m in
            part fuel lo hi lt (gt - size) i size m
          else part fuel lo hi lt gt (i + size) size m
      else Ok (lt, gt, m)
  end.

Fixpoint dsort (fuel n : nat) (lo hi size : Z) (m : mem) : res mem :=
  match fuel with
  | O => Fuel
  | S fuel =>
      if u32 (hi - CUTOFF * size) <? lo then Ok m
      else
        let* m := swap (Z.to_nat size) lo (AVG hi lo 1 3 size) m in
        let* m := swap (Z.to_nat size) hi (AVG hi lo 2 3 size) m in
        let* c := compar hi lo m in
        let* m := (if c <? 0 then swap (Z.to_nat size) lo hi m else Ok m) in
        let* (lt, gt, m) := part n lo hi (lo + size) (hi - size) (lo + size) size m in
        let lt := lt - size in
        let gt := gt + size in
        let* m := swap (Z.to_nat size) lo lt m in
        let* m := swap (Z.to_nat size) hi gt m in
        let* m := dsort fuel n lo (lt - size) size m in
        let* c := compar lt gt m in
        let* m := (if c <? 0 then dsort fuel n (lt + size) (gt - size) size m else Ok m) in
        dsort fuel n (gt + size) hi size m
  end.

Definition qsort (fuel : nat) (base nitems size : Z) (m : mem) : res mem :=
  let hi := base + u32 (nitems * size) - size in
  let* m := dsort fuel fuel base hi size m in
  isort fuel fuel base base hi size m.
End compar.

Lemma base_digits_length fuel base n : (length (base_digits fuel base n) ≤ fuel)%nat.
Proof.
  revert n. induction fuel as [|fuel IH]; intros n; cbn [base_digits]; [done|].
  destruct (n <? base); [cbn; lia|]. rewrite length_app. specialize (IH (n / base)). cbn. lia.
Qed.

(** ** Reading what was printed *)
Lemma atoi_digits_spec vs rest : Forall (λ v, 0 ≤ v < 10) vs → ∀ fuel a i m,
  cstr m a (((λ v, ch "0" + v) <$> vs) ++ rest) → isdigit (default 0 (head rest)) = 0 → (length vs < fuel)%nat →
  Forall (λ c, c < 128) rest →
  atoi_digits fuel a (s32 i) m = Ok (s32 (foldl (λ a v, a * 10 + v) i vs)).
Proof.
  induction 1 as [|v vs Hv _ IH]; intros fuel a i m Hm Hr Hf H128; (destruct fuel as [|fuel]; [cbn in Hf; lia|]).
  - cbn [atoi_digits foldl]. destruct rest as [|c rest].
    + rewrite (ldc_Ok m a 0) by exact Hm. done.
    + destruct Hm as (Hc & Rc & _). rewrite (ldc_Ok m a c) by exact Hc. cbn [rbind].
      apply list.Forall_cons in H128 as [H128 _]. rewrite sint_small by lia.
      cbn in Hr. unfold isdigit, b2i in Hr. change (ch "0") with 0x30 in Hr. change (ch "9") with 0x39 in Hr.
      by destruct ((0x30 <=? c) && (c <=? 0x39)).
  - cbn [fmap list_fmap app] in Hm. destruct Hm as (Hc & Rc & Hm). change (ch "0") with 0x30 in *.
    cbn [atoi_digits foldl]. rewrite (ldc_Ok m a _ Hc). cbn [rbind]. rewrite (sint_small 8) by lia.
    rewrite (proj2 (Z.leb_le _ _)) by lia. rewrite (proj2 (Z.leb_le _ _)) by lia. cbn [andb].
    change (ch "0") with 0x30. replace (s32 i * 10 + (0x30 + v) - 0x30) with (v + 10 * s32 i) by lia.
    rewrite <- sint_add_r, sint_mul_r, sint_add_r by lia.
    replace (v + 10 * i) with (i * 10 + v) by lia.
    apply IH; [exact Hm|done|cbn in Hf; lia|done].
Qed.

(** [atoi] reads back what [%d] prints for a number that is not negative. *)
Lemma atoi_of_decimal fuel n rest a m : 0 ≤ n < 2 ^ 31 → cstr m a (decimal n ++ rest) →
  isdigit (default 0 (head rest)) = 0 → Forall (λ c, c < 128) rest → (36 < fuel)%nat →
  atoi fuel a m = Ok n.
Proof.
  intros Hn Hm Hr H128 Hf. unfold atoi. change 0 with (s32 0).
  assert (E : value 10 (base_digits 35 10 n) = n) by (apply base_digits_value; lia).
  rewrite (atoi_digits_spec (base_digits 35 10 n) rest); [|apply base_digits_range; lia|exact Hm|done| |done].
  - unfold value in E. rewrite E. by rewrite sint_small by lia.
  - pose proof (base_digits_length 35 10 n). lia.
Qed.

(** No sign is read: ["-7"] is 0. *)
Example atoi_no_sign : atoi 9 100 (list_to_map (zip (seqZ 100 3) (codes "-7" ++ [0]))) = Ok 0.
Proof. vm_compute. reflexivity. Qed.

(** The right half of an even number of items is one too long: the search for 9 in
    [1; 3] reads the byte behind the array. *)
Example bsearch_behind :
  bsearch (λ a b m, let* x := ld m a in let* y := ld m b in Ok (x - y)) 9 50 100 2 1
    (list_to_map [(50, 9); (100, 1); (101, 3)]) = Fault.
Proof. vm_compute. reflexivity. Qed.

(** ** Arrays of items *)

(** The bytes of [x] are at [a]. *)
Definition block (m : mem) (a : Z) (x : list Z) : Prop :=
  ∀ k b, x !! k = Some b → m !! (a + Z.of_nat k) = Some b ∧ 0 ≤ b < 256.

(** The items [l], of [size] bytes each, one behind the other from [base] on. *)
Definition items (m : mem) (base size : Z) (l : list (list Z)) : Prop :=
  Forall (λ x, Z.of_nat (length x) = size) l ∧
  ∀ i x, l !! i = Some x → block m (base + Z.of_nat i * size) x.

(** The bytes at [a] and at [b] are exchanged. *)
Lemma swap_spec s a b m : (a = b ∨ a + Z.of_nat s ≤ b ∨ b + Z.of_nat s ≤ a) →
  (∀ k, 0 ≤ k < Z.of_nat s → ∃ x y, m !! (a + k) = Some x ∧ 0 ≤ x < 256 ∧ m !! (b + k) = Some y ∧ 0 ≤ y < 256) →
  ∃ m', swap s a b m = Ok m' ∧ ∀ i, m' !! i =
    if decide (a ≤ i < a + Z.of_nat s) then m !! (b + (i - a))
    else if decide (b ≤ i < b + Z.of_nat s) then m !! (a + (i - b)) else m !! i.
Proof.
  revert m. induction s as [|s IH]; intros m Hd Hr.
  { exists m. split; [done|]. intros i. rewrite !decide_False by lia. done. }
  destruct (Hr (Z.of_nat s)) as (x & y & Hx & Rx & Hy & Ry); [lia|].
  cbn [swap]. unfold ld, st. rewrite Hx. cbn [deref rbind]. rewrite Hy. cbn [deref rbind].
  set (m1 := <[a + Z.of_nat s := u8 y]> m).
  assert (Hb : is_Some (m1 !! (b + Z.of_nat s))).
  { unfold m1. destruct (decide (a + Z.of_nat s = b + Z.of_nat s)) as [->|]; [rewrite lookup_insert_eq; by eexists|].
    rewrite lookup_insert_ne by done. by eexists. }
  destruct Hb as [z Hz]. rewrite Hz. cbn [rbind]. rewrite !uint_small in * by lia.
  set (m2 := <[b + Z.of_nat s := x]> m1).
  assert (Hlow : ∀ i, i ≠ a + Z.of_nat s → i ≠ b + Z.of_nat s → m2 !! i = m !! i).
  { intros i H1 H2. unfold m2, m1. rewrite !lookup_insert_ne by (rewrite ?uint_small by lia; lia). done. }
  destruct (IH m2) as (m' & E & Hm').
  { lia. }
  { intros k Hk. rewrite !Hlow by lia. apply Hr. lia. }
  exists m'. split; [exact E|]. intros i. rewrite Hm'.
  assert (Ha2 : m2 !! (a + Z.of_nat s) = Some y).
  { unfold m2, m1. destruct (decide (b + Z.of_nat s = a + Z.of_nat s)) as [Eab|Nab].
    - rewrite Eab, lookup_insert_eq. assert (a = b) as -> by lia. congruence.
    - rewrite lookup_insert_ne by done. rewrite uint_small by lia. apply lookup_insert_eq. }
  assert (Hb2 : m2 !! (b + Z.of_nat s) = Some x) by (unfold m2; apply lookup_insert_eq).
  destruct (decide (i = a + Z.of_nat s)) as [->|Nia].
  { rewrite (decide_False (P := a ≤ a + Z.of_nat s < a + Z.of_nat s)) by lia.
    rewrite (decide_True (P := a ≤ a + Z.of_nat s < a + Z.of_nat (S s))) by lia.
    replace (b + (a + Z.of_nat s - a)) with (b + Z.of_nat s) by lia.
    rewrite decide_False by lia. by rewrite Ha2, Hy. }
  destruct (decide (i = b + Z.of_nat s)) as [->|Nib].
  { rewrite (decide_False (P := a ≤ b + Z.of_nat s < a + Z.of_nat s)) by lia.
    rewrite (decide_False (P := b ≤ b + Z.of_nat s < b + Z.of_nat s)) by lia.
    destruct (decide (a ≤ b + Z.of_nat s < a + Z.of_nat (S s))) as [Hin|_]; [lia|].
    rewrite decide_True by lia. replace (a + (b + Z.of_nat s - b)) with (a + Z.of_nat s) by lia. by rewrite Hb2, Hx. }
  destruct (decide (a ≤ i < a + Z.of_nat s)) as [H1|H1].
  { rewrite decide_True by lia. rewrite Hlow; [done|lia|lia]. }
  rewrite (decide_False (P := a ≤ i < a + Z.of_nat (S s))) by lia.
  destruct (decide (b ≤ i < b + Z.of_nat s)) as [H2|H2].
  { rewrite decide_True by lia. rewrite Hlow; [done|lia|lia]. }
  rewrite decide_False by lia. by rewrite Hlow.
Qed.

(** [l] with the items at [i] and [j] exchanged. *)
Definition exch {A} (l : list A) (i j : nat) : list A :=
  match l !! i, l !! j with Some x, Some y => <[i := y]> (<[j := x]> l) | _, _ => l end.

Lemma exch_lookup {A} (l : list A) i j k x y : l !! i = Some x → l !! j = Some y →
  exch l i j !! k = if decide (k = i) then Some y else if decide (k = j) then Some x else l !! k.
Proof.
  intros Hi Hj. unfold exch. rewrite Hi, Hj.
  assert (i < length l ∧ j < length l)%nat as [] by (split; eapply lookup_lt_Some; eauto).
  destruct (decide (k = i)) as [->|]; [apply list_lookup_insert_eq; by rewrite length_insert|].
  rewrite list_lookup_insert_ne by done.
  destruct (decide (k = j)) as [->|]; [by apply list_lookup_insert_eq|by apply list_lookup_insert_ne].
Qed.

Lemma exch_length {A} (l : list A) i j : length (exch l i j) = length l.
Proof. unfold exch. destruct (l !! i), (l !! j); by rewrite ?length_insert. Qed.

Lemma exch_perm {A} (l : list A) i j : exch l i j ≡ₚ l.
Proof.
  destruct (l !! i) as [x|] eqn:Hi; [|by unfold exch; rewrite Hi].
  destruct (l !! j) as [y|] eqn:Hj; [|by unfold exch; rewrite Hi, Hj].
  apply Permutation_inj. split; [apply exch_length|].
  exists (λ k, if decide (k = i) then j else if decide (k = j) then i else k). split.
  - intros k1 k2. repeat case_decide; congruence.
  - intros k. rewrite (exch_lookup _ _ _ _ x y) by done. repeat case_decide; congruence.
Qed.

(** Two neighbours. *)
Lemma exch_next {A} (a b : list A) x y :
  exch (a ++ x :: y :: b) (length a) (S (length a)) = a ++ y :: x :: b.
Proof.
  apply list_eq. intros k. rewrite (exch_lookup _ _ _ _ x y); [|by rewrite list_lookup_middle|].
  2: { change (x :: y :: b) with ([x] ++ y :: b). rewrite app_assoc. apply list_lookup_middle. rewrite length_app. cbn. lia. }
  destruct (decide (k < length a)%nat) as [H|H].
  { rewrite !lookup_app_l by lia. rewrite !decide_False by lia. done. }
  rewrite !lookup_app_r by lia. destruct (k - length a)%nat as [|[|d]] eqn:E.
  - by rewrite decide_True by lia.
  - rewrite decide_False by lia. by rewrite decide_True by lia.
  - by rewrite !decide_False by lia.
Qed.

Lemma items_length m base size l i x : items m base size l → l !! i = Some x → Z.of_nat (length x) = size.
Proof. intros [H _] Hi. by apply (list.Forall_lookup_1 _ _ _ _ H Hi). Qed.

Lemma items_swap m base size l i j : items m base size l → 0 < size →
  (i < length l)%nat → (j < length l)%nat →
  ∃ m', swap (Z.to_nat size) (base + Z.of_nat i * size) (base + Z.of_nat j * size) m = Ok m' ∧
    items m' base size (exch l i j) ∧ same_outside m m' base (Z.of_nat (length l) * size).
Proof.
  intros Hit Hs Li Lj.
  destruct (lookup_lt_is_Some_2 l i Li) as [x Hi], (lookup_lt_is_Some_2 l j Lj) as [y Hj].
  pose proof (items_length _ _ _ _ _ _ Hit Hi) as Lx. pose proof (items_length _ _ _ _ _ _ Hit Hj) as Ly.
  assert (Hsep : ∀ p q : nat, p = q ∨ base + Z.of_nat p * size + size ≤ base + Z.of_nat q * size ∨
    base + Z.of_nat q * size + size ≤ base + Z.of_nat p * size).
  { intros p q. destruct (Nat.lt_total p q) as [?|[?|?]]; [|by left|]; right; nia. }
  destruct (swap_spec (Z.to_nat size) (base + Z.of_nat i * size) (base + Z.of_nat j * size) m) as (m' & E & Hm').
  { rewrite Z2Nat.id by lia. destruct (Hsep i j) as [->|]; lia. }
  { rewrite Z2Nat.id by lia. intros k Hk.
    destruct (lookup_lt_is_Some_2 x (Z.to_nat k)) as [b Hb]; [lia|].
    destruct (lookup_lt_is_Some_2 y (Z.to_nat k)) as [c Hc]; [lia|].
    destruct (proj2 Hit i x Hi _ _ Hb) as [H1 R1]. destruct (proj2 Hit j y Hj _ _ Hc) as [H2 R2].
    rewrite Z2Nat.id in * by lia. eauto 10. }
  rewrite Z2Nat.id in Hm' by lia.
  exists m'. split; [exact E|]. split; [split|].
  - rewrite exch_perm. apply Hit.
  - intros k z Hk c b Hb. rewrite (exch_lookup _ _ _ _ x y) in Hk by done. rewrite Hm'.
    assert (0 ≤ Z.of_nat c < size) as Rc.
    { apply lookup_lt_Some in Hb. assert (Z.of_nat (length z) = size); [|lia].
      repeat case_decide; [injection Hk as <-; done..|]. by apply (items_length _ _ _ _ _ _ Hit Hk). }
    destruct (decide (k = i)) as [->|Nki].
    { rewrite decide_True by lia. injection Hk as <-. destruct (proj2 Hit j y Hj _ _ Hb) as [H2 R2].
      replace (base + Z.of_nat i * size + Z.of_nat c - _) with (Z.of_nat c) by lia. done. }
    destruct (decide (k = j)) as [->|Nkj].
    { injection Hk as <-.
      rewrite decide_False by (destruct (Hsep j i) as [|]; [congruence|lia]). rewrite decide_True by lia. destruct (proj2 Hit i x Hi _ _ Hb) as [H2 R2].
      replace (base + Z.of_nat j * size + Z.of_nat c - _) with (Z.of_nat c) by lia. done. }
    rewrite decide_False by (destruct (Hsep k i) as [|]; [congruence|lia]).
    rewrite decide_False by (destruct (Hsep k j) as [|]; [congruence|lia]). exact (proj2 Hit k z Hk _ _ Hb).
  - intros k Hk. rewrite Hm'. rewrite !decide_False by nia. done.
Qed.

(** *** The order of the caller's function *)
Section sorted.
Context (compar : Z → Z → mem → res Z) (cmp : list Z → list Z → Z).
Context (base size : Z) (Hsize : 0 < size).
Context (Hcompar : ∀ m a b x y, Z.of_nat (length x) = size → Z.of_nat (length y) = size →
  block m a x → block m b y → compar a b m = Ok (cmp x y)).
Context (Htotal : ∀ x y, 0 < cmp x y → cmp y x ≤ 0) (Htrans : ∀ x y z, cmp x y ≤ 0 → cmp y z ≤ 0 → cmp x z ≤ 0).

Definition below (x y : list Z) : Prop := cmp x y ≤ 0.

(** The item [i] is at [base + i * size]. *)
Lemma compar_items m l i j x y : items m base size l → l !! i = Some x → l !! j = Some y →
  compar (base + Z.of_nat i * size) (base + Z.of_nat j * size) m = Ok (cmp x y).
Proof using Hcompar.
  intros H Hi Hj. apply Hcompar; [by eapply items_length|by eapply items_length|by apply H|by apply H].
Qed.

(** The item [x], behind the sorted [a ++ b] and not above [b], goes between them. *)
Lemma isort_inner_spec fuel a : ∀ x b c m, items m base size (a ++ x :: b ++ c) →
  StronglySorted below (a ++ b) → Forall (below x) b → (length a < fuel)%nat →
  ∃ a' m', isort_inner compar fuel base (base + Z.of_nat (length a) * size) size m = Ok m' ∧
    items m' base size (a' ++ c) ∧ a' ≡ₚ a ++ x :: b ∧ StronglySorted below a' ∧
    same_outside m m' base (Z.of_nat (length (a ++ x :: b ++ c)) * size).
Proof using Hcompar Hsize Htotal Htrans.
  revert fuel. induction a as [|y a IH] using rev_ind; intros fuel x b c m Hit Hs Hb Hf.
  { destruct fuel as [|fuel]; [cbn in Hf; lia|]. cbn [isort_inner length]. rewrite Z.mul_0_l, Z.add_0_r, Z.ltb_irrefl.
    exists (x :: b), m. split_and!; [done|exact Hit|done| |apply same_outside_refl].
    cbn in Hs. by constructor. }
  rewrite length_app in *. cbn [length] in *. destruct fuel as [|fuel]; [lia|]. cbn [isort_inner].
  rewrite (proj2 (Z.ltb_lt _ _)) by nia.
  assert (El : (a ++ [y]) ++ x :: b ++ c = a ++ y :: x :: b ++ c) by by rewrite <- app_assoc.
  replace (base + Z.of_nat (length a + 1) * size - size) with (base + Z.of_nat (length a) * size) by lia.
  replace (Z.of_nat (length a + 1)) with (Z.of_nat (S (length a))) by lia.
  rewrite El in Hit |- *.
  rewrite (compar_items m _ _ _ y x Hit); [|by apply list_lookup_middle|].
  2: { change (y :: x :: b ++ c) with ([y] ++ x :: b ++ c). rewrite app_assoc. apply list_lookup_middle. rewrite length_app. cbn. lia. }
  cbn [rbind]. apply StronglySorted_app in Hs as (Hab & Ha & Hsb).
  destruct (Z.ltb_spec 0 (cmp y x)) as [Hc|Hc].
  - destruct (items_swap m base size _ (length a) (S (length a)) Hit Hsize) as (m1 & E1 & Hit1 & Ho1).
    { rewrite length_app. cbn. lia. } { rewrite length_app. cbn. lia. }
    rewrite E1. cbn [rbind]. rewrite exch_next in Hit1.
    change (y :: b ++ c) with ((y :: b) ++ c) in Hit1.
    apply StronglySorted_app in Ha as (Hay & Ha & _).
    destruct (IH fuel x (y :: b) c m1 Hit1) as (a' & m' & E & Hit' & Hp & Hs' & Ho).
    { apply StronglySorted_app. split_and!; [|done|].
      - intros p q Hp Hq. apply elem_of_cons in Hq as [->|Hq]; [apply Hay; [done|set_solver]|apply Hab; [set_solver|done]].
      - constructor; [done|]. apply list.Forall_forall. intros q Hq. apply Hab; [set_solver|done]. }
    { constructor; [by apply Htotal|done]. } { lia. }
    exists a', m'. split_and!; [exact E|exact Hit'| |done|].
    + rewrite Hp, <- app_assoc. cbn. by rewrite Permutation_swap.
    + rewrite !length_app in *. cbn [length app] in *. rewrite ?length_app in *. cbn [length] in *.
      intros k Hk. rewrite Ho by lia. apply Ho1. lia.
  - exists ((a ++ [y]) ++ x :: b), m.
    split_and!; [done|by rewrite <- !app_assoc|done| |apply same_outside_refl].
    apply StronglySorted_app. split_and!; [|done|by constructor].
    intros p q Hp Hq. apply elem_of_cons in Hq as [->|Hq]; [|by apply Hab].
    apply elem_of_app in Hp as [Hp|Hp%list_elem_of_singleton]; [|by rewrite Hp].
    apply StronglySorted_app in Ha as (Hay & _). apply Htrans with y; [apply Hay; set_solver|done].
Qed.

Lemma isort_spec fuel : ∀ a b n m, items m base size (a ++ b) → StronglySorted below a →
  (length b < fuel)%nat → (length (a ++ b) < n)%nat →
  ∃ l' m', isort compar fuel n base (base + Z.of_nat (length a) * size)
      (base + Z.of_nat (length (a ++ b)) * size - size) size m = Ok m' ∧
    items m' base size l' ∧ l' ≡ₚ a ++ b ∧ StronglySorted below l' ∧
    same_outside m m' base (Z.of_nat (length (a ++ b)) * size).
Proof using Hcompar Hsize Htotal Htrans.
  induction fuel as [|fuel IH]; intros a b n m Hit Hs Hf Hn; [lia|].
  cbn [isort]. rewrite length_app in *. destruct b as [|x b].
  { rewrite (proj2 (Z.leb_gt _ _)) by (cbn [length]; lia). rewrite app_nil_r in *.
    exists a, m. split_and!; [done..|apply same_outside_refl]. }
  cbn [length] in *. rewrite (proj2 (Z.leb_le _ _)) by nia.
  destruct (isort_inner_spec n a x [] b m) as (a' & m1 & E1 & Hit1 & Hp & Hs' & Ho1).
  { exact Hit. } { by rewrite app_nil_r. } { constructor. } { lia. }
  rewrite E1. cbn [rbind]. assert (La : length a' = S (length a)).
  { rewrite (Permutation_length Hp), length_app. cbn. lia. }
  destruct (IH a' b n m1 Hit1 Hs') as (l' & m' & E & Hit' & Hp' & Hs2 & Ho); [lia|rewrite length_app; lia|].
  rewrite !length_app in E, Ho, Ho1. rewrite La in *. cbn [length app] in *. exists l', m'. split_and!.
  - rewrite <- E. f_equal; lia.
  - done.
  - rewrite Hp', Hp, <- app_assoc. done.
  - done.
  - intros k Hk. rewrite Ho by lia. apply Ho1. lia.
Qed.

(** What [dsort] keeps: some order of [l0] is at [base] in [m], and nothing else has
    changed since [m0]. *)
Section kept.
Context (m0 : mem) (l0 : list (list Z)).

Definition arr (m : mem) : Prop :=
  ∃ l, items m base size l ∧ l ≡ₚ l0 ∧ same_outside m0 m base (Z.of_nat (length l0) * size).

Lemma arr_swap m i j : arr m → 0 ≤ i < Z.of_nat (length l0) → 0 ≤ j < Z.of_nat (length l0) →
  ∃ m', swap (Z.to_nat size) (base + i * size) (base + j * size) m = Ok m' ∧ arr m'.
Proof using Hsize.
  intros (l & Hit & Hp & Ho) Hi Hj. pose proof (Permutation_length Hp) as Hl.
  destruct (items_swap m base size l (Z.to_nat i) (Z.to_nat j) Hit Hsize) as (m' & E & Hit' & Ho'); [lia..|].
  rewrite !Z2Nat.id in E by lia. exists m'. split; [exact E|]. exists (exch l (Z.to_nat i) (Z.to_nat j)).
  split_and!; [done|by rewrite exch_perm|]. intros k Hk. rewrite Ho' by (rewrite Hl; lia). by apply Ho.
Qed.

Lemma arr_compar m i j : arr m → 0 ≤ i < Z.of_nat (length l0) → 0 ≤ j < Z.of_nat (length l0) →
  ∃ c, compar (base + i * size) (base + j * size) m = Ok c.
Proof using Hcompar Hsize.
  intros (l & Hit & Hp & Ho) Hi Hj. pose proof (Permutation_length Hp) as Hl.
  destruct (lookup_lt_is_Some_2 l (Z.to_nat i)) as [x Hx]; [lia|].
  destruct (lookup_lt_is_Some_2 l (Z.to_nat j)) as [y Hy]; [lia|].
  exists (cmp x y). rewrite <- (compar_items m l (Z.to_nat i) (Z.to_nat j) x y Hit Hx Hy). f_equal; lia.
Qed.

(** The same, for a call under a test. *)
Lemma arr_swap_if (c : bool) m i j : arr m → 0 ≤ i < Z.of_nat (length l0) → 0 ≤ j < Z.of_nat (length l0) →
  ∃ m', (if c then swap (Z.to_nat size) (base + i * size) (base + j * size) m else Ok m) = Ok m' ∧ arr m'.
Proof using Hsize. intros Hm Hi Hj. destruct c; [by apply arr_swap|by exists m]. Qed.

Lemma part_spec fuel : ∀ lo hi lt gt i m, arr m → 0 ≤ lo → hi < Z.of_nat (length l0) →
  lo < lt → lt ≤ i → gt < hi → i ≤ gt + 1 → gt - i + 1 < Z.of_nat fuel →
  ∃ lt' gt' m', part compar fuel (base + lo * size) (base + hi * size) (base + lt * size)
      (base + gt * size) (base + i * size) size m = Ok (base + lt' * size, base + gt' * size, m') ∧
    arr m' ∧ lo < lt' ∧ lt' ≤ gt' + 1 ∧ gt' < hi.
Proof using Hcompar Hsize.
  induction fuel as [|fuel IH]; intros lo hi lt gt i m Hm Hlo Hhi H1 H2 H3 H4 Hf; [lia|].
  cbn [part]. destruct (Z.leb_spec (base + i * size) (base + gt * size)) as [Hle|Hle].
  2: { exists lt, gt, m. split_and!; [done..| |done]. nia. }
  assert (i ≤ gt) as Hig by nia.
  assert (Hnext : ∀ k, base + k * size + size = base + (k + 1) * size) by (intros; lia).
  destruct (arr_compar m i lo) as [c Ec]; [done|lia..|]. rewrite Ec. cbn [rbind].
  destruct (c <? 0).
  { destruct (arr_swap m lt i) as (m1 & -> & Hm1); [done|lia..|]. cbn [rbind]. rewrite !Hnext.
    apply IH; [done|lia..]. }
  destruct (arr_compar m hi i) as [d Ed]; [done|lia..|]. rewrite Ed. cbn [rbind].
  destruct (d <? 0).
  - destruct (arr_swap m gt i) as (m1 & -> & Hm1); [done|lia..|]. cbn [rbind].
    replace (base + gt * size - size) with (base + (gt - 1) * size) by lia. apply IH; [done|lia..].
  - rewrite Hnext. apply IH; [done|lia..].
Qed.

Context (Hbytes : Z.of_nat (length l0) * size < 2 ^ 30).

Lemma AVG_item lo hi num : 0 ≤ lo → lo ≤ hi → hi < Z.of_nat (length l0) → 0 ≤ num ≤ 2 →
  ∃ k, AVG (base + hi * size) (base + lo * size) num 3 size = base + k * size ∧ lo ≤ k ≤ hi.
Proof using Hsize Hbytes.
  intros H0 H1 H2 Hn. exists (lo + num * (hi - lo) / 3).
  unfold AVG. replace (base + hi * size - (base + lo * size)) with ((hi - lo) * size) by lia.
  assert (0 ≤ (hi - lo) * size ≤ Z.of_nat (length l0) * size) by (split; nia).
  assert (size ≤ Z.of_nat (length l0) * size) by nia.
  assert (0 ≤ num * ((hi - lo) * size) < 2 ^ 32) by (split; nia).
  rewrite !uint_small by lia.
  replace (num * ((hi - lo) * size) / (3 * size)) with (num * (hi - lo) / 3).
  2: { rewrite Z.mul_assoc, Z.div_mul_cancel_r by lia. done. }
  split; [lia|]. pose proof (Z.div_pos (num * (hi - lo)) 3 ltac:(nia) ltac:(lia)).
  pose proof (Z.div_le_upper_bound (num * (hi - lo)) 3 (hi - lo) ltac:(lia) ltac:(nia)). lia.
Qed.

Context (Hbase : 6 * size ≤ base) (Htop : base + Z.of_nat (length l0) * size < 2 ^ 32).

Lemma dsort_spec n : (length l0 ≤ n)%nat → ∀ fuel lo hi m, arr m → 0 ≤ lo → hi < Z.of_nat (length l0) →
  0 ≤ hi - lo + 1 < Z.of_nat fuel →
  ∃ m', dsort compar fuel n (base + lo * size) (base + hi * size) size m = Ok m' ∧ arr m'.
Proof using Hcompar Hsize Hbase Htop Hbytes.
  intros Hn fuel. induction fuel as [|fuel IH]; intros lo hi m Hm Hlo Hhi Hf; [lia|].
  cbn [dsort]. unfold CUTOFF. rewrite uint_small by nia.
  destruct (Z.ltb_spec (base + hi * size - 5 * size) (base + lo * size)) as [|Hlong]; [by exists m|].
  assert (lo + 5 ≤ hi) as H5 by nia.
  assert (Hnext : ∀ k, base + k * size + size = base + (k + 1) * size) by (intros; lia).
  assert (Hprev : ∀ k, base + k * size - size = base + (k - 1) * size) by (intros; lia).
  destruct (AVG_item lo hi 1) as (a1 & -> & Ha1); [lia..|]. destruct (AVG_item lo hi 2) as (a2 & -> & Ha2); [lia..|].
  destruct (arr_swap m lo a1) as (m1 & -> & Hm1); [done|lia..|]. cbn [rbind].
  destruct (arr_swap m1 hi a2) as (m2 & -> & Hm2); [done|lia..|]. cbn [rbind].
  destruct (arr_compar m2 hi lo) as [c ->]; [done|lia..|]. cbn [rbind].
  destruct (arr_swap_if (c <? 0) m2 lo hi) as (m3 & -> & Hm3); [done|lia..|]. cbn [rbind].
  rewrite !Hnext, !Hprev.
  destruct (part_spec n lo hi (lo + 1) (hi - 1) (lo + 1) m3) as (lt & gt & m4 & -> & Hm4 & H1 & H2 & H3); [done|lia..|].
  cbn [rbind]. rewrite !Hnext, !Hprev, !Hnext.
  destruct (arr_swap m4 lo (lt - 1)) as (m5 & -> & Hm5); [done|lia..|]. cbn [rbind].
  destruct (arr_swap m5 hi (gt + 1)) as (m6 & -> & Hm6); [done|lia..|]. cbn [rbind].
  destruct (IH lo (lt - 1 - 1) m6) as (m7 & -> & Hm7); [done|lia..|]. cbn [rbind].
  destruct (arr_compar m7 (lt - 1) (gt + 1)) as [d ->]; [done|lia..|]. cbn [rbind].
  assert (∃ m8, (if d <? 0 then dsort compar fuel n (base + (lt - 1 + 1) * size) (base + (gt + 1 - 1) * size) size m7
    else Ok m7) = Ok m8 ∧ arr m8) as (m8 & -> & Hm8).
  { destruct (d <? 0); [apply IH; [done|lia..]|by exists m7]. }
  cbn [rbind]. apply IH; [done|lia..].
Qed.
End kept.
End sorted.

(** C8: [qsort] sorts: with a comparison function that reads its two items only and orders
    them totally, [n] items of [size] bytes end up in order, the same items as
    before, and no other byte changes; fuel above [n + 1] is enough, for the
    recursion and for each loop.  The partition into three parts does not matter for the
    result, only for the time: the insertion sort runs over the whole array
    afterwards. *)
Theorem qsort_sorts compar (cmp : list Z → list Z → Z) fuel base size l m :
  0 < size → 6 * size ≤ base → base + Z.of_nat (length l) * size < 2 ^ 32 → Z.of_nat (length l) * size < 2 ^ 30 →
  (∀ m a b x y, Z.of_nat (length x) = size → Z.of_nat (length y) = size →
    block m a x → block m b y → compar a b m = Ok (cmp x y)) →
  (∀ x y, 0 < cmp x y → cmp y x ≤ 0) → (∀ x y z, cmp x y ≤ 0 → cmp y z ≤ 0 → cmp x z ≤ 0) →
  items m base size l → (length l + 1 < fuel)%nat →
  ∃ l' m', qsort compar fuel base (Z.of_nat (length l)) size m = Ok m' ∧ items m' base size l' ∧
    l' ≡ₚ l ∧ StronglySorted (λ x y, cmp x y ≤ 0) l' ∧ same_outside m m' base (Z.of_nat (length l) * size).
Proof.
  intros Hs Hb Ht H30 Hc Htot Htr Hit Hf. unfold qsort. rewrite uint_small by lia.
  destruct (dsort_spec compar cmp base size Hs Hc m l H30 Hb Ht fuel ltac:(lia) fuel 0 (Z.of_nat (length l) - 1) m)
    as (m1 & E1 & l1 & Hit1 & Hp1 & Ho1); [exists l; split_and!; [done..|apply same_outside_refl]|lia..|].
  replace (base + 0 * size) with base in E1 by lia.
  replace (base + Z.of_nat (length l) * size - size) with (base + (Z.of_nat (length l) - 1) * size) by lia.
  rewrite E1. cbn [rbind]. pose proof (Permutation_length Hp1) as Hl.
  destruct (isort_spec compar cmp base size Hs Hc Htot Htr fuel [] l1 fuel m1) as (l' & m' & E & Hit' & Hp & Hso & Ho);
    [done|constructor|lia|cbn; lia|].
  cbn [length app] in *. rewrite Hl in *. exists l', m'. split_and!; [|done|by rewrite Hp|done|].
  - rewrite <- E. f_equal; lia.
  - intros k Hk. rewrite Ho by done. by apply Ho1.
Qed.

(** Pairs of a key and a number, by the key. *)
Definition by_key (a b : Z) (m : mem) : res Z := let* x := ld m a in let* y := ld m b in Ok (x - y).
Definition key (x y : list Z) : Z := hd 0 x - hd 0 y.
Definition pairs : list (list Z) := [[5; 0]; [3; 1]; [9; 2]; [3; 3]; [1; 4]; [7; 5]; [2; 6]].
Definition pairs_mem : mem := list_to_map (zip (seqZ 1000 14) (concat pairs)).

Lemma by_key_cmp m a b x y : Z.of_nat (length x) = 2 → Z.of_nat (length y) = 2 →
  block m a x → block m b y → by_key a b m = Ok (key x y).
Proof.
  intros Lx Ly Hx Hy. destruct x as [|c x]; [done|]. destruct y as [|d y]; [done|].
  destruct (Hx 0%nat c eq_refl) as [H1 _]. destruct (Hy 0%nat d eq_refl) as [H2 _].
  rewrite Z.add_0_r in H1, H2. unfold by_key, ld. by rewrite H1, H2.
Qed.

Lemma pairs_items : items pairs_mem 1000 2 pairs.
Proof.
  split; [by repeat constructor|]. intros i x Hi k b Hk.
  assert (i < 7)%nat as Li by (apply lookup_lt_Some in Hi; exact Hi).
  assert (k < 2)%nat as Lk.
  { apply lookup_lt_Some in Hk. do 7 (destruct i as [|i]; [injection Hi as <-; exact Hk|]). done. }
  do 7 (destruct i as [|i]; [injection Hi as <-; do 2 (destruct k as [|k]; [injection Hk as <-; split; [vm_compute; reflexivity|lia]|]); lia|]).
  lia.
Qed.

Lemma qsort_sorts_witness : ∃ l' m', qsort by_key 9 1000 7 2 pairs_mem = Ok m' ∧ items m' 1000 2 l' ∧
  l' ≡ₚ pairs ∧ StronglySorted (λ x y, key x y ≤ 0) l' ∧ same_outside pairs_mem m' 1000 14.
Proof.
  apply (qsort_sorts by_key key 9 1000 2 pairs pairs_mem); [lia|lia|vm_compute; reflexivity|vm_compute; reflexivity| | | |exact pairs_items|vm_compute; lia].
  - intros m a b x y. apply by_key_cmp.
  - unfold key. lia.
  - unfold key. lia.
Defined.
