(* ===== verification/Gdt.v ===== *)
(** * Gdt: segment and interrupt descriptor tables

    [kernel/src/gdt.c] packs segment descriptors into the GDT and
    [kernel/src/drivers/idt.c] packs interrupt gates into the IDT.  The functions
    [desc_base], [desc_limit] .. read a descriptor the way the processor does and
    are the specification.  [gdt_reload] and [idt_load] only execute the load
    instruction and are not modelled; the addresses of the interrupt stubs
    (isr.s) are the parameter of [idt_init]. *)

From S2P Require Import Prelude.

(** ** gdt.h *)
Definition GDT_KERNEL_CODE : Z := 0x08.
Definition GDT_KERNEL_DATA : Z := 0x10.
Definition GDT_USER_CODE : Z := 0x18.
Definition GDT_USER_DATA : Z := 0x20.
Definition GDT_TSS : Z := 0x28.
Definition GDT_KERNEL : Z := 0.
Definition GDT_USER : Z := 3.
Definition GDT_DATA : Z := 0.
Definition GDT_CODE : Z := 1.

(** ** gdt.c *)
Record gdt_entry_t := GdtEntry {
  low_lim : Z;
  low_base : Z;
  mid_base : Z;
  access : Z;
  granularity : Z;
  high_base : Z
}.

Definition gdt_entry_size : Z := 8.

(** The six entries of the table, zero at load time. *)
Definition gdt_t : Type := list gdt_entry_t.
Definition gdt_zero : gdt_t := replicate 6 (GdtEntry 0 0 0 0 0 0).

Definition do_gdt_set_entry (sel base limit acc : Z) (gdt : gdt_t) : res gdt_t :=
  if Z.of_nat (length gdt) * gdt_entry_size <=? sel then Panic
  else
    let big := Z.shiftl 1 20 <=? limit in
    let flags := Z.shiftl 1 6 in
    let flags := if big then Z.lor flags (Z.shiftl 1 7) else flags in
    let limit := if big then limit / 4096 else limit in
    let entry := GdtEntry
      (Z.land limit 0xFFFF)
      (Z.land base 0xFFFF)
      (Z.land (Z.shiftr base 16) 0xFF)
      (u8 acc)
      (Z.lor (Z.land (Z.shiftr limit 16) 0x0F) flags)
      (Z.land (Z.shiftr base 24) 0xFF) in
    deref (aset gdt (sel / gdt_entry_size) entry).

Definition gdt_set_entry (sel base limit priv type : Z) (gdt : gdt_t) : res gdt_t :=
  let access := Z.shiftl 1 7 in
  let access := Z.lor access (Z.shiftl (Z.land priv 3) 5) in
  let access := Z.lor access (Z.shiftl 1 4) in
  let access := Z.lor access (Z.shiftl (Z.land type 1) 3) in
  let access := Z.lor access (Z.shiftl 1 1) in
  do_gdt_set_entry sel base limit access gdt.

Definition gdt_set_tss (sel base limit : Z) (gdt : gdt_t) : res gdt_t :=
  do_gdt_set_entry sel base limit 0x89 gdt.

(** Returns the limit word of the GDT register and the table. *)
Definition gdt_init (gdt : gdt_t) : res (Z * gdt_t) :=
  let size := u16 (Z.of_nat (length gdt) * gdt_entry_size - 1) in
  let* gdt := gdt_set_entry GDT_KERNEL_CODE 0 0xFFFFFFFF GDT_KERNEL GDT_CODE gdt in
  let* gdt := gdt_set_entry GDT_KERNEL_DATA 0 0xFFFFFFFF GDT_KERNEL GDT_DATA gdt in
  let* gdt := gdt_set_entry GDT_USER_CODE 0 0xFFFFFFFF GDT_USER GDT_CODE gdt in
  let* gdt := gdt_set_entry GDT_USER_DATA 0 0xFFFFFFFF GDT_USER GDT_DATA gdt in
  Ok (size, gdt).

(** ** drivers/idt.c *)
Record idt_entry_t := IdtEntry {
  gate_low_base : Z;
  gate_selector : Z;
  gate_zero : Z;
  gate_flags : Z;
  gate_high_base : Z
}.

Definition idt_t : Type := list idt_entry_t.
Definition idt_zero : idt_t := replicate 256 (IdtEntry 0 0 0 0 0).

Definition register_isr (int_no handler : Z) (idt : idt_t) : res idt_t :=
  let entry := IdtEntry (Z.land handler 0xFFFF) GDT_KERNEL_CODE 0 0xEE
                 (Z.land (Z.shiftr handler 16) 0xFFFF) in
  deref (aset idt (u8 int_no) entry).

(** The writes to the interrupt controllers, in program order. *)
Definition irq_remap : list (Z * Z) :=
  [(0x20, 0x11); (0xA0, 0x11); (0x21, 0x20); (0xA1, 0x28); (0x21, 0x04);
   (0xA1, 0x02); (0x21, 0x01); (0xA1, 0x01); (0x21, 0x0); (0xA1, 0x0)].

(** The vectors that [idt_init] registers, in program order. *)
Definition idt_vectors : list Z :=
  [0; 1; 2; 3; 4; 5; 6; 7; 8; 9; 10; 11; 12; 13; 14; 16; 17; 18; 19; 20; 30;
   32; 33; 39].

Fixpoint register_all (isr : Z → Z) (vs : list Z) (idt : idt_t) : res idt_t :=
  match vs with
  | [] => Ok idt
  | v :: vs => let* idt := register_isr v (isr v) idt in register_all isr vs idt
  end.

Definition idt_init (isr : Z → Z) (idt : idt_t) : res (list (Z * Z) * Z * idt_t) :=
  let* idt := register_all isr idt_vectors idt in
  Ok (irq_remap, u16 (Z.of_nat (length idt) * 8 - 1), idt).

(** ** How the processor reads a descriptor *)
Definition desc_base (e : gdt_entry_t) : Z :=
  low_base e + mid_base e * 2 ^ 16 + high_base e * 2 ^ 24.

(** The last valid offset: with bit 7 of [granularity] the 20-bit limit counts
    pages of 4096 bytes. *)
Definition desc_limit (e : gdt_entry_t) : Z :=
  let l := low_lim e + (granularity e mod 16) * 2 ^ 16 in
  if Z.testbit (granularity e) 7 then l * 4096 + 4095 else l.

Definition desc_present (e : gdt_entry_t) : bool := Z.testbit (access e) 7.
Definition desc_dpl (e : gdt_entry_t) : Z := (access e / 2 ^ 5) mod 4.
Definition desc_code (e : gdt_entry_t) : bool := Z.testbit (access e) 3.
Definition desc_32bit (e : gdt_entry_t) : bool := Z.testbit (granularity e) 6.

Definition gate_offset (e : idt_entry_t) : Z :=
  gate_low_base e + gate_high_base e * 2 ^ 16.

(** ** Lemmas *)
Lemma do_gdt_set_entry_spec sel base limit acc gdt :
  length gdt = 6%nat → 0 ≤ sel < 48 → 0 ≤ base < 2 ^ 32 → 0 ≤ limit < 2 ^ 32 →
  ∃ gdt' e, do_gdt_set_entry sel base limit acc gdt = Ok gdt' ∧
    length gdt' = 6%nat ∧
    (∀ i, aget gdt' i = if sel / 8 =? i then Some e else aget gdt i) ∧
    desc_base e = base ∧
    desc_limit e = (if limit <? 2 ^ 20 then limit else limit / 4096 * 4096 + 4095) ∧
    desc_32bit e = true ∧ access e = u8 acc.
Proof.
  intros Hlen Hsel Hb Hl. unfold do_gdt_set_entry, gdt_entry_size.
  replace (Z.of_nat (length gdt) * 8 <=? sel) with false by lia.
  assert (Hi : 0 ≤ sel / 8 < Z.of_nat (length gdt)).
  { rewrite Hlen. split; [apply Z.div_pos; lia|apply Z.div_lt_upper_bound; lia]. }
  set (big := _ <=? limit). set (lim := if big then _ else limit).
  set (e := GdtEntry _ _ _ _ _ _).
  rewrite aset_Some by done. simpl. exists (<[Z.to_nat (sel / 8) := e]> gdt), e.
  split; [done|]. split; [by rewrite length_insert|].
  split. { intros i. by apply aget_insert. }
  assert (Hlim : 0 ≤ lim < 2 ^ 20).
  { unfold lim, big. destruct (Z.leb_spec (Z.shiftl 1 20) limit) as [H|H];
      change (Z.shiftl 1 20) with (2 ^ 20) in H; [|lia].
    split; [apply Z.div_pos; lia|apply Z.div_lt_upper_bound; lia]. }
  assert (Hg : granularity e = (if big then 192 else 64) + lim / 2 ^ 16).
  { unfold e. simpl granularity. rewrite (land_ones_mod _ 4) by done.
    rewrite Z.shiftr_div_pow2 by lia.
    rewrite (Z.mod_small (lim / 2 ^ 16)); cycle 1.
    { split; [apply Z.div_pos; lia|apply Z.div_lt_upper_bound; lia]. }
    assert (Hd : 0 ≤ lim / 2 ^ 16 < 2 ^ 4)
      by (split; [apply Z.div_pos; lia|apply Z.div_lt_upper_bound; lia]).
    rewrite Z.lor_comm.
    destruct big.
    - change (Z.lor (Z.shiftl 1 6) (Z.shiftl 1 7)) with (Z.shiftl 12 4).
      rewrite lor_shiftl by lia. lia.
    - change (Z.shiftl 1 6) with (Z.shiftl 4 4). rewrite lor_shiftl by lia. lia. }
  assert (Hd : 0 ≤ lim / 2 ^ 16 < 16)
    by (split; [apply Z.div_pos; lia|apply Z.div_lt_upper_bound; lia]).
  split_and!.
  - unfold e, desc_base. simpl. pose proof (bytes_of_word base Hb) as H.
    rewrite (land_ones_mod base 16) by done.
    rewrite (land_ones_mod base 8), (land_ones_mod (Z.shiftr base 8) 8) in H by done.
    assert (base mod 2 ^ 16 = base mod 2 ^ 8 + Z.shiftr base 8 mod 2 ^ 8 * 2 ^ 8).
    { rewrite Z.shiftr_div_pow2 by lia. change (2 ^ 16) with (2 ^ 8 * 2 ^ 8).
      rewrite Z.rem_mul_r by lia. lia. }
    lia.
  - unfold desc_limit. rewrite Hg.
    assert (Hlow : low_lim e = lim mod 2 ^ 16)
      by (unfold e; simpl; by rewrite (land_ones_mod lim 16)).
    rewrite Hlow. pose proof (Z.div_mod lim (2 ^ 16) ltac:(lia)).
    assert (Hbit : ∀ d, 0 ≤ d < 16 →
      Z.testbit (192 + d) 7 = true ∧ Z.testbit (64 + d) 7 = false ∧
      (192 + d) mod 16 = d ∧ (64 + d) mod 16 = d).
    { intros d Hd'. range_check (λ d, Z.testbit (192 + d) 7 && negb (Z.testbit (64 + d) 7)
        && ((192 + d) mod 16 =? d) && ((64 + d) mod 16 =? d)) 0 16 d as Hc.
      zbool. done. }
    destruct (Hbit _ Hd) as (Hb1 & Hb2 & Hb3 & Hb4).
    assert (Hbig : big = negb (limit <? 2 ^ 20))
      by (unfold big; change (Z.shiftl 1 20) with (2 ^ 20); lia).
    unfold lim in *. rewrite Hbig in *. destruct (limit <? 2 ^ 20); simpl negb in *;
      cbv iota in *; rewrite ?Hb1, ?Hb2, ?Hb3, ?Hb4; lia.
  - unfold desc_32bit. rewrite Hg.
    range_check (λ d, Z.testbit (192 + d) 6 && Z.testbit (64 + d) 6)
      0 16 (lim / 2 ^ 16) as Hc.
    zbool. by destruct big.
  - done.
Qed.

Lemma gdt_access_fields priv type :
  0 ≤ priv < 4 → 0 ≤ type < 2 →
  let a := u8 (Z.lor (Z.lor (Z.lor (Z.lor (Z.shiftl 1 7)
    (Z.shiftl (Z.land priv 3) 5)) (Z.shiftl 1 4)) (Z.shiftl (Z.land type 1) 3))
    (Z.shiftl 1 1)) in
  Z.testbit a 7 = true ∧ (a / 2 ^ 5) mod 4 = priv ∧ Z.testbit a 3 = (type =? 1).
Proof.
  intros Hp Ht.
  assert (priv = 0 ∨ priv = 1 ∨ priv = 2 ∨ priv = 3) as Hp' by lia.
  assert (type = 0 ∨ type = 1) as Ht' by lia.
  by destruct Hp' as [-> | [-> | [-> | ->]]], Ht' as [-> | ->].
Qed.

(** [gdt_set_entry] on a selector inside the table writes one descriptor
    that the processor reads back as the given base, privilege level and type,
    present and 32-bit; the limit is exact below 1 MiB and rounded up to the end
    of its 4096-byte page above; the other descriptors are unchanged.  A
    selector outside the table panics. *)
Theorem gdt_set_entry_decodes sel base limit priv type gdt :
  length gdt = 6%nat → 0 ≤ sel → 0 ≤ base < 2 ^ 32 → 0 ≤ limit < 2 ^ 32 →
  0 ≤ priv < 4 → 0 ≤ type < 2 →
  (48 ≤ sel → gdt_set_entry sel base limit priv type gdt = Panic) ∧
  (sel < 48 → ∃ gdt' e, gdt_set_entry sel base limit priv type gdt = Ok gdt' ∧
    length gdt' = 6%nat ∧
    (∀ i, aget gdt' i = if sel / 8 =? i then Some e else aget gdt i) ∧
    desc_base e = base ∧
    desc_limit e = (if limit <? 2 ^ 20 then limit else limit / 4096 * 4096 + 4095) ∧
    desc_present e = true ∧ desc_dpl e = priv ∧ desc_code e = (type =? 1) ∧
    desc_32bit e = true).
Proof.
  intros Hlen Hsel Hb Hl Hp Ht. split.
  - intros H48. unfold gdt_set_entry, do_gdt_set_entry, gdt_entry_size.
    by replace (Z.of_nat (length gdt) * 8 <=? sel) with true by lia.
  - intros H48. unfold gdt_set_entry. set (acc := Z.lor _ (Z.shiftl 1 1)).
    destruct (do_gdt_set_entry_spec sel base limit acc gdt)
      as (gdt' & e & E & ? & ? & ? & ? & ? & Ha); [done..|].
    destruct (gdt_access_fields priv type Hp Ht) as (Hx1 & Hx2 & Hx3).
    fold acc in Hx1, Hx2, Hx3.
    exists gdt', e. unfold desc_present, desc_dpl, desc_code. rewrite Ha.
    split_and!; done.
Qed.

(** The user code segment of [gdt_init]: the whole 4 GiB, ring 3. *)
Lemma gdt_set_entry_decodes_witness :
  ∃ gdt e, gdt_set_entry GDT_USER_CODE 0 0xFFFFFFFF GDT_USER GDT_CODE gdt_zero = Ok gdt ∧
    aget gdt 3 = Some e ∧ desc_base e = 0 ∧ desc_limit e = 0xFFFFFFFF ∧
    desc_dpl e = 3 ∧ desc_code e = true.
Proof.
  destruct (proj2 (gdt_set_entry_decodes GDT_USER_CODE 0 0xFFFFFFFF GDT_USER GDT_CODE
    gdt_zero eq_refl ltac:(vm_compute; congruence) ltac:(lia) ltac:(lia)
    ltac:(vm_compute; split; congruence) ltac:(vm_compute; split; congruence))
    ltac:(vm_compute; congruence)) as (gdt & e & E & _ & Hg & Hb & Hl & _ & Hd & Hc & _).
  exists gdt, e. split; [exact E|]. split; [exact (Hg 3)|].
  split; [exact Hb|]. split; [exact Hl|]. split; [exact Hd|exact Hc].
Defined.

(** The table after [gdt_init]: flat code and data segments for both rings. *)
Lemma gdt_init_segments :
  ∃ size gdt, gdt_init gdt_zero = Ok (size, gdt) ∧ size = 47 ∧
    map (λ e, (desc_base e, desc_limit e, desc_dpl e, desc_code e)) (take 5 gdt)
    = [(0, 0, 0, false); (0, 0xFFFFFFFF, 0, true); (0, 0xFFFFFFFF, 0, false);
       (0, 0xFFFFFFFF, 3, true); (0, 0xFFFFFFFF, 3, false)].
Proof. do 2 eexists. split; [by vm_compute|]. split; by vm_compute. Qed.

Lemma register_isr_spec v h idt :
  length idt = 256%nat → 0 ≤ v < 256 → 0 ≤ h < 2 ^ 32 →
  ∃ idt' e, register_isr v h idt = Ok idt' ∧ length idt' = 256%nat ∧
    (∀ i, aget idt' i = if v =? i then Some e else aget idt i) ∧
    gate_offset e = h ∧ gate_selector e = GDT_KERNEL_CODE ∧ gate_flags e = 0xEE.
Proof.
  intros Hlen Hv Hh. unfold register_isr. rewrite (uint_small 8) by lia.
  rewrite aset_Some by lia. simpl. do 2 eexists. split; [done|].
  split; [by rewrite length_insert|]. split; [intros i; by apply aget_insert; lia|].
  unfold gate_offset. simpl. split_and!; [|done..].
  rewrite !(land_ones_mod _ 16) by done. rewrite Z.shiftr_div_pow2 by lia.
  pose proof (Z.div_mod h (2 ^ 16) ltac:(lia)).
  rewrite (Z.mod_small (h / 2 ^ 16)); [lia|].
  split; [apply Z.div_pos; lia|apply Z.div_lt_upper_bound; lia].
Qed.

Lemma register_all_spec isr vs idt :
  length idt = 256%nat → Forall (λ v, 0 ≤ v < 256) vs →
  (∀ v, 0 ≤ isr v < 2 ^ 32) →
  ∃ idt', register_all isr vs idt = Ok idt' ∧ length idt' = 256%nat ∧
    (∀ i, i ∉ vs → aget idt' i = aget idt i) ∧
    (∀ i, i ∈ vs → ∃ e, aget idt' i = Some e ∧ gate_offset e = isr i ∧
       gate_selector e = GDT_KERNEL_CODE ∧ gate_flags e = 0xEE).
Proof.
  intros Hlen Hvs Hisr. revert idt Hlen.
  induction Hvs as [|v vs Hv _ IH]; intros idt Hlen; simpl.
  { exists idt. split_and!; [done..|]. intros i Hi. by apply elem_of_nil in Hi. }
  destruct (register_isr_spec v (isr v) idt Hlen Hv (Hisr v))
    as (idt1 & e & -> & Hlen1 & Hget & He). simpl.
  destruct (IH idt1 Hlen1) as (idt' & -> & Hlen' & Hout & Hin).
  exists idt'. split_and!; [done..| |].
  - intros i Hi. rewrite not_elem_of_cons in Hi. rewrite Hout, Hget by tauto.
    by replace (v =? i) with false by lia.
  - intros i Hi. destruct (decide (i ∈ vs)) as [|Hni]; [by apply Hin|].
    apply elem_of_cons in Hi as [->|]; [|done]. exists e.
    rewrite Hout, Hget, Z.eqb_refl by done. done.
Qed.

(** After [idt_init] every registered vector is a present ring-3 interrupt
    gate in the kernel code segment whose offset is the address of its stub, and
    every other vector is still empty; the controllers are remapped so that the
    hardware interrupts 0..15 arrive at vectors 32..47. *)
Theorem idt_init_gates isr :
  (∀ v, 0 ≤ isr v < 2 ^ 32) →
  ∃ idt, idt_init isr idt_zero = Ok (irq_remap, 2047, idt) ∧
    (∀ v, v ∈ idt_vectors → ∃ e, aget idt v = Some e ∧ gate_offset e = isr v ∧
       gate_selector e = GDT_KERNEL_CODE ∧ gate_flags e = 0xEE) ∧
    (∀ v, v ∉ idt_vectors → aget idt v = aget idt_zero v) ∧
    (0x21, 32) ∈ irq_remap ∧ (0xA1, 40) ∈ irq_remap.
Proof.
  intros Hisr. unfold idt_init.
  destruct (register_all_spec isr idt_vectors idt_zero) as (idt & -> & Hlen & Hout & Hin).
  - apply length_replicate.
  - by apply (bool_decide_unpack (Forall (λ v, 0 ≤ v < 256) idt_vectors)).
  - done.
  - simpl. rewrite Hlen. exists idt. split; [done|]. split; [exact Hin|].
    split; [exact Hout|]. unfold irq_remap. split; set_solver.
Qed.

Lemma idt_init_gates_witness :
  ∃ idt e, idt_init (λ v, 0x100000 + v * 16) idt_zero = Ok (irq_remap, 2047, idt) ∧
    aget idt 33 = Some e ∧ gate_offset e = 0x100210.
Proof.
  destruct (idt_init_gates (λ v, (0x100000 + v * 16) mod 2 ^ 32))
    as (idt & E & Hin & _).
  { intros v. apply Z.mod_pos_bound. lia. }
  destruct (Hin 33) as (e & He & Ho & _); [set_solver by lia|].
  exists idt, e. split; [exact E|]. split; [exact He|exact Ho].
Defined.
