(* ===== verification/Time.v ===== *)
(** * Time: broken-down time, the clock chip, gmtime

    [kernel/lib/mktime.c] (the C library has the same file as
    [rlibc/time/mktime.c]), [kernel/src/drivers/time.c], [rlibc/time/gmtime.c].
    The calendar functions [leap], [days_before_year], [epoch_days] are the
    specification.  Signed overflow wraps, as GCC compiles it on i386. *)

From S2P Require Import Prelude.

(** ** struct tm (time.h) *)
Record tm := Tm {
  tm_sec : Z;
  tm_min : Z;
  tm_hour : Z;
  tm_mday : Z;
  tm_mon : Z;
  tm_year : Z;
  tm_wday : Z;
  tm_yday : Z;
  tm_isdst : Z
}.

(** ** mktime.c *)
Definition mdays : list (list Z) :=
  [[31; 28; 31; 30; 31; 30; 31; 31; 30; 31; 30; 31];
   [31; 29; 31; 30; 31; 30; 31; 31; 30; 31; 30; 31]].

Definition isleap (y : Z) : bool :=
  ((Z.rem y 4 =? 0) && negb (Z.rem y 100 =? 0)) || (Z.rem y 400 =? 0).

(** [mdays[isleap(y)][m]] *)
Definition month_days (y m : Z) : res Z :=
  let* row := deref (aget mdays (if isleap y then 1 else 0)) in deref (aget row m).

Definition dow_table : list Z := [0; 3; 2; 5; 0; 3; 5; 1; 4; 6; 2; 4].

Definition get_dow (y m d : Z) : res Z :=
  let y := if m <? 2 then y - 1 else y in
  let* t := deref (aget dow_table m) in
  Ok (Z.rem (y + Z.quot y 4 - Z.quot y 100 + Z.quot y 400 + t + d) 7).

(** The first loop: carry days into months and months into years.  Every turn
    takes at least 28 days off, so [tm_mday + 1] turns are enough. *)
Fixpoint carry_days (fuel : nat) (t : tm) (mon : Z) : res tm :=
  match fuel with
  | O => Fuel
  | S fuel =>
      let* d := month_days (tm_year t) (Z.rem mon 12) in
      if d <? tm_mday t then
        let m := tm_mon t + 1 in
        let y := tm_year t in
        let md := tm_mday t - d in
        carry_days fuel
          (if 12 <=? m
           then Tm (tm_sec t) (tm_min t) (tm_hour t) md (m - 12) (y + 1)
                   (tm_wday t) (tm_yday t) (tm_isdst t)
           else Tm (tm_sec t) (tm_min t) (tm_hour t) md m y
                   (tm_wday t) (tm_yday t) (tm_isdst t))
          (mon + 1)
      else Ok t
  end.

(** The second loop. *)
Fixpoint carry_months (fuel : nat) (t : tm) : res tm :=
  match fuel with
  | O => Fuel
  | S fuel =>
      if 12 <=? tm_mon t then
        carry_months fuel
          (Tm (tm_sec t) (tm_min t) (tm_hour t) (tm_mday t) (tm_mon t - 12)
              (tm_year t + 1) (tm_wday t) (tm_yday t) (tm_isdst t))
      else Ok t
  end.

Definition mktime (tmp : tm) : res (Z * tm) :=
  let year := s32 (tm_year tmp + 1900) in
  let sec := Z.rem (tm_sec tmp) 60 in
  let min := s32 (tm_min tmp + Z.quot (tm_sec tmp) 60) in
  let hour := s32 (tm_hour tmp + Z.quot min 60) in
  let min := Z.rem min 60 in
  let mday := s32 (tm_mday tmp + Z.quot hour 24) in
  let hour := Z.rem hour 24 in
  let t := Tm sec min hour mday (tm_mon tmp) year (tm_wday tmp) (tm_yday tmp)
              (tm_isdst tmp) in
  let* t := carry_days (S (Z.to_nat mday)) t (tm_mon tmp) in
  let* t := carry_months (S (Z.to_nat (tm_mon t))) t in
  let* wday := get_dow (tm_year t) (tm_mon t) (tm_mday t) in
  let* yday := for_range 0 (tm_mon t)
    (λ m yday, let* d := month_days (tm_year t) m in Ok (yday + d)) (tm_mday t) in
  let ret := tm_sec t in
  let ret := s32 (ret + s32 (60 * tm_min t)) in
  let ret := s32 (ret + s32 (60 * 60 * tm_hour t)) in
  let ret := s32 (ret + s32 (24 * 60 * 60 * (yday - 1))) in
  let y := tm_year t - 1 in
  let leaps := Z.quot y 4 - Z.quot y 100 + Z.quot y 400 in
  let leaps := leaps - (Z.quot 1970 4 - Z.quot 1970 100 + Z.quot 1970 400) in
  let ret := s32 (ret + s32 (365 * 24 * 60 * 60 * (tm_year t - 1970))) in
  let ret := s32 (ret + s32 (24 * 60 * 60 * leaps)) in
  Ok (ret, Tm (tm_sec t) (tm_min t) (tm_hour t) (tm_mday t) (tm_mon t)
              (tm_year t - 1900) wday yday (tm_isdst t)).

(** ** gmtime.c: the result lives in a static [struct tm] *)
Definition gmtime_static : tm := Tm 0 0 0 1 0 70 0 0 (-1).

Definition gmtime (timer : Z) (ret : tm) : res tm :=
  let ret := Tm timer (tm_min ret) (tm_hour ret) (tm_mday ret) (tm_mon ret)
                (tm_year ret) (tm_wday ret) (tm_yday ret) (tm_isdst ret) in
  let* (_, ret) := mktime ret in
  Ok ret.

(** ** drivers/time.c: the CMOS clock

    [rd k i] is what the chip answers to the [k]-th read, of register [i]. *)
Section rtc.
Context (rd : nat → Z → Z).

Definition cmos_read (index : Z) (k : nat) : Z * nat := (u8 (rd k index), S k).

(** Busy-wait on bit 7 of status register A. *)
Fixpoint rtc_wait (fuel : nat) (k : nat) : res nat :=
  match fuel with
  | O => Fuel
  | S fuel =>
      let (v, k) := cmos_read 0x0A k in
      if has v 0x80 then rtc_wait fuel k else Ok k
  end.

(** Seconds, minutes, hours, day of month, month, year. *)
Definition rtc_regs : list Z := [0x00; 0x02; 0x04; 0x07; 0x08; 0x09].

Fixpoint rtc_read_regs (regs : list Z) (k : nat) : list Z * nat :=
  match regs with
  | [] => ([], k)
  | r :: regs =>
      let (v, k) := cmos_read r k in
      let (vs, k) := rtc_read_regs regs k in (v :: vs, k)
  end.

Definition rtc_snapshot (fuel : nat) (k : nat) : res (list Z * nat) :=
  let* k := rtc_wait fuel k in Ok (rtc_read_regs rtc_regs k).

(** The do-while loop: read again until two snapshots agree. *)
Fixpoint rtc_stable (fuel : nat) (cur : list Z) (k : nat) : res (list Z * nat) :=
  match fuel with
  | O => Fuel
  | S fuel' =>
      let last := cur in
      let* (cur, k) := rtc_snapshot fuel k in
      if bool_decide (cur = last) then Ok (cur, k) else rtc_stable fuel' cur k
  end.

Definition bcd (v : Z) : Z := Z.land v 0x0F + Z.quot v 16 * 10.

(** The conversions after the loop, on the six registers and status register B. *)
Definition rtc_decode (cur : list Z) (status_reg_b : Z) : res tm :=
  match cur with
  | [sec; min; hour; mday; mon; year] =>
      let b := negb (has status_reg_b 0x04) in
      let cv v := if b then bcd v else v in
      let hour := cv hour in
      let hour := if negb (has status_reg_b 0x02) && has hour 0x80
                  then Z.rem (Z.land hour 0x7F + 12) 24 else hour in
      Ok (Tm (cv sec) (cv min) hour (cv mday) (cv mon - 1) (cv year + 100) 0 0 0)
  | _ => Fault
  end.

Definition read_rtc (fuel : nat) (k : nat) : res (tm * nat) :=
  let* (cur, k) := rtc_snapshot fuel k in
  let* (cur, k) := rtc_stable fuel cur k in
  let (b, k) := cmos_read 0x0B k in
  let* t := rtc_decode cur b in
  Ok (t, k).

Definition time (fuel : nat) (k : nat) : res (Z * nat) :=
  let* (t, k) := read_rtc fuel k in
  let* (ut, _) := mktime t in
  Ok (ut, k).
End rtc.

(** ** The calendar *)
Definition leap (y : Z) : bool :=
  ((y mod 4 =? 0) && negb (y mod 100 =? 0)) || (y mod 400 =? 0).

Definition month_len (y m : Z) : Z :=
  if m =? 1 then (if leap y then 29 else 28)
  else if (m =? 3) || (m =? 5) || (m =? 8) || (m =? 10) then 30 else 31.

Definition year_len (y : Z) : Z := if leap y then 366 else 365.

(** Days of the first [n] years from 1970. *)
Fixpoint days_before_year (n : nat) : Z :=
  match n with
  | O => 0
  | S n => days_before_year n + year_len (1970 + Z.of_nat n)
  end.

(** Days of the first [m] months of year [y]. *)
Fixpoint days_before_month (y : Z) (m : nat) : Z :=
  match m with
  | O => 0
  | S m => days_before_month y m + month_len y (Z.of_nat m)
  end.

(** Days from 1 January 1970 to day [d] (from 1) of month [m] (from 0). *)
Definition epoch_days (y m d : Z) : Z :=
  days_before_year (Z.to_nat (y - 1970)) + days_before_month y (Z.to_nat m) + (d - 1).

(** The instant that a [struct tm] stands for; its fields may be out of range. *)
Definition tm_seconds (t : tm) : Z :=
  86400 * epoch_days (tm_year t + 1900) (tm_mon t) (tm_mday t)
  + 3600 * tm_hour t + 60 * tm_min t + tm_sec t.

(** In range, as POSIX requires of the result. *)
Definition tm_normal (t : tm) : Prop :=
  0 ≤ tm_sec t < 60 ∧ 0 ≤ tm_min t < 60 ∧ 0 ≤ tm_hour t < 24 ∧
  0 ≤ tm_mon t < 12 ∧ 1 ≤ tm_mday t ≤ month_len (tm_year t + 1900) (tm_mon t).

(** ** Lemmas *)
Lemma isleap_leap y : 0 ≤ y → isleap y = leap y.
Proof. intros. unfold isleap, leap. by rewrite !Z.rem_mod_nonneg by lia. Qed.

Lemma month_days_spec y m : 0 ≤ y → 0 ≤ m < 12 → month_days y m = Ok (month_len y m).
Proof.
  intros Hy Hm. unfold month_days, month_len. rewrite isleap_leap by done.
  range_check (λ m, bool_decide (deref (aget [31; 28; 31; 30; 31; 30; 31; 31; 30; 31; 30; 31] m)
    = Ok (if m =? 1 then 28 else if (m =? 3) || (m =? 5) || (m =? 8) || (m =? 10) then 30 else 31)))
    0 12 m as H0.
  range_check (λ m, bool_decide (deref (aget [31; 29; 31; 30; 31; 30; 31; 31; 30; 31; 30; 31] m)
    = Ok (if m =? 1 then 29 else if (m =? 3) || (m =? 5) || (m =? 8) || (m =? 10) then 30 else 31)))
    0 12 m as H1.
  apply bool_decide_eq_true in H0, H1.
  destruct (leap y); simpl; [by rewrite H1|by rewrite H0].
Qed.

Lemma month_len_bounds y m : 28 ≤ month_len y m ≤ 31.
Proof. unfold month_len. repeat cif; lia. Qed.

Lemma year_months y : days_before_month y 12 = year_len y.
Proof. cbn. unfold month_len, year_len. simpl. destruct (leap y); reflexivity. Qed.

Lemma days_before_year_S y :
  1970 ≤ y →
  days_before_year (Z.to_nat (y + 1 - 1970))
  = days_before_year (Z.to_nat (y - 1970)) + year_len y.
Proof.
  intros Hy. replace (Z.to_nat (y + 1 - 1970)) with (S (Z.to_nat (y - 1970))) by lia.
  cbn [days_before_year]. by replace (1970 + Z.of_nat _) with y by lia.
Qed.

Lemma epoch_days_next_month y m d :
  1970 ≤ y → 0 ≤ m < 12 →
  epoch_days y m d =
    if m =? 11 then epoch_days (y + 1) 0 (d - month_len y m)
    else epoch_days y (m + 1) (d - month_len y m).
Proof.
  intros Hy Hm. unfold epoch_days. destruct (Z.eqb_spec m 11) as [->|].
  - rewrite days_before_year_S by done. rewrite <- year_months.
    change (Z.to_nat 11) with 11%nat. change (Z.to_nat 0) with 0%nat.
    change (days_before_month y 12)
      with (days_before_month y 11 + month_len y 11).
    change (days_before_month (y + 1) 0) with 0. lia.
  - replace (Z.to_nat (m + 1)) with (S (Z.to_nat m)) by lia.
    cbn [days_before_month]. rewrite Z2Nat.id by lia. lia.
Qed.

(** The first loop moves days without changing the day it stands for. *)
Lemma carry_days_spec fuel t mon :
  1970 ≤ tm_year t → 0 ≤ tm_mon t < 12 → 1 ≤ tm_mday t →
  Z.rem mon 12 = tm_mon t → 0 ≤ mon → tm_mday t < Z.of_nat fuel →
  ∃ t', carry_days fuel t mon = Ok t' ∧
    tm_sec t' = tm_sec t ∧ tm_min t' = tm_min t ∧ tm_hour t' = tm_hour t ∧
    tm_isdst t' = tm_isdst t ∧
    0 ≤ tm_mon t' < 12 ∧ 1 ≤ tm_mday t' ≤ month_len (tm_year t') (tm_mon t') ∧
    tm_year t ≤ tm_year t' ≤ tm_year t + tm_mday t ∧
    epoch_days (tm_year t') (tm_mon t') (tm_mday t')
    = epoch_days (tm_year t) (tm_mon t) (tm_mday t).
Proof.
  revert t mon. induction fuel as [|fuel IH]; intros t mon Hy Hm Hd Hmon Hmon0 Hfuel; [lia|].
  cbn [carry_days]. rewrite Hmon, month_days_spec by lia. cbn [rbind].
  pose proof (month_len_bounds (tm_year t) (tm_mon t)) as Hlen.
  destruct (Z.ltb_spec (month_len (tm_year t) (tm_mon t)) (tm_mday t)) as [Hlt|Hge].
  2:{ exists t. split_and!; try done; lia. }
  pose proof (epoch_days_next_month (tm_year t) (tm_mon t) (tm_mday t) Hy Hm) as Hnext.
  rewrite Z.rem_mod_nonneg in Hmon by lia.
  pose proof (Z.div_mod mon 12 ltac:(lia)) as Hdm.
  destruct (Z.leb_spec 12 (tm_mon t + 1)) as [H12|H12].
  - replace (tm_mon t =? 11) with true in Hnext by lia.
    set (t1 := Tm _ _ _ _ _ _ _ _ _).
    destruct (IH t1 (mon + 1)) as (t' & -> & ? & ? & ? & ? & ? & ? & ? & He);
      unfold t1; simpl; try lia.
    { rewrite Z.rem_mod_nonneg by lia.
      replace (mon + 1) with (0 + (mon / 12 + 1) * 12) by lia.
      rewrite Z_mod_plus_full. change (0 mod 12) with 0. lia. }
    unfold t1 in *; simpl in *.
    exists t'. split_and!; try done; try lia. rewrite He, Hnext.
    by replace (tm_mon t + 1 - 12) with 0 by lia.
  - replace (tm_mon t =? 11) with false in Hnext by lia.
    set (t1 := Tm _ _ _ _ _ _ _ _ _).
    destruct (IH t1 (mon + 1)) as (t' & -> & ? & ? & ? & ? & ? & ? & ? & He);
      unfold t1; simpl; try lia.
    { rewrite Z.rem_mod_nonneg by lia.
      replace (mon + 1) with (tm_mon t + 1 + mon / 12 * 12) by lia.
      rewrite Z_mod_plus_full. apply Z.mod_small. lia. }
    unfold t1 in *; simpl in *.
    exists t'. split_and!; try done; try lia.
Qed.

Lemma carry_months_done n t :
  tm_mon t < 12 → carry_months (S n) t = Ok t.
Proof. intros. simpl. by replace (12 <=? tm_mon t) with false by lia. Qed.

(** The leap days up to and including year [y]. *)
Definition leap_count (y : Z) : Z := y / 4 - y / 100 + y / 400.

Lemma leap_count_step y : 1 ≤ y →
  leap_count y = leap_count (y - 1) + (if leap y then 1 else 0).
Proof.
  intros Hy. unfold leap_count, leap.
  assert (Hdiv : ∀ n, 0 < n → y / n = (y - 1) / n + (if y mod n =? 0 then 1 else 0)).
  { intros n Hn. pose proof (Z.div_mod y n ltac:(lia)) as H.
    pose proof (Z.mod_pos_bound y n Hn). destruct (Z.eqb_spec (y mod n) 0) as [E|E].
    - replace (y - 1) with ((n - 1) + (y / n - 1) * n) by lia.
      rewrite Z.div_add, (Z.div_small (n - 1)) by lia. lia.
    - replace (y - 1) with ((y mod n - 1) + y / n * n) by lia.
      rewrite Z.div_add, (Z.div_small (y mod n - 1)) by lia. lia. }
  rewrite (Hdiv 4), (Hdiv 100), (Hdiv 400) by lia.
  assert (H100 : y mod 100 = 0 → y mod 4 = 0).
  { intros E. apply Z.mod_divide in E; [|lia]. apply Z.mod_divide; [lia|].
    etransitivity; [|exact E]. by exists 25. }
  assert (H400 : y mod 400 = 0 → y mod 100 = 0).
  { intros E. apply Z.mod_divide in E; [|lia]. apply Z.mod_divide; [lia|].
    etransitivity; [|exact E]. by exists 4. }
  destruct (Z.eqb_spec (y mod 4) 0), (Z.eqb_spec (y mod 100) 0),
    (Z.eqb_spec (y mod 400) 0); simpl; try lia; exfalso; auto.
Qed.

Lemma days_before_year_closed y : 1970 ≤ y →
  days_before_year (Z.to_nat (y - 1970))
  = 365 * (y - 1970) + (leap_count (y - 1) - leap_count 1969).
Proof.
  intros Hy. remember (Z.to_nat (y - 1970)) as n eqn:En.
  revert y Hy En. induction n as [|n IH]; intros y Hy En.
  - by replace y with 1970 by lia.
  - cbn [days_before_year].
    rewrite (IH (y - 1)) by lia. replace (1970 + Z.of_nat n) with (y - 1) by lia.
    rewrite (leap_count_step (y - 1)) by lia. unfold year_len. destruct (leap (y - 1)); lia.
Qed.

Lemma leap_count_pos y : 1969 ≤ y → 477 ≤ leap_count y.
Proof. intros. unfold leap_count. Z.div_mod_to_equations. lia. Qed.

Lemma quot_leap_count z : 0 ≤ z →
  z + Z.quot z 4 - Z.quot z 100 + Z.quot z 400 = z + leap_count z.
Proof. intros. unfold leap_count. rewrite !Z.quot_div_nonneg by lia. lia. Qed.

Lemma month_cases m : 0 ≤ m < 12 →
  m = 0 ∨ m = 1 ∨ m = 2 ∨ m = 3 ∨ m = 4 ∨ m = 5 ∨ m = 6 ∨ m = 7 ∨ m = 8 ∨
  m = 9 ∨ m = 10 ∨ m = 11.
Proof. lia. Qed.

Lemma month_sum_S y m : 0 ≤ m →
  days_before_month y (Z.to_nat (m + 1))
  = days_before_month y (Z.to_nat m) + month_len y m.
Proof.
  intros. replace (Z.to_nat (m + 1)) with (S (Z.to_nat m)) by lia.
  cbn [days_before_month]. by rewrite Z2Nat.id.
Qed.

(** The day of the week: 1 January 1970 was a Thursday. *)
Lemma get_dow_spec y m d : 1970 ≤ y → 0 ≤ m < 12 → 1 ≤ d →
  get_dow y m d = Ok ((4 + epoch_days y m d) mod 7).
Proof.
  intros Hy Hm Hd. unfold get_dow, epoch_days.
  rewrite days_before_year_closed by done.
  pose proof (leap_count_step y ltac:(lia)) as Hs.
  pose proof (leap_count_pos (y - 1) ltac:(lia)) as Hnn.
  change (leap_count 1969) with 477.
  destruct (month_cases m Hm) as [->|[->|[->|[->|[->|[->|[->|[->|[->|[->|[->| ->]]]]]]]]]]];
    match goal with |- context [deref ?a] =>
      let v := eval vm_compute in a in change a with v end;
    match goal with |- context [?a <? ?b] =>
      let v := eval vm_compute in (a <? b) in change (a <? b) with v end;
    cbn [deref rbind]; rewrite quot_leap_count by lia; rewrite ?Hs;
    match goal with |- context [Z.to_nat ?a] =>
      let v := eval vm_compute in (Z.to_nat a) in change (Z.to_nat a) with v end;
    cbn [days_before_month]; unfold month_len;
    repeat match goal with |- context [Z.of_nat ?a =? ?b] =>
      let v := eval vm_compute in (Z.of_nat a =? b) in change (Z.of_nat a =? b) with v end;
    cbn [orb]; f_equal; rewrite Z.rem_mod_nonneg by (destruct (leap y); lia);
    destruct (leap y); Z.div_mod_to_equations; lia.
Qed.

(** The loop over the months of the year, from the day of the month. *)
Lemma yday_loop y m d : 1970 ≤ y → 0 ≤ m < 12 →
  for_range 0 m (λ m yday, let* d := month_days y m in Ok (yday + d)) d
  = Ok (days_before_month y (Z.to_nat m) + d).
Proof.
  intros Hy Hm.
  destruct (for_range_inv (λ i s, s = days_before_month y (Z.to_nat i) + d) 0 m
    (λ m yday, let* d := month_days y m in Ok (yday + d)) d) as (s & E & Hs);
    [lia|done| |by rewrite E, Hs].
  intros j s Hj ->. rewrite month_days_spec by lia. cbn [rbind].
  eexists. split; [done|]. rewrite month_sum_S by lia. lia.
Qed.

(** The sum of the seconds, wrapped at every step, is the wrapped sum. *)
Lemma seconds_sum y m d hour min sec : 1970 ≤ y →
  s32 (s32 (s32 (s32 (s32 (sec + s32 (60 * min)) + s32 (60 * 60 * hour))
    + s32 (24 * 60 * 60 * (days_before_month y (Z.to_nat m) + d - 1)))
    + s32 (365 * 24 * 60 * 60 * (y - 1970)))
    + s32 (24 * 60 * 60 * (Z.quot (y - 1) 4 - Z.quot (y - 1) 100 + Z.quot (y - 1) 400
                           - (Z.quot 1970 4 - Z.quot 1970 100 + Z.quot 1970 400))))
  = s32 (86400 * epoch_days y m d + 3600 * hour + 60 * min + sec).
Proof.
  intros Hy. rewrite !Z.quot_div_nonneg by lia.
  rewrite !sint_add_r by done.
  repeat (rewrite sint_add_l by done; rewrite <- Z.add_assoc).
  unfold epoch_days. rewrite days_before_year_closed by done.
  unfold leap_count. f_equal.
  change (1969 / 4 - 1969 / 100 + 1969 / 400) with 477.
  change (1970 / 4 - 1970 / 100 + 1970 / 400) with 477. lia.
Qed.

(** The fields [mktime] is used with: none negative, and no sum overflows. *)
Definition tm_in_range (t : tm) : Prop :=
  0 ≤ tm_sec t < 2 ^ 31 ∧ 0 ≤ tm_min t < 2 ^ 30 ∧ 0 ≤ tm_hour t < 2 ^ 30 ∧
  1 ≤ tm_mday t < 2 ^ 30 ∧ 0 ≤ tm_mon t < 12 ∧ 70 ≤ tm_year t < 2 ^ 30.

(** What [mktime] stores in [*tmp]. *)
Definition tm_canonical (t t' : tm) : Prop :=
  tm_normal t' ∧ tm_year t ≤ tm_year t' ∧ tm_seconds t' = tm_seconds t ∧ tm_isdst t' = tm_isdst t ∧
  tm_wday t' = (4 + epoch_days (tm_year t' + 1900) (tm_mon t') (tm_mday t')) mod 7 ∧
  tm_yday t' = days_before_month (tm_year t' + 1900) (Z.to_nat (tm_mon t')) + tm_mday t'.

(** The carries of seconds, minutes and hours. *)
Lemma carry_split sec min hour : 0 ≤ sec → 0 ≤ min → 0 ≤ hour →
  let min' := min + sec / 60 in
  let hour' := hour + min' / 60 in
  86400 * (hour' / 24) + 3600 * (hour' mod 24) + 60 * (min' mod 60) + sec mod 60
  = 3600 * hour + 60 * min + sec.
Proof. intros. subst min' hour'. Z.div_mod_to_equations. lia. Qed.

Lemma epoch_days_add y m d k : epoch_days y m (d + k) = epoch_days y m d + k.
Proof. unfold epoch_days. lia. Qed.

Lemma days_before_month_nonneg y m : 0 ≤ days_before_month y m.
Proof.
  induction m as [|m IH]; simpl; [done|].
  pose proof (month_len_bounds y (Z.of_nat m)). lia.
Qed.

Lemma days_before_year_nonneg n : 0 ≤ days_before_year n.
Proof. induction n as [|n IH]; simpl; [done|]. unfold year_len. cif; lia. Qed.

Lemma tm_seconds_nonneg t : tm_in_range t → 0 ≤ tm_seconds t.
Proof.
  intros (? & ? & ? & ? & ? & ?). unfold tm_seconds, epoch_days.
  pose proof (days_before_month_nonneg (tm_year t + 1900) (Z.to_nat (tm_mon t))).
  pose proof (days_before_year_nonneg (Z.to_nat (tm_year t + 1900 - 1970))). lia.
Qed.

#[local] Arguments carry_days : simpl never.
#[local] Arguments carry_months : simpl never.
#[local] Arguments get_dow : simpl never.

Lemma mktime_spec t : tm_in_range t →
  ∃ t', mktime t = Ok (s32 (tm_seconds t), t') ∧ tm_canonical t t'.
Proof.
  intros (Hs & Hmi & Hh & Hd & Hmo & Hy). unfold mktime.
  pose proof (carry_split (tm_sec t) (tm_min t) (tm_hour t)) as Hcs. cbv zeta in *.
  rewrite (Z.quot_div_nonneg (tm_sec t)), (Z.rem_mod_nonneg (tm_sec t)) by lia.
  assert (Hq1 : 0 ≤ tm_sec t / 60 < 2 ^ 26) by (Z.div_mod_to_equations; lia).
  rewrite (sint_small 32 (tm_min t + _)) by lia.
  set (mi := tm_min t + tm_sec t / 60) in *.
  rewrite (Z.quot_div_nonneg mi), (Z.rem_mod_nonneg mi) by lia.
  assert (Hq2 : 0 ≤ mi / 60 < 2 ^ 26) by (Z.div_mod_to_equations; lia).
  rewrite (sint_small 32 (tm_hour t + _)) by lia.
  set (ho := tm_hour t + mi / 60) in *.
  rewrite (Z.quot_div_nonneg ho), (Z.rem_mod_nonneg ho) by lia.
  assert (Hq3 : 0 ≤ ho / 24 < 2 ^ 27) by (Z.div_mod_to_equations; lia).
  rewrite (sint_small 32 (tm_mday t + _)), (sint_small 32 (tm_year t + 1900)) by lia.
  set (t0 := Tm _ _ _ _ _ _ _ _ _).
  destruct (carry_days_spec (S (Z.to_nat (tm_mday t + ho / 24))) t0 (tm_mon t))
    as (t1 & E1 & Hsec & Hmin & Hhour & Hdst & Hm1 & Hd1 & Hy1 & Hep);
    unfold t0; simpl; try lia.
  { rewrite Z.rem_mod_nonneg, Z.mod_small; lia. }
  unfold t0 in *; simpl in *. rewrite E1. cbn [rbind].
  rewrite carry_months_done by lia. cbn [rbind].
  rewrite get_dow_spec by lia. cbn [rbind]. rewrite yday_loop by lia. cbn [rbind].
  rewrite seconds_sum by lia. eexists. split.
  - f_equal. f_equal. rewrite Hep, Hsec, Hmin, Hhour. rewrite epoch_days_add.
    unfold tm_seconds. f_equal. lia.
  - unfold tm_canonical, tm_normal, tm_seconds. simpl.
    rewrite !Z.sub_add, Hsec, Hmin, Hhour, Hep, Hdst, epoch_days_add.
    pose proof (Z.mod_pos_bound (tm_sec t) 60). pose proof (Z.mod_pos_bound mi 60).
    pose proof (Z.mod_pos_bound ho 24). split_and!; try lia; try done.
Qed.

(** C38: [mktime], on fields that are not negative, a month from 0 to 11 and a
    year from 1970: it returns the seconds since the epoch of the instant that
    the fields stand for (wrapped to 32 bits, so exact before 2038), whatever
    excess the seconds, minutes, hours and days have, and it leaves in [*tmp] the
    same instant with every field in its range, and the right day of the week, but for
    [tm_yday], which counts from 1 where [time.h] documents 0 to 365 ([yday_one]). *)
Theorem mktime_correct t (Hr : tm_in_range t) :
  ∃ ret t', mktime t = Ok (ret, t') ∧ tm_canonical t t' ∧
    ret = s32 (tm_seconds t) ∧ (tm_seconds t < 2 ^ 31 → ret = tm_seconds t).
Proof.
  destruct (mktime_spec t Hr) as (t' & E & Hc).
  exists (s32 (tm_seconds t)), t'. split_and!; [done..|].
  intros Hlt. apply sint_small; [done|]. split; [|lia].
  pose proof (tm_seconds_nonneg t Hr). lia.
Qed.

(** 29 February 2024, 12:34:56, given as 28 February and 24 hours more. *)
Example mktime_correct_witness :
  tm_in_range (Tm 56 34 36 28 1 124 0 0 0) ∧
  ∃ ret t', mktime (Tm 56 34 36 28 1 124 0 0 0) = Ok (ret, t') ∧
    tm_canonical (Tm 56 34 36 28 1 124 0 0 0) t' ∧
    ret = s32 (tm_seconds (Tm 56 34 36 28 1 124 0 0 0)) ∧
    (tm_seconds (Tm 56 34 36 28 1 124 0 0 0) < 2 ^ 31 →
     ret = tm_seconds (Tm 56 34 36 28 1 124 0 0 0)).
Proof.
  assert (H : tm_in_range (Tm 56 34 36 28 1 124 0 0 0)) by (unfold tm_in_range; simpl; lia).
  split; [exact H|]. exact (mktime_correct _ H).
Defined.

(** The first of January is day 1 of its year. *)
Example yday_one :
  (let* (_, t) := mktime (Tm 0 0 0 1 0 124 0 0 0) in Ok (tm_yday t)) = Ok 1.
Proof. vm_compute. reflexivity. Qed.

(** [gmtime], whatever earlier calls left in its static [struct tm] [st]: the
    result is normal, and the instant it stands for is that of [timer] only when
    [st] stands for the epoch but for its seconds, as it does before the first
    call; a later call adds [timer] to the whole minutes of the earlier one. *)
Theorem gmtime_result timer st (Ht : 0 ≤ timer < 2 ^ 31) (Hst : tm_in_range st) :
  ∃ t', gmtime timer st = Ok t' ∧ tm_normal t' ∧
    tm_seconds t' = timer + (tm_seconds st - tm_sec st) ∧
    (st = gmtime_static → tm_seconds t' = timer).
Proof.
  unfold gmtime. set (t := Tm _ _ _ _ _ _ _ _ _).
  destruct (mktime_spec t) as (t' & -> & Hn & _ & Hs & _).
  { destruct Hst as (? & ? & ? & ? & ? & ?). unfold tm_in_range, t. simpl. lia. }
  exists t'. simpl. split_and!; [done|done| |].
  - rewrite Hs. unfold t, tm_seconds. simpl. lia.
  - intros ->. rewrite Hs. unfold t, tm_seconds. simpl. unfold epoch_days. simpl. lia.
Qed.

Example gmtime_result_witness :
  (0 ≤ 86399 < 2 ^ 31) ∧ tm_in_range gmtime_static ∧
  ∃ t', gmtime 86399 gmtime_static = Ok t' ∧ tm_normal t' ∧
    tm_seconds t' = 86399 + (tm_seconds gmtime_static - tm_sec gmtime_static) ∧
    (gmtime_static = gmtime_static → tm_seconds t' = 86399).
Proof.
  assert (H1 : 0 ≤ 86399 < 2 ^ 31) by lia.
  assert (H2 : tm_in_range gmtime_static) by (unfold tm_in_range; simpl; lia).
  split; [exact H1|]. split; [exact H2|]. exact (gmtime_result _ _ H1 H2).
Defined.

(** The second of two calls with the same argument: one day too late. *)
Example gmtime_twice :
  (let* t := gmtime 86400 gmtime_static in
   let* t := gmtime 86400 t in Ok (tm_seconds t)) = Ok (2 * 86400).
Proof. vm_compute. reflexivity. Qed.

(** ** The clock chip *)

(** How the chip codes a number below 100. *)
Definition to_bcd (v : Z) : Z := v / 10 * 16 + v mod 10.

Lemma bcd_to_bcd v : 0 ≤ v < 100 → bcd (to_bcd v) = v.
Proof.
  intros Hv. range_check (λ v, bcd (to_bcd v) =? v) 0 100 v as H. by apply Z.eqb_eq.
Qed.

Lemma to_bcd_range v : 0 ≤ v < 100 → 0 ≤ to_bcd v < 256.
Proof.
  intros Hv. unfold to_bcd. Z.div_mod_to_equations. lia.
Qed.

(** The registers of a chip that shows [t] (of this century), in mode [b]. *)
Definition rtc_show (t : tm) (b : Z) (r : Z) : Z :=
  let cv v := if has b 0x04 then v else to_bcd v in
  if r =? 0x00 then cv (tm_sec t)
  else if r =? 0x02 then cv (tm_min t)
  else if r =? 0x04 then cv (tm_hour t)
  else if r =? 0x07 then cv (tm_mday t)
  else if r =? 0x08 then cv (tm_mon t + 1)
  else if r =? 0x09 then cv (tm_year t - 100)
  else if r =? 0x0B then b
  else 0.

(** [read_rtc], from a chip in 24-hour mode whose registers show the date
    and time [t] of a year from 2000 to 2099, binary or BCD as status register B
    says, and which does not tick meanwhile: two rounds of the loop are enough,
    fifteen registers are read, and the fields are those of [t]. *)
Theorem read_rtc_correct t b k fuel
    (Ht : tm_normal t) (Hy : 100 ≤ tm_year t < 200)
    (Hb : 0 ≤ b < 256) (H24 : has b 0x02 = true) :
  read_rtc (λ _, rtc_show t b) (S fuel) k
  = Ok (Tm (tm_sec t) (tm_min t) (tm_hour t) (tm_mday t) (tm_mon t) (tm_year t) 0 0 0,
        (k + 15)%nat).
Proof.
  destruct Ht as (Hs & Hm & Hh & Hmo & Hd).
  pose proof (month_len_bounds (tm_year t + 1900) (tm_mon t)) as Hl.
  set (cv v := if has b 0x04 then v else to_bcd v).
  assert (Hcv : ∀ v, 0 ≤ v < 100 → u8 (cv v) = cv v).
  { intros v Hv. apply uint_small. unfold cv. pose proof (to_bcd_range v Hv). cif; lia. }
  assert (Hdec : ∀ v, 0 ≤ v < 100 →
    (if negb (has b 0x04) then bcd (cv v) else cv v) = v).
  { intros v Hv. unfold cv. destruct (has b 0x04); simpl; [done|by apply bcd_to_bcd]. }
  assert (Hsnap : ∀ k, rtc_snapshot (λ _, rtc_show t b) (S fuel) k
    = Ok ([cv (tm_sec t); cv (tm_min t); cv (tm_hour t); cv (tm_mday t);
           cv (tm_mon t + 1); cv (tm_year t - 100)], (k + 7)%nat)).
  { intros k'. unfold rtc_snapshot. simpl. change (has (u8 0) 128) with false.
    simpl. change (rtc_show t b 0) with (cv (tm_sec t)).
    change (rtc_show t b 2) with (cv (tm_min t)).
    change (rtc_show t b 4) with (cv (tm_hour t)).
    change (rtc_show t b 7) with (cv (tm_mday t)).
    change (rtc_show t b 8) with (cv (tm_mon t + 1)).
    change (rtc_show t b 9) with (cv (tm_year t - 100)).
    rewrite !Hcv by lia. repeat f_equal. lia. }
  unfold read_rtc. rewrite Hsnap. cbn [rbind]. cbn [rtc_stable]. rewrite Hsnap.
  cbn [rbind]. rewrite bool_decide_eq_true_2 by done. cbn [rbind].
  unfold cmos_read, rtc_decode. change (rtc_show t b 11) with b.
  rewrite (uint_small 8 b) by done. rewrite H24. cbn [negb andb rbind].
  rewrite !Hdec by lia. repeat f_equal; lia.
Qed.

(** 29 February 2024, 23:59:58, in BCD. *)
Example read_rtc_correct_witness :
  (tm_normal (Tm 58 59 23 29 1 124 0 0 0) ∧ (100 ≤ 124 < 200) ∧ (0 ≤ 2 < 256) ∧
   has 2 0x02 = true) ∧
  read_rtc (λ _, rtc_show (Tm 58 59 23 29 1 124 0 0 0) 2) 1 0
  = Ok (Tm 58 59 23 29 1 124 0 0 0, 15%nat).
Proof.
  assert (H1 : tm_normal (Tm 58 59 23 29 1 124 0 0 0))
    by (unfold tm_normal, month_len; simpl; lia).
  split; [split_and!; (exact H1 || lia || reflexivity)|].
  exact (read_rtc_correct (Tm 58 59 23 29 1 124 0 0 0) 2 0 0 H1
           ltac:(simpl; lia) ltac:(lia) eq_refl).
Defined.

(** In 12-hour BCD mode 1 pm, register 0x81, is read as hour 81; in 12-hour
    binary mode noon, register 0x8c, is read as hour 0. *)
Example rtc_12_hour :
  rtc_decode [0; 0; 0x81; 1; 1; 0x20] 0x00 = Ok (Tm 0 0 81 1 0 120 0 0 0) ∧
  rtc_decode [0; 0; 0x8c; 1; 1; 20] 0x04 = Ok (Tm 0 0 0 1 0 120 0 0 0).
Proof. split; vm_compute; reflexivity. Qed.
