(* ===== verification/Fs.v ===== *)
(** * Fs: the state of the file layer

    The structures of [kernel/src/fs/vfs.h], [ramfs.h], [pipe.h], [fifofs.h] and
    the statics of [vfs.c], [ramfs.c], [pipe.c], [fifofs.c] and [stdin.c], with
    the operations that all file systems use: [get_free_fd] of [vfs.c], the
    assignments to a file descriptor, and the walk to the end of the node list.

    Objects live in stores by address.  The kernel heap comes through the
    interface [Malloc]; a block that it hands out holds arbitrary old bytes, the
    [junk_*] of the class [Sys].  What the other tasks and the keyboard interrupt
    do while a call waits is a parameter of that class too. *)

From S2P Require Import Prelude Malloc Headers CString Vga.

(** ** Data *)
Definition DEVID_RAMFS : Z := 1.
Definition DEVID_PIPE : Z := 2.
Definition DEVID_STDIO : Z := 3.

Record stat := Stat {
  st_dev : Z; st_ino : Z; st_mode : Z; st_uid : Z; st_gid : Z; st_rdev : Z; st_size : Z;
  st_atime : Z; st_mtime : Z; st_ctime : Z
}.

(** The function pointers: which file system's function, if any; [WILD] is a
    pointer that was never set. *)
Inductive fs_kind := RAMFS | PIPE | FIFOFS | STDIN | STDOUT | STDERR | WILD.

#[export] Instance fs_kind_eq_dec : EqDecision fs_kind.
Proof. solve_decision. Defined.

Record vfs_node_t := VNode {
  name : list Z;
  status : stat;
  n_read : option fs_kind;
  n_write : option fs_kind;
  n_open : option fs_kind;
  n_creat : option fs_kind;
  n_close : option fs_kind;
  n_lseek : option fs_kind;
  n_next : Z
}.

Record fildes_t := Fildes { vfs_node : Z; at_ : Z; oflag : Z }.

(** [ramfs_data_t], [pipe_data_t] and [fifofs_data_t]. *)
Record data_t := Data { bytes : list Z; d_next : Z }.

(** [pipe_hdr_t] and [fifofs_hdr_t]. *)
Record hdr_t := Hdr {
  h_data : Z; write_at : Z; read_at : Z; writers : Z; readers : Z
}.

(** [stdin.c] *)
Record stdin_t := Stdin {
  stdin_read_at : Z; stdin_write_at : Z; stdin_buf_size : Z; stdin_buf : list Z
}.

Section fs.
Context {MA : Malloc}.

(** [files] and [errno] are those of the current task. *)
Record fs := Fs {
  files : list fildes_t;
  errno : Z;
  vfs_root : Z;
  vnodes : gmap Z vfs_node_t;
  blocks : gmap Z data_t;
  hdrs : gmap Z hdr_t;
  ramfs_nodes : list Z;
  ramfs_inodes : Z;
  pipes : list Z;
  pipe_inodes : Z;
  fifofs_nodes : list Z;
  stdin_st : stdin_t;
  con : console;
  heap : mstate
}.

Definition set_files (f : list fildes_t) (s : fs) : fs :=
  Fs f (errno s) (vfs_root s) (vnodes s) (blocks s) (hdrs s) (ramfs_nodes s)
    (ramfs_inodes s) (pipes s) (pipe_inodes s) (fifofs_nodes s) (stdin_st s) (con s) (heap s).
Definition set_errno (e : Z) (s : fs) : fs :=
  Fs (files s) e (vfs_root s) (vnodes s) (blocks s) (hdrs s) (ramfs_nodes s)
    (ramfs_inodes s) (pipes s) (pipe_inodes s) (fifofs_nodes s) (stdin_st s) (con s) (heap s).
Definition set_root (r : Z) (s : fs) : fs :=
  Fs (files s) (errno s) r (vnodes s) (blocks s) (hdrs s) (ramfs_nodes s)
    (ramfs_inodes s) (pipes s) (pipe_inodes s) (fifofs_nodes s) (stdin_st s) (con s) (heap s).
Definition set_vnodes (n : gmap Z vfs_node_t) (s : fs) : fs :=
  Fs (files s) (errno s) (vfs_root s) n (blocks s) (hdrs s) (ramfs_nodes s)
    (ramfs_inodes s) (pipes s) (pipe_inodes s) (fifofs_nodes s) (stdin_st s) (con s) (heap s).
Definition set_blocks (b : gmap Z data_t) (s : fs) : fs :=
  Fs (files s) (errno s) (vfs_root s) (vnodes s) b (hdrs s) (ramfs_nodes s)
    (ramfs_inodes s) (pipes s) (pipe_inodes s) (fifofs_nodes s) (stdin_st s) (con s) (heap s).
Definition set_hdrs (h : gmap Z hdr_t) (s : fs) : fs :=
  Fs (files s) (errno s) (vfs_root s) (vnodes s) (blocks s) h (ramfs_nodes s)
    (ramfs_inodes s) (pipes s) (pipe_inodes s) (fifofs_nodes s) (stdin_st s) (con s) (heap s).
Definition set_ramfs (l : list Z) (n : Z) (s : fs) : fs :=
  Fs (files s) (errno s) (vfs_root s) (vnodes s) (blocks s) (hdrs s) l n
    (pipes s) (pipe_inodes s) (fifofs_nodes s) (stdin_st s) (con s) (heap s).
Definition set_pipes (l : list Z) (n : Z) (s : fs) : fs :=
  Fs (files s) (errno s) (vfs_root s) (vnodes s) (blocks s) (hdrs s) (ramfs_nodes s)
    (ramfs_inodes s) l n (fifofs_nodes s) (stdin_st s) (con s) (heap s).
Definition set_fifofs (l : list Z) (s : fs) : fs :=
  Fs (files s) (errno s) (vfs_root s) (vnodes s) (blocks s) (hdrs s) (ramfs_nodes s)
    (ramfs_inodes s) (pipes s) (pipe_inodes s) l (stdin_st s) (con s) (heap s).
Definition set_stdin (i : stdin_t) (s : fs) : fs :=
  Fs (files s) (errno s) (vfs_root s) (vnodes s) (blocks s) (hdrs s) (ramfs_nodes s)
    (ramfs_inodes s) (pipes s) (pipe_inodes s) (fifofs_nodes s) i (con s) (heap s).
Definition set_con (c : console) (s : fs) : fs :=
  Fs (files s) (errno s) (vfs_root s) (vnodes s) (blocks s) (hdrs s) (ramfs_nodes s)
    (ramfs_inodes s) (pipes s) (pipe_inodes s) (fifofs_nodes s) (stdin_st s) c (heap s).
Definition set_heap (h : mstate) (s : fs) : fs :=
  Fs (files s) (errno s) (vfs_root s) (vnodes s) (blocks s) (hdrs s) (ramfs_nodes s)
    (ramfs_inodes s) (pipes s) (pipe_inodes s) (fifofs_nodes s) (stdin_st s) (con s) h.

(** [errno = e; return -1;] *)
Definition fail {A} (e : errno_t) (s : fs) (x : Z → fs → A) : res A :=
  Ok (x (-1) (set_errno e s)).
Definition failz (e : errno_t) (s : fs) : res (Z * fs) := fail e s pair.

(** [kmalloc] sets [errno] when it fails. *)
Definition kmalloc (n : Z) (s : fs) : res (Z * fs) :=
  let* (p, h) := malloc n (heap s) in
  let s := set_heap h s in
  Ok (p, if p =? 0 then set_errno ENOMEM s else s).

Definition kfree (p : Z) (s : fs) : res fs :=
  let* h := mfree p (heap s) in Ok (set_heap h s).

(** What the calls below find and cannot see: the old contents of the blocks of
    the heap, the other tasks that run in [sched_switch], the interrupts
    while [read_stdin] polls, and how many turns of a waiting loop the model
    follows. *)
Class Sys := {
  junk_node : vfs_node_t;
  junk_data : data_t;
  junk_hdr : hdr_t;
  sched_switch : fs → res fs;
  kb_irq : fs → res fs;
  patience : nat;
  junk_name_len : length (name junk_node) = 64%nat;
  junk_data_len : length (bytes junk_data) = 256%nat
}.

Context {SY : Sys}.

(** ** File descriptors *)
Definition get_fd (fd : Z) (s : fs) : res fildes_t := deref (aget (files s) fd).

Definition put_fd (fd : Z) (f : fildes_t) (s : fs) : res fs :=
  let* l := deref (aset (files s) fd f) in Ok (set_files l s).

Lemma get_fd_range fd s f : get_fd fd s = Ok f → 0 ≤ fd < len (files s).
Proof. unfold get_fd. intros H%deref_Ok. by apply aget_range in H. Qed.

Definition at_fd (fd : Z) (f : fildes_t) (s : fs) : fs :=
  set_files (<[Z.to_nat fd := f]> (files s)) s.

Lemma put_fd_ok fd f s : 0 ≤ fd < len (files s) → put_fd fd f s = Ok (at_fd fd f s).
Proof. intros. unfold put_fd. by rewrite aset_Some. Qed.

Lemma get_at_fd fd f s : 0 ≤ fd < len (files s) → get_fd fd (at_fd fd f s) = Ok f.
Proof. intros. unfold get_fd, at_fd. simpl. rewrite aget_insert by done. by rewrite Z.eqb_refl. Qed.

(** [vfs.c], [get_free_fd]: the end of the table is only met by counting up to it. *)
Fixpoint free_fd_loop (fuel : nat) (fd : Z) (s : fs) : res Z :=
  match fuel with
  | O => Fuel
  | S fuel =>
      if fd =? OPEN_MAX then Ok (-1)
      else
        let* f := get_fd fd s in
        if negb (vfs_node f =? 0) then free_fd_loop fuel (fd + 1) s else Ok fd
  end.

Definition get_free_fd (fd : Z) (s : fs) : res Z :=
  if fd <? 0 then Ok (-1) else free_fd_loop 33 fd s.

(** The lowest free descriptor from [fd] on, or -1 when all are taken. *)
Definition is_free_fd (l : list fildes_t) (i : Z) : Prop :=
  ∃ f, aget l i = Some f ∧ vfs_node f = 0.

Definition lowest_free (l : list fildes_t) (fd r : Z) : Prop :=
  (r = -1 ∧ ∀ i, fd ≤ i → ¬ is_free_fd l i) ∨
  (fd ≤ r < OPEN_MAX ∧ is_free_fd l r ∧ ∀ i, fd ≤ i < r → ¬ is_free_fd l i).

Lemma free_fd_loop_spec fuel fd s :
  len (files s) = OPEN_MAX → 0 ≤ fd ≤ OPEN_MAX → OPEN_MAX - fd < fuel →
  ∃ r, free_fd_loop (Z.to_nat fuel) fd s = Ok r ∧ lowest_free (files s) fd r.
Proof.
  intros Hl. unfold OPEN_MAX in *. intros Hfd Hf. assert (H0 : 0 < fuel) by lia.
  replace fuel with (Z.of_nat (Z.to_nat fuel)) in Hf by lia. clear H0.
  revert fd Hfd Hf. induction (Z.to_nat fuel) as [|n IH]; intros fd Hfd Hf; [lia|].
  cbn [free_fd_loop]. unfold OPEN_MAX. destruct (Z.eqb_spec fd 32) as [->|Hne].
  { exists (-1). split; [done|left]. split; [done|]. intros i Hi (f & E & _).
    apply aget_range in E. lia. }
  unfold get_fd. destruct (aget_is_Some (files s) fd) as [f E]; [lia|]. rewrite E.
  cbn [deref rbind]. destruct (Z.eqb_spec (vfs_node f) 0) as [Hz|Hz]; cbn [negb].
  { exists fd. split; [done|right]. unfold OPEN_MAX. split; [lia|]. split; [by exists f|].
    intros i Hi. lia. }
  assert (Hnf : ¬ is_free_fd (files s) fd) by (intros (g & Eg & Hg); congruence).
  destruct (IH (fd + 1)) as (r & -> & Hr); [lia|lia|]. exists r. split; [done|].
  destruct Hr as [[-> Hr]|(Hr1 & Hr2 & Hr3)].
  - left. split; [done|]. intros i Hi. destruct (decide (i = fd)) as [->|]; [done|].
    apply Hr. lia.
  - right. unfold OPEN_MAX in *. split; [lia|]. split; [done|]. intros i Hi.
    destruct (decide (i = fd)) as [->|]; [done|]. apply Hr3. lia.
Qed.

Lemma get_free_fd_spec fd s : len (files s) = OPEN_MAX → 0 ≤ fd ≤ OPEN_MAX →
  ∃ r, get_free_fd fd s = Ok r ∧ lowest_free (files s) fd r.
Proof.
  intros Hl Hfd. unfold get_free_fd. replace (fd <? 0) with false by lia.
  apply (free_fd_loop_spec 33); [done|done|unfold OPEN_MAX in *; lia].
Qed.

(** ** Nodes *)
Definition get_node (p : Z) (s : fs) : res vfs_node_t := deref (vnodes s !! p).

Definition put_node (p : Z) (n : vfs_node_t) (s : fs) : fs :=
  set_vnodes (<[p := n]> (vnodes s)) s.

Definition with_next (q : Z) (n : vfs_node_t) : vfs_node_t :=
  VNode (name n) (status n) (n_read n) (n_write n) (n_open n) (n_creat n) (n_close n)
    (n_lseek n) q.

Definition with_status (t : stat) (n : vfs_node_t) : vfs_node_t :=
  VNode (name n) t (n_read n) (n_write n) (n_open n) (n_creat n) (n_close n)
    (n_lseek n) (n_next n).

Definition with_name (l : list Z) (n : vfs_node_t) : vfs_node_t :=
  VNode l (status n) (n_read n) (n_write n) (n_open n) (n_creat n) (n_close n)
    (n_lseek n) (n_next n).

(** [node->read = r; node->write = w; node->open = o; node->close = c;
    node->lseek = l;] *)
Definition with_ops (r w o c l : option fs_kind) (n : vfs_node_t) : vfs_node_t :=
  VNode (name n) (status n) r w o (n_creat n) c l (n_next n).

Definition with_creat (c : option fs_kind) (n : vfs_node_t) : vfs_node_t :=
  VNode (name n) (status n) (n_read n) (n_write n) (n_open n) c (n_close n)
    (n_lseek n) (n_next n).

Definition stat_size (z : Z) (t : stat) : stat :=
  Stat (st_dev t) (st_ino t) (st_mode t) (st_uid t) (st_gid t) (st_rdev t) z
    (st_atime t) (st_mtime t) (st_ctime t).

Definition with_size (z : Z) (n : vfs_node_t) : vfs_node_t :=
  with_status (stat_size z (status n)) n.

(** [while (node->next != NULL) node = node->next;] *)
Fixpoint last_node (fuel : nat) (p : Z) (s : fs) : res Z :=
  match fuel with
  | O => Fuel
  | S fuel =>
      let* n := get_node p s in
      if negb (n_next n =? 0) then last_node fuel (n_next n) s else Ok p
  end.

(** Fuel for a walk: the number of nodes. *)
Definition node_fuel (s : fs) : nat := S (size (vnodes s)).

(** [sizeof] of the structures. *)
Definition NODE_SIZE : Z := 132.
Definition DATA_SIZE : Z := 260.
Definition HDR_SIZE : Z := 20.

(** [kmalloc] of a node, hung behind the last one or at the root; [NULL] when there
    is no memory.  Also the node it was hung behind, [NULL] for the root. *)
Definition append_node (s : fs) : res (Z * Z * fs) :=
  if vfs_root s =? 0 then
    let* (p, s) := kmalloc NODE_SIZE s in
    if p =? 0 then Ok (0, 0, s)
    else Ok (p, 0, set_root p (put_node p junk_node s))
  else
    let* q := last_node (node_fuel s) (vfs_root s) s in
    let* (p, s) := kmalloc NODE_SIZE s in
    let* n := get_node q s in
    let s := put_node q (with_next p n) s in
    if p =? 0 then Ok (0, q, s) else Ok (p, q, put_node p junk_node s).

(** ** Names *)

(** The bytes [l] at [a]. *)
Definition place (a : Z) (l : list Z) : mem := list_to_map (zip (seqZ a (len l)) l).

(** The caller's string [nm] (without its terminator) at 1, and a buffer behind
    it, with a byte that belongs to neither in between. *)
Definition name_mem (nm buf : list Z) : mem :=
  place 1 (nm ++ [0]) ∪ place (len nm + 3) buf.

(** [strcmp(name, node->name) == 0] *)
Definition name_is (nm buf : list Z) : res bool :=
  let* r := strcmp (S (length nm + length buf)) 1 (len nm + 3) (name_mem nm buf) in
  Ok (r =? 0).

(** The bytes at [a .. a + n). *)
Fixpoint read_back (n : nat) (a : Z) (m : mem) : res (list Z) :=
  match n with
  | O => Ok []
  | S n => let* b := ld m a in let* l := read_back n (a + 1) m in Ok (b :: l)
  end.

(** [strncpy(node->name, name, 63); node->name[63] = 0;] *)
Definition name_copy (nm buf : list Z) : res (list Z) :=
  let* (_, m) := strncpy (len nm + 3) 1 63 (name_mem nm buf) in
  let* m := st m (len nm + 3 + 63) 0 in
  read_back (length buf) (len nm + 3) m.

(** [strcpy(node->name, name);] *)
Definition name_strcpy (nm buf : list Z) : res (list Z) :=
  let* (_, m) := strcpy (S (length nm)) (len nm + 3) 1 (name_mem nm buf) in
  read_back (length buf) (len nm + 3) m.
End fs.
