(* ===== verification/Names.v ===== *)
(** * Names: the name buffers of the nodes

    What [strcmp] and [strncpy] do to a caller's string and a node's 64 bytes. *)

From S2P Require Import Prelude CString Fs.

Definition chars (cs : list Z) : Prop := Forall (λ c, 0 < c < 256) cs.

Lemma place_lookup a l i :
  place a l !! i = if a <=? i then l !! Z.to_nat (i - a) else None.
Proof.
  unfold place. revert a. induction l as [|x l IH]; intros a.
  { simpl. destruct (a <=? i); [by rewrite lookup_nil|done]. }
  cbn [length]. rewrite seqZ_cons by lia. replace (Z.pred _) with (len l) by lia.
  simpl. rewrite lookup_insert. case_decide as E.
  - subst. by rewrite Z.sub_diag, Z.leb_refl.
  - rewrite IH. destruct (Z.leb_spec a i), (Z.leb_spec (Z.succ a) i); try lia; try done.
    by replace (Z.to_nat (i - a)) with (S (Z.to_nat (i - Z.succ a))) by lia.
Qed.

(** The two buffers of [name_mem]. *)
Lemma name_mem_fst nm buf (i : nat) : (i ≤ length nm)%nat →
  name_mem nm buf !! (1 + Z.of_nat i) = (nm ++ [0]) !! i.
Proof.
  intros Hi. unfold name_mem. rewrite lookup_union, !place_lookup.
  replace (1 <=? 1 + Z.of_nat i) with true by lia.
  replace (len nm + 3 <=? 1 + Z.of_nat i) with false by lia.
  replace (Z.to_nat (1 + Z.of_nat i - 1)) with i by lia. by rewrite right_id_L by apply _.
Qed.

Lemma name_mem_snd nm buf (i : nat) :
  name_mem nm buf !! (len nm + 3 + Z.of_nat i) = buf !! i.
Proof.
  unfold name_mem. rewrite lookup_union, !place_lookup.
  rewrite (proj2 (Z.leb_le 1 _)), (proj2 (Z.leb_le (len nm + 3) _)) by lia.
  replace (Z.to_nat (len nm + 3 + Z.of_nat i - (len nm + 3))) with i by lia.
  rewrite (lookup_ge_None_2 (nm ++ [0])) by (rewrite length_app; simpl; lia).
  by rewrite left_id_L by apply _.
Qed.

Lemma cstr_of_lookup m a cs : chars cs →
  (∀ i : nat, (i ≤ length cs)%nat → m !! (a + Z.of_nat i) = (cs ++ [0]) !! i) → cstr m a cs.
Proof.
  intros Hc. revert a. induction Hc as [|c cs Hc Hcs IH]; intros a H; simpl.
  - specialize (H 0%nat). by rewrite Z.add_0_r in H; apply H.
  - split; [|split; [done|]].
    + specialize (H 0%nat). rewrite Z.add_0_r in H. apply H. lia.
    + apply IH. intros i Hi. specialize (H (S i)). simpl in H.
      replace (a + 1 + Z.of_nat i) with (a + Z.of_nat (S i)) by lia. apply H. lia.
Qed.

Lemma name_mem_nm nm buf : chars nm → cstr (name_mem nm buf) 1 nm.
Proof. intros H. apply cstr_of_lookup; [done|]. intros i Hi. by apply name_mem_fst. Qed.

Lemma name_mem_buf nm nm' rest : chars nm' →
  cstr (name_mem nm (nm' ++ 0 :: rest)) (len nm + 3) nm'.
Proof.
  intros H. apply cstr_of_lookup; [done|]. intros i Hi. rewrite name_mem_snd.
  rewrite (cons_middle 0 nm' rest), app_assoc.
  apply lookup_app_l. rewrite length_app. simpl. lia.
Qed.

(** Names are equal when their characters are. *)
Lemma name_is_spec nm nm' rest : chars nm → chars nm' →
  len nm < 2 ^ 31 → len nm' < 2 ^ 31 →
  name_is nm (nm' ++ 0 :: rest) = Ok (bool_decide (nm = nm')).
Proof.
  intros H H' Hl Hl'. unfold name_is.
  rewrite (strcmp_result _ _ _ nm nm'); try done;
    [|by apply name_mem_nm|by apply name_mem_buf|rewrite length_app; simpl; lia..].
  cbn [rbind]. f_equal.
  assert (Hf : ∀ l, chars l → Forall (λ c, 0 ≤ c < 256) l)
    by (intros l Hc; eapply Forall_impl; [|exact Hc]; simpl; lia).
  destruct (Z.eqb_spec (len nm) (len nm')) as [E|E].
  - pose proof (cmp_chars_eq nm nm' ltac:(lia) (Hf _ H) (Hf _ H')) as Hc.
    case_bool_decide as Hn; [apply Hc in Hn; lia|].
    destruct (Z.eqb_spec (cmp_chars nm nm') 0); [tauto|done].
  - rewrite bool_decide_false by congruence. lia.
Qed.

Lemma read_back_spec n a m l : length l = n →
  (∀ i : nat, (i < n)%nat → m !! (a + Z.of_nat i) = l !! i) → read_back n a m = Ok l.
Proof.
  revert a l. induction n as [|n IH]; intros a [|x l] Hl H; simpl in Hl; try lia; [done|].
  cbn [read_back]. unfold ld. pose proof (H 0%nat ltac:(lia)) as H0.
  rewrite Z.add_0_r in H0. rewrite H0. simpl. rewrite (IH (a + 1) l); [done|lia|].
  intros i Hi. replace (a + 1 + Z.of_nat i) with (a + Z.of_nat (S i)) by lia.
  apply (H (S i)). lia.
Qed.

(** [strncpy] stores no terminator: the old bytes show behind the name. *)
Lemma name_copy_spec nm buf : chars nm → nm ≠ [] → length buf = 64%nat →
  name_copy nm buf
  = Ok (<[63%nat := 0]> (take 63 nm ++ drop (length (take 63 nm)) buf)).
Proof.
  intros H Hne Hb. unfold name_copy. set (d := len nm + 3).
  set (k := length (take 63 nm)).
  assert (Hk : (k ≤ 63 ∧ k ≤ length nm)%nat) by (unfold k; rewrite length_take; lia).
  destruct (strncpy_spec nm d 1 63 (name_mem nm buf)) as (m & -> & Hbytes & Hout);
    [done|by apply name_mem_nm|lia| |unfold d; lia|].
  { intros i Hi. replace i with (d + Z.of_nat (Z.to_nat (i - d))) by lia.
    unfold d. rewrite name_mem_snd. apply lookup_lt_is_Some. unfold d in *. lia. }
  change (Z.to_nat 63) with 63%nat in Hbytes. cbn [rbind].
  replace (Z.min 63 (len nm)) with (Z.of_nat k) in Hout
    by (unfold k; rewrite length_take; lia).
  assert (Hm : ∀ i : nat, (i < 64)%nat →
    m !! (d + Z.of_nat i) = (take 63 nm ++ drop k buf) !! i).
  { intros i Hi. destruct (decide (i < k)%nat) as [Hlt|Hge].
    - rewrite lookup_app_l by done.
      destruct (lookup_lt_is_Some_2 (take 63 nm) i) as [b E]; [done|]. rewrite E.
      by apply (bytes_at_lookup _ _ _ _ _ Hbytes E).
    - rewrite lookup_app_r by (fold k; lia). fold k. rewrite lookup_drop.
      rewrite Hout by lia. unfold d. rewrite name_mem_snd. f_equal. lia. }
  fold d. rewrite st_Ok.
  2:{ replace (d + 63) with (d + Z.of_nat 63) by lia. rewrite Hm by lia.
      apply lookup_lt_is_Some. rewrite length_app, length_drop. fold k. lia. }
  cbn [rbind]. rewrite Hb. change (u8 0) with 0. apply read_back_spec.
  - rewrite length_insert, length_app, length_drop. fold k. lia.
  - intros i Hi. destruct (decide (i = 63%nat)) as [->|Hne63].
    + rewrite lookup_insert_eq, list_lookup_insert_eq; [done|].
      rewrite length_app, length_drop. fold k. lia.
    + rewrite lookup_insert_ne, list_lookup_insert_ne by lia. by apply Hm.
Qed.

(** On a zeroed buffer a name of at most 63 characters is stored as it is. *)
Lemma name_copy_zeros nm : chars nm → nm ≠ [] → (length nm ≤ 63)%nat →
  name_copy nm (replicate 64 0) = Ok (nm ++ 0 :: replicate (63 - length nm) 0).
Proof.
  intros H Hne Hl. rewrite name_copy_spec by done. f_equal.
  rewrite (take_ge nm) by lia. rewrite insert_app_r_alt by lia. f_equal.
  rewrite drop_replicate. replace (64 - length nm)%nat with (S (63 - length nm)) by lia.
  apply list_eq. intros i. destruct (decide (i = 63 - length nm)%nat) as [->|Hi].
  - rewrite list_lookup_insert_eq by (rewrite length_replicate; lia).
    change (0 :: replicate (63 - length nm) 0) with (replicate (S (63 - length nm)) 0).
    symmetry. apply lookup_replicate_2. lia.
  - by rewrite list_lookup_insert_ne by done.
Qed.
