(* ===== verification/Blocks.v ===== *)
(** * Blocks: the chains of 256-byte blocks behind ramfs files, pipes and fifos

    The loops that [read_*] and [write_*] of [ramfs.c], [pipe.c] and [fifofs.c]
    share, and the predicate [file_at]: the chain that starts at a block holds
    these bytes. *)

From S2P Require Import Prelude Malloc Headers CString Vga Fs.

Section blocks.
Context {MA : Malloc} {SY : Sys}.

(** ** Operations *)
Definition get_block (p : Z) (s : fs) : res data_t := deref (blocks s !! p).

Definition put_block (p : Z) (d : data_t) (s : fs) : fs :=
  set_blocks (<[p := d]> (blocks s)) s.

(** [for (i = 0; i < n; i++) curnode = curnode->next;] *)
Fixpoint nth_block (n : nat) (p : Z) (s : fs) : res Z :=
  match n with
  | O => Ok p
  | S n => let* d := get_block p s in nth_block n (d_next d) s
  end.

(** The inner loop of every read: from [offset] on, up to the end of the block
    ([n] bytes); [true] when [size] bytes were read first ([goto exit]). *)
Fixpoint read_block (n : nat) (offset read size : Z) (data buf : list Z)
    : res (bool * Z * list Z) :=
  match n with
  | O => Ok (false, read, buf)
  | S n =>
      if size <=? read then Ok (true, read, buf)
      else
        let* b := deref (aget data offset) in
        let* buf := deref (aset buf read b) in
        read_block n (offset + 1) (read + 1) size data buf
  end.

(** The inner loop of every write: from [offset] on, until the block is full or
    [size] bytes are written. *)
Fixpoint write_block (n : nat) (offset written size : Z) (buf data : list Z)
    : res (Z * list Z) :=
  match n with
  | O => Ok (written, data)
  | S n =>
      let* b := deref (aget buf written) in
      let* data := deref (aset data offset b) in
      let written := written + 1 in
      if size <=? written then Ok (written, data)
      else write_block n (offset + 1) written size buf data
  end.

(** The outer loop of every write: after each block a new one is allocated, with
    the content [fresh].  [true] when the allocation failed.  The file size and
    the position, which go up with [written], are left to the caller. *)
Fixpoint write_loop (fuel : nat) (fresh : data_t) (curnode offset written size : Z)
    (buf : list Z) (s : fs) : res (bool * Z * fs) :=
  match fuel with
  | O => Fuel
  | S fuel =>
      if written <? size then
        let* d := get_block curnode s in
        let* (written, data) :=
          write_block (Z.to_nat (256 - offset)) offset written size buf (bytes d) in
        let s := put_block curnode (Data data (d_next d)) s in
        let* (p, s) := kmalloc DATA_SIZE s in
        let s := put_block curnode (Data data p) s in
        if p =? 0 then Ok (true, written, s)
        else write_loop fuel fresh p 0 written size buf (put_block p fresh s)
      else Ok (false, written, s)
  end.

(** One turn for each block that [size] bytes touch, and the last test. *)
Definition block_fuel (size : Z) : nat := Z.to_nat (size / 256 + 3).

(** ** Chains *)

(** The chain at [p] starts with the blocks [l] (address and bytes). *)
Fixpoint chain (b : gmap Z data_t) (p : Z) (l : list (Z * list Z)) : Prop :=
  match l with
  | [] => True
  | (q, d) :: l =>
      q = p ∧ length d = 256%nat ∧ ∃ nx, b !! p = Some (Data d nx) ∧ chain b nx l
  end.

Definition data_of (l : list (Z * list Z)) : list Z := concat l.*2.

(** The bytes [c] are at the start of the chain [l] at [p]. *)
Definition file_on (b : gmap Z data_t) (p : Z) (l : list (Z * list Z)) (c : list Z) : Prop :=
  chain b p l ∧ NoDup l.*1 ∧ c `prefix_of` data_of l.

Definition file_at (b : gmap Z data_t) (p : Z) (c : list Z) : Prop :=
  ∃ l, file_on b p l c.

(** The stores hold allocated, distinct objects. *)
Definition mem_ok (s : fs) (L : gset Z) : Prop :=
  m_rep (heap s) L ∧ (∀ p, p ∈ L → 0 < p) ∧
  dom (blocks s) ⊆ L ∧ dom (vnodes s) ⊆ L ∧ dom (hdrs s) ⊆ L ∧
  dom (blocks s) ## dom (vnodes s) ∧ dom (blocks s) ## dom (hdrs s) ∧
  dom (vnodes s) ## dom (hdrs s).

(** ** Lemmas *)
Lemma nth_chain s p l1 l2 : chain (blocks s) p (l1 ++ l2) →
  ∃ q, nth_block (length l1) p s = Ok q ∧ chain (blocks s) q l2.
Proof.
  revert p. induction l1 as [|[a d] l1 IH]; intros p; simpl; [eauto|].
  intros (_ & _ & nx & E & H). unfold get_block. rewrite E. simpl. by apply IH.
Qed.

Lemma chain_prefix b p l1 l2 : chain b p (l1 ++ l2) → chain b p l1.
Proof.
  revert p. induction l1 as [|[q e] l1 IH]; intros p; simpl; [done|].
  intros (-> & ? & nx & ? & Hc). split_and!; eauto.
Qed.

Lemma chain_replace b b' p l1 cur d l2 l' :
  chain b p (l1 ++ (cur, d) :: l2) → (∀ q, q ∈ l1.*1 → b' !! q = b !! q) →
  chain b' cur l' → chain b' p (l1 ++ l').
Proof.
  revert p. induction l1 as [|[a e] l1 IH]; intros p; simpl.
  - by intros (-> & _).
  - intros (-> & Hl & nx & E & H) Hs Hc. split_and!; [done..|]. exists nx.
    rewrite Hs, E by constructor. split; [done|]. apply (IH nx); [done| |done].
    intros q Hq. apply Hs. by constructor.
Qed.

Lemma chain_same b b' p l :
  chain b p l → (∀ q, q ∈ l.*1 → b' !! q = b !! q) → chain b' p l.
Proof.
  revert p. induction l as [|[a d] l IH]; intros p; simpl; [done|].
  intros (-> & Hl & nx & E & H) Hs. split_and!; [done..|]. exists nx.
  rewrite Hs, E by constructor. split; [done|]. apply IH; [done|].
  intros q Hq. apply Hs. by constructor.
Qed.

Lemma chain_dom b p l q : chain b p l → q ∈ l.*1 → q ∈ dom b.
Proof.
  revert p. induction l as [|[a d] l IH]; intros p; simpl; [by rewrite elem_of_nil|].
  intros (-> & _ & nx & E & H) [->|Hq]%elem_of_cons.
  - by apply elem_of_dom_2 in E.
  - by eapply IH.
Qed.

Lemma data_of_cons a d l : data_of ((a, d) :: l) = d ++ data_of l.
Proof. done. Qed.

Lemma chain_data_length b p l : chain b p l → length (data_of l) = (256 * length l)%nat.
Proof.
  revert p. induction l as [|[a d] l IH]; intros p; [done|].
  intros (-> & Hl & nx & E & H). rewrite data_of_cons, length_app, Hl, (IH nx) by done.
  simpl. lia.
Qed.

Lemma data_of_app l1 l2 : data_of (l1 ++ l2) = data_of l1 ++ data_of l2.
Proof. unfold data_of. by rewrite fmap_app, concat_app. Qed.

(** One block: the bytes that fit, in order. *)
Lemma write_block_spec n o w size buf data :
  (0 < n → o + n ≤ length data → w < size → size ≤ length buf →
   let k := (n `min` (size - w))%nat in
   write_block n (Z.of_nat o) (Z.of_nat w) (Z.of_nat size) buf data
   = Ok (Z.of_nat (w + k), take o data ++ take k (drop w buf) ++ drop (o + k) data))%nat.
Proof.
  revert o w data. induction n as [|n IH]; intros o w data H0 Ho Hw Hs; [lia|].
  cbn [write_block]. unfold aget at 1. rewrite Nat2Z.id.
  replace (Z.of_nat w <? 0) with false by lia.
  destruct (lookup_lt_is_Some_2 buf w) as [b Eb]; [lia|]. rewrite Eb.
  cbn [deref rbind]. rewrite aset_Some by lia. cbn [deref rbind]. rewrite Nat2Z.id.
  assert (Hdrop : drop w buf = b :: drop (S w) buf) by (by apply drop_S).
  assert (Htk : take (S o) (<[o:=b]> data) = take o data ++ [b]).
  { rewrite (take_S_r _ _ b) by (apply list_lookup_insert_eq; lia).
    by rewrite take_insert_ge by lia. }
  destruct (Z.leb_spec (Z.of_nat size) (Z.of_nat w + 1)).
  - replace (S n `min` (size - w))%nat with 1%nat by lia.
    f_equal. f_equal; [lia|]. rewrite Hdrop, (insert_take_drop _ o b) by lia.
    simpl. by rewrite Nat.add_1_r.
  - replace (Z.of_nat o + 1) with (Z.of_nat (S o)) by lia.
    replace (Z.of_nat w + 1) with (Z.of_nat (S w)) by lia.
    destruct (decide (n = 0%nat)) as [->|Hn].
    { replace (1 `min` (size - w))%nat with 1%nat by lia.
      cbn [write_block]. f_equal. f_equal; [lia|].
      rewrite Hdrop, (insert_take_drop _ o b) by lia. simpl.
      by rewrite Nat.add_1_r. }
    rewrite IH by (rewrite ?length_insert; lia).
    replace (S n `min` (size - w))%nat with (S (n `min` (size - S w))) by lia.
    f_equal. f_equal; [lia|]. rewrite Htk, Hdrop, drop_insert_lt by lia. simpl.
    rewrite <- app_assoc. simpl. do 4 f_equal. f_equal. lia.
Qed.

(** One block: out of the block into the buffer. *)
Lemma read_block_spec n o r size data buf :
  (o + n ≤ length data → r ≤ size → size ≤ length buf →
   let k := (n `min` (size - r))%nat in
   read_block n (Z.of_nat o) (Z.of_nat r) (Z.of_nat size) data buf
   = Ok (bool_decide (size - r < n), Z.of_nat (r + k),
         take r buf ++ take k (drop o data) ++ drop (r + k) buf))%nat.
Proof.
  revert o r buf. induction n as [|n IH]; intros o r buf Ho Hr Hs; cbn [read_block].
  { simpl. by rewrite Nat.add_0_r, take_drop. }
  destruct (Z.leb_spec (Z.of_nat size) (Z.of_nat r)).
  { assert (r = size) as -> by lia.
    replace (S n `min` (size - size))%nat with 0%nat by lia. simpl.
    by rewrite Nat.add_0_r, take_drop, bool_decide_true by lia. }
  unfold aget. rewrite Nat2Z.id. replace (Z.of_nat o <? 0) with false by lia.
  destruct (lookup_lt_is_Some_2 data o) as [b Eb]; [lia|]. rewrite Eb.
  cbn [deref rbind]. rewrite aset_Some by lia. cbn [deref rbind]. rewrite Nat2Z.id.
  replace (Z.of_nat o + 1) with (Z.of_nat (S o)) by lia.
  replace (Z.of_nat r + 1) with (Z.of_nat (S r)) by lia.
  rewrite IH by (rewrite ?length_insert; lia).
  replace (S n `min` (size - r))%nat with (S (n `min` (size - S r))) by lia.
  f_equal. f_equal; [f_equal; [apply bool_decide_ext; lia|lia]|].
  rewrite (take_S_r (<[r:=b]> buf) r b) by (apply list_lookup_insert_eq; lia).
  rewrite take_insert_ge, drop_insert_lt, (drop_S data b o) by (done || lia). simpl.
  rewrite <- app_assoc. simpl. do 4 f_equal. f_equal. lia.
Qed.

Definition with_mem (b : gmap Z data_t) (h : mstate) (e : Z) (s : fs) : fs :=
  set_errno e (set_heap h (set_blocks b s)).

Lemma kmalloc_cases n s L : mem_ok s L → 0 < n ≤ 2 ^ 20 →
  (∃ h, kmalloc n s = Ok (0, with_mem (blocks s) h ENOMEM s) ∧ m_rep h L) ∨
  (∃ p h, kmalloc n s = Ok (p, with_mem (blocks s) h (errno s) s) ∧
     0 < p ∧ p ∉ L ∧ m_rep h ({[p]} ∪ L)).
Proof.
  intros (Hm & _) Hn. unfold kmalloc.
  destruct (malloc_ok n (heap s) L Hm Hn) as (p & h & -> & [[-> Hh]|(Hp & Hq & Hh)]); simpl.
  - left. eauto.
  - right. exists p, h. replace (p =? 0) with false by lia. by destruct s.
Qed.

Lemma mem_ok_block s L p d h e :
  mem_ok s L → 0 < p → p ∉ L → m_rep h ({[p]} ∪ L) →
  mem_ok (with_mem (<[p := d]> (blocks s)) h e s) ({[p]} ∪ L).
Proof.
  intros (Hm & H0 & H1 & H2 & H3 & H4 & H5 & H6) Hp Hq Hh.
  unfold mem_ok. simpl. rewrite dom_insert_L. split_and!; try done; set_solver.
Qed.

Lemma mem_ok_same s L b h e :
  mem_ok s L → dom b = dom (blocks s) → m_rep h L → mem_ok (with_mem b h e s) L.
Proof.
  intros (Hm & H0 & H1 & H2 & H3 & H4 & H5 & H6) Hd Hh.
  split_and!; simpl; rewrite ?Hd; done.
Qed.

Lemma mem_ok_update s L p d0 d h e :
  mem_ok s L → blocks s !! p = Some d0 → m_rep h L →
  mem_ok (with_mem (<[p := d]> (blocks s)) h e s) L.
Proof.
  intros Hm E Hh. apply (mem_ok_same s); [done| |done].
  apply dom_insert_lookup_L. by rewrite E.
Qed.

Lemma put_block_ok s L p d0 d :
  mem_ok s L → blocks s !! p = Some d0 → mem_ok (put_block p d s) L.
Proof.
  intros Hm E. replace (put_block p d s)
    with (with_mem (<[p := d]> (blocks s)) (heap s) (errno s) s) by (by destruct s).
  eapply mem_ok_update; [done..|apply Hm].
Qed.

Lemma put_node_ok s L p n0 n :
  mem_ok s L → vnodes s !! p = Some n0 → mem_ok (put_node p n s) L.
Proof.
  intros Hm E. assert (Hd : dom (<[p := n]> (vnodes s)) = dom (vnodes s))
    by (apply dom_insert_lookup_L; by rewrite E).
  unfold mem_ok. simpl. rewrite Hd. exact Hm.
Qed.

(** What a write from block [cur] on leaves: [head] is what the block held before
    the position, [k] bytes of [src] follow it; all other blocks are unchanged.
    Without [oom] all [n] bytes are there and a block for the next byte is, too; with
    it the bytes end with a block, if not all are there. *)
Definition wrote (s : fs) (L : gset Z) (cur : Z) (head src : list Z) (n : nat)
    (oom : bool) (k : nat) (s' : fs) : Prop :=
  ∃ b h e l L', s' = with_mem b h e s ∧ mem_ok s' L' ∧ L ⊆ L' ∧
    file_on b cur l (head ++ take k src) ∧ l ≠ [] ∧
    (∀ q, q ∈ L → q ≠ cur → b !! q = blocks s !! q) ∧
    (∀ q, q ∈ l.*1 → q = cur ∨ q ∉ L) ∧ (1 ≤ k ≤ n)%nat ∧
    if oom then e = ENOMEM ∧ (k = n ∨ ((length head + k) mod 256 = 0)%nat)
    else e = errno s ∧ k = n ∧ (length head + k < 256 * length l)%nat.

Lemma file_on_one b p d c nx :
  b !! p = Some (Data d nx) → length d = 256%nat → c `prefix_of` d → file_on b p [(p, d)] c.
Proof.
  intros E Hl Hc. split_and!.
  - simpl. split_and!; eauto.
  - simpl. apply NoDup_singleton.
  - unfold data_of. simpl. by rewrite app_nil_r.
Qed.

Lemma splice_prefix (k o : nat) (d src : list Z) :
  take o d ++ take k src `prefix_of` take o d ++ take k src ++ drop (o + k) d.
Proof. rewrite app_assoc. apply prefix_app_r. done. Qed.

Lemma splice_length (k o : nat) (d src : list Z) : (k ≤ length src → o + k ≤ length d →
  length (take o d ++ take k src ++ drop (o + k) d) = length d)%nat.
Proof. intros. rewrite !length_app, !length_take, length_drop. lia. Qed.

Lemma write_loop_done fuel fresh cur o w size buf s :
  size ≤ w → (0 < fuel)%nat → write_loop fuel fresh cur o w size buf s = Ok (false, w, s).
Proof.
  intros Hw Hf. destruct fuel; [lia|]. cbn [write_loop].
  by replace (w <? size) with false by lia.
Qed.

#[local] Coercion Z.of_nat : nat >-> Z.

(** One turn: no memory for the next block, or a new block [p] behind [cur]. *)
Lemma write_loop_turn fuel fresh s L cur d nx (o w size : nat) buf :
  mem_ok s L → blocks s !! cur = Some (Data d nx) → length d = 256%nat →
  (o < 256)%nat → (w < size)%nat → (size ≤ length buf)%nat →
  let k := ((256 - o) `min` (size - w))%nat in
  let d' := take o d ++ take k (drop w buf) ++ drop (o + k) d in
  (∃ h, write_loop (S fuel) fresh cur o w size buf s
        = Ok (true, Z.of_nat (w + k),
              with_mem (<[cur := Data d' 0]> (blocks s)) h ENOMEM s) ∧ m_rep h L) ∨
  (∃ p h, write_loop (S fuel) fresh cur o w size buf s
     = write_loop fuel fresh p 0%nat (w + k)%nat size buf
         (with_mem (<[p := fresh]> (<[cur := Data d' p]> (blocks s))) h (errno s) s) ∧
     0 < p ∧ p ∉ L ∧ m_rep h ({[p]} ∪ L)).
Proof.
  intros Hm E Hd Ho Hw Hs k d'. cbn [write_loop].
  replace (w <? size) with true by lia. unfold get_block. rewrite E. cbn [deref rbind].
  replace (Z.to_nat (256 - o)) with (256 - o)%nat by lia.
  rewrite write_block_spec by (rewrite ?Hd; simpl; lia). cbn [rbind bytes d_next]. fold k d'.
  destruct (kmalloc_cases DATA_SIZE (put_block cur (Data d' nx) s) L)
    as [(h & -> & Hh)|(p & h & -> & Hp & Hq & Hh)]; [|done|..]; cbn [rbind].
  - by eapply put_block_ok.
  - left. exists h. split; [|done]. unfold put_block. simpl. by rewrite insert_insert_eq.
  - right. exists p, h. split_and!; [|done..]. replace (p =? 0) with false by lia.
    unfold put_block. simpl. by rewrite insert_insert_eq.
Qed.

Lemma mem_ok_turn s L cur d0 d' p fresh h e :
  mem_ok s L → blocks s !! cur = Some d0 → 0 < p → p ∉ L → m_rep h ({[p]} ∪ L) →
  mem_ok (with_mem (<[p := fresh]> (<[cur := d']> (blocks s))) h e s) ({[p]} ∪ L).
Proof.
  intros Hm E Hp Hq Hh.
  pose proof (mem_ok_block (with_mem (<[cur := d']> (blocks s)) (heap s) e s) L p fresh h e)
    as H. apply H; try done.
  eapply mem_ok_update; [done..|apply Hm].
Qed.

(** The block was the last one, or [p] takes the rest. *)
Lemma wrote_cons s L cur d nx (o w n k k' : nat) buf fresh p h oom s' :
  let d' := take o d ++ take k (drop w buf) ++ drop (o + k) d in
  let s1 := with_mem (<[p := fresh]> (<[cur := Data d' p]> (blocks s))) h (errno s) s in
  mem_ok s L → blocks s !! cur = Some (Data d nx) → length d' = 256%nat → p ∉ L →
  (o ≤ 256)%nat → k = (256 - o)%nat → (k ≤ n)%nat → length d = 256%nat →
  wrote s1 ({[p]} ∪ L) p [] (drop (w + k) buf) (n - k) oom k' s' →
  wrote s L cur (take o d) (drop w buf) n oom (k + k') s'.
Proof.
  intros d' s1 Hm E Hd' Hq Ho Hk Hn Hok (b & h1 & e & l & L' & -> & Hm' & HL & Hf & Hne & Hb
    & Hl & Hk' & Hoom).
  assert (HcL : cur ∈ L) by (apply elem_of_dom_2 in E; destruct Hm as (_&_&H&_); set_solver).
  assert (Hcp : cur ≠ p) by set_solver.
  exists b, h1, e, ((cur, d') :: l), L'. destruct Hf as (Hc & Hnd & Hpre).
  assert (Hdd : d' = take o d ++ take k (drop w buf)).
  { unfold d'. by rewrite (drop_ge d), app_nil_r by lia. }
  split_and!; [done|done|set_solver|split_and!|done|..].
  - simpl. split_and!; [done..|]. exists p. split; [|done].
    rewrite Hb by set_solver. simpl. by rewrite lookup_insert_ne, lookup_insert_eq by done.
  - simpl. constructor; [|done]. intros [?|?]%Hl; [done|set_solver].
  - rewrite data_of_cons, Hdd, <- app_assoc. apply prefix_app.
    rewrite <- (take_take_drop (drop w buf) k k'), drop_drop. by apply prefix_app.
  - intros q HqL Hqc. rewrite Hb by set_solver. simpl.
    rewrite !lookup_insert_ne by set_solver. done.
  - simpl. intros q [->|Hin]%elem_of_cons; [by left|]. right.
    destruct (Hl q Hin); set_solver.
  - lia.
  - lia.
  - rewrite length_take, Nat.min_l by lia. cbn [length] in Hoom. rewrite Nat.add_0_l in Hoom.
    destruct oom.
    + destruct Hoom as [-> Hoom]. split; [done|]. destruct Hoom as [->|Hb0]; [left; lia|right].
      replace (o + (k + k'))%nat with (k' + 1 * 256)%nat by lia. by rewrite Nat.Div0.mod_add.
    + destruct Hoom as (-> & -> & ?). cbn [length]. split_and!; [done|lia|lia].
Qed.

Lemma wrote_last s L cur d nx (o w k : nat) buf fresh p h :
  let d' := take o d ++ take k (drop w buf) ++ drop (o + k) d in
  let s1 := with_mem (<[p := fresh]> (<[cur := Data d' p]> (blocks s))) h (errno s) s in
  mem_ok s L → blocks s !! cur = Some (Data d nx) → length d' = 256%nat →
  length (bytes fresh) = 256%nat → 0 < p → p ∉ L → m_rep h ({[p]} ∪ L) →
  (o + k ≤ 256)%nat → (1 ≤ k)%nat →
  wrote s L cur (take o d) (drop w buf) k false k s1.
Proof.
  intros d' s1 Hm E Hd' Hfr Hp Hq Hh Ho Hk.
  assert (HcL : cur ∈ L) by (apply elem_of_dom_2 in E; destruct Hm as (_&_&H&_); set_solver).
  assert (Hcp : cur ≠ p) by set_solver.
  eexists _, _, _, [(cur, d'); (p, bytes fresh)], _.
  split_and!; [done|by eapply mem_ok_turn|set_solver|split_and!|done|..].
  - simpl. split_and!; [done..|]. exists p.
    rewrite lookup_insert_ne, lookup_insert_eq by done. split; [done|].
    split_and!; [done..|]. exists (d_next fresh). rewrite lookup_insert_eq.
    by destruct fresh.
  - simpl. constructor; [|by apply NoDup_singleton]. set_solver.
  - rewrite data_of_cons. apply prefix_app_r, splice_prefix.
  - intros q HqL Hqc. rewrite !lookup_insert_ne by set_solver. done.
  - simpl. set_solver.
  - lia.
  - lia.
  - done.
  - done.
  - rewrite length_take. simpl. lia.
Qed.

Lemma write_loop_spec fuel fresh s L cur d nx (o w size : nat) buf :
  mem_ok s L → length (bytes fresh) = 256%nat →
  blocks s !! cur = Some (Data d nx) → length d = 256%nat →
  (o < 256)%nat → (w < size)%nat → (size ≤ length buf)%nat →
  ((size - w + o) / 256 + 2 ≤ fuel)%nat →
  ∃ oom k s', write_loop fuel fresh cur o w size buf s = Ok (oom, Z.of_nat (w + k), s') ∧
    wrote s L cur (take o d) (drop w buf) (size - w) oom k s'.
Proof.
  revert s L cur d nx o w. induction fuel as [|fuel IH]; intros s L cur d nx o w
    Hm Hfr E Hd Ho Hw Hs Hf; [lia|].
  pose (k := ((256 - o) `min` (size - w))%nat).
  pose (d' := take o d ++ take k (drop w buf) ++ drop (o + k) d).
  assert (Hd' : length d' = 256%nat)
    by (unfold d', k; rewrite splice_length; rewrite ?length_drop; lia).
  destruct (write_loop_turn fuel fresh s L cur d nx o w size buf)
    as [(h & -> & Hh)|(p & h & -> & Hp & Hq & Hh)]; [done..| |]; fold k d'.
  - exists true, k, (with_mem (<[cur := Data d' 0]> (blocks s)) h ENOMEM s).
    split; [done|]. eexists _, _, _, [(cur, d')], L. split_and!; [done| |done|..].
    + by eapply mem_ok_update.
    + eapply file_on_one; [apply lookup_insert_eq|done|apply splice_prefix].
    + done.
    + intros q _ Hne. by rewrite lookup_insert_ne.
    + intros q Hq. left. simpl in Hq. set_solver.
    + lia.
    + lia.
    + done.
    + rewrite length_take, Nat.min_l by lia. destruct (decide (k = size - w)%nat); [by left|].
      right. replace (o + k)%nat with (1 * 256)%nat by lia. apply Nat.Div0.mod_mul.
  - destruct (decide (size = w + k)%nat) as [Hlast|Hmore].
    + rewrite write_loop_done by lia. eexists _, _, _. split; [done|].
      replace (size - w)%nat with k by lia. eapply wrote_last; (done || lia).
    + assert (Hk : k = (256 - o)%nat) by lia.
      destruct (IH (with_mem (<[p := fresh]> (<[cur := Data d' p]> (blocks s))) h (errno s) s)
        ({[p]} ∪ L) p (bytes fresh) (d_next fresh) 0%nat (w + k)%nat)
        as (oom & k' & s' & -> & Hwr); [by eapply mem_ok_turn|done| |done|lia|lia|done| |].
      { simpl. rewrite lookup_insert_eq. by destruct fresh. }
      { pose proof (Nat.div_mod (size - w + o) 256). pose proof (Nat.div_mod
        (size - (w + k) + 0) 256). assert (size - w + o = 1 * 256 + (size - (w + k) + 0))%nat
        as Eq by lia. rewrite Eq, Nat.div_add_l in Hf; lia. }
      exists oom, (k + k')%nat, s'. split; [f_equal; f_equal; f_equal; lia|].
      eapply wrote_cons; try done; try lia.
      by replace (size - w - k)%nat with (size - (w + k))%nat by lia.
Qed.
(** The block of a position, and the bytes before it. *)
Lemma chain_split b p l (a : nat) : chain b p l → (a < 256 * length l)%nat →
  ∃ pre cur d post, l = pre ++ (cur, d) :: post ∧ length pre = (a / 256)%nat ∧
    length d = 256%nat ∧ length (data_of pre) = (a - a mod 256)%nat.
Proof.
  intros Hc Ha. pose proof (Nat.div_mod_eq a 256).
  destruct (lookup_lt_is_Some_2 l (a / 256)) as [[cur d] E].
  { apply Nat.Div0.div_lt_upper_bound. lia. }
  exists (take (a / 256) l), cur, d, (drop (S (a / 256)) l).
  assert (Hl : l = take (a / 256) l ++ (cur, d) :: drop (S (a / 256)) l)
    by (symmetry; by apply take_drop_middle).
  pose proof (lookup_lt_Some _ _ _ E).
  assert (Hlt : length (take (a / 256) l) = (a / 256)%nat) by (rewrite length_take; lia).
  split_and!; [done|done|..].
  - rewrite Hl in Hc. clear -Hc. revert p Hc.
    induction (take (a / 256) l) as [|[q e] l' IH]; intros p; simpl.
    + by intros (_ & ? & _).
    + intros (_ & _ & nx & _ & Hc). by eapply IH.
  - assert (Hc' : chain b p (take (a / 256) l))
      by (rewrite Hl in Hc; by apply chain_prefix in Hc).
    rewrite (chain_data_length _ _ _ Hc'), Hlt. lia.
Qed.

(** The walk to the block of a position, and what follows there. *)
Lemma chain_at s p l (a : nat) : chain (blocks s) p l → (a ≤ 256 * length l)%nat →
  ∃ cur post, nth_block (a / 256) p s = Ok cur ∧ chain (blocks s) cur post ∧
    length post = (length l - a / 256)%nat ∧
    drop (a mod 256) (data_of post) = drop a (data_of l).
Proof.
  intros Hc Ha. assert (Hq : (a / 256 ≤ length l)%nat)
    by (apply Nat.Div0.div_le_upper_bound; lia).
  rewrite <- (take_drop (a / 256) l) in Hc. pose proof (chain_prefix _ _ _ _ Hc) as Hp.
  destruct (nth_chain s p _ _ Hc) as (cur & Hn & Hcur).
  rewrite length_take_le in Hn by done.
  exists cur, (drop (a / 256) l). split_and!; [done|done|by rewrite length_drop|].
  rewrite <- (take_drop (a / 256) l) at 2. rewrite data_of_app.
  pose proof (Nat.div_mod_eq a 256). apply chain_data_length in Hp.
  rewrite length_take_le in Hp by done.
  rewrite drop_app_ge by lia. f_equal. lia.
Qed.

(** A chain with [c] at its start, after [k] bytes of [src] are written behind [c]. *)
Definition appended (s : fs) (L : gset Z) (p : Z) (l : list (Z * list Z))
    (c src : list Z) (n : nat) (oom : bool) (k : nat) (s' : fs) : Prop :=
  ∃ b h e l' L', s' = with_mem b h e s ∧ mem_ok s' L' ∧ L ⊆ L' ∧
    file_on b p l' (c ++ take k src) ∧
    (∀ q, q ∈ L → q ∉ l.*1 → b !! q = blocks s !! q) ∧
    (∀ q, q ∈ l'.*1 → q ∈ l.*1 ∨ q ∉ L) ∧ (1 ≤ k ≤ n)%nat ∧
    if oom then e = ENOMEM ∧ (k = n ∨ ((length c + k) mod 256 = 0)%nat)
    else e = errno s ∧ k = n ∧ (length c + n < 256 * length l')%nat.

Lemma appended_frame s L p l c src n oom k s' p2 l2 c2 :
  mem_ok s L → appended s L p l c src n oom k s' →
  file_on (blocks s) p2 l2 c2 → l2.*1 ## l.*1 → file_on (blocks s') p2 l2 c2.
Proof.
  intros Hm (b & h & e & l' & L' & -> & _ & _ & _ & Hb & _) (Hc & Hnd & Hp) Hd.
  split_and!; [|done..]. eapply chain_same; [done|]. intros q Hq. apply Hb.
  - destruct Hm as (_ & _ & Hdom & _). apply Hdom. by eapply chain_dom.
  - intros Hq'. by apply (Hd q).
Qed.

Lemma wrote_appended s L p pre cur d post c src n oom k s' (o := (length c mod 256)%nat) :
  mem_ok s L → file_on (blocks s) p (pre ++ (cur, d) :: post) c →
  length d = 256%nat → c = data_of pre ++ take o d → length pre = (length c / 256)%nat →
  wrote s L cur (take o d) src n oom k s' →
  appended s L p (pre ++ (cur, d) :: post) c src n oom k s'.
Proof.
  intros Hm (Hc & Hnd & _) Hd Hcd Hlen (b & h & e & l & L' & -> & Hm' & HL & Hf & Hne & Hb
    & Hl & Hk & Hoom).
  destruct Hf as (Hc2 & Hnd2 & Hpre2).
  assert (Hin : ∀ q, q ∈ pre.*1 → q ∈ L ∧ q ≠ cur).
  { intros q Hq. split.
    - destruct Hm as (_ & _ & Hdom & _). apply Hdom. eapply chain_dom; [done|].
      rewrite fmap_app. set_solver.
    - intros ->. rewrite fmap_app in Hnd. apply list.NoDup_app in Hnd as (_ & Hx & _).
      apply (Hx cur); [done|]. simpl. set_solver. }
  exists b, h, e, (pre ++ l), L'. split_and!; [done|done|done|split_and!|..].
  - eapply chain_replace; [done| |done]. intros q Hq. destruct (Hin q Hq). by apply Hb.
  - rewrite fmap_app. apply list.NoDup_app. split_and!; [|intros q Hq Hq2|done].
    + rewrite fmap_app in Hnd. by apply list.NoDup_app in Hnd as (? & _).
    + destruct (Hin q Hq), (Hl q Hq2); done.
  - rewrite data_of_app, Hcd, <- app_assoc. by apply prefix_app.
  - intros q HqL Hq. apply Hb; [done|]. rewrite fmap_app in Hq. set_solver.
  - intros q. rewrite !fmap_app. intros [Hq|Hq]%elem_of_app; [set_solver|].
    destruct (Hl q Hq) as [->|]; [|by right]. left. set_solver.
  - lia.
  - lia.
  - pose proof (Nat.div_mod_eq (length c) 256) as Hdm.
    pose proof (Nat.mod_upper_bound (length c) 256 ltac:(lia)).
    rewrite length_take, Nat.min_l in Hoom by (unfold o in *; lia). destruct oom.
    + destruct Hoom as [-> [->|Ho]]; split; [done|by left|done|right].
      rewrite Hdm. replace (256 * (length c / 256) + length c mod 256 + k)%nat
        with (o + k + length c / 256 * 256)%nat by (unfold o; lia).
      by rewrite Nat.Div0.mod_add.
    + destruct Hoom as (-> & -> & Ho). split_and!; [done..|].
      rewrite length_app, Hlen. unfold o in *. lia.
Qed.
Lemma block_fuel_nat (size : nat) : block_fuel size = (size / 256 + 3)%nat.
Proof.
  unfold block_fuel. pose proof (Z.div_pos size 256 ltac:(lia) ltac:(lia)).
  apply Nat2Z.inj. rewrite Nat2Z.inj_add, Nat2Z.inj_div, Z2Nat.id by lia. done.
Qed.

(** The walk to the block of the end of [c], and the write from there. *)
Lemma append_spec s L p l c fresh size buf :
  mem_ok s L → length (bytes fresh) = 256%nat → file_on (blocks s) p l c →
  (length c < 256 * length l)%nat → (0 < size)%nat → (size ≤ length buf)%nat →
  ∃ cur oom (k : nat) s', nth_block (length c / 256) p s = Ok cur ∧
    write_loop (block_fuel size) fresh cur (length c mod 256)%nat 0%nat size buf s
    = Ok (oom, Z.of_nat k, s') ∧
    appended s L p l c buf size oom k s'.
Proof.
  intros Hm Hfr Hf Hlen H0 Hs. pose proof Hf as (Hc & Hnd & Hpre).
  destruct (chain_split _ p l (length c) Hc Hlen)
    as (pre & cur & d & post & -> & Hpl & Hd & Hdp).
  destruct (nth_chain s p pre ((cur, d) :: post) Hc) as (q & Hn & Hq & _ & nx & E & _).
  subst q. rewrite Hpl in Hn. pose proof (Nat.mod_upper_bound (length c) 256 ltac:(lia)) as Hmod.
  destruct (write_loop_spec (block_fuel size) fresh s L cur d nx (length c mod 256) 0 size buf)
    as (oom & k & s' & Hw & Hwr); [done..| |].
  { rewrite block_fuel_nat.
    pose proof (Nat.Div0.div_le_mono (size - 0 + length c mod 256) (1 * 256 + size) 256
      ltac:(lia)) as Hle. rewrite Nat.div_add_l in Hle by lia. lia. }
  rewrite Nat.sub_0_r, drop_0 in Hwr. rewrite Nat.add_0_l in Hw.
  exists cur, oom, k, s'. split_and!; [done..|].
  eapply wrote_appended; try done.
  destruct Hpre as [rest Hrest]. rewrite data_of_app, data_of_cons in Hrest.
  assert (Hle : (length c mod 256 ≤ length c)%nat) by (apply Nat.Div0.mod_le).
  rewrite <- (take_app_length c rest), <- Hrest.
  replace (length c) with (length (data_of pre) + length c mod 256)%nat at 1 by lia.
  rewrite take_app_add. f_equal. rewrite take_app_le by lia. f_equal. by rewrite Hrest, take_app_length.
Qed.

(** ** Positions

    The code divides a position by 255 to get its block: right only here. *)
Definition aligned (a : nat) : Prop := (a / 255 = a / 256)%nat.

Lemma block_of (a : nat) : aligned a →
  a / 0xFF = (a / 256)%nat ∧ a mod 0x100 = (a mod 256)%nat.
Proof.
  intros Ha. change 0xFF with (Z.of_nat 255). change 0x100 with (Z.of_nat 256).
  by rewrite <- Nat2Z.inj_div, <- Nat2Z.inj_mod, Ha.
Qed.

Lemma start_block (a : nat) : aligned a → a < 2 ^ 31 →
  Z.to_nat (u32 (Z.quot a 0xFF)) = (a / 256)%nat ∧ u32 (Z.rem a 0x100) = (a mod 256)%nat.
Proof.
  intros Ha Hlt. rewrite Z.quot_div_nonneg, Z.rem_mod_nonneg by lia.
  destruct (block_of a Ha) as [-> ->].
  pose proof (Nat.Div0.div_le_upper_bound a 256 a ltac:(lia)).
  pose proof (Nat.Div0.mod_le a 256).
  rewrite !uint_small by (change (2 ^ 32) with (2 * 2 ^ 31); lia). split; [lia|done].
Qed.
End blocks.
