(* ===== verification/Nodes.v ===== *)
(** * Nodes: the list of files

    The nodes hang in one list from [vfs_root]; new ones are put at its end. *)

From S2P Require Import Prelude Malloc Headers CString Vga Fs Blocks.

Section nodes.
Context {MA : Malloc} {SY : Sys}.

(** The list at [p] is made of the nodes [ps]. *)
Fixpoint vlist (ns : gmap Z vfs_node_t) (p : Z) (ps : list Z) : Prop :=
  match ps with
  | [] => p = 0
  | q :: ps => q = p ∧ p ≠ 0 ∧ ∃ n, ns !! p = Some n ∧ vlist ns (n_next n) ps
  end.

Definition list_ok (s : fs) (ps : list Z) : Prop :=
  vlist (vnodes s) (vfs_root s) ps ∧ NoDup ps.

Lemma vlist_dom ns p ps q : vlist ns p ps → q ∈ ps → q ∈ dom ns.
Proof.
  revert p. induction ps as [|a ps IH]; intros p; simpl; [by rewrite elem_of_nil|].
  intros (-> & _ & n & E & H) [->|Hq]%elem_of_cons; [by apply elem_of_dom_2 in E|by eapply IH].
Qed.

Lemma vlist_frame ns ns' p ps :
  vlist ns p ps → (∀ q n, q ∈ ps → ns !! q = Some n →
    ∃ n', ns' !! q = Some n' ∧ n_next n' = n_next n) → vlist ns' p ps.
Proof.
  revert p. induction ps as [|a ps IH]; intros p; simpl; [done|].
  intros (-> & Hp & n & E & H) Hs. split_and!; [done..|].
  destruct (Hs p n) as (n' & E' & Hn'); [by constructor|done|]. exists n'. split; [done|].
  rewrite Hn'. apply IH; [done|]. intros q m Hq. apply Hs. by constructor.
Qed.

(** The same nodes, up to [next]. *)
Definition same_nodes (ns ns' : gmap Z vfs_node_t) : Prop :=
  ∀ q n, ns !! q = Some n → ∃ m, ns' !! q = Some (with_next m n).

Lemma same_nodes_refl ns : same_nodes ns ns.
Proof. intros q n E. exists (n_next n). rewrite E. by destruct n. Qed.

Lemma last_node_spec fuel s p ps q :
  vlist (vnodes s) p (ps ++ [q]) → (length ps < fuel)%nat →
  last_node fuel p s = Ok q ∧ ∃ n, vnodes s !! q = Some n ∧ n_next n = 0.
Proof.
  revert p ps. induction fuel as [|fuel IH]; intros p ps H Hf; [lia|]. cbn [last_node].
  unfold get_node. destruct ps as [|a ps]; simpl in H, Hf.
  - destruct H as (-> & _ & n & E & Hn). rewrite E. cbn [deref rbind]. rewrite Hn. eauto.
  - destruct H as (-> & _ & n & E & H). rewrite E. cbn [deref rbind].
    assert (n_next n ≠ 0) by (destruct ps; simpl in H; destruct H as (? & ? & _); done).
    replace (n_next n =? 0) with false by lia. simpl. apply (IH _ ps); [done|lia].
Qed.

Lemma vlist_fuel s p ps : vlist (vnodes s) p ps → NoDup ps → (length ps < node_fuel s)%nat.
Proof.
  intros H Hnd. unfold node_fuel. assert (Hd : list_to_set ps ⊆ dom (vnodes s)).
  { intros q Hq%elem_of_list_to_set. by eapply vlist_dom. }
  apply subseteq_size in Hd. rewrite size_list_to_set, size_dom in Hd by done. lia.
Qed.

(** Hanging the node [r] behind the last one. *)
Lemma vlist_snoc ns p ps q r m :
  vlist ns p (ps ++ [q]) → NoDup (ps ++ [q]) → r ≠ 0 → r ∉ ps ++ [q] → n_next m = 0 →
  ∀ n, ns !! q = Some n →
  vlist (<[r := m]> (<[q := with_next r n]> ns)) p ((ps ++ [q]) ++ [r]).
Proof.
  revert p. induction ps as [|a ps IH]; intros p; simpl.
  - intros (-> & Hp & n0 & E & _) _ Hr Hq Hm n En. split_and!; [done..|].
    exists (with_next r n). rewrite lookup_insert_ne, lookup_insert_eq by set_solver.
    split; [done|]. simpl. split_and!; [done..|]. exists m. by rewrite lookup_insert_eq.
  - intros (-> & Hp & n0 & E & H) Hnd Hr Hq Hm n En.
    apply list.NoDup_cons in Hnd as [Hnin Hnd]. split_and!; [done..|].
    exists n0. rewrite !lookup_insert_ne by set_solver. split; [done|].
    apply IH; (done || set_solver).
Qed.

(** Taking the last one off. *)
Lemma vlist_unsnoc ns p ps q r n :
  vlist ns p ((ps ++ [q]) ++ [r]) → NoDup ((ps ++ [q]) ++ [r]) → ns !! q = Some n →
  n_next n = r ∧ vlist (<[q := with_next 0 n]> (delete r ns)) p (ps ++ [q]).
Proof.
  revert p. induction ps as [|a ps IH]; intros p; simpl.
  - intros (-> & Hp & n0 & E & (-> & _)) _ En. rewrite En in E. simplify_eq.
    split; [done|]. split_and!; [done..|]. exists (with_next 0 n0).
    by rewrite lookup_insert_eq.
  - intros (-> & Hp & n0 & E & H) Hnd En.
    apply list.NoDup_cons in Hnd as [Hnin Hnd]. destruct (IH _ H Hnd En) as [Hn Hv].
    split; [done|]. split_and!; [done..|]. exists n0.
    rewrite lookup_insert_ne, lookup_delete_ne by set_solver. done.
Qed.

Definition with_vfs (v : gmap Z vfs_node_t) (root : Z) (h : mstate) (e : Z) (s : fs) : fs :=
  set_errno e (set_heap h (set_root root (set_vnodes v s))).

Lemma mem_ok_node s L p n v root h e :
  mem_ok s L → 0 < p → p ∉ L → m_rep h ({[p]} ∪ L) → dom v = dom (vnodes s) →
  mem_ok (with_vfs (<[p := n]> v) root h e s) ({[p]} ∪ L).
Proof.
  intros (Hm & H0 & H1 & H2 & H3 & H4 & H5 & H6) Hp Hq Hh Hv.
  unfold mem_ok. simpl. rewrite dom_insert_L, Hv. split_and!; try done; set_solver.
Qed.

(** What [append_node] leaves: nothing, without memory, or the node [r] behind the
    node [backup]; the caller must end the list at [r]. *)
Definition append_post (s : fs) (L : gset Z) (ps : list Z) (r backup : Z) (s' : fs) : Prop :=
  ∃ v root h e, s' = with_vfs v root h e s ∧ same_nodes (vnodes s) v ∧
    backup = default 0 (list.last ps) ∧
    ((r = 0 ∧ e = ENOMEM ∧ mem_ok s' L ∧ list_ok s' ps) ∨
     (0 < r ∧ r ∉ L ∧ e = errno s ∧ mem_ok s' ({[r]} ∪ L) ∧ v !! r = Some junk_node ∧
      r ∉ ps ∧ (∀ q, q ≠ r → q ∈ dom v → q ∈ dom (vnodes s)) ∧
      (∀ n, n_next n = 0 → vlist (<[r := n]> v) root (ps ++ [r])))).

Lemma append_node_spec s L ps : mem_ok s L → list_ok s ps →
  ∃ r backup s', append_node s = Ok (r, backup, s') ∧ append_post s L ps r backup s'.
Proof.
  intros Hm [Hl Hnd]. unfold append_node.
  destruct ps as [|q ps _] using rev_ind.
  - simpl in Hl. rewrite Hl. change (0 =? 0) with true. cbv iota.
    destruct (kmalloc_cases NODE_SIZE s L Hm) as [(h & -> & Hh)|(p & h & -> & Hp & Hq & Hh)];
      [done|..]; cbn [rbind].
    + eexists 0, 0, _. split; [done|].
      exists (vnodes s), (vfs_root s), h, ENOMEM.
      split; [by destruct s|]. split; [apply same_nodes_refl|]. split; [done|left].
      split_and!; [done|done|by apply (mem_ok_same s)|done].
    + replace (p =? 0) with false by lia. eexists p, 0, _. split; [done|].
      exists (<[p := junk_node]> (vnodes s)), p, h, (errno s).
      split; [done|]. assert (Hv : vnodes s !! p = None).
      { apply not_elem_of_dom. destruct Hm as (_ & _ & _ & Hd & _). set_solver. }
      split. { intros q n E. exists (n_next n). rewrite lookup_insert_ne by congruence.
               rewrite E. by destruct n. }
      split; [done|right]. split_and!; [done|done|done| |apply lookup_insert_eq|set_solver|..].
      * by apply (mem_ok_node s L p junk_node (vnodes s) p h (errno s)).
      * set_solver.
      * intros n Hn. simpl. split_and!; [done|lia|]. exists n. by rewrite lookup_insert_eq.
  - assert (Hr : vfs_root s ≠ 0) by (destruct ps; simpl in Hl; destruct Hl as (? & ? & _); done).
    replace (vfs_root s =? 0) with false by lia.
    pose proof (vlist_fuel _ _ _ Hl Hnd) as Hf. rewrite length_app in Hf. simpl in Hf.
    destruct (last_node_spec (node_fuel s) s _ ps q Hl) as (-> & n & En & Hn); [lia|].
    cbn [rbind]. unfold get_node.
    destruct (kmalloc_cases NODE_SIZE s L Hm) as [(h & -> & Hh)|(p & h & -> & Hp & Hq & Hh)];
      [done|..]; cbn [rbind]; rewrite (En : vnodes (with_mem _ _ _ s) !! q = _);
      cbn [deref rbind].
    + assert (Hid : <[q := with_next 0 n]> (vnodes s) = vnodes s).
      { apply insert_id. rewrite En, <- Hn. by destruct n. }
      assert (Hst : put_node q (with_next 0 n) (with_mem (blocks s) h ENOMEM s)
        = with_mem (blocks s) h ENOMEM s) by (unfold put_node; simpl; by rewrite Hid).
      rewrite Hst. eexists 0, q, _. split; [done|].
      exists (vnodes s), (vfs_root s), h, ENOMEM. split; [by destruct s|].
      split; [apply same_nodes_refl|]. split; [by rewrite last_snoc|left].
      split_and!; [done|done|by apply (mem_ok_same s)|done].
    + replace (p =? 0) with false by lia. eexists p, q, _. split; [done|].
      exists (<[p := junk_node]> (<[q := with_next p n]> (vnodes s))), (vfs_root s), h, (errno s).
      split; [by destruct s|].
      assert (Hdom : dom (<[q := with_next p n]> (vnodes s)) = dom (vnodes s))
        by (apply dom_insert_lookup_L; by rewrite En).
      assert (Hv : p ∉ dom (vnodes s)) by (destruct Hm as (_ & _ & _ & Hd & _); set_solver).
      assert (Hpps : p ∉ ps ++ [q]) by (intros Hin; by apply (vlist_dom _ _ _ _ Hl) in Hin).
      split.
      { intros a m E. destruct (decide (a = q)) as [->|Haq].
        - exists p. rewrite lookup_insert_ne, lookup_insert_eq by set_solver. congruence.
        - exists (n_next m). rewrite !lookup_insert_ne by
            (try done; intros ->; by apply elem_of_dom_2 in E). rewrite E. by destruct m. }
      split; [by rewrite last_snoc|right].
      split_and!; [done|done|done| |apply lookup_insert_eq|done|..].
      * by apply (mem_ok_node s L p junk_node _ (vfs_root s) h (errno s)).
      * intros a Ha. rewrite dom_insert_L, Hdom. set_solver.
      * intros m Hm0. rewrite insert_insert_eq. by apply vlist_snoc; try done; lia.
Qed.
End nodes.
