(* ===== verification/Demo.v ===== *)
(** * Demo: a small running system for the examples

    The kernel heap of Kmalloc on the page tables of Vm, with three blocks handed
    out: a node, a header and a data block; descriptor 3 is open on the node. *)

From S2P Require Import Prelude Malloc Headers Paging Vm Kmalloc CString Vga Fs Blocks.

#[export] Instance demo_malloc : Malloc := @kernel_malloc (@kernel_sbrk pre_paging).

Definition demo_heap : mstate :=
  @KHeap (@kernel_sbrk pre_paging) 0x400000 0x410000 0x10000
    {[0x400000 := KNode 144 KMALLOC_RES 0x4000a0 0;
      0x4000a0 := KNode 272 KMALLOC_RES 0x4001c0 0x400000;
      0x4001c0 := KNode 32 KMALLOC_RES 0x4001f0 0x4000a0;
      0x4001f0 := KNode 0xfe00 KMALLOC_FREE 0 0x4001c0]} 0
    (Kvm 0x400000 0x10000 kernel_mm).

Definition demo_allocated : gset Z := {[0x400010; 0x4000b0; 0x4001d0]}.

Lemma demo_heap_rep : m_rep demo_heap demo_allocated.
Proof.
  exists [Blk 0x400000 144 false; Blk 0x4000a0 272 false; Blk 0x4001c0 32 false;
          Blk 0x4001f0 0xfe00 true].
  split; [|vm_compute; reflexivity].
  split; [by apply kernel_kvm_ok|]. split_and!; try done.
  - by exists [Blk 0x400000 144 false; Blk 0x4000a0 272 false; Blk 0x4001c0 32 false],
      (Blk 0x4001f0 0xfe00 true).
  - exists 0x410000. split; [|done]. simpl. split_and!; done.
Qed.

Definition blank_stat : stat := Stat 0 0 0 0 0 0 0 0 0 0.

(** Nothing else runs; the keyboard types nothing. *)
#[export] Instance demo_sys : Sys := {|
  junk_node := VNode (replicate 64 0xAA) blank_stat None None None None None None 0;
  junk_data := Data (replicate 256 0xAA) 0xAAAAAAA0;
  junk_hdr := Hdr 0xAAAAAAA0 0 0 7 7;
  sched_switch := Ok;
  kb_irq := Ok;
  patience := 3;
  junk_name_len := eq_refl;
  junk_data_len := eq_refl
|}.

(** The node is the object [dev], [0] of the file system [k]; [c] is in the data
    block, the descriptor has the flags [fl]. *)
Definition demo_node (dev mode : Z) (k : option fs_kind) (sz : Z) : vfs_node_t :=
  VNode (102 :: replicate 63 0) (Stat dev 0 mode 0 0 dev sz 0 0 0) k k None None None None 0.

Definition demo_fs (node : vfs_node_t) (c : list Z) (hdr : hdr_t) (pos fl : Z) : fs :=
  Fs (<[3%nat := Fildes 0x400010 pos fl]> (replicate 32 (Fildes 0 0 0))) 0 0x400010
    {[0x400010 := node]} {[0x4000b0 := Data (c ++ replicate (256 - length c) 0) 0]}
    {[0x4001d0 := hdr]} (0x4000b0 :: replicate 1023 0) 1 (0x4001d0 :: replicate 1023 0) 1
    (0x4001d0 :: replicate 1023 0) (Stdin 0 0 0 (replicate 1024 0))
    (Console 0 15 (blank_screen 0 0)) demo_heap.

Lemma demo_mem_ok node c hdr pos fl : mem_ok (demo_fs node c hdr pos fl) demo_allocated.
Proof.
  split; [exact demo_heap_rep|]. simpl. rewrite !dom_singleton_L. unfold demo_allocated.
  split_and!; set_solver by lia.
Qed.

Lemma demo_file_on node c hdr pos fl : (length c ≤ 256)%nat →
  file_on (blocks (demo_fs node c hdr pos fl)) 0x4000b0
    [(0x4000b0, c ++ replicate (256 - length c) 0)] c.
Proof.
  intros Hl. eapply file_on_one; [apply lookup_singleton_eq| |by apply prefix_app_r].
  rewrite length_app, length_replicate. lia.
Qed.
