(* ===== verification/Ramfs.v ===== *)
(** * Ramfs: files in memory

    [kernel/src/fs/ramfs.c].  A file is the chain of blocks at [ramfs_nodes[ino]]. *)

From S2P Require Import Prelude Malloc Headers CString Vga Fs Blocks Demo.

#[local] Coercion Z.of_nat : nat >-> Z.

Section ramfs.
Context {MA : Malloc} {SY : Sys}.

(** ** Operations *)

(** The bytes read, and the buffer.  [at++] goes with [read++]. *)
Fixpoint ramfs_read_loop (fuel : nat) (curnode offset read size : Z) (buf : list Z) (s : fs)
    : res (Z * list Z) :=
  match fuel with
  | O => Fuel
  | S fuel =>
      if read <? size then
        let* d := get_block curnode s in
        let* (stop, read, buf) :=
          read_block (Z.to_nat (256 - offset)) offset read size (bytes d) buf in
        if stop then Ok (read, buf)
        else ramfs_read_loop fuel (d_next d) 0 read size buf s
      else Ok (read, buf)
  end.

Definition with_at (a : Z) (f : fildes_t) : fildes_t := Fildes (vfs_node f) a (oflag f).

Definition read_ramfs (fd : Z) (buf : list Z) (size : Z) (s : fs) : res (Z * list Z * fs) :=
  let* f := get_fd fd s in
  let* node := get_node (vfs_node f) s in
  let start_node := u32 (Z.quot (at_ f) 0xFF) in
  let offset := u32 (Z.rem (at_ f) 0x100) in
  let readable := u32 (st_size (status node) - at_ f) in
  let* curnode := deref (aget (ramfs_nodes s) (st_ino (status node))) in
  let* curnode := nth_block (Z.to_nat start_node) curnode s in
  let size := if readable <? size then readable else size in
  let* (read, buf) := ramfs_read_loop (block_fuel size) curnode offset 0 size buf s in
  let* s := put_fd fd (with_at (s32 (at_ f + read)) f) s in
  Ok (s32 read, buf, s).

Definition zero_block : data_t := Data (repeat 0 256) 0.

Definition write_ramfs (fd : Z) (buf : list Z) (size : Z) (s : fs) : res (Z * fs) :=
  let* f := get_fd fd s in
  let* node := get_node (vfs_node f) s in
  let start_node := u32 (Z.quot (at_ f) 0xFF) in
  let offset := u32 (Z.rem (at_ f) 0x100) in
  let* curnode := deref (aget (ramfs_nodes s) (st_ino (status node))) in
  let* curnode := nth_block (Z.to_nat start_node) curnode s in
  let* (oom, written, s) :=
    write_loop (block_fuel size) zero_block curnode offset 0 size buf s in
  let s := put_node (vfs_node f)
             (with_size (s32 (st_size (status node) + written)) node) s in
  let* s := put_fd fd (with_at (s32 (at_ f + written)) f) s in
  if oom && (written =? 0) then Ok (-1, s) else Ok (s32 written, s).

Definition creat_ramfs (p : Z) (s : fs) : res (Z * fs) :=
  let* node := get_node p s in
  let node := with_ops (Some RAMFS) (Some RAMFS) None None None node in
  let s := put_node p node s in
  let ino := st_ino (status node) in
  let* (q, s) := kmalloc DATA_SIZE s in
  let* l := deref (aset (ramfs_nodes s) ino q) in
  let s := set_ramfs l (ramfs_inodes s) s in
  if q =? 0 then failz ENOSPC s
  else Ok (1, put_block q (Data (repeat 0 256) (d_next junk_data)) s).

(** ** Reading *)
Lemma ramfs_read_loop_spec fuel s cur l (o r size : nat) buf :
  chain (blocks s) cur l → (o < 256)%nat → (r ≤ size)%nat → (size ≤ length buf)%nat →
  (o + (size - r) ≤ 256 * length l)%nat → ((size - r + o) / 256 + 2 ≤ fuel)%nat →
  ramfs_read_loop fuel cur o r size buf s
  = Ok (Z.of_nat size,
        take r buf ++ take (size - r) (drop o (data_of l)) ++ drop size buf).
Proof.
  revert cur l o r buf. induction fuel as [|fuel IH]; intros cur l o r buf
    Hc Ho Hr Hs Hl Hf; [lia|].
  cbn [ramfs_read_loop]. destruct (Z.ltb_spec r size) as [Hlt|Hge].
  2: { assert (r = size) as -> by lia. rewrite Nat.sub_diag. simpl. by rewrite take_drop. }
  destruct l as [|[q d] l]; [simpl in Hl; lia|].
  destruct Hc as (-> & Hd & nx & E & Hc). unfold get_block. rewrite E. cbn [deref rbind].
  replace (Z.to_nat (256 - o)) with (256 - o)%nat by lia.
  rewrite read_block_spec by (simpl; lia). cbn [rbind d_next].
  rewrite data_of_cons. rewrite drop_app_le by lia.
  destruct (decide (size - r < 256 - o)%nat) as [Hstop|Hgo].
  - rewrite bool_decide_true by done. cbn [rbind].
    replace ((256 - o) `min` (size - r))%nat with (size - r)%nat by lia.
    rewrite (take_app_le (drop o d)) by (rewrite length_drop; lia).
    f_equal. f_equal; [lia|]. do 3 f_equal. lia.
  - rewrite bool_decide_false by done. cbn [rbind].
    replace ((256 - o) `min` (size - r))%nat with (256 - o)%nat by lia.
    rewrite (take_ge (drop o d)) by (rewrite length_drop; lia).
    rewrite (take_app_ge (drop o d)), length_drop, Hd by (rewrite length_drop; lia).
    pose (n := (256 - o)%nat). pose (buf1 := take r buf ++ drop o d ++ drop (r + n) buf).
    assert (Hn : length (take r buf ++ drop o d) = (r + n)%nat)
      by (rewrite length_app, length_take, length_drop; lia).
    assert (Hb1 : length buf1 = length buf)
      by (unfold buf1; rewrite app_assoc, length_app, Hn, length_drop; lia).
    fold n buf1. change 0 with (Z.of_nat 0). rewrite (IH nx l); [|done|lia|lia|lia| |].
    + f_equal. f_equal. rewrite drop_0.
      assert (Ht : take (r + n) buf1 = take r buf ++ drop o d)
        by (unfold buf1; by rewrite app_assoc, take_app_length').
      assert (Hdr : drop size buf1 = drop size buf).
      { unfold buf1. rewrite app_assoc, drop_app_ge, Hn, drop_drop by lia. f_equal. lia. }
      rewrite Ht, Hdr, <- !app_assoc. by replace (size - r - n)%nat with (size - (r + n))%nat by lia.
    + simpl in Hl. lia.
    + assert (size - r + o = 1 * 256 + (size - (r + n) + 0))%nat as Eq by lia.
      rewrite Eq, Nat.div_add_l in Hf; lia.
Qed.
(** ** Files

    [fd] stands at [a] of the open file with the content [c], which is held by the
    blocks [l]. *)
Definition file_ok (s : fs) (fd : Z) (l : list (Z * list Z)) (c : list Z) (a : nat) : Prop :=
  ∃ f node p, get_fd fd s = Ok f ∧ vnodes s !! vfs_node f = Some node ∧
    aget (ramfs_nodes s) (st_ino (status node)) = Some p ∧
    file_on (blocks s) p l c ∧ at_ f = a ∧ st_size (status node) = len c.

Lemma read_ramfs_result s fd l c a f node p (size : nat) buf :
  get_fd fd s = Ok f → vnodes s !! vfs_node f = Some node →
  aget (ramfs_nodes s) (st_ino (status node)) = Some p →
  file_on (blocks s) p l c → at_ f = Z.of_nat a → st_size (status node) = len c →
  (a ≤ length c)%nat → aligned a → len c < 2 ^ 31 → (size ≤ length buf)%nat → size < 2 ^ 31 →
  let k := (size `min` (length c - a))%nat in
  read_ramfs fd buf size s
  = Ok (Z.of_nat k, take k (drop a c) ++ drop k buf, at_fd fd (with_at (a + k)%nat f) s).
Proof.
  intros Ef En Ep Hf Ha Hsz Hle Hal Hc Hs Hsz31 k. pose proof Hf as (Hch & _ & Hpre).
  unfold read_ramfs, get_node. rewrite Ef. cbn [rbind]. rewrite En. cbn [deref rbind].
  rewrite Ha, Hsz. destruct (start_block a Hal) as [-> ->]; [lia|].
  rewrite Ep. cbn [deref rbind].
  pose proof (chain_data_length _ _ _ Hch) as Hdl. pose proof (prefix_length _ _ Hpre).
  destruct (chain_at s p l a Hch) as (cur & post & -> & Hcur & Hpost & Hd); [lia|].
  cbn [rbind]. rewrite uint_small by (change (2 ^ 32) with (2 * 2 ^ 31); lia).
  replace (if len c - a <? size then len c - a else size) with (Z.of_nat k)
    by (destruct (Z.ltb_spec (len c - a) size); lia).
  pose proof (Nat.div_mod_eq a 256). pose proof (Nat.mod_upper_bound a 256 ltac:(lia)).
  change 0 with (Z.of_nat 0) at 1.
  rewrite (ramfs_read_loop_spec _ s cur post); [|done|lia|lia|lia|lia|].
  - cbn [rbind]. rewrite put_fd_ok by (by eapply get_fd_range). cbn [rbind].
    rewrite !sint_small by lia. do 3 f_equal; [|f_equal; f_equal; lia].
    rewrite take_0, Nat.sub_0_r, app_nil_l. f_equal. rewrite Hd.
    destruct Hpre as [rest ->].
    by rewrite drop_app_le, take_app_le by (rewrite ?length_drop; lia).
  - rewrite block_fuel_nat. pose proof (Nat.Div0.div_le_mono (k - 0 + a mod 256)
      (1 * 256 + k) 256 ltac:(lia)) as Hm. rewrite Nat.div_add_l in Hm by lia. lia.
Qed.
(** ** Writing *)
Definition add_size (k : nat) (node : vfs_node_t) : vfs_node_t :=
  with_size (st_size (status node) + k) node.

Lemma write_ramfs_result s L fd l c f node p (size : nat) buf :
  mem_ok s L → get_fd fd s = Ok f → vnodes s !! vfs_node f = Some node →
  aget (ramfs_nodes s) (st_ino (status node)) = Some p →
  file_on (blocks s) p l c → at_ f = len c → st_size (status node) = len c →
  (length c < 256 * length l)%nat → aligned (length c) →
  (0 < size)%nat → (size ≤ length buf)%nat → len c + size < 2 ^ 31 →
  ∃ oom k s1, appended s L p l c buf size oom k s1 ∧
    write_ramfs fd buf size s
    = Ok (Z.of_nat k, at_fd fd (with_at (length c + k)%nat f)
                        (put_node (vfs_node f) (add_size k node) s1)).
Proof.
  intros Hm Ef En Ep Hf Ha Hsz Hroom Hal H0 Hs Hlt.
  destruct (append_spec s L p l c zero_block size buf) as (cur & oom & k & s1 & Hn & Hw & Happ);
    [done..|].
  exists oom, k, s1. split; [done|].
  unfold write_ramfs, get_node. rewrite Ef. cbn [rbind]. rewrite En. cbn [deref rbind].
  rewrite Ha, Hsz. destruct (start_block (length c) Hal) as [-> ->]; [lia|].
  rewrite Ep. cbn [deref rbind]. rewrite Hn. cbn [rbind].
  change 0 with (Z.of_nat 0) at 1. rewrite Hw. cbn [rbind].
  destruct Happ as (b & h & e & l' & L' & -> & _ & _ & _ & _ & _ & Hk & _).
  rewrite put_fd_ok by (simpl; by eapply get_fd_range). cbn [rbind].
  replace (oom && (Z.of_nat k =? 0)) with false by (destruct oom; lia).
  rewrite !sint_small by lia. unfold add_size. rewrite Hsz. do 3 f_equal. f_equal. lia.
Qed.

(** C10: a write at the end of a file, of a length [c] with [c / 255 = c / 256] ([aligned]; at the
    others the code takes the wrong block, [append_at_255]), appends: it returns the number [k]
    of bytes written, the file then holds its old content followed by the first [k] bytes of
    the buffer and the descriptor stands behind them.  All bytes are written unless
    the heap runs out, and then [errno] is [ENOMEM] and at least one byte was
    written.  No other file changes. *)
Theorem write_ramfs_appends s L fd l c (size : nat) buf
    (Hm : mem_ok s L) (Hf : file_ok s fd l c (length c))
    (Hroom : (length c < 256 * length l)%nat) (Hal : aligned (length c))
    (Hsize : (0 < size ≤ length buf)%nat) (Hlt : len c + size < 2 ^ 31) :
  ∃ (k : nat) s' l' L', write_ramfs fd buf size s = Ok (Z.of_nat k, s') ∧
    mem_ok s' L' ∧ L ⊆ L' ∧ file_ok s' fd l' (c ++ take k buf) (length c + k) ∧
    (1 ≤ k ≤ size)%nat ∧
    (errno s' = ENOMEM ∨
     errno s' = errno s ∧ k = size ∧ (length c + k < 256 * length l')%nat) ∧
    (∀ p2 l2 c2, file_on (blocks s) p2 l2 c2 → l2.*1 ## l.*1 →
       file_on (blocks s') p2 l2 c2 ∧ l2.*1 ## l'.*1).
Proof.
  destruct Hf as (f & node & p & Ef & En & Ep & Hf & Ha & Hsz).
  destruct (write_ramfs_result s L fd l c f node p size buf)
    as (oom & k & s1 & Happ & Hw); try done; [lia..|].
  pose proof (λ p2 l2 c2, appended_frame _ _ _ _ _ _ _ _ _ _ p2 l2 c2 Hm Happ) as Hframe.
  destruct Happ as (b & h & e & l' & L' & -> & Hm' & HL & Hf' & Hb & Hfresh & Hk & Hoom).
  exists k. eexists. exists l', L'. split; [exact Hw|].
  split; [by eapply put_node_ok|]. split; [done|]. split.
  { exists (with_at (length c + k)%nat f), (add_size k node), p.
    split_and!; [| |done|done|done|].
    - apply get_at_fd. simpl. by eapply get_fd_range.
    - apply lookup_insert_eq.
    - simpl. rewrite Hsz, length_app, length_take. lia. }
  split; [lia|]. split.
  { simpl. destruct oom; [left; by destruct Hoom|]. right. destruct Hoom as (-> & -> & ?). done. }
  intros p2 l2 c2 H2 Hd. split; [by apply (Hframe p2 l2 c2)|].
  intros q Hq Hq'. destruct (Hfresh q Hq') as [|Hn]; [by apply (Hd q)|].
  apply Hn. destruct Hm as (_ & _ & Hdom & _). apply Hdom. destruct H2 as (Hc2 & _).
  by eapply chain_dom.
Qed.
(** A read of a file returns the bytes from the position on, as many as were
    asked for or as there are, moves the position behind them, leaves the rest of
    the buffer alone and changes nothing else. *)
Theorem read_ramfs_reads s fd l c a (size : nat) buf
    (Hf : file_ok s fd l c a) (Ha : (a ≤ length c)%nat) (Hal : aligned a)
    (Hc : len c < 2 ^ 31) (Hs : (size ≤ length buf)%nat) (Hs31 : size < 2 ^ 31) :
  let k := (size `min` (length c - a))%nat in
  ∃ f, get_fd fd s = Ok f ∧
    read_ramfs fd buf size s
    = Ok (Z.of_nat k, take k (drop a c) ++ drop k buf,
          at_fd fd (with_at (a + k)%nat f) s) ∧
    file_ok (at_fd fd (with_at (a + k)%nat f) s) fd l c (a + k).
Proof.
  intros k. destruct Hf as (f & node & p & Ef & En & Ep & Hf & Hat & Hsz).
  exists f. split; [done|]. split; [by eapply read_ramfs_result|].
  exists (with_at (a + k)%nat f), node, p. split_and!; try done.
  apply get_at_fd. by eapply get_fd_range.
Qed.

(** The node of a file that was just made: an empty block, or none. *)
Definition created (p : Z) (node : vfs_node_t) (q : Z) (h : mstate) (e : Z) (s : fs) : fs :=
  let b := if q =? 0 then blocks s
           else <[q := Data (repeat 0 256) (d_next junk_data)]> (blocks s) in
  set_ramfs (<[Z.to_nat (st_ino (status node)) := q]> (ramfs_nodes s)) (ramfs_inodes s)
    (with_mem b h e
       (put_node p (with_ops (Some RAMFS) (Some RAMFS) None None None node) s)).

Lemma creat_ramfs_spec s L p node :
  mem_ok s L → vnodes s !! p = Some node →
  0 ≤ st_ino (status node) < len (ramfs_nodes s) →
  ∃ q h, let s' e := created p node q h e s in
    (creat_ramfs p s = Ok (1, s' (errno s)) ∧ 0 < q ∧ q ∉ L ∧
       mem_ok (s' (errno s)) ({[q]} ∪ L)) ∨
    (creat_ramfs p s = Ok (-1, s' (errno_num ENOSPC)) ∧ q = 0 ∧
       mem_ok (s' (errno_num ENOSPC)) L).
Proof.
  intros Hm En Hi. unfold creat_ramfs, get_node. rewrite En. cbn [deref rbind].
  set (node' := with_ops _ _ _ _ _ node). pose proof (put_node_ok s L p node node' Hm En) as Hm1.
  destruct (kmalloc_cases DATA_SIZE (put_node p node' s) L Hm1)
    as [(h & -> & Hh)|(q & h & -> & Hq & Hn & Hh)]; [done|..]; cbn [rbind].
  - rewrite aset_Some by done. cbn [deref rbind]. exists 0, h. right. split; [done|].
    split; [done|].
    exact (mem_ok_same (put_node p node' s) L (blocks s) h (errno_num ENOSPC) Hm1 eq_refl Hh).
  - rewrite aset_Some by done. cbn [deref rbind]. exists q, h. left.
    unfold created. replace (q =? 0) with false by lia.
    split; [done|]. split; [done|]. split; [done|].
    exact (mem_ok_block (put_node p node' s) L q _ h (errno s) Hm1 Hq Hn Hh).
Qed.
End ramfs.

(** ** Examples *)
Definition demo_file (c : list Z) (pos : Z) : fs :=
  demo_fs (demo_node DEVID_RAMFS S_IFREG (Some RAMFS) (len c)) c (Hdr 0 0 0 0 0) pos O_RDWR.

Lemma demo_file_ok (c : list Z) (a : nat) : (length c ≤ 256)%nat →
  file_ok (demo_file c a) 3 [(0x4000b0, c ++ replicate (256 - length c) 0)] c a.
Proof.
  intros Hc. eexists _, _, 0x4000b0. split_and!; [done|apply lookup_singleton_eq|done|..];
    [by apply demo_file_on|done|done].
Qed.

Lemma write_ramfs_appends_witness :
  let s := demo_file [1; 2; 3] 3 in
  ∃ (k : nat) s' l' L', write_ramfs 3 [4; 5] 2 s = Ok (Z.of_nat k, s') ∧
    mem_ok s' L' ∧ file_ok s' 3 l' ([1; 2; 3] ++ take k [4; 5]) (3 + k) ∧ (1 ≤ k ≤ 2)%nat.
Proof.
  cbv zeta. pose proof (write_ramfs_appends (demo_file [1; 2; 3] 3) demo_allocated 3
    [(0x4000b0, [1; 2; 3] ++ replicate 253 0)] [1; 2; 3] 2 [4; 5]) as H.
  destruct H as (k & s' & l' & L' & Hw & Hm & _ & Hf & Hk & _).
  - apply demo_mem_ok.
  - exact (demo_file_ok [1; 2; 3] 3 ltac:(simpl; lia)).
  - simpl. lia.
  - reflexivity.
  - simpl. lia.
  - simpl. lia.
  - exists k, s', l', L'. split; [exact Hw|]. split; [exact Hm|]. split; [exact Hf|exact Hk].
Defined.

Lemma read_ramfs_reads_witness :
  ∃ f, get_fd 3 (demo_file [1; 2; 3] 1) = Ok f ∧
    read_ramfs 3 [9; 9; 9; 9] 4 (demo_file [1; 2; 3] 1)
    = Ok (2, [2; 3; 9; 9], at_fd 3 (with_at 3 f) (demo_file [1; 2; 3] 1)) ∧
    file_ok (at_fd 3 (with_at 3 f) (demo_file [1; 2; 3] 1)) 3
      [(0x4000b0, [1; 2; 3] ++ replicate 253 0)] [1; 2; 3] 3.
Proof.
  apply (read_ramfs_reads (demo_file [1; 2; 3] 1) 3
    [(0x4000b0, [1; 2; 3] ++ replicate 253 0)] [1; 2; 3] 1 4 [9; 9; 9; 9]).
  - exact (demo_file_ok [1; 2; 3] 1 ltac:(simpl; lia)).
  - simpl. lia.
  - reflexivity.
  - simpl. lia.
  - simpl. lia.
  - simpl. lia.
Defined.

(** At position 255 the code takes the second block ([255 / 0xFF]) and the last byte
    of it ([255 % 0x100]): the byte that is appended to a file of 255 bytes is not
    what a read from the start finds there. *)
Example append_at_255 :
  (let* (_, s) := write_ramfs 3 (replicate 255 7) 255 (demo_file [] 0) in
   let* (_, s) := write_ramfs 3 [8] 1 s in
   let* f := get_fd 3 s in
   let* s := put_fd 3 (with_at 0 f) s in
   let* (n, buf, _) := read_ramfs 3 (replicate 256 0) 256 s in
   Ok (n, aget buf 254, aget buf 255)) = Ok (256, Some 7, Some 0).
Proof. vm_compute. reflexivity. Qed.

(** Writing over a byte makes the file longer, and cuts off the blocks behind: the
    second block, with byte 256, is gone. *)
Example overwrite :
  (let* (_, s) := write_ramfs 3 (replicate 257 7) 257 (demo_file [] 0) in
   let* f := get_fd 3 s in
   let* s := put_fd 3 (with_at 0 f) s in
   let* (_, s) := write_ramfs 3 [8] 1 s in
   let* n := get_node 0x400010 s in
   let* s := put_fd 3 (with_at 0 f) s in
   let* (_, buf, _) := read_ramfs 3 (replicate 257 9) 257 s in
   Ok (st_size (status n), aget buf 0, aget buf 256)) = Ok (258, Some 8, Some 0).
Proof. vm_compute. reflexivity. Qed.

(** A position beyond the end: [readable] wraps around and the read runs off the
    chain. *)
Example read_beyond_end :
  (let* (n, _, _) := read_ramfs 3 (replicate 256 9) 256 (demo_file [1] 2) in Ok n) = Fault.
Proof. vm_compute. reflexivity. Qed.
