(* ===== verification/Stream.v ===== *)
(** * Stream: pipes and fifos

    [kernel/src/fs/pipe.c] and [kernel/src/fs/fifofs.c].  Reading and writing are
    the same in both files, up to the array in which the header is found. *)

From S2P Require Import Prelude Malloc Headers CString Vga Fs Blocks Nodes Ramfs Demo.

#[local] Coercion Z.of_nat : nat >-> Z.

Section stream.
Context {MA : Malloc} {SY : Sys}.

(** ** Headers *)
Definition get_hdr (p : Z) (s : fs) : res hdr_t := deref (hdrs s !! p).

Definition put_hdr (p : Z) (h : hdr_t) (s : fs) : fs := set_hdrs (<[p := h]> (hdrs s)) s.

Definition with_read_at (r : Z) (h : hdr_t) : hdr_t :=
  Hdr (h_data h) (write_at h) r (writers h) (readers h).
Definition with_write_at (w : Z) (h : hdr_t) : hdr_t :=
  Hdr (h_data h) w (read_at h) (writers h) (readers h).
Definition with_writers (n : Z) (h : hdr_t) : hdr_t :=
  Hdr (h_data h) (write_at h) (read_at h) n (readers h).
Definition with_readers (n : Z) (h : hdr_t) : hdr_t :=
  Hdr (h_data h) (write_at h) (read_at h) (writers h) n.

(** [pipes] or [fifofs_nodes] *)
Definition array_of (k : fs_kind) (s : fs) : list Z :=
  match k with PIPE => pipes s | _ => fifofs_nodes s end.

(** ** Reading *)

(** [while (node->status.st_size == 0)]: the value to return at once, if any. *)
Fixpoint wait_data (fuel : nat) (fd np h : Z) (s : fs) : res (option Z * fs) :=
  match fuel with
  | O => Fuel
  | S fuel =>
      let* node := get_node np s in
      if st_size (status node) =? 0 then
        let* hdr := get_hdr h s in
        if writers hdr =? 0 then Ok (Some 0, s)
        else
          let* f := get_fd fd s in
          if has (oflag f) O_NONBLOCK then Ok (Some (-1), set_errno EAGAIN s)
          else let* s := sched_switch s in wait_data fuel fd np h s
      else Ok (None, s)
  end.

Definition free_block (p : Z) (s : fs) : res fs :=
  let* s := kfree p s in Ok (set_blocks (delete p (blocks s)) s).

(** A block that is read to its end is freed.  [read_at++] and [st_size--], which
    go with [read++], are left to the caller. *)
Fixpoint stream_read_loop (fuel : nat) (h curnode offset read size : Z) (buf : list Z)
    (s : fs) : res (Z * list Z * fs) :=
  match fuel with
  | O => Fuel
  | S fuel =>
      if read <? size then
        let* d := get_block curnode s in
        let* (stop, read, buf) :=
          read_block (Z.to_nat (256 - offset)) offset read size (bytes d) buf in
        if stop then Ok (read, buf, s)
        else
          let* s := free_block curnode s in
          let* hdr := get_hdr h s in
          let s := put_hdr h (with_write_at (u32 (write_at hdr - 256)) hdr) s in
          stream_read_loop fuel h (d_next d) 0 read size buf s
      else Ok (read, buf, s)
  end.

Definition read_stream (k : fs_kind) (fd : Z) (buf : list Z) (size : Z) (s : fs)
    : res (Z * list Z * fs) :=
  let* f := get_fd fd s in
  let np := vfs_node f in
  let* node := get_node np s in
  let* h := deref (aget (array_of k s) (st_ino (status node))) in
  let* hdr := get_hdr h s in
  let curnode := h_data hdr in
  let* (r, s) := wait_data (S patience) fd np h s in
  match r with
  | Some r => Ok (r, buf, s)
  | None =>
      let* hdr := get_hdr h s in
      let* node := get_node np s in
      let offset := read_at hdr mod 0x100 in
      let avail := u32 (st_size (status node)) in
      let size := if avail <? size then avail else size in
      let* (read, buf, s) :=
        stream_read_loop (block_fuel size) h curnode offset 0 size buf s in
      let* hdr := get_hdr h s in
      let* node := get_node np s in
      let s := put_hdr h (with_read_at (u32 (read_at hdr + read)) hdr) s in
      let s := put_node np (with_size (s32 (st_size (status node) - read)) node) s in
      Ok (s32 read, buf, s)
  end.

(** ** Writing *)
Definition write_stream (k : fs_kind) (fd : Z) (buf : list Z) (size : Z) (s : fs)
    : res (Z * fs) :=
  let* f := get_fd fd s in
  let np := vfs_node f in
  let* node := get_node np s in
  let* h := deref (aget (array_of k s) (st_ino (status node))) in
  let* hdr := get_hdr h s in
  if readers hdr =? 0 then failz EPIPE s
  else
    let start_node := write_at hdr / 0xFF in
    let offset := write_at hdr mod 0x100 in
    let* curnode := nth_block (Z.to_nat start_node) (h_data hdr) s in
    let* (oom, written, s) :=
      write_loop (block_fuel size) (Data (bytes junk_data) 0) curnode offset 0 size buf s in
    let s := put_node np (with_size (s32 (st_size (status node) + written)) node) s in
    let s := put_hdr h (with_write_at (u32 (write_at hdr + written)) hdr) s in
    if oom && (written =? 0) then Ok (-1, s) else Ok (s32 written, s).

(** ** Pipes *)
Definition read_pipe := read_stream PIPE.
Definition write_pipe := write_stream PIPE.

(** [while (ptr != NULL) { ptr2 = ptr; ptr = ptr->next; kfree(ptr2); }] *)
Fixpoint free_chain (fuel : nat) (ptr : Z) (s : fs) : res fs :=
  match fuel with
  | O => Fuel
  | S fuel =>
      if ptr =? 0 then Ok s
      else
        let* d := get_block ptr s in
        let* s := free_block ptr s in
        free_chain fuel (d_next d) s
  end.

Definition free_hdr (p : Z) (s : fs) : res fs :=
  let* s := kfree p s in Ok (set_hdrs (delete p (hdrs s)) s).

Definition close_pipe (fd : Z) (s : fs) : res (Z * fs) :=
  let* f := get_fd fd s in
  let* node := get_node (vfs_node f) s in
  let ino := st_ino (status node) in
  let* h := deref (aget (pipes s) ino) in
  let* hdr := get_hdr h s in
  let hdr :=
    if has (oflag f) O_RDONLY then with_readers (u32 (readers hdr - 1)) hdr
    else with_writers (u32 (writers hdr - 1)) hdr in
  let s := put_hdr h hdr s in
  if (readers hdr =? 0) && (writers hdr =? 0) then
    let* s := free_chain (S (size (blocks s))) (h_data hdr) s in
    let* s := free_hdr h s in
    let* l := deref (aset (pipes s) ino 0) in
    Ok (0, set_pipes l (pipe_inodes s) s)
  else Ok (0, s).

(** [kfree(node_backup->next); node_backup->next = NULL;] *)
Definition drop_node (backup : Z) (s : fs) : res fs :=
  let* b := get_node backup s in
  let* s := kfree (n_next b) s in
  let s := set_vnodes (delete (n_next b) (vnodes s)) s in
  Ok (put_node backup (with_next 0 b) s).

Definition pipe_node (ino : Z) (n : vfs_node_t) : vfs_node_t :=
  let t := status n in
  VNode (<[0%nat := 0]> (name n))
    (Stat DEVID_PIPE ino 0 0 0 DEVID_PIPE 0 (st_atime t) (st_mtime t) (st_ctime t))
    (Some PIPE) (Some PIPE) None None (Some PIPE) None 0.

(** The header and the first block of the pipe [ino]. *)
Definition pipe_alloc (ino backup fd0 fd1 : Z) (s : fs) : res (Z * Z * Z * fs) :=
  let* (h, s) := kmalloc HDR_SIZE s in
  let* l := deref (aset (pipes s) ino h) in
  let s := set_pipes l (pipe_inodes s) s in
  if h =? 0 then let* s := drop_node backup s in Ok (-1, fd0, fd1, s)
  else
    let* (q, s) := kmalloc DATA_SIZE s in
    let s := put_hdr h (Hdr q 0 0 2 2) s in
    if q =? 0 then
      let* s := free_hdr h s in
      let* l := deref (aset (pipes s) ino 0) in
      let s := set_pipes l (pipe_inodes s) s in
      let* s := drop_node backup s in Ok (-1, fd0, fd1, s)
    else Ok (0, fd0, fd1, put_block q junk_data s).

(** [fd[0]] and [fd[1]] come last: they are stored as they are found. *)
Definition creat_pipe (fd0 fd1 : Z) (s : fs) : res (Z * Z * Z * fs) :=
  if 1023 <? pipe_inodes s then fail ENFILE s (λ r s, (r, fd0, fd1, s))
  else
    let* (p, backup, s) := append_node s in
    if p =? 0 then Ok (-1, fd0, fd1, s)
    else
      let* n := get_node p s in
      let ino := pipe_inodes s in
      let s := set_pipes (pipes s) (u32 (ino + 1)) (put_node p (pipe_node ino n) s) in
      let* fd0 := get_free_fd 3 s in
      if fd0 <? 0 then
        let* s := drop_node backup s in fail EMFILE s (λ r s, (r, fd0, fd1, s))
      else
        let* s := put_fd fd0 (Fildes p 0 O_RDONLY) s in
        let* fd1 := get_free_fd 3 s in
        if fd1 <? 0 then
          let* s := drop_node backup s in fail EMFILE s (λ r s, (r, fd0, fd1, s))
        else
          let* s := put_fd fd1 (Fildes p 0 O_WRONLY) s in
          pipe_alloc ino backup fd0 fd1 s.

(** ** Fifos *)
Definition read_fifofs := read_stream FIFOFS.
Definition write_fifofs := write_stream FIFOFS.

(** [while (hdr->writers < 1) sched_switch();] *)
Fixpoint wait_writer (fuel : nat) (h : Z) (s : fs) : res fs :=
  match fuel with
  | O => Fuel
  | S fuel =>
      let* hdr := get_hdr h s in
      if writers hdr <? 1 then let* s := sched_switch s in wait_writer fuel h s else Ok s
  end.

(** The same for readers, which fails when it must not block. *)
Fixpoint wait_reader (fuel : nat) (h flags : Z) (s : fs) : res (bool * fs) :=
  match fuel with
  | O => Fuel
  | S fuel =>
      let* hdr := get_hdr h s in
      if readers hdr <? 1 then
        if has flags O_NONBLOCK then Ok (false, set_errno ENXIO s)
        else let* s := sched_switch s in wait_reader fuel h flags s
      else Ok (true, s)
  end.

Definition open_fifofs (np flags : Z) (s : fs) : res (Z * fs) :=
  let* node := get_node np s in
  let* h := deref (aget (fifofs_nodes s) (st_ino (status node))) in
  let flags := if Z.land flags O_ACCMODE =? O_RDWR then clr flags O_WRONLY else flags in
  if has flags O_RDONLY then
    let* hdr := get_hdr h s in
    let s := put_hdr h (with_readers (s32 (readers hdr + 1)) hdr) s in
    let* s := (if negb (has flags O_NONBLOCK) then wait_writer (S patience) h s else Ok s) in
    let* fd := get_free_fd 3 s in
    Ok (fd, s)
  else if has flags O_WRONLY then
    let* hdr := get_hdr h s in
    let s := put_hdr h (with_writers (s32 (writers hdr + 1)) hdr) s in
    let* (ok, s) := wait_reader (S patience) h flags s in
    if negb ok then Ok (-1, s)
    else let* fd := get_free_fd 3 s in Ok (fd, s)
  else Ok (-1, s).

Definition close_fifofs (fd : Z) (s : fs) : res (Z * fs) :=
  let* f := get_fd fd s in
  let* node := get_node (vfs_node f) s in
  let* h := deref (aget (fifofs_nodes s) (st_ino (status node))) in
  if has (oflag f) O_RDONLY then
    let* hdr := get_hdr h s in
    Ok (0, put_hdr h (with_readers (Z.max 0 (s32 (readers hdr - 1))) hdr) s)
  else if has (oflag f) O_WRONLY then
    let* hdr := get_hdr h s in
    Ok (0, put_hdr h (with_writers (Z.max 0 (s32 (writers hdr - 1))) hdr) s)
  else Ok (0, s).

(** [readers] and [writers] are left as they are found. *)
Definition creat_fifofs (p : Z) (s : fs) : res (Z * fs) :=
  let* node := get_node p s in
  let node := with_ops (Some FIFOFS) (Some FIFOFS) (Some FIFOFS) (Some FIFOFS) None node in
  let s := put_node p node s in
  let* (h, s) := kmalloc HDR_SIZE s in
  let* l := deref (aset (fifofs_nodes s) (st_ino (status node)) h) in
  let s := set_fifofs l s in
  if h =? 0 then Ok (-1, s)
  else
    let* (q, s) := kmalloc DATA_SIZE s in
    let s := put_hdr h (Hdr q (write_at junk_hdr) (read_at junk_hdr)
                          (writers junk_hdr) (readers junk_hdr)) s in
    if q =? 0 then let* s := free_hdr h s in Ok (-1, s)
    else
      let s := put_hdr h (Hdr q 0 0 (writers junk_hdr) (readers junk_hdr)) s in
      Ok (1, put_block q (Data (repeat 0 256) (d_next junk_data)) s).
(** ** Streams

    [c] is all that was written into the stream of the node [np], [r] how much of it
    was read; what is left is [drop r c]. *)
Definition stream_ok (k : fs_kind) (s : fs) (np : Z) (l : list (Z * list Z)) (c : list Z)
    (r : nat) (hdr : hdr_t) : Prop :=
  ∃ node h, vnodes s !! np = Some node ∧ aget (array_of k s) (st_ino (status node)) = Some h ∧
    hdrs s !! h = Some hdr ∧ file_on (blocks s) (h_data hdr) l c ∧
    write_at hdr = len c ∧ read_at hdr = r ∧ (r ≤ length c)%nat ∧
    st_size (status node) = len c - r.

Definition end_of (s : fs) (fd np : Z) (f : fildes_t) : Prop :=
  get_fd fd s = Ok f ∧ vfs_node f = np.

Lemma put_hdr_ok s L p h0 h :
  mem_ok s L → hdrs s !! p = Some h0 → mem_ok (put_hdr p h s) L.
Proof.
  intros Hm E. assert (Hd : dom (<[p := h]> (hdrs s)) = dom (hdrs s))
    by (apply dom_insert_lookup_L; by rewrite E).
  unfold mem_ok. simpl. rewrite Hd. exact Hm.
Qed.

Lemma write_stream_spec k s L fd np f l c r hdr (size : nat) buf :
  mem_ok s L → end_of s fd np f → stream_ok k s np l c r hdr → readers hdr ≠ 0 →
  (length c < 256 * length l)%nat → aligned (length c) →
  (0 < size)%nat → (size ≤ length buf)%nat → len c + size < 2 ^ 31 →
  ∃ (n : nat) s' l' L', write_stream k fd buf size s = Ok (Z.of_nat n, s') ∧
    mem_ok s' L' ∧ files s' = files s ∧
    stream_ok k s' np l' (c ++ take n buf) r (with_write_at (length c + n)%nat hdr) ∧
    (1 ≤ n ≤ size)%nat ∧ (l' ≠ []) ∧
    (n = size ∨ ((length c + n) mod 256 = 0)%nat ∧ errno s' = ENOMEM).
Proof.
  intros Hm [Ef <-] (node & h & En & Ea & Eh & Hf & Hw & Hr & Hrc & Hsz) Hrd Hroom Hal H0 Hs Hlt.
  destruct (append_spec s L (h_data hdr) l c (Data (bytes junk_data) 0) size buf)
    as (cur & oom & n & s1 & Hn & Hwl & Happ); [done|apply junk_data_len|done..|].
  unfold write_stream, get_node, get_hdr. rewrite Ef. cbn [rbind]. rewrite En. cbn [deref rbind].
  rewrite Ea. cbn [deref rbind]. rewrite Eh. cbn [deref rbind].
  replace (readers hdr =? 0) with false by lia. rewrite Hw.
  destruct (block_of (length c) Hal) as [-> ->]. rewrite Nat2Z.id, Hn. cbn [rbind].
  change (Z.of_nat 0) with 0 in Hwl. rewrite Hwl. cbn [rbind].
  destruct Happ as (b & hp & e & l' & L' & -> & Hm' & HL & Hf' & Hb & Hfresh & Hk & Hoom).
  replace (oom && (Z.of_nat n =? 0)) with false by (destruct oom; lia).
  rewrite sint_small by lia. rewrite sint_small by lia. rewrite uint_small by
    (change (2 ^ 32) with (2 * 2 ^ 31); lia).
  exists n. eexists. exists l', L'. split; [reflexivity|]. split.
  { eapply put_hdr_ok; [by eapply put_node_ok|exact Eh]. }
  split; [done|]. split.
  { exists (with_size (st_size (status node) + n) node), h. split_and!.
    - apply lookup_insert_eq.
    - by destruct k.
    - simpl. rewrite lookup_insert_eq. do 2 f_equal. lia.
    - exact Hf'.
    - simpl. rewrite length_app, length_take. lia.
    - done.
    - rewrite length_app. lia.
    - simpl. rewrite Hsz, length_app, length_take. lia. }
  split; [lia|]. split.
  { intros ->. destruct Hf' as (_ & _ & Hp%prefix_length). rewrite length_app, length_take in Hp.
    simpl in Hp. lia. }
  destruct oom; [|left; tauto]. destruct Hoom as [-> [?|?]]; [by left|by right].
Qed.

(** A read that stays in the first block. *)
Lemma read_first_block fuel s h p l c (r n : nat) buf :
  file_on (blocks s) p l c → (r + n ≤ length c)%nat → (r + n < 256)%nat →
  (0 < n)%nat → (n ≤ length buf)%nat → (0 < fuel)%nat →
  stream_read_loop fuel h p r 0 n buf s
  = Ok (Z.of_nat n, take n (drop r c) ++ drop n buf, s).
Proof.
  intros (Hc & _ & Hp) Hrc Hrn H0 Hb Hf. destruct fuel as [|fuel]; [lia|].
  destruct l as [|[q d] l]; [apply prefix_length in Hp; simpl in Hp; lia|].
  destruct Hc as (-> & Hd & nx & E & _). cbn [stream_read_loop].
  replace (0 <? n) with true by lia. unfold get_block. rewrite E. cbn [deref rbind].
  replace (Z.to_nat (256 - r)) with (256 - r)%nat by lia. change 0 with (Z.of_nat 0).
  rewrite read_block_spec by (simpl; lia). cbn [rbind].
  rewrite bool_decide_true by lia. cbn [rbind].
  replace ((256 - r) `min` (n - 0))%nat with n by lia. do 3 f_equal. rewrite take_0. simpl.
  f_equal. destruct Hp as [rest Hp]. rewrite data_of_cons in Hp.
  apply (f_equal (λ x, take n (drop r x))) in Hp.
  rewrite drop_app_le, take_app_le in Hp by (rewrite ?length_drop; lia). rewrite Hp.
  by rewrite drop_app_le, take_app_le by (rewrite ?length_drop; lia).
Qed.

Lemma read_stream_spec k s L fd np f l c r hdr (size : nat) buf :
  mem_ok s L → end_of s fd np f → stream_ok k s np l c r hdr →
  (r < length c)%nat → len c < 2 ^ 31 → (0 < size)%nat → (size ≤ length buf)%nat →
  let n := (size `min` (length c - r))%nat in (r + n < 256)%nat →
  ∃ s', read_stream k fd buf size s
        = Ok (Z.of_nat n, take n (drop r c) ++ drop n buf, s') ∧
    mem_ok s' L ∧ files s' = files s ∧
    stream_ok k s' np l c (r + n) (with_read_at (r + n)%nat hdr).
Proof.
  intros Hm [Ef <-] (node & h & En & Ea & Eh & Hf & Hw & Hr & Hrc & Hsz) Hne Hc H0 Hs n Hn.
  unfold read_stream. rewrite Ef. cbn [rbind wait_data]. unfold get_node, get_hdr.
  rewrite En. cbn [deref rbind]. rewrite Ea. cbn [deref rbind]. rewrite Eh. cbn [deref rbind].
  replace (st_size (status node) =? 0) with false by lia. cbn [rbind].
  rewrite Eh. cbn [deref rbind]. rewrite En. cbn [deref rbind].
  rewrite Hsz, Hr, uint_small by (change (2 ^ 32) with (2 * 2 ^ 31); lia).
  replace (if len c - r <? size then len c - r else size) with (Z.of_nat n)
    by (destruct (Z.ltb_spec (len c - r) size); lia).
  rewrite Z.mod_small by lia.
  rewrite (read_first_block _ s h _ l c) by (done || lia || (rewrite block_fuel_nat; lia)).
  cbn [rbind]. rewrite Eh. cbn [deref rbind]. rewrite En. cbn [deref rbind].
  rewrite Hr, sint_small by lia. rewrite sint_small by lia.
  rewrite uint_small by (change (2 ^ 32) with (2 * 2 ^ 31); lia).
  eexists. split; [reflexivity|]. split.
  { eapply put_node_ok; [by eapply put_hdr_ok|exact En]. }
  split; [done|]. eexists _, h. split_and!.
  - apply lookup_insert_eq.
  - by destruct k.
  - simpl. rewrite lookup_insert_eq. do 2 f_equal. lia.
  - exact Hf.
  - exact Hw.
  - done.
  - lia.
  - simpl. lia.
Qed.

(** An empty stream: end of file without writers, [EAGAIN] when it must not block. *)
Lemma read_stream_empty k s fd np f l c hdr (size : nat) buf :
  end_of s fd np f → stream_ok k s np l c (length c) hdr →
  (writers hdr ≠ 0 → has (oflag f) O_NONBLOCK = true) →
  ∃ s', read_stream k fd buf size s
        = Ok (if writers hdr =? 0 then 0 else -1, buf, s') ∧
    s' = if writers hdr =? 0 then s else set_errno EAGAIN s.
Proof.
  intros [Ef <-] (node & h & En & Ea & Eh & _ & _ & _ & _ & Hsz) Hnb.
  unfold read_stream. rewrite Ef. cbn [rbind wait_data]. unfold get_node, get_hdr.
  rewrite En. cbn [deref rbind]. rewrite Ea. cbn [deref rbind]. rewrite Eh. cbn [deref rbind].
  replace (st_size (status node) =? 0) with true by lia. cbn [rbind].
  rewrite ?Eh. cbn [deref rbind]. destruct (Z.eqb_spec (writers hdr) 0); cbn [rbind]; [by eexists|].
  rewrite ?Ef. cbn [rbind]. rewrite Hnb by done. by eexists.
Qed.

(** ** A stream is a queue *)
Inductive op := OpWrite (data : list Z) | OpRead (n : nat).

(** The operations on the two ends [wfd] and [rfd]: each gives its result and the
    bytes it read. *)
Fixpoint run_ops (k : fs_kind) (rfd wfd : Z) (ops : list op) (s : fs)
    : res (list (Z * list Z) * fs) :=
  match ops with
  | [] => Ok ([], s)
  | OpWrite data :: ops =>
      let* (n, s) := write_stream k wfd data (len data) s in
      let* (rs, s) := run_ops k rfd wfd ops s in
      Ok ((n, []) :: rs, s)
  | OpRead n :: ops =>
      let* (r, buf, s) := read_stream k rfd (replicate n 0) n s in
      let* (rs, s) := run_ops k rfd wfd ops s in
      Ok ((r, take (Z.to_nat r) buf) :: rs, s)
  end.

(** The same on a queue; [empty] is what a read of the empty queue returns. *)
Fixpoint queue_ops (empty : Z) (ops : list op) (q : list Z) : list (Z * list Z) * list Z :=
  match ops with
  | [] => ([], q)
  | OpWrite data :: ops =>
      let (rs, q) := queue_ops empty ops (q ++ data) in ((len data, []) :: rs, q)
  | OpRead n :: ops =>
      let r := if bool_decide (q = []) then empty else Z.of_nat (length (take n q)) in
      let (rs, q') := queue_ops empty ops (drop n q) in ((r, take n q) :: rs, q')
  end.

(** The bytes that a list of operations writes; none of them is empty. *)
Fixpoint total (ops : list op) : nat :=
  match ops with
  | [] => 0
  | OpWrite data :: ops => length data + total ops
  | OpRead _ :: ops => total ops
  end.

Definition op_ok (o : op) : Prop :=
  match o with OpWrite data => data ≠ [] | OpRead n => (0 < n)%nat ∧ n < 2 ^ 31 end.

(** A stream with the content [q] of which both ends are open, and [room] bytes that
    may still be written into its first block.  [hup]: no writer is left; [nb]: the
    read end does not block. *)
Definition queue_ok (k : fs_kind) (s : fs) (rfd wfd np : Z) (hup nb : bool)
    (q : list Z) (room : nat) : Prop :=
  ∃ L l c r hdr fr fw, mem_ok s L ∧ end_of s rfd np fr ∧ end_of s wfd np fw ∧
    stream_ok k s np l c r hdr ∧ l ≠ [] ∧ readers hdr ≠ 0 ∧ hup = (writers hdr =? 0) ∧
    nb = has (oflag fr) O_NONBLOCK ∧
    q = drop r c ∧ (length c + room ≤ 255)%nat.

Lemma stream_le k s np l c r hdr : stream_ok k s np l c r hdr → (r ≤ length c)%nat.
Proof. intros (node & h & H). tauto. Qed.

Lemma end_of_files s s' fd np f : files s' = files s → end_of s fd np f → end_of s' fd np f.
Proof. unfold end_of, get_fd. by intros ->. Qed.

Lemma queue_write k s rfd wfd np hup nb q room data :
  queue_ok k s rfd wfd np hup nb q room → data ≠ [] → (length data ≤ room)%nat →
  ∃ s', write_stream k wfd data (len data) s = Ok (len data, s') ∧
    queue_ok k s' rfd wfd np hup nb (q ++ data) (room - length data).
Proof.
  intros (L & l & c & r & hdr & fr & fw & Hm & Hr & Hw & Hs & Hl & Hrd & Hh & Hnb & Hq & Hroom)
    Hd Hlen.
  assert (length data ≠ 0)%nat by (by destruct data). assert (length l ≠ 0)%nat by (by destruct l).
  destruct (write_stream_spec k s L wfd np fw l c r hdr (length data) data)
    as (n & s' & l' & L' & E & Hm' & Hfi & Hs' & Hn & Hl' & Hfull); try done; try lia.
  { unfold aligned. by rewrite !Nat.div_small by lia. }
  assert (n = length data) as ->.
  { destruct Hfull as [|[Hmod _]]; [done|]. rewrite Nat.mod_small in Hmod; lia. }
  exists s'. split; [done|]. rewrite take_ge in Hs' by lia.
  eexists L', l', _, r, _, fr, fw. split_and!; try done.
  - by eapply end_of_files.
  - by eapply end_of_files.
  - rewrite Hq, drop_app_le; [done|]. by eapply stream_le.
  - rewrite length_app. lia.
Qed.

Lemma queue_read k s rfd wfd np hup nb q room n :
  queue_ok k s rfd wfd np hup nb q room → (0 < n)%nat →
  (q = [] → hup || nb = true) →
  let res := if bool_decide (q = []) then (if hup then 0 else -1) else len (take n q) in
  ∃ buf s', read_stream k rfd (replicate n 0) n s = Ok (res, buf, s') ∧
    take (Z.to_nat res) buf = take n q ∧ queue_ok k s' rfd wfd np hup nb (drop n q) room.
Proof.
  intros (L & l & c & r & hdr & fr & fw & Hm & Hr & Hw & Hs & Hl & Hrd & Hh & Hnb & Hq & Hroom)
    Hn Hwait res.
  assert (Hrc : (r ≤ length c)%nat) by (by eapply stream_le).
  unfold res. case_bool_decide as He; rewrite Hq in He.
  - assert (r = length c) as ->.
    { apply (f_equal length) in He. rewrite length_drop in He. simpl in He. lia. }
    destruct (read_stream_empty k s rfd np fr l c hdr n (replicate n 0))
      as (s' & E & ->); [done..| |].
    { intros Hne. rewrite <- Hnb. rewrite Hh, Hq, drop_ge in Hwait by lia.
      specialize (Hwait eq_refl). by replace (writers hdr =? 0) with false in Hwait by lia. }
    rewrite E, <- Hh, Hq, drop_ge by lia. eexists _, _. split; [done|].
    rewrite take_nil, drop_nil. split; [by destruct hup|].
    assert (Hres : queue_ok k s rfd wfd np hup nb [] room).
    { exists L, l, c, (length c), hdr, fr, fw. by rewrite drop_ge by lia. }
    destruct hup; exact Hres.
  - assert (r < length c)%nat as Hlt.
    { destruct (decide (r < length c)%nat); [done|]. destruct He. apply drop_ge. lia. }
    destruct (read_stream_spec k s L rfd np fr l c r hdr n (replicate n 0))
      as (s' & E & Hm' & Hfi & Hs'); try done; [lia..|rewrite length_replicate; lia|lia|].
    rewrite E. eexists _, s'. split; [|split].
    + rewrite Hq, length_take, length_drop. done.
    + assert (Ht : take n q = take (n `min` (length c - r)) (drop r c)).
      { rewrite Hq. destruct (decide (n ≤ length c - r)%nat); [by rewrite Nat.min_l|].
        by rewrite !take_ge by (rewrite length_drop; lia). }
      rewrite Nat2Z.id, Ht. by apply take_app_length'.
    + exists L, l, c. eexists _, _, fr, fw. split_and!; try done.
      * by eapply end_of_files.
      * by eapply end_of_files.
      * rewrite Hq, drop_drop. destruct (decide (n ≤ length c - r)%nat); [by rewrite Nat.min_l|].
        rewrite !drop_ge; [done|lia|lia].
Qed.

(** No read of the empty queue. *)
Fixpoint never_empty (ops : list op) (q : list Z) : Prop :=
  match ops with
  | [] => True
  | OpWrite data :: ops => never_empty ops (q ++ data)
  | OpRead n :: ops => q ≠ [] ∧ never_empty ops (drop n q)
  end.

(** C5: a pipe or fifo of which both ends are open is a queue: for every sequence of
    writes and reads that writes at most 255 bytes in all, since the
    stream was made, each operation returns what the operation on a queue returns
    (a read of an empty one: end of file without writers and [EAGAIN], -1, with
    them; a read that would wait is left out), the bytes come out in the order in which they went in, and no access is
    undefined; running out of memory makes no difference. *)
Theorem stream_is_queue k s rfd wfd np hup nb q ops
    (Hq : queue_ok k s rfd wfd np hup nb q (total ops)) (Hops : Forall op_ok ops)
    (Hwait : hup || nb = true ∨ never_empty ops q) :
  ∃ s', run_ops k rfd wfd ops s = Ok (fst (queue_ops (if hup then 0 else -1) ops q), s') ∧
    queue_ok k s' rfd wfd np hup nb (snd (queue_ops (if hup then 0 else -1) ops q)) 0.
Proof.
  revert s q Hq Hwait. induction Hops as [|[data|n] ops Ho Hops IH]; intros s q Hq Hwait;
    cbn [run_ops queue_ops total op_ok never_empty] in *.
  - by exists s.
  - destruct (queue_write k s rfd wfd np hup nb q _ data Hq Ho) as (s1 & -> & Hq1); [lia|].
    rewrite Nat.add_sub_swap, Nat.sub_diag in Hq1 by lia. cbn [rbind].
    destruct (IH s1 _ Hq1) as (s2 & -> & Hq2); [tauto|]. cbn [rbind].
    exists s2. destruct (queue_ops _ ops (q ++ data)) as [rs q2]. done.
  - destruct (queue_read k s rfd wfd np hup nb q _ n Hq (proj1 Ho)) as (buf & s1 & -> & Hb & Hq1);
      [by intros ->; destruct Hwait as [?|[? _]]|].
    cbn [rbind]. destruct (IH s1 _ Hq1) as (s2 & -> & Hq2); [tauto|]. cbn [rbind].
    rewrite Hb. exists s2. destruct (queue_ops _ ops (drop n q)) as [rs q2]. done.
Qed.
End stream.

(** ** Examples *)
Definition demo_pipe (c : list Z) (hdr : hdr_t) (fl : Z) : fs :=
  demo_fs (demo_node DEVID_PIPE 0 (Some PIPE) (len c - read_at hdr)) c hdr 0 fl.

Lemma demo_queue_ok (c : list Z) (room : nat) : (length c + room ≤ 255)%nat →
  queue_ok PIPE (demo_pipe c (Hdr 0x4000b0 (len c) 0 2 2) O_RDONLY) 3 3 0x400010 false false
    c room.
Proof.
  intros Hr. exists demo_allocated, [(0x4000b0, c ++ replicate (256 - length c) 0)], c, 0%nat,
    (Hdr 0x4000b0 (len c) 0 2 2).
  eexists _, _. split; [apply demo_mem_ok|]. split; [done|]. split; [done|].
  split; [|split_and!; (done || lia)].
  eexists _, 0x4001d0. split_and!; try done;
    [apply demo_file_on; lia|simpl; lia..].
Qed.

Lemma stream_is_queue_witness :
  let ops := [OpWrite [1; 2; 3]; OpRead 2; OpWrite [4]; OpRead 5] in
  ∃ s', run_ops PIPE 3 3 ops (demo_pipe [] (Hdr 0x4000b0 0 0 2 2) O_RDONLY)
        = Ok ([(3, []); (2, [1; 2]); (1, []); (2, [3; 4])], s').
Proof.
  cbv zeta.
  destruct (stream_is_queue PIPE (demo_pipe [] (Hdr 0x4000b0 0 0 2 2) O_RDONLY) 3 3 0x400010
    false false [] [OpWrite [1; 2; 3]; OpRead 2; OpWrite [4]; OpRead 5]) as (s' & E & _).
  - apply (demo_queue_ok [] 4). simpl. lia.
  - repeat constructor; simpl; (lia || discriminate).
  - right. simpl. split_and!; (done || discriminate).
  - exists s'. exact E.
Defined.

(** Once 256 bytes were read the first block is freed, but the header still points to
    it: the next write is to freed memory. *)
Example pipe_use_after_free :
  (let* (_, s) := write_pipe 3 (replicate 256 7) 256
                    (demo_pipe [] (Hdr 0x4000b0 0 0 2 2) O_RDWR) in
   let* (n, _, s) := read_pipe 3 (replicate 256 0) 256 s in
   match write_pipe 3 [8] 1 s with Ok _ => Ok (n, true) | _ => Ok (n, false) end)
  = Ok (256, false).
Proof. vm_compute. reflexivity. Qed.

(** Byte 255 goes to the second block, its reader looks at the first. *)
Example pipe_byte_255 :
  (let* (_, s) := write_pipe 3 (replicate 255 7) 255
                    (demo_pipe [] (Hdr 0x4000b0 0 0 2 2) O_RDWR) in
   let* (_, s) := write_pipe 3 [8] 1 s in
   let* (n, buf, _) := read_pipe 3 (replicate 256 0) 256 s in
   Ok (n, aget buf 255)) = Ok (256, Some 0).
Proof. vm_compute. reflexivity. Qed.

(** A new pipe counts two readers and two writers, so that closing both of its ends
    does not free it. *)
Example pipe_never_freed :
  (let* (r, rfd, wfd, s) := creat_pipe 0 0 (demo_file [] 0) in
   let* (_, s) := close_pipe rfd s in
   let* (_, s) := close_pipe wfd s in
   let* h := deref (aget (pipes s) 1) in
   let* hdr := get_hdr h s in
   Ok (r, readers hdr, writers hdr)) = Ok (0, 1, 1).
Proof. vm_compute. reflexivity. Qed.
