(* ===== verification/Pipes.v ===== *)
(** * Pipes: the making of a pipe

    [creat_pipe] of [kernel/src/fs/pipe.c] gives two ends of a queue, or fails and
    takes everything back. *)

From S2P Require Import Prelude Malloc Headers CString Vga Fs Blocks Nodes Ramfs Demo Stream.

Section pipes.
Context {MA : Malloc} {SY : Sys}.

Lemma kfree_block s L p : mem_ok s ({[p]} ∪ L) → p ∉ L →
  ∃ h, kfree p s = Ok (set_heap h s) ∧ m_rep h L.
Proof.
  intros (Hm & _) Hp. unfold kfree.
  destruct (mfree_ok p (heap s) _ Hm) as (h & -> & Hh); [set_solver|]. cbn [rbind].
  exists h. split; [done|]. by replace (({[p]} ∪ L) ∖ {[p]}) with L in Hh by set_solver.
Qed.

Lemma free_hdr_spec s L p : mem_ok s ({[p]} ∪ L) → p ∉ L → p ∈ dom (hdrs s) →
  ∃ h, free_hdr p s = Ok (set_hdrs (delete p (hdrs s)) (set_heap h s)) ∧
    mem_ok (set_hdrs (delete p (hdrs s)) (set_heap h s)) L.
Proof.
  intros Hm Hp Hd. destruct (kfree_block s L p Hm Hp) as (h & E & Hh). exists h.
  unfold free_hdr. rewrite E. cbn [rbind]. split; [done|].
  destruct Hm as (_ & H0 & H1 & H2 & H3 & H4 & H5 & H6).
  unfold mem_ok. simpl. rewrite dom_delete_L. split_and!; try done; set_solver.
Qed.

(** Taking back the node that was put at the end. *)
Lemma drop_node_spec s L (ps : list Z) q p :
  mem_ok s ({[p]} ∪ L) → p ∉ L → list_ok s ((ps ++ [q]) ++ [p]) →
  ∃ s', drop_node q s = Ok s' ∧ mem_ok s' L ∧ list_ok s' (ps ++ [q]) ∧ errno s' = errno s.
Proof.
  intros Hm Hp [Hl Hnd]. unfold drop_node, get_node.
  assert (Hq : q ∈ dom (vnodes s)) by (eapply vlist_dom; [exact Hl|set_solver]).
  assert (Hpd : p ∈ dom (vnodes s)) by (eapply vlist_dom; [exact Hl|set_solver]).
  destruct (proj1 (elem_of_dom _ _) Hq) as [n En]. rewrite En. cbn [deref rbind].
  destruct (vlist_unsnoc _ _ _ _ _ n Hl Hnd En) as [-> Hl'].
  destruct (kfree_block s L p Hm Hp) as (h & -> & Hh). cbn [rbind].
  eexists. split; [done|].
  assert (Hqp : q ≠ p).
  { apply list.NoDup_app in Hnd as (_ & Hnd & _). intros ->. apply (Hnd p); set_solver. }
  split; [|split; [split; [exact Hl'|by apply list.NoDup_app in Hnd as (? & _)]|done]].
  destruct Hm as (_ & H0 & H1 & H2 & H3 & H4 & H5 & H6).
  unfold mem_ok. simpl.
  rewrite dom_insert_lookup_L by (rewrite lookup_delete_ne by done; by rewrite En).
  rewrite dom_delete_L. split_and!; try done; set_solver.
Qed.

(** What [creat_pipe] needs: a file in the list (the standard streams are there). *)
Definition pipe_ready (s : fs) (L : gset Z) (ps : list Z) : Prop :=
  mem_ok s L ∧ list_ok s ps ∧ ps ≠ [] ∧ len (files s) = OPEN_MAX ∧ len (pipes s) = 1024 ∧
  0 ≤ pipe_inodes s < 1024.

(** The list and the memory once the new node is in it. *)
Definition pipe_begun (s : fs) (L : gset Z) (ps : list Z) (p : Z) (n : vfs_node_t) : Prop :=
  mem_ok s ({[p]} ∪ L) ∧ p ∉ L ∧ list_ok s (ps ++ [p]) ∧ vnodes s !! p = Some n.

Lemma pipe_begun_drop s L (ps : list Z) q p n : pipe_begun s L (ps ++ [q]) p n →
  ∃ s', drop_node q s = Ok s' ∧ mem_ok s' L ∧ list_ok s' (ps ++ [q]) ∧ errno s' = errno s.
Proof. intros (Hm & Hp & Hl & _). by eapply drop_node_spec. Qed.

(** The ends, once the header [h] is made. *)
Lemma pipe_ends s L p n h q fd0 fd1 r0 r1 :
  mem_ok s L → vnodes s !! p = Some n → aget (pipes s) (st_ino (status n)) = Some h →
  hdrs s !! h = Some (Hdr q 0 0 2 2) → blocks s !! q = Some junk_data → st_size (status n) = 0 →
  get_fd fd0 s = Ok r0 → vfs_node r0 = p → oflag r0 = O_RDONLY →
  get_fd fd1 s = Ok r1 → vfs_node r1 = p →
  queue_ok PIPE s fd0 fd1 p false false [] 255.
Proof.
  intros Hm En Eh Hh Hq Hsz E0 H0 Hf E1 H1.
  exists L, [(q, bytes junk_data)], [], 0%nat, (Hdr q 0 0 2 2), r0, r1.
  split; [done|]. split; [done|]. split; [done|].
  split; [|split_and!; try done; by rewrite Hf].
  exists n, h. split; [done|]. split; [done|]. split; [done|].
  split; [|split_and!; done || (simpl; lia)].
  eapply (file_on_one _ _ _ _ (d_next junk_data));
    [simpl; rewrite Hq; by destruct junk_data|apply junk_data_len|apply prefix_nil].
Qed.

(** [append_node] and the filling of the node. *)
Lemma pipe_begin s L ps q ino : mem_ok s L → list_ok s (ps ++ [q]) →
  (∃ s1, append_node s = Ok (0, q, s1) ∧ mem_ok s1 L ∧ list_ok s1 (ps ++ [q]) ∧ errno s1 = ENOMEM) ∨
  (∃ p s1, append_node s = Ok (p, q, s1) ∧ 0 < p ∧ vnodes s1 !! p = Some junk_node ∧
     pipe_begun (put_node p (pipe_node ino junk_node) s1) L (ps ++ [q]) p
       (pipe_node ino junk_node) ∧
     ∃ v r h, s1 = with_vfs v r h (errno s) s).
Proof.
  intros Hm Hl. destruct (append_node_spec s L _ Hm Hl) as (p & bk & s1 & -> & v & root & h & e & -> & Hs & Hbk & H).
  rewrite last_snoc in Hbk. simpl in Hbk. subst bk.
  destruct H as [(-> & -> & Hm1 & Hl1)|(Hp & HpL & -> & Hm1 & Hv & Hps & _ & Hvl)];
    [left; eauto 6|right].
  exists p. eexists. split; [done|]. split; [done|]. split; [exact Hv|]. split; [|eauto].
  split; [by eapply put_node_ok|]. split; [done|]. split; [|apply lookup_insert_eq].
  split; [by apply Hvl|]. apply list.NoDup_app. split; [apply Hl|].
  split; [|apply list.NoDup_singleton]. intros a Ha ->%list_elem_of_singleton. done.
Qed.

(** A block that was handed out, and one that is put to use. *)
Lemma mem_ok_heap s L p h e :
  mem_ok s L → 0 < p → m_rep h ({[p]} ∪ L) → mem_ok (with_mem (blocks s) h e s) ({[p]} ∪ L).
Proof.
  intros (Hm & H0 & H1 & H2 & H3 & H4 & H5 & H6) Hp Hh. split_and!; simpl; try done; set_solver.
Qed.

Lemma mem_ok_put_hdr s L p d :
  mem_ok s L → p ∈ L → p ∉ dom (blocks s) → p ∉ dom (vnodes s) → mem_ok (put_hdr p d s) L.
Proof.
  intros (Hm & H0 & H1 & H2 & H3 & H4 & H5 & H6) Hp Hb Hv.
  unfold mem_ok. simpl. rewrite dom_insert_L. split_and!; try done; set_solver.
Qed.

Lemma mem_ok_put_block s L p d :
  mem_ok s L → p ∈ L → p ∉ dom (hdrs s) → p ∉ dom (vnodes s) → mem_ok (put_block p d s) L.
Proof.
  intros (Hm & H0 & H1 & H2 & H3 & H4 & H5 & H6) Hp Hb Hv.
  unfold mem_ok. simpl. rewrite dom_insert_L. split_and!; try done; set_solver.
Qed.

(** The last part: all is there, or there was no memory. *)
Lemma pipe_alloc_spec s L (ps : list Z) q p n ino fd0 fd1 :
  pipe_begun s L (ps ++ [q]) p n → 0 ≤ ino < 1024 → len (pipes s) = 1024 →
  ∃ r s', pipe_alloc ino q fd0 fd1 s = Ok (r, fd0, fd1, s') ∧
    ((r = 0 ∧ files s' = files s ∧ list_ok s' ((ps ++ [q]) ++ [p]) ∧
        ∃ h b L', mem_ok s' L' ∧ vnodes s' !! p = Some n ∧ aget (pipes s') ino = Some h ∧
          hdrs s' !! h = Some (Hdr b 0 0 2 2) ∧ blocks s' !! b = Some junk_data) ∨
     (r = -1 ∧ errno s' = ENOMEM ∧ mem_ok s' L ∧ list_ok s' (ps ++ [q]))).
Proof.
  intros (Hm & HpL & Hl & En) Hino Hps. unfold pipe_alloc.
  destruct (kmalloc_cases HDR_SIZE s _ Hm) as [(m & -> & Hh)|(h & m & -> & Hp & Hq & Hh)];
    [done|..]; cbn [rbind]; rewrite aset_Some by (simpl; lia); cbn [deref rbind].
  { change (0 =? 0) with true. cbv iota.
    set (s1 := set_pipes _ _ _).
    destruct (drop_node_spec s1 L ps q p) as (s' & -> & Hm' & Hl' & He); [|done|exact Hl|].
    { exact (mem_ok_same s _ (blocks s) m (errno_num ENOMEM) Hm eq_refl Hh). }
    cbn [rbind]. eexists _, s'. split; [done|]. by right. }
  replace (h =? 0) with false by lia. set (s1 := set_pipes _ _ _).
  assert (Hm1 : mem_ok s1 ({[h]} ∪ ({[p]} ∪ L))) by exact (mem_ok_heap s _ h m (errno s) Hm Hp Hh).
  assert (Hd : h ∉ dom (blocks s) ∧ h ∉ dom (vnodes s) ∧ h ∉ dom (hdrs s)).
  { destruct Hm as (_ & _ & H1 & H2 & H3 & _). split_and!; set_solver. }
  destruct (kmalloc_cases DATA_SIZE s1 _ Hm1) as [(m2 & -> & Hh2)|(b & m2 & -> & Hb & Hbq & Hh2)];
    [done|..]; cbn [rbind].
  { change (0 =? 0) with true. cbv iota. set (s2 := put_hdr _ _ _).
    assert (Hm2 : mem_ok s2 ({[h]} ∪ ({[p]} ∪ L))).
    { apply mem_ok_put_hdr; [|set_solver|apply Hd..].
      exact (mem_ok_same s1 _ (blocks s) m2 (errno_num ENOMEM) Hm1 eq_refl Hh2). }
    destruct (free_hdr_spec s2 _ h Hm2 Hq) as (m3 & -> & Hm3).
    { unfold s2. simpl. rewrite dom_insert_L. set_solver. }
    cbn [rbind]. rewrite aset_Some by (simpl; rewrite length_insert; lia). cbn [deref rbind].
    set (s3 := set_pipes _ _ _).
    destruct (drop_node_spec s3 L ps q p) as (s' & -> & Hm' & Hl' & He); [exact Hm3|done|exact Hl|].
    cbn [rbind]. eexists _, s'. split; [done|]. by right. }
  replace (b =? 0) with false by lia. eexists _, _. split; [done|]. left.
  split; [done|]. split; [done|]. split; [exact Hl|].
  exists h, b, ({[b]} ∪ ({[h]} ∪ ({[p]} ∪ L))). split; [|split; [exact En|split; [|split]]].
  - assert (Hdb : b ∉ dom (blocks s) ∧ b ∉ dom (vnodes s) ∧ b ∉ dom (hdrs s)).
    { destruct Hm as (_ & _ & H1 & H2 & H3 & _). split_and!; set_solver. }
    apply mem_ok_put_block; [|set_solver| |apply Hdb].
    + apply mem_ok_put_hdr; [|set_solver|apply Hd..].
      exact (mem_ok_heap s1 _ b m2 (errno s) Hm1 Hb Hh2).
    + simpl. rewrite dom_insert_L. set_solver.
  - simpl. rewrite aget_insert, Z.eqb_refl by lia. done.
  - simpl. apply lookup_insert_eq.
  - simpl. apply lookup_insert_eq.
Qed.

(** C15: [pipe] returns two descriptors, the lowest that are free, which are the two ends
    of an empty queue with room for 255 bytes; or it fails with [ENOMEM], [EMFILE]
    or [ENFILE], and then the list of files and the allocated blocks are as before. *)
Theorem creat_pipe_queue s L ps a0 a1 (H : pipe_ready s L ps) :
  ∃ r fd0 fd1 s', creat_pipe a0 a1 s = Ok (r, fd0, fd1, s') ∧
    ((r = 0 ∧ lowest_free (files s) 3 fd0 ∧
        (∃ p, list_ok s' (ps ++ [p]) ∧ p ∉ L ∧
           lowest_free (<[Z.to_nat fd0 := Fildes p 0 O_RDONLY]> (files s)) 3 fd1 ∧
           queue_ok PIPE s' fd0 fd1 p false false [] 255)) ∨
     (r = -1 ∧ errno s' ∈ [errno_num ENOMEM; errno_num EMFILE] ∧ mem_ok s' L ∧ list_ok s' ps)).
Proof.
  destruct H as (Hm & Hl & Hne & Hf & Hps & Hino). unfold creat_pipe.
  replace (1023 <? pipe_inodes s) with false by lia.
  destruct ps as [|q ps _] using rev_ind; [done|].
  destruct (pipe_begin s L ps q (pipe_inodes s) Hm Hl) as [(s1 & -> & Hm1 & Hl1 & He)|
    (p & s1 & -> & Hp & Ev & Hbeg & v & root & h & Es)]; cbn [rbind].
  { change (0 =? 0) with true. cbv iota. eexists (-1), _, _, s1. split; [done|]. right.
    split; [done|]. rewrite He. split; [set_solver|done]. }
  replace (p =? 0) with false by lia. unfold get_node at 1. rewrite Ev. cbn [deref rbind].
  rewrite Es. change (pipe_inodes (with_vfs v root h (errno s) s)) with (pipe_inodes s).
  rewrite <- Es. set (n := pipe_node (pipe_inodes s) junk_node) in *.
  set (s2 := set_pipes _ _ _).
  assert (Hb2 : pipe_begun s2 L (ps ++ [q]) p n) by exact Hbeg.
  assert (Hf2 : files s2 = files s) by (unfold s2; by rewrite Es).
  assert (Hp2 : len (pipes s2) = 1024) by (unfold s2; rewrite Es; exact Hps).
  clearbody s2. clear Hbeg Es Ev s1.
  assert (Hdrop : ∀ s3, pipe_begun s3 L (ps ++ [q]) p n → ∃ s4, drop_node q s3 = Ok s4 ∧
    mem_ok s4 L ∧ list_ok s4 (ps ++ [q])) by (intros s3 H3; destruct
      (pipe_begun_drop _ _ _ _ _ _ H3) as (s4 & ? & ? & ? & _); eauto).
  destruct (get_free_fd_spec 3 s2) as (fd0 & -> & Hlow); [by rewrite Hf2|done|]. cbn [rbind].
  rewrite Hf2 in Hlow. destruct (Z.ltb_spec fd0 0) as [H0|H0].
  { destruct (Hdrop s2 Hb2) as (s4 & -> & Hm4 & Hl4). cbn [rbind].
    eexists _, _, _, _. split; [done|]. right. split; [done|]. split; [set_solver|done]. }
  destruct Hlow as [[-> _]|Hlow]; [lia|]. pose proof Hlow as (Hr0 & _ & _).
  rewrite put_fd_ok by (rewrite Hf2, Hf; unfold OPEN_MAX in *; lia). cbn [rbind].
  set (s3 := at_fd fd0 _ s2). assert (Hb3 : pipe_begun s3 L (ps ++ [q]) p n) by exact Hb2.
  assert (Hf3 : files s3 = <[Z.to_nat fd0 := Fildes p 0 O_RDONLY]> (files s))
    by (unfold s3, at_fd; simpl; by rewrite Hf2).
  assert (Hp3 : len (pipes s3) = 1024) by exact Hp2. clearbody s3.
  destruct (get_free_fd_spec 3 s3) as (fd1 & -> & Hlow1);
    [by rewrite Hf3, length_insert|done|]. cbn [rbind]. rewrite Hf3 in Hlow1.
  destruct (Z.ltb_spec fd1 0) as [H1|H1].
  { destruct (Hdrop s3 Hb3) as (s4 & -> & Hm4 & Hl4). cbn [rbind].
    eexists _, _, _, _. split; [done|]. right. split; [done|]. split; [set_solver|done]. }
  destruct Hlow1 as [[-> _]|Hlow1]; [lia|]. pose proof Hlow1 as (Hr1 & Hfree1 & _).
  rewrite put_fd_ok by (rewrite Hf3, length_insert, Hf; unfold OPEN_MAX in *; lia). cbn [rbind].
  set (s4 := at_fd fd1 _ s3). assert (Hb4 : pipe_begun s4 L (ps ++ [q]) p n) by exact Hb3.
  assert (Hne01 : fd0 ≠ fd1).
  { intros <-. destruct Hfree1 as (f & Ef & Hff).
    rewrite aget_insert, Z.eqb_refl in Ef by (rewrite Hf; unfold OPEN_MAX in *; lia).
    injection Ef as <-. simpl in Hff. lia. }
  destruct (pipe_alloc_spec s4 L ps q p n (pipe_inodes s) fd0 fd1 Hb4 Hino Hp3)
    as (r & s5 & -> & H5).
  eexists r, fd0, fd1, s5. split; [done|].
  destruct H5 as [(-> & Hf5 & Hl5 & h' & b & L' & Hm5 & En & Eh & Eb & Ed)|(-> & He & Hm5 & Hl5)];
    [left|right; rewrite He; split_and!; (done || set_solver)].
  split; [done|]. split; [by right|]. exists p. split; [exact Hl5|]. split; [apply Hb4|].
  split; [by right|].
  assert (Hfs5 : files s5 = <[Z.to_nat fd1 := Fildes p 0 O_WRONLY]>
                             (<[Z.to_nat fd0 := Fildes p 0 O_RDONLY]> (files s)))
    by (rewrite Hf5; unfold s4, at_fd; simpl; by rewrite Hf3).
  assert (Hr : ∀ fd, 3 ≤ fd < OPEN_MAX → 0 ≤ fd < len (files s))
    by (rewrite Hf; unfold OPEN_MAX; lia).
  eapply (pipe_ends s5 L' p n h' b fd0 fd1 (Fildes p 0 O_RDONLY) (Fildes p 0 O_WRONLY)); try done.
  - unfold get_fd. rewrite Hfs5, aget_insert by (rewrite length_insert; by apply Hr).
    replace (fd1 =? fd0) with false by lia. rewrite aget_insert, Z.eqb_refl by (by apply Hr). done.
  - unfold get_fd. rewrite Hfs5, aget_insert, Z.eqb_refl by (rewrite length_insert; by apply Hr).
    done.
Qed.
End pipes.

(** ** Examples *)
Lemma creat_pipe_queue_witness :
  ∃ r fd0 fd1 s', creat_pipe 0 0 (demo_file [] 0) = Ok (r, fd0, fd1, s') ∧
    ((r = 0 ∧ lowest_free (files (demo_file [] 0)) 3 fd0 ∧
        ∃ p, queue_ok PIPE s' fd0 fd1 p false false [] 255) ∨ r = -1).
Proof.
  destruct (creat_pipe_queue (demo_file [] 0) demo_allocated [0x400010] 0 0)
    as (r & fd0 & fd1 & s' & E & H).
  - split; [apply demo_mem_ok|]. split; [|done]. split; [|apply list.NoDup_singleton].
    simpl. split_and!; [done..|]. eexists. split; [apply lookup_singleton_eq|done].
  - exists r, fd0, fd1, s'. split; [exact E|].
    destruct H as [(Hr & Hl & p & _ & _ & _ & Hq)|(Hr & _)]; [left|right; exact Hr].
    split; [exact Hr|]. split; [exact Hl|]. exists p. exact Hq.
Defined.
