(* ===== verification/Stdio.v ===== *)
(** * Stdio: the standard streams

    [kernel/src/fs/stdin.c], [stdout.c] and [stderr.c]. *)

From S2P Require Import Prelude Malloc Headers CString Vga Fs Names Blocks Nodes Demo Ramfs Stream.

Section stdio.
Context {MA : Malloc} {SY : Sys}.

(** ** Opening *)

(** The three [init_*] functions: the same up to the number, the name, the
    operations and the flags. *)
Definition init_std (fileno : Z) (nm : list Z) (r w o : option fs_kind) (flags : Z) (s : fs)
    : res (Z * fs) :=
  let* f := get_fd fileno s in
  if negb (vfs_node f =? 0) then Ok (fileno, s)
  else
    let* (p, _, s) := append_node s in
    if p =? 0 then Ok (-1, s)
    else
      let* n := get_node p s in
      let* nm := name_strcpy nm (name n) in
      let t := status n in
      let n := VNode nm
        (Stat DEVID_STDIO fileno 0 0 0 DEVID_STDIO 0 (st_atime t) (st_mtime t) (st_ctime t))
        r w o None None None 0 in
      let s := put_node p n s in
      let* s := put_fd fileno (Fildes p 0 flags) s in
      Ok (fileno, s).

Definition init_stdin :=
  init_std STDIN_FILENO (codes "stdin") (Some STDIN) (Some STDIN) (Some STDIN) O_RDWR.
Definition init_stdout :=
  init_std STDOUT_FILENO (codes "stdout") None (Some STDOUT) (Some STDOUT) O_WRONLY.
Definition init_stderr :=
  init_std STDERR_FILENO (codes "stderr") None (Some STDERR) (Some STDERR) O_WRONLY.

(** The three [open_*] functions. *)
Definition open_std (fileno : Z) (s : fs) : res (Z * fs) :=
  let* f := get_fd fileno s in
  let* ret := (if negb (vfs_node f =? 0) then get_free_fd 3 s else Ok fileno) in
  Ok (ret, if ret <? 0 then set_errno EMFILE s else s).

Definition open_stdin := open_std STDIN_FILENO.
Definition open_stdout := open_std STDOUT_FILENO.
Definition open_stderr := open_std STDERR_FILENO.

(** ** The buffer of stdin *)
Definition push_stdin (c : Z) (i : stdin_t) : res (Z * stdin_t) :=
  if (1024 <=? stdin_write_at i) && (stdin_read_at i =? 0) then Ok (0, i)
  else
    let w := if 1024 <=? stdin_write_at i then 0 else stdin_write_at i in
    let* b := deref (aset (stdin_buf i) w c) in
    Ok (1, Stdin (stdin_read_at i) (w + 1) (stdin_buf_size i) b).

Definition pop_stdin (i : stdin_t) : res (Z * stdin_t) :=
  let r := if 1024 <=? stdin_read_at i then 0 else stdin_read_at i in
  if r =? stdin_write_at i
  then Ok (0, Stdin r (stdin_write_at i) (stdin_buf_size i) (stdin_buf i))
  else
    let* c := deref (aget (stdin_buf i) r) in
    Ok (c, Stdin (r + 1) (stdin_write_at i) (stdin_buf_size i) (stdin_buf i)).

Definition with_bufsize (n : Z) (i : stdin_t) : stdin_t :=
  Stdin (stdin_read_at i) (stdin_write_at i) n (stdin_buf i).

(** [while (stdin_buf_size < size);]: the keyboard interrupt fills the buffer. *)
Fixpoint wait_stdin (fuel : nat) (size : Z) (s : fs) : res fs :=
  match fuel with
  | O => Fuel
  | S fuel =>
      if stdin_buf_size (stdin_st s) <? size then
        let* s := kb_irq s in wait_stdin fuel size s
      else Ok s
  end.

(** [n] turns; a NUL takes a turn, but no place in the buffer is written for it. *)
Fixpoint read_stdin_loop (n : nat) (read : Z) (buf : list Z) (i : stdin_t)
    : res (list Z * stdin_t) :=
  match n with
  | O => Ok (buf, i)
  | S n =>
      let* (c, i) := pop_stdin i in
      if negb (c =? 0) then
        let* buf := deref (aset buf read c) in
        read_stdin_loop n (read + 1) buf (with_bufsize (u32 (stdin_buf_size i - 1)) i)
      else read_stdin_loop n (read + 1) buf i
  end.

Definition read_stdin (buf : list Z) (size : Z) (s : fs) : res (Z * list Z * fs) :=
  let* s := wait_stdin (S patience) size s in
  let* (buf, i) := read_stdin_loop (Z.to_nat size) 0 buf (stdin_st s) in
  Ok (s32 size, buf, set_stdin i s).

Fixpoint write_stdin_loop (n : nat) (k : Z) (buf : list Z) (i : stdin_t) : res stdin_t :=
  match n with
  | O => Ok i
  | S n =>
      let* c := deref (aget buf k) in
      let* (r, i) := push_stdin c i in
      write_stdin_loop n (k + 1) buf (with_bufsize (u32 (stdin_buf_size i + r)) i)
  end.

Definition write_stdin (buf : list Z) (size : Z) (s : fs) : res (Z * fs) :=
  let* i := write_stdin_loop (Z.to_nat size) 0 buf (stdin_st s) in
  Ok (s32 size, set_stdin i s).

(** ** stdout and stderr *)
Fixpoint put_chars (n : nat) (k : Z) (buf : list Z) (c : console) : res console :=
  match n with
  | O => Ok c
  | S n =>
      let* b := deref (aget buf k) in
      let* (_, c) := kputchar (s8 b) c in
      put_chars n (k + 1) buf c
  end.

Definition write_console (buf : list Z) (size : Z) (s : fs) : res (Z * fs) :=
  let* c := put_chars (Z.to_nat size) 0 buf (con s) in
  Ok (s32 size, set_con c s).

Definition write_stdout := write_console.
Definition write_stderr := write_console.

(** ** stdin is a queue

    The unread characters [q] are in the ring from [stdin_read_at] on. *)
Definition ring_ok (i : stdin_t) (q : list Z) : Prop :=
  0 ≤ stdin_read_at i ≤ 1024 ∧ 0 ≤ stdin_write_at i ≤ 1024 ∧ len (stdin_buf i) = 1024 ∧
  len q ≤ 1023 ∧ stdin_buf_size i = len q ∧
  stdin_write_at i mod 1024 = (stdin_read_at i + len q) mod 1024 ∧
  ¬ (stdin_read_at i = 0 ∧ stdin_write_at i = 1024) ∧
  ∀ k c, q !! k = Some c → aget (stdin_buf i) ((stdin_read_at i + Z.of_nat k) mod 1024) = Some c.

Lemma mod_1024_end a : 0 ≤ a ≤ 1024 → a mod 1024 = if 1024 <=? a then 0 else a.
Proof.
  intros Ha. destruct (Z.leb_spec 1024 a); [by replace a with 1024 by lia|].
  apply Z.mod_small. lia.
Qed.

Lemma push_ring i q c : ring_ok i q → len q < 1023 →
  ∃ j, push_stdin c i = Ok (1, j) ∧ ring_ok (with_bufsize (u32 (stdin_buf_size j + 1)) j) (q ++ [c]).
Proof.
  intros (Hr & Hw & Hb & Hq & Hn & Hm & Hne & Hc) Hlen. unfold push_stdin.
  replace ((1024 <=? stdin_write_at i) && (stdin_read_at i =? 0)) with false by lia.
  rewrite (mod_1024_end (stdin_write_at i)) in Hm by lia.
  set (w := if 1024 <=? stdin_write_at i then 0 else stdin_write_at i) in *.
  assert (0 ≤ w < 1024) by (unfold w; destruct (Z.leb_spec 1024 (stdin_write_at i)); lia).
  rewrite aset_Some by lia. cbn [deref rbind]. eexists. split; [done|].
  unfold ring_ok. cbn [with_bufsize stdin_read_at stdin_write_at stdin_buf_size stdin_buf].
  rewrite length_insert, length_app, uint_small by lia. cbn [length].
  split_and!; try lia.
  - rewrite Nat2Z.inj_add, Z.add_assoc, Hm. by rewrite Zplus_mod_idemp_l.
  - intros [Hr0 Hw0]. rewrite Hr0, Z.mod_small in Hm; lia.
  - intros k x E. rewrite aget_insert by lia. destruct (decide (k < length q)%nat) as [Hk|Hk].
    + rewrite lookup_app_l in E by done. rewrite <- (Hc _ _ E).
      destruct (Z.eqb_spec w ((stdin_read_at i + Z.of_nat k) mod 1024)) as [Heq|]; [|done].
      exfalso. rewrite Hm in Heq. rewrite Z.mod_eq in Heq by lia. Z.div_mod_to_equations. lia.
    + rewrite lookup_app_r in E by lia. apply list_lookup_singleton_Some in E as [Hk0 <-].
      assert (Z.of_nat k = len q) as -> by lia. rewrite Hm, Z.eqb_refl. done.
Qed.

Lemma pop_ring i c q : ring_ok i (c :: q) →
  ∃ j, pop_stdin i = Ok (c, j) ∧ ring_ok (with_bufsize (u32 (stdin_buf_size j - 1)) j) q.
Proof.
  intros (Hr & Hw & Hb & Hq & Hn & Hm & Hne & Hc). cbn [length] in *. unfold pop_stdin.
  assert (Hh : aget (stdin_buf i) (stdin_read_at i mod 1024) = Some c)
    by (rewrite <- (Hc 0%nat c), Z.add_0_r; done).
  rewrite <- (Zplus_mod_idemp_l (stdin_read_at i)) in Hm.
  assert (Hc' : ∀ k x, q !! k = Some x → aget (stdin_buf i)
    ((stdin_read_at i mod 1024 + 1 + Z.of_nat k) mod 1024) = Some x).
  { intros k x E. rewrite <- (Hc (S k) x E). f_equal.
    rewrite <- Z.add_assoc, Zplus_mod_idemp_l. f_equal. lia. }
  clear Hc. rewrite (mod_1024_end (stdin_read_at i)) in * by lia.
  set (r := if 1024 <=? stdin_read_at i then 0 else stdin_read_at i) in *.
  assert (0 ≤ r < 1024) by (unfold r; destruct (Z.leb_spec 1024 (stdin_read_at i)); lia).
  replace (r =? stdin_write_at i) with false.
  2:{ symmetry. apply Z.eqb_neq. intros E. rewrite <- E in Hm. Z.div_mod_to_equations. lia. }
  rewrite Hh. cbn [deref rbind]. eexists. split; [done|]. unfold ring_ok.
  cbn [with_bufsize stdin_read_at stdin_write_at stdin_buf_size stdin_buf].
  rewrite uint_small by lia. split_and!; try lia; [|done].
  rewrite Hm. f_equal. lia.
Qed.

(** One write, of characters that fit. *)
Lemma write_stdin_loop_ring n (k : nat) buf i q :
  ring_ok i q → (k + n ≤ length buf)%nat → len q + Z.of_nat n ≤ 1023 →
  ∃ j, write_stdin_loop n (Z.of_nat k) buf i = Ok j ∧ ring_ok j (q ++ take n (drop k buf)).
Proof.
  revert k i q. induction n as [|n IH]; intros k i q H Hk Hq.
  { exists i. by rewrite take_0, app_nil_r. }
  cbn [write_stdin_loop]. destruct (lookup_lt_is_Some_2 buf k) as [c E]; [lia|].
  assert (Ea : aget buf (Z.of_nat k) = Some c)
    by (unfold aget; rewrite Nat2Z.id; by replace (Z.of_nat k <? 0) with false by lia).
  rewrite Ea. cbn [deref rbind].
  assert (Hbs : stdin_buf_size i = len q) by apply H.
  destruct (push_ring i q c H) as (j & -> & Hj); [lia|]. cbn [rbind].
  replace (Z.of_nat k + 1) with (Z.of_nat (S k)) by lia.
  destruct (IH (S k) _ _ Hj) as (j' & -> & Hj'); [lia|rewrite length_app; simpl; lia|].
  exists j'. split; [done|]. by rewrite (drop_S buf c k), <- app_assoc in * by done.
Qed.

(** One read, of at most as many characters as there are. *)
Lemma read_stdin_loop_ring n (k : nat) buf i q :
  ring_ok i q → Forall (λ c, c ≠ 0) q → (n ≤ length q)%nat → (k + n ≤ length buf)%nat →
  ∃ j, read_stdin_loop n (Z.of_nat k) buf i
       = Ok (take k buf ++ take n q ++ drop (k + n) buf, j) ∧ ring_ok j (drop n q).
Proof.
  revert k buf i q. induction n as [|n IH]; intros k buf i q H Hq Hn Hk.
  { exists i. by rewrite Nat.add_0_r, take_0, app_nil_l, take_drop, drop_0. }
  cbn [read_stdin_loop]. destruct q as [|c q]; simpl in Hn; [lia|].
  apply list.Forall_cons in Hq as [Hc Hq]. destruct (pop_ring i c q H) as (j & -> & Hj).
  cbn [rbind]. replace (c =? 0) with false by lia. cbn [negb].
  rewrite aset_Some by lia. rewrite Nat2Z.id. cbn [deref rbind].
  replace (Z.of_nat k + 1) with (Z.of_nat (S k)) by lia.
  destruct (IH (S k) (<[k := c]> buf) _ q Hj Hq) as (j' & -> & Hj');
    [lia|rewrite length_insert; lia|].
  exists j'. split; [|done]. do 2 f_equal. rewrite drop_insert_lt by lia.
  rewrite (take_S_r _ _ c) by (apply list_lookup_insert_eq; lia).
  rewrite take_insert_ge by lia. cbn [take]. rewrite <- app_assoc.
  by replace (S k + n)%nat with (k + S n)%nat by lia.
Qed.

(** ** The calls *)
Fixpoint run_stdin (ops : list op) (s : fs) : res (list (Z * list Z) * fs) :=
  match ops with
  | [] => Ok ([], s)
  | OpWrite data :: ops =>
      let* (n, s) := write_stdin data (len data) s in
      let* (rs, s) := run_stdin ops s in Ok ((n, []) :: rs, s)
  | OpRead n :: ops =>
      let* (r, buf, s) := read_stdin (replicate n 0) (Z.of_nat n) s in
      let* (rs, s) := run_stdin ops s in Ok ((r, take (Z.to_nat r) buf) :: rs, s)
  end.

(** Never more than 1023 characters unread, no NUL, no read of more than there is. *)
Fixpoint in_time (ops : list op) (q : list Z) : Prop :=
  match ops with
  | [] => True
  | OpWrite data :: ops =>
      Forall (λ c, c ≠ 0) data ∧ len q + len data ≤ 1023 ∧ in_time ops (q ++ data)
  | OpRead n :: ops => (0 < n ≤ length q)%nat ∧ in_time ops (drop n q)
  end.

(** C16: the standard input is a queue: for every sequence of writes (by the keyboard or
    a program) and reads in which never more than 1023 characters are unread, none of
    them is NUL and no read has to wait, each call returns what the operation on a
    queue returns; only the buffer of stdin changes. *)
Theorem stdin_is_queue s q ops
    (Hq : ring_ok (stdin_st s) q) (Hc : Forall (λ c, c ≠ 0) q) (Hops : in_time ops q) :
  ∃ i, run_stdin ops s = Ok (fst (queue_ops 0 ops q), set_stdin i s) ∧
    ring_ok i (snd (queue_ops 0 ops q)).
Proof.
  revert s q Hq Hc Hops. induction ops as [|[data|n] ops IH]; intros s q Hq Hc Hops;
    cbn [run_stdin queue_ops in_time] in *.
  - exists (stdin_st s). by destruct s.
  - destruct Hops as (Hd & Hlen & Hops). unfold write_stdin. rewrite Nat2Z.id.
    destruct (write_stdin_loop_ring (length data) 0 data (stdin_st s) q Hq) as (j & Ej & Hj);
      [lia|lia|]. change (Z.of_nat 0) with 0 in Ej. rewrite Ej. cbn [rbind]. rewrite drop_0, take_ge in Hj by lia.
    destruct (IH (set_stdin j s) (q ++ data)) as (i & -> & Hi); [done|by apply Forall_app_2|done|].
    cbn [rbind]. exists i. rewrite sint_small by lia.
    destruct (queue_ops 0 ops (q ++ data)) as [rs q2]. done.
  - destruct Hops as (Hn & Hops). unfold read_stdin. cbn [wait_stdin].
    assert (Hsz : stdin_buf_size (stdin_st s) = len q) by apply Hq.
    assert (Hlen : len q ≤ 1023) by apply Hq. rewrite Hsz. replace (len q <? Z.of_nat n) with false by lia. cbn [rbind].
    rewrite Nat2Z.id.
    destruct (read_stdin_loop_ring n 0 (replicate n 0) (stdin_st s) q) as (j & Ej & Hj);
      [done|done|lia|rewrite length_replicate; lia|].
    change (Z.of_nat 0) with 0 in Ej. rewrite Ej. cbn [rbind].
    destruct (IH (set_stdin j s) (drop n q)) as (i & -> & Hi); [done|by apply Forall_drop|done|].
    cbn [rbind]. exists i. rewrite sint_small by lia.
    rewrite bool_decide_false by (intros ->; simpl in Hn; lia).
    destruct (queue_ops 0 ops (drop n q)) as [rs q2]. split; [|done].
    rewrite Nat2Z.id, take_0, app_nil_l, take_app_length', length_take_le by
      (rewrite ?length_take; lia). done.
Qed.
End stdio.

(** ** Examples *)
Lemma stdin_is_queue_witness :
  let ops := [OpWrite [104; 105]; OpRead 1; OpWrite [33]; OpRead 2] in
  ∃ i, run_stdin ops (demo_file [] 0)
       = Ok ([(2, []); (1, [104]); (1, []); (2, [105; 33])], set_stdin i (demo_file [] 0)).
Proof.
  destruct (stdin_is_queue (demo_file [] 0) []
    [OpWrite [104; 105]; OpRead 1; OpWrite [33]; OpRead 2]) as (i & E & _).
  - split_and!; try done. by intros [_ ?].
  - constructor.
  - simpl. split_and!; try lia; by repeat constructor.
  - exists i. exact E.
Defined.

(** A character beyond the 1023 makes the ring look empty: all of them are lost. *)
Example stdin_overrun :
  (let* (_, s) := write_stdin (replicate 1024 120) 1024
                    (set_stdin (Stdin 1 1 0 (replicate 1024 0)) (demo_file [] 0)) in
   let* (n, buf, s) := read_stdin (replicate 2 0) 2 s in
   Ok (n, buf, stdin_buf_size (stdin_st s))) = Ok (2, [0; 0], 1024).
Proof. vm_compute. reflexivity. Qed.
