(* ===== verification/Vfs.v ===== *)
(** * Vfs: the calls on files

    [kernel/src/fs/vfs.c], [do_fcntl.c], [stat.c], [initrd.c] and the functions that
    pass on to them in [kernel/lib/fcntl.c] and [unistd.c]. *)

From S2P Require Import Prelude Malloc Headers CString Vga Fs Names Blocks Nodes Demo Ramfs Stream Stdio.

Section vfs.
Context {MA : Malloc} {SY : Sys}.

(** ** The calls through the function pointers of a node *)
Definition node_read (k : fs_kind) (fd : Z) (buf : list Z) (size : Z) (s : fs)
    : res (Z * list Z * fs) :=
  match k with
  | RAMFS => read_ramfs fd buf size s
  | PIPE => read_pipe fd buf size s
  | FIFOFS => read_fifofs fd buf size s
  | STDIN => read_stdin buf size s
  | _ => Fault
  end.

Definition node_write (k : fs_kind) (fd : Z) (buf : list Z) (size : Z) (s : fs)
    : res (Z * fs) :=
  match k with
  | RAMFS => write_ramfs fd buf size s
  | PIPE => write_pipe fd buf size s
  | FIFOFS => write_fifofs fd buf size s
  | STDIN => write_stdin buf size s
  | STDOUT => write_stdout buf size s
  | STDERR => write_stderr buf size s
  | WILD => Fault
  end.

Definition node_open (k : fs_kind) (p flags : Z) (s : fs) : res (Z * fs) :=
  match k with
  | FIFOFS => open_fifofs p flags s
  | STDIN => open_stdin s
  | STDOUT => open_stdout s
  | STDERR => open_stderr s
  | _ => Fault
  end.

Definition node_creat (k : fs_kind) (p : Z) (s : fs) : res (Z * fs) :=
  match k with
  | RAMFS => creat_ramfs p s
  | FIFOFS => creat_fifofs p s
  | _ => Fault
  end.

Definition node_close (k : fs_kind) (fd : Z) (s : fs) : res (Z * fs) :=
  match k with
  | PIPE => close_pipe fd s
  | FIFOFS => close_fifofs fd s
  | _ => Fault
  end.

(** The descriptor, if it is in range and open: [fd < 0 || fd >= OPEN_MAX ||
    files[fd].vfs_node == NULL] fails. *)
Definition open_fd (fd : Z) (s : fs) : res (option fildes_t) :=
  if (fd <? 0) || (OPEN_MAX <=? fd) then Ok None
  else
    let* f := get_fd fd s in
    Ok (if vfs_node f =? 0 then None else Some f).

(** ** read, write

    [buf] is [None] for [NULL]. *)
Definition read_vfs (fd : Z) (buf : option (list Z)) (size : Z) (s : fs)
    : res (Z * option (list Z) * fs) :=
  let err e s := fail e s (λ r s, (r, buf, s)) in
  match buf with
  | None => err ENOMEM s
  | Some b =>
      let* f := open_fd fd s in
      match f with
      | None => err EBADF s
      | Some f =>
          let* node := get_node (vfs_node f) s in
          if has (st_mode (status node)) S_IFDIR then err EISDIR s
          else if size =? 0 then Ok (0, buf, s)
          else if has (oflag f) O_RDONLY then
            match n_read node with
            | Some k => let* (r, b, s) := node_read k fd b size s in Ok (r, Some b, s)
            | None => err ENXIO s
            end
          else err EBADF s
      end
  end.

Definition write_vfs (fd : Z) (buf : option (list Z)) (size : Z) (s : fs) : res (Z * fs) :=
  match buf with
  | None => failz ENOBUFS s
  | Some b =>
      let* f := open_fd fd s in
      match f with
      | None => failz EBADF s
      | Some f =>
          if size =? 0 then Ok (0, s)
          else if has (oflag f) O_WRONLY then
            let* node := get_node (vfs_node f) s in
            match n_write node with
            | Some k => node_write k fd b size s
            | None => failz ENXIO s
            end
          else failz EBADF s
      end
  end.

(** ** creat *)
Definition creat_status (mode : Z) (n : vfs_node_t) : vfs_node_t :=
  let t := status n in
  with_status (Stat (st_dev t) (st_ino t) mode 0 0 (st_rdev t) (st_size t)
                 (st_atime t) (st_mtime t) (st_ctime t)) (with_next 0 n).

Definition device_status (dev ino : Z) (n : vfs_node_t) : vfs_node_t :=
  let t := status n in
  with_status (Stat dev ino (st_mode t) (st_uid t) (st_gid t) dev (st_size t)
                 (st_atime t) (st_mtime t) (st_ctime t)) n.

Definition creat_vfs (nm : list Z) (mode : Z) (s : fs) : res (Z * fs) :=
  let* (p, _, s) := append_node s in
  if p =? 0 then Ok (-1, s)
  else
    let mode :=
      if Z.land mode S_IPERM =? 0 then Z.lor mode (Z.lor (Z.lor S_IRWXU S_IRWXG) S_IRWXO)
      else mode in
    let* n := get_node p s in
    let n := creat_status mode n in
    let* l := name_copy nm (name n) in
    let n := with_size 0 (with_name l n) in
    let s := put_node p n s in
    let ino := ramfs_inodes s in
    let make k :=
      let s := set_ramfs (ramfs_nodes s) (u32 (ino + 1)) s in
      let s := put_node p (with_creat (Some k) (device_status DEVID_RAMFS ino n)) s in
      let* (ret, s) := node_creat k p s in
      if ret <? 0 then Ok (-1, s)
      else
        let* fd := get_free_fd 3 s in
        if fd <? 0 then failz EMFILE s
        else let* s := put_fd fd (Fildes p 0 O_WRONLY) s in Ok (fd, s) in
    if has mode S_IFREG || (Z.land mode S_IFMT =? 0) then make RAMFS
    else if has mode S_IFIFO then make FIFOFS
    else failz EROFS s.

(** ** open *)
Fixpoint find_file (fuel : nat) (nm : list Z) (ptr : Z) (s : fs) : res Z :=
  match fuel with
  | O => Fuel
  | S fuel =>
      if ptr =? 0 then Ok 0
      else
        let* n := get_node ptr s in
        if st_dev (status n) =? DEVID_PIPE then find_file fuel nm (n_next n) s
        else
          let* b := name_is nm (name n) in
          if b then Ok ptr else find_file fuel nm (n_next n) s
  end.

Definition open_vfs (nm : option (list Z)) (flags mode : Z) (s : fs) : res (Z * fs) :=
  match nm with
  | None => failz ENOENT s
  | Some nm =>
      let* ptr := find_file (node_fuel s) nm (vfs_root s) s in
      if ptr =? 0 then
        if has flags O_CREAT then
          let* (ret, s) := creat_vfs nm mode s in
          if ret <? 0 then Ok (-1, s)
          else
            let* f := get_fd ret s in
            let* s := put_fd ret (Fildes (vfs_node f) (at_ f) flags) s in
            Ok (ret, s)
        else failz ENOENT s
      else if Z.land flags (Z.lor O_CREAT O_EXCL) =? Z.lor O_CREAT O_EXCL
      then failz EEXIST s
      else
        let* node := get_node ptr s in
        if has (st_mode (status node)) S_IFDIR && has flags O_WRONLY then failz EISDIR s
        else
          let* (fd, s) :=
            match n_open node with
            | Some k => node_open k ptr flags s
            | None => let* fd := get_free_fd 3 s in Ok (fd, s)
            end in
          if 0 <=? fd then let* s := put_fd fd (Fildes ptr 0 flags) s in Ok (fd, s)
          else failz EMFILE s
  end.

(** ** close *)
Definition close_vfs (fd : Z) (s : fs) : res (Z * fs) :=
  let* f := open_fd fd s in
  match f with
  | None => failz EBADF s
  | Some f =>
      let* node := get_node (vfs_node f) s in
      let* (ret, s) :=
        match n_close node with Some k => node_close k fd s | None => Ok (0, s) end in
      if ret <? 0 then Ok (-1, s)
      else let* s := put_fd fd (Fildes 0 0 0) s in Ok (0, s)
  end.

(** ** lseek *)
Definition lseek_vfs (fd offset whence : Z) (s : fs) : res (Z * fs) :=
  let* f := open_fd fd s in
  match f with
  | None => failz EBADF s
  | Some f =>
      let* node := get_node (vfs_node f) s in
      if has (st_mode (status node)) S_IFIFO then failz ESPIPE s
      else
        match n_lseek node with
        | Some _ => Fault
        | None =>
            let move a := let* s := put_fd fd (with_at (s32 a) f) s in Ok (s32 a, s) in
            if whence =? SEEK_SET then move offset
            else if whence =? SEEK_CUR then move (at_ f + offset)
            else if whence =? SEEK_END then move (st_size (status node) + offset)
            else failz EINVAL s
        end
  end.

(** [stat.h]: made by [fifofs.c]. *)
Definition mkfifo (path : list Z) (mode : Z) (s : fs) : res (Z * fs) :=
  let* (fd, s) := creat_vfs path (Z.lor mode S_IFIFO) s in
  if fd <? 0 then Ok (-1, s)
  else let* (_, s) := close_vfs fd s in Ok (0, s).

(** ** fcntl *)
Definition with_flags (fl : Z) (f : fildes_t) : fildes_t := Fildes (vfs_node f) (at_ f) fl.

Definition do_fcntl (fd cmd arg : Z) (s : fs) : res (Z * fs) :=
  let* f := open_fd fd s in
  match f with
  | None => failz EBADF s
  | Some f =>
      let set mask :=
        let* s := put_fd fd (with_flags (Z.lor (clr (oflag f) mask) (Z.land arg mask)) f) s in
        Ok (0, s) in
      if cmd =? F_DUPFD then
        if s32 arg <? 0 then failz EINVAL s
        else
          let* fd2 := get_free_fd (s32 arg) s in
          if fd2 <? 0 then failz EMFILE s
          else
            let* s := put_fd fd2 (with_flags (clr (oflag f) FD_CLOEXEC) f) s in
            Ok (fd2, s)
      else if cmd =? F_GETFD then Ok (Z.land (oflag f) FD_MASK, s)
      else if cmd =? F_SETFD then set FD_MASK
      else if cmd =? F_GETFL then Ok (Z.land (oflag f) O_MASK, s)
      else if cmd =? F_SETFL then set O_SF_MASK
      else failz EINVAL s
  end.

(** ** lib/fcntl.c, lib/unistd.c: [arg] is the optional argument *)
Definition open (nm : option (list Z)) (flags arg : Z) (s : fs) : res (Z * fs) :=
  open_vfs nm flags (if has flags O_CREAT then arg else 0) s.

Definition creat (nm : list Z) (mode : Z) (s : fs) : res (Z * fs) := creat_vfs nm mode s.

Definition close (fd : Z) (s : fs) : res (Z * fs) := close_vfs fd s.

Definition fcntl (fd cmd arg : Z) (s : fs) : res (Z * fs) :=
  let arg := if (cmd =? F_DUPFD) || (cmd =? F_SETFD) || (cmd =? F_SETFL) then arg else 0 in
  do_fcntl fd cmd arg s.

Definition lseek (fd offset whence : Z) (s : fs) : res (Z * fs) := lseek_vfs fd offset whence s.

Definition read (fd : Z) (buf : option (list Z)) (size : Z) (s : fs)
    : res (Z * option (list Z) * fs) := read_vfs fd buf size s.

Definition write (fd : Z) (buf : option (list Z)) (size : Z) (s : fs) : res (Z * fs) :=
  write_vfs fd buf size s.

Definition dup (fd : Z) (s : fs) : res (Z * fs) := fcntl fd F_DUPFD 0 s.

Definition dup2 (fd fd2 : Z) (s : fs) : res (Z * fs) :=
  let* (_, s) := close fd2 s in fcntl fd F_DUPFD fd2 s.

(** ** stat.c: the structure that is filled in comes last *)
Definition fstat (fd : Z) (s : fs) : res (Z * option stat * fs) :=
  if (fd <? 0) || (OPEN_MAX <=? fd) then fail EBADF s (λ r s, (r, None, s))
  else
    let* f := get_fd fd s in
    let* node := get_node (vfs_node f) s in
    Ok (0, Some (status node), s).

Definition stat_path (path : option (list Z)) (s : fs) : res (Z * option stat * fs) :=
  match path with
  | None => fail ENOENT s (λ r s, (r, None, s))
  | Some _ =>
      let* (fd, s) := open path O_RDONLY 0 s in
      if fd <? 0 then fail EBADF s (λ r s, (r, None, s))
      else
        let* (ret, b, s) := fstat fd s in
        let* (_, s) := close fd s in
        Ok (ret, b, s)
  end.

(** ** initrd.c: [img] are the bytes from [loc] on *)
Definition le32 (img : list Z) (a : Z) : res Z :=
  let* b0 := deref (aget img a) in
  let* b1 := deref (aget img (a + 1)) in
  let* b2 := deref (aget img (a + 2)) in
  let* b3 := deref (aget img (a + 3)) in
  Ok (b0 + b1 * 2 ^ 8 + b2 * 2 ^ 16 + b3 * 2 ^ 24).

(** The characters of the string at [a]. *)
Fixpoint c_string (n : nat) (img : list Z) (a : Z) : res (list Z) :=
  match n with
  | O => Fuel
  | S n =>
      let* c := deref (aget img a) in
      if c =? 0 then Ok []
      else let* cs := c_string n img (a + 1) in Ok (c :: cs)
  end.

Definition INITRD_NODE : Z := 72.

Definition load_file (img : list Z) (i : Z) (s : fs) : res fs :=
  let node := 4 + i * INITRD_NODE in
  let* offset := le32 img (node + 64) in
  let* size := le32 img (node + 68) in
  let* nm := c_string (S (length img)) img node in
  let* (fd, s) := open_vfs (Some nm) (Z.lor O_RDWR O_CREAT) S_IFREG s in
  let* (_, s) := write_vfs fd (Some (drop (Z.to_nat offset) img)) size s in
  let* (_, s) := close_vfs fd s in
  Ok s.

Definition init_initrd (img : list Z) (s : fs) : res fs :=
  let* nfiles := le32 img 0 in
  for_range 0 nfiles (load_file img) s.
(** ** Errors *)
Definition not_open (fd : Z) (s : fs) : Prop :=
  fd < 0 ∨ OPEN_MAX ≤ fd ∨ ∃ f, get_fd fd s = Ok f ∧ vfs_node f = 0.

Lemma open_fd_none fd s : not_open fd s → open_fd fd s = Ok None.
Proof.
  intros H. unfold open_fd. destruct (Z.ltb_spec fd 0); [done|].
  destruct (Z.leb_spec OPEN_MAX fd); [done|]. destruct H as [?|[?|(f & -> & Hf)]]; [lia..|].
  cbn [rbind orb]. by rewrite Hf.
Qed.

Lemma open_fd_some fd s f :
  get_fd fd s = Ok f → vfs_node f ≠ 0 → len (files s) = OPEN_MAX → open_fd fd s = Ok (Some f).
Proof.
  intros Ef Hf Hl. pose proof (get_fd_range _ _ _ Ef). unfold open_fd. rewrite Ef.
  replace (fd <? 0) with false by lia. replace (OPEN_MAX <=? fd) with false by lia.
  cbn [rbind orb]. by replace (vfs_node f =? 0) with false by lia.
Qed.

(** Every call on a descriptor that is out of range or not open returns -1 with
    [EBADF] and changes nothing else; so do a read into and a write from [NULL], with
    [ENOMEM] and [ENOBUFS]. *)
Theorem bad_fd_rejected fd s (Hfd : not_open fd s) :
  (∀ buf size, read_vfs fd (Some buf) size s = Ok (-1, Some buf, set_errno EBADF s)) ∧
  (∀ size, read_vfs fd None size s = Ok (-1, None, set_errno ENOMEM s)) ∧
  (∀ buf size, write_vfs fd (Some buf) size s = Ok (-1, set_errno EBADF s)) ∧
  (∀ size, write_vfs fd None size s = Ok (-1, set_errno ENOBUFS s)) ∧
  close_vfs fd s = Ok (-1, set_errno EBADF s) ∧
  (∀ offset whence, lseek_vfs fd offset whence s = Ok (-1, set_errno EBADF s)) ∧
  (∀ cmd arg, do_fcntl fd cmd arg s = Ok (-1, set_errno EBADF s)).
Proof.
  pose proof (open_fd_none fd s Hfd) as E.
  unfold read_vfs, write_vfs, close_vfs, lseek_vfs, do_fcntl. rewrite E. done.
Qed.

(** ** lseek *)

(** On an open file that is no fifo, [lseek] moves the position to the offset, to
    the position or to the end plus the offset (as 32-bit numbers), returns it, and
    changes nothing else; another [whence] is [EINVAL] and a fifo [ESPIPE]. *)
Theorem lseek_moves fd s f node offset whence
    (Hl : len (files s) = OPEN_MAX) (Ef : get_fd fd s = Ok f)
    (En : vnodes s !! vfs_node f = Some node) (Hf : vfs_node f ≠ 0)
    (Hk : n_lseek node = None) :
  let to a := Ok (s32 a, at_fd fd (with_at (s32 a) f) s) in
  lseek_vfs fd offset whence s =
    if has (st_mode (status node)) S_IFIFO then Ok (-1, set_errno ESPIPE s)
    else if whence =? SEEK_SET then to offset
    else if whence =? SEEK_CUR then to (at_ f + offset)
    else if whence =? SEEK_END then to (st_size (status node) + offset)
    else Ok (-1, set_errno EINVAL s).
Proof.
  unfold lseek_vfs. rewrite (open_fd_some fd s f) by done. cbn [rbind].
  unfold get_node. rewrite En. cbn [deref rbind]. rewrite Hk.
  pose proof (get_fd_range _ _ _ Ef).
  destruct (has _ _); [done|]. rewrite !put_fd_ok by done. done.
Qed.

(** ** fcntl *)

(** [fcntl] on an open descriptor: the flags set by [F_SETFD] and [F_SETFL] are
    what [F_GETFD] and [F_GETFL] return, and the other flags stay; [F_DUPFD] takes
    the lowest free descriptor from its argument on and makes it the same file at the
    same position without [FD_CLOEXEC], or fails with [EMFILE]; another command is
    [EINVAL]. *)
Theorem fcntl_flags fd s f arg
    (Hl : len (files s) = OPEN_MAX) (Ef : get_fd fd s = Ok f) (Hf : vfs_node f ≠ 0) :
  (∃ s1, do_fcntl fd F_SETFD arg s = Ok (0, s1) ∧
     do_fcntl fd F_GETFD 0 s1 = Ok (Z.land arg FD_MASK, s1) ∧
     do_fcntl fd F_GETFL 0 s1 = Ok (Z.land (oflag f) O_MASK, s1)) ∧
  (∃ s1, do_fcntl fd F_SETFL arg s = Ok (0, s1) ∧
     do_fcntl fd F_GETFD 0 s1 = Ok (Z.land (oflag f) FD_MASK, s1) ∧
     do_fcntl fd F_GETFL 0 s1
     = Ok (Z.lor (Z.land (oflag f) (Z.lor O_ACCMODE O_CF_MASK)) (Z.land arg O_SF_MASK), s1)) ∧
  (0 ≤ s32 arg ≤ OPEN_MAX → ∃ r, lowest_free (files s) (s32 arg) r ∧
     do_fcntl fd F_DUPFD arg s =
       Ok (r, if r =? -1 then set_errno EMFILE s
              else at_fd r (Fildes (vfs_node f) (at_ f) (clr (oflag f) FD_CLOEXEC)) s)) ∧
  (∀ cmd, cmd ∉ [F_DUPFD; F_GETFD; F_SETFD; F_GETFL; F_SETFL] →
     do_fcntl fd cmd arg s = Ok (-1, set_errno EINVAL s)).
Proof.
  pose proof (get_fd_range _ _ _ Ef) as Hr.
  pose proof (open_fd_some fd s f Ef Hf Hl) as Eo.
  assert (Hset : ∀ fl, open_fd fd (at_fd fd (with_flags fl f) s) = Ok (Some (with_flags fl f))).
  { intros fl. apply open_fd_some; [by apply get_at_fd|done|].
    unfold at_fd. simpl. by rewrite length_insert. }
  unfold do_fcntl. rewrite Eo. cbn [rbind]. rewrite !put_fd_ok by done. split_and!.
  - eexists. split; [reflexivity|]. rewrite Hset. cbn [rbind]. simpl (_ =? _). cbv iota.
    cbn [oflag with_flags]. by rewrite land_set_same, land_set_other.
  - eexists. split; [reflexivity|]. rewrite Hset. cbn [rbind]. simpl (_ =? _). cbv iota.
    cbn [oflag with_flags]. by rewrite land_set_other, land_set_within.
  - intros Harg. destruct (get_free_fd_spec (s32 arg) s Hl Harg) as (r & Eg & Hlow).
    exists r. split; [done|]. simpl (_ =? _). cbv iota.
    replace (s32 arg <? 0) with false by lia. rewrite Eg. cbn [rbind].
    destruct Hlow as [[-> _]|(Hr2 & _)]; [done|]. replace (r <? 0) with false by lia.
    replace (r =? -1) with false by lia. rewrite put_fd_ok by (unfold OPEN_MAX in *; lia). done.
  - intros cmd Hcmd. rewrite !not_elem_of_cons in Hcmd. destruct Hcmd as (H1&H2&H3&H4&H5&_).
    rewrite !(proj2 (Z.eqb_neq cmd _)) by done. done.
Qed.

(** ** open *)

(** The name in the buffer of a node. *)
Definition named (n : vfs_node_t) (nm : list Z) : Prop :=
  chars nm ∧ len nm < 2 ^ 31 ∧ ∃ rest, name n = nm ++ 0 :: rest.

(** [p] is a file (not a pipe) with the name [nm]. *)
Definition is_file (s : fs) (nm : list Z) (p : Z) : Prop :=
  ∃ n, vnodes s !! p = Some n ∧ st_dev (status n) ≠ DEVID_PIPE ∧ named n nm.

Definition names_ok (s : fs) (ps : list Z) : Prop :=
  ∀ p n, p ∈ ps → vnodes s !! p = Some n → st_dev (status n) ≠ DEVID_PIPE →
    ∃ nm, named n nm.

Lemma named_inj n a b : named n a → named n b → a = b.
Proof.
  intros (Ha & _ & r & E) (Hb & _ & r' & E'). rewrite E in E'. clear E. revert b Hb E'.
  induction Ha as [|x a Hx Ha IH]; intros [|y b] Hb E'; simpl in E'.
  - done.
  - inversion Hb; subst. injection E' as <- _. lia.
  - injection E' as -> _. lia.
  - injection E' as -> E'. inversion Hb; subst. f_equal. by apply IH.
Qed.

Lemma find_file_loop fuel s nm p ps :
  vlist (vnodes s) p ps → names_ok s ps → chars nm → len nm < 2 ^ 31 →
  (length ps < fuel)%nat →
  ∃ r, find_file fuel nm p s = Ok r ∧
    ((r = 0 ∧ ∀ q, q ∈ ps → ¬ is_file s nm q) ∨
     (r ≠ 0 ∧ ∃ pre post, ps = pre ++ r :: post ∧ is_file s nm r ∧
        ∀ q, q ∈ pre → ¬ is_file s nm q)).
Proof.
  intros H Hn Hnm Hl. revert p ps H Hn. induction fuel as [|fuel IH]; intros p ps H Hn Hf; [lia|].
  cbn [find_file]. destruct ps as [|q ps].
  { simpl in H. subst. exists 0. split; [done|left]. split; [done|]. intros q Hq. set_solver. }
  destruct H as (-> & Hp & n & E & H). replace (p =? 0) with false by lia.
  unfold get_node. rewrite E. cbn [deref rbind]. simpl in Hf.
  assert (Hnext : ¬ is_file s nm p →
    ∃ r, find_file fuel nm (n_next n) s = Ok r ∧
      ((r = 0 ∧ ∀ q, q ∈ p :: ps → ¬ is_file s nm q) ∨
       (r ≠ 0 ∧ ∃ pre post, p :: ps = pre ++ r :: post ∧ is_file s nm r ∧
          ∀ q, q ∈ pre → ¬ is_file s nm q))).
  { intros Hno. destruct (IH (n_next n) ps H) as (r & Er & Hr); [|lia|].
    { intros q m Hq. apply Hn. by constructor. }
    exists r. split; [done|]. destruct Hr as [[-> Hr]|(Hr0 & pre & post & -> & Hr & Hpre)].
    - left. split; [done|]. intros q [->|Hq]%elem_of_cons; [done|by apply Hr].
    - right. split; [done|]. exists (p :: pre), post. split_and!; [done|done|].
      intros q [->|Hq]%elem_of_cons; [done|by apply Hpre]. }
  destruct (Z.eqb_spec (st_dev (status n)) DEVID_PIPE) as [Hdev|Hdev].
  { apply Hnext. intros (m & Em & Hm & _). congruence. }
  destruct (Hn p n) as (nm' & Hn'); [by constructor|done|done|].
  pose proof Hn' as (Hc' & Hl' & rest & Ename). rewrite Ename, name_is_spec by done.
  cbn [rbind]. case_bool_decide as Heq.
  - subst nm'. exists p. split; [done|right]. split; [done|]. exists [], ps.
    split_and!; [done|by exists n|]. intros q Hq. set_solver.
  - apply Hnext. intros (m & Em & _ & Hm). rewrite E in Em. simplify_eq.
    by destruct Heq; apply (named_inj m).
Qed.

Lemma find_file_spec s nm ps :
  list_ok s ps → names_ok s ps → chars nm → len nm < 2 ^ 31 →
  ∃ r, find_file (node_fuel s) nm (vfs_root s) s = Ok r ∧
    ((r = 0 ∧ ∀ q, q ∈ ps → ¬ is_file s nm q) ∨
     (r ≠ 0 ∧ ∃ pre post, ps = pre ++ r :: post ∧ is_file s nm r ∧
        ∀ q, q ∈ pre → ¬ is_file s nm q)).
Proof.
  intros [Hl Hnd] Hn Hc Hlen. apply find_file_loop; try done. by eapply vlist_fuel.
Qed.

(** C17: [open] without [O_CREAT], on a well-formed list of files: a null pointer for the name is
    [ENOENT].  A name takes the first file of that name; with none it fails with [ENOENT], for a
    directory that is to be written with [EISDIR].  A file without an open function gets
    the lowest free descriptor from 3 on, or it fails with [EMFILE]; a file with one (a fifo,
    a standard stream) gets the descriptor that the function returns, and when that fails
    the error is [EMFILE], whatever error the function has set.  The descriptor is at
    position 0 of the file with these flags, and nothing else changes but by the function. *)
Theorem open_finds s ps nm flags mode
    (Hlist : list_ok s ps) (Hnames : names_ok s ps) (Hfiles : len (files s) = OPEN_MAX)
    (Hc : chars nm) (Hl : len nm < 2 ^ 31) (Hno : has flags O_CREAT = false) :
  open_vfs None flags mode s = Ok (-1, set_errno ENOENT s) ∧
  (((∀ p, p ∈ ps → ¬ is_file s nm p) ∧
      open_vfs (Some nm) flags mode s = Ok (-1, set_errno ENOENT s)) ∨
   (∃ pre p post n, ps = pre ++ p :: post ∧ (∀ q, q ∈ pre → ¬ is_file s nm q) ∧
      is_file s nm p ∧ vnodes s !! p = Some n ∧
      if has (st_mode (status n)) S_IFDIR && has flags O_WRONLY
      then open_vfs (Some nm) flags mode s = Ok (-1, set_errno EISDIR s)
      else match n_open n with
      | None => ∃ fd, lowest_free (files s) 3 fd ∧
          open_vfs (Some nm) flags mode s
          = Ok (fd, if fd =? -1 then set_errno EMFILE s else at_fd fd (Fildes p 0 flags) s)
      | Some k => ∀ fd s', node_open k p flags s = Ok (fd, s') → fd < len (files s') →
          open_vfs (Some nm) flags mode s
          = Ok (if fd <? 0 then (-1, set_errno EMFILE s') else (fd, at_fd fd (Fildes p 0 flags) s'))
      end)).
Proof.
  split; [done|]. unfold open_vfs. destruct (find_file_spec s nm ps) as (r & -> & Hr); try done. cbn [rbind].
  rewrite Hno. destruct Hr as [[-> Hr]|(Hr0 & pre & post & Eps & Hr & Hpre)]; [by left|right].
  replace (r =? 0) with false by lia. pose proof Hr as (n & En & _ & _).
  exists pre, r, post, n. split_and!; try done.
  replace (Z.land flags (Z.lor O_CREAT O_EXCL) =? Z.lor O_CREAT O_EXCL) with false.
  2:{ symmetry. apply Z.eqb_neq. intros Hb. apply (f_equal (λ z, Z.testbit z 4)) in Hb.
      rewrite Z.land_spec, andb_true_r in Hb.
      change O_CREAT with (2 ^ 4) in Hno. rewrite has_bit in Hno by lia. by rewrite Hno in Hb. }
  unfold get_node. rewrite En. cbn [deref rbind].
  destruct (has (st_mode (status n)) S_IFDIR && has flags O_WRONLY); [done|].
  destruct (n_open n) as [k|].
  { intros fd s' -> Hfd. cbn [rbind]. rewrite Z.leb_antisym. destruct (Z.ltb_spec fd 0); cbn [negb]; [done|].
    by rewrite put_fd_ok by lia. }
  destruct (get_free_fd_spec 3 s Hfiles) as (fd & -> & Hlow);
    [unfold OPEN_MAX; lia|]. cbn [rbind]. exists fd. split; [done|].
  destruct Hlow as [[-> _]|(Hfd & _)]; [done|].
  replace (0 <=? fd) with true by lia. replace (fd =? -1) with false by lia.
  rewrite put_fd_ok by lia. done.
Qed.
End vfs.

(** ** Examples *)
Lemma bad_fd_rejected_witness :
  let s := demo_file [1; 2; 3] 0 in
  not_open 5 s ∧ close_vfs 5 s = Ok (-1, set_errno EBADF s).
Proof.
  assert (H : not_open 5 (demo_file [1; 2; 3] 0)) by (right; right; by exists (Fildes 0 0 0)).
  split; [exact H|apply (bad_fd_rejected 5 _ H)].
Defined.

Lemma lseek_moves_witness :
  let s := demo_file [1; 2; 3] 1 in
  lseek_vfs 3 (-2) SEEK_END s = Ok (1, at_fd 3 (Fildes 0x400010 1 O_RDWR) s).
Proof.
  exact (lseek_moves 3 (demo_file [1; 2; 3] 1) (Fildes 0x400010 1 O_RDWR)
    (demo_node DEVID_RAMFS S_IFREG (Some RAMFS) 3) (-2) SEEK_END
    eq_refl eq_refl eq_refl ltac:(discriminate) eq_refl).
Defined.

Lemma fcntl_flags_witness :
  let s := demo_file [1; 2; 3] 1 in
  ∃ s1, do_fcntl 3 F_SETFD FD_CLOEXEC s = Ok (0, s1) ∧
    do_fcntl 3 F_GETFD 0 s1 = Ok (Z.land FD_CLOEXEC FD_MASK, s1) ∧
    do_fcntl 3 F_GETFL 0 s1 = Ok (Z.land O_RDWR O_MASK, s1).
Proof.
  apply (fcntl_flags 3 (demo_file [1; 2; 3] 1) (Fildes 0x400010 1 O_RDWR) FD_CLOEXEC
    eq_refl eq_refl ltac:(discriminate)).
Defined.

Lemma demo_lookup c pos p n : vnodes (demo_file c pos) !! p = Some n →
  p = 0x400010 ∧ n = demo_node DEVID_RAMFS S_IFREG (Some RAMFS) (len c).
Proof.
  intros E. destruct (proj1 (lookup_singleton_Some (M := gmap Z) _ _ _ _) E) as [<- <-]. done.
Qed.

Lemma demo_list_ok c pos : list_ok (demo_file c pos) [0x400010].
Proof.
  split; [|apply list.NoDup_singleton]. simpl. split_and!; [done..|]. eexists.
  split; [apply lookup_singleton_eq|done].
Qed.

Lemma demo_named c pos : is_file (demo_file c pos) [102] 0x400010.
Proof.
  eexists. split; [apply lookup_singleton_eq|]. split; [done|]. split_and!; [|done|by eexists].
  by repeat constructor.
Qed.

Lemma demo_names_ok c pos : names_ok (demo_file c pos) [0x400010].
Proof.
  intros p n ->%list_elem_of_singleton En _. exists [102].
  destruct (demo_named c pos) as (n' & En' & _ & H). by simplify_eq.
Qed.

Lemma open_finds_witness :
  let s := demo_file [1; 2; 3] 1 in
  chars [102] ∧ ∃ fd, lowest_free (files s) 3 fd ∧
    open_vfs (Some [102]) O_RDONLY 0 s
    = Ok (fd, if fd =? -1 then set_errno EMFILE s else at_fd fd (Fildes 0x400010 0 O_RDONLY) s).
Proof.
  assert (Hc : chars [102]) by (by repeat constructor). split; [exact Hc|].
  destruct (open_finds (demo_file [1; 2; 3] 1) [0x400010] [102] O_RDONLY 0
    (demo_list_ok _ _) (demo_names_ok _ _) eq_refl Hc eq_refl eq_refl)
    as [_ [(Hno & _)|(pre & p & post & n & Eps & _ & Hp & En & H)]].
  - destruct (Hno 0x400010); [by constructor|apply demo_named].
  - apply demo_lookup in En as [-> ->]. exact H.
Defined.

(** A fifo without a reader, opened for writing without blocking: the error is not [ENXIO], and
    the writer is counted. *)
Example fifo_error :
  (let n := VNode (102 :: replicate 63 0) (Stat 0 0 S_IFIFO 0 0 0 0 0 0 0) None None (Some FIFOFS) None None None 0 in
   let* (fd, s) := open_vfs (Some [102]) (Z.lor O_WRONLY O_NONBLOCK) 0 (demo_fs n [] (Hdr 0 0 0 0 0) 0 0) in
   Ok (fd, errno s, writers <$> hdrs s !! 0x4001d0)) = Ok (-1, errno_num EMFILE, Some 1).
Proof. vm_compute. reflexivity. Qed.

(** The bytes of a new node are what was in its memory, and [creat] stores a name
    without a terminator: the file that was made as [a] is not found as [a]. *)
Example creat_unnamed :
  (let s := demo_file [] 0 in
   let* (fd, s) := creat_vfs [97] S_IFREG s in
   let* (fd2, s) := open_vfs (Some [97]) O_RDONLY 0 s in
   Ok (fd, fd2, errno s)) = Ok (4, -1, errno_num ENOENT).
Proof. vm_compute. reflexivity. Qed.
