(* ===== verification/Files.v ===== *)
(** * Files: the ramfs behind the calls

    The state of the file layer as a list of regular files, each with its name and
    content: what [creat], [open], [write] and the loading of the initial ram disk do
    to that list. *)

From S2P Require Import Prelude Malloc Headers CString Vga Fs Names Blocks Nodes Demo Ramfs Stream Stdio Vfs.

Section files.
Context {MA : Malloc} {SY : Sys}.

(** ** A directory of regular files *)
Record entry := Entry {
  e_node : Z; e_ino : Z; e_name : list Z; e_blocks : list (Z * list Z); e_data : list Z
}.

Definition regular (n : vfs_node_t) : Prop :=
  st_dev (status n) = DEVID_RAMFS ∧ has (st_mode (status n)) S_IFDIR = false ∧
  has (st_mode (status n)) S_IFIFO = false ∧ n_read n = Some RAMFS ∧
  n_write n = Some RAMFS ∧ n_open n = None ∧ n_close n = None ∧ n_lseek n = None.

Definition is_entry (s : fs) (e : entry) : Prop :=
  ∃ n p, vnodes s !! e_node e = Some n ∧ regular n ∧ named n (e_name e) ∧
    st_ino (status n) = e_ino e ∧ st_size (status n) = len (e_data e) ∧
    aget (ramfs_nodes s) (e_ino e) = Some p ∧
    file_on (blocks s) p (e_blocks e) (e_data e).

(** The blocks of all the files. *)
Definition all_blocks (es : list entry) : list Z := es ≫= λ e, (e_blocks e).*1.

(** [ps] are the nodes in the list of files, [es] the regular files among them. *)
Definition dir_ok (s : fs) (L : gset Z) (ps : list Z) (es : list entry) : Prop :=
  mem_ok s L ∧ list_ok s ps ∧ names_ok s ps ∧ len (files s) = OPEN_MAX ∧
  len (ramfs_nodes s) = 1024 ∧ 0 ≤ ramfs_inodes s ∧
  Forall (is_entry s) es ∧ Forall (λ e, e_node e ∈ ps ∧ 0 ≤ e_ino e < ramfs_inodes s) es ∧
  NoDup (e_node <$> es) ∧ NoDup (e_ino <$> es) ∧ NoDup (all_blocks es).

Definition fresh_name (s : fs) (ps : list Z) (nm : list Z) : Prop :=
  ∀ q, q ∈ ps → ¬ is_file s nm q.

(** An entry depends on its node (up to [next]), its place in the table and its
    blocks. *)
Lemma is_entry_frame s s' e :
  is_entry s e →
  (∀ n, vnodes s !! e_node e = Some n → ∃ q, vnodes s' !! e_node e = Some (with_next q n)) →
  aget (ramfs_nodes s') (e_ino e) = aget (ramfs_nodes s) (e_ino e) →
  (∀ q, q ∈ (e_blocks e).*1 → blocks s' !! q = blocks s !! q) →
  is_entry s' e.
Proof.
  intros (n & p & En & Hr & Hnm & Hi & Hsz & Ep & Hch & Hnd & Hpre) Hn Hnodes Hb.
  destruct (Hn n En) as [q Eq]. exists (with_next q n), p.
  split_and!; try done; [by rewrite Hnodes|]. split; [by eapply chain_same|done].
Qed.

Lemma entry_blocks_dom s e q : is_entry s e → q ∈ (e_blocks e).*1 → q ∈ dom (blocks s).
Proof.
  intros (n & p & _ & _ & _ & _ & _ & _ & Hch & _) Hq. by eapply chain_dom.
Qed.

(** The node that [creat] fills in. *)
Definition new_node (nm : list Z) (mode ino : Z) : vfs_node_t :=
  VNode (nm ++ 0 :: replicate (63 - length nm) 0)
    (Stat DEVID_RAMFS ino mode 0 0 DEVID_RAMFS 0 (st_atime (status junk_node))
       (st_mtime (status junk_node)) (st_ctime (status junk_node)))
    (Some RAMFS) (Some RAMFS) None (Some RAMFS) None None 0.

Lemma names_ok_same s s' ps :
  names_ok s ps → same_nodes (vnodes s) (vnodes s') →
  (∀ p, p ∈ ps → p ∈ dom (vnodes s)) → names_ok s' ps.
Proof.
  intros Hn Hs Hd p n Hp En Hdev.
  destruct (proj1 (elem_of_dom _ _) (Hd p Hp)) as [m Em].
  destruct (Hs p m Em) as [m' Em']. simplify_eq. exact (Hn p m Hp Em Hdev).
Qed.

Lemma is_file_same s s' nm p : p ∈ dom (vnodes s) → same_nodes (vnodes s) (vnodes s') →
  is_file s' nm p → is_file s nm p.
Proof.
  intros Hp Hs (n & En & H). destruct (proj1 (elem_of_dom _ _) Hp) as [m Em].
  destruct (Hs p m Em) as [m' Em']. simplify_eq. by exists m.
Qed.

(** [append_node] keeps the directory. *)
Lemma append_node_dir s L ps es : dir_ok s L ps es →
  ∃ r backup v root h e, let s1 := with_vfs v root h e s in
    append_node s = Ok (r, backup, s1) ∧ same_nodes (vnodes s) v ∧
    ((r = 0 ∧ e = errno_num ENOMEM ∧ dir_ok s1 L ps es) ∨
     (0 < r ∧ r ∉ L ∧ r ∉ ps ∧ e = errno s ∧ v !! r = Some junk_node ∧
      mem_ok s1 ({[r]} ∪ L) ∧ (∀ q, q ∈ ps → q ∈ dom (vnodes s)) ∧
      (∀ n, n_next n = 0 → vlist (<[r := n]> v) root (ps ++ [r])))).
Proof.
  intros (Hm & Hl & Hn & Hf & Hrn & Hri & He & Hin & Hnd1 & Hnd2 & Hnd3).
  destruct (append_node_spec s L ps Hm Hl) as (r & bk & s1 & Ha & v & root & h & e & -> & Hs & _ & H).
  exists r, bk, v, root, h, e. split; [done|]. split; [done|].
  assert (Hd : ∀ q, q ∈ ps → q ∈ dom (vnodes s)) by (intros q; by apply (vlist_dom _ _ _ _ (proj1 Hl))).
  destruct H as [(-> & -> & Hm' & Hl')|(Hr & Hrl & -> & Hm' & Hv & Hps & _ & Hvl)].
  - left. split; [done|]. split; [done|]. split_and!; try done; [by eapply names_ok_same|].
    eapply Forall_impl; [|exact He]. intros x Hx. apply (is_entry_frame s); try done.
    intros n En. destruct (Hs _ n En) as [m Em]. by exists m.
  - right. by split_and!.
Qed.

(** A node [r] at the end of the list, and perhaps an entry for it. *)
Lemma dir_snoc s s' L L' ps es r n nm v q new :
  dir_ok s L ps es → same_nodes (vnodes s) v → r ∉ ps →
  vlist (vnodes s') (vfs_root s') (ps ++ [r]) → vnodes s' = <[r := n]> v → named n nm →
  mem_ok s' L' → len (files s') = OPEN_MAX → ramfs_inodes s' = ramfs_inodes s + 1 →
  ramfs_nodes s' = <[Z.to_nat (ramfs_inodes s) := q]> (ramfs_nodes s) →
  (∀ b, b ∈ L → blocks s' !! b = blocks s !! b) →
  (new = [] ∨ ∃ e, new = [e] ∧ is_entry s' e ∧ e_node e = r ∧ e_ino e = ramfs_inodes s ∧
     (∀ b, b ∈ (e_blocks e).*1 → b ∉ L) ∧ NoDup (e_blocks e).*1) →
  dir_ok s' L' (ps ++ [r]) (es ++ new).
Proof.
  intros (Hm & Hl & Hn & Hf & Hrn & Hri & He & Hin & Hnd1 & Hnd2 & Hnd3) Hs Hr Hvl Hv Hnm Hm' Hf'
    Hri' Hrn' Hb Hnew.
  assert (Hd : ∀ q, q ∈ ps → q ∈ dom (vnodes s)) by (intros a; by apply (vlist_dom _ _ _ _ (proj1 Hl))).
  assert (Hold : ∀ e, e ∈ es → is_entry s e ∧ e_node e ∈ ps ∧ 0 ≤ e_ino e < ramfs_inodes s).
  { intros e Hee. rewrite list.Forall_forall in He, Hin. split; [by apply He|by apply Hin]. }
  assert (Hold' : Forall (is_entry s') es).
  { apply list.Forall_forall. intros e Hee. destruct (Hold e) as (H1 & H2 & H3); [done|].
    apply (is_entry_frame s); [done|..].
    - intros m Em. destruct (Hs _ m Em) as [k Ek]. exists k. rewrite Hv.
      rewrite lookup_insert_ne by (intros ->; done). done.
    - rewrite Hrn'. unfold aget. destruct (_ <? _); [done|]. apply list_lookup_insert_ne. lia.
    - intros b Hbb. apply Hb. destruct Hm as (_ & _ & Hdb & _). apply Hdb.
      by eapply entry_blocks_dom. }
  unfold dir_ok. rewrite Hrn', length_insert, Hri'. split; [done|]. split.
  { split; [done|]. apply list.NoDup_app. split_and!; [apply Hl| |apply list.NoDup_singleton].
    intros a Ha ->%list_elem_of_singleton. done. }
  split.
  { intros p m [Hp| ->%list_elem_of_singleton]%elem_of_app Em Hdev; rewrite Hv in Em.
    - rewrite lookup_insert_ne in Em by congruence.
      destruct (proj1 (elem_of_dom _ _) (Hd p Hp)) as [m0 Em0].
      destruct (Hs p m0 Em0) as [k Ek]. simplify_eq. exact (Hn p m0 Hp Em0 Hdev).
    - rewrite lookup_insert_eq in Em. simplify_eq. by exists nm. }
  assert (Hin' : Forall (λ e, e_node e ∈ ps ++ [r] ∧ 0 ≤ e_ino e < ramfs_inodes s + 1) es).
  { apply list.Forall_forall. intros e Hee. destruct (Hold e) as (_ & H2 & H3); [done|].
    split; [set_solver|lia]. }
  split_and!; [done|done|lia|..]; destruct Hnew as [->|(e & -> & H1 & H2 & H3 & H4 & H5)];
    rewrite ?app_nil_r; try done.
  - apply Forall_app_2; [done|by constructor].
  - apply Forall_app_2; [done|]. constructor; [|done]. cbv beta. rewrite H2, H3. split; [set_solver|lia].
  - rewrite fmap_app. apply list.NoDup_app. split_and!; [done| |apply list.NoDup_singleton].
    intros a (x & -> & Hx)%list_elem_of_fmap. simpl. rewrite H2, list_elem_of_singleton.
    intros <-. destruct (Hold x) as (_ & ? & _); done.
  - rewrite fmap_app. apply list.NoDup_app. split_and!; [done| |apply list.NoDup_singleton].
    intros a (x & -> & Hx)%list_elem_of_fmap. simpl. rewrite H3, list_elem_of_singleton.
    intros Heq. destruct (Hold x) as (_ & _ & ?); [done|lia].
  - unfold all_blocks. rewrite bind_app. apply list.NoDup_app. split_and!; [done| |].
    + intros b (x & Hbx & Hx)%list_elem_of_bind Hbe. simpl in Hbe. rewrite app_nil_r in Hbe.
      apply (H4 b Hbe). destruct Hm as (_ & _ & Hdb & _). apply Hdb.
      destruct (Hold x) as (? & _); [done|]. by eapply entry_blocks_dom.
    + simpl. by rewrite app_nil_r.
Qed.

(** ** creat *)
Definition new_entry (p q : Z) (s : fs) (nm : list Z) : entry :=
  Entry p (ramfs_inodes s) nm [(q, repeat 0 256)] [].

(** After [creat]: the node [p] was made, or there was no memory for it; it has a
    first block [q], or there was no memory for that; [r] is the descriptor. *)
Definition creat_post (s : fs) (L : gset Z) (ps : list Z) (es : list entry) (nm : list Z)
    (r : Z) (s' : fs) (L' : gset Z) : Prop :=
  L ⊆ L' ∧ ramfs_inodes s' ≤ ramfs_inodes s + 1 ∧
  (∀ x nm', x ∈ ps → is_file s' nm' x → is_file s nm' x) ∧
  ((r = -1 ∧ errno s' = ENOMEM ∧ dir_ok s' L' ps es) ∨
   (∃ p q, p ∉ ps ∧ (∀ nm', is_file s' nm' p → nm' = nm) ∧
      ((r = -1 ∧ errno s' = ENOSPC ∧ dir_ok s' L' (ps ++ [p]) es) ∨
       (dir_ok s' L' (ps ++ [p]) (es ++ [new_entry p q s nm]) ∧ lowest_free (files s) 3 r ∧
        if r =? -1 then errno s' = EMFILE
        else errno s' = errno s ∧
             files s' = <[Z.to_nat r := Fildes p 0 O_WRONLY]> (files s))))).

(** A new node whose name is [nm]. *)
Lemma new_node_named nm mode ino : chars nm → (length nm ≤ 63)%nat →
  named (new_node nm mode ino) nm.
Proof. intros H Hl. split_and!; [done|lia|by eexists]. Qed.

Definition file_mode (mode : Z) : Prop :=
  has mode S_IFREG = true ∧ has mode S_IFDIR = false ∧ has mode S_IFIFO = false.

(** The node as [creat] fills it in, and the state in which it calls [creat_ramfs]. *)
Definition filled (nm : list Z) (m : Z) : vfs_node_t :=
  with_size 0 (with_name (nm ++ 0 :: replicate (63 - length nm) 0) (creat_status m junk_node)).

Definition numbered (nm : list Z) (m ino : Z) : vfs_node_t :=
  with_creat (Some RAMFS) (device_status DEVID_RAMFS ino (filled nm m)).

Definition made (s : fs) (v : gmap Z vfs_node_t) (root : Z) (h : mstate) (p : Z) (nm : list Z)
    (m : Z) : fs :=
  put_node p (numbered nm m (ramfs_inodes s)) (set_ramfs (ramfs_nodes s) (ramfs_inodes s + 1)
    (put_node p (filled nm m) (with_vfs v root h (errno s) s))).

(** The state before the descriptor is taken. *)
Lemma created_dir s L ps es v root h0 p nm m q h e :
  dir_ok s L ps es → same_nodes (vnodes s) v → p ∉ ps → p ∉ L →
  v !! p = Some junk_node →
  (∀ n, n_next n = 0 → vlist (<[p := n]> v) root (ps ++ [p])) →
  chars nm → (length nm ≤ 63)%nat → ramfs_inodes s < 1024 →
  has m S_IFDIR = false → has m S_IFIFO = false →
  let s' := created p (numbered nm m (ramfs_inodes s)) q h e (made s v root h0 p nm m) in
  (q = 0 → mem_ok s' ({[p]} ∪ L) → dir_ok s' ({[p]} ∪ L) (ps ++ [p]) es) ∧
  (0 < q → q ∉ {[p]} ∪ L → mem_ok s' ({[q]} ∪ ({[p]} ∪ L)) →
   dir_ok s' ({[q]} ∪ ({[p]} ∪ L)) (ps ++ [p]) (es ++ [new_entry p q s nm])).
Proof.
  intros Hd Hs Hp HpL Hv Hvl Hc Hl Hino Hm1 Hm2 s'.
  pose proof Hd as (_ & _ & _ & Hf & Hrn & Hri & _).
  assert (Hvn : vnodes s' = <[p := new_node nm m (ramfs_inodes s)]> v)
    by (unfold s', made, created; simpl; by rewrite !insert_insert_eq).
  assert (Hvl' : vlist (vnodes s') (vfs_root s') (ps ++ [p])) by (rewrite Hvn; by apply Hvl).
  pose proof (new_node_named nm m (ramfs_inodes s) Hc Hl) as Hnm.
  split.
  - intros Hq Hmem. rewrite <- (app_nil_r es).
    eapply (dir_snoc s s' L _ ps es p _ nm v q); try done; [|by left].
    intros b Hb. unfold s', created. by rewrite Hq.
  - intros Hq HqL Hmem.
    assert (Hbl : blocks s' = <[q := Data (repeat 0 256) (d_next junk_data)]> (blocks s))
      by (unfold s', created; replace (q =? 0) with false by lia; done).
    eapply (dir_snoc s s' L _ ps es p _ nm v q); try done.
    + intros b Hb. rewrite Hbl, lookup_insert_ne by set_solver. done.
    + right. eexists. split; [done|]. split; [|split_and!; [done|done| |]].
      * exists (new_node nm m (ramfs_inodes s)), q. rewrite Hvn, lookup_insert_eq.
        split_and!; [done|done|done|done|done| |].
        -- unfold s', created. simpl. rewrite aget_insert, Z.eqb_refl by lia. done.
        -- eapply file_on_one; [rewrite Hbl; apply lookup_insert_eq|done|apply prefix_nil].
      * simpl. intros b ->%list_elem_of_singleton. set_solver.
      * simpl. apply list.NoDup_singleton.
Qed.

Lemma dir_ok_errno s L ps es e : dir_ok s L ps es → dir_ok (set_errno e s) L ps es.
Proof. done. Qed.

Lemma dir_ok_fd s L ps es fd f : dir_ok s L ps es → dir_ok (at_fd fd f s) L ps es.
Proof.
  intros (Hm & Hl & Hn & Hf & H). split_and!; try done; try apply H.
  unfold at_fd. simpl. by rewrite length_insert.
Qed.

(** The mode that [creat] stores. *)
Lemma perm_mode mode k (b : bool) : has (Z.lor (Z.lor S_IRWXU S_IRWXG) S_IRWXO) k = false →
  has (if b then Z.lor mode (Z.lor (Z.lor S_IRWXU S_IRWXG) S_IRWXO) else mode) k = has mode k.
Proof. intros Hk. destruct b; [|done]. by rewrite has_lor, Hk, orb_false_r. Qed.

Lemma creat_dir s L ps es nm mode :
  dir_ok s L ps es → chars nm → nm ≠ [] → (length nm ≤ 63)%nat →
  name junk_node = replicate 64 0 → ramfs_inodes s < 1024 → file_mode mode →
  ∃ r s' L', creat_vfs nm mode s = Ok (r, s') ∧ creat_post s L ps es nm r s' L'.
Proof.
  intros Hd Hc Hne Hl Hj Hino (Hreg & Hdir & Hfifo).
  destruct (append_node_dir s L ps es Hd) as (p & bk & v & root & h & e & Ha & Hs & H).
  cbv zeta in Ha, H. unfold creat_vfs. rewrite Ha. cbn [rbind].
  assert (Hdom : ∀ a, a ∈ ps → a ∈ dom (vnodes s)).
  { intros a. destruct Hd as (_ & Hli & _). by apply (vlist_dom _ _ _ _ (proj1 Hli)). }
  destruct H as [(-> & -> & Hd')|(Hp & HpL & Hpps & -> & Hv & Hm' & _ & Hvl)].
  { change (0 =? 0) with true. cbv iota. eexists _, _, L. split; [done|].
    split; [done|]. split; [simpl; lia|]. split; [|by left].
    intros x nm' Hx. by eapply is_file_same; [apply Hdom|]. }
  replace (p =? 0) with false by lia. set (m := if Z.land mode S_IPERM =? 0 then _ else _).
  unfold get_node at 1. simpl vnodes. rewrite Hv. cbn [deref rbind].
  change (name (creat_status m junk_node)) with (name junk_node).
  rewrite Hj, name_copy_zeros by done. cbn [rbind].
  assert (Hm1 : ∀ k, has (Z.lor (Z.lor S_IRWXU S_IRWXG) S_IRWXO) k = false → has m k = has mode k)
    by (intros k; apply perm_mode).
  rewrite Hm1, Hreg by done. cbn [orb].
  change (ramfs_nodes (put_node _ _ _)) with (ramfs_nodes s).
  change (ramfs_inodes (put_node _ _ _)) with (ramfs_inodes s).
  pose proof Hd as (_ & _ & _ & Hf & Hrn & Hri & _).
  rewrite (uint_small 32) by lia. fold (filled nm m). fold (numbered nm m (ramfs_inodes s)).
  change (set_vnodes _ _) with (put_node p (filled nm m) (with_vfs v root h (errno s) s)).
  fold (made s v root h p nm m). set (s2 := made s v root h p nm m). cbn [node_creat].
  assert (Hm2 : mem_ok s2 ({[p]} ∪ L)).
  { apply (put_node_ok _ _ _ (filled nm m)); [|apply lookup_insert_eq].
    apply (put_node_ok (with_vfs v root h (errno s) s) _ _ junk_node); [exact Hm'|exact Hv]. }
  destruct (creat_ramfs_spec s2 _ p (numbered nm m (ramfs_inodes s)) Hm2) as (q & h3 & Hcr);
    [apply lookup_insert_eq|simpl; lia|]. cbv zeta in Hcr.
  pose proof (λ e, created_dir s L ps es v root h p nm m q h3 e Hd Hs Hpps HpL Hv Hvl Hc Hl Hino
    ltac:(by rewrite Hm1) ltac:(by rewrite Hm1)) as Hdir'. cbv zeta in Hdir'. fold s2 in Hdir'.
  assert (Hvn : ∀ e, vnodes (created p (numbered nm m (ramfs_inodes s)) q h3 e s2)
    = <[p := new_node nm m (ramfs_inodes s)]> v)
    by (intros e; unfold s2, made, created; simpl; by rewrite !insert_insert_eq).
  assert (Hold : ∀ s' x nm', vnodes s' = <[p := new_node nm m (ramfs_inodes s)]> v →
    x ∈ ps → is_file s' nm' x → is_file s nm' x).
  { intros s' x nm' Hv' Hx (n & En & Hn). rewrite Hv', lookup_insert_ne in En by congruence.
    destruct (proj1 (elem_of_dom _ _) (Hdom x Hx)) as [n0 En0].
    destruct (Hs x n0 En0) as [k Ek]. simplify_eq. by exists n0. }
  assert (Hnew : ∀ s' nm', vnodes s' = <[p := new_node nm m (ramfs_inodes s)]> v →
    is_file s' nm' p → nm' = nm).
  { intros s' nm' Hv' (n & En & _ & Hn). rewrite Hv', lookup_insert_eq in En. simplify_eq.
    by apply (named_inj _ _ _ Hn), new_node_named. }
  destruct Hcr as [(-> & Hq & HqL & Hm3)|(-> & Hq & Hm3)]; cbn [rbind].
  - specialize (Hdir' (errno s2)) as [_ Hd']. specialize (Hd' Hq HqL Hm3). specialize (Hvn (errno s2)).
    set (s3 := created _ _ _ _ _ _) in *. change (1 <? 0) with false. cbv iota.
    destruct (get_free_fd_spec 3 s3 Hf) as (fd & -> & Hlow); [unfold OPEN_MAX; lia|].
    cbn [rbind]. destruct Hlow as [[-> Hlow]|(Hfd & Hlow)].
    + change (-1 <? 0) with true. cbv iota. eexists _, _, ({[q]} ∪ ({[p]} ∪ L)). split; [done|].
      split; [set_solver|]. split; [done|]. split; [by intros; eapply Hold|]. right. exists p, q.
      split; [done|]. split; [by intros; eapply Hnew|]. right. split; [exact Hd'|].
      split; [by left|done].
    + replace (fd <? 0) with false by lia.
      rewrite put_fd_ok by (change (files s3) with (files s); rewrite Hf; unfold OPEN_MAX in *; lia).
      cbn [rbind]. eexists _, _, ({[q]} ∪ ({[p]} ∪ L)). split; [done|].
      split; [set_solver|]. split; [done|].
      split; [by intros; eapply (Hold (at_fd _ _ s3))|]. right. exists p, q. split; [done|].
      split; [by intros; eapply (Hnew (at_fd _ _ s3))|]. right.
      split; [by apply dir_ok_fd|]. split; [by right|].
      replace (fd =? -1) with false by lia. done.
  - specialize (Hdir' ENOSPC) as [Hd' _]. specialize (Hd' Hq Hm3). specialize (Hvn ENOSPC).
    change (-1 <? 0) with true. cbv iota. eexists _, _, ({[p]} ∪ L). split; [done|].
    split; [set_solver|]. split; [done|]. split; [by intros; eapply Hold|]. right. exists p, q. split; [done|].
    split; [by intros; eapply Hnew|]. by left.
Qed.

(** ** write *)

(** The entry [e] changes to [e']: its node keeps its name and its place in the list,
    its new blocks are its old ones and new ones. *)
Lemma dir_update s s' L L' ps es1 e e' es2 n m :
  dir_ok s L ps (es1 ++ e :: es2) → vnodes s !! e_node e = Some n →
  vnodes s' = <[e_node e := m]> (vnodes s) → n_next m = n_next n → name m = name n →
  st_dev (status m) = st_dev (status n) → is_entry s' e' →
  e_node e' = e_node e → e_ino e' = e_ino e → vfs_root s' = vfs_root s →
  len (files s') = OPEN_MAX → ramfs_nodes s' = ramfs_nodes s → ramfs_inodes s' = ramfs_inodes s →
  (∀ q, q ∈ dom (blocks s) → q ∉ (e_blocks e).*1 → blocks s' !! q = blocks s !! q) →
  (∀ q, q ∈ (e_blocks e').*1 → q ∈ (e_blocks e).*1 ∨ q ∉ dom (blocks s)) →
  mem_ok s' L' → dir_ok s' L' ps (es1 ++ e' :: es2).
Proof.
  intros (Hm & Hl & Hn & Hf & Hrn & Hri & He & Hin & Hnd1 & Hnd2 & Hnd3) En Hv Hnext Hname Hdev
    He' Hnode Hino Hroot Hf' Hrn' Hri' Hb Hb' Hm'.
  rewrite !fmap_app in Hnd1, Hnd2. rewrite !fmap_cons in Hnd1, Hnd2.
  assert (Hbl : ∀ es1 es2 x, all_blocks (es1 ++ x :: es2)
    = all_blocks es1 ++ (e_blocks x).*1 ++ all_blocks es2)
    by (intros; unfold all_blocks; by rewrite bind_app, bind_cons).
  rewrite Hbl in Hnd3.
  assert (Hother : ∀ x, x ∈ es1 ++ es2 → is_entry s x ∧ e_node x ≠ e_node e ∧
    ∀ q, q ∈ (e_blocks x).*1 → q ∉ (e_blocks e).*1).
  { intros x Hx. rewrite list.Forall_forall in He. split; [apply He; set_solver|].
    apply list.NoDup_app in Hnd1 as (_ & Hd1 & Hd2). apply list.NoDup_cons in Hd2 as [Hd2 _].
    apply list.NoDup_app in Hnd3 as (_ & Hd3 & Hd4). apply list.NoDup_app in Hd4 as (_ & Hd4 & _).
    apply elem_of_app in Hx as [Hx|Hx].
    - split.
      + intros Heq. apply (Hd1 (e_node e)); [|by constructor]. rewrite <- Heq.
        by apply list_elem_of_fmap_2.
      + intros q Hq Hq'. apply (Hd3 q); [|set_solver]. apply list_elem_of_bind. eauto.
    - split.
      + intros Heq. apply Hd2. rewrite <- Heq. by apply list_elem_of_fmap_2.
      + intros q Hq Hq'. apply (Hd4 q Hq'). apply list_elem_of_bind. eauto. }
  assert (Hother' : ∀ x, x ∈ es1 ++ es2 → is_entry s' x).
  { intros x Hx. destruct (Hother x Hx) as (Hex & Hne & Hxb). apply (is_entry_frame s); [done|..].
    - intros k Ek. exists (n_next k). rewrite Hv, lookup_insert_ne by done.
      rewrite Ek. by destruct k.
    - by rewrite Hrn'.
    - intros q Hq. apply Hb; [by eapply entry_blocks_dom|by apply Hxb]. }
  unfold dir_ok. rewrite Hrn', Hri'. split; [done|]. split.
  { split; [|apply Hl]. rewrite Hroot, Hv. eapply vlist_frame; [apply Hl|].
    intros q k Hq Ek. destruct (decide (q = e_node e)) as [->|Hne].
    - exists m. rewrite lookup_insert_eq. by simplify_eq.
    - exists k. by rewrite lookup_insert_ne. }
  split.
  { intros q k Hq. rewrite Hv. destruct (decide (q = e_node e)) as [->|Hne].
    - rewrite lookup_insert_eq. intros [= <-] Hk. rewrite Hdev in Hk.
      destruct (Hn _ n Hq En Hk) as [nm (H1 & H2 & rest & H3)]. exists nm.
      split_and!; [done|done|]. exists rest. by rewrite Hname.
    - rewrite lookup_insert_ne by done. by apply Hn. }
  split_and!; [done..| | | | |].
  - apply list.Forall_forall. intros x Hx. rewrite elem_of_app, elem_of_cons in Hx.
    destruct Hx as [Hx|[->|Hx]]; [|done|]; apply Hother'; set_solver.
  - rewrite list.Forall_forall in Hin. apply list.Forall_forall. intros x Hx.
    rewrite elem_of_app, elem_of_cons in Hx. destruct Hx as [Hx|[->|Hx]];
      [apply Hin; set_solver| |apply Hin; set_solver].
    rewrite Hnode, Hino. apply Hin. set_solver.
  - by rewrite fmap_app, fmap_cons, Hnode.
  - by rewrite fmap_app, fmap_cons, Hino.
  - rewrite Hbl. apply list.NoDup_app in Hnd3 as (Hd1 & Hd2 & Hd3).
    apply list.NoDup_app in Hd3 as (_ & Hd4 & Hd5).
    destruct He' as (n' & p' & _ & _ & _ & _ & _ & _ & _ & Hndb & _).
    assert (Hdis : ∀ x q, x ∈ es1 ++ es2 → q ∈ (e_blocks x).*1 → q ∉ (e_blocks e').*1).
    { intros x q Hx Hq Hq'. destruct (Hother x Hx) as (Hex & _ & Hxb).
      destruct (Hb' q Hq') as [Ho|Ho]; [by apply (Hxb q)|].
      apply Ho. by eapply entry_blocks_dom. }
    apply list.NoDup_app. split_and!; [done| |].
    + intros q Hq%list_elem_of_bind [Hq'|Hq']%elem_of_app; [|set_solver].
      destruct Hq as (x & Hq & Hx). apply (Hdis x q); [set_solver|done|done].
    + apply list.NoDup_app. split_and!; [done| |done]. intros q Hq' Hq%list_elem_of_bind.
      destruct Hq as (x & Hq & Hx). apply (Hdis x q); [set_solver|done|done].
Qed.

Lemma node_pos s L p n : mem_ok s L → vnodes s !! p = Some n → p ≠ 0.
Proof.
  intros (_ & H0 & _ & H2 & _) En ->. apply elem_of_dom_2 in En. by apply H2, H0 in En.
Qed.

(** A write at the end of the file [e]. *)
Lemma write_dir s L ps es1 e es2 fd f (size : nat) buf :
  dir_ok s L ps (es1 ++ e :: es2) → get_fd fd s = Ok f → vfs_node f = e_node e →
  at_ f = len (e_data e) → has (oflag f) O_WRONLY = true →
  (length (e_data e) < 256 * length (e_blocks e))%nat → aligned (length (e_data e)) →
  (size ≤ length buf)%nat → len (e_data e) + Z.of_nat size < 2 ^ 31 →
  ∃ (k : nat) s' L' l', write_vfs fd (Some buf) (Z.of_nat size) s = Ok (Z.of_nat k, s') ∧
    L ⊆ L' ∧
    let e' := Entry (e_node e) (e_ino e) (e_name e) l' (e_data e ++ take k buf) in
    dir_ok s' L' ps (es1 ++ e' :: es2) ∧
    files s' = <[Z.to_nat fd := with_at (len (e_data e) + Z.of_nat k) f]> (files s) ∧
    ramfs_inodes s' = ramfs_inodes s ∧ (k ≤ size)%nat ∧ (errno s' = ENOMEM ∨ errno s' = errno s ∧ k = size) ∧
    (∀ x nm', is_file s' nm' x → is_file s nm' x).
Proof.
  intros Hd Ef Hfn Hat Hw Hroom Hal Hs Hlt.
  pose proof Hd as (Hm & _ & _ & Hf & _ & _ & He & _).
  apply list.Forall_app in He as [_ He]. apply list.Forall_cons in He as [He _].
  pose proof He as (n & p & En & Hreg & Hnm & Hino & Hsz & Ep & Hon).
  unfold write_vfs. rewrite (open_fd_some fd s f) by (rewrite ?Hfn; try done; by eapply node_pos).
  cbn [rbind]. destruct (Z.eqb_spec (Z.of_nat size) 0) as [Hz|Hz].
  { assert (size = 0%nat) as -> by lia. exists 0%nat, s, L, (e_blocks e).
    split; [done|]. split; [done|]. simpl. rewrite app_nil_r. split; [by destruct e|].
    split; [|split_and!; [done|lia|by right|done]].
    rewrite list_insert_id; [done|]. rewrite Z.add_0_r. destruct f as [fv fa ff]. simpl in *.
    rewrite <- Hat. unfold get_fd in Ef. apply deref_Ok in Ef. unfold aget in Ef.
    by destruct (fd <? 0). }
  unfold get_node. rewrite Hw, Hfn, En. cbn [deref rbind].
  destruct Hreg as (Hdev & Hdirm & Hfifo & Hrd & Hwr & Hop & Hcl & Hls). rewrite Hwr. cbn [node_write].
  rewrite <- Hfn in En. rewrite <- Hino in Ep.
  destruct (write_ramfs_result s L fd (e_blocks e) (e_data e) f n p size buf)
    as (oom & k & s1 & Happ & ->); try done; [lia|].
  destruct Happ as (b & h & er & l' & L' & -> & Hm' & HL & Hf' & Hb & Hfresh & Hk & Hoom).
  exists k. eexists. exists L', l'. split; [done|]. split; [done|].
  pose proof Hm as (_ & _ & Hdb & _).
  split; [|split_and!; [|done|lia| |]].
  - eapply (dir_update s _ L L' ps es1 e _ es2 n (add_size k n)); rewrite <- ?Hfn; try done.
    + exists (add_size k n), p. simpl. rewrite lookup_insert_eq. split_and!; try done.
      * rewrite Hsz, length_app, length_take. lia.
      * by rewrite <- Hino.
    + unfold at_fd. simpl. by rewrite length_insert.
    + intros q Hq Hq'. apply Hb; [by apply Hdb|done].
    + intros q Hq. destruct (Hfresh q Hq) as [?|Hn]; [by left|right]. by intros Hq'%Hdb.
    + by eapply put_node_ok.
  - unfold at_fd. simpl. by rewrite Nat2Z.inj_add.
  - simpl. destruct oom; [left; apply Hoom|right]. by destruct Hoom as (-> & -> & _).
  - intros x nm' (m & Em & H). simpl in Em. destruct (decide (x = vfs_node f)) as [->|Hne].
    + rewrite lookup_insert_eq in Em. simplify_eq. by exists n.
    + rewrite lookup_insert_ne in Em by done. by exists m.
Qed.

(** ** open *)
Definition reflag (fl : Z) (p : Z) (r : Z) (s : fs) : list fildes_t :=
  <[Z.to_nat r := Fildes p 0 fl]> (files s).

(** [open] of a name that no file has, with [O_CREAT]: as [creat], with these flags. *)
Lemma open_creat s L ps es nm flags mode :
  dir_ok s L ps es → chars nm → nm ≠ [] → (length nm ≤ 63)%nat →
  name junk_node = replicate 64 0 → ramfs_inodes s < 1024 → file_mode mode →
  fresh_name s ps nm → has flags O_CREAT = true →
  ∃ r s' L', open_vfs (Some nm) flags mode s = Ok (r, s') ∧ L ⊆ L' ∧
    ramfs_inodes s' ≤ ramfs_inodes s + 1 ∧
    (∀ x nm', x ∈ ps → is_file s' nm' x → is_file s nm' x) ∧
    ((r = -1 ∧ errno s' ∈ [errno_num ENOMEM; errno_num ENOSPC; errno_num EMFILE] ∧
        ∃ ps' es', dir_ok s' L' (ps ++ ps') (es ++ es') ∧
          (∀ x nm', x ∈ ps' → is_file s' nm' x → nm' = nm)) ∨
     (∃ p q, p ∉ ps ∧ (∀ nm', is_file s' nm' p → nm' = nm) ∧
        dir_ok s' L' (ps ++ [p]) (es ++ [new_entry p q s nm]) ∧ 3 ≤ r < OPEN_MAX ∧
        is_free_fd (files s) r ∧ errno s' = errno s ∧ files s' = reflag flags p r s)).
Proof.
  intros Hd Hc Hne Hl Hj Hino Hmode Hfresh Hfl. unfold open_vfs.
  pose proof Hd as (_ & Hli & Hnm & Hlen & _).
  destruct (find_file_spec s nm ps) as (r0 & -> & Hr0); try done; [lia|]. cbn [rbind].
  destruct Hr0 as [[-> _]|(_ & pre & post & -> & Hr0 & _)].
  2:{ destruct (Hfresh r0); [set_solver|done]. }
  change (0 =? 0) with true. cbv iota. rewrite Hfl.
  destruct (creat_dir s L ps es nm mode) as (r & s' & L' & -> & HL & Hri & Hold & H); try done.
  cbn [rbind]. destruct H as [(-> & He & Hd')|(p & q & Hp & Hnew & [(-> & He & Hd')|H])].
  - change (-1 <? 0) with true. cbv iota. eexists _, s', L'. split; [done|]. split; [done|].
    split; [done|]. split; [done|]. left. split; [done|]. split; [rewrite He; set_solver|].
    exists [], []. rewrite !app_nil_r. split; [done|]. set_solver.
  - change (-1 <? 0) with true. cbv iota. eexists _, s', L'. split; [done|]. split; [done|].
    split; [done|]. split; [done|]. left. split; [done|]. split; [rewrite He; set_solver|].
    exists [p], []. rewrite app_nil_r. split; [done|].
    intros x nm' ->%list_elem_of_singleton. apply Hnew.
  - destruct H as (Hd' & Hlow & He). destruct Hlow as [[-> _]|(Hr & Hfree & _)].
    + change (-1 <? 0) with true. cbv iota. eexists _, s', L'. split; [done|]. split; [done|].
      split; [done|]. split; [done|]. left. split; [done|]. split; [rewrite He; set_solver|].
      exists [p], [new_entry p q s nm]. split; [done|].
      intros x nm' ->%list_elem_of_singleton. apply Hnew.
    + replace (r <? 0) with false by lia. replace (r =? -1) with false in He by lia.
      destruct He as [He Hfs].
      assert (Eg : get_fd r s' = Ok (Fildes p 0 O_WRONLY)).
      { unfold get_fd. rewrite Hfs, aget_insert by (unfold OPEN_MAX in *; lia).
        by rewrite Z.eqb_refl. }
      rewrite Eg. cbn [rbind].
      rewrite put_fd_ok by (by eapply get_fd_range). cbn [rbind vfs_node at_].
      eexists r, _, L'. split; [done|]. split; [done|]. split; [done|].
      split; [exact Hold|]. right. exists p, q. split; [done|]. split; [exact Hnew|]. split; [by apply dir_ok_fd|].
      split; [done|]. split; [done|]. split; [done|]. unfold at_fd, reflag. simpl.
      by rewrite Hfs, list_insert_insert_eq.
Qed.

(** ** A file by its name *)

(** What a program does that reads a file. *)
Definition read_named (nm : list Z) (buf : list Z) (size : Z) (s : fs)
    : res (Z * option (list Z) * fs) :=
  let* (fd, s) := open_vfs (Some nm) O_RDONLY 0 s in read_vfs fd (Some buf) size s.

(** The entry behind a name. *)
Definition only_named (s : fs) (ps : list Z) (e : entry) : Prop :=
  ∀ q, q ∈ ps → is_file s (e_name e) q → q = e_node e.

Lemma lowest_free_same l fd a b : lowest_free l fd a → lowest_free l fd b → a = b.
Proof.
  intros [[-> Ha]|(Ra & Fa & La)] [[-> Hb]|(Rb & Fb & Lb)]; [done|..].
  - by destruct (Ha b); [lia|].
  - by destruct (Hb a); [lia|].
  - destruct (Z.lt_trichotomy a b) as [?|[?|?]]; [|done|]; [by destruct (Lb a); [lia|]|by destruct (La b); [lia|]].
Qed.

Lemma open_named s L ps es e fd : dir_ok s L ps es → e ∈ es → only_named s ps e →
  lowest_free (files s) 3 fd → fd ≠ -1 →
  open_vfs (Some (e_name e)) O_RDONLY 0 s = Ok (fd, at_fd fd (Fildes (e_node e) 0 O_RDONLY) s).
Proof.
  intros Hd Hin Huniq Hlow Hne. pose proof Hd as (Hm & Hli & Hnm & Hf & _ & _ & He & Hps & _).
  rewrite list.Forall_forall in He, Hps. specialize (He e Hin). destruct (Hps e Hin) as [Hnode _].
  destruct He as (n & p & En & Hreg & Hnamed & _).
  pose proof Hreg as (Hdev & Hdirm & _ & _ & _ & Hop & _ & _).
  assert (His : is_file s (e_name e) (e_node e)) by (exists n; rewrite Hdev; done).
  unfold open_vfs. destruct Hnamed as (Hc & Hl & _).
  destruct (find_file_spec s (e_name e) ps) as (r & -> & Hr); try done. cbn [rbind].
  destruct Hr as [[_ Hr]|(Hr0 & pre & post & Eps & Hr & _)]; [by destruct (Hr (e_node e))|].
  assert (r = e_node e) as -> by (apply Huniq; [rewrite Eps; set_solver|done]).
  replace (e_node e =? 0) with false by lia.
  change (Z.land O_RDONLY _ =? _) with false. cbv iota. unfold get_node at 1. rewrite En.
  cbn [deref rbind]. rewrite Hdirm, Hop. cbn [andb].
  destruct (get_free_fd_spec 3 s Hf) as (fd' & -> & Hlow'); [unfold OPEN_MAX; lia|]. cbn [rbind].
  rewrite (lowest_free_same _ _ _ _ Hlow' Hlow).
  destruct Hlow as [[-> _]|(Hr1 & _)]; [done|].
  replace (0 <=? fd) with true by lia. by rewrite put_fd_ok by (rewrite Hf; lia).
Qed.

(** A descriptor that is open for reading on a file of the directory. *)
Definition reads_entry (s : fs) (fd : Z) (e : entry) (a : Z) : Prop :=
  3 ≤ fd < OPEN_MAX ∧ len (files s) = OPEN_MAX ∧ get_fd fd s = Ok (Fildes (e_node e) a O_RDONLY) ∧
  e_node e ≠ 0 ∧ is_entry s e.

Lemma read_open s fd e (size : nat) buf : reads_entry s fd e 0 →
  (0 < size)%nat → (size ≤ length buf)%nat → Z.of_nat size < 2 ^ 31 → len (e_data e) < 2 ^ 31 →
  let k := (size `min` length (e_data e))%nat in
  read_vfs fd (Some buf) (Z.of_nat size) s
  = Ok (Z.of_nat k, Some (take k (e_data e) ++ drop k buf),
        at_fd fd (Fildes (e_node e) (Z.of_nat k) O_RDONLY) s).
Proof.
  intros (Hr & Hf & Eg & Hnode & He) H0 Hs H31 Hlen k.
  destruct He as (n & p & En & Hreg & Hnamed & Hino & Hsz & Ep & Hon).
  pose proof Hreg as (Hdev & Hdirm & Hfifo & Hrd & Hwr & Hop & Hcl & Hls).
  unfold read_vfs. rewrite (open_fd_some _ _ _ Eg); [|done|done].
  cbn [rbind vfs_node]. unfold get_node. rewrite En. cbn [deref rbind].
  rewrite Hdirm, Hrd. replace (Z.of_nat size =? 0) with false by lia. cbn [node_read].
  change (has (oflag _) O_RDONLY) with true. cbv iota.
  rewrite (read_ramfs_result _ fd (e_blocks e) (e_data e) 0 (Fildes (e_node e) 0 O_RDONLY) n p size buf);
    try done; [|by rewrite <- Hino in Ep|lia].
  cbn [rbind]. by rewrite Nat.sub_0_r, drop_0.
Qed.

Lemma dir_entry s L ps es e : dir_ok s L ps es → e ∈ es → e_node e ≠ 0 ∧ is_entry s e.
Proof.
  intros (Hm & Hli & Hnm & Hf & _ & _ & He & Hps & _) Hin.
  rewrite list.Forall_forall in He. specialize (He e Hin). split; [|done].
  destruct He as (n & p & En & _). destruct Hm as (_ & Hpos & _ & Hvn & _). intros E.
  assert (e_node e ∈ L) as Hl by (apply Hvn, elem_of_dom; by eexists). apply Hpos in Hl. lia.
Qed.

Lemma read_by_name s L ps es e fd (size : nat) buf :
  dir_ok s L ps es → e ∈ es → only_named s ps e →
  lowest_free (files s) 3 fd → fd ≠ -1 →
  (0 < size)%nat → (size ≤ length buf)%nat → Z.of_nat size < 2 ^ 31 → len (e_data e) < 2 ^ 31 →
  let k := (size `min` length (e_data e))%nat in
  read_named (e_name e) buf (Z.of_nat size) s
  = Ok (Z.of_nat k, Some (take k (e_data e) ++ drop k buf),
        at_fd fd (Fildes (e_node e) (Z.of_nat k) O_RDONLY) s).
Proof.
  intros Hd Hin Huniq Hlow Hne H0 Hs H31 Hlen k. unfold read_named.
  rewrite (open_named s L ps es e fd) by done. cbn [rbind].
  pose proof Hd as (_ & _ & _ & Hf & _). destruct (dir_entry s L ps es e Hd Hin) as [Hn He].
  destruct Hlow as [[-> _]|(Hr & _)]; [done|].
  rewrite (read_open _ fd e); [|split; [lia|]|done..].
  - fold k. unfold at_fd. simpl. by rewrite list_insert_insert_eq.
  - split; [unfold at_fd; simpl; by rewrite length_insert|].
    split; [apply get_at_fd; rewrite Hf; lia|]. split; [done|exact He].
Qed.
End files.
