(* ===== verification/Initrd.v ===== *)
(** * Initrd: from the image to the files

    [tools/mk-initrd.c] writes the image that [kernel/src/fs/initrd.c] loads. *)

From S2P Require Import Prelude Malloc Headers CString Vga Fs Names Blocks Nodes Demo Ramfs Stream Stdio Vfs Files.

#[local] Abbreviation file := (list Z * list Z)%type (only parsing).

(** ** The image

    [junk] is the last byte of a name in the array of nodes, which is never set;
    [strncpy] of the host pads with zeros. *)
Definition le_bytes (v : Z) : list Z :=
  [v mod 2 ^ 8; v / 2 ^ 8 mod 2 ^ 8; v / 2 ^ 16 mod 2 ^ 8; v / 2 ^ 24 mod 2 ^ 8].

Definition host_name (junk : Z) (nm : list Z) : list Z :=
  take 63 (nm ++ replicate 63 0) ++ [junk].

Definition initrd_node (junk : Z) (nm : list Z) (offset size : Z) : list Z :=
  host_name junk nm ++ le_bytes offset ++ le_bytes size.

Fixpoint mk_nodes (junk offset : Z) (files : list file) : list Z :=
  match files with
  | [] => []
  | (nm, data) :: files =>
      initrd_node junk nm offset (len data) ++ mk_nodes junk (u32 (offset + len data)) files
  end.

(** [main], for the files with these names and contents. *)
Definition mk_initrd (junk : Z) (files : list file) : list Z :=
  le_bytes (len files) ++ mk_nodes junk (len files * INITRD_NODE + 4) files
    ++ concat files.*2.

(** ** Reading it back *)
Lemma le_bytes_value v : 0 ≤ v < 2 ^ 32 →
  v mod 2 ^ 8 + v / 2 ^ 8 mod 2 ^ 8 * 2 ^ 8 + v / 2 ^ 16 mod 2 ^ 8 * 2 ^ 16
    + v / 2 ^ 24 mod 2 ^ 8 * 2 ^ 24 = v.
Proof.
  intros Hv. pose proof (Z.div_mod v (2 ^ 8) ltac:(lia)) as H0. pose proof (Z.div_mod (v / 2 ^ 8) (2 ^ 8) ltac:(lia)) as H1.
  pose proof (Z.div_mod (v / 2 ^ 16) (2 ^ 8) ltac:(lia)) as H2.
  rewrite Z.div_div in H1, H2 by lia.
  change (2 ^ 8 * 2 ^ 8) with (2 ^ 16) in H1. change (2 ^ 16 * 2 ^ 8) with (2 ^ 24) in H2.
  rewrite (Z.mod_small (v / 2 ^ 24) (2 ^ 8)); [lia|].
  split; [apply Z.div_pos; lia|apply Z.div_lt_upper_bound; lia].
Qed.

Lemma aget_drop {A} (l : list A) (n : nat) i : 0 ≤ i →
  aget (drop n l) i = aget l (Z.of_nat n + i).
Proof.
  intros Hi. unfold aget. rewrite lookup_drop.
  destruct (Z.ltb_spec i 0), (Z.ltb_spec (Z.of_nat n + i) 0); try lia. f_equal. lia.
Qed.

(** At [n] the number [v] is stored. *)
Lemma le32_at img (n : nat) v rest : drop n img = le_bytes v ++ rest → 0 ≤ v < 2 ^ 32 →
  le32 img (Z.of_nat n) = Ok v.
Proof.
  intros H Hv. unfold le32.
  assert (Hb : ∀ k, 0 ≤ k < 4 → aget img (Z.of_nat n + k) = le_bytes v !! Z.to_nat k).
  { intros k Hk. rewrite <- aget_drop, H by lia. unfold aget.
    replace (k <? 0) with false by lia. rewrite lookup_app_l by (simpl; lia). done. }
  pose proof (Hb 0 ltac:(lia)) as H0. rewrite Z.add_0_r in H0.
  rewrite H0, !Hb by lia. simpl. by rewrite le_bytes_value.
Qed.

Lemma c_string_at fuel img (n : nat) nm rest :
  drop n img = nm ++ 0 :: rest → chars nm → (length nm < fuel)%nat →
  c_string fuel img (Z.of_nat n) = Ok nm.
Proof.
  revert n nm. induction fuel as [|fuel IH]; intros n nm H Hc Hf; [lia|]. cbn [c_string].
  assert (H0 : aget img (Z.of_nat n) = (nm ++ 0 :: rest) !! 0%nat).
  { rewrite <- H. rewrite <- (Z.add_0_r (Z.of_nat n)), <- aget_drop by lia. done. }
  rewrite H0. destruct nm as [|c nm]; [done|]. cbn. inversion Hc; subst.
  replace (c =? 0) with false by lia. replace (Z.of_nat n + 1) with (Z.of_nat (S n)) by lia.
  rewrite (IH (S n) nm); [done| |done|simpl in Hf; lia].
  replace (S n) with (n + 1)%nat by lia. by rewrite <- drop_drop, H.
Qed.

Definition sizes (files : list file) : Z := len (concat files.*2).

(** The size of the image fits. *)
Definition small (files : list file) : Prop :=
  len files * INITRD_NODE + 4 + sizes files < 2 ^ 31.

Lemma sizes_cons nm data files : sizes ((nm, data) :: files) = len data + sizes files.
Proof. unfold sizes. rewrite fmap_cons. cbn [concat snd]. rewrite length_app. lia. Qed.

Lemma sizes_app f1 f2 : sizes (f1 ++ f2) = sizes f1 + sizes f2.
Proof. unfold sizes. rewrite fmap_app, concat_app, length_app. lia. Qed.

Lemma host_name_length junk nm : length (host_name junk nm) = 64%nat.
Proof.
  unfold host_name. rewrite length_app, length_take, length_app, length_replicate.
  cbn [length]. lia.
Qed.

Lemma initrd_node_length junk nm o sz : length (initrd_node junk nm o sz) = 72%nat.
Proof. unfold initrd_node. rewrite !length_app, host_name_length. done. Qed.

Lemma mk_nodes_app junk o f1 f2 : 0 ≤ o → o + sizes (f1 ++ f2) < 2 ^ 31 →
  mk_nodes junk o (f1 ++ f2) = mk_nodes junk o f1 ++ mk_nodes junk (o + sizes f1) f2.
Proof.
  revert o. induction f1 as [|[nm data] f1 IH]; intros o Ho Hs.
  { simpl. f_equal. unfold sizes. simpl. lia. }
  rewrite <- app_comm_cons, sizes_cons in Hs. rewrite <- app_comm_cons. cbn [mk_nodes].
  assert (0 ≤ sizes (f1 ++ f2)) by (unfold sizes; lia).
  rewrite uint_small by lia. rewrite IH by lia. rewrite sizes_cons, <- app_assoc. do 3 f_equal. lia.
Qed.

Lemma mk_nodes_length junk o files : length (mk_nodes junk o files) = (72 * length files)%nat.
Proof.
  revert o. induction files as [|[nm data] files IH]; intros o; [done|].
  cbn [mk_nodes length]. rewrite length_app, initrd_node_length, IH. lia.
Qed.

Lemma mk_initrd_files junk files : len files < 2 ^ 31 → le32 (mk_initrd junk files) 0 = Ok (len files).
Proof.
  intros H. apply (le32_at _ 0 _ (mk_nodes junk (len files * INITRD_NODE + 4) files ++ concat files.*2));
    [done|lia].
Qed.

Lemma drop_middle {A} n (a b c d e : list A) : (length a + length b)%nat = n →
  drop n (a ++ (b ++ c ++ d) ++ e) = c ++ (d ++ e).
Proof.
  intros <-. rewrite <- length_app, <- !app_assoc, (app_assoc a b). by apply drop_app_length'.
Qed.

(** The node of a file, its name and its content are where the loader looks. *)
Lemma mk_initrd_file junk pre nm data post :
  let files := pre ++ (nm, data) :: post in
  let img := mk_initrd junk files in
  let node := 4 + len pre * INITRD_NODE in
  small files → chars nm → (length nm ≤ 62)%nat →
  ∃ off, le32 img (node + 64) = Ok off ∧ le32 img (node + 68) = Ok (len data) ∧
    c_string (S (length img)) img node = Ok nm ∧
    data `prefix_of` drop (Z.to_nat off) img.
Proof.
  intros files img node Hsm Hc Hl. unfold small, INITRD_NODE in *.
  pose (o := len files * 72 + 4 + sizes pre).
  assert (Hsz : sizes files = sizes pre + (len data + sizes post))
    by (unfold files; by rewrite sizes_app, sizes_cons).
  assert (0 ≤ sizes pre ∧ 0 ≤ sizes post) by (unfold sizes; lia).
  assert (Hlf : len files = len pre + 1 + len post)
    by (unfold files; rewrite length_app; simpl; lia).
  assert (Hnode : ∃ rest, drop (4 + 72 * length pre) img = initrd_node junk nm o (len data) ++ rest).
  { eexists. unfold img, mk_initrd. unfold files at 3, INITRD_NODE.
    rewrite mk_nodes_app by (fold files; lia). fold o. cbn [mk_nodes].
    apply drop_middle. by rewrite mk_nodes_length. }
  destruct Hnode as [rest Hnode]. exists o.
  assert (Hat : ∀ k l1 l2, initrd_node junk nm o (len data) = l1 ++ l2 → length l1 = k →
    drop (4 + 72 * length pre + k) img = l2 ++ rest).
  { intros k l1 l2 E Hk. rewrite <- drop_drop, Hnode, E, <- app_assoc. by apply drop_app_length'. }
  split; [|split; [|split]].
  - replace (node + 64) with (Z.of_nat (4 + 72 * length pre + 64)) by (unfold node; lia).
    eapply le32_at; [|unfold o; lia].
    rewrite (Hat 64%nat (host_name junk nm) (le_bytes o ++ le_bytes (len data)));
      [by rewrite <- app_assoc|done|apply host_name_length].
  - replace (node + 68) with (Z.of_nat (4 + 72 * length pre + 68)) by (unfold node; lia).
    eapply le32_at; [|lia].
    rewrite (Hat 68%nat (host_name junk nm ++ le_bytes o) (le_bytes (len data))); [done| |].
    + unfold initrd_node. by rewrite app_assoc.
    + rewrite length_app, host_name_length. done.
  - replace node with (Z.of_nat (4 + 72 * length pre)) by (unfold node; lia).
    assert (Hle : (length nm < S (length img))%nat).
    { apply (f_equal length) in Hnode. rewrite length_drop, length_app, initrd_node_length in Hnode. lia. }
    eapply c_string_at; [|done|exact Hle]. rewrite Hnode. unfold initrd_node, host_name.
    rewrite take_app_ge, take_replicate by lia.
    replace (63 - length nm)%nat with (S (62 - length nm)) by lia.
    rewrite Nat.min_l by lia. simpl. rewrite <- !app_assoc. simpl. done.
  - assert (Hdrop : drop (Z.to_nat o) img = data ++ concat post.*2); [|by rewrite Hdrop; apply prefix_app_r].
    replace (Z.to_nat o) with (4 + 72 * length files + length (concat pre.*2))%nat
      by (unfold o, sizes; lia).
    unfold img, mk_initrd. rewrite app_assoc, <- drop_drop.
    rewrite (drop_app_length' (_ ++ _)) by (rewrite length_app, mk_nodes_length; done).
    unfold files at 1. rewrite fmap_app, concat_app. by apply drop_app_length'.
Qed.

Section load.
Context {MA : Malloc} {SY : Sys}.

Definition good_name (nm : list Z) : Prop := chars nm ∧ nm ≠ [] ∧ (length nm ≤ 62)%nat.

(** What one file adds to the directory; when something failed, [errno] says so. *)
Definition loaded (s : fs) (L : gset Z) (ps : list Z) (es : list entry) (nm data : list Z)
    (s' : fs) (L' : gset Z) (ps' : list Z) (new : list entry) : Prop :=
  dir_ok s' L' (ps ++ ps') (es ++ new) ∧ ramfs_inodes s' ≤ ramfs_inodes s + 1 ∧
  (∀ x nm', x ∈ ps → is_file s' nm' x → is_file s nm' x) ∧
  (∀ x nm', x ∈ ps' → is_file s' nm' x → nm' = nm) ∧
  (errno s' ≠ 0 ∨
   errno s' = errno s ∧ ∃ e, new = [e] ∧ ps' = [e_node e] ∧ e_name e = nm ∧ e_data e = data).

Lemma close_file s L ps es fd f e : dir_ok s L ps es → e ∈ es → get_fd fd s = Ok f →
  vfs_node f = e_node e → close_vfs fd s = Ok (0, at_fd fd (Fildes 0 0 0) s).
Proof.
  intros Hd Hin Ef Hf. pose proof Hd as (Hm & _ & _ & Hlen & _ & _ & He & _).
  rewrite list.Forall_forall in He. destruct (He e Hin) as (n & p & En & Hreg & _).
  unfold close_vfs. rewrite (open_fd_some fd s f) by (rewrite ?Hf; try done; by eapply node_pos).
  cbn [rbind]. unfold get_node. rewrite Hf, En. cbn [deref rbind].
  destruct Hreg as (_ & _ & _ & _ & _ & _ & -> & _). cbn [rbind].
  rewrite put_fd_ok by (by eapply get_fd_range). done.
Qed.

Lemma load_file_spec img i s L ps es nm data off :
  let node := 4 + i * INITRD_NODE in
  le32 img (node + 64) = Ok off → le32 img (node + 68) = Ok (len data) →
  c_string (S (length img)) img node = Ok nm → data `prefix_of` drop (Z.to_nat off) img →
  dir_ok s L ps es → fresh_name s ps nm → good_name nm → name junk_node = replicate 64 0 →
  ramfs_inodes s < 1024 → len data < 2 ^ 31 →
  ∃ s' L' ps' new, load_file img i s = Ok s' ∧ loaded s L ps es nm data s' L' ps' new.
Proof.
  intros node Hoff Hsize Hname Hdata Hd Hfresh (Hc & Hne & Hl) Hj Hino Hlen.
  unfold load_file. fold node. rewrite Hoff, Hsize, Hname. cbn [rbind].
  destruct (open_creat s L ps es nm (Z.lor O_RDWR O_CREAT) S_IFREG)
    as (r & s1 & L1 & -> & HL & Hri & Hold & H); try done; [lia|]. cbn [rbind].
  destruct H as [(-> & He & ps' & es' & Hd' & Hnew)|
    (p & q & Hp & Hnew & Hd' & Hr & Hfree & He & Hfs)].
  - assert (Hno : ∀ s, not_open (-1) s) by (intros; by left).
    unfold write_vfs, close_vfs. rewrite !open_fd_none by done. cbn [rbind].
    eexists _, L1, ps', es'. split; [done|]. split_and!; try done. by left.
  - set (f := Fildes p 0 (Z.lor O_RDWR O_CREAT)).
    assert (Hlen1 : len (files s1) = OPEN_MAX) by (apply Hd').
    assert (Eg : get_fd r s1 = Ok f).
    { pose proof Hd as (_ & _ & _ & Hlf & _). unfold get_fd. rewrite Hfs. unfold reflag.
      rewrite aget_insert, Z.eqb_refl by lia. done. }
    destruct (write_dir s1 L1 (ps ++ [p]) es (new_entry p q s nm) [] r f (length data)
      (drop (Z.to_nat off) img))
      as (k & s2 & L2 & l' & -> & HL2 & Hd2 & Hfs2 & Hri2 & Hk & He2 & Hn2); try done;
      [simpl; lia|by apply prefix_length|]. cbn [rbind].
    set (e := Entry _ _ _ _ _) in Hd2. simpl in Hd2, Hfs2.
    assert (Eg2 : get_fd r s2 = Ok (with_at (Z.of_nat k) f)).
    { unfold get_fd. rewrite Hfs2, aget_insert, Z.eqb_refl by lia. done. }
    rewrite (close_file s2 L2 (ps ++ [p]) (es ++ [e]) r (with_at (Z.of_nat k) f) e);
      [|done|set_solver|done|done]. cbn [rbind].
    eexists _, L2, [p], [e]. split; [done|]. split; [by apply dir_ok_fd|].
    split; [simpl; lia|]. split; [intros x nm' Hx Hf; by apply Hold, Hn2|].
    split; [intros x nm' ->%list_elem_of_singleton Hf; by apply Hnew, Hn2|]. simpl.
    destruct He2 as [->|[-> ->]]; [by left|right]. split; [done|]. exists e.
    split_and!; try done. simpl. destruct Hdata as [rest ->]. by apply take_app_length.
Qed.

(** ** The whole image *)
Definition content (e : entry) : file := (e_name e, e_data e).

(** After the first [j] files. *)
Definition load_inv (s : fs) (ps : list Z) (es : list entry) (files : list file) (j : Z) (s' : fs)
    : Prop :=
  ∃ L' ps' new, dir_ok s' L' (ps ++ ps') (es ++ new) ∧ ramfs_inodes s' ≤ ramfs_inodes s + j ∧
    (∀ x nm', x ∈ ps → is_file s' nm' x → is_file s nm' x) ∧
    (∀ x nm', x ∈ ps' → is_file s' nm' x → nm' ∈ (take (Z.to_nat j) files).*1) ∧
    (errno s' ≠ 0 ∨
     ps' = e_node <$> new ∧ content <$> new = take (Z.to_nat j) files).

Lemma load_step junk s ps es files j s1 :
  let img := mk_initrd junk files in
  small files → Forall good_name files.*1 → NoDup files.*1 →
  (∀ nm, nm ∈ files.*1 → fresh_name s ps nm) → name junk_node = replicate 64 0 →
  ramfs_inodes s + len files ≤ 1024 → 0 ≤ j < len files →
  load_inv s ps es files j s1 →
  ∃ s2, load_file img j s1 = Ok s2 ∧ load_inv s ps es files (j + 1) s2.
Proof.
  intros img Hsm Hgood Hnd Hfresh Hj Hino Hjr (L1 & ps1 & new & Hd & Hri & Hold & Hnew & Hcon).
  destruct (lookup_lt_is_Some_2 files (Z.to_nat j)) as [[nm data] E]; [lia|].
  pose proof (take_drop_middle _ _ _ E) as Esplit.
  set (pre := take (Z.to_nat j) files) in *. set (post := drop _ files) in Esplit.
  assert (Hpre : len pre = j) by (unfold pre; rewrite length_take; lia).
  assert (Hin : nm ∈ files.*1) by (rewrite <- Esplit, fmap_app; set_solver).
  rewrite list.Forall_forall in Hgood. pose proof (Hgood nm Hin) as (Hc & Hne & Hl).
  destruct (mk_initrd_file junk pre nm data post) as (off & H1 & H2 & H3 & H4);
    [by rewrite Esplit|done|done|]. rewrite Esplit, Hpre in *. fold img in H1, H2, H3, H4.
  assert (Hnmpre : nm ∉ pre.*1).
  { rewrite <- Esplit, fmap_app, fmap_cons in Hnd. apply list.NoDup_app in Hnd as (_ & Hnd & _).
    intros Hn. apply (Hnd nm Hn). constructor. }
  destruct (load_file_spec img j s1 L1 (ps ++ ps1) (es ++ new) nm data off)
    as (s2 & L2 & ps2 & new2 & E2 & Hd2 & Hri2 & Hold2 & Hnew2 & Hres); try done.
  { intros q [Hq|Hq]%elem_of_app Hf; [by apply (Hfresh nm Hin q Hq), Hold|].
    by apply Hnmpre, (Hnew q). }
  { lia. }
  { unfold small in Hsm. rewrite <- Esplit, sizes_app, sizes_cons in Hsm.
    unfold sizes, INITRD_NODE in Hsm. lia. }
  exists s2. split; [done|]. exists L2, (ps1 ++ ps2), (new ++ new2). rewrite !app_assoc.
  assert (Htake : take (Z.to_nat (j + 1)) files = pre ++ [(nm, data)]).
  { replace (Z.to_nat (j + 1)) with (S (Z.to_nat j)) by lia. by apply take_S_r. }
  rewrite Htake. split; [done|]. split; [lia|]. split; [|split].
  - intros x nm' Hx Hf. apply Hold; [done|]. apply Hold2; [set_solver|done].
  - intros x nm' [Hx|Hx]%elem_of_app Hf; rewrite fmap_app.
    + apply elem_of_app. left. apply (Hnew x); [done|]. apply Hold2; [set_solver|done].
    + rewrite (Hnew2 x nm' Hx Hf). set_solver.
  - destruct Hres as [Hres|(He & e & -> & -> & <- & <-)]; [by left|].
    destruct Hcon as [Hcon|(-> & <-)]; [left; by rewrite He|right].
    by rewrite !fmap_app.
Qed.

(** Of files with distinct names, the one whose node has the name of [e] is [e]. *)
Lemma same_name s new e x : Forall (is_entry s) new → NoDup (content <$> new).*1 →
  e ∈ new → x ∈ new → is_file s (e_name e) (e_node x) → x = e.
Proof.
  intros Hall Hnd He Hx (n & En & _ & Hn). rewrite list.Forall_forall in Hall.
  destruct (Hall x Hx) as (n' & p & En' & _ & Hn' & _). simplify_eq.
  pose proof (named_inj _ _ _ Hn Hn') as Heq.
  apply list_elem_of_lookup in He as [i Ei], Hx as [j Ej].
  assert (i = j) as ->; [|congruence].
  eapply NoDup_lookup; [exact Hnd| |].
  - by rewrite !list_lookup_fmap, Ei.
  - rewrite !list_lookup_fmap, Ej. simpl. by rewrite Heq.
Qed.

Lemma content_size new e : e ∈ new → len (e_data e) ≤ sizes (content <$> new).
Proof.
  intros (pre & post & ->)%list_elem_of_split. rewrite fmap_app, fmap_cons, sizes_app.
  unfold content at 2. rewrite sizes_cons. unfold sizes. lia.
Qed.

End load.

(** ** Examples

    A heap whose memory was zeroed, as at the start. *)
Definition boot_sys : Sys := {|
  junk_node := VNode (replicate 64 0) blank_stat None None None None None None 0;
  junk_data := Data (replicate 256 0) 0;
  junk_hdr := Hdr 0 0 0 0 0;
  sched_switch := Ok;
  kb_irq := Ok;
  patience := 3;
  junk_name_len := eq_refl;
  junk_data_len := eq_refl
|}.

Definition demo_entry (c : list Z) : entry :=
  Entry 0x400010 0 [102] [(0x4000b0, c ++ replicate (256 - length c) 0)] c.

Lemma demo_dir_ok c : (length c ≤ 256)%nat →
  dir_ok (demo_file c 0) demo_allocated [0x400010] [demo_entry c].
Proof.
  intros Hl. split; [apply demo_mem_ok|]. split; [apply demo_list_ok|]. split; [apply demo_names_ok|].
  split; [done|]. split; [done|]. split; [done|]. split; [|split_and!].
  - constructor; [|done]. eexists _, 0x4000b0. split; [apply lookup_singleton_eq|].
    split; [by split_and!|]. split; [|split; [done|]; split; [done|];
      split; [done|by apply demo_file_on]].
    split_and!; [by repeat constructor|done|by eexists].
  - constructor; [|done]. simpl. split; [by constructor|lia].
  - apply list.NoDup_singleton.
  - apply list.NoDup_singleton.
  - apply list.NoDup_singleton.
Qed.


(** Two files, loaded and read back. *)
Example initrd_run :
  (let* s := @init_initrd _ boot_sys (mk_initrd 0xAA [([97], [7; 8]); ([98; 99], repeat 5 300)])
               (demo_file [1; 2; 3] 0) in
   let* (n, b, s) := @read_named _ boot_sys [97] [0; 0; 0] 3 s in
   let* (n2, b2, s) := @read_named _ boot_sys [98; 99] (repeat 0 400) 400 s in
   Ok (n, b, n2, b2, errno s))
  = Ok (2, Some [7; 8; 0], 300, Some (repeat 5 300 ++ repeat 0 100), 0).
Proof. vm_compute. reflexivity. Qed.
