(* ===== verification/Spaces.v ===== *)
(** * Spaces: the interface of the address spaces to the tasks

    What the task table relies on: the calls of [kernel/src/mm/paging.c] that make,
    copy, load and take down a page directory; the one that is copied is the one that is
    loaded, since the pages are read through it.  [Space.paging_spaces] implements it. *)

From S2P Require Import Prelude.

(** The private memory of an address space, from the kernel stack on: the flags and
    the contents of each page that is present, by page number. *)
Abbreviation umem := (gmap Z (Z * list Z)).

(** [sp_rep s V]: the directories that exist, with the private memory of each.
    [sp_room s pd]: there is memory for a copy of the one at [pd]. *)
Class Spaces := {
  sstate : Type;
  sp_create : sstate → res (Z * sstate);
  sp_clone : Z → Z → sstate → res sstate;
  sp_free_pages : Z → sstate → res sstate;
  sp_clear : Z → sstate → res sstate;
  sp_kfree : Z → sstate → res sstate;
  sp_load : Z → sstate → res sstate;
  sp_kernel : sstate → Z;
  sp_loaded : sstate → Z;
  sp_rep : sstate → gmap Z umem → Prop;
  sp_room : sstate → Z → Prop;
  sp_fork_ok : ∀ s V old m, sp_rep s V → V !! old = Some m →
    sp_loaded s = old → sp_room s old →
    ∃ pd s1 s2, sp_create s = Ok (pd, s1) ∧ pd ≠ 0 ∧ V !! pd = None ∧
      sp_clone pd old s1 = Ok s2 ∧ sp_rep s2 (<[pd := m]> V) ∧
      sp_kernel s2 = sp_kernel s ∧ sp_loaded s2 = sp_loaded s;
  sp_free_ok : ∀ s V pd m, sp_rep s V → V !! pd = Some m →
    pd ≠ sp_kernel s → pd ≠ sp_loaded s →
    ∃ s1 s2 s3, sp_free_pages pd s = Ok s1 ∧ sp_clear pd s1 = Ok s2 ∧
      sp_kfree pd s2 = Ok s3 ∧ sp_rep s3 (delete pd V) ∧
      sp_kernel s3 = sp_kernel s ∧ sp_loaded s3 = sp_loaded s;
  sp_load_ok : ∀ s V pd m, sp_rep s V → V !! pd = Some m →
    ∃ s', sp_load pd s = Ok s' ∧ sp_rep s' V ∧ sp_kernel s' = sp_kernel s ∧
      sp_loaded s' = pd
}.
