(* ===== verification/Space.v ===== *)
(** * Space: fork copies an address space, the death of a task frees it

    [create_page_dir], [clone_page_dir], [clear_page_dir] of [kernel/src/mm/paging.c]
    and the loop over the pages in [task_destroy] of [task.c], on the invariant that
    the directories share the kernel's tables and nothing else, and that each private
    page has a frame of its own.  They implement the interface [Spaces]. *)

From S2P Require Import Prelude Headers Paging Spaces.

(** The first [KTABS] tables are the kernel's; the private pages start at [KPAGES]. *)
Definition KTABS : Z := 63.
Definition KPAGES : Z := KSTACK_BEGIN / PAGE_SIZE.
Definition NPAGES : Z := 2 ^ 20.

(** ** An allocator with room in what it has: it touches no page *)
Definition same_memory (s s' : mm) : Prop :=
  (frames s', memsize s', cur_page_dir s', cr3 s', dirs s', tabs s', ram s') =
  (frames s, memsize s, cur_page_dir s, cr3 s, dirs s, tabs s, ram s).

Class QuietAlloc {PA : PageAlloc} := {
  pa_quiet : Z → mm → Prop;
  quiet_alloc : ∀ size k s, pa_quiet (size + PAGE_SIZE + k) s → 0 < size → 0 ≤ k →
    ∃ p s', kmalloc_pa size s = Ok (p, s') ∧ p ≠ 0 ∧ tabs s !! p = None ∧
      dirs s !! p = None ∧ same_memory s s' ∧
      (∀ t, pa_quiet k (with_tabs (<[p := t]> (tabs s')) s')) ∧
      (∀ d, pa_quiet k (with_dirs (<[p := d]> (dirs s')) s'));
  quiet_free : ∀ k p s, pa_quiet k s → is_Some (tabs s !! p) ∨ is_Some (dirs s !! p) →
    ∃ s', kfree_pa p s = Ok s' ∧ same_memory s s' ∧ pa_quiet k s';
  quiet_ext : ∀ n s s', pa_quiet n s → identity_end s' = identity_end s →
    memsize s' = memsize s → dom (tabs s') ⊆ dom (tabs s) →
    dom (dirs s') ⊆ dom (dirs s) → pa_quiet n s';
  quiet_le : ∀ n k s, pa_quiet n s → k ≤ n → pa_quiet k s
}.

(** ** The loop of [task_destroy] over the pages of the task *)
Section code.
Context {PA : PageAlloc}.

Definition free_page (pd n : Z) (s : mm) : res mm :=
  let i := n * PAGE_SIZE in
  let* flags := page_flags i pd s in
  if negb (has flags PF_PRES) then Ok s
  else
    let* phys := get_phys i pd s in
    let* s := frame_free phys s in
    let* (_, s) := page_map i 0 0 pd s in
    Ok s.

(** [i] wraps to zero at the end, where the loop breaks: it visits every page from the
    kernel stack on, here by number. *)
Definition free_pages (pd : Z) (s : mm) : res mm :=
  for_range KPAGES NPAGES (free_page pd) s.

(** [kfree(task->page_dir)] *)
Definition free_page_dir (pd : Z) (s : mm) : res mm :=
  let* s := kfree_pa pd s in Ok (with_dirs (delete pd (dirs s)) s).
End code.

(** ** The page table entry of a page, zero where there is no table *)
Definition table_at (s : mm) (d i : Z) : Z :=
  match dirs s !! d with
  | Some x => default 0 (aget (tables x) i)
  | None => 0
  end.

Definition pte (s : mm) (d n : Z) : page_t := default page_zero (entry_of s d (n * PAGE_SIZE)).

(** The directories that exist have the kernel's tables, and no other in common. *)
Definition layout (s : mm) : Prop :=
  ∀ d1 d2 x1 x2, dirs s !! d1 = Some x1 → dirs s !! d2 = Some x2 →
    (∀ i, 0 ≤ i < KTABS → ∃ p, p ≠ 0 ∧ aget (tables x1) i = Some p ∧ aget (tables x2) i = Some p) ∧
    ∀ i j p, aget (tables x1) i = Some p → aget (tables x2) j = Some p → p ≠ 0 →
      i = j ∧ (i < KTABS ∨ d1 = d2).

Lemma page_indices n : 0 ≤ n < NPAGES →
  dir_index (n * PAGE_SIZE) = n / 1024 ∧ tab_index (n * PAGE_SIZE) = n mod 1024.
Proof.
  unfold NPAGES, PAGE_SIZE. intros Hn. rewrite dir_index_div, tab_index_div, Z.div_mul by lia.
  split; [|done]. apply Z.mod_small. Z.div_mod_to_equations. lia.
Qed.

Lemma entry_of_table s d n : mm_shape s → is_Some (dirs s !! d) → 0 ≤ n < NPAGES →
  entry_of s d (n * PAGE_SIZE) =
    if table_at s d (n / 1024) =? 0 then None
    else tabs s !! table_at s d (n / 1024) ≫= λ t, aget t (n mod 1024).
Proof.
  intros Hs [x Hx] Hn. destruct (page_indices n Hn) as [E1 E2].
  unfold entry_of, table_at. rewrite Hx, E1, E2. simpl.
  destruct (slot_total s d x (n * PAGE_SIZE) Hs Hx) as [p Hp]. rewrite E1 in Hp.
  rewrite Hp. simpl. by destruct (p =? 0).
Qed.

(** Two pages have one entry when their number is the same, in one directory or under
    the kernel's tables. *)
Definition same_slot (d1 n1 d2 n2 : Z) : Prop := n1 = n2 ∧ (d1 = d2 ∨ n1 / 1024 < KTABS).

Lemma slot_page s d x n : dirs s !! d = Some x → 0 ≤ n < NPAGES → mm_shape s →
  slot_of s d (n * PAGE_SIZE) =
    if table_at s d (n / 1024) =? 0 then None else Some (table_at s d (n / 1024), n mod 1024).
Proof.
  intros Hx Hn Hs. destruct (page_indices n Hn) as [E1 E2].
  unfold slot_of, table_at. rewrite Hx, E1, E2. simpl.
  destruct (slot_total s d x (n * PAGE_SIZE) Hs Hx) as [p Hp]. rewrite E1 in Hp.
  rewrite Hp. simpl. by destruct (p =? 0).
Qed.

Lemma div_mod_eq a b : a / 1024 = b / 1024 → a mod 1024 = b mod 1024 → a = b.
Proof. intros. Z.div_mod_to_equations. lia. Qed.

Lemma layout_slot s d1 n1 d2 n2 : layout s → mm_shape s →
  is_Some (dirs s !! d1) → is_Some (dirs s !! d2) → 0 ≤ n1 < NPAGES → 0 ≤ n2 < NPAGES →
  table_at s d1 (n1 / 1024) ≠ 0 →
  (slot_of s d2 (n2 * PAGE_SIZE) = slot_of s d1 (n1 * PAGE_SIZE) ↔ same_slot d1 n1 d2 n2).
Proof.
  intros HL Hs [x1 H1] [x2 H2] Hn1 Hn2 Ht.
  rewrite (slot_page s d1 x1), (slot_page s d2 x2) by done.
  replace (table_at s d1 (n1 / 1024) =? 0) with false by lia.
  unfold table_at in *. rewrite H1, H2 in *.
  destruct (aget (tables x1) (n1 / 1024)) as [p1|] eqn:E1; [|done]. simpl in *.
  destruct (HL d1 d2 x1 x2 H1 H2) as [HK HP]. split.
  - case_match; [done|]. intros [= Ep Em].
    destruct (aget (tables x2) (n2 / 1024)) as [p2|] eqn:E2; [|done]. simpl in Ep. subst p2.
    destruct (HP _ _ p1 E1 E2 Ht) as [Ei Hc]. split; [|naive_solver lia].
    by apply div_mod_eq.
  - intros [<- [<-|Hk]].
    + assert (x2 = x1) as -> by congruence. rewrite E1. simpl.
      by replace (p1 =? 0) with false by lia.
    + destruct (HK (n1 / 1024)) as (p & Hp & Ea & Eb); [Z.div_mod_to_equations; lia|].
      assert (p = p1) as -> by congruence. rewrite Eb. simpl.
      by replace (p1 =? 0) with false by lia.
Qed.

(** ** page_map, exactly *)
Section map.
Context {PA : PageAlloc} {QA : QuietAlloc}.

(** What an operation on the tables leaves alone. *)
Definition same_frames (s s' : mm) : Prop :=
  (frames s', memsize s', ram s', spaces s', dom (dirs s')) =
  (frames s, memsize s, ram s, spaces s, dom (dirs s)).

Lemma table_at_range s d x i : mm_shape s → dirs s !! d = Some x → 0 ≤ i < 1024 →
  aget (tables x) i = Some (table_at s d i).
Proof.
  intros Hs Hx Hi. unfold table_at. rewrite Hx.
  destruct (aget_is_Some (tables x) i) as [p Hp]; [|by rewrite Hp].
  destruct (Hs d x Hx) as (-> & _). lia.
Qed.

Lemma layout_kernel_table s d i : layout s → is_Some (dirs s !! d) → 0 ≤ i < KTABS →
  table_at s d i ≠ 0.
Proof.
  intros HL [x Hx] Hi. destruct (HL d d x x Hx Hx) as [HK _].
  destruct (HK i Hi) as (p & Hp & E & _). unfold table_at. by rewrite Hx, E.
Qed.

Section hang_facts.
Variables (s : mm) (pd i p : Z) (x : page_dir_t).
Hypothesis Hs : mm_ok s.
Hypothesis HL : layout s.
Hypothesis Hx : dirs s !! pd = Some x.
Hypothesis Hi : 0 ≤ i < 1024.
Hypothesis H0 : aget (tables x) i = Some 0.
Hypothesis Hp : fresh_table s p.
Let s' := hang_table pd i p x s.

Lemma hang_lookup d y : dirs s' !! d = Some y → ∃ z, dirs s !! d = Some z ∧
  tables_phys y = tables_phys z ∧
  ∀ j, aget (tables y) j = if (d =? pd) && (i =? j) then Some p else aget (tables z) j.
Proof using Hs Hx Hi.
  unfold s', hang_table. cbn [dirs with_tabs with_dirs].
  intros [[<- <-]|[Hne Hy]]%lookup_insert_Some.
  - exists x. split; [done|]. split; [done|]. intros j. rewrite Z.eqb_refl. cbn [andb tables].
    apply (hang_tables s pd i p x); done || apply Hs.
  - exists y. split; [done|]. split; [done|]. intros j. by replace (d =? pd) with false by lia.
Qed.

Lemma hang_layout : layout s'.
Proof using Hs HL Hx Hi H0 Hp.
  assert (HiK : KTABS ≤ i).
  { destruct (Z.lt_ge_cases i KTABS) as [Hlt|]; [|done]. exfalso.
    destruct (HL pd pd x x Hx Hx) as [HK _]. destruct (HK i) as (q & Hq & E & _); [lia|].
    congruence. }
  assert (Hu : ∀ d y j q, dirs s !! d = Some y → aget (tables y) j = Some q → q ≠ 0 → q ≠ p).
  { intros d y j q Hd Hj Hq. by apply (used_table s p (proj1 Hs) Hp d y j q). }
  intros d1 d2 y1 y2 (z1 & Hz1 & _ & E1)%hang_lookup (z2 & Hz2 & _ & E2)%hang_lookup.
  destruct (HL d1 d2 z1 z2 Hz1 Hz2) as [HK HP]. split.
  - intros j Hj. destruct (HK j Hj) as (q & Hq & Ea & Eb). exists q. rewrite E1, E2.
    replace (i =? j) with false by lia. by rewrite !andb_false_r.
  - intros j k q. rewrite E1, E2.
    assert (Hc : ∀ d l, (d =? pd) && (i =? l) = true → d = pd ∧ i = l).
    { intros d l Hb. apply andb_true_iff in Hb as [? ?]. lia. }
    destruct ((d1 =? pd) && (i =? j)) eqn:B1, ((d2 =? pd) && (i =? k)) eqn:B2; intros Ea Eb Hq.
    + apply Hc in B1 as [-> ->]. apply Hc in B2 as [-> ->]. split; [done|by right].
    + exfalso. injection Ea as <-. by apply (Hu _ _ _ _ Hz2 Eb Hq).
    + exfalso. injection Eb as <-. by apply (Hu _ _ _ _ Hz1 Ea Hq).
    + by apply (HP j k q).
Qed.

Lemma hang_pte d n : is_Some (dirs s !! d) → 0 ≤ n < NPAGES → pte s' d n = pte s d n.
Proof using Hs Hx Hi H0 Hp.
  intros Hd Hn. pose proof (hang_shape s pd i p x (proj1 Hs) Hx Hi Hp) as Hs'. fold s' in Hs'.
  assert (Hd' : is_Some (dirs s' !! d)).
  { unfold s', hang_table. cbn [dirs with_tabs with_dirs]. by apply lookup_insert_is_Some'; right. }
  unfold pte. rewrite !entry_of_table by (done || apply Hs).
  destruct Hd' as [y Hy]. destruct (hang_lookup d y Hy) as (z & Hz & _ & Ez).
  unfold table_at at 1 2. rewrite Hy, Ez. unfold table_at. rewrite Hz.
  assert (Hother : ∀ d z j, dirs s !! d = Some z → default 0 (aget (tables z) j) ≠ 0 →
    default 0 (aget (tables z) j) ≠ p).
  { intros e w j Hw Hq. destruct (aget (tables w) j) as [q'|] eqn:E; [|done].
    by apply (used_table s p (proj1 Hs) Hp _ _ _ _ Hw E). }
  assert (Ht : tabs s' = <[p := tab_zero]> (tabs s)) by done. rewrite Ht.
  destruct (Z.eqb_spec d pd) as [->|Hdp]; destruct (Z.eqb_spec i (n / 1024)) as [->|Hin]; cbn [andb].
  { assert (z = x) as -> by congruence. rewrite H0. cbn [default]. unfold id. destruct Hp as [Hp0 _].
    replace (p =? 0) with false by lia.
    rewrite lookup_insert_eq. cbn [mbind option_bind]. change (0 =? 0) with true. cbn iota.
    assert (aget tab_zero (n mod 1024) = Some page_zero) as ->; [|done].
    destruct (aget_is_Some tab_zero (n mod 1024)) as [e He].
    { change (length tab_zero) with 1024%nat. pose proof (Z.mod_pos_bound n 1024). lia. }
    rewrite He. by apply aget_replicate in He as ->. }
  all: destruct (Z.eqb_spec (default 0 (aget (tables z) (n / 1024))) 0) as [|Hq]; [done|].
  all: by rewrite lookup_insert_ne by (apply not_eq_sym; by eapply Hother).
Qed.
End hang_facts.

Lemma layout_ext s s' : (∀ pd, tables <$> dirs s' !! pd = tables <$> dirs s !! pd) →
  layout s → layout s'.
Proof.
  intros E HL d1 d2 x1 x2 H1 H2. pose proof (E d1) as E1. pose proof (E d2) as E2.
  rewrite H1 in E1. rewrite H2 in E2.
  destruct (dirs s !! d1) as [y1|] eqn:Y1, (dirs s !! d2) as [y2|] eqn:Y2; try done.
  simpl in E1, E2. injection E1 as E1. injection E2 as E2. rewrite E1, E2.
  by apply (HL d1 d2).
Qed.

Lemma dirs_ext s s' d : (∀ pd, tables <$> dirs s' !! pd = tables <$> dirs s !! pd) →
  is_Some (dirs s !! d) → is_Some (dirs s' !! d).
Proof. intros E [x Hx]. specialize (E d). rewrite Hx in E. by destruct (dirs s' !! d). Qed.

Lemma pte_ext s s' d n : (∀ pd, tables <$> dirs s' !! pd = tables <$> dirs s !! pd) →
  tabs s' = tabs s → pte s' d n = pte s d n.
Proof. intros E Et. unfold pte. by rewrite (entry_of_ext s s') by done. Qed.

Lemma table_at_ext s s' d i : (∀ pd, tables <$> dirs s' !! pd = tables <$> dirs s !! pd) →
  table_at s' d i = table_at s d i.
Proof.
  intros E. unfold table_at. specialize (E d).
  destruct (dirs s' !! d), (dirs s !! d); try done. simpl in E. by injection E as ->.
Qed.

(** The table for page [n] of [pd] is there afterwards, and no entry has changed. *)
Lemma make_table_quiet k pd i flags s : mm_ok s → layout s → is_Some (dirs s !! pd) →
  0 ≤ i < 1024 → 0 ≤ k → pa_quiet (if table_at s pd i =? 0 then TABLE_ROOM + k else k) s →
  ∃ s', make_table pd i flags s = Ok (true, s') ∧ mm_ok s' ∧ layout s' ∧ pa_quiet k s' ∧
    same_frames s s' ∧ table_at s' pd i ≠ 0 ∧
    (∀ d j, d ≠ pd ∨ j ≠ i ∨ table_at s pd i ≠ 0 → table_at s' d j = table_at s d j) ∧
    (table_at s pd i ≠ 0 → s' = s) ∧
    ∀ d n, is_Some (dirs s !! d) → 0 ≤ n < NPAGES → pte s' d n = pte s d n.
Proof.
  intros Hok HL [x Hx] Hi Hk HQ. unfold make_table. rewrite Hx. cbn [deref rbind].
  pose proof (table_at_range s pd x i (proj1 Hok) Hx Hi) as Hq. rewrite Hq. cbn [deref rbind].
  destruct (Z.eqb_spec (table_at s pd i) 0) as [E0|Hne].
  2:{ exists s. split; [done|]. split; [done|]. split; [done|]. split; [done|]. split; [done|].
      split; [done|]. split; [done|]. by split. }
  rewrite E0 in Hq. change (1024 * 4) with 4096.
  destruct (quiet_alloc 4096 k s) as (p & s1 & E & Hp0 & Ht & Hd & Hsame & HQt & _);
    [exact HQ|done|done|].
  rewrite E. cbn [rbind]. unfold same_memory in Hsame.
  injection Hsame as F1 F2 F3 F4 F5 F6 F7.
  assert (Hok1 : mm_ok s1). { unfold mm_ok, mm_shape, dir_shape. rewrite F5, F6. exact Hok. }
  assert (HL1 : layout s1) by (apply (layout_ext s); [by rewrite F5|done]).
  rewrite <- F5 in Hx. rewrite <- F6 in Ht.
  rewrite (set_table_spec s1 pd x) by (done || apply Hok1). cbn [rbind].
  replace (p =? 0) with false by lia.
  cbv zeta. match goal with |- context [get_phys p pd ?y] =>
    change y with (hang_table pd i p x s1) end.
  assert (Hf : fresh_table s1 p) by done. set (s3 := hang_table pd i p x s1).
  pose proof (hang_shape s1 pd i p x (proj1 Hok1) Hx Hi Hf) as Hs3. fold s3 in Hs3.
  pose proof (hang_layout s1 pd i p x Hok1 HL1 Hx Hi Hq Hf) as HL3. fold s3 in HL3.
  assert (Hd3 : dirs s3 !! pd = Some (PageDir (<[Z.to_nat i := p]> (tables x)) (tables_phys x)))
    by (unfold s3, hang_table; cbn [dirs with_tabs with_dirs]; apply lookup_insert_eq).
  rewrite get_phys_entry by (done || by eexists). cbn [rbind].
  set (phys := match entry_of _ _ _ with Some _ => _ | None => _ end).
  destruct (update_pde_spec s3 pd _ i (new_pde flags (Z.shiftr phys 12)) Hs3 Hd3 Hi)
    as (e & es & -> & He & Hes & Hs4). cbn [rbind].
  destruct (with_pdes_rest pd es s3) as (Er1 & Er2 & Er3 & Er4 & Er5 & Er6).
  pose proof (with_pdes_tables pd es s3) as Hext.
  assert (Hdom3 : dom (dirs s3) = dom (dirs s)).
  { unfold s3, hang_table. cbn [dirs with_tabs with_dirs]. rewrite <- F5.
    apply dom_insert_lookup_L. by eexists. }
  exists (with_pdes pd es s3). split; [done|]. split; [split; [done|]|].
  { eapply update_pde_present; [|exact Hd3| |exact He|exact Hes|done].
    - intros pd' d' Hd'. apply lookup_delete_Some in Hd' as [Hnn Hd'].
      apply (proj2 Hok1 pd'). unfold s3, hang_table in Hd'.
      cbn [dirs with_tabs with_dirs] in Hd'. by rewrite lookup_insert_ne in Hd'.
    - intros j r e1 Hj Hr Hrn He1. cbn [tables tables_phys] in *.
      rewrite (hang_tables s1 pd i p x (proj1 Hok1) Hx Hi) in Hr.
      replace (i =? j) with false in Hr by lia. by eapply (proj2 Hok1 pd x). }
  split; [by apply (layout_ext s3)|]. split.
  { apply (quiet_ext k (with_tabs (<[p := tab_zero]> (tabs s1)) s1)); [apply HQt|..].
    - by rewrite Er3. - by rewrite Er2. - by rewrite Er1.
    - rewrite Er5, Hdom3. cbn [dirs with_tabs]. by rewrite F5. }
  split.
  { unfold same_frames. rewrite Er2, Er4, Er5, Er6, Hdom3. unfold spaces.
    assert (ram (with_pdes pd es s3) = ram s3) as -> by (unfold with_pdes; by case_match).
    cbn. by rewrite F1, F2, F3, F4, F7. }
  split; [|split].
  - unfold table_at. specialize (Hext pd). rewrite Hd3 in Hext.
    destruct (dirs (with_pdes pd es s3) !! pd) as [y|]; [|done]. simpl in Hext.
    injection Hext as ->. rewrite (hang_tables s1 pd i p x (proj1 Hok1) Hx Hi).
    by rewrite Z.eqb_refl.
  - intros d j Hne. rewrite (table_at_ext s3) by done. unfold table_at, s3, hang_table.
    cbn [dirs with_tabs with_dirs]. destruct (decide (d = pd)) as [->|Hd'].
    + rewrite lookup_insert_eq, <- F5, Hx. cbn [tables].
      rewrite (hang_tables s1 pd i p x (proj1 Hok1) Hx Hi). destruct Hne as [?|[Hj|Ht']]; [done| |done].
      by replace (i =? j) with false by lia.
    + by rewrite lookup_insert_ne, F5 by done.
  - split; [done|]. intros d n Hdn Hn. rewrite (pte_ext s3) by done.
    unfold s3. rewrite hang_pte; [|done..|by rewrite F5|done].
    apply pte_ext; [by rewrite F5|done].
Qed.

Lemma pte_slot s d n e : entry_of s d (n * PAGE_SIZE) = Some e → pte s d n = e.
Proof. unfold pte. by intros ->. Qed.

Lemma page_map_quiet k n fr flags pd s : mm_ok s → layout s → is_Some (dirs s !! pd) →
  0 ≤ n < NPAGES → 0 ≤ k → pa_quiet (if table_at s pd (n / 1024) =? 0 then TABLE_ROOM + k else k) s →
  ∃ s', page_map (n * PAGE_SIZE) fr flags pd s = Ok (n * PAGE_SIZE, s') ∧
    mm_ok s' ∧ layout s' ∧ pa_quiet k s' ∧ same_frames s s' ∧
    table_at s' pd (n / 1024) ≠ 0 ∧
    (∀ d j, d ≠ pd ∨ j ≠ n / 1024 ∨ table_at s pd (n / 1024) ≠ 0 →
       table_at s' d j = table_at s d j) ∧
    (table_at s pd (n / 1024) ≠ 0 → ∀ d j, pde_on s' d j = pde_on s d j) ∧
    ∀ d2 n2, is_Some (dirs s !! d2) → 0 ≤ n2 < NPAGES →
      pte s' d2 n2 = if decide (n2 = n ∧ (d2 = pd ∨ n < KPAGES)) then new_page flags fr (pte s pd n)
                     else pte s d2 n2.
Proof.
  intros Hok HL Hpd Hn Hk HQ. destruct (page_indices n Hn) as [Ed _].
  assert (Hb : clr (n * PAGE_SIZE) (PAGE_SIZE - 1) = n * PAGE_SIZE).
  { rewrite page_base by (unfold PAGE_SIZE; lia). unfold PAGE_SIZE. by rewrite Z.div_mul. }
  assert (Hr : 0 ≤ n / 1024 < 1024) by (unfold NPAGES in Hn; Z.div_mod_to_equations; lia).
  destruct (make_table_quiet k pd (n / 1024) flags s Hok HL Hpd Hr Hk HQ)
    as (s1 & E1 & Hok1 & HL1 & HQ1 & Hsame & Ht1 & Ht1' & Hs1' & Hp1).
  unfold page_map. rewrite Hb, Ed, E1. cbn [rbind negb].
  assert (Hsd : ∀ d, is_Some (dirs s !! d) ↔ is_Some (dirs s1 !! d)).
  { intros d. rewrite <- !elem_of_dom. injection Hsame as _ _ _ _ _ ->. done. }
  destruct (proj1 (Hsd pd) Hpd) as [x1 Hx1].
  pose proof (table_at_range s1 pd x1 (n / 1024) (proj1 Hok1) Hx1 Hr) as Hq1. rewrite <- Ed in Hq1.
  destruct (page_write s1 pd x1 (n * PAGE_SIZE) _ (new_page flags fr) (pde_rw flags) (proj1 Hok1)
    Hx1 Hq1) as (e & s2 & E2 & He & Hs2 & Hp2 & Htab & (G1 & G2 & G3 & G4 & G5 & G6 & _) & Hsl & Hon2 & Hen);
    [by rewrite Ed|unfold PAGE_SIZE; lia|done|].
  assert (Hdiv : n * PAGE_SIZE / 4096 * 4096 = n * PAGE_SIZE)
    by (unfold PAGE_SIZE; by rewrite Z.div_mul).
  rewrite Hdiv, Ed in E2. apply rbind_Ok in E2 as (s3 & E3 & E4).
  rewrite E3. cbn [rbind]. rewrite E4. cbn [rbind].
  assert (Hram : ram s2 = ram s1).
  { unfold update_page, update_pde in E3, E4.
    repeat (apply rbind_Ok in E3 as (? & _ & E3)). repeat (apply rbind_Ok in E4 as (? & _ & E4)).
    simplify_eq/=. done. }
  exists s2. split; [done|]. split; [split; [done|by apply Hp2, Hok1]|].
  split; [by apply (layout_ext s1)|]. split.
  { apply (quiet_ext k s1); [done|done|done|by rewrite G1|by rewrite G2]. }
  split.
  { unfold same_frames in *. rewrite G2, G3, G5, G6, Hram. done. }
  split; [by rewrite (table_at_ext s1)|].
  split; [intros d j Hne; rewrite (table_at_ext s1) by done; by apply Ht1'|].
  split; [intros Ht0 d j; by rewrite Hon2, (Hs1' Ht0)|].
  intros d2 n2 Hd2 Hn2. rewrite <- (Hp1 d2 n2 Hd2 Hn2), <- (Hp1 pd n Hpd Hn).
  rewrite (pte_slot s1 pd n e He). unfold pte at 1. rewrite Hen.
  assert (Hiff : slot_of s1 d2 (n2 * PAGE_SIZE) = slot_of s1 pd (n * PAGE_SIZE) ↔
    n2 = n ∧ (d2 = pd ∨ n < KPAGES)).
  { rewrite (layout_slot s1 pd n d2 n2); [|done|apply Hok1|by exists x1|by apply Hsd|done..].
    unfold same_slot, KTABS. change KPAGES with 64512. split.
    - intros [<- H]. split; [done|]. destruct H as [?|H]; [by left|right]. Z.div_mod_to_equations. lia.
    - intros [-> H]. split; [done|]. destruct H as [?|H]; [by left|right]. Z.div_mod_to_equations. lia. }
  destruct (decide (n2 = n ∧ _)) as [Hy|Hno].
  - by rewrite decide_True by (by apply Hiff).
  - by rewrite decide_False by (by rewrite Hiff).
Qed.
End map.

(** ** The flags of a page *)
Definition flag_bits (e : page_t) : list bool :=
  [present e; rw e; user e; wt_caching e; nocache e; accessed e; dirty e; zero e; global e].

(** The low half of [page_flags]. *)
Definition low_flags (e : page_t) : Z :=
  foldr (λ (b : bool) acc, Z.b2z b + 2 * acc) 0 (flag_bits e).

Lemma low_flags_bit e k : 0 ≤ k → Z.testbit (low_flags e) k = default false (aget (flag_bits e) k).
Proof.
  intros Hk. unfold low_flags. generalize (flag_bits e) as l. intros l. revert k Hk.
  induction l as [|b l IH]; intros k Hk; cbn [foldr].
  { rewrite Z.bits_0. unfold aget. cif; [done|]. by destruct (Z.to_nat k). }
  destruct (Z.eqb_spec k 0) as [->|Hne].
  - rewrite Z.add_comm, Z.testbit_0_r. done.
  - rewrite Z.add_comm. replace k with (Z.succ (k - 1)) at 1 by lia.
    rewrite Z.testbit_succ_r, IH by lia. unfold aget.
    replace (k <? 0) with false by lia. replace (k - 1 <? 0) with false by lia.
    replace (Z.to_nat k) with (S (Z.to_nat (k - 1))) by lia. done.
Qed.

Lemma low_flags_new flags fr e0 e : zero e = false →
  (∀ k, 0 ≤ k < 9 → Z.testbit flags k = Z.testbit (low_flags e) k) →
  low_flags (new_page flags fr e0) = low_flags e.
Proof.
  intros Hz Hb. unfold low_flags at 1, flag_bits, new_page. cbn [present rw user wt_caching nocache
    accessed dirty zero global].
  assert (Hh : ∀ k, 0 ≤ k < 9 → has flags (2 ^ k) = default false (aget (flag_bits e) k)).
  { intros k Hk. rewrite has_bit, Hb, low_flags_bit by lia. done. }
  change PF_PRES with (2 ^ 0). change PF_RW with (2 ^ 1). change PF_USER with (2 ^ 2).
  change PF_WTC with (2 ^ 3). change PF_NOC with (2 ^ 4). change PF_ACC with (2 ^ 5).
  change PF_DIRTY with (2 ^ 6). change PF_GLO with (2 ^ 8).
  rewrite (Hh 0), (Hh 1), (Hh 2), (Hh 3), (Hh 4), (Hh 5), (Hh 6), (Hh 8) by lia.
  unfold low_flags, flag_bits, aget. simpl. by rewrite Hz.
Qed.

Lemma flag_shift b k j : 0 ≤ k → 0 ≤ j → Z.testbit (Z.shiftl (Z.b2z b) k) j = b && (j =? k).
Proof.
  intros Hk Hj. rewrite Z.shiftl_spec by lia. destruct b; cbn [Z.b2z].
  - destruct (Z.eqb_spec j k) as [->|]; [by rewrite Z.sub_diag|].
    destruct (Z.lt_ge_cases j k); [by rewrite Z.testbit_neg_r by lia|].
    rewrite (Z.bits_above_log2 1); [done|lia|simpl; lia].
  - by rewrite Z.bits_0.
Qed.

Lemma page_flags_low s pd n : mm_ok s → is_Some (dirs s !! pd) → 0 ≤ n < NPAGES →
  ∃ fl, page_flags (n * PAGE_SIZE) pd s = Ok fl ∧
    (∀ k, 0 ≤ k < 9 → Z.testbit fl k = Z.testbit (low_flags (pte s pd n)) k) ∧
    Z.testbit fl 16 = pde_on s pd (n / 1024).
Proof.
  intros [Hs Hp] [x Hx] Hn. unfold page_flags, pte. rewrite Hx. cbn [deref rbind].
  pose proof (Hs pd x Hx) as (Hl1 & Hl2 & _ & _). set (a := n * PAGE_SIZE).
  pose proof (dir_index_range a) as Hr.
  destruct (aget_is_Some (tables_phys x) (dir_index a)) as [e He]; [lia|].
  destruct (aget_is_Some (tables x) (dir_index a)) as [p Hpt]; [lia|].
  rewrite He. cbn [deref rbind]. rewrite Hpt. cbn [deref rbind].
  set (hi := u32 _).
  assert (Hlow : ∀ k, 0 ≤ k < 16 → Z.testbit hi k = false).
  { intros k Hk. unfold hi, uint. rewrite Z.mod_pow2_bits_low by lia.
    by rewrite Z.shiftl_spec_low by lia. }
  assert (H16 : Z.testbit hi 16 = pde_on s pd (n / 1024)).
  { unfold pde_on. rewrite Hx. destruct (page_indices n Hn) as [Ed _]. fold a in Ed. rewrite <- Ed, He.
    unfold hi, uint. rewrite Z.mod_pow2_bits_low, Z.shiftl_spec by lia.
    rewrite !Z.lor_spec, !flag_shift by lia. simpl. rewrite !andb_false_r, !orb_false_r.
    by rewrite andb_true_r. }
  destruct (Z.eqb_spec p 0) as [->|Hne]; cbn [negb andb].
  { exists hi. split; [done|]. split; [|exact H16]. intros k Hk. unfold entry_of. rewrite Hx. cbn [mbind option_bind].
    rewrite Hpt. cbn [mbind option_bind default Z.eqb]. rewrite Hlow by lia.
    by rewrite Z.bits_0. }
  assert (Hpres : Z.land hi (Z.shiftl PF_PRES 16) = Z.shiftl PF_PRES 16).
  { apply Z.bits_inj'. intros k Hk. change (Z.shiftl PF_PRES 16) with (2 ^ 16).
    rewrite Z.land_spec, Z.pow2_bits_eqb by lia. destruct (Z.eqb_spec 16 k) as [<-|];
      [|apply andb_false_r].
    rewrite andb_true_r. unfold hi, uint. rewrite Z.mod_pow2_bits_low by lia.
    rewrite Z.shiftl_spec by lia. rewrite !Z.lor_spec, !flag_shift, (Hp pd x Hx _ _ _ Hpt Hne He) by lia.
    done. }
  rewrite Hpres, Z.eqb_refl.
  destruct (entry_total s pd x a p Hs Hx Hpt Hne) as (t & pe & Et & _ & Ee & ->).
  rewrite Et. cbn [deref rbind]. rewrite Ee. cbn [deref rbind default]. eexists. split; [done|].
  split; [|rewrite !Z.lor_spec, !flag_shift, H16 by lia; simpl; by rewrite !andb_false_r, !orb_false_r].
  intros k Hk. rewrite low_flags_bit by lia. rewrite !Z.lor_spec, !flag_shift, Hlow by lia.
  assert (k = 0 ∨ k = 1 ∨ k = 2 ∨ k = 3 ∨ k = 4 ∨ k = 5 ∨ k = 6 ∨ k = 7 ∨ k = 8) as Hc by lia.
  unfold flag_bits.
  repeat destruct Hc as [->|Hc]; [..|subst k]; simpl; rewrite ?andb_false_r, ?andb_true_r, ?orb_false_r; done.
Qed.

(** ** The private memory of the address spaces *)
Definition page_rep (s : mm) (e : page_t) (o : option (Z * list Z)) : Prop :=
  match o with
  | None => present e = false
  | Some (f, c) => present e = true ∧ zero e = false ∧ f = low_flags e ∧
      0 ≤ frame e < 32 * NFRAMEWORDS ∧ frame_bit (frames s) (frame e) = true ∧
      ram s !! (frame e * PAGE_SIZE) = Some c
  end.

Definition private (n : Z) : Prop := KPAGES ≤ n < NPAGES.

Section rep.
Context {PA : PageAlloc} {QA : QuietAlloc}.

(** The private pages of the directories in [V] are those of their memory, each in a
    frame that no other page has. *)
Record pages_ok (s : mm) (V : gmap Z umem) : Prop := {
  po_pages : ∀ d m n, V !! d = Some m → private n → page_rep s (pte s d n) (m !! n);
  po_keys : ∀ d m n, V !! d = Some m → is_Some (m !! n) → private n;
  po_own : ∀ d1 n1 d2 n2, is_Some (V !! d1) → is_Some (V !! d2) → private n1 → private n2 →
    present (pte s d1 n1) = true → present (pte s d2 n2) = true →
    frame (pte s d1 n1) = frame (pte s d2 n2) → d1 = d2 ∧ n1 = n2
}.

Record rep (s : mm) (V : gmap Z umem) : Prop := {
  r_ok : mm_ok s;
  r_frames : frames_ok s;
  r_layout : layout s;
  r_dom : dom (dirs s) = dom V;
  r_kernel : is_Some (V !! cur_page_dir s);
  r_loaded : is_Some (V !! cr3 s);
  r_pages : pages_ok s V
}.

Lemma rep_dir s V d : rep s V → is_Some (V !! d) ↔ is_Some (dirs s !! d).
Proof. intros H. by rewrite <- !elem_of_dom, (r_dom _ _ H). Qed.

(** Only what is said about the private pages and the frames they have counts. *)
Lemma pages_ok_ext s s' V : (∀ d n, is_Some (V !! d) → private n → pte s' d n = pte s d n) →
  (∀ d n, is_Some (V !! d) → private n → present (pte s d n) = true →
     frame_bit (frames s') (frame (pte s d n)) = frame_bit (frames s) (frame (pte s d n)) ∧
     ram s' !! (frame (pte s d n) * PAGE_SIZE) = ram s !! (frame (pte s d n) * PAGE_SIZE)) →
  pages_ok s V → pages_ok s' V.
Proof.
  intros He Hf [HP HK HO]. split; [|done|].
  - intros d m n Hd Hn. rewrite He by (done || by eexists). specialize (HP d m n Hd Hn).
    destruct (m !! n) as [[f c]|]; [|done]. destruct HP as (H1 & H2 & H3 & H4 & H5 & H6).
    destruct (Hf d n) as [E1 E2]; [by eexists|done..|]. unfold page_rep. by rewrite E1, E2.
  - intros d1 n1 d2 n2 H1 H2 Hn1 Hn2. rewrite !He by done. by apply HO.
Qed.

Lemma page_frame_range s V d n : pages_ok s V → is_Some (V !! d) → private n →
  present (pte s d n) = true →
  0 ≤ frame (pte s d n) < 32 * NFRAMEWORDS ∧ frame_bit (frames s) (frame (pte s d n)) = true.
Proof.
  intros [HP _ _] [m Hm] Hn Hpr. specialize (HP d m n Hm Hn).
  destruct (m !! n) as [[f c]|]; simpl in HP; [|congruence]. by destruct HP as (_ & _ & _ & ? & ? & _).
Qed.

(** A page is added in a frame that was free. *)
Lemma pages_add s s' V d m n f c fl : pages_ok s V → V !! d = Some m → private n →
  present (pte s d n) = false → frame_bit (frames s) f = false →
  (∀ d2 n2, is_Some (V !! d2) → private n2 → ¬ (d2 = d ∧ n2 = n) → pte s' d2 n2 = pte s d2 n2) →
  (∀ g, 0 ≤ g → frame_bit (frames s') g = if g =? f then true else frame_bit (frames s) g) →
  ram s' = <[f * PAGE_SIZE := c]> (ram s) → frame (pte s' d n) = f →
  page_rep s' (pte s' d n) (Some (fl, c)) → pages_ok s' (<[d := <[n := (fl, c)]> m]> V).
Proof.
  intros HP Hd Hn Hpr Hfree Hsame Hbits Hram Hf Hnew.
  assert (Hdom : ∀ d2, is_Some (<[d := <[n := (fl, c)]> m]> V !! d2) ↔ is_Some (V !! d2)).
  { intros d2. rewrite lookup_insert_is_Some. destruct (decide (d = d2)) as [<-|]; naive_solver. }
  assert (Hne : ∀ d2 n2, is_Some (V !! d2) → private n2 → present (pte s d2 n2) = true →
    frame (pte s d2 n2) ≠ f ∧ ¬ (d2 = d ∧ n2 = n)).
  { intros d2 n2 Hd2 Hn2 Hp2. destruct (page_frame_range _ _ _ _ HP Hd2 Hn2 Hp2) as [_ Hb].
    split; [congruence|]. intros [-> ->]. congruence. }
  split.
  - intros d2 m2 n2 Hd2 Hn2. destruct (decide (d2 = d ∧ n2 = n)) as [[-> ->]|Hother].
    { rewrite lookup_insert_eq in Hd2. injection Hd2 as <-. by rewrite lookup_insert_eq. }
    assert (∃ m0, V !! d2 = Some m0 ∧ m2 !! n2 = m0 !! n2) as (m0 & Hm0 & ->).
    { apply lookup_insert_Some in Hd2 as [[<- <-]|[_ Hd2]]; [|by exists m2].
      exists m. split; [done|]. rewrite lookup_insert_ne; naive_solver. }
    rewrite Hsame by (done || by eexists). pose proof (po_pages _ _ HP d2 m0 n2 Hm0 Hn2) as H.
    destruct (m0 !! n2) as [[f2 c2]|]; [|done]. destruct H as (H1 & H2 & H3 & H4 & H5 & H6).
    destruct (Hne d2 n2 ltac:(by eexists) Hn2 H1) as [Hff _]. unfold page_rep.
    rewrite Hbits, Hram, lookup_insert_ne by (unfold PAGE_SIZE; lia).
    replace (frame (pte s d2 n2) =? f) with false by lia. done.
  - intros d2 m2 n2 Hd2 Hs. apply lookup_insert_Some in Hd2 as [[<- <-]|[_ Hd2]].
    + apply lookup_insert_is_Some' in Hs as [<-|Hs]; [done|]. by apply (po_keys _ _ HP d m).
    + by apply (po_keys _ _ HP d2 m2).
  - intros d1 n1 d2 n2 H1%Hdom H2%Hdom Hn1 Hn2 Hp1 Hp2 E.
    destruct (decide (d1 = d ∧ n1 = n)) as [[-> ->]|Ho1], (decide (d2 = d ∧ n2 = n)) as [[-> ->]|Ho2].
    + done.
    + rewrite (Hsame d2 n2) in * by done. destruct (Hne d2 n2 H2 Hn2 Hp2) as [Hx _]. congruence.
    + rewrite (Hsame d1 n1) in * by done. destruct (Hne d1 n1 H1 Hn1 Hp1) as [Hx _]. congruence.
    + rewrite !Hsame in * by done. by apply (po_own _ _ HP).
Qed.

(** A page is taken away, and its frame is free. *)
Lemma pages_del s s' V d m n : pages_ok s V → V !! d = Some m → private n →
  present (pte s d n) = true → present (pte s' d n) = false →
  (∀ d2 n2, is_Some (V !! d2) → private n2 → ¬ (d2 = d ∧ n2 = n) → pte s' d2 n2 = pte s d2 n2) →
  (∀ g, 0 ≤ g → frame_bit (frames s') g =
     if g =? frame (pte s d n) then false else frame_bit (frames s) g) →
  ram s' = ram s → pages_ok s' (<[d := delete n m]> V).
Proof.
  intros HP Hd Hn Hpr Hpr' Hsame Hbits Hram.
  assert (Hdom : ∀ d2, is_Some (<[d := delete n m]> V !! d2) ↔ is_Some (V !! d2)).
  { intros d2. rewrite lookup_insert_is_Some. destruct (decide (d = d2)) as [<-|]; naive_solver. }
  split.
  - intros d2 m2 n2 Hd2 Hn2. destruct (decide (d2 = d ∧ n2 = n)) as [[-> ->]|Hother].
    { rewrite lookup_insert_eq in Hd2. injection Hd2 as <-. by rewrite lookup_delete_eq. }
    assert (∃ m0, V !! d2 = Some m0 ∧ m2 !! n2 = m0 !! n2) as (m0 & Hm0 & ->).
    { apply lookup_insert_Some in Hd2 as [[<- <-]|[_ Hd2]]; [|by exists m2].
      exists m. split; [done|]. rewrite lookup_delete_ne; naive_solver. }
    rewrite Hsame by (done || by eexists). pose proof (po_pages _ _ HP d2 m0 n2 Hm0 Hn2) as H.
    destruct (m0 !! n2) as [[f2 c2]|]; [|done]. destruct H as (H1 & H2 & H3 & H4 & H5 & H6).
    unfold page_rep. rewrite Hbits, Hram by lia.
    destruct (Z.eqb_spec (frame (pte s d2 n2)) (frame (pte s d n))) as [E|]; [|done].
    destruct Hother. apply (po_own _ _ HP); done || by eexists.
  - intros d2 m2 n2 Hd2 Hs. apply lookup_insert_Some in Hd2 as [[<- <-]|[_ Hd2]].
    + apply lookup_delete_is_Some in Hs as [_ Hs]. by apply (po_keys _ _ HP d m).
    + by apply (po_keys _ _ HP d2 m2).
  - intros d1 n1 d2 n2 H1%Hdom H2%Hdom Hn1 Hn2 Hp1 Hp2 E.
    destruct (decide (d1 = d ∧ n1 = n)) as [[-> ->]|Ho1]; [congruence|].
    destruct (decide (d2 = d ∧ n2 = n)) as [[-> ->]|Ho2]; [congruence|].
    rewrite !Hsame in * by done. by apply (po_own _ _ HP).
Qed.
End rep.

(** ** clone_page *)
Definition has_frames (s : mm) (k : Z) : Prop :=
  ∃ X : gset Z, k ≤ Z.of_nat (size X) ∧
    ∀ f, f ∈ X → 0 ≤ f < 32 * (memsize s / 32) ∧ frame_bit (frames s) f = false.

Lemma frame_alloc_free s k : frames_ok s → has_frames s (k + 1) → 0 ≤ k →
  ∃ f fs', frame_alloc s = Ok (f * 4096, with_frames fs' s) ∧ frames_ok (with_frames fs' s) ∧
    0 ≤ f < 32 * NFRAMEWORDS ∧ frame_bit (frames s) f = false ∧
    (∀ g, 0 ≤ g → frame_bit fs' g = if g =? f then true else frame_bit (frames s) g) ∧
    has_frames (with_frames fs' s) k.
Proof.
  intros Hok (X & Hk & HX) Hk0.
  destruct (frame_alloc_cases s Hok) as [[_ Hall]|(f & fs' & E & Hok' & Hf & Hfree & _ & Hb)].
  { assert (is_Some (elements X !! 0%nat)) as [f Hf].
    { apply lookup_lt_is_Some. change (length (elements X)) with (size X). lia. }
    apply list_elem_of_lookup_2, elem_of_elements, HX in Hf as [Hr Hf].
    rewrite Hall in Hf by done. done. }
  exists f, fs'. split; [done|]. split; [done|]. split.
  { destruct Hok as (_ & _ & ?). Z.div_mod_to_equations. lia. }
  split; [done|]. split; [done|]. exists (X ∖ {[f]}). split.
  - pose proof (size_difference_alt X {[f]}) as Hs.
    assert (size (X ∩ {[f]}) ≤ 1)%nat.
    { rewrite <- (size_singleton (C := gset Z) f). apply subseteq_size. set_solver. }
    lia.
  - intros g [Hg Hne]%elem_of_difference. apply HX in Hg as [Hr Hg]. split; [done|].
    cbn [frames with_frames]. rewrite Hb by lia. rewrite Hg. case_match; [|done]. set_solver by lia.
Qed.

Section clone.
Context {PA : PageAlloc} {QA : QuietAlloc}.

Lemma pa_quiet_frames k s fs r : pa_quiet k s → pa_quiet k (with_ram r (with_frames fs s)).
Proof. intros H. by apply (quiet_ext k s). Qed.

Lemma page_frame_pte s n : present (pte s (cr3 s) n) = true →
  page_frame (n * PAGE_SIZE) s = Ok (frame (pte s (cr3 s) n) * PAGE_SIZE).
Proof.
  unfold pte, page_frame. destruct (entry_of s (cr3 s) (n * PAGE_SIZE)) as [e|]; [|done].
  simpl. intros ->. by rewrite Z.shiftl_mul_pow2.
Qed.

Lemma new_page_frame fl f e : 0 ≤ f < 32 * NFRAMEWORDS → frame (new_page fl (f * 4096) e) = f.
Proof.
  rewrite NFRAMEWORDS_eq. intros Hf. unfold new_page. cbn [frame].
  rewrite (land_ones_mod _ 20), Z.shiftr_div_pow2 by done. change (2 ^ 12) with 4096.
  rewrite Z.div_mul by lia. apply Z.mod_small. simpl. lia.
Qed.

(** The kernel's page zero is mapped for a moment, to write the frame through it. *)
Definition copy_through (f src : Z) (s : mm) : res mm :=
  let* (_, s) := page_map 0 f (Z.lor PF_PRES PF_RW) (cur_page_dir s) s in
  let* s := copy_page 0 src s in
  let* (_, s) := page_map 0 0 0 (cur_page_dir s) s in
  Ok s.

Definition same_pages (s s' : mm) : Prop :=
  (frames s', memsize s', spaces s', dom (dirs s')) =
  (frames s, memsize s, spaces s, dom (dirs s)) ∧
  ∀ d n, is_Some (dirs s !! d) → private n → pte s' d n = pte s d n.

Lemma page_map_zero k fl fr s : mm_ok s → layout s → is_Some (dirs s !! cur_page_dir s) →
  0 ≤ k → pa_quiet k s →
  ∃ s', page_map 0 fr fl (cur_page_dir s) s = Ok (0, s') ∧
    mm_ok s' ∧ layout s' ∧ pa_quiet k s' ∧ same_pages s s' ∧ ram s' = ram s ∧
    (∀ d j, d ≠ cur_page_dir s → table_at s' d j = table_at s d j) ∧
    ∀ d, is_Some (dirs s !! d) → pte s' d 0 = new_page fl fr (pte s (cur_page_dir s) 0).
Proof.
  intros Hok HL Hc Hk HQ.
  destruct (page_map_quiet k 0 fr fl (cur_page_dir s) s)
    as (s' & E & Hok' & HL' & HQ' & Hsame & _ & Htab & _ & Hp); [done..|unfold NPAGES; lia|done| |].
  { change (0 / 1024) with 0. pose proof (layout_kernel_table s _ 0 HL Hc ltac:(unfold KTABS; lia)).
    by replace (table_at _ _ 0 =? 0) with false by lia. }
  injection Hsame as F1 F2 F3 F4 F5 F6. exists s'. change (0 * PAGE_SIZE) with 0 in E.
  split; [done|]. split; [done|]. split; [done|]. split; [done|]. split; [split|].
  - unfold spaces. by rewrite F1, F2, F4, F5, F6.
  - intros d n Hd Hn. unfold private in Hn. change KPAGES with 64512 in Hn.
    rewrite Hp, decide_False by (done || lia). done.
  - split; [done|]. split; [intros; apply Htab; by left|]. intros d Hd.
    rewrite Hp, decide_True; [done|split; [done|by right]|done|unfold NPAGES; lia].
Qed.

Lemma copy_through_ok k f n c s : mm_ok s → layout s → is_Some (dirs s !! cur_page_dir s) →
  is_Some (dirs s !! cr3 s) → 0 ≤ k → pa_quiet k s → 0 ≤ f < 32 * NFRAMEWORDS → private n →
  present (pte s (cr3 s) n) = true → ram s !! (frame (pte s (cr3 s) n) * PAGE_SIZE) = Some c →
  ∃ s', copy_through (f * 4096) (n * PAGE_SIZE) s = Ok s' ∧
    mm_ok s' ∧ layout s' ∧ pa_quiet k s' ∧ same_pages s s' ∧
    ram s' = <[f * PAGE_SIZE := c]> (ram s) ∧
    ∀ d j, d ≠ cur_page_dir s → table_at s' d j = table_at s d j.
Proof.
  intros Hok HL Hc Hl Hk HQ Hf Hn Hpr Hram. unfold copy_through.
  destruct (page_map_zero k (Z.lor PF_PRES PF_RW) (f * 4096) s) as
    (s1 & E1 & Hok1 & HL1 & HQ1 & [Hsame1 Hpte1] & Hram1 & Htab1 & H01); [done..|].
  rewrite E1. cbn [rbind]. injection Hsame1 as F1 F2 Fc F3 F4.
  assert (Hd : ∀ d, is_Some (dirs s !! d) ↔ is_Some (dirs s1 !! d))
    by (intros d; by rewrite <- !elem_of_dom, F4).
  unfold copy_page. rewrite page_frame_pte by (by rewrite F3, Hpte1). cbn [rbind].
  assert (Hz : pte s1 (cr3 s1) 0 = new_page (Z.lor PF_PRES PF_RW) (f * 4096) (pte s (cur_page_dir s) 0))
    by (rewrite F3; by apply H01).
  pose proof (page_frame_pte s1 0) as Hpf. change (0 * PAGE_SIZE) with 0 in Hpf.
  rewrite Hpf by (by rewrite Hz). cbn [rbind]. clear Hpf.
  rewrite Hz, new_page_frame, F3, Hpte1, Hram1, Hram by done. cbn [deref rbind].
  set (s2 := with_ram _ s1).
  assert (Hp2 : ∀ d m, pte s2 d m = pte s1 d m) by done.
  destruct (page_map_zero k 0 0 s2) as
    (s3 & E3 & Hok3 & HL3 & HQ3 & [Hsame3 Hpte3] & Hram3 & Htab3 & _); [done|done| |done|by apply (quiet_ext k s1)|].
  { change (is_Some (dirs s1 !! cur_page_dir s1)). by rewrite Fc, <- Hd. }
  rewrite E3. cbn [rbind]. injection Hsame3 as G1 G2 Gc G3 G4.
  exists s3. split; [done|]. split; [done|]. split; [done|]. split; [done|]. split; [split|split].
  - unfold spaces. rewrite G1, G2, Gc, G3, G4. cbn. by rewrite F1, F2, Fc, F3, F4.
  - intros d m Hdm Hm. rewrite Hpte3; [by apply Hpte1|by apply Hd|done].
  - by rewrite Hram3.
  - intros d j Hne. rewrite Htab3; [by apply Htab1|]. change (d ≠ cur_page_dir s1). by rewrite Fc.
Qed.

Lemma clone_page_through new old i s : clone_page new old i s =
  let* flags := page_flags i old s in
  if negb (has flags PF_PRES) then Ok s
  else
    let* (fr, s) := frame_alloc s in
    let* s := copy_through fr i s in
    let* (_, s) := page_map i fr flags new s in
    Ok s.
Proof.
  unfold clone_page, copy_through. destruct (page_flags i old s) as [fl| | |]; try done.
  cbn [rbind]. destruct (negb (has fl PF_PRES)); [done|].
  destruct (frame_alloc s) as [[fr s1]| | |]; try done. cbn [rbind].
  destruct (page_map 0 fr _ _ s1) as [[? s2]| | |]; try done. cbn [rbind].
  destruct (copy_page 0 i s2) as [s3| | |]; try done. cbn [rbind].
  by destruct (page_map 0 0 0 _ s3) as [[? s4]| | |].
Qed.

(** Room for the tables that the pages from [n] on may still need. *)
Definition tables_left (new n : Z) (s : mm) : Z :=
  (1024 - n / 1024 - (if table_at s new (n / 1024) =? 0 then 0 else 1)) * TABLE_ROOM.

Definition below (n : Z) (m : umem) : umem := filter (λ kv, kv.1 < n) m.
Definition above (n : Z) (m : umem) : umem := filter (λ kv, n ≤ kv.1) m.

Lemma below_next_None n m : m !! n = None → below (n + 1) m = below n m.
Proof.
  intros Hn. apply map_eq. intros k. unfold below. rewrite !map_lookup_filter.
  destruct (m !! k) as [x|] eqn:E; [|done]. simpl.
  assert (k ≠ n) by congruence. case_guard; case_guard; done || lia.
Qed.

Lemma below_next_Some n m x : m !! n = Some x → below (n + 1) m = <[n := x]> (below n m).
Proof.
  intros Hn. apply map_eq. intros k. unfold below. rewrite map_lookup_filter.
  destruct (decide (n = k)) as [<-|Hne].
  - rewrite lookup_insert_eq, Hn. simpl. by rewrite option_guard_True by lia.
  - rewrite lookup_insert_ne, map_lookup_filter by done.
    destruct (m !! k) as [y|] eqn:E; [|done]. simpl. case_guard; case_guard; done || lia.
Qed.

Lemma below_at n m : below n m !! n = None.
Proof. unfold below. apply map_lookup_filter_None_2. right. intros x _. simpl. lia. Qed.

Lemma above_next n m : above (n + 1) m = delete n (above n m).
Proof.
  apply map_eq. intros k. unfold above. rewrite map_lookup_filter.
  destruct (decide (n = k)) as [<-|Hne].
  - rewrite lookup_delete_eq. destruct (m !! n) as [x|]; [|done]. simpl.
    by rewrite option_guard_False by lia.
  - rewrite lookup_delete_ne, map_lookup_filter by done.
    destruct (m !! k) as [y|] eqn:E; [|done]. simpl. case_guard; case_guard; done || lia.
Qed.

Lemma above_at n m : above n m !! n = m !! n.
Proof.
  unfold above. rewrite map_lookup_filter. destruct (m !! n); [|done]. simpl.
  by rewrite option_guard_True.
Qed.

Lemma above_size n m x : m !! n = Some x →
  Z.of_nat (size (above n m)) = Z.of_nat (size (above (n + 1) m)) + 1.
Proof.
  intros Hn. rewrite above_next, map_size_delete, above_at, Hn.
  assert (size (above n m) ≠ 0)%nat; [|lia].
  intros Hz%map_size_empty_inv. pose proof (above_at n m) as H. rewrite Hz, Hn in H. done.
Qed.

Lemma rep_pte_absent s V d m n : rep s V → V !! d = Some m → private n → m !! n = None →
  present (pte s d n) = false.
Proof.
  intros H Hd Hn E. pose proof (po_pages _ _ (r_pages _ _ H) d m n Hd Hn) as HP. by rewrite E in HP.
Qed.

Lemma has_present fl e : (∀ k, 0 ≤ k < 9 → Z.testbit fl k = Z.testbit (low_flags e) k) →
  has fl PF_PRES = present e.
Proof.
  intros Hb. change PF_PRES with (2 ^ 0). rewrite has_bit, Hb, low_flags_bit by lia. done.
Qed.

Lemma tables_left_next new n s : private n →
  tables_left new (n + 1) s ≤ tables_left new n s.
Proof.
  intros Hn. unfold tables_left, TABLE_ROOM, PAGE_SIZE.
  assert ((n + 1) / 1024 = n / 1024 ∨ (n + 1) / 1024 = n / 1024 + 1) as [-> | ->]
    by (Z.div_mod_to_equations; lia); [lia|]. repeat case_match; lia.
Qed.

Section turn.
Variables (V : gmap Z umem) (new old : Z) (m : umem).
Hypothesis Hold : V !! old = Some m.
Hypothesis Hnew : V !! new = None.

(** The pages below [n] are copied. *)
Record cloning (n : Z) (s : mm) : Prop := {
  c_rep : rep s (<[new := below n m]> V);
  c_old : cr3 s = old;
  c_kernel : is_Some (V !! cur_page_dir s);
  c_frames : has_frames s (Z.of_nat (size (above n m)));
  c_tables : pa_quiet (tables_left new n s) s
}.

Lemma clone_turn n s : private n → cloning n s →
  ∃ s', clone_page new old (n * PAGE_SIZE) s = Ok s' ∧ cloning (n + 1) s' ∧
    spaces s' = spaces s.
Proof using Hold Hnew.
  intros Hn [HR Hcr HK HF HT].
  assert (Hno : new ≠ old) by congruence.
  assert (Hn' : 0 ≤ n < NPAGES) by (unfold private in Hn; change KPAGES with 64512 in Hn; lia).
  assert (Hlo : <[new := below n m]> V !! old = Some m) by by rewrite lookup_insert_ne.
  assert (Hln : <[new := below n m]> V !! new = Some (below n m)) by apply lookup_insert_eq.
  assert (Hdo : is_Some (dirs s !! old)) by (apply (rep_dir _ _ _ HR); by eexists).
  assert (Hdn : is_Some (dirs s !! new)) by (apply (rep_dir _ _ _ HR); by eexists).
  destruct (page_flags_low s old n (r_ok _ _ HR) Hdo Hn') as (fl & Efl & Hfl & _).
  rewrite clone_page_through, Efl. cbn [rbind].
  rewrite (has_present fl (pte s old n) Hfl).
  pose proof (po_pages _ _ (r_pages _ _ HR) old m n Hlo Hn) as Hpg.
  destruct (m !! n) as [[f0 c]|] eqn:Em; simpl in Hpg.
  2:{ rewrite Hpg. cbn [negb]. exists s. split; [done|]. split; [|done]. split; try done.
      - by rewrite below_next_None.
      - rewrite above_next, delete_id by (by rewrite above_at). done.
      - apply (quiet_le (tables_left new n s)); [done|by apply tables_left_next]. }
  destruct Hpg as (Hpr & Hz & -> & Hfr & Hbit & Hram). rewrite Hpr. cbn [negb].
  rewrite (above_size n m _ Em) in HF.
  destruct (frame_alloc_free s _ (r_frames _ _ HR) HF) as (f & fs' & Ef & Hok1 & Hf & Hfree & Hb1 & HF1);
    [lia|].
  rewrite Ef. cbn [rbind]. set (s1 := with_frames fs' s) in *.
  assert (Hdk : is_Some (dirs s !! cur_page_dir s)).
  { apply (rep_dir _ _ _ HR). apply lookup_insert_is_Some'. by right. }
  destruct (copy_through_ok (tables_left new n s) f n c s1)
    as (s2 & E2 & Hok2 & HL2 & HQ2 & [Hsame2 Hpte2] & Hram2 & Htab2).
  { exact (r_ok _ _ HR). } { exact (r_layout _ _ HR). } { exact Hdk. }
  { change (is_Some (dirs s !! cr3 s)). by rewrite Hcr. }
  { unfold tables_left, TABLE_ROOM, PAGE_SIZE. change NPAGES with 1048576 in Hn'.
    assert (n / 1024 < 1024) by (Z.div_mod_to_equations; lia). case_match; lia. }
  { by apply (quiet_ext _ s). } { done. } { done. }
  { change (present (pte s (cr3 s) n) = true). by rewrite Hcr. }
  { change (ram s !! (frame (pte s (cr3 s) n) * PAGE_SIZE) = Some c). by rewrite Hcr. }
  rewrite E2. cbn [rbind]. injection Hsame2 as F1 F2 F3 F4 F5.
  assert (Hd2 : ∀ d, is_Some (dirs s !! d) ↔ is_Some (dirs s2 !! d))
    by (intros d; by rewrite <- !elem_of_dom, F5).
  assert (Hnk : new ≠ cur_page_dir s) by (intros ->; by rewrite Hnew in HK; destruct HK).
  pose proof (Htab2 new (n / 1024) Hnk) as Ht2.
  destruct (page_map_quiet ((1023 - n / 1024) * TABLE_ROOM) n (f * 4096) fl new s2)
    as (s3 & E3 & Hok3 & HL3 & HQ3 & Hsame3 & Ht3 & _ & _ & Hpte3); [done|done|by apply Hd2|done| | |].
  { unfold TABLE_ROOM, PAGE_SIZE. change NPAGES with 1048576 in Hn'. Z.div_mod_to_equations. lia. }
  { rewrite Ht2. apply (quiet_le (tables_left new n s)); [done|]. unfold tables_left.
    change (table_at s1 new) with (table_at s new). case_match; lia. }
  rewrite E3. cbn [rbind]. injection Hsame3 as G1 G2 G3 G4 G5 G6.
  exists s3. split; [done|]. split; [|unfold spaces; by rewrite G4, G5, F3, F4].
  assert (Hdom3 : dom (dirs s3) = dom (dirs s)) by by rewrite G6, F5.
  split.
  - split; [done| |done| | | |].
    + destruct Hok1 as (A1 & A2 & A3). unfold frames_ok. by rewrite G1, G2, F1, F2.
    + rewrite Hdom3, (r_dom _ _ HR), !dom_insert_L. done.
    + rewrite G4, F3. apply lookup_insert_is_Some'. by right.
    + rewrite G5, F4. apply lookup_insert_is_Some'. right. change (is_Some (V !! cr3 s)).
      rewrite Hcr. by eexists.
    + assert (Hp3 : pte s3 new n = new_page fl (f * 4096) (pte s new n)).
      { rewrite Hpte3, decide_True, Hpte2; [done..|by split; [|left]|by apply Hd2|done]. }
      assert (Hb3 : ∀ g, 0 ≤ g → frame_bit (frames s3) g = if g =? f then true else frame_bit (frames s) g)
        by (intros g; rewrite G1, F1; apply Hb1).
      assert (Hr3 : ram s3 = <[f * PAGE_SIZE := c]> (ram s)) by by rewrite G3, Hram2.
      rewrite (below_next_Some n m (low_flags (pte s old n), c)) by done.
      rewrite <- (insert_insert_eq V new (<[n:=_]> (below n m)) (below n m)).
      apply (pages_add s s3 _ new _ n f); [apply HR|done|done| |done| |done|done| |].
      * eapply rep_pte_absent; [exact HR|exact Hln|done|apply below_at].
      * intros d n2 Hd Hn2 Hne. apply (rep_dir _ _ _ HR) in Hd.
        assert (0 ≤ n2 < NPAGES) by (unfold private in Hn2; change KPAGES with 64512 in Hn2; lia).
        rewrite Hpte3, decide_False, Hpte2; [done..| |by apply Hd2|done].
        unfold private in Hn. intros [-> [->|?]]; [by destruct Hne|lia].
      * rewrite Hp3. by apply new_page_frame.
      * rewrite Hp3. unfold page_rep. rewrite new_page_frame by done.
        rewrite Hb3, Hr3, Z.eqb_refl, lookup_insert_eq by lia.
        split; [|split; [done|split; [|done]]].
        -- cbn [present new_page]. rewrite (has_present fl _ Hfl). done.
        -- symmetry. by apply low_flags_new.
  - by rewrite G5, F4.
  - by rewrite G4, F3.
  - destruct HF1 as (X & HX & HXf). exists X. split; [done|]. by rewrite G1, G2, F1, F2.
  - apply (quiet_le ((1023 - n / 1024) * TABLE_ROOM)); [done|]. unfold tables_left.
    assert ((n + 1) / 1024 = n / 1024 ∨ (n + 1) / 1024 = n / 1024 + 1) as [-> | ->]
      by (Z.div_mod_to_equations; lia); unfold TABLE_ROOM, PAGE_SIZE; case_match; lia.
Qed.
End turn.
End clone.

(** ** The loop over the kernel's tables *)
Definition patch {A} (i : Z) (l l0 : list A) : list A :=
  take (Z.to_nat i) l ++ drop (Z.to_nat i) l0.

Lemma patch_step {A} (l l0 : list A) i x : length l = length l0 → 0 ≤ i →
  aget l i = Some x → <[Z.to_nat i := x]> (patch i l l0) = patch (i + 1) l l0.
Proof.
  intros Hl Hi E. unfold aget in E. replace (i <? 0) with false in E by lia.
  pose proof (lookup_lt_Some _ _ _ E) as Hlt. unfold patch.
  replace (Z.to_nat (i + 1)) with (S (Z.to_nat i)) by lia.
  rewrite (take_S_r _ _ _ E). destruct (lookup_lt_is_Some_2 l0 (Z.to_nat i)) as [y Hy]; [lia|].
  rewrite (drop_S _ _ _ Hy), insert_app_r_alt by (rewrite length_take; lia).
  rewrite length_take, Nat.min_l, Nat.sub_diag by lia. cbn [insert list_insert].
  by rewrite <- app_assoc.
Qed.

Lemma patch_length {A} (l l0 : list A) i : length l = length l0 → length (patch i l l0) = length l0.
Proof. intros. unfold patch. rewrite length_app, length_take, length_drop. lia. Qed.

Lemma patch_get {A} (l l0 : list A) i j : length l = length l0 → 0 ≤ i ≤ len l →
  aget (patch i l l0) j = if j <? i then aget l j else aget l0 j.
Proof.
  intros Hl Hi. unfold aget, patch. destruct (Z.ltb_spec j 0).
  - by replace (j <? i) with true by lia.
  - destruct (Z.ltb_spec j i).
    + rewrite lookup_app_l, lookup_take_lt by (rewrite ?length_take; lia). done.
    + rewrite lookup_app_r, lookup_drop, length_take by (rewrite ?length_take; lia).
      f_equal. lia.
Qed.

Section link.
Context {PA : PageAlloc} {QA : QuietAlloc}.
Variables (s : mm) (new old : Z) (o x0 : page_dir_t).
Hypothesis Ho : dirs s !! old = Some o.
Hypothesis Hn : dirs s !! new = Some x0.
Hypothesis Hne : new ≠ old.
Hypothesis Hl : length (tables o) = 1024%nat ∧ length (tables_phys o) = 1024%nat.
Hypothesis Hl0 : length (tables x0) = 1024%nat ∧ length (tables_phys x0) = 1024%nat.

Definition link_dir (i : Z) : page_dir_t :=
  PageDir (patch i (tables o) (tables x0)) (patch i (tables_phys o) (tables_phys x0)).

Definition linked (i : Z) : mm := with_dirs (<[new := link_dir i]> (dirs s)) s.

Lemma link_table_spec i : 0 ≤ i < 1024 → link_table new old i (linked i) = Ok (linked (i + 1)).
Proof using All.
  intros Hi. destruct Hl as [L1 L2], Hl0 as [M1 M2].
  destruct (aget_is_Some (tables o) i) as [p Hp]; [lia|].
  destruct (aget_is_Some (tables_phys o) i) as [e He]; [lia|].
  unfold link_table, linked. cbn [dirs with_dirs]. rewrite lookup_insert_ne, Ho by done.
  cbn [deref rbind]. rewrite Hp. cbn [deref rbind]. rewrite He. cbn [deref rbind].
  unfold set_table. cbn [dirs with_dirs]. rewrite lookup_insert_eq. cbn [deref rbind].
  unfold link_dir. cbn [tables tables_phys].
  rewrite aset_Some by (rewrite patch_length; lia). cbn [deref rbind].
  rewrite (patch_step _ _ i p) by (done || lia).
  unfold update_pde. cbn [dirs with_dirs]. rewrite lookup_insert_eq. cbn [deref rbind tables tables_phys].
  destruct (aget_is_Some (patch i (tables_phys o) (tables_phys x0)) i) as [e' ->];
    [rewrite patch_length; lia|]. cbn [deref rbind].
  rewrite aset_Some by (rewrite patch_length; lia). cbn [deref rbind].
  rewrite (patch_step _ _ i e) by (done || lia). unfold with_dirs. cbn [frames memsize identity_end
    cur_page_dir cr3 dirs tabs ram errno]. by rewrite !insert_insert_eq.
Qed.

Lemma linked_0 : linked 0 = s.
Proof using All.
  unfold linked, link_dir, patch. change (Z.to_nat 0) with 0%nat. rewrite !take_0, !drop_0.
  destruct x0 as [a b]. cbn [tables tables_phys app]. rewrite insert_id by done. by destruct s.
Qed.

Lemma link_loop : for_range 0 (KSTACK_BEGIN / (1024 * PAGE_SIZE - 1))
  (λ i, link_table new old i) s = Ok (linked KTABS).
Proof using All.
  change (KSTACK_BEGIN / (1024 * PAGE_SIZE - 1)) with KTABS.
  destruct (for_range_inv (λ i s', s' = linked i) 0 KTABS (λ i, link_table new old i) s)
    as (s' & E & ->); [done|by rewrite linked_0| |done].
  intros j s1 Hj ->. exists (linked (j + 1)). split; [|done]. apply link_table_spec.
  unfold KTABS in Hj. lia.
Qed.
End link.

Lemma zeros_get i p : aget (replicate 1024 0) i = Some p → p = 0.
Proof. apply aget_replicate. Qed.

(** A directory with the kernel's tables of another and nothing else. *)
Section new_dir.
Context {PA : PageAlloc} {QA : QuietAlloc}.
Variables (s : mm) (V : gmap Z umem) (new old : Z) (o : page_dir_t).
Hypothesis HR : rep s V.
Hypothesis Ho : dirs s !! old = Some o.
Hypothesis Hn : dirs s !! new = None.
Let D := link_dir o dir_zero KTABS.
Let s' := with_dirs (<[new := D]> (dirs s)) s.

Lemma new_dir_get i : aget (tables D) i = if i <? KTABS then aget (tables o) i else aget (replicate 1024 0) i.
Proof using HR Ho.
  destruct (proj1 (r_ok _ _ HR) old o Ho) as (L1 & _). unfold D, link_dir. cbn [tables].
  apply patch_get; [by rewrite L1|rewrite L1; unfold KTABS; lia].
Qed.

Lemma new_dir_used i p : aget (tables D) i = Some p → p ≠ 0 → i < KTABS ∧ aget (tables o) i = Some p.
Proof using HR Ho.
  rewrite new_dir_get. destruct (Z.ltb_spec i KTABS); [done|]. by intros ->%zeros_get.
Qed.

(** Each directory has the tables of an old one, the new one the kernel's only. *)
Lemma new_dir_lookup d y : dirs s' !! d = Some y → ∃ d0 z, dirs s !! d0 = Some z ∧
  (∀ i, i < KTABS → aget (tables y) i = aget (tables z) i) ∧
  ∀ i p, aget (tables y) i = Some p → p ≠ 0 → aget (tables z) i = Some p ∧ (i < KTABS ∨ d = d0).
Proof using HR Ho.
  unfold s'. cbn [dirs with_dirs]. intros [[<- <-]|[_ Hy]]%lookup_insert_Some.
  - exists old, o. split; [done|]. split.
    + intros i Hi. rewrite new_dir_get. by replace (i <? KTABS) with true by lia.
    + intros i p Hi Hp. destruct (new_dir_used i p Hi Hp) as [Hk Hq]. by split; [|left].
  - exists d, y. split; [done|]. split; [done|]. intros. by split; [|right].
Qed.

Lemma new_dir_layout : layout s'.
Proof using HR Ho.
  intros d1 d2 y1 y2 (e1 & z1 & Hz1 & K1 & P1)%new_dir_lookup (e2 & z2 & Hz2 & K2 & P2)%new_dir_lookup.
  destruct (r_layout _ _ HR e1 e2 z1 z2 Hz1 Hz2) as [HK HP]. split.
  - intros i Hi. destruct (HK i Hi) as (p & Hp & E1 & E2). exists p. by rewrite K1, K2 by lia.
  - intros i j p E1 E2 Hp. destruct (P1 i p E1 Hp) as [F1 C1]. destruct (P2 j p E2 Hp) as [F2 C2].
    destruct (HP i j p F1 F2 Hp) as [-> C]. split; [done|].
    destruct C as [?| ->]; [by left|]. destruct C1 as [?| ->]; [by left|].
    destruct C2 as [?| ->]; [by left|by right].
Qed.

Lemma new_dir_ok : mm_ok s'.
Proof using HR Ho.
  destruct (r_ok _ _ HR) as [Hs Hp]. destruct (Hs old o Ho) as (L1 & L2 & LT & LI). split.
  - intros d y. unfold s'. cbn [dirs with_dirs]. intros [[<- <-]|[_ Hy]]%lookup_insert_Some;
      [|by apply (Hs d y)].
    split; [by unfold D, link_dir; cbn [tables]; rewrite patch_length|].
    split; [by unfold D, link_dir; cbn [tables_phys]; rewrite patch_length|]. split.
    + intros i p Hi Hne. destruct (new_dir_used i p Hi Hne) as [_ Hq]. by apply (LT i p).
    + intros i j p Hi Hj Hne. apply (LI i j p); [by apply new_dir_used..|done].
  - intros d y. unfold s'. cbn [dirs with_dirs]. intros [[<- <-]|[_ Hy]]%lookup_insert_Some;
      [|by apply (Hp d y)].
    intros i p e Hi Hne He. destruct (new_dir_used i p Hi Hne) as [Hk Hq].
    apply (Hp old o Ho i p e Hq Hne). revert He. unfold D, link_dir. cbn [tables_phys].
    rewrite patch_get by (rewrite L2; done || (unfold KTABS; lia)).
    by replace (i <? KTABS) with true by lia.
Qed.

Lemma new_dir_pte d n : is_Some (dirs s !! d) → pte s' d n = pte s d n.
Proof using Hn.
  intros [x Hx]. unfold pte, entry_of, s'. cbn [dirs tabs with_dirs].
  rewrite lookup_insert_ne by congruence. done.
Qed.

Lemma new_dir_empty n : private n → pte s' new n = page_zero.
Proof using HR Ho.
  intros Hr. assert (Hn' : 0 ≤ n < NPAGES) by (unfold private in Hr; change KPAGES with 64512 in Hr; lia).
  assert (Hd : dirs s' !! new = Some D) by (unfold s'; cbn [dirs with_dirs]; apply lookup_insert_eq).
  unfold pte. rewrite entry_of_table by (done || apply new_dir_ok || by eexists).
  replace (table_at s' new (n / 1024)) with 0; [done|]. unfold table_at. rewrite Hd, new_dir_get.
  replace (n / 1024 <? KTABS) with false
    by (unfold private in Hr; change KPAGES with 64512 in Hr; unfold KTABS; Z.div_mod_to_equations; lia).
  destruct (aget (replicate 1024 0) (n / 1024)) as [p|] eqn:E; [|done]. by apply zeros_get in E.
Qed.

Lemma new_dir_rep : rep s' (<[new := ∅]> V).
Proof using HR Ho Hn.
  assert (Hsome : ∀ d, is_Some (<[new := ∅]> V !! d) → d = new ∨ d ≠ new ∧ is_Some (V !! d)).
  { intros d. rewrite lookup_insert_is_Some. naive_solver. }
  assert (HP : pages_ok s' V).
  { apply (pages_ok_ext s); [|done|apply HR]. intros d n Hd _. apply new_dir_pte. by apply (rep_dir _ _ _ HR). }
  split; [apply new_dir_ok|apply HR|apply new_dir_layout| | | |split].
  - unfold s'. cbn [dirs with_dirs]. by rewrite !dom_insert_L, (r_dom _ _ HR).
  - apply lookup_insert_is_Some'. right. apply HR.
  - apply lookup_insert_is_Some'. right. apply HR.
  - intros d m n [[<- <-]|[_ Hd]]%lookup_insert_Some Hr; [by rewrite new_dir_empty|].
    by apply (po_pages _ _ HP d).
  - intros d m n [[<- <-]|[_ Hd]]%lookup_insert_Some; [by intros [? ?]|]. by apply (po_keys _ _ HP d).
  - intros d1 n1 d2 n2 H1%Hsome H2%Hsome Hn1 Hn2 P1 P2.
    destruct H1 as [->|[_ H1]]; [by rewrite new_dir_empty in P1|].
    destruct H2 as [->|[_ H2]]; [by rewrite new_dir_empty in P2|]. by apply (po_own _ _ HP).
Qed.
End new_dir.

(** ** fork *)
Section fork.
Context {PA : PageAlloc} {QA : QuietAlloc}.

Lemma rep_same s s' V : same_memory s s' → rep s V → rep s' V.
Proof.
  destruct s, s'. unfold same_memory. simpl.
  intros [= -> -> -> -> -> -> ->] [A B C D E F [G H I]]. by split.
Qed.

(** Memory for a directory, all its tables, and a frame for each of its pages. *)
Definition fork_room (s : mm) (pd : Z) : Prop :=
  pa_quiet (2 * PAGE_SIZE + PAGE_SIZE + (1024 - KTABS) * TABLE_ROOM) s ∧
  ∃ Y : gset Z, (∀ n, private n → present (pte s pd n) = true → n ∈ Y) ∧
    has_frames s (Z.of_nat (size Y)).

Lemma has_frames_le s j k : has_frames s k → j ≤ k → has_frames s j.
Proof. intros (X & HX & H) Hj. exists X. split; [lia|done]. Qed.

Lemma fork_room_frames s V d m : rep s V → V !! d = Some m → fork_room s d →
  has_frames s (Z.of_nat (size m)).
Proof.
  intros HR Hd (_ & Y & HY & HF). apply (has_frames_le _ _ _ HF). rewrite <- size_dom.
  apply inj_le, subseteq_size. intros n Hn%elem_of_dom.
  pose proof (po_keys _ _ (r_pages _ _ HR) d m n Hd Hn) as Hr. apply HY; [done|].
  pose proof (po_pages _ _ (r_pages _ _ HR) d m n Hd Hr) as HP.
  destruct Hn as [[f c] Hn]. rewrite Hn in HP. apply HP.
Qed.

Lemma below_all s V d m : rep s V → V !! d = Some m → below KPAGES m = ∅ ∧ below NPAGES m = m ∧
  above KPAGES m = m.
Proof.
  intros HR Hd.
  assert (Hk : ∀ n x, m !! n = Some x → private n)
    by (intros n x E; apply (po_keys _ _ (r_pages _ _ HR) d m n Hd); by eexists).
  unfold private in Hk. split; [|split].
  - apply map_empty. intros n. apply map_lookup_filter_None_2. right. intros x E. simpl.
    apply Hk in E. lia.
  - apply map_filter_id. intros n x E. simpl. apply Hk in E. lia.
  - apply map_filter_id. intros n x E. simpl. apply Hk in E. lia.
Qed.

Lemma fork_spec s V m : rep s V → V !! cr3 s = Some m → fork_room s (cr3 s) →
  ∃ pd s1 s2, create_page_dir s = Ok (pd, s1) ∧ pd ≠ 0 ∧ V !! pd = None ∧
    clone_page_dir pd (cr3 s) s1 = Ok s2 ∧ rep s2 (<[pd := m]> V) ∧ pa_quiet 0 s2 ∧
    spaces s2 = spaces s.
Proof.
  intros HR Hm Hroom. pose proof (fork_room_frames _ _ _ _ HR Hm Hroom) as HF.
  destruct Hroom as [HQ _]. unfold create_page_dir. change (2 * 1024 * 4) with (2 * PAGE_SIZE).
  destruct (quiet_alloc (2 * PAGE_SIZE) ((1024 - KTABS) * TABLE_ROOM) s) as
    (pd & s1 & E & Hpd & _ & Hd0 & Hsame & _ & HQd); [exact HQ|done|done|].
  assert (HV : V !! pd = None).
  { apply eq_None_not_Some. rewrite (rep_dir _ _ _ HR), Hd0. by intros [? ?]. }
  pose proof (rep_same _ _ _ Hsame HR) as HR1. unfold same_memory in Hsame.
  injection Hsame as F1 F2 F3 F4 F5 F6 F7. rewrite E. cbn [rbind].
  replace (pd =? 0) with false by lia. eexists pd, _. rewrite <- F5 in Hd0.
  set (s1' := with_dirs (<[pd := dir_zero]> (dirs s1)) s1).
  destruct (proj1 (rep_dir _ _ (cr3 s1) HR1)) as [o Ho]; [apply HR1|]. rewrite F4 in Ho.
  assert (Hne : pd ≠ cr3 s) by congruence.
  destruct (proj1 (r_ok _ _ HR1) _ _ Ho) as (L1 & L2 & _).
  set (s2 := linked s1' pd o dir_zero KTABS).
  assert (E2 : s2 = with_dirs (<[pd := link_dir o dir_zero KTABS]> (dirs s1)) s1).
  { unfold s2, linked, s1', with_dirs. cbn. by rewrite insert_insert_eq. }
  assert (HR2 : rep s2 (<[pd := ∅]> V)) by (rewrite E2; by apply (new_dir_rep s1 V pd (cr3 s))).
  destruct (below_all s V (cr3 s) m HR Hm) as (Eb & Ee & Ea).
  assert (HC : cloning V pd (cr3 s) m KPAGES s2).
  { split.
    - by rewrite Eb.
    - by rewrite E2.
    - rewrite E2. change (is_Some (V !! cur_page_dir s1)). rewrite F3. apply HR.
    - rewrite Ea. destruct HF as (X & HX & HXf).
      exists X. split; [done|]. rewrite E2. cbn. by rewrite F1, F2.
    - apply (quiet_le ((1024 - KTABS) * TABLE_ROOM)).
      + rewrite E2. by apply HQd.
      + unfold tables_left. change (KPAGES / 1024) with KTABS. unfold KTABS, TABLE_ROOM, PAGE_SIZE.
        case_match; lia. }
  destruct (for_range_inv (λ n s', cloning V pd (cr3 s) m n s' ∧ spaces s' = spaces s)
    KPAGES NPAGES (λ n, clone_page pd (cr3 s) (n * PAGE_SIZE)) s2) as (s3 & E3 & HC3 & Hsp3).
  { done. }
  { split; [done|]. rewrite E2. unfold spaces. cbn. by rewrite F3, F4. }
  { intros n s' Hn [HCn Hspn]. destruct (clone_turn V pd (cr3 s) m Hm HV n s' Hn HCn)
      as (s'' & En & HCn' & Hsp'). exists s''. split; [done|]. split; [done|]. by rewrite Hsp'. }
  exists s3. split; [done|]. split; [done|]. split; [done|]. split.
  { unfold clone_page_dir. fold s1'.
    rewrite (link_loop s1' pd (cr3 s) o dir_zero);
      [exact E3| |unfold s1'; cbn [dirs with_dirs]; apply lookup_insert_eq|done|done|done].
    unfold s1'. cbn [dirs with_dirs]. by rewrite lookup_insert_ne. }
  split; [|split; [|done]].
  - pose proof (c_rep _ _ _ _ _ _ HC3) as H3. by rewrite Ee in H3.
  - pose proof (c_tables _ _ _ _ _ _ HC3) as H3. apply (quiet_le _ 0) in H3; [done|].
    unfold tables_left. change (NPAGES / 1024) with 1024.
    assert (table_at s3 pd 1024 = 0) as ->; [|done].
    unfold table_at. destruct (dirs s3 !! pd) as [x|] eqn:Ex; [|done].
    destruct (proj1 (r_ok _ _ (c_rep _ _ _ _ _ _ HC3)) pd x Ex) as (Hl & _).
    unfold aget. rewrite lookup_ge_None_2; [done|]. rewrite Hl. done.
Qed.
End fork.

(** ** The death of a task *)
Section death.
Context {PA : PageAlloc} {QA : QuietAlloc}.

Lemma present_table s d n : mm_ok s → is_Some (dirs s !! d) → 0 ≤ n < NPAGES →
  present (pte s d n) = true → table_at s d (n / 1024) ≠ 0.
Proof.
  intros Hok Hd Hn. unfold pte. rewrite entry_of_table by (done || apply Hok).
  by destruct (Z.eqb_spec (table_at s d (n / 1024)) 0).
Qed.

Lemma phys_of_pte s d n : mm_ok s → is_Some (dirs s !! d) → present (pte s d n) = true →
  0 ≤ frame (pte s d n) < 32 * NFRAMEWORDS → get_phys (n * PAGE_SIZE) d s = Ok (frame (pte s d n) * 4096).
Proof.
  intros Hok Hd. unfold pte. rewrite get_phys_entry by (done || apply Hok).
  destruct (entry_of s d (n * PAGE_SIZE)) as [e|]; [|done]. cbn [default]. unfold id.
  intros -> Hf. rewrite NFRAMEWORDS_eq in Hf. f_equal.
  pose proof (page_offset n 0 ltac:(lia)) as Ho. rewrite Z.add_0_r in Ho. unfold PAGE_SIZE at 1.
  rewrite Ho, Z.shiftl_mul_pow2, Z.add_0_r by lia. apply uint_small. simpl. lia.
Qed.

(** What the freeing of page [n] leaves: its frame at most is free, and no table moves. *)
Record reclaimed (d n : Z) (s s' : mm) : Prop := {
  rc_spaces : spaces s' = spaces s;
  rc_memsize : memsize s' = memsize s;
  rc_ram : ram s' = ram s;
  rc_bits : ∀ g, 0 ≤ g → frame_bit (frames s') g = frame_bit (frames s) g ∨
    present (pte s d n) = true ∧ g = frame (pte s d n) ∧ frame_bit (frames s') g = false;
  rc_tables : ∀ e i, table_at s' e i = table_at s e i;
  rc_pdes : ∀ e i, pde_on s' e i = pde_on s e i
}.

Lemma free_turn k s V d m n : rep s V → pa_quiet k s → 0 ≤ k → V !! d = Some m → private n →
  ∃ s', free_page d n s = Ok s' ∧ rep s' (<[d := delete n m]> V) ∧ pa_quiet k s' ∧
    reclaimed d n s s'.
Proof.
  intros HR HQ Hk Hd Hn.
  assert (Hn' : 0 ≤ n < NPAGES) by (unfold private in Hn; change KPAGES with 64512 in Hn; lia).
  assert (Hdd : is_Some (dirs s !! d)) by (apply (rep_dir _ _ _ HR); by eexists).
  pose proof (r_ok _ _ HR) as Hok. pose proof (po_pages _ _ (r_pages _ _ HR) d m n Hd Hn) as Hpg.
  unfold free_page. destruct (page_flags_low s d n Hok Hdd Hn') as (fl & -> & Hfl & _). cbn [rbind].
  rewrite (has_present fl _ Hfl). destruct (m !! n) as [[f c]|] eqn:Em; simpl in Hpg.
  2:{ rewrite Hpg. exists s. split; [done|]. rewrite delete_id, insert_id by done.
      split; [done|]. split; [done|]. split; try done. by left. }
  destruct Hpg as (Hpr & _ & _ & Hfr & Hbit & _). rewrite Hpr. cbn [negb].
  rewrite phys_of_pte by done. cbn [rbind]. set (g := frame (pte s d n)) in *.
  destruct (clear_frame_spec s (g * 4096)) as (fs' & E1 & Hok1 & Hb1);
    [apply HR|lia|rewrite Z.div_mul; lia|]. rewrite Z.div_mul in Hb1 by lia.
  unfold frame_free. rewrite E1. cbn [rbind]. set (s1 := with_frames fs' s) in *.
  pose proof (present_table s d n Hok Hdd Hn' Hpr) as Htab.
  destruct (page_map_quiet k n 0 0 d s1) as
    (s2 & E2 & Hok2 & HL2 & HQ2 & Hsame & _ & Ht2 & Hon2 & Hp2);
    [exact Hok|exact (r_layout _ _ HR)|exact Hdd|done|done| |].
  { change (table_at s1 d (n / 1024)) with (table_at s d (n / 1024)).
    replace (table_at s d (n / 1024) =? 0) with false by lia. by apply (quiet_ext _ s). }
  rewrite E2. cbn [rbind]. injection Hsame as F1 F2 F3 F4 F5 F6.
  exists s2. split; [done|]. split; [|split; [done|]].
  - assert (Hdom : ∀ x, is_Some (V !! x) → is_Some (<[d := delete n m]> V !! x))
      by (intros; apply lookup_insert_is_Some'; by right).
    split; [done| |done| | | |].
    + destruct Hok1 as (A1 & A2 & A3). unfold frames_ok. by rewrite F1, F2.
    + rewrite F6. cbn. rewrite (r_dom _ _ HR). symmetry. apply dom_insert_lookup_L. by eexists.
    + rewrite F4. apply Hdom, HR.
    + rewrite F5. apply Hdom, HR.
    + apply (pages_del s s2 V d m n); [apply HR|done|done|done| | | |done].
      * rewrite Hp2, decide_True; [done|by split; [|left]|exact Hdd|done].
      * intros d2 n2 Hd2 Hn2 Hne. apply (rep_dir _ _ _ HR) in Hd2.
        rewrite Hp2, decide_False; [done| |exact Hd2|].
        -- unfold private in Hn. intros [-> [->|?]]; [by destruct Hne|lia].
        -- unfold private in Hn2. change KPAGES with 64512 in Hn2. lia.
      * intros j Hj. rewrite F1. by apply Hb1.
  - split; [by unfold spaces; rewrite F4, F5|done|done| | |].
    + intros j Hj. rewrite F1. cbn [frames with_frames s1]. rewrite Hb1 by done.
      destruct (Z.eqb_spec j g) as [->|]; [by right|by left].
    + intros e i. apply Ht2. by right; right.
    + intros e i. by apply Hon2.
Qed.

Lemma free_pages_spec s V d m : rep s V → pa_quiet 0 s → V !! d = Some m →
  ∃ s', free_pages d s = Ok s' ∧ rep s' (<[d := ∅]> V) ∧ pa_quiet 0 s' ∧ spaces s' = spaces s.
Proof.
  intros HR HQ Hd.
  destruct (below_all s V d m HR Hd) as (_ & _ & Ea).
  destruct (for_range_inv (λ n s', rep s' (<[d := above n m]> V) ∧ pa_quiet 0 s' ∧ spaces s' = spaces s)
    KPAGES NPAGES (free_page d) s) as (s' & E & HR' & HQ' & Hsp).
  { done. }
  { by rewrite Ea, insert_id. }
  { intros n s1 Hn (HR1 & HQ1 & Hsp1).
    destruct (free_turn 0 s1 _ d (above n m) n HR1 HQ1) as (s2 & E2 & HR2 & HQ2 & Hsp2%rc_spaces);
      [done|apply lookup_insert_eq|done|].
    exists s2. split; [done|]. rewrite insert_insert_eq in HR2. rewrite above_next.
    split; [done|]. split; [done|]. by rewrite Hsp2. }
  exists s'. split; [done|]. replace ∅ with (above NPAGES m); [done|].
  apply map_empty. intros n. apply map_lookup_filter_None_2. right. intros x Hx. simpl.
  pose proof (po_keys _ _ (r_pages _ _ HR) d m n Hd ltac:(by eexists)) as Hr. unfold private in Hr. lia.
Qed.

(** Between the first call and the last the directory has tables that are freed. *)
Definition clearing (s : mm) (x : page_dir_t) (i : Z) (s' : mm) : Prop :=
  (frames s', memsize s', cur_page_dir s', cr3 s', dirs s', ram s') =
  (frames s, memsize s, cur_page_dir s, cr3 s, dirs s, ram s) ∧ pa_quiet 0 s' ∧
  ∀ p, (∀ j, KTABS ≤ j < i → aget (tables x) j ≠ Some p) → tabs s' !! p = tabs s !! p.

Lemma clear_page_dir_spec s pd x : mm_ok s → pa_quiet 0 s → dirs s !! pd = Some x →
  ∃ s', clear_page_dir pd s = Ok s' ∧ clearing s x 1024 s'.
Proof.
  intros [Hs _] HQ Hx. destruct (Hs pd x Hx) as (L1 & _ & LT & LI). unfold clear_page_dir.
  change (KSTACK_BEGIN / (1023 * PAGE_SIZE)) with KTABS.
  apply (for_range_inv (clearing s x)); [done|by split|].
  intros i s1 Hi (Hsame & HQ1 & Ht). injection Hsame as F1 F2 F3 F4 F5 F6.
  rewrite F5, Hx. cbn [deref rbind].
  destruct (aget_is_Some (tables x) i) as [p Hp]; [rewrite L1; unfold KTABS in Hi; lia|].
  rewrite Hp. cbn [deref rbind]. destruct (Z.eqb_spec p 0) as [->|Hne].
  { exists s1. split; [done|]. split; [by rewrite F1, F2, F3, F4, F5, F6|]. split; [done|].
    intros q Hq. apply Ht. intros j Hj. apply Hq. lia. }
  destruct (LT i p Hp Hne) as (t & Et & _).
  assert (Hp1 : tabs s1 !! p = Some t).
  { rewrite Ht; [done|]. intros j Hj Ej. pose proof (LI i j p Hp Ej Hne). lia. }
  destruct (quiet_free 0 p s1 HQ1) as (s2 & E2 & Hsame2 & HQ2); [left; by eexists|].
  rewrite E2. cbn [rbind]. unfold same_memory in Hsame2. injection Hsame2 as G1 G2 G3 G4 G5 G6 G7.
  eexists. split; [done|]. split; [|split].
  - cbn. by rewrite G1, G2, G3, G4, G5, G7, F1, F2, F3, F4, F5, F6.
  - apply (quiet_ext 0 s2); [done..| |done]. cbn. rewrite dom_delete_L. set_solver.
  - intros q Hq. cbn [tabs with_tabs]. rewrite lookup_delete_ne, G6.
    + apply Ht. intros j Hj. apply Hq. lia.
    + intros <-. apply (Hq i); [lia|done].
Qed.

Lemma take_down_rep s V pd x s' : rep s V → dirs s !! pd = Some x → clearing s x 1024 s' →
  pd ≠ cur_page_dir s → pd ≠ cr3 s → rep (with_dirs (delete pd (dirs s')) s') (delete pd V).
Proof.
  intros HR Hx (Hsame & _ & Ht) Hnk Hnl. injection Hsame as F1 F2 F3 F4 F5 F6.
  set (s3 := with_dirs _ s').
  assert (Hkeep : ∀ d y i p, d ≠ pd → dirs s !! d = Some y → aget (tables y) i = Some p →
    p ≠ 0 → tabs s3 !! p = tabs s !! p).
  { intros d y i p Hd Hy Hi Hp. apply Ht. intros j Hj Ej.
    destruct (r_layout _ _ HR d pd y x Hy Hx) as [_ HP].
    destruct (HP i j p Hi Ej Hp) as [-> [?|?]]; [lia|done]. }
  assert (Hd3 : ∀ d y, dirs s3 !! d = Some y → d ≠ pd ∧ dirs s !! d = Some y).
  { intros d y. unfold s3. cbn [dirs with_dirs]. rewrite F5.
    intros [Hne Hy]%lookup_delete_Some. by split; [intros ->|]. }
  assert (Hpte : ∀ d n, d ≠ pd → pte s3 d n = pte s d n).
  { intros d n Hd. unfold pte, entry_of.
    assert (dirs s3 !! d = dirs s !! d) as ->
      by (unfold s3; cbn [dirs with_dirs]; rewrite F5; by apply lookup_delete_ne).
    destruct (dirs s !! d) as [y|] eqn:Hy; [|done].
    cbn [mbind option_bind]. destruct (aget (tables y) _) as [p|] eqn:Ep; [|done].
    cbn [mbind option_bind]. destruct (Z.eqb_spec p 0); [done|]. by rewrite (Hkeep d y _ p Hd Hy Ep). }
  assert (HV : ∀ d, is_Some (delete pd V !! d) ↔ d ≠ pd ∧ is_Some (V !! d)).
  { intros d. rewrite lookup_delete_is_Some. naive_solver. }
  split.
  - split; intros d y [Hd Hy]%Hd3.
    + destruct (proj1 (r_ok _ _ HR) d y Hy) as (L1 & L2 & LT & LI). split_and!; try done.
      intros i p Hi Hp. rewrite (Hkeep d y i p) by done. by apply (LT i p).
    + by apply (proj2 (r_ok _ _ HR) d y).
  - destruct (r_frames _ _ HR) as (A1 & A2 & A3). unfold frames_ok, s3. cbn. by rewrite F1, F2.
  - intros d1 d2 y1 y2 [_ H1]%Hd3 [_ H2]%Hd3. by apply (r_layout _ _ HR d1 d2).
  - unfold s3. cbn. by rewrite F5, !dom_delete_L, (r_dom _ _ HR).
  - unfold s3. cbn. rewrite F3. apply HV. split; [done|apply HR].
  - unfold s3. cbn. rewrite F4. apply HV. split; [done|apply HR].
  - destruct (r_pages _ _ HR) as [HP HK HO]. split.
    + intros d m n [Hne Hd]%lookup_delete_Some Hn. rewrite Hpte by done.
      specialize (HP d m n Hd Hn). destruct (m !! n) as [[f c]|]; [|done].
      unfold page_rep, s3. cbn. by rewrite F1, F6.
    + intros d m n [_ Hd]%lookup_delete_Some. by apply (HK d m n).
    + intros d1 n1 d2 n2 [N1 H1]%HV [N2 H2]%HV. rewrite !Hpte by done. by apply HO.
Qed.

Lemma free_space_spec s V pd m : rep s V → pa_quiet 0 s → V !! pd = Some m →
  pd ≠ cur_page_dir s → pd ≠ cr3 s →
  ∃ s1 s2 s3, free_pages pd s = Ok s1 ∧ clear_page_dir pd s1 = Ok s2 ∧
    free_page_dir pd s2 = Ok s3 ∧ rep s3 (delete pd V) ∧ pa_quiet 0 s3 ∧ spaces s3 = spaces s.
Proof.
  intros HR HQ Hpd Hnk Hnl.
  destruct (free_pages_spec s V pd m HR HQ Hpd) as (s1 & E1 & HR1 & HQ1 & Hsp1).
  injection Hsp1 as F1 F2.
  destruct (proj1 (rep_dir _ _ pd HR1)) as [x Hx]; [rewrite lookup_insert_eq; by eexists|].
  destruct (clear_page_dir_spec s1 pd x (r_ok _ _ HR1) HQ1 Hx) as (s2 & E2 & HC).
  pose proof (take_down_rep s1 _ pd x s2 HR1 Hx HC ltac:(by rewrite F1) ltac:(by rewrite F2)) as HR3.
  destruct HC as (Hsame & HQ2 & _). injection Hsame as G1 G2 G3 G4 G5 G6.
  destruct (quiet_free 0 pd s2 HQ2) as (s3 & E3 & Hs3 & HQ3); [right; rewrite G5; by eexists|].
  exists s1, s2, (with_dirs (delete pd (dirs s3)) s3). split; [done|]. split; [done|].
  unfold free_page_dir. rewrite E3. cbn [rbind]. split; [done|].
  unfold same_memory in Hs3. injection Hs3 as K1 K2 K3 K4 K5 K6 K7. split; [|split].
  - rewrite delete_insert_eq in HR3. revert HR3. apply rep_same. unfold same_memory. cbn.
    by rewrite K1, K2, K3, K4, K5, K6, K7.
  - apply (quiet_ext 0 s3); [done..|]. cbn. rewrite dom_delete_L. set_solver.
  - unfold spaces. cbn. by rewrite K3, K4, G3, G4, F1, F2.
Qed.

Lemma load_spec s V pd m : rep s V → V !! pd = Some m →
  ∃ phys, set_page_dir pd s = Ok (with_cr3 pd phys s) ∧ rep (with_cr3 pd phys s) V.
Proof.
  intros HR Hpd.
  assert (Hd : is_Some (dirs s !! pd)) by (apply (rep_dir _ _ _ HR); by eexists). eexists. split.
  - unfold set_page_dir, get_page_dir_phys. by rewrite get_phys_entry by (apply HR || done).
  - destruct HR as [A B C D E F [G H I]]. by split.
Qed.
End death.

(** ** The interface *)
Section laws.
Context {PA : PageAlloc} {QA : QuietAlloc}.

Definition space_rep (s : mm) (V : gmap Z umem) : Prop := rep s V ∧ pa_quiet 0 s.

Lemma paging_fork_ok s V old m : space_rep s V → V !! old = Some m →
  cr3 s = old → fork_room s old →
  ∃ pd s1 s2, create_page_dir s = Ok (pd, s1) ∧ pd ≠ 0 ∧ V !! pd = None ∧
    clone_page_dir pd old s1 = Ok s2 ∧ space_rep s2 (<[pd := m]> V) ∧
    cur_page_dir s2 = cur_page_dir s ∧ cr3 s2 = cr3 s.
Proof.
  intros [HR _] Hold <- Hroom.
  destruct (fork_spec s V m HR Hold Hroom) as (pd & s1 & s2 & E1 & Hpd & Hn & E2 & HR2 & HQ2 & Hsp).
  injection Hsp as F1 F2. by exists pd, s1, s2.
Qed.

Lemma paging_free_ok s V pd m : space_rep s V → V !! pd = Some m →
  pd ≠ cur_page_dir s → pd ≠ cr3 s →
  ∃ s1 s2 s3, free_pages pd s = Ok s1 ∧ clear_page_dir pd s1 = Ok s2 ∧
    free_page_dir pd s2 = Ok s3 ∧ space_rep s3 (delete pd V) ∧
    cur_page_dir s3 = cur_page_dir s ∧ cr3 s3 = cr3 s.
Proof.
  intros [HR HQ] Hpd Hnk Hnl.
  destruct (free_space_spec s V pd m HR HQ Hpd Hnk Hnl)
    as (s1 & s2 & s3 & E1 & E2 & E3 & HR3 & HQ3 & Hsp).
  injection Hsp as F1 F2. by exists s1, s2, s3.
Qed.

Lemma paging_load_ok s V pd m : space_rep s V → V !! pd = Some m →
  ∃ s', set_page_dir pd s = Ok s' ∧ space_rep s' V ∧ cur_page_dir s' = cur_page_dir s ∧ cr3 s' = pd.
Proof.
  intros [HR HQ] Hpd. destruct (load_spec s V pd m HR Hpd) as (phys & E & HR').
  exists (with_cr3 pd phys s). split; [done|]. split; [|done]. split; [done|]. by apply (quiet_ext 0 s).
Qed.
End laws.

#[export] Instance paging_spaces {PA : PageAlloc} {QA : QuietAlloc} : Spaces := {|
  sstate := mm;
  sp_create := create_page_dir;
  sp_clone := clone_page_dir;
  sp_free_pages := free_pages;
  sp_clear := clear_page_dir;
  sp_kfree := free_page_dir;
  sp_load := set_page_dir;
  sp_kernel := cur_page_dir;
  sp_loaded := cr3;
  sp_rep := space_rep;
  sp_room := fork_room;
  sp_fork_ok := paging_fork_ok;
  sp_free_ok := paging_free_ok;
  sp_load_ok := paging_load_ok
|}.
