(* ===== verification/Fork.v ===== *)
(** * Fork: an address space is copied and taken down again

    The property of [clone_page_dir] and of the calls in [task_destroy], with a kernel
    directory and the boot allocator of [Paging] as the example. *)

From S2P Require Import Prelude Headers Paging Spaces Space.

(** C3: fork and death of an address space.  When there is memory for it,
    [create_page_dir] and [clone_page_dir] make, in a directory that is not in use, a
    copy of the address space that is loaded: every page from the kernel stack on that
    is present has the same flags and contents, in a frame of its own ([space_rep]), and
    every other address space is as it was.  Freeing its pages, its tables and the
    directory gives back exactly the address spaces there were before. *)
Theorem space_forks_and_dies {PA : PageAlloc} {QA : QuietAlloc} s V m
    (HR : space_rep s V) (Hm : V !! cr3 s = Some m) (Hroom : fork_room s (cr3 s)) :
  ∃ pd s1 s2, create_page_dir s = Ok (pd, s1) ∧ V !! pd = None ∧
    clone_page_dir pd (cr3 s) s1 = Ok s2 ∧ space_rep s2 (<[pd := m]> V) ∧
    spaces s2 = spaces s ∧
    ∃ s3 s4 s5, free_pages pd s2 = Ok s3 ∧ clear_page_dir pd s3 = Ok s4 ∧
      free_page_dir pd s4 = Ok s5 ∧ space_rep s5 V ∧ spaces s5 = spaces s.
Proof.
  destruct HR as [HR HQ].
  destruct (fork_spec s V m HR Hm Hroom) as (pd & s1 & s2 & E1 & Hpd & Hn & E2 & HR2 & HQ2 & Hsp).
  exists pd, s1, s2. split; [done|]. split; [done|]. split; [done|]. split; [done|]. split; [done|].
  injection Hsp as F1 F2.
  assert (Hk : pd ≠ cur_page_dir s2).
  { intros ->. rewrite F1 in Hn. destruct (r_kernel _ _ HR) as [? H]. congruence. }
  assert (Hl : pd ≠ cr3 s2) by (rewrite F2; congruence).
  destruct (free_space_spec s2 _ pd m HR2 HQ2 (lookup_insert_eq V pd m) Hk Hl)
    as (s3 & s4 & s5 & E3 & E4 & E5 & HR5 & HQ5 & Hsp5).
  exists s3, s4, s5. split; [done|]. split; [done|]. split; [done|].
  rewrite delete_insert_id in HR5 by done. split; [done|].
  rewrite Hsp5. unfold spaces. by rewrite F1, F2.
Qed.

(** ** The boot allocator *)
Definition boot_quiet (n : Z) (s : mm) : Prop :=
  0 < identity_end s ∧ identity_end s + n < 2 ^ 32 ∧
  (∀ p, p ∈ dom (tabs s) → 0 < p < identity_end s) ∧
  ∀ p, p ∈ dom (dirs s) → 0 < p < identity_end s.

Lemma boot_quiet_alloc size k s :
  boot_quiet (size + PAGE_SIZE + k) s → 0 < size → 0 ≤ k →
  ∃ p s', pre_paging_kmalloc size PAGE_SIZE s = Ok (p, s') ∧ p ≠ 0 ∧
    tabs s !! p = None ∧ dirs s !! p = None ∧ same_memory s s' ∧
    (∀ t, boot_quiet k (with_tabs (<[p := t]> (tabs s')) s')) ∧
    (∀ d, boot_quiet k (with_dirs (<[p := d]> (dirs s')) s')).
Proof.
  intros (Hpos & Hroom & Ht & Hd) Hsz Hk.
  destruct (pre_paging_spec size k s) as (p & E & Hp & _); [by split_and!|done..|].
  unfold PAGE_SIZE in *. exists p, (with_identity_end (p + size) s). split; [done|].
  split; [lia|]. split; [|split; [|split; [done|split]]].
  - apply not_elem_of_dom. intros Hin%Ht. lia.
  - apply not_elem_of_dom. intros Hin%Hd. lia.
  - intros t. unfold boot_quiet. cbn [tabs dirs identity_end with_identity_end with_tabs].
    split; [lia|]. split; [lia|]. split.
    + intros q. rewrite dom_insert_L, elem_of_union, elem_of_singleton.
      intros [->|Hq%Ht]; lia.
    + intros q Hq%Hd. lia.
  - intros t. unfold boot_quiet. cbn [tabs dirs identity_end with_identity_end with_dirs].
    split; [lia|]. split; [lia|]. split.
    + intros q Hq%Ht. lia.
    + intros q. rewrite dom_insert_L, elem_of_union, elem_of_singleton.
      intros [->|Hq%Hd]; lia.
Qed.

Program Definition boot_alloc : @QuietAlloc pre_paging := {| pa_quiet := boot_quiet |}.
Next Obligation. exact boot_quiet_alloc. Qed.
Next Obligation. intros k p s H _. by exists s. Qed.
Next Obligation.
  intros n s s' (H1 & H2 & H3 & H4) E1 _ Ht Hd. unfold boot_quiet. rewrite E1.
  split; [done|]. split; [done|]. split; intros p Hp; [apply H3|apply H4]; set_solver.
Qed.
Next Obligation. intros n k s (? & ? & ? & ?) Hle. split; [done|]. split; [lia|done]. Qed.

(** ** A kernel directory with its 63 tables and one page of the kernel stack *)
Definition demo_table (i : Z) : Z := 0x110000 + i * 0x1000.
Definition demo_page : page_t := new_page 3 (40 * 4096) page_zero.
Definition demo_tab (i : Z) : list page_t :=
  if i =? KTABS then demo_page :: replicate 1023 page_zero else tab_zero.
Definition demo_pde (i : Z) : pg_dir_entry_t := new_pde 3 (demo_table i / 4096) pde_zero.

Definition demo_dir : page_dir_t := PageDir
  ((demo_table <$> seqZ 0 64) ++ replicate 960 0)
  ((demo_pde <$> seqZ 0 64) ++ replicate 960 pde_zero).

Definition demo_dir_at : Z := 0x100000.

(** The memory of the machine is zero. *)
Definition demo_ram : gmap Z (list Z) :=
  let page := replicate (Z.to_nat PAGE_SIZE) 0 in
  list_to_map ((λ f, (f * PAGE_SIZE, page)) <$> seqZ 0 1024).

(** The page has the contents [c]. *)
Section demo.
Variable c : list Z.

Definition demo_spaces : mm :=
  Mm (0xFFFFFFFF :: 0x100 :: replicate (Z.to_nat 32765) 0) 0x400 0x200000 demo_dir_at demo_dir_at
    {[demo_dir_at := demo_dir]}
    (list_to_map ((λ i, (demo_table i, demo_tab i)) <$> seqZ 0 64))
    (<[40 * 4096 := c]> demo_ram) 0 (demo_dir_at + 4096).

Definition demo_mem : umem := {[KPAGES := (3, c)]}.

Lemma demo_dir_get i p : aget (tables demo_dir) i = Some p → p ≠ 0 →
  0 ≤ i < 64 ∧ p = demo_table i.
Proof.
  unfold aget, demo_dir. cbn [tables]. cif; [done|].
  intros [H|[_ H]]%lookup_app_Some Hp.
  - apply list_lookup_fmap_Some in H as (j & -> & [Ej Hj]%lookup_seqZ). split; [lia|]. f_equal. lia.
  - by apply lookup_replicate in H as [-> _].
Qed.

Lemma demo_dir_kernel i : 0 ≤ i < KTABS → aget (tables demo_dir) i = Some (demo_table i).
Proof.
  intros Hi. unfold KTABS in Hi. unfold aget, demo_dir. cbn [tables]. cif; [lia|].
  apply lookup_app_l_Some, list_lookup_fmap_Some. exists i. split; [done|].
  apply lookup_seqZ. lia.
Qed.

Lemma demo_tabs_get i : 0 ≤ i < 64 → tabs demo_spaces !! demo_table i = Some (demo_tab i).
Proof.
  intros Hi. unfold demo_spaces. cbn [tabs]. apply elem_of_list_to_map.
  - rewrite <- list_fmap_compose. apply NoDup_fmap_2; [|apply NoDup_seqZ].
    intros a b. unfold compose, demo_table. simpl. lia.
  - apply list_elem_of_fmap. exists i. split; [done|]. apply elem_of_seqZ. lia.
Qed.

Lemma demo_tab_length i : length (demo_tab i) = 1024%nat.
Proof. unfold demo_tab. by case_match. Qed.

Lemma demo_dirs d x : dirs demo_spaces !! d = Some x → d = demo_dir_at ∧ x = demo_dir.
Proof. unfold demo_spaces. cbn [dirs]. by intros [<- <-]%(lookup_singleton_Some (M := gmap Z)). Qed.

Lemma demo_mm_ok : mm_ok demo_spaces.
Proof.
  split; intros d x [-> ->]%demo_dirs.
  - split; [done|]. split; [done|]. split.
    + intros i p Hi Hp. destruct (demo_dir_get i p Hi Hp) as [Hr ->].
      exists (demo_tab i). split; [by apply demo_tabs_get|apply demo_tab_length].
    + intros i j p Hi Hj Hp. destruct (demo_dir_get i p Hi Hp) as [_ E1].
      destruct (demo_dir_get j p Hj Hp) as [_ E2]. unfold demo_table in *. lia.
  - intros i p e Hi Hp. destruct (demo_dir_get i p Hi Hp) as [Hr _].
    unfold aget, demo_dir. cbn [tables_phys]. cif; [done|].
    intros [H|[Hl _]]%lookup_app_Some.
    + apply list_lookup_fmap_Some in H as (j & -> & _). done.
    + rewrite length_fmap, length_seqZ in Hl. lia.
Qed.

Lemma demo_layout : layout demo_spaces.
Proof.
  intros d1 d2 x1 x2 [-> ->]%demo_dirs [-> ->]%demo_dirs. split.
  - intros i Hi. exists (demo_table i). rewrite demo_dir_kernel by done.
    split; [unfold demo_table; lia|done].
  - intros i j p Hi Hj Hp. destruct (demo_dir_get i p Hi Hp) as [_ E1].
    destruct (demo_dir_get j p Hj Hp) as [_ E2]. unfold demo_table in *. split; [lia|by right].
Qed.

Lemma demo_pte n : private n → pte demo_spaces demo_dir_at n = if n =? KPAGES then demo_page else page_zero.
Proof.
  unfold private. change KPAGES with 64512. intros Hn.
  assert (Hd : dirs demo_spaces !! demo_dir_at = Some demo_dir) by apply lookup_singleton_eq.
  unfold pte. rewrite entry_of_table by (apply demo_mm_ok || (by eexists) || lia).
  unfold table_at. rewrite Hd.
  destruct (aget (tables demo_dir) (n / 1024)) as [p|] eqn:Ep; cbn [default]; unfold id.
  2:{ replace (n =? 64512) with false; [done|]. symmetry. apply Z.eqb_neq. intros ->. by vm_compute in Ep. }
  destruct (Z.eqb_spec p 0) as [->|Hp].
  { replace (n =? 64512) with false; [done|]. symmetry. apply Z.eqb_neq. intros ->. by vm_compute in Ep. }
  destruct (demo_dir_get _ _ Ep Hp) as [Hr ->].
  rewrite (demo_tabs_get _ Hr). cbn [mbind option_bind].
  assert (n / 1024 = 63) as H63 by (Z.div_mod_to_equations; lia).
  unfold demo_tab, KTABS. rewrite H63. cbn [Z.eqb Pos.eqb]. unfold aget. cif; [Z.div_mod_to_equations; lia|].
  destruct (Z.eqb_spec n 64512) as [->|Hne]; [done|].
  replace (Z.to_nat (n mod 1024)) with (S (Z.to_nat (n mod 1024 - 1))) by (Z.div_mod_to_equations; lia).
  assert (Hc : ∀ (l : list page_t) k, (demo_page :: l) !! S k = l !! k) by done. rewrite Hc.
  destruct (lookup_lt_is_Some_2 (replicate 1023 page_zero)
    (Z.to_nat (n mod 1024 - 1))) as [e He].
  { rewrite length_replicate. Z.div_mod_to_equations. lia. }
  rewrite He. by apply lookup_replicate in He as [-> _].
Qed.

Lemma demo_keys n : is_Some (demo_mem !! n) → n = KPAGES.
Proof. unfold demo_mem. intros [x H]. by apply (lookup_singleton_Some (M := gmap Z)) in H as [<- _]. Qed.

Lemma demo_pages : pages_ok demo_spaces {[demo_dir_at := demo_mem]}.
Proof.
  split.
  - intros d m n [<- <-]%(lookup_singleton_Some (M := gmap Z)) Hn. rewrite demo_pte by done.
    destruct (Z.eqb_spec n KPAGES) as [->|Hne].
    + unfold demo_mem. rewrite (lookup_singleton_eq (M := gmap Z)).
      do 3 (split; [done|]). split; [vm_compute; split; congruence|]. split; [done|].
      change (frame demo_page * PAGE_SIZE) with (40 * 4096). apply lookup_insert_eq.
    + assert (demo_mem !! n = None) as ->; [|done].
      destruct (demo_mem !! n) eqn:E; [|done]. destruct Hne. apply demo_keys. by rewrite E.
  - intros d m n [<- <-]%(lookup_singleton_Some (M := gmap Z)) ->%demo_keys. by vm_compute.
  - intros d1 n1 d2 n2 [? [<- _]%(lookup_singleton_Some (M := gmap Z))]
      [? [<- _]%(lookup_singleton_Some (M := gmap Z))] H1 H2.
    rewrite !demo_pte by done. intros P1 P2 _. split; [done|].
    destruct (Z.eqb_spec n1 KPAGES) as [->|]; [|done]. by destruct (Z.eqb_spec n2 KPAGES) as [->|].
Qed.

Lemma demo_rep : rep demo_spaces {[demo_dir_at := demo_mem]}.
Proof.
  split; [exact demo_mm_ok| |exact demo_layout| | | |exact demo_pages].
  - split; [|split].
    + unfold demo_spaces. cbn [frames length]. rewrite length_replicate, NFRAMEWORDS_eq. lia.
    + unfold demo_spaces. cbn [frames]. apply List.Forall_cons; [lia|]. apply List.Forall_cons; [lia|].
      apply Forall_replicate. lia.
    + rewrite NFRAMEWORDS_eq. simpl. lia.
  - unfold demo_spaces. cbn [dirs]. by rewrite !dom_singleton_L.
  - exists demo_mem. apply (lookup_singleton_eq (M := gmap Z)).
  - exists demo_mem. apply (lookup_singleton_eq (M := gmap Z)).
Qed.

Lemma demo_quiet n : 0 ≤ n < 2 ^ 30 → boot_quiet n demo_spaces.
Proof.
  intros Hn. split; [done|]. split; [simpl; lia|]. split.
  - intros p Hp. unfold demo_spaces in *. cbn [tabs identity_end] in *.
    rewrite dom_list_to_map_L, elem_of_list_to_set in Hp.
    apply list_elem_of_fmap in Hp as ([q t] & -> & Hp).
    apply list_elem_of_fmap in Hp as (i & E & Hi). injection E as -> _.
    apply elem_of_seqZ in Hi. simpl. unfold demo_table. lia.
  - intros p [x Hx]%elem_of_dom. apply demo_dirs in Hx as [-> _]. done.
Qed.

Lemma demo_room : @fork_room pre_paging boot_alloc demo_spaces demo_dir_at.
Proof.
  split; [by apply demo_quiet|]. exists {[KPAGES]}. split.
  - intros n Hn. rewrite demo_pte by done. destruct (Z.eqb_spec n KPAGES) as [->|]; [|done]. set_solver.
  - exists {[50]}. split; [by rewrite !size_singleton|].
    intros f ->%elem_of_singleton. split; [change (32 * (memsize demo_spaces / 32)) with 1024; lia|done].
Qed.
End demo.

Lemma space_forks_and_dies_witness :
  let PA := pre_paging in let QA := boot_alloc in
  let s := demo_spaces [1; 2; 3] in
  ∃ pd s1 s2, create_page_dir s = Ok (pd, s1) ∧ ({[demo_dir_at := demo_mem [1; 2; 3]]} : gmap Z umem) !! pd = None ∧
    clone_page_dir pd (cr3 s) s1 = Ok s2 ∧
    space_rep s2 (<[pd := demo_mem [1; 2; 3]]> {[demo_dir_at := demo_mem [1; 2; 3]]}) ∧ spaces s2 = spaces s ∧
    ∃ s3 s4 s5, free_pages pd s2 = Ok s3 ∧ clear_page_dir pd s3 = Ok s4 ∧
      free_page_dir pd s4 = Ok s5 ∧ space_rep s5 {[demo_dir_at := demo_mem [1; 2; 3]]} ∧ spaces s5 = spaces s.
Proof.
  intros PA QA s. apply (@space_forks_and_dies PA QA s {[demo_dir_at := demo_mem [1; 2; 3]]} (demo_mem [1; 2; 3])).
  - split; [apply demo_rep|by apply demo_quiet].
  - apply (lookup_singleton_eq (M := gmap Z)).
  - apply demo_room.
Defined.
