(* ===== verification/User.v ===== *)
(** * User: the bytes of the user's memory

    Loads and stores of the kernel through the address space that is loaded, on the
    model of [Paging], and what they do to the private memory of [Space]. *)

From S2P Require Import Prelude Headers Paging Spaces Space.

(** ** Access through the page tables *)
Definition load8 (a : Z) (s : mm) : res Z :=
  let* f := page_frame a s in
  let* c := deref (ram s !! f) in
  deref (aget c (a mod PAGE_SIZE)).

Definition store8 (a v : Z) (s : mm) : res mm :=
  let* f := page_frame a s in
  let* c := deref (ram s !! f) in
  let* c := deref (aset c (a mod PAGE_SIZE) (u8 v)) in
  Ok (with_ram (<[f := c]> (ram s)) s).

(** An int or a pointer. *)
Definition load32 (a : Z) (s : mm) : res Z :=
  let* b0 := load8 a s in
  let* b1 := load8 (a + 1) s in
  let* b2 := load8 (a + 2) s in
  let* b3 := load8 (a + 3) s in
  Ok (b0 + b1 * 2 ^ 8 + b2 * 2 ^ 16 + b3 * 2 ^ 24).

Definition byte_of (v k : Z) : Z := Z.land (Z.shiftr v (8 * k)) 0xFF.

Definition store32 (a v : Z) (s : mm) : res mm :=
  let* s := store8 a (byte_of v 0) s in
  let* s := store8 (a + 1) (byte_of v 1) s in
  let* s := store8 (a + 2) (byte_of v 2) s in
  store8 (a + 3) (byte_of v 3) s.

(** [strcpy] out of the user's memory: the characters before the zero. *)
Fixpoint load_str (fuel : nat) (a : Z) (s : mm) : res (list Z) :=
  match fuel with
  | O => Fuel
  | S fuel =>
      let* c := load8 a s in
      if c =? 0 then Ok [] else let* cs := load_str fuel (a + 1) s in Ok (c :: cs)
  end.

(** [memcpy] into it. *)
Fixpoint store_bytes (a : Z) (bs : list Z) (s : mm) : res mm :=
  match bs with
  | [] => Ok s
  | b :: bs => let* s := store8 a b s in store_bytes (a + 1) bs s
  end.

(** ** On the private memory *)
Definition vbyte (m : umem) (a : Z) : option Z :=
  m !! (a / PAGE_SIZE) ≫= λ '(_, c), aget c (a mod PAGE_SIZE).

Definition vset (m : umem) (a v : Z) : umem :=
  alter (λ '(f, c), (f, <[Z.to_nat (a mod PAGE_SIZE) := v]> c)) (a / PAGE_SIZE) m.

(** The pages hold as many bytes as a page has. *)
Definition whole (m : umem) : Prop :=
  map_Forall (λ _ x, len x.2 = PAGE_SIZE) m.

Lemma offset_range a : 0 ≤ a mod PAGE_SIZE < PAGE_SIZE.
Proof. unfold PAGE_SIZE. apply Z.mod_pos_bound. lia. Qed.

Lemma same_byte a b : a / PAGE_SIZE = b / PAGE_SIZE → a mod PAGE_SIZE = b mod PAGE_SIZE → a = b.
Proof. unfold PAGE_SIZE. Z.div_mod_to_equations. lia. Qed.

Lemma vbyte_vset m a v b x : vbyte m a = Some x →
  vbyte (vset m a v) b = if decide (b = a) then Some v else vbyte m b.
Proof.
  unfold vbyte, vset. intros Ha.
  destruct (m !! (a / PAGE_SIZE)) as [[f c]|] eqn:E; [|done]. cbn [mbind option_bind] in Ha.
  destruct (decide (b / PAGE_SIZE = a / PAGE_SIZE)) as [Ep|Ep].
  - rewrite Ep, lookup_alter_eq, E. cbn [fmap option_fmap option_map mbind option_bind].
    rewrite aget_insert by (by eapply aget_range).
    destruct (decide (b = a)) as [->|Hne]; [by rewrite Z.eqb_refl|].
    replace (a mod PAGE_SIZE =? b mod PAGE_SIZE) with false; [done|].
    symmetry. apply Z.eqb_neq. intros Eo. by apply Hne, same_byte.
  - rewrite lookup_alter_ne by done. rewrite decide_False; [done|congruence].
Qed.

Lemma vbyte_whole m a : whole m → is_Some (vbyte m a) ↔ is_Some (m !! (a / PAGE_SIZE)).
Proof.
  intros Hw. unfold vbyte. destruct (m !! (a / PAGE_SIZE)) as [[f c]|] eqn:E;
    [|split; by intros [? ?]].
  cbn [mbind option_bind]. split; [by eexists|]. intros _. apply aget_is_Some.
  pose proof (Hw _ _ E) as Hl. cbn [snd] in Hl. rewrite Hl. apply offset_range.
Qed.

Lemma whole_vset m a v : whole m → whole (vset m a v).
Proof.
  intros Hw n [f c]. unfold vset. rewrite lookup_alter_Some.
  intros [(<- & [f0 c0] & E & Ex)|[_ E]]; [|by apply (Hw n)].
  injection Ex as -> ->. cbn [snd]. rewrite length_insert. by apply (Hw _ _ E).
Qed.

Lemma vset_keys m a v n : is_Some (vset m a v !! n) ↔ is_Some (m !! n).
Proof. unfold vset. rewrite lookup_alter_is_Some. done. Qed.

(** ** The accesses, in terms of it *)
Section access.
Context {PA : PageAlloc} {QA : QuietAlloc}.
Variables (V : gmap Z umem).

(** The memory of the address space that is loaded. *)
Definition loaded (s : mm) (m : umem) : Prop := rep s V ∧ V !! cr3 s = Some m.

Lemma page_frame_page a s : 0 ≤ a / PAGE_SIZE < NPAGES → mm_shape s → is_Some (dirs s !! cr3 s) →
  page_frame a s =
    if present (pte s (cr3 s) (a / PAGE_SIZE)) then Ok (frame (pte s (cr3 s) (a / PAGE_SIZE)) * PAGE_SIZE)
    else Panic.
Proof.
  intros Ha Hs Hd. unfold page_frame, pte.
  assert (entry_of s (cr3 s) a = entry_of s (cr3 s) (a / PAGE_SIZE * PAGE_SIZE)) as ->.
  { unfold entry_of. destruct (same_page_indices a 0 ltac:(lia)) as [E1 E2].
    rewrite Z.add_0_r in E1, E2. unfold PAGE_SIZE. by rewrite E1, E2. }
  destruct (entry_of s (cr3 s) (a / PAGE_SIZE * PAGE_SIZE)) as [e|]; [|done].
  simpl. destruct (present e); [|done]. by rewrite Z.shiftl_mul_pow2.
Qed.

Lemma load8_spec s m a : loaded s m → private (a / PAGE_SIZE) →
  load8 a s = match m !! (a / PAGE_SIZE) with Some _ => deref (vbyte m a) | None => Panic end.
Proof.
  intros [HR Hm] Ha. assert (Hr : 0 ≤ a / PAGE_SIZE < NPAGES)
    by (unfold private in Ha; change KPAGES with 64512 in Ha; lia).
  unfold load8. rewrite page_frame_page;
    [|done|apply HR|apply (rep_dir _ _ _ HR); by eexists].
  pose proof (po_pages _ _ (r_pages _ _ HR) _ _ _ Hm Ha) as Hp. unfold vbyte.
  destruct (m !! (a / PAGE_SIZE)) as [[f c]|]; simpl in Hp.
  - destruct Hp as (-> & _ & _ & _ & _ & Hc). cbn [rbind]. rewrite Hc. done.
  - by rewrite Hp.
Qed.

Lemma load8_ok s m a v : loaded s m → private (a / PAGE_SIZE) → vbyte m a = Some v →
  load8 a s = Ok v.
Proof.
  intros HL Ha Hv. rewrite (load8_spec s m) by done. rewrite Hv. unfold vbyte in Hv.
  by destruct (m !! (a / PAGE_SIZE)).
Qed.

Lemma vset_insert m a v f c : m !! (a / PAGE_SIZE) = Some (f, c) →
  vset m a v = <[a / PAGE_SIZE := (f, <[Z.to_nat (a mod PAGE_SIZE) := v]> c)]> m.
Proof.
  intros E. apply map_eq. intros n. unfold vset. destruct (decide (a / PAGE_SIZE = n)) as [<-|Hne].
  - by rewrite lookup_alter_eq, E, lookup_insert_eq.
  - by rewrite lookup_alter_ne, lookup_insert_ne.
Qed.

(** The contents of a page change. *)
Lemma pages_write s d m n f c c' : pages_ok s V → V !! d = Some m → private n →
  m !! n = Some (f, c) →
  pages_ok (with_ram (<[frame (pte s d n) * PAGE_SIZE := c']> (ram s)) s)
    (<[d := <[n := (f, c')]> m]> V).
Proof.
  intros HP Hd Hn Em. set (s' := with_ram _ s).
  assert (Hdom : ∀ d2, is_Some (<[d := <[n := (f, c')]> m]> V !! d2) ↔ is_Some (V !! d2)).
  { intros d2. rewrite lookup_insert_is_Some. destruct (decide (d = d2)) as [<-|]; naive_solver. }
  pose proof (po_pages _ _ HP d m n Hd Hn) as Hpg. rewrite Em in Hpg.
  destruct Hpg as (H1 & H2 & H3 & H4 & H5 & _).
  split.
  - intros d2 m2 n2 Hd2 Hn2. change (pte s' d2 n2) with (pte s d2 n2).
    destruct (decide (d2 = d ∧ n2 = n)) as [[-> ->]|Hother].
    { rewrite lookup_insert_eq in Hd2. injection Hd2 as <-. rewrite lookup_insert_eq.
      unfold page_rep, s'. cbn. by rewrite lookup_insert_eq. }
    assert (∃ m0, V !! d2 = Some m0 ∧ m2 !! n2 = m0 !! n2) as (m0 & Hm0 & ->).
    { apply lookup_insert_Some in Hd2 as [[<- <-]|[_ Hd2]]; [|by exists m2].
      exists m. split; [done|]. rewrite lookup_insert_ne; naive_solver. }
    pose proof (po_pages _ _ HP d2 m0 n2 Hm0 Hn2) as H.
    destruct (m0 !! n2) as [[f2 c2]|]; [|done]. destruct H as (G1 & G2 & G3 & G4 & G5 & G6).
    unfold page_rep, s'. cbn. rewrite lookup_insert_ne; [done|]. intros E.
    apply Hother, (po_own _ _ HP); try done; [by eexists..|]. unfold PAGE_SIZE in E. lia.
  - intros d2 m2 n2 Hd2 Hs. apply lookup_insert_Some in Hd2 as [[<- <-]|[_ Hd2]].
    + apply lookup_insert_is_Some' in Hs as [<-|Hs]; [done|]. by apply (po_keys _ _ HP d m).
    + by apply (po_keys _ _ HP d2 m2).
  - intros d1 n1 d2 n2 D1%Hdom D2%Hdom. by apply (po_own _ _ HP).
Qed.

Lemma store8_ok s m a v x : loaded s m → private (a / PAGE_SIZE) → vbyte m a = Some x →
  ∃ r, store8 a v s = Ok (with_ram r s) ∧
    rep (with_ram r s) (<[cr3 s := vset m a (u8 v)]> V) ∧
    ∀ g, frame_bit (frames s) g = false → r !! (g * PAGE_SIZE) = ram s !! (g * PAGE_SIZE).
Proof.
  intros [HR Hm] Ha Hv. assert (Hr : 0 ≤ a / PAGE_SIZE < NPAGES)
    by (unfold private in Ha; change KPAGES with 64512 in Ha; lia).
  unfold store8. rewrite page_frame_page;
    [|done|apply HR|apply (rep_dir _ _ _ HR); by eexists].
  unfold vbyte in Hv. destruct (m !! (a / PAGE_SIZE)) as [[f c]|] eqn:Em; [|done].
  cbn [mbind option_bind] in Hv.
  pose proof (po_pages _ _ (r_pages _ _ HR) _ _ _ Hm Ha) as Hp. rewrite Em in Hp.
  destruct Hp as (-> & _ & _ & _ & Hused & Hc). cbn [rbind]. rewrite Hc. cbn [deref rbind].
  rewrite aset_Some by (by eapply aget_range). cbn [deref rbind]. eexists. split; [done|].
  split; [|intros g Hg; apply lookup_insert_ne; unfold PAGE_SIZE; intros E;
    assert (g = frame (pte s (cr3 s) (a / PAGE_SIZE))) by (unfold PAGE_SIZE in *; lia); congruence].
  rewrite (vset_insert _ _ _ _ _ Em).
  assert (Hs : ∀ d, is_Some (V !! d) → is_Some (<[cr3 s := <[a / PAGE_SIZE :=
    (f, <[Z.to_nat (a mod PAGE_SIZE) := u8 v]> c)]> m]> V !! d))
    by (intros; apply lookup_insert_is_Some'; by right).
  split.
  - apply HR.
  - apply HR.
  - apply HR.
  - change (dom (dirs s) = dom (<[cr3 s := <[a / PAGE_SIZE :=
      (f, <[Z.to_nat (a mod PAGE_SIZE) := u8 v]> c)]> m]> V)).
    rewrite (r_dom _ _ HR). symmetry. apply dom_insert_lookup_L. by eexists.
  - apply Hs, HR.
  - apply Hs, HR.
  - apply pages_write with (c := c); [apply HR|done|done|done].
Qed.
End access.

(** ** Runs of stores *)

(** Only the contents of frames in use change. *)
Definition stored (s s' : mm) : Prop :=
  s' = with_ram (ram s') s ∧
  ∀ g, frame_bit (frames s) g = false → ram s' !! (g * PAGE_SIZE) = ram s !! (g * PAGE_SIZE).

Lemma stored_refl s : stored s s.
Proof. by destruct s. Qed.

Lemma stored_trans s1 s2 s3 : stored s1 s2 → stored s2 s3 → stored s1 s3.
Proof.
  intros [E1 H1] [E2 H2]. split.
  - rewrite E2, E1. done.
  - intros g Hg. rewrite H2, H1; [done..|]. rewrite E1. exact Hg.
Qed.

(** The private memory of the loaded address space is [m], that of the others in [V]. *)
Definition user {PA : PageAlloc} {QA : QuietAlloc} (V : gmap Z umem) (s : mm) (m : umem) : Prop :=
  rep s (<[cr3 s := m]> V).

(** The [n] bytes from [a] on are there. *)
Definition mapped (m : umem) (a n : Z) : Prop :=
  ∀ k, 0 ≤ k < n → private ((a + k) / PAGE_SIZE) ∧ is_Some (vbyte m (a + k)).

Fixpoint vsets (m : umem) (a : Z) (bs : list Z) : umem :=
  match bs with
  | [] => m
  | b :: bs => vsets (vset m a (u8 b)) (a + 1) bs
  end.

Lemma vbyte_vset_some m a v b : is_Some (vbyte m b) → is_Some (vbyte (vset m a v) b).
Proof.
  intros Hb. destruct (vbyte m a) as [x|] eqn:E.
  - rewrite (vbyte_vset m a v b x E). case_decide; [by eexists|done].
  - destruct Hb as [y Hy]. unfold vbyte, vset in *.
    destruct (decide (a / PAGE_SIZE = b / PAGE_SIZE)) as [Ep|Ep].
    + rewrite Ep in *. destruct (m !! (b / PAGE_SIZE)) as [[f c]|] eqn:Em; [|done].
      rewrite lookup_alter_eq, Em. cbn [fmap option_fmap option_map mbind option_bind] in *.
      apply aget_is_Some. rewrite length_insert. by eapply aget_range.
    + rewrite lookup_alter_ne by done. by eexists.
Qed.

Lemma mapped_vset m a n b v : mapped m a n → mapped (vset m b v) a n.
Proof. intros H k Hk. destruct (H k Hk). split; [done|]. by apply vbyte_vset_some. Qed.

Lemma mapped_sub m a n a' n' : mapped m a n → a ≤ a' → a' + n' ≤ a + n → mapped m a' n'.
Proof.
  intros H Ha Hn k Hk. specialize (H (a' - a + k) ltac:(lia)).
  by replace (a + (a' - a + k)) with (a' + k) in H by lia.
Qed.

Lemma mapped_at m a n b : mapped m a n → a ≤ b < a + n →
  private (b / PAGE_SIZE) ∧ is_Some (vbyte m b).
Proof. intros H Hb. specialize (H (b - a) ltac:(lia)). by replace (a + (b - a)) with b in H by lia. Qed.

Lemma vbyte_vsets m a bs b : mapped m a (len bs) →
  vbyte (vsets m a bs) b =
    if decide (a ≤ b < a + len bs) then u8 <$> aget bs (b - a) else vbyte m b.
Proof.
  revert m a. induction bs as [|x bs IH]; intros m a Hm; cbn [vsets length].
  { rewrite decide_False by lia. done. }
  destruct (Hm 0 ltac:(cbn [length]; lia)) as [_ [y Hy]]. rewrite Z.add_0_r in Hy.
  rewrite IH.
  2:{ apply mapped_vset. apply (mapped_sub m a (len (x :: bs))); [done|lia|cbn [length]; lia]. }
  destruct (decide (a + 1 ≤ b < a + 1 + len bs)) as [Hin|Hout].
  - rewrite decide_True by lia. unfold aget. cif; [lia|]. cif; [lia|].
    replace (Z.to_nat (b - a)) with (S (Z.to_nat (b - (a + 1)))) by lia. done.
  - rewrite (vbyte_vset m a _ b y Hy). destruct (decide (b = a)) as [->|Hne].
    + rewrite decide_True by lia. by rewrite Z.sub_diag.
    + by rewrite decide_False by lia.
Qed.

Lemma vsets_keys m a bs n : is_Some (vsets m a bs !! n) ↔ is_Some (m !! n).
Proof.
  revert m a. induction bs as [|x bs IH]; intros m a; cbn [vsets]; [done|].
  by rewrite IH, vset_keys.
Qed.

Lemma whole_vsets m a bs : whole m → whole (vsets m a bs).
Proof.
  revert m a. induction bs as [|x bs IH]; intros m a H; cbn [vsets]; [done|].
  by apply IH, whole_vset.
Qed.

(** The flags and the lengths stay, and pages that are not touched are as they were. *)
Definition shape (m : umem) (n : Z) : option (Z * nat) := (λ x, (x.1, length x.2)) <$> m !! n.

Lemma vset_flags m a v n : shape (vset m a v) n = shape m n.
Proof.
  unfold shape, vset. destruct (decide (a / PAGE_SIZE = n)) as [<-|].
  - rewrite lookup_alter_eq. destruct (m !! (a / PAGE_SIZE)) as [[f c]|]; [|done].
    cbn. by rewrite length_insert.
  - by rewrite lookup_alter_ne.
Qed.

Lemma vsets_flags m a bs n : shape (vsets m a bs) n = shape m n.
Proof.
  revert m a. induction bs as [|x bs IH]; intros m a; cbn [vsets]; [done|].
  by rewrite IH, vset_flags.
Qed.

Lemma shape_Some m n f k : shape m n = Some (f, k) → ∃ c, m !! n = Some (f, c) ∧ length c = k.
Proof.
  unfold shape. destruct (m !! n) as [[f' c]|]; [|done]. cbn. intros [= -> <-]. by exists c.
Qed.

Lemma vsets_other m a bs n : (∀ k, 0 ≤ k < len bs → (a + k) / PAGE_SIZE ≠ n) →
  vsets m a bs !! n = m !! n.
Proof.
  revert m a. induction bs as [|x bs IH]; intros m a H; cbn [vsets]; [done|]. rewrite IH.
  - unfold vset. apply lookup_alter_ne. specialize (H 0 ltac:(cbn [length]; lia)).
    by rewrite Z.add_0_r in H.
  - intros k Hk. specialize (H (k + 1) ltac:(cbn [length]; lia)).
    by replace (a + 1 + k) with (a + (k + 1)) by lia.
Qed.

Section stores.
Context {PA : PageAlloc} {QA : QuietAlloc}.

Lemma load8_user V s m a v : user V s m → private (a / PAGE_SIZE) → vbyte m a = Some v →
  load8 a s = Ok v.
Proof.
  intros HU. apply (load8_ok (<[cr3 s := m]> V)). split; [done|]. apply lookup_insert_eq.
Qed.

Lemma store8_user V s m a v : user V s m → private (a / PAGE_SIZE) → is_Some (vbyte m a) →
  ∃ s', store8 a v s = Ok s' ∧ user V s' (vset m a (u8 v)) ∧ stored s s'.
Proof.
  intros HU Ha [x Hx].
  destruct (store8_ok (<[cr3 s := m]> V) s m a v x) as (r & E & HR & Hr); [|done..|].
  { split; [done|]. apply lookup_insert_eq. }
  exists (with_ram r s). split; [done|]. split; [|done].
  unfold user. by rewrite insert_insert_eq in HR.
Qed.

Lemma store_bytes_user V s m a bs : user V s m → mapped m a (len bs) →
  ∃ s', store_bytes a bs s = Ok s' ∧ user V s' (vsets m a bs) ∧ stored s s'.
Proof.
  revert s m a. induction bs as [|b bs IH]; intros s m a HU Hm; cbn [store_bytes vsets].
  { exists s. split; [done|]. split; [done|apply stored_refl]. }
  destruct (Hm 0 ltac:(cbn [length]; lia)) as [Hp Hs]. rewrite Z.add_0_r in Hp, Hs.
  destruct (store8_user V s m a b HU Hp Hs) as (s1 & -> & HU1 & H1). cbn [rbind].
  destruct (IH s1 _ (a + 1) HU1) as (s2 & E2 & HU2 & H2).
  { apply mapped_vset. apply (mapped_sub m a (len (b :: bs))); [done|lia|cbn [length]; lia]. }
  exists s2. split; [done|]. split; [done|]. by apply (stored_trans s s1).
Qed.

Lemma stored_quiet k s s' : stored s s' → pa_quiet k s → pa_quiet k s'.
Proof. intros [-> _] H. by apply (quiet_ext k s). Qed.

Lemma stored_frames k s s' : stored s s' → has_frames s k → has_frames s' k.
Proof. by intros [-> _]. Qed.

Lemma stored_spaces s s' : stored s s' → spaces s' = spaces s.
Proof. by intros [-> _]. Qed.
End stores.

(** ** New pages *)

(** The tables that a directory does not have yet, and room for all of them. *)
Definition missing (s : mm) (pd : Z) : Z :=
  len (filter (λ i, table_at s pd i = 0) (seqZ KTABS (1024 - KTABS))).

(** Each frame that is free has contents. *)
Definition free_ram (s : mm) : Prop :=
  ∀ f, 0 ≤ f < 32 * (memsize s / 32) → frame_bit (frames s) f = false →
    ∃ c, ram s !! (f * PAGE_SIZE) = Some c ∧ len c = PAGE_SIZE.

Lemma filter_same {A} (P Q : A → Prop) `{∀ x, Decision (P x)} `{∀ x, Decision (Q x)} (l : list A) :
  (∀ x, x ∈ l → P x ↔ Q x) → filter P l = filter Q l.
Proof.
  induction l as [|x l IH]; intros Hl; [done|]. rewrite !filter_cons.
  rewrite IH by (intros y Hy; apply Hl; by right).
  pose proof (Hl x ltac:(by left)) as Hx. by destruct (decide (P x)), (decide (Q x)); naive_solver.
Qed.

Lemma filter_one {A} (P Q : A → Prop) `{∀ x, Decision (P x)} `{∀ x, Decision (Q x)} (l : list A) i :
  NoDup l → i ∈ l → P i → ¬ Q i → (∀ j, j ≠ i → P j ↔ Q j) →
  len (filter P l) = len (filter Q l) + 1.
Proof.
  intros Hl Hi HP HQ Hj. induction l as [|x l IH]; [by apply not_elem_of_nil in Hi|].
  apply list.NoDup_cons in Hl as [Hx Hl]. rewrite !filter_cons.
  apply elem_of_cons in Hi as [<-|Hi].
  - rewrite decide_True, decide_False by done. cbn [length].
    assert (filter P l = filter Q l) as ->; [|lia].
    apply filter_same. intros y Hy. apply Hj. by intros ->.
  - assert (x ≠ i) by (by intros ->). specialize (IH Hl Hi).
    destruct (decide (P x)) as [p|p], (decide (Q x)) as [q|q]; cbn [length];
      rewrite (Hj x) in p by done; done || lia.
Qed.

Section alloc.
Context {PA : PageAlloc} {QA : QuietAlloc}.

Definition roomy (s : mm) : Prop := pa_quiet (missing s (cr3 s) * TABLE_ROOM) s.

Lemma missing_nonneg s pd : 0 ≤ missing s pd.
Proof. unfold missing. lia. Qed.

Lemma missing_after s s' pd i : KTABS ≤ i < 1024 → table_at s' pd i ≠ 0 →
  (∀ j, j ≠ i → table_at s' pd j = table_at s pd j) →
  missing s pd = missing s' pd + (if table_at s pd i =? 0 then 1 else 0).
Proof.
  intros Hi Ht Hj. unfold missing. destruct (Z.eqb_spec (table_at s pd i) 0) as [E|E].
  - apply (filter_one _ _ _ i); [apply NoDup_seqZ|apply elem_of_seqZ; lia|done|done|].
    intros j Hne. by rewrite Hj.
  - rewrite Z.add_0_r. f_equal. f_equal. apply filter_same. intros j _.
    destruct (decide (j = i)) as [->|Hne]; [naive_solver|]. by rewrite Hj.
Qed.

(** A new page for the user. *)
Lemma new_user_page V s m n flags k :
  rep s (<[cr3 s := m]> V) → roomy s → free_ram s → has_frames s (k + 1) → 0 ≤ k →
  private n → m !! n = None →
  (∀ fr e, low_flags (new_page flags fr e) = flags ∧ present (new_page flags fr e) = true) →
  ∃ fr s1 c s', frame_alloc s = Ok (fr, s1) ∧ cr3 s1 = cr3 s ∧
    page_map (n * PAGE_SIZE) fr flags (cr3 s) s1 = Ok (n * PAGE_SIZE, s') ∧
    rep s' (<[cr3 s := <[n := (flags, c)]> m]> V) ∧ len c = PAGE_SIZE ∧
    roomy s' ∧ free_ram s' ∧ has_frames s' k ∧ spaces s' = spaces s.
Proof.
  intros HR HQ HM HF Hk Hn Hm Hfl.
  assert (Hn' : 0 ≤ n < NPAGES) by (unfold private in Hn; change KPAGES with 64512 in Hn; lia).
  assert (Hlm : <[cr3 s := m]> V !! cr3 s = Some m) by apply lookup_insert_eq.
  assert (Hdd : is_Some (dirs s !! cr3 s)) by (apply (rep_dir _ _ _ HR); by eexists).
  destruct (frame_alloc_free s k (r_frames _ _ HR) HF Hk) as (f & fs' & Ef & Hok1 & Hf & Hfree & Hb1 & HF1).
  assert (Hfm : 0 ≤ f < 32 * (memsize s / 32)).
  { destruct (frame_alloc_cases s (r_frames _ _ HR)) as [[E _]|(f' & ? & E & _ & ? & _)];
      rewrite Ef in E; injection E as E E'.
    - destruct (f =? 0) eqn:E0; [|lia]. apply Z.eqb_eq in E0. subst f.
      destruct HF as (X & HX & HXf). destruct (decide (X = ∅)) as [->|Hne].
      + rewrite size_empty in HX. lia.
      + apply set_choose_L in Hne as [g Hg]. apply HXf in Hg as [Hg _]. lia.
    - lia. }
  set (s1 := with_frames fs' s) in *.
  destruct (HM f Hfm Hfree) as (c & Hc & Hlc).
  assert (HM1 : missing s1 (cr3 s) = missing s (cr3 s)) by done.
  assert (Hdi : KTABS ≤ n / 1024 < 1024).
  { unfold private in Hn. change KPAGES with 64512 in Hn. change NPAGES with 1048576 in Hn.
    unfold KTABS. Z.div_mod_to_equations. lia. }
  set (b := if table_at s (cr3 s) (n / 1024) =? 0 then 1 else 0).
  assert (Hq : pa_quiet (missing s (cr3 s) * TABLE_ROOM) s1) by (by apply (quiet_ext _ s)).
  assert (Hmb : 0 ≤ missing s (cr3 s) - b).
  { unfold b. destruct (Z.eqb_spec (table_at s (cr3 s) (n / 1024)) 0) as [E|E];
      [|pose proof (missing_nonneg s (cr3 s)); lia].
    unfold missing. assert (n / 1024 ∈ filter (λ i, table_at s (cr3 s) i = 0) (seqZ KTABS (1024 - KTABS))) as Hin.
    { apply list_elem_of_filter. split; [done|]. apply elem_of_seqZ. lia. }
    destruct (filter _ _); [by apply not_elem_of_nil in Hin|]. cbn [length]. lia. }
  destruct (page_map_quiet ((missing s (cr3 s) - b) * TABLE_ROOM) n (f * 4096) flags (cr3 s) s1)
    as (s2 & E2 & Hok2 & HL2 & HQ2 & Hsame & Ht2 & Htab2 & _ & Hp2).
  { exact (r_ok _ _ HR). } { exact (r_layout _ _ HR). } { exact Hdd. } { done. }
  { unfold TABLE_ROOM, PAGE_SIZE. lia. }
  { change (table_at s1 (cr3 s)) with (table_at s (cr3 s)). apply (quiet_le (missing s (cr3 s) * TABLE_ROOM)); [done|].
    unfold b. case_match; lia. }
  injection Hsame as F1 F2 F3 F4 F5 F6.
  exists (f * 4096), s1, c, s2. split; [done|]. split; [done|]. split; [done|].
  assert (Hnew : pte s2 (cr3 s) n = new_page flags (f * 4096) (pte s1 (cr3 s) n)).
  { rewrite Hp2, decide_True; [done|by split; [|left]|exact Hdd|done]. }
  assert (Hb2 : ∀ g, 0 ≤ g → frame_bit (frames s2) g = if g =? f then true else frame_bit (frames s) g)
    by (intros g; rewrite F1; apply Hb1).
  split; [split|].
  - exact Hok2.
  - destruct Hok1 as (A1 & A2 & A3). unfold frames_ok. by rewrite F1, F2.
  - exact HL2.
  - rewrite F6. cbn. rewrite (r_dom _ _ HR). by rewrite !dom_insert_L.
  - rewrite F4. destruct (r_kernel _ _ HR) as [y Hy].
    destruct (decide (cr3 s = cur_page_dir s)) as [E|E].
    + rewrite E. rewrite lookup_insert_eq. by eexists.
    + rewrite lookup_insert_ne in * by done. by exists y.
  - rewrite F5. rewrite lookup_insert_eq. by eexists.
  - rewrite <- (insert_insert_eq V (cr3 s) (<[n:=(flags,c)]> m) m).
    apply (pages_add s s2 _ (cr3 s) m n f); [apply HR|done|done| |done| |done| | |].
    + eapply rep_pte_absent; [exact HR|exact Hlm|done|done].
    + intros d n2 Hd Hn2 Hne. apply (rep_dir _ _ _ HR) in Hd.
      rewrite Hp2, decide_False; [done| |exact Hd|].
      * unfold private in Hn. intros [-> [->|?]]; [by destruct Hne|lia].
      * unfold private in Hn2. change KPAGES with 64512 in Hn2. lia.
    + rewrite F3. symmetry. apply insert_id. exact Hc.
    + rewrite Hnew. by apply new_page_frame.
    + rewrite Hnew. destruct (Hfl (f * 4096) (pte s1 (cr3 s) n)) as [Ha Hb].
      unfold page_rep. rewrite Ha, Hb, new_page_frame, Hb2, Z.eqb_refl, F3 by (done || lia). done.
  - split; [done|]. split; [|split; [|split]].
    + unfold roomy. rewrite F5. change (cr3 s1) with (cr3 s).
      rewrite (missing_after s1 s2 (cr3 s) (n / 1024)) in HM1;
        [|done|done|intros j Hj; apply Htab2; right; by left].
      change (table_at s1 (cr3 s) (n / 1024)) with (table_at s (cr3 s) (n / 1024)) in HM1. fold b in HM1.
      by replace (missing s2 (cr3 s)) with (missing s (cr3 s) - b) by lia.
    + intros g Hg Hgf. rewrite F2 in Hg. rewrite F3. apply HM; [done|].
      rewrite Hb2 in Hgf by lia. by destruct (g =? f).
    + destruct HF1 as (X & HX & HXf). exists X. split; [done|]. by rewrite F1, F2.
    + unfold spaces. by rewrite F4, F5.
Qed.

Lemma stored_roomy s s' : stored s s' → roomy s → roomy s'.
Proof. intros H HQ. unfold roomy in *. destruct H as [-> _]. by apply (quiet_ext _ s). Qed.

Lemma stored_free_ram s s' : stored s s' → free_ram s → free_ram s'.
Proof.
  intros [E Hr] H f Hf Hb. rewrite E in Hf, Hb.
  assert (Hb0 : frame_bit (frames s) f = false) by exact Hb. rewrite (Hr f Hb0). by apply H.
Qed.

(** What the loading of a program needs: room for tables, and [k] free frames. *)
Record ready_for (k : Z) (s : mm) : Prop := {
  rf_roomy : roomy s;
  rf_ram : free_ram s;
  rf_frames : has_frames s k
}.

Lemma stored_ready k s s' : stored s s' → ready_for k s → ready_for k s'.
Proof.
  intros H [H1 H2 H3]. split; [by eapply stored_roomy|by eapply stored_free_ram|by eapply stored_frames].
Qed.
End alloc.
