(* ===== verification/Elf.v ===== *)
(** * Elf: the loader of program images

    [kernel/src/loader/elf.h] and [load_elf.c] on the pages of [User].  The image is
    the list of its bytes in the kernel's buffer. *)

From S2P Require Import Prelude Headers Paging Spaces Space User.

(** ** elf.h *)
Definition ELFMAG : list Z := [0x7f; 69; 76; 70].
Definition PT_LOAD : Z := 1.
Definition PF_W : Z := 2.
Definition PHDR_SIZE : Z := 32.

Record Elf32_Phdr := Phdr {
  p_type : Z; p_offset : Z; p_vaddr : Z; p_filesz : Z; p_memsz : Z; p_flags : Z
}.

(** Little-endian fields of the image. *)
Definition le16_at (data : list Z) (a : Z) : res Z :=
  let* b0 := deref (aget data a) in
  let* b1 := deref (aget data (a + 1)) in
  Ok (b0 + b1 * 2 ^ 8).

Definition le32_at (data : list Z) (a : Z) : res Z :=
  let* lo := le16_at data a in
  let* hi := le16_at data (a + 2) in
  Ok (lo + hi * 2 ^ 16).

Definition e_phoff (data : list Z) : res Z := le32_at data 28.
Definition e_phnum (data : list Z) : res Z := le16_at data 44.

(** The fields of a program header that the loader reads. *)
Definition phdr_at (data : list Z) (a : Z) : res Elf32_Phdr :=
  let* ty := le32_at data a in
  let* off := le32_at data (a + 4) in
  let* va := le32_at data (a + 8) in
  let* fsz := le32_at data (a + 16) in
  let* msz := le32_at data (a + 20) in
  let* fl := le32_at data (a + 24) in
  Ok (Phdr ty off va fsz msz fl).

(** [memcpy] reads [n] bytes of the buffer at [off]. *)
Definition slice (data : list Z) (off n : Z) : res (list Z) :=
  if off + n <=? len data then Ok (take (Z.to_nat n) (drop (Z.to_nat off) data)) else Fault.

(** ** load_elf.c *)
Definition UCODE_BEGIN : Z := UMEM_BEGIN.

Section code.
Context {PA : PageAlloc}.

Definition seg_flags (h : Elf32_Phdr) : Z :=
  if has (p_flags h) PF_W then Z.lor (Z.lor PF_PRES PF_USER) PF_RW else Z.lor PF_PRES PF_USER.

(** [false]: [page_map] returned [NULL]. *)
Fixpoint map_segment (fuel : nat) (size : Z) (h : Elf32_Phdr) (pd : Z) (s : mm) : res (bool * mm) :=
  match fuel with
  | O => Fuel
  | S fuel =>
      if size <? p_memsz h then
        let* (fr, s) := frame_alloc s in
        let* (map, s) := page_map (u32 (p_vaddr h + size)) fr (seg_flags h) pd s in
        if map =? 0 then Ok (false, s)
        else map_segment fuel (u32 (size + PAGE_SIZE)) h pd s
      else Ok (true, s)
  end.

Definition elf_bad (s : mm) : res (Z * mm) := Ok (u32 (-1), with_errno ENOEXEC s).

(** One program header: the new end of the image, or [None] for [goto bad]. *)
Definition load_segment (fuel : nat) (data : list Z) (h : Elf32_Phdr) (pd ret : Z) (s : mm)
    : res (option Z * mm) :=
  if negb (p_type h =? PT_LOAD) then Ok (Some ret, s)
  else if p_memsz h <? p_filesz h then Ok (None, s)
  else
    let* (ok, s) := map_segment fuel 0 h pd s in
    if negb ok then Ok (None, s)
    else
      let* s := store_bytes (p_vaddr h) (replicate (Z.to_nat (p_memsz h)) 0) s in
      let* bytes := slice data (p_offset h) (p_filesz h) in
      let* s := store_bytes (p_vaddr h) bytes s in
      Ok (Some (u32 (p_vaddr h + p_memsz h)), s).

(** [n] program headers are left, the next at [offset]. *)
Fixpoint load_headers (n : nat) (fuel : nat) (data : list Z) (offset pd ret : Z) (s : mm)
    : res (Z * mm) :=
  match n with
  | O => Ok (ret, s)
  | S n =>
      let* h := phdr_at data offset in
      let* (r, s) := load_segment fuel data h pd ret s in
      match r with
      | None => elf_bad s
      | Some ret => load_headers n fuel data (u32 (offset + PHDR_SIZE)) pd ret s
      end
  end.

Fixpoint magic_ok (mag data : list Z) : res bool :=
  match mag, data with
  | [], _ => Ok true
  | m :: mag, d :: data => if d =? m then magic_ok mag data else Ok false
  | _ :: _, [] => Fault
  end.

(** [pd] is [cur_task->page_dir]. *)
Definition load_elf (fuel : nat) (data : list Z) (pd : Z) (s : mm) : res (Z * mm) :=
  let* ok := magic_ok ELFMAG data in
  if negb ok then elf_bad s
  else
    let* offset := e_phoff data in
    let* n := e_phnum data in
    load_headers (Z.to_nat n) fuel data offset pd UCODE_BEGIN s.
End code.

(** ** The pages of a segment *)
Definition seg_page (h : Elf32_Phdr) : Z := p_vaddr h / PAGE_SIZE.
Definition seg_pages (h : Elf32_Phdr) : Z := (p_memsz h + PAGE_SIZE - 1) / PAGE_SIZE.

(** The [k] pages from [v] on are new, with the flags [fl]; the others are as before. *)
Definition fresh_pages (m : umem) (v k fl : Z) (m' : umem) : Prop :=
  (∀ n, v ≤ n < v + k → ∃ c, m' !! n = Some (fl, c) ∧ len c = PAGE_SIZE) ∧
  ∀ n, ¬ (v ≤ n < v + k) → m' !! n = m !! n.

Lemma seg_flags_page h fr e : low_flags (new_page (seg_flags h) fr e) = seg_flags h ∧
  present (new_page (seg_flags h) fr e) = true.
Proof. unfold seg_flags. by destruct (has (p_flags h) PF_W). Qed.

Section spec.
Context {PA : PageAlloc} {QA : QuietAlloc}.

(** A segment starts on a page boundary, lies in the private memory, and its bytes are
    in the image. *)
Record seg_ok (data : list Z) (h : Elf32_Phdr) : Prop := {
  so_align : p_vaddr h mod PAGE_SIZE = 0;
  so_lo : KPAGES * PAGE_SIZE ≤ p_vaddr h;
  so_hi : p_vaddr h + p_memsz h < 2 ^ 32;
  so_sizes : 0 ≤ p_filesz h ≤ p_memsz h;
  so_bytes : 0 ≤ p_offset h ∧ p_offset h + p_filesz h ≤ len data
}.

Lemma seg_range data h : seg_ok data h →
  p_vaddr h = seg_page h * PAGE_SIZE ∧ KPAGES ≤ seg_page h ∧ seg_page h + seg_pages h ≤ NPAGES ∧
  0 ≤ seg_pages h ∧ ∀ j, 0 ≤ j → j * PAGE_SIZE < p_memsz h ↔ j < seg_pages h.
Proof.
  intros [H1 H2 H3 H4 _]. change KPAGES with 64512 in *. unfold seg_page, seg_pages, NPAGES.
  unfold PAGE_SIZE in *. split; [Z.div_mod_to_equations; lia|].
  split; [Z.div_mod_to_equations; lia|]. split; [Z.div_mod_to_equations; lia|].
  split; [Z.div_mod_to_equations; lia|]. intros j Hj. Z.div_mod_to_equations. lia.
Qed.

Lemma map_segment_spec V data h fuel j s m k : seg_ok data h → user V s m → 0 ≤ j ≤ seg_pages h →
  seg_pages h - j < Z.of_nat fuel → 0 ≤ k → ready_for (seg_pages h - j + k) s →
  (∀ n, seg_page h + j ≤ n < seg_page h + seg_pages h → m !! n = None) →
  ∃ s' m', map_segment fuel (j * PAGE_SIZE) h (cr3 s) s = Ok (true, s') ∧ user V s' m' ∧
    fresh_pages m (seg_page h + j) (seg_pages h - j) (seg_flags h) m' ∧
    ready_for k s' ∧ spaces s' = spaces s.
Proof.
  intros Hseg. destruct (seg_range data h Hseg) as (Hv & Hlo & Hhi & Hnp & Hlt).
  revert j s m. induction fuel as [|fuel IH]; intros j s m HU Hj Hf Hk HR Habs; [lia|].
  cbn [map_segment]. specialize (Hlt j ltac:(lia)) as Hltj.
  destruct (Z.ltb_spec (j * PAGE_SIZE) (p_memsz h)) as [Hlt'|Hge].
  2:{ assert (j = seg_pages h) as -> by lia. exists s, m. split; [done|]. split; [done|].
      split; [split; [lia|done]|]. split; [|done].
      by replace (seg_pages h - seg_pages h + k) with k in HR by lia. }
  apply Hltj in Hlt'. set (n := seg_page h + j).
  change KPAGES with 64512 in *. unfold NPAGES in Hhi.
  assert (Hn : private n) by (unfold private; change KPAGES with 64512; unfold NPAGES, n; lia).
  destruct HR as [R1 R2 R3].
  destruct (new_user_page V s m n (seg_flags h) (seg_pages h - (j + 1) + k) HU R1 R2)
    as (fr & s1 & c & s2 & E1 & Ec & E2 & HU2 & Hc & Q1 & Q2 & Q3 & Hsp).
  { by replace (seg_pages h - (j + 1) + k + 1) with (seg_pages h - j + k) by lia. }
  { lia. } { done. } { apply Habs. unfold n. lia. } { intros. apply seg_flags_page. }
  rewrite E1. cbn [rbind]. rewrite Hv.
  replace (seg_page h * PAGE_SIZE + j * PAGE_SIZE) with (n * PAGE_SIZE) by (unfold n; lia).
  rewrite uint_small by (unfold n, PAGE_SIZE; simpl; lia). rewrite E2. cbn [rbind].
  replace (n * PAGE_SIZE =? 0) with false by (unfold n, PAGE_SIZE; lia).
  replace (j * PAGE_SIZE + PAGE_SIZE) with ((j + 1) * PAGE_SIZE) by lia.
  rewrite uint_small by (unfold PAGE_SIZE; simpl; lia).
  injection Hsp as Hs1 Hs2. rewrite <- Hs2.
  destruct (IH (j + 1) s2 (<[n := (seg_flags h, c)]> m)) as (s3 & m3 & E3 & HU3 & [F1 F2] & HR3 & Hsp3).
  { unfold user. by rewrite Hs2. } { lia. } { lia. } { done. } { by split. }
  { intros i Hi. rewrite lookup_insert_ne by (unfold n; lia). apply Habs. lia. }
  exists s3, m3. split; [exact E3|]. split; [done|]. split; [split|].
  - intros i Hi. destruct (decide (i = n)) as [->|Hne].
    + rewrite F2 by (unfold n; lia). rewrite lookup_insert_eq. by exists c.
    + apply F1. unfold n in Hne. lia.
  - intros i Hi. rewrite F2 by lia. apply lookup_insert_ne. unfold n. lia.
  - split; [done|]. rewrite Hsp3. unfold spaces. by rewrite Hs1, Hs2.
Qed.

(** ** One segment *)

(** The bytes of the segment are in memory: those of the image, then zeros. *)
Definition seg_loaded (data : list Z) (h : Elf32_Phdr) (m : umem) : Prop :=
  (∀ n, seg_page h ≤ n < seg_page h + seg_pages h →
     ∃ c, m !! n = Some (seg_flags h, c) ∧ len c = PAGE_SIZE) ∧
  ∀ k, 0 ≤ k < p_memsz h → vbyte m (p_vaddr h + k) =
    if k <? p_filesz h then u8 <$> aget data (p_offset h + k) else Some 0.

Lemma slice_ok data off n : 0 ≤ off → 0 ≤ n → off + n ≤ len data →
  ∃ bs, slice data off n = Ok bs ∧ len bs = n ∧ ∀ k, 0 ≤ k < n → aget bs k = aget data (off + k).
Proof.
  intros Ho Hn Hl. unfold slice. replace (off + n <=? len data) with true by lia.
  eexists. split; [done|]. rewrite length_take, length_drop. split; [lia|].
  intros k Hk. unfold aget. cif; [lia|]. cif; [lia|].
  rewrite lookup_take_lt, lookup_drop by lia. f_equal. lia.
Qed.

Lemma load_segment_spec V data h fuel ret s m k : p_type h = PT_LOAD → seg_ok data h →
  user V s m → seg_pages h < Z.of_nat fuel → 0 ≤ k → ready_for (seg_pages h + k) s →
  (∀ n, seg_page h ≤ n < seg_page h + seg_pages h → m !! n = None) →
  ∃ s' m', load_segment fuel data h (cr3 s) ret s = Ok (Some (p_vaddr h + p_memsz h), s') ∧
    user V s' m' ∧ seg_loaded data h m' ∧
    (∀ n, ¬ (seg_page h ≤ n < seg_page h + seg_pages h) → m' !! n = m !! n) ∧
    ready_for k s' ∧ spaces s' = spaces s.
Proof.
  intros Hty Hseg HU Hf Hk HR Habs. destruct (seg_range data h Hseg) as (Hv & Hlo & Hhi & Hnp & Hlt).
  pose proof Hseg as [S1 S2 S3 S4 S5].
  assert (Hva : 0 ≤ p_vaddr h) by (change KPAGES with 64512 in S2; unfold PAGE_SIZE in S2; lia).
  unfold load_segment. rewrite Hty. change (PT_LOAD =? PT_LOAD) with true. cbn [negb].
  replace (p_memsz h <? p_filesz h) with false by lia.
  destruct (map_segment_spec V data h fuel 0 s m k) as (s1 & m1 & E1 & HU1 & [F1 F2] & HR1 & Hsp1);
    [done|done|lia|lia|done|by rewrite Z.sub_0_r|by rewrite Z.add_0_r|].
  rewrite Z.add_0_r, Z.sub_0_r in F1, F2. change (0 * PAGE_SIZE) with 0 in E1. rewrite E1.
  cbn [rbind negb]. clear E1.
  assert (Hin : ∀ k0, 0 ≤ k0 < p_memsz h →
    seg_page h ≤ (p_vaddr h + k0) / PAGE_SIZE < seg_page h + seg_pages h).
  { intros k0 Hk0. rewrite Hv. generalize (seg_page h). intros v. unfold seg_pages, PAGE_SIZE.
    Z.div_mod_to_equations. lia. }
  assert (Hmap : mapped m1 (p_vaddr h) (p_memsz h)).
  { intros k0 Hk0. specialize (Hin k0 Hk0). split; [unfold private; lia|].
    destruct (F1 _ Hin) as (c & Ec & Hc). unfold vbyte. rewrite Ec. cbn [mbind option_bind].
    apply aget_is_Some. rewrite Hc. apply offset_range. }
  destruct (store_bytes_user V s1 m1 (p_vaddr h) (replicate (Z.to_nat (p_memsz h)) 0) HU1)
    as (s2 & E2 & HU2 & St2); [rewrite length_replicate; by rewrite Z2Nat.id by lia|].
  rewrite E2. cbn [rbind]. set (m2 := vsets m1 _ _) in *.
  destruct (slice_ok data (p_offset h) (p_filesz h)) as (bs & Eb & Hlb & Hb); [lia..|].
  rewrite Eb. cbn [rbind].
  assert (Hmap2 : mapped m2 (p_vaddr h) (p_memsz h)).
  { intros k0 Hk0. destruct (Hmap k0 Hk0) as [Hp Hs]. split; [done|].
    unfold m2. rewrite vbyte_vsets by (rewrite length_replicate, Z2Nat.id by lia; done).
    case_decide; [|done]. rewrite length_replicate in H. apply fmap_is_Some, aget_is_Some.
    rewrite length_replicate. lia. }
  destruct (store_bytes_user V s2 m2 (p_vaddr h) bs HU2) as (s3 & E3 & HU3 & St3).
  { rewrite Hlb. apply (mapped_sub m2 (p_vaddr h) (p_memsz h)); [done|lia|lia]. }
  rewrite E3. cbn [rbind]. rewrite uint_small by lia.
  exists s3, (vsets m2 (p_vaddr h) bs). split; [done|]. split; [done|].
  split; [split|split; [|split]].
  - intros n Hn. destruct (F1 n Hn) as (c & Ec & Hc).
    destruct (shape_Some (vsets m2 (p_vaddr h) bs) n (seg_flags h) (length c)) as (c' & E & Hl).
    { rewrite vsets_flags. unfold m2. rewrite vsets_flags. unfold shape. by rewrite Ec. }
    exists c'. split; [done|]. by rewrite Hl.
  - intros k0 Hk0. rewrite vbyte_vsets by (rewrite Hlb; apply (mapped_sub m2 (p_vaddr h) (p_memsz h)); [done|lia|lia]).
    rewrite Hlb. destruct (Z.ltb_spec k0 (p_filesz h)).
    + rewrite decide_True by lia. replace (p_vaddr h + k0 - p_vaddr h) with k0 by lia.
      by rewrite Hb by lia.
    + rewrite decide_False by lia. unfold m2.
      rewrite vbyte_vsets by (rewrite length_replicate, Z2Nat.id by lia; done).
      rewrite length_replicate, decide_True by lia. unfold aget. cif; [lia|].
      rewrite lookup_replicate_2 by lia. done.
  - intros n Hn. rewrite vsets_other, <- F2; [|done|].
    2:{ intros k0 Hk0. specialize (Hin k0 ltac:(lia)). by intros <-. }
    unfold m2. apply vsets_other. rewrite length_replicate. intros k0 Hk0 <-. apply Hn, Hin. lia.
  - eapply stored_ready; [exact St3|]. by eapply stored_ready.
  - rewrite (stored_spaces _ _ St3), (stored_spaces _ _ St2). done.
Qed.

Lemma seg_loaded_ext data h m m' : seg_ok data h →
  (∀ n, seg_page h ≤ n < seg_page h + seg_pages h → m' !! n = m !! n) →
  seg_loaded data h m → seg_loaded data h m'.
Proof.
  intros Hseg E [H1 H2]. destruct (seg_range data h Hseg) as (Hv & _ & _ & _ & _). split.
  - intros n Hn. rewrite E by done. by apply H1.
  - intros k Hk. rewrite <- H2 by done. unfold vbyte. rewrite E; [done|].
    rewrite Hv. generalize (seg_page h). intros v. unfold seg_pages, PAGE_SIZE.
    Z.div_mod_to_equations. lia.
Qed.

(** ** The image *)
Fixpoint headers_at (data : list Z) (offset : Z) (hs : list Elf32_Phdr) : Prop :=
  match hs with
  | [] => True
  | h :: hs => phdr_at data offset = Ok h ∧ headers_at data (u32 (offset + PHDR_SIZE)) hs
  end.

Definition loads (hs : list Elf32_Phdr) : list Elf32_Phdr := filter (λ h, p_type h = PT_LOAD) hs.

Definition image_pages (hs : list Elf32_Phdr) : list Z :=
  loads hs ≫= λ h, seqZ (seg_page h) (seg_pages h).

(** The end of the last segment. *)
Definition image_end (hs : list Elf32_Phdr) (ret : Z) : Z :=
  foldl (λ ret h, if p_type h =? PT_LOAD then p_vaddr h + p_memsz h else ret) ret hs.

Record image_ok (data : list Z) (hs : list Elf32_Phdr) : Prop := {
  io_magic : magic_ok ELFMAG data = Ok true;
  io_headers : ∃ offset, e_phoff data = Ok offset ∧ headers_at data offset hs;
  io_number : e_phnum data = Ok (len hs);
  io_segs : Forall (seg_ok data) (loads hs);
  io_disjoint : NoDup (image_pages hs)
}.

Lemma load_headers_spec V data fuel hs offset ret s m k : headers_at data offset hs →
  Forall (seg_ok data) (loads hs) → NoDup (image_pages hs) →
  Forall (λ h, seg_pages h < Z.of_nat fuel) (loads hs) →
  user V s m → 0 ≤ k → ready_for (len (image_pages hs) + k) s →
  (∀ n, n ∈ image_pages hs → m !! n = None) →
  ∃ s' m', load_headers (length hs) fuel data offset (cr3 s) ret s = Ok (image_end hs ret, s') ∧
    user V s' m' ∧ Forall (λ h, seg_loaded data h m') (loads hs) ∧
    (∀ n, n ∉ image_pages hs → m' !! n = m !! n) ∧ ready_for k s' ∧ spaces s' = spaces s.
Proof.
  revert offset ret s m. induction hs as [|h hs IH]; intros offset ret s m Hhs.
  { intros _ _ _ HU Hk HR _. exists s, m. by split_and!. }
  intros Hok Hnd Hfuel HU Hk HR Habs. destruct Hhs as [Hh Hhs]. cbn [length load_headers image_end foldl].
  rewrite Hh. cbn [rbind]. unfold image_pages, loads in *. rewrite filter_cons in *.
  destruct (decide (p_type h = PT_LOAD)) as [Hty|Hty].
  2:{ unfold load_segment. replace (p_type h =? PT_LOAD) with false by lia. cbn [negb rbind].
      by apply IH. }
  rewrite Hty. change (PT_LOAD =? PT_LOAD) with true. cbn iota.
  rewrite bind_cons in *. apply list.NoDup_app in Hnd as (_ & Hdj & Hnd).
  apply list.Forall_cons in Hok as [Hseg Hok]. apply list.Forall_cons in Hfuel as [Hfh Hfuel].
  destruct (seg_range data h Hseg) as (_ & _ & _ & Hnp & _).
  rewrite length_app, length_seqZ in HR.
  set (rest := filter _ hs ≫= _) in *.
  destruct (load_segment_spec V data h fuel ret s m (len rest + k))
    as (s1 & m1 & E1 & HU1 & HL1 & Ho1 & HR1 & Hsp1); [done|done|done|lia|lia| | |].
  { by replace (seg_pages h + (len rest + k)) with (Z.of_nat (Z.to_nat (seg_pages h) + length rest) + k) by lia. }
  { intros n Hn. apply Habs, elem_of_app. left. apply elem_of_seqZ. lia. }
  rewrite E1. cbn [rbind]. injection Hsp1 as Hs1 Hs2. rewrite <- Hs2.
  assert (Hrest : ∀ n, n ∈ rest → m1 !! n = m !! n).
  { intros n Hn. apply Ho1. intros Hin. apply (Hdj n); [apply elem_of_seqZ; lia|done]. }
  destruct (IH (u32 (offset + PHDR_SIZE)) (p_vaddr h + p_memsz h) s1 m1)
    as (s2 & m2 & E2 & HU2 & HL2 & Ho2 & HR2 & Hsp2); try done.
  { intros n Hn. rewrite Hrest by done. apply Habs, elem_of_app. by right. }
  exists s2, m2. split; [done|]. split; [done|]. split; [|split; [|split; [done|]]].
  - apply list.Forall_cons. split; [|done]. apply (seg_loaded_ext data h m1); [done| |done].
    intros n Hn. apply Ho2. intros Hin. apply (Hdj n); [apply elem_of_seqZ; lia|done].
  - intros n Hn. rewrite Ho2 by (intros Hin; apply Hn, elem_of_app; by right).
    apply Ho1. intros Hin. apply Hn, elem_of_app. left. apply elem_of_seqZ. lia.
  - rewrite Hsp2. unfold spaces. by rewrite Hs1, Hs2.
Qed.

Lemma load_elf_spec V data hs fuel s m k : image_ok data hs →
  Forall (λ h, seg_pages h < Z.of_nat fuel) (loads hs) →
  user V s m → 0 ≤ k → ready_for (len (image_pages hs) + k) s →
  (∀ n, n ∈ image_pages hs → m !! n = None) →
  ∃ s' m', load_elf fuel data (cr3 s) s = Ok (image_end hs UCODE_BEGIN, s') ∧
    user V s' m' ∧ Forall (λ h, seg_loaded data h m') (loads hs) ∧
    (∀ n, n ∉ image_pages hs → m' !! n = m !! n) ∧ ready_for k s' ∧ spaces s' = spaces s.
Proof.
  intros [I1 (offset & I2 & I3) I4 I5 I6] Hf HU Hk HR Habs. unfold load_elf.
  rewrite I1. cbn [rbind negb]. rewrite I2. cbn [rbind]. rewrite I4. cbn [rbind]. rewrite Nat2Z.id.
  by apply load_headers_spec.
Qed.

(** A file that is no program. *)
Lemma load_elf_magic fuel data pd s : magic_ok ELFMAG data = Ok false →
  load_elf fuel data pd s = Ok (u32 (-1), with_errno ENOEXEC s).
Proof. unfold load_elf. by intros ->. Qed.
End spec.
