(* ===== verification/Exec.v ===== *)
(** * Exec: execve

    [kernel/src/loader/exec.c]: the arguments are copied into the kernel, the user's
    pages are freed, the image is read and loaded, and the arguments are pushed on the
    new stack. *)

From S2P Require Import Prelude Malloc Headers Paging Vm CString Vga Fs Ramfs Vfs Spaces Space User Elf.

(** The kernel while a task is in a call: the file layer, and the fields of [cur_task]
    with the memory system. *)
Section exec.
Context {MA : Malloc} {SY : Sys} {PA : PageAlloc}.

Record kst := Kst { k_fs : fs; k_uvm : uvm }.

Definition k_mm (k : kst) : mm := um (k_uvm k).
Definition with_fs (s : fs) (k : kst) : kst := Kst s (k_uvm k).
Definition with_mm (m : mm) (k : kst) : kst := Kst (k_fs k) (with_um m (k_uvm k)).

Definition on_fs {A} (f : fs → res (A * fs)) (k : kst) : res (A * kst) :=
  let* (a, s) := f (k_fs k) in Ok (a, with_fs s k).

(** There is one [errno]. *)
Definition on_mm {A} (f : mm → res (A * mm)) (k : kst) : res (A * kst) :=
  let* (a, m) := f (with_errno (Fs.errno (k_fs k)) (k_mm k)) in
  Ok (a, with_mm m (with_fs (set_errno (Paging.errno m) (k_fs k)) k)).

Definition store {A} (f : mm → res (A * mm)) (k : kst) : res (A * kst) :=
  let* (a, m) := f (k_mm k) in Ok (a, with_mm m k).

Definition kfree_k (p : Z) (k : kst) : res kst :=
  let* s := kfree p (k_fs k) in Ok (with_fs s k).

(** ** Count the argument strings *)
Fixpoint count_loop (fuel : nat) (v i : Z) (m : mm) : res Z :=
  match fuel with
  | O => Fuel
  | S fuel =>
      let* p := load32 (u32 (v + 4 * i)) m in
      if negb (p =? 0) then count_loop fuel v (i + 1) m else Ok i
  end.

Definition count (fuel : nat) (v : Z) (m : mm) : res Z :=
  if v =? 0 then Ok 0 else count_loop fuel v 0 m.

(** ** The copy in the kernel: the addresses of the blocks, and the characters

    [None]: [kmalloc] returned [NULL]; the blocks there are stay where they are. *)
Fixpoint copy_strings (n : nat) (fuel : nat) (v i : Z) (k : kst)
    : res (option (list (Z * list Z)) * kst) :=
  match n with
  | O => Ok (Some [], k)
  | S n =>
      let* p := load32 (u32 (v + 4 * i)) (k_mm k) in
      let* cs := load_str fuel p (k_mm k) in
      let* (b, k) := on_fs (kmalloc (len cs + 1)) k in
      if b =? 0 then Ok (None, k)
      else
        let* (r, k) := copy_strings n fuel v (i + 1) k in
        Ok (cons (b, cs) <$> r, k)
  end.

Definition copy_vector (fuel : nat) (v n : Z) (k : kst)
    : res (option (Z * list (Z * list Z)) * kst) :=
  if 0 <? n then
    let* (p, k) := on_fs (kmalloc (u32 (n * 4))) k in
    if p =? 0 then Ok (None, k)
    else
      let* (r, k) := copy_strings (Z.to_nat n) fuel v 0 k in
      Ok (pair p <$> r, k)
  else Ok (Some (0, []), k).

(** From the last string to the first, then the array, which may be [NULL]. *)
Fixpoint free_strings (l : list (Z * list Z)) (k : kst) : res kst :=
  match l with
  | [] => Ok k
  | (p, _) :: l => let* k := free_strings l k in kfree_k p k
  end.

Definition free_vector (x : Z * list (Z * list Z)) (k : kst) : res kst :=
  let* k := free_strings x.2 k in kfree_k x.1 k.

(** ** The new stack *)
Definition push (sp data size : Z) (m : mm) : res (Z * mm) :=
  let push1 sp data m :=
    let sp := u32 (sp - 1) in let* m := store8 sp data m in Ok (sp, m) in
  if size =? 1 then push1 sp data m
  else if size =? 4 then
    let* (sp, m) := push1 sp (Z.land (Z.shiftr data 24) 0xFF) m in
    let* (sp, m) := push1 sp (Z.land (Z.shiftr data 16) 0xFF) m in
    let* (sp, m) := push1 sp (Z.land (Z.shiftr data 8) 0xFF) m in
    push1 sp (Z.land data 0xFF) m
  else Ok (sp, m).

(** The characters, last first. *)
Fixpoint push_chars (cs : list Z) (sp : Z) (m : mm) : res (Z * mm) :=
  match cs with
  | [] => Ok (sp, m)
  | c :: cs => let* (sp, m) := push_chars cs sp m in push sp c 1 m
  end.

Definition push_string (cs : list Z) (sp : Z) (m : mm) : res (Z * mm) :=
  let* (sp, m) := push sp 0 1 m in push_chars cs sp m.

(** The strings, last first; their addresses on the stack. *)
Fixpoint push_strings (l : list (Z * list Z)) (sp : Z) (k : kst) : res (list Z * Z * kst) :=
  match l with
  | [] => Ok ([], sp, k)
  | (p, cs) :: l =>
      let* (ps, sp, k) := push_strings l sp k in
      let* (sp, k) := store (push_string cs sp) k in
      let* k := kfree_k p k in
      Ok (sp :: ps, sp, k)
  end.

Fixpoint push_words (ws : list Z) (sp : Z) (m : mm) : res (Z * mm) :=
  match ws with
  | [] => Ok (sp, m)
  | w :: ws => let* (sp, m) := push_words ws sp m in push sp w 4 m
  end.

Definition round_down (val divisor : Z) : Z := val - Z.rem val divisor.

Definition push_vector (x : Z * list (Z * list Z)) (sp : Z) (k : kst) : res (Z * kst) :=
  if 0 <? len x.2 then
    let* (ps, sp, k) := push_strings x.2 sp k in
    let sp := round_down sp 4 in
    let* (sp, k) := store (push sp 0 4) k in
    let* (sp, k) := store (push_words ps sp) k in
    let* k := kfree_k x.1 k in
    Ok (sp, k)
  else store (push sp 0 4) k.

(** The three values of [ret]. *)
Definition build_stack (args env : Z * list (Z * list Z)) (k : kst) : res (Z * Z * Z * kst) :=
  let stack := USTACK_END in
  let* (ret0, k) := push_vector env stack k in
  let* (ret1, k) := push_vector args ret0 k in
  let* (ret2, k) := store (push ret1 (len args.2) 4) k in
  Ok (ret0, ret1, ret2, k).

(** ** Clean up the user-space *)
Fixpoint clear_user (fuel : nat) (page pd : Z) (m : mm) : res mm :=
  match fuel with
  | O => Fuel
  | S fuel =>
      if (page <? USTACK_END) && (UMEM_BEGIN <=? page) then
        let* flags := page_flags page pd m in
        let page := if negb (has (Z.shiftr flags 16) PF_PRES)
                    then u32 (page + 1024 * PAGE_SIZE) else page in
        let* m := (if Z.land flags (Z.lor PF_PRES PF_USER) =? Z.lor PF_PRES PF_USER then
                     let* phys := get_phys page pd m in
                     let* m := frame_free phys m in
                     let* (_, m) := page_map page 0 0 pd m in Ok m
                   else Ok m) in
        clear_user fuel (u32 (page + PAGE_SIZE)) pd m
      else Ok m
  end.

(** ** execve *)
Definition close_on_exec (k : kst) : res kst :=
  for_range 0 OPEN_MAX (λ i k,
    let* f := get_fd i (k_fs k) in
    if has (oflag f) O_CLOEXEC
    then let* (_, k) := on_fs (close i) k in Ok k
    else Ok k) k.

(** [bad:], with [buf] and [fd]. *)
Definition exec_bad (args env : Z * list (Z * list Z)) (buf fd : Z) (k : kst)
    : res (option (Z * Z * Z) * kst) :=
  let* k := free_vector args k in
  let* k := free_vector env k in
  let* k := kfree_k buf k in
  let* (_, k) := on_fs (close fd) k in
  Ok (None, k).

(** [errno = e] behind the calls that free the copies. *)
Definition exec_fail (args env : Z * list (Z * list Z)) (e : errno_t) (k : kst)
    : res (option (Z * Z * Z) * kst) :=
  let* k := free_vector args k in
  let* k := free_vector env k in
  Ok (None, with_fs (set_errno e (k_fs k)) k).

(** The old contents of a block of the heap. *)
Context (junk_bytes : Z → list Z).

Definition exec_image (fuel : nat) (args env : Z * list (Z * list Z)) (fd size buf : Z) (k : kst)
    : res (option (Z * Z * Z) * kst) :=
  let pd := page_dir (k_uvm k) in
  let* (_, k) := store (λ m, let* m := clear_user fuel UMEM_BEGIN pd m in Ok (tt, m)) k in
  let* (p, k) := on_mm (λ m,
    let* (fr, m) := frame_alloc m in
    page_map USTACK_END fr (Z.lor (Z.lor PF_PRES PF_USER) PF_RW) pd m) k in
  if p =? 0 then exec_bad args env buf fd k
  else
    let* (n, data, k) := (let* (n, data, s) := read fd (Some (junk_bytes size)) size (k_fs k) in
                          Ok (n, data, with_fs s k)) in
    if negb (n =? s32 size) then exec_bad args env buf fd k
    else
      let* (addr, k) := on_mm (load_elf fuel (default [] data) pd) k in
      if s32 addr <? 0 then exec_bad args env buf fd k
      else
        let b := clr (u32 (addr + 1024 * PAGE_SIZE)) (1024 * PAGE_SIZE - 1) in
        let k := Kst (k_fs k) (Uvm b b pd (k_mm k)) in
        let* k := kfree_k buf k in
        let* (_, k) := on_fs (close fd) k in
        let* k := close_on_exec k in
        let* (r0, r1, r2, k) := build_stack args env k in
        Ok (Some (r0, r1, r2), k).

Definition execve (fuel : nat) (path argv envp : Z) (k : kst)
    : res (option (Z * Z * Z) * kst) :=
  let* argc := count fuel argv (k_mm k) in
  let* envc := count fuel envp (k_mm k) in
  let* (args, k) := copy_vector fuel argv argc k in
  match args with
  | None => Ok (None, k)
  | Some args =>
      let* (env, k) := copy_vector fuel envp envc k in
      match env with
      | None => Ok (None, k)
      | Some env =>
          let* nm := (if path =? 0 then Ok None
                      else let* cs := load_str fuel path (k_mm k) in Ok (Some cs)) in
          let* (fd, k) := on_fs (open nm O_RDONLY 0) k in
          if fd <? 0 then exec_fail args env ENOENT k
          else
            let* (size, k) := on_fs (lseek fd 0 SEEK_END) k in
            let* (_, k) := on_fs (lseek fd 0 SEEK_SET) k in
            let size := u32 size in
            let* (buf, k) := on_fs (kmalloc size) k in
            if buf =? 0 then exec_fail args env ENOMEM k
            else exec_image fuel args env fd size buf k
      end
  end.
End exec.
