(* ===== verification/Stack.v ===== *)
(** * Stack: the stack that execve builds

    What [push] and the loops over it in [exec.c] write, and that the program finds its
    arguments there. *)

From S2P Require Import Prelude Malloc Headers Paging Vm CString Vga Fs Names Spaces Space User Elf Exec.

(** ** Bytes below the stack pointer *)

(** [bs] are at [a], the rest of the memory is as before. *)
Record wrote (m : umem) (a : Z) (bs : list Z) (m' : umem) : Prop := {
  wr_bytes : ∀ b, vbyte m' b = if decide (a ≤ b < a + len bs) then aget bs (b - a) else vbyte m b;
  wr_shape : ∀ n, shape m' n = shape m n
}.

Lemma wrote_nil m a : wrote m a [] m.
Proof. split; [|done]. intros b. rewrite decide_False; [done|]. cbn [length]. lia. Qed.

Lemma wrote_app m a bs m' a' bs' m'' : wrote m a bs m' → wrote m' a' bs' m'' → a' = a - len bs' →
  wrote m a' (bs' ++ bs) m''.
Proof.
  intros [W1 S1] [W2 S2] ->. split; [|intros n; by rewrite S2, S1].
  intros b. rewrite W2, W1, length_app. unfold aget.
  destruct (decide (a - len bs' ≤ b < a - len bs' + len bs')) as [H|H].
  - rewrite decide_True by lia. cif; [lia|]. by rewrite lookup_app_l by lia.
  - destruct (decide (a ≤ b < a + len bs)) as [H2|H2].
    + rewrite decide_True by lia. cif; [lia|]. cif; [lia|].
      rewrite lookup_app_r by lia. f_equal. lia.
    + by rewrite decide_False by lia.
Qed.

Lemma wrote_mapped m a bs m' b n : wrote m a bs m' → mapped m b n → mapped m' b n.
Proof.
  intros [W _] H k Hk. destruct (H k Hk) as [Hp Hs]. split; [done|]. rewrite W.
  case_decide; [|done]. apply aget_is_Some. lia.
Qed.

(** What is there can be taken as written. *)
Lemma wrote_same m a n : 0 ≤ n → mapped m a n → ∃ bs, len bs = n ∧ wrote m a bs m.
Proof.
  intros Hn Hm. set (bs := (λ k, default 0 (vbyte m (a + k))) <$> seqZ 0 n).
  assert (Hl : len bs = n) by (unfold bs; rewrite length_fmap, length_seqZ; lia).
  exists bs. split; [done|]. split; [|done]. intros b. case_decide as H; [|done]. rewrite Hl in H.
  destruct (mapped_at m a n b Hm H) as [_ [x Hx]]. unfold aget. cif; [lia|]. unfold bs.
  rewrite list_lookup_fmap, lookup_seqZ_lt by lia. cbn [fmap option_fmap option_map].
  replace (a + (0 + Z.of_nat (Z.to_nat (b - a)))) with b by lia. by rewrite Hx.
Qed.

(** [f] pushes the bytes [bs], wherever there is room for them above [lo]. *)
Section pushes.
Context {PA : PageAlloc} {QA : QuietAlloc}.

Definition pushes (f : Z → mm → res (Z * mm)) (bs : list Z) : Prop :=
  ∀ V s m sp lo, 0 ≤ lo → sp < 2 ^ 32 → lo ≤ sp - len bs → mapped m lo (sp - lo) → user V s m →
  ∃ s' m', f sp s = Ok (sp - len bs, s') ∧ user V s' m' ∧ wrote m (sp - len bs) bs m' ∧ stored s s'.

Lemma pushes_seq f g bs1 bs2 : pushes f bs1 → pushes g bs2 →
  pushes (λ sp m, let* (sp, m) := f sp m in g sp m) (bs2 ++ bs1).
Proof.
  intros Hf Hg V s m sp lo H0 Hsp Hlo Hm HU. rewrite length_app in *.
  destruct (Hf V s m sp lo) as (s1 & m1 & -> & HU1 & W1 & T1); [done|done|lia|done|done|].
  cbn [rbind].
  destruct (Hg V s1 m1 (sp - len bs1) lo) as (s2 & m2 & -> & HU2 & W2 & T2);
    [done|lia|lia| |done|].
  { apply (wrote_mapped m (sp - len bs1) bs1); [done|].
    apply (mapped_sub m lo (sp - lo)); [done|lia|lia]. }
  replace (sp - Z.of_nat (length bs2 + length bs1)) with (sp - len bs1 - len bs2) by lia.
  exists s2, m2. split; [done|]. split; [done|]. split; [|by eapply stored_trans].
  by apply (wrote_app m (sp - len bs1) bs1 m1).
Qed.

Lemma pushes_nil : pushes (λ sp m, Ok (sp, m)) [].
Proof.
  intros V s m sp lo _ _ _ _ HU. exists s, m. cbn [length]. rewrite Z.sub_0_r. split; [done|].
  split; [done|]. split; [apply wrote_nil|apply stored_refl].
Qed.

Lemma pushes_byte v : pushes (λ sp m, push sp v 1 m) [u8 v].
Proof.
  intros V s m sp lo H0 Hsp Hlo Hm HU. cbn [length] in *. unfold push. cbn [Z.eqb].
  change (1 =? 1) with true. cbn iota zeta. rewrite uint_small by lia.
  destruct (mapped_at m lo (sp - lo) (sp - 1) Hm) as [Hp Hs]; [lia|].
  destruct (store8_user V s m (sp - 1) v HU Hp Hs) as (s' & -> & HU' & T). cbn [rbind].
  exists s', (vset m (sp - 1) (u8 v)). split; [done|]. split; [done|]. split; [|done]. split.
  - intros b. destruct Hs as [x Hx]. rewrite (vbyte_vset m _ _ b x Hx). cbn [length].
    destruct (decide (b = sp - 1)) as [->|Hne].
    + rewrite decide_True by lia. change (Z.of_nat 1) with 1. by rewrite Z.sub_diag.
    + by rewrite decide_False by lia.
  - intros n. apply vset_flags.
Qed.

(** The bytes of an integer, lowest first. *)
Definition le_bytes (v : Z) : list Z :=
  [Z.land v 0xFF; Z.land (Z.shiftr v 8) 0xFF; Z.land (Z.shiftr v 16) 0xFF; Z.land (Z.shiftr v 24) 0xFF].

Lemma u8_land v : u8 (Z.land v 0xFF) = Z.land v 0xFF.
Proof.
  rewrite (land_ones_mod v 8) by done. apply uint_small. apply Z.mod_pos_bound. lia.
Qed.

Lemma pushes_word v : pushes (λ sp m, push sp v 4 m) (le_bytes v).
Proof.
  pose proof (pushes_byte (Z.land (Z.shiftr v 24) 0xFF)) as H4.
  pose proof (pushes_byte (Z.land (Z.shiftr v 16) 0xFF)) as H3.
  pose proof (pushes_byte (Z.land (Z.shiftr v 8) 0xFF)) as H2.
  pose proof (pushes_byte (Z.land v 0xFF)) as H1.
  rewrite u8_land in *.
  pose proof (pushes_seq _ _ _ _ H4 (pushes_seq _ _ _ _ H3 (pushes_seq _ _ _ _ H2 H1))) as H.
  intros V s m sp lo. exact (H V s m sp lo).
Qed.

Lemma pushes_chars cs : pushes (push_chars cs) (u8 <$> cs).
Proof.
  induction cs as [|c cs IH]; [exact pushes_nil|].
  pose proof (pushes_seq _ _ _ _ IH (pushes_byte c)) as H. exact H.
Qed.

Lemma pushes_string cs : pushes (push_string cs) ((u8 <$> cs) ++ [0]).
Proof. exact (pushes_seq _ _ _ _ (pushes_byte 0) (pushes_chars cs)). Qed.

Lemma pushes_words ws : pushes (push_words ws) (ws ≫= le_bytes).
Proof.
  induction ws as [|w ws IH]; [exact pushes_nil|].
  exact (pushes_seq _ _ _ _ IH (pushes_word w)).
Qed.
End pushes.

(** ** What a program reads *)
Definition bytes_in (m : umem) (a : Z) (bs : list Z) : Prop :=
  ∀ i b, aget bs i = Some b → private ((a + i) / PAGE_SIZE) ∧ vbyte m (a + i) = Some b.

Lemma bytes_in_app m a bs1 bs2 :
  bytes_in m a (bs1 ++ bs2) → bytes_in m a bs1 ∧ bytes_in m (a + len bs1) bs2.
Proof.
  intros H. split; intros i b Hi; pose proof (aget_range _ _ _ Hi) as Hr.
  - apply H. revert Hi. unfold aget. cif; [done|]. intros Hi. by rewrite lookup_app_l by lia.
  - replace (a + len bs1 + i) with (a + (len bs1 + i)) by lia. apply H.
    revert Hi. unfold aget. cif; [lia|]. cif; [lia|]. intros Hi.
    rewrite lookup_app_r by lia. replace (Z.to_nat (len bs1 + i) - length bs1)%nat with (Z.to_nat i) by lia.
    done.
Qed.

Lemma wrote_bytes_in m a bs m' : wrote m a bs m' → mapped m a (len bs) → bytes_in m' a bs.
Proof.
  intros [W _] Hm i b Hi. pose proof (aget_range _ _ _ Hi) as Hr.
  split; [by apply (Hm i)|]. rewrite W, decide_True by lia. by replace (a + i - a) with i by lia.
Qed.

Lemma bytes_in_later m m' a bs lo : bytes_in m a bs → lo ≤ a →
  (∀ b, lo ≤ b → vbyte m' b = vbyte m b) → bytes_in m' a bs.
Proof.
  intros H Hlo E i b Hi. pose proof (aget_range _ _ _ Hi) as Hr. rewrite E by lia. by apply H.
Qed.

(** The addresses of strings that lie one behind the other. *)
Fixpoint addrs (a : Z) (l : list (list Z)) : list Z :=
  match l with
  | [] => []
  | cs :: l => a :: addrs (a + len cs + 1) l
  end.

Lemma addrs_length a l : length (addrs a l) = length l.
Proof. revert a. induction l as [|cs l IH]; intros a; simpl; [done|]. by rewrite IH. Qed.

Definition str_bytes (cs : list Z) : list Z := cs ++ [0].
Definition strs_bytes (l : list (list Z)) : list Z := l ≫= str_bytes.

Lemma strs_bytes_length l : len (strs_bytes l) = foldr (λ cs n, len cs + 1 + n) 0 l.
Proof.
  unfold strs_bytes. induction l as [|cs l IH]; [done|]. rewrite bind_cons, length_app. cbn [foldr].
  rewrite <- IH. unfold str_bytes. rewrite length_app. cbn [length]. lia.
Qed.

Lemma strs_at m a l : bytes_in m a (strs_bytes l) →
  Forall2 (λ p cs, bytes_in m p (str_bytes cs)) (addrs a l) l.
Proof.
  revert a. induction l as [|cs l IH]; intros a H; cbn [addrs]; [done|].
  unfold strs_bytes in H. rewrite bind_cons in H. apply bytes_in_app in H as [H1 H2].
  constructor; [done|]. apply IH. unfold str_bytes in H2 at 1. rewrite length_app in H2. cbn [length] in H2.
  by replace (a + len cs + 1) with (a + Z.of_nat (length cs + 1)) by lia.
Qed.

Lemma addrs_range a l : Forall (λ p, a ≤ p < a + len (strs_bytes l)) (addrs a l).
Proof.
  revert a. induction l as [|cs l IH]; intros a; cbn [addrs]; [done|].
  assert (E : len (strs_bytes (cs :: l)) = len cs + 1 + len (strs_bytes l)) by by rewrite !strs_bytes_length.
  rewrite E. constructor; [lia|]. eapply list.Forall_impl; [apply IH|]. simpl. intros p Hp. lia.
Qed.

Lemma words_length ws : len (ws ≫= le_bytes) = 4 * len ws.
Proof.
  induction ws as [|w ws IH]; [done|]. rewrite bind_cons, length_app.
  replace (length (w :: ws)) with (S (length ws)) by done.
  replace (length (le_bytes w)) with 4%nat by done. lia.
Qed.

Lemma word_at m a ws i w : bytes_in m a (ws ≫= le_bytes) → aget ws i = Some w →
  bytes_in m (a + 4 * i) (le_bytes w).
Proof.
  revert a i. induction ws as [|w0 ws IH]; intros a i H Hi; pose proof (aget_range _ _ _ Hi) as Hr.
  { cbn [length] in Hr. lia. }
  rewrite bind_cons in H. apply bytes_in_app in H as [H1 H2].
  destruct (decide (i = 0)) as [->|Hne].
  - injection Hi as ->. by replace (a + 4 * 0) with a by lia.
  - replace (a + 4 * i) with (a + len (le_bytes w0) + 4 * (i - 1)) by (cbn [le_bytes length]; lia).
    apply IH; [done|]. unfold aget in *. cif; [lia|]. cif; [lia|].
    replace (Z.to_nat i) with (S (Z.to_nat (i - 1))) in Hi by lia. done.
Qed.

(** [argv] or [envp]: an array at [v] of pointers to the strings [l], with a null pointer
    at the end. *)
Definition vector_at (m : umem) (v : Z) (l : list (list Z)) : Prop :=
  ∃ ps, bytes_in m v ((ps ++ [0]) ≫= le_bytes) ∧
    Forall2 (λ p cs, bytes_in m p (str_bytes cs)) ps l ∧
    Forall (λ p, 0 < p < 2 ^ 32) ps.

(** The strings are behind the array. *)
Definition vector_above (m : umem) (v : Z) (l : list (list Z)) : Prop :=
  ∃ ps, bytes_in m v ((ps ++ [0]) ≫= le_bytes) ∧
    Forall2 (λ p cs, bytes_in m p (str_bytes cs)) ps l ∧
    Forall (λ p, 0 < p < 2 ^ 32 ∧ v ≤ p) ps.

Lemma vector_above_at m v l : vector_above m v l → vector_at m v l.
Proof.
  intros (ps & H1 & H2 & H3). exists ps. split; [done|]. split; [done|].
  eapply list.Forall_impl; [exact H3|]. by intros p [? _].
Qed.

Lemma vector_above_later m m' v l : vector_above m v l → (∀ b, v ≤ b → vbyte m' b = vbyte m b) →
  vector_above m' v l.
Proof.
  intros (ps & H1 & H2 & H3) E. exists ps. split; [by apply (bytes_in_later m m' v _ v)|].
  split; [|done]. clear H1. revert l H2. induction H3 as [|p ps [_ Hp] H3 IH]; intros l H2.
  - by apply Forall2_nil_inv_l in H2 as ->.
  - apply Forall2_cons_inv_l in H2 as (cs & l' & H4 & H5 & ->). constructor; [|by apply IH].
    by apply (bytes_in_later m m' p _ v).
Qed.

Lemma le_value w : 0 ≤ w < 2 ^ 32 →
  Z.land w 0xFF + Z.land (Z.shiftr w 8) 0xFF * 2 ^ 8 + Z.land (Z.shiftr w 16) 0xFF * 2 ^ 16 +
    Z.land (Z.shiftr w 24) 0xFF * 2 ^ 24 = w.
Proof.
  intros Hw. rewrite !(land_ones_mod _ 8), !Z.shiftr_div_pow2 by done. Z.div_mod_to_equations. lia.
Qed.

Section reading.
Context {PA : PageAlloc} {QA : QuietAlloc}.

Lemma load8_in V s m a bs i b : user V s m → bytes_in m a bs → aget bs i = Some b →
  load8 (a + i) s = Ok b.
Proof. intros HU H Hi. destruct (H i b Hi). by apply (load8_user V s m). Qed.

Lemma load32_word V s m a w : user V s m → bytes_in m a (le_bytes w) → 0 ≤ w < 2 ^ 32 →
  load32 a s = Ok w.
Proof.
  intros HU H Hw. unfold load32. pose proof (λ i b, load8_in V s m a _ i b HU H) as HL.
  pose proof (HL 0 _ eq_refl) as E0. rewrite Z.add_0_r in E0. rewrite E0. cbn [rbind].
  rewrite (HL 1 _ eq_refl). cbn [rbind]. rewrite (HL 2 _ eq_refl). cbn [rbind].
  rewrite (HL 3 _ eq_refl). cbn [rbind]. by rewrite le_value.
Qed.

Lemma load_str_at V s m a cs fuel : user V s m → bytes_in m a (str_bytes cs) → chars cs →
  (length cs < fuel)%nat → load_str fuel a s = Ok cs.
Proof.
  intros HU. revert a fuel. induction cs as [|c cs IH]; intros a fuel H Hc Hf;
    (destruct fuel as [|fuel]; [simpl in Hf; lia|]); cbn [load_str].
  - pose proof (load8_in V s m a _ 0 0 HU H eq_refl) as E. rewrite Z.add_0_r in E. by rewrite E.
  - apply list.Forall_cons in Hc as [Hc0 Hc].
    pose proof (load8_in V s m a _ 0 c HU H eq_refl) as E. rewrite Z.add_0_r in E. rewrite E. cbn [rbind].
    replace (c =? 0) with false by lia. change (str_bytes (c :: cs)) with ([c] ++ str_bytes cs) in H.
    apply bytes_in_app in H as [_ H]. simpl length in H, Hf. change (Z.of_nat 1) with 1 in H.
    rewrite (IH (a + 1)); [done|done|done|lia].
Qed.

Lemma count_loop_spec V s m v ps i fuel : user V s m → 0 ≤ v → v + 4 * (len ps + 1) ≤ 2 ^ 32 →
  bytes_in m v ((ps ++ [0]) ≫= le_bytes) → Forall (λ p, 0 < p < 2 ^ 32) ps →
  0 ≤ i ≤ len ps → len ps - i < Z.of_nat fuel → count_loop fuel v i s = Ok (len ps).
Proof.
  intros HU H0 Hv Hw Hps. revert i. induction fuel as [|fuel IH]; intros i Hi Hf; [lia|].
  cbn [count_loop]. rewrite uint_small by lia.
  destruct (decide (i = len ps)) as [->|Hne].
  - rewrite (load32_word V s m _ 0); [done|done| |done]. apply (word_at m v (ps ++ [0])); [done|].
    unfold aget. cif; [lia|]. rewrite lookup_app_r by lia.
    by replace (Z.to_nat (len ps) - length ps)%nat with 0%nat by lia.
  - destruct (aget_is_Some ps i) as [p Hp]; [lia|].
    assert (Hr : 0 < p < 2 ^ 32) by (by apply (aget_forall _ _ _ _ Hps Hp)).
    rewrite (load32_word V s m _ p); [|done| |lia].
    + cbn [rbind]. replace (p =? 0) with false by lia. cbn [negb]. apply IH; lia.
    + apply (word_at m v (ps ++ [0])); [done|]. unfold aget in *. cif; [done|].
      by apply lookup_app_l_Some.
Qed.

Lemma count_vector V s m v l fuel : user V s m → 0 < v → v + 4 * (len l + 1) ≤ 2 ^ 32 →
  vector_at m v l → len l < Z.of_nat fuel → count fuel v s = Ok (len l).
Proof.
  intros HU H0 Hv (ps & H1 & H2 & H3) Hf. unfold count. replace (v =? 0) with false by lia.
  apply Forall2_length in H2. rewrite <- H2 in *. apply (count_loop_spec V s m); done || lia.
Qed.
End reading.

(** ** The vectors *)
Section vectors.
Context {MA : Malloc} {SY : Sys} {PA : PageAlloc} {QA : QuietAlloc}.

(** The call frees blocks and writes memory. *)
Definition put (h : mstate) (s : mm) (k : kst) : kst :=
  Kst (set_heap h (k_fs k)) (with_um s (k_uvm k)).

Lemma kfree_put h s k p L : m_rep h L → p ∈ L →
  ∃ h', kfree_k p (put h s k) = Ok (put h' s k) ∧ m_rep h' (L ∖ {[p]}).
Proof.
  intros Hh Hp. destruct (mfree_ok p h L Hh Hp) as (h' & E & Hh'). exists h'. split; [|done].
  unfold kfree_k, kfree. simpl. rewrite E. done.
Qed.

Lemma store_put {A} (f : mm → res (A * mm)) h s k a s' : f s = Ok (a, s') → store f (put h s k) = Ok (a, put h s' k).
Proof. unfold store, k_mm. simpl. by intros ->. Qed.

(** The strings in the kernel: their blocks, and their characters. *)
Definition strings_ok (l : list (Z * list Z)) (L : gset Z) : Prop :=
  NoDup l.*1 ∧ (∀ p, p ∈ l.*1 → p ∈ L) ∧ Forall chars l.*2.

Lemma chars_u8 cs : chars cs → u8 <$> cs = cs.
Proof.
  induction 1 as [|c cs Hc H IH]; [done|]. cbn [fmap list_fmap]. rewrite uint_small by (simpl; lia).
  by f_equal.
Qed.

Lemma push_strings_spec V l sp k h s L m lo : strings_ok l L → m_rep h L →
  0 ≤ lo → sp < 2 ^ 32 → lo ≤ sp - len (strs_bytes l.*2) → mapped m lo (sp - lo) → user V s m →
  ∃ h' s' m', push_strings l sp (put h s k) =
      Ok (addrs (sp - len (strs_bytes l.*2)) l.*2, sp - len (strs_bytes l.*2), put h' s' k) ∧
    m_rep h' (L ∖ list_to_set l.*1) ∧ user V s' m' ∧
    wrote m (sp - len (strs_bytes l.*2)) (strs_bytes l.*2) m' ∧ stored s s'.
Proof.
  revert L. induction l as [|[p cs] l IH]; intros L (Hnd & Hin & Hch) Hh H0 Hsp Hlo Hm HU.
  { exists h, s, m. cbn. rewrite Z.sub_0_r. split; [done|]. rewrite difference_empty_L.
    split; [done|]. split; [done|]. split; [apply wrote_nil|apply stored_refl]. }
  cbn [fmap list_fmap fst snd] in *. apply list.NoDup_cons in Hnd as [Hp Hnd].
  apply list.Forall_cons in Hch as [Hcs Hch].
  assert (El : len (strs_bytes (cs :: l.*2)) = len cs + 1 + len (strs_bytes l.*2))
    by by rewrite !strs_bytes_length.
  rewrite El in *.
  destruct (IH L) as (h1 & s1 & m1 & E1 & Hh1 & HU1 & W1 & T1); try done.
  { split; [done|]. split; [|done]. intros q Hq. apply Hin. by right. }
  { lia. }
  cbn [push_strings]. rewrite E1. cbn [rbind]. set (sp1 := sp - len (strs_bytes l.*2)) in *.
  destruct (pushes_string cs V s1 m1 sp1 lo) as (s2 & m2 & E2 & HU2 & W2 & T2).
  { done. } { lia. } { rewrite length_app, length_fmap. cbn [length]. lia. }
  { apply (wrote_mapped m sp1 (strs_bytes l.*2)); [done|]. apply (mapped_sub m lo (sp - lo)); [done|lia|lia]. }
  { done. }
  rewrite (store_put _ _ _ _ _ _ E2). cbn [rbind].
  destruct (kfree_put h1 s2 k p _ Hh1) as (h2 & E3 & Hh2).
  { apply elem_of_difference. split; [apply Hin; by left|]. by rewrite elem_of_list_to_set. }
  rewrite E3. cbn [rbind]. rewrite chars_u8 in * by done. rewrite length_app in *. cbn [length] in *.
  replace (sp - (len cs + 1 + len (strs_bytes l.*2))) with (sp1 - Z.of_nat (length cs + 1)) by lia.
  exists h2, s2, m2. split.
  { cbn [addrs]. f_equal. f_equal. f_equal. f_equal. f_equal. lia. }
  split.
  { replace (L ∖ list_to_set (p :: l.*1)) with (L ∖ list_to_set l.*1 ∖ {[p]}); [done|].
    cbn [list_to_set foldr]. set_solver. }
  split; [done|]. split; [|by eapply stored_trans].
  apply (wrote_app m sp1 (strs_bytes l.*2) m1 _ (cs ++ [0])); [done|done|].
  rewrite length_app. cbn [length]. done.
Qed.

(** At most so many bytes go on the stack. *)
Definition vector_size (l : list (list Z)) : Z :=
  match l with [] => 4 | _ => len (strs_bytes l) + 3 + 4 * (len l + 1) end.

Definition vector_ok (x : Z * list (Z * list Z)) (L : gset Z) : Prop :=
  strings_ok x.2 L ∧ (x.2 ≠ [] → x.1 ∈ L ∧ x.1 ∉ x.2.*1).

Definition vector_blocks (x : Z * list (Z * list Z)) : gset Z :=
  match x.2 with [] => ∅ | _ => {[x.1]} ∪ list_to_set x.2.*1 end.

Lemma push_vector_spec V x sp k h s L m lo : vector_ok x L → m_rep h L →
  0 < lo → sp < 2 ^ 32 → sp mod 4 = 0 → lo ≤ sp - vector_size x.2.*2 → mapped m lo (sp - lo) →
  user V s m →
  ∃ sp' h' s' m' bs, push_vector x sp (put h s k) = Ok (sp', put h' s' k) ∧
    sp' = sp - len bs ∧ sp' mod 4 = 0 ∧ lo ≤ sp - len bs ∧
    4 ≤ len bs ≤ vector_size x.2.*2 ∧ m_rep h' (L ∖ vector_blocks x) ∧
    user V s' m' ∧ wrote m sp' bs m' ∧ vector_above m' sp' x.2.*2 ∧ stored s s'.
Proof.
  destruct x as [q l]. intros [Hs Hq] Hh H0 Hsp Hal Hlo Hm HU. cbn [fst snd] in *.
  unfold push_vector, vector_blocks. cbn [snd fst].
  destruct l as [|x0 l'] eqn:Ex.
  - change (0 <? len []) with false. cbn iota.
    destruct (pushes_word 0 V s m sp lo) as (s1 & m1 & E1 & HU1 & W1 & T1);
      [lia|done|cbn [le_bytes length vector_size fmap list_fmap] in *; lia|done|done|].
    rewrite (store_put _ _ _ _ _ _ E1). cbn [le_bytes length vector_size fmap list_fmap] in *.
    change (Z.of_nat 4) with 4 in *.
    exists (sp - 4), h, s1, m1, (le_bytes 0). split; [done|]. split; [done|].
    split; [Z.div_mod_to_equations; lia|]. split; [cbn; lia|]. split; [done|].
    rewrite difference_empty_L. split; [done|]. split; [done|]. split; [done|]. split; [|done].
    exists []. split; [|done]. cbn [app]. change ([0] ≫= le_bytes) with (le_bytes 0).
    apply (wrote_bytes_in m); [done|]. apply (mapped_sub m lo (sp - lo)); [done|lia|cbn; lia].
  - replace (0 <? len (x0 :: l')) with true by (symmetry; apply Z.ltb_lt; cbn [length]; lia).
    rewrite <- Ex in *. cbn iota. destruct (Hq ltac:(by subst l)) as [HqL Hql].
    assert (Hvs : vector_size l.*2 = len (strs_bytes l.*2) + 3 + 4 * (len l + 1)).
    { unfold vector_size. rewrite Ex. cbn [fmap list_fmap length]. by rewrite length_fmap. }
    rewrite Hvs in *.
    destruct (push_strings_spec V l sp k h s L m lo) as (h1 & s1 & m1 & E1 & Hh1 & HU1 & W1 & T1);
      [done|done|lia|done|lia|done|done|].
    rewrite E1. cbn [rbind]. set (sp1 := sp - len (strs_bytes l.*2)) in *. clear E1.
    set (ps := addrs sp1 l.*2).
    assert (Hps : len ps = len l) by (unfold ps; by rewrite addrs_length, length_fmap).
    unfold round_down. rewrite Z.rem_mod_nonneg by lia.
    set (sp2 := sp1 - sp1 mod 4). pose proof (Z.mod_pos_bound sp1 4 ltac:(lia)) as Hr4.
    assert (Hmap1 : mapped m1 lo (sp - lo)) by by eapply wrote_mapped.
    destruct (wrote_same m1 sp2 (sp1 - sp2)) as (pad & Hpad & Wp);
      [unfold sp2; lia|apply (mapped_sub m1 lo (sp - lo)); [done|unfold sp2; lia|unfold sp2; lia]|].
    destruct (pushes_word 0 V s1 m1 sp2 lo) as (s2 & m2 & E2 & HU2 & W2 & T2).
    { lia. } { unfold sp2; lia. } { cbn [le_bytes length]. unfold sp2. lia. }
    { apply (mapped_sub m1 lo (sp - lo)); [done|lia|unfold sp2; lia]. } { done. }
    rewrite (store_put _ _ _ _ _ _ E2). cbn [rbind]. cbn [le_bytes length] in W2. change (Z.of_nat 4) with 4 in *.
    destruct (pushes_words ps V s2 m2 (sp2 - 4) lo) as (s3 & m3 & E3 & HU3 & W3 & T3).
    { lia. } { unfold sp2; lia. } { rewrite words_length. unfold sp2. lia. }
    { apply (wrote_mapped m1 (sp2 - 4) (le_bytes 0)); [done|].
      apply (mapped_sub m1 lo (sp - lo)); [done|lia|unfold sp2; lia]. } { done. }
    cbn [le_bytes length]. change (Z.of_nat 4) with 4.
    rewrite (store_put _ _ _ _ _ _ E3). cbn [rbind]. rewrite words_length in *.
    destruct (kfree_put h1 s3 k q _ Hh1) as (h2 & E4 & Hh2).
    { apply elem_of_difference. split; [done|]. by rewrite elem_of_list_to_set. }
    rewrite E4. cbn [rbind]. set (sp3 := sp2 - 4 - 4 * len ps) in *.
    set (bs := ((ps ≫= le_bytes) ++ le_bytes 0 ++ pad) ++ strs_bytes l.*2).
    assert (Hbs : sp3 = sp - len bs).
    { unfold bs. rewrite !length_app. cbn [le_bytes length]. unfold sp3, sp1.
      pose proof (words_length ps). unfold sp2, sp1 in *. lia. }
    assert (W : wrote m sp3 bs m3).
    { unfold bs. apply (wrote_app m sp1 (strs_bytes l.*2) m1); [done| |].
      - apply (wrote_app m1 (sp2 - 4) (le_bytes 0 ++ pad) m2); [|done|].
        + apply (wrote_app m1 sp2 pad m1); [done|done|done].
        + rewrite words_length. done.
      - rewrite !length_app. cbn [le_bytes length]. pose proof (words_length ps). unfold sp3, sp2 in *. lia. }
    assert (Hmap3 : mapped m3 lo (sp - lo)) by by eapply wrote_mapped.
    assert (HB : bytes_in m3 sp3 bs).
    { apply (wrote_bytes_in m); [done|]. apply (mapped_sub m lo (sp - lo)); [done| |lia].
      unfold sp3, sp2. lia. }
    exists sp3, h2, s3, m3, bs. split; [done|]. split; [done|]. split.
    { unfold sp3, sp2. clear. Z.div_mod_to_equations. lia. }
    split; [unfold sp3, sp2 in *; lia|]. split; [unfold sp3, sp2, sp1 in *; lia|]. split.
    { rewrite Ex, <- Ex. replace (L ∖ ({[q]} ∪ list_to_set l.*1)) with (L ∖ list_to_set l.*1 ∖ {[q]}); [done|].
      set_solver. }
    split; [done|]. split; [done|]. split; [|by eapply stored_trans; [eapply stored_trans|]].
    unfold bs in HB. rewrite <- !app_assoc in HB.
    exists ps. split; [|split].
    + rewrite bind_app. change ([0] ≫= le_bytes) with (le_bytes 0).
      rewrite app_assoc in HB. by apply bytes_in_app in HB as [HB _].
    + apply bytes_in_app in HB as [_ HB]. apply bytes_in_app in HB as [_ HB].
      apply bytes_in_app in HB as [_ HB]. apply strs_at.
      rewrite words_length in HB. cbn [le_bytes length] in HB.
      replace (sp3 + 4 * len ps + Z.of_nat 4 + len pad) with sp1 in HB by (unfold sp3 in *; lia). done.
    + eapply list.Forall_impl; [apply addrs_range|]. simpl. intros p Hp.
      unfold sp3, sp2, sp1 in *. lia.
Qed.

(** The page of the stack. *)
Definition STACK_PAGE : Z := USTACK_END / PAGE_SIZE * PAGE_SIZE.
Definition STACK_ROOM : Z := USTACK_END - STACK_PAGE.

(** The program finds its arguments at the two addresses, and their number on the stack. *)
Definition stack_built (m : umem) (sp v_args v_env : Z) (args env : list (list Z)) : Prop :=
  STACK_PAGE ≤ sp ∧ sp mod 4 = 0 ∧ v_args = sp + 4 ∧ v_args < v_env < USTACK_END ∧
  bytes_in m sp (le_bytes (len args)) ∧ vector_at m v_args args ∧ vector_at m v_env env.

Lemma vector_ok_del x L B : vector_ok x L → vector_blocks x ## B → vector_ok x (L ∖ B).
Proof.
  destruct x as [q l]. unfold vector_ok, vector_blocks. cbn [fst snd].
  intros [(Hnd & Hin & Hc) Hq] Hd. destruct l as [|y l'].
  { split; [|done]. split; [done|]. split; [|done]. by intros p Hp%not_elem_of_nil. }
  split.
  - split; [done|]. split; [|done]. intros p Hp. apply elem_of_difference. split; [by apply Hin|].
    intros HB. apply (Hd p); [|done]. apply elem_of_union_r. by apply elem_of_list_to_set.
  - intros Hne. destruct (Hq Hne) as [H1 H2]. split; [|done]. apply elem_of_difference. split; [done|].
    intros HB. apply (Hd q); [|done]. apply elem_of_union_l. set_solver.
Qed.

Lemma wrote_above m a bs m' b : wrote m a bs m' → a + len bs ≤ b → vbyte m' b = vbyte m b.
Proof. intros [W _] Hb. rewrite W. by rewrite decide_False by lia. Qed.

Lemma build_stack_spec V args env k h s L m : vector_ok args L → vector_ok env L →
  vector_blocks env ## vector_blocks args → m_rep h L → user V s m →
  mapped m STACK_PAGE STACK_ROOM →
  vector_size args.2.*2 + vector_size env.2.*2 + 4 ≤ STACK_ROOM →
  ∃ v_env v_args sp h' s' m' bs, build_stack args env (put h s k) = Ok (v_env, v_args, sp, put h' s' k) ∧
    m_rep h' (L ∖ vector_blocks env ∖ vector_blocks args) ∧ user V s' m' ∧ stored s s' ∧
    wrote m sp bs m' ∧ sp + len bs = USTACK_END ∧ stack_built m' sp v_args v_env args.2.*2 env.2.*2.
Proof.
  intros HA HE Hdj Hh HU Hm Hsz. change STACK_ROOM with 0xFF0 in *. change STACK_PAGE with 0xFFFFF000 in Hm.
  assert (Hpos : ∀ l, 4 ≤ vector_size l) by (intros [|cs l]; unfold vector_size; lia).
  pose proof (Hpos args.2.*2) as Ha4. pose proof (Hpos env.2.*2) as He4.
  unfold build_stack.
  destruct (push_vector_spec V env USTACK_END k h s L m 0xFFFFF000 HE Hh) as
    (v_env & h1 & s1 & m1 & bs1 & E1 & Ev1 & A1 & Lo1 & N1 & Hh1 & HU1 & W1 & VA1 & T1);
    [done|done|done|unfold USTACK_END; lia|exact Hm|done|].
  rewrite E1. cbn [rbind]. unfold USTACK_END in Ev1, Lo1.
  assert (Hm1 : mapped m1 0xFFFFF000 0xFF0) by by eapply wrote_mapped.
  destruct (push_vector_spec V args v_env k h1 s1 _ m1 0xFFFFF000 (vector_ok_del args L _ HA ltac:(done)) Hh1) as
    (v_args & h2 & s2 & m2 & bs2 & E2 & Ev2 & A2 & Lo2 & N2 & Hh2 & HU2 & W2 & VA2 & T2);
    [done|lia|done|lia| |done|].
  { apply (mapped_sub m1 0xFFFFF000 0xFF0); [done|lia|lia]. }
  rewrite E2. cbn [rbind].
  assert (Hm2 : mapped m2 0xFFFFF000 0xFF0) by by eapply wrote_mapped.
  destruct (pushes_word (len args.2) V s2 m2 v_args 0xFFFFF000) as (s3 & m3 & E3 & HU3 & W3 & T3).
  { done. } { lia. } { cbn [le_bytes length]. lia. }
  { apply (mapped_sub m2 0xFFFFF000 0xFF0); [done|lia|lia]. } { done. }
  rewrite (store_put _ _ _ _ _ _ E3). cbn [rbind le_bytes length] in *. change (Z.of_nat 4) with 4 in *.
  exists v_env, v_args, (v_args - 4), h2, s3, m3, ((le_bytes (len args.2) ++ bs2) ++ bs1).
  split; [done|]. split; [done|]. split; [done|].
  split; [by eapply stored_trans; [eapply stored_trans|]|]. split.
  { apply (wrote_app m v_env bs1 m1); [rewrite Ev1; unfold USTACK_END in W1; by rewrite <- Ev1| |].
    - apply (wrote_app m1 v_args bs2 m2); done.
    - rewrite length_app. cbn [le_bytes length]. lia. }
  split. { rewrite !length_app. cbn [le_bytes length]. unfold USTACK_END. lia. }
  unfold stack_built. change STACK_PAGE with 0xFFFFF000. split; [lia|]. split; [Z.div_mod_to_equations; lia|].
  split; [lia|]. split; [unfold USTACK_END; lia|]. split.
  { rewrite length_fmap. apply (wrote_bytes_in m2); [done|]. apply (mapped_sub m2 0xFFFFF000 0xFF0); [done|lia|cbn; lia]. }
  split.
  - apply vector_above_at, (vector_above_later m2); [done|]. intros b Hb. apply (wrote_above _ _ _ _ b W3). cbn [le_bytes length]. lia.
  - apply vector_above_at, (vector_above_later m1); [done|]. intros b Hb.
    rewrite (wrote_above _ _ _ _ b W3) by (cbn [le_bytes length]; lia).
    apply (wrote_above _ _ _ _ b W2). lia.
Qed.
End vectors.
