(* ===== verification/Clear.v ===== *)
(** * Clear: execve frees the pages of the old program

    The loop of [exec.c] over the user's pages.  Where a table is missing it moves on
    by a table and a page, so that the first page behind a gap is not looked at. *)

From S2P Require Import Prelude Malloc Headers Paging Vm CString Vga Fs Spaces Space User Elf Exec.

Definition UPAGES : Z := UMEM_BEGIN / PAGE_SIZE.

(** A page of the user, by number and flags. *)
Definition user_page_at (n : Z) (x : Z * list Z) : Prop := UPAGES ≤ n ∧ has x.1 PF_USER = true.

#[export] Instance user_page_at_dec n x : Decision (user_page_at n x).
Proof. unfold user_page_at. apply _. Defined.

(** The memory without the user's pages. *)
Definition cleared (m : umem) : umem := filter (λ kv, ¬ user_page_at kv.1 kv.2) m.

(** No user page has a gap of more tables below it than pages in its own table. *)
Definition compact (m : umem) : Prop :=
  ∀ n x, m !! n = Some x → user_page_at n x → ∀ d, 0 < d →
    (∀ i n2, 1 ≤ i ≤ d → n2 / 1024 = n / 1024 - i → m !! n2 = None) → d ≤ n mod 1024.

(** The pages from [n] on are still to be freed. *)
Definition cleared_below (n : Z) (m : umem) : umem :=
  filter (λ kv, ¬ (user_page_at kv.1 kv.2 ∧ kv.1 < n)) m.

Section clear.
Context {PA : PageAlloc} {QA : QuietAlloc}.

Lemma rep_flags s V d m n f c : rep s V → V !! d = Some m → m !! n = Some (f, c) →
  private n ∧ Z.testbit f 0 = true.
Proof.
  intros HR Hd Hn. pose proof (po_keys _ _ (r_pages _ _ HR) d m n Hd ltac:(by eexists)) as Hp.
  split; [done|]. pose proof (po_pages _ _ (r_pages _ _ HR) d m n Hd Hp) as H. rewrite Hn in H.
  destruct H as (H1 & _ & -> & _). rewrite low_flags_bit by lia. done.
Qed.

(** The test of the loop. *)
Lemma user_flags_test fl f : Z.testbit fl 0 = Z.testbit f 0 → Z.testbit fl 2 = Z.testbit f 2 →
  (Z.land fl (Z.lor PF_PRES PF_USER) =? Z.lor PF_PRES PF_USER) = Z.testbit f 0 && Z.testbit f 2.
Proof.
  intros H0 H2. change (Z.lor PF_PRES PF_USER) with 5. rewrite <- H0, <- H2.
  apply eq_true_iff_eq. rewrite Z.eqb_eq, andb_true_iff. split.
  - intros E. split.
    + pose proof (f_equal (λ z, Z.testbit z 0) E) as B. cbn beta in B. rewrite Z.land_spec in B.
      change (Z.testbit 5 0) with true in B. by rewrite andb_true_r in B.
    + pose proof (f_equal (λ z, Z.testbit z 2) E) as B. cbn beta in B. rewrite Z.land_spec in B.
      change (Z.testbit 5 2) with true in B. by rewrite andb_true_r in B.
  - intros [B0 B2]. apply Z.bits_inj'. intros k Hk. rewrite Z.land_spec.
    destruct (decide (k = 0)) as [->|N0]; [by rewrite B0|].
    destruct (decide (k = 2)) as [->|N2]; [by rewrite B2|].
    assert (Z.testbit 5 k = false) as ->; [|apply andb_false_r].
    destruct (decide (k = 1)) as [->|N1]; [done|]. apply (Z.bits_above_log2 5); [done|]. simpl. lia.
Qed.

Lemma reclaimed_ready k V s s' d n m : rep s V → V !! d = Some m → whole m → private n →
  reclaimed d n s s' → pa_quiet (missing s (cr3 s) * TABLE_ROOM) s' → ready_for k s → ready_for k s'.
Proof.
  intros HR Hd Hw Hn [C1 C2 C3 C4 C5 _] HQ [R1 R2 R3]. injection C1 as Ck Cl.
  assert (Hbit : ∀ f, 0 ≤ f → frame_bit (frames s) f = false → frame_bit (frames s') f = false).
  { intros f Hf Hb. destruct (C4 f Hf) as [->|(_ & _ & ?)]; done. }
  split.
  - unfold roomy. rewrite Cl. replace (missing s' (cr3 s)) with (missing s (cr3 s)); [done|].
    unfold missing. f_equal. f_equal. apply filter_same. intros i _. by rewrite C5.
  - intros f Hf Hb. rewrite C2 in Hf. rewrite C3. destruct (C4 f ltac:(lia)) as [E|(Hp & -> & _)].
    + apply R2; [done|]. by rewrite <- E.
    + pose proof (po_pages _ _ (r_pages _ _ HR) d m n Hd Hn) as Hpg.
      destruct (m !! n) as [[fl c]|] eqn:Em; simpl in Hpg; [|congruence].
      destruct Hpg as (_ & _ & _ & _ & _ & Hc). exists c. split; [done|]. by apply (Hw n _ Em).
  - destruct R3 as (X & HX & HXf). exists X. split; [done|]. intros f Hf. rewrite C2.
    destruct (HXf f Hf). split; [done|]. apply Hbit; [lia|done].
Qed.

(** ** The part of the memory that is left at page [n] *)
Lemma cleared_below_start m : cleared_below UPAGES m = m.
Proof.
  apply map_filter_id. intros n x _. unfold user_page_at. simpl. intros [[? _] ?]. lia.
Qed.

Lemma cleared_below_skip n n' m : n ≤ n' →
  (∀ i x, n ≤ i < n' → m !! i = Some x → ¬ user_page_at i x) →
  cleared_below n' m = cleared_below n m.
Proof.
  intros Hn H. apply map_eq. intros i. unfold cleared_below. rewrite !map_lookup_filter.
  destruct (m !! i) as [x|] eqn:E; [|done]. simpl.
  assert (¬ (user_page_at i x ∧ i < n') ↔ ¬ (user_page_at i x ∧ i < n)) as Hiff.
  { split; intros Hno [Hu Hi]; apply Hno; split; try done; [lia|].
    destruct (Z.lt_ge_cases i n); [done|]. destruct (H i x ltac:(lia) E Hu). }
  case_guard; case_guard; tauto.
Qed.

Lemma cleared_below_next n m x : m !! n = Some x → user_page_at n x →
  cleared_below (n + 1) m = delete n (cleared_below n m).
Proof.
  intros E Hu. apply map_eq. intros i. unfold cleared_below. destruct (decide (n = i)) as [<-|Hne].
  - rewrite lookup_delete_eq. apply map_lookup_filter_None_2. right. intros y Hy. simpl.
    assert (y = x) as -> by congruence. intros Hno. apply Hno. split; [done|lia].
  - rewrite lookup_delete_ne, !map_lookup_filter by done. destruct (m !! i) as [y|]; [|done]. simpl.
    case_guard; case_guard; naive_solver lia.
Qed.

Lemma cleared_below_at n m : cleared_below n m !! n = m !! n.
Proof.
  unfold cleared_below. rewrite map_lookup_filter. destruct (m !! n) as [x|]; [|done]. simpl.
  rewrite option_guard_True; [done|]. intros [_ ?]. lia.
Qed.

Lemma cleared_below_end s V d m n : rep s V → V !! d = Some m → NPAGES ≤ n →
  cleared_below n m = cleared m.
Proof.
  intros HR Hd Hn. apply map_eq. intros i. unfold cleared, cleared_below. rewrite !map_lookup_filter.
  destruct (m !! i) as [x|] eqn:E; [|done]. simpl.
  pose proof (po_keys _ _ (r_pages _ _ HR) d m i Hd ltac:(by eexists)) as Hp. unfold private in Hp.
  assert (¬ (user_page_at i x ∧ i < n) ↔ ¬ user_page_at i x) as Hiff.
  { split; intros Hno Hu; apply Hno; [|by destruct Hu]. split; [done|lia]. }
  case_guard; case_guard; tauto.
Qed.

Lemma whole_filter (P : Z * (Z * list Z) → Prop) `{∀ x, Decision (P x)} m : whole m → whole (filter P m).
Proof. intros Hw n x [E _]%map_lookup_filter_Some. by apply (Hw n). Qed.

Lemma off_table s d i : mm_ok s → pde_on s d i = false → table_at s d i = 0.
Proof.
  intros [Hs Hp] Ha. unfold pde_on in Ha. unfold table_at. destruct (dirs s !! d) as [x|] eqn:Hx; [|done].
  destruct (aget (tables x) i) as [p|] eqn:Ep; [|done]. cbn [default]. unfold id.
  destruct (decide (p = 0)) as [->|Hne]; [done|]. destruct (Hs d x Hx) as (L1 & L2 & _).
  destruct (aget_is_Some (tables_phys x) i) as [e Ee]; [apply aget_range in Ep; lia|].
  rewrite Ee in Ha. by rewrite (Hp d x Hx i p e Ep Hne Ee) in Ha.
Qed.

(** ** The loop *)
Section loop.
Variables (V : gmap Z umem) (s0 : mm) (m0 : umem) (pd : Z).
Hypothesis H0 : user V s0 m0.
Hypothesis Hpd : cr3 s0 = pd.
Hypothesis Hw : whole m0.
Hypothesis Hc : compact m0.

Let absent (t : Z) : Prop := pde_on s0 pd t = false.

Lemma absent_empty t n : absent t → n / 1024 = t → m0 !! n = None.
Proof using H0 Hpd.
  intros Ha Hn. destruct (m0 !! n) as [[f c]|] eqn:E; [|done]. exfalso.
  assert (Hd : <[cr3 s0 := m0]> V !! pd = Some m0) by (rewrite <- Hpd; apply lookup_insert_eq).
  pose proof (po_keys _ _ (r_pages _ _ H0) pd m0 n Hd ltac:(by eexists)) as Hp.
  pose proof (po_pages _ _ (r_pages _ _ H0) pd m0 n Hd Hp) as Hpg. rewrite E in Hpg.
  destruct Hpg as (Hpr & _).
  assert (Hdd : is_Some (dirs s0 !! pd)) by (apply (rep_dir _ _ _ H0); by eexists).
  assert (Hn' : 0 ≤ n < NPAGES) by (unfold private in Hp; change KPAGES with 64512 in Hp; lia).
  pose proof (present_table s0 pd n (r_ok _ _ H0) Hdd Hn' Hpr) as Ht. rewrite Hn in Ht.
  by apply Ht, (off_table s0 pd t (r_ok _ _ H0)).
Qed.

(** The loop is [o] pages into a table behind [o] missing ones at most, or in a table. *)
Definition offset_ok (n : Z) : Prop :=
  pde_on s0 pd (n / 1024) = true ∨ ∀ i, 1 ≤ i ≤ n mod 1024 → absent (n / 1024 - i).

Record clearing_at (n : Z) (s : mm) : Prop := {
  ca_user : user V s (cleared_below n m0);
  ca_spaces : spaces s = spaces s0;
  ca_pdes : ∀ i, pde_on s pd i = pde_on s0 pd i;
  ca_offset : offset_ok n
}.

(** Behind a missing table there is no page of the user in the pages that are passed. *)
Lemma passed_empty n i x : offset_ok n → absent (n / 1024) → n ≤ i < n + 1025 →
  m0 !! i = Some x → ¬ user_page_at i x.
Proof using H0 Hpd Hc.
  intros [Ho|Ho] Ha Hi Hx Hu; [congruence|].
  destruct (decide (i / 1024 = n / 1024)) as [E|E].
  { rewrite (absent_empty _ i Ha E) in Hx. done. }
  assert (Hi1 : i / 1024 = n / 1024 + 1) by (Z.div_mod_to_equations; lia).
  pose proof (Hc i x Hx Hu (n mod 1024 + 1) ltac:(Z.div_mod_to_equations; lia)) as Hd.
  assert (n mod 1024 + 1 ≤ i mod 1024); [|Z.div_mod_to_equations; lia].
  apply Hd. intros j n2 Hj Hn2. apply (absent_empty (n2 / 1024) n2); [|done].
  rewrite Hn2, Hi1. destruct (decide (j = 1)) as [->|Hj1].
  - by replace (n / 1024 + 1 - 1) with (n / 1024) by lia.
  - replace (n / 1024 + 1 - j) with (n / 1024 - (j - 1)) by lia. apply Ho. lia.
Qed.

Lemma offset_next n : offset_ok n → pde_on s0 pd (n / 1024) = true → offset_ok (n + 1).
Proof using.
  intros _ Hp. unfold offset_ok. destruct (decide ((n + 1) mod 1024 = 0)) as [->|Hm].
  - right. lia.
  - left. replace ((n + 1) / 1024) with (n / 1024) by (Z.div_mod_to_equations; lia). done.
Qed.

Lemma offset_skip n : offset_ok n → absent (n / 1024) → offset_ok (n + 1025).
Proof using.
  intros [Ho|Ho] Ha; [unfold absent in Ha; congruence|]. right.
  intros i Hi. destruct (decide (n mod 1024 = 1023)) as [E|E].
  { replace ((n + 1025) mod 1024) with 0 in Hi by (Z.div_mod_to_equations; lia). lia. }
  replace ((n + 1025) / 1024) with (n / 1024 + 1) by (Z.div_mod_to_equations; lia).
  replace ((n + 1025) mod 1024) with (n mod 1024 + 1) in Hi by (Z.div_mod_to_equations; lia).
  destruct (decide (i = 1)) as [->|]; [by replace (n / 1024 + 1 - 1) with (n / 1024) by lia|].
  replace (n / 1024 + 1 - i) with (n / 1024 - (i - 1)) by lia. apply Ho. lia.
Qed.

Lemma clear_done fuel page s : (0 < fuel)%nat → page < UMEM_BEGIN → clear_user fuel page pd s = Ok s.
Proof using.
  intros Hf Hp. destruct fuel as [|fuel]; [lia|]. cbn [clear_user].
  replace (UMEM_BEGIN <=? page) with false by lia. by rewrite andb_false_r.
Qed.

(** One turn in a table that is there. *)
Lemma clear_page_turn k n s fl : UPAGES ≤ n < NPAGES → clearing_at n s → ready_for k s →
  page_flags (n * PAGE_SIZE) pd s = Ok fl →
  (∀ j, 0 ≤ j < 9 → Z.testbit fl j = Z.testbit (low_flags (pte s pd n)) j) →
  pde_on s0 pd (n / 1024) = true →
  ∃ s', (if Z.land fl (Z.lor PF_PRES PF_USER) =? Z.lor PF_PRES PF_USER then
           let* phys := get_phys (n * PAGE_SIZE) pd s in
           let* m := frame_free phys s in
           let* (_, m) := page_map (n * PAGE_SIZE) 0 0 pd m in Ok m
         else Ok s) = Ok s' ∧ clearing_at (n + 1) s' ∧ ready_for k s'.
Proof using H0 Hpd Hw.
  intros Hn HC HR Efl Hfl Hon. pose proof HC as [HU Hsp Hpde Ho]. injection Hsp as Hk Hl.
  assert (Hcr : cr3 s = pd) by congruence.
  assert (Hd : <[cr3 s := cleared_below n m0]> V !! pd = Some (cleared_below n m0))
    by (rewrite Hcr; apply lookup_insert_eq).
  assert (Hp : private n).
  { unfold private. change UPAGES with 65536 in Hn. change KPAGES with 64512. lia. }
  pose proof (po_pages _ _ (r_pages _ _ HU) pd _ n Hd Hp) as Hpg. rewrite cleared_below_at in Hpg.
  rewrite (user_flags_test fl (low_flags (pte s pd n))) by (apply Hfl; lia).
  rewrite !low_flags_bit by lia. cbn [aget flag_bits Z.to_nat lookup list_lookup default].
  change (default false (aget (flag_bits (pte s pd n)) 0)) with (present (pte s pd n)).
  change (default false (aget (flag_bits (pte s pd n)) 2)) with (Paging.user (pte s pd n)).
  assert (Hskip : (∀ x, m0 !! n = Some x → ¬ user_page_at n x) → clearing_at (n + 1) s).
  { intros Hno. split; [|by unfold spaces; rewrite Hk, Hl|done|by apply offset_next].
    rewrite (cleared_below_skip n (n + 1)); [done|lia|].
    intros i x Hi Hx. assert (i = n) as -> by lia. by apply Hno. }
  destruct (m0 !! n) as [[f c]|] eqn:Em; simpl in Hpg.
  2:{ rewrite Hpg. exists s. split; [done|]. split; [|done]. apply Hskip. done. }
  destruct Hpg as (Hpr & _ & Hf & _). rewrite Hpr. cbn [andb].
  assert (Hus : Paging.user (pte s pd n) = has f PF_USER).
  { rewrite Hf. change PF_USER with (2 ^ 2). rewrite has_bit, low_flags_bit by lia. done. }
  rewrite Hus. destruct (has f PF_USER) eqn:Huf.
  2:{ exists s. split; [done|]. split; [|done]. apply Hskip. intros x [= <-] [_ Hu]. simpl in Hu. congruence. }
  destruct HR as [R1 R2 R3]. unfold roomy in R1.
  destruct (free_turn _ s _ pd (cleared_below n m0) n HU R1) as (s' & E & HR' & HQ' & HC');
    [pose proof (missing_nonneg s (cr3 s)); unfold TABLE_ROOM, PAGE_SIZE; lia|done|done|].
  unfold free_page in E. rewrite Efl in E. cbn [rbind] in E.
  rewrite (has_present fl _ Hfl), Hpr in E. cbn [negb] in E.
  pose proof (rc_spaces _ _ _ _ HC') as Hs'. injection Hs' as Hk' Hl'.
  exists s'. split; [exact E|]. split.
  - split.
    + unfold user. rewrite Hl', Hcr. rewrite (cleared_below_next n m0 (f, c)) by (done || (split; [lia|done])).
      rewrite Hcr in HR'. by rewrite insert_insert_eq in HR'.
    + unfold spaces. by rewrite Hk', Hl', Hk, Hl.
    + intros i. by rewrite (rc_pdes _ _ _ _ HC').
    + by apply offset_next.
  - apply (reclaimed_ready k _ s s' pd n _ HU Hd); [|done|done|done|by split].
    by apply (whole_filter (λ kv, ¬ (user_page_at kv.1 kv.2 ∧ kv.1 < n))).
Qed.

(** It frees every page of the user. *)
Lemma clear_user_spec fuel k n s : UPAGES ≤ n < NPAGES → clearing_at n s → ready_for k s →
  2 ^ 20 - n + 1 < Z.of_nat fuel →
  ∃ s', clear_user fuel (n * PAGE_SIZE) pd s = Ok s' ∧ user V s' (cleared m0) ∧
    spaces s' = spaces s0 ∧ ready_for k s'.
Proof using H0 Hpd Hw Hc.
  revert n s. induction fuel as [|fuel IH]; intros n s Hn HC HR Hf;
    [unfold NPAGES in Hn; lia|].
  assert (Hnext : ∀ n' s', n < n' ≤ n + 1025 → clearing_at n' s' → ready_for k s' →
    ∃ s'', clear_user fuel (u32 (n' * PAGE_SIZE)) pd s' = Ok s'' ∧ user V s'' (cleared m0) ∧
      spaces s'' = spaces s0 ∧ ready_for k s'').
  { intros n' s' Hn' HC' HR'. change NPAGES with 1048576 in *. change UPAGES with 65536 in Hn.
    destruct (Z.lt_ge_cases n' 1048576) as [Hlt|Hge].
    - rewrite uint_small by (unfold PAGE_SIZE; simpl; lia). apply IH; [|done|done|lia].
      change UPAGES with 65536. change NPAGES with 1048576. lia.
    - exists s'. split; [|split; [|split; [apply HC'|done]]].
      + apply clear_done; [lia|]. replace (n' * PAGE_SIZE) with ((n' - 1048576) * PAGE_SIZE + 1 * 2 ^ 32)
          by (unfold PAGE_SIZE; lia).
        unfold uint. rewrite Z.mod_add, Z.mod_small by (unfold PAGE_SIZE; lia).
        unfold PAGE_SIZE, UMEM_BEGIN. lia.
      + rewrite <- (cleared_below_end s0 _ pd m0 n' H0); [apply HC'|by rewrite <- Hpd; apply lookup_insert_eq|].
        change NPAGES with 1048576. lia. }
  pose proof HC as [HU Hsp Hpde Ho]. injection Hsp as Hk Hl.
  assert (Hdd : is_Some (dirs s !! pd)).
  { apply (rep_dir _ _ _ HU). rewrite <- Hpd, <- Hl, lookup_insert_eq. by eexists. }
  change UPAGES with 65536 in *. change NPAGES with 1048576 in *.
  destruct (page_flags_low s pd n (r_ok _ _ HU) Hdd) as (fl & Efl & Hfl & H16);
    [change NPAGES with 1048576; lia|]. rewrite Hpde in H16.
  cbn [clear_user]. replace (n * PAGE_SIZE <? USTACK_END) with true by (unfold PAGE_SIZE, USTACK_END; lia).
  replace (UMEM_BEGIN <=? n * PAGE_SIZE) with true by (unfold PAGE_SIZE, UMEM_BEGIN; lia).
  cbn [andb]. rewrite Efl. cbn [rbind].
  assert (Hsh : has (Z.shiftr fl 16) PF_PRES = pde_on s0 pd (n / 1024)).
  { change PF_PRES with (2 ^ 0). rewrite has_bit, Z.shiftr_spec by lia. exact H16. }
  rewrite Hsh. destruct (pde_on s0 pd (n / 1024)) eqn:Hon; cbn [negb].
  - destruct (clear_page_turn k n s fl) as (s1 & E1 & HC1 & HR1); try done. rewrite E1. cbn [rbind].
    replace (n * PAGE_SIZE + PAGE_SIZE) with ((n + 1) * PAGE_SIZE) by lia. apply Hnext; [lia|done|done].
  - assert (Hz : ∀ j, 0 ≤ j < 9 → Z.testbit fl j = false).
    { intros j Hj. rewrite Hfl by done. unfold pte.
      rewrite entry_of_table; [|apply HU|done|unfold NPAGES; lia].
      rewrite (off_table s pd); [|apply HU|by rewrite Hpde].
      change (low_flags (default page_zero (if 0 =? 0 then None else _))) with 0. apply Z.bits_0. }
    rewrite (user_flags_test fl 0) by (rewrite Hz by lia; by rewrite Z.bits_0).
    cbn [rbind]. rewrite !Z.bits_0. cbn [andb rbind].
    replace (u32 (u32 (n * PAGE_SIZE + 1024 * PAGE_SIZE) + PAGE_SIZE)) with (u32 ((n + 1025) * PAGE_SIZE)).
    2:{ unfold uint. rewrite Z.add_mod_idemp_l by lia. f_equal. lia. }
    apply Hnext; [lia| |done]. split; [|by unfold spaces; rewrite Hk, Hl|done|by apply offset_skip].
    rewrite (cleared_below_skip n (n + 1025)); [done|lia|].
    intros i x Hi Hx. by apply (passed_empty n i x).
Qed.
End loop.
End clear.
