(* ===== verification/Ubreak.v ===== *)
(** * Ubreak: the break of a task over its memory

    [uvm.c] ([Vm.uvm_brk], [Vm.uvm_sbrk]) on the page tables as [Space.rep] reads them:
    which pages the task has before and after, and what is in them.  The class [Ubrk] is
    what the allocator of the C library ([Umalloc]) needs of the two calls. *)

From S2P Require Import Prelude Malloc Headers Paging Vm CString Vga Fs Spaces Space Fork User Elf Exec Clear.

(** A page as the kernel adds it to a heap. *)
Definition HEAP_FLAGS : Z := Z.lor (Z.lor PF_PRES PF_RW) PF_USER.
Definition zeros : list Z := replicate (Z.to_nat PAGE_SIZE) 0.

#[local] Opaque replicate.

(** [n] bytes up to the next page. *)
Definition pages (n : Z) : Z := (n + (PAGE_SIZE - 1)) / PAGE_SIZE.

Section break.
Context {PA : PageAlloc} {QA : QuietAlloc}.

(** The task whose address space is loaded has the memory [m], with a page for each
    of its heap and none between the break and the stack; [k] frames are free. *)
Record heap_rep (k : Z) (V : gmap Z umem) (m : umem) (u : uvm) : Prop := {
  hr_user : user V (um u) m;
  hr_whole : whole m;
  hr_ready : ready_for k (um u);
  hr_dir : page_dir u = cr3 (um u);
  hr_aligned : uheap_begin u mod PAGE_SIZE = 0 ∧ uheap_end u mod PAGE_SIZE = 0;
  hr_range : UMEM_BEGIN ≤ uheap_begin u ∧ uheap_begin u ≤ uheap_end u ∧ uheap_end u ≤ USTACK_BEGIN;
  hr_in : ∀ n, uheap_begin u ≤ n * PAGE_SIZE < uheap_end u → is_Some (m !! n);
  hr_out : ∀ n, uheap_end u ≤ n * PAGE_SIZE < USTACK_BEGIN → m !! n = None
}.

(** The break is [e]: the pages that came are zero, the others are as they were. *)
Record moved (V : gmap Z umem) (m m' : umem) (u u' : uvm) (e : Z) : Prop := {
  mv_end : uheap_end u' = e;
  mv_begin : uheap_begin u' = uheap_begin u;
  mv_spaces : spaces (um u') = spaces (um u);
  mv_pages : ∀ n, m' !! n =
    if decide (uheap_end u ≤ n * PAGE_SIZE < e) then Some (HEAP_FLAGS, zeros)
    else if decide (e ≤ n * PAGE_SIZE < uheap_end u) then None else m !! n
}.

Lemma moved_refl V m u : moved V m m u u (uheap_end u).
Proof. split; [done..|]. intros n. by rewrite !decide_False by lia. Qed.

Lemma moved_up V m m1 m2 u u1 u2 e1 e2 : uheap_end u ≤ e1 → e1 ≤ e2 →
  moved V m m1 u u1 e1 → moved V m1 m2 u1 u2 e2 → moved V m m2 u u2 e2.
Proof.
  intros H1 H2 [A1 A2 A3 A4] [B1 B2 B3 B4]. split; [done|congruence|congruence|].
  intros n. rewrite B4, A4, A1. repeat case_decide; done || lia.
Qed.

Lemma moved_down V m m1 m2 u u1 u2 e1 e2 : e1 ≤ uheap_end u → e2 ≤ e1 →
  moved V m m1 u u1 e1 → moved V m1 m2 u1 u2 e2 → moved V m m2 u u2 e2.
Proof.
  intros H1 H2 [A1 A2 A3 A4] [B1 B2 B3 B4]. split; [done|congruence|congruence|].
  intros n. rewrite B4, A4, A1. repeat case_decide; done || lia.
Qed.

Lemma whole_insert m n f c : whole m → len c = PAGE_SIZE → whole (<[n := (f, c)]> m).
Proof. intros Hw Hl. by apply map_Forall_insert_2. Qed.

Lemma zeros_len : len zeros = PAGE_SIZE.
Proof. unfold zeros. by rewrite length_replicate. Qed.

(** [memset] of a page of the task. *)
Lemma zero_page_user V s m n f c : user V s m → private n → m !! n = Some (f, c) →
  ∃ s', zero_page (n * PAGE_SIZE) s = Ok s' ∧ user V s' (<[n := (f, zeros)]> m) ∧ stored s s'.
Proof.
  intros HU Hn Em. assert (Hlm : <[cr3 s := m]> V !! cr3 s = Some m) by apply lookup_insert_eq.
  pose proof (po_pages _ _ (r_pages _ _ HU) _ _ _ Hlm Hn) as Hp. rewrite Em in Hp.
  destruct Hp as (Hpr & _ & _ & _ & Hused & _).
  unfold zero_page. rewrite page_frame_pte by done. cbn [rbind]. fold zeros.
  set (g := frame (pte s (cr3 s) n)) in *.
  eexists. split; [done|]. split.
  - unfold user. cbn [with_ram cr3]. rewrite <- (insert_insert_eq V (cr3 s) _ m).
    assert (Hs : ∀ d, is_Some (<[cr3 s := m]> V !! d) →
      is_Some (<[cr3 s := <[n := (f, zeros)]> m]> (<[cr3 s := m]> V) !! d))
      by (intros; apply lookup_insert_is_Some'; by right).
    split; [apply HU|apply HU|apply HU| |apply Hs, HU|apply Hs, HU|].
    + change (dom (dirs s) = dom (<[cr3 s := <[n := (f, zeros)]> m]> (<[cr3 s := m]> V))).
      rewrite (r_dom _ _ HU). symmetry. apply dom_insert_lookup_L. by eexists.
    + apply pages_write with (c := c); [apply HU|done|done|done].
  - split; [done|]. intros h Hh. cbn [with_ram ram]. apply lookup_insert_ne.
    intros E. assert (h = g) by (unfold PAGE_SIZE in *; lia). congruence.
Qed.

Lemma page_base_number a : a mod PAGE_SIZE = 0 → a / PAGE_SIZE * PAGE_SIZE = a.
Proof. unfold PAGE_SIZE. intros H. Z.div_mod_to_equations. lia. Qed.

Lemma heap_private n : UMEM_BEGIN ≤ n * PAGE_SIZE < USTACK_BEGIN → private n.
Proof.
  unfold private, UMEM_BEGIN, USTACK_BEGIN, PAGE_SIZE. change KPAGES with 64512.
  change NPAGES with 1048576. lia.
Qed.

Lemma page_alloc_moves k V m u : heap_rep (k + 1) V m u → 0 ≤ k → uheap_end u < USTACK_BEGIN →
  ∃ u' m', uvm_page_alloc u = Ok (uheap_end u, u') ∧ heap_rep k V m' u' ∧
    moved V m m' u u' (uheap_end u + PAGE_SIZE).
Proof.
  intros [HU Hw [R1 R2 R3] Hd [Ha1 Ha2] Hr Hin Hout] Hk Hlt.
  pose proof (page_base_number _ Ha2) as Hn. set (n := uheap_end u / PAGE_SIZE) in *.
  assert (Hp : private n) by (apply heap_private; lia).
  assert (Em : m !! n = None) by (apply Hout; lia).
  destruct (new_user_page V (um u) m n HEAP_FLAGS k HU R1 R2 R3 Hk Hp Em)
    as (fr & s1 & c & s2 & E1 & Ec & E2 & HR2 & Hc & Q1 & Q2 & Q3 & Hsp); [by split|].
  injection Hsp as Hsk Hsl. unfold uvm_page_alloc.
  rewrite (proj2 (Z.ltb_lt _ _)) by lia. rewrite E1. cbn [rbind]. fold HEAP_FLAGS.
  rewrite Hn, <- Hd in E2. rewrite E2. cbn [rbind].
  rewrite (proj2 (Z.eqb_neq _ _)) by (unfold UMEM_BEGIN in *; lia).
  assert (HU2 : user V s2 (<[n := (HEAP_FLAGS, c)]> m)) by (unfold user; by rewrite Hsl).
  destruct (zero_page_user V s2 _ n HEAP_FLAGS c HU2 Hp) as (s3 & E3 & HU3 & Hst);
    [apply lookup_insert_eq|]. rewrite Hn in E3. rewrite E3. cbn [rbind].
  rewrite insert_insert_eq in HU3.
  pose proof (stored_spaces _ _ Hst) as Hsp3. injection Hsp3 as Hsk3 Hsl3.
  assert (Hle : uheap_end u + PAGE_SIZE ≤ USTACK_BEGIN).
  { unfold USTACK_BEGIN, PAGE_SIZE in *. Z.div_mod_to_equations. lia. }
  rewrite uint_small by (unfold USTACK_BEGIN, PAGE_SIZE, UMEM_BEGIN in *; simpl; lia).
  eexists _, _. split; [done|]. split.
  - split; cbn [um page_dir uheap_begin uheap_end with_um with_uheap_end]; [exact HU3| | | | | | |].
    + apply whole_insert; [done|apply zeros_len].
    + by apply (stored_ready k s2).
    + by rewrite Hsl3, Hsl.
    + split; [done|]. unfold PAGE_SIZE in *. by rewrite <- Z.add_mod_idemp_r, Z.add_0_r.
    + unfold PAGE_SIZE in *. lia.
    + intros j Hj. destruct (decide (j = n)) as [->|]; [rewrite lookup_insert_eq; by eexists|].
      rewrite lookup_insert_ne by done. apply Hin. unfold PAGE_SIZE in *. lia.
    + intros j Hj. rewrite lookup_insert_ne by (intros <-; unfold PAGE_SIZE in *; lia).
      apply Hout. unfold PAGE_SIZE in *. lia.
  - split; [done|done|unfold spaces; cbn [um with_um with_uheap_end]; congruence|].
    intros j. destruct (decide (n = j)) as [<-|Hj].
    + rewrite lookup_insert_eq, decide_True by (unfold PAGE_SIZE in *; lia). done.
    + rewrite lookup_insert_ne by done. rewrite !decide_False by (unfold PAGE_SIZE in *; lia). done.
Qed.

Lemma page_free_moves k V m u : heap_rep k V m u → uheap_begin u < uheap_end u →
  ∃ u' m', uvm_page_free u = Ok u' ∧ heap_rep k V m' u' ∧ moved V m m' u u' (uheap_end u - PAGE_SIZE).
Proof.
  intros [HU Hw HR Hd [Ha1 Ha2] Hr Hin Hout] Hlt.
  assert (Hge : uheap_begin u ≤ uheap_end u - PAGE_SIZE).
  { unfold PAGE_SIZE in *. Z.div_mod_to_equations. lia. }
  pose proof (page_base_number _ Ha2) as Hn0. set (n := uheap_end u / PAGE_SIZE - 1) in *.
  assert (Hn : uheap_end u - PAGE_SIZE = n * PAGE_SIZE) by (unfold n; lia).
  assert (Hp : private n) by (apply heap_private; unfold PAGE_SIZE in *; lia).
  destruct (Hin n) as [[f c] Em]; [unfold PAGE_SIZE in *; lia|].
  assert (Hlm : <[cr3 (um u) := m]> V !! cr3 (um u) = Some m) by apply lookup_insert_eq.
  pose proof HR as [R1 R2 R3].
  destruct (free_turn (missing (um u) (cr3 (um u)) * TABLE_ROOM) (um u) _ (cr3 (um u)) m n HU R1)
    as (s' & E & HR' & HQ' & HC');
    [pose proof (missing_nonneg (um u) (cr3 (um u))); unfold TABLE_ROOM, PAGE_SIZE; lia|done|done|].
  pose proof (po_pages _ _ (r_pages _ _ HU) _ _ _ Hlm Hp) as Hpg. rewrite Em in Hpg. destruct Hpg as (Hpr & _).
  assert (Hdd : is_Some (dirs (um u) !! cr3 (um u))) by (apply (rep_dir _ _ _ HU); by eexists).
  assert (Hn' : 0 ≤ n < NPAGES) by (unfold private in Hp; change KPAGES with 64512 in Hp; lia).
  unfold free_page in E. destruct (page_flags_low (um u) (cr3 (um u)) n (r_ok _ _ HU) Hdd Hn') as (fl & Efl & Hfl & _).
  rewrite Efl in E. cbn [rbind] in E. rewrite (has_present fl _ Hfl), Hpr in E. cbn [negb] in E.
  unfold uvm_page_free. rewrite uint_small by (unfold USTACK_BEGIN, UMEM_BEGIN, PAGE_SIZE in *; simpl; lia).
  rewrite Hn, Hd. apply rbind_Ok in E as (phys & -> & E). cbn [rbind].
  apply rbind_Ok in E as (s1 & -> & E). cbn [rbind].
  apply rbind_Ok in E as ([x s2] & -> & E). cbn [rbind]. injection E as ->.
  pose proof (rc_spaces _ _ _ _ HC') as Hsp. injection Hsp as Hsk Hsl.
  rewrite insert_insert_eq in HR'.
  eexists _, (delete n m). split; [done|]. split.
  - split; cbn [um page_dir uheap_begin uheap_end with_um with_uheap_end].
    + unfold user. by rewrite Hsl.
    + intros j y [_ Hj]%lookup_delete_Some. by apply (Hw j).
    + by apply (reclaimed_ready k _ (um u) s' (cr3 (um u)) n m HU Hlm).
    + by rewrite Hsl.
    + split; [done|]. unfold PAGE_SIZE. by rewrite Z.mod_mul.
    + unfold PAGE_SIZE in *. lia.
    + intros j Hj. rewrite lookup_delete_ne by (intros <-; unfold PAGE_SIZE in *; lia).
      apply Hin. unfold PAGE_SIZE in *. lia.
    + intros j Hj. destruct (decide (n = j)) as [<-|]; [apply lookup_delete_eq|].
      rewrite lookup_delete_ne by done. apply Hout. unfold PAGE_SIZE in *. lia.
  - split; [done|done|unfold spaces; cbn [um with_um with_uheap_end]; congruence|].
    intros j. destruct (decide (n = j)) as [<-|Hj].
    + rewrite lookup_delete_eq, decide_False, decide_True by (unfold PAGE_SIZE in *; lia). done.
    + rewrite lookup_delete_ne by done. rewrite !decide_False by (unfold PAGE_SIZE in *; lia). done.
Qed.

(** [p] turns of the growing loops. *)
Lemma grow_turns p : ∀ k V m u, heap_rep (Z.of_nat p + k) V m u → 0 ≤ k →
  uheap_end u + PAGE_SIZE * Z.of_nat p ≤ USTACK_BEGIN →
  ∃ u' m', heap_rep k V m' u' ∧ moved V m m' u u' (uheap_end u + PAGE_SIZE * Z.of_nat p) ∧
    (∀ fuel incr ret, PAGE_SIZE * Z.of_nat p - PAGE_SIZE < incr →
       uvm_sbrk_grow (p + fuel) incr ret u = uvm_sbrk_grow fuel (incr - PAGE_SIZE * Z.of_nat p) ret u') ∧
    (∀ fuel a, uheap_end u + PAGE_SIZE * Z.of_nat p - PAGE_SIZE < a →
       uvm_brk_grow (p + fuel) a u = uvm_brk_grow fuel a u').
Proof.
  induction p as [|p IH]; intros k V m u HR Hk Hend.
  { exists u, m. rewrite Z.mul_0_r, Z.add_0_r. split; [done|]. split; [apply moved_refl|].
    split; [|done]. intros fuel incr ret _. by rewrite Z.sub_0_r. }
  pose proof (hr_range _ _ _ _ HR) as Hr.
  destruct (page_alloc_moves (Z.of_nat p + k) V m u) as (u1 & m1 & E1 & HR1 & HM1);
    [by replace (Z.of_nat p + k + 1) with (Z.of_nat (S p) + k) by lia|lia|unfold PAGE_SIZE in *; lia|].
  pose proof (mv_end _ _ _ _ _ _ HM1) as He1.
  destruct (IH k V m1 u1 HR1 Hk) as (u' & m' & HR' & HM' & Hs & Hb); [unfold PAGE_SIZE in *; lia|].
  exists u', m'. split; [done|]. rewrite He1 in *. split; [|split].
  - replace (uheap_end u + PAGE_SIZE * Z.of_nat (S p)) with (uheap_end u + PAGE_SIZE + PAGE_SIZE * Z.of_nat p) by lia.
    apply (moved_up V m m1 m' u u1 u' (uheap_end u + PAGE_SIZE)); [unfold PAGE_SIZE; lia..|done|done].
  - intros fuel incr ret Hi. cbn [Nat.add uvm_sbrk_grow]. rewrite (proj2 (Z.ltb_lt _ _)) by (unfold PAGE_SIZE in *; lia).
    rewrite E1. cbn [rbind]. rewrite (proj2 (Z.eqb_neq _ _)) by (unfold UMEM_BEGIN in *; lia).
    rewrite Hs by lia. f_equal. lia.
  - intros fuel a Ha. cbn [Nat.add uvm_brk_grow]. rewrite (proj2 (Z.ltb_lt _ _)) by (unfold PAGE_SIZE in *; lia).
    rewrite E1. cbn [rbind]. rewrite (proj2 (Z.eqb_neq _ _)) by (unfold UMEM_BEGIN in *; lia).
    apply Hb. lia.
Qed.

(** [p] turns of the shrinking loops. *)
Lemma shrink_turns p : ∀ k V m u, heap_rep k V m u → uheap_begin u ≤ uheap_end u - PAGE_SIZE * Z.of_nat p →
  ∃ u' m', heap_rep k V m' u' ∧ moved V m m' u u' (uheap_end u - PAGE_SIZE * Z.of_nat p) ∧
    (∀ fuel incr ret, incr < PAGE_SIZE - PAGE_SIZE * Z.of_nat p →
       uvm_sbrk_shrink (p + fuel) incr ret u = uvm_sbrk_shrink fuel (incr + PAGE_SIZE * Z.of_nat p) ret u') ∧
    (∀ fuel a, a < uheap_end u - PAGE_SIZE * Z.of_nat p + PAGE_SIZE →
       uvm_brk_shrink (p + fuel) a u = uvm_brk_shrink fuel a u').
Proof.
  induction p as [|p IH]; intros k V m u HR Hend.
  { exists u, m. rewrite Z.mul_0_r, Z.sub_0_r. split; [done|]. split; [apply moved_refl|].
    split; [|done]. intros fuel incr ret _. by rewrite Z.add_0_r. }
  destruct (page_free_moves k V m u HR) as (u1 & m1 & E1 & HR1 & HM1); [unfold PAGE_SIZE in *; lia|].
  pose proof (mv_end _ _ _ _ _ _ HM1) as He1. pose proof (mv_begin _ _ _ _ _ _ HM1) as Hb1.
  destruct (IH k V m1 u1 HR1) as (u' & m' & HR' & HM' & Hs & Hb); [unfold PAGE_SIZE in *; lia|].
  exists u', m'. split; [done|]. rewrite He1 in *. split; [|split].
  - replace (uheap_end u - PAGE_SIZE * Z.of_nat (S p)) with (uheap_end u - PAGE_SIZE - PAGE_SIZE * Z.of_nat p) by lia.
    apply (moved_down V m m1 m' u u1 u' (uheap_end u - PAGE_SIZE)); [unfold PAGE_SIZE; lia..|done|done].
  - intros fuel incr ret Hi. cbn [Nat.add uvm_sbrk_shrink]. rewrite (proj2 (Z.ltb_lt _ _)) by (unfold PAGE_SIZE in *; lia).
    rewrite E1. cbn [rbind]. rewrite Hs by lia. f_equal. lia.
  - intros fuel a Ha. cbn [Nat.add uvm_brk_shrink]. rewrite (proj2 (Z.ltb_lt _ _)) by (unfold PAGE_SIZE in *; lia).
    rewrite E1. cbn [rbind]. apply Hb. lia.
Qed.

Lemma break_round a : 0 ≤ a → a + PAGE_SIZE < 2 ^ 32 → util_round_up a PAGE_SIZE = PAGE_SIZE * pages a.
Proof.
  intros H0 H1. unfold util_round_up, pages, PAGE_SIZE in *. rewrite Z.rem_mod_nonneg by lia.
  destruct (Z.eqb_spec (a mod 4096) 0) as [E|E]; cbn [negb].
  - Z.div_mod_to_equations. lia.
  - rewrite (uint_small 32 (a + 4096)) by (simpl in *; lia).
    rewrite uint_small by (simpl in *; Z.div_mod_to_equations; lia). Z.div_mod_to_equations. lia.
Qed.

Lemma heap_rep_le j k V m u : heap_rep k V m u → j ≤ k → heap_rep j V m u.
Proof.
  intros [H1 H2 [Q1 Q2 Q3] H4 H5 H6 H7 H8] Hle. split; try done. split; [done..|].
  by apply (has_frames_le _ j k).
Qed.

(** The pages that a break at [end + incr] needs more. *)
Definition needed (incr : Z) : Z := Z.max 0 (pages incr).

(** Both calls, to the same place. *)
Definition breaks (fuel : nat) (u : uvm) (incr : Z) (u' : uvm) : Prop :=
  uvm_sbrk fuel incr u = Ok (uheap_end u, u') ∧
  (uheap_end u + incr ≤ USTACK_BEGIN - PAGE_SIZE → uvm_brk fuel (uheap_end u + incr) u = Ok (0, u')).

(** The new break, between the start of the heap and the stack. *)
Lemma break_target u incr : uheap_begin u mod PAGE_SIZE = 0 → UMEM_BEGIN ≤ uheap_begin u →
  uheap_begin u ≤ uheap_end u + incr → uheap_end u + incr ≤ USTACK_BEGIN - PAGE_SIZE →
  util_round_up (uheap_end u + incr) PAGE_SIZE = PAGE_SIZE * pages (uheap_end u + incr) ∧
  UMEM_BEGIN ≤ PAGE_SIZE * pages (uheap_end u + incr) < USTACK_BEGIN.
Proof.
  intros Ha Hb H1 H2. unfold USTACK_BEGIN, UMEM_BEGIN in *. split.
  - apply break_round; unfold PAGE_SIZE in *; simpl; lia.
  - unfold pages, PAGE_SIZE in *. Z.div_mod_to_equations. lia.
Qed.

Lemma break_down fuel k V m u incr : heap_rep k V m u → incr < 0 → uheap_begin u ≤ uheap_end u + incr →
  - incr / PAGE_SIZE + 2 < Z.of_nat fuel →
  ∃ u' m', breaks fuel u incr u' ∧ heap_rep k V m' u' ∧
    moved V m m' u u' (PAGE_SIZE * pages (uheap_end u + incr)).
Proof.
  intros HR Hneg Hlo Hf. pose proof (hr_range _ _ _ _ HR) as Hr.
  destruct (hr_aligned _ _ _ _ HR) as [Hab Hal].
  set (p := Z.to_nat (- incr / PAGE_SIZE)).
  assert (Hp : Z.of_nat p = - incr / PAGE_SIZE) by (unfold p, PAGE_SIZE; rewrite Z2Nat.id; Z.div_mod_to_equations; lia).
  assert (Hto : PAGE_SIZE * pages (uheap_end u + incr) = uheap_end u - PAGE_SIZE * Z.of_nat p).
  { rewrite Hp. unfold pages, PAGE_SIZE in *. Z.div_mod_to_equations. lia. }
  assert (Hps : PAGE_SIZE * Z.of_nat p ≤ - incr < PAGE_SIZE * Z.of_nat p + PAGE_SIZE).
  { rewrite Hp. unfold PAGE_SIZE. Z.div_mod_to_equations. lia. }
  destruct (shrink_turns p k V m u HR) as (u' & m' & HR' & HM & Hs & Hb); [lia|].
  exists u', m'. rewrite Hto. split; [|done].
  replace fuel with (p + (fuel - p))%nat by (clear -Hf Hp; lia).
  destruct (fuel - p)%nat as [|f] eqn:Ef; [lia|]. split.
  - unfold uvm_sbrk. rewrite uint_small by (unfold USTACK_BEGIN, UMEM_BEGIN in *; simpl; lia).
    rewrite (proj2 (Z.ltb_ge 0 incr)), (proj2 (Z.ltb_lt incr 0)), (proj2 (Z.ltb_ge _ _)) by lia.
    rewrite Hs by lia. cbn [uvm_sbrk_shrink]. by rewrite (proj2 (Z.ltb_ge _ _)) by lia.
  - intros H. destruct (break_target u incr) as [E1 E2]; [done|lia..|]. unfold uvm_brk. rewrite E1. rewrite Hto in *.
    rewrite (proj2 (Z.ltb_ge _ _)), (proj2 (Z.leb_gt _ _)) by lia.
    destruct (Z.eqb_spec (uheap_end u - PAGE_SIZE * Z.of_nat p) (uheap_end u)) as [E0|E0].
    { assert (p = 0%nat) as -> by (unfold PAGE_SIZE in *; lia).
      specialize (Hs 1%nat 0 0 ltac:(unfold PAGE_SIZE; lia)).
      rewrite Z.mul_0_r, Z.add_0_r in Hs. cbn in Hs. by injection Hs as ->. }
    rewrite (proj2 (Z.ltb_ge _ _)) by (unfold PAGE_SIZE in *; lia).
    rewrite Hb by (unfold PAGE_SIZE; lia). cbn [uvm_brk_shrink].
    by rewrite (mv_end _ _ _ _ _ _ HM), (proj2 (Z.ltb_ge _ _)) by lia.
Qed.

Lemma break_same fuel k V m u : heap_rep k V m u → breaks fuel u 0 u ∧
  PAGE_SIZE * pages (uheap_end u + 0) = uheap_end u.
Proof.
  intros HR. pose proof (hr_range _ _ _ _ HR) as Hr. destruct (hr_aligned _ _ _ _ HR) as [Hab Hal].
  assert (Hto : PAGE_SIZE * pages (uheap_end u + 0) = uheap_end u).
  { rewrite Z.add_0_r. unfold pages, PAGE_SIZE in *. Z.div_mod_to_equations. lia. }
  split; [|done]. split; [done|]. intros H.
  destruct (break_target u 0) as [E1 E2]; [done|lia..|]. unfold uvm_brk. rewrite E1. rewrite Hto in *.
  by rewrite (proj2 (Z.ltb_ge _ _)), (proj2 (Z.leb_gt _ _)), Z.eqb_refl by lia.
Qed.

Lemma break_up fuel k V m u incr : heap_rep (pages incr + k) V m u → 0 ≤ k → 0 < incr →
  uheap_end u + incr ≤ USTACK_BEGIN → incr / PAGE_SIZE + 2 < Z.of_nat fuel →
  ∃ u' m', breaks fuel u incr u' ∧ heap_rep k V m' u' ∧
    moved V m m' u u' (PAGE_SIZE * pages (uheap_end u + incr)).
Proof.
  intros HR Hk Hpos Hhi Hf. pose proof (hr_range _ _ _ _ HR) as Hr.
  destruct (hr_aligned _ _ _ _ HR) as [Hab Hal].
  set (p := Z.to_nat (pages incr)).
  assert (Hp0 : 0 < pages incr ≤ incr / PAGE_SIZE + 1) by (unfold pages, PAGE_SIZE; Z.div_mod_to_equations; lia).
  assert (Hp : Z.of_nat p = pages incr) by (unfold p; rewrite Z2Nat.id; lia).
  assert (Hps : PAGE_SIZE * Z.of_nat p - PAGE_SIZE < incr ≤ PAGE_SIZE * Z.of_nat p).
  { rewrite Hp. unfold pages, PAGE_SIZE. Z.div_mod_to_equations. lia. }
  assert (Hto : PAGE_SIZE * pages (uheap_end u + incr) = uheap_end u + PAGE_SIZE * Z.of_nat p).
  { rewrite Hp. unfold pages, PAGE_SIZE in *. Z.div_mod_to_equations. lia. }
  destruct (grow_turns p k V m u) as (u' & m' & HR' & HM & Hs & Hb); [by rewrite Hp|done| |].
  { unfold USTACK_BEGIN, PAGE_SIZE in *. Z.div_mod_to_equations. lia. }
  exists u', m'. rewrite Hto. split; [|done].
  replace fuel with (p + (fuel - p))%nat by (clear -Hf Hp Hp0; lia).
  destruct (fuel - p)%nat as [|f] eqn:Ef; [lia|]. split.
  - unfold uvm_sbrk. rewrite uint_small by (unfold USTACK_BEGIN, UMEM_BEGIN in *; simpl; lia).
    rewrite (proj2 (Z.ltb_lt 0 incr)), (proj2 (Z.ltb_ge _ _)) by lia.
    rewrite Hs by lia. cbn [uvm_sbrk_grow]. by rewrite (proj2 (Z.ltb_ge _ _)) by lia.
  - intros H. destruct (break_target u incr) as [E1 E2]; [done|lia..|]. unfold uvm_brk. rewrite E1. rewrite Hto in *.
    rewrite (proj2 (Z.ltb_ge _ _)), (proj2 (Z.leb_gt _ _)) by lia.
    rewrite (proj2 (Z.eqb_neq _ _)) by (unfold PAGE_SIZE in *; lia).
    rewrite (proj2 (Z.ltb_lt _ _)) by (unfold PAGE_SIZE in *; lia).
    rewrite Hb by (unfold PAGE_SIZE; lia). cbn [uvm_brk_grow].
    by rewrite (mv_end _ _ _ _ _ _ HM), (proj2 (Z.ltb_ge _ _)) by lia.
Qed.

Lemma break_moved fuel k V m u incr : heap_rep (needed incr + k) V m u → 0 ≤ k →
  uheap_begin u ≤ uheap_end u + incr → uheap_end u + incr ≤ USTACK_BEGIN →
  Z.abs incr / PAGE_SIZE + 2 < Z.of_nat fuel →
  ∃ u' m', breaks fuel u incr u' ∧ heap_rep k V m' u' ∧
    moved V m m' u u' (PAGE_SIZE * pages (uheap_end u + incr)).
Proof.
  intros HR Hk Hlo Hhi Hf. destruct (Z.lt_trichotomy incr 0) as [Hneg|[->|Hpos]].
  - apply (break_down fuel k V); [|lia|lia|by rewrite Z.abs_neq in Hf by lia].
    apply (heap_rep_le _ _ _ _ _ HR). unfold needed. lia.
  - destruct (break_same fuel _ _ _ _ HR) as [Hb ->]. exists u, m. split; [done|]. split; [|apply moved_refl].
    apply (heap_rep_le _ _ _ _ _ HR). unfold needed. lia.
  - apply break_up; [|lia..|by rewrite Z.abs_eq in Hf by lia].
    unfold needed in HR. rewrite Z.max_r in HR; [done|]. unfold pages, PAGE_SIZE. Z.div_mod_to_equations. lia.
Qed.

(** C23: The break, [sbrk(incr)] and [brk] of the same address, with frames for the pages
    that are needed: both calls leave the same state, [sbrk] returns the old break and
    [brk] returns 0.  The new break is the address rounded up to a page, the
    pages that came are zero and the user may write them, the pages behind the break
    are gone, and every other page of the task and of all other address spaces is as
    it was, with the frames accounted for. *)
Theorem break_moves fuel k V m u incr
    (HR : heap_rep (needed incr + k) V m u) (Hk : 0 ≤ k)
    (Hlo : uheap_begin u ≤ uheap_end u + incr) (Hhi : uheap_end u + incr ≤ USTACK_BEGIN)
    (Hf : Z.abs incr / PAGE_SIZE + 2 < Z.of_nat fuel) :
  ∃ u' m', breaks fuel u incr u' ∧ heap_rep k V m' u' ∧
    moved V m m' u u' (PAGE_SIZE * pages (uheap_end u + incr)).
Proof. by apply break_moved. Qed.
End break.

(** ** A task of the demonstration memory *)
Lemma demo_ready4 c : @ready_for pre_paging boot_alloc 4 (demo_spaces c).
Proof.
  split.
  - apply demo_quiet. unfold missing. set (l := filter _ _).
    assert (length l ≤ 961)%nat.
    { unfold l. etransitivity; [apply length_filter|]. by rewrite length_seqZ. }
    unfold TABLE_ROOM, PAGE_SIZE. lia.
  - intros f Hf Hb. change (32 * (memsize (demo_spaces c) / 32)) with 1024 in Hf.
    exists (replicate (Z.to_nat PAGE_SIZE) 0). split; [|by rewrite length_replicate].
    change (ram (demo_spaces c)) with (<[40 * 4096 := c]> demo_ram).
    rewrite lookup_insert_ne.
    + unfold demo_ram. apply elem_of_list_to_map.
      * rewrite <- list_fmap_compose. apply NoDup_fmap_2; [|apply NoDup_seqZ].
        intros a b. unfold compose, PAGE_SIZE. simpl. lia.
      * apply list_elem_of_fmap. exists f. split; [done|]. apply elem_of_seqZ. lia.
    + unfold PAGE_SIZE. intros E. assert (f = 40) as -> by lia. done.
  - exists {[50; 51; 52; 53]}. split; [by vm_compute|].
    change (32 * (memsize (demo_spaces c) / 32)) with 1024.
    intros f Hf. assert (f = 50 ∨ f = 51 ∨ f = 52 ∨ f = 53) as [->|[->|[->| ->]]] by set_solver; (split; [lia|done]).
Qed.

Lemma demo_ready c : @ready_for pre_paging boot_alloc 3 (demo_spaces c).
Proof. destruct (demo_ready4 c) as [Q1 Q2 Q3]. split; [done..|]. by apply (has_frames_le _ 3 4). Qed.

(** An empty heap at the start of user memory. *)
Definition demo_task : uvm := Uvm UMEM_BEGIN UMEM_BEGIN demo_dir_at (demo_spaces zeros).

Lemma demo_heap4 : @heap_rep pre_paging boot_alloc 4 ∅ (demo_mem zeros) demo_task.
Proof.
  assert (Hk : ∀ n, is_Some (demo_mem zeros !! n) → n = KPAGES) by (intros n; apply demo_keys).
  split; cbn [um page_dir uheap_begin uheap_end demo_task].
  - unfold user. rewrite insert_empty. apply demo_rep.
  - intros n x Hx. unfold demo_mem in Hx. apply (lookup_singleton_Some (M := gmap Z)) in Hx as [_ <-].
    apply zeros_len.
  - apply demo_ready4.
  - done.
  - done.
  - unfold UMEM_BEGIN, USTACK_BEGIN. lia.
  - intros n Hn. lia.
  - intros n Hn. destruct (demo_mem zeros !! n) eqn:E; [|done].
    rewrite (Hk n) in Hn by (by rewrite E). change KPAGES with 64512 in Hn. unfold UMEM_BEGIN, PAGE_SIZE in Hn. lia.
Qed.

Lemma demo_heap : @heap_rep pre_paging boot_alloc 3 ∅ (demo_mem zeros) demo_task.
Proof. exact (@heap_rep_le pre_paging boot_alloc 3 4 _ _ _ demo_heap4 ltac:(lia)). Qed.

(** 5000 bytes: two pages. *)
Lemma break_moves_witness :
  let PA := pre_paging in let QA := boot_alloc in
  ∃ u' m', breaks 4 demo_task 5000 u' ∧ heap_rep 1 ∅ m' u' ∧
    moved ∅ (demo_mem zeros) m' demo_task u' (UMEM_BEGIN + 2 * PAGE_SIZE).
Proof.
  apply (@break_moves pre_paging boot_alloc 4 1 ∅ (demo_mem zeros) demo_task 5000);
    [exact demo_heap|lia|vm_compute; discriminate|vm_compute; discriminate|vm_compute; reflexivity].
Defined.

(** ** The two calls, as the C library sees them

    The break is between the start of the heap and the stack; [k] is the number of
    pages that the kernel can still give. *)
Class Ubrk := {
  ub : Type;
  sys_sbrk : Z → ub → res (Z * ub);
  sys_brk : Z → ub → res (Z * ub);
  ub_ok : Z → ub → Prop;
  ub_at : ub → Z;
  ub_base : ub → Z;
  ub_le : ∀ j k b, ub_ok k b → j ≤ k → ub_ok j b;
  ub_range : ∀ k b, ub_ok k b →
    0 < ub_base b ≤ ub_at b ∧ ub_base b mod PAGE_SIZE = 0 ∧ ub_at b mod PAGE_SIZE = 0 ∧ ub_at b ≤ USTACK_BEGIN;
  sbrk_none : ∀ k b, ub_ok k b → sys_sbrk 0 b = Ok (ub_at b, b);
  sbrk_more : ∀ n k b, ub_ok (pages n + k) b → 0 ≤ k → 0 < n < 2 ^ 31 →
    ∃ r b', sys_sbrk n b = Ok (r, b') ∧ ub_ok k b' ∧ ub_base b' = ub_base b ∧
      (ub_at b + n ≤ USTACK_BEGIN → r = ub_at b ∧ ub_at b' = PAGE_SIZE * pages (ub_at b + n)) ∧
      (USTACK_BEGIN < ub_at b + n → r = PTR_FAIL ∧ ub_at b ≤ ub_at b');
  brk_to : ∀ a k b, ub_ok (needed (a - ub_at b) + k) b → 0 ≤ k → ub_base b ≤ a ≤ USTACK_BEGIN - PAGE_SIZE →
    ∃ b', sys_brk a b = Ok (0, b') ∧ ub_ok k b' ∧ ub_base b' = ub_base b ∧ ub_at b' = PAGE_SIZE * pages a;
  brk_too_far : ∀ a k b, ub_ok k b → USTACK_BEGIN - PAGE_SIZE < a < 2 ^ 32 - PAGE_SIZE →
    ∃ b', sys_brk a b = Ok (-1, b') ∧ ub_ok k b' ∧ ub_base b' = ub_base b ∧ ub_at b' = ub_at b
}.

Section user_brk.
Context {PA : PageAlloc} {QA : QuietAlloc}.

(** User memory has less than 2^20 pages. *)
Definition BRK_FUEL : nat := Z.to_nat 0x100001.

Lemma BRK_FUEL_eq : Z.of_nat BRK_FUEL = 0x100001.
Proof. unfold BRK_FUEL. by rewrite Z2Nat.id. Qed.

#[local] Opaque BRK_FUEL.

Lemma heap_rep_errno e k V m u : heap_rep k V m u → heap_rep k V m (with_um (with_errno e (um u)) u).
Proof.
  intros [[U1 U2 U3 U4 U5 U6 U7] H2 [Q1 Q2 Q3] H4 H5 H6 H7 H8].
  assert (HQ : roomy (with_errno e (um u))) by (unfold roomy in *; by apply (quiet_ext _ (um u))).
  split; try done. split; try done. by destruct U7 as [P1 P2 P3].
Qed.

(** An increment that wraps is not refused at once: the heap grows up to the stack. *)
Lemma sbrk_wraps k V m u n : heap_rep (pages n + k) V m u → 0 ≤ k → 0 < n < 2 ^ 31 →
  USTACK_BEGIN < uheap_end u + n →
  ∃ u' m', uvm_sbrk BRK_FUEL n u = Ok (PTR_FAIL, u') ∧ heap_rep k V m' u' ∧
    uheap_begin u' = uheap_begin u ∧ uheap_end u ≤ uheap_end u'.
Proof.
  intros HR Hk Hn Hbig. pose proof (hr_range _ _ _ _ HR) as Hr. destruct (hr_aligned _ _ _ _ HR) as [Hab Hal].
  unfold uvm_sbrk. rewrite (proj2 (Z.ltb_lt 0 n)) by lia.
  assert (Hp0 : 0 < pages n) by (unfold pages, PAGE_SIZE; Z.div_mod_to_equations; lia).
  destruct (Z.ltb_spec USTACK_BEGIN (u32 (uheap_end u + n))) as [|Hwrap].
  { eexists _, m. split; [done|]. split; [apply heap_rep_errno, (heap_rep_le _ _ _ _ _ HR); lia|done]. }
  set (p := Z.to_nat ((USTACK_BEGIN - uheap_end u) / PAGE_SIZE)).
  assert (Hp : Z.of_nat p = (USTACK_BEGIN - uheap_end u) / PAGE_SIZE).
  { unfold p, USTACK_BEGIN, PAGE_SIZE in *. rewrite Z2Nat.id; Z.div_mod_to_equations; lia. }
  assert (Hpe : PAGE_SIZE * Z.of_nat p = USTACK_BEGIN - uheap_end u).
  { rewrite Hp. unfold USTACK_BEGIN, PAGE_SIZE in *. Z.div_mod_to_equations. lia. }
  assert (Hpn : Z.of_nat p + 1 ≤ pages n).
  { rewrite Hp. unfold pages, USTACK_BEGIN, PAGE_SIZE in *. Z.div_mod_to_equations. lia. }
  destruct (grow_turns p (k + 1) V m u) as (u1 & m1 & HR1 & HM & Hs & _); [|lia|lia|].
  { apply (heap_rep_le _ _ _ _ _ HR). lia. }
  pose proof (mv_end _ _ _ _ _ _ HM) as He. pose proof (mv_begin _ _ _ _ _ _ HM) as Hb.
  pose proof BRK_FUEL_eq as Hf. assert (Z.of_nat p < 0x100000) by (unfold USTACK_BEGIN, UMEM_BEGIN, PAGE_SIZE in *; lia).
  replace BRK_FUEL with (p + (BRK_FUEL - p))%nat by lia. destruct (BRK_FUEL - p)%nat as [|f] eqn:Ef; [lia|].
  rewrite Hs by (unfold PAGE_SIZE in *; lia). cbn [uvm_sbrk_grow]. rewrite (proj2 (Z.ltb_lt _ _)) by lia.
  unfold uvm_page_alloc. rewrite (proj2 (Z.ltb_ge _ _)) by lia. cbn [rbind].
  eexists _, m1. split; [done|]. split; [apply heap_rep_errno, heap_rep_errno, (heap_rep_le _ _ _ _ _ HR1); lia|].
  cbn [uheap_begin uheap_end with_um]. split; [done|lia].
Qed.

Program Definition user_brk : Ubrk := {|
  ub := uvm;
  sys_sbrk := uvm_sbrk BRK_FUEL;
  sys_brk := uvm_brk BRK_FUEL;
  ub_ok k u := ∃ V m, heap_rep k V m u;
  ub_at := uheap_end;
  ub_base := uheap_begin
|}.
Next Obligation. intros j k u (V & m & HR) Hle. exists V, m. by apply (heap_rep_le j k). Qed.
Next Obligation.
  intros k u (V & m & HR). pose proof (hr_range _ _ _ _ HR). destruct (hr_aligned _ _ _ _ HR).
  unfold UMEM_BEGIN in *. split; [lia|]. split; [done|]. split; [done|lia].
Qed.
Next Obligation. done. Qed.
Next Obligation.
  intros n k u (V & m & HR) Hk Hn. pose proof (hr_range _ _ _ _ HR) as Hr. pose proof BRK_FUEL_eq as Hf.
  change (2 ^ 31) with 2147483648 in Hn.
  destruct (Z.le_gt_cases (uheap_end u + n) USTACK_BEGIN) as [Hle|Hgt].
  - destruct (break_up BRK_FUEL k V m u n HR Hk) as (u' & m' & [E _] & HR' & HM); [lia|done| |].
    { unfold PAGE_SIZE. Z.div_mod_to_equations. lia. }
    exists (uheap_end u), u'. split; [done|]. split; [by exists V, m'|].
    split; [apply HM|]. split; [|lia]. intros _. split; [done|apply HM].
  - destruct (sbrk_wraps k V m u n HR Hk Hn Hgt) as (u' & m' & E & HR' & Hb & He).
    exists PTR_FAIL, u'. split; [done|]. split; [by exists V, m'|]. split; [exact Hb|].
    split; [lia|]. intros _. split; [reflexivity|exact He].
Qed.
Next Obligation.
  intros a k u (V & m & HR) Hk Ha. pose proof (hr_range _ _ _ _ HR) as Hr. pose proof BRK_FUEL_eq as Hf.
  destruct (break_moved BRK_FUEL k V m u (a - uheap_end u) HR Hk) as (u' & m' & [_ E] & HR' & HM);
    [lia|unfold PAGE_SIZE in *; lia| |].
  { unfold USTACK_BEGIN, UMEM_BEGIN, PAGE_SIZE in *. Z.div_mod_to_equations. lia. }
  replace (uheap_end u + (a - uheap_end u)) with a in * by lia.
  exists u'. split; [apply E; lia|]. split; [by exists V, m'|]. split; apply HM.
Qed.
Next Obligation.
  intros a k u (V & m & HR) Ha. unfold uvm_brk.
  rewrite break_round by (unfold USTACK_BEGIN, PAGE_SIZE in *; simpl in *; lia). assert (USTACK_BEGIN ≤ PAGE_SIZE * pages a).
  { unfold pages, USTACK_BEGIN, PAGE_SIZE in *. Z.div_mod_to_equations. lia. }
  rewrite (proj2 (Z.ltb_ge _ _)) by (unfold UMEM_BEGIN, USTACK_BEGIN in *; lia).
  rewrite (proj2 (Z.leb_le _ _)) by done.
  eexists. split; [reflexivity|]. split; [exists V, m; exact (heap_rep_errno _ _ _ _ _ HR)|]. by split.
Qed.
End user_brk.
