(* ===== verification/Umalloc.v ===== *)
(** * Umalloc: the allocator of the C library

    [rlibc/stdlib/malloc.c] and [rlibc/unistd/brk.c].  As in [Kmalloc], the headers of
    the blocks are objects in a store, by address; what a program keeps in the blocks is
    the byte memory [data], which has the pages up to the break.  The break itself is
    behind the class [Ubreak.Ubrk]. *)

From S2P Require Import Prelude CString Paging Vm Kmalloc Spaces Space Fork Ubreak.

Definition MALLOC_FREE : Z := 1.
Definition MALLOC_RES : Z := 0.

(** [struct heap_node_t] has the fields of the kernel's header, and 16 bytes. *)
Abbreviation heap_node_t := kheap_node_t.
Definition NODE_SIZE : Z := 16.

Definition round_up (val : Z) : Z :=
  if negb (Z.land val (16 - 1) =? 0) then clr (u32 (val + (16 - 1))) (16 - 1) else val.

Section umalloc.
Context {UB : Ubrk}.

(** The statics, the headers, the break and the bytes. *)
Record uheap := UHeap {
  heap_start : Z;
  heap_end : Z;
  nodes : gmap Z heap_node_t;
  brk_state : ub;
  data : mem
}.

Definition with_start (s : Z) (h : uheap) : uheap := UHeap s (heap_end h) (nodes h) (brk_state h) (data h).
Definition with_end (e : Z) (h : uheap) : uheap := UHeap (heap_start h) e (nodes h) (brk_state h) (data h).
Definition with_nodes (n : gmap Z heap_node_t) (h : uheap) : uheap :=
  UHeap (heap_start h) (heap_end h) n (brk_state h) (data h).
Definition with_data (d : mem) (h : uheap) : uheap :=
  UHeap (heap_start h) (heap_end h) (nodes h) (brk_state h) d.

(** The bytes of the pages when the break goes from [a] to [b]: new ones are zero. *)
Definition resize (a b : Z) (m : mem) : mem :=
  if a <? b then list_to_map ((λ i, (i, 0)) <$> seqZ a (b - a)) ∪ m
  else filter (λ p : Z * Z, ¬ (b ≤ p.1 < a)) m.

Definition with_break (b : ub) (h : uheap) : uheap :=
  UHeap (heap_start h) (heap_end h) (nodes h) b (resize (ub_at (brk_state h)) (ub_at b) (data h)).

(** unistd/brk.c *)
Definition brk (addr : Z) (h : uheap) : res (Z * uheap) :=
  let* (r, b) := sys_brk (u32 addr) (brk_state h) in Ok (r, with_break b h).
Definition sbrk (incr : Z) (h : uheap) : res (Z * uheap) :=
  let* (r, b) := sys_sbrk (s32 incr) (brk_state h) in Ok (r, with_break b h).

Definition node_at (p : Z) (h : uheap) : res heap_node_t := deref (nodes h !! p).

(** A field of the header at [p] is assigned. *)
Definition assign (f : heap_node_t → heap_node_t) (p : Z) (h : uheap) : res uheap :=
  let* n := node_at p h in Ok (with_nodes (<[p := f n]> (nodes h)) h).
Definition size_to (v : Z) (n : heap_node_t) : heap_node_t := KNode (u32 v) (status n) (next n) (prev n).
Definition status_to (v : Z) (n : heap_node_t) : heap_node_t := KNode (size n) v (next n) (prev n).
Definition next_to (v : Z) (n : heap_node_t) : heap_node_t := KNode (size n) (status n) v (prev n).
Definition prev_to (v : Z) (n : heap_node_t) : heap_node_t := KNode (size n) (status n) (next n) v.

(** A header where there was none. *)
Definition place (p : Z) (h : uheap) : uheap :=
  match nodes h !! p with
  | Some _ => h
  | None => with_nodes (<[p := KNode 0 0 0 0]> (nodes h)) h
  end.

Definition create_heap (sz : Z) (h : uheap) : res uheap :=
  let* (start, h) := sbrk sz h in
  let h := with_start start h in
  if start =? PTR_FAIL then Ok (with_start 0 h)
  else
    let* (e, h) := sbrk 0 h in
    let h := place start (with_end e h) in
    let* h := assign (size_to (e - (start + NODE_SIZE))) start h in
    let* h := assign (status_to MALLOC_FREE) start h in
    let* h := assign (next_to 0) start h in
    assign (prev_to 0) start h.

Definition create_padding_node (curnode sz : Z) (h : uheap) : res uheap :=
  let padding := u32 (curnode + NODE_SIZE + sz) in
  let h := place padding h in
  let* h := assign (prev_to curnode) padding h in
  let* c := node_at curnode h in
  let* h := assign (next_to (next c)) padding h in
  let* p := node_at padding h in
  let* h :=
    (if negb (next p =? 0) then
       let* h := assign (size_to (next p - (padding + NODE_SIZE))) padding h in
       assign (prev_to padding) (next p) h
     else assign (size_to (heap_end h - (padding + NODE_SIZE))) padding h) in
  let* h := assign (status_to MALLOC_FREE) padding h in
  let* h := assign (next_to padding) curnode h in
  assign (size_to sz) curnode h.

(** The last node grows when it is too small; [false] is the [break]. *)
Definition enlarge (curnode sz : Z) (h : uheap) : res (bool * uheap) :=
  let* n := node_at curnode h in
  if (next n =? 0) && (size n <? sz) then
    let* (r, h) := sbrk (sz - size n) h in
    if r =? PTR_FAIL then Ok (false, h)
    else
      let* (e, h) := sbrk 0 h in
      let* h := assign (size_to (e - (curnode + NODE_SIZE))) curnode (with_end e h) in
      Ok (true, h)
  else Ok (true, h).

Fixpoint find_node (fuel : nat) (curnode sz : Z) (h : uheap) : res (Z * uheap) :=
  match fuel with
  | O => Fuel
  | S fuel =>
      if curnode =? 0 then Ok (0, h)
      else
        let* (ok, h) := enlarge curnode sz h in
        if negb ok then Ok (0, h)
        else
          let* n := node_at curnode h in
          if (status n =? MALLOC_RES) || (size n <? sz) then find_node fuel (next n) sz h
          else
            let* h := (if sz <? size n then create_padding_node curnode sz h else Ok h) in
            let* h := assign (status_to MALLOC_RES) curnode h in
            Ok (u32 (curnode + NODE_SIZE), h)
  end.

Definition malloc (fuel : nat) (sz : Z) (h : uheap) : res (Z * uheap) :=
  if sz =? 0 then Ok (0, h)
  else
    let sz := round_up sz in
    let* h := (if heap_start h =? 0 then create_heap (u32 (PAGE_SIZE + sz)) h else Ok h) in
    find_node fuel (heap_start h) sz h.

Definition unify_fwd (ptr : Z) (h : uheap) : res uheap :=
  let* p := node_at ptr h in
  let* n := node_at (next p) h in
  let* h := assign (size_to (size p + u32 (size n + NODE_SIZE))) ptr h in
  let* h := assign (next_to (next n)) ptr h in
  if negb (next n =? 0) then assign (prev_to ptr) (next n) h else Ok h.

Definition is_free (p : Z) (h : uheap) : res bool :=
  if p =? 0 then Ok false else let* n := node_at p h in Ok (status n =? MALLOC_FREE).

Definition free (ptr : Z) (h : uheap) : res uheap :=
  if ptr =? 0 then Ok h
  else
    let nodeptr := u32 (ptr - NODE_SIZE) in
    let* h := assign (status_to MALLOC_FREE) nodeptr h in
    let* n := node_at nodeptr h in
    let* b := is_free (next n) h in
    let* h := (if b then unify_fwd nodeptr h else Ok h) in
    let* n := node_at nodeptr h in
    let* b := is_free (prev n) h in
    let* h := (if b then unify_fwd (prev n) h else Ok h) in
    let* n := node_at nodeptr h in
    if next n =? 0 then
      let* h := assign (size_to PAGE_SIZE) nodeptr h in
      let h := with_end (u32 (nodeptr + NODE_SIZE + PAGE_SIZE)) h in
      let* (_, h) := brk (heap_end h) h in Ok h
    else Ok h.

(** A function of string.h on the bytes. *)
Definition on_data {A} (f : mem → res (A * mem)) (h : uheap) : res uheap :=
  let* (_, d) := f (data h) in Ok (with_data d h).

Definition realloc (fuel : nat) (ptr sz : Z) (h : uheap) : res (Z * uheap) :=
  if ptr =? 0 then malloc fuel sz h
  else if sz =? 0 then Ok (0, h)
  else
    let nodeptr := u32 (ptr - NODE_SIZE) in
    let* n := node_at nodeptr h in
    let* h :=
      (if sz <? size n then
         let new_node_size := round_up sz in
         if new_node_size <? size n then create_padding_node nodeptr new_node_size h else Ok h
       else Ok h) in
    let* n := node_at nodeptr h in
    if size n <? sz then
      let* (ret, h) := malloc fuel sz h in
      let* n := node_at nodeptr h in
      let* h := on_data (memcpy ret ptr (size n)) h in
      let* h := free ptr h in
      Ok (ret, h)
    else Ok (ptr, h).

Definition calloc (fuel : nat) (nelem elsize : Z) (h : uheap) : res (Z * uheap) :=
  if (nelem =? 0) || (elsize =? 0) then Ok (0, h)
  else
    let* (ret, h) := malloc fuel (u32 (nelem * elsize)) h in
    let* h := on_data (memset ret 0 (s32 (nelem * elsize))) h in
    Ok (ret, h).

(** ** The heap as a list of blocks *)

(** As in the kernel, but the last block may be in use, and there may be a rest
    behind it. *)
Record uheap_ok (k : Z) (h : uheap) (bs : list block) : Prop := {
  uo_brk : ub_ok k (brk_state h);
  uo_start : 0 < heap_start h ∧ heap_start h mod NODE_SIZE = 0 ∧ ub_base (brk_state h) ≤ heap_start h;
  uo_end : heap_end h mod NODE_SIZE = 0 ∧ heap_end h ≤ ub_at (brk_state h);
  uo_first : first_addr bs 0 = heap_start h;
  uo_chain : ∃ e, chain (nodes h) 0 bs 0 e ∧ e ≤ heap_end h;
  uo_data : ∀ a, heap_start h ≤ a < ub_at (brk_state h) → ∃ b, data h !! a = Some b ∧ 0 ≤ b < 256
}.

(** The bytes change only by the break: what was there stays, new pages are zero.
    The start of the break stays. *)
Definition kept (h h' : uheap) : Prop :=
  ub_base (brk_state h') = ub_base (brk_state h) ∧ data h' = resize (ub_at (brk_state h)) (ub_at (brk_state h')) (data h).

Lemma resize_lookup a b m i : resize a b m !! i =
  if decide (a ≤ i < b) then Some 0 else if decide (b ≤ i < a) then None else m !! i.
Proof.
  unfold resize. destruct (Z.ltb_spec a b) as [Hab|Hab].
  - destruct (decide (a ≤ i < b)) as [Hi|Hi].
    + apply lookup_union_Some_l, elem_of_list_to_map.
      * rewrite <- list_fmap_compose. apply NoDup_fmap_2; [by intros x y|apply NoDup_seqZ].
      * apply list_elem_of_fmap. exists i. split; [done|]. apply elem_of_seqZ. lia.
    + rewrite decide_False by lia. apply lookup_union_r, not_elem_of_list_to_map_1.
      rewrite <- list_fmap_compose, list_elem_of_fmap. intros (j & -> & Hj%elem_of_seqZ). unfold compose in Hi. simpl in Hi. lia.
  - rewrite (decide_False (P := a ≤ i < b)) by lia. rewrite map_lookup_filter.
    destruct (m !! i) as [x|] eqn:E; simpl; [|by case_decide].
    destruct (decide (b ≤ i < a)); [by rewrite option_guard_False by tauto|by rewrite option_guard_True by tauto].
Qed.

Lemma resize_same a m : resize a a m = m.
Proof. apply map_eq. intros i. rewrite resize_lookup. by rewrite !decide_False by lia. Qed.

Lemma kept_refl h : kept h h.
Proof. unfold kept. by rewrite resize_same. Qed.

Lemma kept_trans h1 h2 h3 : kept h1 h2 → kept h2 h3 →
  ub_at (brk_state h1) ≤ ub_at (brk_state h2) → ub_at (brk_state h2) ≤ ub_at (brk_state h3) → kept h1 h3.
Proof.
  unfold kept. intros [B1 H1] [B2 H2] Ha Hb. split; [congruence|]. rewrite H2, H1. apply map_eq. intros i. rewrite !resize_lookup.
  repeat case_decide; done || lia.
Qed.

(** The bytes outside the new pages. *)
Lemma kept_at h h' a : kept h h' → ub_at (brk_state h) ≤ ub_at (brk_state h') →
  a < ub_at (brk_state h) ∨ ub_at (brk_state h') ≤ a → data h' !! a = data h !! a.
Proof. intros [_ ->] Hle Ha. rewrite resize_lookup. by rewrite !decide_False by lia. Qed.

Lemma kept_new h h' a : kept h h' → ub_at (brk_state h) ≤ a < ub_at (brk_state h') → data h' !! a = Some 0.
Proof. intros [_ ->] Ha. rewrite resize_lookup. by rewrite decide_True by lia. Qed.

Lemma ublock k h pre b post : uheap_ok k h (pre ++ b :: post) →
  nodes h !! b_addr b = Some (KNode (b_size b) (status_of b) (first_addr post 0) (last_addr pre 0)) ∧
  heap_start h ≤ b_addr b ∧ 0 < b_addr b ∧ b_addr b mod NODE_SIZE = 0 ∧ 0 ≤ b_size b ∧
  b_size b mod NODE_SIZE = 0 ∧ b_addr b + NODE_SIZE + b_size b ≤ heap_end h ∧
  (post ≠ [] → b_addr b + NODE_SIZE + b_size b = first_addr post 0) ∧ heap_end h ≤ USTACK_BEGIN.
Proof.
  intros [Hb (Hp & Hal & Hba) (Hem & He) Hf (e & Hc & Hee) Hd].
  destruct (ub_range _ _ Hb) as (_ & _ & _ & Hus).
  assert (Hbin : b ∈ pre ++ b :: post) by set_solver.
  destruct (chain_range _ _ _ _ _ _ Hc Hbin) as (H1 & H2 & H3).
  assert (Hfa : first_addr (pre ++ b :: post) e = heap_start h) by (rewrite <- Hf; by destruct pre).
  pose proof (chain_aligned _ _ _ _ _ b Hc ltac:(by rewrite Hfa) Hbin) as Halb.
  apply chain_app in Hc as [_ (E & Hs & Hsm & Hend & _)]. rewrite Hfa in *.
  unfold NODE_SIZE. unfold NODE_T_SIZE in *.
  split; [exact E|]. split_and!; try done; try lia. intros Hne. by destruct post.
Qed.

(** The invariant with other headers. *)
Lemma uheap_ok_nodes k h bs bs' ns e : uheap_ok k h bs → first_addr bs' 0 = first_addr bs 0 →
  chain ns 0 bs' 0 e → e ≤ heap_end h → uheap_ok k (with_nodes ns h) bs'.
Proof.
  intros [H1 H2 H3 H4 H5 H6] Hf Hc He. split; try done; [by rewrite Hf|]. by exists e.
Qed.

Lemma assign_ok f p h n : nodes h !! p = Some n → assign f p h = Ok (with_nodes (<[p := f n]> (nodes h)) h).
Proof. intros E. unfold assign, node_at. by rewrite E. Qed.

Lemma header_ok p h n : nodes h !! p = Some n → node_at p h = Ok n.
Proof. intros E. unfold node_at. by rewrite E. Qed.

Lemma place_ok p h : ∃ ns j, place p h = with_nodes ns h ∧ ns !! p = Some j ∧
  ∀ q, q ≠ p → ns !! q = nodes h !! q.
Proof.
  unfold place. destruct (nodes h !! p) as [j|] eqn:E.
  - exists (nodes h), j. by destruct h.
  - eexists _, _. split; [done|]. split; [apply lookup_insert_eq|].
    intros q Hq. by rewrite lookup_insert_ne.
Qed.

Lemma nodes_twice n1 n2 h : with_nodes n2 (with_nodes n1 h) = with_nodes n2 h.
Proof. done. Qed.

Ltac header_lookup :=
  cbn [nodes with_nodes size status next prev];
  repeat first [rewrite lookup_insert_eq | rewrite lookup_insert_ne by lia];
  try eassumption; try reflexivity.

(** Assignments to headers that are known. *)
Ltac assigns :=
  repeat (erewrite assign_ok by header_lookup; cbn [rbind]; rewrite ?nodes_twice;
    unfold size_to, status_to, next_to, prev_to; cbn [nodes with_nodes size status next prev]).

(** The status of a block. *)
Lemma mark_spec k h pre cur s f f' post : uheap_ok k h (pre ++ Blk cur s f :: post) →
  ∃ ns, assign (status_to (status_of (Blk cur s f'))) cur h = Ok (with_nodes ns h) ∧
    uheap_ok k (with_nodes ns h) (pre ++ Blk cur s f' :: post).
Proof.
  intros Hok. pose proof (ublock _ _ _ _ _ Hok) as (E & _ & _ & _ & Hs & Hsm & _). cbn [b_addr b_size] in *.
  rewrite (assign_ok _ _ _ _ E). eexists. split; [reflexivity|].
  destruct (uo_chain _ _ _ Hok) as (e & Hc & He).
  apply (uheap_ok_nodes k h _ _ _ e Hok); [by apply first_addr_same| |done].
  pose proof Hc as Hc'. apply chain_app in Hc' as [_ (_ & _ & _ & Hend & _)]. cbn [b_addr b_size] in Hend.
  apply (replace_chain (nodes h) _ 0 pre cur s f s f' post 0 e); try done.
  - by rewrite lookup_insert_eq.
  - intros q Hq. by rewrite lookup_insert_ne.
Qed.

(** The headers that [create_padding_node] writes. *)
Lemma padding_nodes h cur n sz pad : nodes h !! cur = Some n → pad = cur + NODE_SIZE + sz →
  0 ≤ cur → 0 ≤ sz → pad < 2 ^ 32 →
  (next n ≠ 0 → ∃ m, nodes h !! next n = Some m ∧ next n ≠ cur ∧ next n ≠ pad) →
  ∃ ns, create_padding_node cur sz h = Ok (with_nodes ns h) ∧
    ns !! cur = Some (KNode sz (status n) pad (prev n)) ∧
    ns !! pad = Some (KNode (u32 ((if next n =? 0 then heap_end h else next n) - (pad + NODE_SIZE)))
      MALLOC_FREE (next n) cur) ∧
    (∀ m, next n ≠ 0 → nodes h !! next n = Some m →
       ns !! next n = Some (KNode (size m) (status m) (next m) pad)) ∧
    ∀ q, q ≠ cur → q ≠ pad → (next n ≠ 0 → q ≠ next n) → ns !! q = nodes h !! q.
Proof.
  intros En Hpad Hcur Hsz Hlt Hnext. unfold create_padding_node, NODE_SIZE in *.
  rewrite <- Hpad. rewrite (uint_small 32 pad) by (simpl in *; lia).
  destruct (place_ok pad h) as (ns & j & -> & Ej & Ens).
  assert (Hne : cur ≠ pad) by lia. pose proof (eq_trans (Ens cur Hne) En) as Ecur.
  erewrite assign_ok by (cbn [nodes with_nodes]; exact Ej). cbn [rbind]. rewrite nodes_twice. cbn [nodes with_nodes].
  erewrite header_ok by header_lookup. cbn [rbind next].
  erewrite assign_ok by (cbn [nodes with_nodes]; apply lookup_insert_eq). cbn [rbind]. rewrite nodes_twice. cbn [nodes with_nodes].
  erewrite header_ok by header_lookup. cbn [rbind next next_to prev_to size status prev]. rewrite insert_insert_eq.
  destruct (Z.eqb_spec (next n) 0) as [E0|E0]; cbn [negb].
  - assigns. eexists. split; [reflexivity|].
    split; [header_lookup; by rewrite uint_small by (simpl in *; lia)|].
    split; [header_lookup|]. split; [done|].
    intros q Hq1 Hq2 _. rewrite !lookup_insert_ne by (apply not_eq_sym; assumption). by apply Ens.
  - destruct (Hnext E0) as (m & Em & Hn1 & Hn2). pose proof (eq_trans (Ens (next n) Hn2) Em) as Enx.
    assigns. eexists. split; [reflexivity|].
    split; [header_lookup; by rewrite uint_small by (simpl in *; lia)|].
    split; [header_lookup|].
    split; [intros m' _ Em'; pose proof (eq_trans (eq_sym Em) Em') as Ex; injection Ex as <-; header_lookup|].
    intros q Hq1 Hq2 Hq3. specialize (Hq3 E0).
    rewrite !lookup_insert_ne by (apply not_eq_sym; assumption). by apply Ens.
Qed.

(** The rest of a block becomes a free block. *)
Lemma padding_spec k h pre cur s f post sz : uheap_ok k h (pre ++ Blk cur s f :: post) →
  0 ≤ sz < s → sz mod NODE_SIZE = 0 →
  ∃ ns pad rest, create_padding_node cur sz h = Ok (with_nodes ns h) ∧
    uheap_ok k (with_nodes ns h) (pre ++ Blk cur sz f :: Blk pad rest true :: post).
Proof.
  intros Hok Hsz Hszm. pose proof (ublock _ _ _ _ _ Hok) as (E & Hst & Hcp & Hca & Hs & Hsm & Hend & Hnx & Hus).
  destruct (uo_chain _ _ _ Hok) as (e & Hc & Hee). cbn [b_addr b_size] in *.
  unfold NODE_SIZE, USTACK_BEGIN in *. set (pad := cur + 16 + sz).
  assert (Hpad : pad + 16 ≤ cur + 16 + s) by (unfold pad; Z.div_mod_to_equations; lia).
  pose proof Hc as Hc'. apply chain_app in Hc' as [_ (_ & _ & _ & Hbe & Hcp2)]. cbn [b_addr b_size] in Hbe.
  pose proof (chain_first_le _ _ _ _ _ Hcp2) as Hpl. unfold NODE_T_SIZE in Hbe.
  destruct (padding_nodes h cur _ sz pad E) as (ns & E' & N1 & N2 & N3 & N4);
    [done|lia|lia|simpl in *; lia| |].
  { cbn [next]. intros Hn0. destruct post as [|c post]; [done|]. cbn [first_addr] in *.
    destruct Hcp2 as (Ec & _). eexists. split; [exact Ec|]. lia. }
  cbn [next prev status] in *. set (rest := new_end post (first_addr post e) (heap_end h) - pad - 16).
  assert (Hrest : (if first_addr post 0 =? 0 then heap_end h else first_addr post 0) - (pad + NODE_SIZE) = rest ∧
    0 ≤ rest < 2 ^ 32).
  { unfold rest, NODE_SIZE. destruct post as [|c post]; cbn [first_addr new_end] in *.
    - change (0 =? 0) with true. simpl. lia.
    - rewrite (proj2 (Z.eqb_neq _ _)) by lia. simpl. lia. }
  destruct Hrest as [Hr1 Hr2]. rewrite Hr1, uint_small in N2 by exact Hr2.
  exists ns, pad, rest. split; [exact E'|].
  destruct (uo_start _ _ _ Hok) as (Hsp & Hsa & _). destruct (uo_end _ _ _ Hok) as (Hea & _).
  pose proof (uo_first _ _ _ Hok) as Hfa.
  apply (uheap_ok_nodes k h _ _ _ (new_end post e (heap_end h)) Hok); [by apply first_addr_same| |destruct post; cbn [new_end]; lia].
  refine (cut_chain (nodes h) ns pre cur s f sz f post e (heap_end h) Hc _ _ _ _ _ _ _ _ N1 N2 N3 N4);
    unfold NODE_T_SIZE; try done; try lia; rewrite Hfa; done.
Qed.

(** ** The break *)
Lemma sbrk_spec k n h : ub_ok (pages n + k) (brk_state h) → 0 ≤ k → 0 < n < 2 ^ 31 →
  ∃ r b, sbrk n h = Ok (r, with_break b h) ∧ ub_ok k b ∧ ub_base b = ub_base (brk_state h) ∧
    ub_at (brk_state h) ≤ ub_at b ∧
    (r = PTR_FAIL ∧ USTACK_BEGIN < ub_at (brk_state h) + n ∨
     r = ub_at (brk_state h) ∧ r ≠ PTR_FAIL ∧ ub_at (brk_state h) + n ≤ ub_at b).
Proof.
  intros Hb Hk Hn. unfold sbrk. rewrite sint_small by (simpl in *; lia).
  destruct (sbrk_more n k _ Hb Hk Hn) as (r & b & -> & Hb' & Hbase & Hfit & Hfar). cbn [rbind].
  destruct (ub_range _ _ Hb) as (_ & _ & _ & Hus). exists r, b.
  assert (Hp : ub_at (brk_state h) + n ≤ PAGE_SIZE * pages (ub_at (brk_state h) + n)).
  { unfold pages, PAGE_SIZE. Z.div_mod_to_equations. lia. }
  destruct (Z.le_gt_cases (ub_at (brk_state h) + n) USTACK_BEGIN) as [Hle|Hgt].
  - destruct (Hfit Hle) as [-> Hat]. split_and!; [done..|lia|right]. unfold PTR_FAIL, USTACK_BEGIN in *. lia.
  - destruct (Hfar Hgt) as [-> Hat]. split_and!; [done..|lia|by left].
Qed.

Lemma sbrk_zero k h : ub_ok k (brk_state h) → sbrk 0 h = Ok (ub_at (brk_state h), h).
Proof.
  intros Hb. unfold sbrk. change (s32 0) with 0. rewrite (sbrk_none _ _ Hb). cbn [rbind].
  unfold with_break. rewrite resize_same. by destruct h.
Qed.

(** A higher break. *)
Lemma uheap_ok_break j k h bs b : uheap_ok j h bs → ub_ok k b → ub_base b = ub_base (brk_state h) →
  ub_at (brk_state h) ≤ ub_at b → uheap_ok k (with_break b h) bs ∧ kept h (with_break b h).
Proof.
  intros [H1 H2 H3 H4 H5 H6] Hb Hbase Hle. split.
  - split; cbn [with_break brk_state heap_start heap_end nodes data]; [done|by rewrite Hbase|split; [apply H3|lia]|done|done|].
    intros a Ha. rewrite resize_lookup. case_decide; [exists 0; split; [done|lia]|].
    rewrite decide_False by lia. apply H6. lia.
  - done.
Qed.

Lemma pages_le a b : a ≤ b → pages a ≤ pages b.
Proof. intros H. unfold pages. apply Z.div_le_mono; unfold PAGE_SIZE; lia. Qed.
Lemma pages_pos a : 0 ≤ a → 0 ≤ pages a.
Proof. intros H. unfold pages, PAGE_SIZE. apply Z.div_pos; lia. Qed.

Lemma uheap_ok_le j k h bs : uheap_ok k h bs → j ≤ k → uheap_ok j h bs.
Proof. intros [H1 H2 H3 H4 H5 H6] Hle. split; try done. by apply (ub_le j k). Qed.

(** Only the last block grows, and then it is large enough. *)
Lemma enlarge_last k h pre cur s f post sz : uheap_ok (pages sz + k) h (pre ++ Blk cur s f :: post) →
  0 ≤ k → 0 < sz ≤ 2 ^ 30 → sz mod NODE_SIZE = 0 →
  ∃ ok h' s', enlarge cur sz h = Ok (ok, h') ∧ uheap_ok k h' (pre ++ Blk cur s' f :: post) ∧ kept h h' ∧
    s ≤ s' ∧ (post ≠ [] → ok = true ∧ h' = h ∧ s' = s) ∧ heap_start h' = heap_start h ∧
    ub_at (brk_state h) ≤ ub_at (brk_state h') ∧
    (ok = false → post = [] ∧ USTACK_BEGIN < ub_at (brk_state h) + sz) ∧
    (ok = true → post = [] → sz ≤ s').
Proof.
  intros Hok Hk Hsz Hszm. pose proof (ublock _ _ _ _ _ Hok) as (E & Hst & Hcp & Hca & Hs & Hsm & Hend & Hnx & Hus).
  cbn [b_addr b_size] in *. pose proof (pages_pos sz ltac:(lia)) as Hpp.
  assert (Hsame : ∃ h' s', Ok (true, h) = Ok (true, h') ∧ uheap_ok k h' (pre ++ Blk cur s' f :: post) ∧ kept h h' ∧
    s ≤ s' ∧ s' = s ∧ h' = h).
  { exists h, s. split_and!; try done; try lia; [|apply kept_refl]. apply (uheap_ok_le k (pages sz + k)); [done|lia]. }
  unfold enlarge. rewrite (header_ok _ _ _ E). cbn [rbind next size].
  destruct post as [|c post].
  2:{ cbn [first_addr] in *. specialize (Hnx ltac:(done)). unfold NODE_SIZE in *.
      rewrite (proj2 (Z.eqb_neq _ _)) by lia. cbn [andb].
      destruct Hsame as (h' & s' & E' & Hok' & Hkp & Hle & -> & ->). exists true, h, s. by split_and!. }
  cbn [first_addr]. change (0 =? 0) with true. cbn [andb]. destruct (Z.ltb_spec s sz) as [Hlt|Hge].
  2:{ destruct Hsame as (h' & s' & E' & Hok' & Hkp & Hle & -> & ->). exists true, h, s. by split_and!. }
  clear Hsame. pose proof (uo_brk _ _ _ Hok) as Hb.
  destruct (sbrk_spec (pages sz - pages (sz - s) + k) (sz - s) h) as (r & b & -> & Hb' & Hbase & Hat & Hcase).
  { by replace (pages (sz - s) + (pages sz - pages (sz - s) + k)) with (pages sz + k) by lia. }
  { pose proof (pages_le (sz - s) sz ltac:(lia)). lia. }
  { simpl in *. lia. }
  apply (ub_le k) in Hb'; [|pose proof (pages_le (sz - s) sz ltac:(lia)); lia]. cbn [rbind].
  destruct (uheap_ok_break _ k _ _ b Hok Hb' Hbase Hat) as [Hok1 Hkp1].
  destruct Hcase as [[-> Hfar]|(-> & Hnf & Hroom)].
  - rewrite Z.eqb_refl. exists false, (with_break b h), s. split_and!; try done; [intros _; split; [done|lia]].
  - rewrite (proj2 (Z.eqb_neq _ _)) by done.
    rewrite (sbrk_zero k (with_break b h)) by done. cbn [rbind with_break brk_state].
    destruct (ub_range _ _ Hb') as (_ & _ & Hbm & Hbus). destruct (uo_end _ _ _ Hok) as [Hem Hele].
    set (s' := ub_at b - (cur + NODE_SIZE)). unfold NODE_SIZE, USTACK_BEGIN in *.
    assert (Hs' : sz ≤ s' ∧ s ≤ s' ∧ s' mod 16 = 0 ∧ s' < 2 ^ 32).
    { unfold s', NODE_SIZE, PAGE_SIZE in *. simpl. split; [lia|]. split; [lia|]. split; [|lia]. Z.div_mod_to_equations. lia. }
    destruct Hs' as (Hs1 & Hs2 & Hs3 & Hs4).
    erewrite assign_ok by (cbn [nodes with_end with_break]; exact E). cbn [rbind].
    unfold size_to at 1. cbn [status next prev]. rewrite (uint_small 32 s') by lia.
    eexists true, _, s'. split; [done|]. split; [|split_and!; [exact Hkp1|done|done|done|cbn; lia|done|done]].
    destruct (uo_chain _ _ _ Hok) as (e & Hc & Hee). destruct Hok1 as [K1 K2 K3 K4 K5 K6].
    split; cbn [with_nodes with_end with_break brk_state heap_start heap_end nodes data] in *; try done.
    + split; [|lia]. unfold NODE_SIZE, PAGE_SIZE in *. Z.div_mod_to_equations. lia.
    + rewrite <- K4. by apply first_addr_same.
    + exists (ub_at b). split; [|lia].
      apply (replace_chain (nodes h) _ 0 pre cur s f s' f [] 0 e); try done.
      * apply lookup_insert_eq.
      * intros q Hq. by rewrite lookup_insert_ne.
      * lia.
      * unfold s', NODE_T_SIZE, NODE_SIZE. cbn [first_addr]. lia.
Qed.

(** ** malloc *)
Definition ends_reserved (bs : list block) : Prop := ∃ bs0 b, bs = bs0 ++ [b] ∧ b_free b = false.

(** The same blocks, some of them larger. *)
Definition wider (l l' : list (Z * Z)) : Prop := Forall2 (λ x y, x.1 = y.1 ∧ x.2 ≤ y.2) l l'.

Lemma wider_refl l : wider l l.
Proof. unfold wider. apply Forall_Forall2_diag, list.Forall_forall. by intros x _. Qed.

(** A block is taken: cut if it is too large, and marked. *)
Lemma take_block k h pre cur s post sz : uheap_ok k h (pre ++ Blk cur s true :: post) →
  0 < sz ≤ s → sz mod NODE_SIZE = 0 →
  ∃ ns rest, (let* h := (if sz <? s then create_padding_node cur sz h else Ok h) in
             assign (status_to MALLOC_RES) cur h) = Ok (with_nodes ns h) ∧
    uheap_ok k (with_nodes ns h) (pre ++ Blk cur sz false :: rest) ∧ allocated rest = allocated post.
Proof.
  intros Hok Hsz Hszm. destruct (Z.ltb_spec sz s) as [Hlt|Hge].
  - destruct (padding_spec k h pre cur s true post sz Hok) as (ns & pad & rest & -> & Hok1); [lia|done|]. cbn [rbind].
    destruct (mark_spec k _ pre cur sz true false _ Hok1) as (ns' & E & Hok2).
    exists ns', (Blk pad rest true :: post). split; [exact E|].
    rewrite nodes_twice in Hok2. by split.
  - assert (sz = s) as -> by lia. cbn [rbind].
    destruct (mark_spec k h pre cur s true false post Hok) as (ns' & E & Hok2).
    exists ns', post. split; [exact E|]. by split.
Qed.

(** What a call leaves: nothing, or one more block. *)
Record found (k : Z) (h : uheap) (bs : list block) (sz p : Z) (h' : uheap) (bs' : list block) : Prop := {
  fd_ok : uheap_ok k h' bs';
  fd_kept : kept h h';
  fd_start : heap_start h' = heap_start h;
  fd_at : ub_at (brk_state h) ≤ ub_at (brk_state h');
  fd_blocks :
    (p = 0 ∧ wider (allocated bs) (allocated bs') ∧
       (ends_reserved bs ∨ USTACK_BEGIN < ub_at (brk_state h) + sz)) ∨
    (p ≠ 0 ∧ p mod NODE_SIZE = 0 ∧ ∃ l1 l2, allocated bs = l1 ++ l2 ∧ allocated bs' = l1 ++ (p, sz) :: l2)
}.

Lemma find_node_found fuel k sz h : ∀ pre suf, uheap_ok (pages sz + k) h (pre ++ suf) → suf ≠ [] → 0 ≤ k →
  0 < sz ≤ 2 ^ 30 → sz mod NODE_SIZE = 0 → (length suf < fuel)%nat →
  ∃ p h' bs', find_node fuel (first_addr suf 0) sz h = Ok (p, h') ∧ found k h (pre ++ suf) sz p h' bs'.
Proof.
  induction fuel as [|fuel IH]; intros pre suf Hok Hne Hk Hsz Hszm Hf; [lia|].
  destruct suf as [|[cur s f] post]; [done|]. cbn [first_addr b_addr find_node].
  pose proof (ublock _ _ _ _ _ Hok) as (_ & _ & Hcp & Hca & _). cbn [b_addr] in *.
  rewrite (proj2 (Z.eqb_neq cur 0)) by lia.
  destruct (enlarge_last k h pre cur s f post sz Hok Hk Hsz Hszm)
    as (ok & h1 & s1 & -> & Hok1 & Hkp1 & Hle & Hin & Hst1 & Hat1 & Hno & Hbig). cbn [rbind].
  destruct ok; cbn [negb].
  2:{ destruct (Hno eq_refl) as [-> Hfar]. exists 0, h1, (pre ++ [Blk cur s1 f]). split; [done|].
      split; [done..|]. left. split; [done|]. split; [|by right]. rewrite !allocated_app.
      apply Forall2_app; [apply wider_refl|]. simpl. destruct f; [constructor|by repeat constructor]. }
  pose proof (ublock _ _ _ _ _ Hok1) as (E & _ & _ & _ & _ & _ & Hend & _ & Hus). cbn [b_addr b_size] in *.
  rewrite (header_ok _ _ _ E). cbn [rbind status size next].
  assert (Hres : (status_of (Blk cur s1 f) =? MALLOC_RES) = negb f) by by destruct f.
  rewrite Hres. destruct (negb f || (s1 <? sz)) eqn:Hskip.
  - destruct post as [|c post].
    + assert (f = false) as ->.
      { destruct f; [|done]. specialize (Hbig eq_refl eq_refl). cbn [negb orb] in Hskip. lia. }
      cbn [first_addr]. destruct fuel as [|fuel]; [cbn in Hf; lia|]. cbn [find_node].
      change (0 =? 0) with true. cbv iota.
      exists 0, h1, (pre ++ [Blk cur s1 false]). split; [done|]. split; [done..|]. left. split; [done|].
      split; [|left; by eexists _, _]. rewrite !allocated_app.
      apply Forall2_app; [apply wider_refl|]. simpl. by repeat constructor.
    + destruct (Hin ltac:(done)) as (_ & -> & ->). rewrite cons_app in Hok.
      destruct (IH (pre ++ [Blk cur s f]) (c :: post) Hok) as (p & h' & bs' & E' & Hfd);
        [done|done|done|done|cbn [length] in *; lia|].
      exists p, h', bs'. split; [exact E'|]. by rewrite cons_app.
  - assert (f = true ∧ sz ≤ s1) as [-> Hfit] by (destruct f; [|done]; cbn [negb orb] in Hskip; lia).
    destruct (take_block k h1 pre cur s1 post sz Hok1) as (ns & rest & E2 & Hok2 & Hal); [lia|done|].
    exists (u32 (cur + NODE_SIZE)), (with_nodes ns h1), (pre ++ Blk cur sz false :: rest). split.
    { apply rbind_Ok in E2 as (h2 & -> & E2). cbn [rbind]. by rewrite E2. }
    unfold NODE_SIZE, USTACK_BEGIN in *. rewrite uint_small by (simpl; lia).
    split; [done..|right]. split; [lia|]. split.
    { unfold NODE_SIZE. replace (cur + 16) with (cur + 1 * 16) by lia. by rewrite Z_mod_plus_full. }
    exists (allocated pre), (allocated post). rewrite !allocated_app. cbn [allocated b_free]. by rewrite Hal.
Qed.

Lemma round_up_ok sz : 0 < sz ≤ 2 ^ 30 - 16 →
  sz ≤ round_up sz < sz + 16 ∧ round_up sz mod NODE_SIZE = 0.
Proof.
  intros Hsz. unfold round_up, NODE_SIZE. simpl in Hsz.
  rewrite (land_ones_mod sz 4) by done. change (2 ^ 4) with 16.
  destruct (Z.eqb_spec (sz mod 16) 0); cbn [negb]; [lia|].
  rewrite uint_small by (simpl; lia).
  assert (E : ∀ a, clr a (16 - 1) = a / 16 * 16).
  { intros a. unfold clr. change (16 - 1) with (Z.ones 4).
    rewrite <- Z.ldiff_land, Z.ldiff_ones_r by lia.
    by rewrite Z.shiftr_div_pow2, Z.shiftl_mul_pow2 by lia. }
  rewrite E. split; [Z.div_mod_to_equations; lia|]. by rewrite Z.mod_mul.
Qed.

(** The first block. *)
Lemma create_heap_spec k sz h : ub_ok (pages sz + k) (brk_state h) → 0 ≤ k →
  PAGE_SIZE < sz ≤ 2 ^ 30 + PAGE_SIZE →
  ∃ h', create_heap sz h = Ok h' ∧ ub_at (brk_state h) ≤ ub_at (brk_state h') ∧ kept h h' ∧
    ((heap_start h' = 0 ∧ ub_ok k (brk_state h') ∧ USTACK_BEGIN < ub_at (brk_state h) + sz) ∨
     (∃ s, uheap_ok k h' [Blk (heap_start h') s true] ∧ sz - NODE_SIZE ≤ s ∧ heap_start h' = ub_at (brk_state h))).
Proof.
  intros Hb Hk Hsz. unfold create_heap.
  destruct (sbrk_spec k sz h Hb Hk) as (r & b & -> & Hb' & Hbase & Hat & Hcase);
    [unfold PAGE_SIZE in *; simpl in *; lia|]. cbn [rbind].
  destruct Hcase as [[-> Hfar]|(-> & Hnf & Hroom)].
  { rewrite Z.eqb_refl. eexists. split; [done|]. split; [done|]. split; [done|]. by left. }
  rewrite (proj2 (Z.eqb_neq _ _)) by done. set (a := ub_at (brk_state h)) in *.
  rewrite (sbrk_zero k (with_start a (with_break b h))) by done. cbn [rbind with_break with_start brk_state].
  destruct (ub_range _ _ Hb') as (_ & _ & Hbm & Hus). destruct (ub_range _ _ Hb) as (Hbp & _ & Ham & _). fold a in Hbp, Ham.
  match goal with |- context [place a ?x] => set (h1 := x) end.
  destruct (place_ok a h1) as (ns & j & -> & Ej & Ens). assigns.
  eexists. split; [reflexivity|]. split; [exact Hat|]. split; [done|]. right.
  exists (ub_at b - (a + NODE_SIZE)). cbn [heap_start with_nodes h1 with_end with_start with_break].
  unfold NODE_SIZE, USTACK_BEGIN, PAGE_SIZE in *. split; [|split; [lia|done]].
  split; cbn [with_nodes h1 with_end with_break with_start brk_state heap_start heap_end nodes data].
  - done.
  - unfold NODE_SIZE. split; [lia|]. split; [|rewrite Hbase; lia]. Z.div_mod_to_equations. lia.
  - unfold NODE_SIZE. split; [|lia]. Z.div_mod_to_equations. lia.
  - done.
  - exists (ub_at b). split; [|lia]. cbn [chain b_addr b_size first_addr]. unfold NODE_T_SIZE. split_and!; try done; try lia.
    + header_lookup. by rewrite uint_small by (simpl; lia).
    + Z.div_mod_to_equations. lia.
  - intros i Hi. rewrite resize_lookup. fold a. rewrite decide_True by lia. exists 0. split; [done|lia].
Qed.

(** There is no heap yet, or a heap of the blocks [bs]. *)
Definition heap_of (k : Z) (h : uheap) (bs : list block) : Prop :=
  (bs = [] ∧ heap_start h = 0 ∧ ub_ok k (brk_state h)) ∨ uheap_ok k h bs.

(** Pages that a call may ask for. *)
Definition grow_pages (sz : Z) : Z := pages (PAGE_SIZE + round_up sz).

(** What [malloc] may say: nothing, when the last block is in use or the memory of the
    task is used up, or a new block. *)
Definition malloc_result (bs : list block) (h : uheap) (sz p : Z) (bs' : list block) : Prop :=
  (p = 0 ∧ wider (allocated bs) (allocated bs') ∧
     (ends_reserved bs ∨ USTACK_BEGIN < ub_at (brk_state h) + PAGE_SIZE + round_up sz)) ∨
  (p ≠ 0 ∧ p mod NODE_SIZE = 0 ∧ ∃ l1 l2, allocated bs = l1 ++ l2 ∧ allocated bs' = l1 ++ (p, round_up sz) :: l2).

Lemma malloc_first fuel k h sz : heap_start h = 0 → ub_ok (grow_pages sz + k) (brk_state h) → 0 ≤ k →
  0 < sz ≤ 2 ^ 30 - 16 → (0 < fuel)%nat →
  ∃ p h' bs', malloc fuel sz h = Ok (p, h') ∧ heap_of k h' bs' ∧ ub_at (brk_state h) ≤ ub_at (brk_state h') ∧
    malloc_result [] h sz p bs' ∧ kept h h' ∧ (heap_start h' = 0 ∨ heap_start h' = ub_at (brk_state h)) ∧
    (p ≠ 0 → uheap_ok k h' bs' ∧ ∃ rest, bs' = Blk (p - NODE_SIZE) (round_up sz) false :: rest ∧ allocated rest = [] ∧
       p = ub_at (brk_state h) + NODE_SIZE).
Proof.
  intros H0 Hb Hk Hsz Hf. destruct (round_up_ok sz Hsz) as [Hr Hrm]. unfold malloc, grow_pages, malloc_result in *.
  set (n := round_up sz) in *. change (2 ^ 30) with 1073741824 in *. destruct fuel as [|fuel]; [lia|].
  rewrite (proj2 (Z.eqb_neq sz 0)), H0 by lia. change (0 =? 0) with true. cbv iota.
  rewrite uint_small by (unfold PAGE_SIZE; simpl; lia).
  destruct (create_heap_spec k (PAGE_SIZE + n) h Hb Hk) as (h1 & -> & Hat & Hkp & Hcase);
    [unfold PAGE_SIZE; simpl; lia|]. cbn [rbind find_node].
  destruct Hcase as [(H1 & Hb1 & Hfar)|(s & Hok & Hs & Hst)].
  { rewrite H1. change (0 =? 0) with true. cbv iota. exists 0, h1, []. split; [done|].
    split; [by left|]. split; [done|]. split; [|split; [done|by split; [left|]]]. left. split; [done|]. split; [by constructor|]. right. lia. }
  pose proof (ublock k h1 [] _ [] Hok) as (E & _ & Hcp & Hca & _ & _ & Hend & _ & Hus).
  cbn [b_addr b_size] in *. unfold NODE_SIZE, PAGE_SIZE, USTACK_BEGIN in *.
  rewrite (proj2 (Z.eqb_neq _ _)) by lia. unfold enlarge. rewrite (header_ok _ _ _ E). cbn [rbind size next status].
  rewrite (proj2 (Z.ltb_ge s n)), andb_false_r by lia. cbn [rbind negb].
  rewrite (header_ok _ _ _ E). cbn [rbind size next status].
  change (status_of (Blk (heap_start h1) s true) =? MALLOC_RES) with false.
  rewrite (proj2 (Z.ltb_ge s n)) by lia. cbn [orb].
  destruct (take_block k h1 [] (heap_start h1) s [] n Hok) as (ns & rest & E2 & Hok2 & Hal); [lia|done|].
  exists (u32 (heap_start h1 + 16)), (with_nodes ns h1), (Blk (heap_start h1) n false :: rest). split.
  { apply rbind_Ok in E2 as (h2 & -> & E2). cbn [rbind]. by rewrite E2. }
  rewrite uint_small by (simpl; lia). split; [by right|]. split; [exact Hat|]. split.
  - right. split; [lia|]. split; [|exists [], []; split; [done|]; cbn [allocated b_free]; by rewrite Hal].
    unfold NODE_SIZE. replace (heap_start h1 + 16) with (heap_start h1 + 1 * 16) by lia. by rewrite Z_mod_plus_full.
  - split; [exact Hkp|]. split; [by right|]. intros _. split; [exact Hok2|]. exists rest. unfold NODE_SIZE. rewrite <- Hst. replace (heap_start h1 + 16 - 16) with (heap_start h1) by lia. by split.
Qed.

Lemma malloc_next fuel k h bs sz : uheap_ok (grow_pages sz + k) h bs → 0 ≤ k → 0 < sz ≤ 2 ^ 30 - 16 →
  (length bs < fuel)%nat →
  ∃ p h' bs', malloc fuel sz h = Ok (p, h') ∧ uheap_ok k h' bs' ∧ ub_at (brk_state h) ≤ ub_at (brk_state h') ∧
    malloc_result bs h sz p bs' ∧ kept h h' ∧ heap_start h' = heap_start h.
Proof.
  intros Hok Hk Hsz Hf. destruct (round_up_ok sz Hsz) as [Hr Hrm]. unfold malloc, grow_pages, malloc_result in *.
  set (n := round_up sz) in *. change (2 ^ 30) with 1073741824 in *.
  destruct (uo_start _ _ _ Hok) as (Hsp & _). pose proof (uo_first _ _ _ Hok) as Hfa.
  rewrite (proj2 (Z.eqb_neq sz 0)), (proj2 (Z.eqb_neq (heap_start h) 0)) by lia. cbn [rbind].
  destruct (find_node_found fuel k n h [] bs) as (p & h' & bs' & E & Hfd).
  { apply (uheap_ok_le _ _ _ _ Hok). pose proof (pages_le n (PAGE_SIZE + n) ltac:(unfold PAGE_SIZE; lia)). lia. }
  { intros ->. cbn in Hfa. lia. }
  { done. } { simpl. lia. } { done. } { done. }
  destruct Hfd as [F1 F2 F3 F4 F5]. exists p, h', bs'. split; [by rewrite <- Hfa at 1|]. split; [done|]. split; [done|]. split; [|done].
  destruct F5 as [(-> & Hw & Hwhy)|]; [|by right]. left. split; [done|]. split; [done|].
  destruct Hwhy as [|Hfar]; [by left|right]. unfold PAGE_SIZE. lia.
Qed.

(** With or without a heap. *)
Lemma malloc_any fuel k h bs sz : heap_of (grow_pages sz + k) h bs → 0 ≤ k → 0 < sz ≤ 2 ^ 30 - 16 →
  (length bs < fuel)%nat →
  ∃ p h' bs', malloc fuel sz h = Ok (p, h') ∧ heap_of k h' bs' ∧ malloc_result bs h sz p bs' ∧
    (p ≠ 0 → uheap_ok k h' bs') ∧ ub_at (brk_state h) ≤ ub_at (brk_state h') ∧ kept h h' ∧
    (heap_start h' = heap_start h ∨ heap_start h = 0 ∧ heap_start h' = ub_at (brk_state h)).
Proof.
  intros Hh Hk Hsz Hf. destruct Hh as [(-> & H0 & Hb)|Hok].
  - destruct (malloc_first fuel k h sz H0 Hb Hk Hsz ltac:(lia)) as (p & h' & bs' & E & Hh' & Hat & Hres & Hkp & Hst & Hok').
    exists p, h', bs'. split_and!; try done; [intros H1; apply (Hok' H1)|]. rewrite H0.
    destruct Hst as [->| ->]; [by left|by right].
  - destruct (malloc_next fuel k h bs sz Hok Hk Hsz Hf) as (p & h' & bs' & E & Hok' & Hat & Hres & Hkp & Hst).
    exists p, h', bs'. split_and!; try done; [by right|by left].
Qed.

(** C21: [malloc] of the C library, on no heap yet or on a well-formed one, with pages
    for [grow_pages sz] in the kernel: it returns, the heap is well-formed again, and
    either it returned [NULL], the blocks in use stayed where they were, and the
    last block is in use or the user's memory is used up; or it returned a multiple of 16
    that is the address of one more block in use, of the size asked for rounded up to
    16, inside the heap and below the break, disjoint from every other block with its header.  The bytes stay as they were,
    those of new pages are zero. *)
Theorem malloc_spec fuel k h bs sz
    (Hh : heap_of (grow_pages sz + k) h bs) (Hk : 0 ≤ k) (Hsz : 0 < sz ≤ 2 ^ 30 - 16) (Hf : (length bs < fuel)%nat) :
  ∃ p h' bs', malloc fuel sz h = Ok (p, h') ∧ heap_of k h' bs' ∧
    (p = 0 ∧ wider (allocated bs) (allocated bs') ∧
       (ends_reserved bs ∨ USTACK_BEGIN < ub_at (brk_state h) + PAGE_SIZE + round_up sz) ∨
     p ≠ 0 ∧ p mod 16 = 0 ∧ sz ≤ round_up sz ∧ heap_start h' < p ∧ p + round_up sz ≤ ub_at (brk_state h') ∧
     allocated bs' ≡ₚ (p, round_up sz) :: allocated bs ∧
     ∀ q n, (q, n) ∈ allocated bs → q + n + 16 ≤ p ∨ p + round_up sz + 16 ≤ q) ∧
    ub_at (brk_state h) ≤ ub_at (brk_state h') ∧ kept h h'.
Proof.
  destruct (round_up_ok sz Hsz) as [Hr _].
  destruct (malloc_any fuel k h bs sz Hh Hk Hsz Hf) as (p & h' & bs' & E & Hh' & Hres & Hok' & Hat & Hkp & _).
  exists p, h', bs'. split; [done|]. split; [done|]. split; [|by split].
  destruct Hres as [|(Hp & Hpm & l1 & l2 & El & El')]; [by left|right]. specialize (Hok' Hp).
  destruct (uo_chain _ _ _ Hok') as (e & Hc & Hee). destruct (uo_end _ _ _ Hok') as [_ Hat'].
  assert (Hfa : first_addr bs' e = heap_start h').
  { rewrite <- (uo_first _ _ _ Hok'). destruct bs'; [|done]. simpl in El'. by destruct l1. }
  destruct (allocated_range _ _ _ _ _ p (round_up sz) Hc) as [Hlo Hhi]; [rewrite El'; set_solver|].
  unfold NODE_SIZE, NODE_T_SIZE in *.
  split; [done|]. split; [done|]. split; [lia|]. split; [lia|]. split; [lia|]. split.
  { rewrite El, El'. symmetry. apply Permutation_middle. }
  intros q n Hq. rewrite El in Hq. apply (allocated_disjoint _ _ _ _ _ l1 l2 p _ q n Hc El' Hq).
Qed.

(** ** free *)

(** The block at [a] and its neighbour become one. *)
Lemma unify_blocks k h pre a s b t f post : uheap_ok k h (pre ++ Blk a s true :: Blk b t f :: post) →
  ∃ ns, unify_fwd a h = Ok (with_nodes ns h) ∧
    uheap_ok k (with_nodes ns h) (pre ++ Blk a (s + t + NODE_SIZE) true :: post) ∧ ns !! b = nodes h !! b.
Proof.
  intros Hok. pose proof (ublock _ _ _ _ _ Hok) as (Ea & Hst & Hap & Haa & Hs & Hsm & Hend & Hab & Hus).
  pose proof Hok as Hok2. rewrite cons_app in Hok2.
  pose proof (ublock _ _ _ _ _ Hok2) as (Eb & _ & Hbp & Hba & Ht & Htm & Hendb & Hbc & _).
  destruct (uo_chain _ _ _ Hok) as (e & Hc & Hee). cbn [b_addr b_size first_addr] in *.
  specialize (Hab ltac:(done)). unfold NODE_SIZE, USTACK_BEGIN in *.
  unfold unify_fwd. rewrite (header_ok _ _ _ Ea). cbn [rbind next size].
  rewrite (header_ok _ _ _ Eb). cbn [rbind next size]. unfold NODE_SIZE.
  rewrite (uint_small 32 (t + 16)) by (simpl; lia).
  assert (H : ∃ ns, (let* h0 := assign (size_to (s + (t + 16))) a h in
      let* h0 := assign (next_to (first_addr post 0)) a h0 in
      if negb (first_addr post 0 =? 0) then assign (prev_to a) (first_addr post 0) h0 else Ok h0) = Ok (with_nodes ns h) ∧
    ns !! a = Some (KNode (s + (t + NODE_T_SIZE)) KMALLOC_FREE (first_addr post 0) (last_addr pre 0)) ∧
    (post ≠ [] → ∀ m, nodes h !! first_addr post 0 = Some m →
       ns !! first_addr post 0 = Some (KNode (size m) (status m) (next m) a)) ∧
    ∀ q, q ≠ a → (post ≠ [] → q ≠ first_addr post 0) → ns !! q = nodes h !! q).
  { destruct post as [|c post]; cbn [first_addr] in *.
    - change (negb (0 =? 0)) with false. cbv iota. assigns. eexists. split; [reflexivity|].
      split; [header_lookup; by rewrite uint_small by (simpl; lia)|]. split; [done|].
      intros q Hq _. by rewrite !lookup_insert_ne by (apply not_eq_sym; assumption).
    - specialize (Hbc ltac:(done)).
      assert (Ec : ∃ m, nodes h !! b_addr c = Some m).
      { rewrite cons_app in Hok2. pose proof (ublock _ _ _ _ _ Hok2) as (E & _). by eexists. }
      destruct Ec as [m Ec]. rewrite (proj2 (Z.eqb_neq (b_addr c) 0)) by lia. cbn [negb]. assigns.
      eexists. split; [reflexivity|].
      split; [header_lookup; by rewrite uint_small by (simpl; lia)|].
      split; [intros _ m' Em'; pose proof (eq_trans (eq_sym Ec) Em') as Ex; injection Ex as <-; header_lookup|].
      intros q Hq Hq2. specialize (Hq2 ltac:(done)). by rewrite !lookup_insert_ne by (apply not_eq_sym; assumption). }
  destruct H as (ns & E & N1 & N2 & N3). exists ns. split; [exact E|]. split.
  - apply (uheap_ok_nodes k h _ _ _ e Hok); [by apply first_addr_same| |done].
    by apply (unify_chain (nodes h) ns 0 pre a s b t f post e Hc).
  - apply N3; [lia|]. intros Hp. specialize (Hbc Hp). lia.
Qed.

(** The free bytes behind the header of a freed block of size [n]. *)
Definition joined (n : Z) (post : list block) : Z :=
  match post with b :: _ => if b_free b then n + b_size b + NODE_SIZE else n | [] => n end.
Definition behind (post : list block) : list block :=
  match post with b :: post' => if b_free b then post' else post | [] => [] end.

Lemma join_next k h pre cur n post : uheap_ok k h (pre ++ Blk cur n true :: post) →
  ∃ ns, (let* x := node_at cur h in let* b := is_free (next x) h in
         if b then unify_fwd cur h else Ok h) = Ok (with_nodes ns h) ∧
    uheap_ok k (with_nodes ns h) (pre ++ Blk cur (joined n post) true :: behind post).
Proof.
  intros Hok. pose proof (ublock _ _ _ _ _ Hok) as (E & _). cbn [b_addr] in E.
  rewrite (header_ok _ _ _ E). cbn [rbind next].
  assert (Hsame : ∃ ns, Ok h = Ok (with_nodes ns h) ∧ uheap_ok k (with_nodes ns h) (pre ++ Blk cur n true :: post)).
  { exists (nodes h). by destruct h. }
  destruct post as [|[b t f] post]; cbn [first_addr joined behind b_free b_size]; [exact Hsame|].
  pose proof Hok as Hok2. rewrite cons_app in Hok2.
  pose proof (ublock _ _ _ _ _ Hok2) as (Eb & _ & Hbp & _). cbn [b_addr] in *.
  unfold is_free. rewrite (proj2 (Z.eqb_neq b 0)) by lia. rewrite (header_ok _ _ _ Eb). cbn [rbind status].
  destruct f; cbn [status_of b_free]; [|exact Hsame].
  destruct (unify_blocks k h pre cur n b t true post Hok) as (ns & E' & Hok' & _). by exists ns.
Qed.

(** Is the block in front free?  [cur] may be the second half of it afterwards. *)
Definition free_before (pre : list block) : Prop := ∃ pre' d t, pre = pre' ++ [Blk d t true].

Definition ends_free_b (pre : list block) : bool := match reverse pre with b :: _ => b_free b | [] => false end.

(** The blocks up to a free one of [n] bytes behind the header at [cur]. *)
Definition front (pre : list block) (cur n : Z) : list block :=
  match reverse pre with
  | Blk d t true :: l => reverse l ++ [Blk d (t + n + NODE_SIZE) true]
  | _ => pre ++ [Blk cur n true]
  end.

Lemma front_joins pre d t cur n : front (pre ++ [Blk d t true]) cur n = pre ++ [Blk d (t + n + NODE_SIZE) true] ∧
  ends_free_b (pre ++ [Blk d t true]) = true.
Proof. unfold front, ends_free_b. rewrite reverse_snoc. by rewrite reverse_involutive. Qed.

Lemma front_alone pre cur n : ¬ free_before pre → front pre cur n = pre ++ [Blk cur n true] ∧ ends_free_b pre = false.
Proof.
  intros H. unfold front, ends_free_b. destruct (destruct_last pre) as [->|(pre' & [d t f] & ->)]; [done|].
  rewrite reverse_snoc. destruct f; [|done]. destruct H. by exists pre', d, t.
Qed.

Lemma free_before_dec pre : free_before pre ∨ ¬ free_before pre.
Proof.
  destruct (destruct_last pre) as [->|(pre' & [d t []] & ->)].
  - right. intros (l & d & t & E). by destruct l.
  - left. by exists pre', d, t.
  - right. intros (l & d' & t' & E). by apply app_inj_2 in E as [_ [= _ _]].
Qed.

Lemma allocated_front pre cur n : allocated (front pre cur n) = allocated pre.
Proof.
  destruct (free_before_dec pre) as [(l & d & t & ->)|H].
  - by rewrite (proj1 (front_joins _ _ _ _ _)), !allocated_app.
  - rewrite (proj1 (front_alone _ _ _ H)), allocated_app. cbn. by rewrite app_nil_r.
Qed.

(** The blocks behind [free]: the last one is a page, unless it was joined to the one in front. *)
Definition freed (pre : list block) (cur n : Z) (post : list block) : list block :=
  match behind post with
  | [] => front pre cur (if ends_free_b pre then joined n post else PAGE_SIZE)
  | l => front pre cur (joined n post) ++ l
  end.

Lemma allocated_freed pre cur n post : allocated (freed pre cur n post) = allocated pre ++ allocated post.
Proof.
  assert (H : allocated (behind post) = allocated post) by (destruct post as [|[b t []] post]; done).
  unfold freed. rewrite <- H. destruct (behind post); [by rewrite allocated_front, app_nil_r|].
  by rewrite allocated_app, allocated_front.
Qed.

(** Of two neighbours one is in use. *)
Fixpoint apart_flags (l : list bool) : Prop :=
  match l with
  | a :: (b :: _) as l' => a && b = false ∧ apart_flags l'
  | _ => True
  end.
Definition no_neighbours (bs : list block) : Prop := apart_flags (b_free <$> bs).

Lemma apart_flags_app l x l' : apart_flags (l ++ x :: l') ↔ apart_flags (l ++ [x]) ∧ apart_flags (x :: l').
Proof.
  induction l as [|a l IH]; [simpl; tauto|]. destruct l as [|b l]; [simpl; tauto|].
  change (a && b = false ∧ apart_flags ((b :: l) ++ x :: l') ↔
    (a && b = false ∧ apart_flags ((b :: l) ++ [x])) ∧ apart_flags (x :: l')). rewrite IH. tauto.
Qed.

Lemma apart_flags_init l x : apart_flags (l ++ [x]) → apart_flags l.
Proof.
  induction l as [|a l IH]; [done|]. destruct l as [|b l]; [done|].
  intros [H1 H2]. split; [done|]. by apply IH.
Qed.

Lemma freed_apart pre cur n post : no_neighbours (pre ++ Blk cur n false :: post) → no_neighbours (freed pre cur n post).
Proof.
  unfold no_neighbours. rewrite fmap_app. cbn [fmap list_fmap b_free]. rewrite apart_flags_app. intros [H1 H2].
  assert (Hf : ∀ n, apart_flags ((b_free <$> front pre cur n) ++ (b_free <$> behind post))).
  { intros n'. assert (Hb : apart_flags (true :: (b_free <$> behind post))).
    { destruct post as [|[b t []] post]; cbn in H2 |- *; [done|apply H2|]. split; [done|]. apply H2. }
    destruct (free_before_dec pre) as [(l & d & t & ->)|Hn].
    - rewrite (proj1 (front_joins _ _ _ _ _)), fmap_app, <- app_assoc. rewrite fmap_app in H1.
      cbn [fmap list_fmap b_free app] in *. apply apart_flags_app. split; [|done]. by apply apart_flags_init in H1.
    - rewrite (proj1 (front_alone _ _ _ Hn)), fmap_app, <- app_assoc. cbn [fmap list_fmap b_free app].
      apply apart_flags_app. split; [|done]. destruct (destruct_last pre) as [->|(l & [d t f] & ->)]; [done|].
      rewrite fmap_app in *. cbn [fmap list_fmap b_free] in *. rewrite <- app_assoc in *. cbn [app] in *.
      apply apart_flags_app in H1 as [H1 _]. apply apart_flags_app. split; [done|]. destruct f; [|done].
      destruct Hn. by exists l, d, t. }
  unfold freed. destruct (behind post) as [|c l] eqn:E.
  - specialize (Hf (if ends_free_b pre then joined n post else PAGE_SIZE)). by rewrite app_nil_r in Hf.
  - rewrite fmap_app. apply Hf.
Qed.

Lemma join_prev k h pre cur n post : uheap_ok k h (pre ++ Blk cur n true :: post) →
  ∃ ns, (let* x := node_at cur h in let* b := is_free (prev x) h in
         if b then unify_fwd (prev x) h else Ok h) = Ok (with_nodes ns h) ∧
    ns !! cur = nodes h !! cur ∧
    (¬ free_before pre ∧ uheap_ok k (with_nodes ns h) (pre ++ Blk cur n true :: post) ∨
     ∃ pre' d t, pre = pre' ++ [Blk d t true] ∧ d + NODE_SIZE + t = cur ∧ 0 ≤ t ∧
       uheap_ok k (with_nodes ns h) (pre' ++ Blk d (t + n + NODE_SIZE) true :: post)).
Proof.
  intros Hok. pose proof (ublock _ _ _ _ _ Hok) as (E & _). cbn [b_addr] in E.
  rewrite (header_ok _ _ _ E). cbn [rbind prev].
  assert (Hsame : ¬ free_before pre → ∃ ns, Ok h = Ok (with_nodes ns h) ∧ ns !! cur = nodes h !! cur ∧
    (¬ free_before pre ∧ uheap_ok k (with_nodes ns h) (pre ++ Blk cur n true :: post) ∨
     ∃ pre' d t, pre = pre' ++ [Blk d t true] ∧ d + NODE_SIZE + t = cur ∧ 0 ≤ t ∧
       uheap_ok k (with_nodes ns h) (pre' ++ Blk d (t + n + NODE_SIZE) true :: post))).
  { intros Hno. exists (nodes h). destruct h. split; [done|]. split; [done|]. by left. }
  destruct (destruct_last pre) as [->|(pre' & [d t f] & ->)].
  { apply Hsame. intros (l & d & t & El). by destruct l. }
  rewrite last_addr_snoc. cbn [b_addr].
  pose proof Hok as Hok2. rewrite <- app_assoc in Hok2. cbn [app] in Hok2.
  pose proof (ublock _ _ _ _ _ Hok2) as (Eb & _ & Hdp & _ & Ht & _ & _ & Hdc & _). cbn [b_addr b_size first_addr] in *.
  specialize (Hdc ltac:(done)). unfold NODE_SIZE in Hdc.
  unfold is_free. rewrite (proj2 (Z.eqb_neq d 0)) by lia. rewrite (header_ok _ _ _ Eb). cbn [rbind status].
  destruct f; cbn [status_of b_free].
  2:{ apply Hsame. intros (l & d' & t' & El). by apply app_inj_2 in El as [_ [= _ _]]. }
  destruct (unify_blocks k h pre' d t cur n true post Hok2) as (ns & E' & Hok' & Hcur).
  exists ns. split; [exact E'|]. split; [exact Hcur|]. right. exists pre', d, t. split; [done|]. unfold NODE_SIZE at 1. split; [lia|]. by split.
Qed.

(** Only the headers of the blocks count. *)
Lemma chain_headers (ns ns' : gmap Z heap_node_t) bs : ∀ p nxt e, chain ns p bs nxt e →
  (∀ b, b ∈ bs → ns' !! b_addr b = ns !! b_addr b) → chain ns' p bs nxt e.
Proof.
  induction bs as [|b bs IH]; intros p nxt e H Hns; [done|]. destruct H as (E & H0 & Hm & He & H).
  split; [rewrite Hns by (by left); exact E|]. split_and!; [done..|]. apply IH; [done|].
  intros c Hc. apply Hns. by right.
Qed.

(** The end of the heap comes back to a page behind the header at [cur]. *)
Definition trim (cur : Z) (h : uheap) : res uheap :=
  let* h := assign (size_to PAGE_SIZE) cur h in
  let h := with_end (u32 (cur + NODE_SIZE + PAGE_SIZE)) h in
  let* (_, h) := brk (heap_end h) h in Ok h.

Lemma trim_ok k h cur x bs bs' e : uheap_ok (1 + k) h bs → 0 ≤ k → nodes h !! cur = Some x →
  heap_start h ≤ cur → cur + NODE_SIZE ≤ heap_end h → cur mod NODE_SIZE = 0 →
  cur + NODE_SIZE + 2 * PAGE_SIZE ≤ USTACK_BEGIN → first_addr bs' 0 = first_addr bs 0 →
  chain (<[cur := size_to PAGE_SIZE x]> (nodes h)) 0 bs' 0 e → e ≤ cur + NODE_SIZE + PAGE_SIZE →
  ∃ h', trim cur h = Ok h' ∧ uheap_ok k h' bs' ∧ heap_end h' = cur + NODE_SIZE + PAGE_SIZE ∧
    ub_at (brk_state h') = PAGE_SIZE * pages (cur + NODE_SIZE + PAGE_SIZE) ∧
    ∀ a, heap_start h ≤ a < cur → data h' !! a = data h !! a.
Proof.
  intros [H1 (H2a & H2b & H2c) (H3a & H3b) H4 H5 H6] Hk Ex Hlo Hhi Hal Hus Hfa Hc He.
  unfold trim. rewrite (assign_ok _ _ _ _ Ex). cbn [rbind]. unfold NODE_SIZE, PAGE_SIZE, USTACK_BEGIN in *.
  rewrite uint_small by (simpl; lia). unfold brk. cbn [heap_end with_end with_nodes brk_state].
  rewrite uint_small by (simpl; lia).
  destruct (brk_to (cur + 16 + 4096) k (brk_state h)) as (b & -> & Hb & Hbase & Hat).
  { apply (ub_le _ (1 + k)); [done|]. unfold needed, pages, PAGE_SIZE. Z.div_mod_to_equations. lia. }
  { done. } { unfold USTACK_BEGIN, PAGE_SIZE. lia. }
  cbn [rbind]. assert (Hge : cur + 16 + 4096 ≤ ub_at b) by (rewrite Hat; unfold pages, PAGE_SIZE; Z.div_mod_to_equations; lia).
  eexists. split; [reflexivity|]. split; [|split; [done|split; [exact Hat|]]].
  - split; cbn [with_break with_end with_nodes brk_state heap_start heap_end nodes data]; [done| | |by rewrite Hfa| |].
    + rewrite Hbase. done.
    + split; [|lia]. unfold NODE_SIZE. Z.div_mod_to_equations. lia.
    + by exists e.
    + intros a Ha. rewrite resize_lookup. case_decide; [exists 0; split; [done|lia]|].
      rewrite decide_False by lia. apply H6. lia.
  - intros a Ha. cbn [with_break with_end with_nodes data brk_state]. rewrite resize_lookup.
    by rewrite !decide_False by lia.
Qed.

(** The end of the heap, after the joins. *)
Lemma trim_end k h ns pre cur n : let h1 := with_nodes ns h in
  ns !! cur = Some (KNode n MALLOC_FREE 0 (last_addr pre 0)) → 0 ≤ k →
  (¬ free_before pre ∧ uheap_ok (1 + k) h1 (pre ++ [Blk cur n true]) ∨
   ∃ pre' d t, pre = pre' ++ [Blk d t true] ∧ d + NODE_SIZE + t = cur ∧ 0 ≤ t ∧ uheap_ok (1 + k) h1 (pre' ++ [Blk d (t + n + NODE_SIZE) true])) →
  heap_start h ≤ cur → cur + NODE_SIZE ≤ heap_end h → cur mod NODE_SIZE = 0 →
  cur + NODE_SIZE + 2 * PAGE_SIZE ≤ USTACK_BEGIN →
  (free_before pre → n ≤ PAGE_SIZE) →
  ∃ h', trim cur h1 = Ok h' ∧ uheap_ok k h' (front pre cur (if ends_free_b pre then n else PAGE_SIZE)) ∧
    heap_end h' = cur + NODE_SIZE + PAGE_SIZE ∧
    ub_at (brk_state h') = PAGE_SIZE * pages (cur + NODE_SIZE + PAGE_SIZE) ∧
    ∀ a, heap_start h ≤ a < cur → data h' !! a = data h !! a.
Proof.
  intros h1 Ex Hk Hok Hlo Hhi Hal Hus Hend.
  destruct Hok as [[Hno Hok]|(pre' & d & t & -> & Hd & Ht & Hok)].
  - destruct (front_alone pre cur PAGE_SIZE Hno) as [Hfr ->]. rewrite Hfr.
    destruct (uo_chain _ _ _ Hok) as (e & Hc & Hee).
    apply (trim_ok k h1 cur _ _ (pre ++ [Blk cur PAGE_SIZE true]) (cur + NODE_SIZE + PAGE_SIZE) Hok Hk Ex);
      [done..|by apply first_addr_same| |lia].
    apply (replace_chain ns _ 0 pre cur n true PAGE_SIZE true [] 0 e); try done.
    + by rewrite lookup_insert_eq.
    + intros q Hq. by apply lookup_insert_ne.
  - destruct (front_joins pre' d t cur n) as [Hfr ->]. rewrite Hfr.
    destruct (uo_chain _ _ _ Hok) as (e & Hc & Hee).
    apply (trim_ok k h1 cur _ _ (pre' ++ [Blk d (t + n + NODE_SIZE) true]) e Hok Hk Ex); [done..| |].
    + apply (chain_headers ns); [done|]. intros b Hb. apply lookup_insert_ne. intros Heq.
      destruct (chain_range _ _ _ _ _ _ Hc Hb) as (_ & H2 & _).
      apply chain_app in Hc as [H1 _]. apply elem_of_app in Hb as [Hb|Hb%list_elem_of_singleton].
      * destruct (chain_range _ _ _ _ _ _ H1 Hb) as (_ & H3 & H4). cbn [first_addr b_addr] in H3.
        unfold NODE_SIZE, NODE_T_SIZE in *. lia.
      * subst b. cbn [b_addr] in Hd, Heq. unfold NODE_SIZE in Hd. lia.
    + apply chain_app in Hc as [_ (_ & _ & _ & He & _)]. cbn [b_addr b_size first_addr] in He.
      specialize (Hend ltac:(by eexists _, _, _)). unfold NODE_SIZE, NODE_T_SIZE in *. lia.
Qed.

(** C22: [free] of a block in use of a well-formed heap, at least two pages below the stack.  When
    blocks in use follow, or
    when the block in front is in use, or when the free bytes from the block to
    the end are a page at most (otherwise the block in front keeps a size that goes beyond the new
    break: [free_beyond]), it returns, and the blocks are exactly [freed]: the block is free and
    joined with free neighbours on both sides, so that no two free blocks are neighbours if none
    were; when no block in use follows, one page is kept behind its header and the break goes there,
    rounded up to pages, and otherwise the break stays.  The heap is well-formed, the blocks in
    use are the others, and their bytes are as they were. *)
Theorem free_spec k h pre cur n post
    (Hok : uheap_ok (1 + k) h (pre ++ Blk cur n false :: post)) (Hk : 0 ≤ k)
    (Hus : cur + NODE_SIZE + 2 * PAGE_SIZE ≤ USTACK_BEGIN)
    (Hend : behind post = [] → free_before pre → joined n post ≤ PAGE_SIZE) :
  let bs' := freed pre cur n post in
  ∃ h', free (cur + NODE_SIZE) h = Ok h' ∧ uheap_ok k h' bs' ∧
    allocated bs' = allocated pre ++ allocated post ∧
    (no_neighbours (pre ++ Blk cur n false :: post) → no_neighbours bs') ∧
    (behind post = [] → heap_end h' = cur + NODE_SIZE + PAGE_SIZE ∧
       ub_at (brk_state h') = PAGE_SIZE * pages (cur + NODE_SIZE + PAGE_SIZE)) ∧
    (behind post ≠ [] → heap_end h' = heap_end h ∧ brk_state h' = brk_state h) ∧
    ∀ q m a, (q, m) ∈ allocated bs' → q ≤ a < q + m → data h' !! a = data h !! a.
Proof.
  intros bs'. pose proof (ublock _ _ _ _ _ Hok) as (_ & Hlo & Hcp & Hca & Hn & _ & Hhi & _). cbn [b_addr b_size] in *.
  unfold free. unfold NODE_SIZE at 1. rewrite (proj2 (Z.eqb_neq _ _)) by lia.
  replace (cur + NODE_SIZE - NODE_SIZE) with cur by lia.
  rewrite (uint_small 32 cur) by (unfold USTACK_BEGIN, NODE_SIZE, PAGE_SIZE in *; simpl; lia).
  destruct (mark_spec (1 + k) h pre cur n false true post Hok) as (ns1 & E1 & Hok1).
  change (status_of (Blk cur n true)) with MALLOC_FREE in E1. rewrite E1. cbn [rbind].
  destruct (join_next (1 + k) _ pre cur n post Hok1) as (ns2 & E2 & Hok2). rewrite nodes_twice in E2, Hok2.
  destruct (join_prev (1 + k) _ pre cur _ _ Hok2) as (ns3 & E3 & Hcur & Hok3). rewrite nodes_twice in E3, Hok3.
  apply rbind_Ok in E2 as (x1 & -> & E2). cbn [rbind]. apply rbind_Ok in E2 as (b1 & -> & E2). cbn [rbind].
  rewrite E2. cbn [rbind].
  apply rbind_Ok in E3 as (x2 & -> & E3). cbn [rbind]. apply rbind_Ok in E3 as (b2 & -> & E3). cbn [rbind].
  rewrite E3. cbn [rbind].
  pose proof (ublock _ _ _ _ _ Hok2) as (Ex & _ & _ & _ & Hj & _ & Hend2 & _ & _). cbn [b_addr b_size] in *.
  cbn [nodes with_nodes] in Hcur, Ex. rewrite Ex in Hcur.
  rewrite (header_ok cur (with_nodes ns3 h) _ Hcur). cbn [rbind next].
  pose proof (allocated_freed pre cur n post) as Hal. fold bs' in Hal. pose proof (freed_apart pre cur n post) as Hno.
  fold bs' in Hno. unfold freed in bs'. destruct (behind post) as [|c post'] eqn:Eb; cbn [first_addr].
  - change (0 =? 0) with true. cbv iota. fold (trim cur (with_nodes ns3 h)).
    destruct (trim_end k h ns3 pre cur (joined n post)) as (h' & E & Hok' & He & Hb & Hd);
      [done..|lia|done|done|by apply Hend|].
    exists h'. split; [exact E|]. split; [exact Hok'|]. split; [done|]. split; [done|]. split; [done|]. split; [done|].
    intros q m a Hq Ha. apply Hd. rewrite Hal in Hq.
    assert (Hq' : (q, m) ∈ allocated pre).
    { apply elem_of_app in Hq as [Hq|Hq]; [done|]. destruct post as [|[b0 t0 []] l]; cbn in Eb, Hq; try done; [by apply not_elem_of_nil in Hq|].
      subst l. by apply not_elem_of_nil in Hq. }
    destruct (uo_chain _ _ _ Hok) as (e & Hc & _). apply chain_app in Hc as [H1 _]. cbn [first_addr b_addr] in H1.
    destruct (allocated_range _ _ _ _ _ q m H1 Hq') as [G1 G2]. unfold NODE_T_SIZE in G1.
    pose proof (uo_first _ _ _ Hok) as Hf. destruct pre; cbn [app first_addr] in *; lia.
  - assert (Hc0 : b_addr c ≠ 0).
    { rewrite cons_app in Hok2. pose proof (ublock _ _ _ _ _ Hok2) as (_ & _ & ? & _). lia. }
    rewrite (proj2 (Z.eqb_neq _ _)) by done.
    assert (H : uheap_ok (1 + k) (with_nodes ns3 h) bs').
    { destruct Hok3 as [[Hnf H3]|(pre' & d & t & Epre & _ & _ & H3)]; unfold bs'.
      - rewrite (proj1 (front_alone _ _ _ Hnf)), <- app_assoc. exact H3.
      - rewrite Epre, (proj1 (front_joins _ _ _ _ _)), <- app_assoc. exact H3. }
    exists (with_nodes ns3 h). split; [reflexivity|].
    split; [apply (uheap_ok_le k (1 + k)); [done|lia]|done].
Qed.

(** ** realloc and calloc *)

(** The header in front of a block in use. *)
Lemma block_header k h bs p n : uheap_ok k h bs → (p, n) ∈ allocated bs →
  ∃ pre cur post, bs = pre ++ Blk cur n false :: post ∧ p = cur + NODE_SIZE ∧ 0 < cur ∧ cur < USTACK_BEGIN ∧
    heap_start h ≤ cur ∧ p + n ≤ ub_at (brk_state h) ∧ 0 ≤ n ∧
    nodes h !! cur = Some (KNode n MALLOC_RES (first_addr post 0) (last_addr pre 0)).
Proof.
  intros Hok Hp. apply list_elem_of_split in Hp as (l1 & l2 & El).
  destruct (allocated_split _ _ _ _ _ El) as (pre & [cur n' f] & post & -> & _ & _ & -> & -> & Hf).
  cbn [b_addr b_size b_free] in *. subst f.
  pose proof (ublock _ _ _ _ _ Hok) as (E & Hlo & Hcp & _ & Hn & _ & Hhi & _ & Hus). cbn [b_addr b_size] in *.
  destruct (uo_end _ _ _ Hok) as [_ Hat]. unfold NODE_SIZE, NODE_T_SIZE in *.
  exists pre, cur, post. split_and!; try done; lia.
Qed.

(** A smaller size: the block stays, its rest becomes free. *)
Lemma realloc_shrinks fuel k h pre cur n post sz : uheap_ok k h (pre ++ Blk cur n false :: post) →
  0 < sz ≤ n → sz ≤ 2 ^ 30 - 16 →
  ∃ ns bs', realloc fuel (cur + NODE_SIZE) sz h = Ok (cur + NODE_SIZE, with_nodes ns h) ∧
    uheap_ok k (with_nodes ns h) bs' ∧
    allocated bs' = allocated pre ++ (cur + NODE_SIZE, Z.min n (round_up sz)) :: allocated post.
Proof.
  intros Hok Hsz H30. destruct (round_up_ok sz ltac:(lia)) as [Hr Hrm].
  pose proof (ublock _ _ _ _ _ Hok) as (E & Hlo & Hcp & _ & Hn & _ & Hhi & _ & Hus). cbn [b_addr b_size] in *.
  unfold realloc. unfold NODE_SIZE, USTACK_BEGIN in *. rewrite (proj2 (Z.eqb_neq (cur + 16) 0)), (proj2 (Z.eqb_neq sz 0)) by lia.
  replace (cur + 16 - 16) with cur by lia. rewrite uint_small by (simpl; lia).
  rewrite (header_ok _ _ _ E). cbn [rbind size].
  assert (Hsame : n ≤ round_up sz → ∃ ns bs', (let* n0 := node_at cur h in if size n0 <? sz then
      let* (ret, h0) := malloc fuel sz h in let* n1 := node_at cur h0 in
      let* h0 := on_data (memcpy ret (cur + 16) (size n1)) h0 in let* h0 := free (cur + 16) h0 in Ok (ret, h0)
      else Ok (cur + 16, h)) = Ok (cur + 16, with_nodes ns h) ∧ uheap_ok k (with_nodes ns h) bs' ∧
    allocated bs' = allocated pre ++ (cur + 16, Z.min n (round_up sz)) :: allocated post).
  { intros Hge. exists (nodes h), (pre ++ Blk cur n false :: post). rewrite (header_ok _ _ _ E). cbn [rbind size].
    rewrite (proj2 (Z.ltb_ge n sz)) by lia. rewrite Z.min_l by lia.
    destruct h. split; [done|]. split; [exact Hok|]. by rewrite allocated_app. }
  destruct (Z.ltb_spec sz n) as [Hlt|Hge]; [|apply Hsame; lia].
  destruct (Z.ltb_spec (round_up sz) n) as [Hlt2|Hge2]; [|apply Hsame; lia]. clear Hsame.
  destruct (padding_spec k h pre cur n false post (round_up sz) Hok) as (ns & pad & rest & -> & Hok1); [lia|done|].
  cbn [rbind]. pose proof (ublock _ _ _ _ _ Hok1) as (E1 & _). cbn [b_addr b_size] in E1.
  rewrite (header_ok _ _ _ E1). cbn [rbind size]. rewrite (proj2 (Z.ltb_ge _ _)) by lia.
  rewrite Z.min_r by lia. eexists ns, _. split; [done|]. split; [exact Hok1|]. by rewrite allocated_app.
Qed.

Lemma on_data_ok {A} (f : mem → res (A * mem)) h a d : f (data h) = Ok (a, d) → on_data f h = Ok (with_data d h).
Proof. intros E. unfold on_data. by rewrite E. Qed.

(** The bytes from [a] on. *)
Lemma bytes_there k h bs a n : uheap_ok k h bs → heap_start h ≤ a → 0 ≤ n → a + n ≤ ub_at (brk_state h) →
  ∃ l, len l = n ∧ bytes_at (data h) a l.
Proof.
  intros Hok Ha Hn He. replace n with (Z.of_nat (Z.to_nat n)) in * by lia. clear Hn.
  revert a Ha He. induction (Z.to_nat n) as [|j IH]; intros a Ha He; [by exists []|].
  destruct (uo_data _ _ _ Hok a) as (b & Hb & Rb); [lia|].
  destruct (IH (a + 1)) as (l & Hl & Hbl); [lia..|]. exists (b :: l). split; [cbn; lia|]. done.
Qed.

Lemma uheap_ok_data k h bs d a n : uheap_ok k h bs → same_outside (data h) d a n →
  (∀ i, a ≤ i < a + n → ∃ b, d !! i = Some b ∧ 0 ≤ b < 256) → uheap_ok k (with_data d h) bs.
Proof.
  intros [H1 H2 H3 H4 H5 H6] Hs Hd. split; try done. intros i Hi. cbn [with_data data].
  destruct (decide (a ≤ i < a + n)); [by apply Hd|]. rewrite Hs by lia. by apply H6.
Qed.

Lemma bytes_at_get m a l i : bytes_at m a l → 0 ≤ i < len l → ∃ b, m !! (a + i) = Some b ∧ 0 ≤ b < 256 ∧ l !! Z.to_nat i = Some b.
Proof.
  intros H Hi. destruct (lookup_lt_is_Some_2 l (Z.to_nat i)) as [b Hb]; [lia|].
  destruct (bytes_at_lookup _ _ _ _ _ H Hb) as [E Rb]. rewrite Z2Nat.id in E by lia. by exists b.
Qed.

(** A larger size: the bytes are copied to a new block and the old one is freed. *)
Lemma realloc_moves fuel k h bs p n sz ret h1 : uheap_ok (grow_pages sz + k) h bs → 0 ≤ k →
  (p, n) ∈ allocated bs → n < sz ≤ 2 ^ 30 - 16 → (length bs < fuel)%nat →
  malloc fuel sz h = Ok (ret, h1) → ret ≠ 0 →
  ∃ d bs1, realloc fuel p sz h = (let* h' := free p (with_data d h1) in Ok (ret, h')) ∧
    uheap_ok k (with_data d h1) bs1 ∧ allocated bs1 ≡ₚ (ret, round_up sz) :: allocated bs ∧
    (∀ i, 0 ≤ i < n → d !! (ret + i) = data h !! (p + i)) ∧ same_outside (data h1) d ret n.
Proof.
  intros Hok Hk Hp Hsz Hf Em Hret.
  destruct (block_header _ _ _ _ _ Hok Hp) as (pre & cur & post & -> & -> & Hc0 & Hc1 & Hlo & Hhi & Hn & E).
  destruct (malloc_next fuel k h _ sz Hok Hk) as (ret' & h1' & bs1 & Em' & Hok1 & Hat & Hres & Hkp & Hst); [lia|done|].
  rewrite Em in Em'. injection Em' as <- <-.
  destruct Hres as [(? & _)|(_ & _ & l1 & l2 & El & El1)]; [done|].
  destruct (round_up_ok sz ltac:(lia)) as [Hr _].
  assert (Hp1 : (cur + NODE_SIZE, n) ∈ allocated bs1).
  { rewrite El in Hp. rewrite El1. set_solver. }
  destruct (block_header _ _ _ _ _ Hok1 Hp1) as (pre1 & cur1 & post1 & Ebs1 & Ecur & _ & _ & _ & _ & _ & E1).
  assert (cur1 = cur) as -> by lia. clear Ecur.
  destruct (uo_chain _ _ _ Hok1) as (e & Hc & Hee). destruct (uo_end _ _ _ Hok1) as [_ Heat].
  destruct (allocated_range _ _ _ _ _ ret (round_up sz) Hc) as [Rlo Rhi]; [rewrite El1; set_solver|].
  assert (Rst : first_addr bs1 e = heap_start h1).
  { rewrite <- (uo_first _ _ _ Hok1). rewrite Ebs1. by destruct pre1. }
  assert (Hdis : cur + NODE_SIZE + n + 16 ≤ ret ∨ ret + round_up sz + 16 ≤ cur + NODE_SIZE).
  { apply (allocated_disjoint _ _ _ _ _ l1 l2 ret _ (cur + NODE_SIZE) n Hc El1). by rewrite <- El. }
  unfold NODE_SIZE, NODE_T_SIZE, USTACK_BEGIN in *.
  destruct (bytes_there _ h _ (cur + 16) n Hok) as (l & Hl & Hb); [lia..|].
  assert (Hb1 : bytes_at (data h1) (cur + 16) l).
  { clear -Hb Hl Hkp Hlo Hhi Hat. assert (G : cur + 16 + len l ≤ ub_at (brk_state h)) by lia. clear Hl Hhi.
    assert (Hge : heap_start h ≤ cur + 16) by lia. revert Hge G Hb. generalize (cur + 16). clear Hlo.
    induction l as [|b l IH]; intros a Ha Hae H; [done|]. destruct H as (E & Rb & H). cbn [length] in Hae.
    split; [rewrite (kept_at _ _ _ Hkp) by lia; exact E|]. split; [done|]. apply IH; [lia|lia|done]. }
  destruct (memcpy_spec l ret (cur + 16) (data h1) Hb1) as (d & Ed & Hd & Ho).
  { intros i Hi. destruct (uo_data _ _ _ Hok1 i) as (b & -> & _); [lia|]. by eexists. }
  { lia. }
  rewrite Hl in Ed, Ho. exists d, bs1. split; [|split; [|split; [|split; [|exact Ho]]]].
  - unfold realloc. rewrite (proj2 (Z.eqb_neq (cur + 16) 0)), (proj2 (Z.eqb_neq sz 0)) by lia.
    unfold NODE_SIZE. replace (cur + 16 - 16) with cur by lia. rewrite uint_small by (simpl; lia).
    rewrite (header_ok _ _ _ E). cbn [rbind size]. rewrite (proj2 (Z.ltb_ge sz n)) by lia. cbn [rbind].
    rewrite (header_ok _ _ _ E). cbn [rbind size]. rewrite (proj2 (Z.ltb_lt n sz)) by lia.
    rewrite Em. cbn [rbind]. rewrite (header_ok _ _ _ E1). cbn [rbind size]. by rewrite (on_data_ok _ _ _ _ Ed).
  - apply (uheap_ok_data k h1 bs1 d ret n Hok1 Ho). intros i Hi.
    destruct (bytes_at_get d ret l (i - ret) Hd) as (b & Hb2 & Rb & _); [lia|].
    replace (ret + (i - ret)) with i in Hb2 by lia. by exists b.
  - rewrite El1, El. symmetry. apply Permutation_middle.
  - intros i Hi. destruct (bytes_at_get d ret l i Hd) as (b & -> & _ & Hg); [lia|].
    destruct (bytes_at_get _ _ _ i Hb) as (b' & -> & _ & Hg'); [lia|]. congruence.
Qed.

(** When [malloc] gives a block, [calloc] gives the same, filled with zeros. *)
Lemma calloc_zeros fuel k h bs nelem elsize p h1 : heap_of (grow_pages (nelem * elsize) + k) h bs → 0 ≤ k →
  0 < nelem → 0 < elsize → nelem * elsize ≤ 2 ^ 30 - 16 → (length bs < fuel)%nat →
  malloc fuel (nelem * elsize) h = Ok (p, h1) → p ≠ 0 →
  ∃ d bs1, calloc fuel nelem elsize h = Ok (p, with_data d h1) ∧ uheap_ok k (with_data d h1) bs1 ∧
    allocated bs1 ≡ₚ (p, round_up (nelem * elsize)) :: allocated bs ∧
    (∀ i, p ≤ i < p + nelem * elsize → d !! i = Some 0) ∧ same_outside (data h1) d p (nelem * elsize).
Proof.
  intros Hh Hk Hn He Hsz Hf Em Hp. set (sz := nelem * elsize) in *. assert (H0 : 0 < sz) by (unfold sz; nia).
  change (2 ^ 30) with 1073741824 in *. destruct (round_up_ok sz ltac:(lia)) as [Hr _].
  assert (H : ∃ bs1, uheap_ok k h1 bs1 ∧ ∃ l1 l2, allocated bs = l1 ++ l2 ∧ allocated bs1 = l1 ++ (p, round_up sz) :: l2).
  { destruct (malloc_any fuel k h bs sz Hh Hk ltac:(simpl; lia) Hf) as (p' & h' & bs' & E & _ & Hres & Hok' & _).
    rewrite Em in E. injection E as <- <-. exists bs'. split; [by apply Hok'|]. by destruct Hres as [(? & _)|(_ & _ & ?)]. }
  destruct H as (bs1 & Hok1 & l1 & l2 & El & El1).
  assert (Hin : (p, round_up sz) ∈ allocated bs1) by (rewrite El1; set_solver).
  destruct (block_header _ _ _ _ _ Hok1 Hin) as (pre & cur & post & _ & -> & _ & _ & Hlo & Hhi & _).
  destruct (memset_zero (Z.to_nat sz) (cur + NODE_SIZE) (data h1)) as (d & Ed & Ho & Hz).
  { intros i Hi. destruct (uo_data _ _ _ Hok1 i) as (b & -> & _); [unfold NODE_SIZE in *; lia|]. by eexists. }
  rewrite Z2Nat.id in Ho, Hz by lia. exists d, bs1. split; [|split; [|split; [|by split]]].
  - unfold calloc. fold sz. rewrite (proj2 (Z.eqb_neq nelem 0)), (proj2 (Z.eqb_neq elsize 0)) by lia. cbn [orb].
    rewrite uint_small, sint_small by (simpl; lia). rewrite Em. cbn [rbind].
    rewrite (on_data_ok _ _ (cur + NODE_SIZE) d); [done|]. unfold memset. by rewrite Ed.
  - apply (uheap_ok_data k h1 bs1 d (cur + NODE_SIZE) sz Hok1 Ho). intros i Hi. rewrite Hz by done.
    exists 0. split; [done|lia].
  - rewrite El1, El. symmetry. apply Permutation_middle.
Qed.
End umalloc.

(** ** A heap of the demonstration task *)
Definition demo_uheap : @uheap (@user_brk pre_paging boot_alloc) :=
  @UHeap (@user_brk pre_paging boot_alloc) 0 0 ∅ demo_task ∅.

Lemma demo_heap_of : @heap_of (@user_brk pre_paging boot_alloc) (grow_pages 16 + 1) demo_uheap [].
Proof.
  left. split; [done|]. split; [done|]. change (grow_pages 16 + 1) with 3.
  exists ∅, (demo_mem zeros). exact demo_heap.
Qed.

Lemma malloc_spec_witness :
  let UB := @user_brk pre_paging boot_alloc in
  ∃ p h' bs', malloc 2 16 demo_uheap = Ok (p, h') ∧ heap_of 1 h' bs' ∧
    (p = 0 ∧ wider [] (allocated bs') ∧ (ends_reserved [] ∨ USTACK_BEGIN < UMEM_BEGIN + PAGE_SIZE + 16) ∨
     p ≠ 0 ∧ p mod 16 = 0 ∧ 16 ≤ 16 ∧ heap_start h' < p ∧ p + 16 ≤ ub_at (brk_state h') ∧
     allocated bs' ≡ₚ [(p, 16)] ∧
     ∀ q n, (q, n) ∈ ([] : list (Z * Z)) → q + n + 16 ≤ p ∨ p + 16 + 16 ≤ q) ∧
    UMEM_BEGIN ≤ ub_at (brk_state h') ∧ kept demo_uheap h'.
Proof.
  apply (@malloc_spec (@user_brk pre_paging boot_alloc) 2 1 demo_uheap [] 16);
    [exact demo_heap_of|lia|lia|cbn; lia].
Defined.

(** The first block, and its end. *)
Lemma free_spec_witness :
  let UB := @user_brk pre_paging boot_alloc in
  ∃ p h1 h' bs', malloc 2 16 demo_uheap = Ok (p, h1) ∧ free p h1 = Ok h' ∧ uheap_ok 0 h' bs' ∧ allocated bs' = [].
Proof.
  intros UB. destruct (malloc_first 2 1 demo_uheap 16) as (p & h1 & bs1 & E & _ & _ & Hres & _ & _ & Hok);
    [done|exact (ub_le 3 3 demo_task ltac:(exists ∅, (demo_mem zeros); exact demo_heap) ltac:(lia))|lia|lia|lia|].
  destruct Hres as [(_ & _ & [(bs0 & b & Hb & _)|Hfar])|(Hp & _)].
  - by destruct bs0.
  - exfalso. revert Hfar. vm_compute. discriminate.
  - destruct (Hok Hp) as (Hok1 & rest & -> & Hal & Hpv). change (p = UMEM_BEGIN + 16) in Hpv.
    destruct (free_spec 0 h1 [] (p - NODE_SIZE) 16 rest Hok1) as (h' & E' & Hok' & Hal' & _).
    + lia.
    + rewrite Hpv. vm_compute. discriminate.
    + intros _ (pre' & d & t & Hx). by destruct pre'.
    + exists p, h1, h', (freed [] (p - NODE_SIZE) 16 rest). split; [exact E|]. split; [by replace p with (p - NODE_SIZE + NODE_SIZE) by lia|].
      split; [exact Hok'|]. by rewrite Hal', Hal.
Defined.

(** The calls of a small program. *)
Inductive call := CMalloc (n : Z) | CFree (i : nat).

Fixpoint calls {UB : Ubrk} (l : list call) (ps : list Z) (h : uheap) : res (list Z * uheap) :=
  match l with
  | [] => Ok (ps, h)
  | CMalloc n :: l => let* (p, h) := malloc 99 n h in calls l (ps ++ [p]) h
  | CFree i :: l => let* p := deref (ps !! i) in let* h := free p h in calls l ps h
  end.

(** The second block takes the rest of the two pages exactly; from then on every call
    returns [NULL]. *)
Example malloc_stuck :
  (let* (ps, h) := @calls (@user_brk pre_paging boot_alloc) [CMalloc 16; CMalloc 8144; CMalloc 16; CMalloc 5000] [] demo_uheap in
   Ok ps) = Ok [0x10000010; 0x10000030; 0; 0].
Proof. vm_compute. reflexivity. Qed.

(** The block that is freed is joined to the one in front, which keeps its size when the
    break goes back: the next block, of 9000 bytes, ends behind the break. *)
Example free_beyond :
  (let* (ps, h) := @calls (@user_brk pre_paging boot_alloc) [CMalloc 16; CMalloc 12000; CFree 0; CFree 1; CMalloc 9000] [] demo_uheap in
   Ok (ps, ub_at (brk_state h))) = Ok ([0x10000010; 0x10000030; 0x10000010], 0x10002000).
Proof. vm_compute. reflexivity. Qed.
