(* ===== verification/Execve.v ===== *)
(** * Execve: a program is started

    The steps of [execve] put together: the files it opens and closes, the copies of the
    arguments, the new memory and the stack. *)

From S2P Require Import Prelude Malloc Headers Paging Vm CString Vga Fs Names Blocks Nodes Demo Ramfs Vfs Files Initrd Spaces Space Fork User Elf Exec Stack Clear Ubreak.

(** ** The file calls on the program *)
Section program.
Context {MA : Malloc} {SY : Sys}.

Lemma dir_ok_heap s L L' h ps es : dir_ok s L ps es → m_rep h L' → L ⊆ L' → (∀ p, p ∈ L' → 0 < p) →
  dir_ok (set_heap h s) L' ps es.
Proof.
  intros ((_ & _ & D1 & D2 & D3 & D4 & D5 & D6) & Hrest) Hh HL Hpos. split; [|exact Hrest].
  split; [done|]. split; [done|]. simpl. split_and!; try done; set_solver.
Qed.

Lemma reads_entry_at s fd e a b : reads_entry s fd e a →
  reads_entry (at_fd fd (Fildes (e_node e) b O_RDONLY) s) fd e b.
Proof.
  intros (H1 & H2 & H3 & H4 & H5). split; [done|]. split; [unfold at_fd; simpl; by rewrite length_insert|].
  split; [apply get_at_fd; rewrite H2; lia|]. by split.
Qed.

Lemma at_fd_at_fd fd f g s : at_fd fd f (at_fd fd g s) = at_fd fd f s.
Proof. unfold at_fd. simpl. by rewrite list_insert_insert_eq. Qed.

(** [lseek] to the end gives the size, to the start it gives 0. *)
Lemma lseek_entry s fd e a : reads_entry s fd e a → len (e_data e) < 2 ^ 31 →
  lseek fd 0 SEEK_END s = Ok (len (e_data e), at_fd fd (Fildes (e_node e) (len (e_data e)) O_RDONLY) s) ∧
  lseek fd 0 SEEK_SET s = Ok (0, at_fd fd (Fildes (e_node e) 0 O_RDONLY) s).
Proof.
  intros (Hr & Hf & Eg & Hnode & n & p & En & Hreg & _ & _ & Hsz & _) Hlen.
  destruct Hreg as (_ & _ & Hfifo & _ & _ & _ & _ & Hls).
  unfold lseek, lseek_vfs. rewrite (open_fd_some _ _ _ Eg); [|done|done].
  cbn [rbind vfs_node]. unfold get_node. rewrite En. cbn [deref rbind]. rewrite Hfifo, Hls.
  change (SEEK_END =? SEEK_SET) with false. change (SEEK_END =? SEEK_CUR) with false.
  change (SEEK_END =? SEEK_END) with true. change (SEEK_SET =? SEEK_SET) with true. cbv iota.
  rewrite !put_fd_ok by (rewrite Hf; lia). cbn [rbind]. rewrite Hsz, Z.add_0_r, sint_small by lia.
  by rewrite sint_small by lia.
Qed.

Lemma close_entry s fd e a : reads_entry s fd e a →
  close fd s = Ok (0, at_fd fd (Fildes 0 0 0) s).
Proof.
  intros (Hr & Hf & Eg & Hnode & n & p & En & Hreg & _).
  destruct Hreg as (_ & _ & _ & _ & _ & _ & Hcl & _).
  unfold close, close_vfs. rewrite (open_fd_some _ _ _ Eg); [|done|done].
  cbn [rbind vfs_node]. unfold get_node. rewrite En. cbn [deref rbind]. rewrite Hcl. cbn [rbind].
  change (0 <? 0) with false. cbv iota. by rewrite put_fd_ok by (rewrite Hf; lia).
Qed.

(** ** Descriptors that are closed *)
Definition close_flagged (f : fildes_t) : fildes_t :=
  if has (oflag f) O_CLOEXEC then Fildes 0 0 0 else f.

(** What is to be closed is open on a node without a function of its own for it. *)
Definition plain_close (s : fs) (f : fildes_t) : Prop :=
  has (oflag f) O_CLOEXEC = true → vfs_node f ≠ 0 ∧
    ∃ n, vnodes s !! vfs_node f = Some n ∧ n_close n = None.

Lemma close_plain s i f : len (files s) = OPEN_MAX → get_fd i s = Ok f → plain_close s f →
  has (oflag f) O_CLOEXEC = true → close i s = Ok (0, at_fd i (Fildes 0 0 0) s).
Proof.
  intros Hl Eg Hp Hf. destruct (Hp Hf) as (Hn & n & En & Hc).
  unfold close, close_vfs. rewrite (open_fd_some _ _ _ Eg) by done. cbn [rbind].
  unfold get_node. rewrite En. cbn [deref rbind]. rewrite Hc. cbn [rbind].
  change (0 <? 0) with false. cbv iota. rewrite put_fd_ok; [done|]. by eapply get_fd_range.
Qed.

Context {PA : PageAlloc}.

Definition closing (s : fs) (i : Z) : fs :=
  set_files ((close_flagged <$> take (Z.to_nat i) (files s)) ++ drop (Z.to_nat i) (files s)) s.

Lemma closing_get s i j : 0 ≤ i ≤ j → aget (files (closing s i)) j = aget (files s) j.
Proof.
  intros Hi. unfold closing, aget. simpl. cif; [lia|].
  destruct (Z.le_gt_cases (len (files s)) i) as [Hle|Hgt].
  - rewrite !lookup_ge_None_2; [done|lia|]. rewrite length_app, length_fmap, length_take, length_drop. lia.
  - rewrite lookup_app_r by (rewrite length_fmap, length_take; lia).
    rewrite length_fmap, length_take, lookup_drop. f_equal. lia.
Qed.

Lemma closing_next s i f : 0 ≤ i → aget (files s) i = Some f →
  set_files (<[Z.to_nat i := close_flagged f]> (files (closing s i))) s = closing s (i + 1).
Proof.
  intros Hi Ef. unfold closing. f_equal. simpl. unfold aget in Ef.
  replace (i <? 0) with false in Ef by lia. pose proof (lookup_lt_Some _ _ _ Ef) as Hlt.
  replace (Z.to_nat (i + 1)) with (S (Z.to_nat i)) by lia.
  rewrite (take_S_r _ _ _ Ef), (drop_S _ _ _ Ef), fmap_app.
  rewrite insert_app_r_alt by (rewrite length_fmap, length_take; lia).
  rewrite length_fmap, length_take, Nat.min_l, Nat.sub_diag by lia.
  cbn [insert list_insert fmap list_fmap]. by rewrite <- app_assoc.
Qed.

Lemma close_on_exec_spec k : len (files (k_fs k)) = OPEN_MAX →
  (∀ f, f ∈ files (k_fs k) → plain_close (k_fs k) f) →
  close_on_exec k = Ok (with_fs (set_files (close_flagged <$> files (k_fs k)) (k_fs k)) k).
Proof.
  intros Hl Hp. unfold close_on_exec. set (s := k_fs k) in *.
  destruct (for_range_inv (λ i k', k' = with_fs (closing s i) k) 0 OPEN_MAX (λ i k,
    let* f := get_fd i (k_fs k) in
    if has (oflag f) O_CLOEXEC then let* (_, k) := on_fs (close i) k in Ok k else Ok k) k)
    as (k' & E & ->).
  { done. }
  { unfold closing. change (Z.to_nat 0) with 0%nat. rewrite take_0, drop_0. by destruct k as [[] ?]. }
  { intros i k1 Hi ->. eexists. split; [|done].
    destruct (aget_is_Some (files s) i) as [f Ef]; [lia|].
    assert (Eg : get_fd i (closing s i) = Ok f) by (unfold get_fd; rewrite closing_get by lia; by rewrite Ef).
    unfold with_fs at 1. cbn [k_fs]. rewrite Eg. cbn [rbind].
    pose proof (closing_next s i f ltac:(lia) Ef) as Hnx. unfold close_flagged in Hnx at 1.
    assert (Hlc : len (files (closing s i)) = OPEN_MAX).
    { unfold closing. simpl. rewrite length_app, length_fmap, length_take, length_drop. lia. }
    destruct (has (oflag f) O_CLOEXEC) eqn:Hc.
    - unfold on_fs. cbn [k_fs with_fs]. rewrite (close_plain _ i f); [|done|done| |done].
      + cbn [rbind]. f_equal. unfold with_fs. cbn [k_uvm]. f_equal. rewrite <- Hnx. done.
      + apply Hp. unfold aget in Ef. cif; [done|]. by apply list_elem_of_lookup_2 in Ef.
    - f_equal. unfold with_fs. f_equal. rewrite <- Hnx. unfold closing at 1. f_equal.
      rewrite list_insert_id; [done|]. pose proof (closing_get s i i ltac:(lia)) as Hg. rewrite Ef in Hg.
      unfold aget in Hg. cif; [done|]. exact Hg. }
  rewrite E. unfold closing. rewrite take_ge, drop_ge, app_nil_r by lia. done.
Qed.

(** ** The copies of the arguments *)
Context {QA : QuietAlloc}.

Definition with_heap (h : mstate) (k : kst) : kst := Kst (set_heap h (k_fs k)) (k_uvm k).

Definition no_mem (k : kst) : kst := with_fs (set_errno ENOMEM (k_fs k)) k.

Lemma kmalloc_kst n k L : m_rep (heap (k_fs k)) L → 0 < n ≤ 2 ^ 20 →
  ∃ p h, on_fs (kmalloc n) k = Ok (p, if p =? 0 then no_mem (with_heap h k) else with_heap h k) ∧
    ((p = 0 ∧ m_rep h L) ∨ (0 < p ∧ p ∉ L ∧ m_rep h ({[p]} ∪ L))).
Proof.
  intros Hm Hn. unfold on_fs, kmalloc. destruct (malloc_ok n _ L Hm Hn) as (p & h & -> & H).
  exists p, h. split; [|done]. cbn [rbind]. by destruct (p =? 0).
Qed.

Lemma strs_bytes_elem cs l : cs ∈ l → len cs + 1 ≤ len (strs_bytes l).
Proof.
  induction l as [|x l IH]; [by intros ?%not_elem_of_nil|].
  assert (E : len (strs_bytes (x :: l)) = len x + 1 + len (strs_bytes l)) by by rewrite !strs_bytes_length.
  intros [->|Hin]%elem_of_cons; [lia|]. specialize (IH Hin). lia.
Qed.

(** [r] is what the copying of the strings [l] returned, [L'] are the blocks then. *)
Definition copied {A} (r : option A) (P : A → Prop) (L : gset Z) (k k' : kst) : Prop :=
  match r with
  | None => ∃ h L', k' = no_mem (with_heap h k) ∧ L ⊆ L' ∧ m_rep h L'
  | Some x => P x ∧ k' = with_heap (heap (k_fs k')) k
  end.

Lemma union_swap (b : Z) (X L : gset Z) : {[b]} ∪ X ∪ L = X ∪ ({[b]} ∪ L).
Proof. set_solver. Qed.

Lemma copy_strings_spec V m fuel v ps l i k L : user V (k_mm k) m →
  Forall2 (λ p cs, bytes_in m p (str_bytes cs)) ps l → Forall chars l →
  (∀ j p, aget ps j = Some p → load32 (u32 (v + 4 * (i + j))) (k_mm k) = Ok p) →
  len (strs_bytes l) ≤ 2 ^ 20 → len (strs_bytes l) < Z.of_nat fuel → m_rep (heap (k_fs k)) L →
  ∃ r k', copy_strings (length l) fuel v i k = Ok (r, k') ∧
    copied r (λ x, x.*2 = l ∧ NoDup x.*1 ∧ (∀ p, p ∈ x.*1 → 0 < p ∧ p ∉ L) ∧
      m_rep (heap (k_fs k')) (list_to_set x.*1 ∪ L)) L k k'.
Proof.
  intros HU H2. revert i k L HU. induction H2 as [|p cs ps l Hp H2 IH]; intros i k L HU Hc Hld Hl Hf Hm.
  { exists (Some []), k. split; [done|]. split; [|by destruct k as [[] ?]].
    split; [done|]. split; [constructor|]. split; [by intros ? ?%not_elem_of_nil|].
    cbn. by rewrite union_empty_l_L. }
  apply list.Forall_cons in Hc as [Hcs Hc].
  assert (E : len (strs_bytes (cs :: l)) = len cs + 1 + len (strs_bytes l)) by by rewrite !strs_bytes_length.
  rewrite E in *. cbn [length copy_strings].
  pose proof (Hld 0 p eq_refl) as E0. rewrite Z.add_0_r in E0. rewrite E0. cbn [rbind]. clear E0.
  rewrite (load_str_at V _ m p cs) by (done || lia). cbn [rbind].
  destruct (kmalloc_kst (len cs + 1) k L Hm ltac:(lia)) as (b & h & -> & [[-> Hh]|(Hb & HbL & Hh)]).
  { cbn [rbind]. exists None. eexists. split; [done|]. by exists h, L. }
  cbn [rbind]. replace (b =? 0) with false by lia.
  destruct (IH (i + 1) (with_heap h k) ({[b]} ∪ L)) as (r & k' & E' & Hr); [done|done| |lia|lia|done|].
  { intros j q Hq. replace (i + 1 + j) with (i + (j + 1)) by lia. apply Hld.
    pose proof (aget_range _ _ _ Hq). unfold aget in *. cif; [lia|]. cif; [lia|].
    by replace (Z.to_nat (j + 1)) with (S (Z.to_nat j)) by lia. }
  rewrite E'. cbn [rbind]. eexists _, k'. split; [done|].
  destruct r as [x|]; cbn [fmap option_fmap option_map copied] in *.
  - destruct Hr as ((<- & Hnd & Hx & Hm') & Hk'). split; [|exact Hk'].
    split; [done|]. cbn [fmap list_fmap fst]. split; [|split].
    + apply list.NoDup_cons. split; [|done]. intros Hin. apply (Hx b Hin).
      by apply elem_of_union_l, elem_of_singleton.
    + intros q [->|Hq]%elem_of_cons; [done|]. destruct (Hx q Hq) as [? Hn]. split; [done|].
      intros HL. by apply Hn, elem_of_union_r.
    + change (m_rep (heap (k_fs k')) ({[b]} ∪ list_to_set x.*1 ∪ L)). by rewrite union_swap.
  - destruct Hr as (h' & L' & -> & HL & Hm'). exists h', L'. split; [done|]. split; [|done]. intros y Hy. by apply HL, elem_of_union_r.
Qed.

(** [argv] or [envp]: null, or a vector of the strings [l]. *)
Definition vector_arg (m : umem) (v : Z) (l : list (list Z)) : Prop :=
  (v = 0 ∧ l = []) ∨ (0 < v ∧ v + 4 * (len l + 1) ≤ 2 ^ 32 ∧ vector_at m v l).

Lemma vector_size_bounds l : 4 ≤ vector_size l ∧ len (strs_bytes l) ≤ vector_size l ∧ 4 * len l ≤ vector_size l.
Proof. destruct l; unfold vector_size; [cbn; lia|lia]. Qed.

Lemma count_arg V s m v l fuel : user V s m → vector_arg m v l → len l < Z.of_nat fuel →
  count fuel v s = Ok (len l).
Proof. intros HU [[-> ->]|(H1 & H2 & H3)] Hf; [done|]. by apply (count_vector V s m). Qed.

Lemma copy_vector_spec V m fuel v l k L : user V (k_mm k) m → vector_arg m v l → Forall chars l →
  vector_size l ≤ 2 ^ 20 → vector_size l < Z.of_nat fuel → m_rep (heap (k_fs k)) L →
  ∃ r k', copy_vector fuel v (len l) k = Ok (r, k') ∧
    copied r (λ x, x.2.*2 = l ∧ vector_ok x (vector_blocks x ∪ L) ∧
      (∀ p, p ∈ vector_blocks x → 0 < p ∧ p ∉ L) ∧
      m_rep (heap (k_fs k')) (vector_blocks x ∪ L)) L k k'.
Proof.
  intros HU Hv Hc Hsz Hf Hm. destruct (vector_size_bounds l) as (B1 & B2 & B3). unfold copy_vector.
  destruct Hv as [[-> ->]|(H0 & Hr & ps & Hw & H2 & Hps)].
  { exists (Some (0, [])), k. split; [done|]. split; [|by destruct k as [[] ?]].
    unfold vector_ok, strings_ok, vector_blocks. cbn. rewrite union_empty_l_L.
    split; [done|]. split; [|split; [by intros ? ?%elem_of_empty|done]].
    split; [|done]. split; [constructor|]. split; [by intros ? ?%not_elem_of_nil|done]. }
  destruct (decide (l = [])) as [->|Hl0].
  { exists (Some (0, [])), k. split; [done|]. split; [|by destruct k as [[] ?]].
    unfold vector_ok, strings_ok, vector_blocks. cbn. rewrite union_empty_l_L.
    split; [done|]. split; [|split; [by intros ? ?%elem_of_empty|done]].
    split; [|done]. split; [constructor|]. split; [by intros ? ?%not_elem_of_nil|done]. }
  assert (0 < len l) by (destruct l; [done|cbn [length]; lia]).
  replace (0 <? len l) with true by lia. rewrite uint_small by lia.
  destruct (kmalloc_kst (len l * 4) k L Hm ltac:(lia)) as (b & h & -> & [[-> Hh]|(Hb & HbL & Hh)]).
  { cbn [rbind]. exists None. eexists. split; [done|]. by exists h, L. }
  cbn [rbind]. replace (b =? 0) with false by lia. rewrite Nat2Z.id.
  destruct (copy_strings_spec V m fuel v ps l 0 (with_heap h k) ({[b]} ∪ L)) as (r & k' & E & Hx);
    [done|done|done| |lia|lia|done|].
  { apply Forall2_length in H2.
    intros j p Hp. pose proof (aget_range _ _ _ Hp) as Hj. rewrite Z.add_0_l.
    pose proof (aget_forall _ _ _ _ Hps Hp) as Hp32. cbv beta in Hp32. rewrite uint_small by lia.
    apply (load32_word V _ m); [done| |lia]. apply (word_at m v (ps ++ [0])); [done|].
    unfold aget in *. cif; [done|]. by apply lookup_app_l_Some. }
  rewrite E. cbn [rbind]. eexists _, k'. split; [done|].
  destruct r as [x|]; cbn [fmap option_fmap option_map copied] in *.
  - destruct Hx as ((<- & Hnd & Hx & Hm') & Hk'). split; [|exact Hk'].
    assert (Hbl : vector_blocks (b, x) = {[b]} ∪ list_to_set x.*1)
      by (unfold vector_blocks; by destruct x).
    rewrite Hbl. split; [done|]. split; [split|split].
    + split; [done|]. split; [|done]. cbn [snd]. intros p Hp. apply elem_of_union_l, elem_of_union_r.
      by apply elem_of_list_to_set.
    + intros _. cbn [fst snd]. split; [set_solver|]. intros Hin. apply (Hx b Hin).
      by apply elem_of_union_l, elem_of_singleton.
    + intros p [->%elem_of_singleton|Hp%elem_of_list_to_set]%elem_of_union; [done|].
      destruct (Hx p Hp) as [? Hn]. split; [done|]. intros HL. by apply Hn, elem_of_union_r.
    + by rewrite union_swap.
  - destruct Hx as (h' & L' & -> & HL & Hm'). exists h', L'. split; [done|]. split; [|done]. intros y Hy. by apply HL, elem_of_union_r.
Qed.

Lemma union_del (b : Z) (X L : gset Z) : L ∖ ({[b]} ∪ X) = L ∖ X ∖ {[b]}.
Proof. set_solver. Qed.

Lemma blocks_back (X Y L : gset Z) : (∀ p, p ∈ Y ∪ X → 0 < p ∧ p ∉ L) →
  (Y ∪ (X ∪ L)) ∖ X ∖ Y = L ∧ (Y ∪ (X ∪ L)) ∖ Y ∖ X = L.
Proof. intros H. split; set_solver. Qed.

Lemma drop_new (b : Z) (L : gset Z) : b ∉ L → ({[b]} ∪ L) ∖ {[b]} = L.
Proof. set_solver. Qed.

Lemma free_strings_spec l k L : NoDup l.*1 → (∀ p, p ∈ l.*1 → p ∈ L) → m_rep (heap (k_fs k)) L →
  ∃ h, free_strings l k = Ok (with_heap h k) ∧ m_rep h (L ∖ list_to_set l.*1).
Proof.
  induction l as [|[p cs] l IH]; intros Hnd Hin Hm.
  - exists (heap (k_fs k)). split; [by destruct k as [[] ?]|]. cbn. by rewrite difference_empty_L.
  - cbn [fmap list_fmap fst] in *. apply list.NoDup_cons in Hnd as [Hp Hnd].
    destruct IH as (h & E & Hh); [done|intros q Hq; apply Hin; by right|done|].
    destruct (mfree_ok p h _ Hh) as (h' & E' & Hh').
    { apply elem_of_difference. split; [apply Hin; by left|]. by rewrite elem_of_list_to_set. }
    exists h'. cbn [free_strings]. rewrite E. cbn [rbind]. unfold kfree_k, kfree. simpl. rewrite E'.
    split; [done|]. change (m_rep h' (L ∖ ({[p]} ∪ list_to_set l.*1))). by rewrite union_del.
Qed.

Lemma free_vector_spec x k L : vector_ok x L → x.2 ≠ [] → m_rep (heap (k_fs k)) L →
  ∃ h, free_vector x k = Ok (with_heap h k) ∧ m_rep h (L ∖ vector_blocks x).
Proof.
  intros [(Hnd & Hin & _) Hq] Hne Hm. destruct (Hq Hne) as [HqL Hqx].
  destruct (free_strings_spec x.2 k L Hnd Hin Hm) as (h & E & Hh).
  destruct (mfree_ok x.1 h _ Hh) as (h' & E' & Hh').
  { apply elem_of_difference. split; [done|]. by rewrite elem_of_list_to_set. }
  exists h'. unfold free_vector. rewrite E. cbn [rbind]. unfold kfree_k, kfree. simpl. rewrite E'.
  split; [done|]. assert (vector_blocks x = {[x.1]} ∪ list_to_set x.2.*1) as ->.
  { unfold vector_blocks. by destruct x as [q [|]]. }
  by rewrite union_del.
Qed.

(** ** The new memory *)
Lemma user_errno V s m e : user V s m → user V (with_errno e s) m.
Proof.
  intros [H1 H2 H3 H4 H5 H6 [P1 P2 P3]].
  constructor; [exact H1|exact H2|exact H3|exact H4|exact H5|exact H6|].
  constructor; [exact P1|exact P2|exact P3].
Qed.

Lemma ready_errno k s e : ready_for k s → ready_for k (with_errno e s).
Proof. intros [H1 H2 H3]. split; [|done|done]. unfold roomy in *. by apply (quiet_ext _ s). Qed.

Definition STACK_PN : Z := USTACK_END / PAGE_SIZE.
Definition STACK_FLAGS : Z := Z.lor (Z.lor PF_PRES PF_USER) PF_RW.

Lemma stack_page_spec V s m k : user V s m → ready_for (k + 1) s → 0 ≤ k → m !! STACK_PN = None →
  ∃ c s', (let* (fr, s1) := frame_alloc s in page_map USTACK_END fr STACK_FLAGS (cr3 s) s1)
      = Ok (STACK_PAGE, s') ∧
    user V s' (<[STACK_PN := (STACK_FLAGS, c)]> m) ∧ len c = PAGE_SIZE ∧ ready_for k s' ∧
    spaces s' = spaces s.
Proof.
  intros HU [R1 R2 R3] Hk Hm.
  destruct (new_user_page V s m STACK_PN STACK_FLAGS k HU R1 R2 R3 Hk)
    as (fr & s1 & c & s2 & E1 & Ec & E2 & HU2 & Hc & Q1 & Q2 & Q3 & Hsp); [done|done|done|].
  exists c, s2. rewrite E1. cbn [rbind]. split; [exact E2|].
  injection Hsp as Hs1 Hs2. split; [unfold user; by rewrite Hs2|]. split; [done|].
  split; [by split|]. unfold spaces. by rewrite Hs1, Hs2.
Qed.

(** A page that no byte was written in. *)
Lemma wrote_page m a bs m' n : wrote m a bs m' →
  (∀ b, a ≤ b < a + len bs → b / PAGE_SIZE ≠ n) → whole m → m' !! n = m !! n.
Proof.
  intros [W S] Hn Hw. specialize (S n). unfold shape in S.
  destruct (m !! n) as [[f c]|] eqn:Em, (m' !! n) as [[f' c']|] eqn:Em'; try done.
  injection S as -> Hl. do 2 f_equal. pose proof (Hw n _ Em) as Hc. cbn [snd] in Hc.
  apply list_eq. intros i. destruct (decide (i < length c)%nat) as [Hi|Hi].
  2:{ rewrite !lookup_ge_None_2; [done|lia|lia]. }
  set (b := n * PAGE_SIZE + Z.of_nat i).
  assert (Hb : b / PAGE_SIZE = n ∧ b mod PAGE_SIZE = Z.of_nat i).
  { unfold b, PAGE_SIZE in *. Z.div_mod_to_equations. lia. }
  destruct Hb as [Hb1 Hb2]. specialize (W b). unfold vbyte in W. rewrite Hb1, Em, Em' in W.
  cbn [mbind option_bind] in W. rewrite Hb2 in W. unfold aget in W.
  replace (Z.of_nat i <? 0) with false in W by lia. rewrite Nat2Z.id in W. rewrite W.
  rewrite decide_False; [done|]. intros Hin. by apply (Hn b Hin).
Qed.

Lemma store_kst {A} (f : mm → res (A * mm)) k a s : f (k_mm k) = Ok (a, s) →
  store f k = Ok (a, Kst (k_fs k) (with_um s (k_uvm k))).
Proof. unfold store. by intros ->. Qed.

Lemma on_mm_ok {A} (f : mm → res (A * mm)) k a s :
  f (with_errno (Fs.errno (k_fs k)) (k_mm k)) = Ok (a, s) →
  on_mm f k = Ok (a, Kst (set_errno (Paging.errno s) (k_fs k)) (with_um s (k_uvm k))).
Proof. unfold on_mm. by intros ->. Qed.

(** The program [hs] in the image [data] is in memory, with the arguments on its stack;
    [m0] is the memory it was started in. *)
Record started (m0 : umem) (data : list Z) (hs : list Elf32_Phdr) (args env : list (list Z))
    (r : Z * Z * Z) (m : umem) : Prop := {
  sd_stack : stack_built m r.2 r.1.2 r.1.1 args env;
  sd_segs : Forall (λ h, seg_loaded data h m) (loads hs);
  sd_pages : ∀ n, UPAGES ≤ n → is_Some (m !! n) ↔ n = STACK_PN ∨ n ∈ image_pages hs;
  sd_below : ∀ n, n < UPAGES → m !! n = m0 !! n
}.

(** The next boundary of a page table. *)
Definition heap_start (a : Z) : Z := clr (u32 (a + 1024 * PAGE_SIZE)) (1024 * PAGE_SIZE - 1).

(** The memory of the task: what is above [UMEM_BEGIN] belongs to the program. *)
Record task_memory (V : gmap Z umem) (u : uvm) (m : umem) : Prop := {
  tm_user : user V (um u) m;
  tm_pd : page_dir u = cr3 (um u);
  tm_whole : whole m;
  tm_compact : compact m;
  tm_owned : ∀ n x, m !! n = Some x → UPAGES ≤ n → has x.1 PF_USER = true
}.

(** The image fits between the kernel and the stack. *)
Record program_ok (data : list Z) (hs : list Elf32_Phdr) : Prop := {
  pg_image : image_ok data hs;
  pg_len : len data ≤ 2 ^ 20;
  pg_pages : ∀ n, n ∈ image_pages hs → UPAGES ≤ n ∧ n ≠ STACK_PN;
  pg_end : image_end hs UCODE_BEGIN < 2 ^ 31
}.

Lemma cleared_above m n : (∀ n x, m !! n = Some x → UPAGES ≤ n → has x.1 PF_USER = true) →
  UPAGES ≤ n → cleared m !! n = None.
Proof.
  intros Ho Hn. unfold cleared. apply map_lookup_filter_None_2. right. intros x Hx Hno.
  apply Hno. split; [done|]. by apply (Ho n).
Qed.

Lemma cleared_lower m n : n < UPAGES → cleared m !! n = m !! n.
Proof.
  intros Hn. unfold cleared. rewrite map_lookup_filter. destruct (m !! n) as [x|]; [|done]. simpl.
  rewrite option_guard_True; [done|]. intros [? _]. simpl in *. lia.
Qed.

(** What the loading leaves in the pages. *)
Lemma image_started m data hs c m1 bs sp m2 v_env v_args args env :
  (∀ n x, m !! n = Some x → UPAGES ≤ n → has x.1 PF_USER = true) → program_ok data hs →
  whole m1 → Forall (λ h, seg_loaded data h m1) (loads hs) →
  (∀ n, n ∉ image_pages hs → m1 !! n = <[STACK_PN := (STACK_FLAGS, c)]> (cleared m) !! n) →
  wrote m1 sp bs m2 → sp + len bs = USTACK_END → stack_built m2 sp v_args v_env args env →
  started m data hs args env (v_env, v_args, sp) m2.
Proof.
  intros Ho [[_ _ _ Hsegs Hnd] _ Hpg _] Hw HL Hoth HW Hsp HS.
  assert (Hpage : ∀ n, n ≠ STACK_PN → m2 !! n = m1 !! n).
  { intros n Hn. apply (wrote_page m1 sp bs); [done| |done]. intros b Hb Hbn. apply Hn. rewrite <- Hbn.
    destruct HS as [HS _]. change STACK_PAGE with 0xFFFFF000 in HS. change USTACK_END with 0xFFFFFFF0 in Hsp.
    change STACK_PN with 0xFFFFF. unfold PAGE_SIZE. Z.div_mod_to_equations. lia. }
  assert (Hin : ∀ h n, h ∈ loads hs → seg_page h ≤ n < seg_page h + seg_pages h → n ∈ image_pages hs).
  { intros h n Hh Hn. unfold image_pages. apply list_elem_of_bind. exists h. split; [|done].
    apply elem_of_seqZ. lia. }
  split; [done| | |].
  - rewrite list.Forall_forall in Hsegs, HL. apply list.Forall_forall. intros h Hh.
    apply (seg_loaded_ext data h m1); [by apply Hsegs| |by apply HL].
    intros n Hn. apply Hpage. apply Hpg. by apply (Hin h).
  - intros n Hn. destruct (decide (n = STACK_PN)) as [->|Hne].
    + split; [by left|]. intros _. destruct HW as [_ S]. specialize (S STACK_PN).
      assert (E : m1 !! STACK_PN = Some (STACK_FLAGS, c)).
      { rewrite Hoth; [apply lookup_insert_eq|]. intros Hi. by destruct (Hpg _ Hi). }
      unfold shape in S. rewrite E in S. destruct (m2 !! STACK_PN); [by eexists|done].
    + rewrite Hpage by done. split.
      * intros Hs. right. destruct (decide (n ∈ image_pages hs)) as [|Hno]; [done|]. exfalso.
        rewrite Hoth, lookup_insert_ne, cleared_above in Hs by done. by destruct Hs.
      * intros [?|Hi]; [done|]. unfold image_pages in Hi. apply list_elem_of_bind in Hi as (h & Hn' & Hh).
        rewrite list.Forall_forall in HL. apply elem_of_seqZ in Hn'.
        destruct (HL h Hh) as [H1 _]. destruct (H1 n) as (c' & -> & _); [lia|by eexists].
  - intros n Hn. rewrite Hpage by (change UPAGES with 65536 in Hn; change STACK_PN with 0xFFFFF; lia).
    rewrite Hoth by (intros Hi; destruct (Hpg _ Hi); lia).
    rewrite lookup_insert_ne by (change UPAGES with 65536 in Hn; change STACK_PN with 0xFFFFF; lia).
    by apply cleared_lower.
Qed.

(** The memory part: the old pages are freed, the stack page is new. *)
Lemma new_memory V u m k fuel e : task_memory V u m → ready_for (k + 1) (um u) → 0 ≤ k →
  2 ^ 20 < Z.of_nat fuel →
  ∃ s1 c s2, clear_user fuel UMEM_BEGIN (page_dir u) (um u) = Ok s1 ∧
    (let* (fr, s) := frame_alloc (with_errno e s1) in page_map USTACK_END fr STACK_FLAGS (page_dir u) s)
      = Ok (STACK_PAGE, s2) ∧
    user V s2 (<[STACK_PN := (STACK_FLAGS, c)]> (cleared m)) ∧ len c = PAGE_SIZE ∧
    ready_for k s2 ∧ spaces s2 = spaces (um u).
Proof.
  intros [HU Hpd Hw Hc Ho] HR Hk Hf.
  destruct (clear_user_spec V (um u) m (page_dir u) HU (eq_sym Hpd) Hw Hc fuel (k + 1) UPAGES (um u))
    as (s1 & E1 & HU1 & Hsp1 & HR1).
  { change UPAGES with 65536. change NPAGES with 1048576. lia. }
  { split; [by rewrite cleared_below_start|done|done|]. right. change (UPAGES mod 1024) with 0. lia. }
  { done. }
  { change UPAGES with 65536. lia. }
  change (UPAGES * PAGE_SIZE) with UMEM_BEGIN in E1. injection Hsp1 as Hs1 Hs2.
  destruct (stack_page_spec V (with_errno e s1) (cleared m) k) as (c & s2 & E2 & HU2 & Hlc & HR2 & Hsp2).
  { by apply user_errno. } { by apply ready_errno. } { done. }
  { by apply cleared_above. }
  exists s1, c, s2. split; [exact E1|]. split.
  { rewrite Hpd, <- Hs2. exact E2. }
  split; [done|]. split; [done|]. split; [done|]. rewrite Hsp2. unfold spaces. simpl. by rewrite Hs1, Hs2.
Qed.

(** The image goes into it. *)
Lemma load_program V s m c data hs k fuel : program_ok data hs →
  (∀ n x, m !! n = Some x → UPAGES ≤ n → has x.1 PF_USER = true) → whole m → len c = PAGE_SIZE →
  user V s (<[STACK_PN := (STACK_FLAGS, c)]> (cleared m)) → ready_for (len (image_pages hs) + k) s → 0 ≤ k →
  2 ^ 20 < Z.of_nat fuel →
  ∃ s' m1, load_elf fuel data (cr3 s) s = Ok (image_end hs UCODE_BEGIN, s') ∧ user V s' m1 ∧ whole m1 ∧
    Forall (λ h, seg_loaded data h m1) (loads hs) ∧
    (∀ n, n ∉ image_pages hs → m1 !! n = <[STACK_PN := (STACK_FLAGS, c)]> (cleared m) !! n) ∧
    spaces s' = spaces s.
Proof.
  intros [Him Hlen Hpg Hend] Ho Hw Hlc HU HR Hk Hf. pose proof Him as [_ _ _ Hsegs _].
  destruct (load_elf_spec V data hs fuel s (<[STACK_PN := (STACK_FLAGS, c)]> (cleared m)) k Him) as (s' & m1 & E & HU1 & HL & Hoth & _ & Hsp);
    [|done|done|done| |].
  { eapply list.Forall_impl; [exact Hsegs|]. intros h Hh. destruct (seg_range data h Hh) as (_ & H1 & H2 & _).
    change KPAGES with 64512 in H1. unfold NPAGES in H2. lia. }
  { intros n Hn. destruct (Hpg n Hn). rewrite lookup_insert_ne by done. by apply cleared_above. }
  exists s', m1. split; [done|]. split; [done|]. split; [|done].
  intros n [f x] Hx. destruct (decide (n ∈ image_pages hs)) as [Hi|Hi].
  - unfold image_pages in Hi. apply list_elem_of_bind in Hi as (h & Hn & Hh). apply elem_of_seqZ in Hn.
    rewrite list.Forall_forall in HL. destruct (HL h Hh) as [H1 _].
    destruct (H1 n ltac:(lia)) as (c' & E' & Hc'). rewrite Hx in E'. by injection E' as -> ->.
  - rewrite Hoth in Hx by done. destruct (decide (n = STACK_PN)) as [->|Hne].
    + rewrite lookup_insert_eq in Hx. by injection Hx as <- <-.
    + rewrite lookup_insert_ne in Hx by done. apply map_lookup_filter_Some in Hx as [Hx _]. by apply (Hw n).
Qed.

Lemma image_end_pos data hs : Forall (seg_ok data) (loads hs) → ∀ ret, 0 ≤ ret → 0 ≤ image_end hs ret.
Proof.
  unfold loads. induction hs as [|h hs IH]; [done|]. rewrite filter_cons. intros H ret Hr.
  cbn [image_end foldl]. destruct (decide (p_type h = PT_LOAD)) as [E|E].
  - apply list.Forall_cons in H as [[H1 H2 H3 H4 _] H]. rewrite E. change (PT_LOAD =? PT_LOAD) with true.
    cbn iota. apply IH; [done|]. change KPAGES with 64512 in H2. unfold PAGE_SIZE in H2. lia.
  - replace (p_type h =? PT_LOAD) with false by lia. by apply IH.
Qed.

Lemma stack_mapped m c : len c = PAGE_SIZE → m !! STACK_PN = Some (STACK_FLAGS, c) →
  mapped m STACK_PAGE STACK_ROOM.
Proof.
  intros Hc Hm i Hi. change STACK_PAGE with (0xFFFFF * PAGE_SIZE). change STACK_ROOM with 0xFF0 in Hi.
  assert (E : (0xFFFFF * PAGE_SIZE + i) / PAGE_SIZE = STACK_PN).
  { change STACK_PN with 0xFFFFF. unfold PAGE_SIZE. Z.div_mod_to_equations. lia. }
  rewrite E. split; [done|]. unfold vbyte. rewrite E, Hm. cbn [mbind option_bind].
  apply aget_is_Some. rewrite Hc. apply offset_range.
Qed.

Context (junk_bytes : Z → list Z) (Hjunk : ∀ n, 0 ≤ n → len (junk_bytes n) = n).

(** The descriptors of the program that is started. *)
Definition exec_files (fd : Z) (l : list fildes_t) : list fildes_t :=
  close_flagged <$> <[Z.to_nat fd := Fildes 0 0 0]> l.

Lemma close_on_exec_at k fd : len (files (k_fs k)) = OPEN_MAX →
  (∀ f, f ∈ files (k_fs k) → plain_close (k_fs k) f) →
  close_on_exec (with_fs (at_fd fd (Fildes 0 0 0) (k_fs k)) k) =
    Ok (with_fs (set_files (exec_files fd (files (k_fs k))) (k_fs k)) k).
Proof.
  intros Hl Hp. rewrite close_on_exec_spec.
  - done.
  - cbn. by rewrite length_insert.
  - intros f Hf. cbn in Hf. apply list_elem_of_lookup in Hf as [i Hi].
    apply list_lookup_insert_Some in Hi as [(_ & <- & _)|(_ & Hi)]; [done|].
    apply list_elem_of_lookup_2 in Hi. exact (Hp f Hi).
Qed.

(** The copies are freed, the files closed and the stack is built. *)
Lemma exec_finish V args env fd e a buf k m L :
  reads_entry (k_fs k) fd e a → (∀ f, f ∈ files (k_fs k) → plain_close (k_fs k) f) →
  m_rep (heap (k_fs k)) L → buf ∈ L → buf ∉ vector_blocks args → buf ∉ vector_blocks env →
  vector_ok args L → vector_ok env L → vector_blocks env ## vector_blocks args →
  vector_size args.2.*2 + vector_size env.2.*2 + 4 ≤ STACK_ROOM →
  user V (k_mm k) m → mapped m STACK_PAGE STACK_ROOM →
  ∃ v_env v_args sp h s m' bs,
    (let* k := kfree_k buf k in
     let* (_, k) := on_fs (close fd) k in
     let* k := close_on_exec k in
     let* (r0, r1, r2, k) := build_stack args env k in
     Ok (Some (r0, r1, r2), k)) =
      Ok (Some (v_env, v_args, sp), Kst (set_heap h (set_files (exec_files fd (files (k_fs k))) (k_fs k)))
        (with_um s (k_uvm k))) ∧
    user V s m' ∧ stored (k_mm k) s ∧ wrote m sp bs m' ∧ sp + len bs = USTACK_END ∧
    stack_built m' sp v_args v_env args.2.*2 env.2.*2 ∧
    m_rep h (L ∖ {[buf]} ∖ vector_blocks env ∖ vector_blocks args).
Proof using.
  intros He Hpl Hm Hbuf Hba Hbe HA HE Hdj Hsz HU Hmap. pose proof He as (_ & Hfl & _).
  destruct (mfree_ok buf _ L Hm Hbuf) as (h1 & E1 & Hh1).
  assert (Ek : kfree_k buf k = Ok (with_heap h1 k)) by (unfold kfree_k, kfree; by rewrite E1).
  rewrite Ek. cbn [rbind].
  assert (Ec : on_fs (close fd) (with_heap h1 k) =
    Ok (0, with_fs (at_fd fd (Fildes 0 0 0) (k_fs (with_heap h1 k))) (with_heap h1 k))).
  { unfold on_fs. rewrite (close_entry _ fd e a); [done|exact He]. }
  rewrite Ec. cbn [rbind]. rewrite close_on_exec_at; [|exact Hfl|exact Hpl]. cbn [rbind].
  set (k2 := with_fs _ _).
  assert (Hdel : ∀ x, vector_ok x L → buf ∉ vector_blocks x → vector_ok x (L ∖ {[buf]})).
  { intros x Hx Hb. apply vector_ok_del; [done|]. intros y Hy ->%elem_of_singleton. done. }
  destruct (build_stack_spec V args env k2 h1 (k_mm k) (L ∖ {[buf]}) m)
    as (v_env & v_args & sp & h2 & s & m' & bs & E2 & Hh2 & HU2 & HT & HW & Hsp & HS);
    [by apply Hdel|by apply Hdel|done|done|done|done|done|].
  exists v_env, v_args, sp, h2, s, m', bs. split; [|done].
  assert (E0 : put h1 (k_mm k) k2 = k2) by (unfold k2; by destruct k as [? []]).
  rewrite E0 in E2. by rewrite E2.
Qed.

Lemma exec_image_spec V fuel args env fd e buf k m L hs : let data := e_data e in
  task_memory V (k_uvm k) m → program_ok data hs → 0 < len data →
  ready_for (len (image_pages hs) + 1) (k_mm k) → 2 ^ 20 < Z.of_nat fuel →
  reads_entry (k_fs k) fd e 0 → (∀ f, f ∈ files (k_fs k) → plain_close (k_fs k) f) →
  m_rep (heap (k_fs k)) L → buf ∈ L → buf ∉ vector_blocks args → buf ∉ vector_blocks env →
  vector_ok args L → vector_ok env L → vector_blocks env ## vector_blocks args →
  vector_size args.2.*2 + vector_size env.2.*2 + 4 ≤ STACK_ROOM →
  ∃ r er h s m', exec_image junk_bytes fuel args env fd (len data) buf k =
      Ok (Some r, Kst (set_errno er (set_heap h (set_files (exec_files fd (files (k_fs k))) (k_fs k))))
        (Uvm (heap_start (image_end hs UCODE_BEGIN)) (heap_start (image_end hs UCODE_BEGIN))
           (page_dir (k_uvm k)) s)) ∧
    user V s m' ∧ started m data hs args.2.*2 env.2.*2 r m' ∧ spaces s = spaces (k_mm k) ∧
    m_rep h (L ∖ {[buf]} ∖ vector_blocks env ∖ vector_blocks args).
Proof using Hjunk.
  intros data HT HP Hd0 HR Hf He Hpl Hm Hbuf Hba Hbe HA HE Hdj Hsz.
  pose proof HT as [HU Hpd Hw Hc Ho]. pose proof HP as [Him Hdl Hpg Hend].
  pose proof He as (_ & Hfl & _).
  destruct (new_memory V (k_uvm k) m (len (image_pages hs) + 0) fuel (Fs.errno (k_fs k)) HT)
    as (s1 & c & s2 & E1 & E2 & HU2 & Hlc & HR2 & Hsp2).
  { by rewrite Z.add_0_r. } { lia. } { done. }
  unfold exec_image. rewrite (store_kst _ k tt s1) by (unfold k_mm; by rewrite E1). cbn [rbind].
  erewrite on_mm_ok by exact E2. cbn [rbind]. change (STACK_PAGE =? 0) with false. cbv iota.
  unfold read. cbn [k_fs].
  pose proof (read_open (set_errno (Paging.errno s2) (k_fs k)) fd e (length data)
    (junk_bytes (len data))) as Hrd. cbv zeta in Hrd. fold data in Hrd. rewrite Hrd; [|exact He|lia| |lia|lia].
  2:{ pose proof (Hjunk (len data)). lia. }
  clear Hrd. rewrite Nat.min_id. cbn [rbind]. rewrite sint_small by lia. rewrite Z.eqb_refl. cbn [negb].
  rewrite take_ge by lia. rewrite drop_ge by (pose proof (Hjunk (len data)); lia).
  rewrite app_nil_r. cbn [default]. unfold id.
  destruct (load_program V (with_errno (Paging.errno s2) s2) m c data hs 0 fuel HP Ho Hw Hlc)
    as (s3 & m3 & E3 & HU3 & Hw3 & HL3 & Hoth3 & Hsp3).
  { by apply user_errno. } { by apply ready_errno. } { done. } { done. }
  injection Hsp2 as Hk2 Hl2. injection Hsp3 as Hk3 Hl3.
  erewrite on_mm_ok.
  2:{ cbn [k_fs with_fs k_mm k_uvm um with_um]. rewrite Hpd. unfold k_mm in *. rewrite <- Hl2. exact E3. }
  pose proof (image_end_pos data hs ltac:(apply Him) UCODE_BEGIN ltac:(done)) as Hend0.
  cbn [rbind]. rewrite sint_small by lia. replace (image_end hs UCODE_BEGIN <? 0) with false by lia.
  match goal with |- context [Uvm ?b _ _ _] => change b with (heap_start (image_end hs UCODE_BEGIN)) end.
  match goal with |- context [kfree_k buf ?k'] => set (k4 := k') end.
  destruct (exec_finish V args env fd e (len data) buf k4 m3 L)
    as (v_env & v_args & sp & h & s & m' & bs & E4 & HU4 & HT4 & HW4 & Hbs & HS4 & Hh4); try done.
  { exact (reads_entry_at _ fd e 0 (len data) He). }
  { intros f Hf'. cbn in Hf'. apply list_elem_of_lookup in Hf' as [i Hi].
    apply list_lookup_insert_Some in Hi as [(_ & <- & _)|(_ & Hi)]; [done|].
    apply list_elem_of_lookup_2 in Hi. exact (Hpl f Hi). }
  { apply (stack_mapped m3 c Hlc). rewrite Hoth3; [apply lookup_insert_eq|].
    intros Hi. by destruct (Hpg _ Hi). }
  exists (v_env, v_args, sp), (Paging.errno s3), h, s, m'. split.
  { rewrite E4. cbn. unfold exec_files. by rewrite list_insert_insert_eq. }
  split; [done|]. split; [by apply (image_started m data hs c m3 bs sp)|]. split; [|done].
  rewrite (stored_spaces _ _ HT4). change (k_mm k4) with s3. unfold spaces, k_mm. by rewrite Hk3, Hl3, Hk2, Hl2.
Qed.

(** ** The whole call *)

(** A task asks for the program [hs] in the file [e], with these arguments; [fd] is the
    first descriptor that is free. *)
Record exec_request (V : gmap Z umem) (path argv envp fd : Z) (e : entry) (hs : list Elf32_Phdr)
    (args env : list (list Z)) (k : kst) (m : umem) (L : gset Z) : Prop := {
  er_memory : task_memory V (k_uvm k) m;
  er_room : ready_for (len (image_pages hs) + 1) (k_mm k);
  er_program : program_ok (e_data e) hs;
  er_file : ∃ ps es, dir_ok (k_fs k) L ps es ∧ e ∈ es ∧ only_named (k_fs k) ps e;
  er_fd : lowest_free (files (k_fs k)) 3 fd ∧ fd ≠ -1;
  er_close : ∀ f, f ∈ files (k_fs k) → plain_close (k_fs k) f;
  er_path : 0 < path ∧ bytes_in m path (str_bytes (e_name e)) ∧ len (e_name e) < 64;
  er_argv : vector_arg m argv args ∧ Forall chars args ∧ args ≠ [];
  er_envp : vector_arg m envp env ∧ Forall chars env ∧ env ≠ [];
  er_size : vector_size args + vector_size env + 4 ≤ STACK_ROOM
}.

(** [kmalloc] failed: the memory of the task is as it was.  When it was for a copy of the
    arguments, blocks of the heap may be lost; when it was for the image, the descriptor stays
    open. *)
Definition exec_refused (fd : Z) (e : entry) (k k' : kst) (L L' : gset Z) : Prop :=
  Fs.errno (k_fs k') = ENOMEM ∧ k_uvm k' = k_uvm k ∧
  ((files (k_fs k') = files (k_fs k) ∧ L ⊆ L') ∨
   (files (k_fs k') = <[Z.to_nat fd := Fildes (e_node e) 0 O_RDONLY]> (files (k_fs k)) ∧ L' = L)).

Definition exec_done (V : gmap Z umem) (fd : Z) (e : entry) (hs : list Elf32_Phdr)
    (args env : list (list Z)) (k k' : kst) (m : umem) (r : Z * Z * Z) : Prop :=
  ∃ m', user V (k_mm k') m' ∧ started m (e_data e) hs args env r m' ∧
    uheap_begin (k_uvm k') = heap_start (image_end hs UCODE_BEGIN) ∧
    uheap_end (k_uvm k') = heap_start (image_end hs UCODE_BEGIN) ∧
    page_dir (k_uvm k') = page_dir (k_uvm k) ∧ spaces (k_mm k') = spaces (k_mm k) ∧
    files (k_fs k') = exec_files fd (files (k_fs k)).

(** Both vectors are copied, or there is no memory. *)
Lemma copy_both V path argv envp fd e hs args env k m L fuel {A}
    (f : Z * list (Z * list Z) → Z * list (Z * list Z) → kst → res (option A * kst)) :
  exec_request V path argv envp fd e hs args env k m L → 2 ^ 20 < Z.of_nat fuel →
  let go :=
    let* argc := count fuel argv (k_mm k) in
    let* envc := count fuel envp (k_mm k) in
    let* (xa, k) := copy_vector fuel argv argc k in
    match xa with
    | None => Ok (None, k)
    | Some xa =>
        let* (xe, k) := copy_vector fuel envp envc k in
        match xe with None => Ok (None, k) | Some xe => f xa xe k end
    end in
  (∃ h L', go = Ok (None, no_mem (with_heap h k)) ∧ L ⊆ L' ∧ m_rep h L') ∨
  (∃ xa xe h L', go = f xa xe (with_heap h k) ∧ xa.2.*2 = args ∧ xe.2.*2 = env ∧
     L' = vector_blocks xe ∪ (vector_blocks xa ∪ L) ∧ m_rep h L' ∧
     vector_ok xa L' ∧ vector_ok xe L' ∧ vector_blocks xe ## vector_blocks xa ∧
     (∀ p, p ∈ vector_blocks xe ∪ vector_blocks xa → 0 < p ∧ p ∉ L)).
Proof using.
  intros [HT _ _ (ps & es & Hd & _) _ _ _ (Ha & Hca & _) (He & Hce & _) Hsz] Hf go. unfold go.
  pose proof (vector_size_bounds args) as (A1 & A2 & A3).
  pose proof (vector_size_bounds env) as (B1 & B2 & B3).
  change STACK_ROOM with 0xFF0 in Hsz. pose proof (tm_user _ _ _ HT) as HU.
  rewrite (count_arg V _ m argv args fuel) by (done || lia). cbn [rbind].
  rewrite (count_arg V _ m envp env fuel) by (done || lia). cbn [rbind].
  destruct Hd as ((Hm & _) & _).
  destruct (copy_vector_spec V m fuel argv args k L) as (xa & k1 & -> & H1); [done|done|done|lia|lia|done|].
  cbn [rbind]. destruct xa as [xa|].
  2:{ left. destruct H1 as (h & L' & -> & HL & Hh). by exists h, L'. }
  destruct H1 as ((Ea & Oa & Pa & Hm1) & Ek1).
  destruct (copy_vector_spec V m fuel envp env k1 (vector_blocks xa ∪ L)) as (xe & k2 & -> & H2);
    [by rewrite Ek1|done|done|lia|lia|done|].
  cbn [rbind]. destruct xe as [xe|].
  2:{ left. destruct H2 as (h & L' & -> & HL & Hh). exists h, L'. split; [by rewrite Ek1|].
      split; [|done]. intros y Hy. by apply HL, elem_of_union_r. }
  destruct H2 as ((Ee & Oe & Pe & Hm2) & Ek2). right.
  exists xa, xe, (heap (k_fs k2)), (vector_blocks xe ∪ (vector_blocks xa ∪ L)).
  split; [f_equal; rewrite Ek2, Ek1; done|]. split; [done|]. split; [done|]. split; [done|].
  split; [done|]. split; [|split; [done|split]].
  - destruct Oa as [(O1 & O2 & O3) O4]. split.
    + split; [done|]. split; [|done]. intros p Hp. by apply elem_of_union_r, O2.
    + intros Hne. destruct (O4 Hne). split; [by apply elem_of_union_r|done].
  - intros y Hy Hy'. apply (Pe y Hy). by apply elem_of_union_l.
  - intros p [Hp|Hp]%elem_of_union.
    + destruct (Pe p Hp) as [? Hn]. split; [done|]. intros HL. by apply Hn, elem_of_union_r.
    + by apply Pa.
Qed.

(** The file is opened and measured. *)
Lemma open_image k L ps es e fd : dir_ok (k_fs k) L ps es → e ∈ es → only_named (k_fs k) ps e →
  lowest_free (files (k_fs k)) 3 fd → fd ≠ -1 → len (e_data e) < 2 ^ 31 →
  let k1 := with_fs (at_fd fd (Fildes (e_node e) 0 O_RDONLY) (k_fs k)) k in
  reads_entry (k_fs k1) fd e 0 ∧
  on_fs (open (Some (e_name e)) O_RDONLY 0) k = Ok (fd, k1) ∧
  ∃ k2, on_fs (lseek fd 0 SEEK_END) k1 = Ok (len (e_data e), k2) ∧
    on_fs (lseek fd 0 SEEK_SET) k2 = Ok (0, k1).
Proof using.
  intros Hd Hin Hon Hlow Hne Hl k1. pose proof Hd as (_ & _ & _ & Hf & _).
  destruct (dir_entry _ _ _ _ _ Hd Hin) as [Hn He].
  assert (HR : reads_entry (k_fs k1) fd e 0).
  { destruct Hlow as [[-> _]|(Hr & _)]; [done|]. split; [lia|].
    split; [unfold k1; simpl; by rewrite length_insert|].
    split; [apply get_at_fd; rewrite Hf; lia|]. split; [done|exact He]. }
  split; [done|]. split.
  - unfold on_fs, open. by rewrite (open_named _ L ps es e fd).
  - destruct (lseek_entry _ fd e 0 HR Hl) as [E1 _].
    pose proof (reads_entry_at _ fd e 0 (len (e_data e)) HR) as HR2.
    destruct (lseek_entry _ fd e _ HR2 Hl) as [_ E2].
    eexists. unfold on_fs. rewrite E1. cbn [rbind]. split; [done|]. cbn [k_fs with_fs]. rewrite E2.
    cbn [rbind]. rewrite at_fd_at_fd. unfold k1. cbn [k_fs with_fs k_uvm]. by rewrite at_fd_at_fd.
Qed.

(** No memory for the image. *)
Lemma exec_fail_spec args env k L : vector_ok args L → vector_ok env L → args.2 ≠ [] → env.2 ≠ [] →
  vector_blocks env ## vector_blocks args → m_rep (heap (k_fs k)) L →
  ∃ h, exec_fail args env ENOMEM k = Ok (None, no_mem (with_heap h k)) ∧
    m_rep h (L ∖ vector_blocks args ∖ vector_blocks env).
Proof using.
  intros HA HE Ha He Hd Hm. unfold exec_fail.
  destruct (free_vector_spec args k L HA Ha Hm) as (h1 & -> & Hh1). cbn [rbind].
  destruct (free_vector_spec env (with_heap h1 k) (L ∖ vector_blocks args)) as (h2 & -> & Hh2);
    [by apply vector_ok_del|done|done|]. cbn [rbind]. by exists h2.
Qed.

Lemma magic_length data : magic_ok ELFMAG data = Ok true → 0 < len data.
Proof using. destruct data; [done|cbn [length]; lia]. Qed.

Lemma nonempty_snd (x : Z * list (Z * list Z)) l : x.2.*2 = l → l ≠ [] → x.2 ≠ [].
Proof using. intros <- H E. by rewrite E in H. Qed.

(** The rest of the call behind the copies. *)
Lemma exec_program V path argv envp fd e hs args env k m L fuel xa xe h L' :
  exec_request V path argv envp fd e hs args env k m L → 2 ^ 20 < Z.of_nat fuel →
  xa.2.*2 = args → xe.2.*2 = env → L' = vector_blocks xe ∪ (vector_blocks xa ∪ L) → m_rep h L' →
  vector_ok xa L' → vector_ok xe L' → vector_blocks xe ## vector_blocks xa →
  (∀ p, p ∈ vector_blocks xe ∪ vector_blocks xa → 0 < p ∧ p ∉ L) →
  ∃ r k', (let* nm := (if path =? 0 then Ok None
                       else let* cs := load_str fuel path (k_mm k) in Ok (Some cs)) in
           let* (fd, k) := on_fs (open nm O_RDONLY 0) (with_heap h k) in
           if fd <? 0 then exec_fail xa xe ENOENT k
           else
             let* (size, k) := on_fs (lseek fd 0 SEEK_END) k in
             let* (_, k) := on_fs (lseek fd 0 SEEK_SET) k in
             let size := u32 size in
             let* (buf, k) := on_fs (kmalloc size) k in
             if buf =? 0 then exec_fail xa xe ENOMEM k
             else exec_image junk_bytes fuel xa xe fd size buf k) = Ok (r, k') ∧
    m_rep (heap (k_fs k')) L ∧
    match r with
    | None => exec_refused fd e k k' L L
    | Some r => exec_done V fd e hs args env k k' m r
    end.
Proof using Hjunk.
  intros [HT HR HP (ps & es & Hd & Hin & Hon) [Hlow Hne] Hcl (Hp0 & Hpath & Hnl) (_ & _ & Hna) (_ & _ & Hne') Hsz]
    Hf Ea Ee EL Hm HA HE Hdj Hpos.
  pose proof (tm_user _ _ _ HT) as HU. pose proof (pg_len _ _ HP) as Hlen.
  pose proof (magic_length _ (io_magic _ _ (pg_image _ _ HP))) as Hd0.
  assert (Hd' : dir_ok (k_fs (with_heap h k)) L' ps es).
  { apply (dir_ok_heap _ L); [done|done|subst L'; set_solver|]. intros p Hp. rewrite EL in Hp.
    destruct Hd as ((_ & Hpos' & _) & _). apply elem_of_union in Hp as [Hp|[Hp|Hp]%elem_of_union].
    - apply Hpos. by apply elem_of_union_l.
    - apply Hpos. by apply elem_of_union_r.
    - by apply Hpos'. }
  replace (path =? 0) with false by lia.
  destruct (dir_entry _ _ _ _ _ Hd Hin) as [_ (n & q & _ & _ & (Hcn & _) & _)].
  rewrite (load_str_at V _ m path (e_name e)) by (done || lia). cbn [rbind].
  destruct (open_image (with_heap h k) L' ps es e fd Hd' Hin Hon Hlow Hne ltac:(lia)) as (HRe & E1 & k2 & E2 & E3).
  rewrite E1. cbn [rbind]. set (k1 := with_fs _ _) in *. clear E1.
  destruct Hlow as [[-> _]|(Hfd & _)]; [done|]. replace (fd <? 0) with false by lia.
  rewrite E2. cbn [rbind]. rewrite E3. cbn [rbind]. rewrite uint_small by lia. clear E2 E3 k2.
  destruct (kmalloc_kst (len (e_data e)) k1 L' Hm ltac:(lia)) as (buf & h2 & -> & [[-> Hh2]|(Hb & HbL & Hh2)]);
    cbn [rbind].
  - change (0 =? 0) with true. cbv iota.
    destruct (exec_fail_spec xa xe (no_mem (with_heap h2 k1)) L') as (h3 & E4 & Hh3);
      [done|done|by eapply nonempty_snd|by eapply nonempty_snd|done|done|].
    rewrite E4. eexists _, _. split; [done|]. split.
    + rewrite EL in Hh3. by rewrite (proj1 (blocks_back _ _ _ Hpos)) in Hh3.
    + split; [done|]. split; [done|]. by right.
  - replace (buf =? 0) with false by lia.
    assert (Hbx : buf ∉ vector_blocks xa ∧ buf ∉ vector_blocks xe) by set_solver.
    destruct Hbx as [Hba Hbe].
    assert (Hgrow : ∀ x, vector_ok x L' → vector_ok x ({[buf]} ∪ L')).
    { intros x [(O1 & O2 & O3) O4]. split.
      - split; [done|]. split; [|done]. intros p Hp. by apply elem_of_union_r, O2.
      - intros Hx. destruct (O4 Hx). split; [by apply elem_of_union_r|done]. }
    destruct (exec_image_spec V fuel xa xe fd e buf (with_heap h2 k1) m ({[buf]} ∪ L') hs)
      as (r & er & h3 & s & m' & E4 & HU4 & HS4 & Hsp4 & Hh4); try done.
    { intros f Hf'. cbn in Hf'. apply list_elem_of_lookup in Hf' as [i Hi].
      apply list_lookup_insert_Some in Hi as [(_ & <- & _)|(_ & Hi)]; [done|].
      apply list_elem_of_lookup_2 in Hi. exact (Hcl f Hi). }
    { set_solver. } { by apply Hgrow. } { by apply Hgrow. } { by rewrite Ea, Ee. }
    rewrite E4. eexists _, _. split; [done|]. split.
    + cbn [k_fs heap set_errno set_heap]. rewrite drop_new, EL in Hh4 by done.
      by rewrite (proj2 (blocks_back _ _ _ Hpos)) in Hh4.
    + exists m'. cbn. split; [done|]. split; [by rewrite <- Ea, <- Ee|]. split; [done|]. split; [done|].
      split; [done|]. split; [done|]. unfold exec_files. by rewrite list_insert_insert_eq.
Qed.

End program.

(** ** An example: a program of one segment in two pages *)
Definition demo_program : list Z :=
  ELFMAG ++ replicate 24 0 ++ le_bytes 52 ++ replicate 12 0 ++ [2; 0] ++ replicate 6 0 ++
  (* a header that is not for loading, then the segment *)
  ([4; 116; 0; 0; 5; 5; 4; 4] ≫= le_bytes) ++
  ([PT_LOAD; 116; UCODE_BEGIN; UCODE_BEGIN; 5; 5000; 7; 0x1000] ≫= le_bytes) ++
  [1; 2; 3; 4; 5].

Definition demo_headers : list Elf32_Phdr :=
  [Phdr 4 116 0 5 5 4; Phdr PT_LOAD 116 UCODE_BEGIN 5 5000 7].

(** The caller's page: the arrays, the strings and the path. *)
Definition demo_argv : Z := KPAGES * PAGE_SIZE.
Definition demo_page_bytes : list Z :=
  let bytes := ([demo_argv + 16; 0; demo_argv + 18; 0] ≫= le_bytes) ++ [97; 0; 98; 0; 102; 0] in
  bytes ++ replicate (Z.to_nat (PAGE_SIZE - len bytes)) 0.

Definition demo_caller : kst :=
  Kst (demo_file demo_program 0) (Uvm 0 0 demo_dir_at (demo_spaces demo_page_bytes)).

Lemma demo_segments : image_ok demo_program demo_headers.
Proof.
  split; [done| |done| |].
  - exists 52. vm_compute. by split_and!.
  - constructor; [|done]. split; vm_compute; intuition congruence.
  - vm_compute. apply list.NoDup_cons. split; [set_solver by lia|apply list.NoDup_singleton].
Qed.

Lemma demo_memory_ok : @task_memory pre_paging boot_alloc ∅
  (k_uvm demo_caller) (demo_mem demo_page_bytes).
Proof.
  assert (Hk : ∀ n x, demo_mem demo_page_bytes !! n = Some x → n < UPAGES).
  { intros n x Hx. assert (n = KPAGES) as -> by (apply (demo_keys demo_page_bytes); by rewrite Hx). done. }
  split; cbn [k_uvm um page_dir demo_caller].
  - unfold user. rewrite insert_empty. apply demo_rep.
  - done.
  - intros n x Hx. unfold demo_mem in Hx. apply (lookup_singleton_Some (M := gmap Z)) in Hx as [_ <-].
    cbn [snd]. unfold demo_page_bytes. rewrite length_app, length_replicate. unfold PAGE_SIZE. cbn. lia.
  - intros n x Hx [Hu _]. specialize (Hk n x Hx). lia.
  - intros n x Hx Hn. specialize (Hk n x Hx). lia.
Qed.

Lemma demo_bytes off bs : 0 ≤ off →
  take (length bs) (drop (Z.to_nat off) demo_page_bytes) = bs →
  bytes_in (demo_mem demo_page_bytes) (demo_argv + off) bs.
Proof.
  intros Ho Hb i b Hi. pose proof (aget_range _ _ _ Hi) as Hr.
  assert (Hb' : aget demo_page_bytes (off + i) = Some b).
  { unfold aget in *. cif; [lia|]. cif; [lia|]. rewrite <- Hb in Hi. rewrite lookup_take_lt in Hi by lia.
    rewrite lookup_drop in Hi. by replace (Z.to_nat (off + i)) with (Z.to_nat off + Z.to_nat i)%nat by lia. }
  pose proof (aget_range _ _ _ Hb') as Hi'.
  assert (len demo_page_bytes = PAGE_SIZE).
  { unfold demo_page_bytes. rewrite length_app, length_replicate. unfold PAGE_SIZE. cbn. lia. }
  assert (E : (demo_argv + off + i) / PAGE_SIZE = KPAGES ∧ (demo_argv + off + i) mod PAGE_SIZE = off + i).
  { change demo_argv with (64512 * 4096). change KPAGES with 64512. unfold PAGE_SIZE in *.
    Z.div_mod_to_equations. lia. }
  destruct E as [E1 E2]. rewrite E1. split; [done|]. unfold vbyte. rewrite E1, E2. unfold demo_mem.
  rewrite (lookup_singleton_eq (M := gmap Z)). exact Hb'.
Qed.

Lemma demo_vector off p cs : 0 ≤ off → 0 ≤ p < 4096 →
  take 8 (drop (Z.to_nat off) demo_page_bytes) = le_bytes (demo_argv + p) ++ le_bytes 0 →
  take (length cs + 1) (drop (Z.to_nat p) demo_page_bytes) = str_bytes cs → off < 4096 →
  vector_arg (demo_mem demo_page_bytes) (demo_argv + off) [cs].
Proof.
  intros Ho Hp H1 H2 Hl. right. change demo_argv with (64512 * 4096). split; [lia|]. split; [cbn; lia|].
  exists [demo_argv + p]. split; [by apply demo_bytes|]. split.
  - constructor; [|done]. apply demo_bytes; [lia|]. unfold str_bytes at 1. by rewrite length_app.
  - constructor; [|done]. change demo_argv with (64512 * 4096). lia.
Qed.

Lemma demo_request : @exec_request demo_malloc pre_paging boot_alloc ∅
  (demo_argv + 20) demo_argv (demo_argv + 8) 4 (demo_entry demo_program) demo_headers [[97]] [[98]]
  demo_caller (demo_mem demo_page_bytes) demo_allocated.
Proof.
  split.
  - exact demo_memory_ok.
  - exact (demo_ready demo_page_bytes).
  - split; [exact demo_segments|vm_compute; congruence| |done].
    intros n. change (image_pages demo_headers) with [65536; 65537]. change UPAGES with 65536.
    change STACK_PN with 0xFFFFF. rewrite !elem_of_cons. intros [->|[->|?%not_elem_of_nil]]; [lia|lia|done].
  - exists [0x400010], [demo_entry demo_program]. split; [apply demo_dir_ok; vm_compute; lia|].
    split; [by left|]. intros q ->%list_elem_of_singleton _. done.
  - split; [|done]. right. split; [unfold OPEN_MAX; lia|]. split; [by exists (Fildes 0 0 0)|].
    intros i Hi. assert (i = 3) as -> by lia. by intros (f & [= <-] & ?).
  - intros f Hf Hc. exfalso.
    assert (H : Forall (λ f, has (oflag f) O_CLOEXEC = false) (files (k_fs demo_caller)))
      by (repeat (constructor; [done|]); constructor).
    rewrite list.Forall_forall in H. specialize (H f Hf). congruence.
  - split; [done|]. split; [apply demo_bytes; [lia|by vm_compute]|done].
  - split; [|split; [by repeat constructor|done]].
    rewrite <- (Z.add_0_r demo_argv). by apply (demo_vector 0 16).
  - split; [|split; [by repeat constructor|done]]. by apply (demo_vector 8 18).
  - vm_compute. congruence.
Qed.

