(* ===== verification/Task.v ===== *)
(** * Task: the table of tasks, fork, death and the scheduler

    [kernel/src/mm/task.c], [task.h] and the three routines of [task.s].  The kernel
    heap comes through [Malloc], the address spaces through [Spaces]. *)

From S2P Require Import Prelude Malloc Headers CString Vga Fs Spaces.

Definition TASK_STATE_READY : Z := 1.
Definition TASK_STATE_BLOCK_WAIT : Z := 2.
Definition TASK_STATE_EXITING : Z := 3.

(** [sizeof(struct task_t)], and the number of slots of [tasks]. *)
Definition TASK_SIZE : Z := 948.
Definition NTASKS : Z := 256.

(** Where a task that is not running resumes: the labels of [task.s]. *)
Inductive label := no_label | sw_return | tf_return.

Record task_t := Task {
  fpu_state : list Z;
  esp : Z;
  eip : label;
  t_page_dir : Z;
  syscall_regs : Z;
  pid : Z;
  ppid : Z;
  state : Z;
  exit_status : Z;
  children : Z;
  wait_queue : Z;
  t_uheap_begin : Z;
  t_uheap_end : Z;
  t_files : list fildes_t;
  errno_loc : Z
}.

(** [memset(task, 0, sizeof(struct task_t))] *)
Definition task_zero : task_t :=
  Task (replicate 512 0) 0 no_label 0 0 0 0 0 0 0 0 0 0 (replicate 32 (Fildes 0 0 0)) 0.

Definition with_context (f : list Z) (sp : Z) (ip : label) (t : task_t) : task_t :=
  Task f sp ip (t_page_dir t) (syscall_regs t) (pid t) (ppid t) (state t) (exit_status t)
    (children t) (wait_queue t) (t_uheap_begin t) (t_uheap_end t) (t_files t) (errno_loc t).
Definition with_page_dir (d : Z) (t : task_t) : task_t :=
  Task (fpu_state t) (esp t) (eip t) d (syscall_regs t) (pid t) (ppid t) (state t)
    (exit_status t) (children t) (wait_queue t) (t_uheap_begin t) (t_uheap_end t)
    (t_files t) (errno_loc t).
Definition with_regs (r : Z) (t : task_t) : task_t :=
  Task (fpu_state t) (esp t) (eip t) (t_page_dir t) r (pid t) (ppid t) (state t)
    (exit_status t) (children t) (wait_queue t) (t_uheap_begin t) (t_uheap_end t)
    (t_files t) (errno_loc t).
Definition with_pid (p : Z) (t : task_t) : task_t :=
  Task (fpu_state t) (esp t) (eip t) (t_page_dir t) (syscall_regs t) p (ppid t) (state t)
    (exit_status t) (children t) (wait_queue t) (t_uheap_begin t) (t_uheap_end t)
    (t_files t) (errno_loc t).
Definition with_ppid (p : Z) (t : task_t) : task_t :=
  Task (fpu_state t) (esp t) (eip t) (t_page_dir t) (syscall_regs t) (pid t) p (state t)
    (exit_status t) (children t) (wait_queue t) (t_uheap_begin t) (t_uheap_end t)
    (t_files t) (errno_loc t).
Definition with_state (x : Z) (t : task_t) : task_t :=
  Task (fpu_state t) (esp t) (eip t) (t_page_dir t) (syscall_regs t) (pid t) (ppid t) x
    (exit_status t) (children t) (wait_queue t) (t_uheap_begin t) (t_uheap_end t)
    (t_files t) (errno_loc t).
Definition with_exit_status (x : Z) (t : task_t) : task_t :=
  Task (fpu_state t) (esp t) (eip t) (t_page_dir t) (syscall_regs t) (pid t) (ppid t)
    (state t) x (children t) (wait_queue t) (t_uheap_begin t) (t_uheap_end t)
    (t_files t) (errno_loc t).
Definition with_children (n : Z) (t : task_t) : task_t :=
  Task (fpu_state t) (esp t) (eip t) (t_page_dir t) (syscall_regs t) (pid t) (ppid t)
    (state t) (exit_status t) n (wait_queue t) (t_uheap_begin t) (t_uheap_end t)
    (t_files t) (errno_loc t).
Definition with_wait_queue (q : Z) (t : task_t) : task_t :=
  Task (fpu_state t) (esp t) (eip t) (t_page_dir t) (syscall_regs t) (pid t) (ppid t)
    (state t) (exit_status t) (children t) q (t_uheap_begin t) (t_uheap_end t)
    (t_files t) (errno_loc t).
Definition with_uheap (b e : Z) (t : task_t) : task_t :=
  Task (fpu_state t) (esp t) (eip t) (t_page_dir t) (syscall_regs t) (pid t) (ppid t)
    (state t) (exit_status t) (children t) (wait_queue t) b e (t_files t) (errno_loc t).
Definition with_files (f : list fildes_t) (t : task_t) : task_t :=
  Task (fpu_state t) (esp t) (eip t) (t_page_dir t) (syscall_regs t) (pid t) (ppid t)
    (state t) (exit_status t) (children t) (wait_queue t) (t_uheap_begin t)
    (t_uheap_end t) f (errno_loc t).
Definition with_errno_loc (p : Z) (t : task_t) : task_t :=
  Task (fpu_state t) (esp t) (eip t) (t_page_dir t) (syscall_regs t) (pid t) (ppid t)
    (state t) (exit_status t) (children t) (wait_queue t) (t_uheap_begin t)
    (t_uheap_end t) (t_files t) p.

Section task.
Context {MA : Malloc} {SP : Spaces}.

(** The statics of the file, the [task_t] objects by address, the registers of the
    FPU, the kernel heap and the address spaces. *)
Record ts := Ts {
  cur_task : Z;
  tasks : list Z;
  sched_halted : Z;
  objs : gmap Z task_t;
  fpu : list Z;
  theap : mstate;
  sps : sstate
}.

Definition set_cur (p : Z) (s : ts) : ts :=
  Ts p (tasks s) (sched_halted s) (objs s) (fpu s) (theap s) (sps s).
Definition set_tasks (l : list Z) (s : ts) : ts :=
  Ts (cur_task s) l (sched_halted s) (objs s) (fpu s) (theap s) (sps s).
Definition set_halted (b : Z) (s : ts) : ts :=
  Ts (cur_task s) (tasks s) b (objs s) (fpu s) (theap s) (sps s).
Definition set_objs (o : gmap Z task_t) (s : ts) : ts :=
  Ts (cur_task s) (tasks s) (sched_halted s) o (fpu s) (theap s) (sps s).
Definition set_fpu (f : list Z) (s : ts) : ts :=
  Ts (cur_task s) (tasks s) (sched_halted s) (objs s) f (theap s) (sps s).
Definition set_theap (h : mstate) (s : ts) : ts :=
  Ts (cur_task s) (tasks s) (sched_halted s) (objs s) (fpu s) h (sps s).
Definition set_sps (p : sstate) (s : ts) : ts :=
  Ts (cur_task s) (tasks s) (sched_halted s) (objs s) (fpu s) (theap s) p.

(** An access through a [struct task_t*]. *)
Definition obj (p : Z) (s : ts) : res task_t := deref (objs s !! p).
Definition put_obj (p : Z) (t : task_t) (s : ts) : ts := set_objs (<[p := t]> (objs s)) s.
Definition upd (p : Z) (f : task_t → task_t) (s : ts) : res ts :=
  let* t := obj p s in Ok (put_obj p (f t) s).

(** The test lets 256 pass, one slot behind the table. *)
Definition get_task (pid : Z) (s : ts) : res Z :=
  if NTASKS <? pid then Ok 0 else deref (aget (tasks s) pid).

(** ** New tasks *)
Fixpoint alloc_loop (n : nat) (i : Z) (s : ts) : res (Z * ts) :=
  match n with
  | O => Ok (0, s)
  | S n =>
      let* p := deref (aget (tasks s) i) in
      if negb (p =? 0) then alloc_loop n (i + 1) s
      else
        let* (p, h) := malloc TASK_SIZE (theap s) in
        let* l := deref (aset (tasks s) i p) in
        let s := set_tasks l (set_theap h s) in
        if p =? 0 then Panic
        else Ok (p, put_obj p (with_pid i (with_state TASK_STATE_READY task_zero)) s)
  end.

Definition alloc_empty_task (s : ts) : res (Z * ts) :=
  alloc_loop (Z.to_nat (NTASKS - 1)) 1 s.

(** The part that concerns the table; the task state segment is in [Gdt]. *)
Definition task_init (s : ts) : res ts :=
  let s := set_tasks (replicate (Z.to_nat NTASKS) 0) s in
  let* (p, s) := alloc_empty_task s in
  let s := set_cur p s in
  let* s := upd (cur_task s) (with_page_dir (sp_kernel (sps s))) s in
  upd (cur_task s) (with_ppid 0) s.

Definition task_fork_inner (s : ts) : res (Z * ts) :=
  let* (new, s) := alloc_empty_task s in
  let* (pd, sp) := sp_create (sps s) in
  let* s := upd new (with_page_dir pd) (set_sps sp s) in
  let* n := obj new s in
  let* c := obj (cur_task s) s in
  let* sp := sp_clone (t_page_dir n) (t_page_dir c) (sps s) in
  let s := set_sps sp s in
  let* s := upd new (λ n, with_context (fpu_state c) (esp n) (eip n) n) s in
  let* s := upd new (with_files (t_files c)) s in
  let* s := upd new (with_ppid (pid c)) s in
  let* s := upd new (with_regs (syscall_regs c)) s in
  let* s := upd new (with_errno_loc (errno_loc c)) s in
  let* s := upd (cur_task s) (λ c, with_children (u32 (children c + 1)) c) s in
  Ok (new, s).

(** [task_fork] of [task.s], called with the stack pointer at [sp]: [pusha] pushes 32
    bytes, with 0 for the register that carries the result, before the stack is copied. *)
Definition task_fork (sp : Z) (s : ts) : res (Z * ts) :=
  let sp := u32 (sp - 32) in
  let* (new, s) := task_fork_inner s in
  let* s := upd new (λ n, with_context (fpu_state n) sp tf_return n) s in
  Ok (new, s).

(** ** Death *)
Definition task_destroy (p : Z) (s : ts) : res ts :=
  let* t := obj p s in
  let* sp := sp_free_pages (t_page_dir t) (sps s) in
  let* sp := sp_clear (t_page_dir t) sp in
  let* sp := sp_kfree (t_page_dir t) sp in
  let s := set_sps sp s in
  let* q := deref (aget (tasks s) (ppid t)) in
  let* s := upd q (λ t, with_children (u32 (children t - 1)) t) s in
  let* l := deref (aset (tasks s) (pid t) 0) in
  let s := set_tasks l s in
  let* h := mfree p (theap s) in
  Ok (set_objs (delete p (objs s)) (set_theap h s)).

Fixpoint destroy_queue (fuel : nat) (child : Z) (s : ts) : res ts :=
  match fuel with
  | O => Fuel
  | S fuel =>
      if child =? 0 then Ok s
      else
        let* c := obj child s in
        let next_child := wait_queue c in
        let* s := task_destroy child s in
        destroy_queue fuel next_child s
  end.

Definition reparent_one (task i : Z) (s : ts) : res ts :=
  let* child := get_task i s in
  if child =? 0 then Ok s
  else
    let* c := obj child s in
    let* t := obj task s in
    if ppid c =? pid t then upd child (with_ppid 1) s else Ok s.

Definition reparent (task : Z) (s : ts) : res ts := for_range 2 NTASKS (reparent_one task) s.

Fixpoint queue_end (fuel : nat) (queue : Z) (s : ts) : res Z :=
  match fuel with
  | O => Fuel
  | S fuel =>
      let* q := obj queue s in
      if wait_queue q =? 0 then Ok queue else queue_end fuel (wait_queue q) s
  end.

Definition task_fuel (s : ts) : nat := S (size (objs s)).

Definition task_kill (task status : Z) (s : ts) : res ts :=
  if task =? 0 then Ok s
  else
    let* s := upd task (with_exit_status status) s in
    let* t := obj task s in
    let* s := destroy_queue (task_fuel s) (wait_queue t) s in
    let* s := reparent task s in
    let* t := obj task s in
    let* parent := get_task (ppid t) s in
    let* queue := queue_end (task_fuel s) parent s in
    let* s := upd queue (with_wait_queue task) s in
    let* s := upd task (with_wait_queue 0) s in
    let* p := obj parent s in
    let* s := (if state p =? TASK_STATE_BLOCK_WAIT
               then upd parent (with_state TASK_STATE_READY) s else Ok s) in
    upd task (with_state TASK_STATE_EXITING) s.

(** ** The scheduler *)

(** The first of the [n] slots from [i] on with a ready task, or 0. *)
Fixpoint find_ready (n : nat) (i : Z) (s : ts) : res Z :=
  match n with
  | O => Ok 0
  | S n =>
      let* p := get_task i s in
      if p =? 0 then find_ready n (i + 1) s
      else
        let* t := obj p s in
        if state t =? TASK_STATE_READY then Ok p else find_ready n (i + 1) s
  end.

Definition sched_next (s : ts) : res Z :=
  let* c := obj (cur_task s) s in
  let cur_pid := pid c in
  let* p := find_ready (Z.to_nat (NTASKS - (cur_pid + 1))) (cur_pid + 1) s in
  if negb (p =? 0) then Ok p
  else
    let* p := find_ready (Z.to_nat cur_pid) 1 s in
    if negb (p =? 0) then Ok p else Panic.

Definition sched_halt (s : ts) : ts := set_halted 1 s.
Definition sched_cont (s : ts) : ts := set_halted 0 s.

(** [sched_switch] of [task.s], called with the stack pointer at [sp].  It returns the
    stack pointer and the place at which the next task goes on. *)
Definition sched_switch (sp : Z) (s : ts) : res (Z * label * ts) :=
  let* s := upd (cur_task s) (with_context (fpu s) (u32 (sp - 32)) sw_return) s in
  let* next := sched_next s in
  let s := set_cur next s in
  let* t := obj next s in
  let* pgs := sp_load (t_page_dir t) (sps s) in
  let s := set_fpu (fpu_state t) (set_sps pgs s) in
  Ok (esp t, eip t, s).
End task.
