(* ===== verification/Table.v ===== *)
(** * Table: the table of tasks is sound

    The invariant [base] ties the table, the [task_t] objects, the heap and the address
    spaces together; what each routine of Task does to them. *)

From S2P Require Import Prelude Malloc Headers CString Vga Fs Spaces Task.

Section table.
Context {MA : Malloc} {SP : Spaces}.

(** What the rest of the kernel knows a task by: its number and its directory. *)
Definition key (t : task_t) : Z * Z := (pid t, t_page_dir t).
Definition keys (s : ts) : gmap Z (Z * Z) := key <$> objs s.

(** Each occupied slot has its object and each object its slot, a live block and an
    address space of its own; the current task's is loaded. *)
Record base (V : gmap Z umem) (s : ts) : Prop := Base {
  b_len : length (tasks s) = 256%nat;
  b_slot0 : aget (tasks s) 0 = Some 0;
  b_slot : ∀ i p, aget (tasks s) i = Some p → p ≠ 0 → ∃ d, keys s !! p = Some (i, d);
  b_key : ∀ p i d, keys s !! p = Some (i, d) →
    p ≠ 0 ∧ aget (tasks s) i = Some p ∧ is_Some (V !! d) ∧ (d = sp_kernel (sps s) → i = 1);
  b_dir : ∀ p q i j d, keys s !! p = Some (i, d) → keys s !! q = Some (j, d) → p = q;
  b_heap : ∃ L, m_rep (theap s) L ∧ dom (keys s) ⊆ L;
  b_sp : sp_rep (sps s) V;
  b_kernel : is_Some (V !! sp_kernel (sps s));
  b_cur : ∃ i, keys s !! cur_task s = Some (i, sp_loaded (sps s))
}.

Lemma keys_lookup s p t : objs s !! p = Some t → keys s !! p = Some (key t).
Proof. intros H. unfold keys. rewrite lookup_fmap. by rewrite H. Qed.

Lemma keys_inv s p k : keys s !! p = Some k → ∃ t, objs s !! p = Some t ∧ k = key t.
Proof. unfold keys. intros (t & <- & H)%lookup_fmap_Some. by exists t. Qed.

Lemma base_obj V s p t : base V s → objs s !! p = Some t →
  p ≠ 0 ∧ aget (tasks s) (pid t) = Some p ∧ is_Some (V !! t_page_dir t) ∧
  0 < pid t < 256.
Proof.
  intros B H%keys_lookup. destruct (b_key _ _ B _ _ _ H) as (Hp & Hs & HV & _).
  split; [done|]. split; [done|]. split; [done|].
  pose proof (aget_range _ _ _ Hs) as Hr. rewrite (b_len _ _ B) in Hr.
  destruct (decide (pid t = 0)) as [E|]; [|lia].
  pose proof (b_slot0 _ _ B). rewrite E in Hs. congruence.
Qed.

Lemma base_slot V s i p : base V s → aget (tasks s) i = Some p → p ≠ 0 →
  ∃ t, objs s !! p = Some t ∧ pid t = i.
Proof.
  intros B H Hp. destruct (b_slot _ _ B i p H Hp) as [d Hd].
  apply keys_inv in Hd as (t & Ht & E). exists t. unfold key in E. split; [done|congruence].
Qed.

Lemma pid_inj V s p q t u : base V s → objs s !! p = Some t → objs s !! q = Some u →
  pid t = pid u → p = q.
Proof.
  intros B Ht Hu E. destruct (base_obj _ _ _ _ B Ht) as (_ & H1 & _).
  destruct (base_obj _ _ _ _ B Hu) as (_ & H2 & _). congruence.
Qed.

Lemma base_ext V s s' : base V s → keys s' = keys s → tasks s' = tasks s →
  theap s' = theap s → sps s' = sps s → cur_task s' = cur_task s → base V s'.
Proof.
  intros [] K T H S C. constructor; rewrite ?K, ?T, ?H, ?S, ?C; assumption.
Qed.

(** ** Updates of one object *)
Lemma obj_ok p t s : objs s !! p = Some t → obj p s = Ok t.
Proof. unfold obj. by intros ->. Qed.

Lemma upd_ok p f t s : objs s !! p = Some t → upd p f s = Ok (put_obj p (f t) s).
Proof. intros H. unfold upd. by rewrite (obj_ok _ _ _ H). Qed.

Lemma keys_put s p t t' : objs s !! p = Some t → key t' = key t →
  keys (put_obj p t' s) = keys s.
Proof.
  intros H E. unfold keys, put_obj. simpl. rewrite fmap_insert, E. apply insert_id.
  by rewrite lookup_fmap, H.
Qed.

Lemma base_put V s p t t' : base V s → objs s !! p = Some t → key t' = key t →
  base V (put_obj p t' s).
Proof. intros B H E. apply (base_ext V s); try done. by eapply keys_put. Qed.

Lemma size_objs V s : base V s → (size (objs s) ≤ 255)%nat.
Proof.
  intros B. transitivity (length (seqZ 1 255)); [|by rewrite length_seqZ].
  rewrite <- (map_size_fmap key (objs s)). fold (keys s).
  rewrite <- length_map_to_list, <- (length_fmap (λ kv : Z * (Z * Z), kv.2.1)).
  apply submseteq_length, NoDup_submseteq.
  - apply NoDup_fmap_2_strong; [|apply NoDup_map_to_list].
    intros [p [i d]] [q [j e]] Hp%elem_of_map_to_list Hq%elem_of_map_to_list E. simpl in E.
    subst j. destruct (b_key _ _ B _ _ _ Hp) as (_ & Ep & _).
    destruct (b_key _ _ B _ _ _ Hq) as (_ & Eq & _).
    assert (p = q) as -> by congruence. congruence.
  - intros i ([p [j d]] & -> & Hp%elem_of_map_to_list)%list_elem_of_fmap. simpl.
    apply keys_inv in Hp as (t & Ht & E). apply (base_obj V) in Ht as (_ & _ & _ & ?); [|done].
    unfold key in E. assert (j = pid t) as -> by congruence. apply elem_of_seqZ. lia.
Qed.

(** What an operation on other tasks leaves alone. *)
Definition cpu (s : ts) : Z * list Z * Z * Z * Z :=
  (cur_task s, fpu s, sched_halted s, sp_kernel (sps s), sp_loaded (sps s)).

(** ** A new task *)
Definition lowest_slot (l : list Z) (i : Z) : Prop :=
  1 ≤ i < NTASKS ∧ aget l i = Some 0 ∧
  ∀ j, 1 ≤ j < i → ∃ p, aget l j = Some p ∧ p ≠ 0.

Lemma lowest_slot_range l i : lowest_slot l i → 1 ≤ i < 256.
Proof. by intros (H & _). Qed.

Definition new_task (p i : Z) (h : mstate) (s : ts) : ts :=
  put_obj p (with_pid i (with_state TASK_STATE_READY task_zero))
    (set_tasks (<[Z.to_nat i := p]> (tasks s)) (set_theap h s)).

Lemma alloc_loop_spec n i0 s i p h : length (tasks s) = 256%nat →
  lowest_slot (tasks s) i → 1 ≤ i0 ≤ i → i < i0 + Z.of_nat n →
  malloc TASK_SIZE (theap s) = Ok (p, h) → p ≠ 0 →
  alloc_loop n i0 s = Ok (p, new_task p i h s).
Proof.
  intros Hl (Hi & E0 & Hlow) Hi0 Hn Hm Hp. revert i0 Hi0 Hn.
  induction n as [|n IH]; intros i0 Hi0 Hn; [lia|]. cbn [alloc_loop].
  destruct (decide (i0 = i)) as [->|Hne].
  - rewrite E0. cbn. rewrite Hm. cbn. unfold NTASKS in Hi.
    rewrite aset_Some by lia. cbn. by replace (p =? 0) with false by lia.
  - destruct (Hlow i0) as (q & Eq & Hq); [lia|]. rewrite Eq. cbn [deref rbind].
    replace (negb (q =? 0)) with true by lia. apply IH; lia.
Qed.

Lemma alloc_loop_full n i0 s : length (tasks s) = 256%nat → 1 ≤ i0 →
  (∀ j, 1 ≤ j < NTASKS → ∃ p, aget (tasks s) j = Some p ∧ p ≠ 0) →
  i0 + Z.of_nat n ≤ NTASKS → alloc_loop n i0 s = Ok (0, s).
Proof.
  intros Hl Hi0 Hfull. revert i0 Hi0. induction n as [|n IH]; intros i0 Hi0 Hn; [done|].
  cbn [alloc_loop]. destruct (Hfull i0) as (q & Eq & Hq); [lia|]. rewrite Eq.
  cbn [deref rbind]. replace (negb (q =? 0)) with true by lia. apply IH; lia.
Qed.

Lemma alloc_spec V s i p h : base V s → lowest_slot (tasks s) i →
  malloc TASK_SIZE (theap s) = Ok (p, h) → p ≠ 0 →
  alloc_empty_task s = Ok (p, new_task p i h s).
Proof.
  intros B Hi Hm Hp. unfold alloc_empty_task.
  apply alloc_loop_spec; try done; [by eapply b_len|..].
  - destruct Hi as ((? & ?) & _). lia.
  - destruct Hi as ((? & ?) & _). unfold NTASKS in *. lia.
Qed.

(** The table with one more task. *)
Lemma base_add V s s' p i d m L : base V s → 
  m_rep (theap s') L → dom (keys s) ⊆ L → p ∈ L → p ≠ 0 → keys s !! p = None →
  lowest_slot (tasks s) i → V !! d = None →
  tasks s' = <[Z.to_nat i := p]> (tasks s) → keys s' = <[p := (i, d)]> (keys s) →
  sp_rep (sps s') (<[d := m]> V) → cpu s' = cpu s → base (<[d := m]> V) s'.
Proof.
  intros B HL HdL HpL Hp0 Hpn (Hi & Ei & _) HV ET EK HS EC. injection EC as Ec _ _ Esk Esl.
  pose proof (b_len _ _ B) as Hlen. unfold NTASKS in Hi.
  assert (Hget : ∀ j, aget (tasks s') j = if i =? j then Some p else aget (tasks s) j)
    by (intros j; rewrite ET; apply aget_insert; lia).
  constructor.
  - by rewrite ET, length_insert.
  - rewrite Hget. replace (i =? 0) with false by lia. eapply b_slot0, B.
  - intros j q. rewrite Hget, EK. destruct (Z.eqb_spec i j) as [<-|Hij].
    + intros [= <-] _. exists d. by rewrite lookup_insert_eq.
    + intros Hq Hq0. destruct (b_slot _ _ B _ _ Hq Hq0) as [e He]. exists e.
      rewrite lookup_insert_ne; [done|]. by intros ->; rewrite Hpn in He.
  - intros q j e. rewrite EK, Hget, Esk. intros [[<- [= <- <-]]|[Hne Hq]]%lookup_insert_Some.
    + rewrite Z.eqb_refl, lookup_insert_eq. split; [done|]. split; [done|]. split; [done|].
      intros ->. destruct (b_kernel _ _ B) as [x Hx]. congruence.
    + destruct (b_key _ _ B _ _ _ Hq) as (Hq0 & Hs & HVe & Hke). split; [done|].
      destruct (Z.eqb_spec i j) as [<-|_]; [congruence|]. split; [done|].
      split; [|done]. rewrite lookup_insert_ne; [done|].
      intros ->. rewrite HV in HVe. by destruct HVe.
  - assert (Hd : ∀ q j, keys s !! q = Some (j, d) → False).
    { intros q j Hq. destruct (b_key _ _ B _ _ _ Hq) as (_ & _ & [x Hx] & _). congruence. }
    intros q1 q2 j1 j2 e. rewrite EK.
    intros [[<- [= <- <-]]|[Hne1 H1]]%lookup_insert_Some
      [[<- E2]|[Hne2 H2]]%lookup_insert_Some; try done.
    + exfalso. by eapply Hd.
    + injection E2 as <- <-. exfalso. by eapply Hd.
    + by eapply (b_dir _ _ B).
  - exists L. split; [done|]. rewrite EK, dom_insert_L. set_solver.
  - done.
  - rewrite Esk, lookup_insert_ne; [apply (b_kernel _ _ B)|]. intros ->.
    destruct (b_kernel _ _ B) as [x Hx]. congruence.
  - destruct (b_cur _ _ B) as [j Hj]. exists j. rewrite Ec, Esl, EK.
    rewrite lookup_insert_ne; [done|]. by intros ->; rewrite Hpn in Hj.
Qed.

(** ** A task is taken down *)
Lemma base_del V s s' p i d : base V s → keys s !! p = Some (i, d) → i ≠ 1 → p ≠ cur_task s →
  (∃ L, m_rep (theap s') (L ∖ {[p]}) ∧ dom (keys s) ⊆ L) →
  tasks s' = <[Z.to_nat i := 0]> (tasks s) → keys s' = delete p (keys s) →
  sp_rep (sps s') (delete d V) → cpu s' = cpu s → base (delete d V) s'.
Proof.
  intros B Hp Hi1 Hcur (L & HL & HdL) ET EK HS EC. injection EC as Ec _ _ Esk Esl.
  pose proof (b_len _ _ B) as Hlen.
  destruct (b_key _ _ B _ _ _ Hp) as (Hp0 & Hi & _ & Hk).
  pose proof (aget_range _ _ _ Hi) as Hr.
  assert (Hget : ∀ j, aget (tasks s') j = if i =? j then Some 0 else aget (tasks s) j)
    by (intros j; rewrite ET; apply aget_insert; lia).
  assert (Hi0 : i ≠ 0). { intros ->. pose proof (b_slot0 _ _ B). congruence. }
  constructor.
  - by rewrite ET, length_insert.
  - rewrite Hget. replace (i =? 0) with false by lia. eapply b_slot0, B.
  - intros j q. rewrite Hget, EK. destruct (Z.eqb_spec i j) as [<-|Hij]; [by intros [= <-]|].
    intros Hq Hq0. destruct (b_slot _ _ B _ _ Hq Hq0) as [e He]. exists e.
    rewrite lookup_delete_ne; [done|]. congruence.
  - intros q j e. rewrite EK, Hget, Esk. intros [Hne Hq]%lookup_delete_Some.
    destruct (b_key _ _ B _ _ _ Hq) as (Hq0 & Hs & HVe & Hke). split; [done|].
    destruct (Z.eqb_spec i j) as [<-|_]; [congruence|]. split; [done|]. split; [|done].
    rewrite lookup_delete_ne; [done|]. intros ->. by pose proof (b_dir _ _ B _ _ _ _ _ Hp Hq).
  - intros q1 q2 j1 j2 e. rewrite EK. intros [_ H1]%lookup_delete_Some [_ H2]%lookup_delete_Some.
    by eapply (b_dir _ _ B).
  - exists (L ∖ {[p]}). split; [done|]. rewrite EK, dom_delete_L. set_solver.
  - done.
  - rewrite Esk, lookup_delete_ne; [apply (b_kernel _ _ B)|]. intros E. by apply Hi1, Hk.
  - destruct (b_cur _ _ B) as [j Hj]. exists j. rewrite Ec, Esl, EK.
    by rewrite lookup_delete_ne.
Qed.

Definition less_child (u : task_t) : task_t := with_children (u32 (children u - 1)) u.

Lemma task_destroy_spec V s p t q u : base V s → objs s !! p = Some t → pid t ≠ 1 →
  p ≠ cur_task s → aget (tasks s) (ppid t) = Some q → objs s !! q = Some u → q ≠ p →
  ∃ s', task_destroy p s = Ok s' ∧ base (delete (t_page_dir t) V) s' ∧ cpu s' = cpu s ∧
    objs s' = delete p (<[q := less_child u]> (objs s)) ∧
    tasks s' = <[Z.to_nat (pid t) := 0]> (tasks s).
Proof.
  intros B Hp Hpid Hcur Hq Hu Hqp. pose proof (keys_lookup _ _ _ Hp) as Hk. unfold key in Hk.
  destruct (b_key _ _ B _ _ _ Hk) as (_ & Hs & [m Hm] & Hker).
  pose proof (aget_range _ _ _ Hs) as Hr.
  destruct (b_cur _ _ B) as [j Hj]. destruct (b_heap _ _ B) as (L & HL & HdL).
  destruct (sp_free_ok _ _ _ _ (b_sp _ _ B) Hm) as (s1 & s2 & s3 & E1 & E2 & E3 & HS & EK & EL).
  { intros E. by apply Hpid, Hker. }
  { intros E. rewrite E in Hk. apply Hcur. by eapply (b_dir _ _ B). }
  assert (HpL : p ∈ L) by (apply HdL; by apply elem_of_dom_2 in Hk).
  destruct (mfree_ok p (theap s) L HL HpL) as (h' & Eh & HL').
  unfold task_destroy. rewrite (obj_ok _ _ _ Hp). cbn [rbind]. rewrite E1. cbn [rbind].
  rewrite E2. cbn [rbind]. rewrite E3. cbn [rbind]. change (tasks (set_sps s3 s)) with (tasks s).
  rewrite Hq. cbn [deref rbind]. rewrite (upd_ok q _ u) by done. cbn [rbind].
  rewrite aset_Some by done. cbn. rewrite Eh. cbn. eexists. split; [done|].
  split; [|split; [by unfold cpu; simpl; rewrite EK, EL|done]].
  eapply base_del; [exact B|exact Hk|done|done|by exists L|done| |done|
    by unfold cpu; simpl; rewrite EK, EL].
  unfold keys. simpl. rewrite fmap_delete, fmap_insert. f_equal. apply insert_id.
  by rewrite lookup_fmap, Hu.
Qed.
End table.
