(* ===== verification/Tree.v ===== *)
(** * Tree: parents, children and the dead

    The invariant [tree_ok] of the [task_t] objects: who is whose parent, and which
    dead tasks wait in whose queue; the effect of birth, death and burial on it. *)

From S2P Require Import Prelude Malloc Headers CString Vga Fs Spaces Task Table.

Definition live (t : task_t) : Prop := state t ≠ TASK_STATE_EXITING.

(** [a] has died as a child of task number [i]. *)
Definition zombie_of (o : gmap Z task_t) (i a : Z) : Prop :=
  ∃ u, o !! a = Some u ∧ state u = TASK_STATE_EXITING ∧ ppid u = i.

(** The objects [l] hang together through [wait_queue], from [q] on. *)
Fixpoint zchain (o : gmap Z task_t) (q : Z) (l : list Z) : Prop :=
  match l with
  | [] => q = 0
  | c :: l => q = c ∧ ∃ u, o !! c = Some u ∧ zchain o (wait_queue u) l
  end.

(** The queue [q] of task number [i] is [l]: its dead children, each once. *)
Definition zqueue (o : gmap Z task_t) (i q : Z) (l : list Z) : Prop :=
  zchain o q l ∧ NoDup l ∧ ∀ a, a ∈ l ↔ zombie_of o i a.

(** The children of task number [i]. *)
Definition kids (o : gmap Z task_t) (i : Z) : gset Z := dom (filter (λ kv, ppid kv.2 = i) o).

Record tree_ok (o : gmap Z task_t) : Prop := Tree {
  t_init : ∃ p t, o !! p = Some t ∧ pid t = 1 ∧ live t;
  t_state : ∀ p t, o !! p = Some t →
    state t = TASK_STATE_READY ∨ state t = TASK_STATE_BLOCK_WAIT ∨
    state t = TASK_STATE_EXITING;
  t_root : ∀ p t, o !! p = Some t → pid t = 1 → ppid t = 0;
  t_parent : ∀ p t, o !! p = Some t → pid t ≠ 1 →
    ∃ q u, o !! q = Some u ∧ live u ∧ pid u = ppid t;
  t_queue : ∀ p t, o !! p = Some t → live t → ∃ l, zqueue o (pid t) (wait_queue t) l;
  t_block : ∀ p t, o !! p = Some t → state t = TASK_STATE_BLOCK_WAIT →
    wait_queue t = 0 ∧ children t ≠ 0;
  t_children : ∀ p t, o !! p = Some t → live t →
    0 ≤ children t ≤ Z.of_nat (size (kids o (pid t))) ∧
    (pid t ≠ 1 → children t = Z.of_nat (size (kids o (pid t))));
  t_rank : ∃ r : Z → Z, r 1 = 0 ∧
    ∀ p t, o !! p = Some t → pid t ≠ 1 → 0 ≤ r (ppid t) < r (pid t)
}.

(** A number names one task. *)
Definition pids_inj (o : gmap Z task_t) : Prop :=
  ∀ p q t u, o !! p = Some t → o !! q = Some u → pid t = pid u → p = q.

Lemma elem_of_kids o i a : a ∈ kids o i ↔ ∃ u, o !! a = Some u ∧ ppid u = i.
Proof.
  unfold kids. rewrite elem_of_dom. split.
  - intros [u [Hu E]%map_lookup_filter_Some]. by exists u.
  - intros (u & Hu & E). exists u. by apply map_lookup_filter_Some.
Qed.

Lemma kids_le o i : (size (kids o i) ≤ size o)%nat.
Proof.
  rewrite <- size_dom. apply subseteq_size. intros a (u & Hu & _)%elem_of_kids.
  by apply elem_of_dom_2 in Hu.
Qed.

(** ** Queues *)
Lemma zchain_ext o o' q l :
  (∀ c, c ∈ l → wait_queue <$> o' !! c = wait_queue <$> o !! c) →
  zchain o q l → zchain o' q l.
Proof.
  revert q. induction l as [|c l IH]; intros q Hext; [done|]. intros [-> (u & Hu & Hc)].
  split; [done|]. pose proof (Hext c ltac:(by left)) as E. rewrite Hu in E.
  apply fmap_Some in E as (u' & Hu' & E). exists u'. split; [done|]. rewrite <- E.
  apply IH; [|done]. intros c' Hc'. apply Hext. by right.
Qed.

Lemma zchain_in o q l a : zchain o q l → a ∈ l → is_Some (o !! a).
Proof.
  revert q. induction l as [|c l IH]; intros q; [set_solver|].
  intros [-> (u & Hu & Hc)] [->|Ha]%elem_of_cons; [by exists u|by eapply IH].
Qed.

(** [a] becomes the new end of the queue. *)
Lemma zchain_snoc o o' q l a u :
  zchain o q l → a ∉ l → NoDup l → o' !! a = Some u → wait_queue u = 0 →
  (∀ c, c ∈ l → list.last l ≠ Some c → wait_queue <$> o' !! c = wait_queue <$> o !! c) →
  (∀ c, list.last l = Some c → wait_queue <$> o' !! c = Some a) →
  zchain o' (if decide (l = []) then a else q) (l ++ [a]).
Proof.
  intros Hc Ha Hnd Hu Hw. revert q Hc. induction l as [|c l IH]; intros q Hc Hext Hlast.
  { split; [done|]. exists u. split; [done|]. done. }
  simpl in Hc. destruct Hc as [-> (v & Hv & Hc)]. apply list.NoDup_cons in Hnd as [Hcl Hnd].
  rewrite decide_False by done. simpl. split; [done|].
  destruct (decide (l = [])) as [->|Hne].
  - specialize (Hlast c eq_refl). apply fmap_Some in Hlast as (v' & Hv' & E).
    exists v'. split; [done|]. split; [congruence|]. by exists u.
  - assert (Hlast_eq : list.last (c :: l) = list.last l) by (by destruct l).
    assert (E : wait_queue <$> o' !! c = wait_queue <$> o !! c).
    { apply Hext; [by left|]. rewrite Hlast_eq. intros ?%last_Some_elem_of. done. }
    rewrite Hv in E. apply fmap_Some in E as (v' & Hv' & E). exists v'. split; [done|].
    rewrite <- E. specialize (IH ltac:(set_solver) Hnd (wait_queue v) Hc). apply IH.
    + intros c' Hc'. rewrite <- Hlast_eq. apply Hext. by right.
    + intros c' Hc'. apply Hlast. by rewrite Hlast_eq.
Qed.

(** ** Death

    Task [p], number [i], child of [q] whose queue ends at [e], dies: what becomes of
    another task.  Its dead children are gone, the others are children of task 1. *)
Definition kill_view (i p q e a : Z) (u : task_t) : option task_t :=
  if (state u =? TASK_STATE_EXITING) && (ppid u =? i) then None
  else
    let u := if ppid u =? i then with_ppid 1 u else u in
    let u := if a =? e then with_wait_queue p u else u in
    Some (if (a =? q) && (state u =? TASK_STATE_BLOCK_WAIT)
          then with_state TASK_STATE_READY u else u).

Lemma kill_view_inv i p q e a u u' : kill_view i p q e a u = Some u' →
  ¬ (state u = TASK_STATE_EXITING ∧ ppid u = i) ∧
  pid u' = pid u ∧ t_page_dir u' = t_page_dir u ∧ children u' = children u ∧
  ppid u' = (if ppid u =? i then 1 else ppid u) ∧
  wait_queue u' = (if a =? e then p else wait_queue u) ∧
  state u' = (if (a =? q) && (state u =? TASK_STATE_BLOCK_WAIT) then TASK_STATE_READY
              else state u) ∧ exit_status u' = exit_status u.
Proof.
  unfold kill_view. intros H.
  destruct (Z.eqb_spec (state u) TASK_STATE_EXITING), (Z.eqb_spec (ppid u) i);
    simpl in H; [done|..]; injection H as <-;
    (split; [tauto|]); destruct (Z.eqb_spec a e); simpl;
    destruct (Z.eqb_spec a q); simpl; try done;
    by destruct (Z.eqb_spec (state u) TASK_STATE_BLOCK_WAIT).
Qed.

Lemma kill_view_kept i p q e a u : ¬ (state u = TASK_STATE_EXITING ∧ ppid u = i) →
  ∃ u', kill_view i p q e a u = Some u'.
Proof.
  intros H. unfold kill_view.
  destruct (Z.eqb_spec (state u) TASK_STATE_EXITING), (Z.eqb_spec (ppid u) i);
    naive_solver.
Qed.

Lemma kill_view_exiting i p q e a u u' : kill_view i p q e a u = Some u' →
  (state u' = TASK_STATE_EXITING ↔ state u = TASK_STATE_EXITING).
Proof.
  intros (_ & _ & _ & _ & _ & _ & -> & _)%kill_view_inv.
  destruct (a =? q); simpl; [|done].
  destruct (Z.eqb_spec (state u) TASK_STATE_BLOCK_WAIT) as [->|]; [|done].
  by unfold TASK_STATE_READY, TASK_STATE_EXITING, TASK_STATE_BLOCK_WAIT.
Qed.

Section death.
Variables (o o' : gmap Z task_t) (p q e : Z) (t t' tq : task_t) (lq : list Z).
Hypothesis T : tree_ok o.
Hypothesis I : pids_inj o.
Hypothesis Hp : o !! p = Some t.
Hypothesis Hlive : live t.
Hypothesis Hpid : pid t ≠ 1.
Hypothesis Hpid0 : pid t ≠ 0.
Hypothesis Hq : o !! q = Some tq.
Hypothesis Hqlive : live tq.
Hypothesis Hpar : pid tq = ppid t.
Hypothesis Hlq : zqueue o (pid tq) (wait_queue tq) lq.
Hypothesis He : e = default q (list.last lq).
Hypothesis Hp' : o' !! p = Some t'.
Hypothesis Hdead : (pid t', ppid t', state t', wait_queue t') =
                   (pid t, ppid t, TASK_STATE_EXITING, 0).
Hypothesis Hrest : ∀ a, a ≠ p → o' !! a = o !! a ≫= kill_view (pid t) p q e a.

Lemma kill_q_ne : q ≠ p.
Proof using T Hp Hpid Hq Hpar.
  intros E. destruct (t_rank _ T) as (r & _ & Hr). specialize (Hr p t Hp Hpid).
  assert (tq = t) as Et by congruence. rewrite <- Hpar, Et in Hr. lia.
Qed.

Lemma kill_back a u' : a ≠ p → o' !! a = Some u' →
  ∃ u, o !! a = Some u ∧ kill_view (pid t) p q e a u = Some u'.
Proof using Hrest. intros Ha. rewrite Hrest by done. apply bind_Some. Qed.

Lemma kill_kept a u : a ≠ p → o !! a = Some u →
  ¬ (state u = TASK_STATE_EXITING ∧ ppid u = pid t) →
  ∃ u', o' !! a = Some u' ∧ kill_view (pid t) p q e a u = Some u'.
Proof using Hrest.
  intros Ha Hu H. destruct (kill_view_kept (pid t) p q e a u H) as [u' E].
  exists u'. split; [|done]. by rewrite Hrest, Hu.
Qed.

Lemma kill_other a u : a ≠ p → o !! a = Some u → pid u ≠ pid t.
Proof using I Hp. intros Ha Hu E. by apply Ha, (I a p u t). Qed.

(** The last of the queue is [q] itself, or one of its dead children. *)
Lemma kill_end : (lq = [] ∧ e = q) ∨ (list.last lq = Some e ∧ zombie_of o (pid tq) e).
Proof using Hlq He.
  destruct (list.last lq) as [c|] eqn:E; simpl in He; rewrite He; [right|left].
  - split; [done|]. apply Hlq. by apply last_Some_elem_of.
  - by apply last_None in E.
Qed.

Lemma kill_end_live a u : o !! a = Some u → live u → a = e → a = q.
Proof using Hlq He.
  intros Hu Hl ->. destruct kill_end as [[_ ?]|(_ & v & Hv & Ev & _)]; [done|].
  by rewrite Hu in Hv; injection Hv as <-.
Qed.

(** The dead children of the others are the same, but for [p] at [q]. *)
Lemma kill_zombies i a : i ≠ pid t →
  zombie_of o' i a ↔ zombie_of o i a ∨ (a = p ∧ i = pid tq).
Proof using T Hp Hlive Hpar Hp' Hdead Hrest.
  intros Hi. pose proof Hdead as HD; injection HD as E1 E2 E3 E4. split.
  - intros (u' & Hu' & S' & P'). destruct (decide (a = p)) as [->|Ha].
    { right. rewrite Hp' in Hu'. injection Hu' as <-. split; [done|congruence]. }
    left. destruct (kill_back a u' Ha Hu') as (u & Hu & Hv). exists u.
    apply (kill_view_exiting _ _ _ _ _ _ _ Hv) in S' as S.
    apply kill_view_inv in Hv as (Hn & _ & _ & _ & Ep & _). split; [done|]. split; [done|].
    rewrite P' in Ep. destruct (Z.eqb_spec (ppid u) (pid t)); [tauto|done].
  - intros [(u & Hu & S & P)|[-> ->]].
    + assert (a ≠ p) as Ha. { intros ->. rewrite Hp in Hu. by injection Hu as <-. }
      destruct (kill_kept a u Ha Hu) as (u' & Hu' & Hv); [intros [_ ?]; congruence|].
      exists u'. split; [done|]. split; [by apply (kill_view_exiting _ _ _ _ _ _ _ Hv)|].
      apply kill_view_inv in Hv as (_ & _ & _ & _ & -> & _).
      destruct (Z.eqb_spec (ppid u) (pid t)); [congruence|done].
    + exists t'. split; [done|]. split; [done|]. congruence.
Qed.

Lemma kill_queue_same a u c : o !! a = Some u → a ≠ p → a ≠ q → live u →
  zombie_of o (pid u) c → wait_queue <$> o' !! c = wait_queue <$> o !! c.
Proof using T I Hp Hlive Hq Hqlive Hlq He Hrest.
  intros Hu Hap Haq Hul (v & Hv & S & P).
  assert (Hcp : c ≠ p). { intros ->. rewrite Hp in Hv. by injection Hv as <-. }
  destruct (kill_kept c v Hcp Hv) as (v' & Hv' & E).
  { intros [_ E]. eapply (kill_other a u); [done..|congruence]. }
  rewrite Hv', Hv. apply kill_view_inv in E as (_ & _ & _ & _ & _ & E & _). simpl. f_equal.
  rewrite E. destruct (Z.eqb_spec c e) as [->|_]; [|done]. exfalso.
  destruct kill_end as [[_ ->]|(_ & w & Hw & _ & Pw)].
  - rewrite Hq in Hv. by injection Hv as <-.
  - assert (w = v) as -> by congruence. apply Haq, (I a q u tq Hu Hq). congruence.
Qed.

Lemma kill_kids i : i ≠ pid t →
  kids o i ⊆ kids o' i ∧ (i ≠ 1 → kids o' i = kids o i).
Proof using All.
  intros Hi. pose proof Hdead as HD; injection HD as E1 E2 E3 E4.
  assert (kids o i ⊆ kids o' i) as Hsub.
  { intros a (u & Hu & P)%elem_of_kids. apply elem_of_kids.
    destruct (decide (a = p)) as [->|Ha].
    { exists t'. split; [done|]. assert (u = t) as -> by congruence. congruence. }
    destruct (kill_kept a u Ha Hu) as (u' & Hu' & Hv); [intros [_ ?]; congruence|].
    exists u'. split; [done|]. apply kill_view_inv in Hv as (_ & _ & _ & _ & -> & _).
    by destruct (Z.eqb_spec (ppid u) (pid t)); [congruence|]. }
  split; [done|]. intros Hi1. apply set_eq. intros a. split; [|apply Hsub].
  intros (u' & Hu' & P')%elem_of_kids. apply elem_of_kids.
  destruct (decide (a = p)) as [->|Ha].
  { exists t. split; [done|]. congruence. }
  destruct (kill_back a u' Ha Hu') as (u & Hu & Hv). exists u. split; [done|].
  apply kill_view_inv in Hv as (_ & _ & _ & _ & E & _). rewrite P' in E.
  by destruct (Z.eqb_spec (ppid u) (pid t)).
Qed.

(** A live task that is left was live, and is not [p]. *)
Lemma kill_live a u' : o' !! a = Some u' → live u' → a ≠ p ∧
  ∃ u, o !! a = Some u ∧ live u ∧ kill_view (pid t) p q e a u = Some u' ∧ pid u ≠ pid t.
Proof using All.
  intros Hu' Hl. pose proof Hdead as HD; injection HD as E1 E2 E3 E4.
  assert (a ≠ p) as Ha. { intros ->. apply Hl. congruence. }
  split; [done|]. destruct (kill_back a u' Ha Hu') as (u & Hu & Hv). exists u.
  split; [done|]. split; [intros E; by apply Hl, (kill_view_exiting _ _ _ _ _ _ _ Hv)|].
  split; [done|]. by apply (kill_other a u).
Qed.

(** [p] is the new end of its parent's queue. *)
Lemma kill_parent_queue tq' : o' !! q = Some tq' →
  zqueue o' (pid tq) (wait_queue tq') (lq ++ [p]).
Proof using All.
  intros Hq'. pose proof kill_q_ne as Hqp. pose proof Hdead as HD. injection HD as E1 E2 E3 E4.
  destruct (kill_back q tq' Hqp Hq') as (u & Hu & Hv). assert (u = tq) as -> by congruence.
  apply kill_view_inv in Hv as (_ & _ & _ & _ & _ & Ew & _). rewrite Ew.
  destruct Hlq as (Hc & Hnd & Hmem).
  assert (Hpl : p ∉ lq). { intros (v & Hv & S & _)%Hmem. apply Hlive. congruence. }
  assert (Hkept : ∀ c, c ∈ lq → ∃ v v', o !! c = Some v ∧ o' !! c = Some v' ∧
    wait_queue v' = (if c =? e then p else wait_queue v)).
  { intros c (v & Hv & S & P)%Hmem. assert (Hcp : c ≠ p) by (intros ->; apply Hlive; congruence).
    destruct (kill_kept c v Hcp Hv) as (v' & Hv' & E).
    { intros [_ ?]. apply (kill_other q tq Hqp Hq). congruence. }
    exists v, v'. split; [done|]. split; [done|].
    by apply kill_view_inv in E as (_ & _ & _ & _ & _ & -> & _). }
  split; [|split].
  - assert (Eq : (if q =? e then p else wait_queue tq)
                 = if decide (lq = []) then p else wait_queue tq).
    { destruct kill_end as [[E Eq]|[E (v & Hv & S & _)]].
      - rewrite Eq, Z.eqb_refl. by rewrite decide_True.
      - replace (q =? e) with false; [rewrite decide_False; [done|]|].
        + intros E0. by rewrite E0 in E.
        + symmetry. apply Z.eqb_neq. intros E0. apply Hqlive. congruence. }
    rewrite Eq. apply (zchain_snoc o o' _ _ _ t'); try done.
    + intros c Hc1 Hc2. destruct (Hkept c Hc1) as (v & v' & -> & -> & E). simpl. f_equal.
      rewrite E. destruct (Z.eqb_spec c e) as [->|_]; [|done]. exfalso.
      destruct kill_end as [[E0 _]|[E0 _]]; [rewrite E0 in Hc1; by apply elem_of_nil in Hc1|done].
    + intros c Hc1. destruct (Hkept c) as (v & v' & _ & -> & E); [by apply last_Some_elem_of|].
      simpl. f_equal. rewrite E. by rewrite He, Hc1, Z.eqb_refl.
  - apply list.NoDup_app. split; [done|]. split; [|apply NoDup_singleton].
    by intros x Hx ->%list_elem_of_singleton.
  - intros b. rewrite elem_of_app, list_elem_of_singleton, Hmem, kill_zombies; [tauto|].
    by apply (kill_other q tq).
Qed.

Lemma kill_t_queue a u' : o' !! a = Some u' → live u' →
  ∃ l, zqueue o' (pid u') (wait_queue u') l.
Proof using All.
  intros Hu' Hl'. destruct (kill_live a u' Hu' Hl') as (Ha & u & Hu & Hl & Hv & Hpn).
  apply kill_view_inv in Hv as (_ & Epid & _ & _ & _ & Ew & _). rewrite Epid.
  destruct (decide (a = q)) as [->|Haq].
  { assert (u = tq) as -> by congruence. eexists. by apply kill_parent_queue. }
  rewrite Ew. destruct (t_queue _ T a u Hu Hl) as (l & Hc & Hnd & Hmem). exists l.
  replace (a =? e) with false; [|symmetry; apply Z.eqb_neq; intros E; by
    apply Haq, (kill_end_live a u)].
  split; [|split; [done|]].
  - apply (zchain_ext o); [|done]. intros c Hc1. by apply (kill_queue_same a u), Hmem.
  - intros b. rewrite Hmem, kill_zombies by done. split; [tauto|].
    intros [?|[_ E]]; [done|]. exfalso. by apply Haq, (I a q u tq).
Qed.

Lemma tree_kill : tree_ok o'.
Proof using All.
  pose proof Hdead as HD; injection HD as E1 E2 E3 E4. constructor.
  - destruct (t_init _ T) as (a & u & Hu & P & L).
    assert (Ha : a ≠ p) by congruence.
    destruct (kill_kept a u Ha Hu) as (u' & Hu' & Hv); [intros [? _]; done|].
    exists a, u'. split; [done|]. split; [|by intros X; apply L, (kill_view_exiting _ _ _ _ _ _ _ Hv)].
    apply kill_view_inv in Hv as (_ & -> & _). done.
  - intros a u' Hu'. destruct (decide (a = p)) as [->|Ha].
    { right. right. congruence. }
    destruct (kill_back a u' Ha Hu') as (u & Hu & Hv).
    apply kill_view_inv in Hv as (_ & _ & _ & _ & _ & _ & -> & _).
    destruct (_ && _); [by left|by apply (t_state _ T a)].
  - intros a u' Hu' E. assert (Ha : a ≠ p) by congruence.
    destruct (kill_back a u' Ha Hu') as (u & Hu & Hv).
    apply kill_view_inv in Hv as (_ & Ei & _ & _ & -> & _).
    rewrite (t_root _ T a u Hu) by congruence. by destruct (Z.eqb_spec 0 (pid t)).
  - intros a u' Hu' Hn.
    assert (Hup : ∀ i, i ≠ pid t → (∃ b v, o !! b = Some v ∧ live v ∧ pid v = i) →
      ∃ b v, o' !! b = Some v ∧ live v ∧ pid v = i).
    { intros i Hi (b & v & Hv & L & E). assert (Hb : b ≠ p) by congruence.
      destruct (kill_kept b v Hb Hv) as (v' & Hv' & Hk); [intros [? _]; done|].
      exists b, v'. split; [done|].
      split; [by intros X; apply L, (kill_view_exiting _ _ _ _ _ _ _ Hk)|].
      apply kill_view_inv in Hk as (_ & -> & _). done. }
    destruct (decide (a = p)) as [->|Ha].
    { assert (u' = t') as -> by congruence. rewrite E2. apply Hup; [|by exists q, tq].
      rewrite <- Hpar. by apply (kill_other q tq), Hq; apply kill_q_ne. }
    destruct (kill_back a u' Ha Hu') as (u & Hu & Hv).
    apply kill_view_inv in Hv as (_ & Ei & _ & _ & -> & _).
    destruct (Z.eqb_spec (ppid u) (pid t)) as [E|E].
    + apply Hup; [done|]. destruct (t_init _ T) as (b & v & Hv & P & L). by exists b, v.
    + apply Hup; [done|]. apply (t_parent _ T a); congruence.
  - apply kill_t_queue.
  - intros a u' Hu' S. assert (L : live u') by (by unfold live; rewrite S).
    destruct (kill_live a u' Hu' L) as (Ha & u & Hu & Lu & Hv & Hpn).
    apply kill_view_inv in Hv as (_ & _ & _ & -> & _ & -> & Es & _). rewrite S in Es.
    destruct (Z.eqb_spec a q) as [->|Haq]; simpl in Es.
    { by destruct (Z.eqb_spec (state u) TASK_STATE_BLOCK_WAIT). }
    destruct (t_block _ T a u Hu) as [W C]; [done|].
    destruct (Z.eqb_spec a e) as [E|_]; [|done]. exfalso. by apply Haq, (kill_end_live a u).
  - intros a u' Hu' L. destruct (kill_live a u' Hu' L) as (Ha & u & Hu & Lu & Hv & Hpn).
    apply kill_view_inv in Hv as (_ & -> & _ & -> & _).
    destruct (t_children _ T a u Hu Lu) as [C1 C2].
    destruct (kill_kids (pid u) Hpn) as [K1 K2]. apply subseteq_size in K1.
    split; [lia|]. intros Hn. rewrite K2 by done. by apply C2.
  - destruct (t_rank _ T) as (r & R1 & R). exists r. split; [done|].
    intros a u' Hu' Hn. destruct (decide (a = p)) as [->|Ha].
    { assert (u' = t') as -> by congruence. rewrite E1, E2. by apply (R p). }
    destruct (kill_back a u' Ha Hu') as (u & Hu & Hv).
    apply kill_view_inv in Hv as (_ & Ei & _ & _ & -> & _). rewrite Ei in *.
    specialize (R a u Hu Hn). destruct (Z.eqb_spec (ppid u) (pid t)); lia.
Qed.
End death.

(** ** An update of one task that is not a birth or a death *)
Section update.
Variables (o : gmap Z task_t) (p : Z) (t t' : task_t).
Hypothesis T : tree_ok o.
Hypothesis Hp : o !! p = Some t.
Hypothesis Hkey : (pid t', ppid t', wait_queue t', children t')
                  = (pid t, ppid t, wait_queue t, children t).
Hypothesis Hlive : live t' ↔ live t.

Lemma update_back a u' : <[p := t']> o !! a = Some u' → ∃ u, o !! a = Some u ∧
  (pid u', ppid u', wait_queue u', children u') = (pid u, ppid u, wait_queue u, children u) ∧
  (live u' ↔ live u) ∧ (a = p → u' = t') ∧ (a ≠ p → u' = u).
Proof using Hp Hkey Hlive.
  intros [[<- <-]|[Hne Hu]]%lookup_insert_Some; [by exists t|]. by exists u'.
Qed.

Lemma update_to a u : o !! a = Some u → ∃ u', <[p := t']> o !! a = Some u' ∧
  (pid u', ppid u', wait_queue u', children u') = (pid u, ppid u, wait_queue u, children u) ∧
  (live u' ↔ live u).
Proof using Hp Hkey Hlive.
  intros Hu. destruct (decide (a = p)) as [->|Ha].
  - exists t'. rewrite lookup_insert_eq. assert (u = t) as -> by congruence. done.
  - exists u. by rewrite lookup_insert_ne.
Qed.

Lemma update_zombie i a : zombie_of (<[p := t']> o) i a ↔ zombie_of o i a.
Proof using Hp Hkey Hlive.
  split.
  - intros (u' & Hu' & S & P). destruct (update_back a u' Hu') as (u & Hu & E & L & _).
    injection E as _ E _ _. exists u. split; [done|]. split; [|congruence].
    destruct (decide (state u = TASK_STATE_EXITING)); [done|]. exfalso. by apply L in S.
  - intros (u & Hu & S & P). destruct (update_to a u Hu) as (u' & Hu' & E & L).
    injection E as _ E _ _. exists u'. split; [done|]. split; [|congruence].
    destruct (decide (state u' = TASK_STATE_EXITING)); [done|]. exfalso. by apply L in S.
Qed.

Lemma update_kids i : kids (<[p := t']> o) i = kids o i.
Proof using Hp Hkey Hlive.
  apply set_eq. intros a. rewrite !elem_of_kids. split.
  - intros (u' & Hu' & P). destruct (update_back a u' Hu') as (u & Hu & E & _).
    injection E as _ E _ _. exists u. split; [done|congruence].
  - intros (u & Hu & P). destruct (update_to a u Hu) as (u' & Hu' & E & _).
    injection E as _ E _ _. exists u'. split; [done|congruence].
Qed.

Lemma tree_update :
  state t' = TASK_STATE_READY ∨ state t' = TASK_STATE_BLOCK_WAIT ∨
    state t' = TASK_STATE_EXITING →
  (state t' = TASK_STATE_BLOCK_WAIT → wait_queue t = 0 ∧ children t ≠ 0) →
  tree_ok (<[p := t']> o).
Proof using All.
  intros Hst Hbl. pose proof Hkey as K. injection K as K1 K2 K3 K4. constructor.
  - destruct (t_init _ T) as (a & u & Hu & P & L).
    destruct (update_to a u Hu) as (u' & Hu' & E & L'). injection E as E _ _ _.
    exists a, u'. split; [done|]. split; [congruence|by apply L'].
  - intros a u' Hu'. destruct (update_back a u' Hu') as (u & Hu & _ & _ & E1 & E2).
    destruct (decide (a = p)) as [Ea|Ea]; [by rewrite E1|rewrite E2 by done].
    by apply (t_state _ T a).
  - intros a u' Hu' E. destruct (update_back a u' Hu') as (u & Hu & Ek & _).
    injection Ek as Ei -> _ _. apply (t_root _ T a); congruence.
  - intros a u' Hu' Hn. destruct (update_back a u' Hu') as (u & Hu & Ek & _).
    injection Ek as Ei -> _ _. destruct (t_parent _ T a u Hu) as (b & v & Hv & L & P); [congruence|].
    destruct (update_to b v Hv) as (v' & Hv' & E & L'). injection E as E _ _ _.
    exists b, v'. split; [done|]. split; [by apply L'|congruence].
  - intros a u' Hu' L'. destruct (update_back a u' Hu') as (u & Hu & Ek & L & _).
    injection Ek as -> _ -> _. destruct (t_queue _ T a u Hu) as (l & Hc & Hnd & Hm); [by apply L|].
    exists l. split; [|split; [done|]; intros b; by rewrite update_zombie].
    apply (zchain_ext o); [|done]. intros c _. destruct (o !! c) as [v|] eqn:Ev.
    + destruct (update_to c v Ev) as (v' & -> & E & _). injection E as _ _ E _. simpl. by rewrite E.
    + rewrite lookup_insert_ne; [by rewrite Ev|]. by intros ->; rewrite Hp in Ev.
  - intros a u' Hu' S. destruct (update_back a u' Hu') as (u & Hu & Ek & L & E1 & E2).
    injection Ek as _ _ -> ->. destruct (decide (a = p)) as [->|Ea].
    + assert (u = t) as -> by congruence. apply Hbl. by rewrite <- E1.
    + apply (t_block _ T a u Hu). by rewrite <- E2.
  - intros a u' Hu' L'. destruct (update_back a u' Hu') as (u & Hu & Ek & L & _).
    injection Ek as -> _ _ ->. rewrite update_kids. apply (t_children _ T a u Hu). by apply L.
  - destruct (t_rank _ T) as (r & R1 & R). exists r. split; [done|]. intros a u' Hu' Hn.
    destruct (update_back a u' Hu') as (u & Hu & Ek & _). injection Ek as Ei -> _ _.
    rewrite Ei. apply (R a); [done|]. congruence.
Qed.
End update.

(** ** Birth: task [c] has a new child at [p] *)
Section birth.
Variables (o o' : gmap Z task_t) (p c : Z) (n tc tc' : task_t).
Hypothesis T : tree_ok o.
Hypothesis I : pids_inj o.
Hypothesis Hp : o !! p = None.
Hypothesis Hc : o !! c = Some tc.
Hypothesis Hcr : state tc = TASK_STATE_READY.
Hypothesis Hfresh : ∀ a u, o !! a = Some u → pid u ≠ pid n.
Hypothesis Hn : (ppid n, state n, wait_queue n, children n) = (pid tc, TASK_STATE_READY, 0, 0).
Hypothesis Hn0 : pid n ≠ 0.
Hypothesis Hc' : (pid tc', ppid tc', wait_queue tc', state tc')
                 = (pid tc, ppid tc, wait_queue tc, state tc).
Hypothesis Hch : children tc' = children tc + 1.
Hypothesis Ho' : o' = <[p := n]> (<[c := tc']> o).

Lemma birth_ne : c ≠ p.
Proof using Hp Hc. intros E. congruence. Qed.

Lemma birth_back a u' : o' !! a = Some u' → a ≠ p → ∃ u, o !! a = Some u ∧
  (pid u', ppid u', wait_queue u', state u') = (pid u, ppid u, wait_queue u, state u) ∧
  children u' = children u + (if a =? c then 1 else 0).
Proof using Hc Hc' Hch Ho'.
  intros Hu Hap. rewrite Ho', lookup_insert_ne in Hu by done.
  apply lookup_insert_Some in Hu as [[<- <-]|[Hne Hu]].
  - exists tc. by rewrite Z.eqb_refl.
  - exists u'. replace (a =? c) with false by lia. by rewrite Z.add_0_r.
Qed.

Lemma birth_to a u : o !! a = Some u → a ≠ p ∧ ∃ u', o' !! a = Some u' ∧
  (pid u', ppid u', wait_queue u', state u') = (pid u, ppid u, wait_queue u, state u).
Proof using Hp Hc Hc' Ho'.
  intros Hu. assert (Ha : a ≠ p) by congruence. split; [done|].
  rewrite Ho', lookup_insert_ne by done. destruct (decide (a = c)) as [->|Hne].
  - exists tc'. rewrite lookup_insert_eq. assert (u = tc) as -> by congruence. done.
  - exists u. by rewrite lookup_insert_ne.
Qed.

Lemma birth_new : o' !! p = Some n.
Proof using Ho'. by rewrite Ho', lookup_insert_eq. Qed.

Lemma birth_zombie i a : zombie_of o' i a ↔ zombie_of o i a.
Proof using All.
  pose proof Hn as E. injection E as E1 E2 E3 E4. split.
  - intros (u' & Hu' & S & P). destruct (decide (a = p)) as [->|Ha].
    { rewrite birth_new in Hu'. assert (u' = n) as -> by congruence.
      by rewrite E2 in S. }
    destruct (birth_back a u' Hu' Ha) as (u & Hu & E & _). injection E as _ F _ G.
    exists u. split; [done|]. split; congruence.
  - intros (u & Hu & S & P). destruct (birth_to a u Hu) as (_ & u' & Hu' & E).
    injection E as _ F _ G. exists u'. split; [done|]. split; congruence.
Qed.

Lemma birth_kids i : kids o' i = if decide (i = pid tc) then {[p]} ∪ kids o i else kids o i.
Proof using All.
  pose proof Hn as E. injection E as E1 E2 E3 E4.
  assert (H : ∀ a, a ∈ kids o' i ↔ a ∈ kids o i ∨ (a = p ∧ i = pid tc)).
  { intros a. rewrite !elem_of_kids. split.
    - intros (u' & Hu' & P). destruct (decide (a = p)) as [->|Ha].
      { rewrite birth_new in Hu'. right. split; [done|congruence]. }
      destruct (birth_back a u' Hu' Ha) as (u & Hu & E & _). injection E as _ F _ G.
      left. exists u. split; [done|congruence].
    - intros [(u & Hu & P)|[-> ->]]; [|exists n; by rewrite birth_new].
      destruct (birth_to a u Hu) as (_ & u' & Hu' & E). injection E as _ F _ G.
      exists u'. split; [done|congruence]. }
  case_decide as Hi; apply set_eq; intros a; rewrite H; set_solver.
Qed.

(** Nobody is a child of the new number. *)
Lemma birth_childless a u : o !! a = Some u → ppid u ≠ pid n.
Proof using T Hfresh Hn0.
  intros Hu E. destruct (decide (pid u = 1)) as [E1|E1].
  - rewrite (t_root _ T a u Hu E1) in E. congruence.
  - destruct (t_parent _ T a u Hu E1) as (b & v & Hv & _ & Ev).
    apply (Hfresh b v Hv). congruence.
Qed.

Lemma birth_t_queue a u' : o' !! a = Some u' → live u' →
  ∃ l, zqueue o' (pid u') (wait_queue u') l.
Proof using All.
  intros Hu' L. pose proof Hn as E. injection E as E1 E2 E3 E4.
  destruct (decide (a = p)) as [->|Ha].
  - rewrite birth_new in Hu'. assert (u' = n) as -> by congruence. exists []. split; [done|].
    split; [by constructor|]. intros b. split; [by intros ?%elem_of_nil|].
    intros (u & Hu & _ & P)%birth_zombie. exfalso. by apply (birth_childless b u).
  - destruct (birth_back a u' Hu' Ha) as (u & Hu & E & _). injection E as -> _ -> G.
    destruct (t_queue _ T a u Hu) as (l & Hl & Hnd & Hm); [unfold live in *; congruence|].
    exists l. split; [|split; [done|]; intros b; by rewrite birth_zombie].
    apply (zchain_ext o); [|done]. intros b Hb. destruct (zchain_in _ _ _ _ Hl Hb) as [v Hv].
    destruct (birth_to b v Hv) as (_ & v' & -> & E). injection E as _ _ E _. rewrite Hv.
    simpl. by rewrite E.
Qed.

Lemma tree_birth : tree_ok o'.
Proof using All.
  pose proof Hn as E. injection E as E1 E2 E3 E4. constructor.
  - destruct (t_init _ T) as (a & u & Hu & P & L). destruct (birth_to a u Hu) as (_ & u' & Hu' & E).
    injection E as F _ _ G. exists a, u'. split; [done|]. unfold live in *. split; congruence.
  - intros a u' Hu'. destruct (decide (a = p)) as [->|Ha].
    { rewrite birth_new in Hu'. left. congruence. }
    destruct (birth_back a u' Hu' Ha) as (u & Hu & E & _). injection E as _ _ _ ->.
    by apply (t_state _ T a).
  - intros a u' Hu' Hi. destruct (decide (a = p)) as [->|Ha].
    { exfalso. rewrite birth_new in Hu'. destruct (t_init _ T) as (b & v & Hv & P & _).
      apply (Hfresh b v Hv). congruence. }
    destruct (birth_back a u' Hu' Ha) as (u & Hu & E & _). injection E as F -> _ _.
    apply (t_root _ T a u Hu). congruence.
  - intros a u' Hu' Hi.
    assert (Hup : ∀ i, (∃ b v, o !! b = Some v ∧ live v ∧ pid v = i) →
      ∃ b v, o' !! b = Some v ∧ live v ∧ pid v = i).
    { intros i (b & v & Hv & L & P). destruct (birth_to b v Hv) as (_ & v' & Hv' & E).
      injection E as F _ _ G. exists b, v'. split; [done|]. unfold live in *.
      split; congruence. }
    apply Hup. destruct (decide (a = p)) as [->|Ha].
    + rewrite birth_new in Hu'. exists c, tc. split; [done|]. unfold live. rewrite Hcr.
      split; [done|]. congruence.
    + destruct (birth_back a u' Hu' Ha) as (u & Hu & E & _). injection E as F -> _ _.
      apply (t_parent _ T a u Hu). congruence.
  - apply birth_t_queue.
  - intros a u' Hu' S. destruct (decide (a = p)) as [->|Ha].
    { rewrite birth_new in Hu'. assert (u' = n) as -> by congruence. by rewrite E2 in S. }
    destruct (birth_back a u' Hu' Ha) as (u & Hu & E & F). injection E as _ _ -> G.
    destruct (t_block _ T a u Hu) as [W C]; [congruence|]. split; [done|].
    rewrite F. destruct (Z.eqb_spec a c) as [->|_]; [|lia].
    assert (u = tc) as -> by congruence. exfalso. by rewrite G, Hcr in S.
  - intros a u' Hu' L. destruct (decide (a = p)) as [->|Ha].
    { rewrite birth_new in Hu'. assert (u' = n) as -> by congruence. rewrite E4.
      assert (kids o' (pid n) = ∅) as ->; [|by rewrite size_empty].
      apply set_eq. intros b. split; [|set_solver]. intros (u & Hu & P)%elem_of_kids. exfalso.
      destruct (decide (b = p)) as [->|Hb].
      - rewrite birth_new in Hu. apply (Hfresh c tc Hc). congruence.
      - destruct (birth_back b u Hu Hb) as (v & Hv & E & _). injection E as _ F _ _.
        apply (birth_childless b v Hv). congruence. }
    destruct (birth_back a u' Hu' Ha) as (u & Hu & E & ->). injection E as -> _ _ G.
    destruct (t_children _ T a u Hu) as [C1 C2]; [unfold live in *; congruence|].
    rewrite birth_kids. destruct (Z.eqb_spec a c) as [->|Hac].
    + assert (u = tc) as -> by congruence. rewrite decide_True by done.
      rewrite size_union, size_singleton; [lia|]. intros x ->%elem_of_singleton.
      intros (v & Hv & _)%elem_of_kids. congruence.
    + case_decide as Hi; [|lia]. exfalso. by apply Hac, (I a c u tc).
  - destruct (t_rank _ T) as (r & R1 & R).
    assert (Hc0 : 0 ≤ r (pid tc)).
    { destruct (decide (pid tc = 1)) as [->|H1]; [lia|]. specialize (R c tc Hc H1). lia. }
    assert (Hn1 : pid n ≠ 1).
    { intros E. destruct (t_init _ T) as (b & v & Hv & P & _). apply (Hfresh b v Hv). congruence. }
    exists (λ i, if i =? pid n then r (pid tc) + 1 else r i).
    split; [by destruct (Z.eqb_spec 1 (pid n)) as [F|]; [congruence|]|].
    intros a u' Hu' Hi. destruct (decide (a = p)) as [->|Ha].
    + rewrite birth_new in Hu'. assert (u' = n) as -> by congruence. rewrite E1, Z.eqb_refl.
      destruct (Z.eqb_spec (pid tc) (pid n)) as [F|_]; [|lia]. by apply (Hfresh c tc) in F.
    + destruct (birth_back a u' Hu' Ha) as (u & Hu & E & _). injection E as F -> _ _.
      rewrite F in *. destruct (Z.eqb_spec (pid u) (pid n)) as [G|_].
      { by apply (Hfresh a u) in G. }
      destruct (Z.eqb_spec (ppid u) (pid n)) as [G|_]; [by apply (birth_childless a u) in G|].
      by apply (R a).
Qed.
End birth.

(** ** Burial: [q] takes the first task out of its queue, and it is gone *)
Section burial.
Variables (o o' : gmap Z task_t) (q c : Z) (tq tq' tc : task_t) (l : list Z).
Hypothesis T : tree_ok o.
Hypothesis I : pids_inj o.
Hypothesis Hq : o !! q = Some tq.
Hypothesis Hqr : state tq = TASK_STATE_READY.
Hypothesis Hlq : zqueue o (pid tq) (wait_queue tq) (c :: l).
Hypothesis Hc : o !! c = Some tc.
Hypothesis Hq' : (pid tq', ppid tq', wait_queue tq', state tq', children tq')
                 = (pid tq, ppid tq, wait_queue tc, state tq, children tq - 1).
Hypothesis Hch : children tq ≠ 0.
Hypothesis Ho' : o' = delete c (<[q := tq']> o).

Lemma bury_dead : state tc = TASK_STATE_EXITING ∧ ppid tc = pid tq.
Proof using Hlq Hc.
  destruct Hlq as (_ & _ & Hm). destruct (proj1 (Hm c) ltac:(by left)) as (u & Hu & S & P).
  assert (u = tc) as -> by congruence. done.
Qed.

Lemma bury_ne : q ≠ c.
Proof using Hq Hqr Hlq Hc.
  intros E. destruct bury_dead as [S _]. assert (tq = tc) as Et by congruence.
  rewrite <- Et, Hqr in S. done.
Qed.

Lemma bury_back a u' : o' !! a = Some u' → a ≠ c ∧ ∃ u, o !! a = Some u ∧
  (pid u', ppid u', state u') = (pid u, ppid u, state u) ∧
  (a = q → u' = tq') ∧ (a ≠ q → u' = u).
Proof using Hq Hq' Ho'.
  pose proof Hq' as E. injection E as E1 E2 E3 E4 E5.
  rewrite Ho'. intros [Ha Hu]%lookup_delete_Some. split; [done|].
  apply lookup_insert_Some in Hu as [[<- <-]|[Hne Hu]].
  - exists tq. split; [done|]. split; [congruence|]. done.
  - exists u'. split; [done|]. split; [done|]. split; [congruence|done].
Qed.

Lemma bury_to a u : o !! a = Some u → a ≠ c → ∃ u', o' !! a = Some u' ∧
  (pid u', ppid u', state u') = (pid u, ppid u, state u) ∧ (a ≠ q → u' = u).
Proof using Hq Hq' Ho'.
  intros Hu Ha. pose proof Hq' as E. injection E as E1 E2 E3 E4 E5.
  rewrite Ho', lookup_delete_ne by done. destruct (decide (a = q)) as [->|Hne].
  - exists tq'. rewrite lookup_insert_eq. assert (u = tq) as -> by congruence.
    split; [done|]. split; [congruence|done].
  - exists u. by rewrite lookup_insert_ne.
Qed.

Lemma bury_zombie i a : zombie_of o' i a ↔ zombie_of o i a ∧ a ≠ c.
Proof using Hq Hq' Ho'.
  split.
  - intros (u' & Hu' & S & P). destruct (bury_back a u' Hu') as (Ha & u & Hu & E & _).
    injection E as _ F G. split; [|done]. exists u. split; [done|]. split; congruence.
  - intros [(u & Hu & S & P) Ha]. destruct (bury_to a u Hu Ha) as (u' & Hu' & E & _).
    injection E as _ F G. exists u'. split; [done|]. split; congruence.
Qed.

Lemma bury_kids i : kids o' i = kids o i ∖ {[c]}.
Proof using Hq Hq' Ho'.
  apply set_eq. intros a. rewrite elem_of_difference, elem_of_singleton, !elem_of_kids. split.
  - intros (u' & Hu' & P). destruct (bury_back a u' Hu') as (Ha & u & Hu & E & _).
    injection E as _ F G. split; [|done]. exists u. split; [done|congruence].
  - intros [(u & Hu & P) Ha]. destruct (bury_to a u Hu Ha) as (u' & Hu' & E & _).
    injection E as _ F G. exists u'. split; [done|congruence].
Qed.

Lemma bury_parent_queue : zqueue o' (pid tq) (wait_queue tq') l.
Proof using All.
  destruct bury_dead as [Sc Pc]. pose proof Hq' as E. injection E as _ _ -> _ _.
  destruct Hlq as (Hl & Hnd & Hm). simpl in Hl. destruct Hl as (_ & v & Hv & Hl).
  assert (v = tc) as -> by congruence. apply list.NoDup_cons in Hnd as [Hcl Hnd].
  split; [|split; [done|]].
  - apply (zchain_ext o); [|done]. intros b Hb.
    destruct (proj1 (Hm b) ltac:(by right)) as (v & Hv' & S & _).
    destruct (bury_to b v Hv') as (v' & Hv2 & _ & E); [by intros ->|].
    rewrite Hv2, E, Hv'; [done|]. intros ->. assert (v = tq) as -> by congruence.
    by rewrite Hqr in S.
  - intros b. rewrite bury_zombie, <- Hm, elem_of_cons. split; [|tauto].
    intros Hb. split; [by right|]. by intros ->.
Qed.

Lemma bury_t_queue a u' : o' !! a = Some u' → live u' →
  ∃ l, zqueue o' (pid u') (wait_queue u') l.
Proof using All.
  intros Hu' L. destruct (bury_back a u' Hu') as (Ha & u & Hu & E & Eq & Ene).
  injection E as Ei _ Es. rewrite Ei. destruct bury_dead as [Sc Pc].
  destruct (decide (a = q)) as [->|Haq].
  { assert (u = tq) as -> by congruence. rewrite (Eq eq_refl). exists l. apply bury_parent_queue. }
  rewrite (Ene Haq). destruct (t_queue _ T a u Hu) as (l' & Hl & Hnd & Hm).
  { unfold live in *. congruence. }
  assert (Hcn : ∀ b, b ∈ l' → b ≠ c).
  { intros b Hb ->. apply Hm in Hb as (v & Hv & _ & P). apply Haq, (I a q u tq); congruence. }
  exists l'. split; [|split; [done|]].
  - apply (zchain_ext o); [|done]. intros b Hb.
    destruct (proj1 (Hm b) Hb) as (v & Hv & S & P).
    destruct (bury_to b v Hv (Hcn b Hb)) as (v' & Hv2 & _ & E).
    rewrite Hv2, E, Hv; [done|]. intros ->. assert (v = tq) as -> by congruence.
    by rewrite Hqr in S.
  - intros b. rewrite bury_zombie, <- Hm. split; [|tauto]. intros Hb. split; [done|by apply Hcn].
Qed.

Lemma tree_bury : tree_ok o'.
Proof using All.
  pose proof Hq' as E. injection E as E1 E2 E3 E4 E5. destruct bury_dead as [Sc Pc].
  assert (Hup : ∀ i, (∃ b v, o !! b = Some v ∧ live v ∧ pid v = i) →
    ∃ b v, o' !! b = Some v ∧ live v ∧ pid v = i).
  { intros i (b & v & Hv & L & P). destruct (bury_to b v Hv) as (v' & Hv' & E & _).
    { intros ->. apply L. congruence. }
    injection E as F _ G. exists b, v'. split; [done|]. unfold live in *. split; congruence. }
  constructor.
  - destruct (t_init _ T) as (a & u & Hu & P & L).
    destruct (Hup 1) as (b & v & Hv & Lv & Pv); [by exists a, u|]. by exists b, v.
  - intros a u' Hu'. destruct (bury_back a u' Hu') as (_ & u & Hu & E & _).
    injection E as _ _ ->. by apply (t_state _ T a).
  - intros a u' Hu' Hi. destruct (bury_back a u' Hu') as (_ & u & Hu & E & _).
    injection E as F -> _. apply (t_root _ T a u Hu). congruence.
  - intros a u' Hu' Hi. destruct (bury_back a u' Hu') as (_ & u & Hu & E & _).
    injection E as F -> _. apply Hup, (t_parent _ T a u Hu). congruence.
  - apply bury_t_queue.
  - intros a u' Hu' S. destruct (bury_back a u' Hu') as (_ & u & Hu & E & Eq & Ene).
    injection E as _ _ G. destruct (decide (a = q)) as [->|Ha].
    { exfalso. assert (u = tq) as -> by congruence. by rewrite G, Hqr in S. }
    rewrite (Ene Ha). apply (t_block _ T a u Hu). congruence.
  - intros a u' Hu' L. destruct (bury_back a u' Hu') as (_ & u & Hu & E & Eq & Ene).
    injection E as F _ G. destruct (t_children _ T a u Hu) as [C1 C2].
    { unfold live in *. congruence. }
    rewrite F, bury_kids. destruct (decide (a = q)) as [->|Ha].
    + assert (u = tq) as -> by congruence. rewrite (Eq eq_refl), E5.
      rewrite size_difference, size_singleton by
        (apply singleton_subseteq_l, elem_of_kids; by exists tc). lia.
    + rewrite (Ene Ha). replace (kids o (pid u) ∖ {[c]}) with (kids o (pid u)); [done|].
      apply set_eq. intros b. rewrite elem_of_difference, elem_of_singleton. split; [|tauto].
      intros Hb. split; [done|]. intros ->. apply elem_of_kids in Hb as (v & Hv & P).
      apply Ha, (I a q u tq); congruence.
  - destruct (t_rank _ T) as (r & R1 & R). exists r. split; [done|]. intros a u' Hu' Hi.
    destruct (bury_back a u' Hu') as (_ & u & Hu & E & _). injection E as F -> _.
    rewrite F in *. by apply (R a).
Qed.
End burial.

(** ** Somebody can always run

    A task that blocks has a child that is alive: the deepest task that is alive does
    not block. *)
Lemma kids_live o p t : tree_ok o → o !! 0 = None → o !! p = Some t → live t →
  wait_queue t = 0 → ∀ a u, o !! a = Some u → ppid u = pid t → live u.
Proof.
  intros T H0 Hp L W a u Hu P S. destruct (t_queue _ T p t Hp L) as (l & Hl & _ & Hm).
  destruct l as [|b l].
  - apply (not_elem_of_nil a), Hm. by exists u.
  - destruct Hl as [E (v & Hv & _)]. rewrite W in E. congruence.
Qed.

(** The deepest live task, by the rank [r]. *)
Lemma max_rank (r : Z → Z) (l : list (Z * task_t)) x : x ∈ l →
  ∃ y, y ∈ l ∧ ∀ z, z ∈ l → r (pid z.2) ≤ r (pid y.2).
Proof.
  revert x. induction l as [|a l IH]; intros x Hx; [by apply elem_of_nil in Hx|].
  destruct l as [|b l].
  { exists a. split; [by left|]. by intros z ->%list_elem_of_singleton. }
  destruct (IH b ltac:(by left)) as (y & Hy & Hmax).
  destruct (Z.le_gt_cases (r (pid a.2)) (r (pid y.2))).
  - exists y. split; [by right|]. intros z [->|Hz]%elem_of_cons; [done|by apply Hmax].
  - exists a. split; [by left|]. intros z [->|Hz]%elem_of_cons; [lia|].
    specialize (Hmax z Hz). lia.
Qed.

Lemma some_ready o : tree_ok o → o !! 0 = None → (∀ p t, o !! p = Some t → pid t ≠ 0) →
  ∃ p t, o !! p = Some t ∧ state t = TASK_STATE_READY.
Proof.
  intros T H0 Hz. destruct (t_rank _ T) as (r & R1 & R).
  destruct (t_init _ T) as (p1 & t1 & H1 & P1 & L1).
  set (l := filter (λ kv, state kv.2 ≠ TASK_STATE_EXITING) (map_to_list o)).
  assert (Hl : ∀ a u, (a, u) ∈ l ↔ o !! a = Some u ∧ live u).
  { intros a u. unfold l. rewrite list_elem_of_filter, elem_of_map_to_list. unfold live. simpl. tauto. }
  destruct (max_rank r l (p1, t1)) as ([p t] & [Hp L]%Hl & Hmax); [by apply Hl|].
  destruct (t_state _ T p t Hp) as [S|[S|S]]; [by exists p, t| |done].
  exfalso. destruct (t_block _ T p t Hp S) as [W C].
  destruct (t_children _ T p t Hp L) as [Hc _].
  assert (∃ a, a ∈ kids o (pid t)) as (a & Ha).
  { destruct (decide (kids o (pid t) = ∅)) as [E|E]; [rewrite E, size_empty in Hc; lia|].
    by apply set_choose_L in E. }
  apply elem_of_kids in Ha as (u & Hu & P).
  pose proof (kids_live o p t T H0 Hp L W a u Hu P) as Lu.
  specialize (Hmax (a, u) (proj2 (Hl a u) (conj Hu Lu))). simpl in Hmax.
  destruct (decide (pid u = 1)) as [E|E].
  - pose proof (t_root _ T a u Hu E) as E0. rewrite P in E0. by apply (Hz p t).
  - specialize (R a u Hu E). rewrite P in R. lia.
Qed.
