(* ===== verification/Death.v ===== *)
(** * Death: [task_kill] and [task_destroy] keep the tasks in order

    The loops of [task_kill] on a sound table, and what it leaves. *)

From S2P Require Import Prelude Malloc Headers CString Vga Fs Spaces Task Table Tree.

Section death.
Context {MA : Malloc} {SP : Spaces}.

Lemma obj_none V s p : base V s → objs s !! p = None ↔ keys s !! p = None.
Proof. intros B. unfold keys. rewrite lookup_fmap. by destruct (objs s !! p). Qed.

Lemma put_lookup p t s a :
  objs (put_obj p t s) !! a = if decide (a = p) then Some t else objs s !! a.
Proof.
  simpl. case_decide as E; [by rewrite E, lookup_insert_eq|by rewrite lookup_insert_ne].
Qed.

(** ** The dead children of the dying task [p] *)
Lemma destroy_queue_spec fuel V s p t q l : base V s → objs s !! p = Some t → live t →
  zchain (objs s) q l → NoDup l → (length l < fuel)%nat →
  (∀ c, c ∈ l → zombie_of (objs s) (pid t) c ∧ c ≠ cur_task s ∧
    ∀ u, objs s !! c = Some u → pid u ≠ 1) →
  ∃ s' V' n, destroy_queue fuel q s = Ok s' ∧ base V' s' ∧ V' ⊆ V ∧ cpu s' = cpu s ∧
    ∀ a, objs s' !! a = if decide (a ∈ l) then None
      else if decide (a = p) then Some (with_children n t) else objs s !! a.
Proof.
  revert fuel V s t q. induction l as [|c l IH]; intros fuel V s t q B Hp L Hz Hnd Hf Hl;
    (destruct fuel as [|fuel]; simpl in Hf; [lia|]); cbn [destroy_queue].
  - simpl in Hz. rewrite Hz. simpl. exists s, V, (children t). split; [done|].
    split; [done|]. split; [done|]. split; [done|]. intros a.
    destruct (decide (a ∈ [])) as [Ha|_]; [by apply elem_of_nil in Ha|].
    case_decide as E; [|done].
    rewrite E, Hp. by destruct t.
  - destruct Hz as [-> (u & Hu & Hz)]. apply list.NoDup_cons in Hnd as [Hcl Hnd].
    destruct (Hl c ltac:(by left)) as ((u' & Hu' & S & P) & Hcur & Hp1).
    assert (u' = u) as -> by congruence. clear Hu'.
    assert (Hcp : p ≠ c). { intros ->. apply L. congruence. }
    destruct (base_obj _ _ _ _ B Hu) as (Hc0 & _). destruct (base_obj _ _ _ _ B Hp) as (_ & Hs & _).
    destruct (task_destroy_spec V s c u p t) as (s1 & E1 & B1 & C1 & O1 & _); try done.
    { by apply Hp1. } { by rewrite P. }
    rewrite (obj_ok _ _ _ Hu). cbn [rbind]. replace (c =? 0) with false by lia.
    rewrite E1. cbn [rbind].
    assert (Ho1 : ∀ a, a ≠ c → a ≠ p → objs s1 !! a = objs s !! a).
    { intros a Ha1 Ha2. rewrite O1, lookup_delete_ne, lookup_insert_ne by done. done. }
    destruct (IH fuel _ s1 (less_child t) (wait_queue u) B1) as (s' & V' & n & E & B' & HV & C & O).
    + by rewrite O1, lookup_delete_ne, lookup_insert_eq.
    + done.
    + apply (zchain_ext (objs s)); [|done]. intros b Hb. rewrite Ho1; [done| |].
      * by intros ->.
      * intros ->. destruct (Hl p ltac:(by right)) as ((v & Hv & Sv & _) & _). apply L. congruence.
    + done.
    + lia.
    + intros b Hb. destruct (Hl b ltac:(by right)) as ((v & Hv & Sv & Pv) & Hbc & Hb1).
      assert (b ≠ c) by (by intros ->). assert (b ≠ p) by (intros ->; apply L; congruence).
      split; [|split].
      * exists v. by rewrite Ho1.
      * injection C1 as -> _. done.
      * intros w. rewrite Ho1 by done. apply Hb1.
    + exists s', V', n. split; [done|]. split; [done|].
      split; [etrans; [exact HV|apply delete_subseteq]|]. split; [by rewrite C|].
      intros a. rewrite O. destruct (decide (a ∈ l)) as [Ha|Ha].
      { by rewrite decide_True by (by right). }
      destruct (decide (a = c)) as [->|Hac].
      { rewrite (decide_True (P := c ∈ c :: l)) by (by left). rewrite decide_False by done.
        by rewrite O1, lookup_delete_eq. }
      rewrite (decide_False (P := a ∈ c :: l)) by set_solver.
      case_decide as Hap; [done|by apply Ho1].
Qed.

(** ** The children that are left *)
Definition adopt (i n : Z) (u : task_t) : task_t :=
  if (2 <=? pid u) && (pid u <? n) && (ppid u =? i) then with_ppid 1 u else u.

Lemma key_adopt i n u : key (adopt i n u) = key u.
Proof. unfold adopt. by destruct (_ && _). Qed.

Lemma pid_adopt i n u : pid (adopt i n u) = pid u.
Proof. unfold adopt. by destruct (_ && _). Qed.

Lemma adopt_at i n u : pid u = n → ppid (adopt i n u) = ppid u.
Proof. intros <-. unfold adopt. by rewrite Z.ltb_irrefl, andb_false_r. Qed.

Lemma adopt_step i n u : 2 ≤ n →
  adopt i (n + 1) u = if (pid u =? n) && (ppid u =? i) then with_ppid 1 u else adopt i n u.
Proof.
  intros Hn. unfold adopt.
  destruct (Z.eqb_spec (pid u) n), (Z.leb_spec 2 (pid u)), (Z.ltb_spec (pid u) n),
    (Z.ltb_spec (pid u) (n + 1)); try lia; simpl; try done; by destruct (ppid u =? i).
Qed.

Lemma set_objs_twice x y s : set_objs x (set_objs y s) = set_objs x s.
Proof. done. Qed.

Lemma reparent_spec V s p t : base V s → objs s !! p = Some t →
  reparent p s = Ok (set_objs (adopt (pid t) NTASKS <$> objs s) s).
Proof.
  intros B Hp.
  destruct (for_range_inv (λ n s', s' = set_objs (adopt (pid t) n <$> objs s) s)
              2 NTASKS (reparent_one p) s) as (s' & E & ->); [done| |
    |by unfold reparent; rewrite E].
  - assert (adopt (pid t) 2 <$> objs s = objs s) as ->; [|by destruct s].
    rewrite <- (map_fmap_id (objs s)) at 2. apply map_fmap_ext. intros a u _. unfold adopt.
    destruct (Z.leb_spec 2 (pid u)), (Z.ltb_spec (pid u) 2); try lia; done.
  - intros n s1 Hn ->. unfold NTASKS in Hn. unfold reparent_one, get_task, NTASKS. simpl.
    replace (256 <? n) with false by lia.
    destruct (aget_is_Some (tasks s) n) as [c Hc]; [rewrite (b_len _ _ B); lia|].
    rewrite Hc. cbn [deref rbind]. destruct (Z.eqb_spec c 0) as [->|Hc0].
    + eexists. split; [done|]. f_equal. apply map_fmap_ext. intros a u Hu.
      rewrite adopt_step by lia. destruct (Z.eqb_spec (pid u) n) as [E|]; [|done].
      exfalso. destruct (base_obj _ _ _ _ B Hu) as (Ha & Hs & _). congruence.
    + destruct (base_slot _ _ _ _ B Hc Hc0) as (u & Hu & Hpu).
      unfold obj. simpl. rewrite !lookup_fmap, Hu, Hp. simpl.
      rewrite pid_adopt, adopt_at by done.
      set (s1 := set_objs (adopt (pid t) n <$> objs s) s).
      assert (Hs1 : objs s1 !! c = Some (adopt (pid t) n u)) by
        (simpl; by rewrite lookup_fmap, Hu).
      assert (Hother : ∀ a v, a ≠ c → objs s !! a = Some v →
        adopt (pid t) (n + 1) v = adopt (pid t) n v).
      { intros a v Ha Hv. rewrite adopt_step by lia.
        destruct (Z.eqb_spec (pid v) n) as [E|]; [|done].
        exfalso. apply Ha, (pid_inj V s a c v u); [done..|congruence]. }
      destruct (Z.eqb_spec (ppid u) (pid t)) as [E|E].
      * rewrite (upd_ok _ _ _ _ Hs1). eexists. split; [done|]. unfold put_obj, s1.
        rewrite set_objs_twice. f_equal. apply map_eq. intros a. simpl.
        destruct (decide (a = c)) as [->|Ha].
        -- rewrite lookup_insert_eq, lookup_fmap, Hu. simpl. f_equal.
           rewrite adopt_step by lia. rewrite Hpu, E, !Z.eqb_refl. simpl.
           unfold adopt. by rewrite Hpu, Z.ltb_irrefl, andb_false_r.
        -- rewrite lookup_insert_ne, !lookup_fmap by done.
           destruct (objs s !! a) as [v|] eqn:Ev; [|done]. simpl. f_equal. symmetry.
           by apply (Hother a).
      * eexists. split; [done|]. unfold s1. f_equal. apply map_fmap_ext. intros a v Hv.
        destruct (decide (a = c)) as [->|Ha]; [|symmetry; by apply (Hother a)].
        assert (v = u) as -> by congruence. rewrite adopt_step by lia.
        by rewrite (proj2 (Z.eqb_neq _ _) E), andb_false_r.
Qed.

Lemma get_task_ok i p s : i < 256 → aget (tasks s) i = Some p → get_task i s = Ok p.
Proof. intros Hi H. unfold get_task, NTASKS. replace (256 <? i) with false by lia. by rewrite H. Qed.

(** ** The end of the parent's queue *)
Lemma queue_end_spec fuel s q u l : objs s !! q = Some u → objs s !! 0 = None →
  zchain (objs s) (wait_queue u) l → (length l < fuel)%nat →
  queue_end fuel q s = Ok (default q (list.last l)).
Proof.
  intros Hq H0. revert fuel q u Hq. induction l as [|c l IH]; intros fuel q u Hq Hz Hf;
    (destruct fuel as [|fuel]; simpl in Hf; [lia|]); cbn [queue_end];
    rewrite (obj_ok _ _ _ Hq); cbn [rbind].
  - simpl in Hz. by rewrite Hz.
  - destruct Hz as [E (v & Hv & Hz)]. rewrite E.
    destruct (Z.eqb_spec c 0) as [->|Hc]; [congruence|].
    rewrite (IH fuel c v) by (done || lia). rewrite last_cons. by destruct (list.last l).
Qed.

Lemma zchain_length s q l : zchain (objs s) q l → NoDup l → (length l < task_fuel s)%nat.
Proof.
  intros Hz Hnd. unfold task_fuel. rewrite <- size_dom.
  assert (length l = size (list_to_set l : gset Z)) as -> by (symmetry; by apply size_list_to_set).
  assert (list_to_set l ⊆ dom (objs s)) as H%subseteq_size; [|lia].
  intros a Ha%elem_of_list_to_set. apply elem_of_dom. by eapply zchain_in.
Qed.

(** ** [p] joins the queue of [q], whose end is [e] *)
Definition link_view (p q e a : Z) (u : task_t) : task_t :=
  let u := if a =? e then with_wait_queue p u else u in
  if (a =? q) && (state u =? TASK_STATE_BLOCK_WAIT)
  then with_state TASK_STATE_READY u else u.

Lemma link_spec V s p t q e u ue : base V s → objs s !! p = Some t → objs s !! q = Some u →
  objs s !! e = Some ue → e ≠ p → q ≠ p →
  ∃ s', (let* s := upd e (with_wait_queue p) s in
         let* s := upd p (with_wait_queue 0) s in
         let* v := obj q s in
         let* s := (if state v =? TASK_STATE_BLOCK_WAIT
                    then upd q (with_state TASK_STATE_READY) s else Ok s) in
         upd p (with_state TASK_STATE_EXITING) s) = Ok s' ∧
    base V s' ∧ cpu s' = cpu s ∧
    objs s' !! p = Some (with_state TASK_STATE_EXITING (with_wait_queue 0 t)) ∧
    ∀ a, a ≠ p → objs s' !! a = link_view p q e a <$> objs s !! a.
Proof.
  intros B Hp Hq He Hep Hqp. rewrite (upd_ok _ _ _ _ He). cbn [rbind].
  set (s1 := put_obj e _ s). assert (B1 : base V s1) by by eapply base_put.
  assert (Hp1 : objs s1 !! p = Some t) by (unfold s1; by rewrite put_lookup, decide_False).
  rewrite (upd_ok _ _ _ _ Hp1). cbn [rbind].
  set (s2 := put_obj p _ s1). assert (B2 : base V s2) by by eapply base_put.
  assert (Hq2 : objs s2 !! q = Some (if q =? e then with_wait_queue p u else u)).
  { unfold s2, s1. rewrite !put_lookup, decide_False by done.
    destruct (Z.eqb_spec q e) as [->|]; [|by rewrite decide_False].
    rewrite decide_True by done. congruence. }
  rewrite (obj_ok _ _ _ Hq2). cbn [rbind]. set (v := if q =? e then _ else _) in *.
  set (m := if state v =? _ then _ else _).
  assert (∃ s3, m = Ok s3 ∧ base V s3 ∧ cpu s3 = cpu s ∧
    ∀ a, objs s3 !! a = if decide (a = q) then Some (link_view p q e q u) else objs s2 !! a)
    as (s3 & Em & B3 & C3 & O3).
  { unfold m. assert (link_view p q e q u = if state v =? TASK_STATE_BLOCK_WAIT
      then with_state TASK_STATE_READY v else v) as ->.
    { unfold link_view. by rewrite Z.eqb_refl. }
    destruct (state v =? TASK_STATE_BLOCK_WAIT).
    - rewrite (upd_ok _ _ _ _ Hq2). eexists. split; [done|]. split; [by eapply base_put|].
      split; [done|]. intros a. apply put_lookup.
    - exists s2. split; [done|]. split; [done|]. split; [done|]. intros a.
      case_decide as E; [by rewrite E|done]. }
  rewrite Em. cbn [rbind].
  assert (Hp3 : objs s3 !! p = Some (with_wait_queue 0 t)).
  { rewrite O3, decide_False by done. unfold s2. by rewrite put_lookup, decide_True. }
  rewrite (upd_ok _ _ _ _ Hp3). eexists. split; [done|]. split; [by eapply base_put|].
  split; [done|]. split; [by rewrite put_lookup, decide_True|].
  intros a Ha. rewrite put_lookup, decide_False, O3 by done.
  case_decide as Eq; [by rewrite Eq, Hq|]. unfold s2, s1.
  rewrite !put_lookup, decide_False by done. unfold link_view.
  replace (a =? q) with false by lia. simpl. case_decide as Ee.
  - by rewrite Ee, He, Z.eqb_refl.
  - replace (a =? e) with false by lia. by destruct (objs s !! a).
Qed.

(** ** The whole of [task_kill], for the running task *)
Lemma kill_view_link i p q e a u : pid u ≠ 0 → 0 < i → (pid u = 1 → ppid u = 0) →
  0 < pid u < 256 →
  kill_view i p q e a u =
    if (state u =? TASK_STATE_EXITING) && (ppid u =? i) then None
    else Some (link_view p q e a (adopt i NTASKS u)).
Proof.
  intros H0 Hi H1 Hr. unfold kill_view, link_view, adopt, NTASKS.
  destruct (_ && _); [done|]. f_equal.
  destruct (Z.eqb_spec (ppid u) i) as [E|E]; [|by rewrite andb_false_r].
  destruct (Z.leb_spec 2 (pid u)), (Z.ltb_spec (pid u) 256); try lia; simpl.
  by destruct (a =? e).
Qed.

Definition dead_task (status : Z) (t t' : task_t) : Prop :=
  (pid t', ppid t', state t', wait_queue t', exit_status t', t_page_dir t') =
  (pid t, ppid t, TASK_STATE_EXITING, 0, status, t_page_dir t).

(** The first half: the dead children of [p] are gone, the others adopted. *)
Lemma orphans_spec V s p t l : base V s → tree_ok (objs s) → p = cur_task s →
  objs s !! p = Some t → live t → pid t ≠ 1 → zqueue (objs s) (pid t) (wait_queue t) l →
  ∃ s' V' n, (let* s := destroy_queue (task_fuel s) (wait_queue t) s in reparent p s) = Ok s' ∧
    base V' s' ∧ V' ⊆ V ∧ cpu s' = cpu s ∧ objs s' !! p = Some (with_children n t) ∧
    ∀ a, a ≠ p → objs s' !! a =
      if decide (a ∈ l) then None else adopt (pid t) NTASKS <$> objs s !! a.
Proof.
  intros B T Hcur Hp L Hp1 (Hl & Hnd & Hm).
  destruct (base_obj _ _ _ _ B Hp) as (_ & _ & _ & Hpr).
  assert (Hrank : ppid t ≠ pid t).
  { destruct (t_rank _ T) as (r & _ & R). specialize (R p t Hp Hp1). intros E.
    rewrite E in R. lia. }
  destruct (destroy_queue_spec (task_fuel s) V s p t (wait_queue t) l)
    as (s2 & V' & n & E2 & B2 & HV & C2 & O2); try done; [by eapply zchain_length| |].
  { intros c Hc. apply Hm in Hc as (u & Hu & S & P). split; [by exists u|]. split.
    - intros ->. apply L. congruence.
    - intros u' Hu' E. assert (u' = u) as -> by congruence.
      rewrite (t_root _ T c u Hu E) in P. lia. }
  rewrite E2. cbn [rbind].
  assert (Hpl : p ∉ l). { intros (u & Hu & S & _)%Hm. apply L. congruence. }
  assert (Hp2 : objs s2 !! p = Some (with_children n t)).
  { rewrite O2. by rewrite decide_False, decide_True. }
  rewrite (reparent_spec V' s2 p _ B2 Hp2). eexists _, V', n. split; [done|]. simpl.
  split; [|split; [done|split; [done|split]]].
  - apply (base_ext V' s2); try done. unfold keys. simpl. rewrite <- map_fmap_compose.
    apply map_fmap_ext. intros a u _. apply key_adopt.
  - rewrite lookup_fmap, Hp2. simpl. f_equal. unfold adopt. simpl.
    replace (ppid t =? pid t) with false by lia. by rewrite andb_false_r.
  - intros a Ha. rewrite lookup_fmap, O2. case_decide; [done|]. by rewrite decide_False.
Qed.

Lemma task_kill_spec V s p t status q tq lq : base V s → tree_ok (objs s) →
  p = cur_task s → objs s !! p = Some t → live t → pid t ≠ 1 →
  objs s !! q = Some tq → live tq → pid tq = ppid t →
  zqueue (objs s) (pid tq) (wait_queue tq) lq →
  ∃ s' V' t', task_kill p status s = Ok s' ∧ base V' s' ∧ V' ⊆ V ∧ cpu s' = cpu s ∧
    objs s' !! p = Some t' ∧ dead_task status t t' ∧
    ∀ a, a ≠ p → objs s' !! a =
      objs s !! a ≫= kill_view (pid t) p q (default q (list.last lq)) a.
Proof.
  intros B T Hcur Hp L Hp1 Hq Lq Hpar (Hz & Hndq & Hmq).
  destruct (base_obj _ _ _ _ B Hp) as (Hp0 & _ & _ & Hpr).
  assert (Hqp : q ≠ p) by by eapply kill_q_ne.
  assert (Hpq : pid tq ≠ pid t) by (intros E; apply Hqp; by eapply pid_inj).
  unfold task_kill. replace (p =? 0) with false by lia.
  rewrite (upd_ok _ _ _ _ Hp). cbn [rbind]. set (t1 := with_exit_status status t).
  set (s1 := put_obj p t1 s).
  assert (Hs1 : objs s1 !! p = Some t1) by (unfold s1; by rewrite put_lookup, decide_True).
  assert (Ho1 : ∀ a, a ≠ p → objs s1 !! a = objs s !! a).
  { intros a Ha. unfold s1. by rewrite put_lookup, decide_False. }
  assert (T1 : tree_ok (objs s1)).
  { apply (tree_update _ _ t); try done; [exact (t_state _ T p t Hp)|exact (t_block _ T p t Hp)]. }
  assert (B1 : base V s1) by by eapply base_put.
  assert (C1 : cpu s1 = cpu s) by done. assert (Hcur1 : p = cur_task s1) by done. clearbody s1.
  destruct (t_queue _ T1 p t1 Hs1 L) as (l & Hl). pose proof Hl as (_ & _ & Hm).
  rewrite (obj_ok _ _ _ Hs1). cbn [rbind].
  destruct (orphans_spec V s1 p t1 l) as (s3 & V' & n & E3 & B3 & HV & C3 & Hp3 & O3);
    try done.
  apply rbind_Ok in E3 as (s2 & E2 & E3). rewrite E2. cbn [rbind]. rewrite E3. cbn [rbind]. rewrite (obj_ok _ _ _ Hp3). cbn [rbind].
  change (ppid (with_children n t1)) with (ppid t). rewrite <- Hpar.
  assert (Hkept : ∀ a u, a ≠ p → objs s !! a = Some u →
    ¬ (state u = TASK_STATE_EXITING ∧ ppid u = pid t) →
    objs s3 !! a = Some (adopt (pid t) NTASKS u)).
  { intros a u Ha Hu Hn. rewrite O3, Ho1, Hu, decide_False by
      (done || (intros (v & Hv & S & P)%Hm; rewrite Ho1 in Hv by done; naive_solver)). done. }
  assert (Hq3 : objs s3 !! q = Some (adopt (pid t) NTASKS tq)).
  { apply Hkept; [done..|]. by intros [? _]. }
  destruct (base_obj _ _ _ _ B3 Hq3) as (_ & Hsq & _ & Hrq). rewrite pid_adopt in Hsq, Hrq.
  rewrite (get_task_ok _ q) by (lia || done). cbn [rbind].
  assert (Hz3 : zchain (objs s3) (wait_queue (adopt (pid t) NTASKS tq)) lq).
  { replace (wait_queue _) with (wait_queue tq) by (unfold adopt; by destruct (_ && _)).
    apply (zchain_ext (objs s)); [|done]. intros c (u & Hu & S & P)%Hmq.
    rewrite (Hkept c u), Hu; [|intros ->; apply L; congruence|done|intros [_ ?]; congruence].
    simpl. f_equal. unfold adopt. by destruct (_ && _). }
  assert (H0 : objs s3 !! 0 = None).
  { destruct (objs s3 !! 0) eqn:E; [|done]. by apply (base_obj V') in E as [? _]. }
  rewrite (queue_end_spec _ _ _ _ _ Hq3 H0 Hz3) by (by eapply zchain_length). cbn [rbind].
  set (e := default q (list.last lq)).
  assert (∃ ue, e ≠ p ∧ objs s !! e = Some ue ∧
    ¬ (state ue = TASK_STATE_EXITING ∧ ppid ue = pid t)) as (ue & Hep & Hue & Hen).
  { unfold e. destruct (list.last lq) as [c|] eqn:E; simpl.
    - apply last_Some_elem_of, Hmq in E as (u & Hu & S & P). exists u.
      split; [intros ->; apply L; congruence|]. split; [done|]. intros [_ ?]. congruence.
    - exists tq. split; [done|]. split; [done|]. by intros [? _]. }
  destruct (link_spec V' s3 p _ q e _ _ B3 Hp3 Hq3 (Hkept e ue Hep Hue Hen))
    as (s' & Es & B' & C' & Hp' & O'); [done..|].
  eexists s', V', _. split; [exact Es|]. split; [done|]. split; [done|].
  split; [by rewrite C', C3|]. split; [exact Hp'|]. split; [done|].
  intros a Ha. rewrite O', O3, Ho1 by done.
  destruct (objs s !! a) as [u|] eqn:Hu; [|by case_decide]. simpl.
  destruct (base_obj _ _ _ _ B Hu) as (_ & _ & _ & Hur).
  rewrite kill_view_link; [|lia|lia|by apply (t_root _ T a)|lia].
  change (pid t1) with (pid t). case_decide as Hal.
  - apply Hm in Hal as (v & Hv & S & P). rewrite Ho1 in Hv by done.
    assert (v = u) as -> by congruence. by rewrite S, P, !Z.eqb_refl.
  - destruct (Z.eqb_spec (state u) TASK_STATE_EXITING), (Z.eqb_spec (ppid u) (pid t)); try done.
    exfalso. apply Hal, Hm. exists u. by rewrite Ho1.
Qed.
End death.
