(* ===== verification/Sched.v ===== *)
(** * Sched: who runs next, and a new task

    [sched_next], [sched_switch] and [task_fork] on a sound table. *)

From S2P Require Import Prelude Malloc Headers CString Vga Fs Spaces Task Table Tree Death.

Section sched.
Context {MA : Malloc} {SP : Spaces}.

Definition ready (t : task_t) : Prop := state t = TASK_STATE_READY.

(** ** Round robin

    How many slots lie between task number [i] and task number [j], going round. *)
Definition turns (i j : Z) : Z := (j - i - 1) mod (NTASKS - 1).

Lemma turns_range i j : 0 ≤ turns i j < 255.
Proof. apply Z.mod_pos_bound. done. Qed.

Lemma turns_up i j : 0 < i < j → j < 256 → turns i j = j - i - 1.
Proof. intros. unfold turns, NTASKS. rewrite Z.mod_small; lia. Qed.

Lemma turns_down i j : 0 < j ≤ i → i < 256 → turns i j = j - i + 254.
Proof.
  intros. unfold turns, NTASKS. rewrite <- (Z.mod_add _ 1), Z.mod_small by lia. lia.
Qed.

Lemma turns_cases i j : 0 < i < 256 → 0 < j < 256 →
  (i < j ∧ turns i j = j - i - 1) ∨ (j ≤ i ∧ turns i j = j - i + 254).
Proof.
  intros. destruct (Z.lt_ge_cases i j).
  - left. split; [done|]. apply turns_up; lia.
  - right. split; [done|]. apply turns_down; lia.
Qed.

(** Each turn that goes to another task brings a waiting one nearer. *)
Lemma turns_nearer i j k : 0 < i < 256 → 0 < j < 256 → 0 < k < 256 → j ≠ k →
  turns i j ≤ turns i k → turns j k < turns i k.
Proof.
  intros Hi Hj Hk Hjk H. destruct (turns_cases i j Hi Hj), (turns_cases i k Hi Hk),
    (turns_cases j k Hj Hk); lia.
Qed.

Definition ready_at (s : ts) (i p : Z) : Prop :=
  ∃ t, objs s !! p = Some t ∧ pid t = i ∧ ready t.

Lemma find_ready_spec V s n i : base V s → 1 ≤ i → i + Z.of_nat n ≤ 256 →
  (find_ready n i s = Ok 0 ∧ ∀ j p, i ≤ j < i + Z.of_nat n → ¬ ready_at s j p) ∨
  ∃ j p, find_ready n i s = Ok p ∧ p ≠ 0 ∧ i ≤ j < i + Z.of_nat n ∧ ready_at s j p ∧
    ∀ k q, i ≤ k < j → ¬ ready_at s k q.
Proof.
  intros B. revert i. induction n as [|n IH]; intros i Hi Hn; cbn [find_ready].
  { left. split; [done|]. intros. lia. }
  destruct (aget_is_Some (tasks s) i) as [p Hp]; [rewrite (b_len _ _ B); lia|].
  rewrite (get_task_ok i p) by (lia || done). cbn [rbind].
  assert (Hskip : (∀ q, ¬ ready_at s i q) → 
    (find_ready n (i + 1) s = Ok 0 ∧ ∀ j p, i ≤ j < i + Z.of_nat (S n) → ¬ ready_at s j p) ∨
    ∃ j p, find_ready n (i + 1) s = Ok p ∧ p ≠ 0 ∧ i ≤ j < i + Z.of_nat (S n) ∧
      ready_at s j p ∧ ∀ k q, i ≤ k < j → ¬ ready_at s k q).
  { intros Hno. destruct (IH (i + 1)) as [[E H]|(j & q & E & Hq & Hj & Hr & H)]; [lia|lia|left|right].
    - split; [done|]. intros j q Hj. destruct (decide (j = i)) as [->|]; [apply Hno|apply H; lia].
    - exists j, q. split; [done|]. split; [done|]. split; [lia|]. split; [done|].
      intros k q' Hk. destruct (decide (k = i)) as [->|]; [apply Hno|apply H; lia]. }
  destruct (Z.eqb_spec p 0) as [->|Hp0].
  { apply Hskip. intros q (t & Ht & E & _). apply (base_obj V) in Ht as (? & Hs & _); [|done].
    congruence. }
  destruct (base_slot _ _ _ _ B Hp Hp0) as (t & Ht & E). rewrite (obj_ok _ _ _ Ht). cbn [rbind].
  destruct (Z.eqb_spec (state t) TASK_STATE_READY) as [S|S].
  - right. exists i, p. split; [done|]. split; [done|]. split; [lia|].
    split; [by exists t|]. intros. lia.
  - apply Hskip. intros q (u & Hu & E' & R). assert (q = p) as -> by (eapply (pid_inj V s); eauto; congruence).
    assert (u = t) as -> by congruence. done.
Qed.

Lemma sched_next_spec V s c : base V s → objs s !! cur_task s = Some c →
  (∃ p t, objs s !! p = Some t ∧ ready t) →
  ∃ p t, sched_next s = Ok p ∧ objs s !! p = Some t ∧ ready t ∧
    ∀ q u, objs s !! q = Some u → ready u → turns (pid c) (pid t) ≤ turns (pid c) (pid u).
Proof.
  intros B Hc (p0 & t0 & H0 & R0).
  destruct (base_obj _ _ _ _ B Hc) as (_ & _ & _ & Hcr).
  unfold sched_next. rewrite (obj_ok _ _ _ Hc). cbn [rbind]. unfold NTASKS.
  destruct (find_ready_spec V s (Z.to_nat (256 - (pid c + 1))) (pid c + 1) B)
    as [[-> Hno]|(j & p & -> & Hp & Hj & (t & Ht & Hpt & R) & Hmin)]; [lia|lia| |]; cbn [rbind].
  - destruct (find_ready_spec V s (Z.to_nat (pid c)) 1 B)
      as [[_ Hno']|(j & p & -> & Hp & Hj & (t & Ht & Hpt & R) & Hmin)]; [lia|lia| |]; cbn [rbind].
    + exfalso. destruct (base_obj _ _ _ _ B H0) as (_ & _ & _ & Hr0).
      destruct (Z.lt_ge_cases (pid c) (pid t0)).
      * apply (Hno (pid t0) p0); [lia|]. by exists t0.
      * apply (Hno' (pid t0) p0); [lia|]. by exists t0.
    + replace (negb (0 =? 0)) with false by done. replace (negb (p =? 0)) with true by lia.
      exists p, t. split; [done|]. split; [done|]. split; [done|]. intros q u Hu Ru.
      destruct (base_obj _ _ _ _ B Hu) as (_ & _ & _ & Hur).
      assert (¬ pid c < pid u). { intros ?. apply (Hno (pid u) q); [lia|]. by exists u. }
      assert (¬ pid u < pid t). { intros ?. apply (Hmin (pid u) q); [lia|]. by exists u. }
      rewrite !turns_down by lia. lia.
  - replace (negb (p =? 0)) with true by lia.
    exists p, t. split; [done|]. split; [done|]. split; [done|]. intros q u Hu Ru.
    destruct (base_obj _ _ _ _ B Hu) as (_ & _ & _ & Hur). rewrite turns_up by lia.
    destruct (turns_cases (pid c) (pid u)) as [[? ->]|[? ->]]; [lia..| |lia].
    assert (¬ pid u < pid t); [|lia]. intros ?. apply (Hmin (pid u) q); [lia|]. by exists u.
Qed.

(** The state with the registers of the running task saved. *)
Definition saved (sp : Z) (c : task_t) (s : ts) : ts :=
  put_obj (cur_task s) (with_context (fpu s) (u32 (sp - 32)) sw_return c) s.

Lemma sched_switch_spec V s c sp : base V s → objs s !! cur_task s = Some c →
  (∃ p t, objs s !! p = Some t ∧ ready t) →
  ∃ p t s', sched_switch sp s = Ok (esp t, eip t, s') ∧ objs (saved sp c s) !! p = Some t ∧
    ready t ∧ base V s' ∧ objs s' = objs (saved sp c s) ∧ cur_task s' = p ∧
    fpu s' = fpu_state t ∧
    ∀ q u, objs s !! q = Some u → ready u → turns (pid c) (pid t) ≤ turns (pid c) (pid u).
Proof.
  intros B Hc (p0 & t0 & H0 & R0). unfold sched_switch.
  rewrite (upd_ok _ _ _ _ Hc). cbn [rbind]. fold (saved sp c s). set (s1 := saved sp c s).
  assert (B1 : base V s1) by by eapply base_put.
  assert (Hc1 : objs s1 !! cur_task s1 = Some (with_context (fpu s) (u32 (sp - 32)) sw_return c)).
  { unfold s1, saved. rewrite put_lookup. by rewrite decide_True. }
  assert (Hto : ∀ q u, objs s !! q = Some u → ready u →
    ∃ u', objs s1 !! q = Some u' ∧ ready u' ∧ pid u' = pid u).
  { intros q u Hu R. unfold s1, saved. rewrite put_lookup. case_decide as E; [|by exists u].
    eexists. split; [done|]. subst q. assert (u = c) as -> by congruence. done. }
  destruct (sched_next_spec V s1 _ B1 Hc1) as (p & t & E & Ht & R & Hmin).
  { destruct (Hto p0 t0 H0 R0) as (u & Hu & Ru & _). by exists p0, u. }
  rewrite E. cbn [rbind]. rewrite (obj_ok p t) by done. cbn [rbind].
  destruct (base_obj _ _ _ _ B1 Ht) as (_ & _ & [m Hm] & _).
  destruct (sp_load_ok _ _ _ _ (b_sp _ _ B1) Hm) as (x & Ex & Hx & Kx & Lx).
  cbn [sps set_cur]. rewrite Ex. cbn [rbind]. exists p, t. eexists. split; [done|].
  split; [done|]. split; [done|]. split.
  - destruct B1 as [L1 L2 L3 L4 L5 L6 L7 L8 L9].
    constructor; simpl; try done; [by rewrite Kx|by rewrite Kx|]. exists (pid t). rewrite Lx.
    by apply keys_lookup.
  - split; [done|]. split; [done|]. split; [done|]. intros q u Hu Ru.
    destruct (Hto q u Hu Ru) as (u' & Hu' & Ru' & <-). by apply (Hmin q).
Qed.

(** ** fork *)

(** There is a free slot, [i], a block for the task, [p], and memory for its pages. *)
Definition can_fork (s : ts) (tc : task_t) (i p : Z) (h : mstate) : Prop :=
  lowest_slot (tasks s) i ∧ malloc TASK_SIZE (theap s) = Ok (p, h) ∧ p ≠ 0 ∧
  sp_room (sps s) (t_page_dir tc).

(** The new task: what it has of its parent [tc], and what it does not. *)
Definition child_of (tc : task_t) (i d sp : Z) : task_t :=
  Task (fpu_state tc) (u32 (sp - 32)) tf_return d (syscall_regs tc) i (pid tc)
    TASK_STATE_READY 0 0 0 0 0 (t_files tc) (errno_loc tc).

Lemma upd_insert p f t o s :
  upd p f (set_objs (<[p := t]> o) s) = Ok (set_objs (<[p := f t]> o) s).
Proof.
  unfold upd, obj, put_obj. simpl. rewrite lookup_insert_eq. simpl.
  by rewrite set_objs_twice, insert_insert_eq.
Qed.

Lemma task_fork_spec V s tc sp i p h : base V s → objs s !! cur_task s = Some tc →
  can_fork s tc i p h →
  ∃ d m s', task_fork sp s = Ok (p, s') ∧ V !! t_page_dir tc = Some m ∧ V !! d = None ∧
    base (<[d := m]> V) s' ∧ cpu s' = cpu s ∧ objs s !! p = None ∧
    tasks s' = <[Z.to_nat i := p]> (tasks s) ∧
    objs s' = <[p := child_of tc i d sp]>
      (<[cur_task s := with_children (u32 (children tc + 1)) tc]> (objs s)).
Proof.
  intros B Hc (Hi & Hm & Hp0 & Hroom).
  destruct (b_heap _ _ B) as (L & HL & HdL).
  destruct (malloc_ok TASK_SIZE (theap s) L HL) as (p' & h' & E & Hcase); [by unfold TASK_SIZE|].
  rewrite Hm in E. injection E as <- <-. destruct Hcase as [[? _]|(_ & HpL & HL')]; [done|].
  assert (Hpk : keys s !! p = None) by (apply not_elem_of_dom; set_solver).
  assert (Hpo : objs s !! p = None) by by apply (obj_none V).
  assert (Hcp : cur_task s ≠ p) by congruence.
  destruct (base_obj _ _ _ _ B Hc) as (_ & _ & [m HVm] & _).
  assert (Hload : sp_loaded (sps s) = t_page_dir tc).
  { destruct (b_cur _ _ B) as [j Hj]. unfold keys in Hj. rewrite lookup_fmap, Hc in Hj.
    by injection Hj as _ <-. }
  destruct (sp_fork_ok _ _ _ _ (b_sp _ _ B) HVm Hload Hroom)
    as (d & x1 & x2 & E1 & Hd0 & HVd & E2 & HV2 & K2 & L2).
  pose proof (lowest_slot_range _ _ Hi) as Hir.
  set (n0 := with_pid i (with_state TASK_STATE_READY task_zero)).
  set (b := set_tasks (<[Z.to_nat i := p]> (tasks s)) (set_theap h s)).
  set (tc' := with_children (u32 (children tc + 1)) tc).
  assert (E : task_fork sp s = Ok (p, set_objs (<[p := child_of tc i d sp]>
    (<[cur_task s := tc']> (objs s))) (set_sps x2 b))).
  { unfold task_fork, task_fork_inner. rewrite (alloc_spec V s i p h B Hi Hm Hp0). cbn [rbind].
    change (new_task p i h s) with (set_objs (<[p := n0]> (objs s)) b).
    cbn [sps set_objs b set_tasks set_theap]. rewrite E1. cbn [rbind].
    change (set_sps x1 (set_objs ?o b)) with (set_objs o (set_sps x1 b)).
    rewrite upd_insert. cbn [rbind]. rewrite (obj_ok p (with_page_dir d n0)) by
      (simpl; by rewrite lookup_insert_eq). cbn [rbind cur_task set_objs set_sps b set_tasks set_theap].
    rewrite (obj_ok (cur_task s) tc) by (simpl; by rewrite lookup_insert_ne).
    cbn [rbind]. change (sps (set_objs _ (set_sps x1 b))) with x1.
    change (t_page_dir (with_page_dir d n0)) with d. rewrite E2. cbn [rbind].
    change (set_sps x2 (set_objs ?o (set_sps x1 b))) with (set_objs o (set_sps x2 b)).
    rewrite !upd_insert. cbn [rbind]. rewrite !upd_insert. cbn [rbind].
    rewrite !upd_insert. cbn [rbind]. rewrite !upd_insert. cbn [rbind].
    rewrite upd_insert. cbn [rbind].
    erewrite upd_ok by (simpl; by rewrite lookup_insert_ne). cbn [rbind].
    unfold put_obj. rewrite set_objs_twice. simpl objs.
    rewrite insert_insert_ne by done. rewrite upd_insert. done. }
  destruct (base_obj _ _ _ _ B Hc) as (_ & _ & _ & Hpr).
  exists d, m. eexists. split; [exact E|]. split; [done|]. split; [done|].
  split; [|split; [by unfold cpu; simpl; rewrite K2, L2|done]].
  eapply (base_add V s _ p i d m); try done; [set_solver|set_solver| |].
  - unfold keys. simpl. rewrite !fmap_insert. f_equal. apply insert_id.
    by rewrite lookup_fmap, Hc.
  - by unfold cpu; simpl; rewrite K2, L2.
Qed.
End sched.
