(* ===== verification/Tasking.v ===== *)
(** * Tasking: the system calls on tasks, and every run of them

    [kernel/src/syscall/sys_tasking.c].  The calls are followed up to the point where
    the processor goes to another task. *)

From S2P Require Import Prelude Malloc Headers CString Vga Fs Spaces Task Table Tree Death Sched.

Section tasking.
Context {MA : Malloc} {SP : Spaces}.

(** power.c: it turns the machine off, or panics. *)
Definition shutdown {A} : res A := Panic.

(** ** The calls

    [sp] is the stack pointer at the call of [sched_switch] or [task_fork]; the result
    of [sched_switch] is where the next task goes on. *)
Definition sys_exit (status sp : Z) (s : ts) : res (Z * label * ts) :=
  let* c := obj (cur_task s) s in
  if pid c =? 1 then shutdown
  else
    let* s := task_kill (cur_task s) status s in
    sched_switch sp s.

(** What the parent gets. *)
Definition sys_fork (sp : Z) (s : ts) : res (Z * ts) :=
  let* (new_task, s) := task_fork sp s in
  if negb (new_task =? 0) then let* n := obj new_task s in Ok (pid n, s) else Ok (0, s).

(** One turn of [again]: the number and the status of a dead child, or the task blocks. *)
Definition wait_turn (s : ts) : res (option (Z * Z) * ts) :=
  let* c := obj (cur_task s) s in
  if negb (wait_queue c =? 0) then
    let child := wait_queue c in
    let* t := obj child s in
    let* s := upd (cur_task s) (with_wait_queue (wait_queue t)) s in
    let child_pid := pid t in
    let child_status := exit_status t in
    let* s := task_destroy child s in
    Ok (Some (child_pid, child_status), s)
  else
    let* s := upd (cur_task s) (with_state TASK_STATE_BLOCK_WAIT) s in
    Ok (None, s).

(** [others]: what happens until the task runs again. *)
Fixpoint wait_again (others : ts → res ts) (fuel : nat) (sp : Z) (s : ts)
    : res (Z * Z * ts) :=
  match fuel with
  | O => Fuel
  | S fuel =>
      let* (r, s) := wait_turn s in
      match r with
      | Some x => Ok (x, s)
      | None =>
          let* (_, s) := sched_switch sp s in
          let* s := others s in
          wait_again others fuel sp s
      end
  end.

(** The value, what it stores at [errno], what it stores at [stat_loc]. *)
Definition sys_wait (others : ts → res ts) (fuel : nat) (stat_loc sp : Z) (s : ts)
    : res (Z * option errno_t * option Z * ts) :=
  let* c := obj (cur_task s) s in
  if children c =? 0 then Ok (u32 (-1), Some ECHILD, None, s)
  else
    let* (child_pid, child_status, s) := wait_again others fuel sp s in
    Ok (child_pid, None, if negb (stat_loc =? 0) then Some child_status else None, s).

Definition sys_sched_yield (sp : Z) (s : ts) : res (Z * label * ts) := sched_switch sp s.

(** ** The invariant while a task runs *)
Definition running_ok (V : gmap Z umem) (s : ts) : Prop :=
  base V s ∧ tree_ok (objs s) ∧ ∃ c, objs s !! cur_task s = Some c ∧ ready c.

Lemma objs_0 V s : base V s → objs s !! 0 = None.
Proof. intros B. destruct (objs s !! 0) eqn:E; [|done]. by apply (base_obj V) in E as [? _]. Qed.

Lemma can_run V s : base V s → tree_ok (objs s) → ∃ p t, objs s !! p = Some t ∧ ready t.
Proof.
  intros B T. apply some_ready; [done|by eapply objs_0|]. intros p t H.
  apply (base_obj V) in H as (_ & _ & _ & ?); [lia|done].
Qed.

Lemma tree_saved sp c s : tree_ok (objs s) → objs s !! cur_task s = Some c →
  tree_ok (objs (saved sp c s)).
Proof.
  intros T Hc. unfold saved. simpl.
  apply (tree_update _ _ c); try done; [exact (t_state _ T _ c Hc)|exact (t_block _ T _ c Hc)].
Qed.

(** A switch from any task of a sound table finds one to run. *)
Lemma switch_ok V s c sp : base V s → tree_ok (objs s) → objs s !! cur_task s = Some c →
  ∃ p l s', sched_switch sp s = Ok (p, l, s') ∧ running_ok V s' ∧
    objs s' = objs (saved sp c s).
Proof.
  intros B T Hc.
  destruct (sched_switch_spec V s c sp B Hc) as (p & t & s' & E & Ht & R & B' & O & C & _);
    [by eapply can_run|].
  eexists _, _, s'. split; [exact E|]. split; [|done]. split; [done|]. rewrite O, C.
  split; [by apply tree_saved|by exists t].
Qed.

(** ** Exit *)

(** The children of task number [i] that have died and not been waited for, in the order
    of their deaths: number and status. *)
Definition dead (s : ts) (i : Z) (l : list (Z * Z)) : Prop :=
  ∃ p t zs, objs s !! p = Some t ∧ pid t = i ∧ zqueue (objs s) i (wait_queue t) zs ∧
    Forall2 (λ z x, ∃ u, objs s !! z = Some u ∧ x = (pid u, exit_status u)) zs l.

Lemma parent_of s p t : tree_ok (objs s) → objs s !! p = Some t → pid t ≠ 1 →
  ∃ q tq lq, objs s !! q = Some tq ∧ live tq ∧ pid tq = ppid t ∧
    zqueue (objs s) (pid tq) (wait_queue tq) lq.
Proof.
  intros T Hp H1. destruct (t_parent _ T p t Hp H1) as (q & tq & Hq & L & E).
  destruct (t_queue _ T q tq Hq L) as [lq Hl]. by exists q, tq, lq.
Qed.

Lemma exit_ok V s c status sp : running_ok V s → objs s !! cur_task s = Some c → pid c ≠ 1 →
  ∃ p l s' V', sys_exit status sp s = Ok (p, l, s') ∧ running_ok V' s' ∧ V' ⊆ V.
Proof.
  intros (B & T & (c' & Hc' & R)) Hc H1. assert (c' = c) as -> by congruence.
  assert (L : live c) by (unfold live; rewrite R; done).
  destruct (base_obj _ _ _ _ B Hc) as (_ & _ & _ & Hr).
  destruct (parent_of s _ c T Hc H1) as (q & tq & lq & Hq & Lq & Eq & Hlq).
  destruct (task_kill_spec V s _ c status q tq lq B T eq_refl Hc L H1 Hq Lq Eq Hlq)
    as (s1 & V' & t' & E1 & B1 & HV & C1 & Hp1 & D1 & O1).
  unfold dead_task in D1. injection D1 as D1 D2 D3 D4 D5 D6. injection C1 as Ec _ _ _ _.
  assert (T1 : tree_ok (objs s1)).
  { apply (tree_kill (objs s) (objs s1) (cur_task s) q (default q (list.last lq)) c t' tq lq);
      try done; [by intros a b u v; apply (pid_inj V)|lia|by rewrite D1, D2, D3, D4]. }
  destruct (switch_ok V' s1 t' sp B1 T1) as (x & l & s' & E & R' & _); [by rewrite Ec|].
  exists x, l, s', V'. split; [|done]. unfold sys_exit. rewrite (obj_ok _ _ _ Hc). cbn [rbind].
  replace (pid c =? 1) with false by lia. rewrite E1. exact E.
Qed.

(** ** Wait *)
Lemma dead_head s c l : objs s !! cur_task s = Some c →
  zqueue (objs s) (pid c) (wait_queue c) l → objs s !! 0 = None →
  (wait_queue c = 0 ↔ l = []).
Proof.
  intros Hc (Hz & _) H0. destruct l as [|z l]; [done|].
  destruct Hz as [-> (u & Hu & _)]. split; [|done]. intros ->. congruence.
Qed.

(** The first of the queue is buried. *)
Lemma reap_ok V s c z zs t : running_ok V s → objs s !! cur_task s = Some c →
  children c ≠ 0 → zqueue (objs s) (pid c) (wait_queue c) (z :: zs) → objs s !! z = Some t →
  ∃ s' V', wait_turn s = Ok (Some (pid t, exit_status t), s') ∧ running_ok V' s' ∧
    V' = delete (t_page_dir t) V ∧ cpu s' = cpu s ∧
    tasks s' = <[Z.to_nat (pid t) := 0]> (tasks s) ∧
    objs s' = delete z (<[cur_task s := with_children (children c - 1)
                           (with_wait_queue (wait_queue t) c)]> (objs s)).
Proof.
  intros (B & T & (c' & Hc' & R)) Hc Hch Hzq Ht. assert (c' = c) as -> by congruence. clear Hc'.
  pose proof Hzq as (Hz & Hnd & Hm). simpl in Hz. destruct Hz as (Ez & u & Hu & Hz).
  assert (u = t) as -> by congruence. clear Hu.
  destruct (bury_dead (objs s) z c t zs Hzq Ht) as [S P].
  assert (Hne : cur_task s ≠ z) by by eapply bury_ne.
  destruct (base_obj _ _ _ _ B Hc) as (_ & Hsc & _ & Hcr).
  destruct (base_obj _ _ _ _ B Ht) as (Hz0 & _ & _ & Htr).
  assert (Hn1 : pid t ≠ 1). { intros E. rewrite (t_root _ T z t Ht E) in P. lia. }
  unfold wait_turn. rewrite (obj_ok _ _ _ Hc). cbn [rbind]. rewrite Ez.
  replace (negb (z =? 0)) with true by lia. rewrite (obj_ok _ _ _ Ht). cbn [rbind].
  rewrite (upd_ok _ _ _ _ Hc). cbn [rbind]. set (c1 := with_wait_queue (wait_queue t) c).
  set (s1 := put_obj (cur_task s) c1 s).
  assert (B1 : base V s1) by by eapply base_put.
  assert (Hc1 : objs s1 !! cur_task s = Some c1) by (unfold s1; by rewrite put_lookup, decide_True).
  assert (Ht1 : objs s1 !! z = Some t) by (unfold s1; by rewrite put_lookup, decide_False).
  destruct (task_destroy_spec V s1 z t (cur_task s) c1) as (s' & E & B' & C' & O' & T');
    try done; [by rewrite P|].
  rewrite E. cbn [rbind]. exists s', (delete (t_page_dir t) V). split; [done|].
  destruct (t_children _ T _ c Hc) as [[Hc0 Hc2] _]; [unfold live; by rewrite R|].
  pose proof (kids_le (objs s) (pid c)) as Hk. pose proof (size_objs V s B) as Hsz.
  assert (Eo : objs s' = delete z (<[cur_task s := with_children (children c - 1) c1]> (objs s))).
  { rewrite O'. unfold s1. simpl. rewrite insert_insert_eq. unfold less_child.
    rewrite uint_small by (simpl; lia). done. }
  pose proof C' as Cc. injection Cc as Ec _ _ _ _. split; [|split; [done|split; [done|split; [done|done]]]].
  split; [done|]. split.
  - apply (tree_bury (objs s) _ (cur_task s) z c (with_children (children c - 1) c1) t zs);
      try done. by intros a b v w; apply (pid_inj V).
  - exists (with_children (children c - 1) c1). split; [|done]. rewrite Ec, Eo.
    by rewrite lookup_delete_ne, lookup_insert_eq by done.
Qed.

(** With nobody to bury, the task goes to sleep. *)
Lemma block_ok V s c : running_ok V s → objs s !! cur_task s = Some c →
  children c ≠ 0 → wait_queue c = 0 →
  ∃ s', wait_turn s = Ok (None, s') ∧ base V s' ∧ tree_ok (objs s') ∧ cpu s' = cpu s ∧
    objs s' = <[cur_task s := with_state TASK_STATE_BLOCK_WAIT c]> (objs s).
Proof.
  intros (B & T & (c' & Hc' & R)) Hc Hch W. assert (c' = c) as -> by congruence.
  unfold wait_turn. rewrite (obj_ok _ _ _ Hc). cbn [rbind]. rewrite W. cbn [negb Z.eqb].
  rewrite (upd_ok _ _ _ _ Hc). cbn [rbind]. eexists. split; [done|].
  split; [by eapply base_put|]. split; [|done].
  apply (tree_update _ _ c); try done; [|by right; left].
  split; [intros _; unfold live; by rewrite R|done].
Qed.

(** ** Fork *)
Lemma fork_ok V s tc sp i p h : running_ok V s → objs s !! cur_task s = Some tc →
  can_fork s tc i p h →
  ∃ d m s', task_fork sp s = Ok (p, s') ∧ V !! t_page_dir tc = Some m ∧ V !! d = None ∧
    running_ok (<[d := m]> V) s' ∧ cpu s' = cpu s ∧ objs s !! p = None ∧
    tasks s' = <[Z.to_nat i := p]> (tasks s) ∧
    objs s' = <[p := child_of tc i d sp]>
      (<[cur_task s := with_children (children tc + 1) tc]> (objs s)).
Proof.
  intros (B & T & (c & Hc' & R)) Hc Hf. assert (c = tc) as -> by congruence. clear Hc'.
  destruct (task_fork_spec V s tc sp i p h B Hc Hf)
    as (d & m & s' & E & HVm & HVd & B' & C' & Hp & T' & O').
  destruct Hf as (Hi & _). pose proof (lowest_slot_range _ _ Hi) as Hir.
  destruct Hi as (_ & Hi & _).
  destruct (t_children _ T _ tc Hc) as [[Hc0 Hc2] _]; [unfold live; by rewrite R|].
  pose proof (kids_le (objs s) (pid tc)) as Hk. pose proof (size_objs V s B) as Hsz.
  rewrite uint_small in O' by lia.
  exists d, m, s'. split; [done|]. split; [done|]. split; [done|].
  split; [|done]. split; [done|]. pose proof C' as Cc. injection Cc as Ec _ _ _ _. split.
  - apply (tree_birth (objs s) _ p (cur_task s) (child_of tc i d sp) tc
             (with_children (children tc + 1) tc)); try done.
    + by intros a b v w; apply (pid_inj V).
    + intros a u Hu E'. simpl in E'. destruct (base_obj _ _ _ _ B Hu) as (Ha & Hs & _). congruence.
    + simpl. lia.
  - exists (with_children (children tc + 1) tc). split; [|done].
    rewrite Ec, O', lookup_insert_ne, lookup_insert_eq by congruence. done.
Qed.

(** ** Boot *)

(** The heap and the address spaces as [task_init] finds them. *)
Definition boots (s : ts) : Prop :=
  ∃ L V p h, m_rep (theap s) L ∧ malloc TASK_SIZE (theap s) = Ok (p, h) ∧ p ≠ 0 ∧
    sp_rep (sps s) V ∧ is_Some (V !! sp_kernel (sps s)) ∧
    sp_loaded (sps s) = sp_kernel (sps s).

Definition first_task (d : Z) : task_t :=
  with_ppid 0 (with_page_dir d (with_pid 1 (with_state TASK_STATE_READY task_zero))).

Lemma tree_first p d : tree_ok {[p := first_task d]}.
Proof.
  assert (H : ∀ q t, ({[p := first_task d]} : gmap Z task_t) !! q = Some t → t = first_task d).
  { intros q t. rewrite (lookup_singleton_Some (M := gmap Z)). by intros [_ <-]. }
  assert (K : kids {[p := first_task d]} 1 = ∅).
  { apply set_eq. intros a. split; [|set_solver]. intros (u & ->%H & E)%elem_of_kids. done. }
  constructor.
  - exists p, (first_task d). by rewrite lookup_singleton_eq.
  - intros q t ->%H. by left.
  - by intros q t ->%H.
  - by intros q t ->%H.
  - intros q t ->%H _. exists []. split; [done|]. split; [constructor|].
    intros a. split; [by intros ?%elem_of_nil|]. by intros (u & ->%H & S & _).
  - by intros q t ->%H.
  - intros q t ->%H _. simpl. rewrite K, size_empty. done.
  - exists (λ _, 0). split; [done|]. by intros q t ->%H.
Qed.

Lemma boot_ok s : boots s → ∃ V s', task_init (set_objs ∅ s) = Ok s' ∧ running_ok V s'.
Proof.
  intros (L & V & p & h & HL & Hm & Hp0 & HV & [m Hk] & Hload).
  destruct (malloc_ok TASK_SIZE (theap s) L HL) as (p' & h' & E & Hcase); [by unfold TASK_SIZE|].
  rewrite Hm in E. injection E as <- <-. destruct Hcase as [[? _]|(_ & HpL & HL')]; [done|].
  set (d := sp_kernel (sps s)) in *. exists V.
  set (tb := <[1%nat := p]> (replicate 256 0)).
  exists (set_cur p (set_objs {[p := first_task d]} (set_tasks tb (set_theap h s)))).
  split.
  { unfold task_init, alloc_empty_task. set (s0 := set_tasks _ (set_objs ∅ s)).
    rewrite (alloc_loop_spec _ 1 s0 1 p h); [| |split_and!|..]; try done.
    - cbn [rbind]. change (set_cur p (new_task p 1 h s0)) with
        (set_objs (<[p := with_pid 1 (with_state TASK_STATE_READY task_zero)]> ∅)
           (set_cur p (set_tasks tb (set_theap h s)))).
      simpl cur_task. rewrite upd_insert. cbn [rbind]. simpl cur_task. by rewrite upd_insert.
    - intros j Hj. lia. }
  assert (K : keys (set_cur p (set_objs {[p := first_task d]} (set_tasks tb (set_theap h s))))
              = {[p := (1, d)]}).
  { unfold keys. simpl. by rewrite map_fmap_singleton. }
  assert (Htb : ∀ i, aget tb i = if i =? 1 then Some p else aget (replicate 256 0) i).
  { intros i. unfold tb. change 1%nat with (Z.to_nat 1). rewrite aget_insert by done.
    by rewrite Z.eqb_sym. }
  split; [|split; [apply tree_first|]].
  2:{ exists (first_task d). split; [|done]. simpl. by rewrite lookup_singleton_eq. }
  constructor; simpl; rewrite ?K.
  - done.
  - by rewrite Htb.
  - intros i q. rewrite Htb. destruct (Z.eqb_spec i 1) as [->|Hi].
    + intros [= <-] _. exists d. by rewrite lookup_singleton_eq.
    + unfold aget. case_match; [done|]. intros [-> _]%lookup_replicate. done.
  - intros q i e. rewrite (lookup_singleton_Some (M := gmap Z)). intros [<- [= <- <-]].
    rewrite Htb. split; [done|]. split; [done|]. split; [by exists m|done].
  - intros q1 q2 i j e. rewrite !(lookup_singleton_Some (M := gmap Z)). by intros [<- _] [<- _].
  - exists ({[p]} ∪ L). split; [done|]. rewrite dom_singleton_L. set_solver.
  - done.
  - by exists m.
  - exists 1. by rewrite lookup_singleton_eq, Hload.
Qed.

(** ** The dead, in order *)
Definition grave (t : task_t) : Z * Z * Z * Z * Z :=
  (pid t, ppid t, state t, wait_queue t, exit_status t).

Lemma grave_lookup (o o' : gmap Z task_t) a u : grave <$> o' = grave <$> o → o !! a = Some u →
  ∃ u', o' !! a = Some u' ∧ grave u' = grave u.
Proof.
  intros E Hu. apply (f_equal (.!! a)) in E. rewrite !lookup_fmap, Hu in E.
  destruct (o' !! a) as [u'|]; [|done]. exists u'. split; [done|]. simpl in E. congruence.
Qed.

Lemma dead_ext s s' i l : grave <$> objs s' = grave <$> objs s → dead s i l → dead s' i l.
Proof.
  intros E (p & t & zs & Hp & Hi & (Hz & Hnd & Hm) & Hl).
  destruct (grave_lookup _ _ p t E Hp) as (t' & Hp' & Et). injection Et as E1 E2 E3 E4 E5.
  exists p, t', zs. split; [done|]. split; [congruence|]. split; [split; [|split; [done|]]|].
  - rewrite E4. apply (zchain_ext (objs s)); [|done]. intros c Hc.
    destruct (zchain_in _ _ _ _ Hz Hc) as [u Hu].
    destruct (grave_lookup _ _ c u E Hu) as (u' & Hu' & Eu). rewrite Hu, Hu'. simpl.
    unfold grave in Eu. congruence.
  - intros a. rewrite Hm. split; intros (u & Hu & S & P).
    + destruct (grave_lookup _ _ a u E Hu) as (u' & Hu' & Eu). exists u'. unfold grave in Eu.
      split; [done|]. split; congruence.
    + destruct (grave_lookup _ _ a u (eq_sym E) Hu) as (u' & Hu' & Eu). exists u'.
      unfold grave in Eu. split; [done|]. split; congruence.
  - eapply Forall2_mono; [exact Hl|]. intros z x _ (u & Hu & ->).
    destruct (grave_lookup _ _ z u E Hu) as (u' & Hu' & Eu). exists u'. unfold grave in Eu.
    split; [done|]. congruence.
Qed.

Lemma grave_saved sp c s : objs s !! cur_task s = Some c →
  grave <$> objs (saved sp c s) = grave <$> objs s.
Proof.
  intros Hc. unfold saved. simpl. rewrite fmap_insert. apply insert_id.
  by rewrite lookup_fmap, Hc.
Qed.

Lemma exit_dead V s c status sp l : running_ok V s → objs s !! cur_task s = Some c →
  pid c ≠ 1 → dead s (ppid c) l →
  ∃ x s' V', sys_exit status sp s = Ok (x, s') ∧ running_ok V' s' ∧ V' ⊆ V ∧
    dead s' (ppid c) (l ++ [(pid c, status)]).
Proof.
  intros (B & T & (c' & Hc' & R)) Hc H1 (q' & tq' & lq' & Hq' & Eq' & Hlq' & Hl).
  assert (c' = c) as -> by congruence. clear Hc'.
  assert (L : live c) by (unfold live; rewrite R; done).
  destruct (base_obj _ _ _ _ B Hc) as (_ & _ & _ & Hr).
  destruct (parent_of s _ c T Hc H1) as (q & tq & lq & Hq & Lq & Eq & _).
  assert (q' = q) as -> by (apply (pid_inj V s q' q tq' tq); [done..|congruence]).
  assert (tq' = tq) as -> by congruence. rewrite <- Eq in Hlq'. rename Hlq' into Hlq.
  destruct (task_kill_spec V s _ c status q tq lq' B T eq_refl Hc L H1 Hq Lq Eq Hlq)
    as (s1 & V' & t' & E1 & B1 & HV & C1 & Hp1 & D1 & O1).
  unfold dead_task in D1. injection D1 as D1 D2 D3 D4 D5 D6. injection C1 as Ec _ _ _ _.
  assert (I : pids_inj (objs s)) by by intros a b u v; apply (pid_inj V).
  assert (HD : (pid t', ppid t', state t', wait_queue t') =
    (pid c, ppid c, TASK_STATE_EXITING, 0)) by by rewrite D1, D2, D3, D4.
  assert (T1 : tree_ok (objs s1)).
  { apply (tree_kill (objs s) _ (cur_task s) q (default q (list.last lq')) c t' tq lq'); done || lia. }
  destruct (switch_ok V' s1 t' sp B1 T1) as (x & lb & s' & E & R' & O'); [by rewrite Ec|].
  exists (x, lb), s', V'. split; [|split; [done|split; [done|]]].
  { unfold sys_exit. rewrite (obj_ok _ _ _ Hc). cbn [rbind].
    replace (pid c =? 1) with false by lia. rewrite E1. exact E. }
  apply (dead_ext s1); [rewrite O'; apply grave_saved; by rewrite Ec|].
  assert (Hqp : q ≠ cur_task s) by by apply (kill_q_ne (objs s) _ _ c tq).
  destruct (kill_kept _ _ _ _ _ _ O1 q tq Hqp Hq) as (u' & Hu' & Hv); [by intros [? _]|].
  exists q, u', (lq' ++ [cur_task s]). split; [done|]. split.
  { apply kill_view_inv in Hv as (_ & -> & _). done. }
  rewrite <- Eq. split.
  { apply (kill_parent_queue (objs s) _ (cur_task s) q (default q (list.last lq')) c t' tq lq');
      done || lia. }
  apply Forall2_app; [|constructor; [|constructor]].
  - destruct Hlq as (_ & _ & Hm). eapply Forall2_mono; [exact Hl|].
    intros z y Hzin (u & Hu & ->). apply Hm in Hzin as (v & Hv' & S & P).
    assert (v = u) as -> by congruence.
    assert (z ≠ cur_task s) as Hzc by (intros ->; apply L; congruence).
    destruct (kill_kept _ _ _ _ _ _ O1 z u Hzc Hu) as (w & Hw & Ew).
    { intros [_ ?]. apply Hqp. apply (I q (cur_task s) tq c); congruence. }
    exists w. split; [done|].
    apply kill_view_inv in Ew as (_ & -> & _ & _ & _ & _ & _ & ->). done.
  - exists t'. split; [done|]. by rewrite D1, D5.
Qed.

Lemma wait_dead V s c x l : running_ok V s → objs s !! cur_task s = Some c →
  children c ≠ 0 → dead s (pid c) (x :: l) →
  ∃ s' V', wait_turn s = Ok (Some x, s') ∧ running_ok V' s' ∧ V' ⊆ V ∧ cpu s' = cpu s ∧
    dead s' (pid c) l ∧ get_task x.1 s' = Ok 0.
Proof.
  intros R Hc Hch (q & tq & zs & Hq & Eq & Hzq & Hl). pose proof R as (B & T & (c' & Hc' & Rc)).
  assert (c' = c) as -> by congruence. clear Hc'.
  assert (q = cur_task s) as -> by by apply (pid_inj V s q (cur_task s) tq c).
  assert (tq = c) as -> by congruence.
  apply Forall2_cons_inv_r in Hl as (z & zs' & (t & Ht & ->) & Hl & ->).
  destruct (reap_ok V s c z zs' t R Hc Hch Hzq Ht) as (s' & V' & E & R' & EV & C & T' & O).
  destruct (base_obj _ _ _ _ B Ht) as (_ & Hs & _ & Htr).
  exists s', V'. split; [done|]. split; [done|].
  split; [rewrite EV; apply delete_subseteq|]. split; [done|].
  assert (Hne : cur_task s ≠ z) by by eapply bury_ne.
  set (c1 := with_children (children c - 1) (with_wait_queue (wait_queue t) c)) in *.
  split.
  - exists (cur_task s), c1, zs'. split; [|split; [done|split]].
    + by rewrite O, lookup_delete_ne, lookup_insert_eq by done.
    + apply (bury_parent_queue (objs s) _ (cur_task s) z c c1 t zs'); try done.
      by intros a b u v; apply (pid_inj V).
    + destruct Hzq as (_ & Hnd & Hm). apply list.NoDup_cons in Hnd as [Hz _].
      eapply Forall2_mono; [exact Hl|]. intros y w Hy (u & Hu & ->). exists u.
      split; [|done]. rewrite O, lookup_delete_ne, lookup_insert_ne; [done| |by intros ->].
      intros <-. destruct (proj1 (Hm (cur_task s)) ltac:(by right)) as (v & Hv & S & _).
      assert (v = c) as -> by congruence. by rewrite Rc in S.
  - apply (get_task_ok _ 0); [simpl; lia|]. rewrite T'. simpl.
    rewrite aget_insert by (rewrite (b_len _ _ B); lia). by rewrite Z.eqb_refl.
Qed.

(** ** Runs

    What a running task can ask for.  [wait_call] is [sys_wait] up to where it returns
    or the processor goes to another task. *)
Inductive act := Fork | Exit (status : Z) | Wait | Yield.

Definition wait_call (sp : Z) (s : ts) : res ts :=
  let* c := obj (cur_task s) s in
  if children c =? 0 then Ok s
  else
    let* (r, s) := wait_turn s in
    match r with
    | Some _ => Ok s
    | None => let* (_, s) := sched_switch sp s in Ok s
    end.

Definition act_step (sp : Z) (a : act) (s : ts) : res ts :=
  match a with
  | Fork => let* (_, s) := sys_fork sp s in Ok s
  | Exit status => let* (_, s) := sys_exit status sp s in Ok s
  | Wait => wait_call sp s
  | Yield => let* (_, s) := sys_sched_yield sp s in Ok s
  end.

(** There is memory for a new task; task 1 does not exit, which ends the system. *)
Definition allowed (a : act) (s : ts) : Prop :=
  ∃ c, objs s !! cur_task s = Some c ∧
  match a with
  | Fork => ∃ i p h, can_fork s c i p h
  | Exit _ => pid c ≠ 1
  | _ => True
  end.

Inductive reachable : ts → Prop :=
| at_boot s s' : boots s → objs s = ∅ → task_init s = Ok s' → reachable s'
| after_act s s' sp a : reachable s → allowed a s → act_step sp a s = Ok s' → reachable s'.

Lemma fork_call V s tc sp i p h : running_ok V s → objs s !! cur_task s = Some tc →
  can_fork s tc i p h →
  ∃ d m s', sys_fork sp s = Ok (i, s') ∧ V !! t_page_dir tc = Some m ∧ V !! d = None ∧
    running_ok (<[d := m]> V) s' ∧ cpu s' = cpu s ∧ objs s !! p = None ∧
    tasks s' = <[Z.to_nat i := p]> (tasks s) ∧
    objs s' = <[p := child_of tc i d sp]>
      (<[cur_task s := with_children (children tc + 1) tc]> (objs s)).
Proof.
  intros R Hc Hf. destruct (fork_ok V s tc sp i p h R Hc Hf)
    as (d & m & s' & E & HVm & HVd & R' & C' & Hp & T' & O').
  exists d, m, s'. split; [|done]. unfold sys_fork. rewrite E. cbn [rbind].
  destruct Hf as (_ & _ & Hp0 & _). replace (negb (p =? 0)) with true by lia.
  by rewrite (obj_ok p (child_of tc i d sp)) by (rewrite O'; apply lookup_insert_eq).
Qed.

Lemma act_ok V s a sp : running_ok V s → allowed a s →
  ∃ s' V', act_step sp a s = Ok s' ∧ running_ok V' s'.
Proof.
  intros R (c & Hc & Ha). pose proof R as (B & T & (c' & Hc' & Rc)).
  assert (c' = c) as -> by congruence. destruct a as [|status| |]; simpl.
  - destruct Ha as (i & p & h & Hf).
    destruct (fork_call V s c sp i p h R Hc Hf) as (d & m & s' & -> & _ & _ & R' & _).
    by eexists _, _.
  - destruct (exit_ok V s c status sp R Hc Ha) as (x & l & s' & V' & -> & R' & _).
    by eexists _, _.
  - unfold wait_call. rewrite (obj_ok _ _ _ Hc). cbn [rbind].
    destruct (Z.eqb_spec (children c) 0) as [_|Hch]; [by eexists _, _|].
    destruct (t_queue _ T _ c Hc) as ([|z zs] & Hzq); [unfold live; by rewrite Rc| |].
    + pose proof Hzq as (Hz & _). simpl in Hz.
      destruct (block_ok V s c R Hc Hch Hz) as (s1 & -> & B1 & T1 & C1 & O1). cbn [rbind].
      injection C1 as Ec _ _ _ _.
      destruct (switch_ok V s1 (with_state TASK_STATE_BLOCK_WAIT c) sp B1 T1)
        as (x & l & s' & -> & R' & _); [by rewrite Ec, O1, lookup_insert_eq|].
      by eexists _, _.
    + assert (∃ t, objs s !! z = Some t) as [t Ht].
      { destruct Hzq as ((_ & t & Ht & _) & _). by exists t. }
      destruct (reap_ok V s c z zs t R Hc Hch Hzq Ht) as (s' & V' & -> & R' & _).
      by eexists _, _.
  - destruct (switch_ok V s c sp B T Hc) as (x & l & s' & E & R' & _).
    unfold sys_sched_yield. rewrite E. by eexists _, _.
Qed.

Lemma reachable_ok s : reachable s → ∃ V, running_ok V s.
Proof.
  induction 1 as [s s' Hb H0 E|s s' sp a _ [V R] Ha E].
  - destruct (boot_ok s Hb) as (V & s1 & E1 & R). exists V. rewrite <- H0 in E1.
    assert (set_objs (objs s) s = s) as E2 by by destruct s. rewrite E2 in E1. congruence.
  - destruct (act_ok V s a sp R Ha) as (s1 & V1 & E1 & R1). exists V1. congruence.
Qed.
End tasking.
