(* ===== verification/Processes.v ===== *)
(** * Processes: what the calls on tasks promise

    The theorems on runs, fork, exit, wait and the scheduler, with a small system of
    two tasks for their witnesses. *)

From S2P Require Import Prelude Malloc Headers CString Vga Paging Vm Kmalloc Fs Blocks Demo Spaces Task Table Tree Death Sched Tasking.

(** ** A small implementation of address spaces: directories by address, handed out in
    order, with room for all *)
Record plain := Plain {
  pl_kernel : Z;
  pl_loaded : Z;
  pl_next : Z;
  pl_dirs : gmap Z umem
}.

Definition pl_with (d : gmap Z umem) (s : plain) : plain :=
  Plain (pl_kernel s) (pl_loaded s) (pl_next s) d.

Definition pl_rep (s : plain) (V : gmap Z umem) : Prop :=
  pl_dirs s = V ∧ 0 < pl_next s ∧ ∀ d, d ∈ dom V → d < pl_next s.

Definition pl_create (s : plain) : res (Z * plain) :=
  let d := pl_next s in
  Ok (d, Plain (pl_kernel s) (pl_loaded s) (d + 8192) (<[d := ∅]> (pl_dirs s))).

Definition pl_clone (new old : Z) (s : plain) : res plain :=
  let* m := deref (pl_dirs s !! old) in Ok (pl_with (<[new := m]> (pl_dirs s)) s).

Definition pl_load (d : Z) (s : plain) : res plain :=
  Ok (Plain (pl_kernel s) d (pl_next s) (pl_dirs s)).

Lemma pl_fork_ok s V old m : pl_rep s V → V !! old = Some m →
  pl_loaded s = old → True →
  ∃ pd s1 s2, pl_create s = Ok (pd, s1) ∧ pd ≠ 0 ∧ V !! pd = None ∧
    pl_clone pd old s1 = Ok s2 ∧ pl_rep s2 (<[pd := m]> V) ∧
    pl_kernel s2 = pl_kernel s ∧ pl_loaded s2 = pl_loaded s.
Proof.
  intros (<- & Hn & Hd) Hm _ _. eexists _, _. set (pd := pl_next s) in *.
  assert (Hpd : pl_dirs s !! pd = None).
  { destruct (pl_dirs s !! pd) eqn:E; [|done]. apply elem_of_dom_2, Hd in E. lia. }
  assert (Hne : pd ≠ old) by congruence.
  eexists. split; [done|]. split; [lia|]. split; [done|]. unfold pl_clone. simpl.
  rewrite lookup_insert_ne, Hm by done. simpl. split; [done|]. split; [|done].
  split; [by rewrite insert_insert_eq|]. simpl. split; [lia|]. intros d.
  rewrite !dom_insert_L. intros [->%elem_of_singleton|H]%elem_of_union; [lia|].
  specialize (Hd d H). lia.
Qed.

Lemma pl_free_ok s V pd m : pl_rep s V → V !! pd = Some m →
  pd ≠ pl_kernel s → pd ≠ pl_loaded s →
  ∃ s1 s2 s3, Ok (pl_with (<[pd := ∅]> (pl_dirs s)) s) = Ok s1 ∧ Ok s1 = Ok s2 ∧
    Ok (pl_with (delete pd (pl_dirs s2)) s2) = Ok s3 ∧ pl_rep s3 (delete pd V) ∧
    pl_kernel s3 = pl_kernel s ∧ pl_loaded s3 = pl_loaded s.
Proof.
  intros (<- & Hn & Hd) Hm _ _. eexists _, _, _. split; [done|]. split; [done|].
  split; [done|]. split; [|done]. split; [by simpl; rewrite delete_insert_eq|]. split; [done|].
  intros d. rewrite dom_delete_L. intros [H _]%elem_of_difference. by apply Hd.
Qed.

#[export] Instance plain_spaces : Spaces := {|
  sstate := plain;
  sp_create := pl_create;
  sp_clone := pl_clone;
  sp_free_pages := λ pd s, Ok (pl_with (<[pd := ∅]> (pl_dirs s)) s);
  sp_clear := λ _ s, Ok s;
  sp_kfree := λ pd s, Ok (pl_with (delete pd (pl_dirs s)) s);
  sp_load := pl_load;
  sp_kernel := pl_kernel;
  sp_loaded := pl_loaded;
  sp_rep := pl_rep;
  sp_room := λ _ _, True;
  sp_fork_ok := pl_fork_ok;
  sp_free_ok := pl_free_ok;
  sp_load_ok := λ s V pd m H _, ex_intro _ _ (conj eq_refl (conj H (conj eq_refl eq_refl)))
|}.

(** ** The system before and after [task_init]: one page of memory, with 7 in it *)
Definition kernel_dir : Z := 0x300000.
Definition user_mem : umem := {[UMEM_BEGIN / PAGE_SIZE := (7, [7])]}.

Definition before_tasks : ts :=
  Ts 0 [] 1 ∅ (replicate 512 1) demo_heap
    (Plain kernel_dir kernel_dir 0x310000 {[kernel_dir := user_mem]}).

Definition run_acts (l : list act) (s : ts) : res ts :=
  foldl (λ r a, let* s := r in act_step 0x0FFFFF00 a s) (Ok s) l.

Definition system (l : list act) : res ts :=
  let* s := task_init before_tasks in run_acts l s.

(** What can be seen of a task: number, parent, state, children, queue. *)
Definition seen (t : task_t) : Z * Z * Z * Z * bool :=
  (pid t, ppid t, state t, children t, wait_queue t =? 0).

Definition tasks_of (s : ts) : list (Z * Z * Z * Z * bool) :=
  omap (λ p, seen <$> objs s !! p) (tasks s).

Definition look {A} (f : ts → A) (r : res ts) : option A :=
  match r with Ok s => Some (f s) | _ => None end.

Example one_child : look tasks_of (system [Fork; Wait; Exit 5; Wait]) = Some [(1, 0, 1, 0, true)].
Proof. vm_compute. reflexivity. Qed.

Section processes.
Context {MA : Malloc} {SP : Spaces}.

(** C1: Whatever the running tasks do after boot - fork while there is memory, exit, wait,
    yield, in any order - no call of theirs faults or panics, and the invariant holds:
    every task but the first has a parent that is alive, the dead wait in their
    parent's queue and nowhere else, a task that sleeps in [wait] has a child and no
    dead one (no wake-up is lost), and some task can always run. *)
Theorem tasks_safe s (H : reachable s) :
  (∃ V, running_ok V s) ∧
  ∀ a sp, allowed a s → ∃ s', act_step sp a s = Ok s'.
Proof.
  destruct (reachable_ok s H) as [V R]. split; [by exists V|]. intros a sp Ha.
  destruct (act_ok V s a sp R Ha) as (s' & _ & E & _). by exists s'.
Qed.

(** C13: [fork] returns the lowest free task number; the child has the parent's files, its
    [errno] and the memory it had, in a directory of its own, and goes on in [task_fork]
    on its copy of the stack; the parent has one child more, and no other task changes. *)
Theorem fork_copies V s tc sp i p h (R : running_ok V s)
    (Hc : objs s !! cur_task s = Some tc) (Hf : can_fork s tc i p h) :
  ∃ d m s', sys_fork sp s = Ok (i, s') ∧ V !! t_page_dir tc = Some m ∧ V !! d = None ∧
    running_ok (<[d := m]> V) s' ∧ cpu s' = cpu s ∧ objs s !! p = None ∧
    tasks s' = <[Z.to_nat i := p]> (tasks s) ∧
    objs s' = <[p := child_of tc i d sp]>
      (<[cur_task s := with_children (children tc + 1) tc]> (objs s)).
Proof. by eapply fork_call. Qed.

(** C2: The dead are collected in the order of their deaths, each once: [exit] puts the
    task, with its status, behind the dead children of its parent; [wait] returns the
    first of them, stores its status where asked to, and frees its number. *)
Theorem dead_are_queued V s c (R : running_ok V s) (Hc : objs s !! cur_task s = Some c) :
  (∀ status sp l, pid c ≠ 1 → dead s (ppid c) l →
     ∃ x s' V', sys_exit status sp s = Ok (x, s') ∧ running_ok V' s' ∧
       dead s' (ppid c) (l ++ [(pid c, status)])) ∧
  (∀ others fuel loc sp x l, children c ≠ 0 → dead s (pid c) (x :: l) →
     ∃ s' V', sys_wait others (S fuel) loc sp s =
         Ok (x.1, None, if loc =? 0 then None else Some x.2, s') ∧ running_ok V' s' ∧
       dead s' (pid c) l ∧ get_task x.1 s' = Ok 0).
Proof.
  split.
  - intros status sp l H1 Hl.
    destruct (exit_dead V s c status sp l R Hc H1 Hl) as (x & s' & V' & E & R' & _ & D).
    by exists x, s', V'.
  - intros others fuel loc sp x l Hch Hl.
    destruct (wait_dead V s c x l R Hc Hch Hl) as (s' & V' & E & R' & _ & _ & D & G).
    exists s', V'. split; [|done]. unfold sys_wait. rewrite (obj_ok _ _ _ Hc). cbn [rbind].
    replace (children c =? 0) with false by lia. cbn [wait_again]. rewrite E. cbn [rbind].
    destruct x as [n st]. by destruct (loc =? 0).
Qed.

(** C19: A switch saves the running task and goes on where the next one was: the ready task
    with the fewest slots between them, going round; the others keep their state. *)
Theorem switch_to_next V s c sp (R : running_ok V s) (Hc : objs s !! cur_task s = Some c) :
  ∃ p t s', sched_switch sp s = Ok (esp t, eip t, s') ∧ running_ok V s' ∧
    objs s' = <[cur_task s := with_context (fpu s) (u32 (sp - 32)) sw_return c]> (objs s) ∧
    objs s' !! p = Some t ∧ (cur_task s', fpu s') = (p, fpu_state t) ∧
    sp_loaded (sps s') = t_page_dir t ∧
    ∀ q u, objs s !! q = Some u → ready u → turns (pid c) (pid t) ≤ turns (pid c) (pid u).
Proof.
  destruct R as (B & T & Rc).
  destruct (sched_switch_spec V s c sp B Hc) as (p & t & s' & E & Ht & Rt & B' & O & C & F & M);
    [by eapply can_run|].
  assert (Ht' : objs s' !! p = Some t) by by rewrite O.
  exists p, t, s'. split; [done|]. split.
  { split; [done|]. split; [rewrite O; by apply tree_saved|]. exists t. by rewrite C. }
  split; [done|]. split; [done|]. split; [by rewrite C, F|]. split; [|done].
  destruct (b_cur _ _ B') as [i Hi]. rewrite C in Hi. apply keys_inv in Hi as (u & Hu & Ek).
  unfold key in Ek. congruence.
Qed.

Lemma fair_next s (Hs : ∃ V, base V s) c q i sp x s' : objs s !! cur_task s = Some c →
  ready_at s i q → sched_switch sp s = Ok (x, s') →
  ∃ t, objs s' !! cur_task s' = Some t ∧ turns (pid c) (pid t) ≤ turns (pid c) i ∧
    0 < pid t < 256 ∧ (pid t = i → cur_task s' = q).
Proof.
  destruct Hs as [V B]. intros Hc (u & Hu & <- & Ru) E.
  destruct (sched_switch_spec V s c sp B Hc) as (p & t & s1 & E1 & Ht & Rt & B' & O & C & F & M);
    [by exists q, u|].
  assert (s1 = s') as -> by congruence. rewrite <- O, <- C in Ht. exists t.
  split; [done|]. split; [by apply (M q)|].
  destruct (base_obj _ _ _ _ B' Ht) as (_ & Hs & _ & Hr). split; [done|]. intros Et.
  assert (∃ u', objs s' !! q = Some u' ∧ pid u' = pid u) as (u' & Hu' & Eu).
  { rewrite O. unfold saved. rewrite put_lookup. case_decide as Eq; [|by exists u].
    subst q. assert (u = c) as -> by congruence. by eexists. }
  apply (pid_inj V s' _ q t u' B' Ht Hu'). congruence.
Qed.

(** C18: A task that stays ready gets the processor after at most 255 switches, whatever the
    others do meanwhile.  [g n] is the system at the [n]-th switch, [r n] what the switch
    before left; the task at [q] has the number [i]. *)
Theorem sched_fair (g r : nat → ts) q i
    (Hs : ∀ n, ∃ V, base V (g n)) (Hq : ∀ n, ready_at (g n) i q)
    (Hcur : ∀ n, cur_task (g n) = cur_task (r n) ∧ ∃ c c', pid c = pid c' ∧
       objs (r n) !! cur_task (r n) = Some c ∧ objs (g n) !! cur_task (g n) = Some c')
    (Hsw : ∀ n, ∃ sp x, sched_switch sp (g n) = Ok (x, r (S n))) :
  ∃ n, (1 ≤ n ≤ 255)%nat ∧ cur_task (r n) = q.
Proof.
  assert (Hi : 0 < i < 256).
  { destruct (Hq O) as (u & Hu & <- & _), (Hs O) as [V B].
    by destruct (base_obj V _ _ _ B Hu) as (_ & _ & _ & ?). }
  assert (Hmain : ∀ d n c, objs (g n) !! cur_task (g n) = Some c → turns (pid c) i ≤ Z.of_nat d →
    ∃ k, (n < k ≤ n + d + 1)%nat ∧ cur_task (r k) = q).
  { induction d as [|d IH]; intros n c Hc Hd;
      destruct (Hsw n) as (sp & x & E);
      destruct (fair_next (g n) (Hs n) c q i sp x _ Hc (Hq n) E) as (t & Ht & M & Hr & Hti);
      (assert (Hcr : 0 < pid c < 256) by (destruct (Hs n) as [V B];
        by destruct (base_obj V _ _ _ B Hc) as (_ & _ & _ & ?)));
      (destruct (decide (pid t = i)) as [Ei|Ei];
        [exists (S n); split; [lia|by apply Hti]|]);
      pose proof (turns_nearer (pid c) (pid t) i Hcr Hr Hi Ei M) as Hnear.
    - pose proof (turns_range (pid t) i). lia.
    - destruct (Hcur (S n)) as (Ec & a & a' & Ea & Ha & Ha').
      assert (a = t) as -> by congruence.
      destruct (IH (S n) a' Ha') as (k & Hk & Ek); [rewrite <- Ea; lia|].
      exists k. split; [lia|done]. }
  destruct (Hcur O) as (_ & _ & c & _ & _ & Hc).
  pose proof (turns_range (pid c) i).
  destruct (Hmain 254%nat O c Hc) as (k & Hk & Ek); [lia|]. exists k. split; [lia|done].
Qed.
End processes.

(** ** Witnesses *)
Definition got (r : res ts) : ts := match r with Ok s => s | _ => before_tasks end.

(** After boot; after a fork; in the child. *)
Definition demo_1 : ts := got (task_init before_tasks).
Definition demo_2 : ts := got (act_step 0x0FFFFF00 Fork demo_1).
Definition demo_3 : ts := got (act_step 0x0FFFFF00 Yield demo_2).

Definition cur_view {A} (f : task_t → A) (s : ts) : option A := f <$> objs s !! cur_task s.

Lemma cur_view_inv {A} (f : task_t → A) s x : cur_view f s = Some x →
  ∃ c, objs s !! cur_task s = Some c ∧ f c = x.
Proof. unfold cur_view. intros H%fmap_Some. naive_solver. Qed.

Definition task_block (s : ts) : option Z :=
  match malloc TASK_SIZE (theap s) with Ok (p, _) => Some p | _ => None end.

Lemma task_block_inv s p : task_block s = Some p → ∃ h, malloc TASK_SIZE (theap s) = Ok (p, h).
Proof.
  unfold task_block. destruct (malloc TASK_SIZE (theap s)) as [[q h]| | |]; try done.
  intros [= ->]. by exists h.
Qed.

Lemma demo_boots : boots before_tasks.
Proof.
  destruct (task_block_inv before_tasks 0x400200) as [h E]; [vm_compute; reflexivity|].
  eexists demo_allocated, {[kernel_dir := user_mem]}, _, h. split; [exact demo_heap_rep|].
  split; [exact E|]. split; [done|]. split; [|split; [|done]].
  - split; [done|]. split; [done|]. intros d. simpl. rewrite dom_singleton_L.
    by intros ->%elem_of_singleton.
  - exists user_mem. simpl. by rewrite lookup_singleton_eq.
Qed.

#[local] Opaque before_tasks.

Lemma demo_1_ok : reachable demo_1.
Proof.
  destruct (boot_ok before_tasks demo_boots) as (V & s & E & _).
  assert (task_init before_tasks = Ok demo_1) as E1.
  { assert (set_objs ∅ before_tasks = before_tasks) as E0 by reflexivity.
    rewrite E0 in E. unfold demo_1. rewrite E. reflexivity. }
  exact (at_boot before_tasks demo_1 demo_boots eq_refl E1).
Qed.

#[local] Opaque demo_1.

Lemma demo_step s a sp : reachable s → allowed a s → reachable (got (act_step sp a s)).
Proof.
  intros H Ha. destruct (reachable_ok s H) as [V R].
  destruct (act_ok V s a sp R Ha) as (s' & _ & E & _). rewrite E. exact (after_act s s' sp a H Ha E).
Qed.

Lemma demo_slot : lowest_slot (tasks demo_1) 2.
Proof.
  assert (tasks demo_1 = 0 :: 0x400200 :: replicate 254 0) as -> by (vm_compute; reflexivity).
  split; [done|]. split; [done|]. intros j Hj. assert (j = 1) as -> by lia.
  by exists 0x400200.
Qed.

Lemma demo_can_fork : ∃ tc h, objs demo_1 !! cur_task demo_1 = Some tc ∧ pid tc = 1 ∧
  can_fork demo_1 tc 2 0x4005d0 h.
Proof.
  destruct (cur_view_inv pid demo_1 1) as (c & Hc & P); [vm_compute; reflexivity|].
  destruct (task_block_inv demo_1 0x4005d0) as [h E]; [vm_compute; reflexivity|].
  exists c, h. split; [exact Hc|]. split; [exact P|].
  split; [exact demo_slot|]. split; [exact E|]. split; [lia|exact I].
Qed.

Lemma demo_2_ok : reachable demo_2.
Proof.
  apply (demo_step demo_1 Fork); [exact demo_1_ok|]. destruct demo_can_fork as (c & h & Hc & _ & Hf).
  exists c. split; [exact Hc|]. exists 2, 0x4005d0, h. exact Hf.
Qed.

#[local] Opaque demo_2.

Lemma demo_3_ok : reachable demo_3.
Proof.
  apply (demo_step demo_2 Yield); [exact demo_2_ok|].
  destruct (cur_view_inv pid demo_2 1) as (c & Hc & _); [vm_compute; reflexivity|].
  exists c. split; [exact Hc|exact I].
Qed.

#[local] Opaque demo_3.

Lemma tasks_safe_witness : reachable demo_3 ∧ (∃ V, running_ok V demo_3) ∧
  ∃ s', act_step 0x0FFFFF00 (Exit 5) demo_3 = Ok s'.
Proof.
  split; [exact demo_3_ok|]. destruct (tasks_safe demo_3 demo_3_ok) as [R A].
  split; [exact R|]. apply A.
  destruct (cur_view_inv pid demo_3 2) as (c & Hc & P); [vm_compute; reflexivity|].
  exists c. split; [exact Hc|]. rewrite P. lia.
Defined.

Lemma fork_copies_witness : ∃ V d m s', sys_fork 0x0FFFFF00 demo_1 = Ok (2, s') ∧
  V !! d = None ∧ running_ok (<[d := m]> V) s'.
Proof.
  destruct (reachable_ok demo_1 demo_1_ok) as [V R].
  destruct demo_can_fork as (c & h & Hc & _ & Hf).
  destruct (fork_copies V demo_1 c 0x0FFFFF00 2 0x4005d0 h R Hc Hf)
    as (d & m & s' & E & _ & Hd & R' & _).
  exists V, d, m, s'. split; [exact E|]. split; [exact Hd|exact R'].
Defined.

Lemma dead_none s V p t : running_ok V s → objs s !! p = Some t → live t →
  wait_queue t = 0 → dead s (pid t) [].
Proof.
  intros (B & T & _) Hp L W. destruct (t_queue _ T p t Hp L) as (l & Hz).
  pose proof Hz as (Hc & _). destruct l as [|z l].
  - exists p, t, []. done.
  - destruct Hc as [E (u & Hu & _)]. rewrite W in E. subst z.
    by rewrite (objs_0 V) in Hu.
Qed.

Definition at_slot {A} (f : task_t → A) (i : Z) (s : ts) : option A :=
  p ← aget (tasks s) i; f <$> objs s !! p.

Lemma at_slot_inv {A} (f : task_t → A) i s x : at_slot f i s = Some x →
  ∃ p t, objs s !! p = Some t ∧ f t = x.
Proof.
  unfold at_slot. intros (p & _ & H)%bind_Some. apply fmap_Some in H as (t & Ht & ->).
  by exists p, t.
Qed.

Lemma dead_are_queued_witness :
  ∃ x s' V', sys_exit 5 0x0FFFFF00 demo_3 = Ok (x, s') ∧ running_ok V' s' ∧
    dead s' 1 [(2, 5)].
Proof.
  destruct (reachable_ok demo_3 demo_3_ok) as [V R].
  destruct (cur_view_inv (λ t, (pid t, ppid t)) demo_3 (2, 1)) as (c & Hc & P); [vm_compute; reflexivity|].
  destruct (at_slot_inv (λ t, (pid t, state t, wait_queue t)) 1 demo_3 (1, 1, 0))
    as (p & t & Hp & E); [vm_compute; reflexivity|].
  injection P as P1 P2. injection E as E1 E2 E3.
  destruct (proj1 (dead_are_queued V demo_3 c R Hc) 5 0x0FFFFF00 [])
    as (x & s' & V' & E & R' & D).
  - rewrite P1. lia.
  - rewrite P2, <- E1. apply (dead_none demo_3 V p t R Hp); [|exact E3].
    unfold live. rewrite E2. discriminate.
  - exists x, s', V'. rewrite P1, P2 in D. split; [exact E|]. split; [exact R'|exact D].
Defined.

Lemma switch_to_next_witness : ∃ x l s', sched_switch 0x0FFFFF00 demo_2 = Ok (x, l, s') ∧
  (λ t, (pid t, eip t)) <$> objs s' !! cur_task s' = Some (2, tf_return).
Proof.
  destruct (reachable_ok demo_2 demo_2_ok) as [V R].
  destruct (cur_view_inv pid demo_2 1) as (c & Hc & P); [vm_compute; reflexivity|].
  destruct (switch_to_next V demo_2 c 0x0FFFFF00 R Hc) as (p & t & s' & E & _).
  exists (esp t), (eip t), s'. split; [exact E|].
  assert (look (cur_view (λ t, (pid t, eip t)))
    (let* (_, s) := sched_switch 0x0FFFFF00 demo_2 in Ok s) = Some (Some (2, tf_return)))
    as Hv by (vm_compute; reflexivity).
  rewrite E in Hv. simpl in Hv. injection Hv as Hv. exact Hv.
Defined.

(** Two tasks that do nothing but yield. *)
Definition yield_step (s : ts) : ts :=
  match sched_switch 0x0FFFFF00 s with Ok (_, s') => s' | _ => s end.

Lemma yield_keeps V s i q : running_ok V s → ready_at s i q →
  ∃ x, sched_switch 0x0FFFFF00 s = Ok (x, yield_step s) ∧ running_ok V (yield_step s) ∧
    ready_at (yield_step s) i q.
Proof.
  intros (B & T & (c & Hc & Rc)) (t & Ht & Hi & Rt).
  destruct (switch_ok V s c 0x0FFFFF00 B T Hc) as (x & l & s' & E & R' & O).
  unfold yield_step. rewrite E. exists (x, l). split; [reflexivity|]. split; [exact R'|].
  unfold ready_at. rewrite O. unfold saved. rewrite put_lookup. case_decide as Eq.
  - subst q. assert (t = c) as -> by congruence. by eexists.
  - by exists t.
Qed.

Lemma demo_yields V (n : nat) : running_ok V demo_2 → ready_at demo_2 2 0x4005d0 →
  running_ok V (Nat.iter n yield_step demo_2) ∧
  ready_at (Nat.iter n yield_step demo_2) 2 0x4005d0.
Proof.
  intros R H. induction n as [|n [IH1 IH2]]; [split; [exact R|exact H]|].
  rewrite Nat.iter_succ.
  destruct (yield_keeps V _ 2 0x4005d0 IH1 IH2) as (_ & _ & R' & H'). split; [exact R'|exact H'].
Qed.

Lemma demo_child_ready : ready_at demo_2 2 0x4005d0.
Proof.
  assert ((λ t, (pid t, state t)) <$> objs demo_2 !! 0x4005d0 = Some (2, 1)) as E
    by (vm_compute; reflexivity).
  apply fmap_Some in E as (t & Ht & E). injection E as E1 E2. exists t.
  split; [exact Ht|]. split; [symmetry; exact E1|]. unfold ready. rewrite <- E2. reflexivity.
Qed.

Lemma sched_fair_witness : ∃ n, (1 ≤ n ≤ 255)%nat ∧
  cur_task (Nat.iter n yield_step demo_2) = 0x4005d0.
Proof.
  destruct (reachable_ok demo_2 demo_2_ok) as [V R]. pose proof demo_child_ready as Hq.
  set (f := λ n, Nat.iter n yield_step demo_2).
  apply (sched_fair f f 0x4005d0 2); intros n; destruct (demo_yields V n R Hq) as [Rn Hn].
  - exists V. apply Rn.
  - exact Hn.
  - split; [reflexivity|]. destruct Rn as (_ & _ & c & Hc & _). exists c, c.
    split; [reflexivity|]. split; [exact Hc|exact Hc].
  - exists 0x0FFFFF00. destruct (yield_keeps V _ _ _ Rn Hn) as (x & E & _). exists x.
    unfold f. rewrite Nat.iter_succ. exact E.
Defined.

(** ** What the code does not do

    An orphan is not counted as a child of task 1: task 3 is alive, its parent is task 1,
    and [wait] of task 1 says that there are no children. *)
Definition orphaned : list act := [Fork; Fork; Wait; Fork; Exit 0; Yield; Exit 0; Wait; Wait].

Example orphan_uncounted :
  look tasks_of (system orphaned) = Some [(1, 0, 1, 0, true); (3, 1, 1, 0, true)] ∧
  (let* s := system orphaned in
   let* (r, e, _, _) := sys_wait Ok 1 0 0x0FFFFF00 s in Ok (r, e)) = Ok (0xFFFFFFFF, Some ECHILD).
Proof. split; vm_compute; reflexivity. Qed.

(** The child starts with the FPU registers that its parent had when it was last
    switched away from (here never), not with those it has at the fork. *)
Example fork_old_fpu :
  look (λ s, (nth 0 (fpu demo_1) 9, nth 0 (fpu s) 9)) (system [Fork; Yield]) = Some (1, 0).
Proof. vm_compute. reflexivity. Qed.

(** The child has its parent's memory, but no heap: [uheap_begin] and [uheap_end] are 0. *)
Example fork_no_heap :
  look (cur_view (λ t, (t_uheap_begin t, t_uheap_end t)))
    (let* s := upd (cur_task demo_1) (with_uheap 0x10400000 0x10401000) demo_1 in
     run_acts [Fork; Yield] s) = Some (Some (0, 0)).
Proof. vm_compute. reflexivity. Qed.

(** Number 256 passes the test of [get_task], and is behind the table. *)
Example get_task_256 : look (λ s, get_task 256 s) (Ok demo_1) = Some Fault.
Proof. vm_compute. reflexivity. Qed.
