(* ===== verification/Syscall.v ===== *)
(** * Syscall: the calls of user programs

    [kernel/src/syscall/syscall.c], [sys_fs.c], [sys_uvm.c], [sys_setup.c], [sys_pipe.c],
    [sys_time.c] and [sys_execve.c], and [kernel/lib/errno.c]: the layers below come
    together here.  The calls on tasks are those of [Tasking]. *)

From S2P Require Import Prelude Malloc Headers CString Paging Vm Vga Time Fs Names Blocks Nodes Demo Ramfs Stream Stdio Vfs Spaces Space User Elf Exec Task Tasking.

Record registers_t := Regs {
  edi : Z; esi : Z; ebp : Z; r_esp : Z; ebx : Z; edx : Z; ecx : Z; eax : Z
}.

Definition REG_VECTOR (r : registers_t) : Z := eax r.
Definition REG_ARG1 (r : registers_t) : Z := ebx r.
Definition REG_ARG2 (r : registers_t) : Z := edi r.
Definition REG_ARG3 (r : registers_t) : Z := esi r.
Definition REG_RETURN (v : Z) (r : registers_t) : registers_t :=
  Regs (edi r) (esi r) (ebp r) (r_esp r) (ebx r) (edx r) (ecx r) v.

Section syscall.
Context {MA : Malloc} {SY : Sys} {PA : PageAlloc} {QA : QuietAlloc}.

(** What the clock chip answers, the old contents of a block of the heap, and the fuel of
    the loops. *)
Context (rd : nat → Z → Z) (junk_bytes : Z → list Z) (fuel : nat).

(** The tasks with the heap and the memory, the files, and the reads of the clock. *)
Record kernel := Kernel { k_ts : ts; k_files : fs; k_clock : nat }.

Definition with_ts (t : ts) (k : kernel) : kernel := Kernel t (k_files k) (k_clock k).

(** ** errno

    [errno] is the word at [errno_loc] of the current task.  No code of the kernel reads
    it: a call runs with a value that is no error number, and what it leaves is stored
    when it ends. *)
Definition NO_ERRNO : Z := -1.

Definition store_errno (loc e : Z) (m : mm) : res mm :=
  if e =? NO_ERRNO then Ok m else store32 loc e m.

Definition put_errno (e : errno_t) (k : kernel) : res kernel :=
  let* c := obj (cur_task (k_ts k)) (k_ts k) in
  let* m := store_errno (errno_loc c) e (sps (k_ts k)) in
  Ok (with_ts (set_sps m (k_ts k)) k).

(** ** The current task as the lower layers see it *)
Definition enter (k : kernel) : res kst :=
  let t := k_ts k in
  let* c := obj (cur_task t) t in
  Ok (Kst (set_files (t_files c) (set_errno NO_ERRNO (set_heap (theap t) (k_files k))))
          (Uvm (t_uheap_begin c) (t_uheap_end c) (t_page_dir c) (sps t))).

Definition leave (x : kst) (k : kernel) : res kernel :=
  let t := k_ts k in
  let* c := obj (cur_task t) t in
  let* m := store_errno (errno_loc c) (Fs.errno (k_fs x)) (k_mm x) in
  let* t := upd (cur_task t) (λ c,
    with_uheap (uheap_begin (k_uvm x)) (uheap_end (k_uvm x)) (with_files (files (k_fs x)) c)) t in
  Ok (Kernel (set_theap (heap (k_fs x)) (set_sps m t)) (k_fs x) (k_clock k)).

Definition in_task (f : kst → res (Z * kst)) (k : kernel) : res (Z * kernel) :=
  let* x := enter k in
  let* (v, x) := f x in
  let* k := leave x k in
  Ok (u32 v, k).

(** ** sys_fs.c

    A buffer is handed to the layers below as a list: what can be read from its address
    on, or what came to be stored there.  The characters of a name are loaded first. *)
Fixpoint load_span (n : nat) (a : Z) (m : mm) : list Z :=
  match n with
  | O => []
  | S n => match load8 a m with Ok b => b :: load_span n (a + 1) m | _ => [] end
  end.

Definition load_name (a : Z) (x : kst) : res (option (list Z)) :=
  if a =? 0 then Ok None else let* cs := load_str fuel a (k_mm x) in Ok (Some cs).

Definition store_k (f : mm → res mm) (x : kst) : res kst :=
  let* m := f (k_mm x) in Ok (with_mm m x).

Definition sys_read (r : registers_t) (x : kst) : res (Z * kst) :=
  let fd := s32 (REG_ARG1 r) in
  let buf := REG_ARG2 r in
  let size := REG_ARG3 r in
  let old := if buf =? 0 then None else Some (replicate (Z.to_nat size) 0) in
  let* (n, new, s) := read_vfs fd old size (k_fs x) in
  let* x := store_k (store_bytes buf (take (Z.to_nat n) (default [] new))) (with_fs s x) in
  Ok (n, x).

Definition sys_write (r : registers_t) (x : kst) : res (Z * kst) :=
  let fd := s32 (REG_ARG1 r) in
  let buf := REG_ARG2 r in
  let size := REG_ARG3 r in
  if buf =? 0 then Ok (-1, x)
  else on_fs (write_vfs fd (Some (load_span (Z.to_nat size) buf (k_mm x))) size) x.

Definition sys_open (r : registers_t) (x : kst) : res (Z * kst) :=
  let* name := load_name (REG_ARG1 r) x in
  let oflag := REG_ARG2 r in
  let mode := REG_ARG3 r in
  on_fs (open_vfs name oflag mode) x.

Definition sys_close (r : registers_t) (x : kst) : res (Z * kst) :=
  on_fs (close_vfs (s32 (REG_ARG1 r))) x.

Definition sys_creat (r : registers_t) (x : kst) : res (Z * kst) :=
  let* name := load_str fuel (REG_ARG1 r) (k_mm x) in
  let mode := REG_ARG2 r in
  on_fs (creat_vfs name mode) x.

Definition sys_lseek (r : registers_t) (x : kst) : res (Z * kst) :=
  on_fs (lseek_vfs (s32 (REG_ARG1 r)) (s32 (REG_ARG2 r)) (s32 (REG_ARG3 r))) x.

Definition sys_fcntl (r : registers_t) (x : kst) : res (Z * kst) :=
  on_fs (do_fcntl (s32 (REG_ARG1 r)) (s32 (REG_ARG2 r)) (REG_ARG3 r)) x.

(** The ten words of the structure. *)
Definition stat_words (t : stat) : list Z :=
  [st_dev t; st_ino t; st_mode t; st_uid t; st_gid t; st_rdev t; st_size t;
   st_atime t; st_mtime t; st_ctime t].

Fixpoint store_words (a : Z) (ws : list Z) (m : mm) : res mm :=
  match ws with
  | [] => Ok m
  | w :: ws => let* m := store32 a (u32 w) m in store_words (a + 4) ws m
  end.

Definition sys_fstat (r : registers_t) (x : kst) : res (Z * kst) :=
  let* (n, t, s) := fstat (s32 (REG_ARG1 r)) (k_fs x) in
  let* x := store_k (store_words (REG_ARG2 r) (default [] (stat_words <$> t))) (with_fs s x) in
  Ok (n, x).

(** ** sys_pipe.c

    A descriptor that [creat_pipe] did not come to is not stored. *)
Definition UNSET : Z := -2.

Definition store_fd (a fd : Z) (m : mm) : res mm :=
  if fd =? UNSET then Ok m else store32 a (u32 fd) m.

Definition sys_pipe (r : registers_t) (x : kst) : res (Z * kst) :=
  let fd := REG_ARG1 r in
  let* (n, fd0, fd1, s) := creat_pipe UNSET UNSET (k_fs x) in
  let* x := store_k (store_fd fd fd0) (with_fs s x) in
  let* x := store_k (store_fd (fd + 4) fd1) x in
  Ok (n, x).

(** ** sys_uvm.c *)
Definition on_uvm (f : uvm → res (Z * uvm)) (x : kst) : res (Z * kst) :=
  let u := k_uvm x in
  let* (v, u) := f (with_um (with_errno (Fs.errno (k_fs x)) (um u)) u) in
  Ok (v, Kst (set_errno (Paging.errno (um u)) (k_fs x)) u).

Definition sys_brk (r : registers_t) (x : kst) : res (Z * kst) := on_uvm (uvm_brk fuel (REG_ARG1 r)) x.
Definition sys_sbrk (r : registers_t) (x : kst) : res (Z * kst) :=
  on_uvm (uvm_sbrk fuel (s32 (REG_ARG1 r))) x.

(** ** The call that returns by the registers, and the others *)
Inductive resumption := after_switch | again.
Inductive outcome := returned (v : Z) | switched (next : Z * label) (r : resumption).

Definition syscall_t : Type := registers_t → kernel → res (outcome * registers_t * kernel).

Definition plain (f : registers_t → kst → res (Z * kst)) : syscall_t := λ r k,
  let* (v, k) := in_task (f r) k in Ok (returned v, r, k).

(** sys_execve.c: the program starts at [edx] with the stack at [ecx]. *)
Definition sys_execve : syscall_t := λ r k,
  let* x := enter k in
  let* (ret, x) := execve junk_bytes fuel (REG_ARG1 r) (REG_ARG2 r) (REG_ARG3 r) x in
  let* k := leave x k in
  match ret with
  | None => Ok (returned (u32 (-1)), r, k)
  | Some (args0, args1, args2) =>
      Ok (returned 0, Regs args1 args0 (ebp r) (r_esp r) (ebx r) UCODE_BEGIN args2 (eax r), k)
  end.

(** sys_setup.c *)
Definition sys_setup : syscall_t := λ r k,
  let cmd := REG_ARG1 r in
  if cmd =? SET_ERRNO_LOC then
    let* t := upd (cur_task (k_ts k)) (with_errno_loc (REG_ARG2 r)) (k_ts k) in
    Ok (returned 0, r, with_ts t k)
  else if cmd =? GET_USED_MEM then
    let* n := get_used_frames (sps (k_ts k)) in
    Ok (returned (u32 (n * 4096)), r, k)
  else
    let* k := put_errno ENOSYS k in
    Ok (returned (u32 (-1)), r, k).

(** sys_time.c *)
Definition sys_time : syscall_t := λ r k,
  let* (v, n) := time rd fuel (k_clock k) in
  Ok (returned (u32 v), r, Kernel (k_ts k) (k_files k) n).

(** ** sys_tasking.c: [sp] is the stack pointer of the call *)
Section tasking.
Context (sp : Z).

Definition switching (f : ts → res (Z * label * ts)) : syscall_t := λ r k,
  let* (next, t) := f (k_ts k) in Ok (switched next after_switch, r, with_ts t k).

Definition call_exit : syscall_t := λ r, switching (sys_exit (REG_ARG1 r) sp) r.
Definition call_yield : syscall_t := switching (sys_sched_yield sp).
Definition call_fork : syscall_t := λ r k,
  let* (v, t) := sys_fork sp (k_ts k) in Ok (returned v, r, with_ts t k).

(** From [again:] on. *)
Definition wait_from (stat_loc : Z) (k : kernel) : res (outcome * kernel) :=
  let* (d, t) := wait_turn (k_ts k) in
  match d with
  | Some (child_pid, child_status) =>
      let* m := (if stat_loc =? 0 then Ok (sps t) else store32 stat_loc child_status (sps t)) in
      Ok (returned child_pid, with_ts (set_sps m t) k)
  | None =>
      let* (next, t) := sched_switch sp t in
      Ok (switched next again, with_ts t k)
  end.

Definition call_wait : syscall_t := λ r k,
  let* c := obj (cur_task (k_ts k)) (k_ts k) in
  if children c =? 0 then
    let* k := put_errno ECHILD k in
    Ok (returned (u32 (-1)), r, k)
  else let* (o, k) := wait_from (REG_ARG1 r) k in Ok (o, r, k).

(** ** syscall.c *)
Definition syscall_table : list (option syscall_t) :=
  Some <$> [call_exit; call_yield; call_fork; call_wait; plain sys_read; plain sys_write;
            plain sys_open; plain sys_close; plain sys_creat; plain sys_lseek; plain sys_fcntl;
            plain sys_fstat; sys_setup; plain sys_pipe; plain sys_brk; plain sys_sbrk;
            sys_execve; sys_time].

Definition set_syscall_regs (p : Z) (k : kernel) : res kernel :=
  let* t := upd (cur_task (k_ts k)) (with_regs p) (k_ts k) in Ok (with_ts t k).

(** When the function returns. *)
Definition syscall_return (x : outcome * registers_t * kernel) : res (outcome * registers_t * kernel) :=
  let '(o, r, k) := x in
  match o with
  | returned v => let* k := set_syscall_regs 0 k in Ok (o, REG_RETURN v r, k)
  | switched _ _ => Ok x
  end.

(** [regs] is the address of the registers. *)
Definition syscall_dispatch (regs : Z) (r : registers_t) (k : kernel)
    : res (outcome * registers_t * kernel) :=
  let unknown :=
    let* k := put_errno ENOSYS k in
    Ok (returned (u32 (-1)), REG_RETURN (u32 (-1)) r, k) in
  if len syscall_table <? REG_VECTOR r then unknown
  else
    let* func := deref (aget syscall_table (REG_VECTOR r)) in
    match func with
    | None => unknown
    | Some func =>
        let* k := set_syscall_regs regs k in
        let* x := func r k in
        syscall_return x
    end.

(** A call that gave the processor away, when its task has it again. *)
Definition syscall_resume (p : resumption) (r : registers_t) (k : kernel)
    : res (outcome * registers_t * kernel) :=
  match p with
  | after_switch => syscall_return (returned 0, r, k)
  | again => let* (o, k) := wait_from (REG_ARG1 r) k in syscall_return (o, r, k)
  end.
End tasking.
End syscall.
