(* ===== verification/Calls.v ===== *)
(** * Calls: what a user program sees of the files

    Reading, seeking and writing by system calls, from the registers of the program down to
    the blocks of the file and up to the bytes of its memory. *)

From S2P Require Import Prelude Malloc Headers CString Paging Vm Vga Time Fs Names Blocks Nodes Demo Ramfs Stream Stdio Vfs Files Spaces Space Fork User Exec Task Table Tasking Syscall.

#[local] Coercion Z.of_nat : nat >-> Z.

(** ** The file layer *)
Section open_file.
Context {MA : Malloc} {SY : Sys}.

(** [fd] is open for reading and writing on a regular file with the content [c], in the
    blocks [l], and stands at [a]. *)
Definition open_on (s : fs) (fd : Z) (l : list (Z * list Z)) (c : list Z) (a : nat) : Prop :=
  ∃ f n p, len (files s) = OPEN_MAX ∧ get_fd fd s = Ok f ∧ vfs_node f ≠ 0 ∧ oflag f = O_RDWR ∧
    vnodes s !! vfs_node f = Some n ∧ regular n ∧ aget (ramfs_nodes s) (st_ino (status n)) = Some p ∧
    file_on (blocks s) p l c ∧ at_ f = a ∧ st_size (status n) = len c.

(** It does not depend on [errno] and the heap. *)
Lemma open_on_same s s' fd l c a : files s' = files s → vnodes s' = vnodes s → blocks s' = blocks s →
  ramfs_nodes s' = ramfs_nodes s → open_on s fd l c a → open_on s' fd l c a.
Proof. intros Hf Hv Hb Hr H. unfold open_on, get_fd in *. by rewrite Hf, Hv, Hb, Hr. Qed.

Lemma open_on_seek s fd l c a b : open_on s fd l c a →
  ∃ f, get_fd fd s = Ok f ∧ put_fd fd (with_at b f) s = Ok (at_fd fd (with_at b f) s) ∧
    ∀ b' : nat, b = b' → open_on (at_fd fd (with_at b f) s) fd l c b'.
Proof.
  intros (f & n & p & Hl & Ef & Hn & Ho & En & Hreg & Ep & Hon & Ha & Hsz).
  pose proof (get_fd_range _ _ _ Ef) as Hr. exists f. split; [done|]. split; [by apply put_fd_ok|].
  intros b' ->. exists (with_at b' f), n, p. split; [unfold at_fd; simpl; by rewrite length_insert|].
  split; [by apply get_at_fd|]. done.
Qed.

Lemma seek_file s fd l c a (b : nat) : open_on s fd l c a → Z.of_nat b < 2 ^ 31 →
  ∃ s', lseek_vfs fd b SEEK_SET s = Ok (Z.of_nat b, s') ∧ open_on s' fd l c b ∧
    errno s' = errno s ∧ ∀ L, mem_ok s L → mem_ok s' L.
Proof.
  intros H Hb. destruct (open_on_seek s fd l c a b H) as (f & Ef & Ep & Ho).
  destruct H as (f' & n & p & Hl & Ef' & Hn & _ & En & Hreg & _). assert (f' = f) as -> by congruence.
  destruct Hreg as (_ & _ & Hfifo & _ & _ & _ & _ & Hls).
  exists (at_fd fd (with_at b f) s). split; [|split; [by apply Ho|done]].
  unfold lseek_vfs. rewrite (open_fd_some _ _ _ Ef) by done. cbn [rbind]. unfold get_node.
  rewrite En. cbn [deref rbind]. rewrite Hfifo, Hls. change (SEEK_SET =? SEEK_SET) with true. cbv iota.
  rewrite sint_small by lia. by rewrite Ep.
Qed.

Lemma read_file s fd l c a (size : nat) buf : open_on s fd l c a → (a ≤ length c)%nat → aligned a →
  len c < 2 ^ 31 → (0 < size ≤ length buf)%nat → Z.of_nat size < 2 ^ 31 →
  let k := (size `min` (length c - a))%nat in
  ∃ s', read_vfs fd (Some buf) size s = Ok (Z.of_nat k, Some (take k (drop a c) ++ drop k buf), s') ∧
    open_on s' fd l c (a + k) ∧ errno s' = errno s ∧ ∀ L, mem_ok s L → mem_ok s' L.
Proof.
  intros H Ha Hal Hc Hs H31 k. destruct (open_on_seek s fd l c a (a + k)%nat H) as (f & Ef & _ & Ho).
  destruct H as (f' & n & p & Hl & Ef' & Hn & Hfl & En & Hreg & Ep & Hon & Hat & Hsz).
  assert (f' = f) as -> by congruence. destruct Hreg as (_ & Hdir & _ & Hrd & _).
  exists (at_fd fd (with_at (a + k)%nat f) s). split; [|split; [by apply Ho|done]].
  unfold read_vfs. rewrite (open_fd_some _ _ _ Ef) by done. cbn [rbind]. unfold get_node.
  rewrite En. cbn [deref rbind]. rewrite Hdir, Hfl, Hrd. replace (Z.of_nat size =? 0) with false by lia.
  change (has O_RDWR O_RDONLY) with true. cbv iota. cbn [node_read].
  by rewrite (read_ramfs_result s fd l c a f n p size buf) by (done || lia).
Qed.

Lemma write_file s L fd l c (size : nat) buf : open_on s fd l c (length c) → mem_ok s L →
  (length c < 256 * length l)%nat → aligned (length c) → (0 < size ≤ length buf)%nat →
  len c + size < 2 ^ 31 →
  ∃ (k : nat) s' l' L', write_vfs fd (Some buf) size s = Ok (Z.of_nat k, s') ∧ mem_ok s' L' ∧
    open_on s' fd l' (c ++ take k buf) (length c + k) ∧ (1 ≤ k ≤ size)%nat ∧
    (errno s' = ENOMEM ∨ errno s' = errno s ∧ k = size).
Proof.
  intros (f & n & p & Hl & Ef & Hn & Hfl & En & Hreg & Ep & Hon & Hat & Hsz) Hm Hroom Hal Hs Hlt.
  pose proof (get_fd_range _ _ _ Ef) as Hr.
  destruct (write_ramfs_result s L fd l c f n p size buf) as (oom & k & s1 & Happ & Hw); try done; [lia..|].
  destruct Happ as (b & h & e & l' & L' & -> & Hm' & _ & Hf' & _ & _ & Hk & Hoom).
  exists k, (at_fd fd (with_at (length c + k)%nat f) (put_node (vfs_node f) (add_size k n) (with_mem b h e s))), l', L'.
  split; [|split; [by eapply put_node_ok|split; [|split; [done|]]]].
  - unfold write_vfs. rewrite (open_fd_some _ _ _ Ef) by done. cbn [rbind].
    replace (Z.of_nat size =? 0) with false by lia. rewrite Hfl. change (has O_RDWR O_WRONLY) with true. cbv iota.
    unfold get_node. rewrite En. cbn [deref rbind]. destruct Hreg as (_ & _ & _ & _ & -> & _). exact Hw.
  - exists (with_at (length c + k)%nat f), (add_size k n), p.
    split; [unfold at_fd; simpl; by rewrite length_insert|]. split; [by apply get_at_fd|].
    split; [done|]. split; [done|]. split; [apply lookup_insert_eq|]. split; [exact Hreg|].
    split; [done|]. split; [done|]. split; [done|].
    simpl. rewrite Hsz, length_app, length_take. lia.
  - simpl. destruct oom; [left; by destruct Hoom|]. right. by destruct Hoom as (-> & -> & _).
Qed.
End open_file.

(** ** The memory *)
Section memory.
Context {MA : Malloc} {SY : Sys} {PA : PageAlloc} {QA : QuietAlloc}.

(** The [n] bytes from [a] on. *)
Fixpoint vread (m : umem) (a : Z) (n : nat) : list Z :=
  match n with
  | O => []
  | S n => default 0 (vbyte m a) :: vread m (a + 1) n
  end.

Lemma vread_len m a n : length (vread m a n) = n.
Proof. revert a. induction n as [|n IH]; intros a; simpl; [done|]. by rewrite IH. Qed.

Lemma vread_take m a n k : (k ≤ n)%nat → take k (vread m a n) = vread m a k.
Proof.
  revert a k. induction n as [|n IH]; intros a [|k] Hk; [done|lia|done|]. cbn [vread take].
  by rewrite IH by lia.
Qed.

Lemma vread_get m a n i : 0 ≤ i < Z.of_nat n → aget (vread m a n) i = Some (default 0 (vbyte m (a + i))).
Proof.
  revert a i. induction n as [|n IH]; intros a i Hi; [lia|]. cbn [vread].
  destruct (Z.eq_dec i 0) as [->|Hne]; [by rewrite Z.add_0_r|].
  specialize (IH (a + 1) (i - 1) ltac:(lia)). unfold aget in *. cif; [lia|].
  replace (i - 1 <? 0) with false in IH by lia. replace (Z.to_nat i) with (S (Z.to_nat (i - 1))) by lia.
  change (vread m (a + 1) n !! Z.to_nat (i - 1) = Some (default 0 (vbyte m (a + i)))). rewrite IH. do 3 f_equal. lia.
Qed.

Lemma load_span_user V s m a n : user V s m → mapped m a (Z.of_nat n) → load_span n a s = vread m a n.
Proof.
  intros HU. revert a. induction n as [|n IH]; intros a Hm; [done|]. cbn [load_span vread].
  destruct (mapped_at m a (Z.of_nat (S n)) a Hm) as [Hp [v Ev]]; [lia|].
  rewrite (load8_user V s m a v HU Hp Ev), Ev. cbn [default from_option]. unfold id.
  rewrite IH; [done|]. apply (mapped_sub m a (Z.of_nat (S n))); [done|lia|lia].
Qed.

Definition word_bytes (v : Z) : list Z := [byte_of v 0; byte_of v 1; byte_of v 2; byte_of v 3].

Lemma store32_bytes a v s : store32 a v s = store_bytes a (word_bytes v) s.
Proof.
  unfold store32, word_bytes. cbn [store_bytes]. destruct (store8 a (byte_of v 0) s); [cbn [rbind]|done..].
  destruct (store8 (a + 1) (byte_of v 1) _); [cbn [rbind]|done..].
  replace (a + 1 + 1) with (a + 2) by lia. destruct (store8 (a + 2) _ _); [cbn [rbind]|done..].
  replace (a + 2 + 1) with (a + 3) by lia. by destruct (store8 (a + 3) _ _).
Qed.

Lemma mapped_vsets m a n b bs : mapped m a n → mapped (vsets m b bs) a n.
Proof.
  revert m b. induction bs as [|x bs IH]; intros m b H; cbn [vsets]; [done|]. by apply IH, mapped_vset.
Qed.

(** The memory when [errno] was set to [e], or not at all. *)
Definition errno_set (loc e : Z) (m : umem) : umem :=
  if e =? NO_ERRNO then m else vsets m loc (word_bytes e).

Lemma store_errno_user V s m loc e : user V s m → mapped m loc 4 →
  ∃ s', store_errno loc e s = Ok s' ∧ user V s' (errno_set loc e m).
Proof.
  intros HU Hm. unfold store_errno, errno_set. destruct (e =? NO_ERRNO); [by exists s|].
  rewrite store32_bytes. destruct (store_bytes_user V s m loc (word_bytes e) HU Hm) as (s' & -> & HU' & _).
  by exists s'.
Qed.
End memory.

(** ** From the registers to the file *)
Section calls.
Context {MA : Malloc} {SY : Sys} {PA : PageAlloc} {QA : QuietAlloc}.
Context (rd : nat → Z → Z) (junk_bytes : Z → list Z) (fuel : nat) (sp regs : Z).

Abbreviation dispatch := (syscall_dispatch rd junk_bytes fuel sp regs).

(** The current task has [fd] open as in [open_on], its private memory is [m] and that of
    the other address spaces [V], and its [errno] is at [loc]. *)
Definition at_file (k : kernel) (V : gmap Z umem) (m : umem) (loc fd : Z) (l : list (Z * list Z))
    (c : list Z) (a : nat) : Prop :=
  ∃ t x L, objs (k_ts k) !! cur_task (k_ts k) = Some t ∧ errno_loc t = loc ∧ enter k = Ok x ∧
    open_on (k_fs x) fd l c a ∧ mem_ok (k_fs x) L ∧ user V (k_mm x) m.

(** A call of the plain kind, from what its function does. *)
Lemma dispatch_plain f r k x v x' t loc V m' fd l' c' a' L' :
  objs (k_ts k) !! cur_task (k_ts k) = Some t → errno_loc t = loc → enter k = Ok x →
  REG_VECTOR r ≤ 18 → aget (syscall_table rd junk_bytes fuel sp) (REG_VECTOR r) = Some (Some (plain f)) →
  f r x = Ok (v, x') → mapped m' loc 4 →
  open_on (k_fs x') fd l' c' a' → mem_ok (k_fs x') L' → user V (k_mm x') m' →
  ∃ k', dispatch r k = Ok (returned (u32 v), REG_RETURN (u32 v) r, k') ∧
    at_file k' V (errno_set loc (Fs.errno (k_fs x')) m') loc fd l' c' a'.
Proof.
  intros Ht Hloc Ex Hv Htab Ef Hmap Ho Hm HU.
  destruct (store_errno_user V (k_mm x') m' loc (Fs.errno (k_fs x')) HU Hmap) as (mm' & Es & HU').
  unfold syscall_dispatch. change (len (syscall_table rd junk_bytes fuel sp)) with 18.
  rewrite (proj2 (Z.ltb_ge _ _)) by lia. rewrite Htab. cbn [deref rbind].
  unfold set_syscall_regs at 1. rewrite (upd_ok _ _ _ _ Ht). cbn [rbind]. unfold plain, in_task.
  assert (Ex1 : enter (with_ts (put_obj (cur_task (k_ts k)) (with_regs regs t) (k_ts k)) k) = Ok x).
  { unfold enter in *. rewrite (obj_ok _ _ _ Ht) in Ex. cbn [rbind] in Ex. unfold obj. simpl.
    rewrite lookup_insert_eq. exact Ex. }
  rewrite Ex1. cbn [rbind]. rewrite Ef. cbn [rbind]. unfold leave, obj, upd. simpl.
  unfold obj. simpl. rewrite !lookup_insert_eq. cbn [deref rbind]. simpl. rewrite Hloc, Es. cbn [rbind]. simpl.
  unfold set_syscall_regs, upd, obj. simpl. rewrite lookup_insert_eq. cbn [deref rbind].
  eexists. split; [reflexivity|]. eexists _, _, L'. simpl. split; [apply lookup_insert_eq|]. split; [exact Hloc|].
  split; [unfold enter, obj; simpl; rewrite lookup_insert_eq; reflexivity|].
  split; [by apply (open_on_same (k_fs x'))|]. split; [exact Hm|exact HU'].
Qed.

Lemma enter_task k x : enter k = Ok x → Fs.errno (k_fs x) = NO_ERRNO ∧ k_mm x = sps (k_ts k).
Proof.
  unfold enter. destruct (obj _ _) as [c| | |]; cbn [rbind]; [|done..]. intros E. by injection E as <-.
Qed.

Lemma mapped_not_null m a n : mapped m a n → 0 < n → a =? 0 = false.
Proof.
  intros Hm Hn. destruct (mapped_at m a n a Hm) as [Hp _]; [lia|]. apply Z.eqb_neq. intros ->.
  destruct Hp as [Hp _]. change (64512 ≤ 0) in Hp. lia.
Qed.

(** The registers ask for a call with three arguments. *)
Definition asks (r : registers_t) (nr : syscall_nr) (a1 a2 a3 : Z) : Prop :=
  REG_VECTOR r = syscall_num nr ∧ s32 (REG_ARG1 r) = a1 ∧ REG_ARG2 r = a2 ∧ REG_ARG3 r = a3.

Lemma write_call r k V m loc fd l c buf (size : nat) :
  at_file k V m loc fd l c (length c) → mapped m loc 4 → mapped m buf size →
  asks r SYS_WRITE fd buf size →
  (length c < 256 * length l)%nat → aligned (length c) → (0 < size)%nat → len c + size < 2 ^ 31 →
  ∃ (n : nat) k' l' e, dispatch r k = Ok (returned n, REG_RETURN n r, k') ∧
    at_file k' V (errno_set loc e m) loc fd l' (c ++ vread m buf n) (length c + n) ∧ (1 ≤ n ≤ size)%nat ∧
    (e = errno_num ENOMEM ∨ e = NO_ERRNO ∧ n = size).
Proof.
  intros (t & x & L & Ht & Hloc & Ex & Ho & Hm & HU) Hmap Hbuf (Hv & H1 & H2 & H3) Hroom Hal H0 Hlt.
  destruct (enter_task k x Ex) as [Ee _].
  destruct (write_file (k_fs x) L fd l c size (vread m buf size) Ho Hm) as (n & s' & l' & L' & Ew & Hm' & Ho' & Hn & He);
    [done|done|by rewrite vread_len|done|].
  rewrite vread_take in Ho' by lia. rewrite Ee in He.
  destruct (dispatch_plain sys_write r k x n (with_fs s' x) t loc V m fd l' (c ++ vread m buf n) (length c + n) L')
    as (k' & E & Hk'); try done.
  - by rewrite Hv.
  - by rewrite Hv.
  - unfold sys_write. rewrite H1, H2, H3, (mapped_not_null m buf size) by (done || lia).
    rewrite Nat2Z.id, (load_span_user V _ m) by done. unfold on_fs. by rewrite Ew.
  - rewrite uint_small in E by (simpl; lia). by exists n, k', l', (Fs.errno s').
Qed.

Lemma seek_call r k V m loc fd l c a (b : nat) :
  at_file k V m loc fd l c a → mapped m loc 4 →
  asks r SYS_LSEEK fd b SEEK_SET →
  Z.of_nat b < 2 ^ 31 →
  ∃ k', dispatch r k = Ok (returned b, REG_RETURN b r, k') ∧ at_file k' V m loc fd l c b.
Proof.
  intros (t & x & L & Ht & Hloc & Ex & Ho & Hm & HU) Hmap (Hv & H1 & H2 & H3) Hb.
  destruct (enter_task k x Ex) as [Ee _].
  destruct (seek_file (k_fs x) fd l c a b Ho Hb) as (s' & Es & Ho' & He & Hm').
  destruct (dispatch_plain sys_lseek r k x b (with_fs s' x) t loc V m fd l c b L) as (k' & E & Hk'); try done.
  - by rewrite Hv.
  - by rewrite Hv.
  - unfold sys_lseek, on_fs. rewrite H1, H2, H3. rewrite sint_small by lia. change (s32 SEEK_SET) with SEEK_SET.
    by rewrite Es.
  - by apply Hm'.
  - rewrite uint_small in E by (simpl; lia). exists k'. split; [exact E|]. unfold errno_set in Hk'.
    cbn [k_fs with_fs] in Hk'. by rewrite He, Ee in Hk'.
Qed.

Lemma read_call r k V m loc fd l c a buf (size : nat) :
  at_file k V m loc fd l c a → mapped m loc 4 → mapped m buf size →
  asks r SYS_READ fd buf size →
  (a ≤ length c)%nat → aligned a → len c < 2 ^ 31 → (0 < size)%nat → Z.of_nat size < 2 ^ 31 →
  let n := (size `min` (length c - a))%nat in
  ∃ k', dispatch r k = Ok (returned n, REG_RETURN n r, k') ∧
    at_file k' V (vsets m buf (take n (drop a c))) loc fd l c (a + n).
Proof.
  intros (t & x & L & Ht & Hloc & Ex & Ho & Hm & HU) Hmap Hbuf (Hv & H1 & H2 & H3) Ha Hal Hc H0 H31 n.
  destruct (enter_task k x Ex) as [Ee _].
  destruct (read_file (k_fs x) fd l c a size (replicate size 0) Ho) as (s' & Er & Ho' & He & Hm');
    [done|done|done|by rewrite length_replicate|done|]. fold n in Er, Ho'.
  set (bs := take n (drop a c)) in *.
  assert (Hbs : length bs = n) by (unfold bs; rewrite length_take, length_drop; lia).
  destruct (store_bytes_user V (k_mm x) m buf bs HU) as (mm' & Est & HU' & _).
  { apply (mapped_sub m buf size); [done|lia|lia]. }
  destruct (dispatch_plain sys_read r k x n (with_mm mm' (with_fs s' x)) t loc V (vsets m buf bs) fd l c (a + n) L)
    as (k' & E & Hk'); try done.
  - by rewrite Hv.
  - by rewrite Hv.
  - unfold sys_read. rewrite H1, H2, H3, (mapped_not_null m buf size) by (done || lia).
    rewrite Nat2Z.id, Er. cbn [rbind default from_option]. unfold id. rewrite Nat2Z.id, take_app_le by lia.
    rewrite take_ge by lia. unfold store_k. change (k_mm (with_fs s' x)) with (k_mm x). by rewrite Est.
  - by apply mapped_vsets.
  - by apply Hm'.
  - rewrite uint_small in E by (simpl; lia). exists k'. split; [exact E|]. unfold errno_set in Hk'.
    cbn [k_fs with_fs with_mm] in Hk'. by rewrite He, Ee in Hk'.
Qed.
Lemma vread_vsets m a bs : mapped m a (len bs) → vread (vsets m a bs) a (length bs) = u8 <$> bs.
Proof.
  intros Hm. apply list_eq. intros i. rewrite list_lookup_fmap.
  destruct (decide (i < length bs)%nat) as [Hi|Hi].
  - pose proof (vread_get (vsets m a bs) a (length bs) i ltac:(lia)) as E. unfold aget in E.
    replace (Z.of_nat i <? 0) with false in E by lia. rewrite Nat2Z.id in E. rewrite E.
    rewrite vbyte_vsets, decide_True by (done || lia). replace (a + Z.of_nat i - a) with (Z.of_nat i) by lia.
    unfold aget. replace (Z.of_nat i <? 0) with false by lia. rewrite Nat2Z.id.
    by destruct (lookup_lt_is_Some_2 bs i Hi) as [x ->].
  - rewrite !lookup_ge_None_2; [done|lia|rewrite vread_len; lia].
Qed.

Lemma errno_set_mapped loc e m a n : mapped m a n → mapped (errno_set loc e m) a n.
Proof. unfold errno_set. destruct (_ =? _); [done|]. apply mapped_vsets. Qed.

Lemma errno_set_other loc e m b : mapped m loc 4 → ¬ loc ≤ b < loc + 4 →
  vbyte (errno_set loc e m) b = vbyte m b.
Proof.
  intros Hm Hb. unfold errno_set. destruct (_ =? _); [done|]. by rewrite vbyte_vsets, decide_False.
Qed.

(** A number above 18 is no call: [eax] is -1, the word at [errno] is [ENOSYS], and
    nothing else has changed. *)
Theorem unknown_call r k t V m
    (Ht : objs (k_ts k) !! cur_task (k_ts k) = Some t) (HU : user V (sps (k_ts k)) m)
    (Hloc : mapped m (errno_loc t) 4) (Hv : 18 < REG_VECTOR r) :
  ∃ mm', dispatch r k = Ok (returned (u32 (-1)), REG_RETURN (u32 (-1)) r, with_ts (set_sps mm' (k_ts k)) k) ∧
    user V mm' (vsets m (errno_loc t) (word_bytes ENOSYS)).
Proof.
  destruct (store_errno_user V _ m (errno_loc t) ENOSYS HU Hloc) as (mm' & Es & HU').
  exists mm'. split; [|exact HU']. unfold syscall_dispatch.
  change (len (syscall_table rd junk_bytes fuel sp)) with 18. rewrite (proj2 (Z.ltb_lt _ _)) by lia.
  unfold put_errno. rewrite (obj_ok _ _ _ Ht). cbn [rbind]. by rewrite Es.
Qed.

(** C6: A program that has a file open at its end and writes [size] bytes of its memory,
    goes back to where it began, and reads as much to another place: every call returns
    (in [eax], with the other registers as they were) the number [n] of bytes, or the
    position; the first [n] bytes at the second place are those of the first, the file has
    them behind its old content, and nothing else of the memory of the program and
    nothing of that of the others has changed.  [n] is [size] unless the heap of the kernel is
    used up: then [errno] of the program is [ENOMEM], and only [n] bytes, at least one, were
    written and come back.  The length [c] of the file must be one at which the ram disk
    finds the right block, [c / 255 = c / 256] ([aligned]); at the others it puts bytes in
    the wrong place, [Ramfs.append_at_255]. *)
Theorem write_read_back rw rl rr k V m loc fd l c buf buf2 (size : nat)
    (Hk : at_file k V m loc fd l c (length c)) (Hloc : mapped m loc 4)
    (Hbuf : mapped m buf size) (Hbuf2 : mapped m buf2 size)
    (Hrw : asks rw SYS_WRITE fd buf size) (Hrl : asks rl SYS_LSEEK fd (len c) SEEK_SET)
    (Hrr : asks rr SYS_READ fd buf2 size)
    (Hroom : (length c < 256 * length l)%nat) (Hal : aligned (length c)) (H0 : (0 < size)%nat)
    (Hlt : len c + size < 2 ^ 31) :
  ∃ (n : nat) k1 k2 k3 l' e m',
    dispatch rw k = Ok (returned n, REG_RETURN n rw, k1) ∧
    dispatch rl k1 = Ok (returned (len c), REG_RETURN (len c) rl, k2) ∧
    dispatch rr k2 = Ok (returned n, REG_RETURN n rr, k3) ∧
    at_file k3 V m' loc fd l' (c ++ vread m buf n) (length c + n) ∧
    vread m' buf2 n = u8 <$> vread m buf n ∧
    m' = vsets (errno_set loc e m) buf2 (vread m buf n) ∧
    (∀ b, ¬ buf2 ≤ b < buf2 + n → ¬ loc ≤ b < loc + 4 → vbyte m' b = vbyte m b) ∧
    (1 ≤ n ≤ size)%nat ∧ (e = errno_num ENOMEM ∨ e = NO_ERRNO ∧ n = size).
Proof.
  destruct (write_call rw k V m loc fd l c buf size Hk Hloc Hbuf Hrw Hroom Hal H0 Hlt)
    as (n & k1 & l' & e & E1 & Hk1 & Hn & He).
  set (m1 := errno_set loc e m) in *. set (bs := vread m buf n) in *.
  assert (Hbs : length bs = n) by apply vread_len.
  assert (Hlen : length (c ++ bs) = (length c + n)%nat) by (rewrite length_app; lia).
  destruct (seek_call rl k1 V m1 loc fd l' (c ++ bs) (length c + n) (length c) Hk1) as (k2 & E2 & Hk2);
    [by apply errno_set_mapped|done|lia|].
  destruct (read_call rr k2 V m1 loc fd l' (c ++ bs) (length c) buf2 size Hk2) as (k3 & E3 & Hk3);
    [by apply errno_set_mapped..|done|lia|done|lia|done|lia|].
  rewrite Hlen in E3, Hk3. replace (size `min` (length c + n - length c))%nat with n in * by lia.
  rewrite drop_app_length, take_ge in Hk3 by lia.
  assert (Hm2 : mapped m1 buf2 (len bs)).
  { apply (mapped_sub m1 buf2 size); [by apply errno_set_mapped|lia|lia]. }
  exists n, k1, k2, k3, l', e, (vsets m1 buf2 bs). split; [done|]. split; [done|]. split; [done|]. split; [done|].
  split; [rewrite <- Hbs at 1; by apply vread_vsets|]. split; [done|]. split; [|done].
  intros b Hb Hb2. rewrite vbyte_vsets, decide_False by (done || lia). by apply errno_set_other.
Qed.
End calls.

(** ** A task of the demonstration system

    Its private memory is one page; [errno] is its first word, and descriptor 3 is open at
    the end of a file of three bytes. *)
Definition prog_page : Z := KPAGES * PAGE_SIZE.

Definition demo_program : task_t :=
  Task [] 0 no_label demo_dir_at 0 1 0 TASK_STATE_READY 0 0 0 UMEM_BEGIN UMEM_BEGIN
    (<[3%nat := Fildes 0x400010 3 O_RDWR]> (replicate 32 (Fildes 0 0 0))) prog_page.

Definition demo_kernel (c : list Z) : @kernel demo_malloc pre_paging boot_alloc :=
  @Kernel demo_malloc pre_paging boot_alloc
    (@Ts demo_malloc (@paging_spaces pre_paging boot_alloc) 0x5000
       (0 :: 0x5000 :: replicate 254 0) 0 {[0x5000 := demo_program]} [] Demo.demo_heap (demo_spaces c))
    (demo_fs (demo_node DEVID_RAMFS S_IFREG (Some RAMFS) 3) [1; 2; 3] (Hdr 0 0 0 0 0) 3 O_RDWR) 0.

Definition demo_text : list Z := replicate 16 0 ++ [104; 101; 108; 108; 111] ++ replicate 4075 0.

Lemma demo_text_len : len demo_text = PAGE_SIZE.
Proof. by vm_compute. Qed.

Lemma demo_mapped a n : prog_page ≤ a → a + n ≤ prog_page + PAGE_SIZE → mapped (demo_mem demo_text) a n.
Proof.
  intros Ha Hn k Hk. unfold prog_page, PAGE_SIZE in *. change KPAGES with 64512 in *.
  assert (Ep : (a + k) / 4096 = 64512) by (Z.div_mod_to_equations; lia).
  unfold PAGE_SIZE. rewrite Ep. split; [by vm_compute|].
  apply vbyte_whole.
  - intros i x Hi. unfold demo_mem in Hi. apply (lookup_singleton_Some (M := gmap Z)) in Hi as [_ <-].
    apply demo_text_len.
  - unfold PAGE_SIZE. rewrite Ep. unfold demo_mem. change KPAGES with 64512. rewrite lookup_singleton_eq. by eexists.
Qed.

Lemma demo_at_file : @at_file demo_malloc pre_paging boot_alloc (demo_kernel demo_text) ∅
  (demo_mem demo_text) prog_page 3 [(0x4000b0, [1; 2; 3] ++ replicate 253 0)] [1; 2; 3] 3.
Proof.
  exists demo_program. eexists. exists demo_allocated. split; [apply lookup_singleton_eq|]. split; [done|].
  split; [reflexivity|]. cbn [k_fs k_mm um k_uvm]. split; [|split].
  - exists (Fildes 0x400010 3 O_RDWR), (demo_node DEVID_RAMFS S_IFREG (Some RAMFS) 3), 0x4000b0.
    split; [done|]. split; [done|]. split; [done|]. split; [done|]. split; [apply lookup_singleton_eq|].
    split; [by repeat split|]. split; [done|]. split; [|done].
    apply (demo_file_on (demo_node DEVID_RAMFS S_IFREG (Some RAMFS) 3) [1; 2; 3] (Hdr 0 0 0 0 0) 3 O_RDWR).
    simpl. lia.
  - exact (demo_mem_ok (demo_node DEVID_RAMFS S_IFREG (Some RAMFS) 3) [1; 2; 3] (Hdr 0 0 0 0 0) 3 O_RDWR).
  - unfold user. rewrite insert_empty. apply demo_rep.
Qed.

(** The registers of a call. *)
Definition ask (nr a1 a2 a3 : Z) : registers_t := Regs a2 a3 0 0 a1 0 0 nr.

Definition demo_dispatch : registers_t → @kernel demo_malloc pre_paging boot_alloc → _ :=
  syscall_dispatch (λ _ _, 0) (λ n, replicate (Z.to_nat n) 0xAA) 99 0xCFFFFF00 0xCFFFFFD0.

(** "hello", to the file and back. *)
Lemma write_read_back_witness :
  let rw := ask 5 3 (prog_page + 16) 5 in
  let rl := ask 9 3 3 SEEK_SET in
  let rr := ask 4 3 (prog_page + 64) 5 in
  ∃ (n : nat) k1 k2 k3 l' e m',
    demo_dispatch rw (demo_kernel demo_text) = Ok (returned n, REG_RETURN n rw, k1) ∧
    demo_dispatch rl k1 = Ok (returned 3, REG_RETURN 3 rl, k2) ∧
    demo_dispatch rr k2 = Ok (returned n, REG_RETURN n rr, k3) ∧
    at_file k3 ∅ m' prog_page 3 l' ([1; 2; 3] ++ vread (demo_mem demo_text) (prog_page + 16) n) (3 + n) ∧
    vread m' (prog_page + 64) n = u8 <$> vread (demo_mem demo_text) (prog_page + 16) n ∧
    (1 ≤ n ≤ 5)%nat ∧ (e = errno_num ENOMEM ∨ e = NO_ERRNO ∧ n = 5%nat).
Proof.
  intros rw rl rr.
  pose proof (demo_mapped prog_page 4 ltac:(lia) ltac:(unfold PAGE_SIZE; lia)) as H4.
  pose proof (demo_mapped (prog_page + 16) 5 ltac:(lia) ltac:(unfold PAGE_SIZE; lia)) as H16.
  pose proof (demo_mapped (prog_page + 64) 5 ltac:(lia) ltac:(unfold PAGE_SIZE; lia)) as H64.
  destruct (write_read_back (λ _ _, 0) (λ n, replicate (Z.to_nat n) 0xAA) 99 0xCFFFFF00 0xCFFFFFD0
    rw rl rr (demo_kernel demo_text) ∅ (demo_mem demo_text) prog_page 3 _ [1; 2; 3] (prog_page + 16) (prog_page + 64) 5
    demo_at_file H4 H16 H64) as (n & k1 & k2 & k3 & l' & e & m' & E1 & E2 & E3 & Hk & Hr & _ & _ & Hn & He).
  - split; [done|]. split; [done|]. by split.
  - split; [done|]. split; [done|]. by split.
  - split; [done|]. split; [done|]. by split.
  - simpl. lia.
  - reflexivity.
  - lia.
  - simpl. lia.
  - exists n, k1, k2, k3, l', e, m'. split; [exact E1|]. split; [exact E2|]. split; [exact E3|]. split; [exact Hk|].
    split; [exact Hr|]. split; [exact Hn|exact He].
Defined.

Lemma unknown_call_witness :
  let r := ask 99 0 0 0 in
  ∃ mm', demo_dispatch r (demo_kernel demo_text)
      = Ok (returned (u32 (-1)), REG_RETURN (u32 (-1)) r,
            with_ts (set_sps mm' (k_ts (demo_kernel demo_text))) (demo_kernel demo_text)) ∧
    @user pre_paging boot_alloc ∅ mm' (vsets (demo_mem demo_text) prog_page (word_bytes ENOSYS)).
Proof.
  intros r. destruct (unknown_call (λ _ _, 0) (λ n, replicate (Z.to_nat n) 0xAA) 99 0xCFFFFF00 0xCFFFFFD0
    r (demo_kernel demo_text) demo_program ∅ (demo_mem demo_text)) as (mm' & E & HU).
  - apply lookup_singleton_eq.
  - unfold user. rewrite insert_empty. apply demo_rep.
  - apply demo_mapped; change (errno_loc demo_program) with prog_page; unfold PAGE_SIZE; lia.
  - reflexivity.
  - exists mm'. split; [exact E|exact HU].
Defined.

(** The same, computed: the five characters are at the second place. *)
Example hello_back :
  (let* (_, _, k) := demo_dispatch (ask 5 3 (prog_page + 16) 5) (demo_kernel demo_text) in
   let* (_, _, k) := demo_dispatch (ask 9 3 3 SEEK_SET) k in
   let* (_, r, k) := demo_dispatch (ask 4 3 (prog_page + 64) 5) k in
   Ok (eax r, load_span 5 (prog_page + 64) (sps (k_ts k)))) = Ok (5, [104; 101; 108; 108; 111]).
Proof. vm_compute. reflexivity. Qed.

(** Call 18 is the word behind the table. *)
Example call_behind_table :
  (let* (_, r, _) := demo_dispatch (ask 18 0 0 0) (demo_kernel demo_text) in Ok (eax r)) = Fault.
Proof. vm_compute. reflexivity. Qed.

(** A program that has not told the kernel where its [errno] is: the number goes to
    address 0, which is no page of this memory, and the page fault is the end of the
    kernel. *)
Example errno_at_null :
  (let k := demo_kernel demo_text in
   let k := with_ts (put_obj 0x5000 (with_errno_loc 0 demo_program) (k_ts k)) k in
   let* (_, r, k) := demo_dispatch (ask 19 0 0 0) k in Ok (eax r)) = Panic.
Proof. vm_compute. reflexivity. Qed.
