(* ===== verification/Rstring.v ===== *)
(** * Rstring: the string functions of the C library

    [rlibc/string].  Most files have the text of [kernel/lib/string.c] again, with [int] for
    the character that is looked for and [unsigned int] for a counter; their definitions
    are those of [CString].  [strchr] takes the terminator for a character of the
    string here, and [strstr] is built on it. *)

From S2P Require Import Prelude CString.

(** ** The same text *)
Definition memset := CString.memset.
Definition memcpy := CString.memcpy.
Definition memmove := CString.memmove.
Definition memcmp := CString.memcmp.
Definition memchr := CString.memchr.
Definition strcpy := CString.strcpy.
Definition strncpy := CString.strncpy.
Definition strcat := CString.strcat.
Definition strncat := CString.strncat.
Definition strlen := CString.strlen.
Definition strcmp := CString.strcmp.
Definition strncmp := CString.strncmp.
Definition strrchr := CString.strrchr.
Definition strpbrk := CString.strpbrk.
Definition strcspn := CString.strcspn.
Definition strspn := CString.strspn.
Definition strtok := CString.strtok.

(** ** strchr.c, strstr.c *)
Fixpoint strchr (fuel : nat) (str value : Z) (m : mem) : res Z :=
  match fuel with
  | O => Fuel
  | S fuel =>
      let* c := ldc m str in
      if negb (c =? 0) then if c =? value then Ok str else strchr fuel (str + 1) value m
      else if value =? 0 then Ok str else Ok 0
  end.

Fixpoint strstr_loop (fuel fuel2 : nat) (str1 str2 : Z) (m : mem) : res Z :=
  match fuel with
  | O => Fuel
  | S fuel =>
      let* c := ldc m str1 in
      if c =? 0 then Ok 0
      else
        let* d := ldc m str2 in
        let* str1 := strchr fuel2 str1 d m in
        if str1 =? 0 then Ok 0
        else
          let* len := strlen fuel2 str2 m in
          let* i := strstr_match (Z.to_nat len) 1 str1 str2 m in
          if i =? len then Ok str1 else strstr_loop fuel fuel2 (str1 + 1) str2 m
  end.

Definition strstr (fuel : nat) (str1 str2 : Z) (m : mem) : res Z := strstr_loop fuel fuel str1 str2 m.

(** ** strchr *)

(** The position of the first such character; that of the terminator for 0. *)
Definition char_index (cs : list Z) (v : Z) : option nat :=
  if v =? 0 then Some (length cs) else first_index (λ c, s8 c =? v) cs.

Lemma strchr_ok fuel a cs v m : cstr m a cs → (length cs < fuel)%nat →
  strchr fuel a v m = Ok (ptr_of a (char_index cs v)).
Proof.
  revert fuel a. induction cs as [|c cs IH]; intros [|fuel] a H Hf;
    simpl in Hf; try lia; apply cstr_ldc in H; cbn [strchr].
  - rewrite H. cbn [rbind negb Z.eqb]. unfold char_index. destruct (v =? 0); simpl; [|done].
    by rewrite Z.add_0_r.
  - destruct H as (-> & E0 & _ & H). cbn [rbind]. rewrite E0. cbn [negb]. rewrite IH by (done || lia).
    unfold char_index in *. destruct (Z.eqb_spec v 0) as [->|Hv].
    + rewrite E0. f_equal. simpl. lia.
    + simpl. destruct (s8 c =? v); [f_equal; simpl; lia|by rewrite ptr_of_next].
Qed.

(** ** strstr *)

(** [t] is at the start of [s], and [s] goes on behind it. *)
Fixpoint inside (t s : list Z) : bool :=
  match t, s with
  | _, [] => false
  | [], _ :: _ => true
  | d :: t, c :: s => (d =? c) && inside t s
  end.

Lemma inside_spec t s : inside t s = true ↔ ∃ c r, s = t ++ c :: r.
Proof.
  revert s. induction t as [|d t IH]; intros [|c s]; cbn [inside].
  - split; [done|]. by intros (c & r & ?).
  - split; [|done]. intros _. by exists c, s.
  - split; [done|]. by intros (x & r & ?).
  - rewrite andb_true_iff, IH, Z.eqb_eq. split.
    + intros [-> (x & r & ->)]. by exists x, r.
    + intros (x & r & E). injection E as -> ->. split; [done|]. by exists x, r.
Qed.

Fixpoint inside_index (t s : list Z) : option nat :=
  match s with
  | [] => None
  | _ :: s' => if inside t s then Some 0%nat else S <$> inside_index t s'
  end.

Lemma s8_eq c d : 0 ≤ c < 256 → 0 ≤ d < 256 → (s8 c =? s8 d) = (d =? c).
Proof.
  intros Hc Hd. destruct (Z.eqb_spec d c) as [->|Hne]; [apply Z.eqb_refl|].
  apply Z.eqb_neq. unfold sint. change (2 ^ 8) with 256. change (2 ^ (8 - 1)) with 128.
  rewrite !Z.mod_small by lia. destruct (Z.ltb_spec c 128), (Z.ltb_spec d 128); lia.
Qed.

(** The comparison behind the first character: it ends at [len] exactly when the rest is
    there and goes on. *)
Lemma match_tail n i a b (s t : list Z) m : cstr m (a + i) s → cstr m (b + i) t →
  n = S (length t) → ∃ j, strstr_match n i a b m = Ok j ∧ (j =? i + len t) = inside t s.
Proof.
  revert n i s. induction t as [|d t IH]; intros n i s Hs Ht ->; cbn [strstr_match];
    apply cstr_ldc in Hs, Ht.
  - rewrite Ht. destruct s as [|c s].
    + rewrite Hs. cbn [rbind negb Z.eqb strstr_match]. exists (i + 1). split; [done|].
      apply Z.eqb_neq. cbn [length]. lia.
    + destruct Hs as (-> & E0 & _). cbn [rbind]. rewrite E0. cbn [negb]. exists i. split; [done|].
      apply Z.eqb_eq. cbn [length]. lia.
  - destruct Ht as (-> & E0 & Hd & Ht). destruct s as [|c s].
    + rewrite Hs. cbn [rbind]. rewrite Z.eqb_sym, E0. cbn [negb]. exists i. split; [done|].
      cbn [inside length]. apply Z.eqb_neq. lia.
    + destruct Hs as (-> & _ & Hc & Hs). cbn [rbind inside]. rewrite (s8_eq c d) by lia.
      destruct (Z.eqb_spec d c) as [->|Hne]; cbn [negb andb].
      * replace (a + i + 1) with (a + (i + 1)) in Hs by lia. replace (b + i + 1) with (b + (i + 1)) in Ht by lia.
        destruct (IH _ (i + 1) s Hs Ht eq_refl) as (j & Ej & Hj). exists j. split; [exact Ej|].
        rewrite <- Hj. f_equal. cbn [length]. lia.
      * exists i. split; [done|]. apply Z.eqb_neq. cbn [length]. lia.
Qed.

(** A string that does not begin with the character is passed over. *)
Lemma inside_index_skip d t s : Forall (λ c, 0 < c < 256) (d :: t) → Forall (λ c, 0 < c < 256) s →
  inside_index (d :: t) s =
    match first_index (λ c, s8 c =? s8 d) s with
    | None => None
    | Some j => (λ k, j + k)%nat <$> inside_index (d :: t) (drop j s)
    end.
Proof.
  intros Ht Hs. assert (Hd : 0 < d < 256) by (by inversion Ht).
  induction s as [|c s IH]; [done|]. inversion Hs as [|? ? Hc Hs']; subst.
  cbn [inside_index first_index]. rewrite (s8_eq c d) by lia.
  destruct (Z.eqb_spec d c) as [->|Hne].
  - cbn [drop]. symmetry. cbn [inside_index]. by destruct (inside _ _), (inside_index _ _).
  - cbn [inside]. rewrite (proj2 (Z.eqb_neq d c)) by done. cbn [andb]. rewrite IH by done.
    destruct (first_index _ s) as [j|]; [|done]. simpl. by destruct (inside_index _ (drop j s)).
Qed.

Lemma cstr_drop m a s j : cstr m a s → (j ≤ length s)%nat → cstr m (a + Z.of_nat j) (drop j s).
Proof.
  revert a s. induction j as [|j IH]; intros a s H Hj; [by rewrite drop_0, Z.add_0_r|].
  destruct s as [|c s]; [simpl in Hj; lia|]. destruct H as (_ & _ & H). cbn [drop].
  replace (a + Z.of_nat (S j)) with (a + 1 + Z.of_nat j) by lia. apply IH; [done|simpl in Hj; lia].
Qed.

Lemma first_index_Some f s j : first_index f s = Some j → ∃ c r, drop j s = c :: r ∧ f c = true ∧ (j < length s)%nat.
Proof.
  revert j. induction s as [|c s IH]; intros j; cbn [first_index]; [done|].
  destruct (f c) eqn:E.
  - intros H. injection H as <-. exists c, s. simpl. split; [done|]. split; [done|lia].
  - destruct (first_index f s) as [k|]; [|done]. intros H. injection H as <-.
    destruct (IH k eq_refl) as (x & r & Hd & Hf & Hk). exists x, r. simpl. split; [done|]. split; [done|lia].
Qed.

Lemma strstr_loop_ok fuel fuel2 a b s d t m :
  cstr m a s → cstr m b (d :: t) → 0 < a → (length s < fuel)%nat → (length s < fuel2)%nat →
  (length (d :: t) < fuel2)%nat →
  strstr_loop fuel fuel2 a b m = Ok (ptr_of a (inside_index (d :: t) s)).
Proof.
  intros Ha Hb Hpos Hf Hf2 Hf3. revert a s Ha Hpos Hf Hf2. induction fuel as [|fuel IH]; intros a s Ha Hpos Hf Hf2; [lia|].
  cbn [strstr_loop]. pose proof (proj1 (cstr_bytes _ _ _) Ha) as [_ HFs]. pose proof (proj1 (cstr_bytes _ _ _) Hb) as [_ HFt].
  pose proof (cstr_ldc _ _ _ Hb) as (Eb & Eb0 & Hd & Hbt).
  destruct s as [|c0 s0]; [by rewrite (cstr_ldc _ _ _ Ha)|].
  pose proof (cstr_ldc _ _ _ Ha) as (-> & E0 & _ & _). cbn [rbind]. rewrite E0, Eb. cbn [rbind].
  rewrite (strchr_ok fuel2 a (c0 :: s0)) by done. cbn [rbind]. unfold char_index. rewrite Eb0.
  rewrite (inside_index_skip d t (c0 :: s0)) by done. set (s := c0 :: s0) in *.
  destruct (first_index (λ c, s8 c =? s8 d) s) as [j|] eqn:Ej; [|done].
  destruct (first_index_Some _ _ _ Ej) as (c & r & Hdr & Hc & Hj). cbn [ptr_of].
  rewrite (proj2 (Z.eqb_neq _ _)) by lia.
  rewrite (strlen_spec fuel2 b (d :: t)) by done. cbn [rbind].
  pose proof (cstr_drop m a s j Ha ltac:(lia)) as Hs. rewrite Hdr in Hs |- *.
  assert (c = d) as ->.
  { pose proof (Forall_drop _ j _ HFs) as HF. rewrite Hdr in HF. inversion HF; subst.
    rewrite (s8_eq c d) in Hc by lia. by apply Z.eqb_eq in Hc. }
  destruct Hs as (_ & _ & Hs).
  destruct (match_tail (Z.to_nat (len (d :: t))) 1 (a + Z.of_nat j) b r t m Hs Hbt) as (i & -> & Hi).
  { rewrite Nat2Z.id. done. }
  cbn [rbind]. replace (1 + len t) with (len (d :: t)) in Hi by (simpl; lia). rewrite Hi. cbn [inside_index inside].
  rewrite Z.eqb_refl. cbn [andb]. destruct (inside t r); [cbn; f_equal; lia|].
  assert (Hlr : length s = (j + S (length r))%nat).
  { pose proof (length_drop s j) as Hl. rewrite Hdr in Hl. cbn [length] in Hl. lia. }
  rewrite (IH (a + Z.of_nat j + 1) r) by (done || lia).
  f_equal. destruct (inside_index (d :: t) r); [cbn; lia|done].
Qed.

(** [strstr] for a string that is not empty finds its first occurrence that is not at the
    very end of the other string: the position [k] returned is the first one with
    the string and one more character from there on, and it is [NULL] when there is
    none. *)
Theorem strstr_finds fuel a b s t m
    (Ha : cstr m a s) (Hb : cstr m b t) (Ht : t ≠ []) (Hpos : 0 < a)
    (Hf : (length s < fuel ∧ length t < fuel)%nat) :
  (∃ k : nat, strstr fuel a b m = Ok (a + Z.of_nat k) ∧ (∃ pre c post, s = pre ++ t ++ c :: post ∧ length pre = k) ∧
     ∀ pre c post, s = pre ++ t ++ c :: post → (k ≤ length pre)%nat) ∨
  strstr fuel a b m = Ok 0 ∧ ∀ pre c post, s ≠ pre ++ t ++ c :: post.
Proof.
  destruct t as [|d t]; [done|]. destruct Hf as [Hf1 Hf2]. unfold strstr.
  rewrite (strstr_loop_ok fuel fuel a b s d t m) by done. clear Ha Hb Hf1 Hf2.
  set (u := d :: t). assert (Hmain : match inside_index u s with
    | Some k => (∃ pre c post, s = pre ++ u ++ c :: post ∧ length pre = k) ∧
        ∀ pre c post, s = pre ++ u ++ c :: post → (k ≤ length pre)%nat
    | None => ∀ pre c post, s ≠ pre ++ u ++ c :: post
    end).
  { clearbody u. clear. induction s as [|x s IH]; cbn [inside_index].
    { intros pre c post E. destruct pre, u; done. }
    destruct (inside u (x :: s)) eqn:E.
    - apply inside_spec in E as (c & r & E). split; [|intros; lia]. by exists [], c, r.
    - assert (Hno : ∀ c post, x :: s ≠ u ++ c :: post).
      { intros c post Ex. assert (inside u (x :: s) = true) by (apply inside_spec; by exists c, post). congruence. }
      destruct (inside_index u s) as [k|]; cbn [fmap option_fmap option_map].
      + destruct IH as [(pre & c & post & -> & <-) Hmin]. split; [by exists (x :: pre), c, post|].
        intros [|y pre'] c' post' E'; [by apply Hno in E'|]. injection E' as -> E'. simpl.
        pose proof (Hmin pre' c' post' E'). lia.
      + intros [|y pre'] c' post' E'; [by apply Hno in E'|]. injection E' as -> E'. by apply IH in E'. }
  destruct (inside_index u s) as [k|]; [left; by exists k|by right].
Qed.

(** "banana" and "an". *)
Definition two_words : mem :=
  list_to_map (zip (seqZ 100 10) [98; 97; 110; 97; 110; 97; 0; 97; 110; 0]).

Lemma strstr_finds_witness :
  (∃ k : nat, strstr 9 100 107 two_words = Ok (100 + Z.of_nat k) ∧
     (∃ pre c post, [98; 97; 110; 97; 110; 97] = pre ++ [97; 110] ++ c :: post ∧ length pre = k) ∧
     ∀ pre c post, [98; 97; 110; 97; 110; 97] = pre ++ [97; 110] ++ c :: post → (k ≤ length pre)%nat) ∨
  strstr 9 100 107 two_words = Ok 0 ∧ ∀ pre c post, [98; 97; 110; 97; 110; 97] ≠ pre ++ [97; 110] ++ c :: post.
Proof.
  apply (strstr_finds 9 100 107 [98; 97; 110; 97; 110; 97] [97; 110] two_words).
  - cbn. repeat split; done.
  - cbn. repeat split; done.
  - done.
  - lia.
  - simpl. lia.
Defined.

(** An occurrence at the end of the string is not found: "an" in "an". *)
Example strstr_misses_end :
  strstr 9 102 107 (list_to_map (zip (seqZ 102 3) [97; 110; 0]) ∪ two_words) = Ok 0.
Proof. reflexivity. Qed.

(** For an empty string the end of the other one is passed. *)
Example strstr_empty : strstr 9 100 109 two_words = Fault.
Proof. reflexivity. Qed.
