(* ===== verification/Rash.v ===== *)
(** * Rash: the shell

    [rlibc/rash.c], and the line editor of [rlibc/term.c] which has the same text.  A buffer is
    the list of the characters that were stored in it, with the size of its
    block: a store behind the block is a fault.  Whether [malloc] and [realloc] have
    memory is a parameter. *)

From S2P Require Import Prelude Headers CString Vga Rstring.

Definition IN : Z := 7.
Definition OUT : Z := 8.
Definition PIPE : Z := 12.
Definition EOF : Z := -1.
Definition EXIT_FAILURE : Z := 1.

(** The characters of a buffer up to the first zero: what [strcpy] copies. *)
Fixpoint c_str (cs : list Z) : list Z :=
  match cs with
  | [] => []
  | c :: cs => if c =? 0 then [] else c :: c_str cs
  end.

(** [exit(status)] in a function that returns an [A]. *)
Inductive run (A : Type) := Ret (a : A) | Exit (status : Z).
Arguments Ret {A} a.
Arguments Exit {A} status.

Section rash.
(** Does the [k]-th call of [malloc] or [realloc] get memory? *)
Context (mem_left : nat → bool).

(** ** rash_read_line

    [input]: what [getchar] returns, call by call; the last component is what goes to the screen,
    without the terminators that [printf] writes too and the console does not show. *)
Fixpoint read_loop (k : nat) (bufsize : Z) (buffer : list Z) (input : list Z)
    : res (run (list Z * list Z) * nat * list Z) :=
  match input with
  | [] => Fuel
  | c :: input =>
      let grow buffer echo :=
        if bufsize <=? len buffer then
          if mem_left k then
            let* (r, k, out) := read_loop (S k) (bufsize * 2) buffer input in Ok (r, k, echo ++ out)
          else Ok (Exit EXIT_FAILURE, S k, echo)
        else let* (r, k, out) := read_loop k bufsize buffer input in Ok (r, k, echo ++ out) in
      if (c =? 127) || (c =? 8) then
        if 0 <? len buffer then grow (removelast buffer) [8; ch " "; 8] else grow buffer []
      else if (c =? EOF) || (c =? 10) then
        if len buffer <? bufsize then Ok (Ret (c_str (buffer ++ [0]), input), k, [10]) else Fault
      else
        if len buffer <? bufsize then grow (buffer ++ [c]) [c] else Fault
  end.

(** The line, what is left of the input, the number of allocations, the echo. *)
Definition rash_read_line (k : nat) (input : list Z) : res (run (list Z * list Z) * nat * list Z) :=
  if mem_left k then read_loop (S k) 80 [] input else Ok (Exit EXIT_FAILURE, S k, []).

(** ** rash_split_line *)
Inductive lex_state := DEFAULT | QUOTED | ESCAPED.

#[export] Instance lex_state_eq_dec : EqDecision lex_state.
Proof. solve_decision. Defined.

(** [None]: the pointer is [NULL].  [s_token] are the first [token_len] characters. *)
Record splitter := Splitter {
  s_calls : nat;
  s_argbuf : Z;
  s_tokens : option (list (list Z));
  s_tokbuf : Z;
  s_token : option (list Z);
  s_state : lex_state
}.

Definition to_state (t : lex_state) (s : splitter) : splitter :=
  Splitter (s_calls s) (s_argbuf s) (s_tokens s) (s_tokbuf s) (s_token s) t.

(** [token[token_len++] = c] *)
Definition put_char (c : Z) (s : splitter) : res splitter :=
  let* t := deref (s_token s) in
  if len t <? s_tokbuf s
  then Ok (Splitter (s_calls s) (s_argbuf s) (s_tokens s) (s_tokbuf s) (Some (t ++ [c])) (s_state s))
  else Fault.

(** [tokens[token_pos] = malloc(..)], and [cs] is stored there. *)
Definition put_token (cs : list Z) (s : splitter) : res splitter :=
  let* ts := deref (s_tokens s) in
  if (len ts <? s_argbuf s) && mem_left (s_calls s)
  then Ok (Splitter (S (s_calls s)) (s_argbuf s) (Some (ts ++ [cs])) (s_tokbuf s) (s_token s) (s_state s))
  else Fault.

(** The token is stored, and a new one is begun. *)
Definition flush (s : splitter) : res splitter :=
  let t := default [] (s_token s) in
  if 0 <? len t then
    if len t <? s_tokbuf s then
      let* s := put_token (c_str (t ++ [0])) s in
      Ok (Splitter (S (s_calls s)) (s_argbuf s) (s_tokens s) (s_tokbuf s)
            (if mem_left (s_calls s) then Some [] else None) (s_state s))
    else Fault
  else Ok s.

(** [strchr(" \n\t|<>", c)] *)
Definition separators : list Z := codes " " ++ [10; 9] ++ codes "|<>".
Definition is_sep (c : Z) : bool := bool_decide (is_Some (char_index separators (s8 c))).
Definition is_op (c : Z) : bool := (c =? ch "|") || (c =? ch "<") || (c =? ch ">").
Definition op_token (c : Z) : Z := if c =? ch "|" then PIPE else if c =? ch "<" then IN else OUT.

Definition split_switch (c : Z) (s : splitter) : res splitter :=
  match s_state s with
  | DEFAULT =>
      if is_sep c then
        let* s := flush s in
        if is_op c then put_token [op_token c] s else Ok s
      else if c =? ch "'" then Ok (to_state QUOTED s)
      else if c =? ch "\" then Ok (to_state ESCAPED s)
      else put_char c s
  | QUOTED => if c =? ch "'" then Ok (to_state DEFAULT s) else put_char c s
  | ESCAPED => let* s := put_char c s in Ok (to_state DEFAULT s)
  end.

(** The buffers are doubled when they are full; [None]: no memory. *)
Definition grow_tokens (s : splitter) : option splitter :=
  if s_argbuf s <=? len (default [] (s_tokens s)) then
    if mem_left (s_calls s)
    then Some (Splitter (S (s_calls s)) (s_argbuf s * 2) (s_tokens s) (s_tokbuf s) (s_token s) (s_state s))
    else None
  else Some s.

Definition grow_token (s : splitter) : option splitter :=
  if s_tokbuf s <=? len (default [] (s_token s)) then
    if mem_left (s_calls s)
    then Some (Splitter (S (s_calls s)) (s_argbuf s) (s_tokens s) (s_tokbuf s * 2) (s_token s) (s_state s))
    else None
  else Some s.

(** The characters of the line with its terminator. *)
Fixpoint split_loop (l : list Z) (s : splitter) : res (run splitter) :=
  match l with
  | [] => Ok (Ret s)
  | c :: l =>
      let* s := split_switch c s in
      match grow_tokens s ≫= grow_token with
      | Some s => split_loop l s
      | None => Ok (Exit EXIT_FAILURE)
      end
  end.

(** The array of tokens with its size, in words, and the number of allocations. *)
Definition rash_split_line (k : nat) (line : list Z) : res (run (list (list Z) * Z) * nat) :=
  let* r := split_loop (line ++ [0])
    (Splitter (S (S k)) 16 (if mem_left k then Some [] else None) 16
       (if mem_left (S k) then Some [] else None) DEFAULT) in
  match r with
  | Exit e => Ok (Exit e, 0%nat)
  | Ret s =>
      let* ts := deref (s_tokens s) in
      if len ts <? s_argbuf s then Ok (Ret (ts, s_argbuf s), s_calls s) else Fault
  end.

(** ** rash_launch: the array of arguments is cut at the pipes and redirections *)
Record launcher := Launcher {
  l_calls : nat;
  l_args : list (option (list Z));
  l_pipes : Z;
  l_cmd_buf : Z;
  l_starts : list Z;
  l_input : option (list Z);
  l_output : option (list Z)
}.

Definition has_char (c : Z) (t : list Z) : bool := bool_decide (is_Some (char_index t c)).

(** [args[i++] = NULL; name = malloc(strlen(args[i]) + 1); strcpy(name, args[i]);] *)
Definition take_name (i : Z) (s : launcher) : res (list Z * launcher) :=
  let* a := deref (aset (l_args s) i None) in
  let* t := deref (aget a (i + 1)) in
  let* t := deref t in
  if mem_left (l_calls s)
  then Ok (t, Launcher (S (l_calls s)) a (l_pipes s) (l_cmd_buf s) (l_starts s) (l_input s) (l_output s))
  else Fault.

(** One turn of the loop, with the new [i]. *)
Definition launch_turn (i : Z) (t : list Z) (s : launcher) : res (Z * launcher) :=
  if has_char PIPE t then
    let* a := deref (aset (l_args s) i None) in
    if len (l_starts s) <? l_cmd_buf s
    then Ok (i, Launcher (l_calls s) a (l_pipes s + 1) (l_cmd_buf s) (l_starts s ++ [i + 1]) (l_input s) (l_output s))
    else Fault
  else if has_char IN t then
    let* (nm, s) := take_name i s in
    Ok (i + 1, Launcher (l_calls s) (l_args s) (l_pipes s) (l_cmd_buf s) (l_starts s) (Some nm) (l_output s))
  else if has_char OUT t then
    let* (nm, s) := take_name i s in
    Ok (i + 1, Launcher (l_calls s) (l_args s) (l_pipes s) (l_cmd_buf s) (l_starts s) (l_input s) (Some nm))
  else Ok (i, s).

Definition grow_starts (s : launcher) : option launcher :=
  if l_cmd_buf s <=? len (l_starts s) then
    if mem_left (l_calls s)
    then Some (Launcher (S (l_calls s)) (l_args s) (l_pipes s) (l_cmd_buf s * 2) (l_starts s) (l_input s) (l_output s))
    else None
  else Some s.

Fixpoint launch_loop (fuel : nat) (i : Z) (s : launcher) : res (run launcher) :=
  match fuel with
  | O => Fuel
  | S fuel =>
      let* a := deref (aget (l_args s) i) in
      match a with
      | None => Ok (Ret s)
      | Some t =>
          let* (i, s) := launch_turn i t s in
          match grow_starts s with
          | Some s => launch_loop fuel (i + 1) s
          | None => Ok (Exit EXIT_FAILURE)
          end
      end
  end.

(** What [do_commands] is called with. *)
Definition scan_args (fuel k : nat) (args : list (list Z)) : res (run launcher) :=
  if mem_left k
  then launch_loop fuel 0 (Launcher (S k) ((Some <$> args) ++ [None]) 0 8 [0] None None)
  else Fault.

(** ** The builtin commands, with what their functions return *)
Definition builtin_str : list (list Z) := [codes "help"; codes "exit"].
Definition rash_help : Z := 1.
Definition rash_exit : Z := 0.
Definition builtin_func : list Z := [rash_help; rash_exit].

(** The first that [strcmp] finds equal. *)
Fixpoint builtin (names : list (list Z)) (funcs : list Z) (arg0 : list Z) : option Z :=
  match names, funcs with
  | n :: names, f :: funcs => if bool_decide (arg0 = n) then Some f else builtin names funcs arg0
  | _, _ => None
  end.

End rash.

(** ** The editing of a line *)

(** A typed character: a printable one, or one that takes the last one back. *)
Definition is_back (c : Z) : bool := (c =? 127) || (c =? 8).
Definition edit1 (b : list Z) (c : Z) : list Z := if is_back c then removelast b else b ++ [c].
Definition edit (cs : list Z) : list Z := foldl edit1 [] cs.
Definition typed (c : Z) : Prop := 32 ≤ c < 127 ∨ is_back c = true.

(** What is printed, with [b] in the buffer. *)
Fixpoint echo (b cs : list Z) : list Z :=
  match cs with
  | [] => []
  | c :: cs =>
      (if is_back c then if bool_decide (b = []) then [] else [8; ch " "; 8] else [c]) ++ echo (edit1 b c) cs
  end.

(** *** The echo on the console *)

(** From the cell at the cursor of [s] on, [t] shows [b], and the cursor is behind it, in the same
    row; the cells behind it are as they were, or blank; all others are as they were. *)
Record shows (s : console) (b : list Z) (t : Vga.Term.term) : Prop := {
  sh_col : Vga.Term.col t = cursor_x (screen s) + len b;
  sh_row : Vga.Term.row t = cursor_y (screen s);
  sh_size : length (Vga.Term.cells t) = 2000%nat;
  sh_text : ∀ i c, aget b i = Some c →
    aget (Vga.Term.cells t) (cursor_y (screen s) * 80 + cursor_x (screen s) + i) = Some (cell s c);
  sh_rest : ∀ j, cursor_y (screen s) * 80 + cursor_x (screen s) + len b ≤ j < cursor_y (screen s) * 80 + 80 →
    aget (Vga.Term.cells t) j ∈ [aget (video_memory (screen s)) j; Some (cell s 32)];
  sh_other : ∀ j, j < cursor_y (screen s) * 80 + cursor_x (screen s) ∨ cursor_y (screen s) * 80 + 80 ≤ j →
    aget (Vga.Term.cells t) j = aget (video_memory (screen s)) j
}.

Definition puts_on (s : console) (cs : list Z) (t : Vga.Term.term) : Vga.Term.term :=
  foldl (λ t x, Vga.Term.put (cell s x) t) t cs.

(** The line that begins in column [x] never comes to the last column. *)
Definition fits (x : Z) (b cs : list Z) : Prop :=
  ∀ pre, pre `prefix_of` cs → x + len (foldl edit1 b pre) < 80.

Lemma fits_next x b c cs : fits x b (c :: cs) → x + len b < 80 ∧ x + len (edit1 b c) < 80 ∧ fits x (edit1 b c) cs.
Proof.
  intros H. split; [|split].
  - apply (H []). apply prefix_nil.
  - apply (H [c]). by exists cs.
  - intros pre Hp. apply (H (c :: pre)). by apply prefix_cons.
Qed.

Section console.
Context (s : console) (Hs : console_ok s).

(** The fields of a term that no step scrolls. *)
Lemma put_plain c t : 32 ≤ c < 128 → Vga.Term.col t + 1 < 80 → Vga.Term.row t < 25 →
  Vga.Term.put (cell s c) t =
  Vga.Term.T (<[Z.to_nat (Vga.Term.row t * 80 + Vga.Term.col t) := cell s c]> (Vga.Term.cells t))
    (Vga.Term.col t + 1) (Vga.Term.row t).
Proof.
  intros Hc Hx Hy. unfold Vga.Term.put. rewrite cell_low by lia.
  rewrite (proj2 (Z.eqb_neq c 8)), (proj2 (Z.eqb_neq c 9)), (proj2 (Z.eqb_neq c 13)), (proj2 (Z.eqb_neq c 10)),
    (proj2 (Z.leb_le 32 c)) by lia.
  unfold Vga.Term.wrap. cbn [Vga.Term.col Vga.Term.row Vga.Term.cells].
  rewrite (proj2 (Z.leb_gt 80 _)) by lia. cbn [Vga.Term.row]. by rewrite (proj2 (Z.leb_gt 25 _)) by lia.
Qed.

Lemma put_back t : 0 < Vga.Term.col t < 80 → Vga.Term.row t < 25 →
  Vga.Term.put (cell s 8) t = Vga.Term.T (Vga.Term.cells t) (Vga.Term.col t - 1) (Vga.Term.row t).
Proof.
  intros Hx Hy. unfold Vga.Term.put. rewrite cell_low by lia. cbn [Z.eqb Pos.eqb].
  unfold Vga.Term.wrap. cbn [Vga.Term.col Vga.Term.row Vga.Term.cells]. rewrite Z.max_r by lia.
  rewrite (proj2 (Z.leb_gt 80 _)) by lia. cbn [Vga.Term.row]. by rewrite (proj2 (Z.leb_gt 25 _)) by lia.
Qed.

Lemma shows_start : shows s [] (abs (screen s)).
Proof using Hs.
  destruct Hs as (_ & _ & Hl & Hx & Hy). split; cbn [abs Vga.Term.col Vga.Term.row Vga.Term.cells]; try done.
  - cbn [length]. lia.
  - intros i c Hi. apply aget_range in Hi. cbn in Hi. lia.
  - intros j _. by left.
Qed.

Lemma char_shown c b t : shows s b t → 32 ≤ c < 128 → cursor_x (screen s) + len (b ++ [c]) < 80 →
  shows s (b ++ [c]) (Vga.Term.put (cell s c) t).
Proof using Hs.
  destruct Hs as (_ & _ & Hl & Hx & Hy). intros [H1 H2 H3 H4 H5 H6] Hc Hb.
  assert (El : len (b ++ [c]) = len b + 1) by (rewrite length_app; cbn [length]; lia). rewrite El in *.
  rewrite put_plain by (lia || done). rewrite H1, H2.
  set (p := cursor_y (screen s) * 80 + (cursor_x (screen s) + len b)).
  split; cbn [Vga.Term.col Vga.Term.row Vga.Term.cells]; try done; try lia.
  - by rewrite length_insert.
  - intros i d Hi. pose proof (aget_range _ _ _ Hi). rewrite aget_insert by (unfold p; lia).
    destruct (Z.eqb_spec p (cursor_y (screen s) * 80 + cursor_x (screen s) + i)) as [Hp|Hp].
    + replace i with (len b) in Hi by (unfold p in Hp; lia). rewrite aget_mid in Hi. by simplify_eq.
    + apply H4. unfold aget in *. cif; [lia|]. rewrite lookup_app_l in Hi; [done|]. unfold p in Hp. lia.
  - intros j Hj. rewrite aget_insert by (unfold p; lia). rewrite (proj2 (Z.eqb_neq p j)) by (unfold p; lia). apply H5. lia.
  - intros j Hj. rewrite aget_insert by (unfold p; lia). rewrite (proj2 (Z.eqb_neq p j)) by (unfold p; lia). by apply H6.
Qed.

Lemma erase_shown x b t : shows s (b ++ [x]) t → cursor_x (screen s) + len (b ++ [x]) < 80 →
  shows s b (puts_on s [8; 32; 8] t).
Proof using Hs.
  destruct Hs as (_ & _ & Hl & Hx & Hy). intros [H1 H2 H3 H4 H5 H6] Hb.
  assert (El : len (b ++ [x]) = len b + 1) by (rewrite length_app; cbn [length]; lia). rewrite El in *.
  unfold puts_on. cbn [foldl]. cbv beta. rewrite (put_back t), (put_plain 32) by (cbn; lia).
  cbn [Vga.Term.col Vga.Term.row Vga.Term.cells]. rewrite put_back by (cbn; lia).
  cbn [Vga.Term.col Vga.Term.row Vga.Term.cells]. rewrite H1, H2.
  replace (cursor_x (screen s) + (len b + 1) - 1) with (cursor_x (screen s) + len b) by lia.
  set (p := cursor_y (screen s) * 80 + (cursor_x (screen s) + len b)).
  split; cbn [Vga.Term.col Vga.Term.row Vga.Term.cells]; try done; try lia.
  - by rewrite length_insert.
  - intros i d Hi. pose proof (aget_range _ _ _ Hi). rewrite aget_insert by (unfold p; lia).
    rewrite (proj2 (Z.eqb_neq p _)) by (unfold p; lia). apply H4. unfold aget in *. cif; [lia|]. by apply lookup_app_l_Some.
  - intros j Hj. rewrite aget_insert by (unfold p; lia). destruct (Z.eqb_spec p j) as [<-|Hp].
    + right. by left.
    + apply H5. unfold p in Hp. lia.
  - intros j Hj. rewrite aget_insert by (unfold p; lia). rewrite (proj2 (Z.eqb_neq p j)) by (unfold p; lia). by apply H6.
Qed.

Lemma echo_shown cs b t : Forall typed cs → shows s b t → fits (cursor_x (screen s)) b cs →
  shows s (foldl edit1 b cs) (puts_on s (echo b cs) t).
Proof using Hs.
  intros Hcs. revert b t. induction Hcs as [|c cs Hc _ IH]; intros b t Ht Hf; [exact Ht|].
  destruct (fits_next _ _ _ _ Hf) as (Hb & Hb1 & Hf1). cbn [echo foldl]. unfold puts_on. rewrite foldl_app.
  apply IH; [|exact Hf1]. clear IH Hf Hf1. fold (puts_on s). unfold edit1 in *. destruct (is_back c) eqn:E.
  - destruct (destruct_last b) as [->|(b' & x & ->)]; [exact Ht|]. rewrite bool_decide_false by by destruct b'.
    rewrite removelast_last. by apply (erase_shown x).
  - destruct Hc as [Hc|Hc]; [|congruence]. apply char_shown; [exact Ht|lia|exact Hb1].
Qed.
End console.

Section proofs.
Context (mem_left : nat → bool) (Hmem : ∀ k, mem_left k = true).

Lemma removelast_len (b : list Z) : (0 < length b)%nat → S (length (removelast b)) = length b.
Proof.
  intros Hb. destruct (exists_last (l := b)) as (b' & x & ->); [intros ->; simpl in *; lia|].
  rewrite removelast_last, length_app. simpl. lia.
Qed.

Lemma grow_reads k bufsize b input e out r :
  (∀ k bufsize, len b < bufsize → ∃ n, read_loop mem_left k bufsize b input = Ok (r, n, out)) →
  0 < bufsize → len b ≤ bufsize →
  ∃ n,
    (if bufsize <=? len b then
       if mem_left k then
         let* (r, k, out) := read_loop mem_left (S k) (bufsize * 2) b input in Ok (r, k, e ++ out)
       else Ok (Exit EXIT_FAILURE, S k, e)
     else let* (r, k, out) := read_loop mem_left k bufsize b input in Ok (r, k, e ++ out))
    = Ok (r, n, e ++ out).
Proof using Hmem.
  intros IH Hb Hle. destruct (Z.leb_spec bufsize (len b)) as [Hfull|Hroom].
  - rewrite Hmem. destruct (IH (S k) (bufsize * 2) ltac:(lia)) as (n & ->). by exists n.
  - destruct (IH k bufsize ltac:(lia)) as (n & ->). by exists n.
Qed.

Lemma c_str_end b : Forall (λ c, c ≠ 0) b → c_str (b ++ [0]) = b.
Proof.
  induction 1 as [|c b Hc _ IH]; [done|]. cbn [c_str app]. rewrite (proj2 (Z.eqb_neq c 0)) by done. by rewrite IH.
Qed.

Lemma edit1_chars b c : Forall (λ c, c ≠ 0) b → typed c → Forall (λ c, c ≠ 0) (edit1 b c).
Proof.
  intros Hb Hc. unfold edit1. destruct (is_back c) eqn:E.
  - destruct (destruct_last b) as [->|(b' & y & ->)]; [done|].
    rewrite removelast_last. by apply list.Forall_app in Hb as [? _].
  - apply list.Forall_app. split; [done|]. apply list.Forall_cons. split; [|done]. destruct Hc as [Hc|Hc]; [lia|congruence].
Qed.

Lemma read_loop_ok cs rest k bufsize b : Forall typed cs → Forall (λ c, c ≠ 0) b → len b < bufsize →
  ∃ n, read_loop mem_left k bufsize b (cs ++ 10 :: rest) = Ok (Ret (foldl edit1 b cs, rest), n, echo b cs ++ [10]).
Proof using Hmem.
  intros Hcs. revert k bufsize b. induction Hcs as [|c cs Hc Hcs IH]; intros k bufsize b Hb Hlen.
  - cbn [app read_loop foldl]. change ((10 =? 127) || (10 =? 8)) with false. change ((10 =? EOF) || (10 =? 10)) with true.
    cbv iota. rewrite (proj2 (Z.ltb_lt _ _)) by done. rewrite c_str_end by done. by exists k.
  - cbn [app read_loop foldl echo]. pose proof (edit1_chars b c Hb Hc) as Hb'. fold (is_back c).
    assert (IHb : ∀ k bufsize, len (edit1 b c) < bufsize → ∃ n,
      read_loop mem_left k bufsize (edit1 b c) (cs ++ 10 :: rest)
      = Ok (Ret (foldl edit1 (edit1 b c) cs, rest), n, echo (edit1 b c) cs ++ [10])) by (intros; by apply IH).
    clear IH. rewrite <- app_assoc. unfold edit1 in *. destruct (is_back c) eqn:E.
    + destruct (Z.ltb_spec 0 (len b)) as [Hpos|Hpos].
      * pose proof (removelast_len b ltac:(lia)) as Hl. rewrite bool_decide_false by (by intros ->).
        apply (grow_reads k bufsize (removelast b) _ [8; ch " "; 8]); [|lia|lia]. exact IHb.
      * destruct b as [|x b]; [|simpl in Hpos; lia]. rewrite bool_decide_true by done.
        apply (grow_reads k bufsize [] _ []); [|simpl in *; lia|simpl in *; lia]. exact IHb.
    + destruct Hc as [Hc|Hc]; [|congruence]. unfold EOF.
      rewrite (proj2 (Z.eqb_neq c (-1))), (proj2 (Z.eqb_neq c 10)) by lia. cbn [orb].
      rewrite (proj2 (Z.ltb_lt (len b) bufsize)) by done.
      apply (grow_reads k bufsize (b ++ [c]) _ [c]); [|lia|rewrite length_app; simpl; lia]. exact IHb.
Qed.

(** C33: [rash_read_line], with memory for its buffer: whatever printable characters and
    backspaces are typed before the newline, and however many, no store is outside the
    buffer, the line returned is the one that the editing leaves, and what is left of
    the input is what comes behind the newline.  When the line, while it is typed, stays in the
    row of the cursor and does not come to its last column, the console shows the edited line from
    there on, blanks behind it where characters were taken back, and everything else as it was.
    (A longer line goes on in the next row, and there the console drops backspaces:
    [wrapped_line].) *)
Theorem read_line_edits k cs rest (Hcs : Forall typed cs) :
  ∃ n out, rash_read_line mem_left k (cs ++ 10 :: rest) = Ok (Ret (edit cs, rest), n, out ++ [10]) ∧
    ∀ s, console_ok s → fits (cursor_x (screen s)) [] cs →
      shows s (edit cs) (puts_on s out (abs (screen s))).
Proof using Hmem.
  unfold rash_read_line. rewrite Hmem.
  destruct (read_loop_ok cs rest (S k) 80 [] Hcs) as (n & E); [done|done|].
  exists n, (echo [] cs). split; [exact E|]. intros s Hs Hf.
  apply echo_shown; [done|done|by apply shows_start|exact Hf].
Qed.
End proofs.

(** ** The words of a line *)

(** A token that was begun. *)
Definition pending (cur : list Z) : list (list Z) := if bool_decide (cur = []) then [] else [cur].

(** The words and operators of a line: what is between quotes and behind a backslash is
    taken as it is.  A word in which the line ends unquoted is the last one; it is lost
    when the quote is open or the backslash last. *)
Fixpoint lex (st : lex_state) (cur l : list Z) : list (list Z) :=
  match l with
  | [] => match st with DEFAULT => pending cur | _ => [] end
  | c :: l =>
      match st with
      | DEFAULT =>
          if is_sep c then pending cur ++ (if is_op c then [[op_token c]] else []) ++ lex DEFAULT [] l
          else if c =? ch "'" then lex QUOTED cur l
          else if c =? ch "\" then lex ESCAPED cur l
          else lex DEFAULT (cur ++ [c]) l
      | QUOTED => if c =? ch "'" then lex DEFAULT cur l else lex QUOTED (cur ++ [c]) l
      | ESCAPED => lex DEFAULT (cur ++ [c]) l
      end
  end.

(** No operator comes right behind a word that is the last of a full array but one: the code
    looks at the room once for both. *)
Fixpoint clean (st : lex_state) (cur : list Z) (n : nat) (l : list Z) : bool :=
  match l with
  | [] => true
  | c :: l =>
      match st with
      | DEFAULT =>
          if is_sep c then
            let n' := (n + length (pending cur))%nat in
            negb (is_op c && negb (bool_decide (cur = [])) && (n mod 16 =? 15)%nat) &&
            clean DEFAULT [] (if is_op c then S n' else n') l
          else if c =? ch "'" then clean QUOTED cur n l
          else if c =? ch "\" then clean ESCAPED cur n l
          else clean DEFAULT (cur ++ [c]) n l
      | QUOTED => if c =? ch "'" then clean DEFAULT cur n l else clean QUOTED (cur ++ [c]) n l
      | ESCAPED => clean DEFAULT (cur ++ [c]) n l
      end
  end.

Section split.
Context (mem_left : nat → bool) (Hmem : ∀ k, mem_left k = true).

(** The buffers hold [ts] and [cur], and are not full. *)
Record splits (s : splitter) (st : lex_state) (ts : list (list Z)) (cur : list Z) : Prop := {
  sp_tokens : s_tokens s = Some ts;
  sp_token : s_token s = Some cur;
  sp_state : s_state s = st;
  sp_args : len ts < s_argbuf s;
  sp_toks : len cur < s_tokbuf s;
  sp_16 : s_argbuf s mod 16 = 0
}.

(** The same before the buffers are looked at. *)
Record filled (s : splitter) (st : lex_state) (ts : list (list Z)) (cur : list Z) : Prop := {
  fi_tokens : s_tokens s = Some ts;
  fi_token : s_token s = Some cur;
  fi_state : s_state s = st;
  fi_args : len ts ≤ s_argbuf s ∧ 0 < s_argbuf s;
  fi_toks : len cur ≤ s_tokbuf s ∧ 0 < s_tokbuf s;
  fi_16 : s_argbuf s mod 16 = 0
}.

Lemma splits_filled s st ts cur : splits s st ts cur → filled s st ts cur.
Proof. intros [H1 H2 H3 H4 H5 H6]. split; try done; lia. Qed.

Lemma grow_ok s st ts cur : filled s st ts cur →
  ∃ s', grow_tokens mem_left s ≫= grow_token mem_left = Some s' ∧ splits s' st ts cur.
Proof using Hmem.
  intros [H1 H2 H3 H4 H5 H6]. unfold grow_tokens. rewrite H1. cbn [default from_option]. unfold id.
  assert (∃ s1, (if s_argbuf s <=? len ts then if mem_left (s_calls s)
      then Some (Splitter (S (s_calls s)) (s_argbuf s * 2) (Some ts) (s_tokbuf s) (s_token s) (s_state s)) else None
      else Some s) = Some s1 ∧ s_tokens s1 = Some ts ∧ s_token s1 = Some cur ∧ s_state s1 = st ∧ len ts < s_argbuf s1 ∧
      s_argbuf s1 mod 16 = 0 ∧ s_tokbuf s1 = s_tokbuf s) as (s1 & -> & E1 & E2 & E3 & E4 & E5 & E6).
  { destruct (Z.leb_spec (s_argbuf s) (len ts)) as [Hf|Hf].
    - rewrite Hmem. eexists. split; [done|]. cbn. split; [done|]. split; [done|]. split; [done|]. split; [lia|].
      split; [|done]. rewrite Z.mul_mod, H6 by lia. done.
    - exists s. by split_and!. }
  cbn [mbind option_bind]. unfold grow_token. rewrite E2. cbn [default from_option]. unfold id.
  destruct (Z.leb_spec (s_tokbuf s1) (len cur)) as [Hf|Hf].
  - rewrite Hmem. eexists. split; [done|]. split; cbn; try done. lia.
  - exists s1. split; [done|]. by split.
Qed.

Lemma put_char_ok c s st ts cur : splits s st ts cur →
  ∃ s', put_char c s = Ok s' ∧ filled s' st ts (cur ++ [c]).
Proof.
  intros [H1 H2 H3 H4 H5 H6]. unfold put_char. rewrite H2. cbn [deref rbind].
  rewrite (proj2 (Z.ltb_lt _ _)) by done. eexists. split; [done|]. split; cbn; try done.
  - lia.
  - rewrite length_app. simpl. lia.
Qed.

Lemma to_state_splits s st st' ts cur : filled s st ts cur → filled (to_state st' s) st' ts cur.
Proof. intros [H1 H2 H3 H4 H5 H6]. by split. Qed.

Lemma put_token_ok t s st ts cur : filled s st ts cur → len ts < s_argbuf s →
  ∃ s', put_token mem_left t s = Ok s' ∧ filled s' st (ts ++ [t]) cur ∧ s_argbuf s' = s_argbuf s.
Proof using Hmem.
  intros [H1 H2 H3 H4 H5 H6] Hr. unfold put_token. rewrite H1, Hmem. cbn [deref rbind].
  rewrite (proj2 (Z.ltb_lt _ _)) by done. cbn [andb]. eexists. split; [done|]. split; [|done]. split; cbn; try done.
  rewrite length_app. simpl. lia.
Qed.

Lemma flush_ok s st ts cur : splits s st ts cur → Forall (λ c, c ≠ 0) cur →
  ∃ s', flush mem_left s = Ok s' ∧ filled s' st (ts ++ pending cur) [] ∧ s_argbuf s' = s_argbuf s.
Proof using Hmem.
  intros H Hnz. pose proof H as [H1 H2 H3 H4 H5 H6]. unfold flush, pending. rewrite H2. cbn [default from_option]. unfold id.
  destruct cur as [|c cur].
  - rewrite bool_decide_true, app_nil_r by done. exists s. split; [done|]. split; [by apply splits_filled|done].
  - rewrite bool_decide_false by done. set (t := c :: cur) in *. rewrite (proj2 (Z.ltb_lt 0 (len t))) by (simpl; lia).
    rewrite (proj2 (Z.ltb_lt _ _)), c_str_end by done.
    destruct (put_token_ok t s st ts t (splits_filled _ _ _ _ H) H4) as (s1 & -> & [F1 F2 F3 F4 F5 F6] & Ha).
    cbn [rbind]. rewrite Hmem. eexists. split; [done|]. split; [|exact Ha]. split; cbn; try done. simpl in F5. lia.
Qed.
Lemma switch_sep c s ts cur : splits s DEFAULT ts cur → Forall (λ c, c ≠ 0) cur → is_sep c = true →
  is_op c && negb (bool_decide (cur = [])) && (length ts mod 16 =? 15)%nat = false →
  ∃ s', split_switch mem_left c s = Ok s' ∧
    filled s' DEFAULT (ts ++ pending cur ++ (if is_op c then [[op_token c]] else [])) [].
Proof using Hmem.
  intros H Hnz Hc Hroom. pose proof H as [H1 H2 H3 H4 H5 H6]. unfold split_switch. rewrite H3, Hc.
  destruct (flush_ok s DEFAULT ts cur H Hnz) as (s1 & -> & HF & Ha). cbn [rbind]. rewrite app_assoc.
  destruct (is_op c); cbn [andb] in Hroom.
  - destruct (put_token_ok [op_token c] s1 DEFAULT _ _ HF) as (s2 & -> & HF2 & _); [|by exists s2].
    rewrite Ha, length_app. unfold pending in *. destruct (bool_decide (cur = [])); cbn [negb andb length] in *; [lia|].
    apply Nat.eqb_neq in Hroom.
    assert (Hm : Z.of_nat (length ts mod 16) ≠ 15) by lia. rewrite Nat2Z.inj_mod in Hm. change (Z.of_nat 16) with 16 in Hm.
    Z.div_mod_to_equations. lia.
  - rewrite app_nil_r. by exists s1.
Qed.

Lemma split_loop_ok l s st ts cur : splits s st ts cur → Forall (λ c, c ≠ 0) cur →
  Forall (λ c, c ≠ 0) l → clean st cur (length ts) l = true →
  ∃ s', split_loop mem_left (l ++ [0]) s = Ok (Ret s') ∧ s_tokens s' = Some (ts ++ lex st cur l) ∧
    len (ts ++ lex st cur l) < s_argbuf s'.
Proof using Hmem.
  intros H Hcur Hl. revert s st ts cur H Hcur. induction Hl as [|c l Hc Hl IH]; intros s st ts cur H Hcur Hcl.
  { cbn [app split_loop]. assert (∃ s1 cur', split_switch mem_left 0 s = Ok s1 ∧ ∃ st',
      filled s1 st' (ts ++ lex st cur []) cur') as (s1 & cur' & -> & st' & HF).
    { pose proof (sp_state _ _ _ _ H) as Hst. destruct st; cbn [lex].
      - destruct (switch_sep 0 s ts cur H Hcur) as (s1 & E & HF); [done|done|]. change (is_op 0) with false in HF.
        cbv iota in HF. rewrite app_nil_r in HF. exists s1, []. split; [exact E|]. by exists DEFAULT.
      - unfold split_switch. rewrite Hst, app_nil_r. change (0 =? ch "'") with false. cbv iota.
        destruct (put_char_ok 0 s QUOTED ts cur H) as (s1 & E & HF). exists s1, (cur ++ [0]). split; [exact E|]. by exists QUOTED.
      - unfold split_switch. rewrite Hst, app_nil_r.
        destruct (put_char_ok 0 s ESCAPED ts cur H) as (s1 & -> & HF). cbn [rbind].
        eexists _, (cur ++ [0]). split; [done|]. exists DEFAULT. by apply (to_state_splits _ ESCAPED). }
    cbn [rbind]. destruct (grow_ok s1 _ _ _ HF) as (s2 & -> & HS). exists s2. split; [done|].
    split; [apply HS|apply (sp_args _ _ _ _ HS)]. }
  assert (Hput : Forall (λ c, c ≠ 0) (cur ++ [c])) by (apply list.Forall_app; split; [done|by apply list.Forall_cons]).
  assert (Hgo : ∀ s1 st1 ts1 cur1, split_switch mem_left c s = Ok s1 → filled s1 st1 ts1 cur1 →
    Forall (λ c, c ≠ 0) cur1 → clean st1 cur1 (length ts1) l = true →
    ts ++ lex st cur (c :: l) = ts1 ++ lex st1 cur1 l →
    ∃ s', split_loop mem_left ((c :: l) ++ [0]) s = Ok (Ret s') ∧ s_tokens s' = Some (ts ++ lex st cur (c :: l)) ∧
      len (ts ++ lex st cur (c :: l)) < s_argbuf s').
  { intros s1 st1 ts1 cur1 E HF Hc1 Hcl1 Elex. cbn [app split_loop]. rewrite E. cbn [rbind].
    destruct (grow_ok s1 _ _ _ HF) as (s2 & -> & HS). rewrite Elex. by apply (IH s2 st1 ts1 cur1). }
  pose proof (sp_state _ _ _ _ H) as Hst. destruct st; cbn [lex clean] in Hcl, Hgo |- *.
  - destruct (is_sep c) eqn:Hsep.
    + apply andb_true_iff in Hcl as [Hroom Hcl]. apply negb_true_iff in Hroom.
      destruct (switch_sep c s ts cur H Hcur Hsep Hroom) as (s1 & E & HF).
      apply (Hgo s1 DEFAULT _ [] E HF); [done| |by rewrite <- !app_assoc].
      rewrite !length_app. destruct (is_op c); [|by rewrite Nat.add_0_r].
      cbn [length]. by replace (length ts + (length (pending cur) + 1))%nat with (S (length ts + length (pending cur))) by lia.
    + assert (E : split_switch mem_left c s = if c =? ch "'" then Ok (to_state QUOTED s)
        else if c =? ch "\" then Ok (to_state ESCAPED s) else put_char c s) by (unfold split_switch; by rewrite Hst, Hsep).
      destruct (c =? ch "'"); [|destruct (c =? ch "\")].
      * apply (Hgo _ QUOTED ts cur E); try done. apply (to_state_splits _ DEFAULT), splits_filled, H.
      * apply (Hgo _ ESCAPED ts cur E); try done. apply (to_state_splits _ DEFAULT), splits_filled, H.
      * destruct (put_char_ok c s DEFAULT ts cur H) as (s1 & E1 & HF). rewrite E1 in E. by apply (Hgo s1 DEFAULT ts (cur ++ [c])).
  - assert (E : split_switch mem_left c s = if c =? ch "'" then Ok (to_state DEFAULT s) else put_char c s)
      by (unfold split_switch; by rewrite Hst).
    destruct (c =? ch "'").
    + apply (Hgo _ DEFAULT ts cur E); try done. apply (to_state_splits _ QUOTED), splits_filled, H.
    + destruct (put_char_ok c s QUOTED ts cur H) as (s1 & E1 & HF). rewrite E1 in E. by apply (Hgo s1 QUOTED ts (cur ++ [c])).
  - destruct (put_char_ok c s ESCAPED ts cur H) as (s1 & E1 & HF).
    assert (E : split_switch mem_left c s = Ok (to_state DEFAULT s1)) by (unfold split_switch; by rewrite Hst, E1).
    apply (Hgo _ DEFAULT ts (cur ++ [c]) E); try done. by apply (to_state_splits _ ESCAPED).
Qed.

Lemma split_line_ok k line : Forall (λ c, c ≠ 0) line → clean DEFAULT [] 0 line = true →
  ∃ cap k', rash_split_line mem_left k line = Ok (Ret (lex DEFAULT [] line, cap), k') ∧ len (lex DEFAULT [] line) < cap.
Proof using Hmem.
  intros Hl Hcl. unfold rash_split_line. rewrite !Hmem.
  destruct (split_loop_ok line (Splitter (S (S k)) 16 (Some []) 16 (Some []) DEFAULT) DEFAULT [] [])
    as (s & -> & Es & Hlen); [by split|done|done|done|].
  cbn [rbind]. rewrite Es. cbn [deref rbind app] in *. rewrite (proj2 (Z.ltb_lt _ _)) by done.
  by exists (s_argbuf s), (s_calls s).
Qed.
(** C29: [rash_split_line], with memory for its buffers: for a line of any length and with any
    number of words, no store is outside a buffer, and the tokens are those of [lex],
    with room for the [NULL] behind them; as long as no operator comes right
    behind the word that fills the array but for one place. *)
Theorem split_is_lex k line (Hl : Forall (λ c, c ≠ 0) line) (Hcl : clean DEFAULT [] 0 line = true) :
  ∃ cap k', rash_split_line mem_left k line = Ok (Ret (lex DEFAULT [] line, cap), k') ∧
    len (lex DEFAULT [] line) < cap.
Proof using Hmem. by apply split_line_ok. Qed.
End split.

(** ** Quoting *)

(** A word between quotes; a quote in it is written as the end of the quotes, a backslash, a
    quote, and the begin of the next quotes. *)
Definition quote_char (c : Z) : list Z := if c =? ch "'" then codes "'\''" else [c].
Definition quote (w : list Z) : list Z := ch "'" :: (w ≫= quote_char) ++ [ch "'"].

Fixpoint unwords (ws : list (list Z)) : list Z :=
  match ws with
  | [] => []
  | [w] => w
  | w :: ws => w ++ ch " " :: unwords ws
  end.

Lemma lex_quoted cur w l :
  lex QUOTED cur ((w ≫= quote_char) ++ ch "'" :: l) = lex DEFAULT (cur ++ w) l.
Proof.
  revert cur. induction w as [|c w IH]; intros cur; [by rewrite app_nil_r|].
  cbn [mbind list_bind]. rewrite <- app_assoc. unfold quote_char at 1. destruct (Z.eqb_spec c (ch "'")) as [->|Hc].
  - change (codes "'\''" ++ (w ≫= quote_char) ++ ch "'" :: l)
      with (39 :: 92 :: 39 :: 39 :: ((w ≫= quote_char) ++ 39 :: l)).
    cbn [lex]. change (39 =? 39) with true. change (is_sep 92) with false. change (92 =? 39) with false.
    change (92 =? 92) with true. change (is_sep 39) with false. cbv iota.
    rewrite IH. by rewrite <- app_assoc.
  - cbn [app lex]. rewrite (proj2 (Z.eqb_neq c 39)) by done. rewrite IH. by rewrite <- app_assoc.
Qed.

Lemma clean_quoted cur n w l :
  clean QUOTED cur n ((w ≫= quote_char) ++ ch "'" :: l) = clean DEFAULT (cur ++ w) n l.
Proof.
  revert cur. induction w as [|c w IH]; intros cur; [by rewrite app_nil_r|].
  cbn [mbind list_bind]. rewrite <- app_assoc. unfold quote_char at 1. destruct (Z.eqb_spec c (ch "'")) as [->|Hc].
  - change (codes "'\''" ++ (w ≫= quote_char) ++ ch "'" :: l)
      with (39 :: 92 :: 39 :: 39 :: ((w ≫= quote_char) ++ 39 :: l)).
    cbn [clean]. change (39 =? 39) with true. change (is_sep 92) with false. change (92 =? 39) with false.
    change (92 =? 92) with true. change (is_sep 39) with false. cbv iota.
    rewrite IH. by rewrite <- app_assoc.
  - cbn [app clean]. rewrite (proj2 (Z.eqb_neq c 39)) by done. rewrite IH. by rewrite <- app_assoc.
Qed.

Lemma lex_quote w l : lex DEFAULT [] (quote w ++ l) = lex DEFAULT w l.
Proof.
  unfold quote. cbn [app lex]. change (is_sep 39) with false. change (39 =? 39) with true. cbv iota.
  rewrite <- app_assoc. apply lex_quoted.
Qed.

Lemma clean_quote n w l : clean DEFAULT [] n (quote w ++ l) = clean DEFAULT w n l.
Proof.
  unfold quote. cbn [app clean]. change (is_sep 39) with false. change (39 =? 39) with true. cbv iota.
  rewrite <- app_assoc. apply clean_quoted.
Qed.

(** The words that the shell sees: the empty ones are lost. *)
Definition seen (ws : list (list Z)) : list (list Z) := filter (λ w, w ≠ []) ws.

Lemma seen_cons w ws : seen (w :: ws) = pending w ++ seen ws.
Proof. unfold seen, pending. rewrite filter_cons. by destruct w. Qed.

Lemma lex_unwords ws : lex DEFAULT [] (unwords (quote <$> ws)) = seen ws.
Proof.
  induction ws as [|w ws IH]; [done|]. rewrite seen_cons.
  destruct ws as [|w2 ws].
  - change (unwords (quote <$> [w])) with (quote w). rewrite <- (app_nil_r (quote w)), lex_quote.
    cbn. by rewrite app_nil_r.
  - change (unwords (quote <$> w :: w2 :: ws)) with (quote w ++ 32 :: unwords (quote <$> w2 :: ws)).
    rewrite lex_quote. cbn [lex]. change (is_sep 32) with true. change (is_op 32) with false. cbv iota.
    cbn [app]. by rewrite IH.
Qed.

Lemma clean_unwords ws n : clean DEFAULT [] n (unwords (quote <$> ws)) = true.
Proof.
  revert n. induction ws as [|w ws IH]; intros n; [done|]. destruct ws as [|w2 ws].
  - change (unwords (quote <$> [w])) with (quote w). by rewrite <- (app_nil_r (quote w)), clean_quote.
  - change (unwords (quote <$> w :: w2 :: ws)) with (quote w ++ 32 :: unwords (quote <$> w2 :: ws)).
    rewrite clean_quote. cbn [clean]. change (is_sep 32) with true. change (is_op 32) with false. cbv iota.
    cbn [andb negb]. apply IH.
Qed.

Lemma quote_chars ws : Forall (Forall (λ c, c ≠ 0)) ws → Forall (λ c, c ≠ 0) (unwords (quote <$> ws)).
Proof.
  assert (Hq : ∀ w, Forall (λ c : Z, c ≠ 0) w → Forall (λ c, c ≠ 0) (quote w)).
  { intros w Hw. unfold quote. apply list.Forall_cons. split; [done|]. apply list.Forall_app. split; [|by apply list.Forall_cons].
    induction Hw as [|c w Hc Hw IH]; [done|]. cbn [mbind list_bind]. apply list.Forall_app. split; [|exact IH].
    unfold quote_char. destruct (c =? _); [|by apply list.Forall_cons].
    repeat (apply list.Forall_cons; split; [done|]). done. }
  induction 1 as [|w ws Hw Hws IH]; [done|]. destruct ws as [|w2 ws].
  - change (unwords (quote <$> [w])) with (quote w). by apply Hq.
  - change (unwords (quote <$> w :: w2 :: ws)) with (quote w ++ 32 :: unwords (quote <$> w2 :: ws)).
    apply list.Forall_app. split; [by apply Hq|]. by apply list.Forall_cons.
Qed.

(** C28: words of any characters, each between quotes, with blanks between them, are the tokens of
    the line, when there is memory for all of them: spaces, operators and backslashes in them are
    taken as they are.  Only an empty word is lost: [''] gives no argument ([empty_word]). *)
Theorem split_quoted mem_left k ws (Hmem : ∀ k, mem_left k = true)
    (Hnz : Forall (Forall (λ c, c ≠ 0)) ws) :
  ∃ cap k', rash_split_line mem_left k (unwords (quote <$> ws)) = Ok (Ret (seen ws, cap), k') ∧ len (seen ws) < cap.
Proof.
  destruct (split_line_ok mem_left Hmem k (unwords (quote <$> ws))) as (cap & k' & E & H);
    [by apply quote_chars|apply clean_unwords|].
  rewrite lex_unwords in E, H. by exists cap, k'.
Qed.

(** ** Commands *)

(** A command: its words, and its redirections with the operator, [IN] or [OUT]. *)
Record command := Command { c_words : list (list Z); c_redirs : list (Z * list Z) }.

Definition redir_tokens (r : Z * list Z) : list (list Z) := [[r.1]; r.2].
Definition tokens (c : command) : list (list Z) := c_words c ++ (c_redirs c ≫= redir_tokens).

Fixpoint pipeline (cs : list command) : list (list Z) :=
  match cs with
  | [] => []
  | [c] => tokens c
  | c :: cs => tokens c ++ [PIPE] :: pipeline cs
  end.

(** What the array of arguments is in the end. *)
Definition redir_cells (r : Z * list Z) : list (option (list Z)) := [None; Some r.2].
Definition cells (c : command) : list (option (list Z)) := (Some <$> c_words c) ++ (c_redirs c ≫= redir_cells).

Fixpoint pipeline_cells (cs : list command) : list (option (list Z)) :=
  match cs with
  | [] => []
  | [c] => cells c
  | c :: cs => cells c ++ None :: pipeline_cells cs
  end.

(** Where the commands begin, from [i] on. *)
Fixpoint starts_from (i : Z) (cs : list command) : list Z :=
  match cs with
  | [] => []
  | c :: cs => i :: starts_from (i + len (cells c) + 1) cs
  end.

(** The last name behind the operator. *)
Definition redirected (op : Z) (o : option (list Z)) (r : Z * list Z) : option (list Z) :=
  if r.1 =? op then Some r.2 else o.
Definition all_redirs (cs : list command) : list (Z * list Z) := cs ≫= c_redirs.
Definition last_name (op : Z) (o : option (list Z)) (rs : list (Z * list Z)) : option (list Z) :=
  foldl (redirected op) o rs.

Definition plain_word (t : list Z) : Prop :=
  has_char PIPE t = false ∧ has_char IN t = false ∧ has_char OUT t = false.
Definition command_ok (c : command) : Prop :=
  Forall plain_word (c_words c) ∧ Forall (λ r, r.1 = IN ∨ r.1 = OUT) (c_redirs c).

Section launch.
Context (mem_left : nat → bool) (Hmem : ∀ k, mem_left k = true).

Record scans (s : launcher) (a : list (option (list Z))) (p : Z) (st : list Z) (i o : option (list Z)) : Prop := {
  sc_args : l_args s = a;
  sc_pipes : l_pipes s = p;
  sc_starts : l_starts s = st;
  sc_input : l_input s = i;
  sc_output : l_output s = o;
  sc_room : len st < l_cmd_buf s
}.


Lemma aset_mid {A} (l : list A) x y r : aset (l ++ x :: r) (len l) y = Some (l ++ y :: r).
Proof.
  rewrite aset_Some by (rewrite length_app; simpl; lia). rewrite Nat2Z.id. f_equal. by induction l as [|z l IH]; [|cbn; f_equal].
Qed.

(** The loop from [i] on does [n] turns and goes on at [i'] with [s']. *)
Definition goes (i : Z) (s : launcher) (n : nat) (i' : Z) (s' : launcher) : Prop :=
  ∀ fuel, launch_loop mem_left (n + fuel) i s = launch_loop mem_left fuel i' s'.

Lemma goes_trans i s n i1 s1 n1 i2 s2 : goes i s n i1 s1 → goes i1 s1 n1 i2 s2 → goes i s (n + n1) i2 s2.
Proof. intros H1 H2 fuel. by rewrite <- Nat.add_assoc, H1, H2. Qed.

Lemma turn_goes i s t i1 s1 s2 : aget (l_args s) i = Some (Some t) →
  launch_turn mem_left i t s = Ok (i1, s1) → grow_starts mem_left s1 = Some s2 → goes i s 1 (i1 + 1) s2.
Proof. intros Ha Et Eg fuel. cbn [Nat.add launch_loop]. rewrite Ha. cbn [deref rbind]. rewrite Et. cbn [rbind]. by rewrite Eg. Qed.

Lemma no_grow s a p st i o : scans s a p st i o → grow_starts mem_left s = Some s.
Proof. intros [_ _ E _ _ H]. unfold grow_starts. rewrite E. by rewrite (proj2 (Z.leb_gt _ _)). Qed.

Lemma words_go ws s pre r p st i o : Forall plain_word ws → scans s (pre ++ (Some <$> ws) ++ r) p st i o →
  goes (len pre) s (length ws) (len pre + len ws) s.
Proof.
  intros Hws. revert pre. induction Hws as [|t ws (H1 & H2 & H3) Hws IH]; intros pre H.
  - intros fuel. by rewrite Z.add_0_r.
  - change (length (t :: ws)) with (1 + length ws)%nat. apply (goes_trans _ _ _ (len pre + 1) s).
    + apply (turn_goes _ _ t _ s).
      * rewrite (sc_args _ _ _ _ _ _ H). cbn [fmap list_fmap app]. apply aget_mid.
      * unfold launch_turn. by rewrite H1, H2, H3.
      * by eapply no_grow.
    + replace (len pre + 1) with (len (pre ++ [Some t])) by (rewrite length_app; simpl; lia).
      replace (len pre + Z.of_nat (1 + length ws)) with (len (pre ++ [Some t]) + len ws) by (rewrite length_app; simpl; lia).
      apply IH. rewrite <- app_assoc. exact H.
Qed.

Lemma name_taken s pre x nm r p st i o : scans s (pre ++ x :: Some nm :: r) p st i o →
  ∃ s1, take_name mem_left (len pre) s = Ok (nm, s1) ∧ scans s1 (pre ++ None :: Some nm :: r) p st i o.
Proof using Hmem.
  intros [H1 H2 H3 H4 H5 H6]. unfold take_name. rewrite H1, aset_mid. cbn [deref rbind].
  assert (Ha : aget (pre ++ None :: Some nm :: r) (len pre + 1) = Some (Some nm)).
  { replace (len pre + 1) with (len (pre ++ [@None (list Z)])) by (rewrite length_app; simpl; lia).
    rewrite cons_middle, app_assoc. apply aget_mid. }
  rewrite Ha. cbn [deref rbind]. rewrite Hmem. eexists. split; [done|]. by split.
Qed.

Lemma redirs_go rs s pre r p st i o : Forall (λ r, r.1 = IN ∨ r.1 = OUT) rs →
  scans s (pre ++ (Some <$> (rs ≫= redir_tokens)) ++ r) p st i o →
  ∃ s', goes (len pre) s (length rs) (len pre + 2 * len rs) s' ∧
    scans s' (pre ++ (rs ≫= redir_cells) ++ r) p st (last_name IN i rs) (last_name OUT o rs).
Proof using Hmem.
  intros Hrs. revert s pre i o. induction Hrs as [|[op nm] rs Hop Hrs IH]; intros s pre i o H.
  - exists s. split; [|exact H]. intros fuel. by rewrite Z.add_0_r.
  - cbn [mbind list_bind redir_tokens fst snd app fmap list_fmap] in H.
    destruct (name_taken _ _ _ _ _ _ _ _ _ H) as (s1 & En & H1).
    set (s2 := Launcher (l_calls s1) (l_args s1) (l_pipes s1) (l_cmd_buf s1) (l_starts s1)
      (redirected IN i (op, nm)) (redirected OUT o (op, nm))).
    assert (H2 : scans s2 (pre ++ None :: Some nm :: (Some <$> (rs ≫= redir_tokens)) ++ r) p st
      (redirected IN i (op, nm)) (redirected OUT o (op, nm))) by (destruct H1; by split).
    destruct (IH s2 (pre ++ [None; Some nm]) (redirected IN i (op, nm)) (redirected OUT o (op, nm)))
      as (s3 & G & H3); [by rewrite <- app_assoc|].
    exists s3. split; [|by rewrite <- app_assoc in H3].
    change (length ((op, nm) :: rs)) with (1 + length rs)%nat.
    apply (goes_trans _ _ _ (len pre + 1 + 1) s2).
    + apply (turn_goes _ _ [op] _ s2).
      * rewrite (sc_args _ _ _ _ _ _ H). apply aget_mid.
      * unfold launch_turn. cbn [fst] in Hop. destruct H1 as [_ _ _ E4 E5 _].
        destruct Hop as [-> | ->].
        -- change (has_char PIPE [IN]) with false. change (has_char IN [IN]) with true. cbv iota.
           rewrite En. cbn [rbind]. unfold s2. by rewrite E5.
        -- change (has_char PIPE [OUT]) with false. change (has_char IN [OUT]) with false. change (has_char OUT [OUT]) with true.
           cbv iota. rewrite En. cbn [rbind]. unfold s2. by rewrite E4.
      * by eapply no_grow.
    + replace (len pre + 1 + 1) with (len (pre ++ [None; Some nm])) by (rewrite length_app; simpl; lia).
      replace (len pre + 2 * Z.of_nat (1 + length rs)) with (len (pre ++ [None; Some nm]) + 2 * len rs)
        by (rewrite length_app; simpl; lia). exact G.
Qed.
Lemma pipe_go s pre r p st i o : scans s (pre ++ Some [PIPE] :: r) p st i o →
  ∃ s', goes (len pre) s 1 (len pre + 1) s' ∧
    scans s' (pre ++ None :: r) (p + 1) (st ++ [len pre + 1]) i o.
Proof using Hmem.
  intros [H1 H2 H3 H4 H5 H6].
  set (s1 := Launcher (l_calls s) (pre ++ None :: r) (l_pipes s + 1) (l_cmd_buf s) (l_starts s ++ [len pre + 1]) (l_input s) (l_output s)).
  assert (Et : launch_turn mem_left (len pre) [PIPE] s = Ok (len pre, s1)).
  { unfold launch_turn. change (has_char PIPE [PIPE]) with true. cbv iota. rewrite H1, aset_mid. cbn [deref rbind].
    by rewrite (proj2 (Z.ltb_lt (len (l_starts s)) _)) by (by rewrite H3). }
  assert (Hl : len (l_starts s1) = len st + 1) by (unfold s1; cbn; rewrite H3, length_app; simpl; lia).
  assert (Hargs : aget (l_args s) (len pre) = Some (Some [PIPE])) by (rewrite H1; apply aget_mid).
  destruct (Z.leb_spec (l_cmd_buf s) (len st + 1)) as [Hf|Hf].
  - eexists. split.
    + apply (turn_goes _ _ _ _ _ _ Hargs Et). unfold grow_starts. rewrite Hl. cbn [l_cmd_buf s1].
      rewrite (proj2 (Z.leb_le _ _)), Hmem by done. done.
    + split; cbn; try done; [by rewrite H2|by rewrite H3|]. rewrite length_app. simpl. lia.
  - exists s1. split.
    + apply (turn_goes _ _ _ _ _ _ Hargs Et). unfold grow_starts. rewrite Hl. cbn [l_cmd_buf s1].
      by rewrite (proj2 (Z.leb_gt _ _)).
    + split; cbn; try done; [by rewrite H2|by rewrite H3|]. rewrite length_app. simpl. lia.
Qed.

Lemma redirs_len rs : length (rs ≫= redir_tokens) = (2 * length rs)%nat ∧ length (rs ≫= redir_cells) = (2 * length rs)%nat.
Proof. induction rs as [|r rs [IH1 IH2]]; [done|]. cbn [mbind list_bind]. rewrite !length_app, IH1, IH2. simpl. lia. Qed.

Lemma cells_len c : length (cells c) = length (tokens c).
Proof. unfold cells, tokens. rewrite !length_app, length_fmap. by destruct (redirs_len (c_redirs c)) as [-> ->]. Qed.

Lemma command_go c s pre r p st i o : command_ok c → scans s (pre ++ (Some <$> tokens c) ++ r) p st i o →
  ∃ n s', goes (len pre) s n (len (pre ++ cells c)) s' ∧ (n ≤ length (tokens c))%nat ∧
    scans s' ((pre ++ cells c) ++ r) p st (last_name IN i (c_redirs c)) (last_name OUT o (c_redirs c)).
Proof using Hmem.
  intros [Hw Hr] H. unfold tokens in *. rewrite fmap_app, <- app_assoc in H.
  pose proof (words_go _ _ _ _ _ _ _ _ Hw H) as G1. rewrite app_assoc in H.
  destruct (redirs_go (c_redirs c) s (pre ++ (Some <$> c_words c)) r p st i o Hr H) as (s' & G2 & H2).
  destruct (redirs_len (c_redirs c)) as [L1 L2]. rewrite length_app, length_fmap in G2.
  exists (length (c_words c) + length (c_redirs c))%nat, s'. split; [|split].
  - replace (len (pre ++ cells c)) with (Z.of_nat (length pre + length (c_words c)) + 2 * len (c_redirs c)).
    + eapply goes_trans; [exact G1|]. by rewrite <- Nat2Z.inj_add.
    + unfold cells. rewrite !length_app, length_fmap, L2. lia.
  - rewrite length_app, L1. lia.
  - unfold cells. rewrite <- app_assoc in H2. rewrite <- !app_assoc. exact H2.
Qed.

Lemma pipeline_go cs s pre p st i o : cs ≠ [] → Forall command_ok cs →
  scans s (pre ++ (Some <$> pipeline cs) ++ [None]) p st i o →
  ∃ n s', goes (len pre) s n (len (pre ++ pipeline_cells cs)) s' ∧ (n ≤ length (pipeline cs))%nat ∧
    scans s' ((pre ++ pipeline_cells cs) ++ [None]) (p + len cs - 1) (st ++ tail (starts_from (len pre) cs))
      (last_name IN i (all_redirs cs)) (last_name OUT o (all_redirs cs)).
Proof using Hmem.
  intros Hne Hok. revert s pre p st i o Hne. induction Hok as [|c cs Hc Hok IH]; intros s pre p st i o Hne H; [done|].
  destruct cs as [|c2 cs].
  - destruct (command_go c s pre [None] p st i o Hc H) as (n & s' & G & Hn & H').
    exists n, s'. split; [exact G|]. split; [exact Hn|]. cbn [starts_from tail]. rewrite app_nil_r.
    unfold all_redirs. cbn [mbind list_bind]. rewrite app_nil_r. replace (p + len [c] - 1) with p by (simpl; lia). exact H'.
  - set (cs2 := c2 :: cs) in *.
    change (pipeline (c :: cs2)) with (tokens c ++ [PIPE] :: pipeline cs2) in *.
    change (pipeline_cells (c :: cs2)) with (cells c ++ None :: pipeline_cells cs2).
    rewrite fmap_app, <- app_assoc in H. destruct (command_go c s pre _ p st i o Hc H) as (n1 & s1 & G1 & Hn1 & H1).
    cbn [fmap list_fmap app] in H1. destruct (pipe_go _ _ _ _ _ _ _ H1) as (s2 & G2 & H2).
    rewrite cons_middle, app_assoc in H2. assert (Hlp : len ((pre ++ cells c) ++ [None]) = len (pre ++ cells c) + 1)
      by (rewrite (length_app _ [None]); simpl; lia).
    destruct (IH s2 _ _ _ _ _ ltac:(done) H2) as (n3 & s3 & G3 & Hn3 & H3).
    rewrite Hlp in G3, H3. exists (n1 + 1 + n3)%nat, s3. split; [|split].
    + rewrite <- !app_assoc in G3. cbn [app] in G3. eapply goes_trans; [|exact G3].
      eapply goes_trans; [exact G1|exact G2].
    + rewrite length_app. cbn [length]. lia.
    + rewrite <- !app_assoc in H3. rewrite <- !app_assoc. cbn [app] in H3 |- *.
      replace (p + len (c :: cs2) - 1) with (p + 1 + len cs2 - 1) by (simpl; lia).
      assert (Hst : (len (pre ++ cells c) + 1) :: tail (starts_from (len (pre ++ cells c) + 1) cs2) = tail (starts_from (len pre) (c :: cs2))).
      { cbn [starts_from tail]. replace (len pre + len (cells c) + 1) with (len (pre ++ cells c) + 1) by (rewrite length_app; lia).
        done. }
      rewrite <- Hst. unfold all_redirs in *. cbn [mbind list_bind]. unfold last_name in *. rewrite !foldl_app. exact H3.
Qed.

(** ** What the commands are started with *)

(** The array of arguments from a command on, up to the first [NULL]. *)
Fixpoint argv (l : list (option (list Z))) : list (list Z) :=
  match l with
  | Some t :: l => t :: argv l
  | _ => []
  end.

Lemma argv_head l i w ws : argv (drop i l) = w :: ws → l !! i = Some (Some w).
Proof.
  intros E. rewrite <- (Nat.add_0_r i), <- lookup_drop. by destruct (drop i l) as [|[x|] l']; [| injection E as -> |].
Qed.

Lemma argv_words ws r : argv ((Some <$> ws) ++ None :: r) = ws.
Proof. induction ws as [|w ws IH]; [done|]. cbn. by rewrite IH. Qed.

Lemma argv_cells c r : argv (cells c ++ None :: r) = c_words c.
Proof.
  unfold cells. rewrite <- app_assoc. destruct (c_redirs c) as [|x rs]; [apply argv_words|].
  cbn [mbind list_bind redir_cells app]. apply argv_words.
Qed.

Lemma pipeline_argv cs pre j c : cs !! j = Some c →
  ∃ a, starts_from (len pre) cs !! j = Some a ∧ 0 ≤ a ∧
    argv (drop (Z.to_nat a) ((pre ++ pipeline_cells cs) ++ [None])) = c_words c.
Proof.
  revert pre j. induction cs as [|c0 cs IH]; intros pre j Hj; [done|]. destruct j as [|j]; cbn [lookup list_lookup] in Hj.
  - injection Hj as ->. exists (len pre). split; [done|]. split; [lia|]. rewrite Nat2Z.id, <- app_assoc, drop_app_length.
    destruct cs as [|c2 cs]; [apply argv_cells|].
    change (pipeline_cells (c :: c2 :: cs)) with (cells c ++ None :: pipeline_cells (c2 :: cs)).
    rewrite <- app_assoc. cbn [app]. apply argv_cells.
  - destruct cs as [|c2 cs]; [done|].
    destruct (IH ((pre ++ cells c0) ++ [None]) j Hj) as (a & Ha & Ha0 & Ea). exists a.
    change (pipeline_cells (c0 :: c2 :: cs)) with (cells c0 ++ None :: pipeline_cells (c2 :: cs)).
    cbn [starts_from lookup list_lookup]. replace (len pre + len (cells c0) + 1) with (len ((pre ++ cells c0) ++ [None]))
      by (rewrite !length_app; simpl; lia).
    split; [exact Ha|]. split; [exact Ha0|]. rewrite <- !app_assoc in Ea. rewrite <- !app_assoc. exact Ea.
Qed.

Lemma starts_len z cs : length (starts_from z cs) = length cs.
Proof. revert z. induction cs as [|c cs IH]; intros z; [done|]. cbn [starts_from length]. by rewrite IH. Qed.

Lemma scan_args_ok k fuel cs (Hne : cs ≠ []) (Hok : Forall command_ok cs)
    (Hf : (length (pipeline cs) < fuel)%nat) :
  ∃ s, scan_args mem_left fuel k (pipeline cs) = Ok (Ret s) ∧
    l_pipes s = len cs - 1 ∧ length (l_starts s) = length cs ∧
    (∀ j c, cs !! j = Some c → ∃ a, l_starts s !! j = Some a ∧ 0 ≤ a ∧ argv (drop (Z.to_nat a) (l_args s)) = c_words c) ∧
    l_input s = last_name IN None (all_redirs cs) ∧ l_output s = last_name OUT None (all_redirs cs).
Proof using Hmem.
  unfold scan_args. rewrite Hmem. set (s0 := Launcher _ _ _ _ _ _ _).
  destruct (pipeline_go cs s0 [] 0 [0] None None Hne Hok) as (n & s & G & Hn & H); [by split|].
  cbn [app] in *. exists s. destruct H as [H1 H2 H3 H4 H5 H6].
  assert (Hst : l_starts s = starts_from 0 cs) by (rewrite H3; by destruct cs).
  split; [|split; [lia|split; [|split; [|done]]]].
  - replace fuel with (n + S (fuel - n - 1))%nat by lia. change (len []) with 0 in G. rewrite G. cbn [launch_loop].
    rewrite H1, aget_mid. done.
  - by rewrite Hst, starts_len.
  - intros j c Hj. rewrite Hst, H1. by apply (pipeline_argv cs []).
Qed.
(** C30: what [rash_launch] makes of the tokens of a pipeline, with memory for what it allocates and
    however many commands there are: one pipe less than commands; every command
    starts where its words are, up to a [NULL], so that redirections, and what comes
    behind them, are not among its arguments; input and output are the last names behind
    their operators. *)
Theorem args_scanned k fuel cs (Hne : cs ≠ []) (Hok : Forall command_ok cs)
    (Hf : (length (pipeline cs) < fuel)%nat) :
  ∃ s, scan_args mem_left fuel k (pipeline cs) = Ok (Ret s) ∧
    l_pipes s = len cs - 1 ∧ length (l_starts s) = length cs ∧
    (∀ j c, cs !! j = Some c → ∃ a, l_starts s !! j = Some a ∧ 0 ≤ a ∧ argv (drop (Z.to_nat a) (l_args s)) = c_words c) ∧
    l_input s = last_name IN None (all_redirs cs) ∧ l_output s = last_name OUT None (all_redirs cs).
Proof using Hmem. by apply scan_args_ok. Qed.
End launch.

(** ** Examples *)
Definition all_mem : nat → bool := λ _, true.

Lemma read_line_edits_witness :
  let s := Console 0 15 (blank_screen 2 24) in
  ∃ n out, rash_read_line all_mem 0 (codes "lsx" ++ [127] ++ 10 :: codes "cat") = Ok (Ret (codes "ls", codes "cat"), n, out ++ [10]) ∧
    shows s (codes "ls") (puts_on s out (abs (screen s))).
Proof.
  intros s. destruct (read_line_edits all_mem (λ _, eq_refl) 0 (codes "lsx" ++ [127]) (codes "cat")) as (n & out & E & H).
  - repeat (apply list.Forall_cons; split; [first [left; vm_compute; split; discriminate || reflexivity|by right]|]). done.
  - exists n, out. split; [exact E|]. apply H.
    + split; [simpl; lia|]. split; [simpl; lia|]. apply blank_screen_ok; lia.
    + intros pre (l & El). destruct pre as [|a [|b [|c [|d pre]]]]; simplify_eq/=; try lia.
      destruct pre; [|done]. simplify_eq/=. lia.
Defined.

(** Typed from the last column but one on, and taken back: the line is empty, and a character is
    left on the screen. *)
Example wrapped_line :
  let s := Console 0 15 (blank_screen 78 3) in
  (let* (r, _, out) := rash_read_line all_mem 0 (codes "abc" ++ [8; 8; 8; 10]) in
  let t := puts_on s (take (length out - 1) out) (abs (screen s)) in
  Ok (r, aget (Vga.Term.cells t) 318, aget (Vga.Term.cells t) 319, Vga.Term.col t, Vga.Term.row t))
  = Ok (Ret ([], []), Some (cell s (ch "a")), Some (cell s (ch "b")), 0, 4).
Proof. vm_compute. reflexivity. Qed.

Lemma split_is_lex_witness :
  ∃ cap k', rash_split_line all_mem 0 (codes "ls -l|wc > 'a b'") = Ok (Ret ([codes "ls"; codes "-l"; [PIPE]; codes "wc"; [OUT]; codes "a b"], cap), k') ∧ 6 < cap.
Proof.
  apply (split_is_lex all_mem (λ _, eq_refl) 0 (codes "ls -l|wc > 'a b'")); [|by vm_compute].
  repeat (apply list.Forall_cons; split; [done|]). done.
Defined.

Lemma split_quoted_witness :
  ∃ cap k', rash_split_line all_mem 0 (codes "'it'\''s' '' '|'") = Ok (Ret ([codes "it's"; codes "|"], cap), k') ∧ 2 < cap.
Proof.
  apply (split_quoted all_mem 0 [codes "it's"; []; codes "|"]); [done|].
  repeat (apply list.Forall_cons; split; [repeat (apply list.Forall_cons; split; [done|]); done|]). done.
Defined.

(** An empty argument is none. *)
Example empty_word :
  (let* (r, _) := rash_split_line all_mem 0 (codes "cat '' x") in Ok r) = Ok (Ret ([codes "cat"; codes "x"], 16)).
Proof. vm_compute. reflexivity. Qed.

Definition ls_wc : list command :=
  [Command [codes "ls"; codes "-l"] [(IN, codes "in")]; Command [codes "wc"] [(OUT, codes "out"); (OUT, codes "out2")]].

Lemma args_scanned_witness :
  ∃ s, scan_args all_mem 99 0 (pipeline ls_wc) = Ok (Ret s) ∧
    l_pipes s = 1 ∧ length (l_starts s) = 2%nat ∧
    (∀ j c, ls_wc !! j = Some c → ∃ a, l_starts s !! j = Some a ∧ 0 ≤ a ∧ argv (drop (Z.to_nat a) (l_args s)) = c_words c) ∧
    l_input s = Some (codes "in") ∧ l_output s = Some (codes "out2").
Proof.
  apply (args_scanned all_mem (λ _, eq_refl) 0 99 ls_wc); [done| |simpl; lia].
  repeat (apply list.Forall_cons; split; [split; repeat (apply list.Forall_cons; split; [first [by left|by right|by split_and!]|]); done|]). done.
Defined.

(** With fifteen words in the array, a word with an operator right behind it takes the last
    place and one behind the array. *)
Example sixteenth_word :
  rash_split_line all_mem 0 (concat (replicate 15 (codes "x ")) ++ codes "x|y") = Fault.
Proof. vm_compute. reflexivity. Qed.

(** A quote that is not closed takes the word with it, and a backslash at the end too. *)
Example open_quote :
  (let* (r, _) := rash_split_line all_mem 0 (codes "echo 'hello") in Ok r) = Ok (Ret ([codes "echo"], 16)) ∧
  (let* (r, _) := rash_split_line all_mem 0 (codes "echo hello\") in Ok r) = Ok (Ret ([codes "echo"], 16)).
Proof. vm_compute. done. Qed.

(** A redirection without a name: the length of [NULL] is taken. *)
Example no_name : scan_args all_mem 99 0 [codes "cat"; [IN]] = Fault.
Proof. reflexivity. Qed.

(** Without memory the pointer that is [NULL] is used. *)
Example no_memory : rash_split_line (λ _, false) 0 (codes "a") = Fault.
Proof. reflexivity. Qed.
