(* ===== verification/Pipeline.v ===== *)
(** * Pipeline: how the shell starts programs

    [do_commands], [rash_launch] and [rash_execute] of [rlibc/rash.c], on the tokens of [Rash]
    and on the files of [Vfs]; and the calls of [rlibc/unistd] and [rlibc/fcntl] that they use. *)

From S2P Require Import Prelude Malloc Headers CString Vga Fs Names Blocks Nodes Demo Ramfs Stream Pipes Stdio Vfs Files Initrd Execve Rash.

(** [sys/stat.h]: 0400, 0200, 040 and 04 in octal. *)
Definition S_IRUSR : Z := 0x100.
Definition S_IWUSR : Z := 0x80.
Definition S_IRGRP : Z := 0x20.
Definition S_IROTH : Z := 4.

Section pipeline.
Context {MA : Malloc} {SY : Sys}.

(** ** unistd/dup.c, unistd/close.c, unistd/pipe.c, fcntl/fcntl.c, fcntl/open.c, fcntl/creat.c: the calls *)
Definition close (fd : Z) (s : fs) : res (Z * fs) := close_vfs fd s.
Definition open (name : list Z) (oflag mode : Z) (s : fs) : res (Z * fs) :=
  open_vfs (Some name) oflag (if has oflag O_CREAT then mode else 0) s.
Definition creat (name : list Z) (mode : Z) (s : fs) : res (Z * fs) := creat_vfs name mode s.
Definition fcntl (fd cmd arg : Z) (s : fs) : res (Z * fs) :=
  do_fcntl fd cmd (if (cmd =? F_DUPFD) || (cmd =? F_SETFD) || (cmd =? F_SETFL) then arg else 0) s.
Definition dup (fd : Z) (s : fs) : res (Z * fs) := fcntl fd F_DUPFD 0 s.
Definition dup2 (fd fd2 : Z) (s : fs) : res (Z * fs) :=
  let* (_, s) := close fd2 s in fcntl fd F_DUPFD fd2 s.

(** ** The other calls

    What [fork] and [wait] return, with the files as the task finds them then; [execv]
    is [None] when it does not return. *)
Context (fork wait : fs → res (Z * fs)) (execv : option (list Z) → list (list Z) → fs → res (option (Z * fs))).
Context (mem_left : nat → bool).

(** A function has returned, or the program of the task is another one. *)
Inductive ended := Returned (v : Z) | Gone.

(** ** do_commands *)

(** The pipes, [i] to [pipes - 1]: the descriptors; [None] when one could not be made. *)
Fixpoint make_pipes (n : nat) (pipefds : list Z) (s : fs) : res (option (list Z) * fs) :=
  match n with
  | O => Ok (Some pipefds, s)
  | S n =>
      let* (r, fd0, fd1, s) := creat_pipe 0 0 s in
      if r <? 0 then Ok (None, s) else make_pipes n (pipefds ++ [fd0; fd1]) s
  end.

Fixpoint close_all (fds : list Z) (s : fs) : res fs :=
  match fds with
  | [] => Ok s
  | fd :: fds => let* (_, s) := close fd s in close_all fds s
  end.

(** [if (dup2(fd, fd2) < 0) return -1;] *)
Definition connect (fd fd2 : Z) (s : fs) : res (bool * fs) :=
  let* (r, s) := dup2 fd fd2 s in Ok (0 <=? r, s).

(** The child's part for command [i]: its output and its input. *)
Definition child_output (l : launcher) (pipefds : list Z) (i : Z) (s : fs) : res (bool * fs) :=
  if i <? l_pipes l then
    let* fd := deref (aget pipefds (2 * i + 1)) in connect fd 1 s
  else
    match l_output l with
    | Some name =>
        let* (output_fp, s) := creat name (Z.lor (Z.lor (Z.lor S_IRUSR S_IWUSR) S_IRGRP) S_IROTH) s in
        connect output_fp 1 s
    | None => Ok (true, s)
    end.

Definition child_input (l : launcher) (pipefds : list Z) (i : Z) (s : fs) : res (bool * fs) :=
  if negb (i =? 0) then
    let* fd := deref (aget pipefds (2 * i - 2)) in connect fd 0 s
  else
    match l_input l with
    | Some name => let* (input_fp, s) := open name O_RDONLY 0 s in connect input_fp 0 s
    | None => Ok (true, s)
    end.

(** [None]: the child goes on with the loop. *)
Definition child (l : launcher) (pipefds : list Z) (i : Z) (s : fs) : res (option ended * fs) :=
  let* (ok, s) := child_output l pipefds i s in
  if negb ok then Ok (Some (Returned (-1)), s)
  else
    let* (ok, s) := child_input l pipefds i s in
    if negb ok then Ok (Some (Returned (-1)), s)
    else
      let* s := close_all pipefds s in
      let* start := deref (aget (l_starts l) i) in
      let* path := deref (aget (l_args l) start) in
      let* r := execv path (argv (drop (Z.to_nat start) (l_args l))) s in
      match r with
      | None => Ok (Some Gone, s)
      | Some (v, s) => Ok (if v <? 0 then Some (Returned (-1)) else None, s)
      end.

Fixpoint start_commands (n : nat) (i : Z) (l : launcher) (pipefds : list Z) (s : fs) : res (option ended * fs) :=
  match n with
  | O => Ok (None, s)
  | S n =>
      let* (pid, s) := fork s in
      if pid =? 0 then
        let* (r, s) := child l pipefds i s in
        match r with
        | Some e => Ok (Some e, s)
        | None => start_commands n (i + 1) l pipefds s
        end
      else if pid <? 0 then Ok (Some (Returned (-1)), s)
      else start_commands n (i + 1) l pipefds s
  end.

Fixpoint wait_all (n : nat) (s : fs) : res fs :=
  match n with
  | O => Ok s
  | S n => let* (_, s) := wait s in wait_all n s
  end.

Definition do_commands (l : launcher) (s : fs) : res (ended * fs) :=
  let pipes := Z.to_nat (l_pipes l) in
  (* [malloc(0)] is [NULL], which is not used; another [NULL] is *)
  if (0 <? l_pipes l) && negb (mem_left (l_calls l)) then Fault
  else
    let* (fds, s) := make_pipes pipes [] s in
    match fds with
    | None => Ok (Returned (-1), s)
    | Some pipefds =>
        let* (r, s) := start_commands (S pipes) 0 l pipefds s in
        match r with
        | Some e => Ok (e, s)
        | None =>
            let* s := close_all pipefds s in
            let* s := wait_all (S pipes) s in
            Ok (Returned 0, s)
        end
    end.

(** ** rash_launch, rash_execute *)
Inductive shell := Continue (v : Z) | Exited (status : Z) | Replaced.

Definition rash_launch (fuel k : nat) (args : list (list Z)) (s : fs) : res (shell * fs) :=
  let* r := scan_args mem_left fuel k args in
  match r with
  | Exit e => Ok (Exited e, s)
  | Ret l =>
      let* (e, s) := do_commands l s in
      match e with
      | Gone => Ok (Replaced, s)
      | Returned v => if negb (v =? 0) then Ok (Exited EXIT_FAILURE, s) else Ok (Continue 1, s)
      end
  end.

Definition rash_execute (fuel k : nat) (args : list (list Z)) (s : fs) : res (shell * fs) :=
  match args with
  | [] => Ok (Continue 1, s)
  | a :: _ =>
      match builtin builtin_str builtin_func a with
      | Some v => Ok (Continue v, s)
      | None => rash_launch fuel k args s
      end
  end.

(** One turn of [rash_loop]: the prompt, a line, its tokens, the command. *)
Definition rash_turn (fuel k : nat) (input : list Z) (s : fs) : res (shell * list Z * fs) :=
  let* (r, k, _) := rash_read_line mem_left k input in
  match r with
  | Exit e => Ok (Exited e, input, s)
  | Ret (line, input) =>
      let* (t, k) := rash_split_line mem_left k line in
      match t with
      | Exit e => Ok (Exited e, input, s)
      | Ret (args, _) => let* (x, s) := rash_execute fuel k args s in Ok (x, input, s)
      end
  end.

(** [do ... while (status)], and what comes behind it in [main]: [EXIT_SUCCESS]. *)
Fixpoint rash_loop (turns fuel k : nat) (input : list Z) (s : fs) : res (shell * fs) :=
  match turns with
  | O => Fuel
  | S turns =>
      let* (x, input, s) := rash_turn fuel k input s in
      match x with
      | Continue v => if v =? 0 then Ok (Exited 0, s) else rash_loop turns fuel k input s
      | _ => Ok (x, s)
      end
  end.

(** ** dup2 *)
Lemma dup2_moves fd fd2 f f2 s : len (files s) = OPEN_MAX → get_fd fd s = Ok f → vfs_node f ≠ 0 →
  get_fd fd2 s = Ok f2 → vfs_node f2 ≠ 0 → (∃ n, vnodes s !! vfs_node f2 = Some n ∧ n_close n = None) →
  fd ≠ fd2 →
  dup2 fd fd2 s = Ok (fd2, at_fd fd2 (Fildes (vfs_node f) (at_ f) (clr (oflag f) FD_CLOEXEC)) s).
Proof.
  intros Hl Ef Hf Ef2 Hf2 (n & En & Hc) Hne.
  pose proof (get_fd_range _ _ _ Ef) as Hr. pose proof (get_fd_range _ _ _ Ef2) as Hr2.
  unfold dup2, close, close_vfs. rewrite (open_fd_some _ _ _ Ef2) by done. cbn [rbind]. unfold get_node.
  rewrite En. cbn [deref rbind]. rewrite Hc. cbn [rbind]. change (0 <? 0) with false. cbv iota.
  rewrite put_fd_ok by done. cbn [rbind]. set (s1 := at_fd fd2 (Fildes 0 0 0) s).
  assert (Hl1 : len (files s1) = OPEN_MAX) by (unfold s1, at_fd; simpl; by rewrite length_insert).
  assert (Ef1 : get_fd fd s1 = Ok f).
  { unfold get_fd, s1, at_fd in *. simpl. rewrite aget_insert by done. replace (fd2 =? fd) with false by lia. done. }
  unfold fcntl. change (F_DUPFD =? F_DUPFD) with true. cbn [orb]. unfold do_fcntl.
  rewrite (open_fd_some _ _ _ Ef1) by done. cbn [rbind]. change (F_DUPFD =? F_DUPFD) with true. cbv iota.
  rewrite sint_small by (unfold OPEN_MAX in *; simpl; lia). rewrite (proj2 (Z.ltb_ge fd2 0)) by lia.
  destruct (get_free_fd_spec fd2 s1 Hl1) as (r & -> & Hlow); [lia|]. cbn [rbind].
  assert (Hfree : is_free_fd (files s1) fd2).
  { exists (Fildes 0 0 0). split; [|done]. unfold s1, at_fd. simpl. rewrite aget_insert by done. by rewrite Z.eqb_refl. }
  assert (r = fd2) as ->.
  { destruct Hlow as [[_ Hno]|(Hrr & _ & Hmin)]; [by destruct (Hno fd2); [lia|]|].
    destruct (Z.eq_dec r fd2); [done|]. by destruct (Hmin fd2); [lia|]. }
  rewrite (proj2 (Z.ltb_ge fd2 0)) by lia. rewrite put_fd_ok by (rewrite Hl1; lia). cbn [rbind].
  unfold s1. by rewrite at_fd_at_fd.
Qed.
(** ** One command *)

(** The descriptors of a program whose input comes from the file of the entry [e], opened as [r]. *)
Definition input_from (e : entry) (r : Z) (s : fs) : fs :=
  at_fd 0 (Fildes (e_node e) 0 O_RDONLY) (at_fd r (Fildes (e_node e) 0 O_RDONLY) s).

(** Descriptor [fd] is open on a node without a function of its own for closing. *)
Definition plain_fd (fd : Z) (s : fs) : Prop :=
  ∃ f n, get_fd fd s = Ok f ∧ vfs_node f ≠ 0 ∧ vnodes s !! vfs_node f = Some n ∧ n_close n = None.

Lemma input_connected l s L ps es e r : dir_ok s L ps es → e ∈ es → only_named s ps e →
  lowest_free (files s) 3 r → r ≠ -1 → plain_fd 0 s → l_input l = Some (e_name e) →
  child_input l [] 0 s = Ok (true, input_from e r s).
Proof.
  intros Hd He Hn Hlow Hr (f0 & n0 & E0 & Hn0 & En0 & Hc0) Hin.
  pose proof (open_named s L ps es e r Hd He Hn Hlow Hr) as Ho.
  destruct (dir_entry s L ps es e Hd He) as [Hnode _]. destruct Hd as (_ & _ & _ & Hl & _).
  destruct Hlow as [[-> _]|(Hrr & _ & _)]; [done|].
  unfold child_input. change (0 =? 0) with true. cbn [negb]. rewrite Hin. unfold open. change (has O_RDONLY O_CREAT) with false. cbv iota. rewrite Ho. cbn [rbind].
  unfold connect. rewrite (dup2_moves r 0 (Fildes (e_node e) 0 O_RDONLY) f0); try done.
  - unfold at_fd. simpl. by rewrite length_insert.
  - apply get_at_fd. rewrite Hl. lia.
  - unfold get_fd, at_fd in *. simpl. rewrite aget_insert by (rewrite Hl; lia). replace (r =? 0) with false by lia. exact E0.
  - by exists n0.
  - lia.
Qed.

(** C31: a line with one command whose input is redirected from a file of the directory, as
    [rash_launch] treats its tokens, with memory for what it allocates.  The child that
    [fork] makes becomes the program named by the first word, with the words as
    arguments and with descriptor 0 at the start of the file, open for
    reading; the other descriptors are those of the shell, and the one that the file was
    opened with.  The shell itself waits once and goes on. *)
Theorem command_starts fuel k w ws s L ps es e r
    (Hmem : ∀ k, mem_left k = true) (Hw : Forall plain_word (w :: ws))
    (Hd : dir_ok s L ps es) (He : e ∈ es) (Hn : only_named s ps e)
    (Hlow : lowest_free (files s) 3 r) (Hr : r ≠ -1) (H0 : plain_fd 0 s)
    (Hf : (length ws + 3 < fuel)%nat) :
  let args := pipeline [Command (w :: ws) [(IN, e_name e)]] in
  (fork s = Ok (0, s) → execv (Some w) (w :: ws) (input_from e r s) = Ok None →
     rash_launch fuel k args s = Ok (Replaced, input_from e r s)) ∧
  (∀ pid s1 x s2, 0 < pid → fork s = Ok (pid, s1) → wait s1 = Ok (x, s2) →
     rash_launch fuel k args s = Ok (Continue 1, s2)).
Proof.
  intros args. set (c := Command (w :: ws) [(IN, e_name e)]) in *.
  destruct (scan_args_ok mem_left Hmem k fuel [c]) as (l & El & Hp & Hs & Hargv & Hi & Ho); [done| | |].
  { apply list.Forall_cons. split; [|done]. split; [exact Hw|]. apply list.Forall_cons. split; [by left|done]. }
  { unfold args, c, pipeline, tokens. rewrite length_app. simpl. lia. }
  destruct (Hargv 0%nat c eq_refl) as (a & Ha & Ha0 & Hdrop). change (c_words c) with (w :: ws) in Hdrop.
  change (len [c] - 1) with 0 in Hp. change (last_name IN None (all_redirs [c])) with (Some (e_name e)) in Hi.
  change (last_name OUT None (all_redirs [c])) with (@None (list Z)) in Ho.
  assert (Hstart : aget (l_starts l) 0 = Some a) by exact Ha.
  assert (Hpath : aget (l_args l) a = Some (Some w)).
  { unfold aget. replace (a <? 0) with false by lia. by apply (argv_head _ _ w ws). }
  unfold rash_launch. fold args in El. rewrite El. cbn [rbind]. unfold do_commands. rewrite Hp.
  change (0 <? 0) with false. change (Z.to_nat 0) with 0%nat. cbn [andb make_pipes rbind start_commands].
  split.
  - intros Hfork Hexec. rewrite Hfork. cbn [rbind]. change (0 =? 0) with true. cbv iota.
    unfold child, child_output. rewrite Hp, Ho. change (0 <? 0) with false. cbn [rbind negb].
    rewrite (input_connected l s L ps es e r) by done. cbn [rbind negb close_all].
    rewrite Hstart. cbn [deref rbind]. rewrite Hpath. cbn [deref rbind]. rewrite Hdrop, Hexec. done.
  - intros pid s1 x s2 Hpid Hfork Hwait. rewrite Hfork. cbn [rbind].
    rewrite (proj2 (Z.eqb_neq pid 0)), (proj2 (Z.ltb_ge pid 0)) by lia. cbn [rbind close_all wait_all].
    rewrite Hwait. done.
Qed.
End pipeline.

(** ** The demonstration system

    Descriptor 0 is open on the file "f", which is the only one. *)
Definition demo_shell : fs := at_fd 0 (Fildes 0x400010 0 O_RDONLY) (demo_file [1; 2; 3] 0).

(** [wc < f]. *)
Lemma command_starts_witness :
  let args := [codes "wc"; codes "-l"; [IN]; codes "f"] in
  rash_launch (λ s, Ok (0, s)) (λ s, Ok (0, s)) (λ _ _ _, Ok None) all_mem 9 0 args demo_shell
    = Ok (Replaced, input_from (demo_entry [1; 2; 3]) 4 demo_shell) ∧
  rash_launch (λ s, Ok (2, s)) (λ s, Ok (2, s)) (λ _ _ _, Ok None) all_mem 9 0 args demo_shell
    = Ok (Continue 1, demo_shell).
Proof.
  intros args.
  assert (Hd : dir_ok demo_shell demo_allocated [0x400010] [demo_entry [1; 2; 3]]).
  { apply dir_ok_fd, demo_dir_ok. simpl. lia. }
  assert (Hn : only_named demo_shell [0x400010] (demo_entry [1; 2; 3])).
  { intros q ->%list_elem_of_singleton _. done. }
  assert (Hlow : lowest_free (files demo_shell) 3 4).
  { right. split; [unfold OPEN_MAX; lia|]. split; [by exists (Fildes 0 0 0)|].
    intros i Hi. assert (i = 3) as -> by lia. by intros (f & [= <-] & ?). }
  assert (H0 : plain_fd 0 demo_shell).
  { exists (Fildes 0x400010 0 O_RDONLY), (demo_node DEVID_RAMFS S_IFREG (Some RAMFS) 3).
    split; [done|]. split; [done|]. split; [apply lookup_singleton_eq|done]. }
  assert (Hw : Forall plain_word [codes "wc"; codes "-l"]).
  { repeat (apply list.Forall_cons; split; [by split_and!|]). done. }
  split.
  - destruct (command_starts (λ s, Ok (0, s)) (λ s, Ok (0, s)) (λ _ _ _, Ok None) all_mem 9 0 (codes "wc") [codes "-l"]
      demo_shell demo_allocated [0x400010] [demo_entry [1; 2; 3]] (demo_entry [1; 2; 3]) 4 (λ _, eq_refl) Hw Hd
      ltac:(by left) Hn Hlow ltac:(lia) H0 ltac:(simpl; lia)) as [H _]. exact (H eq_refl eq_refl).
  - destruct (command_starts (λ s, Ok (2, s)) (λ s, Ok (2, s)) (λ _ _ _, Ok None) all_mem 9 0 (codes "wc") [codes "-l"]
      demo_shell demo_allocated [0x400010] [demo_entry [1; 2; 3]] (demo_entry [1; 2; 3]) 4 (λ _, eq_refl) Hw Hd
      ltac:(by left) Hn Hlow ltac:(lia) H0 ltac:(simpl; lia)) as [_ H].
    exact (H 2 demo_shell 2 demo_shell eq_refl eq_refl eq_refl).
Defined.

(** A pipeline of two commands: the shell makes the pipe, forks twice, closes its two ends and
    waits; then the first child sets its descriptors up.  When it closes its copies the
    readers and writers are 0, although descriptor 1 still writes to the pipe: the pipe
    is deleted, and that follows the [next] of the first block, which was
    never set. *)
Definition ls_wc_args : list (list Z) := [codes "ls"; [PIPE]; codes "wc"].

Example pipe_deleted_early :
  (let* (r, fd0, fd1, s) := creat_pipe 0 0 demo_shell in
   let shell_files := files s in
   let* s := close_all [fd0; fd1] s in
   let s := set_files (<[1%nat := Fildes 0x400010 0 O_RDONLY]> shell_files) s in
   let* (_, s) := connect fd1 1 s in
   let* (_, s) := close fd0 s in
   let* f1 := get_fd 1 s in
   let* f := get_fd fd1 s in
   Ok (r, vfs_node f1 =? vfs_node f, oflag f1, match close fd1 s with Fault => true | _ => false end))
  = Ok (0, true, O_WRONLY, true).
Proof. vm_compute. reflexivity. Qed.

Example pipeline_faults :
  (let* (_, fd0, fd1, s) := creat_pipe 0 0 demo_shell in
   let shell_files := files s in
   let* s := close_all [fd0; fd1] s in
   let* r := scan_args all_mem 9 0 ls_wc_args in
   match r with
   | Exit _ => Ok false
   | Ret l =>
       Ok match child (λ _ _ _, Ok None) l [fd0; fd1] 0
                  (set_files (<[1%nat := Fildes 0x400010 0 O_RDONLY]> shell_files) s) with
          | Fault => true
          | _ => false
          end
   end) = Ok true.
Proof. vm_compute. reflexivity. Qed.
