(* ===== verification/Term.v ===== *)
(** * Term: the terminal

    [rlibc/term.c]: it starts the shell with a pipe for its input and passes on what is typed. *)

From S2P Require Import Prelude Malloc Headers CString Vga Fs Names Blocks Nodes Ramfs Stream Stdio Vfs Rash Pipeline.

Section term.
Context {MA : Malloc} {SY : Sys}.
Context (fork wait : fs → res (Z * fs)) (execv : option (list Z) → option (list (list Z)) → fs → res (option (Z * fs))).

(** The text of [rash_read_line]. *)
Definition read_line := rash_read_line.

(** A typed character, what is left of the input, the echo.  [position] is 0 until a character
    comes, so that a backspace is dropped. *)
Fixpoint read_char (input : list Z) : res (Z * list Z * list Z) :=
  match input with
  | [] => Fuel
  | c :: input =>
      if (c =? 127) || (c =? 8) then read_char input
      else Ok (s8 c, input, if c =? 10 then [10] else [c])
  end.

(** The loop of [main]: every character goes to the pipe, and [EOF] too, which ends it. *)
Fixpoint pump (fuel : nat) (fd : Z) (input : list Z) (s : fs) : res (list Z * fs) :=
  match fuel with
  | O => Fuel
  | S fuel =>
      let* (c, input, _) := read_char input in
      let* (_, s) := write_vfs fd (Some [u8 c]) 1 s in
      if c =? EOF then Ok (input, s) else pump fuel fd input s
  end.

Definition term_main (fuel : nat) (input : list Z) (s : fs) : res (shell * fs) :=
  let* (_, fd0, fd1, s) := creat_pipe 0 0 s in
  let* (childpid, s) := fork s in
  let* (r, s) :=
    (if childpid <? 0 then Ok (Exited EXIT_FAILURE, s)
     else if childpid =? 0 then
       let* (_, s) := close 0 s in
       let* (_, s) := close fd1 s in
       let* (_, s) := dup fd0 s in
       let* r := execv (Some (codes "rash")) None s in
       Ok (match r with Some (_, s) => (Continue 0, s) | None => (Replaced, s) end)
     else Ok (Continue 0, s)) in
  match r with
  | Replaced | Exited _ => Ok (r, s)
  | Continue _ =>
      let* (_, s) := close fd0 s in
      let* (flags, s) := fcntl 0 F_GETFL 0 s in
      let* (_, s) := fcntl 0 F_SETFL (u32 (Z.lor flags O_NONBLOCK)) s in
      let* (_, s) := pump fuel fd1 input s in
      let* (_, s) := wait s in
      Ok (Exited 0, s)
  end.

(** The writes of [cs], one by one. *)
Fixpoint writes (fd : Z) (cs : list Z) (s : fs) : res fs :=
  match cs with
  | [] => Ok s
  | c :: cs => let* (_, s) := write_vfs fd (Some [u8 c]) 1 s in writes fd cs s
  end.

(** What of the typed characters is sent: the two backspace codes are edits. *)
Fixpoint sent (cs : list Z) : list Z :=
  match cs with
  | [] => []
  | c :: cs => if (c =? 127) || (c =? 8) then sent cs else c :: sent cs
  end.

(** What is typed up to the end of the input goes to the pipe without the backspaces. *)
Lemma pump_writes fuel fd cs rest s : Forall (λ c, 0 ≤ c < 128) cs → (length cs < fuel)%nat →
  pump fuel fd (cs ++ EOF :: rest) s = let* s := writes fd (sent cs ++ [EOF]) s in Ok (rest, s).
Proof.
  intros Hcs. revert fuel s. induction Hcs as [|c cs Hc Hcs IH]; intros fuel s Hf.
  - destruct fuel as [|fuel]; [simpl in Hf; lia|]. cbn [app pump read_char sent writes].
    change ((EOF =? 127) || (EOF =? 8)) with false. cbn [rbind]. change (s8 EOF) with EOF.
    destruct (write_vfs fd (Some [u8 EOF]) 1 s) as [[v s1]| | |]; cbn [rbind]; done.
  - destruct fuel as [|fuel]; [simpl in Hf; lia|]. cbn [sent]. destruct ((c =? 127) || (c =? 8)) eqn:E.
    + rewrite <- (IH (S fuel)) by (cbn [length] in Hf; lia). cbn [app pump read_char]. rewrite E. done.
    + cbn [app pump read_char writes]. rewrite E. cbn [rbind].
      rewrite (sint_small 8) by (simpl; lia). rewrite (proj2 (Z.eqb_neq c EOF)) by (unfold EOF; lia).
      destruct (write_vfs fd (Some [u8 c]) 1 s) as [[v s1]| | |]; cbn [rbind]; try done.
      apply IH. simpl in Hf. lia.
Qed.
End term.
