(* ===== verification/Ublocks.v ===== *)
(** * Ublocks: what a program may touch of its heap

    The bytes of the blocks that [malloc] of the C library has handed out and that were not
    freed: found by the headers, so that an access behind a block is a fault of the model as
    it is one of the program.  The second part is what a program that frees nothing may
    rely on: [malloc] and [realloc] as operations on a list of blocks. *)

From S2P Require Import Prelude CString Paging Vm Kmalloc Spaces Space Fork Ubreak Umalloc.

Section ublocks.
Context {UB : Ubrk}.

(** ** What the program may touch *)
Fixpoint walk (fuel : nat) (p : Z) (ns : gmap Z kheap_node_t) : list (Z * Z) :=
  match fuel with
  | O => []
  | S fuel =>
      if p =? 0 then []
      else
        match ns !! p with
        | Some n => (if status n =? MALLOC_RES then [(p + NODE_SIZE, size n)] else []) ++ walk fuel (next n) ns
        | None => []
        end
  end.

(** The blocks in use, with their sizes. *)
Definition in_use (h : uheap) : list (Z * Z) := walk (length (map_to_list (nodes h))) (heap_start h) (nodes h).

(** The bytes of the blocks in use. *)
Definition block_bytes (h : uheap) : mem :=
  list_to_map (in_use h ≫= λ b, omap (λ a, pair a <$> data h !! a) (seqZ b.1 b.2)).

(** [d] with the values of [m] where it has a byte. *)
Definition overlay (m d : mem) : mem :=
  merge (λ n o, match o with Some b => Some (default b n) | None => None end) m d.

(** ** The blocks are those of the list *)
Lemma chain_addrs ns prv bs e : chain ns prv bs 0 e → 0 < first_addr bs 1 →
  Forall (λ b, 0 < b_addr b ∧ is_Some (ns !! b_addr b)) bs ∧ NoDup (b_addr <$> bs).
Proof.
  revert prv. induction bs as [|b bs IH]; intros prv H Hp; [by split; constructor|].
  pose proof H as H'. destruct H as (E & H0 & _ & He & H). cbn [first_addr] in Hp. unfold NODE_T_SIZE in *.
  assert (Hlt : ∀ c, c ∈ bs → b_addr b < b_addr c).
  { intros c Hc. destruct (chain_range _ _ _ _ _ _ H Hc) as [Hle _]. lia. }
  destruct (IH _ H) as [H1 H2].
  { destruct bs as [|c bs]; cbn [first_addr] in *; [lia|]. pose proof (Hlt c ltac:(by left)). lia. }
  split; [constructor; [by split; [|eexists]|done]|]. cbn [fmap list_fmap]. constructor; [|done].
  intros (c & Ec & Hc)%list_elem_of_fmap. pose proof (Hlt c Hc). lia.
Qed.

Lemma walk_ok ns bs : ∀ fuel prv e, chain ns prv bs 0 e → (length bs ≤ fuel)%nat → Forall (λ b, 0 < b_addr b) bs →
  walk fuel (first_addr bs 0) ns = allocated bs.
Proof.
  induction bs as [|[a s f] bs IH]; intros fuel prv e H Hf Hp; [by destruct fuel|].
  destruct H as (E & _ & _ & _ & H). inversion Hp; subst. cbn [b_addr b_size length] in *.
  destruct fuel as [|fuel]; [lia|]. cbn [walk first_addr b_addr allocated b_free b_size].
  rewrite (proj2 (Z.eqb_neq a 0)) by lia. rewrite E. cbn [status next size].
  rewrite (IH fuel a e) by (done || lia). by destruct f.
Qed.

Lemma in_use_ok k h bs : uheap_ok k h bs → in_use h = allocated bs.
Proof.
  intros Hok. destruct (uo_chain _ _ _ Hok) as (e & Hc & _). pose proof (uo_first _ _ _ Hok) as Hf.
  destruct (uo_start _ _ _ Hok) as (Hs & _).
  destruct (chain_addrs _ _ _ _ Hc) as [Ha Hn]. { destruct bs; cbn [first_addr] in *; lia. }
  unfold in_use. rewrite <- Hf. apply (walk_ok _ _ _ 0 e); [done| |].
  - rewrite <- (length_fmap fst (map_to_list (nodes h))), <- (length_fmap b_addr bs). apply submseteq_length.
    apply NoDup_submseteq; [done|]. intros a (b & -> & Hb)%list_elem_of_fmap.
    rewrite list.Forall_forall in Ha. destruct (Ha b Hb) as [_ [n E]].
    apply list_elem_of_fmap. exists (b_addr b, n). split; [done|]. by apply elem_of_map_to_list.
  - apply (list.Forall_impl _ _ _ Ha). by intros b [? _].
Qed.

Lemma in_use_none h : heap_start h = 0 → in_use h = [].
Proof. intros E. unfold in_use. rewrite E. by destruct (length _). Qed.

(** [a] is in one of the blocks. *)
Definition within (l : list (Z * Z)) (a : Z) : Prop := ∃ p n, (p, n) ∈ l ∧ p ≤ a < p + n.

Lemma block_bytes_Some h a b : block_bytes h !! a = Some b ↔ data h !! a = Some b ∧ within (in_use h) a.
Proof.
  unfold block_bytes, within. rewrite <- elem_of_list_to_map'.
  - rewrite list_elem_of_bind. setoid_rewrite list_elem_of_omap. split.
    + intros ([p n] & (x & Hx & E) & Hb). apply elem_of_seqZ in Hx. cbn [fst snd] in *.
      destruct (data h !! x) as [y|] eqn:Ey; [|done]. injection E as -> ->. split; [done|]. exists p, n. split; [done|lia].
    + intros (E & p & n & Hp & Ha). exists (p, n). split; [|done]. exists a. rewrite E. split; [apply elem_of_seqZ; simpl; lia|done].
  - intros y. rewrite !list_elem_of_bind. setoid_rewrite list_elem_of_omap.
    intros ([p n] & (x & Hx & E) & Hb) ([p' n'] & (x' & Hx' & E') & Hb').
    destruct (data h !! x) eqn:Ey; [|done]. destruct (data h !! x') eqn:Ey'; [|done]. cbn in E, E'. congruence.
Qed.

Lemma overlay_lookup m d a : overlay m d !! a = match d !! a with Some b => Some (default b (m !! a)) | None => None end.
Proof. unfold overlay. rewrite lookup_merge. by destruct (d !! a), (m !! a). Qed.

Lemma in_use_heap k h bs : heap_of k h bs → in_use h = allocated bs.
Proof. intros [(-> & H0 & _)|Hok]; [by apply in_use_none|by apply (in_use_ok k)]. Qed.

(** ** A heap where nothing was freed

    [U]: the blocks that a program counts on, with sizes; the other bytes are zero. *)
Definition covers (U bs : list (Z * Z)) : Prop := ∀ p n, (p, n) ∈ U → ∃ n', n ≤ n' ∧ (p, n') ∈ bs.

Record fresh (k : Z) (h : uheap) (U : list (Z * Z)) : Prop := {
  fr_heap : ∃ bs, heap_of k h bs ∧ covers U (allocated bs);
  fr_clean : heap_start h ≠ 0 → ∀ a, heap_start h ≤ a < ub_at (brk_state h) → ¬ within U a → data h !! a = Some 0
}.

Lemma covers_within U bs a : covers U bs → within U a → within bs a.
Proof. intros H (p & n & Hp & Ha). destruct (H p n Hp) as (n' & Hn & Hp'). exists p, n'. split; [done|lia]. Qed.

Lemma wider_covers l l' : wider l l' → covers l l'.
Proof.
  intros H p n Hp. apply list_elem_of_lookup in Hp as [i Hi].
  destruct (Forall2_lookup_l _ _ _ _ _ H Hi) as ([p' n'] & Hi' & Ep & Hn). cbn [fst snd] in *. subst p'.
  exists n'. split; [done|]. apply list_elem_of_lookup. by exists i.
Qed.

Lemma covers_trans l1 l2 l3 : covers l1 l2 → covers l2 l3 → covers l1 l3.
Proof.
  intros H1 H2 p n Hp. destruct (H1 p n Hp) as (n1 & Hn1 & Hp1). destruct (H2 p n1 Hp1) as (n2 & Hn2 & Hp2).
  exists n2. split; [lia|done].
Qed.

Lemma result_covers bs h n p bs' : malloc_result bs h n p bs' → covers (allocated bs) (allocated bs').
Proof.
  intros [(_ & Hw & _)|(_ & _ & l1 & l2 & -> & ->)]; [by apply wider_covers|].
  intros q m Hq. exists m. split; [done|]. set_solver.
Qed.

(** Every block and its header take 16 bytes at least. *)
Lemma blocks_few k h bs : uheap_ok k h bs → len bs < 2 ^ 28.
Proof.
  intros Hok. destruct (uo_chain _ _ _ Hok) as (e & Hc & He). destruct (uo_start _ _ _ Hok) as (Hs & _).
  destruct (uo_end _ _ _ Hok) as [_ Hat]. destruct (ub_range _ _ (uo_brk _ _ _ Hok)) as (_ & _ & _ & Hus).
  assert (H : ∀ prv l, chain (nodes h) prv l 0 e → first_addr l e + 16 * len l ≤ e).
  { intros prv l. revert prv. induction l as [|b l IH]; intros prv H; [cbn; lia|].
    destruct H as (_ & H0 & _ & Hb & H). pose proof (IH _ H). cbn [first_addr length]. unfold NODE_T_SIZE in *. lia. }
  pose proof (H 0 bs Hc) as Hle. pose proof (uo_first _ _ _ Hok) as Hf.
  destruct bs as [|b bs]; [done|]. cbn [first_addr] in *. unfold USTACK_BEGIN in *.
  change (2 ^ 28) with 268435456. lia.
Qed.

Lemma blocks_in_heap k h bs a : uheap_ok k h bs → within (allocated bs) a → heap_start h ≤ a < ub_at (brk_state h).
Proof.
  intros Hok (p & n & Hp & Ha). destruct (block_header _ _ _ _ _ Hok Hp) as (_ & cur & _ & _ & -> & _ & _ & Hlo & Hhi & _).
  unfold NODE_SIZE in *. lia.
Qed.

Lemma within_bytes k h bs a : uheap_ok k h bs → within (allocated bs) a → block_bytes h !! a = data h !! a.
Proof.
  intros Hok Ha. destruct (uo_data _ _ _ Hok a (blocks_in_heap _ _ _ _ Hok Ha)) as (b & E & _).
  rewrite E. apply block_bytes_Some. split; [done|]. by rewrite (in_use_ok _ _ _ Hok).
Qed.

(** The bytes of the blocks stay when others come. *)
Lemma kept_blocks j k h h' bs bs' : heap_of j h bs → heap_of k h' bs' → covers (allocated bs) (allocated bs') →
  kept h h' → ub_at (brk_state h) ≤ ub_at (brk_state h') →
  ∀ a b, block_bytes h !! a = Some b → block_bytes h' !! a = Some b.
Proof.
  intros Hh Hh' Hc Hkp Hat a b. rewrite !block_bytes_Some, (in_use_heap _ _ _ Hh), (in_use_heap _ _ _ Hh').
  intros [E Ha]. split; [|by apply (covers_within _ _ _ Hc)].
  destruct Hh as [(-> & _)|Hok]; [destruct Ha as (p & n & Hp & _); cbn in Hp; by apply elem_of_nil in Hp|].
  pose proof (blocks_in_heap _ _ _ _ Hok Ha). rewrite (kept_at _ _ _ Hkp) by lia. done.
Qed.

(** [malloc]: no memory, or a new block of zeros. *)
Lemma malloc_fresh fuel k h U n : fresh (grow_pages n + k) h U → 0 ≤ k → 0 < n ≤ 2 ^ 30 - 16 → 2 ^ 28 ≤ Z.of_nat fuel →
  ∃ p h', malloc fuel n h = Ok (p, h') ∧ ub_base (brk_state h') = ub_base (brk_state h) ∧
    (∀ a b, block_bytes h !! a = Some b → block_bytes h' !! a = Some b) ∧
    (p = 0 ∧ fresh k h' U ∨
     0 < p ∧ ub_base (brk_state h) ≤ p ∧ p + round_up n ≤ USTACK_BEGIN ∧ fresh k h' ((p, round_up n) :: U) ∧
     (∀ a, p ≤ a < p + round_up n → block_bytes h' !! a = Some 0) ∧
     ∀ q m, (q, m) ∈ U → q + m ≤ p ∨ p + round_up n ≤ q).
Proof.
  intros [(bs & Hh & HU) Hcl] Hk Hn Hf.
  assert (Hbs : (length bs < fuel)%nat).
  { destruct Hh as [(-> & _)|Hok]; [cbn; lia|]. pose proof (blocks_few _ _ _ Hok). lia. }
  destruct (malloc_any fuel k h bs n Hh Hk Hn Hbs) as (p & h' & bs' & E & Hh' & Hres & Hok' & Hat & Hkp & Hst).
  pose proof (result_covers _ _ _ _ _ Hres) as Hcv. pose proof (covers_trans _ _ _ HU Hcv) as HU'.
  assert (Hclean : heap_start h' ≠ 0 → ∀ a, heap_start h' ≤ a < ub_at (brk_state h') → ¬ within U a → data h' !! a = Some 0).
  { intros H0 a Ha Hn'. destruct (Z.lt_ge_cases a (ub_at (brk_state h))) as [Hlt|Hge].
    - rewrite (kept_at _ _ _ Hkp) by lia. destruct Hst as [Es|[_ Es]]; [|lia]. rewrite Es in *. apply Hcl; [done|lia|done].
    - apply (kept_new _ _ _ Hkp). lia. }
  exists p, h'. split; [exact E|]. split; [apply Hkp|]. split; [by apply (kept_blocks _ k _ _ _ _ Hh Hh')|].
  destruct (round_up_ok n Hn) as [Hr _].
  destruct Hres as [(-> & _)|(Hp & _ & l1 & l2 & El & El')]; [left; split; [done|]; split; [by exists bs'|exact Hclean]|right].
  specialize (Hok' Hp). destruct (uo_chain _ _ _ Hok') as (e & Hc & Hee).
  assert (Hin : (p, round_up n) ∈ allocated bs') by (rewrite El'; set_solver).
  destruct (block_header _ _ _ _ _ Hok' Hin) as (_ & cur & _ & _ & Ep & Hc0 & _ & Hlo & Hhi & _).
  destruct (uo_start _ _ _ Hok') as (Hs0 & _ & Hbase). destruct (ub_range _ _ (uo_brk _ _ _ Hok')) as (_ & _ & _ & Hus).
  pose proof (proj1 Hkp) as Hb. unfold NODE_SIZE in *.
  assert (Hdis : ∀ q m, (q, m) ∈ U → q + m ≤ p ∨ p + round_up n ≤ q).
  { intros q m Hq. destruct (HU q m Hq) as (m' & Hm & Hq').
    pose proof (allocated_disjoint _ _ _ _ _ l1 l2 p _ q m' Hc El' ltac:(by rewrite <- El)) as Hd.
    unfold NODE_T_SIZE in Hd. lia. }
  assert (Hz : ∀ a, p ≤ a < p + round_up n → data h' !! a = Some 0).
  { intros a Ha. apply Hclean; [lia|lia|]. intros (q & m & Hq & Hqa). destruct (Hdis q m Hq); lia. }
  split_and!; try lia; try done.
  - split.
    + exists bs'. split; [done|]. intros q m [[= -> ->]|Hq]%elem_of_cons; [exists (round_up n); by split|by apply HU'].
    + intros H0 a Ha Hn'. apply Hclean; [done..|]. intros (q & m & Hq & Hqa). apply Hn'. exists q, m. split; [by right|done].
  - intros a Ha. rewrite (within_bytes _ _ _ _ Hok'); [by apply Hz|]. exists p, (round_up n). by split.
Qed.

Lemma fresh_ok k h U p n : fresh k h U → (p, n) ∈ U → ∃ bs n', uheap_ok k h bs ∧ covers U (allocated bs) ∧ n ≤ n' ∧ (p, n') ∈ allocated bs.
Proof.
  intros [(bs & Hh & HU) _] Hp. destruct (HU p n Hp) as (n' & Hn & Hp'). exists bs, n'.
  destruct Hh as [(-> & _)|Hok]; [cbn in Hp'; by apply elem_of_nil in Hp'|done].
Qed.

Lemma fresh_le j k h U : fresh j h U → k ≤ j → fresh k h U.
Proof.
  intros [(bs & Hh & HU) Hc] Hle. split; [|done]. exists bs. split; [|done].
  destruct Hh as [(-> & H0 & Hb)|Hok]; [left|right; by apply (uheap_ok_le k j)].
  split_and!; [done..|by apply (ub_le k j)].
Qed.

(** The bytes of the blocks counted on can be read. *)
Lemma fresh_bytes k h U a : fresh k h U → within U a → ∃ b, block_bytes h !! a = Some b ∧ 0 ≤ b < 256.
Proof.
  intros HF (p & n & Hp & Ha). destruct (fresh_ok _ _ _ _ _ HF Hp) as (bs & n' & Hok & _ & Hn & Hp').
  assert (Hw : within (allocated bs) a) by (exists p, n'; split; [done|lia]).
  rewrite (within_bytes _ _ _ _ Hok Hw). apply (uo_data _ _ _ Hok), (blocks_in_heap _ _ _ _ Hok Hw).
Qed.

Lemma fresh_range k h U p n : fresh k h U → (p, n) ∈ U → ub_base (brk_state h) < p ∧ p + n ≤ USTACK_BEGIN.
Proof.
  intros HF Hp. destruct (fresh_ok _ _ _ _ _ HF Hp) as (bs & n' & Hok & _ & Hn & Hp').
  destruct (block_header _ _ _ _ _ Hok Hp') as (_ & cur & _ & _ & -> & _ & _ & Hlo & Hhi & _).
  destruct (uo_start _ _ _ Hok) as (_ & _ & Hb). destruct (ub_range _ _ (uo_brk _ _ _ Hok)) as (_ & _ & _ & Hus).
  unfold NODE_SIZE in *. lia.
Qed.

(** Bytes are written to a block. *)
Lemma fresh_write k h U d q n0 p n : fresh k h U → (q, n0) ∈ U → q ≤ p → p + n ≤ q + n0 →
  same_outside (data h) d p n → (∀ a, p ≤ a < p + n → ∃ b, d !! a = Some b ∧ 0 ≤ b < 256) → fresh k (with_data d h) U.
Proof.
  intros HF Hq Hlo Hhi Hs Hd. destruct (fresh_ok _ _ _ _ _ HF Hq) as (bs & n' & Hok & HU & _ & _).
  split; [exists bs; split; [right; by apply (uheap_ok_data k h bs d p n)|done]|].
  cbn [with_data heap_start brk_state data]. intros H0 a Ha Hw. rewrite Hs; [by apply (fr_clean _ _ _ HF)|].
  destruct (Z.lt_ge_cases a p) as [|Hge]; [lia|]. destruct (Z.lt_ge_cases a (p + n)) as [|]; [|lia].
  exfalso. apply Hw. exists q, n0. split; [done|lia].
Qed.

(** Blocks do not overlap. *)
Lemma fresh_disjoint k h U p n q m : fresh k h U → (p, n) ∈ U → (q, m) ∈ U → p ≠ q → p + n ≤ q ∨ q + m ≤ p.
Proof.
  intros HF Hp Hq Hne. destruct (fresh_ok _ _ _ _ _ HF Hp) as (bs & n' & Hok & HU & Hn & Hp').
  destruct (HU q m Hq) as (m' & Hm & Hq'). destruct (uo_chain _ _ _ Hok) as (e & Hc & _).
  apply list_elem_of_split in Hp' as (l1 & l2 & El).
  pose proof (allocated_disjoint _ _ _ _ _ l1 l2 p n' q m' Hc El) as Hd. rewrite El in Hq'.
  destruct Hd as [Hd|Hd]; [|unfold NODE_T_SIZE in Hd; lia..].
  apply elem_of_app in Hq' as [Hq'|[[= -> ->]|Hq']%elem_of_cons]; [set_solver|done|set_solver].
Qed.

(** [realloc] of a block to a size that its rounding allows. *)
Lemma realloc_fresh fuel k h U p n sz : fresh k h U → (p, n) ∈ U → (∀ m, (p, m) ∈ U → m ≤ n) →
  0 < sz ≤ n → n ≤ round_up sz → sz ≤ 2 ^ 30 - 16 →
  ∃ ns, realloc fuel p sz h = Ok (p, with_nodes ns h) ∧ fresh k (with_nodes ns h) U ∧
    ∀ a, within U a → block_bytes (with_nodes ns h) !! a = block_bytes h !! a.
Proof.
  intros HF Hp Hun Hsz Hr H30. destruct (fresh_ok _ _ _ _ _ HF Hp) as (bs & n' & Hok & HU & Hn & Hp').
  destruct (block_header _ _ _ _ _ Hok Hp') as (pre & cur & post & -> & -> & Hc0 & _ & _ & _ & _ & E).
  destruct (realloc_shrinks fuel k h pre cur n' post sz Hok) as (ns & bs' & Er & Hok' & Hal); [lia|done|].
  assert (HU' : covers U (allocated bs')).
  { intros q m Hq. destruct (HU q m Hq) as (m' & Hm & Hq'). rewrite Hal. rewrite allocated_app in Hq'. cbn [allocated b_free b_addr b_size] in Hq'.
    apply elem_of_app in Hq' as [Hq'|[[= -> ->]|Hq']%elem_of_cons]; [exists m'; split; [done|set_solver]| |exists m'; split; [done|set_solver]].
    pose proof (Hun m Hq). exists (Z.min n' (round_up sz)). split; [lia|set_solver]. }
  exists ns. split; [exact Er|]. split; [split|].
  - exists bs'. split; [by right|exact HU'].
  - exact (fr_clean _ _ _ HF).
  - intros a Ha. rewrite (within_bytes _ _ _ _ Hok (covers_within _ _ _ HU Ha)).
    by rewrite (within_bytes _ _ _ _ Hok' (covers_within _ _ _ HU' Ha)).
Qed.
End ublocks.
