(* ===== verification/Env.v ===== *)
(** * Env: the environment of a program

    [rlibc/stdlib/env.c] and the setting up of [environ] in [rlibc/setup_rlibc.c], over the
    allocator of [Umalloc].  A program may touch its image below the heap, its stack and
    the blocks that it has got, nothing else of the heap. *)

From S2P Require Import Prelude CString Headers Paging Vm Kmalloc Spaces Space Fork Ubreak Umalloc Ublocks Printf Rstring.

Section env.
Context {UB : Ubrk}.

(** ** The state: [environ], [errno], the heap, and the program's own image and stack *)
Record env_state := Env { environ : Z; errno : Z; heap : uheap; image : mem }.

Definition set_environ (p : Z) (s : env_state) : env_state := Env p (errno s) (heap s) (image s).
Definition set_heap (h : uheap) (s : env_state) : env_state := Env (environ s) (errno s) h (image s).
Definition fail (e : Z) (s : env_state) : res (Z * env_state) := Ok (-1, Env (environ s) e (heap s) (image s)).

Definition bytes (s : env_state) : mem := image s ∪ block_bytes (heap s).
Definition with_bytes (m : mem) (s : env_state) : env_state :=
  Env (environ s) (errno s) (with_data (overlay (m ∖ image s) (data (heap s))) (heap s)) (overlay m (image s)).

Definition on_heap {A} (f : uheap → res (A * uheap)) (s : env_state) : res (A * env_state) :=
  let* (x, h) := f (heap s) in Ok (x, set_heap h s).
Definition on_bytes {A} (f : mem → res (A * mem)) (s : env_state) : res (A * env_state) :=
  let* (x, m) := f (bytes s) in Ok (x, with_bytes m s).

(** A pointer in memory, and [environ[i] = p]. *)
Definition ld32 (m : mem) (a : Z) : res Z :=
  let* b0 := ld m a in
  let* b1 := ld m (a + 1) in
  let* b2 := ld m (a + 2) in
  let* b3 := ld m (a + 3) in
  Ok (b0 + 256 * b1 + 65536 * b2 + 16777216 * b3).

Definition entry (i : Z) (s : env_state) : res Z := ld32 (bytes s) (u32 (environ s + 4 * i)).
Definition set_entry (i p : Z) (s : env_state) : res env_state :=
  let* (_, s') := on_bytes (λ m, let* m := st32 m (u32 (environ s + 4 * i)) p in Ok (p, m)) s in Ok s'.

(** ** getenv *)
Fixpoint getenv_loop (n fuel : nat) (i name : Z) (s : env_state) : res Z :=
  match n with
  | O => Fuel
  | S n =>
      let* p := entry i s in
      if p =? 0 then Ok 0
      else
        let* l := strlen fuel name (bytes s) in
        let* r := strncmp fuel name p l (bytes s) in
        if r =? 0 then
          let* val := strchr fuel p (ch "=") (bytes s) in
          if val =? 0 then Ok 0 else Ok (val + 1)
        else getenv_loop n fuel (i + 1) name s
  end.

(** [name == NULL || name[0] == 0] *)
Definition no_name (name : Z) (s : env_state) : res bool :=
  if name =? 0 then Ok true else let* c := ld (bytes s) name in Ok (c =? 0).

Definition getenv (fuel : nat) (name : Z) (s : env_state) : res Z :=
  let* b := no_name name s in
  if b then Ok 0
  else if environ s =? 0 then Ok 0
  else getenv_loop fuel fuel 0 name s.

(** ** setenv

    The literal [=] is at [lit_eq]. *)
Context (lit_eq : Z).

Fixpoint find_name (n fuel : nat) (i name : Z) (s : env_state) : res (bool * Z) :=
  match n with
  | O => Fuel
  | S n =>
      let* p := entry i s in
      if p =? 0 then Ok (false, i)
      else
        let* l := strlen fuel name (bytes s) in
        let* r := strncmp fuel name p l (bytes s) in
        let* c := (if r =? 0 then ldc (bytes s) (p + l) else Ok 0) in
        if c =? ch "=" then Ok (true, i) else find_name n fuel (i + 1) name s
  end.

Fixpoint find_empty (n : nat) (i : Z) (s : env_state) : res (bool * Z) :=
  match n with
  | O => Fuel
  | S n =>
      let* p := entry i s in
      if p =? 0 then Ok (false, i)
      else let* c := ld (bytes s) p in if c =? 0 then Ok (true, i) else find_empty n (i + 1) s
  end.

(** The place of the variable in the array. *)
Definition find_place (fuel : nat) (name overwrite : Z) (s : env_state) : res (bool * Z) :=
  let* (found, index) := (if negb (overwrite =? 0) then find_name fuel fuel 0 name s else Ok (false, 0)) in
  if found then Ok (true, index) else find_empty fuel 0 s.

(** The three calls that build the string; then the whole. *)
Definition build_text (fuel : nat) (index name value : Z) (s : env_state) : res (Z * env_state) :=
  let* p := entry index s in
  let* (_, s) := on_bytes (strcpy fuel p name) s in
  let* p := entry index s in
  let* (_, s) := on_bytes (strcat fuel p lit_eq) s in
  let* p := entry index s in
  let* (_, s) := on_bytes (strcat fuel p value) s in
  Ok (0, s).

Definition put_text (fuel : nat) (index name value : Z) (s : env_state) : res (Z * env_state) :=
  let* l1 := strlen fuel name (bytes s) in
  let* l2 := strlen fuel value (bytes s) in
  let* (p, s) := on_heap (malloc fuel (u32 (l1 + l2 + 1))) s in
  let* s := set_entry index p s in
  if p =? 0 then fail ENOMEM s
  else build_text fuel index name value s.

Definition setenv (fuel : nat) (envname envval overwrite : Z) (s : env_state) : res (Z * env_state) :=
  let* b := no_name envname s in
  if b then fail EINVAL s
  else
    let* q := strchr fuel envname (ch "=") (bytes s) in
    if negb (q =? 0) then fail EINVAL s
    else if environ s =? 0 then
      let* (p, s) := on_heap (malloc fuel 8) s in
      let s := set_environ p s in
      if p =? 0 then fail ENOMEM s
      else let* s := set_entry 1 0 s in put_text fuel 0 envname envval s
    else
      let* (found, index) := find_place fuel envname overwrite s in
      if found then
        let* p := entry index s in
        let* h := free p (heap s) in
        put_text fuel index envname envval (set_heap h s)
      else
        let* (new_env, s) := on_heap (realloc fuel (environ s) (u32 (4 * (index + 1)))) s in
        if new_env =? 0 then fail ENOMEM s
        else let* s := set_entry (index + 1) 0 (set_environ new_env s) in put_text fuel index envname envval s.

(** ** unsetenv *)
Fixpoint unset_loop (n fuel : nat) (i name : Z) (s : env_state) : res (Z * env_state) :=
  match n with
  | O => Fuel
  | S n =>
      let* p := entry i s in
      if p =? 0 then Ok (0, s)
      else
        let* r := strcmp fuel name p (bytes s) in
        if r =? 0 then
          let* h := free p (heap s) in
          let* (p, s) := on_heap (malloc fuel 1) (set_heap h s) in
          let* s := set_entry i p s in
          let* p := entry i s in
          let* (_, s) := on_bytes (λ m, let* m := st m p 0 in Ok (p, m)) s in
          Ok (0, s)
        else unset_loop n fuel (i + 1) name s
  end.

Definition unsetenv (fuel : nat) (name : Z) (s : env_state) : res (Z * env_state) :=
  let* b := no_name name s in
  if b then fail EINVAL s
  else
    let* q := strchr fuel name (ch "=") (bytes s) in
    if negb (q =? 0) then fail EINVAL s else unset_loop fuel fuel 0 name s.

(** ** setup_rlibc.c: the strings of [envp] are cut at their [=] *)
Fixpoint set_all (n fuel : nat) (envp i : Z) (s : env_state) : res env_state :=
  match n with
  | O => Fuel
  | S n =>
      let* name := ld32 (bytes s) (u32 (envp + 4 * i)) in
      if name =? 0 then Ok s
      else
        let* val := strchr fuel name (ch "=") (bytes s) in
        let* (_, s) := on_bytes (λ m, let* m := st m val 0 in Ok (val, m)) s in
        let* (_, s) := setenv fuel name (val + 1) 1 s in
        set_all n fuel envp (i + 1) s
  end.

Definition init_environ (fuel : nat) (envp : Z) (s : env_state) : res env_state :=
  let s := set_environ 0 s in
  if envp =? 0 then Ok s else set_all fuel fuel envp 0 s.

(** ** Words and strings in memory *)
Definition le4 (v : Z) : list Z := [v mod 256; v / 256 mod 256; v / 65536 mod 256; v / 16777216 mod 256].
Definition word (m : mem) (a v : Z) : Prop := 0 ≤ v < 2 ^ 32 ∧ bytes_at m a (le4 v).

Lemma ld32_word m a v : word m a v → ld32 m a = Ok v.
Proof.
  intros [Hv (E0 & _ & E1 & _ & E2 & _ & E3 & _ & _)].
  replace (a + 1 + 1) with (a + 2) in * by lia. replace (a + 2 + 1) with (a + 3) in * by lia.
  unfold ld32. rewrite !(ld_Ok _ _ _ E0), !(ld_Ok _ _ _ E1), !(ld_Ok _ _ _ E2), !(ld_Ok _ _ _ E3). cbn [rbind].
  f_equal. change (2 ^ 32) with 4294967296 in Hv. Z.div_mod_to_equations. lia.
Qed.

Lemma land_byte v i : 0 ≤ i → Z.land (Z.shiftr v i) 0xFF = v / 2 ^ i mod 256.
Proof. intros Hi. rewrite Z.shiftr_div_pow2 by done. change 0xFF with (Z.ones 8). by rewrite Z.land_ones. Qed.

Lemma st32_word m a v : alloc m a 4 → 0 ≤ v < 2 ^ 32 → ∃ m', st32 m a v = Ok m' ∧ word m' a v ∧ same_outside m m' a 4.
Proof.
  intros Ha Hv. unfold st32. rewrite !land_byte by lia.
  replace (Z.land v 255) with (v mod 256) by (change 255 with (Z.ones 8); by rewrite Z.land_ones).
  change (2 ^ 8) with 256. change (2 ^ 16) with 65536. change (2 ^ 24) with 16777216.
  assert (Hb : ∀ x, u8 (x mod 256) = x mod 256) by (intros x; apply uint_small; simpl; Z.div_mod_to_equations; lia).
  rewrite st_Ok by (apply Ha; lia). cbn [rbind].
  rewrite st_Ok by (rewrite lookup_insert_ne by lia; apply Ha; lia). cbn [rbind].
  rewrite st_Ok by (rewrite !lookup_insert_ne by lia; apply Ha; lia). cbn [rbind].
  rewrite st_Ok by (rewrite !lookup_insert_ne by lia; apply Ha; lia). rewrite !Hb.
  eexists. split; [done|]. split.
  - split; [done|]. unfold le4. cbn [bytes_at]. replace (a + 1 + 1) with (a + 2) by lia. replace (a + 2 + 1) with (a + 3) by lia.
    split_and!; try (Z.div_mod_to_equations; lia); try done;
      repeat first [apply lookup_insert_eq | rewrite lookup_insert_ne by lia].
  - intros i Hi. by rewrite !lookup_insert_ne by lia.
Qed.

(** What was there is still there. *)
Definition keeps (m m' : mem) : Prop := ∀ a b, m !! a = Some b → m' !! a = Some b.

Lemma bytes_at_keeps m m' a l : bytes_at m a l → keeps m m' → bytes_at m' a l.
Proof.
  intros H Hk. revert a H. induction l as [|b l IH]; intros a H; [done|].
  destruct H as (E & Hb & H). split; [by apply Hk|]. split; [done|]. by apply IH.
Qed.

Lemma cstr_keeps m m' a cs : cstr m a cs → keeps m m' → cstr m' a cs.
Proof. intros [Hb HF]%cstr_bytes Hk. apply cstr_bytes. split; [by apply (bytes_at_keeps m)|done]. Qed.

Lemma word_keeps m m' a v : word m a v → keeps m m' → word m' a v.
Proof. intros [Hv H] Hk. split; [done|by apply (bytes_at_keeps m)]. Qed.

Lemma word_apart m m' a v b n : word m a v → same_outside m m' b n → a + 4 ≤ b ∨ b + n ≤ a → word m' a v.
Proof. intros [Hv H] Hs Hd. split; [done|]. by apply (bytes_at_same m m' a _ b n). Qed.

(** The character at a place of a string; behind it there is the terminator. *)
Lemma cstr_nth m a cs (i : nat) : cstr m a cs → (i ≤ length cs)%nat → m !! (a + Z.of_nat i) = Some (nth i cs 0).
Proof.
  revert a cs. induction i as [|i IH]; intros a cs H Hi.
  - rewrite Z.add_0_r. destruct cs as [|c cs]; [exact H|]. by destruct H.
  - destruct cs as [|c cs]; [cbn in Hi; lia|]. destruct H as (_ & _ & H). cbn [length] in Hi.
    replace (a + Z.of_nat (S i)) with (a + 1 + Z.of_nat i) by lia. cbn [nth]. apply IH; [done|lia].
Qed.

(** ** The array of pointers *)
Definition slots (m : mem) (a : Z) (ps : list Z) : Prop := ∀ i p, ps !! i = Some p → word m (a + 4 * Z.of_nat i) p.

Lemma slots_keeps m m' a ps : slots m a ps → keeps m m' → slots m' a ps.
Proof. intros H Hk i p Hi. apply (word_keeps m); [by apply H|done]. Qed.

Lemma slots_apart m m' a ps b n : slots m a ps → same_outside m m' b n → a + 4 * len ps ≤ b ∨ b + n ≤ a → slots m' a ps.
Proof.
  intros H Hs Hd i p Hi. pose proof (lookup_lt_Some _ _ _ Hi). apply (word_apart m m' _ _ b n); [by apply H|done|lia].
Qed.

Lemma slots_set m m' a ps (i : nat) v : slots m a ps → word m' (a + 4 * Z.of_nat i) v →
  same_outside m m' (a + 4 * Z.of_nat i) 4 → slots m' a (<[i := v]> ps).
Proof.
  intros H Hw Hs j p Hj. destruct (decide (i = j)) as [->|Hne].
  - apply list_lookup_insert_Some in Hj as [(_ & <- & _)|[? _]]; [done|done].
  - rewrite list_lookup_insert_ne in Hj by done.
    apply (word_apart m m' _ _ _ 4 (H j p Hj) Hs). lia.
Qed.

Record array (m : mem) (a : Z) (es : list (Z * list Z)) : Prop := {
  ar_slots : slots m a (es.*1 ++ [0]);
  ar_texts : Forall (λ e, 0 < e.1 ∧ cstr m e.1 e.2) es;
  ar_range : 0 < a ∧ a + 4 * len es < 2 ^ 32
}.

Lemma slot_entry s ps i p : slots (bytes s) (environ s) ps → ps !! i = Some p → 0 ≤ environ s →
  environ s + 4 * len ps ≤ 2 ^ 32 → entry (Z.of_nat i) s = Ok p.
Proof.
  intros H Hi H0 Hr. pose proof (lookup_lt_Some _ _ _ Hi). unfold entry. rewrite uint_small by lia.
  apply ld32_word, H, Hi.
Qed.

Lemma array_entry s es i e : array (bytes s) (environ s) es → es !! i = Some e →
  entry (Z.of_nat i) s = Ok e.1 ∧ 0 < e.1 ∧ cstr (bytes s) e.1 e.2.
Proof.
  intros [Hw Ht Hr] Hi. pose proof (lookup_lt_Some _ _ _ Hi) as Hlt. split.
  - unfold entry. rewrite uint_small by lia. apply ld32_word, Hw.
    rewrite lookup_app_l by (by rewrite length_fmap). by rewrite list_lookup_fmap, Hi.
  - rewrite list.Forall_forall in Ht. apply Ht. by apply (list_elem_of_lookup_2 _ i).
Qed.

Lemma array_null s es : array (bytes s) (environ s) es → entry (len es) s = Ok 0.
Proof.
  intros [Hw _ Hr]. unfold entry. rewrite uint_small by lia. apply ld32_word, Hw.
  apply list_lookup_middle. by rewrite length_fmap.
Qed.

(** ** getenv *)

(** The first string that begins with the name. *)
Fixpoint var_at (nm : list Z) (es : list (Z * list Z)) : option (Z * list Z) :=
  match es with
  | [] => None
  | e :: es => if bool_decide (take (length nm) e.2 = nm) then Some e else var_at nm es
  end.

(** All strings fit into the fuel and into 32 bits. *)
Definition fits (fuel : nat) (cs : list Z) : Prop := (length cs < fuel)%nat ∧ len cs < 2 ^ 31.

Lemma strncmp_name fuel name p nm t m : cstr m name nm → cstr m p t → fits fuel nm → fits fuel t →
  ∃ r, strncmp fuel name p (len nm) m = Ok r ∧ (r =? 0) = bool_decide (take (length nm) t = nm).
Proof.
  intros Hn Ht [Fn Ln] [Ft Lt]. change (2 ^ 31) with 2147483648 in *.
  destruct (strncmp_eq fuel name p nm t (len nm) m Hn Ht) as (r & E & Hr); [done|simpl; lia|lia|].
  exists r. split; [exact E|]. rewrite Nat2Z.id, firstn_all in Hr.
  case_bool_decide as Hd; [apply Z.eqb_eq, Hr; by rewrite Hd|apply Z.eqb_neq; intros H0; apply Hd; symmetry; by apply Hr].
Qed.

Lemma getenv_loop_ok fuel name nm s es : cstr (bytes s) name nm → fits fuel nm → Forall (λ e, fits fuel e.2) es →
  array (bytes s) (environ s) es → ∀ n pre suf, es = pre ++ suf → (length suf < n)%nat →
  getenv_loop n fuel (len pre) name s = Ok (match var_at nm suf with
    | Some e => match first_index (λ c, s8 c =? ch "=") e.2 with Some i => e.1 + Z.of_nat i + 1 | None => 0 end
    | None => 0
    end).
Proof.
  intros Hn Fn HF Har. induction n as [|n IH]; intros pre suf He Hlen; [lia|]. cbn [getenv_loop].
  destruct suf as [|[p t] suf].
  { rewrite app_nil_r in He. subst pre. by rewrite (array_null _ _ Har). }
  destruct (array_entry s es (length pre) (p, t) Har) as (-> & Hp & Ht).
  { rewrite He. by apply list_lookup_middle. }
  cbn [fst snd rbind] in *. rewrite (proj2 (Z.eqb_neq p 0)) by lia.
  assert (Ft : fits fuel t) by (rewrite He in HF; apply list.Forall_app in HF as [_ HF]; by inversion HF).
  rewrite (strlen_spec fuel name nm) by (done || apply Fn). cbn [rbind].
  destruct (strncmp_name fuel name p nm t (bytes s) Hn Ht Fn Ft) as (r & -> & Hr). cbn [rbind var_at fst snd].
  rewrite Hr. case_bool_decide as Hd.
  - rewrite (strchr_ok fuel p t) by (done || apply Ft). cbn [rbind]. unfold char_index. change (ch "=" =? 0) with false. cbv iota. cbn [fst snd].
    destruct (first_index _ t) as [i|]; cbn [ptr_of]; [|done]. by rewrite (proj2 (Z.eqb_neq _ 0)) by lia.
  - replace (len pre + 1) with (len (pre ++ [(p, t)])) by (rewrite length_app; cbn [length]; lia).
    apply IH; [by rewrite <- app_assoc|]. cbn [length] in Hlen. lia.
Qed.

(** [getenv] returns a pointer behind the [=] of the first string of the environment that
    begins with the name, and [NULL] when no string does.  (It does not look for the
    [=] behind the name: [prefix_found].) *)
Lemma getenv_finds fuel name nm s es
    (Hn : cstr (bytes s) name nm) (Hne : nm ≠ []) (H0 : name ≠ 0)
    (Har : array (bytes s) (environ s) es) (Fn : fits fuel nm) (Fe : Forall (λ e, fits fuel e.2) es) (Hf : (length es < fuel)%nat) :
  getenv fuel name s = Ok (match var_at nm es with
    | Some e => match first_index (λ c, s8 c =? ch "=") e.2 with Some i => e.1 + Z.of_nat i + 1 | None => 0 end
    | None => 0
    end).
Proof.
  unfold getenv, no_name. rewrite (proj2 (Z.eqb_neq name 0)) by done.
  destruct nm as [|c nm]; [done|]. destruct (cstr_ld _ _ _ Hn) as (-> & E0 & _). cbn [rbind]. rewrite E0.
  destruct (ar_range _ _ _ Har). rewrite (proj2 (Z.eqb_neq (environ s) 0)) by lia.
  apply (getenv_loop_ok fuel name (c :: nm) s es Hn Fn Fe Har fuel [] es); done.
Qed.

(** ** The state and the blocks that are counted on *)
Record env_inv (k : Z) (s : env_state) (U : list (Z * Z)) : Prop := {
  ei_heap : fresh k (heap s) U;
  ei_image : ∀ a, is_Some (image s !! a) → a < ub_base (brk_state (heap s)) ∨ USTACK_BEGIN ≤ a
}.

Lemma bytes_image s : keeps (image s) (bytes s).
Proof. intros a b E. by apply lookup_union_Some_l. Qed.

(** In the heap there is nothing of the image. *)
Lemma bytes_heap k s U p n a : env_inv k s U → (p, n) ∈ U → p ≤ a < p + n → bytes s !! a = block_bytes (heap s) !! a.
Proof.
  intros [HF Hi] Hp Ha. destruct (fresh_range _ _ _ _ _ HF Hp) as [Hlo Hhi]. apply lookup_union_r.
  destruct (image s !! a) as [b|] eqn:E; [|done]. destruct (Hi a ltac:(by eexists)); lia.
Qed.

Lemma bytes_alloc k s U q n0 p n : env_inv k s U → (q, n0) ∈ U → q ≤ p → p + n ≤ q + n0 → alloc (bytes s) p n.
Proof.
  intros HI Hq Hlo Hhi i Hir. rewrite (bytes_heap _ _ _ _ _ i HI Hq) by lia.
  destruct (fresh_bytes _ _ _ i (ei_heap _ _ _ HI)) as (b & -> & _); [exists q, n0; split; [done|lia]|by eexists].
Qed.

(** A string of the image lies beside the heap. *)
Lemma image_apart k s U a cs : env_inv k s U → cstr (image s) a cs →
  (∃ q n, (q, n) ∈ U) → a + len cs < ub_base (brk_state (heap s)) ∨ USTACK_BEGIN ≤ a.
Proof.
  intros HI Hc (q & n & Hq). destruct (fresh_ok _ _ _ _ _ (ei_heap _ _ _ HI) Hq) as (bs & n' & Hok & _ & _ & Hq').
  destruct (ub_range _ _ (uo_brk _ _ _ Hok)) as (_ & _ & _ & Hus). destruct (uo_start _ _ _ Hok) as (_ & _ & Hb).
  destruct (uo_end _ _ _ Hok) as [_ He].
  destruct (block_header _ _ _ _ _ Hok Hq') as (_ & cur & _ & _ & _ & _ & Hc1 & Hlo & _).
  assert (H0 : ∀ i : nat, (i ≤ length cs)%nat → is_Some (image s !! (a + Z.of_nat i))).
  { intros i Hi. rewrite (cstr_nth _ _ _ i Hc Hi). by eexists. }
  destruct (ei_image _ _ _ HI a) as [Ha|Ha]; [pose proof (H0 0%nat ltac:(lia)) as E; by rewrite Z.add_0_r in E| |by right].
  left. destruct (Z.lt_ge_cases (a + len cs) (ub_base (brk_state (heap s)))) as [|Hge]; [done|exfalso].
  destruct (ei_image _ _ _ HI (a + Z.of_nat (Z.to_nat (ub_base (brk_state (heap s)) - a)))) as [|]; [apply H0; lia|lia|lia].
Qed.

(** Bytes are written to a block. *)
Lemma write_block k s U m' q n0 p n : env_inv k s U → (q, n0) ∈ U → q ≤ p → p + n ≤ q + n0 →
  same_outside (bytes s) m' p n → (∀ a, p ≤ a < p + n → ∃ b, m' !! a = Some b ∧ 0 ≤ b < 256) →
  env_inv k (with_bytes m' s) U ∧ bytes (with_bytes m' s) = m' ∧ image (with_bytes m' s) = image s.
Proof.
  intros HI Hq Hlo Hhi Hs Hb. pose proof HI as [HF Him]. destruct (fresh_range _ _ _ _ _ HF Hq) as [Rlo Rhi].
  assert (Hd : ∀ a, overlay (m' ∖ image s) (data (heap s)) !! a = if decide (p ≤ a < p + n) then m' !! a else data (heap s) !! a).
  { intros a. rewrite overlay_lookup. case_decide as Ha.
    - destruct (fresh_bytes _ _ _ a HF) as (x & Hx & _); [exists q, n0; split; [done|lia]|].
      apply block_bytes_Some in Hx as [-> _]. destruct (Hb a Ha) as (b & Eb & _).
      rewrite (proj2 (lookup_difference_Some m' (image s) a b)); [done|]. split; [done|].
      apply eq_None_not_Some. intros Hx. destruct (Him a Hx); lia.
    - destruct (data (heap s) !! a) as [x|] eqn:Ex; [|done]. f_equal.
      destruct ((m' ∖ image s) !! a) as [y|] eqn:Ey; [|done]. apply lookup_difference_Some in Ey as [Ey Hn].
      rewrite Hs in Ey by lia. unfold bytes in Ey. rewrite lookup_union_r in Ey by done.
      apply block_bytes_Some in Ey as [Ey _]. cbn. congruence. }
  assert (Ei : image (with_bytes m' s) = image s).
  { cbn [with_bytes image]. apply map_eq. intros a. rewrite overlay_lookup. destruct (image s !! a) as [b|] eqn:E; [|done].
    rewrite Hs by (destruct (Him a ltac:(by eexists)); lia). by rewrite (bytes_image s a b E). }
  assert (HF' : fresh k (heap (with_bytes m' s)) U).
  { apply (fresh_write k (heap s) U _ q n0 p n HF Hq Hlo Hhi).
    - intros a Ha. rewrite Hd. by rewrite decide_False by lia.
    - intros a Ha. rewrite Hd. rewrite decide_True by lia. by apply Hb. }
  split; [split; [exact HF'|by rewrite Ei]|]. split; [|exact Ei].
  apply map_eq. intros a. unfold bytes at 1. rewrite Ei. destruct (image s !! a) as [b|] eqn:E.
  { rewrite (lookup_union_Some_l _ _ _ _ E). rewrite Hs by (destruct (Him a ltac:(by eexists)); lia). by rewrite (bytes_image s a b E). }
  rewrite lookup_union_r by done. apply option_eq. intros b. rewrite block_bytes_Some.
  cbn [with_bytes heap with_data data]. change (in_use (with_data _ (heap s))) with (in_use (heap s)). rewrite Hd.
  case_decide as Ha.
  - split; [by intros [? _]|]. intros Em. split; [done|].
    destruct (fresh_bytes _ _ _ a HF) as (x & Hx & _); [exists q, n0; split; [done|lia]|]. apply block_bytes_Some in Hx as [_ Hx]. exact Hx.
  - rewrite Hs by lia. unfold bytes. rewrite lookup_union_r by done. by rewrite block_bytes_Some.
Qed.

(** ** Steps *)
Lemma malloc_step fuel k s U n : env_inv (grow_pages n + k) s U → 0 ≤ k → 0 < n ≤ 2 ^ 30 - 16 → 2 ^ 28 ≤ Z.of_nat fuel →
  ∃ p s', on_heap (malloc fuel n) s = Ok (p, s') ∧ environ s' = environ s ∧ errno s' = errno s ∧ image s' = image s ∧
    keeps (bytes s) (bytes s') ∧
    (p = 0 ∧ env_inv k s' U ∨
     0 < p ∧ p + round_up n ≤ USTACK_BEGIN ∧ env_inv k s' ((p, round_up n) :: U) ∧
     (∀ a, p ≤ a < p + round_up n → bytes s' !! a = Some 0) ∧
     ∀ q m, (q, m) ∈ U → q + m ≤ p ∨ p + round_up n ≤ q).
Proof.
  intros [HF Him] Hk Hn Hf. destruct (malloc_fresh fuel k (heap s) U n HF Hk Hn Hf) as (p & h' & E & Hb & Hkp & Hres).
  exists p, (set_heap h' s). unfold on_heap. rewrite E. split_and!; try done.
  - intros a b Ha. unfold bytes in *. apply lookup_union_Some_raw in Ha as [Ha|[Hn' Ha]].
    + by apply lookup_union_Some_l.
    + rewrite lookup_union_r by done. by apply Hkp.
  - destruct Hres as [[-> HF']|(Hp & _ & Hhi & HF' & Hz & Hdis)].
    + left. split; [done|]. split; [done|]. cbn [set_heap heap image]. by rewrite Hb.
    + right. assert (HI : env_inv k (set_heap h' s) ((p, round_up n) :: U)).
      { split; [done|]. cbn [set_heap heap image]. by rewrite Hb. }
      split_and!; try done. intros a Ha. rewrite (bytes_heap k _ _ p (round_up n) a HI); [by apply Hz|by left|done].
Qed.

(** [s'] is [s] with other bytes at [p]. *)
Record wrote (k : Z) (U : list (Z * Z)) (s : env_state) (p n : Z) (s' : env_state) : Prop := {
  wr_inv : env_inv k s' U;
  wr_environ : environ s' = environ s;
  wr_errno : errno s' = errno s;
  wr_image : image s' = image s;
  wr_bytes : same_outside (bytes s) (bytes s') p n
}.

Lemma on_bytes_wrote {A} k s U (f : mem → res (A * mem)) x m' q n0 p l n : env_inv k s U → (q, n0) ∈ U → q ≤ p → p + n ≤ q + n0 →
  f (bytes s) = Ok (x, m') → same_outside (bytes s) m' p n → bytes_at m' p l → len l = n →
  ∃ s', on_bytes f s = Ok (x, s') ∧ wrote k U s p n s' ∧ bytes s' = m'.
Proof.
  intros HI Hq Hlo Hhi E Hs Hb Hl. exists (with_bytes m' s). unfold on_bytes. rewrite E.
  destruct (write_block k s U m' q n0 p n HI Hq Hlo Hhi Hs) as (HI' & Eb & Ei).
  { intros a Ha. destruct (bytes_at_get m' p l (a - p) Hb) as (b & Hb' & Rb & _); [lia|].
    replace (p + (a - p)) with a in Hb' by lia. by exists b. }
  split; [done|]. split; [split; try done|done]. by rewrite Eb.
Qed.

Lemma set_entry_wrote k s U (i : nat) v n0 : env_inv k s U → (environ s, n0) ∈ U → 4 * Z.of_nat i + 4 ≤ n0 → 0 ≤ v < 2 ^ 32 →
  ∃ s', set_entry (Z.of_nat i) v s = Ok s' ∧ wrote k U s (environ s + 4 * Z.of_nat i) 4 s' ∧
    word (bytes s') (environ s + 4 * Z.of_nat i) v.
Proof.
  intros HI Hq Hi Hv. destruct (fresh_range _ _ _ _ _ (ei_heap _ _ _ HI) Hq) as [Hlo Hhi].
  destruct (fresh_ok _ _ _ _ _ (ei_heap _ _ _ HI) Hq) as (bs & _ & Hok & _). destruct (ub_range _ _ (uo_brk _ _ _ Hok)) as ([? _] & _).
  unfold USTACK_BEGIN in *. unfold set_entry. rewrite uint_small by (simpl; lia).
  set (p := environ s + 4 * Z.of_nat i).
  destruct (st32_word (bytes s) p v) as (m' & E & Hw & Hs); [apply (bytes_alloc k s U (environ s) n0 p 4 HI Hq); unfold p; lia|done|].
  destruct (on_bytes_wrote k s U (λ m, let* m := st32 m p v in Ok (v, m)) v m' (environ s) n0 p (le4 v) 4)
    as (s' & Es & Hwr & Eb); [done|done|lia|lia|by rewrite E|done|apply Hw|done|].
  exists s'. rewrite Es. cbn [rbind]. split; [done|]. split; [done|]. by rewrite Eb.
Qed.

(** ** Strings are put together *)
Lemma strcat_loop_ok fuel cs : ∀ start source m, cstr m source cs → alloc m start (len cs) → (length cs < fuel)%nat →
  start + len cs ≤ source ∨ source + len cs < start →
  ∃ m', strcat_loop fuel start source m = Ok m' ∧ bytes_at m' start cs ∧ same_outside m m' start (len cs).
Proof.
  revert fuel. induction cs as [|c cs IH]; intros [|fuel] start source m Hc Ha Hf Hd; cbn [length] in *; try lia; cbn [strcat_loop].
  - rewrite (cstr_ld _ _ _ Hc). cbn [rbind]. exists m. split; [done|]. split; [done|]. apply same_outside_refl.
  - destruct (cstr_ld _ _ _ Hc) as (-> & E0 & Rc & Hc'). cbn [rbind]. rewrite E0.
    rewrite st_Ok by (apply Ha; lia). cbn [rbind]. rewrite uint_small by (simpl; lia).
    destruct (IH fuel (start + 1) (source + 1) (<[start := c]> m)) as (m' & -> & Hb & Ho).
    + apply cstr_insert; [done|lia].
    + intros i Hi. apply (alloc_insert m start (Z.of_nat (S (length cs)))); [done|lia].
    + lia.
    + lia.
    + exists m'. split; [done|]. split.
      * split; [rewrite Ho by lia; apply lookup_insert_eq|]. split; [lia|exact Hb].
      * eapply same_outside_trans; [apply same_outside_insert|exact Ho|lia..].
Qed.

(** [strcat] stores no terminator: there must be a zero behind the text already. *)
Lemma strcat_zeros fuel dest ds source cs m : cstr m dest ds → cstr m source cs →
  (∀ a, dest + len ds ≤ a ≤ dest + len ds + len cs → m !! a = Some 0) →
  dest + len ds + len cs < source ∨ source + len cs < dest → (length ds < fuel)%nat → (length cs < fuel)%nat →
  ∃ m', strcat fuel dest source m = Ok (dest, m') ∧ cstr m' dest (ds ++ cs) ∧ same_outside m m' (dest + len ds) (len cs).
Proof.
  intros Hd Hs Hz Hap Hf1 Hf2. unfold strcat, CString.strcat. rewrite (find_end_spec fuel dest ds m Hd Hf1). cbn [rbind].
  destruct (strcat_loop_ok fuel cs (dest + len ds) source m Hs) as (m' & -> & Hb & Ho).
  { intros i Hi. rewrite Hz by lia. by eexists. }
  { done. } { lia. }
  exists m'. split; [done|]. split; [|done]. pose proof (proj1 (cstr_bytes _ _ _) Hd) as [Bd Fd].
  apply bytes_at_app in Bd as [Bd _]. apply cstr_bytes. split; [|apply list.Forall_app; split; [done|]].
  - rewrite <- app_assoc. apply bytes_at_app. split; [apply (bytes_at_same m m' _ _ (dest + len ds) (len cs)); [done|done|lia]|].
    apply bytes_at_app. split; [done|]. split; [|done]. rewrite Ho by lia. apply Hz. lia.
  - by apply (cstr_bytes m source).
Qed.

Lemma wrote_wider k U s p n s' q m : wrote k U s p n s' → q ≤ p → p + n ≤ q + m → wrote k U s q m s'.
Proof. intros [H1 H2 H3 H4 H5] Hlo Hhi. split; try done. intros a Ha. apply H5. lia. Qed.

Lemma wrote_trans k U s1 s2 s3 p n : wrote k U s1 p n s2 → wrote k U s2 p n s3 → wrote k U s1 p n s3.
Proof.
  intros [A1 A2 A3 A4 A5] [B1 B2 B3 B4 B5]. split; [done|congruence..|].
  intros a Ha. rewrite B5, A5 by done. done.
Qed.

Lemma in_image k U s p n s' a cs : wrote k U s p n s' → cstr (image s) a cs → cstr (bytes s') a cs.
Proof. intros HW Hc. rewrite <- (wr_image _ _ _ _ _ _ HW) in Hc. exact (cstr_keeps _ _ _ _ Hc (bytes_image s')). Qed.

(** The strings of the program: in its image or on its stack. *)
Definition literal (s : env_state) (a : Z) (cs : list Z) : Prop := cstr (image s) a cs.

Lemma literal_bytes s a cs : literal s a cs → cstr (bytes s) a cs.
Proof. intros H. exact (cstr_keeps _ _ _ _ H (bytes_image s)). Qed.

(** A string is appended to the text at [p], in a block that was zero behind it. *)
Lemma append_text fuel k s U p n0 ds a cs : env_inv k s U → (p, n0) ∈ U → cstr (bytes s) p ds → literal s a cs →
  len ds + len cs < n0 → (∀ i, p + len ds ≤ i < p + n0 → bytes s !! i = Some 0) →
  (length ds < fuel)%nat → (length cs < fuel)%nat →
  ∃ s', on_bytes (strcat fuel p a) s = Ok (p, s') ∧ wrote k U s p n0 s' ∧ cstr (bytes s') p (ds ++ cs) ∧
    ∀ i, p + len (ds ++ cs) ≤ i < p + n0 → bytes s' !! i = Some 0.
Proof.
  intros HI Hp Hd Ha Hlen Hz Hf1 Hf2. destruct (fresh_range _ _ _ _ _ (ei_heap _ _ _ HI) Hp) as [Hlo Hhi].
  destruct (image_apart k s U a cs HI Ha (ex_intro _ p (ex_intro _ n0 Hp))) as [Hap|Hap].
  all: destruct (strcat_zeros fuel p ds a cs (bytes s) Hd (literal_bytes _ _ _ Ha)) as (m' & E & Hc & Ho); [intros i Hi; apply Hz; lia|lia|done|done|].
  all: assert (Hbs : bytes_at m' (p + len ds) cs) by
    (apply cstr_bytes in Hc as [Hc _]; rewrite <- app_assoc in Hc; apply bytes_at_app in Hc as [_ Hc]; by apply bytes_at_app in Hc as [Hc _]).
  all: destruct (on_bytes_wrote k s U (strcat fuel p a) p m' p n0 (p + len ds) cs (len cs) HI Hp) as (s' & E' & HW & Eb); [lia|lia|exact E|exact Ho|exact Hbs|done|].
  all: exists s'; split; [exact E'|]; split; [apply (wrote_wider _ _ _ _ _ _ _ _ HW); lia|]; split; [by rewrite Eb|].
  all: intros i Hi; rewrite length_app in Hi; rewrite Eb, Ho by lia; apply Hz; lia.
Qed.

Lemma copy_text fuel k s U p n0 a cs : env_inv k s U → (p, n0) ∈ U → literal s a cs →
  len cs < n0 → (∀ i, p ≤ i < p + n0 → bytes s !! i = Some 0) → (length cs < fuel)%nat →
  ∃ r s', on_bytes (strcpy fuel p a) s = Ok (r, s') ∧ wrote k U s p n0 s' ∧ cstr (bytes s') p cs ∧
    ∀ i, p + len cs ≤ i < p + n0 → bytes s' !! i = Some 0.
Proof.
  intros HI Hp Ha Hlen Hz Hf. destruct (fresh_range _ _ _ _ _ (ei_heap _ _ _ HI) Hp) as [Hlo Hhi].
  destruct (strcpy_copies fuel cs p a (bytes s) (literal_bytes _ _ _ Ha)) as (m' & E & Hc & Ho); [|done| |].
  { intros i Hi. rewrite Hz by lia. by eexists. }
  { destruct (image_apart k s U a cs HI Ha (ex_intro _ p (ex_intro _ n0 Hp))); lia. }
  pose proof (proj1 (cstr_bytes _ _ _) Hc) as [Hb _].
  destruct (on_bytes_wrote k s U (strcpy fuel p a) (p + len cs) m' p n0 p (cs ++ [0]) (len cs + 1) HI Hp) as (s' & E' & HW & Eb);
    [lia|lia|exact E|exact Ho|exact Hb|rewrite length_app; cbn [length]; lia|].
  exists (p + len cs), s'. split; [exact E'|]. split; [apply (wrote_wider _ _ _ _ _ _ _ _ HW); lia|]. split; [by rewrite Eb|].
  intros i Hi. rewrite Eb. destruct (decide (i = p + len cs)) as [->|Hne]; [|rewrite Ho by lia; apply Hz; lia].
  rewrite (cstr_nth m' p cs (length cs) Hc) by lia. by rewrite nth_overflow by lia.
Qed.

Lemma build_text_ok fuel k s U p n0 e0 ps (i : nat) name nm value val : env_inv k s U → (p, n0) ∈ U → (environ s, e0) ∈ U →
  p ≠ environ s → slots (bytes s) (environ s) ps → 4 * len ps ≤ e0 → ps !! i = Some p →
  literal s name nm → literal s value val → literal s lit_eq [ch "="] →
  len nm + 1 + len val < n0 → (∀ a, p ≤ a < p + n0 → bytes s !! a = Some 0) → (length nm + 1 + length val < fuel)%nat →
  ∃ s', build_text fuel (Z.of_nat i) name value s = Ok (0, s') ∧ wrote k U s p n0 s' ∧
    cstr (bytes s') p (nm ++ [ch "="] ++ val).
Proof.
  intros HI Hp He Hne Hsl H4 Hi Hn Hv Hl Hlen Hz Hf.
  destruct (fresh_range _ _ _ _ _ (ei_heap _ _ _ HI) He) as [Elo Ehi].
  destruct (fresh_ok _ _ _ _ _ (ei_heap _ _ _ HI) He) as (bs & _ & Hok & _). destruct (ub_range _ _ (uo_brk _ _ _ Hok)) as ([Eb _] & _).
  pose proof (fresh_disjoint _ _ _ _ _ _ _ (ei_heap _ _ _ HI) He Hp ltac:(done)) as Hdis.
  assert (Hent : ∀ s1, environ s1 = environ s → slots (bytes s1) (environ s) ps → entry (Z.of_nat i) s1 = Ok p).
  { intros s1 E1 Hs1. apply (slot_entry s1 ps); rewrite ?E1; unfold USTACK_BEGIN in *; try done; simpl; lia. }
  assert (Hkeep : ∀ s1 s2, wrote k U s1 p n0 s2 → environ s1 = environ s → slots (bytes s1) (environ s) ps → slots (bytes s2) (environ s) ps).
  { intros s1 s2 HW E1 Hs1. apply (slots_apart _ _ _ _ p n0 Hs1 (wr_bytes _ _ _ _ _ _ HW)). lia. }
  unfold build_text. rewrite (Hent s eq_refl Hsl). cbn [rbind].
  destruct (copy_text fuel k s U p n0 name nm HI Hp Hn) as (r & s1 & -> & W1 & C1 & Z1); [lia|done|lia|]. cbn [rbind].
  pose proof (Hkeep _ _ W1 eq_refl Hsl) as Hs1. pose proof (wr_environ _ _ _ _ _ _ W1) as E1.
  rewrite (Hent s1 E1 Hs1). cbn [rbind].
  destruct (append_text fuel k s1 U p n0 nm lit_eq [ch "="] (wr_inv _ _ _ _ _ _ W1) Hp C1) as (s2 & -> & W2 & C2 & Z2);
    [unfold literal in *; by rewrite (wr_image _ _ _ _ _ _ W1)|cbn [length]; lia|done|lia|cbn [length]; lia|]. cbn [rbind].
  pose proof (Hkeep _ _ W2 E1 Hs1) as Hs2. pose proof (wr_environ _ _ _ _ _ _ W2) as E2. rewrite E1 in E2.
  rewrite (Hent s2 E2 Hs2). cbn [rbind].
  assert (W12 : wrote k U s p n0 s2) by (by apply (wrote_trans _ _ _ s1)).
  destruct (append_text fuel k s2 U p n0 (nm ++ [ch "="]) value val (wr_inv _ _ _ _ _ _ W2) Hp C2) as (s3 & -> & W3 & C3 & _);
    [unfold literal in *; by rewrite (wr_image _ _ _ _ _ _ W12)|rewrite length_app; cbn [length]; lia|done|
     rewrite length_app; cbn [length]; lia|lia|]. cbn [rbind].
  exists s3. split; [done|]. split; [by apply (wrote_trans _ _ _ s2)|]. by rewrite app_assoc.
Qed.

(** ** An environment of at most three strings

    The array has 16 bytes; the strings are in blocks of their own, with their terminators.
    [U] are the blocks counted on, those of the environment among them. *)
Definition text_at_block (s : env_state) (U : list (Z * Z)) (e : Z * list Z) : Prop :=
  0 < e.1 ∧ e.2 ≠ [] ∧ cstr (bytes s) e.1 e.2 ∧ e.1 ≠ environ s ∧ ∃ n, (e.1, n) ∈ U ∧ len e.2 < n.

Record environment (k : Z) (s : env_state) (U : list (Z * Z)) (es : list (Z * list Z)) : Prop := {
  en_inv : env_inv k s U;
  en_block : (environ s, 16) ∈ U;
  en_only : ∀ n, (environ s, n) ∈ U → n ≤ 16;
  en_few : len es ≤ 3;
  en_slots : slots (bytes s) (environ s) (es.*1 ++ [0]);
  en_texts : Forall (text_at_block s U) es
}.

Lemma environ_range k s U n : env_inv k s U → (environ s, n) ∈ U → 0 < environ s ∧ environ s + n ≤ USTACK_BEGIN.
Proof.
  intros HI He. destruct (fresh_range _ _ _ _ _ (ei_heap _ _ _ HI) He) as [Elo Ehi].
  destruct (fresh_ok _ _ _ _ _ (ei_heap _ _ _ HI) He) as (bs & _ & Hok & _). destruct (ub_range _ _ (uo_brk _ _ _ Hok)) as ([Eb _] & _).
  lia.
Qed.

Lemma environment_array k s U es : environment k s U es → array (bytes s) (environ s) es.
Proof.
  intros [HI Hb _ Hf Hs Ht]. destruct (environ_range _ _ _ _ HI Hb). split; [done| |unfold USTACK_BEGIN in *; simpl; lia].
  eapply list.Forall_impl; [exact Ht|]. by intros e (? & _ & ? & _).
Qed.

(** The strings stay when another block is written, when more blocks come, and when the
    array is. *)
Lemma texts_wrote k U s q m p n s' es : wrote k U s p n s' → (q, m) ∈ U → q ≤ p → p + n ≤ q + m → q ∉ es.*1 →
  Forall (text_at_block s U) es → Forall (text_at_block s' U) es.
Proof.
  intros HW Hq Hlo Hhi Hn. rewrite !list.Forall_forall. intros H e He. destruct (H e He) as (H0 & H1 & H2 & H3 & r & Hr & H4).
  assert (Hne : e.1 ≠ q) by (intros <-; apply Hn, list_elem_of_fmap; by exists e).
  pose proof (fresh_disjoint _ _ _ _ _ _ _ (ei_heap _ _ _ (wr_inv _ _ _ _ _ _ HW)) Hr Hq Hne) as Hd.
  split; [done|]. split; [done|]. split; [apply (cstr_apart _ _ _ _ p n H2 (wr_bytes _ _ _ _ _ _ HW)); lia|].
  split; [by rewrite (wr_environ _ _ _ _ _ _ HW)|]. by exists r.
Qed.

Lemma texts_keeps s s' U U' es : keeps (bytes s) (bytes s') → environ s' = environ s → U ⊆ U' →
  Forall (text_at_block s U) es → Forall (text_at_block s' U') es.
Proof.
  intros Hk He HU HF. eapply list.Forall_impl; [exact HF|]. intros e (H0 & H1 & H2 & H3 & r & Hr & H4).
  split; [done|]. split; [done|]. split; [by apply (cstr_keeps (bytes s))|]. split; [by rewrite He|].
  exists r. split; [by apply HU|done].
Qed.

Lemma literal_same s s' a cs : image s' = image s → literal s a cs → literal s' a cs.
Proof. intros E. unfold literal. by rewrite E. Qed.

Lemma round_up_fits n : 0 < n ≤ 2 ^ 20 → n mod 16 ≠ 0 → n < round_up n.
Proof.
  intros Hn Hm. destruct (round_up_ok n) as [Hr Hm']; [simpl in *; lia|]. unfold NODE_SIZE in Hm'.
  destruct (Z.eq_dec (round_up n) n) as [E|]; [by rewrite E in Hm'|lia].
Qed.

Lemma insert_here {A} (l r : list A) x v n : n = length l → <[n := v]> (l ++ x :: r) = l ++ v :: r.
Proof. intros ->. induction l as [|y l IH]; [done|]. cbn [length app insert list_insert]. by rewrite <- IH. Qed.

Lemma slots_front m a ps qs : slots m a (ps ++ qs) → slots m a ps.
Proof. intros H i p Hi. apply H. by apply lookup_app_l_Some. Qed.

(** A word of the array is written: only one that is not a string's. *)
Lemma set_slot k s U es v x r : env_inv k s U → (environ s, 16) ∈ U → 4 * len (es.*1 ++ x :: r) ≤ 16 → 0 ≤ v < 2 ^ 32 →
  slots (bytes s) (environ s) (es.*1 ++ x :: r) → Forall (text_at_block s U) es →
  ∃ s', set_entry (len es) v s = Ok s' ∧ wrote k U s (environ s) 16 s' ∧
    slots (bytes s') (environ s') (es.*1 ++ v :: r) ∧ Forall (text_at_block s' U) es.
Proof.
  intros HI He Hlen Hv Hs Ht. rewrite length_app, length_fmap in Hlen. cbn [length] in Hlen.
  destruct (set_entry_wrote k s U (length es) v 16 HI He) as (s' & E & W & Hw); [lia|done|].
  exists s'. split; [done|]. split; [apply (wrote_wider _ _ _ _ _ _ _ _ W); lia|]. split.
  - rewrite (wr_environ _ _ _ _ _ _ W). rewrite <- (insert_here es.*1 r x v (length es)) by (by rewrite length_fmap).
    apply (slots_set (bytes s)); [done|done|by apply W].
  - apply (texts_wrote k U s (environ s) 16 _ _ s' es W He); [lia|lia| |done].
    intros (e & Ee & Hin)%list_elem_of_fmap. rewrite list.Forall_forall in Ht.
    destruct (Ht e Hin) as (_ & _ & _ & Hne & _). done.
Qed.

(** The string is put at the end of the array, whose last two words are zero. *)
Lemma put_text_ok fuel k s U es name nm value val (n := len nm + len val + 1) :
  env_inv (grow_pages n + k) s U → 0 ≤ k → 2 ^ 28 ≤ Z.of_nat fuel → (environ s, 16) ∈ U → (∀ m, (environ s, m) ∈ U → m ≤ 16) →
  len es ≤ 2 → slots (bytes s) (environ s) (es.*1 ++ [0; 0]) → Forall (text_at_block s U) es →
  literal s name nm → literal s value val → literal s lit_eq [ch "="] → nm ≠ [] → n ≤ 2 ^ 20 → n mod 16 ≠ 0 →
  ∃ r s' U', put_text fuel (len es) name value s = Ok (r, s') ∧ image s' = image s ∧ environ s' = environ s ∧ U ⊆ U' ∧
    (r = 0 ∧ errno s' = errno s ∧ (∃ p, environment k s' U' (es ++ [(p, nm ++ [ch "="] ++ val)])) ∨
     r = -1 ∧ errno s' = ENOMEM ∧ environment k s' U' es).
Proof.
  intros HI Hk Hfu He Hon Hf Hs Ht Hn Hv Hl Hne Hsz Hm. change (2 ^ 20) with 1048576 in *. change (2 ^ 28) with 268435456 in *.
  assert (Hn0 : 0 < n ∧ (length nm + 1 + length val < fuel)%nat) by (unfold n in *; lia). destruct Hn0 as [Hn0 Hfl].
  pose proof (round_up_fits n ltac:(simpl; lia) Hm) as Hr.
  unfold put_text. rewrite (strlen_spec fuel name nm) by (apply literal_bytes, Hn || lia). cbn [rbind].
  rewrite (strlen_spec fuel value val) by (apply literal_bytes, Hv || lia). cbn [rbind]. fold n.
  rewrite uint_small by (simpl; lia).
  destruct (malloc_step fuel k s U n HI Hk) as (p & s1 & -> & E1 & R1 & I1 & K1 & Hcase); [simpl; lia|simpl; lia|]. cbn [rbind].
  pose proof (slots_keeps _ _ _ _ Hs K1) as Hs1.
  pose proof (texts_keeps s s1 U U es K1 E1 ltac:(done) Ht) as Ht1. rewrite <- E1 in *.
  assert (H4 : 4 * len (es.*1 ++ [0; 0]) ≤ 16) by (rewrite length_app, length_fmap; cbn [length]; lia).
  destruct Hcase as [[-> HI1]|(Hp & Hhi & HI1 & Hz & Hdis)].
  - destruct (set_slot k s1 U es 0 0 [0] HI1 He H4 ltac:(done) Hs1 Ht1) as (s2 & -> & W & Hs2 & Ht2). cbn [rbind].
    change (0 =? 0) with true. cbv iota. exists (-1), (Env (environ s2) ENOMEM (heap s2) (image s2)), U.
    pose proof W as [W1 W2 W3 W4 W5]. rewrite <- W2 in *. split; [done|]. cbn [image environ errno]. split_and!; [congruence|done|done|].
    right. split; [done|]. split; [done|]. split; cbn [environ]; try done; [by destruct W1|lia|].
    rewrite (assoc_L (++) _ [0] [0]) in Hs2. by apply slots_front in Hs2.
  - set (U1 := (p, round_up n) :: U) in *. assert (Hsub : U ⊆ U1) by (intros x Hx; by right).
    assert (Hpin : (p, round_up n) ∈ U1) by (by left).
    pose proof (texts_keeps s1 s1 U U1 es (λ a b H, H) eq_refl Hsub Ht1) as Ht1'.
    pose proof (Hsub _ He) as He1. pose proof (Hdis _ _ He) as Hd.
    destruct (set_slot k s1 U1 es p 0 [0] HI1 He1 H4) as (s2 & -> & W & Hs2 & Ht2);
      [unfold USTACK_BEGIN in *; simpl; lia|done|done|]. cbn [rbind].
    rewrite (proj2 (Z.eqb_neq p 0)) by lia. pose proof W as [W1 W2 W3 W4 W5].
    assert (Hpe : p ≠ environ s2) by (rewrite W2; lia).
    destruct (build_text_ok fuel k s2 U1 p (round_up n) 16 (es.*1 ++ [p; 0]) (length es) name nm value val W1 Hpin)
      as (s3 & -> & W' & Hc); try done.
    { by rewrite W2. }
    { rewrite length_app, length_fmap. cbn [length]. lia. }
    { apply list_lookup_middle. by rewrite length_fmap. }
    { apply (literal_same s); [congruence|done]. }
    { apply (literal_same s); [congruence|done]. }
    { apply (literal_same s); [congruence|done]. }
    { unfold n in *. lia. }
    { intros a Ha. rewrite W5 by lia. by apply Hz. }
    pose proof W' as [V1 V2 V3 V4 V5]. exists 0, s3, U1. split; [done|]. split_and!; [congruence|congruence|done|].
    left. split; [done|]. split; [congruence|]. exists p.
    assert (Hnot : p ∉ es.*1).
    { intros (e & -> & Hin)%list_elem_of_fmap. rewrite list.Forall_forall in Ht1.
      destruct (Ht1 e Hin) as (_ & _ & _ & _ & m & Hm' & Hml). destruct (Hdis _ _ Hm'); lia. }
    split; rewrite ?V2, ?W2; try done.
    + intros m [[= E0 ->]|Hm0]%elem_of_cons; [exfalso; lia|]. by apply Hon.
    + rewrite length_app. cbn [length]. lia.
    + rewrite fmap_app, <- app_assoc. cbn [fmap list_fmap app fst]. rewrite W2 in Hs2.
      apply (slots_apart _ _ _ _ p (round_up n) Hs2 V5). rewrite length_app, length_fmap. cbn [length]. lia.
    + apply list.Forall_app. split; [apply (texts_wrote k U1 s2 p (round_up n) p (round_up n) s3 es W' Hpin); [lia|lia|done|done]|].
      constructor; [|constructor]. split; [done|]. cbn [fst snd]. split; [by destruct nm|]. split; [done|].
      split; [by rewrite V2|]. exists (round_up n). split; [done|]. rewrite !length_app. cbn [length]. unfold n in *. lia.
Qed.

(** ** Looking for the place of a variable *)
Lemma name_not_here nm t c : take (length nm) t = nm → nth (length nm) t 0 = c → c ≠ 0 → take (S (length nm)) t = nm ++ [c].
Proof.
  intros Ht Hc Hc0. assert (Hl : (length nm < length t)%nat).
  { destruct (Nat.lt_ge_cases (length nm) (length t)); [done|]. rewrite nth_overflow in Hc by done. congruence. }
  destruct (lookup_lt_is_Some_2 t _ Hl) as [x Hx]. rewrite (take_S_r _ _ x Hx), Ht.
  by rewrite <- Hc, (nth_lookup_Some _ _ _ _ Hx).
Qed.

Lemma s8_eq_sign c : 0 ≤ c < 256 → (s8 c =? ch "=") = (c =? ch "=").
Proof. intros Hc. change (ch "=") with 61. change 61 with (s8 61) at 1. rewrite (s8_eq c 61) by lia. apply Z.eqb_sym. Qed.

Lemma find_name_none fuel name nm s es : cstr (bytes s) name nm → fits fuel nm → Forall (λ e, fits fuel e.2) es →
  array (bytes s) (environ s) es → Forall (λ e, take (S (length nm)) e.2 ≠ nm ++ [ch "="]) es →
  ∀ n pre suf, es = pre ++ suf → (length suf < n)%nat → find_name n fuel (len pre) name s = Ok (false, len es).
Proof.
  intros Hn Fn HF Har Hno. induction n as [|n IH]; intros pre suf He Hlen; [lia|]. cbn [find_name].
  destruct suf as [|[p t] suf].
  { rewrite app_nil_r in He. subst pre. by rewrite (array_null _ _ Har). }
  destruct (array_entry s es (length pre) (p, t) Har) as (-> & Hp & Ht); [rewrite He; by apply list_lookup_middle|].
  cbn [fst snd rbind] in *. rewrite (proj2 (Z.eqb_neq p 0)) by lia.
  assert (Ft : fits fuel t) by (rewrite He in HF; apply list.Forall_app in HF as [_ HF]; by inversion HF).
  assert (Hnt : take (S (length nm)) t ≠ nm ++ [ch "="]) by (rewrite He in Hno; apply list.Forall_app in Hno as [_ Hno]; by inversion Hno).
  rewrite (strlen_spec fuel name nm) by (done || apply Fn). cbn [rbind].
  destruct (strncmp_name fuel name p nm t (bytes s) Hn Ht Fn Ft) as (r & -> & Hr). cbn [rbind]. rewrite Hr.
  assert (IH' : find_name n fuel (len pre + 1) name s = Ok (false, len es)).
  { replace (len pre + 1) with (len (pre ++ [(p, t)])) by (rewrite length_app; cbn [length]; lia).
    apply (IH _ suf); [by rewrite <- app_assoc|]. cbn [length] in Hlen. lia. }
  case_bool_decide as Hd; [|exact IH'].
  assert (Hl : (length nm ≤ length t)%nat) by (rewrite <- Hd, length_take; lia).
  rewrite (ldc_Ok _ _ _ (cstr_nth _ _ _ _ Ht Hl)). cbn [rbind].
  destruct (Z.eqb_spec (s8 (nth (length nm) t 0)) (ch "=")) as [E|_]; [exfalso|exact IH'].
  apply Hnt. pose proof (cstr_forall _ _ _ Ht) as HFt.
  assert (Hc : 0 ≤ nth (length nm) t 0 < 256).
  { destruct (nth_in_or_default (length nm) t 0) as [Hin| ->]; [|lia].
    rewrite list.Forall_forall in HFt. apply HFt. by apply list_elem_of_In. }
  apply Z.eqb_eq in E. rewrite s8_eq_sign in E by done. apply Z.eqb_eq in E.
  by apply name_not_here.
Qed.

Lemma find_empty_none s es : array (bytes s) (environ s) es → Forall (λ e, e.2 ≠ []) es →
  ∀ n pre suf, es = pre ++ suf → (length suf < n)%nat → find_empty n (len pre) s = Ok (false, len es).
Proof.
  intros Har Hne. induction n as [|n IH]; intros pre suf He Hlen; [lia|]. cbn [find_empty].
  destruct suf as [|[p t] suf].
  { rewrite app_nil_r in He. subst pre. by rewrite (array_null _ _ Har). }
  destruct (array_entry s es (length pre) (p, t) Har) as (-> & Hp & Ht); [rewrite He; by apply list_lookup_middle|].
  cbn [fst snd rbind] in *. rewrite (proj2 (Z.eqb_neq p 0)) by lia.
  assert (Hnt : t ≠ []) by (rewrite He in Hne; apply list.Forall_app in Hne as [_ Hne]; by inversion Hne).
  destruct t as [|c t]; [done|]. destruct (cstr_ld _ _ _ Ht) as (-> & E0 & _). cbn [rbind]. rewrite E0.
  replace (len pre + 1) with (len (pre ++ [(p, c :: t)])) by (rewrite length_app; cbn [length]; lia).
  apply (IH _ suf); [by rewrite <- app_assoc|]. cbn [length] in Hlen. lia.
Qed.

(** ** The array grows in its place *)
Lemma bytes_at_frame m m' a l : bytes_at m a l → (∀ i, a ≤ i < a + len l → m' !! i = m !! i) → bytes_at m' a l.
Proof.
  revert a. induction l as [|b l IH]; intros a H Hs; [done|]. destruct H as (E & Hb & H). cbn [length] in Hs.
  split; [rewrite Hs by lia; exact E|]. split; [done|]. apply IH; [done|]. intros i Hi. apply Hs. lia.
Qed.

Lemma grow_array fuel k s U es : environment k s U es → len es ≤ 2 →
  ∃ s', on_heap (realloc fuel (environ s) (u32 (4 * (len es + 1)))) s = Ok (environ s, s') ∧ environ s' = environ s ∧
    errno s' = errno s ∧ image s' = image s ∧ environment k s' U es.
Proof.
  intros [HI Hb Hon Hf Hs Ht] Hlen. rewrite uint_small by (simpl; lia).
  assert (Hr : round_up (4 * (len es + 1)) = 16).
  { assert (len es = 0 ∨ len es = 1 ∨ len es = 2) as [-> | [-> | ->]] by lia; done. }
  destruct (realloc_fresh fuel k (heap s) U (environ s) 16 (4 * (len es + 1)) (ei_heap _ _ _ HI) Hb Hon)
    as (ns & E & HF & Hby); [lia|lia|simpl; lia|].
  exists (set_heap (with_nodes ns (heap s)) s). unfold on_heap. rewrite E. split_and!; try done.
  assert (Hsame : ∀ q n i, (q, n) ∈ U → q ≤ i < q + n → bytes (set_heap (with_nodes ns (heap s)) s) !! i = bytes s !! i).
  { intros q n i Hq Hi. unfold bytes. cbn [set_heap image heap]. rewrite !lookup_union.
    by rewrite Hby by (exists q, n; split; [done|lia]). }
  split; try done.
  - split; [done|apply HI].
  - intros i p Hi. destruct (Hs i p Hi) as [Hv Hw]. split; [done|]. apply (bytes_at_frame _ _ _ _ Hw).
    intros j Hj. apply (Hsame (environ s) 16 j Hb). apply lookup_lt_Some in Hi. rewrite length_app, length_fmap in Hi.
    cbn [length le4] in *. lia.
  - eapply list.Forall_impl; [exact Ht|]. intros e (H0 & H1 & H2 & H3 & r & Hr' & H4). split_and!; try done.
    + apply cstr_bytes in H2 as [H2 H5]. apply cstr_bytes. split; [|done]. apply (bytes_at_frame _ _ _ _ H2).
      intros j Hj. apply (Hsame e.1 r j Hr'). rewrite length_app in Hj. cbn [length] in Hj. lia.
    + by exists r.
Qed.

(** No environment yet, or one. *)
Definition maybe_environment (k : Z) (s : env_state) (U : list (Z * Z)) (es : list (Z * list Z)) : Prop :=
  (environ s = 0 ∧ es = [] ∧ env_inv k s U) ∨ environment k s U es.

Lemma first_sign nm v : Forall (λ c, 0 ≤ c < 256) nm → ch "=" ∉ nm →
  first_index (λ c, s8 c =? ch "=") (nm ++ ch "=" :: v) = Some (length nm).
Proof.
  induction 1 as [|c nm Hc HF IH]; intros Hn; cbn [app first_index length]; [done|].
  rewrite s8_eq_sign by done. rewrite (proj2 (Z.eqb_neq c (ch "="))) by (intros ->; apply Hn; by left).
  rewrite IH; [done|]. intros Hin. apply Hn. by right.
Qed.

Lemma no_sign nm : Forall (λ c, 0 < c < 256) nm → ch "=" ∉ nm → char_index nm (ch "=") = None.
Proof.
  unfold char_index. change (ch "=" =? 0) with false. cbv iota.
  induction 1 as [|c nm Hc HF IH]; intros Hn; cbn [first_index]; [done|].
  rewrite s8_eq_sign by lia. rewrite (proj2 (Z.eqb_neq c (ch "="))) by (intros ->; apply Hn; by left).
  rewrite IH; [done|]. intros Hin. apply Hn. by right.
Qed.

Lemma var_at_app nm es es' : var_at nm (es ++ es') = match var_at nm es with Some e => Some e | None => var_at nm es' end.
Proof. induction es as [|e es IH]; [done|]. cbn [app var_at]. by case_bool_decide. Qed.

(** The first array. *)
Lemma first_array fuel k s U : env_inv (grow_pages 8 + k) s U → 0 ≤ k → 2 ^ 28 ≤ Z.of_nat fuel → environ s = 0 →
  ∃ p s', on_heap (malloc fuel 8) s = Ok (p, s') ∧ errno s' = errno s ∧ image s' = image s ∧
    (p = 0 ∧ env_inv k s' U ∧ environ s' = 0 ∨
     p ≠ 0 ∧ ∃ s1 U1, set_entry 1 0 (set_environ p s') = Ok s1 ∧ errno s1 = errno s ∧ image s1 = image s ∧ U ⊆ U1 ∧
       env_inv k s1 U1 ∧ (environ s1, 16) ∈ U1 ∧ (∀ m, (environ s1, m) ∈ U1 → m ≤ 16) ∧
       slots (bytes s1) (environ s1) [0; 0]).
Proof.
  intros HI Hk Hf H0. destruct (malloc_step fuel k s U 8 HI Hk) as (p & s' & E & E1 & R1 & I1 & _ & Hcase); [done|done|].
  exists p, s'. split; [exact E|]. split; [done|]. split; [done|].
  destruct Hcase as [[-> HI1]|(Hp & Hhi & HI1 & Hz & Hdis)]; [left; split_and!; [done..|congruence]|right].
  split; [lia|]. change (round_up 8) with 16 in *. set (U1 := (p, 16) :: U) in *.
  assert (HI2 : env_inv k (set_environ p s') U1) by (by destruct HI1).
  assert (Hb : (environ (set_environ p s'), 16) ∈ U1) by (by left).
  assert (Hs0 : slots (bytes s') p [0; 0]).
  { intros i q Hi. assert (Hil : (i < 2)%nat) by (apply lookup_lt_Some in Hi; exact Hi).
    assert (q = 0) as -> by (destruct i as [|[|i]]; cbn in Hi; [congruence..|lia]).
    split; [done|]. unfold le4. cbn. rewrite !Hz by lia. done. }
  destruct (set_entry_wrote k (set_environ p s') U1 1 0 16 HI2 Hb) as (s1 & Es & W & Hw); [lia|done|].
  pose proof W as [W1 W2 W3 W4 W5]. cbn [set_environ environ errno image] in *.
  exists s1, U1. split; [exact Es|]. split; [congruence|]. split; [congruence|]. split; [by intros x Hx; right|].
  split; [done|]. rewrite W2. split; [done|]. split.
  - intros m [[= ->]|Hm]%elem_of_cons; [done|]. destruct (Hdis _ _ Hm); lia.
  - apply (slots_set _ _ _ [0; 0] 1 0 Hs0 Hw). exact W5.
Qed.

Lemma environment_le j k s U es : environment j s U es → k ≤ j → environment k s U es.
Proof. intros [[HF Hi] H1 H2 H3 H4 H5] Hle. split; try done. split; [by apply (fresh_le j)|done]. Qed.

Lemma grow_pages_pos n : 0 < n ≤ 2 ^ 30 - 16 → 0 ≤ grow_pages n.
Proof. intros Hn. destruct (round_up_ok n Hn). apply pages_pos. unfold PAGE_SIZE. lia. Qed.

(** ** setenv *)

(** What [setenv] of a new variable may leave: the string is the last of the environment,
    the value is at its place in it, and [getenv] finds it if no string before begins with
    the name; or there was no memory and the strings are what they were. *)
Definition added (fuel : nat) (k : Z) (s : env_state) (U : list (Z * Z)) (es : list (Z * list Z))
    (envname : Z) (nm val : list Z) (r : Z) (s' : env_state) : Prop :=
  ∃ U', U ⊆ U' ∧
    (r = 0 ∧ errno s' = errno s ∧ (∃ p, environment k s' U' (es ++ [(p, nm ++ [ch "="] ++ val)]) ∧
       cstr (bytes s') (p + len nm + 1) val ∧
       (var_at nm es = None → getenv fuel envname s' = Ok (p + len nm + 1))) ∨
     r = -1 ∧ errno s' = ENOMEM ∧ maybe_environment k s' U' es).

Lemma getenv_last fuel k s U es p envname nm val : environment k s U (es ++ [(p, nm ++ [ch "="] ++ val)]) →
  literal s envname nm → nm ≠ [] → envname ≠ 0 → ch "=" ∉ nm → 2 ^ 28 ≤ Z.of_nat fuel → len nm + len val + 1 ≤ 2 ^ 20 →
  len es ≤ 2 → Forall (λ e, fits fuel e.2) es → var_at nm es = None →
  getenv fuel envname s = Ok (p + len nm + 1).
Proof.
  intros He Hn Hne Hn0 Heq Hf Hsz Hlen Hfits Hvar. pose proof (environment_array _ _ _ _ He) as Har.
  pose proof (proj1 (cstr_bytes _ _ _) Hn) as [_ Fn]. change (2 ^ 20) with 1048576 in *. change (2 ^ 28) with 268435456 in *.
  assert (Hfit : ∀ cs, len cs ≤ 1048576 → fits fuel cs) by (intros cs Hcs; split; [lia|simpl; lia]).
  rewrite (getenv_finds fuel envname nm s _ (literal_bytes _ _ _ Hn) Hne Hn0 Har).
  - rewrite var_at_app, Hvar. cbn [var_at snd fst]. rewrite take_app_length, bool_decide_true by done. cbn [fst snd].
    change ([ch "="] ++ val) with (ch "=" :: val).
    rewrite first_sign by (done || (eapply list.Forall_impl; [exact Fn|simpl; lia])). done.
  - apply Hfit. lia.
  - apply list.Forall_app. split; [done|]. constructor; [|constructor]. apply Hfit. cbn [snd]. rewrite !length_app. cbn [length]. lia.
  - rewrite length_app. cbn [length]. lia.
Qed.

Lemma text_value m p nm val : cstr m p (nm ++ [ch "="] ++ val) → cstr m (p + len nm + 1) val.
Proof.
  intros Hc. rewrite app_assoc in Hc. apply cstr_app in Hc as (_ & _ & Hc). rewrite length_app in Hc. cbn [length] in Hc.
  by replace (p + len nm + 1) with (p + Z.of_nat (length nm + 1)) by lia.
Qed.

Lemma slots_snoc m a ps v : slots m a ps → word m (a + 4 * len ps) v → slots m a (ps ++ [v]).
Proof.
  intros H Hw i p Hi. apply lookup_snoc_Some in Hi as [[_ Hi]|[-> <-]]; [by apply H|done].
Qed.

(** [environ[index + 1] = NULL] *)
Lemma end_array k s U es : environment k s U es → len es ≤ 2 →
  ∃ s', set_entry (len es + 1) 0 s = Ok s' ∧ wrote k U s (environ s) 16 s' ∧
    slots (bytes s') (environ s') (es.*1 ++ [0; 0]) ∧ Forall (text_at_block s' U) es.
Proof.
  intros [HI Hb Hon Hf Hs Ht] Hlen. replace (len es + 1) with (Z.of_nat (S (length es))) by lia.
  destruct (set_entry_wrote k s U (S (length es)) 0 16 HI Hb) as (s' & E & W & Hw); [lia|done|].
  exists s'. split; [done|]. split; [apply (wrote_wider _ _ _ _ _ _ _ _ W); lia|]. rewrite (wr_environ _ _ _ _ _ _ W). split.
  - change [0; 0] with ([0] ++ [0]). rewrite app_assoc. apply slots_snoc.
    + apply (slots_apart _ _ _ _ _ 4 Hs (wr_bytes _ _ _ _ _ _ W)). rewrite length_app, length_fmap. cbn [length]. lia.
    + rewrite length_app, length_fmap. cbn [length]. by replace (length es + 1)%nat with (S (length es)) by lia.
  - apply (texts_wrote k U s (environ s) 16 _ _ s' es W Hb); [lia|lia| |done].
    intros (e & Ee & Hin)%list_elem_of_fmap. rewrite list.Forall_forall in Ht.
    destruct (Ht e Hin) as (_ & _ & _ & Hne & _). done.
Qed.

(** From the array with a free place on. *)
Lemma put_added fuel k s s1 U U1 es envname envval nm val (n := len nm + len val + 1) :
  env_inv (grow_pages n + k) s1 U1 → 0 ≤ k → 2 ^ 28 ≤ Z.of_nat fuel → (environ s1, 16) ∈ U1 → (∀ m, (environ s1, m) ∈ U1 → m ≤ 16) →
  slots (bytes s1) (environ s1) (es.*1 ++ [0; 0]) → Forall (text_at_block s1 U1) es →
  U ⊆ U1 → errno s1 = errno s → image s1 = image s → len es ≤ 2 →
  literal s envname nm → literal s envval val → literal s lit_eq [ch "="] → nm ≠ [] → envname ≠ 0 → ch "=" ∉ nm →
  n ≤ 2 ^ 20 → n mod 16 ≠ 0 → Forall (λ e, fits fuel e.2) es →
  ∃ r s', put_text fuel (len es) envname envval s1 = Ok (r, s') ∧ added fuel k s U es envname nm val r s'.
Proof.
  intros HI Hk Hf Hb Hon Hs Ht HU R1 I1 Hfew Hn Hv Hl Hne Hn0 Heq Hsz Hm Hfits.
  destruct (put_text_ok fuel k s1 U1 es envname nm envval val HI Hk Hf Hb Hon Hfew Hs Ht) as (r & s' & U' & E & I2 & En & HU' & Hres);
    [by apply (literal_same s)..|done|done|done|].
  exists r, s'. split; [exact E|]. exists U'. split; [by etransitivity|].
  destruct Hres as [(-> & R & p & He)|(-> & R & He)]; [left|right; split; [done|]; split; [done|by right]].
  split; [done|]. split; [congruence|]. exists p. split; [done|]. split.
  - apply text_value. pose proof (en_texts _ _ _ _ He) as Ht'. apply list.Forall_app in Ht' as [_ Ht'].
    inversion Ht' as [|? ? (_ & _ & Hc & _)]. exact Hc.
  - intros Hvar. apply (getenv_last fuel k s' U' es p envname nm val He); try done. apply (literal_same s); [congruence|done].
Qed.

(** The checks of the name. *)
Lemma setenv_starts fuel envname nm envval overwrite s : literal s envname nm → nm ≠ [] → envname ≠ 0 → ch "=" ∉ nm →
  fits fuel nm → setenv fuel envname envval overwrite s =
    if environ s =? 0 then
      let* (p, s) := on_heap (malloc fuel 8) s in
      let s := set_environ p s in
      if p =? 0 then fail ENOMEM s
      else let* s := set_entry 1 0 s in put_text fuel 0 envname envval s
    else
      let* (found, index) := find_place fuel envname overwrite s in
      if found then
        let* p := entry index s in
        let* h := free p (heap s) in
        put_text fuel index envname envval (set_heap h s)
      else
        let* (new_env, s) := on_heap (realloc fuel (environ s) (u32 (4 * (index + 1)))) s in
        if new_env =? 0 then fail ENOMEM s
        else let* s := set_entry (index + 1) 0 (set_environ new_env s) in put_text fuel index envname envval s.
Proof.
  intros Hn Hne Hn0 Heq Fn. unfold setenv, no_name. rewrite (proj2 (Z.eqb_neq envname 0)) by done.
  pose proof (literal_bytes _ _ _ Hn) as Hnb. pose proof (proj1 (cstr_bytes _ _ _) Hn) as [_ FF].
  destruct nm as [|c nm]; [done|]. destruct (cstr_ld _ _ _ Hnb) as (-> & E0 & _). cbn [rbind]. rewrite E0.
  rewrite (strchr_ok fuel envname (c :: nm)) by (done || apply Fn). cbn [rbind]. by rewrite (no_sign _ FF Heq).
Qed.

(** A new variable gets the place behind the others. *)
Lemma new_place fuel k s U es envname nm overwrite : environment k s U es → literal s envname nm → fits fuel nm →
  Forall (λ e, fits fuel e.2) es → Forall (λ e, take (S (length nm)) e.2 ≠ nm ++ [ch "="]) es → (length es < fuel)%nat →
  find_place fuel envname overwrite s = Ok (false, len es).
Proof.
  intros He Hn Fn Hfits Hnew Hf. pose proof (environment_array _ _ _ _ He) as Har. unfold find_place.
  assert (Hem : find_empty fuel 0 s = Ok (false, len es)).
  { apply (find_empty_none s es Har) with (pre := []) (suf := es); [|done|done].
    eapply list.Forall_impl; [exact (en_texts _ _ _ _ He)|]. by intros e (_ & ? & _). }
  destruct (negb (overwrite =? 0)); [|exact Hem].
  pose proof (find_name_none fuel envname nm s es (literal_bytes _ _ _ Hn) Fn Hfits Har Hnew fuel [] es eq_refl Hf) as E.
  change (len []) with 0 in E. rewrite E. exact Hem.
Qed.

(** C32: [setenv] of a new variable in an environment of at most two strings, on a heap where
    nothing was freed, with pages for the blocks in the kernel, for a string [NAME=VALUE] of
    at most a megabyte whose length is not a multiple of 16: it returns 0 and the
    string is the last of the environment, in a block of its own, and
    [getenv] finds the value if no string before begins with the name; or it returns -1
    with [ENOMEM] and the strings are what they were.  The conditions exclude what the code does
    wrong: a string that fills its block has no byte for its terminator ([block_filled]), a
    fourth string is stored behind the array ([fourth_string]), a variable that is there is
    not replaced ([set_again]), and a name finds the strings that only begin with it
    ([prefix_found]). *)
Theorem setenv_adds fuel k s U es envname envval nm val overwrite (n := len nm + len val + 1)
    (He : maybe_environment (grow_pages 8 + (grow_pages n + k)) s U es) (Hk : 0 ≤ k) (Hf : 2 ^ 28 ≤ Z.of_nat fuel)
    (Hfew : len es ≤ 2) (Hn : literal s envname nm) (Hv : literal s envval val) (Hl : literal s lit_eq [ch "="])
    (Hne : nm ≠ [] ∧ envname ≠ 0 ∧ ch "=" ∉ nm) (Hsz : n ≤ 2 ^ 20 ∧ n mod 16 ≠ 0)
    (Hnew : Forall (λ e, take (S (length nm)) e.2 ≠ nm ++ [ch "="]) es) (Hfits : Forall (λ e, fits fuel e.2) es) :
  ∃ r s', setenv fuel envname envval overwrite s = Ok (r, s') ∧ added fuel k s U es envname nm val r s'.
Proof.
  destruct Hne as (Hne & Hn0 & Heq), Hsz as [Hsz Hm].
  assert (Fnm : fits fuel nm).
  { split; [|change (2 ^ 31) with 2147483648]; change (2 ^ 28) with 268435456 in *; change (2 ^ 20) with 1048576 in *; unfold n in *; lia. }
  pose proof (grow_pages_pos n ltac:(change (2 ^ 20) with 1048576 in *; unfold n in *; simpl; lia)) as Hg.
  rewrite (setenv_starts fuel envname nm) by done. destruct He as [(E0 & -> & HI)|He].
  - rewrite E0. change (0 =? 0) with true. cbv iota.
    destruct (first_array fuel (grow_pages n + k) s U HI ltac:(lia) Hf E0) as (p & s' & E & R & I & Hcase). rewrite E. cbn [rbind].
    destruct Hcase as [(-> & HI' & E')|(Hp & s1 & U1 & Es & R1 & I1 & HU & HI' & Hb & Hon & Hs)].
    + exists (-1), (Env 0 ENOMEM (heap s') (image s')). split; [done|]. exists U. split; [done|]. right. split; [done|].
      split; [done|]. left. split; [done|]. split; [done|]. destruct HI' as [HF Hi].
      split; [|exact Hi]. apply (fresh_le (grow_pages n + k)); [exact HF|lia].
    + rewrite (proj2 (Z.eqb_neq p 0)) by done. rewrite Es. cbn [rbind].
      apply (put_added fuel k s s1 U U1 [] envname envval nm val); try done.
  - destruct (environ_range _ _ _ _ (en_inv _ _ _ _ He) (en_block _ _ _ _ He)) as [Hpos _].
    rewrite (proj2 (Z.eqb_neq (environ s) 0)) by lia.
    apply (environment_le _ (grow_pages n + k)) in He; [|pose proof (grow_pages_pos 8 ltac:(done)); lia].
    rewrite (new_place fuel (grow_pages n + k) s U es envname nm overwrite) by
      (done || change (2 ^ 28) with 268435456 in *; lia). cbn [rbind].
    destruct (grow_array fuel (grow_pages n + k) s U es He Hfew) as (s1 & -> & E1 & R1 & I1 & He1). cbn [rbind].
    rewrite (proj2 (Z.eqb_neq (environ s) 0)) by lia.
    assert (Ese : set_environ (environ s) s1 = s1) by (rewrite <- E1; by destruct s1). rewrite Ese.
    destruct (end_array (grow_pages n + k) s1 U es He1 Hfew) as (s2 & -> & W & Hs2 & Ht2). cbn [rbind].
    pose proof W as [W1 W2 W3 W4 W5].
    apply (put_added fuel k s s2 U U es envname envval nm val W1 Hk Hf); try done; try congruence.
    + rewrite W2. apply He1.
    + rewrite W2. apply He1.
Qed.
End env.

(** ** Small programs

    On the first heap of a task, and on a heap with an environment: the array, the strings
    in blocks of 16 bytes, and a free rest of two pages.  Only the bytes in front of the
    rest are written out. *)
Definition lay (a : Z) (cs : list Z) : list (Z * Z) := imap (λ i c, (a + Z.of_nat i, c)) cs.
Definition pointers (ps : list Z) : list Z := ps ≫= λ p, [p mod 256; p / 256 mod 256; p / 65536 mod 256; p / 16777216].

(** The literal, and the strings of a program on its stack. *)
Definition EQ : Z := USTACK_BEGIN.
Definition at_ (i : Z) : Z := USTACK_BEGIN + 16 + 32 * i.
Definition demo_image (texts : list string) : mem :=
  list_to_map (lay EQ (codes "=" ++ [0]) ++ concat (imap (λ i t, lay (at_ (Z.of_nat i)) (codes t ++ [0])) texts) ++
    lay (at_ 20) (pointers (imap (λ i _, at_ (Z.of_nat i)) texts ++ [0]))).

Definition demo_env (texts : list string) : @env_state (@user_brk pre_paging boot_alloc) :=
  @Env (@user_brk pre_paging boot_alloc) 0 0 demo_uheap (demo_image texts).

(** Block [i] of the small heap. *)
Definition block_at (i : Z) : Z := UMEM_BEGIN + 32 * i + 16.
Definition padded (cs : list Z) : list Z := take 16 (cs ++ replicate 16 0).

Definition small_env (vars texts : list string) : @env_state (@user_brk pre_paging boot_alloc) :=
  let n := len vars + 1 in
  @Env (@user_brk pre_paging boot_alloc) (block_at 0) 0
    (@UHeap (@user_brk pre_paging boot_alloc) UMEM_BEGIN (UMEM_BEGIN + 8192)
       (list_to_map (((λ i, (block_at i - 16, KNode 16 MALLOC_RES (block_at (i + 1) - 16) (if i =? 0 then 0 else block_at (i - 1) - 16)))
           <$> seqZ 0 n) ++ [(block_at n - 16, KNode (8192 - 32 * n - 16) MALLOC_FREE 0 (block_at (n - 1) - 16))]))
       (Uvm UMEM_BEGIN (UMEM_BEGIN + 8192) demo_dir_at (demo_spaces zeros))
       (list_to_map (concat (imap (λ i cs, lay (block_at (Z.of_nat i) - 16) (replicate 16 0 ++ padded cs))
          (pointers (imap (λ i _, block_at (Z.of_nat i + 1)) vars) :: (codes <$> vars) ++ [[]; []])))))
    (demo_image texts).

Inductive env_call := SetEnv (n v o : Z) | UnsetEnv (n : Z) | InitEnviron.

Fixpoint env_calls (l : list env_call) (s : @env_state (@user_brk pre_paging boot_alloc)) :=
  match l with
  | [] => Ok s
  | SetEnv n v o :: l => let* (_, s) := setenv EQ 99 (at_ n) (at_ v) o s in env_calls l s
  | UnsetEnv n :: l => let* (_, s) := unsetenv 99 (at_ n) s in env_calls l s
  | InitEnviron :: l => let* s := init_environ EQ 99 (at_ 20) s in env_calls l s
  end.

Fixpoint text_at (n : nat) (a : Z) (m : mem) : list Z :=
  match n with
  | O => []
  | S n => match m !! a with Some c => if c =? 0 then [] else c :: text_at n (a + 1) m | None => [] end
  end.

(** What [getenv] of name [n] shows after the calls. *)
Definition value_of (l : list env_call) (n : Z) (s : @env_state (@user_brk pre_paging boot_alloc)) : res (option (list Z)) :=
  let* s := env_calls l s in
  let* p := getenv 99 (at_ n) s in
  Ok (if p =? 0 then None else Some (text_at 99 p (bytes s))).

(** [getenv] only compares as many characters as the name has. *)
Example prefix_found : value_of [] 0 (small_env ["PATH=/bin"] ["PA"])%string = Ok (Some (codes "/bin")).
Proof. vm_compute. reflexivity. Qed.

(** A variable that is set again gets the block it had, with the old text in it, and
    [strcat] looks for its end. *)
Example set_again : value_of [SetEnv 0 1 1] 0 (small_env ["A=x"] ["A"; "y"])%string = Ok (Some (codes "xy")).
Proof. vm_compute. reflexivity. Qed.

(** With four strings the null pointer behind them is stored behind the array's block. *)
Example third_string : value_of [SetEnv 0 1 1] 0 (small_env ["A=x"; "B=x"] ["C"; "y"])%string = Ok (Some (codes "y")).
Proof. vm_compute. reflexivity. Qed.
Example fourth_string : value_of [SetEnv 0 1 1] 0 (small_env ["A=x"; "B=x"; "C=x"] ["D"; "y"])%string = Fault.
Proof. vm_compute. reflexivity. Qed.

(** A string of sixteen characters fills its block: there is no terminator. *)
Example block_filled : value_of [SetEnv 0 1 1] 0 (small_env [] ["ABCDEFG"; "12345678"])%string = Fault.
Proof. vm_compute. reflexivity. Qed.

(** [unsetenv] compares the name with the whole string. *)
Example unset_nothing : value_of [UnsetEnv 0] 0 (small_env ["A=x"] ["A"])%string = Ok (Some (codes "x")).
Proof. vm_compute. reflexivity. Qed.

Example unset_no_environ : value_of [UnsetEnv 0] 0 (demo_env ["A"]%string) = Fault.
Proof. vm_compute. reflexivity. Qed.

Example envp_without_sign : value_of [InitEnviron] 0 (demo_env ["A"]%string) = Fault.
Proof. vm_compute. reflexivity. Qed.

(** ** The first variable *)
Lemma setenv_adds_witness :
  let UB := @user_brk pre_paging boot_alloc in
  let s := demo_env ["HOME"; "/usr"]%string in
  ∃ fuel r s', setenv EQ fuel (at_ 0) (at_ 1) 1 s = Ok (r, s') ∧
    added fuel 0 s [] [] (at_ 0) (codes "HOME") (codes "/usr") r s'.
Proof.
  intros UB s. exists (Z.to_nat (2 ^ 28)).
  apply (@setenv_adds UB EQ (Z.to_nat (2 ^ 28)) 0 s [] [] (at_ 0) (at_ 1) (codes "HOME") (codes "/usr") 1).
  - left. split; [reflexivity|]. split; [reflexivity|]. split.
    + split; [|intros H; exfalso; apply H; reflexivity]. exists []. split; [|intros p n Hp; by apply elem_of_nil in Hp].
      left. split; [reflexivity|]. split; [reflexivity|]. exists ∅, (demo_mem zeros). exact demo_heap4.
    + intros a [b Hb]. right. revert a b Hb. change (map_Forall (λ a _, USTACK_BEGIN ≤ a) (image s)).
      apply (bool_decide_eq_true_1 _). vm_compute. reflexivity.
  - lia.
  - rewrite Z2Nat.id by lia. lia.
  - cbn. lia.
  - repeat (split; [vm_compute; reflexivity|split; [vm_compute; split; reflexivity|]]). vm_compute. reflexivity.
  - repeat (split; [vm_compute; reflexivity|split; [vm_compute; split; reflexivity|]]). vm_compute. reflexivity.
  - repeat (split; [vm_compute; reflexivity|split; [vm_compute; split; reflexivity|]]). vm_compute. reflexivity.
  - split; [discriminate|]. split; [discriminate|]. vm_compute. intros H. repeat (apply elem_of_cons in H as [H|H]; [discriminate|]). by apply elem_of_nil in H.
  - split; [vm_compute; discriminate|vm_compute; discriminate].
  - constructor.
  - constructor.
Defined.
