(* ===== verification/Sprintf.v ===== *)
(** * Sprintf: printf to files, and to a string through a file

    [rlibc/stdio/dprintf.c], [printf.c], [vsprintf.c] and [sprintf.c].  The C library has no
    printf that writes to memory: [vsprintf] writes to the file [__vsp_tmp] and reads the file
    into the buffer.  The file stays; a later call writes over its start, which makes the file
    longer (see [Ramfs.overwrite]). *)

From S2P Require Import Prelude Malloc Headers CString Vga Format Printf Fs Names Blocks Nodes Demo Ramfs Stream Stdio Vfs Files Initrd Pipeline.

Definition TMP : list Z := codes "__vsp_tmp".

Section sprintf.
Context {MA : Malloc} {SY : Sys} {DO : Rlibc.Double}.

(** ** Operations *)

(** The calls of [write] in [wbuf_flush]; nothing looks at what they return. *)
Fixpoint write_all (fd : Z) (ws : list (list Z)) (s : fs) : res fs :=
  match ws with
  | [] => Ok s
  | w :: ws => let* (_, s) := write_vfs fd (Some w) (len w) s in write_all fd ws s
  end.

(** [vdprintf] with its calls.  What it reads of memory is not what it writes to, so that
    the buffers are known before the first one is written. *)
Definition vdprintf (junk : list Z) (fd : Z) (fmt arg : list Z) (m : mem) (s : fs)
    : res (Z * mem * fs) :=
  let* (ret, ws, m) := Rlibc.vdprintf junk fmt arg m in
  let* s := write_all fd ws s in
  Ok (ret, m, s).

Definition dprintf (junk : list Z) (fildes : Z) (format args : list Z) (m : mem) (s : fs)
    : res (Z * mem * fs) := vdprintf junk fildes format args m s.

Definition printf (junk : list Z) (fmt args : list Z) (m : mem) (s : fs)
    : res (Z * mem * fs) := vdprintf junk STDOUT_FILENO fmt args m s.

Definition vsprintf (junk : list Z) (buf : Z) (fmt arg : list Z) (m : mem) (s : fs)
    : res (Z * mem * fs) :=
  let* (fd, s) := Pipeline.open TMP (Z.lor O_RDWR O_CREAT) S_IFREG s in
  if fd <? 0 then Ok (-1, m, s)
  else
    let* (_, s) := lseek_vfs fd 0 SEEK_SET s in
    let* (size, m, s) := vdprintf junk fd fmt arg m s in
    let* (_, s) := lseek_vfs fd 0 SEEK_SET s in
    let* (ret, b, s) := read_vfs fd (Some (replicate (Z.to_nat size) 0)) size s in
    let* m := store_list m buf (take (Z.to_nat ret) (default [] b)) in
    let* (_, s) := Pipeline.close fd s in
    Ok (ret, m, s).

Definition sprintf (junk : list Z) (buf : Z) (fmt args : list Z) (m : mem) (s : fs)
    : res (Z * mem * fs) := vsprintf junk buf fmt args m s.

(** ** The temporary file

    The node [p], with [n] in it, is a file named [TMP]; [d] is the content of its first block
    [q].  Its size says nothing: every write adds to it. *)
Definition scratch (s : fs) (p q : Z) (n : vfs_node_t) (d : list Z) : Prop :=
  vnodes s !! p = Some n ∧ p ≠ 0 ∧ regular n ∧ named n TMP ∧
  aget (ramfs_nodes s) (st_ino (status n)) = Some q ∧
  (∃ nx, blocks s !! q = Some (Data d nx)) ∧ length d = 256%nat.

(** [k] bytes more in the file, [d] in its first block and [f] at the descriptor [fd]; the heap
    may have run out. *)
Definition scribbled (s : fs) (L : gset Z) (fd : Z) (f : fildes_t) (p q : Z) (n : vfs_node_t)
    (k : nat) (d : list Z) (s' : fs) (L' : gset Z) : Prop :=
  ∃ b h e, s' = at_fd fd f (put_node p (add_size k n) (with_mem b h e s)) ∧
    mem_ok s' L' ∧ L ⊆ L' ∧ (e = errno s ∨ e = errno_num ENOMEM) ∧
    (∃ nx, b !! q = Some (Data d nx)) ∧ (∀ x, x ∈ L → x ≠ q → b !! x = blocks s !! x).

Lemma add_size_0 n : add_size 0 n = n.
Proof. unfold add_size. simpl. rewrite Z.add_0_r. by destruct n as [nm []]. Qed.

Lemma add_size_add j k n : add_size k (add_size j n) = add_size (j + k) n.
Proof. unfold add_size. simpl. rewrite Nat2Z.inj_add, Z.add_assoc. done. Qed.

Lemma scribbled_scratch s L fd f p q n k d0 d s' L' : scratch s p q n d0 → length d = 256%nat →
  scribbled s L fd f p q n k d s' L' → scratch s' p q (add_size k n) d.
Proof.
  intros (En & Hp & Hr & Hn & Hi & _ & _) Hd (b & h & e & -> & _ & _ & _ & Hb & _).
  split_and!; try done. simpl. apply lookup_insert_eq.
Qed.

Lemma scratch_write s L fd f p q n d (a k : nat) buf :
  mem_ok s L → scratch s p q n d → get_fd fd s = Ok f → len (files s) = OPEN_MAX → vfs_node f = p →
  at_ f = Z.of_nat a → has (oflag f) O_WRONLY = true → (a + k < 256)%nat → (0 < k)%nat →
  length buf = k → 0 ≤ st_size (status n) → st_size (status n) + Z.of_nat k < 2 ^ 31 →
  ∃ s' L', write_vfs fd (Some buf) (Z.of_nat k) s = Ok (Z.of_nat k, s') ∧
    scribbled s L fd (with_at (Z.of_nat (a + k)) f) p q n k (take a d ++ buf ++ drop (a + k) d) s' L'.
Proof.
  intros Hm (En & Hp & Hr & Hn & Hi & [nx Eq] & Hd) Ef Hf Hfp Hat Hw Hak Hk Hb H0 Hlt.
  destruct Hr as (Hdev & Hdirm & Hfifo & Hrd & Hwr & Hop & Hcl & Hls).
  unfold write_vfs. rewrite (open_fd_some fd s f) by (done || by rewrite Hfp). cbn [rbind].
  rewrite (proj2 (Z.eqb_neq (Z.of_nat k) 0)), Hw by lia. unfold get_node. rewrite Hfp, En. cbn [deref rbind].
  rewrite Hwr. cbn [node_write]. unfold write_ramfs, get_node. rewrite Ef. cbn [rbind].
  rewrite Hfp, En. cbn [deref rbind]. rewrite Hat.
  assert (Hal : aligned a).
  { unfold aligned. rewrite !Nat.div_small by lia. done. }
  destruct (start_block a Hal) as [-> ->]; [lia|]. rewrite Hi. cbn [deref rbind].
  rewrite Nat.div_small, Nat.mod_small by lia. cbn [nth_block rbind].
  rewrite block_fuel_nat. replace (k / 256 + 3)%nat with (S (k / 256 + 2)) by lia.
  change 0 with (Z.of_nat 0) at 1.
  destruct (write_loop_turn (k / 256 + 2) zero_block s L q d nx a 0 k buf)
    as [(h & -> & Hh)|(x & h & -> & Hx & HxL & Hh)]; [done|done|done|lia|lia|lia|..];
    replace ((256 - a) `min` (k - 0))%nat with k by lia;
    rewrite drop_0, (take_ge buf) by lia; cbn [rbind].
  - rewrite put_fd_ok by (simpl; by eapply get_fd_range). cbn [rbind].
    rewrite (proj2 (Z.eqb_neq (Z.of_nat (0 + k)) 0)) by lia. cbn [andb]. rewrite !sint_small by lia.
    eexists _, L. split; [done|]. eexists _, h, (errno_num ENOMEM). split.
    { unfold add_size. do 3 f_equal. lia. }
    split; [|split; [done|split; [by right|split; [exists 0; apply lookup_insert_eq|]]]].
    + eapply put_node_ok; [|exact En]. by eapply mem_ok_update.
    + intros y _ Hy. by rewrite lookup_insert_ne.
  - rewrite write_loop_done by lia. cbn [rbind].
    rewrite put_fd_ok by (simpl; by eapply get_fd_range). cbn [rbind andb].
    rewrite !sint_small by lia.
    assert (HqL : q ∈ L).
    { destruct Hm as (_ & _ & Hdom & _). apply Hdom. by apply elem_of_dom_2 in Eq. }
    eexists _, ({[x]} ∪ L). split; [done|]. eexists _, h, (errno s). split.
    { unfold add_size. do 3 f_equal. lia. }
    split; [|split; [set_solver|split; [by left|split]]].
    + eapply put_node_ok; [|exact En]. by eapply mem_ok_turn.
    + exists x. rewrite lookup_insert_ne by set_solver. apply lookup_insert_eq.
    + intros y Hy Hyq. rewrite !lookup_insert_ne by set_solver. done.
Qed.

Lemma scribbled_none s L fd f p q n d : mem_ok s L → get_fd fd s = Ok f → scratch s p q n d →
  scribbled s L fd f p q n 0 d s L.
Proof.
  intros Hm Ef (En & _ & _ & _ & _ & Hq & _). exists (blocks s), (heap s), (errno s).
  split; [|split_and!; try done; by left].
  unfold get_fd in Ef. apply deref_Ok in Ef. unfold aget in Ef. destruct (fd <? 0); [done|].
  assert (E1 : <[Z.to_nat fd := f]> (files s) = files s) by (by apply list_insert_id).
  assert (E2 : <[p := add_size 0 n]> (vnodes s) = vnodes s).
  { apply insert_id. by rewrite add_size_0. }
  unfold at_fd, put_node. simpl. rewrite E1, E2. by destruct s.
Qed.

Lemma scribbled_trans s L fd f1 f2 p q n k1 k2 d1 d2 s1 L1 s2 L2 :
  q ∈ L → scribbled s L fd f1 p q n k1 d1 s1 L1 → scribbled s1 L1 fd f2 p q (add_size k1 n) k2 d2 s2 L2 →
  scribbled s L fd f2 p q n (k1 + k2) d2 s2 L2.
Proof.
  intros Hq (b1 & h1 & e1 & -> & _ & HL1 & He1 & _ & Hb1) (b2 & h2 & e2 & -> & Hm2 & HL2 & He2 & Hq2 & Hb2).
  exists b2, h2, e2. split.
  { unfold at_fd, put_node, with_mem. simpl. rewrite list_insert_insert_eq, insert_insert_eq.
    by rewrite add_size_add. }
  split; [done|]. split; [set_solver|]. split; [simpl in He2; set_solver|]. split; [done|].
  intros x Hx Hne. rewrite Hb2 by set_solver. simpl. by apply Hb1.
Qed.

(** All the buffers. *)
Lemma write_all_spec fd p q : ∀ ws s L f n d (a : nat),
  mem_ok s L → scratch s p q n d → get_fd fd s = Ok f → len (files s) = OPEN_MAX → vfs_node f = p →
  at_ f = Z.of_nat a → has (oflag f) O_WRONLY = true → Forall (λ w, w ≠ []) ws →
  (a + length (concat ws) < 256)%nat → 0 ≤ st_size (status n) →
  st_size (status n) + len (concat ws) < 2 ^ 31 →
  ∃ s' L', write_all fd ws s = Ok s' ∧
    scribbled s L fd (with_at (Z.of_nat (a + length (concat ws))) f) p q n (length (concat ws))
      (take a d ++ concat ws ++ drop (a + length (concat ws)) d) s' L'.
Proof.
  induction ws as [|w ws IH]; intros s L f n d a Hm Hs Ef Hf Hfp Hat Hw Hne Ha H0 Hlt.
  { exists s, L. split; [done|]. simpl. rewrite Nat.add_0_r, take_drop.
    replace (with_at _ f) with f by (destruct f; simpl in Hat; by subst). by apply scribbled_none. }
  apply list.Forall_cons in Hne as [Hw0 Hne]. cbn [concat] in *. rewrite length_app in *.
  assert (Hlw : (0 < length w)%nat) by (destruct w; [done|simpl; lia]).
  destruct (scratch_write s L fd f p q n d a (length w) w) as (s1 & L1 & E1 & H1); try done; [lia..|].
  cbn [write_all]. rewrite E1. cbn [rbind].
  pose proof Hs as (_ & _ & _ & _ & _ & [nx Eq] & Hd).
  assert (HqL : q ∈ L).
  { destruct Hm as (_ & _ & Hdom & _). apply Hdom. by apply elem_of_dom_2 in Eq. }
  set (d1 := take a d ++ w ++ drop (a + length w) d) in *.
  assert (Hd1 : length d1 = 256%nat) by (unfold d1; rewrite !length_app, length_take, length_drop; lia).
  pose proof (scribbled_scratch _ _ _ _ _ _ _ _ _ _ _ _ Hs Hd1 H1) as Hs1.
  pose proof H1 as (b & h & e & Es1 & Hm1 & _).
  destruct (IH s1 L1 (with_at (Z.of_nat (a + length w)) f) (add_size (length w) n) d1 (a + length w)%nat)
    as (s2 & L2 & E2 & H2); try done; try (simpl; lia).
  { rewrite Es1. apply get_at_fd. simpl. by eapply get_fd_range. }
  { rewrite Es1. unfold at_fd. simpl. by rewrite length_insert. }
  exists s2, L2. split; [done|]. rewrite <- Nat.add_assoc in H2.
  pose proof (scribbled_trans _ _ _ _ _ _ _ _ _ _ _ _ _ _ _ _ HqL H1 H2) as H3.
  assert (Et : take (a + length w) d1 = take a d ++ w).
  { unfold d1. rewrite app_assoc, take_app_length'; [done|]. rewrite length_app, length_take. lia. }
  assert (Edr : drop (a + (length w + length (concat ws))) d1 = drop (a + (length w + length (concat ws))) d).
  { unfold d1. rewrite app_assoc, drop_app_ge by (rewrite length_app, length_take; lia).
    rewrite drop_drop, length_app, length_take. f_equal. lia. }
  rewrite Et, Edr, <- !app_assoc in H3. rewrite <- !app_assoc. exact H3.
Qed.

(** Reading it again. *)
Lemma scratch_read s fd f p q n d (k : nat) buf :
  scratch s p q n d → get_fd fd s = Ok f → len (files s) = OPEN_MAX → vfs_node f = p →
  at_ f = 0 → has (oflag f) O_RDONLY = true → (0 < k < 256)%nat → length buf = k →
  Z.of_nat k ≤ st_size (status n) < 2 ^ 31 →
  read_vfs fd (Some buf) (Z.of_nat k) s
  = Ok (Z.of_nat k, Some (take k d), at_fd fd (with_at (Z.of_nat k) f) s).
Proof.
  intros (En & Hp & Hr & Hn & Hi & [nx Eq] & Hd) Ef Hf Hfp Hat Hro Hk Hb Hsz.
  destruct Hr as (Hdev & Hdirm & Hfifo & Hrd & Hwr & Hop & Hcl & Hls).
  unfold read_vfs. rewrite (open_fd_some fd s f) by (done || by rewrite Hfp). cbn [rbind].
  unfold get_node. rewrite Hfp, En. cbn [deref rbind]. rewrite Hdirm, Hro, Hrd.
  rewrite (proj2 (Z.eqb_neq (Z.of_nat k) 0)) by lia. cbn [node_read].
  unfold read_ramfs, get_node. rewrite Ef. cbn [rbind]. rewrite Hfp, En. cbn [deref rbind].
  rewrite Hat, Z.sub_0_r. change (u32 (Z.quot 0 255)) with 0. change (u32 (Z.rem 0 256)) with 0.
  rewrite Hi. change (Z.to_nat 0) with 0%nat. cbn [deref rbind nth_block].
  rewrite (uint_small 32) by lia. rewrite (proj2 (Z.ltb_ge (st_size (status n)) (Z.of_nat k))) by lia.
  change 0 with (Z.of_nat 0) at 1 2. rewrite block_fuel_nat.
  rewrite (ramfs_read_loop_spec _ s q [(q, d)] 0 0 k buf); [|simpl; split_and!; eauto|lia|lia|lia|simpl; lia|].
  - cbn [rbind]. rewrite put_fd_ok by (by eapply get_fd_range). cbn [rbind].
    rewrite !sint_small by lia. unfold data_of. cbn [fmap list_fmap concat snd].
    rewrite take_0, drop_0, (drop_ge buf), Nat.sub_0_r, !app_nil_r, Z.add_0_l by lia. done.
  - rewrite Nat.sub_0_r, Nat.add_0_r. lia.
Qed.
(** ** The directory around it *)

(** The node [p], which is not among the entries, changes, and blocks that are not theirs. *)
Lemma dir_other s s' L L' ps es p n m :
  dir_ok s L ps es → vnodes s !! p = Some n → p ∉ e_node <$> es →
  vnodes s' = <[p := m]> (vnodes s) → n_next m = n_next n → name m = name n →
  st_dev (status m) = st_dev (status n) → vfs_root s' = vfs_root s → len (files s') = OPEN_MAX →
  ramfs_nodes s' = ramfs_nodes s → ramfs_inodes s' = ramfs_inodes s →
  (∀ b, b ∈ all_blocks es → blocks s' !! b = blocks s !! b) → mem_ok s' L' → dir_ok s' L' ps es.
Proof.
  intros (Hm & Hl & Hn & Hf & Hrn & Hri & He & Hin & Hnd1 & Hnd2 & Hnd3) En Hp Hv Hnext Hname Hdev
    Hroot Hf' Hrn' Hri' Hb Hm'.
  unfold dir_ok. rewrite Hrn', Hri'. split; [done|]. split.
  { split; [|apply Hl]. rewrite Hroot, Hv. eapply vlist_frame; [apply Hl|].
    intros q k Hq Ek. destruct (decide (q = p)) as [->|Hne].
    - exists m. rewrite lookup_insert_eq. by simplify_eq.
    - exists k. by rewrite lookup_insert_ne. }
  split.
  { intros q k Hq. rewrite Hv. destruct (decide (q = p)) as [->|Hne].
    - rewrite lookup_insert_eq. intros [= <-] Hk. rewrite Hdev in Hk.
      destruct (Hn _ n Hq En Hk) as [nm (H1 & H2 & rest & H3)]. exists nm.
      split_and!; [done|done|]. exists rest. by rewrite Hname.
    - rewrite lookup_insert_ne by done. by apply Hn. }
  split_and!; try done. apply list.Forall_forall. intros x Hx. rewrite list.Forall_forall in He.
  apply (is_entry_frame s); [by apply He|..].
  - intros k Ek. exists (n_next k). rewrite Hv, lookup_insert_ne.
    + rewrite Ek. by destruct k.
    + intros ->. apply Hp. by apply list_elem_of_fmap_2.
  - by rewrite Hrn'.
  - intros b Hbx. apply Hb. apply list_elem_of_bind. eauto.
Qed.

(** One entry less to speak of. *)
Lemma dir_init s L ps es e : dir_ok s L ps (es ++ [e]) →
  dir_ok s L ps es ∧ e_node e ∉ e_node <$> es ∧ ∀ b, b ∈ (e_blocks e).*1 → b ∉ all_blocks es.
Proof.
  intros (Hm & Hl & Hn & Hf & Hrn & Hri & He & Hin & Hnd1 & Hnd2 & Hnd3).
  rewrite fmap_app in Hnd1, Hnd2. unfold all_blocks in Hnd3. rewrite bind_app in Hnd3.
  apply list.Forall_app in He as [He _]. apply list.Forall_app in Hin as [Hin _].
  apply list.NoDup_app in Hnd1 as (H1 & H2 & _). apply list.NoDup_app in Hnd2 as (H3 & _ & _).
  apply list.NoDup_app in Hnd3 as (H4 & H5 & _).
  split; [by split_and!|]. split.
  - intros Hx. apply (H2 _ Hx). simpl. by apply list_elem_of_singleton.
  - intros b Hb Hb'. apply (H5 b Hb'). simpl. by rewrite app_nil_r.
Qed.

(** The temporary file is there, the first of its name, and apart from the entries. *)
Definition tmp_at (s : fs) (ps : list Z) (es : list entry) (p q : Z) (n : vfs_node_t) (d : list Z) : Prop :=
  (∃ pre post, ps = pre ++ p :: post ∧ ∀ x, x ∈ pre → ¬ is_file s TMP x) ∧ scratch s p q n d ∧
  p ∉ e_node <$> es ∧ q ∉ all_blocks es.

(** [vsprintf] can be called: for the first time, or again. *)
Definition tmp_ok (s : fs) (ps : list Z) (es : list entry) (size : Z) : Prop :=
  (fresh_name s ps TMP ∧ ramfs_inodes s < 1024 ∧ name junk_node = replicate 64 0 ∧ 0 ≤ size) ∨
  ∃ p q n d, tmp_at s ps es p q n d ∧ 0 ≤ st_size (status n) ≤ size.

Lemma first_same s nm (p p' : Z) pre pre' post post' : pre ++ p :: post = pre' ++ p' :: post' →
  is_file s nm p → is_file s nm p' → (∀ x, x ∈ pre → ¬ is_file s nm x) →
  (∀ x, x ∈ pre' → ¬ is_file s nm x) → p = p'.
Proof.
  revert pre'. induction pre as [|x pre IH]; intros [|y pre'] E Hp Hp' H H'; simplify_eq/=; [done|..].
  - destruct (H' y); [by constructor|done].
  - destruct (H p'); [by constructor|done].
  - apply (IH pre'); [done..| |].
    + intros z Hz. apply H. by constructor.
    + intros z Hz. apply H'. by constructor.
Qed.

Definition OPENED : Z := Z.lor O_RDWR O_CREAT.

Lemma open_tmp s L ps es size : dir_ok s L ps es → tmp_ok s ps es size →
  ∃ r s1 L1 ps1, Pipeline.open TMP OPENED S_IFREG s = Ok (r, s1) ∧ dir_ok s1 L1 ps1 es ∧
    ps `prefix_of` ps1 ∧
    ((r = -1 ∧ errno s1 ∈ [errno_num ENOMEM; errno_num ENOSPC; errno_num EMFILE]) ∨
     (3 ≤ r < OPEN_MAX ∧ is_free_fd (files s) r ∧ errno s1 = errno s ∧
      ∃ p q n d, tmp_at s1 ps1 es p q n d ∧ 0 ≤ st_size (status n) ≤ size ∧
        files s1 = <[Z.to_nat r := Fildes p 0 OPENED]> (files s))).
Proof.
  intros Hd [(Hfresh & Hino & Hj & Hsize)|(p & q & n & d & Ht & Hsize)].
  - unfold Pipeline.open. change (has OPENED O_CREAT) with true. cbv iota.
    destruct (open_creat s L ps es TMP OPENED S_IFREG) as (r & s1 & L1 & E & HL & Hri & Hold & H); try done.
    { apply (bool_decide_unpack _). vm_compute. exact I. }
    { simpl. lia. }
    exists r, s1, L1. destruct H as [(-> & He & ps' & es' & Hd' & _)|(p & q & Hp & Hnew & Hd' & Hr & Hfree & He & Hfs)].
    + exists (ps ++ ps'). split; [done|]. split.
      { clear -Hd'. induction es' as [|e es' IH] using rev_ind; [by rewrite app_nil_r in Hd'|].
        rewrite app_assoc in Hd'. apply dir_init in Hd' as (Hd' & _). by apply IH. }
      split; [by apply prefix_app_r|]. by left.
    + exists (ps ++ [p]). split; [done|].
      destruct (dir_entry s1 L1 (ps ++ [p]) (es ++ [new_entry p q s TMP]) (new_entry p q s TMP) Hd') as [Hp0 Hent].
      { apply elem_of_app. right. by apply list_elem_of_singleton. }
      apply dir_init in Hd' as (Hd' & Hpe & Hqe). split; [done|]. split; [by apply prefix_app_r|].
      right. split; [done|]. split; [done|]. split; [done|].
      destruct Hent as (n & q' & En & Hreg & Hnm & Hi & Hsz & Eq & (Hc & _ & _)).
      destruct Hc as (E2 & Hlen & nx & Eb & _). simpl in E2, En, Hi, Hsz, Eq, Hnm, Hp0. subst q'.
      exists p, q, n, (repeat 0 256). split; [split_and!|split; [lia|done]].
      * exists ps, []. split; [done|]. intros x Hx Hf. apply (Hfresh x Hx). by apply Hold.
      * split_and!; try done; [by rewrite Hi|by eexists].
      * done.
      * apply Hqe. simpl. by apply list_elem_of_singleton.
  - destruct Ht as ((pre & post & Eps & Hpre) & Hs & Hpe & Hqe).
    pose proof Hd as (_ & Hli & Hnm & Hlen & _). pose proof Hs as (En & Hp0 & Hreg & Hn & _).
    pose proof Hreg as (Hdev & Hdirm & _ & _ & _ & Hop & _).
    assert (His : is_file s TMP p) by (exists n; by rewrite Hdev).
    unfold Pipeline.open, open_vfs. change (has OPENED O_CREAT) with true. cbv iota.
    destruct (find_file_spec s TMP ps) as (r & -> & Hr); try done.
    { apply (bool_decide_unpack _). vm_compute. exact I. }
    cbn [rbind]. destruct Hr as [[_ Hr]|(_ & pre' & post' & Eps' & Hr & Hpre')].
    { destruct (Hr p); [rewrite Eps; set_solver|done]. }
    assert (r = p) as -> by (eapply (first_same s TMP r p pre' pre); [by rewrite <- Eps'|done..]).
    rewrite (proj2 (Z.eqb_neq p 0)) by done.
    change (Z.land OPENED _ =? _) with false. cbv iota. unfold get_node. rewrite En. cbn [deref rbind].
    rewrite Hdirm, Hop. cbn [andb].
    destruct (get_free_fd_spec 3 s Hlen) as (fd & -> & Hlow); [unfold OPEN_MAX; lia|]. cbn [rbind].
    destruct Hlow as [[-> _]|(Hfd & Hfree & _)].
    + eexists (-1), _, L, ps. split; [done|]. split; [by apply dir_ok_errno|]. split; [done|]. left. set_solver.
    + replace (0 <=? fd) with true by lia. rewrite put_fd_ok by lia. cbn [rbind].
      eexists fd, _, L, ps. split; [done|]. split; [by apply dir_ok_fd|]. split; [done|]. right.
      split; [done|]. split; [done|]. split; [done|]. exists p, q, n, d. split; [|done].
      split; [by exists pre, post|]. done.
Qed.
(** ** What sprintf stores *)
Lemma buffers_nonempty ws : buffers ws → Forall (λ w, w ≠ []) ws.
Proof.
  intros (full & last & -> & Hf & Hl). apply Forall_app_2.
  - eapply Forall_impl; [|exact Hf]. by intros [|? ?] H.
  - constructor; [|done]. intros ->. simpl in Hl. lia.
Qed.

(** The calls on the open file: [cs] goes through it. *)
Lemma through_file s L ps es fd p q n d ws cs : dir_ok s L ps es → tmp_at s ps es p q n d →
  0 ≤ fd < OPEN_MAX → get_fd fd s = Ok (Fildes p 0 OPENED) → concat ws = cs → Forall (λ w, w ≠ []) ws →
  (0 < length cs < 256)%nat → 0 ≤ st_size (status n) → st_size (status n) + 256 ≤ 2 ^ 31 →
  ∃ s1 s2 L', lseek_vfs fd 0 SEEK_SET s = Ok (0, s) ∧ write_all fd ws s = Ok s1 ∧
    (let* (_, s) := lseek_vfs fd 0 SEEK_SET s1 in
     let* (ret, b, s) := read_vfs fd (Some (replicate (length cs) 0)) (len cs) s in
     let* (_, s) := Pipeline.close fd s in Ok (ret, b, s)) = Ok (len cs, Some cs, s2) ∧
    dir_ok s2 L' ps es ∧ tmp_at s2 ps es p q (add_size (length cs) n) (cs ++ drop (length cs) d) ∧
    files s2 = <[Z.to_nat fd := Fildes 0 0 0]> (files s) ∧ (errno s2 = errno s ∨ errno s2 = errno_num ENOMEM).
Proof.
  intros Hd Ht Hr Ef Hcs Hne Hlen H0 Hsz. pose proof Hd as (Hm & Hli & _ & Hf & _).
  destruct Ht as ((pre & post & Eps & Hpre) & Hs & Hpe & Hqe).
  pose proof Hs as (En & Hp0 & Hreg & Hnm & Hi & [nx Eq] & Hdl).
  pose proof Hreg as (Hdev & Hdirm & Hfifo & Hrd & Hwr & Hop & Hcl & Hls).
  destruct (write_all_spec fd p q ws s L (Fildes p 0 OPENED) n d 0) as (s1 & L1 & Ew & H1);
    rewrite ?Hcs; try done; try lia.
  rewrite Hcs, take_0, app_nil_l, !Nat.add_0_l in H1. set (d1 := cs ++ drop (length cs) d) in *.
  assert (Hd1 : length d1 = 256%nat) by (unfold d1; rewrite length_app, length_drop; lia).
  pose proof (scribbled_scratch _ _ _ _ _ _ _ _ _ _ _ _ Hs Hd1 H1) as Hs1.
  destruct H1 as (b & h & e & Es1 & Hm1 & HL1 & He & _ & Hb).
  assert (Hf1 : len (files s1) = OPEN_MAX) by (rewrite Es1; unfold at_fd; simpl; by rewrite length_insert).
  assert (Ef1 : get_fd fd s1 = Ok (Fildes p (len cs) OPENED)).
  { rewrite Es1. apply get_at_fd. simpl. lia. }
  assert (Hseek : ∀ s a n', get_fd fd s = Ok (Fildes p a OPENED) → len (files s) = OPEN_MAX →
    scratch s p q n' d1 ∨ n' = n ∧ vnodes s !! p = Some n → has (st_mode (status n')) S_IFIFO = false →
    n_lseek n' = None → lseek_vfs fd 0 SEEK_SET s = Ok (0, at_fd fd (Fildes p 0 OPENED) s)).
  { intros s' a n' Ef' Hf' Hn' Hno Hk. unfold lseek_vfs. rewrite (open_fd_some fd s' _ Ef') by done. cbn [rbind vfs_node].
    unfold get_node. assert (En' : vnodes s' !! p = Some n') by (by destruct Hn' as [(? & _)|[-> ?]]).
    rewrite En'. cbn [deref rbind]. rewrite Hno, Hk. change (SEEK_SET =? SEEK_SET) with true. cbv iota.
    rewrite put_fd_ok by lia. done. }
  assert (Hsame : at_fd fd (Fildes p 0 OPENED) s = s).
  { unfold get_fd in Ef. apply deref_Ok in Ef. unfold aget in Ef. destruct (fd <? 0); [done|].
    unfold at_fd. rewrite list_insert_id by done. by destruct s. }
  set (s0 := at_fd fd (Fildes p 0 OPENED) s1).
  assert (Hf0 : len (files s0) = OPEN_MAX) by (unfold s0, at_fd; simpl; by rewrite length_insert).
  assert (Ef0 : get_fd fd s0 = Ok (Fildes p 0 OPENED)) by (apply get_at_fd; lia).
  eexists s1, _, L1. split; [rewrite <- Hsame at 2; by eapply Hseek; eauto|]. split; [done|].
  rewrite (Hseek s1 (len cs) (add_size (length cs) n) Ef1 Hf1 (or_introl Hs1) Hfifo Hls). cbn [rbind]. fold s0.
  rewrite (scratch_read s0 fd (Fildes p 0 OPENED) p q (add_size (length cs) n) d1 (length cs)); try done.
  2:{ by rewrite length_replicate. }
  2:{ simpl. lia. }
  cbn [rbind]. unfold Pipeline.close, close_vfs. set (s3 := at_fd fd _ s0).
  assert (Hf3 : len (files s3) = OPEN_MAX) by (unfold s3, at_fd; simpl; by rewrite !length_insert).
  rewrite (open_fd_some fd s3 (with_at (len cs) (Fildes p 0 OPENED))) by (done || apply get_at_fd; lia).
  cbn [rbind vfs_node with_at]. unfold get_node. change (vnodes s3) with (vnodes s1).
  pose proof Hs1 as (En1 & _). rewrite En1. cbn [deref rbind]. change (n_close (add_size _ _)) with (n_close n).
  rewrite Hcl. cbn [rbind]. change (0 <? 0) with false. cbv iota. rewrite put_fd_ok by lia. cbn [rbind].
  unfold d1. rewrite take_app_length. split; [done|]. fold d1.
  assert (Hfin : files (at_fd fd (Fildes 0 0 0) s3) = <[Z.to_nat fd := Fildes 0 0 0]> (files s)).
  { unfold s3, s0. rewrite Es1. unfold at_fd. simpl. by rewrite !list_insert_insert_eq. }
  assert (Hv : vnodes (at_fd fd (Fildes 0 0 0) s3) = <[p := add_size (length cs) n]> (vnodes s))
    by (unfold s3, s0; by rewrite Es1).
  split; [|split; [|split; [exact Hfin|]]].
  - eapply (dir_other s _ L _ ps es p n); try done; try (unfold s3, s0; by rewrite Es1).
    + unfold at_fd. simpl. by rewrite !length_insert.
    + intros x Hx. unfold s3, s0. rewrite Es1. simpl. apply Hb; [|by intros ->].
      apply list_elem_of_bind in Hx as (y & Hx & Hy). destruct Hm as (_ & _ & Hdb & _). apply Hdb.
      eapply entry_blocks_dom; [|exact Hx]. destruct Hd as (_ & _ & _ & _ & _ & _ & He' & _).
      rewrite list.Forall_forall in He'. by apply He'.
  - split; [|split; [exact Hs1|done]]. exists pre, post. split; [done|].
    intros x Hx (k & Ek & Hk). change (vnodes (at_fd fd (Fildes 0 0 0) s3) !! x = Some k) in Ek.
    rewrite Hv in Ek. destruct (decide (x = p)) as [->|Hxp].
    + rewrite lookup_insert_eq in Ek. apply (Hpre p Hx). exists n. by simplify_eq.
    + rewrite lookup_insert_ne in Ek by done. apply (Hpre x Hx). by exists k.
  - unfold s3, s0. rewrite Es1. simpl. exact He.
Qed.
(** The calls one after the other. *)
Lemma sprintf_ok s L ps es size pcs args out rest m buf junk
    (Hd : dir_ok s L ps es) (Ht : tmp_ok s ps es size) (Hsize : size + 256 ≤ 2 ^ 31)
    (Hok : Forall piece_ok pcs) (Hp : prints (cstr m) pcs args out rest) (Hlen : len out < 255)
    (Ha : alloc m buf (len out + 1)) :
  ∃ r m' s' L' ps', sprintf junk buf (show pcs) args m s = Ok (r, m', s') ∧
    dir_ok s' L' ps' es ∧ ps `prefix_of` ps' ∧
    ((r = -1 ∧ m' = m ∧ errno s' ∈ [errno_num ENOMEM; errno_num ENOSPC; errno_num EMFILE]) ∨
     (r = len out + 1 ∧ same_outside m m' buf (len out + 1) ∧
      (∀ i c, aget (out ++ [0]) i = Some c → m' !! (buf + i) = Some (u8 c)) ∧
      tmp_ok s' ps' es (size + len out + 1) ∧ (errno s' = errno s ∨ errno s' = ENOMEM) ∧
      ∃ fd, 3 ≤ fd < OPEN_MAX ∧ is_free_fd (files s) fd ∧
        files s' = <[Z.to_nat fd := Fildes 0 0 0]> (files s))).
Proof.
  destruct (open_tmp s L ps es size Hd Ht) as (fd & s0 & L0 & ps0 & Eo & Hd0 & Hps & H).
  unfold sprintf, vsprintf. fold OPENED. rewrite Eo. cbn [rbind].
  destruct H as [(-> & He)|(Hfd & Hfree & He & p & q & n & d & Ht0 & Hsz & Hf)].
  { change (-1 <? 0) with true. eexists _, _, _, _, _. split; [done|]. split; [done|]. split; [done|]. by left. }
  rewrite (proj2 (Z.ltb_ge fd 0)) by lia.
  destruct (vdprintf_prints pcs args out rest m junk Hok Hp) as (ws & Ev & Hws & Hbuf).
  assert (Hl : len (out ++ [0]) = len out + 1) by (rewrite length_app; simpl; lia).
  assert (Hf0 : len (files s0) = OPEN_MAX) by apply Hd0. assert (Hff : len (files s) = OPEN_MAX) by apply Hd.
  assert (Ef : get_fd fd s0 = Ok (Fildes p 0 OPENED)).
  { unfold get_fd. rewrite Hf, aget_insert by lia. by rewrite Z.eqb_refl. }
  destruct (through_file s0 L0 ps0 es fd p q n d ws (out ++ [0]) Hd0 Ht0) as
    (s1 & s2 & L2 & E1 & E2 & E3 & Hd2 & Ht2 & Hf2 & He2); try done; try lia; [by apply buffers_nonempty|].
  rewrite E1. cbn [rbind]. unfold vdprintf. rewrite Ev. cbn [rbind]. rewrite E2. cbn [rbind].
  destruct (lseek_vfs fd 0 SEEK_SET s1) as [[z sa]| | |]; try done. cbn [rbind] in *.
  replace (Z.to_nat (len out + 1)) with (length (out ++ [0])) by lia. rewrite <- Hl.
  destruct (read_vfs fd _ _ sa) as [[[rr bb] sb]| | |]; try done. cbn [rbind] in *.
  destruct (Pipeline.close fd sb) as [[cc sc]| | |] eqn:Ec; try done. cbn [rbind] in E3.
  injection E3 as -> -> ->. cbn [default from_option]. unfold id. rewrite Nat2Z.id, firstn_all.
  destruct (store_list_spec m buf (out ++ [0])) as (m' & -> & Ho & Hst); [by rewrite Hl|]. cbn [rbind].
  eexists _, m', s2, L2, ps0. split; [done|]. split; [done|]. split; [done|]. right.
  split; [done|]. split; [done|]. split; [done|]. split; [|split].
  - right. exists p, q, (add_size (length (out ++ [0])) n), (out ++ [0] ++ drop (length (out ++ [0])) d).
    rewrite app_assoc. split; [done|]. simpl. lia.
  - by rewrite <- He.
  - exists fd. split; [done|]. split; [done|]. rewrite Hf2, Hf. by rewrite list_insert_insert_eq.
Qed.
End sprintf.

(** ** Examples *)
Definition demo_sprintf (pcs : list piece) (args : list Z) (s : fs) :=
  @sprintf _ boot_sys _ [] 100 (show pcs) args demo_memory s.

Definition answer : list piece :=
  [Conv (Dir [] None None None (ch "d")); Lit (ch ":"); Conv (Dir [] (Some (Num 4)) None None (ch "s"))].

Lemma demo_fresh : fresh_name (demo_file [1; 2; 3] 0) [0x400010] TMP.
Proof.
  intros q ->%list_elem_of_singleton (n & En & _ & Hn).
  destruct (demo_named [1; 2; 3] 0) as (n' & En' & _ & Hn'). simplify_eq.
  by pose proof (named_inj _ _ _ Hn Hn').
Qed.


(** Three calls: the file has grown to 19 bytes, of which the last text takes 3. *)
Example tmp_grows :
  (let* (r1, m, s) := demo_sprintf answer [42; 1] (demo_file [1; 2; 3] 0) in
   let* (r2, m, s) := demo_sprintf answer [99; 1] s in
   let* (r3, m, s) := demo_sprintf answer [7; 0] s in
   let* (fd, s) := @open_vfs _ boot_sys (Some TMP) O_RDONLY 0 s in
   let* f := get_fd fd s in
   let* n := get_node (vfs_node f) s in
   Ok (r1, r2, r3, st_size (status n), (λ a, default 0 (m !! a)) <$> seqZ 100 4))
  = Ok (8, 8, 3, 19, [55; 58; 0; 0xAA]).
Proof. vm_compute. reflexivity. Qed.

(** No descriptor is free: -1, and the file is there all the same. *)
Example tmp_left :
  let full s := set_files ((λ f, if vfs_node f =? 0 then Fildes 0x400010 0 O_RDONLY else f) <$> files s) s in
  (let* (r1, m, s) := demo_sprintf answer [42; 1] (full (demo_file [1; 2; 3] 0)) in
   Ok (r1, errno s, size (vnodes s))) = Ok (-1, errno_num EMFILE, 2%nat).
Proof. vm_compute. reflexivity. Qed.
