(* ===== verification/Ctime.v ===== *)
(** * Ctime: the time functions of the C library

    [rlibc/time/ctime.c], [mktime.c] and [time.c]: the text of a date, on [Sprintf]. *)

From S2P Require Import Prelude Malloc Headers CString Format Printf Vga Fs Names Blocks Nodes Demo Ramfs Stream Stdio Vfs Files Initrd Pipeline Sprintf Time.

(** ** mktime.c: the text of the kernel's *)
Module User.
Definition mdays := Time.mdays.
Definition isleap := Time.isleap.
Definition get_dow := Time.get_dow.
Definition mktime := Time.mktime.
End User.

(** ** time.c: [sys_time] is what the call returns *)
Definition time (sys_time timer : Z) (m : mem) : res (Z * mem) :=
  let ret := s32 sys_time in
  if timer =? 0 then Ok (ret, m) else let* m := st32 m timer ret in Ok (ret, m).

(** ** ctime.c *)
Definition ASCTIME : list Z := codes "%.3s %.3s %2.2hi %2.2hi:%2.2hi:%2.2hi %4.4hi" ++ [10].

Section asctime.
Context {MA : Malloc} {SY : Sys} {DO : Rlibc.Double}.

(** The static arrays: the pointers to the names, and the address of the buffer. *)
Context (wday mon : list Z) (ret : Z).

Definition asctime (junk : list Z) (tmp : tm) (m : mem) (s : fs) : res (Z * mem * fs) :=
  let* w := deref (aget wday (tm_wday tmp)) in
  let* mo := deref (aget mon (tm_mon tmp)) in
  let* (_, m, s) := sprintf junk ret ASCTIME
    [w; mo; tm_mday tmp; tm_hour tmp; tm_min tmp; tm_sec tmp; s32 (1900 + tm_year tmp)] m s in
  Ok (ret, m, s).
End asctime.

(** ** The text of a date *)
Definition wday_names : list (list Z) := codes <$> ["Sun"; "Mon"; "Tue"; "Wed"; "Thu"; "Fri"; "Sat"]%string.
Definition mon_names : list (list Z) :=
  codes <$> ["Jan"; "Feb"; "Mar"; "Apr"; "May"; "Jun"; "Jul"; "Aug"; "Sep"; "Oct"; "Nov"; "Dec"]%string.

(** [k] decimal digits. *)
Fixpoint fixed (k : nat) (n : Z) : list Z :=
  match k with
  | O => []
  | S k => fixed k (n / 10) ++ [ch "0" + n mod 10]
  end.

Definition date_text (t : tm) : list Z :=
  default [] (aget wday_names (tm_wday t)) ++ codes " " ++ default [] (aget mon_names (tm_mon t)) ++ codes " " ++
  fixed 2 (tm_mday t) ++ codes " " ++ fixed 2 (tm_hour t) ++ codes ":" ++ fixed 2 (tm_min t) ++ codes ":" ++
  fixed 2 (tm_sec t) ++ codes " " ++ fixed 4 (tm_year t + 1900) ++ [10].

Definition name_conv : piece := Conv (Dir [] None (Some (Num 3)) None (ch "s")).
Definition num_conv (k : Z) : piece := Conv (Dir [] (Some (Num k)) (Some (Num k)) (Some (ch "h")) (ch "i")).

Definition asc_pieces : list piece :=
  [name_conv; Lit 32; name_conv; Lit 32; num_conv 2; Lit 32; num_conv 2; Lit (ch ":"); num_conv 2;
   Lit (ch ":"); num_conv 2; Lit 32; num_conv 4; Lit 10].

(** ** Fixed width *)
Lemma fixed_length k n : length (fixed k n) = k.
Proof. revert n. induction k as [|k IH]; intros n; [done|]. simpl. rewrite length_app, IH. simpl. lia. Qed.

Lemma fixed_zero k : fixed k 0 = replicate k (ch "0").
Proof.
  induction k as [|k IH]; [done|]. cbn [fixed]. change (0 / 10) with 0. rewrite IH.
  by rewrite (replicate_S_end k).
Qed.

Lemma pad_digits k : ∀ fuel n, 0 ≤ n < 10 ^ Z.of_nat k → (0 < k)%nat → (k ≤ fuel)%nat →
  (length (base_digits fuel 10 n) ≤ k)%nat ∧
  replicate (k - length (base_digits fuel 10 n)) (ch "0") ++ ((λ v, ch "0" + v) <$> base_digits fuel 10 n) = fixed k n.
Proof.
  induction k as [|k IH]; intros fuel n Hn Hk Hf; [lia|]. destruct fuel as [|fuel]; [lia|].
  rewrite Nat2Z.inj_succ, Z.pow_succ_r in Hn by lia. cbn [base_digits fixed].
  destruct (Z.ltb_spec n 10).
  - split; [simpl; lia|]. rewrite Z.div_small, Z.mod_small, fixed_zero by lia. simpl. by rewrite Nat.sub_0_r.
  - destruct k as [|k]; [simpl in Hn; lia|].
    destruct (IH fuel (n / 10)) as [H1 H2].
    { split; [apply Z.div_pos; lia|]. apply Z.div_lt_upper_bound; lia. }
    { lia. }
    { lia. }
    rewrite length_app, fmap_app. cbn [length]. split; [lia|]. rewrite <- H2, <- app_assoc.
    by replace (S (S k) - (length (base_digits fuel 10 (n / 10)) + 1))%nat
      with (S k - length (base_digits fuel 10 (n / 10)))%nat by lia.
Qed.

Lemma dig_decimal ds : Forall (λ v, 0 ≤ v < 10) ds → dig DIGS <$> ds = (λ v, ch "0" + v) <$> ds.
Proof.
  induction 1 as [|v ds Hv _ IH]; [done|]. rewrite !fmap_cons, IH. f_equal.
  range_check (λ v, dig DIGS v =? ch "0" + v) 0 10 v as Hd. by apply Z.eqb_eq.
Qed.

Lemma num_text_fixed (k : nat) n : 0 ≤ n < 10 ^ Z.of_nat k → (0 < k ≤ 9)%nat →
  num_text n 10 (Z.of_nat k) (Z.of_nat k) FL_SIGN = fixed k n.
Proof.
  intros Hn Hk. assert (H9 : 10 ^ Z.of_nat k ≤ 10 ^ 9) by (apply Z.pow_le_mono_r; lia).
  unfold num_text, num_sign. rewrite (proj2 (Z.ltb_ge n 0)), andb_false_r by lia.
  change (if has FL_SIGN FL_PLUS then ch "+" else if has FL_SIGN FL_SPACE then ch " " else 0) with 0.
  cbn [Z.eqb]. rewrite uint_small by (simpl in *; lia).
  change (num_prefix 10 FL_SIGN) with ([] : list Z). change (has FL_SIGN FL_SMALL) with false. cbv iota.
  destruct (pad_digits k 35 n Hn ltac:(lia) ltac:(lia)) as [H1 H2].
  assert (E : numeral DIGS 10 n = (λ v, ch "0" + v) <$> base_digits 35 10 n).
  { apply dig_decimal, base_digits_range; lia. }
  unfold num_layout. change (has FL_SIGN FL_LEFT_JUSTIFY) with false. change (has FL_SIGN FL_ZEROPAD) with false.
  cbv iota. rewrite E. clear E. revert H1 H2. generalize (base_digits 35 10 n) as ds. intros ds H1 H2.
  rewrite length_fmap. rewrite (replicate_le (ch " ")) by (cbn [length]; lia). cbn [app].
  replace (Z.to_nat (Z.of_nat k - len ds)) with (k - length ds)%nat by lia. exact H2.
Qed.

(** ** asctime *)

(** The strings of a table are in memory. *)
Definition table_in (m : mem) (names : list (list Z)) (ptrs : list Z) : Prop :=
  ∀ i nm, aget names i = Some nm → ∃ p, aget ptrs i = Some p ∧ p ≠ 0 ∧ cstr m p nm.

Lemma name_prints Str ps p nm args out rest : p ≠ 0 → Str p nm → length nm = 3%nat →
  prints Str ps args out rest → prints Str (name_conv :: ps) (p :: args) (nm ++ out) rest.
Proof.
  intros Hp Hc Hl H. eapply prints_conv; try done. change (p =? 0) with (p =? 0).
  unfold conv_text. cbn -[Z.eqb str_text]. rewrite (proj2 (Z.eqb_neq p 0)) by done.
  exists nm. split; [done|]. unfold str_text, in_field. rewrite (proj2 (Z.ltb_ge 3 0)) by lia.
  change (Z.to_nat 3) with 3%nat. rewrite take_ge, replicate_le by lia. done.
Qed.

Lemma num_prints Str ps (k : nat) n args out rest : 0 ≤ n < 10 ^ Z.of_nat k → (0 < k ≤ 4)%nat →
  prints Str ps args out rest → prints Str (num_conv (Z.of_nat k) :: ps) (n :: args) (fixed k n ++ out) rest.
Proof.
  intros Hn Hk H. assert (10 ^ Z.of_nat k ≤ 10 ^ 4) by (apply Z.pow_le_mono_r; lia).
  eapply prints_conv; try done; [lia|]. unfold conv_text. cbn -[num_text s16 fixed].
  rewrite sint_small by (simpl in *; lia). split; [lia|]. symmetry. apply num_text_fixed; lia.
Qed.

(** A name of either table has three letters. *)
Lemma names_three names i nm : names = wday_names ∨ names = mon_names → aget names i = Some nm → length nm = 3%nat.
Proof.
  intros Hn Hi. assert (H : Forall (λ x : list Z, length x = 3%nat) names)
    by (destruct Hn as [->| ->]; apply (bool_decide_unpack _); vm_compute; exact I).
  rewrite list.Forall_forall in H. apply H. unfold aget in Hi. destruct (i <? 0); [done|].
  by eapply list_elem_of_lookup_2.
Qed.

Section prints.
Context {MA : Malloc} {SY : Sys} {DO : Rlibc.Double}.

Lemma date_prints m wday mon t w mo wn mn : tm_normal t → -1900 ≤ tm_year t ≤ 8099 →
  aget wday_names (tm_wday t) = Some wn → aget mon_names (tm_mon t) = Some mn →
  table_in m wday_names wday → table_in m mon_names mon →
  aget wday (tm_wday t) = Some w → aget mon (tm_mon t) = Some mo →
  prints (cstr m) asc_pieces [w; mo; tm_mday t; tm_hour t; tm_min t; tm_sec t; s32 (1900 + tm_year t)] (date_text t) [].
Proof.
  intros (Hs & Hm & Hh & Hmo & Hd) Hy Hwn Hmn Hw Hmon Ew Emo.
  destruct (Hw _ _ Hwn) as (p1 & E1 & Hp1 & C1). destruct (Hmon _ _ Hmn) as (p2 & E2 & Hp2 & C2).
  simplify_eq. unfold date_text. rewrite Hwn, Hmn. cbn [default from_option]. unfold id.
  rewrite sint_small by (simpl; lia). rewrite (Z.add_comm 1900).
  assert (Hmd : tm_mday t < 100).
  { pose proof (month_len_bounds (tm_year t + 1900) (tm_mon t)). lia. }
  apply name_prints; [done|done|eapply names_three; [by left|done]|]. apply prints_lit.
  apply name_prints; [done|done|eapply names_three; [by right|done]|]. apply prints_lit.
  unfold asc_pieces. change 2 with (Z.of_nat 2). change 4 with (Z.of_nat 4).
  apply num_prints; [simpl; lia|lia|]. apply prints_lit.
  apply num_prints; [simpl; lia|lia|]. apply prints_lit.
  apply num_prints; [simpl; lia|lia|]. apply prints_lit.
  apply num_prints; [simpl; lia|lia|]. apply prints_lit.
  rewrite <- (app_nil_r (fixed 4 _ ++ [10])), <- app_assoc.
  apply num_prints; [simpl; lia|lia|]. apply prints_lit. apply prints_nil.
Qed.

Lemma date_length t wn mn : aget wday_names (tm_wday t) = Some wn → aget mon_names (tm_mon t) = Some mn →
  length (date_text t) = 25%nat.
Proof.
  intros Hw Hm. unfold date_text. rewrite Hw, Hm. cbn [default from_option]. unfold id.
  rewrite !length_app, !fixed_length, (names_three _ _ _ (or_introl eq_refl) Hw),
    (names_three _ _ _ (or_intror eq_refl) Hm). done.
Qed.

(** C40: [asctime] of a date in range, of the years 0 to 9999: when the temporary file can be opened
    it stores the day and month names, the day, the time and the year in columns, 25
    characters and a terminator: exactly its buffer.  Otherwise it returns the buffer with
    what was in it. *)
Theorem asctime_fits s L ps es size m wday mon ret t junk
    (Hd : dir_ok s L ps es) (Ht : tmp_ok s ps es size) (Hsize : size + 256 ≤ 2 ^ 31)
    (Hn : tm_normal t) (Hy : -1900 ≤ tm_year t ≤ 8099) (Hwd : 0 ≤ tm_wday t < 7)
    (Hw : table_in m wday_names wday) (Hm : table_in m mon_names mon) (Ha : alloc m ret 26) :
  ∃ m' s' L' ps', asctime wday mon ret junk t m s = Ok (ret, m', s') ∧ dir_ok s' L' ps' es ∧
    (m' = m ∧ errno s' ∈ [errno_num ENOMEM; errno_num ENOSPC; errno_num EMFILE] ∨
     same_outside m m' ret 26 ∧ tmp_ok s' ps' es (size + 26) ∧ length (date_text t) = 25%nat ∧
     ∀ i c, aget (date_text t ++ [0]) i = Some c → m' !! (ret + i) = Some (u8 c)).
Proof.
  destruct (aget_is_Some wday_names (tm_wday t)) as [wn Ewn]; [simpl; lia|].
  destruct (aget_is_Some mon_names (tm_mon t)) as [mn Emn]; [destruct Hn; simpl; lia|].
  destruct (Hw _ _ Ewn) as (w & Ew & _). destruct (Hm _ _ Emn) as (mo & Emo & _).
  pose proof (date_prints m wday mon t w mo wn mn Hn Hy Ewn Emn Hw Hm Ew Emo) as Hp.
  pose proof (date_length t wn mn Ewn Emn) as Hl.
  assert (Hlen : len (date_text t) = 25) by lia.
  destruct (sprintf_ok s L ps es size asc_pieces
    [w; mo; tm_mday t; tm_hour t; tm_min t; tm_sec t; s32 (1900 + tm_year t)] (date_text t) [] m ret junk Hd Ht Hsize)
    as (r & m' & s' & L' & ps' & E & Hd' & _ & H); try done.
  { apply (bool_decide_unpack _). vm_compute. exact I. }
  { lia. }
  { by rewrite Hlen. }
  exists m', s', L', ps'. unfold asctime. rewrite Ew, Emo. cbn [deref rbind].
  change ASCTIME with (show asc_pieces). rewrite E. cbn [rbind]. split; [done|]. split; [done|].
  rewrite Hlen in H. destruct H as [(_ & -> & He)|(_ & Ho & Ht2 & Htmp & _)]; [by left|right].
  split; [done|]. split; [|by split]. by rewrite <- Z.add_assoc in Htmp.
Qed.
End prints.

(** ** Examples: memory with the names at 1000, four bytes each, and the buffer at 2000. *)
Definition asc_memory : mem :=
  list_to_map (zip (seqZ 1000 76) ((wday_names ++ mon_names) ≫= λ nm, nm ++ [0])) ∪
  list_to_map (zip (seqZ 2000 26) (replicate 26 0xAA)).
Definition wday_ptrs : list Z := (λ i, 1000 + 4 * i) <$> seqZ 0 7.
Definition mon_ptrs : list Z := (λ i, 1028 + 4 * i) <$> seqZ 0 12.

Definition shown (t : tm) : res (list Z) :=
  let* (a, m, s) := @asctime _ boot_sys _ wday_ptrs mon_ptrs 2000 [] t asc_memory (demo_file [] 0) in
  Ok ((λ i, default 0 (m !! (a + i))) <$> seqZ 0 26).

(** The 29th of February 2024, a Thursday. *)
Example leap_day :
  (let* (_, t) := Time.mktime (Tm 5 4 3 29 1 124 0 0 0) in shown t)
  = Ok (codes "Thu Feb 29 03:04:05 2024" ++ [10; 0]).
Proof. vm_compute. reflexivity. Qed.

(** The year 10000 does not fit. *)
Example year_10000 : shown (Tm 0 0 0 1 0 8100 6 1 0) = Fault.
Proof. vm_compute. reflexivity. Qed.

Ltac each_name l p :=
  let l' := eval vm_compute in l in let p' := eval vm_compute in p in change l with l'; change p with p';
  repeat (constructor; [split; [done|vm_compute; by split_and!]|]); constructor.

Lemma asctime_fits_witness :
  let t := Tm 5 4 3 29 1 124 4 60 0 in
  tm_normal t ∧ ∃ m' s' L' ps', @asctime _ boot_sys _ wday_ptrs mon_ptrs 2000 [] t asc_memory (demo_file [1; 2; 3] 0)
    = Ok (2000, m', s') ∧ dir_ok s' L' ps' [demo_entry [1; 2; 3]].
Proof.
  assert (Hn : tm_normal (Tm 5 4 3 29 1 124 4 60 0)) by (unfold tm_normal; vm_compute; split_and!; done).
  assert (Ht : ∀ names ptrs, Forall2 (λ nm p, p ≠ 0 ∧ cstr asc_memory p nm) names ptrs →
    table_in asc_memory names ptrs).
  { intros names ptrs H i nm Hi. unfold aget in *. destruct (i <? 0); [done|].
    destruct (Forall2_lookup_l _ _ _ _ _ H Hi) as (p & Hp & Hq). by exists p. }
  split; [exact Hn|].
  destruct (@asctime_fits _ boot_sys _ (demo_file [1; 2; 3] 0) demo_allocated [0x400010] [demo_entry [1; 2; 3]] 0
    asc_memory wday_ptrs mon_ptrs 2000 (Tm 5 4 3 29 1 124 4 60 0) [])
    as (m' & s' & L' & ps' & E & Hd & _).
  - apply demo_dir_ok. simpl. lia.
  - left. split; [|split; [simpl; lia|split; [reflexivity|lia]]]. apply demo_fresh.
  - lia.
  - exact Hn.
  - simpl. lia.
  - simpl. lia.
  - apply Ht. each_name wday_names wday_ptrs.
  - apply Ht. each_name mon_names mon_ptrs.
  - intros i Hi. apply (elem_of_dom (D := gset Z)).
    unfold asc_memory. rewrite dom_union_L, !dom_list_to_map_L. apply elem_of_union_r.
    apply elem_of_list_to_set. change ((zip (seqZ 2000 26) (replicate 26 0xAA)).*1) with (seqZ 2000 26).
    apply elem_of_seqZ. lia.
  - exists m', s', L', ps'. split; [exact E|exact Hd].
Defined.
