(* ===== verification/Userio.v ===== *)
(** * Userio: characters and lines of the C library

    [rlibc/stdio]: [dgetc], [getchar], [dgetdelim], [dgetline], [dputc], [putchar], [puts];
    [rlibc/unistd] and [rlibc/stat]: the calls; and two programs that use them, [rlibc/date.c]
    and [rlibc/len.c].  A line buffer is the list of the characters that were stored in it,
    with the size of its block, as in [Rash]. *)

From S2P Require Import Prelude Malloc Headers CString Ctype Format Printf Vga Fs Names Blocks Nodes Demo Ramfs Stream Stdio Vfs Files Initrd Rash Pipeline Sprintf Time Ctime.

Section userio.
Context {MA : Malloc} {SY : Sys} {DO : Rlibc.Double}.

(** ** unistd/read.c, write.c, lseek.c *)
Definition read (fd : Z) (buf : option (list Z)) (size : Z) (s : fs) : res (Z * option (list Z) * fs) :=
  read_vfs fd buf size s.
Definition write (fd : Z) (buf : option (list Z)) (size : Z) (s : fs) : res (Z * fs) :=
  write_vfs fd buf size s.
Definition lseek (fd offset whence : Z) (s : fs) : res (Z * fs) := lseek_vfs fd offset whence s.

(** ** stat/stat.c, stat/mkfifo.c *)
Definition fstat (fd : Z) (s : fs) : res (Z * option stat * fs) := Vfs.fstat fd s.

Definition stat (path : option (list Z)) (s : fs) : res (Z * option Fs.stat * fs) :=
  match path with
  | None => fail ENOENT s (λ r s, (r, None, s))
  | Some nm =>
      let* (fd, s) := Pipeline.open nm O_RDONLY 0 s in
      if fd <? 0 then fail EBADF s (λ r s, (r, None, s))
      else
        let* (ret, b, s) := fstat fd s in
        let* (_, s) := Pipeline.close fd s in
        Ok (ret, b, s)
  end.

Definition mkfifo (path : list Z) (mode : Z) (s : fs) : res (Z * fs) :=
  let* (fd, s) := Pipeline.creat path (Z.lor mode S_IFIFO) s in
  if fd <? 0 then Ok (-1, s) else let* (_, s) := Pipeline.close fd s in Ok (0, s).

(** ** stdio/putc.c, stdio/puts.c *)
Definition dputc (chr fd : Z) (s : fs) : res (Z * fs) := write fd (Some [u8 chr]) 1 s.

Definition putchar (c : Z) (s : fs) : res (Z * fs) := write STDOUT_FILENO (Some [u8 c]) 1 s.

(** [cs] are the characters before the terminator. *)
Definition puts (cs : list Z) (s : fs) : res (Z * fs) :=
  let* (_, s) := write STDOUT_FILENO (Some cs) (len cs) s in
  write STDOUT_FILENO (Some [10]) 1 s.

(** ** stdio/dgetc.c, getchar.c

    [junk] is what the array [c] held before. *)
Definition dgetc (junk fd : Z) (s : fs) : res (Z * fs) :=
  let* (r, c, s) := read fd (Some [junk]) 1 s in
  if r <? 0 then Ok (EOF, s)
  else let* c := deref (aget (default [] c) 0) in Ok (s8 c, s).

Definition getchar (junk : Z) (s : fs) : res (Z * fs) := dgetc junk 0 s.

(** ** stdio/dgetdelim.c *)

(** What the array of [dgetc] holds at its [k]-th call, and whether the [k]-th allocation gets
    memory. *)
Context (junk : nat → Z) (mem_left : nat → bool).

(** The result, the line if it is complete, and the size of its block. *)
Fixpoint delim_loop (fuel i k : nat) (n : Z) (line : list Z) (delim fd : Z) (s : fs)
    : res (Z * option (list Z) * Z * fs) :=
  match fuel with
  | O => Fuel
  | S fuel =>
      let* (c, s) := dgetc (junk i) fd s in
      let c := s8 c in
      if negb (c =? EOF) && negb (c =? delim) then
        if len line <? n then
          let line := line ++ [u8 c] in
          if n <=? len line then
            if mem_left k then delim_loop fuel (S i) (S k) (u32 (n * 2)) line delim fd s
            else Ok (-1, None, u32 (n * 2), s)
          else delim_loop fuel (S i) k n line delim fd s
        else Fault
      else if len line <? n then Ok (len line, Some (line ++ [0]), n, s) else Fault
  end.

Definition dgetdelim (fuel : nat) (delim fd : Z) (s : fs) : res (Z * option (list Z) * Z * fs) :=
  if mem_left 0%nat then delim_loop fuel 0 1 64 [] delim fd s else Ok (-1, None, 64, s).

Definition dgetline (fuel : nat) (fd : Z) (s : fs) : res (Z * option (list Z) * Z * fs) :=
  dgetdelim fuel 10 fd s.

(** ** The programs: what they return and leave *)

(** [sys_time] is what the call in [time] returns. *)
Definition DATE : list Z := codes "%d-%d-%d %d:%d:%d" ++ [10].

Definition date_main (digs : list Z) (sys_time : Z) (m : mem) (s : fs) : res (Z * mem * fs) :=
  let* tm_now := gmtime (s32 sys_time) gmtime_static in
  let* (_, m, s) := printf digs DATE
    [s32 (tm_year tm_now + 1900); s32 (tm_mon tm_now + 1); tm_mday tm_now; tm_hour tm_now;
     tm_min tm_now; tm_sec tm_now] m s in
  Ok (0, m, s).

(** [strlen] of a pointer that was not set is a fault here. *)
Definition len_main (fuel : nat) (digs : list Z) (m : mem) (s : fs) : res (Z * mem * fs) :=
  let* (_, line, _, s) := dgetline fuel 0 s in
  let* line := deref line in
  let* (_, m, s) := printf digs (codes "%d" ++ [10]) [len (c_str line)] m s in
  Ok (0, m, s).
(** ** What the screen shows *)

(** Descriptor 1 is [stdout], and the console is in order. *)
Definition on_console (s : fs) : Prop :=
  (∃ f n, get_fd STDOUT_FILENO s = Ok f ∧ vfs_node f ≠ 0 ∧ has (oflag f) O_WRONLY = true ∧
     vnodes s !! vfs_node f = Some n ∧ n_write n = Some STDOUT) ∧
  len (files s) = OPEN_MAX ∧ console_ok (con s).

(** [c'] is [c] after [cs] was put on it. *)
Definition showed (c : console) (cs : list Z) (c' : console) : Prop :=
  console_ok c' ∧ cur_bg c' = cur_bg c ∧ cur_fg c' = cur_fg c ∧
  abs (screen c') = foldl (λ t x, Vga.Term.put (cell c x) t) (abs (screen c)) cs.

Abbreviation ascii := (Forall (λ c, 0 ≤ c < 128)).

Lemma showed_app c cs c1 cs' c2 : showed c cs c1 → showed c1 cs' c2 → showed c (cs ++ cs') c2.
Proof.
  intros (_ & B1 & F1 & A1) (H2 & B2 & F2 & A2). split; [done|]. split; [congruence|]. split; [congruence|].
  rewrite A2, foldl_app, A1. unfold cell. by rewrite B1, F1.
Qed.

Lemma put_chars_spec pre cs c : ascii cs →
  put_chars (length cs) (len pre) (pre ++ cs) c = kput_chars cs c.
Proof.
  intros H. revert pre c. induction H as [|x cs Hx _ IH]; intros pre c; [done|]. cbn [length put_chars kput_chars].
  unfold aget. rewrite (proj2 (Z.ltb_ge (len pre) 0)), Nat2Z.id, list_lookup_middle by (done || lia).
  cbn [deref rbind]. rewrite sint_small by (simpl; lia).
  destruct (kputchar x c) as [[z c1]| | |]; cbn [rbind]; try done.
  specialize (IH (pre ++ [x]) c1). rewrite <- app_assoc, length_app in IH. cbn [app length] in IH.
  by replace (len pre + 1) with (Z.of_nat (length pre + 1)) by lia.
Qed.

Lemma write_shows s cs : on_console s → ascii cs → len cs < 2 ^ 31 →
  ∃ c', write_vfs STDOUT_FILENO (Some cs) (len cs) s = Ok (len cs, set_con c' s) ∧ showed (con s) cs c'.
Proof.
  intros ((f & n & Ef & Hf & Hw & En & Hn) & Hl & Hc) Hcs Hlen. unfold write_vfs.
  rewrite (open_fd_some _ _ f) by done. cbn [rbind]. destruct (Z.eqb_spec (len cs) 0) as [E|E].
  - destruct cs; [|simpl in E; lia]. exists (con s). split; [by destruct s|]. by split_and!.
  - rewrite Hw. unfold get_node. rewrite En. cbn [deref rbind]. rewrite Hn. cbn [node_write].
    unfold write_stdout, write_console. rewrite Nat2Z.id.
    pose proof (put_chars_spec [] cs (con s) Hcs) as Ep. change (len []) with 0 in Ep. cbn [app] in Ep. rewrite Ep.
    destruct (kput_chars_spec cs (con s) Hc Hcs) as (c' & -> & H1 & H2 & H3 & H4). cbn [rbind].
    exists c'. rewrite sint_small by lia. split; [done|]. by split_and!.
Qed.

Lemma on_console_set s c : on_console s → console_ok c → on_console (set_con c s).
Proof. intros (H1 & H2 & _) Hc. by split_and!. Qed.

Lemma write_all_shows ws : ∀ s, on_console s → ascii (concat ws) → Forall (λ w, len w ≤ 16) ws →
  ∃ c', write_all STDOUT_FILENO ws s = Ok (set_con c' s) ∧ showed (con s) (concat ws) c'.
Proof.
  induction ws as [|w ws IH]; intros s Hs Hc Hl.
  { exists (con s). split; [by destruct s|]. destruct Hs as (_ & _ & Hc'). by split_and!. }
  cbn [concat] in Hc. apply list.Forall_app in Hc as [Hc1 Hc2]. apply list.Forall_cons in Hl as [Hl1 Hl2].
  destruct (write_shows s w Hs Hc1) as (c1 & E1 & H1); [lia|]. cbn [write_all concat]. rewrite E1. cbn [rbind].
  destruct (IH (set_con c1 s)) as (c2 & -> & H2); [by apply on_console_set; [|apply H1]|done|done|].
  exists c2. split; [done|]. by eapply showed_app.
Qed.

(** The console shows nothing for a zero. *)
Lemma showed_zero c cs c' : console_ok c → ascii cs → showed c (cs ++ [0]) c' → showed c cs c'.
Proof.
  intros Hc Ha (H1 & H2 & H3 & H4). split; [done|]. split; [done|]. split; [done|].
  destruct (kput_chars_spec cs c Hc Ha) as (c1 & _ & (_ & _ & _ & Hx & Hy) & _ & _ & E).
  rewrite H4, foldl_app. cbn [foldl]. rewrite <- E. unfold Vga.Term.put. rewrite cell_low by lia.
  cbn [Z.eqb Z.leb Z.compare]. unfold Vga.Term.wrap, abs. simpl.
  rewrite (proj2 (Z.leb_gt 80 _)) by lia. cbn [Vga.Term.row].
  by rewrite (proj2 (Z.leb_gt 25 _)) by lia.
Qed.

(** [printf] on the console: the text.  The terminator is written, too. *)
Lemma printf_shows digs ps args out rest m s : on_console s → Forall piece_ok ps → prints (cstr m) ps args out rest →
  ascii out → ∃ c', printf digs (show ps) args m s = Ok (len out + 1, m, set_con c' s) ∧
    showed (con s) out c'.
Proof.
  intros Hs Hok Hp Ha. destruct (vdprintf_prints ps args out rest m digs Hok Hp) as (ws & E & Hws & full & last & -> & Hf & Hl).
  unfold printf, vdprintf. rewrite E. cbn [rbind].
  destruct (write_all_shows (full ++ [last]) s Hs) as (c' & -> & Hsh).
  - rewrite Hws. apply Forall_app_2; [done|]. by constructor.
  - apply Forall_app_2; [|constructor; [lia|done]]. eapply Forall_impl; [|exact Hf]. simpl. lia.
  - exists c'. split; [done|]. apply showed_zero; [apply Hs|done|]. by rewrite <- Hws.
Qed.

Lemma puts_shows cs s : on_console s → ascii cs → len cs < 2 ^ 31 →
  ∃ c', puts cs s = Ok (1, set_con c' s) ∧ showed (con s) (cs ++ [10]) c'.
Proof.
  intros Hs Hc Hl. unfold puts, write. destruct (write_shows s cs Hs Hc Hl) as (c1 & -> & H1). cbn [rbind].
  destruct (write_shows (set_con c1 s) [10]) as (c2 & E & H2); [by apply on_console_set; [|apply H1]|by repeat constructor|done|].
  exists c2. change (len [10]) with 1 in E. rewrite E. split; [done|]. by eapply showed_app.
Qed.
(** ** date *)
Definition dec_conv : piece := Conv (Dir [] None None None (ch "d")).

Definition date_pieces : list piece :=
  [dec_conv; Lit (ch "-"); dec_conv; Lit (ch "-"); dec_conv; Lit 32; dec_conv; Lit (ch ":"); dec_conv;
   Lit (ch ":"); dec_conv; Lit 10].

(** Year, month from 1, day, hour, minute, second. *)
Definition date_line (t : tm) : list Z :=
  decimal (tm_year t + 1900) ++ codes "-" ++ decimal (tm_mon t + 1) ++ codes "-" ++ decimal (tm_mday t) ++
  codes " " ++ decimal (tm_hour t) ++ codes ":" ++ decimal (tm_min t) ++ codes ":" ++ decimal (tm_sec t) ++ [10].

Lemma base_digits_nonempty fuel base n : (0 < length (base_digits (S fuel) base n))%nat.
Proof. cbn [base_digits]. destruct (n <? base); [simpl; lia|]. rewrite length_app. cbn [length]. lia. Qed.

Lemma num_text_decimal n : 0 ≤ n < 2 ^ 31 → num_text n 10 (-1) (-1) FL_SIGN = decimal n.
Proof.
  intros Hn. unfold num_text, num_sign. rewrite (proj2 (Z.ltb_ge n 0)), andb_false_r by lia.
  change (if has FL_SIGN FL_PLUS then ch "+" else if has FL_SIGN FL_SPACE then ch " " else 0) with 0.
  cbn [Z.eqb]. rewrite uint_small by lia.
  change (num_prefix 10 FL_SIGN) with ([] : list Z). change (has FL_SIGN FL_SMALL) with false. cbv iota.
  assert (Hd : Forall (λ v, 0 ≤ v < 10) (base_digits 35 10 n)) by (apply base_digits_range; lia).
  pose proof (base_digits_nonempty 34 10 n) as H0.
  unfold numeral, decimal. rewrite dig_decimal by done. clear Hd. revert H0.
  generalize (base_digits 35 10 n) as ds. intros ds H0. unfold num_layout.
  change (has FL_SIGN FL_LEFT_JUSTIFY) with false. change (has FL_SIGN FL_ZEROPAD) with false. cbv iota.
  rewrite length_fmap, !replicate_le by (cbn [length]; lia). done.
Qed.

Lemma dec_prints Str ps n args out rest : 0 ≤ n < 2 ^ 31 → prints Str ps args out rest →
  prints Str (dec_conv :: ps) (n :: args) (decimal n ++ out) rest.
Proof.
  intros Hn H. eapply prints_conv; try done. unfold conv_text. cbn -[num_text s32 decimal].
  rewrite sint_small by lia. split; [lia|]. symmetry. by apply num_text_decimal.
Qed.

Lemma decimal_ascii n : 0 ≤ n → ascii (decimal n).
Proof.
  intros Hn. unfold decimal. apply list.Forall_fmap.
  eapply Forall_impl; [|apply (base_digits_range 35 10 n); lia]. intros v Hv. cbv beta in Hv. change (0 ≤ 48 + v < 128). lia.
Qed.

Lemma days_before_year_ge n : 365 * Z.of_nat n ≤ days_before_year n.
Proof. induction n as [|n IH]; [done|]. cbn [days_before_year]. unfold year_len. cif; lia. Qed.

(** The first call of [gmtime] in a program. *)
Lemma gmtime_date t : 0 ≤ t < 2 ^ 31 →
  ∃ t', gmtime t gmtime_static = Ok t' ∧ tm_normal t' ∧ tm_seconds t' = t ∧ 70 ≤ tm_year t' ≤ 138.
Proof.
  intros Ht. unfold gmtime. destruct (mktime_spec (Tm t 0 0 1 0 70 0 0 (-1))) as (t' & E & Hn & Hy & Hs & _).
  { unfold tm_in_range. simpl. lia. }
  unfold gmtime_static. simpl. rewrite E. exists t'. split; [done|]. split; [done|].
  assert (Hs' : tm_seconds t' = t) by (rewrite Hs; unfold tm_seconds, epoch_days; simpl; lia).
  split; [done|]. simpl in Hy. split; [done|]. destruct Hn as (H1 & H2 & H3 & H4 & H5).
  unfold tm_seconds, epoch_days in Hs'.
  pose proof (days_before_month_nonneg (tm_year t' + 1900) (Z.to_nat (tm_mon t'))).
  pose proof (days_before_year_ge (Z.to_nat (tm_year t' + 1900 - 1970))). lia.
Qed.

(** C25: the program [date], at [t] seconds since the epoch (before 2038), on a console:
    it exits with 0 and leaves files and memory alone; the screen shows a line with the one date
    and time in range that is [t] seconds after the epoch in the Gregorian calendar. *)
Theorem date_shows digs t m s (Ht : 0 ≤ t < 2 ^ 31) (Hs : on_console s) :
  ∃ t' c', date_main digs t m s = Ok (0, m, set_con c' s) ∧
    tm_normal t' ∧ tm_seconds t' = t ∧ 1970 ≤ tm_year t' + 1900 ∧ showed (con s) (date_line t') c'.
Proof.
  destruct (gmtime_date t Ht) as (t' & E & Hn & Hsec & Hy). pose proof Hn as (H1 & H2 & H3 & H4 & H5).
  pose proof (month_len_bounds (tm_year t' + 1900) (tm_mon t')) as Hml.
  destruct (printf_shows digs date_pieces [tm_year t' + 1900; tm_mon t' + 1; tm_mday t'; tm_hour t'; tm_min t'; tm_sec t']
    (date_line t') [] m s Hs) as (c' & Ep & Hsh).
  - apply (bool_decide_unpack _). vm_compute. exact I.
  - unfold date_line. repeat (apply dec_prints; [lia|]; apply prints_lit).
    apply prints_nil.
  - unfold date_line. repeat apply Forall_app_2; try (apply decimal_ascii; lia);
      by repeat constructor.
  - exists t', c'. unfold date_main. rewrite sint_small by lia. rewrite E. cbn [rbind].
    rewrite !(sint_small 32) by lia. change DATE with (show date_pieces). rewrite Ep. cbn [rbind].
    split; [done|]. split; [done|]. split; [done|]. split; [lia|done].
Qed.
(** ** Lines of a file *)

(** [fd] reads the entry [e] through [f]. *)
Definition reading (s : fs) (fd : Z) (f : fildes_t) (e : entry) : Prop :=
  get_fd fd s = Ok f ∧ vfs_node f = e_node e ∧ has (oflag f) O_RDONLY = true ∧ e_node e ≠ 0 ∧
  len (files s) = OPEN_MAX ∧ is_entry s e.

Lemma reading_at s fd f e a : reading s fd f e → reading (at_fd fd (with_at a f) s) fd (with_at a f) e.
Proof.
  intros (Ef & Hf & Ho & Hn & Hl & He). pose proof (get_fd_range _ _ _ Ef).
  split; [by apply get_at_fd|]. split; [done|]. split; [done|]. split; [done|].
  split; [unfold at_fd; simpl; by rewrite length_insert|done].
Qed.

Lemma at_fd_twice s fd f g : at_fd fd g (at_fd fd f s) = at_fd fd g s.
Proof. unfold at_fd. simpl. by rewrite list_insert_insert_eq. Qed.

Lemma dgetc_reads s fd f e (a : nat) c x : reading s fd f e → at_ f = Z.of_nat a → aligned a →
  e_data e !! a = Some c → len (e_data e) < 2 ^ 31 →
  dgetc x fd s = Ok (s8 c, at_fd fd (with_at (Z.of_nat (S a)) f) s).
Proof.
  intros (Ef & Hf & Ho & Hnz & Hl & He) Ha Hal Hc Hlen.
  destruct He as (n & p & En & Hreg & Hnm & Hino & Hsz & Ep & Hon).
  pose proof Hreg as (Hdev & Hdirm & Hfifo & Hrd & _). pose proof (lookup_lt_Some _ _ _ Hc) as Hlt.
  unfold dgetc, read, read_vfs. rewrite (open_fd_some _ _ f) by (done || by rewrite Hf). cbn [rbind].
  unfold get_node. rewrite Hf, En. cbn [deref rbind]. rewrite Hdirm, Ho, Hrd. cbn [Z.eqb node_read].
  rewrite <- Hf in En. rewrite <- Hino in Ep.
  pose proof (read_ramfs_result s fd (e_blocks e) (e_data e) a f n p 1 [x] Ef En Ep Hon Ha Hsz ltac:(lia) Hal
    Hlen ltac:(simpl; lia) ltac:(lia)) as Er.
  cbv zeta in Er. replace (1 `min` (length (e_data e) - a))%nat with 1%nat in Er by lia.
  change (Z.of_nat 1) with 1 in Er. rewrite Er. cbn [rbind].
  rewrite (drop_S _ c a) by done. change (1 <? 0) with false. cbv iota. cbn [take app default from_option].
  unfold id. cbn [aget Z.ltb Z.compare Z.to_nat lookup list_lookup deref rbind]. by rewrite Nat.add_1_r.
Qed.

Lemma s8_twice x : s8 (s8 x) = s8 x.
Proof. apply sint_small; [done|]. by apply (sint_range 8). Qed.

(** The size of the block is 64, or at most twice what is in it. *)
Definition room (n : Z) (l : nat) : Prop := Z.of_nat l < n ∧ (n = 64 ∨ n ≤ 2 * Z.of_nat l).

Lemma delim_loop_reads fd e delim line d tl : (∀ k, mem_left k = true) → len (e_data e) < 2 ^ 30 →
  Forall (λ c, 0 ≤ c < 256 ∧ s8 c ≠ EOF ∧ s8 c ≠ delim) line → s8 d = EOF ∨ s8 d = delim →
  ∀ fuel i k n cs s f (a : nat), reading s fd f e → at_ f = Z.of_nat a → drop a (e_data e) = line ++ d :: tl →
  (∀ j, (a ≤ j ≤ a + length line)%nat → aligned j) → room n (length cs) → (length line < fuel)%nat →
  len cs + len line < 2 ^ 30 →
  ∃ n', delim_loop fuel i k n cs delim fd s
    = Ok (len cs + len line, Some (cs ++ line ++ [0]), n', at_fd fd (with_at (Z.of_nat (a + length line + 1)) f) s) ∧
    room n' (length cs + length line).
Proof.
  intros Hmem Hlen Hline Hd. revert Hline.
  induction line as [|c line IH]; intros Hline fuel i k n cs s f a Hr Ha Hdr Hal Hn Hf Hsum;
    (destruct fuel as [|fuel]; [simpl in Hf; lia|]); cbn [delim_loop];
    (assert (Hc : e_data e !! a = head (drop a (e_data e))) by
       (rewrite <- (Nat.add_0_r a) at 1; rewrite <- lookup_drop; by destruct (drop a (e_data e))));
    rewrite Hdr in Hc; cbn [app head] in Hc;
    (rewrite (dgetc_reads s fd f e a _ _ Hr Ha) by (done || (apply Hal; lia) || (lia))); cbn [rbind];
    rewrite s8_twice.
  - assert (Eb : negb (s8 d =? EOF) && negb (s8 d =? delim) = false).
    { destruct Hd as [->| ->]; rewrite Z.eqb_refl; [done|by rewrite andb_false_r]. }
    rewrite Eb. destruct Hn as [Hn1 Hn2]. rewrite (proj2 (Z.ltb_lt (len cs) n)) by lia.
    exists n. cbn [length app]. split; [|split; [lia|]].
    + rewrite !Z.add_0_r. by replace (a + 0 + 1)%nat with (S a) by lia.
    + by rewrite Nat.add_0_r.
  - apply list.Forall_cons in Hline as [(Hc1 & Hc2 & Hc3) Hline].
    rewrite (proj2 (Z.eqb_neq _ _) Hc2), (proj2 (Z.eqb_neq _ _) Hc3). cbn [negb andb].
    destruct Hn as [Hn1 Hn2]. rewrite (proj2 (Z.ltb_lt (len cs) n)) by lia.
    assert (Eu : u8 (s8 c) = c) by (rewrite uint_sint by lia; apply uint_small; lia). rewrite Eu.
    set (cs1 := cs ++ [c]). assert (Hl1 : length cs1 = S (length cs)) by (unfold cs1; rewrite length_app; simpl; lia).
    set (f1 := with_at (Z.of_nat (S a)) f). set (s1 := at_fd fd f1 s).
    assert (Hr1 : reading s1 fd f1 e) by (by apply reading_at).
    assert (Hdr1 : drop (S a) (e_data e) = line ++ d :: tl).
    { rewrite <- Nat.add_1_r, <- drop_drop, Hdr. done. }
    assert (Hgo : ∀ i k n1, room n1 (length cs1) → ∃ n', delim_loop fuel i k n1 cs1 delim fd s1
      = Ok (len cs + len (c :: line), Some (cs ++ (c :: line) ++ [0]), n',
            at_fd fd (with_at (Z.of_nat (a + length (c :: line) + 1)) f) s) ∧
      room n' (length cs + length (c :: line))).
    { intros i' k' n1 Hn1'. cbn [length] in Hf, Hsum.
      destruct (IH Hline fuel i' k' n1 cs1 s1 f1 (S a)) as (n' & E & Hroom); try done; try lia.
      { intros j Hj. apply Hal. cbn [length]. lia. }
      exists n'. rewrite E. unfold s1. rewrite at_fd_twice. unfold f1, cs1 in *. cbn [length] in *.
      rewrite <- app_assoc, Hl1 in *. split; [|by replace (length cs + S (length line))%nat with (S (length cs) + length line)%nat by lia].
      replace (S a + length line + 1)%nat with (a + S (length line) + 1)%nat by lia.
      by replace (Z.of_nat (S (length cs)) + len line) with (len cs + Z.of_nat (S (length line))) by lia. }
    destruct (Z.leb_spec n (len cs1)).
    + rewrite Hmem. apply Hgo. cbn [length] in Hsum. rewrite uint_small by (change (2 ^ 32) with (4 * 2 ^ 30); lia). split; lia.
    + apply Hgo. split; [lia|]. destruct Hn2; [by left|right; lia].
Qed.
(** C26: [dgetline] on a descriptor that reads a file, at the start of [line], which has an end,
    with memory for every allocation: it returns the length of the line, the line without its
    end and with a terminator, in a block that was doubled as often as needed and no more; and
    the descriptor stands behind the end.  The end is the first newline, or the first byte 255,
    which is taken for the end of the file ([byte_255]).  Every position of the line must be one
    whose block the ram disk finds, [j / 255 = j / 256] ([aligned]).  A last line without a
    newline is lost: [last_line]. *)
Theorem dgetline_reads fuel s fd f e (a : nat) line d tl
    (Hmem : ∀ k, mem_left k = true) (Hr : reading s fd f e) (Ha : at_ f = Z.of_nat a)
    (Hlen : len (e_data e) < 2 ^ 30) (Hdata : drop a (e_data e) = line ++ d :: tl)
    (Hline : Forall (λ c, 0 ≤ c < 256 ∧ c ≠ 255 ∧ c ≠ 10) line) (Hd : d = 10 ∨ d = 255)
    (Hal : ∀ j, (a ≤ j ≤ a + length line)%nat → aligned j) (Hf : (length line < fuel)%nat) :
  ∃ n, dgetline fuel fd s
    = Ok (len line, Some (line ++ [0]), n, at_fd fd (with_at (Z.of_nat (a + length line + 1)) f) s) ∧
    len line < n ∧ (n = 64 ∨ n ≤ 2 * len line).
Proof.
  unfold dgetline, dgetdelim. rewrite Hmem.
  destruct (delim_loop_reads fd e 10 line d tl Hmem Hlen) with (fuel := fuel) (i := 0%nat) (k := 1%nat) (n := 64)
    (cs := @nil Z) (s := s) (f := f) (a := a) as (n & E & H1 & H2); try done.
  - eapply Forall_impl; [|exact Hline]. intros c (H1 & H2 & H3). split; [done|].
    range_check (λ c, implb (negb (c =? 255) && negb (c =? 10)) (negb (s8 c =? EOF) && negb (s8 c =? 10))) 0 256 c as Hb.
    rewrite (proj2 (Z.eqb_neq c 255)), (proj2 (Z.eqb_neq c 10)) in Hb by done. cbn in Hb.
    apply andb_true_iff in Hb as [H4 H5]. apply negb_true_iff, Z.eqb_neq in H4, H5. done.
  - destruct Hd as [->| ->]; [by right|by left].
  - split; [simpl; lia|by left].
  - assert (Hl : len (drop a (e_data e)) = len line + 1 + len tl) by (rewrite Hdata, length_app; cbn [length]; lia).
    rewrite length_drop in Hl. cbn [length]. lia.
  - exists n. cbn [app] in E. rewrite E. done.
Qed.
End userio.

(** ** Examples *)
Definition all_mem : nat → bool := λ _, true.

(** A file of two lines that is open at its start. *)
Definition two_lines : list Z := codes "ab" ++ [10] ++ codes "c" ++ [10].

Lemma two_lines_reading c a : (length c ≤ 256)%nat →
  reading (demo_file c a) 3 (Fildes 0x400010 a O_RDWR) (demo_entry c).
Proof.
  intros Hc. split; [done|]. split; [done|]. split; [done|]. split; [done|]. split; [done|].
  pose proof (demo_dir_ok c Hc) as (_ & _ & _ & _ & _ & _ & He & _).
  apply list.Forall_cons in He as [He _]. exact He.
Qed.

Lemma dgetline_reads_witness :
  ∃ n, dgetline (λ _, 0) all_mem 5 3 (demo_file two_lines 3)
    = Ok (1, Some (codes "c" ++ [0]), n, at_fd 3 (Fildes 0x400010 5 O_RDWR) (demo_file two_lines 3)) ∧
    1 < n ∧ (n = 64 ∨ n ≤ 2).
Proof.
  apply (dgetline_reads (λ _, 0) all_mem 5 (demo_file two_lines 3) 3 (Fildes 0x400010 3 O_RDWR) (demo_entry two_lines)
    3 (codes "c") 10 [] (λ _, eq_refl)).
  - apply two_lines_reading. simpl. lia.
  - reflexivity.
  - simpl. lia.
  - reflexivity.
  - repeat constructor; (done || lia).
  - by left.
  - simpl. intros j Hj. unfold aligned. rewrite !Nat.div_small by lia. done.
  - simpl. lia.
Defined.

(** A line of 100 characters: the block is doubled once. *)
Example long_line :
  (let* (r, l, n, _) := dgetline (λ _, 0) all_mem 200 3 (demo_file (replicate 100 120 ++ [10]) 0) in
   Ok (r, length <$> l, n)) = Ok (100, Some 101%nat, 128).
Proof. vm_compute. reflexivity. Qed.

(** The last line of a file has no newline: [read] returns 0, which [dgetc] does not look at,
    and the loop takes what the array held before for more characters, until there is
    no memory for them; the line is lost. *)
Example last_line :
  (let* (r, l, n, _) := dgetline (λ _, ch "b") (λ k, bool_decide (k < 2)%nat) 200 3 (demo_file (codes "ab") 0) in
   Ok (r, l, n)) = Ok (-1, None, 256).
Proof. vm_compute. reflexivity. Qed.

(** A byte 255 ends the line. *)
Example byte_255 :
  (let* (r, l, _, _) := dgetline (λ _, 0) all_mem 10 3 (demo_file ([1; 255; 2; 10]) 0) in Ok (r, l))
  = Ok (1, Some [1; 0]).
Proof. vm_compute. reflexivity. Qed.

(** A console on descriptor 1. *)
Definition demo_stdout : fs :=
  let s := demo_file [1; 2; 3] 0 in
  set_vnodes {[0x400010 := demo_node DEVID_STDIO 0 (Some STDOUT) 0]}
    (set_files (<[1%nat := Fildes 0x400010 0 O_WRONLY]> (files s)) s).

Lemma demo_on_console : on_console demo_stdout.
Proof.
  split; [|split; [done|]].
  - exists (Fildes 0x400010 0 O_WRONLY), (demo_node DEVID_STDIO 0 (Some STDOUT) 0).
    split; [done|]. split; [done|]. split; [done|]. split; [apply lookup_singleton_eq|done].
  - split; [simpl; lia|]. split; [simpl; lia|]. apply blank_screen_ok; lia.
Qed.

(** The 29th of February 2024. *)
Lemma date_shows_witness :
  ∃ t' c', date_main [] 1709175845 ∅ demo_stdout = Ok (0, ∅, set_con c' demo_stdout) ∧
    tm_normal t' ∧ tm_seconds t' = 1709175845 ∧ 1970 ≤ tm_year t' + 1900 ∧
    showed (con demo_stdout) (date_line t') c'.
Proof. apply date_shows; [lia|exact demo_on_console]. Defined.

Example leap_date :
  (let* t := gmtime 1709175845 gmtime_static in Ok (date_line t)) = Ok (codes "2024-2-29 3:4:5" ++ [10]).
Proof. vm_compute. reflexivity. Qed.
