(* ===== verification/Faults.v ===== *)
(** * Faults: the handlers that report and stop

    [kernel/src/panic.c], [drivers/except.c], [drivers/gpf.c] and [mm/pagefault.c], on the
    [kprintf] of [Printf].  A panic does not return: the result is the state in which the
    machine loops for ever. *)

From S2P Require Import Prelude Malloc Headers CString Ctype Format Printf Vga Fs Names Blocks Nodes Demo Ramfs Stream Stdio Vfs Files Initrd Rash Pipeline Sprintf Time Ctime Userio.

(** [sched_halted], memory and console. *)
Record machine := Machine { sched_halted : Z; k_mem : mem; k_con : console }.

Section faults.
(** The addresses of [kprintf_buf] and of [str] in panic.c. *)
Context (kprintf_buf str : Z).

(** ** panic.c: [cur] is the number of the current task, if there is one *)
Definition PANIC : list Z := [10] ++ codes "Kernel panic (pid %i): %s" ++ [10].

Definition panic (cur : option Z) (msg va : list Z) (s : machine) : res machine :=
  let pid := default 0 cur in
  let* (_, m) := Kernel.vsprintf str msg va (k_mem s) in
  let* (_, m, c) := kprintf kprintf_buf PANIC [pid; str] m (k_con s) in
  Ok (Machine 1 m c).

(** ** drivers/except.c: [msg] are the pointers to the names *)
Definition msg_names : list (list Z) := codes <$>
  ["divide by zero"; "debug"; "NMI"; "breakpoint"; "overflow"; "bound range exceeded"; "invalid opcode";
   "device unavailable"; "double fault"; "coprocessor segment overrun"; "invalid tss"; "stack segment fault";
   "general protection fault"; "page fault"; "res"; "x87 float"; "alignment check"; "machine check";
   "SIMD float"; "virtualization"; "security"]%string.

Definition except_err (msg : list Z) (cur : option Z) (num err eip : Z) (s : machine) : res machine :=
  let num := if num =? 30 then 21 else num in
  let* p := deref (aget msg num) in
  panic cur (codes "int %d %s (0x%x) at 0x%x" ++ [10]) [num; p; err; eip] s.

Definition except (msg : list Z) (cur : option Z) (num eip : Z) (s : machine) : res machine :=
  let* p := deref (aget msg num) in
  panic cur (codes "int %d %s at 0x%x" ++ [10]) [num; p; eip] s.

(** ** mm/pagefault.c: [err] is the address of the array *)
Definition fault_letters (error : Z) : list Z :=
  [if has error 0x4 then ch "U" else ch "S"; ch "-"; if has error 0x2 then ch "W" else ch "R"; ch "-";
   if has error 0x1 then ch "P" else ch "N"; 0].

Definition pagefault_handler (err : Z) (cur : option Z) (addr error eip : Z) (s : machine) : res machine :=
  let* m := store_list (k_mem s) err (fault_letters error) in
  let* (_, m, c) := kprintf kprintf_buf (codes "Page fault at %p (0x%x: %s) eip: %p" ++ [10])
                      [addr; error; err; eip] m (k_con s) in
  panic cur (codes "Page fault" ++ [10]) [] (Machine (sched_halted s) m c).

(** ** drivers/gpf.c *)
Definition GPF_EXT : Z := 0x00000001.
Definition GPF_IDT : Z := Z.shiftl 0x1 1.
Definition GPF_LDT : Z := Z.shiftl 0x2 1.
Definition GPF_IDX : Z := 0x0000FFF8.

(** The characters of the string at [p]. *)
Fixpoint chars_at (fuel : nat) (p : Z) (m : mem) : res (list Z) :=
  match fuel with
  | O => Fuel
  | S fuel =>
      let* c := ld m p in
      if c =? 0 then Ok [] else let* cs := chars_at fuel (p + 1) m in Ok (c :: cs)
  end.

(** The addresses of [errstr] and of the literals: the start, the two tables, [" (external)"] and
    the newline.  [None]: it returned. *)
Definition gpf_handler (fuel : nat) (errstr l_gpf l_ldt l_gdt l_ext l_nl : Z) (cur : option Z) (err eip : Z)
    (s : machine) : res (bool * machine) :=
  let m := k_mem s in
  if negb (err =? 0) then
    let* (_, m) := strcpy fuel errstr l_gpf m in
    if negb (has err GPF_LDT) && has err GPF_IDT then
      let* (_, m, c) := kprintf kprintf_buf (codes "Unhandled interrupt (%u)" ++ [10])
                          [Z.shiftr (Z.land err GPF_IDX) 3] m (k_con s) in
      Ok (true, Machine (sched_halted s) m c)
    else
      let* (_, m) := strcat fuel errstr (if has err GPF_LDT then l_ldt else l_gdt) m in
      let* (_, m) := (if has err GPF_EXT then strcat fuel errstr l_ext m else Ok (errstr, m)) in
      let* (_, m) := strcat fuel errstr l_nl m in
      let* fmt := chars_at fuel errstr m in
      let* s := panic cur fmt [Z.shiftr (Z.land err GPF_IDX) 3; Z.shiftr (Z.land err GPF_IDX) 3]
                  (Machine (sched_halted s) m (k_con s)) in
      Ok (false, s)
  else
    let* s := panic cur (codes "General protection fault at 0x%p") [eip] s in Ok (false, s).
End faults.

(** ** kprintf *)
Abbreviation ascii := (Forall (λ c, 0 ≤ c < 128)).
Abbreviation text := (Forall (λ c, 0 < c < 128)).

Lemma text_ascii cs : text cs → ascii cs.
Proof. intros H. eapply Forall_impl; [|exact H]. simpl. lia. Qed.

Lemma stored_cstr m a cs : text cs → (∀ i c, aget (cs ++ [0]) i = Some c → m !! (a + i) = Some (u8 c)) → cstr m a cs.
Proof.
  intros H. revert a. induction H as [|x cs Hx _ IH]; intros a Hi.
  { specialize (Hi 0 0 eq_refl). by rewrite Z.add_0_r in Hi. }
  cbn [cstr]. split; [|split; [lia|]].
  - specialize (Hi 0 x eq_refl). rewrite Z.add_0_r, uint_small in Hi by (simpl; lia). done.
  - apply IH. intros i c Hc. rewrite <- Z.add_assoc. apply Hi. pose proof (aget_range _ _ _ Hc).
    unfold aget in *. rewrite (proj2 (Z.ltb_ge i 0)) in Hc by lia. rewrite (proj2 (Z.ltb_ge (1 + i) 0)) by lia.
    by replace (Z.to_nat (1 + i)) with (S (Z.to_nat i)) by lia.
Qed.

Lemma kprintf_loop_chars p m cs c : cstr m p cs → text cs → kprintf_loop (length cs) p m c = kput_chars cs c.
Proof.
  intros Hs H. revert p c Hs. induction H as [|x cs Hx _ IH]; intros p c Hs.
  { cbn [cstr] in Hs. cbn. unfold ld. by rewrite Hs. }
  destruct (cstr_ld _ _ _ Hs) as (El & _ & _ & Hs'). cbn [length kprintf_loop kput_chars]. rewrite El. cbn [rbind].
  rewrite (proj2 (Z.eqb_neq x 0)), sint_small by (simpl; lia).
  destruct (kputchar x c) as [[z c1]| | |]; cbn [rbind]; [by apply IH|done..].
Qed.

(** What is printed must not be read from the buffer itself. *)
Lemma kprintf_shows buf ps args out rest m c : console_ok c → Forall piece_ok ps →
  prints (apart_str m buf 4096) ps args out rest → text out → len out < 4096 →
  alloc m buf 4096 →
  ∃ m' c', kprintf buf (show ps) args m c = Ok (len out, m', c') ∧ same_outside m m' buf 4096 ∧ showed c out c'.
Proof.
  intros Hc Hok Hp Ht Hl Ha. unfold kprintf, memset.
  destruct (memset_zero (Z.to_nat 4096) buf m) as (m1 & -> & H1 & Hz); [by rewrite Z2Nat.id|].
  rewrite Z2Nat.id in H1, Hz by done. cbn [rbind].
  destruct (vsprintf_prints ps args out rest m1 buf Hok) as (m2 & -> & H2 & Hs2).
  { eapply prints_mono; [|exact Hp]. intros p cs [Hcs Hd]. split; [|lia]. by eapply cstr_apart. }
  { intros i Hi. rewrite Hz by lia. by eexists. }
  cbn [rbind]. rewrite Nat2Z.id, (kprintf_loop_chars buf m2 out) by (done || by apply stored_cstr).
  destruct (kput_chars_spec out c Hc (text_ascii _ Ht)) as (c' & -> & Hc' & Hb & Hf & Hs). cbn [rbind].
  exists m2, c'. split; [done|]. split; [|by split_and!].
  eapply same_outside_trans; [exact H1|exact H2|lia..].
Qed.

Lemma lits_print Str cs ps args out rest : prints Str ps args out rest →
  prints Str ((Lit <$> cs) ++ ps) args (cs ++ out) rest.
Proof. intros H. induction cs as [|c cs IH]; [done|]. by apply prints_lit. Qed.

Lemma lits_ok cs : Forall (λ c, c ≠ ch "%") cs → Forall piece_ok (Lit <$> cs).
Proof. intros H. apply list.Forall_fmap. exact H. Qed.

(** [%i] or [%d], [%s] and [%x]. *)
Definition int_conv (c : Z) : piece := Conv (Dir [] None None None c).

Lemma int_prints Str ps c n args out rest : c = ch "d" ∨ c = ch "i" → 0 ≤ n < 2 ^ 31 →
  prints Str ps args out rest → prints Str (int_conv c :: ps) (n :: args) (decimal n ++ out) rest.
Proof.
  intros Hc Hn H. eapply prints_conv; try done. unfold conv_text.
  assert (E : ((c =? ch "d") || (c =? ch "i")) = true) by (by destruct Hc as [->| ->]). cbn [dr_conv]. rewrite E.
  cbn -[num_text s32 decimal]. rewrite sint_small by lia. split; [lia|]. symmetry. by apply num_text_decimal.
Qed.

Lemma str_prints (Str : Z → list Z → Prop) ps p cs args out rest : p ≠ 0 → Str p cs →
  prints Str ps args out rest → prints Str (int_conv (ch "s") :: ps) (p :: args) (cs ++ out) rest.
Proof.
  intros Hp Hc H. eapply prints_conv; try done. unfold conv_text. cbn -[Z.eqb str_text].
  rewrite (proj2 (Z.eqb_neq p 0)) by done. exists cs. split; [done|].
  unfold str_text, in_field. cbn [Z.ltb Z.compare]. by rewrite replicate_le by lia.
Qed.

(** Small hexadecimal digits, without leading zeros. *)
Definition hex (n : Z) : list Z := dig digs_small <$> base_digits 35 16 n.

Lemma hex_prints Str ps n args out rest : 0 ≤ n < 2 ^ 32 →
  prints Str ps args out rest → prints Str (int_conv (ch "x") :: ps) (n :: args) (hex n ++ out) rest.
Proof.
  intros Hn H. eapply prints_conv; try done. unfold conv_text. cbn -[num_text s32 hex].
  change (Z.lor (settle 0) FL_SMALL) with FL_SMALL. split; [lia|].
  unfold num_text, num_sign. change (has FL_SMALL FL_SIGN) with false. cbn [andb].
  change (if has FL_SMALL FL_PLUS then ch "+" else if has FL_SMALL FL_SPACE then ch " " else 0) with 0.
  cbn [Z.eqb]. rewrite uint_sint, uint_small by lia.
  change (num_prefix 16 FL_SMALL) with ([] : list Z). change (has FL_SMALL FL_SMALL) with true. cbv iota.
  assert (H0 : (0 < length (base_digits 35 16 n))%nat).
  { apply (base_digits_nonempty 34). }
  unfold numeral. fold (hex n). assert (Hh : length (hex n) = length (base_digits 35 16 n)) by apply length_fmap.
  rewrite <- Hh in H0. revert H0. generalize (hex n) as ds. intros ds H0. unfold num_layout.
  change (has FL_SMALL FL_LEFT_JUSTIFY) with false. change (has FL_SMALL FL_ZEROPAD) with false. cbv iota.
  rewrite !replicate_le by (cbn [length]; lia). done.
Qed.

(** ** A panic *)
Lemma decimal_text n : 0 ≤ n → text (decimal n).
Proof.
  intros Hn. unfold decimal. apply list.Forall_fmap.
  eapply Forall_impl; [|apply (base_digits_range 35 10 n); lia]. intros v Hv. cbv beta in Hv.
  change (0 < 48 + v < 128). lia.
Qed.

Lemma decimal_length n : len (decimal n) ≤ 35.
Proof.
  unfold decimal. rewrite length_fmap. assert (H : ∀ k n, (length (base_digits k 10 n) ≤ k)%nat).
  { induction k as [|k IH]; intros x; cbn [base_digits]; [done|]. destruct (x <? 10); [simpl; lia|].
    rewrite length_app. specialize (IH (x / 10)). cbn [length]. lia. }
  specialize (H 35%nat n). lia.
Qed.

Section handlers.
Context (kprintf_buf str : Z).
Hypothesis apart : str + 1024 ≤ kprintf_buf ∨ kprintf_buf + 4096 ≤ str.
Hypothesis str_pos : 0 < str.

(** Both static arrays. *)
Definition buffers_there (m : mem) : Prop := alloc m str 1024 ∧ alloc m kprintf_buf 4096.

Definition panic_text (pid : Z) (out : list Z) : list Z :=
  [10] ++ codes "Kernel panic (pid " ++ decimal pid ++ codes "): " ++ out ++ [10].

Definition panic_pieces : list piece :=
  (Lit <$> [10] ++ codes "Kernel panic (pid ") ++ int_conv (ch "i") :: (Lit <$> codes "): ") ++
  [int_conv (ch "s"); Lit 10].

Lemma panic_shows cur ps args out rest h m c : console_ok c → Forall piece_ok ps →
  prints (apart_str m str 1024) ps args out rest → text out → len out < 1000 → 0 ≤ default 0 cur < 2 ^ 31 → buffers_there m →
  ∃ m' c', panic kprintf_buf str cur (show ps) args (Machine h m c) = Ok (Machine 1 m' c') ∧
    showed c (panic_text (default 0 cur) out) c'.
Proof using apart str_pos.
  intros Hc Hok Hp Ht Hl Hpid [Ha Hb]. unfold panic. cbn [k_mem k_con].
  destruct (vsprintf_prints ps args out rest m str Hok) as (m1 & -> & H1 & Hs).
  { eapply prints_mono; [|exact Hp]. intros p cs [Hcs Hd]. split; [done|]. lia. }
  { intros i Hi. apply Ha. lia. }
  cbn [rbind]. pose proof (stored_cstr m1 str out Ht Hs) as Hstr.
  set (t := panic_text (default 0 cur) out).
  assert (Htt : text t).
  { unfold t, panic_text. repeat apply Forall_app_2; try done; try (by apply decimal_text; lia); by repeat constructor. }
  destruct (kprintf_shows kprintf_buf panic_pieces [default 0 cur; str] t [] m1 c Hc) as (m2 & c' & E & _ & Hsh).
  - apply (bool_decide_unpack _). vm_compute. exact I.
  - unfold t, panic_text, panic_pieces. rewrite app_assoc. apply lits_print.
    apply int_prints; [by right|lia|]. apply lits_print. apply str_prints; [lia| |apply prints_lit, prints_nil].
    split; [exact Hstr|lia].
  - exact Htt.
  - unfold t, panic_text. rewrite !length_app. pose proof (decimal_length (default 0 cur)).
    change (length (codes "Kernel panic (pid ")) with 18%nat. change (length (codes "): ")) with 3%nat.
    cbn [length]. lia.
  - intros i Hi. rewrite H1 by lia. by apply Hb.
  - change PANIC with (show panic_pieces). cbn [default from_option] in E. rewrite E. cbn [rbind]. by exists m2, c'.
Qed.

(** ** Exceptions *)
Lemma hex_text n : 0 ≤ n → text (hex n) ∧ len (hex n) ≤ 35.
Proof.
  intros Hn. split.
  - unfold hex. apply list.Forall_fmap.
    eapply Forall_impl; [|apply (base_digits_range 35 16 n); lia]. intros v Hv. cbv beta in Hv.
    range_check (λ v, (0 <? dig digs_small v) && (dig digs_small v <? 128)) 0 16 v as H.
    apply andb_true_iff in H as [H1 H2]. simpl. lia.
  - unfold hex. rewrite length_fmap. assert (H : ∀ k n, (length (base_digits k 16 n) ≤ k)%nat).
    { induction k as [|k IH]; intros x; cbn [base_digits]; [done|]. destruct (x <? 16); [simpl; lia|].
      rewrite length_app. specialize (IH (x / 16)). cbn [length]. lia. }
    specialize (H 35%nat n). lia.
Qed.

Lemma msg_text num nm : aget msg_names num = Some nm → text nm ∧ len nm ≤ 30.
Proof.
  assert (H : Forall (λ nm : list Z, text nm ∧ len nm ≤ 30) msg_names)
    by (apply (bool_decide_unpack _); vm_compute; exact I).
  rewrite list.Forall_forall in H. intros Hi. apply H. unfold aget in Hi. destruct (num <? 0); [done|].
  by eapply list_elem_of_lookup_2.
Qed.

(** The line of an exception; [err] with an error code. *)
Definition except_text (num : Z) (nm : list Z) (err : option Z) (eip : Z) : list Z :=
  codes "int " ++ decimal num ++ codes " " ++ nm ++
  match err with Some e => codes " (0x" ++ hex e ++ codes ")" | None => [] end ++
  codes " at 0x" ++ hex eip ++ [10].

Definition except_pieces (code : list piece) : list piece :=
  (Lit <$> codes "int ") ++ int_conv (ch "d") :: (Lit <$> codes " ") ++ int_conv (ch "s") ::
  code ++ (Lit <$> codes " at 0x") ++ [int_conv (ch "x"); Lit 10].

Lemma except_text_ok num nm err eip : aget msg_names num = Some nm → 0 ≤ num → from_option (λ e, 0 ≤ e) True err →
  0 ≤ eip → text (except_text num nm err eip) ∧ len (except_text num nm err eip) < 1000.
Proof.
  intros Hnm Hn He Hi. destruct (msg_text num nm Hnm) as [H1 H2]. destruct (hex_text eip Hi) as [H3 H4].
  pose proof (decimal_text num Hn) as H5. pose proof (decimal_length num) as H6.
  assert (Hx : let x := match err with Some e => codes " (0x" ++ hex e ++ codes ")" | None => [] end in
    text x ∧ len x ≤ 40).
  { destruct err as [e|]; [|split; [constructor|simpl; lia]]. destruct (hex_text e He) as [H7 H8]. split.
    - repeat apply Forall_app_2; try done; by repeat constructor.
    - rewrite !length_app. change (length (codes " (0x")) with 4%nat. change (length (codes ")")) with 1%nat. lia. }
  destruct Hx as [Hx1 Hx2]. unfold except_text. split.
  - repeat apply Forall_app_2; try done; by repeat constructor.
  - rewrite (length_app (codes "int ")), (length_app (decimal num)), (length_app (codes " ") (nm ++ _)), (length_app nm),
      (length_app (match err with _ => _ end)), (length_app (codes " at 0x")), (length_app (hex eip)).
    change (length (codes "int ")) with 4%nat. change (length (codes " ")) with 1%nat.
    change (length (codes " at 0x")) with 6%nat. cbn [length]. lia.
Qed.

(** The names are in memory, and none is in [str]. *)
Definition messages_in (m : mem) (msg : list Z) : Prop :=
  len msg = 21 ∧ ∀ i nm, aget msg_names i = Some nm →
    ∃ p, aget msg i = Some p ∧ p ≠ 0 ∧ apart_str m str 1024 p nm.

(** C27: the handler calls [except] and [except_err] for an exception that has a name: the
    machine stops with the scheduler halted, and the screen shows the number of the task, the
    number and the name of the exception, the error code and the address that they are called
    with.  The exceptions 21 to 29, for which there is no name, and 30, the security exception,
    which the code looks up at 21, read behind the table.  (Which exceptions get here is up to
    [isr.s], which is not modelled: it has other handlers for 13 and 14, and calls [except_err] for
    6, which has no error code, so that the address is taken for one.) *)
Theorem exceptions_reported msg cur num nm err eip h m c
    (Hc : console_ok c) (Hm : messages_in m msg) (Hb : buffers_there m)
    (Hpid : 0 ≤ default 0 cur < 2 ^ 31) (Hnm : aget msg_names num = Some nm)
    (Herr : 0 ≤ err < 2 ^ 32) (Heip : 0 ≤ eip < 2 ^ 32) :
  (∃ m' c', except kprintf_buf str msg cur num eip (Machine h m c) = Ok (Machine 1 m' c') ∧
     showed c (panic_text (default 0 cur) (except_text num nm None eip)) c') ∧
  (∃ m' c', except_err kprintf_buf str msg cur num err eip (Machine h m c) = Ok (Machine 1 m' c') ∧
     showed c (panic_text (default 0 cur) (except_text num nm (Some err) eip)) c') ∧
  (∀ x, 21 ≤ x → except kprintf_buf str msg cur x eip (Machine h m c) = Fault ∧
     except_err kprintf_buf str msg cur x err eip (Machine h m c) = Fault).
Proof using apart str_pos.
  destruct Hm as [Hlen Hm]. destruct (Hm _ _ Hnm) as (p & Hp & Hp0 & Hcs). pose proof (aget_range _ _ _ Hnm) as Hr.
  change (len msg_names) with 21 in Hr.
  split; [|split].
  - destruct (except_text_ok num nm None eip Hnm) as [H1 H2]; [lia|done|lia|].
    unfold except. rewrite Hp. cbn [deref rbind].
    change (codes "int %d %s at 0x%x" ++ [10]) with (show (except_pieces [])).
    apply (panic_shows cur (except_pieces []) _ _ []); try done.
    + apply (bool_decide_unpack _). vm_compute. exact I.
    + unfold except_text. rewrite app_nil_l. apply lits_print, int_prints; [by left|lia|].
      apply lits_print, str_prints; [done..|]. apply lits_print, hex_prints; [done|]. apply prints_lit, prints_nil.
  - destruct (except_text_ok num nm (Some err) eip Hnm) as [H1 H2]; [lia|simpl; lia|lia|].
    unfold except_err. rewrite (proj2 (Z.eqb_neq num 30)) by lia. rewrite Hp. cbn [deref rbind].
    set (code := (Lit <$> codes " (0x") ++ int_conv (ch "x") :: (Lit <$> codes ")")).
    change (codes "int %d %s (0x%x) at 0x%x" ++ [10]) with (show (except_pieces code)).
    apply (panic_shows cur (except_pieces code) _ _ []); try done.
    + apply (bool_decide_unpack _). vm_compute. exact I.
    + unfold except_text. apply lits_print, int_prints; [by left|lia|]. apply lits_print, str_prints; [done..|].
      unfold code. rewrite <- !app_assoc. apply lits_print, hex_prints; [done|]. apply lits_print, lits_print, hex_prints; [done|].
      apply prints_lit, prints_nil.
  - assert (Hout : ∀ x, 21 ≤ x → aget msg x = None).
    { intros x Hx. unfold aget. rewrite (proj2 (Z.ltb_ge x 0)) by lia. apply lookup_ge_None_2. lia. }
    intros x Hx. unfold except, except_err. rewrite Hout by done. split; [done|].
    destruct (x =? 30); by rewrite Hout by lia.
Qed.
End handlers.

(** ** Examples *)

(** The names at 1000, 32 bytes each. *)
Definition msg_memory : mem :=
  list_to_map (zip (seqZ 1000 672) (msg_names ≫= λ nm, nm ++ replicate (32 - length nm) 0)).
Definition msg_ptrs : list Z := (λ i, 1000 + 32 * i) <$> seqZ 0 21.
Definition zero_bytes (a n : Z) : mem := list_to_map (zip (seqZ a n) (replicate (Z.to_nat n) 0)).

Lemma zero_bytes_alloc m1 m2 a n : alloc (m1 ∪ (zero_bytes a n ∪ m2)) a n.
Proof.
  intros i Hi. apply (elem_of_dom (D := gset Z)). rewrite !dom_union_L. unfold zero_bytes.
  rewrite dom_list_to_map_L, fst_zip by (rewrite length_seqZ, length_replicate; done). set_unfold. lia.
Qed.

Lemma cstr_mono m m' a cs : m ⊆ m' → cstr m a cs → cstr m' a cs.
Proof.
  intros Hm. revert a. induction cs as [|c cs IH]; intros a; simpl.
  - intros H. by eapply lookup_weaken.
  - intros (H1 & H2 & H3). split; [by eapply lookup_weaken|]. split; [done|]. by apply IH.
Qed.

Definition kernel_memory : mem := msg_memory ∪ (zero_bytes 10000 1024 ∪ (zero_bytes 20000 4096 ∪ ∅)).

Lemma exceptions_reported_witness :
  let c := Console 0 15 (blank_screen 0 0) in
  let s := Machine 0 kernel_memory c in
  ∃ m' c', except 20000 10000 msg_ptrs (Some 7) 6 0x08048000 s = Ok (Machine 1 m' c') ∧
    showed c (panic_text 7 (except_text 6 (codes "invalid opcode") None 0x08048000)) c'.
Proof.
  destruct (exceptions_reported 20000 10000 ltac:(lia) ltac:(lia) msg_ptrs (Some 7) 6 (codes "invalid opcode") 0 0x08048000
    0 kernel_memory (Console 0 15 (blank_screen 0 0))) as [H _].
  - split; [simpl; lia|]. split; [simpl; lia|]. apply blank_screen_ok; lia.
  - assert (Ht : Forall2 (λ nm p, p ≠ 0 ∧ cstr msg_memory p nm) msg_names msg_ptrs) by each_name msg_names msg_ptrs.
    assert (Hle : Forall (λ p, p < 2000) msg_ptrs) by (apply (bool_decide_unpack _); vm_compute; exact I).
    split; [reflexivity|]. intros i nm Hi. destruct (msg_text i nm Hi) as [_ Hn]. unfold aget in *.
    destruct (i <? 0); [done|]. destruct (Forall2_lookup_l _ _ _ _ _ Ht Hi) as (p & Hp & Hp0 & Hq).
    exists p. split; [exact Hp|]. split; [exact Hp0|]. pose proof (Forall_lookup_1 _ _ _ _ Hle Hp) as Hp2. cbv beta in Hp2.
    split; [|left; lia]. eapply cstr_mono; [|exact Hq]. apply map_union_subseteq_l.
  - split; [apply zero_bytes_alloc|]. unfold kernel_memory. rewrite (assoc_L (∪) msg_memory). apply zero_bytes_alloc.
  - simpl. lia.
  - reflexivity.
  - lia.
  - lia.
  - exact H.
Defined.

(** The text of that panic. *)
Example opcode_text : panic_text 7 (except_text 6 (codes "invalid opcode") None 0x08048000) =
  [10] ++ codes "Kernel panic (pid 7): int 6 invalid opcode at 0x8048000" ++ [10; 10].
Proof. vm_compute. reflexivity. Qed.

(** A general protection fault with a selector: [strcat] stores no terminator, so the second
    one looks for the end behind the table's name, in what the array held before and on
    behind the array. *)
Definition gpf_memory : mem :=
  list_to_map (zip (seqZ 100 35) (replicate 35 0xAA)) ∪
  list_to_map (zip (seqZ 200 25) (codes "GPF: index %u (0x%x) in " ++ [0])) ∪
  list_to_map (zip (seqZ 240 4) (codes "GDT" ++ [0])) ∪ list_to_map (zip (seqZ 250 2) [10; 0]).

Example gpf_unterminated :
  gpf_handler 20000 10000 100 100 200 230 240 245 250 None 0x10 0 (Machine 0 gpf_memory (Console 0 15 (blank_screen 0 0)))
  = Fault ∧
  (let* (_, m) := strcpy 100 100 200 gpf_memory in let* (_, m) := strcat 100 100 240 m in
   Ok ((λ a, default 0 (m !! a)) <$> seqZ 124 4)) = Ok (codes "GDT" ++ [0xAA]).
Proof. split; vm_compute; reflexivity. Qed.
